(* ===== verification/_CoqProject ===== *)
-Q . S2P
Prelude.v
Text.v
PhysMem.v
Pmm.v
Vmm.v
Demo.v
CString.v
Ata.v
BlockDev.v
BlockCache.v
Heap.v
Fat.v
FatLogic.v
FatTable.v
FatFile.v
FatMount.v
FatNames.v
Ramfs.v
Vfs.v
Fdtab.v
Process.v
Sched.v
System.v
Keyboard.v
Terminal.v
Format.v
Clock.v
Packet.v
Pci.v
Net.v
NetSafe.v
NetProps.v
Fs.v
Syscall.v
SyscallProps.v
Handles.v
Loader.v
LoaderProps.v
Editor.v
EditorProps.v
Shell.v
ShellProps.v
Cpu.v
Installer.v
InstallerProps.v
Commands.v
Interrupts.v
CommandProps.v
UserLib.v
UserProps.v
AobTool.v
Boot.v
Fat12.v
Fat12Props.v
Fat12Files.v
Fat12Names.v
