(* ===== verification/Prelude.v ===== *)
(** * The AO-OS kernel: a verification library

    AO-OS is a small 64-bit x86 kernel: physical and virtual memory, a heap, an
    ATA disk with a block cache, a FAT and a RAM file system behind a mount
    table, processes under a round-robin scheduler, system calls, loaders for
    two executable formats, a PS/2 keyboard, a text terminal, a network stack
    over an NE2000 card, a shell with its commands, a text editor and an
    installer; beside it there are a library for user programs and a tool that
    packs them.  This library models the C code of these parts and proves what
    makes them correct.

    ** How the code is modelled

    Machine integers are [Z], with the wrap-around of the C type written out
    ([u8], [u16], [u32], [u64], [i32], and [+32], [+64] for sums at that
    width).  Arrays are lists with [l.[i]] and [l.[i <- x]] (a total read, an
    update that ignores an index out of range).  Where a theorem says that
    accesses stay in bounds they are checked: the string library, the network
    stack and the shell return an [option], the FAT drivers an outcome that may
    be [Undefined], and the terminal keeps a flag that an access out of range
    clears.  Physical memory is
    a function from addresses to bytes (PhysMem.v), since page tables, heap
    headers and process pages alias in it.  A function with effects takes and
    returns the state of its component, through a small monad where calls
    chain; [None] is undefined behaviour or a wait that does not end.  Code
    outside the repository is a parameter: the devices are the classes
    [PortIO] and [IrqFlag] (Ata.v), [Port32] (Pci.v), [NetEnv] (Net.v) and
    [BlockDev] (BlockDev.v); [hlt] and [intr] stand for what interrupts do while the code
    waits.  Messages to the kernel log are left out, except in the model of
    klog itself, those of start-up and those of the two fatal screens.

    Loops of bounded length run on their own bound ([for_range], [for_each],
    [iterZ]).  The other bounds, and why they suffice: the page test of
    vmm_user_range_ok has one round per page of the address space; the heap
    walks have one per block; FAT chains have one per cluster of the volume,
    which the code counts too; [user_loop] has one per page and two more
    ([user_loop_copies]); the carry loop of the checksum has two
    ([checksum_correct]); sends and pings have the numbers of polls that the
    code fixes.  Loops that wait for a device or a key have a [fuel]
    parameter, and the theorems about them assume the event or hold for every
    fuel.

    ** Files, in order

    - Prelude.v: integers, arrays, loops, little-endian access, tactics, hints.
      Text.v: string literals as lists of characters.
    - PhysMem.v: physical memory.
    - Pmm.v (kernel/memory/pmm.c): the page bitmap.  A page is never handed out
      twice, allocation takes the lowest free page, low memory and the kernel
      image stay reserved.
    - Vmm.v (kernel/memory/vmm.c): four-level tables in memory.  Mapping,
      unmapping, new address spaces, and the two checks of user pointers, which
      are proved equivalent to their specifications.  Demo.v: a small address
      space for the examples.
    - CString.v (kernel/lib/string.c).
    - Ata.v, BlockDev.v, BlockCache.v (kernel/drivers/storage): the register
      protocol of a sector transfer with interrupts disabled, the interface of
      a disk, and the LRU cache as a transparent refinement of it.
    - Heap.v (kernel/memory/memory.c): kmalloc and kfree over the block list in
      memory; live blocks never overlap.
    - Fat.v, FatLogic.v, FatTable.v, FatFile.v, FatMount.v, FatNames.v
      (kernel/fs/fat.c): the operations, the program logic used for them, and
      their properties: the FAT as a table, files along their chains, mounting,
      8.3 names and the current directory.
    - Ramfs.v, Vfs.v, Fs.v (kernel/fs): the RAM file system as a finite map,
      the mount table as a finite map with longest-prefix resolution, and the
      layer that ties them together with /proc and /dev.
    - Fdtab.v, Process.v, Sched.v, System.v (kernel/process/process.c,
      kernel/drivers/time/timer.c, the handle table of kernel/syscall.c):
      Process.v has the operations; Sched.v what each does to the process
      table; System.v the interleavings as a step relation whose reachable
      states satisfy the scheduler's invariant, and fairness.
    - Keyboard.v, Terminal.v, Clock.v (kernel/drivers/input, display, serial,
      time; kernel/klog.c): the ring buffer as a bounded queue, the screen as a
      view of the history with every access in bounds, the real-time clock.
    - Format.v, Packet.v, Pci.v, Net.v, NetSafe.v, NetProps.v
      (kernel/drivers/pci, kernel/net/net.c): text, checksums, the bus scan,
      the NE2000 driver and the protocols; NetSafe.v proves that no packet
      makes the code leave its buffers, NetProps.v what the driver and the
      protocols deliver.
    - Syscall.v, SyscallProps.v, Handles.v (kernel/syscall.c): the dispatcher
      over the whole machine, confinement of its stores to the caller's pages,
      isolation and well-formedness of file handles, and the file system of
      Fs.v as an instance of the interface [FileReader] the dispatcher uses.
    - Loader.v, LoaderProps.v (kernel/exec/elf.c, kernel/aob/aob.c): the
      checks on executables and the memory image that loading produces.
    - Editor.v, EditorProps.v (kernel/editor/editor.c): the editor as a
      document with a cursor at its end, over the interface [FileStore], and
      the echo of its keys on the terminal above the status bar.
    - Shell.v, ShellProps.v (kernel/shell.c): the line editor as a console with
      the lines entered so far, and the dispatch of a command line.
    - Cpu.v (kernel/cpu.c), Commands.v, CommandProps.v
      (kernel/shell/commands.c, version.c, system/system.c): every command as
      what it prints and what it changes; a line typed at the prompt changes
      the map from names to files as the command says.
    - Installer.v, InstallerProps.v (kernel/installer/installer.c): the disk it
      formats is mounted by the model of the FAT driver, empty, and the files
      it writes are read back.
    - Interrupts.v (kernel/idt.c, gdt.c, exception.c, panic.c): the tables of
      the processor, the interrupt controllers, and the reports of faults on
      the screen and on the serial line, read back by their labels.
    - UserLib.v, UserProps.v (include/ao.h, examples/file.c): the library of
      user programs over the system calls of Syscall.v; arguments reach the
      program, and what the example prints.
    - AobTool.v (tools/aobcompile.c): what the tool writes the loader takes.
    - Boot.v (kernel/kernel.c): start-up as the composition of all of the
      above, the FAT driver over the cache over the ATA driver included.  It
      ends at the prompt of the shell, in a state that satisfies the invariants
      the theorems on the components assume, or runs the installer first when
      the boot loader asks for it.
    - Fat12.v, Fat12Props.v, Fat12Files.v, Fat12Names.v (kernel/fs/fat12.c):
      the former FAT12 driver, kept in the sources and no longer linked.  Its
      table agrees with the one of Fat.v; every operation returns, with its
      stores and block copies checked; what it stores of a file and reads of a
      long name.

    ** What the theorems do not say

    The theorems on system calls leave out WAITPID and SLEEP, which run other
    processes; those are in System.v.  The laws of [FileReader] are discharged
    for a system whose mounts do not lead to a FAT volume.  That the pages of a
    segment are mapped when [map_range] returns 0 is a hypothesis of
    [elf_segment_loaded]; Vmm.v proves it for one page.  [fat12_total] assumes
    what the driver does not check: a disk without I/O errors, buffers and
    paths that are long enough, clusters that are not empty.  Some theorems
    record flaws of the code: they are named in the list of findings.

    ** Not modelled

    The boot sectors and the entry points of interrupts are assembly; their
    addresses are parameters.  The instructions that load a table or a
    register without an effect on memory (lgdt, lidt, ltr, invlpg) are left
    out, as are sti and cli outside the disk driver and ao_delay, a loop of
    nop.  The host test tools/tests/fat_host_test.c is a client of the FAT
    driver outside the kernel. *)
From Stdlib Require Export ZArith Lia.
From stdpp Require Export base tactics numbers list option sets.

#[global] Open Scope Z_scope.
#[global] Set Default Goal Selector "!".

(** ** Machine integers

    A C integer of width [w] is a [Z]; every place where the source can wrap
    applies one of these truncations. *)
Definition u8 (x : Z) : Z := x mod 256.
Definition u16 (x : Z) : Z := x mod 65536.
Definition u32 (x : Z) : Z := x mod 4294967296.
Definition u64 (x : Z) : Z := x mod 18446744073709551616.

(** Conversion to a signed 32-bit [int]. *)
Definition i32 (x : Z) : Z := (x + 2147483648) mod 4294967296 - 2147483648.

(** C's [!x], [x && y] on truth values. *)
Definition cbool (b : bool) : Z := if b then 1 else 0.

Declare Scope aos_scope.
Delimit Scope aos_scope with aos.
Notation "a +32 b" := (u32 (a + b)) (at level 50, left associativity) : aos_scope.
Notation "a -32 b" := (u32 (a - b)) (at level 50, left associativity) : aos_scope.
Notation "a *32 b" := (u32 (a * b)) (at level 40, left associativity) : aos_scope.
Notation "a +64 b" := (u64 (a + b)) (at level 50, left associativity) : aos_scope.
Notation "a -64 b" := (u64 (a - b)) (at level 50, left associativity) : aos_scope.
#[global] Open Scope aos_scope.

Ltac unfold_ints := unfold u8, u16, u32, u64, i32 in *.

(** Linear arithmetic with the quotients and remainders named. *)
Ltac zdm := Z.to_euclidean_division_equations; lia.
Ltac ulia := unfold_ints; zdm.

Create HintDb cint discriminated.
Create Rewrite HintDb clen.

Lemma u8_range x : 0 ≤ u8 x < 256.
Proof. unfold u8. apply Z.mod_pos_bound. lia. Qed.
Lemma u16_range x : 0 ≤ u16 x < 65536.
Proof. unfold u16. apply Z.mod_pos_bound. lia. Qed.
Lemma u32_range x : 0 ≤ u32 x < 4294967296.
Proof. unfold u32. apply Z.mod_pos_bound. lia. Qed.
Lemma u64_range x : 0 ≤ u64 x < 18446744073709551616.
Proof. unfold u64. apply Z.mod_pos_bound. lia. Qed.
Lemma u8_small x : 0 ≤ x < 256 → u8 x = x.
Proof. unfold u8. apply Z.mod_small. Qed.
Lemma u16_small x : 0 ≤ x < 65536 → u16 x = x.
Proof. unfold u16. apply Z.mod_small. Qed.
Lemma u32_small x : 0 ≤ x < 4294967296 → u32 x = x.
Proof. unfold u32. apply Z.mod_small. Qed.
Lemma u64_small x : 0 ≤ x < 18446744073709551616 → u64 x = x.
Proof. unfold u64. apply Z.mod_small. Qed.
#[export] Hint Resolve u8_range u16_range u32_range u64_range : cint.

(** ** Arrays

    A C array of a fixed length is a list; an index is a [Z].  Reading out of
    range gives the inhabitant and writing out of range changes nothing, so
    every theorem that relies on an access carries the bound. *)
Definition aget {A} `{Inhabited A} (l : list A) (i : Z) : A :=
  if decide (0 ≤ i) then l !!! Z.to_nat i else inhabitant.
Definition aset {A} (l : list A) (i : Z) (x : A) : list A :=
  if decide (0 ≤ i) then <[Z.to_nat i := x]> l else l.
Definition zlen {A} (l : list A) : Z := Z.of_nat (length l).

Notation "l .[ i ]" := (aget l i) (at level 1, left associativity, format "l .[ i ]") : aos_scope.
Notation "l .[ i <- x ]" := (aset l i x) (at level 1, left associativity, format "l .[ i  <-  x ]") : aos_scope.

Section Arrays.
Context {A : Type} `{Inhabited A}.
Implicit Types l : list A.

Lemma length_aset l i x : length (aset l i x) = length l.
Proof. unfold aset. case_decide; [apply length_insert | done]. Qed.
Lemma zlen_aset l i x : zlen (aset l i x) = zlen l.
Proof. unfold zlen. by rewrite length_aset. Qed.
Lemma zlen_nonneg l : 0 ≤ zlen l.
Proof. unfold zlen. lia. Qed.
Lemma zlen_cons x l : zlen (x :: l) = zlen l + 1.
Proof. unfold zlen. cbn [length]. lia. Qed.
Lemma zlen_app l1 l2 : zlen (l1 ++ l2) = zlen l1 + zlen l2.
Proof. unfold zlen. rewrite length_app. lia. Qed.
Lemma zlen_take l n : zlen (take n l) = Z.min (Z.of_nat n) (zlen l).
Proof. unfold zlen. rewrite length_take. lia. Qed.
Lemma zlen_drop l n : zlen (drop n l) = Z.max 0 (zlen l - Z.of_nat n).
Proof. unfold zlen. rewrite length_drop. lia. Qed.
Lemma zlen_replicate n (x : A) : zlen (replicate n x) = Z.of_nat n.
Proof. unfold zlen. by rewrite length_replicate. Qed.

Lemma zlen_fmap {B} (f : A → B) l : zlen (f <$> l) = zlen l.
Proof. unfold zlen. by rewrite length_fmap. Qed.

Lemma aget_lookup l i x : 0 ≤ i → l !! Z.to_nat i = Some x → l.[i] = x.
Proof.
  intros Hi Hl. unfold aget. rewrite decide_True by done.
  by apply list_lookup_total_correct.
Qed.
Lemma lookup_aget l i : 0 ≤ i < zlen l → l !! Z.to_nat i = Some l.[i].
Proof.
  unfold zlen, aget. intros Hi. rewrite decide_True by lia.
  apply list_lookup_lookup_total_lt. lia.
Qed.
Lemma aget_nat l (n : nat) : l.[Z.of_nat n] = l !!! n.
Proof. unfold aget. rewrite decide_True by lia. by rewrite Nat2Z.id. Qed.
Lemma aget_aset_eq l i x : 0 ≤ i < zlen l → (l.[i <- x]).[i] = x.
Proof.
  unfold zlen, aget, aset. intros Hi. rewrite !decide_True by lia.
  apply list_lookup_total_insert_eq. lia.
Qed.
Lemma aget_aset_ne l i j x : i ≠ j → (l.[i <- x]).[j] = l.[j].
Proof.
  unfold aget, aset. intros Hne. repeat case_decide; try done.
  apply list_lookup_total_insert_ne. lia.
Qed.
Lemma aget_app_l l1 l2 i : 0 ≤ i < zlen l1 → (l1 ++ l2).[i] = l1.[i].
Proof.
  unfold zlen, aget. intros Hi. rewrite !decide_True by lia.
  rewrite lookup_total_app_l; [done | lia].
Qed.
Lemma aget_app_r l1 l2 i : zlen l1 ≤ i → (l1 ++ l2).[i] = l2.[i - zlen l1].
Proof.
  unfold zlen, aget. intros Hi. rewrite !decide_True by lia.
  rewrite lookup_total_app_r by lia. f_equal. lia.
Qed.
Lemma aget_cons_0 x l : (x :: l).[0] = x.
Proof. done. Qed.
Lemma aget_cons_pos x l i : 0 < i → (x :: l).[i] = l.[i - 1].
Proof.
  unfold aget. intros Hi. rewrite !decide_True by lia.
  replace (Z.to_nat i) with (S (Z.to_nat (i - 1))) by lia. done.
Qed.
Lemma aget_drop l n i : 0 ≤ i → (drop n l).[i] = l.[Z.of_nat n + i].
Proof.
  unfold aget. intros Hi. rewrite !decide_True by lia.
  rewrite lookup_total_drop. f_equal. lia.
Qed.
Lemma aget_replicate n (x : A) i : 0 ≤ i < Z.of_nat n → (replicate n x).[i] = x.
Proof.
  intros Hi. apply aget_lookup; [lia |]. apply lookup_replicate_2. lia.
Qed.
Lemma aget_take l n i : 0 ≤ i < Z.of_nat n → (take n l).[i] = l.[i].
Proof.
  unfold aget. intros Hi. rewrite !decide_True by lia.
  rewrite lookup_total_take_lt; [done | lia].
Qed.
Lemma aget_oob l i : ¬ (0 ≤ i < zlen l) → l.[i] = inhabitant.
Proof.
  unfold aget, zlen. intros Hi. case_decide; [| done].
  rewrite list_lookup_total_alt, lookup_ge_None_2; [done | lia].
Qed.
(** Arrays with the same length and the same cells are equal. *)
Lemma array_ext l1 l2 :
  zlen l1 = zlen l2 → (∀ i, 0 ≤ i < zlen l1 → l1.[i] = l2.[i]) → l1 = l2.
Proof.
  unfold zlen. intros Hlen Heq. apply list_eq_same_length with (n := length l1); [lia | done |].
  intros i x y Hi Hx Hy. specialize (Heq (Z.of_nat i) ltac:(lia)).
  rewrite !aget_nat in Heq. apply list_lookup_total_correct in Hx, Hy. congruence.
Qed.
Lemma Forall_aset (P : A → Prop) l i x : Forall P l → P x → Forall P (l.[i <- x]).
Proof. intros Hl Hx. unfold aset. case_decide; [by apply Forall_insert | done]. Qed.
Lemma Forall_aget (P : A → Prop) l i : Forall P l → 0 ≤ i < zlen l → P l.[i].
Proof. intros Hl Hi. by eapply Forall_lookup_1; [| apply lookup_aget]. Qed.
(** The part of an array below a store that extends it, and below one past it. *)
Lemma take_aset l n x : 0 ≤ n < zlen l → take (Z.to_nat (n + 1)) (l.[n <- x]) = take (Z.to_nat n) l ++ [x].
Proof.
  intros Hn. unfold aset, zlen in *. rewrite decide_True by lia. replace (Z.to_nat (n + 1)) with (S (Z.to_nat n)) by lia.
  rewrite (take_S_r _ _ x) by (apply list_lookup_insert_eq; lia). by rewrite take_insert_ge by lia.
Qed.
Lemma take_aset_out l n x : 0 ≤ n → take (Z.to_nat n) (l.[n <- x]) = take (Z.to_nat n) l.
Proof. intros Hn. unfold aset. rewrite decide_True by lia. by rewrite take_insert_ge by lia. Qed.
End Arrays.
#[export] Hint Rewrite @zlen_aset @length_aset : clen.
#[export] Hint Resolve zlen_nonneg : cint.

(** Membership in explicit lists. *)
Ltac lmem :=
  repeat match goal with
  | H : _ ∉ _ :: _ |- _ => apply not_elem_of_cons in H as [? ?]
  | |- _ ∉ _ :: _ => apply not_elem_of_cons; split
  | |- _ ∉ [] => apply not_elem_of_nil
  | |- ?x ∈ ?x :: _ => apply list_elem_of_here
  end; try done; try congruence.

Ltac fall := repeat (apply Forall_cons; split); try apply Forall_nil; try done.

(** Split every cell access [(l.[i <- x]).[j]] on [i = j]. *)
Ltac aset_cases :=
  repeat match goal with
  | |- context [ (aset ?l ?i ?x) .[ ?j ] ] =>
      destruct (decide (i = j)) as [<- | ?];
      [rewrite (aget_aset_eq l i x) | rewrite (aget_aset_ne l i j x) by done]
  end.

(** ** Loops

    A C loop is a step function that either continues with a new state
    ([inl]) or leaves the loop with a result ([inr]: a [return] or the end of
    a [while]).  The bound is binary, so that a loop over a million pages
    still evaluates when it stops early. *)
Section Iteration.
Context {St R : Type}.
Implicit Types f : St → St + R.

Fixpoint iter_pos (p : positive) f (s : St) : St + R :=
  match p with
  | xH => f s
  | xO q => match iter_pos q f s with inl s' => iter_pos q f s' | inr r => inr r end
  | xI q => match f s with
            | inl s1 => match iter_pos q f s1 with inl s2 => iter_pos q f s2 | inr r => inr r end
            | inr r => inr r
            end
  end.

Fixpoint iter_nat (n : nat) f (s : St) : St + R :=
  match n with
  | O => inl s
  | S n' => match f s with inl s' => iter_nat n' f s' | inr r => inr r end
  end.

Definition iterZ (n : Z) f (s : St) : St + R :=
  match n with Zpos p => iter_pos p f s | _ => inl s end.

Lemma iter_nat_add n m f s :
  iter_nat (n + m) f s =
  match iter_nat n f s with inl s' => iter_nat m f s' | inr r => inr r end.
Proof.
  revert s. induction n as [|n IH]; intros s; [done |]. cbn.
  destruct (f s); [apply IH | done].
Qed.

Lemma iter_pos_nat p f s : iter_pos p f s = iter_nat (Pos.to_nat p) f s.
Proof.
  revert s. induction p as [p IH | p IH |]; intros s.
  - rewrite Pos2Nat.inj_xI. cbn [iter_pos iter_nat]. destruct (f s) as [s1 |]; [| done].
    replace (2 * Pos.to_nat p)%nat with (Pos.to_nat p + Pos.to_nat p)%nat by lia.
    rewrite iter_nat_add, IH. destruct (iter_nat _ _ s1); [apply IH | done].
  - rewrite Pos2Nat.inj_xO. cbn [iter_pos].
    replace (2 * Pos.to_nat p)%nat with (Pos.to_nat p + Pos.to_nat p)%nat by lia.
    rewrite iter_nat_add, IH. destruct (iter_nat _ _ s); [apply IH | done].
  - change (Pos.to_nat 1) with 1%nat. cbn [iter_pos iter_nat]. by destruct (f s).
Qed.

Lemma iterZ_nat n f s : iterZ n f s = iter_nat (Z.to_nat n) f s.
Proof. destruct n; cbn [iterZ Z.to_nat]; [done | apply iter_pos_nat | done]. Qed.

Lemma iterZ_nonpos n f s : n ≤ 0 → iterZ n f s = inl s.
Proof. destruct n; [done | lia | done]. Qed.

Lemma iterZ_step n f s :
  0 < n →
  iterZ n f s = match f s with inl s' => iterZ (n - 1) f s' | inr r => inr r end.
Proof.
  intros Hn. rewrite iterZ_nat. replace (Z.to_nat n) with (S (Z.to_nat (n - 1))) by lia.
  cbn [iter_nat]. destruct (f s); [by rewrite iterZ_nat | done].
Qed.

(** A step that strictly decreases a non-negative measure bounded by the
    fuel always leaves the loop. *)
Lemma iterZ_measure (I : St → Prop) (m : St → Z) n f s :
  I s → m s < n →
  (∀ s, I s → 0 ≤ m s) →
  (∀ s s', I s → f s = inl s' → I s' ∧ m s' < m s) →
  ∃ r, iterZ n f s = inr r.
Proof.
  intros HI Hm Hnn Hdec. pose proof (Hnn s HI) as H0.
  remember (Z.to_nat n) as k eqn:Hk. revert n s HI Hm H0 Hk.
  induction k as [|k IH]; intros n s HI Hm H0 Hk; [lia |].
  rewrite iterZ_step by lia. destruct (f s) as [s' | r] eqn:Hf; [| eauto].
  destruct (Hdec _ _ HI Hf) as [HI' Hlt].
  pose proof (Hnn s' HI'). apply (IH (n - 1)); [done | lia | lia | lia].
Qed.

(** Invariant rule: [I] holds through the loop and every exit satisfies [Q]. *)
Lemma iterZ_inv (I : St → Prop) (Q : R → Prop) n f s :
  I s →
  (∀ s s', I s → f s = inl s' → I s') →
  (∀ s r, I s → f s = inr r → Q r) →
  match iterZ n f s with inl s' => I s' | inr r => Q r end.
Proof.
  intros HI Hstep Hex. rewrite iterZ_nat. revert s HI.
  induction (Z.to_nat n) as [|k IH]; intros s HI; cbn; [done |].
  destruct (f s) eqn:Hf; [| by eapply Hex]. by apply IH; eapply Hstep.
Qed.
End Iteration.

Section ForLoop.
Context {St R : Type}.

(** [for (i = lo; i < hi; i++) body], the body possibly leaving with [inr]. *)
Definition for_step (body : Z → St → St + R) (p : Z * St) : (Z * St) + R :=
  match body p.1 p.2 with inl s' => inl (p.1 + 1, s') | inr r => inr r end.

Definition for_range (lo hi : Z) (body : Z → St → St + R) (s : St) : St + R :=
  match iterZ (hi - lo) (for_step body) (lo, s) with
  | inl p => inl p.2
  | inr r => inr r
  end.

Lemma for_range_end lo hi body s : hi ≤ lo → for_range lo hi body s = inl s.
Proof. intros. unfold for_range. by rewrite iterZ_nonpos by lia. Qed.

Lemma for_range_step lo hi body s :
  lo < hi →
  for_range lo hi body s =
  match body lo s with inl s' => for_range (lo + 1) hi body s' | inr r => inr r end.
Proof.
  intros. unfold for_range. rewrite iterZ_step by lia. unfold for_step at 1. cbn [fst snd].
  destruct (body lo s) as [s' | r]; [| done].
  by replace (hi - lo - 1) with (hi - (lo + 1)) by lia.
Qed.

Lemma for_range_ind (P : Z → St → St + R → Prop) lo hi body s :
  (∀ i s, hi ≤ i → P i s (inl s)) →
  (∀ i s r, lo ≤ i < hi → body i s = inr r → P i s (inr r)) →
  (∀ i s s' o, lo ≤ i < hi → body i s = inl s' → P (i + 1) s' o → P i s o) →
  P lo s (for_range lo hi body s).
Proof.
  intros Hend Hret Hstep.
  assert (∀ n i s, Z.to_nat (hi - i) = n → lo ≤ i → P i s (for_range i hi body s)) as H.
  { induction n as [|n IH]; intros i t Hn Hlo.
    - rewrite for_range_end by lia. apply Hend. lia.
    - rewrite for_range_step by lia. destruct (body i t) as [t' | r] eqn:E.
      + apply (Hstep i t t'); [lia | done |]. apply IH; lia.
      + apply Hret; [lia | done]. }
  by apply (H _ lo s eq_refl).
Qed.

(** The loop-invariant rule of the development. *)
Lemma for_range_inv (I : Z → St → Prop) (Q : R → Prop) lo hi body s :
  I lo s →
  (∀ i t t', lo ≤ i < hi → I i t → body i t = inl t' → I (i + 1) t') →
  (∀ i t r, lo ≤ i < hi → I i t → body i t = inr r → Q r) →
  match for_range lo hi body s with inl t => I (Z.max lo hi) t | inr r => Q r end.
Proof.
  intros HI Hstep Hret.
  assert (∀ n i t, Z.to_nat (hi - i) = n → lo ≤ i → I i t →
    match for_range i hi body t with inl t' => I (Z.max i hi) t' | inr r => Q r end) as H.
  { induction n as [|n IH]; intros i t Hn Hlo Hi.
    - rewrite for_range_end by lia. by rewrite Z.max_l by lia.
    - rewrite for_range_step by lia. destruct (body i t) as [t' | r] eqn:E.
      + replace (Z.max i hi) with (Z.max (i + 1) hi) by lia. apply IH; [lia | lia |].
        by apply (Hstep i t); [lia | |].
      + by apply (Hret i t); [lia | |]. }
  by apply (H _ lo s eq_refl).
Qed.
End ForLoop.

(** A [for] loop whose body never leaves early. *)
Definition for_each {St} (lo hi : Z) (body : Z → St → St) (s : St) : St :=
  match for_range (R := Empty_set) lo hi (λ i t, inl (body i t)) s with
  | inl t => t
  | inr e => match e with end
  end.

Section ForEach.
Context {St : Type}.
Implicit Types body : Z → St → St.

Lemma for_each_end lo hi body s : hi ≤ lo → for_each lo hi body s = s.
Proof. intros. unfold for_each. by rewrite for_range_end. Qed.
Lemma for_each_step lo hi body s :
  lo < hi → for_each lo hi body s = for_each (lo + 1) hi body (body lo s).
Proof. intros. unfold for_each at 1. by rewrite for_range_step. Qed.

Lemma for_each_inv (I : Z → St → Prop) lo hi body s :
  I lo s →
  (∀ i t, lo ≤ i < hi → I i t → I (i + 1) (body i t)) →
  I (Z.max lo hi) (for_each lo hi body s).
Proof.
  intros HI Hstep. unfold for_each.
  pose proof (for_range_inv (R := Empty_set) I (λ _, False) lo hi (λ i t, inl (body i t)) s) as H.
  destruct (for_range _ _ _ _) as [t | []].
  apply H; [done | | done]. intros i t1 t2 Hi HI1 [= <-]. by apply Hstep.
Qed.

(** Same rule when the loop index starts below the bound. *)
Lemma for_each_inv_le (I : Z → St → Prop) lo hi body s :
  lo ≤ hi → I lo s →
  (∀ i t, lo ≤ i < hi → I i t → I (i + 1) (body i t)) →
  I hi (for_each lo hi body s).
Proof.
  intros Hle HI Hstep. pose proof (for_each_inv I lo hi body s HI Hstep) as H.
  by rewrite Z.max_r in H.
Qed.
End ForEach.

Lemma for_each_ext {St} lo hi (f g : Z → St → St) s :
  (∀ i t, f i t = g i t) → for_each lo hi f s = for_each lo hi g s.
Proof.
  intros E. remember (Z.to_nat (hi - lo)) as n eqn:Hn. revert lo s Hn.
  induction n as [|n IH]; intros lo s Hn; [by rewrite !for_each_end by lia |].
  rewrite (for_each_step lo hi f s), (for_each_step lo hi g s), E by lia. apply IH. lia.
Qed.

Lemma aset_aset {A} (l : list A) i x y : (l.[i <- x]).[i <- y] = l.[i <- y].
Proof. unfold aset. case_decide; [apply list_insert_insert_eq | done]. Qed.

Lemma aset_aget_id {A} `{Inhabited A} (l : list A) i : l.[i <- l.[i]] = l.
Proof.
  unfold aset, aget. case_decide; [| done].
  destruct (decide (Z.to_nat i < length l)%nat).
  - apply list_insert_id. by apply list_lookup_lookup_total_lt.
  - by apply list_insert_ge; lia.
Qed.

(** A sweep that rewrites each slot on its own. *)
Lemma for_each_map {A} `{Inhabited A} (lo hi : Z) (f : Z → A → A) (t : list A) :
  0 ≤ lo → hi ≤ zlen t →
  let t' := for_each lo hi (λ i t, t.[i <- f i t.[i]]) t in
  zlen t' = zlen t ∧ ∀ j, 0 ≤ j < zlen t → t'.[j] = if (lo <=? j) && (j <? hi) then f j t.[j] else t.[j].
Proof.
  intros Hlo Hhi. cbn zeta.
  pose proof (for_each_inv (λ k t', zlen t' = zlen t ∧
    ∀ j, 0 ≤ j < zlen t → t'.[j] = if (lo <=? j) && (j <? k) then f j t.[j] else t.[j])
    lo hi (λ i t, t.[i <- f i t.[i]]) t) as L.
  destruct L as [L1 L2].
  - split; [done |]. intros j Hj. by replace ((lo <=? j) && (j <? lo)) with false by lia.
  - intros i t1 Hi [Hl Ht]. rewrite zlen_aset. split; [done |]. intros j Hj.
    destruct (decide (j = i)) as [-> |].
    + rewrite aget_aset_eq, Ht by lia. replace ((lo <=? i) && (i <? i)) with false by lia.
      by replace ((lo <=? i) && (i <? i + 1)) with true by lia.
    + rewrite aget_aset_ne, Ht by (lia || congruence).
      by replace (j <? i + 1) with (j <? i) by lia.
  - split; [done |]. intros j Hj. rewrite (L2 j Hj).
    destruct (decide (lo ≤ hi)); [by rewrite Z.max_r by lia |].
    rewrite Z.max_l by lia. by replace ((lo <=? j) && (j <? lo)) with ((lo <=? j) && (j <? hi)) by lia.
Qed.

(** Loops are reasoned about by the rules above and run by [vm_compute]. *)
#[global] Opaque iterZ for_range for_each.

(** ** Bits of machine words *)
Lemma testbit_u8 x k : 0 ≤ k < 8 → Z.testbit (u8 x) k = Z.testbit x k.
Proof. intros. unfold u8. apply (Z.mod_pow2_bits_low x 8 k). lia. Qed.

Lemma testbit_shiftl_one k j : 0 ≤ k → Z.testbit (Z.shiftl 1 k) j = bool_decide (j = k).
Proof.
  intros Hk. rewrite Z.shiftl_1_l. case_bool_decide as H.
  - subst. by apply Z.pow2_bits_true.
  - by apply Z.pow2_bits_false.
Qed.

Lemma land_1_odd x : Z.land x 1 = cbool (Z.odd x).
Proof.
  change 1 with (Z.ones 1). rewrite Z.land_ones by lia. change (2 ^ 1) with 2.
  rewrite Zmod_odd. by destruct (Z.odd x).
Qed.

(** [(x >> k) & 1] is bit [k] of [x]. *)
Lemma shiftr_land_1 x k : 0 ≤ k → Z.land (Z.shiftr x k) 1 = cbool (Z.testbit x k).
Proof.
  intros. rewrite land_1_odd. unfold cbool.
  rewrite <- Z.bit0_odd, Z.shiftr_spec by lia. done.
Qed.

(** A flag test [x & (1 << k)]. *)
Lemma land_pow2_nonzero x k : 0 ≤ k → (Z.land x (2 ^ k) =? 0) = negb (Z.testbit x k).
Proof.
  intros Hk. destruct (Z.testbit x k) eqn:E; cbn.
  - apply Z.eqb_neq. intros H. apply (f_equal (λ y, Z.testbit y k)) in H.
    rewrite Z.land_spec, E, Z.pow2_bits_true, Z.bits_0 in H by lia. done.
  - apply Z.eqb_eq. apply Z.bits_inj'. intros n Hn.
    rewrite Z.land_spec, Z.bits_0. destruct (decide (n = k)) as [-> | Hne].
    + by rewrite E.
    + rewrite Z.pow2_bits_false by lia. apply andb_false_r.
Qed.

Lemma testbit_u64 x k : 0 ≤ k < 64 → Z.testbit (u64 x) k = Z.testbit x k.
Proof. intros. unfold u64. apply (Z.mod_pow2_bits_low x 64 k). lia. Qed.

(** A word below [2^n] has no bit at or above [n]. *)
Lemma testbit_high x n k : 0 ≤ x < 2 ^ n → 0 ≤ n ≤ k → Z.testbit x k = false.
Proof.
  intros Hx Hn. rewrite <- (Z.mod_small x (2 ^ n)) by done.
  apply Z.mod_pow2_bits_high. lia.
Qed.

(** [|] of bit-disjoint words is their sum. *)
Lemma lor_disjoint_add x y k :
  0 ≤ k → 0 ≤ x < 2 ^ k → Z.lor x (y * 2 ^ k) = x + y * 2 ^ k.
Proof.
  intros Hk Hx. assert (Z.land x (y * 2 ^ k) = 0) as H0.
  { apply Z.bits_inj'. intros n Hn. rewrite Z.land_spec, Z.bits_0, <- Z.shiftl_mul_pow2 by done.
    destruct (Z.ltb_spec n k) as [Hlt | Hge].
    - rewrite Z.shiftl_spec_low, andb_false_r; [done | lia].
    - rewrite (testbit_high x k n); [done | done | lia]. }
  by rewrite Z.add_nocarry_lxor, Z.lxor_lor.
Qed.

(** ** Little-endian words in byte-addressed stores *)
Fixpoint le_read (n : nat) (m : Z → Z) (a : Z) : Z :=
  match n with
  | O => 0
  | S n' => m a + 256 * le_read n' m (a + 1)
  end.

Fixpoint le_bytes (n : nat) (v : Z) : list Z :=
  match n with
  | O => []
  | S n' => u8 v :: le_bytes n' (v / 256)
  end.

Definition is_byte (x : Z) : Prop := 0 ≤ x < 256.

Lemma is_byte_u8 x : is_byte (u8 x).
Proof. apply u8_range. Qed.
#[export] Hint Resolve is_byte_u8 : cint.

Lemma length_le_bytes n v : length (le_bytes n v) = n.
Proof. revert v. induction n as [|n IH]; intros v; cbn; [done | by rewrite IH]. Qed.
#[export] Hint Rewrite length_le_bytes : clen.

Lemma le_bytes_is_byte n v : Forall is_byte (le_bytes n v).
Proof. revert v. induction n as [|n IH]; intros v; cbn; constructor; auto with cint. Qed.

Lemma le_read_ext n m m' a :
  (∀ x, a ≤ x < a + Z.of_nat n → m x = m' x) → le_read n m a = le_read n m' a.
Proof.
  revert a. induction n as [|n IH]; intros a H; cbn [le_read]; [done |].
  rewrite H by lia. f_equal. f_equal. apply IH. intros x Hx. apply H. lia.
Qed.

Lemma le_read_shift n m m' a a' :
  (∀ i, 0 ≤ i < Z.of_nat n → m (a + i) = m' (a' + i)) → le_read n m a = le_read n m' a'.
Proof.
  revert a a'. induction n as [|n IH]; intros a a' H; cbn [le_read]; [done |].
  pose proof (H 0 ltac:(lia)) as H0. rewrite !Z.add_0_r in H0. rewrite H0. f_equal. f_equal.
  apply IH. intros i Hi. specialize (H (i + 1) ltac:(lia)).
  by replace (a + 1 + i) with (a + (i + 1)) by lia; replace (a' + 1 + i) with (a' + (i + 1)) by lia.
Qed.

Lemma le_read_range n m a :
  (∀ x, a ≤ x < a + Z.of_nat n → is_byte (m x)) → 0 ≤ le_read n m a < 256 ^ Z.of_nat n.
Proof.
  revert a. induction n as [|n IH]; intros a H; cbn [le_read]; [done |].
  pose proof (H a ltac:(lia)) as Ha. unfold is_byte in Ha.
  specialize (IH (a + 1) ltac:(intros; apply H; lia)).
  replace (Z.of_nat (S n)) with (Z.succ (Z.of_nat n)) by lia.
  rewrite Z.pow_succ_r by lia. lia.
Qed.

(** Reading back the bytes of [v]. *)
Lemma le_read_bytes n m a v :
  (∀ i, 0 ≤ i < Z.of_nat n → m (a + i) = (le_bytes n v).[i]) →
  le_read n m a = v mod 256 ^ Z.of_nat n.
Proof.
  revert a v. induction n as [|n IH]; intros a v H; cbn [le_read].
  { change (256 ^ Z.of_nat 0) with 1. by rewrite Z.mod_1_r. }
  pose proof (H 0 ltac:(lia)) as H0. rewrite Z.add_0_r in H0. cbn [le_bytes] in *.
  rewrite H0, (IH _ (v / 256)).
  - replace (Z.of_nat (S n)) with (Z.succ (Z.of_nat n)) by lia.
    rewrite Z.pow_succ_r by lia. rewrite aget_cons_0. unfold u8.
    rewrite Z.rem_mul_r by (try lia; apply Z.pow_nonzero; lia). lia.
  - intros i Hi. replace (a + 1 + i) with (a + (i + 1)) by lia.
    rewrite H by lia. rewrite aget_cons_pos by lia. f_equal. lia.
Qed.

(** Overwrite [bs] into an array from index [pos] on ([memcpy(buf + pos, bs, n)]). *)
Fixpoint ablit (buf : list Z) (pos : Z) (bs : list Z) : list Z :=
  match bs with
  | [] => buf
  | b :: bs' => ablit (buf.[pos <- b]) (pos + 1) bs'
  end.

Lemma length_ablit buf pos bs : length (ablit buf pos bs) = length buf.
Proof.
  revert buf pos. induction bs as [|b bs IH]; intros buf pos; cbn; [done |].
  by rewrite IH, length_aset.
Qed.
Lemma zlen_ablit buf pos bs : zlen (ablit buf pos bs) = zlen buf.
Proof. unfold zlen. by rewrite length_ablit. Qed.
#[export] Hint Rewrite length_ablit zlen_ablit : clen.

Lemma aget_ablit_out buf pos bs i :
  i < pos ∨ pos + zlen bs ≤ i → (ablit buf pos bs).[i] = buf.[i].
Proof.
  revert buf pos. induction bs as [|b bs IH]; intros buf pos Hi; cbn; [done |].
  rewrite zlen_cons in Hi. pose proof (zlen_nonneg bs).
  rewrite IH by lia. apply aget_aset_ne. lia.
Qed.

Lemma aget_ablit_in buf pos bs i :
  0 ≤ pos → pos + zlen bs ≤ zlen buf → pos ≤ i < pos + zlen bs →
  (ablit buf pos bs).[i] = bs.[i - pos].
Proof.
  revert buf pos. induction bs as [|b bs IH]; intros buf pos Hp Hl Hi; cbn.
  { unfold zlen in Hi. cbn in Hi. lia. }
  rewrite zlen_cons in Hl, Hi. destruct (decide (i = pos)) as [-> | Hne].
  - rewrite aget_ablit_out by lia. rewrite aget_aset_eq by (pose proof (zlen_nonneg bs); lia).
    by rewrite Z.sub_diag.
  - rewrite IH; [| lia | rewrite zlen_aset; lia | lia].
    rewrite (aget_cons_pos b) by lia. f_equal. lia.
Qed.

Lemma Forall_ablit (P : Z → Prop) buf pos bs : Forall P buf → Forall P bs → Forall P (ablit buf pos bs).
Proof.
  intros Hb Hbs. revert buf pos Hb. induction Hbs as [|b bs Hb1 _ IH]; intros buf pos Hb; cbn; [done |].
  apply IH. by apply Forall_aset.
Qed.

Lemma le_read_ablit_same n buf pos v :
  0 ≤ pos → pos + Z.of_nat n ≤ zlen buf →
  le_read n (aget (ablit buf pos (le_bytes n v))) pos = v mod 256 ^ Z.of_nat n.
Proof.
  intros Hp Hl. apply le_read_bytes. intros i Hi.
  assert (zlen (le_bytes n v) = Z.of_nat n) as Hz by (unfold zlen; by rewrite length_le_bytes).
  rewrite aget_ablit_in by lia. f_equal. lia.
Qed.

Lemma le_read_ablit_other n buf pos bs a :
  a + Z.of_nat n ≤ pos ∨ pos + zlen bs ≤ a →
  le_read n (aget (ablit buf pos bs)) a = le_read n (aget buf) a.
Proof. intros H. apply le_read_ext. intros x Hx. apply aget_ablit_out. lia. Qed.
(** A monadic step by rewriting, which keeps the rest of the term as it is. *)
Lemma some_bind {A B} (x : A) (f : A → option B) : Some x ≫= f = f x.
Proof. reflexivity. Qed.
Lemma le_read_app n (a b : list Z) v : le_read n (aget (a ++ le_bytes n v ++ b)) (zlen a) = v mod 256 ^ Z.of_nat n.
Proof.
  apply le_read_bytes. intros i Hi. assert (zlen (le_bytes n v) = Z.of_nat n) as Hl by (unfold zlen; by rewrite length_le_bytes).
  rewrite aget_app_r by lia. replace (zlen a + i - zlen a) with i by lia. by rewrite aget_app_l by lia.
Qed.

(** ** Counting *)
Definition countb {A} (f : A → bool) (l : list A) : Z := zlen (filter (λ x, f x = true) l).

Section Count.
Context {A : Type}.
Implicit Types f g : A → bool.

Lemma countb_nonneg f l : 0 ≤ countb f l.
Proof. apply zlen_nonneg. Qed.
Lemma countb_nil f : countb f [] = 0.
Proof. done. Qed.
Lemma countb_cons f x l : countb f (x :: l) = cbool (f x) + countb f l.
Proof.
  unfold countb. rewrite filter_cons. destruct (f x) eqn:E; cbn [cbool].
  - rewrite decide_True by done. rewrite zlen_cons. lia.
  - rewrite decide_False by done. lia.
Qed.
Lemma countb_ext f g l : (∀ x, x ∈ l → f x = g x) → countb f l = countb g l.
Proof.
  induction l as [|x l IH]; intros H; [done |]. rewrite !countb_cons.
  rewrite (H x) by set_solver. rewrite IH; [done |]. intros; apply H; set_solver.
Qed.
(** Switching one element on adds one to the count. *)
Lemma countb_switch f g l x :
  NoDup l → x ∈ l → f x = false → g x = true → (∀ y, y ≠ x → f y = g y) →
  countb g l = countb f l + 1.
Proof.
  intros Hnd Hin Hf Hg Heq. induction Hnd as [|y l Hy Hnd IH]; [set_solver |].
  rewrite !countb_cons. apply elem_of_cons in Hin as [-> | Hin].
  - rewrite Hf, Hg, (countb_ext f g l). { cbn. lia. }
    intros z Hz. apply Heq. intros ->. done.
  - rewrite IH by done. rewrite (Heq y) by (intros ->; done). lia.
Qed.
Lemma countb_le f l : countb f l ≤ zlen l.
Proof. unfold countb, zlen. apply Nat2Z.inj_le. apply length_filter. Qed.
Lemma countb_pos f l x : x ∈ l → f x = true → 0 < countb f l.
Proof.
  intros Hin Hf. induction l as [|y l IH]; [set_solver |].
  rewrite countb_cons. pose proof (countb_nonneg f l).
  apply elem_of_cons in Hin as [-> | Hin]; [rewrite Hf; cbn; lia |].
  specialize (IH Hin). destruct (f y); cbn; lia.
Qed.
End Count.

(** Counting after one cell is replaced. *)
Lemma countb_insert {A} (f : A → bool) l k (x y : A) :
  l !! k = Some y → countb f (<[k := x]> l) = countb f l - cbool (f y) + cbool (f x).
Proof.
  revert k. induction l as [| h l IH]; intros [| k] E; try done.
  - cbn in E. injection E as ->. cbn [insert list_insert]. rewrite !countb_cons. lia.
  - change (<[Datatypes.S k := x]> (h :: l)) with (h :: <[k := x]> l). rewrite !countb_cons, (IH k E). lia.
Qed.
Lemma countb_aset {A} `{Inhabited A} (f : A → bool) l i x :
  0 ≤ i < zlen l → countb f (l.[i <- x]) = countb f l - cbool (f l.[i]) + cbool (f x).
Proof.
  intros Hi. pose proof (lookup_aget l i Hi) as E. unfold aset. rewrite decide_True by lia.
  by apply countb_insert.
Qed.

Lemma countb_seqZ_le (f : Z → bool) a n : 0 ≤ n → countb f (seqZ a n) ≤ n.
Proof.
  intros Hn. etransitivity; [apply countb_le |]. unfold zlen. rewrite length_seqZ. lia.
Qed.
