(* ===== verification/Text.v ===== *)
(** * Text

    The string literals of the source as lists of characters, without their
    NUL; [line s] is a literal that ends in a newline. *)
From S2P Require Import Prelude.
From Stdlib Require Import Ascii String.
Import String.StringSyntax.

Fixpoint txt (s : string) : list Z :=
  match s with
  | EmptyString => []
  | String c s => Z.of_nat (nat_of_ascii c) :: txt s
  end.
Arguments txt _%_string_scope.
Definition line (s : string) : list Z := txt s ++ [10].
Arguments line _%_string_scope.
Export String.StringSyntax.
