(* ===== verification/PhysMem.v ===== *)
(** * Physical memory

    The kernel runs identity-mapped, so [phys_to_virt] (kernel/memory/vmm.c)
    is a cast and page tables, user frames and boot data live in one flat
    byte-addressed store.  Words are little-endian.  [pmemset] and [pmemcpy]
    are [memset] and [memcpy] of kernel/lib/string.c on that store. *)
From S2P Require Import Prelude.

Definition pmem := Z → Z.

(** One byte store. *)
Definition mupd (m : pmem) (a v : Z) : pmem := λ x, if x =? a then u8 v else m x.

(** Typed accesses through a pointer. *)
Definition rd16 (m : pmem) (a : Z) : Z := le_read 2 m a.
Definition rd32 (m : pmem) (a : Z) : Z := le_read 4 m a.
Definition rd64 (m : pmem) (a : Z) : Z := le_read 8 m a.
Definition wr64 (m : pmem) (a v : Z) : pmem :=
  λ x, if (a <=? x) && (x <? a + 8) then (le_bytes 8 v).[x - a] else m x.

Definition wr32 (m : pmem) (a v : Z) : pmem :=
  λ x, if (a <=? x) && (x <? a + 4) then (le_bytes 4 v).[x - a] else m x.

Definition pmemset (m : pmem) (p v n : Z) : pmem := for_each 0 n (λ i m, mupd m (p + i) v) m.
Definition pmemcpy (m : pmem) (d s n : Z) : pmem := for_each 0 n (λ i m, mupd m (d + i) (m (s + i))) m.

(** [memcpy] from a kernel object (a buffer that is not in the store). *)
Definition pmemcpy_from (m : pmem) (d : Z) (src : list Z) : pmem :=
  λ x, if (d <=? x) && (x <? d + zlen src) then src.[x - d] else m x.

(** Every cell holds a byte. *)
Definition pmem_ok (m : pmem) : Prop := ∀ x, is_byte (m x).

Section Laws.
Implicit Types m : pmem.

Lemma rd64_range m a : pmem_ok m → 0 ≤ rd64 m a < 18446744073709551616.
Proof. intros Hm. apply (le_read_range 8). auto. Qed.

Lemma rd64_wr64_same m a v : rd64 (wr64 m a v) a = u64 v.
Proof.
  unfold rd64. rewrite (le_read_bytes 8 _ a v); [done |].
  intros i Hi. unfold wr64. rewrite (proj2 (Z.leb_le _ _)), (proj2 (Z.ltb_lt _ _)) by lia.
  cbn [andb]. f_equal. lia.
Qed.

Lemma rd64_wr64_other m a b v : a + 8 ≤ b ∨ b + 8 ≤ a → rd64 (wr64 m a v) b = rd64 m b.
Proof.
  intros H. apply le_read_ext. intros x Hx. unfold wr64.
  destruct (Z.leb_spec a x), (Z.ltb_spec x (a + 8)); cbn; try done. lia.
Qed.

Lemma wr64_out m a v x : x < a ∨ a + 8 ≤ x → wr64 m a v x = m x.
Proof.
  intros H. unfold wr64. destruct (Z.leb_spec a x), (Z.ltb_spec x (a + 8)); cbn; try done. lia.
Qed.

Lemma wr64_ok m a v : pmem_ok m → pmem_ok (wr64 m a v).
Proof.
  intros Hm x. unfold wr64. destruct (Z.leb_spec a x), (Z.ltb_spec x (a + 8)); cbn [andb]; auto.
  apply Forall_aget; [apply le_bytes_is_byte |]. unfold zlen. rewrite length_le_bytes. lia.
Qed.

Lemma rd32_wr32_same m a v : rd32 (wr32 m a v) a = u32 v.
Proof.
  unfold rd32. rewrite (le_read_bytes 4 _ a v); [done |].
  intros i Hi. unfold wr32. rewrite (proj2 (Z.leb_le _ _)), (proj2 (Z.ltb_lt _ _)) by lia.
  cbn [andb]. f_equal. lia.
Qed.

Lemma wr32_out m a v x : x < a ∨ a + 4 ≤ x → wr32 m a v x = m x.
Proof.
  intros H. unfold wr32. destruct (Z.leb_spec a x), (Z.ltb_spec x (a + 4)); cbn; try done. lia.
Qed.

Lemma wr32_ok m a v : pmem_ok m → pmem_ok (wr32 m a v).
Proof.
  intros Hm x. unfold wr32. destruct (Z.leb_spec a x), (Z.ltb_spec x (a + 4)); cbn [andb]; auto.
  apply Forall_aget; [apply le_bytes_is_byte |]. unfold zlen. rewrite length_le_bytes. lia.
Qed.

(** Words of different widths that do not overlap. *)
Lemma rd64_wr32_other m a b v : a + 4 ≤ b ∨ b + 8 ≤ a → rd64 (wr32 m a v) b = rd64 m b.
Proof. intros H. apply le_read_ext. intros x Hx. apply wr32_out. lia. Qed.
Lemma rd32_wr32_other m a b v : a + 4 ≤ b ∨ b + 4 ≤ a → rd32 (wr32 m a v) b = rd32 m b.
Proof. intros H. apply le_read_ext. intros x Hx. apply wr32_out. lia. Qed.
Lemma rd32_wr64_other m a b v : a + 8 ≤ b ∨ b + 4 ≤ a → rd32 (wr64 m a v) b = rd32 m b.
Proof. intros H. apply le_read_ext. intros x Hx. apply wr64_out. lia. Qed.

Lemma pmemset_spec m p v n x :
  pmemset m p v n x = if (p <=? x) && (x <? p + n) then u8 v else m x.
Proof.
  unfold pmemset. destruct (Z.leb_spec 0 n) as [Hn | Hn].
  - apply (for_each_inv_le (λ i t, t x = if (p <=? x) && (x <? p + i) then u8 v else m x)); [done | |].
    + destruct (Z.leb_spec p x), (Z.ltb_spec x (p + 0)); cbn; try done. lia.
    + intros i t Hi Ht. unfold mupd. rewrite Ht.
      destruct (Z.eqb_spec x (p + i)), (Z.leb_spec p x), (Z.ltb_spec x (p + i)),
        (Z.ltb_spec x (p + (i + 1))); cbn; try done; lia.
  - rewrite for_each_end by lia.
    destruct (Z.leb_spec p x), (Z.ltb_spec x (p + n)); cbn; try done. lia.
Qed.

Lemma pmemset_ok m p v n : pmem_ok m → pmem_ok (pmemset m p v n).
Proof. intros Hm x. rewrite pmemset_spec. case_match; auto with cint. Qed.

(** The forward byte copy of [memcpy], on ranges that do not overlap. *)
Lemma pmemcpy_spec m d s n x :
  pmem_ok m → 0 ≤ n → d + n ≤ s ∨ s + n ≤ d →
  pmemcpy m d s n x = if (d <=? x) && (x <? d + n) then m (s + (x - d)) else m x.
Proof.
  intros Hm Hn Hdis. unfold pmemcpy.
  apply (for_each_inv_le (λ i (t : pmem), ∀ y,
    t y = if (d <=? y) && (y <? d + i) then m (s + (y - d)) else m y)); [done | |].
  - intros y. destruct (Z.leb_spec d y), (Z.ltb_spec y (d + 0)); cbn; try done. lia.
  - intros i t Hi Ht y. unfold mupd. rewrite !Ht.
    destruct (Z.eqb_spec y (d + i)) as [-> | Hne].
    + destruct (Z.leb_spec d (s + i)), (Z.ltb_spec (s + i) (d + i)); cbn; try lia;
        destruct (Z.leb_spec d (d + i)), (Z.ltb_spec (d + i) (d + (i + 1))); cbn; try lia;
        rewrite u8_small by apply Hm; f_equal; lia.
    + destruct (Z.leb_spec d y), (Z.ltb_spec y (d + i)), (Z.ltb_spec y (d + (i + 1))); cbn; try done; lia.
Qed.

Lemma pmemcpy_ok m d s n : pmem_ok m → pmem_ok (pmemcpy m d s n).
Proof.
  intros Hm. unfold pmemcpy.
  apply (for_each_inv (λ _ t, pmem_ok t)); [done |].
  intros i t _ Ht x. unfold mupd. case_match; auto with cint.
Qed.

Lemma pmemcpy_from_ok m d src : pmem_ok m → Forall is_byte src → pmem_ok (pmemcpy_from m d src).
Proof.
  intros Hm Hs x. unfold pmemcpy_from.
  destruct (Z.leb_spec d x), (Z.ltb_spec x (d + zlen src)); cbn [andb]; auto.
  apply Forall_aget; [done | lia].
Qed.

(** A word read outside the written range is unchanged. *)
Lemma rd64_pmemset_other m p v n b : p + n ≤ b ∨ b + 8 ≤ p → rd64 (pmemset m p v n) b = rd64 m b.
Proof.
  intros H. apply le_read_ext. intros x Hx. rewrite pmemset_spec.
  destruct (Z.leb_spec p x), (Z.ltb_spec x (p + n)); cbn; try done. lia.
Qed.
Lemma rd64_pmemset_zero m p n b : p ≤ b → b + 8 ≤ p + n → rd64 (pmemset m p 0 n) b = 0.
Proof.
  intros Hp Hb. unfold rd64. rewrite (le_read_ext 8 _ (λ _, 0)); [done |].
  intros x Hx. rewrite pmemset_spec.
  destruct (Z.leb_spec p x), (Z.ltb_spec x (p + n)); cbn; try done; lia.
Qed.
Lemma rd64_pmemcpy_in m d s n b :
  pmem_ok m → 0 ≤ n → d + n ≤ s ∨ s + n ≤ d → d ≤ b → b + 8 ≤ d + n →
  rd64 (pmemcpy m d s n) b = rd64 m (s + (b - d)).
Proof.
  intros Hm Hn Hdis Hd Hb. apply le_read_shift. intros i Hi. rewrite pmemcpy_spec by done.
  destruct (Z.leb_spec d (b + i)), (Z.ltb_spec (b + i) (d + n)); cbn; try lia. f_equal. lia.
Qed.
Lemma rd64_pmemcpy_other m d s n b :
  pmem_ok m → 0 ≤ n → d + n ≤ s ∨ s + n ≤ d → d + n ≤ b ∨ b + 8 ≤ d →
  rd64 (pmemcpy m d s n) b = rd64 m b.
Proof.
  intros Hm Hn Hdis Hb. apply le_read_ext. intros x Hx. rewrite pmemcpy_spec by done.
  destruct (Z.leb_spec d x), (Z.ltb_spec x (d + n)); cbn; try done; lia.
Qed.
End Laws.
#[export] Hint Resolve wr64_ok wr32_ok pmemset_ok pmemcpy_ok pmemcpy_from_ok : cint.
