(* ===== verification/Pmm.v ===== *)
(** * Physical page allocator (kernel/memory/pmm.c, include/pmm.h)

    One bit per 4 KiB page, set when the page is in use.  The bitmap is the
    byte array [page_bitmap]; [used] is the abstraction the theorems speak
    about.  The two linker symbols are section variables. *)
From stdpp Require Import relations.
From S2P Require Import Prelude.
From S2P Require Import PhysMem.

Module Pmm.

Definition PAGE_SIZE : Z := 4096.
Definition MAX_MEMORY : Z := 4 * 1024 * 1024 * 1024.
Definition MAX_PAGES : Z := 1048576.
Definition BITMAP_SIZE : Z := 131072.
Definition E820_MAP_ADDR : Z := 0x6000.
Definition E820_USABLE : Z := 1.

Record e820_entry_t := E820 { e_base : Z; e_length : Z; e_type : Z; e_acpi_ext : Z }.

(** The static variables of pmm.c. *)
Record pmm_state := Pmm {
  page_bitmap : Z → Z;
  total_pages : Z;
  free_pages : Z;
  total_memory_bytes : Z
}.

Definition set_bitmap (st : pmm_state) (b : Z → Z) : pmm_state :=
  Pmm b (total_pages st) (free_pages st) (total_memory_bytes st).
Definition set_free_pages (st : pmm_state) (n : Z) : pmm_state :=
  Pmm (page_bitmap st) (total_pages st) n (total_memory_bytes st).
Definition set_totals (st : pmm_state) (pages bytes : Z) : pmm_state :=
  Pmm (page_bitmap st) pages (free_pages st) bytes.

(** [page_bitmap[i] = v] for a [uint8_t] cell. *)
Definition bm_store (b : Z → Z) (i v : Z) : Z → Z := λ j, if j =? i then u8 v else b j.

Definition bitmap_set (st : pmm_state) (page : Z) : pmm_state :=
  let b := page_bitmap st in
  set_bitmap st (bm_store b (page / 8) (Z.lor (b (page / 8)) (Z.shiftl 1 (page mod 8)))).

Definition bitmap_clear (st : pmm_state) (page : Z) : pmm_state :=
  let b := page_bitmap st in
  set_bitmap st (bm_store b (page / 8) (Z.land (b (page / 8)) (Z.lnot (Z.shiftl 1 (page mod 8))))).

Definition bitmap_test (st : pmm_state) (page : Z) : Z :=
  Z.land (Z.shiftr (page_bitmap st (page / 8)) (page mod 8)) 1.

Definition mark_region_used (st : pmm_state) (base length : Z) : pmm_state :=
  let start_page := base / PAGE_SIZE in
  let end_page := u64 (base + length + PAGE_SIZE - 1) / PAGE_SIZE in
  let end_page := if MAX_PAGES <? end_page then MAX_PAGES else end_page in
  for_each start_page end_page (λ p st,
    if bitmap_test st p =? 0 then
      let st := bitmap_set st p in
      if 0 <? free_pages st then set_free_pages st (free_pages st - 1) else st
    else st) st.

Definition mark_region_free (st : pmm_state) (base length : Z) : pmm_state :=
  let start_page := base / PAGE_SIZE in
  let end_page := u64 (base + length) / PAGE_SIZE in
  let end_page := if MAX_PAGES <? end_page then MAX_PAGES else end_page in
  for_each start_page end_page (λ p st,
    if bitmap_test st p =? 0 then st
    else let st := bitmap_clear st p in set_free_pages st (u64 (free_pages st + 1))) st.

(** The boot loader leaves a 16-bit count and packed 24-byte entries at
    [E820_MAP_ADDR]. *)
Definition pmm_get_e820_count (m : pmem) : Z := rd16 m E820_MAP_ADDR.
Definition pmm_get_e820_entries (m : pmem) (i : Z) : e820_entry_t :=
  let p := E820_MAP_ADDR + 4 + 24 * i in
  E820 (rd64 m p) (rd64 m (p + 8)) (rd32 m (p + 16)) (rd32 m (p + 20)).

(** One iteration of the E820 loop of [pmm_init]. *)
Definition e820_process (e : e820_entry_t) (st : pmm_state) : pmm_state :=
  let base := e_base e in
  let length := e_length e in
  let e_end := u64 (base + length) in
  let st := if total_memory_bytes st <? e_end then set_totals st (total_pages st) e_end else st in
  if e_type e =? E820_USABLE then
    if base <? MAX_MEMORY then
      let length := if MAX_MEMORY <? e_end then u64 (MAX_MEMORY - base) else length in
      mark_region_free st base length
    else st
  else st.

Definition pmm_init (m : pmem) (kernel_start kernel_end : Z) (st0 : pmm_state) : pmm_state :=
  let e820_count := pmm_get_e820_count m in
  let st := Pmm (λ i, if (0 <=? i) && (i <? BITMAP_SIZE) then 0xFF else page_bitmap st0 i) 0 0 0 in
  let st :=
    if (e820_count =? 0) || (128 <? e820_count) then
      let bytes := 32 * 1024 * 1024 in
      mark_region_free (set_totals st (bytes / PAGE_SIZE) bytes) 0x100000 (31 * 1024 * 1024)
    else
      let st := for_each 0 e820_count (λ i st, e820_process (pmm_get_e820_entries m i) st) st in
      let tp := total_memory_bytes st / PAGE_SIZE in
      set_totals st (if MAX_PAGES <? tp then MAX_PAGES else tp) (total_memory_bytes st) in
  let st := mark_region_used st 0 0x100000 in
  mark_region_used st kernel_start (u64 (kernel_end - kernel_start)).

Definition pmm_mark_region_used := mark_region_used.

Definition pmm_alloc_page (st : pmm_state) : Z * pmm_state :=
  match for_range (0x100000 / PAGE_SIZE) MAX_PAGES (λ i st,
    if bitmap_test st i =? 0 then
      let st := bitmap_set st i in
      inr (i * PAGE_SIZE, set_free_pages st (u64 (free_pages st - 1)))
    else inl st) st with
  | inl st => (0, st)
  | inr r => r
  end.

Definition pmm_free_page (st : pmm_state) (addr : Z) : pmm_state :=
  let page := addr / PAGE_SIZE in
  if MAX_PAGES <=? page then st
  else if bitmap_test st page =? 0 then st
  else let st := bitmap_clear st page in set_free_pages st (u64 (free_pages st + 1)).

Definition pmm_get_total_pages (st : pmm_state) : Z := total_pages st.
Definition pmm_get_free_pages (st : pmm_state) : Z := free_pages st.
Definition pmm_get_total_memory (st : pmm_state) : Z := total_memory_bytes st.

(** ** Abstraction: the set of pages in use *)
Definition used (st : pmm_state) (p : Z) : bool := Z.testbit (page_bitmap st (p / 8)) (p mod 8).

Definition all_pages : list Z := seqZ 0 MAX_PAGES.
Definition free_count (st : pmm_state) : Z := countb (λ p, negb (used st p)) all_pages.

(** The allocator's invariant: the free counter counts the clear bits. *)
Definition pmm_ok (st : pmm_state) : Prop := free_pages st = free_count st.

Lemma elem_of_all_pages p : p ∈ all_pages ↔ 0 ≤ p < MAX_PAGES.
Proof. unfold all_pages. rewrite elem_of_seqZ. lia. Qed.
Lemma NoDup_all_pages : NoDup all_pages.
Proof. apply NoDup_seqZ. Qed.
#[global] Opaque all_pages.

(** *** Bit operations *)
Lemma bitmap_test_used st p : bitmap_test st p = cbool (used st p).
Proof. unfold bitmap_test, used. apply shiftr_land_1. zdm. Qed.

Lemma bitmap_test_0 st p : (bitmap_test st p =? 0) = negb (used st p).
Proof. rewrite bitmap_test_used. by destruct (used st p). Qed.

Lemma same_byte_bit p q : q / 8 = p / 8 → (q mod 8 = p mod 8 ↔ q = p).
Proof. intros. split; zdm. Qed.

Lemma used_set st p q : used (bitmap_set st p) q = (q =? p) || used st q.
Proof.
  unfold used, bitmap_set, bm_store. cbn.
  assert (0 ≤ q mod 8 < 8) by zdm. assert (0 ≤ p mod 8 < 8) by zdm.
  destruct (Z.eqb_spec (q / 8) (p / 8)) as [E | E].
  - rewrite testbit_u8, Z.lor_spec, testbit_shiftl_one, E by lia.
    pose proof (same_byte_bit p q E).
    destruct (Z.eqb_spec q p); case_bool_decide; try tauto; by destruct (Z.testbit _ _).
  - by destruct (Z.eqb_spec q p) as [-> | _].
Qed.

Lemma used_clear st p q : used (bitmap_clear st p) q = negb (q =? p) && used st q.
Proof.
  unfold used, bitmap_clear, bm_store. cbn.
  assert (0 ≤ q mod 8 < 8) by zdm. assert (0 ≤ p mod 8 < 8) by zdm.
  destruct (Z.eqb_spec (q / 8) (p / 8)) as [E | E].
  - rewrite testbit_u8, Z.land_spec, Z.lnot_spec, testbit_shiftl_one, E by lia.
    pose proof (same_byte_bit p q E).
    destruct (Z.eqb_spec q p); case_bool_decide; try tauto; by destruct (Z.testbit _ _).
  - by destruct (Z.eqb_spec q p) as [-> | _].
Qed.

Lemma used_set_free_pages st n q : used (set_free_pages st n) q = used st q.
Proof. done. Qed.
Lemma used_set_totals st a b q : used (set_totals st a b) q = used st q.
Proof. done. Qed.

(** *** The counter follows the bitmap *)
Lemma free_count_range st : 0 ≤ free_count st ≤ MAX_PAGES.
Proof.
  unfold free_count. split; [apply countb_nonneg |].
  Transparent all_pages. apply countb_seqZ_le. done.
Qed.
#[global] Opaque all_pages.

Lemma free_count_set st p :
  0 ≤ p < MAX_PAGES → used st p = false → free_count (bitmap_set st p) = free_count st - 1.
Proof.
  intros Hp Hu. unfold free_count.
  rewrite (countb_switch (λ q, negb (used (bitmap_set st p) q)) (λ q, negb (used st q)) all_pages p).
  - lia.
  - apply NoDup_all_pages.
  - by apply elem_of_all_pages.
  - by rewrite used_set, Z.eqb_refl.
  - by rewrite Hu.
  - intros y Hy. rewrite used_set. by destruct (Z.eqb_spec y p).
Qed.

Lemma free_count_clear st p :
  0 ≤ p < MAX_PAGES → used st p = true → free_count (bitmap_clear st p) = free_count st + 1.
Proof.
  intros Hp Hu. unfold free_count.
  rewrite (countb_switch (λ q, negb (used st q)) (λ q, negb (used (bitmap_clear st p) q)) all_pages p);
    [done | apply NoDup_all_pages | by apply elem_of_all_pages | by rewrite Hu | |].
  - by rewrite used_clear, Z.eqb_refl.
  - intros y Hy. rewrite used_clear. by destruct (Z.eqb_spec y p).
Qed.

Lemma free_count_pos st p : 0 ≤ p < MAX_PAGES → used st p = false → 0 < free_count st.
Proof.
  intros Hp Hu. unfold free_count. apply (countb_pos _ _ p); [by apply elem_of_all_pages |].
  by rewrite Hu.
Qed.

Lemma free_count_ext st st' : (∀ p, used st p = used st' p) → free_count st = free_count st'.
Proof. intros H. apply countb_ext. intros. by rewrite H. Qed.

(** Setting a clear bit with the decrement, clearing a set bit with the
    increment: the two moves every operation is made of. *)
Lemma take_page_ok st p :
  pmm_ok st → 0 ≤ p < MAX_PAGES → used st p = false →
  pmm_ok (set_free_pages (bitmap_set st p) (free_pages st - 1)) ∧ 0 < free_pages st.
Proof.
  unfold pmm_ok. intros Hok Hp Hu. pose proof (free_count_pos st p Hp Hu).
  split; [| lia]. cbn [free_pages]. rewrite Hok, <- (free_count_set st p) by done. done.
Qed.

Lemma give_page_ok st p :
  pmm_ok st → 0 ≤ p < MAX_PAGES → used st p = true →
  pmm_ok (set_free_pages (bitmap_clear st p) (u64 (free_pages st + 1))).
Proof.
  unfold pmm_ok. intros Hok Hp Hu. cbn [free_pages set_free_pages].
  pose proof (free_count_range (bitmap_clear st p)) as Hr. rewrite (free_count_clear st p) in Hr by done.
  rewrite u64_small by (unfold MAX_PAGES in Hr; lia).
  rewrite Hok, <- (free_count_clear st p) by done. done.
Qed.

(** *** Marking regions *)
Definition page_range (start_page end_page p : Z) : bool := (start_page <=? p) && (p <? end_page).

Lemma page_range_spec a b p : page_range a b p = true ↔ a ≤ p < b.
Proof. unfold page_range. rewrite andb_true_iff, Z.leb_le, Z.ltb_lt. lia. Qed.

Lemma page_range_step a i p : a ≤ i → page_range a (i + 1) p = (p =? i) || page_range a i p.
Proof.
  intros. apply eq_true_iff_eq. rewrite orb_true_iff, !page_range_spec, Z.eqb_eq. lia.
Qed.

(** Pages covered by [mark_region_used]: every page the region touches. *)
Definition used_end (base length : Z) : Z := Z.min MAX_PAGES (u64 (base + length + PAGE_SIZE - 1) / PAGE_SIZE).
(** Pages covered by [mark_region_free]: up to the last complete page. *)
Definition free_end (base length : Z) : Z := Z.min MAX_PAGES (u64 (base + length) / PAGE_SIZE).

Lemma clamp_min a b : (if a <? b then a else b) = Z.min a b.
Proof. destruct (Z.ltb_spec a b); lia. Qed.

Lemma page_range_max a b p : page_range a (Z.max a b) p = page_range a b p.
Proof. apply eq_true_iff_eq. rewrite !page_range_spec. lia. Qed.

Lemma page_range_empty a p : page_range a a p = false.
Proof. apply not_true_iff_false. rewrite page_range_spec. lia. Qed.

Lemma mark_region_used_spec st base length :
  0 ≤ base → pmm_ok st →
  pmm_ok (mark_region_used st base length) ∧
  ∀ p, used (mark_region_used st base length) p =
       page_range (base / PAGE_SIZE) (used_end base length) p || used st p.
Proof.
  intros Hb Hok. unfold mark_region_used. rewrite clamp_min. fold (used_end base length).
  set (s := base / PAGE_SIZE). set (e := used_end base length).
  assert (0 ≤ s) by (unfold s, PAGE_SIZE; zdm). assert (e ≤ MAX_PAGES) by (unfold e, used_end; lia).
  cut (∀ f, pmm_ok (for_each s e f st) ∧
      (∀ p, used (for_each s e f st) p = page_range s (Z.max s e) p || used st p) →
    pmm_ok (for_each s e f st) ∧ ∀ p, used (for_each s e f st) p = page_range s e p || used st p);
    [intros Hcut; apply Hcut; clear Hcut | intros f [? Hf]; split; [done |]; intros p;
     by rewrite Hf, page_range_max].
  apply (for_each_inv (λ i t, pmm_ok t ∧ ∀ p, used t p = page_range s i p || used st p)).
  - split; [done |]. intros p. by rewrite page_range_empty.
  - intros i t Hi [Hto Htu]. rewrite bitmap_test_0. destruct (used t i) eqn:Eu; cbn [negb].
    + split; [done |]. intros p. rewrite page_range_step, Htu by lia.
      destruct (Z.eqb_spec p i) as [-> |]; [| done]. rewrite <- Htu. by rewrite Eu.
    + destruct (take_page_ok t i) as [Hok' Hpos]; [done | lia | done |].
      cbn [free_pages bitmap_set set_bitmap]. rewrite (proj2 (Z.ltb_lt _ _)) by lia.
      split; [done |]. intros p. rewrite used_set_free_pages, used_set, Htu, page_range_step by lia.
      by rewrite orb_assoc.
Qed.

Lemma mark_region_free_spec st base length :
  0 ≤ base → pmm_ok st →
  pmm_ok (mark_region_free st base length) ∧
  ∀ p, used (mark_region_free st base length) p =
       negb (page_range (base / PAGE_SIZE) (free_end base length) p) && used st p.
Proof.
  intros Hb Hok. unfold mark_region_free. rewrite clamp_min. fold (free_end base length).
  set (s := base / PAGE_SIZE). set (e := free_end base length).
  assert (0 ≤ s) by (unfold s, PAGE_SIZE; zdm). assert (e ≤ MAX_PAGES) by (unfold e, free_end; lia).
  cut (∀ f, pmm_ok (for_each s e f st) ∧
      (∀ p, used (for_each s e f st) p = negb (page_range s (Z.max s e) p) && used st p) →
    pmm_ok (for_each s e f st) ∧ ∀ p, used (for_each s e f st) p = negb (page_range s e p) && used st p);
    [intros Hcut; apply Hcut; clear Hcut | intros f [? Hf]; split; [done |]; intros p;
     by rewrite Hf, page_range_max].
  apply (for_each_inv (λ i t, pmm_ok t ∧ ∀ p, used t p = negb (page_range s i p) && used st p)).
  - split; [done |]. intros p. by rewrite page_range_empty.
  - intros i t Hi [Hto Htu]. rewrite bitmap_test_0. destruct (used t i) eqn:Eu; cbn [negb].
    + split; [apply (give_page_ok t i); [done | lia | done] |].
      intros p. rewrite used_set_free_pages, used_clear, Htu, page_range_step by lia.
      rewrite negb_orb. by rewrite andb_assoc.
    + split; [done |]. intros p. rewrite page_range_step, Htu by lia.
      destruct (Z.eqb_spec p i) as [-> |]; [| done]. rewrite <- Htu. by rewrite Eu.
Qed.

(** *** Allocation and release *)
Definition first_free (st : pmm_state) (p : Z) : Prop :=
  256 ≤ p < MAX_PAGES ∧ used st p = false ∧ ∀ q, 256 ≤ q < p → used st q = true.

Inductive alloc_result (st : pmm_state) : Z * pmm_state → Prop :=
| alloc_none : (∀ q, 256 ≤ q < MAX_PAGES → used st q = true) → alloc_result st (0, st)
| alloc_some p : first_free st p →
    alloc_result st (p * PAGE_SIZE, set_free_pages (bitmap_set st p) (u64 (free_pages st - 1))).

Lemma pmm_alloc_page_result st : alloc_result st (pmm_alloc_page st).
Proof.
  unfold pmm_alloc_page. change (0x100000 / PAGE_SIZE) with 256.
  match goal with |- context [for_range 256 MAX_PAGES ?f st] => set (body := f) end.
  enough (match for_range 256 MAX_PAGES body st with
    | inl t => t = st ∧ ∀ q, 256 ≤ q < Z.max 256 MAX_PAGES → used st q = true
    | inr r => alloc_result st r end) as H.
  { destruct (for_range 256 MAX_PAGES body st) as [t | r]; [| done].
    destruct H as [-> H]. constructor. intros q Hq. apply H. lia. }
  apply (for_range_inv (λ i t, t = st ∧ ∀ q, 256 ≤ q < i → used st q = true)).
  - split; [done |]. lia.
  - intros i t t' Hi [-> Hlow]. unfold body. rewrite bitmap_test_0.
    destruct (used st i) eqn:Eu; [| done]. intros [= <-]. split; [done |].
    intros q Hq. destruct (decide (q = i)) as [-> |]; [done | apply Hlow; lia].
  - intros i t r Hi [-> Hlow]. unfold body. rewrite bitmap_test_0.
    destruct (used st i) eqn:Eu; [done |]. intros [= <-]. constructor. done.
Qed.

Lemma pmm_alloc_page_cases st a st' :
  pmm_alloc_page st = (a, st') →
  (a = 0 ∧ st' = st) ∨
  ∃ p, first_free st p ∧ a = p * PAGE_SIZE ∧
       st' = set_free_pages (bitmap_set st p) (u64 (free_pages st - 1)).
Proof.
  intros E. pose proof (pmm_alloc_page_result st) as H. rewrite E in H.
  inversion H; subst; [by left | right; eauto].
Qed.

(** The page returned depends only on which pages are in use. *)
Lemma first_free_unique st st' :
  (∀ q, used st q = used st' q) → (pmm_alloc_page st).1 = (pmm_alloc_page st').1.
Proof.
  intros Hu. destruct (pmm_alloc_page_result st) as [H | p (Hp & Hf & Hl)];
    destruct (pmm_alloc_page_result st') as [H' | p' (Hp' & Hf' & Hl')]; cbn [fst]; [done | | |].
  - specialize (H p' Hp'). congruence.
  - specialize (H' p Hp). congruence.
  - f_equal. destruct (Z.lt_trichotomy p p') as [Hlt | [-> | Hlt]]; [| done |].
    + specialize (Hl' p ltac:(lia)). congruence.
    + specialize (Hl p' ltac:(lia)). congruence.
Qed.

Lemma pmm_alloc_page_ok st : pmm_ok st → pmm_ok (pmm_alloc_page st).2.
Proof.
  intros Hok. destruct (pmm_alloc_page_result st) as [? | p Hp]; [done |].
  destruct Hp as (Hr & Hu & _). destruct (take_page_ok st p) as [H Hpos]; [done | lia | done |].
  cbn [snd]. pose proof (free_count_range st) as Hc. unfold pmm_ok in Hok. unfold MAX_PAGES in *.
  rewrite u64_small by lia. done.
Qed.

Lemma pmm_free_page_used st a q :
  used (pmm_free_page st a) q =
  (if a / PAGE_SIZE <? MAX_PAGES then negb (q =? a / PAGE_SIZE) else true) && used st q.
Proof.
  unfold pmm_free_page. destruct (Z.leb_spec MAX_PAGES (a / PAGE_SIZE)) as [Hle | Hlt].
  - by rewrite (proj2 (Z.ltb_ge _ _)) by lia.
  - rewrite (proj2 (Z.ltb_lt _ _)) by lia. rewrite bitmap_test_0.
    destruct (used st (a / PAGE_SIZE)) eqn:Eu; cbn [negb].
    + by rewrite used_set_free_pages, used_clear.
    + destruct (Z.eqb_spec q (a / PAGE_SIZE)) as [-> |]; [by rewrite Eu | done].
Qed.

Lemma pmm_free_page_ok st a : 0 ≤ a → pmm_ok st → pmm_ok (pmm_free_page st a).
Proof.
  intros Ha Hok. unfold pmm_free_page. destruct (Z.leb_spec MAX_PAGES (a / PAGE_SIZE)); [done |].
  rewrite bitmap_test_0. destruct (used st (a / PAGE_SIZE)) eqn:Eu; cbn [negb]; [| done].
  apply (give_page_ok st (a / PAGE_SIZE)); [done | | done].
  split; [unfold PAGE_SIZE; zdm | done].
Qed.

(** *** Initialisation *)
Lemma e820_process_ok e st : 0 ≤ e_base e → pmm_ok st → pmm_ok (e820_process e st).
Proof.
  intros Hb Hok. unfold e820_process.
  repeat case_match; try done; apply mark_region_free_spec; done.
Qed.

Lemma free_count_all_used st : (∀ p, 0 ≤ p < MAX_PAGES → used st p = true) → free_count st = 0.
Proof.
  intros H. unfold free_count. rewrite (countb_ext _ (λ _, false)).
  - induction all_pages as [|x l IH]; [done |]. by rewrite countb_cons, IH.
  - intros x Hx. apply elem_of_all_pages in Hx. by rewrite H.
Qed.

Lemma memset_ff_used b p tp fp tm :
  0 ≤ p < MAX_PAGES →
  used (Pmm (λ i, if (0 <=? i) && (i <? BITMAP_SIZE) then 0xFF else b i) tp fp tm) p = true.
Proof.
  intros Hp. unfold used. cbn [page_bitmap]. unfold MAX_PAGES, BITMAP_SIZE in *.
  rewrite (proj2 (Z.leb_le _ _)), (proj2 (Z.ltb_lt _ _)) by zdm. cbn [andb].
  change 0xFF with (Z.ones 8). apply Z.ones_spec_low. zdm.
Qed.

Lemma pmm_ok_set_totals st a b : pmm_ok st → pmm_ok (set_totals st a b).
Proof. done. Qed.

(** The state [pmm_init] reaches before it reserves low memory and the kernel. *)
Definition pmm_scanned (m : pmem) (st0 st : pmm_state) : Prop :=
  pmm_ok st ∧ ∀ ks ke,
    pmm_init m ks ke st0 = mark_region_used (mark_region_used st 0 0x100000) ks (u64 (ke - ks)).

Lemma pmm_init_scanned m st0 : pmem_ok m → ∃ st, pmm_scanned m st0 st.
Proof.
  intros Hm.
  set (st := Pmm (λ i, if (0 <=? i) && (i <? BITMAP_SIZE) then 0xFF else page_bitmap st0 i) 0 0 0).
  assert (pmm_ok st) as Hst.
  { unfold pmm_ok. cbn [free_pages st]. symmetry. apply free_count_all_used.
    intros p Hp. by apply memset_ff_used. }
  unfold pmm_scanned, pmm_init. fold st.
  destruct ((pmm_get_e820_count m =? 0) || (128 <? pmm_get_e820_count m)).
  - eexists. split; [| reflexivity].
    apply mark_region_free_spec; [done | by apply pmm_ok_set_totals].
  - eexists. split; [| reflexivity].
    apply pmm_ok_set_totals. apply (for_each_inv (λ _ t, pmm_ok t)); [done |].
    intros i t _ Ht. apply e820_process_ok; [| done]. apply rd64_range, Hm.
Qed.

(** *** Clients of the allocator: who owns which page *)
Definition client := (pmm_state * list Z)%type.

Inductive pmm_step : client → client → Prop :=
| step_alloc st own a st' :
    pmm_alloc_page st = (a, st') → a ≠ 0 → pmm_step (st, own) (st', a :: own)
| step_alloc_fail st own a st' :
    pmm_alloc_page st = (a, st') → a = 0 → pmm_step (st, own) (st', own)
| step_free st own1 a own2 :
    pmm_step (st, own1 ++ a :: own2) (pmm_free_page st a, own1 ++ own2)
| step_reserve st own base length :
    0 ≤ base → pmm_step (st, own) (pmm_mark_region_used st base length, own).

Definition owned_page (st : pmm_state) (a : Z) : Prop :=
  a mod PAGE_SIZE = 0 ∧ 0x100000 ≤ a < MAX_MEMORY ∧ used st (a / PAGE_SIZE) = true.

Definition client_ok (c : client) : Prop :=
  pmm_ok c.1 ∧ NoDup c.2 ∧ Forall (owned_page c.1) c.2.

Lemma owned_page_div st a b :
  owned_page st a → owned_page st b → a / PAGE_SIZE = b / PAGE_SIZE → a = b.
Proof. unfold owned_page, PAGE_SIZE. intros (Ha & _) (Hb & _) H. zdm. Qed.

(** The pages already owned stay owned when the bitmap only grows. *)
Lemma owned_mono st st' own :
  (∀ q, used st q = true → used st' q = true) → Forall (owned_page st) own → Forall (owned_page st') own.
Proof.
  intros Hmono Hown. eapply Forall_impl; [exact Hown |]. intros b (? & ? & Hb).
  split; [done |]. split; [done |]. by apply Hmono.
Qed.

Lemma alloc_step_ok st own p :
  client_ok (st, own) → first_free st p →
  client_ok (set_free_pages (bitmap_set st p) (u64 (free_pages st - 1)), p * PAGE_SIZE :: own).
Proof.
  intros (Hok & Hnd & Hown) (Hr & Hu & Hlow). cbn [fst snd] in *.
  assert (p * PAGE_SIZE / PAGE_SIZE = p) as Hdiv by (by apply Z.div_mul).
  split; [| split]; cbn [fst snd].
  - destruct (take_page_ok st p) as [H Hpos]; [done | lia | done |].
    pose proof (free_count_range st) as Hc. unfold pmm_ok in Hok. unfold MAX_PAGES in *.
    by rewrite u64_small by lia.
  - constructor; [| done]. intros Hin. eapply Forall_forall in Hown as (_ & _ & Hin'); [| done].
    rewrite Hdiv in Hin'. congruence.
  - constructor; [split; [by apply Z.mod_mul | split] |].
    + unfold PAGE_SIZE, MAX_PAGES, MAX_MEMORY in *. lia.
    + by rewrite used_set_free_pages, used_set, Hdiv, Z.eqb_refl.
    + eapply owned_mono; [| exact Hown]. intros q Hq.
      by rewrite used_set_free_pages, used_set, Hq, orb_true_r.
Qed.

Lemma free_step_ok st own1 a own2 :
  client_ok (st, own1 ++ a :: own2) → client_ok (pmm_free_page st a, own1 ++ own2).
Proof.
  intros (Hok & Hnd & Hown). cbn [fst snd] in *.
  rewrite <- Permutation_middle in Hnd, Hown. apply NoDup_cons in Hnd as [Hna Hnd].
  apply Forall_cons in Hown as [Hoa Hown].
  split; [| split; [done |]]; cbn [fst snd].
  - apply pmm_free_page_ok; [| done]. destruct Hoa as (_ & ? & _). lia.
  - apply Forall_forall. intros b Hb. pose proof (proj1 (Forall_forall _ _) Hown b Hb) as Hob.
    pose proof Hob as (H1 & H2 & H3). split; [done |]. split; [done |].
    rewrite pmm_free_page_used, H3, andb_true_r. case_match; [| done].
    destruct (Z.eqb_spec (b / PAGE_SIZE) (a / PAGE_SIZE)) as [Heq |]; [| done].
    exfalso. apply Hna. by rewrite <- (owned_page_div st b a).
Qed.

Lemma reserve_step_ok st own base length :
  0 ≤ base → client_ok (st, own) → client_ok (pmm_mark_region_used st base length, own).
Proof.
  intros Hb (Hok & Hnd & Hown). destruct (mark_region_used_spec st base length Hb Hok) as [Hok' Hu].
  split; [done |]. split; [done |]. eapply owned_mono; [| exact Hown].
  intros q Hq. unfold pmm_mark_region_used. cbn [fst] in *. by rewrite Hu, Hq, orb_true_r.
Qed.

Lemma pmm_step_ok c c' : client_ok c → pmm_step c c' → client_ok c'.
Proof.
  intros Hc Hs. revert Hc.
  destruct Hs as [st own a st' Ha Hne | st own a st' Ha -> | st own1 a own2 | st own base len Hb]; intros Hc.
  - destruct (pmm_alloc_page_result st) as [_ | p Hp]; injection Ha as <- <-; [done |].
    by apply alloc_step_ok.
  - destruct (pmm_alloc_page_result st) as [_ | p (Hp & _)]; simplify_eq; [done |].
    unfold PAGE_SIZE in *. lia.
  - by apply free_step_ok.
  - by apply reserve_step_ok.
Qed.

(** ** Properties *)

(** [pmm_alloc_page] hands out the lowest free page at or above 1 MiB,
    marks it used, leaves every other page as it was and decrements the free
    counter; when no such page exists it returns 0 and changes nothing.  The
    invariant (the counter counts the clear bits) holds afterwards. *)
Theorem pmm_alloc_page_correct st :
  pmm_ok st →
  pmm_ok (pmm_alloc_page st).2 ∧
  ((pmm_alloc_page st = (0, st) ∧ ∀ q, 256 ≤ q < MAX_PAGES → used st q = true) ∨
   ∃ p, first_free st p ∧ (pmm_alloc_page st).1 = p * PAGE_SIZE ∧
        free_pages (pmm_alloc_page st).2 = free_pages st - 1 ∧
        ∀ q, used (pmm_alloc_page st).2 q = (q =? p) || used st q).
Proof.
  intros Hok. split; [by apply pmm_alloc_page_ok |].
  destruct (pmm_alloc_page_result st) as [H | p Hp]; [by left |]. right. exists p.
  destruct Hp as (Hr & Hu & Hlow). destruct (take_page_ok st p) as [_ Hpos]; [done | lia | done |].
  pose proof (free_count_range st) as Hc. unfold pmm_ok, MAX_PAGES in *.
  split_and!; [done | done | cbn; by rewrite u64_small by lia |].
  intros q. cbn [snd]. by rewrite used_set_free_pages, used_set.
Qed.

(** after [pmm_init], whatever memory map the boot loader left, the
    counter is exact, no page below 1 MiB and no page of the kernel image is
    free. *)
Theorem pmm_init_reserves m ks ke st0 p :
  pmem_ok m → 0 ≤ ks ≤ ke → ke ≤ MAX_MEMORY →
  (0 ≤ p < 256 ∨ ks / PAGE_SIZE ≤ p ∧ p * PAGE_SIZE < ke) →
  pmm_ok (pmm_init m ks ke st0) ∧ used (pmm_init m ks ke st0) p = true.
Proof.
  intros Hm Hk Hke Hp. destruct (pmm_init_scanned m st0 Hm) as (st & Hok & ->).
  destruct (mark_region_used_spec st 0 0x100000 ltac:(lia) Hok) as [Hok1 Hu1].
  destruct (mark_region_used_spec _ ks (u64 (ke - ks)) ltac:(lia) Hok1) as [Hok2 Hu2].
  split; [done |]. rewrite Hu2, Hu1. destruct Hp as [Hp | Hp].
  - rewrite (proj2 (page_range_spec (0 / PAGE_SIZE) _ p)); [by rewrite orb_true_r |].
    unfold used_end, MAX_PAGES, PAGE_SIZE. rewrite u64_small by lia. zdm.
  - rewrite (proj2 (page_range_spec (ks / PAGE_SIZE) _ p)); [done |].
    unfold used_end, MAX_PAGES, MAX_MEMORY, PAGE_SIZE in *.
    rewrite (u64_small (ke - ks)), u64_small by lia. zdm.
Qed.

(** C4: from any state that satisfies the invariant, through any
    interleaving of allocations, releases of owned pages and reservations,
    the pages handed out and not yet released are pairwise distinct,
    page-aligned, between 1 MiB and 4 GiB, and marked used. *)
Theorem pmm_no_double_allocation st0 st own :
  pmm_ok st0 → rtc pmm_step (st0, []) (st, own) →
  pmm_ok st ∧ NoDup own ∧ Forall (owned_page st) own.
Proof.
  intros Hok Hsteps.
  assert (client_ok (st, own)) as H; [| exact H].
  assert (client_ok (st0, [])) as H0 by (split; [done |]; split; constructor).
  revert H0. induction Hsteps; [done |]. eauto using pmm_step_ok.
Qed.

(** releasing the page just allocated restores the bitmap and the
    counter, so the next allocation returns the same page. *)
Theorem pmm_alloc_free_roundtrip st :
  pmm_ok st → (pmm_alloc_page st).1 ≠ 0 →
  let st' := pmm_free_page (pmm_alloc_page st).2 (pmm_alloc_page st).1 in
  (∀ q, used st' q = used st q) ∧ free_pages st' = free_pages st ∧
  (pmm_alloc_page st').1 = (pmm_alloc_page st).1.
Proof.
  intros Hok Hne st'. assert (pmm_ok st') as Hok'.
  { apply pmm_free_page_ok; [| by apply pmm_alloc_page_ok].
    destruct (pmm_alloc_page_result st) as [? | p ((? & ?) & _)]; unfold PAGE_SIZE; cbn; lia. }
  assert (∀ q, used st' q = used st q) as Hu.
  { intros q. unfold st'. rewrite pmm_free_page_used.
    destruct (pmm_alloc_page_result st) as [? | p (Hr & Hp & _)]; [done |]. cbn [fst snd].
    rewrite Z.div_mul, used_set_free_pages, used_set by done.
    rewrite (proj2 (Z.ltb_lt _ _)) by lia. destruct (Z.eqb_spec q p) as [-> |]; [by rewrite Hp | done]. }
  split; [done |]. split.
  - unfold pmm_ok in Hok, Hok'. rewrite Hok, Hok'. by apply free_count_ext.
  - by apply first_free_unique.
Qed.

(** ** Witnesses *)
Definition full_state : pmm_state := Pmm (λ _, 0xFF) MAX_PAGES 0 MAX_MEMORY.
Definition demo_state : pmm_state := pmm_free_page full_state (300 * PAGE_SIZE).

Lemma full_state_ok : pmm_ok full_state.
Proof.
  unfold pmm_ok. cbn [free_pages full_state]. symmetry. apply free_count_all_used.
  intros p Hp. unfold used. cbn [page_bitmap full_state]. change 0xFF with (Z.ones 8).
  apply Z.ones_spec_low. zdm.
Qed.
Lemma demo_state_ok : pmm_ok demo_state.
Proof. apply pmm_free_page_ok; [done | apply full_state_ok]. Qed.

Lemma pmm_alloc_page_correct_witness :
  pmm_ok demo_state ∧ (pmm_alloc_page demo_state).1 = 300 * PAGE_SIZE ∧
  pmm_ok (pmm_alloc_page demo_state).2.
Proof.
  split; [apply demo_state_ok |]. split; [vm_compute; reflexivity |].
  apply (pmm_alloc_page_correct demo_state demo_state_ok).
Defined.

Lemma pmm_init_reserves_witness :
  used (pmm_init (λ _, 0) 0x100000 0x101000 full_state) 256 = true.
Proof.
  apply (pmm_init_reserves (λ _, 0) 0x100000 0x101000 full_state 256);
    [intros x; split; lia | lia | vm_compute; discriminate | right; vm_compute; split; [discriminate | reflexivity]].
Defined.

Lemma pmm_no_double_allocation_witness :
  pmm_ok (pmm_alloc_page demo_state).2 ∧ NoDup [300 * PAGE_SIZE] ∧
  Forall (owned_page (pmm_alloc_page demo_state).2) [300 * PAGE_SIZE].
Proof.
  apply (pmm_no_double_allocation demo_state); [apply demo_state_ok |].
  apply rtc_once. apply step_alloc; [vm_compute; reflexivity | vm_compute; discriminate].
Defined.

Lemma pmm_alloc_free_roundtrip_witness :
  let st' := pmm_free_page (pmm_alloc_page demo_state).2 (pmm_alloc_page demo_state).1 in
  free_pages st' = 1 ∧ (pmm_alloc_page st').1 = 300 * PAGE_SIZE.
Proof.
  destruct (pmm_alloc_free_roundtrip demo_state demo_state_ok) as (_ & H1 & H2);
    [vm_compute; discriminate |].
  split; [rewrite H1; vm_compute; reflexivity | rewrite H2; vm_compute; reflexivity].
Defined.

(** Clients reason through the lemmas above. *)
#[global] Opaque pmm_alloc_page.
End Pmm.
