(* ===== verification/Vmm.v ===== *)
(** * Virtual memory manager (kernel/memory/vmm.c, include/vmm.h)

    Four-level page tables in the flat store of [PhysMem].  The state holds
    the store, the page allocator, CR3 and the static variables of vmm.c.
    [vmm_invlpg] has no state of its own: the walk below is the one the MMU
    performs with an empty TLB.  A step that makes the C function return -1
    is [None]; the state reached at that point is kept. *)
From S2P Require Import Prelude.
From S2P Require Import PhysMem.
From S2P Require Import Pmm.
Import Pmm.

Module Vmm.

Definition PTE_PRESENT : Z := 1.
Definition PTE_WRITABLE : Z := 2.
Definition PTE_USER : Z := 4.
Definition PTE_HUGE : Z := 128.
Definition PTE_PRIVATE_TABLE : Z := 512.
Definition PTE_NX : Z := 0x8000000000000000.
Definition PTE_ADDR_MASK : Z := 0x000FFFFFFFFFF000.
Definition IA32_EFER : Z := 0xC0000080.
Definition EFER_NXE : Z := 2048.
Definition CPU_EXT_NX : Z := 1048576.

(** [a & ~m] on 64-bit words. *)
Definition andnot (a m : Z) : Z := Z.land a (Z.lnot m).

Definition PML4_INDEX (addr : Z) : Z := Z.land (Z.shiftr addr 39) 0x1FF.
Definition PDPT_INDEX (addr : Z) : Z := Z.land (Z.shiftr addr 30) 0x1FF.
Definition PD_INDEX (addr : Z) : Z := Z.land (Z.shiftr addr 21) 0x1FF.
Definition PT_INDEX (addr : Z) : Z := Z.land (Z.shiftr addr 12) 0x1FF.

(** A flag test [e & f] used as a condition. *)
Definition has (e f : Z) : bool := negb (Z.land e f =? 0).

Record vmm_state := Vmm {
  mem : pmem;
  pmm : pmm_state;
  cr3_reg : Z;
  efer : Z;
  kernel_pml4_phys : Z;
  nx_available : bool
}.

Definition set_mem (st : vmm_state) (m : pmem) : vmm_state :=
  Vmm m (pmm st) (cr3_reg st) (efer st) (kernel_pml4_phys st) (nx_available st).
Definition set_pmm (st : vmm_state) (p : pmm_state) : vmm_state :=
  Vmm (mem st) p (cr3_reg st) (efer st) (kernel_pml4_phys st) (nx_available st).

(** [table[idx]] for a table at physical address [t]. *)
Definition entry (m : pmem) (t i : Z) : Z := rd64 m (t + 8 * i).
Definition set_entry (m : pmem) (t i v : Z) : pmem := wr64 m (t + 8 * i) v.

#[global] Arguments entry : simpl never.
#[global] Arguments set_entry : simpl never.
#[global] Arguments has : simpl never.

(** Early return: [None] is [return -1]. *)
Definition vm (A : Type) : Type := vmm_state → option A * vmm_state.
#[export] Instance vm_ret : MRet vm := λ A x st, (Some x, st).
#[export] Instance vm_bind : MBind vm := λ A B k c st,
  match c st with
  | (Some x, st') => k x st'
  | (None, st') => (None, st')
  end.
Definition vm_fail {A} : vm A := λ st, (None, st).
Definition vm_mem : vm pmem := λ st, (Some (mem st), st).
Definition vm_store (t i v : Z) : vm unit := λ st, (Some tt, set_mem st (set_entry (mem st) t i v)).

Definition vmm_get_cr3 (st : vmm_state) : Z := cr3_reg st.
Definition vmm_set_cr3 (cr3 : Z) (st : vmm_state) : vmm_state :=
  Vmm (mem st) (pmm st) (Z.land cr3 PTE_ADDR_MASK) (efer st) (kernel_pml4_phys st) (nx_available st).

(** [pmm_alloc_page] threaded through the state. *)
Definition alloc_page (st : vmm_state) : Z * vmm_state :=
  let '(page, p) := pmm_alloc_page (pmm st) in (page, set_pmm st p).
Definition free_page (st : vmm_state) (addr : Z) : vmm_state :=
  set_pmm st (pmm_free_page (pmm st) addr).

Definition alloc_table_page (st : vmm_state) : Z * vmm_state :=
  let '(page, st) := alloc_page st in
  if page =? 0 then (0, st)
  else (page, set_mem st (pmemset (mem st) page 0 PAGE_SIZE)).

Definition vmm_init (ext_features : Z) (st : vmm_state) : vmm_state :=
  let k := Z.land (vmm_get_cr3 st) PTE_ADDR_MASK in
  if has ext_features CPU_EXT_NX then
    Vmm (mem st) (pmm st) (cr3_reg st) (Z.lor (efer st) EFER_NXE) k true
  else Vmm (mem st) (pmm st) (cr3_reg st) (efer st) k (nx_available st).

Definition vmm_nx_supported (st : vmm_state) : bool := nx_available st.
Definition vmm_get_kernel_cr3 (st : vmm_state) : Z := kernel_pml4_phys st.

Definition vmm_create_address_space (st : vmm_state) : Z * vmm_state :=
  let '(pml4_page, st) := alloc_table_page st in
  if pml4_page =? 0 then (0, st)
  else (pml4_page, set_mem st (pmemcpy (mem st) pml4_page (kernel_pml4_phys st) PAGE_SIZE)).

Definition copy_table_page (src_phys : Z) (st : vmm_state) : Z * vmm_state :=
  let '(dst, st) := alloc_page st in
  if dst =? 0 then (0, st)
  else (dst, set_mem st (pmemcpy (mem st) dst src_phys PAGE_SIZE)).

Definition ensure_private_entry (cr3 table idx flags : Z) : vm unit := λ st,
  let e := entry (mem st) table idx in
  if Z.land cr3 PTE_ADDR_MASK =? kernel_pml4_phys st then (Some tt, st)
  else if negb (has e PTE_PRESENT) then (Some tt, st)
  else if has e PTE_PRIVATE_TABLE then (Some tt, st)
  else
    let child := Z.land e PTE_ADDR_MASK in
    let '(copy, st) := copy_table_page child st in
    if copy =? 0 then (None, st)
    else
      let e := entry (mem st) table idx in
      let v := Z.lor copy (andnot (Z.lor (Z.lor e flags) PTE_PRIVATE_TABLE) PTE_ADDR_MASK) in
      (Some tt, set_mem st (set_entry (mem st) table idx v)).

(** Install a zeroed table in an empty slot, or propagate PTE_USER. *)
Definition ensure_table (table idx flags parent_flags : Z) : vm unit := λ st,
  let e := entry (mem st) table idx in
  if negb (has e PTE_PRESENT) then
    let '(page, st) := alloc_table_page st in
    if page =? 0 then (None, st)
    else (Some tt, set_mem st (set_entry (mem st) table idx
                                 (Z.lor (Z.lor page parent_flags) PTE_PRIVATE_TABLE)))
  else if has flags PTE_USER then
    (Some tt, set_mem st (set_entry (mem st) table idx (Z.lor e PTE_USER)))
  else (Some tt, st).

(** [phys_to_virt(table[idx] & PTE_ADDR_MASK)] *)
Definition next_table (table idx : Z) : vm Z := λ st,
  (Some (Z.land (entry (mem st) table idx) PTE_ADDR_MASK), st).

(** Replace a 2 MiB mapping by a table of 512 4 KiB mappings. *)
Definition split_huge (pd pd_idx parent_flags : Z) : vm unit := λ st,
  let e := entry (mem st) pd pd_idx in
  if has e PTE_PRESENT && has e PTE_HUGE then
    let huge_base := Z.land e PTE_ADDR_MASK in
    let huge_flags := andnot (andnot e PTE_ADDR_MASK) PTE_HUGE in
    let '(pt_page, st) := alloc_table_page st in
    if pt_page =? 0 then (None, st)
    else
      let m := for_each 0 512 (λ i m,
        set_entry m pt_page i (Z.lor (u64 (huge_base + i * PAGE_SIZE)) huge_flags)) (mem st) in
      (Some tt, set_mem st (set_entry m pd pd_idx (Z.lor (Z.lor pt_page parent_flags) PTE_PRIVATE_TABLE)))
  else (Some tt, st).

(** Parent entries are present and writable, and user when the page is. *)
Definition parent_flags_of (flags : Z) : Z :=
  if has flags PTE_USER then Z.lor (Z.lor PTE_PRESENT PTE_WRITABLE) PTE_USER
  else Z.lor PTE_PRESENT PTE_WRITABLE.

(** Levels 4 and 3 of the walk: returns the page directory. *)
Definition map_upper (cr3 virt flags : Z) : vm Z :=
  let parent_flags := parent_flags_of flags in
  let pml4_idx := PML4_INDEX virt in
  _ ← ensure_private_entry cr3 cr3 pml4_idx parent_flags;
  _ ← ensure_table cr3 pml4_idx flags parent_flags;
  pdpt ← next_table cr3 pml4_idx;
  let pdpt_idx := PDPT_INDEX virt in
  _ ← ensure_private_entry cr3 pdpt pdpt_idx parent_flags;
  _ ← ensure_table pdpt pdpt_idx flags parent_flags;
  next_table pdpt pdpt_idx.

(** Levels 2 and 1: split a huge page, link the page table, set the entry. *)
Definition map_lower (pd virt phys flags : Z) : vm unit :=
  let parent_flags := parent_flags_of flags in
  let pd_idx := PD_INDEX virt in
  _ ← split_huge pd pd_idx parent_flags;
  _ ← ensure_table pd pd_idx flags parent_flags;
  pt ← next_table pd pd_idx;
  vm_store pt (PT_INDEX virt) (Z.lor (Z.lor phys flags) PTE_PRESENT).

Definition map_page_walk (cr3 virt phys flags : Z) : vm unit :=
  pd ← map_upper cr3 virt flags;
  map_lower pd virt phys flags.

Definition vmm_map_page_in (cr3 virt phys flags : Z) (st : vmm_state) : Z * vmm_state :=
  let virt := Z.land virt PTE_ADDR_MASK in
  let phys := Z.land phys PTE_ADDR_MASK in
  let flags := andnot flags PTE_ADDR_MASK in
  let cr3 := Z.land cr3 PTE_ADDR_MASK in
  if cr3 =? 0 then (-1, st)
  else match map_page_walk cr3 virt phys flags st with
       | (Some _, st) => (0, st)
       | (None, st) => (-1, st)
       end.

Definition vmm_map_page (virt phys flags : Z) (st : vmm_state) : Z * vmm_state :=
  vmm_map_page_in (kernel_pml4_phys st) virt phys flags st.

Definition vmm_unmap_page_in (cr3 virt : Z) (st : vmm_state) : Z * vmm_state :=
  let virt := Z.land virt PTE_ADDR_MASK in
  let cr3 := Z.land cr3 PTE_ADDR_MASK in
  let m := mem st in
  if cr3 =? 0 then (0, st) else
  let e4 := entry m cr3 (PML4_INDEX virt) in
  if negb (has e4 PTE_PRESENT) then (0, st) else
  let pdpt := Z.land e4 PTE_ADDR_MASK in
  let e3 := entry m pdpt (PDPT_INDEX virt) in
  if negb (has e3 PTE_PRESENT) then (0, st) else
  let pd := Z.land e3 PTE_ADDR_MASK in
  let e2 := entry m pd (PD_INDEX virt) in
  if negb (has e2 PTE_PRESENT) then (0, st) else
  if has e2 PTE_HUGE then (0, st) else
  let pt := Z.land e2 PTE_ADDR_MASK in
  let old_phys := Z.land (entry m pt (PT_INDEX virt)) PTE_ADDR_MASK in
  (old_phys, set_mem st (set_entry m pt (PT_INDEX virt) 0)).

Definition vmm_unmap_page (virt : Z) (st : vmm_state) : Z * vmm_state :=
  vmm_unmap_page_in (kernel_pml4_phys st) virt st.

Definition vmm_get_physical_in (m : pmem) (cr3 virt : Z) : Z :=
  let cr3 := Z.land cr3 PTE_ADDR_MASK in
  if cr3 =? 0 then 0 else
  let e4 := entry m cr3 (PML4_INDEX virt) in
  if negb (has e4 PTE_PRESENT) then 0 else
  let e3 := entry m (Z.land e4 PTE_ADDR_MASK) (PDPT_INDEX virt) in
  if negb (has e3 PTE_PRESENT) then 0 else
  let e2 := entry m (Z.land e3 PTE_ADDR_MASK) (PD_INDEX virt) in
  if negb (has e2 PTE_PRESENT) then 0 else
  if has e2 PTE_HUGE then u64 (Z.land e2 PTE_ADDR_MASK + Z.land virt 0x1FFFFF) else
  let e1 := entry m (Z.land e2 PTE_ADDR_MASK) (PT_INDEX virt) in
  if negb (has e1 PTE_PRESENT) then 0 else
  u64 (Z.land e1 PTE_ADDR_MASK + Z.land virt 0xFFF).

Definition vmm_get_physical (st : vmm_state) (virt : Z) : Z :=
  vmm_get_physical_in (mem st) (kernel_pml4_phys st) virt.

(** [(e & (PTE_PRESENT | PTE_USER)) == (PTE_PRESENT | PTE_USER)] *)
Definition user_bits (e : Z) : bool :=
  Z.land e (Z.lor PTE_PRESENT PTE_USER) =? Z.lor PTE_PRESENT PTE_USER.

Definition vmm_user_page_ok (m : pmem) (cr3 virt : Z) : bool :=
  let cr3 := Z.land cr3 PTE_ADDR_MASK in
  if cr3 =? 0 then false else
  let e4 := entry m cr3 (PML4_INDEX virt) in
  if negb (user_bits e4) then false else
  let e3 := entry m (Z.land e4 PTE_ADDR_MASK) (PDPT_INDEX virt) in
  if negb (user_bits e3) then false else
  let e2 := entry m (Z.land e3 PTE_ADDR_MASK) (PD_INDEX virt) in
  if negb (user_bits e2) then false else
  if has e2 PTE_HUGE then true else
  user_bits (entry m (Z.land e2 PTE_ADDR_MASK) (PT_INDEX virt)).

Definition page_base (virt : Z) : Z := andnot virt (PAGE_SIZE - 1).

(** The page loop, with one unit of fuel per page of the address space; the
    loop variable wraps at 2^64 as in C.  Running out of fuel is [None]. *)
Definition range_step (m : pmem) (cr3 e : Z) (page : Z) : Z + bool :=
  if page <? e then
    if vmm_user_page_ok m cr3 page then inl (u64 (page + PAGE_SIZE)) else inr false
  else inr true.

Definition vmm_user_range_ok (m : pmem) (cr3 virt size : Z) : option bool :=
  if size =? 0 then Some false
  else if u64 (virt + size) <? virt then Some false
  else match iterZ (2 ^ 52 + 1) (range_step m cr3 (u64 (virt + size))) (page_base virt) with
       | inl _ => None
       | inr b => Some b
       end.

(** A byte load through a virtual address with [cr3] loaded. *)
Definition vload (m : pmem) (cr3 addr : Z) : Z := m (vmm_get_physical_in m cr3 addr).

Definition vmm_user_strlen (m : pmem) (cr3 virt max_len : Z) : Z :=
  let page := page_base virt in
  if negb (vmm_user_page_ok m cr3 page) then -1 else
  match for_range 0 max_len (λ i page,
    let addr := u64 (virt + i) in
    let this_page := page_base addr in
    let ok := if this_page =? page then true else vmm_user_page_ok m cr3 this_page in
    if negb ok then inr (-1)
    else if vload m cr3 addr =? 0 then inr i
    else inl this_page) page with
  | inl _ => -1
  | inr r => r
  end.

(** The body of the loop of [free_private_tables]; [below] is the recursive
    call, absent when [level] is at most 1. *)
Definition free_slot (below : option (Z → vmm_state → vmm_state)) (table_phys i : Z) (st : vmm_state) : vmm_state :=
  let e := entry (mem st) table_phys i in
  if negb (has e PTE_PRESENT) then st
  else if negb (has e PTE_PRIVATE_TABLE) then st
  else if has e PTE_HUGE then st
  else
    let child := Z.land e PTE_ADDR_MASK in
    let st := match below with Some rec => rec child st | None => st end in
    let st := free_page st child in
    set_mem st (set_entry (mem st) table_phys i 0).

(** [free_private_tables(table_phys, level)]; the recursion depth is [level]. *)
Fixpoint free_private_tables (level : nat) (table_phys : Z) (st : vmm_state) : vmm_state :=
  for_each 0 512
    (free_slot (match level with S (S _ as l) => Some (free_private_tables l) | _ => None end) table_phys) st.

Definition vmm_destroy_address_space (cr3 : Z) (st : vmm_state) : vmm_state :=
  let cr3 := Z.land cr3 PTE_ADDR_MASK in
  if (cr3 =? 0) || (cr3 =? kernel_pml4_phys st) then st
  else free_page (free_private_tables 3 cr3 st) cr3.

(** ** Bits of page-table entries *)
Abbreviation addr_of e := (Z.land e PTE_ADDR_MASK).

Lemma land_ones_mod x k : 0 ≤ k → Z.land x (Z.ones k) = x mod 2 ^ k.
Proof. apply Z.land_ones. Qed.

Lemma addr_of_spec x : addr_of x = (x / 4096) mod 2 ^ 40 * 4096.
Proof.
  change PTE_ADDR_MASK with (Z.shiftl (Z.ones 40) 12).
  rewrite <- (Z.land_ones (x / 4096) 40) by lia.
  change 4096 with (2 ^ 12). rewrite <- Z.shiftr_div_pow2, <- Z.shiftl_mul_pow2 by lia.
  apply Z.bits_inj'. intros n Hn. rewrite Z.land_spec, !Z.shiftl_spec by lia.
  destruct (Z.ltb_spec n 12).
  - rewrite !(Z.testbit_neg_r _ (n - 12)) by lia. apply andb_false_r.
  - rewrite Z.land_spec, Z.shiftr_spec by lia. by replace (n - 12 + 12) with n by lia.
Qed.

Lemma addr_of_aligned x : x mod 4096 = 0 → 0 ≤ x < 2 ^ 52 → addr_of x = x.
Proof. intros H1 H2. rewrite addr_of_spec. rewrite Z.mod_small by zdm. zdm. Qed.

Lemma addr_of_props x : addr_of x mod 4096 = 0 ∧ 0 ≤ addr_of x < 2 ^ 52.
Proof. rewrite addr_of_spec. split; [by apply Z.mod_mul |]. zdm. Qed.

Lemma addr_of_idemp x : addr_of (addr_of x) = addr_of x.
Proof. apply addr_of_aligned; apply addr_of_props. Qed.

Lemma addr_of_lor x y : addr_of (Z.lor x y) = Z.lor (addr_of x) (addr_of y).
Proof. apply Z.land_lor_distr_l. Qed.

Lemma addr_of_andnot x : addr_of (andnot x PTE_ADDR_MASK) = 0.
Proof.
  unfold andnot. rewrite <- Z.land_assoc, (Z.land_comm (Z.lnot _)), Z.land_lnot_diag. apply Z.land_0_r.
Qed.

Lemma addr_of_u64 x : addr_of (u64 x) = addr_of x.
Proof.
  apply Z.bits_inj'. intros n Hn. rewrite !Z.land_spec. destruct (decide (n < 64)).
  - rewrite testbit_u64 by lia. done.
  - rewrite (testbit_high PTE_ADDR_MASK 64 n); [by rewrite !andb_false_r | done | lia].
Qed.

Lemma has_bit e k : 0 ≤ k → has e (2 ^ k) = Z.testbit e k.
Proof. intros. unfold has. rewrite land_pow2_nonzero by done. by rewrite negb_involutive. Qed.
Lemma has_present e : has e PTE_PRESENT = Z.testbit e 0.
Proof. by apply (has_bit e 0). Qed.
Lemma has_user e : has e PTE_USER = Z.testbit e 2.
Proof. by apply (has_bit e 2). Qed.
Lemma has_huge e : has e PTE_HUGE = Z.testbit e 7.
Proof. by apply (has_bit e 7). Qed.
Lemma has_private e : has e PTE_PRIVATE_TABLE = Z.testbit e 9.
Proof. by apply (has_bit e 9). Qed.

Lemma has_present_u64 e : has (u64 e) PTE_PRESENT = has e PTE_PRESENT.
Proof. rewrite !has_present. by apply testbit_u64. Qed.
Lemma has_huge_u64 e : has (u64 e) PTE_HUGE = has e PTE_HUGE.
Proof. rewrite !has_huge. by apply testbit_u64. Qed.

(** The flag bits of an aligned address are clear. *)
Lemma aligned_low_bit x k : x mod 4096 = 0 → 0 ≤ k < 12 → Z.testbit x k = false.
Proof.
  intros Hx Hk. replace x with (Z.shiftl (x / 4096) 12).
  - apply Z.shiftl_spec_low. lia.
  - rewrite Z.shiftl_mul_pow2 by lia. change (2 ^ 12) with 4096. zdm.
Qed.

Lemma user_bits_spec e : user_bits e = has e PTE_PRESENT && has e PTE_USER.
Proof.
  unfold user_bits. rewrite has_present, has_user. change (Z.lor PTE_PRESENT PTE_USER) with 5.
  apply eq_true_iff_eq. rewrite Z.eqb_eq, andb_true_iff. split.
  - intros H. pose proof (f_equal (λ z, Z.testbit z 0) H) as H0.
    pose proof (f_equal (λ z, Z.testbit z 2) H) as H2. cbn beta in H0, H2.
    rewrite Z.land_spec in H0, H2. cbn in H0, H2. rewrite andb_true_r in H0, H2. done.
  - intros [H0 H2]. apply Z.bits_inj'. intros n Hn. rewrite Z.land_spec.
    destruct (decide (n = 0)) as [-> |]; [by rewrite H0 |].
    destruct (decide (n = 2)) as [-> |]; [by rewrite H2 |].
    destruct (decide (n = 1)) as [-> |]; [apply andb_false_r |].
    rewrite (testbit_high 5 3 n); [apply andb_false_r | done | lia].
Qed.

Lemma index_range x k : 0 ≤ Z.land (Z.shiftr x k) 0x1FF < 512.
Proof. change 0x1FF with (Z.ones 9). rewrite Z.land_ones by lia. change (2 ^ 9) with 512. zdm. Qed.

(** ** Entries of distinct slots are independent *)
Definition is_slot (t i : Z) : Prop := t mod 4096 = 0 ∧ 0 ≤ i < 512.

Lemma entry_set_same m t i v : entry (set_entry m t i v) t i = u64 v.
Proof. apply rd64_wr64_same. Qed.

Lemma entry_set_other m t i v q j :
  is_slot t i → is_slot q j → (q, j) ≠ (t, i) → entry (set_entry m t i v) q j = entry m q j.
Proof.
  intros [Ht Hi] [Hq Hj] Hne. apply rd64_wr64_other.
  destruct (decide (q = t)) as [-> |]; [destruct (decide (j = i)) as [-> |]; [done |] |]; zdm.
Qed.
(** ** Well-formed states and frames *)
Definition vm_ok (st : vmm_state) : Prop := pmem_ok (mem st) ∧ pmm_ok (pmm st).

(** A page that may hold a table: aligned, below 4 GiB, not free. *)
Definition table_page (st : vmm_state) (t : Z) : Prop :=
  t mod 4096 = 0 ∧ 0 < t < MAX_MEMORY ∧ used (pmm st) (t / 4096) = true.

Lemma table_page_slot st t i : table_page st t → 0 ≤ i < 512 → is_slot t i.
Proof. intros (? & _) ?. done. Qed.

Lemma table_page_addr st t : table_page st t → addr_of t = t.
Proof. intros (? & ? & _). apply addr_of_aligned; [done |]. unfold MAX_MEMORY in *. lia. Qed.

(** What a step may do to the entries of the tables that existed before it:
    change the slots in [S] only. *)
Record frame (S : list (Z * Z)) (st st' : vmm_state) : Prop := Frame {
  fr_ok : vm_ok st → vm_ok st';
  fr_kernel : kernel_pml4_phys st' = kernel_pml4_phys st;
  fr_pages : ∀ t, table_page st t → table_page st' t;
  fr_entry : ∀ q j, table_page st q → 0 ≤ j < 512 → (q, j) ∉ S →
             entry (mem st') q j = entry (mem st) q j
}.

Lemma frame_refl S st : frame S st st.
Proof. by constructor. Qed.

Lemma frame_trans S1 S2 st1 st2 st3 :
  frame S1 st1 st2 → frame S2 st2 st3 → frame (S1 ++ S2) st1 st3.
Proof.
  intros [] []. constructor; [auto | congruence | auto |].
  intros q j Hq Hj Hn. rewrite not_elem_of_app in Hn. destruct Hn as [Hn1 Hn2].
  rewrite fr_entry1; [| auto | done | done]. auto.
Qed.

Lemma frame_weaken S S' st st' : (∀ x, x ∈ S → x ∈ S') → frame S st st' → frame S' st st'.
Proof. intros Hs []. constructor; auto. Qed.

Lemma frame_store st t i v :
  table_page st t → 0 ≤ i < 512 → frame [(t, i)] st (set_mem st (set_entry (mem st) t i v)).
Proof.
  intros Ht Hi. constructor; [| done | done |].
  - intros [Hm Hp]. split; [by apply wr64_ok | done].
  - intros q j Hq Hj Hn. cbn [mem set_mem]. apply entry_set_other.
    + by eapply table_page_slot.
    + by eapply table_page_slot.
    + intros Heq. apply Hn. rewrite Heq. by apply list_elem_of_singleton.
Qed.

(** A page obtained from the allocator is no table of the old state. *)
Lemma alloc_page_spec st p st' :
  vm_ok st → alloc_page st = (p, st') → p ≠ 0 →
  mem st' = mem st ∧ vm_ok st' ∧ kernel_pml4_phys st' = kernel_pml4_phys st ∧
  table_page st' p ∧ ¬ table_page st p ∧ ∀ t, table_page st t → table_page st' t.
Proof.
  intros [Hm Hok] Ha Hne. unfold alloc_page in Ha.
  destruct (pmm_alloc_page (pmm st)) as [a pm] eqn:E. injection Ha as <- <-.
  assert (pmm_ok pm) as Hok'. { pose proof (pmm_alloc_page_ok _ Hok) as H. by rewrite E in H. }
  apply pmm_alloc_page_cases in E as [[? _] | (q & (Hr & Hu & _) & -> & Hpm)]; [done |].
  assert (∀ t, used pm t = (t =? q) || used (pmm st) t) as Hused.
  { intros t. by rewrite Hpm, used_set_free_pages, used_set. }
  clear Hpm. unfold PAGE_SIZE, MAX_PAGES in *.
  assert (q * 4096 / 4096 = q) as Hdiv by (by apply Z.div_mul).
  split; [done |]. split; [done |]. split; [done |]. split; [| split].
  - split; [by apply Z.mod_mul |]. split; [unfold MAX_MEMORY; lia |].
    cbn [pmm set_pmm]. by rewrite Hused, Hdiv, Z.eqb_refl.
  - intros (_ & _ & H). rewrite Hdiv in H. congruence.
  - intros t (? & ? & Ht). split; [done |]. split; [done |].
    cbn [pmm set_pmm]. by rewrite Hused, Ht, orb_true_r.
Qed.

(** Words of a page the allocator just returned do not overlap other tables. *)
Lemma page_disjoint t q j :
  t mod 4096 = 0 → q mod 4096 = 0 → t ≠ q → 0 ≤ j < 512 →
  t + 4096 ≤ q + 8 * j ∨ q + 8 * j + 8 ≤ t.
Proof. intros. zdm. Qed.

Lemma alloc_table_page_spec st p st' :
  vm_ok st → alloc_table_page st = (p, st') → p ≠ 0 →
  frame [] st st' ∧ table_page st' p ∧ ¬ table_page st p ∧
  ∀ j, 0 ≤ j < 512 → entry (mem st') p j = 0.
Proof.
  intros Hok Ha Hne. unfold alloc_table_page in Ha. destruct (alloc_page st) as [q st1] eqn:Eq.
  destruct (Z.eqb_spec q 0) as [-> | Hq]; [congruence |]. injection Ha as <- <-.
  destruct (alloc_page_spec _ _ _ Hok Eq Hq) as (Hmem & [Hm1 Hp1] & Hk & Ht & Hnt & Hmono).
  split; [| split; [done | split; [done |]]].
  - constructor; [| done | done |].
    + intros _. split; [by apply pmemset_ok | done].
    + intros r j Hr Hj _. cbn [mem set_mem]. unfold entry. rewrite <- Hmem.
      apply rd64_pmemset_other. unfold PAGE_SIZE.
      apply page_disjoint; [apply Ht | apply Hr | congruence | done].
  - intros j Hj. cbn [mem set_mem]. apply rd64_pmemset_zero; unfold PAGE_SIZE; lia.
Qed.

Lemma copy_table_page_spec src st p st' :
  vm_ok st → table_page st src → copy_table_page src st = (p, st') → p ≠ 0 →
  frame [] st st' ∧ table_page st' p ∧ ¬ table_page st p ∧
  ∀ j, 0 ≤ j < 512 → entry (mem st') p j = entry (mem st) src j.
Proof.
  intros Hok Hsrc Ha Hne. unfold copy_table_page in Ha. destruct (alloc_page st) as [q st1] eqn:Eq.
  destruct (Z.eqb_spec q 0) as [-> | Hq]; [congruence |]. injection Ha as <- <-.
  destruct (alloc_page_spec _ _ _ Hok Eq Hq) as (Hmem & [Hm1 Hp1] & Hk & Ht & Hnt & Hmono).
  assert (q ≠ src) as Hqs by congruence.
  assert (q + 4096 ≤ src ∨ src + 4096 ≤ q) as Hdis.
  { destruct Ht as (? & _), Hsrc as (? & _). zdm. }
  split; [| split; [done | split; [done |]]].
  - constructor; [| done | done |].
    + intros _. split; [by apply pmemcpy_ok | done].
    + intros r j Hr Hj _. cbn [mem set_mem]. unfold entry. rewrite <- Hmem.
      apply rd64_pmemcpy_other; [done | done | done |]. unfold PAGE_SIZE.
      apply page_disjoint; [apply Ht | apply Hr | congruence | done].
  - intros j Hj. cbn [mem set_mem]. unfold entry. rewrite <- Hmem.
    unfold PAGE_SIZE. rewrite rd64_pmemcpy_in; [| done | lia | done | lia | lia]. f_equal. lia.
Qed.
(** ** One level of the mapping walk *)
Lemma parent_flags_cases flags : parent_flags_of flags = 3 ∨ parent_flags_of flags = 7.
Proof. unfold parent_flags_of. case_match; [by right | by left]. Qed.

(** The entry written for a new table: present, not huge, pointing to it. *)
Lemma new_table_entry p flags :
  p mod 4096 = 0 → 0 ≤ p < MAX_MEMORY →
  let e := u64 (Z.lor (Z.lor p (parent_flags_of flags)) PTE_PRIVATE_TABLE) in
  has e PTE_PRESENT = true ∧ has e PTE_HUGE = false ∧ addr_of e = p.
Proof.
  intros Hp Hr e. unfold e. rewrite has_present_u64, has_huge_u64, addr_of_u64, !addr_of_lor.
  rewrite (addr_of_aligned p), has_present, has_huge, !Z.lor_spec by (unfold MAX_MEMORY in *; lia).
  rewrite (aligned_low_bit p 0), (aligned_low_bit p 7) by done.
  by destruct (parent_flags_cases flags) as [-> | ->]; rewrite ?Z.lor_0_r.
Qed.

Lemma new_table_user p flags :
  has flags PTE_USER = true →
  has (u64 (Z.lor (Z.lor p (parent_flags_of flags)) PTE_PRIVATE_TABLE)) PTE_USER = true.
Proof.
  intros Hu. rewrite has_user, testbit_u64, !Z.lor_spec by lia. unfold parent_flags_of. rewrite Hu.
  cbn. by rewrite orb_true_r.
Qed.

(** The child the slot [(t, i)] of [st] points to, when present. *)
Definition child_ok (st : vmm_state) (avoid : list Z) (e : Z) : Prop :=
  has e PTE_PRESENT = true → table_page st (addr_of e) ∧ addr_of e ∉ avoid.

Lemma ensure_private_spec cr3 t i flags st st' :
  vm_ok st → table_page st t → 0 ≤ i < 512 →
  child_ok st [t] (entry (mem st) t i) →
  ensure_private_entry cr3 t i (parent_flags_of flags) st = (Some tt, st') →
  frame [(t, i)] st st' ∧
  let e := entry (mem st) t i in let e' := entry (mem st') t i in
  has e' PTE_PRESENT = has e PTE_PRESENT ∧
  (has e PTE_PRESENT = true →
     has e' PTE_HUGE = has e PTE_HUGE ∧ table_page st' (addr_of e') ∧
     (table_page st (addr_of e') → addr_of e' = addr_of e) ∧
     ∀ j, 0 ≤ j < 512 → entry (mem st') (addr_of e') j = entry (mem st) (addr_of e) j).
Proof.
  intros Hok Ht Hi Hch. unfold ensure_private_entry.
  assert (frame [(t, i)] st st) as Hrefl by apply frame_refl.
  destruct (Z.eqb _ _).
  { intros [= <-]. split; [done |]. split; [done |]. intros Hpr. destruct (Hch Hpr). done. }
  destruct (has (entry (mem st) t i) PTE_PRESENT) eqn:Epr; cbn [negb].
  2: { intros [= <-]. split; [done |]. by rewrite Epr. }
  destruct (Hch Epr) as [Hct Hca].
  destruct (has (entry (mem st) t i) PTE_PRIVATE_TABLE) eqn:Epv.
  { intros [= <-]. split; [done |]. by rewrite Epr. }
  destruct (copy_table_page _ st) as [copy st1] eqn:Ec.
  destruct (Z.eqb_spec copy 0) as [-> | Hne]; [done |]. intros [= <-].
  destruct (copy_table_page_spec _ _ _ _ Hok Hct Ec Hne) as (Hf & Htc & Hfresh & Hcopy).
  assert (entry (mem st1) t i = entry (mem st) t i) as Het.
  { apply (fr_entry _ _ _ Hf); [done | done | lmem]. }
  rewrite Het. set (e := entry (mem st) t i) in *.
  set (v := Z.lor copy _).
  assert (addr_of (u64 v) = copy) as Haddr.
  { unfold v. rewrite addr_of_u64, addr_of_lor, addr_of_andnot, Z.lor_0_r.
    by apply (table_page_addr st1). }
  assert (∀ k, k = 0 ∨ k = 7 → Z.testbit (u64 v) k = Z.testbit e k || Z.testbit (parent_flags_of flags) k) as Hbits.
  { intros k Hk. rewrite testbit_u64 by lia. unfold v, andnot.
    rewrite Z.lor_spec, (aligned_low_bit copy) by (try apply Htc; lia).
    rewrite Z.land_spec, !Z.lor_spec. destruct Hk as [-> | ->]; cbn; by rewrite !orb_false_r, andb_true_r. }
  split; [| split].
  - apply (frame_trans [] [(t, i)] st st1); [done |]. apply frame_store; [by apply Hf | done].
  - cbn [mem set_mem]. rewrite entry_set_same, !has_present, Hbits by tauto.
    rewrite has_present in Epr. by rewrite Epr.
  - intros _. cbn [mem set_mem]. rewrite entry_set_same, Haddr, !has_huge, Hbits by tauto.
    split; [| split; [| split]].
    + destruct (parent_flags_cases flags) as [-> | ->]; apply orb_false_r.
    + done.
    + intros Hc. done.
    + intros j Hj. rewrite entry_set_other; [by apply Hcopy | | |].
      * by eapply table_page_slot; [apply (fr_pages _ _ _ Hf) |].
      * by eapply table_page_slot.
      * intros [= -> _]. done.
Qed.
(** The result of preparing the slot [(t, i)]: it points to the table [c],
    which is either the child it pointed to before or a page that was free;
    [c] holds the old child's entries, or zeros when the slot was empty. *)
Record linked (st st' : vmm_state) (t i c : Z) : Prop := Linked {
  ln_frame : frame [(t, i)] st st';
  ln_present : has (entry (mem st') t i) PTE_PRESENT = true;
  ln_addr : addr_of (entry (mem st') t i) = c;
  ln_page : table_page st' c;
  ln_huge : has (entry (mem st') t i) PTE_HUGE =
            has (entry (mem st) t i) PTE_PRESENT && has (entry (mem st) t i) PTE_HUGE;
  ln_old : table_page st c →
           has (entry (mem st) t i) PTE_PRESENT = true ∧ c = addr_of (entry (mem st) t i);
  ln_entries : ∀ j, 0 ≤ j < 512 →
    entry (mem st') c j =
    if has (entry (mem st) t i) PTE_PRESENT then entry (mem st) (addr_of (entry (mem st) t i)) j else 0
}.

(** A user mapping makes the entry user-accessible. *)
Definition user_set (flags e : Z) : Prop := has flags PTE_USER = true → has e PTE_USER = true.

Lemma ensure_table_spec t i flags st st' :
  vm_ok st → table_page st t → 0 ≤ i < 512 →
  child_ok st [t] (entry (mem st) t i) →
  ensure_table t i flags (parent_flags_of flags) st = (Some tt, st') →
  linked st st' t i (addr_of (entry (mem st') t i)) ∧
  user_set flags (entry (mem st') t i) ∧
  (has (entry (mem st) t i) PTE_PRESENT = true →
   addr_of (entry (mem st') t i) = addr_of (entry (mem st) t i)).
Proof.
  intros Hok Ht Hi Hch. unfold ensure_table. set (e := entry (mem st) t i) in *.
  destruct (has e PTE_PRESENT) eqn:Epr; cbn [negb].
  - destruct (Hch Epr) as [Hct Hca]. destruct (has flags PTE_USER) eqn:Eus.
    + intros [= <-]. set (st1 := set_mem _ _).
      assert (entry (mem st1) t i = u64 (Z.lor e PTE_USER)) as He by apply entry_set_same.
      assert (addr_of (entry (mem st1) t i) = addr_of e) as Ha.
      { rewrite He, addr_of_u64, addr_of_lor. apply Z.lor_0_r. }
      split; [| split; [| done]].
      2: { intros _. rewrite He, has_user, testbit_u64, Z.lor_spec by lia. apply orb_true_r. }
      constructor; rewrite ?Ha; fold e; rewrite ?Epr.
      * by apply frame_store.
      * rewrite He, has_present_u64, has_present, Z.lor_spec, <- has_present, Epr. done.
      * done.
      * done.
      * rewrite He, has_huge_u64, !has_huge, Z.lor_spec. apply orb_false_r.
      * done.
      * intros j Hj. apply entry_set_other; [by eapply table_page_slot.. |].
        intros [= Heq _]. apply Hca. rewrite Heq. by apply list_elem_of_singleton.
    + intros [= <-]. split; [| split; [by intros ?; rewrite Eus in * | done]].
      constructor; fold e; rewrite ?Epr; done || apply frame_refl.
  - destruct (alloc_table_page st) as [p st1] eqn:Ea.
    destruct (Z.eqb_spec p 0) as [-> | Hne]; [done |]. intros [= <-].
    destruct (alloc_table_page_spec _ _ _ Hok Ea Hne) as (Hf & Hp & Hfresh & Hz).
    destruct (new_table_entry p flags) as (H1 & H2 & H3); [apply Hp | destruct Hp as (_ & ? & _); lia |].
    assert (table_page st1 t) as Ht1 by (by apply Hf). split; [| split; [| done]].
    2: { intros Hu. cbn [mem set_mem]. rewrite entry_set_same. by apply new_table_user. }
    constructor; cbn [mem set_mem]; fold e; rewrite ?entry_set_same, ?H3, ?Epr; try done.
    + apply (frame_trans [] [(t, i)] st st1); [done |]. by apply frame_store.
    + intros j Hj. rewrite entry_set_other; [by apply Hz | by eapply table_page_slot.. |].
      intros [= Heq _]. congruence.
Qed.

Lemma linked_trans st st1 st' t i c :
  table_page st t → 0 ≤ i < 512 →
  frame [(t, i)] st st1 →
  (let e := entry (mem st) t i in let e1 := entry (mem st1) t i in
   has e1 PTE_PRESENT = has e PTE_PRESENT ∧
   (has e PTE_PRESENT = true →
     has e1 PTE_HUGE = has e PTE_HUGE ∧ table_page st1 (addr_of e1) ∧
     (table_page st (addr_of e1) → addr_of e1 = addr_of e) ∧
     ∀ j, 0 ≤ j < 512 → entry (mem st1) (addr_of e1) j = entry (mem st) (addr_of e) j)) →
  linked st1 st' t i c → linked st st' t i c.
Proof.
  intros Ht Hi Hf [Hpr He] [Lf Lp La Lt Lh Lo Le]. constructor; try done.
  - apply (frame_weaken ([(t, i)] ++ [(t, i)])); [by intros x [|]%elem_of_app |]. by eapply frame_trans.
  - rewrite Lh, Hpr. destruct (has (entry (mem st) t i) PTE_PRESENT); [| done].
    by destruct (He eq_refl) as (-> & _).
  - intros Hc. destruct (Lo (fr_pages _ _ _ Hf _ Hc)) as [Hp ->]. rewrite <- Hpr. split; [done |].
    rewrite Hpr in Hp. destruct (He Hp) as (_ & _ & H & _). auto.
  - intros j Hj. rewrite Le, Hpr by done. destruct (has (entry (mem st) t i) PTE_PRESENT); [| done].
    destruct (He eq_refl) as (_ & _ & _ & H). by apply H.
Qed.
Lemma vm_bind_inv {A B} (c : vm A) (k : A → vm B) st r st' :
  (c ≫= k) st = (Some r, st') → ∃ x st1, c st = (Some x, st1) ∧ k x st1 = (Some r, st').
Proof. unfold mbind, vm_bind. destruct (c st) as [[x |] st1]; [eauto | done]. Qed.

(** Levels 4 and 3: privatise the slot, then make sure it holds a table. *)
Lemma level_spec cr3 t i flags st st1 st2 :
  vm_ok st → table_page st t → 0 ≤ i < 512 → child_ok st [t] (entry (mem st) t i) →
  ensure_private_entry cr3 t i (parent_flags_of flags) st = (Some tt, st1) →
  ensure_table t i flags (parent_flags_of flags) st1 = (Some tt, st2) →
  linked st st2 t i (addr_of (entry (mem st2) t i)) ∧ user_set flags (entry (mem st2) t i).
Proof.
  intros Hok Ht Hi Hch H1 H2.
  destruct (ensure_private_spec _ _ _ _ _ _ Hok Ht Hi Hch H1) as [Hf Hp].
  pose proof (fr_pages _ _ _ Hf _ Ht) as Ht1.
  destruct (ensure_table_spec t i flags st1 st2) as (HL & Hu & _); [by apply Hf | done | done | | done |].
  2: { split; [| done]. by apply (linked_trans st st1). }
  intros Hpr. destruct Hp as [Heq Hp]. rewrite Heq in Hpr. destruct (Hp Hpr) as (_ & Hc & Hold & _).
  split; [done |]. intros Hin%list_elem_of_singleton. destruct (Hch Hpr) as [_ Hav].
  apply Hav. rewrite <- (Hold ltac:(by rewrite Hin)), Hin. by apply list_elem_of_singleton.
Qed.

(** The loop that fills a page table. *)
Lemma fill_table_spec m p (f : Z → Z) :
  pmem_ok m → p mod 4096 = 0 →
  let m' := for_each 0 512 (λ i m, set_entry m p i (f i)) m in
  pmem_ok m' ∧ (∀ j, 0 ≤ j < 512 → entry m' p j = u64 (f j)) ∧
  ∀ q j, is_slot q j → q ≠ p → entry m' q j = entry m q j.
Proof.
  intros Hm Hp. apply (for_each_inv_le (λ i m', pmem_ok m' ∧
    (∀ j, 0 ≤ j < i → entry m' p j = u64 (f j)) ∧
    ∀ q j, is_slot q j → q ≠ p → entry m' q j = entry m q j)); [lia | |].
  - split; [done |]. split; [lia | done].
  - intros i m' Hi (Hok & Hin & Hout). split; [by apply wr64_ok |]. split.
    + intros j Hj. destruct (decide (j = i)) as [-> | Hne]; [apply entry_set_same |].
      rewrite entry_set_other; [apply Hin; lia | split; [done | lia].. | congruence].
    + intros q j Hq Hne. rewrite entry_set_other; [by apply Hout | by split | done | congruence].
Qed.

(** The entry of sub-page [j] of the 2 MiB mapping [e]. *)
Definition split_entry (e j : Z) : Z :=
  u64 (Z.lor (u64 (addr_of e + j * PAGE_SIZE)) (andnot (andnot e PTE_ADDR_MASK) PTE_HUGE)).

(** The page-directory slot after splitting and linking. *)
Record pd_ready (st st' : vmm_state) (t i c : Z) : Prop := PdReady {
  pr_frame : frame [(t, i)] st st';
  pr_present : has (entry (mem st') t i) PTE_PRESENT = true;
  pr_huge : has (entry (mem st') t i) PTE_HUGE = false;
  pr_addr : addr_of (entry (mem st') t i) = c;
  pr_page : table_page st' c;
  pr_old : table_page st c → has (entry (mem st) t i) PTE_PRESENT = true ∧
           has (entry (mem st) t i) PTE_HUGE = false ∧ c = addr_of (entry (mem st) t i);
  pr_entries : ∀ j, 0 ≤ j < 512 →
    entry (mem st') c j =
    if has (entry (mem st) t i) PTE_PRESENT then
      if has (entry (mem st) t i) PTE_HUGE then split_entry (entry (mem st) t i) j
      else entry (mem st) (addr_of (entry (mem st) t i)) j
    else 0
}.

Lemma split_huge_spec t i flags st st' :
  vm_ok st → table_page st t → 0 ≤ i < 512 →
  has (entry (mem st) t i) PTE_PRESENT && has (entry (mem st) t i) PTE_HUGE = true →
  split_huge t i (parent_flags_of flags) st = (Some tt, st') →
  pd_ready st st' t i (addr_of (entry (mem st') t i)) ∧ ¬ table_page st (addr_of (entry (mem st') t i)).
Proof.
  intros Hok Ht Hi Hph. unfold split_huge. rewrite Hph. set (e := entry (mem st) t i) in *.
  apply andb_true_iff in Hph as [Hp Hh].
  destruct (alloc_table_page st) as [p st1] eqn:Ea.
  destruct (Z.eqb_spec p 0) as [-> | Hne]; [done |]. intros [= <-].
  destruct (alloc_table_page_spec _ _ _ Hok Ea Hne) as (Hf & Hpg & Hfresh & _).
  destruct (new_table_entry p flags) as (H1 & H2 & H3); [apply Hpg | destruct Hpg as (_ & ? & _); lia |].
  destruct (fr_ok _ _ _ Hf Hok) as [Hm1 Hpm1]. pose proof (fr_pages _ _ _ Hf _ Ht) as Ht1.
  destruct (fill_table_spec (mem st1) p
    (λ j, Z.lor (u64 (addr_of e + j * PAGE_SIZE)) (andnot (andnot e PTE_ADDR_MASK) PTE_HUGE)))
    as (Hmf & Hin & Hout); [done | apply Hpg |].
  set (mf := for_each 0 512 _ _) in *. clearbody mf.
  assert (frame [] st (set_mem st1 mf)) as Hf1.
  { constructor; [by intros _ | apply Hf | apply Hf |]. intros q j Hq Hj Hn. cbn [mem set_mem].
    rewrite Hout; [by apply (fr_entry _ _ _ Hf) | by eapply table_page_slot | congruence]. }
  cbn [mem set_mem]. rewrite entry_set_same, H3. split; [| done].
  constructor; cbn [mem set_mem]; rewrite ?entry_set_same; try done.
  - eapply (frame_trans [] [(t, i)]); [exact Hf1 |].
    apply (frame_store (set_mem st1 mf)); [by apply Hf1 | done].
  - fold e. rewrite Hp, Hh. intros j Hj.
    rewrite entry_set_other; [by apply Hin | by eapply table_page_slot.. |].
    intros [= Heq _]. congruence.
Qed.
Lemma pd_spec t i flags st st1 st2 :
  vm_ok st → table_page st t → 0 ≤ i < 512 →
  (has (entry (mem st) t i) PTE_HUGE = false → child_ok st [t] (entry (mem st) t i)) →
  split_huge t i (parent_flags_of flags) st = (Some tt, st1) →
  ensure_table t i flags (parent_flags_of flags) st1 = (Some tt, st2) →
  pd_ready st st2 t i (addr_of (entry (mem st2) t i)) ∧ user_set flags (entry (mem st2) t i).
Proof.
  intros Hok Ht Hi Hch H1 H2.
  destruct (has (entry (mem st) t i) PTE_PRESENT && has (entry (mem st) t i) PTE_HUGE) eqn:Eph.
  - destruct (split_huge_spec _ _ _ _ _ Hok Ht Hi Eph H1) as [[Sf Sp Sh Sa St So Se] Hfresh].
    assert (child_ok st1 [t] (entry (mem st1) t i)) as Hch1.
    { intros _. split; [done |]. intros Hin%list_elem_of_singleton. apply Hfresh. by rewrite Hin. }
    destruct (ensure_table_spec t i flags st1 st2) as ([Lf Lp La Lt Lh Lo Le] & Hus & Haddr);
      [by apply Sf | by apply Sf | done | done | done |].
    specialize (Haddr Sp). rewrite Haddr in *. split; [| done]. constructor; try done.
    + apply (frame_weaken ([(t, i)] ++ [(t, i)])); [by intros x [|]%elem_of_app |]. by eapply frame_trans.
    + by rewrite Lh, Sp, Sh.
    + intros j Hj. rewrite Le, Sp by done. by apply Se.
  - unfold split_huge in H1. rewrite Eph in H1. injection H1 as <-.
    destruct (ensure_table_spec t i flags st st2) as ([Lf Lp La Lt Lh Lo Le] & Hus & Haddr);
      [done | done | done | | done |].
    + intros Hpr. rewrite Hpr in Eph. cbn [andb] in Eph. by apply Hch.
    + split; [| done]. constructor; try done.
      * by rewrite Lh, Eph.
      * intros Hc. destruct (Lo Hc) as [Hp Heq]. rewrite Hp in Eph. by rewrite Hp.
      * intros j Hj. rewrite Le by done. destruct (has (entry (mem st) t i) PTE_PRESENT); [| done].
        cbn [andb] in Eph. by rewrite Eph.
Qed.

(** ** Paths *)

(** Below the page directory [t2], reached through the tables [l]. *)
Definition path2_ok (st : vmm_state) (l : list Z) (virt t2 : Z) : Prop :=
  let e2 := entry (mem st) t2 (PD_INDEX virt) in
  has e2 PTE_HUGE = false → child_ok st (t2 :: l) e2.

Definition path3_ok (st : vmm_state) (l : list Z) (virt t3 : Z) : Prop :=
  let e3 := entry (mem st) t3 (PDPT_INDEX virt) in
  child_ok st (t3 :: l) e3 ∧ (has e3 PTE_PRESENT = true → path2_ok st (t3 :: l) virt (addr_of e3)).

(** The tables met on the way to [virt] are distinct tables in use. *)
Definition path_ok (st : vmm_state) (cr3 virt : Z) : Prop :=
  table_page st cr3 ∧
  let e4 := entry (mem st) cr3 (PML4_INDEX virt) in
  child_ok st [cr3] e4 ∧ (has e4 PTE_PRESENT = true → path3_ok st [cr3] virt (addr_of e4)).

(** A completed walk: four distinct linked tables. *)
Record walked (flags : Z) (st : vmm_state) (cr3 virt t3 t2 t1 : Z) : Prop := Walked {
  wk_4 : has (entry (mem st) cr3 (PML4_INDEX virt)) PTE_PRESENT = true ∧
         addr_of (entry (mem st) cr3 (PML4_INDEX virt)) = t3;
  wk_3 : has (entry (mem st) t3 (PDPT_INDEX virt)) PTE_PRESENT = true ∧
         addr_of (entry (mem st) t3 (PDPT_INDEX virt)) = t2;
  wk_2 : has (entry (mem st) t2 (PD_INDEX virt)) PTE_PRESENT = true ∧
         has (entry (mem st) t2 (PD_INDEX virt)) PTE_HUGE = false ∧
         addr_of (entry (mem st) t2 (PD_INDEX virt)) = t1;
  wk_user : user_set flags (entry (mem st) cr3 (PML4_INDEX virt)) ∧
            user_set flags (entry (mem st) t3 (PDPT_INDEX virt)) ∧
            user_set flags (entry (mem st) t2 (PD_INDEX virt));
  wk_pages : Forall (table_page st) [t1; t2; t3; cr3];
  wk_nodup : NoDup [t1; t2; t3; cr3]
}.

(** A slot of a table outside the written slots keeps its entry. *)
Lemma frame_keep S st st' q j :
  frame S st st' → table_page st q → 0 ≤ j < 512 → q ∉ S.*1 → entry (mem st') q j = entry (mem st) q j.
Proof.
  intros Hf Hq Hj Hn. apply (fr_entry _ _ _ Hf); [done | done |].
  intros Hin. apply Hn. apply list_elem_of_fmap. by exists (q, j).
Qed.

(** A table in use that is neither the old child nor above it is not the new
    child either. *)
Lemma linked_fresh st st' t i c l x :
  linked st st' t i c → table_page st x →
  (has (entry (mem st) t i) PTE_PRESENT = true → x ∉ addr_of (entry (mem st) t i) :: l) →
  x ∉ l → x ∉ c :: l.
Proof.
  intros HL Hx Hold Hl [-> | Hin]%elem_of_cons; [| done].
  destruct (ln_old _ _ _ _ _ HL Hx) as [Hp Heq]. apply (Hold Hp). rewrite <- Heq. by left.
Qed.

Lemma linked_avoids st st' t i c l :
  linked st st' t i c → Forall (table_page st) l → child_ok st l (entry (mem st) t i) → c ∉ l.
Proof.
  intros HL Hl Hch Hin. pose proof (proj1 (Forall_forall _ _) Hl c Hin) as Hc.
  destruct (ln_old _ _ _ _ _ HL Hc) as [Hp ->]. by destruct (Hch Hp).
Qed.

Lemma child_transfer st st' t i c l j :
  linked st st' t i c → 0 ≤ j < 512 →
  (has (entry (mem st) t i) PTE_PRESENT = true →
   child_ok st (addr_of (entry (mem st) t i) :: l) (entry (mem st) (addr_of (entry (mem st) t i)) j)) →
  child_ok st' (c :: l) (entry (mem st') c j).
Proof.
  intros HL Hj Hch. rewrite (ln_entries _ _ _ _ _ HL) by done.
  destruct (has (entry (mem st) t i) PTE_PRESENT) eqn:E; [| done].
  intros Hp. destruct (Hch eq_refl Hp) as [Ht Hn].
  split; [by apply HL |]. eapply linked_fresh; [done | done | by intros _ | lmem].
Qed.

Lemma path2_transfer st st' t i c l virt :
  linked st st' t i c →
  (has (entry (mem st) t i) PTE_PRESENT = true → path2_ok st l virt (addr_of (entry (mem st) t i))) →
  path2_ok st' l virt c.
Proof.
  intros HL Hp Hh. apply (child_transfer st st' t i); [done | apply index_range |].
  intros Hpr. apply (Hp Hpr). rewrite (ln_entries _ _ _ _ _ HL) in Hh by apply index_range.
  by rewrite Hpr in Hh.
Qed.

Lemma path3_transfer st st' t i c l virt :
  linked st st' t i c → t ∈ l → Forall (table_page st) l →
  (has (entry (mem st) t i) PTE_PRESENT = true → path3_ok st l virt (addr_of (entry (mem st) t i))) →
  path3_ok st' l virt c.
Proof.
  intros HL Ht Hl Hp. split.
  - apply (child_transfer st st' t i); [done | apply index_range |]. intros Hpr. by apply (Hp Hpr).
  - rewrite (ln_entries _ _ _ _ _ HL) by apply index_range.
    destruct (has (entry (mem st) t i) PTE_PRESENT) eqn:E; [| done].
    intros Hpr. destruct (Hp eq_refl) as [Hch3 Hp2]. destruct (Hch3 Hpr) as [Ht2 Hn2].
    specialize (Hp2 Hpr). set (t2 := addr_of (entry (mem st) _ _)) in *.
    unfold path2_ok in *. rewrite (frame_keep [(t, i)] st st'); [| apply HL | done | apply index_range |].
    2: { cbn. lmem. }
    intros Hh Hp1. destruct (Hp2 Hh Hp1) as [Ht1 Hn1]. split; [by apply HL |].
    apply not_elem_of_cons. split; [lmem |].
    eapply linked_fresh; [done | done | intros _; lmem | lmem].
Qed.
Lemma PML4_INDEX_range v : 0 ≤ PML4_INDEX v < 512.
Proof. apply index_range. Qed.
Lemma PDPT_INDEX_range v : 0 ≤ PDPT_INDEX v < 512.
Proof. apply index_range. Qed.
Lemma PD_INDEX_range v : 0 ≤ PD_INDEX v < 512.
Proof. apply index_range. Qed.
Lemma PT_INDEX_range v : 0 ≤ PT_INDEX v < 512.
Proof. apply index_range. Qed.
#[local] Hint Resolve PML4_INDEX_range PDPT_INDEX_range PD_INDEX_range PT_INDEX_range : cint.

(** What holds once the page directory [t2] has been reached. *)
Record upper_walked (flags : Z) (st : vmm_state) (cr3 virt t3 t2 : Z) : Prop := Upper {
  up_ok : vm_ok st;
  up_4 : has (entry (mem st) cr3 (PML4_INDEX virt)) PTE_PRESENT = true ∧
         addr_of (entry (mem st) cr3 (PML4_INDEX virt)) = t3;
  up_3 : has (entry (mem st) t3 (PDPT_INDEX virt)) PTE_PRESENT = true ∧
         addr_of (entry (mem st) t3 (PDPT_INDEX virt)) = t2;
  up_user : user_set flags (entry (mem st) cr3 (PML4_INDEX virt)) ∧
            user_set flags (entry (mem st) t3 (PDPT_INDEX virt));
  up_pages : Forall (table_page st) [t2; t3; cr3];
  up_nodup : NoDup [t2; t3; cr3];
  up_path2 : path2_ok st [t3; cr3] virt t2
}.

Lemma map_upper_spec cr3 virt flags st t2 st' :
  vm_ok st → path_ok st cr3 virt → map_upper cr3 virt flags st = (Some t2, st') →
  ∃ t3, upper_walked flags st' cr3 virt t3 t2 ∧
        frame [(cr3, PML4_INDEX virt); (t3, PDPT_INDEX virt)] st st'.
Proof.
  intros Hok (Ht4 & Hch4 & Hp3) Hrun. unfold map_upper in Hrun.
  apply vm_bind_inv in Hrun as ([] & s1 & R1 & Hrun).
  apply vm_bind_inv in Hrun as ([] & s2 & R2 & Hrun).
  apply vm_bind_inv in Hrun as (t3 & s2' & [= <- <-] & Hrun).
  apply vm_bind_inv in Hrun as ([] & s3 & R3 & Hrun).
  apply vm_bind_inv in Hrun as ([] & s4 & R4 & [= <- <-]).
  destruct (level_spec _ _ _ _ _ _ _ Hok Ht4 (PML4_INDEX_range virt) Hch4 R1 R2) as [L4 U4].
  set (t3 := addr_of (entry (mem s2) cr3 (PML4_INDEX virt))) in *. exists t3.
  pose proof (path3_transfer _ _ _ _ _ [cr3] virt L4 ltac:(lmem) ltac:(auto) Hp3) as [Hch3 Hp2].
  pose proof (ln_frame _ _ _ _ _ L4) as F4. pose proof (fr_ok _ _ _ F4 Hok) as Hok2.
  pose proof (fr_pages _ _ _ F4 _ Ht4) as Ht4'. pose proof (ln_page _ _ _ _ _ L4) as Ht3.
  assert (t3 ∉ [cr3]) as Hn3 by (eapply linked_avoids; [exact L4 | fall | done]).
  destruct (level_spec cr3 t3 (PDPT_INDEX virt) flags s2 s3 s4) as [L3 U3]; [done | done | auto with cint | | done | done |].
  {
    intros Hp. destruct (Hch3 Hp). split; [done |]. lmem. }
  set (t2 := addr_of (entry (mem s4) t3 (PDPT_INDEX virt))) in *.
  pose proof (ln_frame _ _ _ _ _ L3) as F3.
  assert (t2 ∉ [t3; cr3]) as Hn2.
  { eapply linked_avoids; [exact L3 | fall | done]. }
  assert (entry (mem s4) cr3 (PML4_INDEX virt) = entry (mem s2) cr3 (PML4_INDEX virt)) as E4.
  { eapply frame_keep; [exact F3 | done | auto with cint |]. cbn. lmem. }
  split; [| exact (frame_trans _ _ _ _ _ F4 F3)].
  constructor.
  - by apply F3.
  - rewrite E4. split; [apply L4 | done].
  - split; [apply L3 | done].
  - by rewrite E4.
  - fall; [exact (ln_page _ _ _ _ _ L3) | by apply F3 | by apply F3].
  - repeat (apply NoDup_cons; split); lmem; apply NoDup_nil_2.
  - by eapply path2_transfer.
Qed.

(** The whole walk of [vmm_map_page_in]. *)
Lemma map_lower_spec cr3 virt phys flags st t3 t2 st' :
  upper_walked flags st cr3 virt t3 t2 → map_lower t2 virt phys flags st = (Some tt, st') →
  ∃ t1, walked flags st' cr3 virt t3 t2 t1 ∧ vm_ok st' ∧
    frame [(t2, PD_INDEX virt); (t1, PT_INDEX virt)] st st' ∧
    entry (mem st') t1 (PT_INDEX virt) = u64 (Z.lor (Z.lor phys flags) PTE_PRESENT).
Proof.
  intros [Hok H4 H3 [Hu4 Hu3] Hpg Hnd Hp2] Hrun. unfold map_lower in Hrun.
  apply vm_bind_inv in Hrun as ([] & s1 & R1 & Hrun).
  apply vm_bind_inv in Hrun as ([] & s2 & R2 & Hrun).
  apply vm_bind_inv in Hrun as (t1 & s2' & [= <- <-] & [= <-]).
  apply Forall_cons in Hpg as [Ht2 Hpg]. apply Forall_cons in Hpg as [Ht3 Hpg].
  apply Forall_cons in Hpg as [Ht4 _].
  destruct (pd_spec t2 (PD_INDEX virt) flags st s1 s2) as [[Pf Pp Ph Pa Pt Po Pe] Hu2];
    [done | done | auto with cint | | done | done |].
  {
    intros Hh Hp. destruct (Hp2 Hh Hp). split; [done |]. lmem. }
  set (t1 := addr_of (entry (mem s2) t2 (PD_INDEX virt))) in *. exists t1.
  assert (t1 ∉ [t2; t3; cr3]) as Hn1.
  { intros Hin. assert (table_page st t1) as Ht1.
    { revert Hin. rewrite !elem_of_cons, elem_of_nil. intros [-> | [-> | [-> | []]]]; done. }
    destruct (Po Ht1) as (Hp & Hh & Heq). destruct (Hp2 Hh Hp) as [_ Hn]. congruence. }
  pose proof (frame_store s2 t1 (PT_INDEX virt) (Z.lor (Z.lor phys flags) PTE_PRESENT) Pt
    (PT_INDEX_range virt)) as F1.
  set (st' := set_mem s2 _) in *.
  assert (∀ q j, q ≠ t1 → table_page s2 q → 0 ≤ j < 512 → entry (mem st') q j = entry (mem s2) q j) as K1.
  { intros q j Hne Hq Hj. eapply frame_keep; [exact F1 | done | done |]. cbn. lmem. }
  assert (∀ q j, q ≠ t1 → q ≠ t2 → table_page st q → 0 ≤ j < 512 →
    entry (mem st') q j = entry (mem st) q j) as K2.
  { intros q j Hq1 Hq2 Hq Hj. rewrite K1; [| done | by apply Pf | done].
    eapply frame_keep; [exact Pf | done | done |]. cbn. lmem. }
  assert (NoDup [t1; t2; t3; cr3]) as Hnd4 by (by apply NoDup_cons).
  apply NoDup_cons in Hnd as [Hn2 Hnd]. lmem.
  split; [| split; [| split]].
  - constructor.
    + by rewrite K2 by auto with cint.
    + by rewrite K2 by auto with cint.
    + rewrite K1; [done | done | by apply Pf | auto with cint].
    + rewrite !K2, K1 by (auto with cint; by apply Pf). done.
    + fall; by apply F1, Pf.
    + done.
  - by apply F1, Pf.
  - exact (frame_trans _ _ _ _ _ Pf F1).
  - apply entry_set_same.
Qed.

Lemma map_page_walk_spec cr3 virt phys flags st st' :
  vm_ok st → path_ok st cr3 virt →
  map_page_walk cr3 virt phys flags st = (Some tt, st') →
  ∃ t3 t2 t1, walked flags st' cr3 virt t3 t2 t1 ∧ vm_ok st' ∧
    frame [(cr3, PML4_INDEX virt); (t3, PDPT_INDEX virt); (t2, PD_INDEX virt); (t1, PT_INDEX virt)] st st' ∧
    entry (mem st') t1 (PT_INDEX virt) = u64 (Z.lor (Z.lor phys flags) PTE_PRESENT).
Proof.
  intros Hok Hp Hrun. apply vm_bind_inv in Hrun as (t2 & s1 & R1 & R2).
  destruct (map_upper_spec _ _ _ _ _ _ Hok Hp R1) as (t3 & Hup & F1).
  destruct (map_lower_spec _ _ _ _ _ _ _ _ Hup R2) as (t1 & Hw & Hok' & F2 & He).
  exists t3, t2, t1. split; [done |]. split; [done |]. split; [| done].
  exact (frame_trans _ _ _ _ _ F1 F2).
Qed.
(** ** Translation after mapping *)
Lemma index_addr_of v k : 12 ≤ k ≤ 43 → Z.land (Z.shiftr (addr_of v) k) 0x1FF = Z.land (Z.shiftr v k) 0x1FF.
Proof.
  intros Hk. apply Z.bits_inj'. intros n Hn. rewrite !Z.land_spec, !Z.shiftr_spec, Z.land_spec by lia.
  destruct (decide (n < 9)).
  - change PTE_ADDR_MASK with (Z.shiftl (Z.ones 40) 12).
    rewrite Z.shiftl_spec, Z.ones_spec_low by lia. by rewrite andb_true_r.
  - rewrite (testbit_high 0x1FF 9 n); [by rewrite !andb_false_r | done | lia].
Qed.

(** Addresses of one page use the same slots. *)
Lemma same_page_indices v w : addr_of v = addr_of w →
  PML4_INDEX v = PML4_INDEX w ∧ PDPT_INDEX v = PDPT_INDEX w ∧
  PD_INDEX v = PD_INDEX w ∧ PT_INDEX v = PT_INDEX w.
Proof.
  intros H. unfold PML4_INDEX, PDPT_INDEX, PD_INDEX, PT_INDEX.
  rewrite <- !(index_addr_of v), <- !(index_addr_of w) by lia. by rewrite H.
Qed.

Lemma land_fff v : Z.land v 0xFFF = v mod 4096.
Proof. change 0xFFF with (Z.ones 12). by rewrite Z.land_ones. Qed.

(** The translation a completed walk gives. *)
Lemma walked_translate flags st cr3 virt t3 t2 t1 v :
  walked flags st (addr_of cr3) virt t3 t2 t1 → addr_of v = addr_of virt →
  has (entry (mem st) t1 (PT_INDEX virt)) PTE_PRESENT = true →
  vmm_get_physical_in (mem st) cr3 v = addr_of (entry (mem st) t1 (PT_INDEX virt)) + v mod 4096.
Proof.
  intros [[P4 A4] [P3 A3] (P2 & H2 & A2) _ Hpg _] Hv P1. unfold vmm_get_physical_in.
  destruct (same_page_indices v virt Hv) as (-> & -> & -> & ->).
  do 3 apply Forall_inv_tail in Hpg. apply Forall_inv in Hpg as (_ & Hr & _).
  destruct (Z.eqb_spec (addr_of cr3) 0); [lia |].
  rewrite P4, A4, P3, A3, P2, H2, A2, P1. cbn [negb]. rewrite land_fff.
  apply u64_small. pose proof (addr_of_props (entry (mem st) t1 (PT_INDEX virt))). zdm.
Qed.

Lemma walked_user flags st cr3 virt t3 t2 t1 v :
  walked flags st (addr_of cr3) virt t3 t2 t1 → addr_of v = addr_of virt →
  has flags PTE_USER = true →
  has (entry (mem st) t1 (PT_INDEX virt)) PTE_PRESENT = true →
  has (entry (mem st) t1 (PT_INDEX virt)) PTE_USER = true →
  vmm_user_page_ok (mem st) cr3 v = true.
Proof.
  intros [[P4 A4] [P3 A3] (P2 & H2 & A2) (U4 & U3 & U2) Hpg _] Hv Hus P1 U1. unfold vmm_user_page_ok.
  destruct (same_page_indices v virt Hv) as (-> & -> & -> & ->).
  do 3 apply Forall_inv_tail in Hpg. apply Forall_inv in Hpg as (_ & Hr & _).
  destruct (Z.eqb_spec (addr_of cr3) 0); [lia |].
  rewrite !user_bits_spec. by rewrite P4, A4, P3, A3, P2, H2, A2, P1, U4, U3, U2, U1.
Qed.

Lemma path_ok_same_page st cr3 v w : addr_of v = addr_of w → path_ok st cr3 v → path_ok st cr3 w.
Proof.
  intros H. destruct (same_page_indices v w H) as (E4 & E3 & E2 & E1).
  unfold path_ok, path3_ok, path2_ok. by rewrite E4, E3, E2.
Qed.

(** The final entry [phys | flags | PTE_PRESENT]. *)
Lemma leaf_entry phys flags :
  let e := u64 (Z.lor (Z.lor (addr_of phys) (andnot flags PTE_ADDR_MASK)) PTE_PRESENT) in
  has e PTE_PRESENT = true ∧ addr_of e = addr_of phys ∧ user_set flags e.
Proof.
  cbn zeta. rewrite has_present_u64, addr_of_u64, !addr_of_lor, addr_of_andnot, addr_of_idemp.
  split; [| split].
  - rewrite has_present, !Z.lor_spec. apply orb_true_r.
  - by rewrite !Z.lor_0_r.
  - intros Hu. rewrite has_user in *. rewrite testbit_u64, !Z.lor_spec by lia.
    unfold andnot. rewrite (Z.land_spec flags), Hu. cbn [andb]. by rewrite orb_true_r.
Qed.

Lemma leaf_user phys flags : has (u64 (Z.lor (Z.lor (addr_of phys) (andnot flags PTE_ADDR_MASK)) PTE_PRESENT)) PTE_USER = has flags PTE_USER.
Proof.
  rewrite !has_user, testbit_u64, !Z.lor_spec by lia. assert (Z.testbit (addr_of phys) 2 = false) as ->.
  { destruct (addr_of_props phys) as [Ha _]. rewrite Z.testbit_false by lia. zdm. }
  unfold andnot. rewrite (Z.land_spec flags). cbn [orb]. change (Z.testbit PTE_PRESENT 2) with false. rewrite orb_false_r. apply andb_true_r.
Qed.
Lemma walked_no_user flags st cr3 virt t3 t2 t1 v :
  walked flags st (addr_of cr3) virt t3 t2 t1 → addr_of v = addr_of virt → has (entry (mem st) t1 (PT_INDEX virt)) PTE_USER = false →
  vmm_user_page_ok (mem st) cr3 v = false.
Proof.
  intros [[P4 A4] [P3 A3] (P2 & H2 & A2) _ Hpg _] Hv U1. unfold vmm_user_page_ok. destruct (same_page_indices v virt Hv) as (-> & -> & -> & ->).
  destruct (_ =? 0); [done |]. rewrite !user_bits_spec. rewrite P4, A4, P3, A3, P2, H2, A2, U1. rewrite !andb_false_r. by repeat destruct (has _ PTE_USER).
Qed.
Lemma has_user_andnot flags : has (andnot flags PTE_ADDR_MASK) PTE_USER = has flags PTE_USER.
Proof. rewrite !has_user. unfold andnot. rewrite Z.land_spec. apply andb_true_r. Qed.

(** Summary of a successful [vmm_map_page_in]. *)
Lemma map_page_in_spec cr3 virt phys flags st st' :
  vm_ok st → path_ok st (addr_of cr3) virt →
  vmm_map_page_in cr3 virt phys flags st = (0, st') →
  ∃ t3 t2 t1, walked (andnot flags PTE_ADDR_MASK) st' (addr_of cr3) virt t3 t2 t1 ∧ vm_ok st' ∧
    frame [(addr_of cr3, PML4_INDEX virt); (t3, PDPT_INDEX virt); (t2, PD_INDEX virt);
           (t1, PT_INDEX virt)] st st' ∧
    entry (mem st') t1 (PT_INDEX virt) =
      u64 (Z.lor (Z.lor (addr_of phys) (andnot flags PTE_ADDR_MASK)) PTE_PRESENT).
Proof.
  intros Hok Hp Hrun. unfold vmm_map_page_in in Hrun. destruct (addr_of cr3 =? 0); [done |].
  destruct (map_page_walk _ _ _ _ st) as [[[] |] s1] eqn:R; [| done]. injection Hrun as <-.
  apply map_page_walk_spec in R; [| done | eapply path_ok_same_page; [| exact Hp]; by rewrite addr_of_idemp].
  destruct (same_page_indices (addr_of virt) virt (addr_of_idemp virt)) as (E4 & E3 & E2 & E1).
  destruct R as (t3 & t2 & t1 & [W4 W3 W2 Wu Wp Wn] & Hok' & F & He).
  rewrite E4, E3, E2, E1 in *. exists t3, t2, t1. split; [| done]. constructor; rewrite ?E4, ?E3, ?E2; done.
Qed.
(** ** User-pointer validation *)
Lemma page_base_spec v : page_base v = v - v mod 4096.
Proof.
  unfold page_base, andnot, PAGE_SIZE. change (4096 - 1) with (Z.ones 12).
  rewrite <- Z.ldiff_land, Z.ldiff_ones_r, Z.shiftl_mul_pow2, Z.shiftr_div_pow2 by lia.
  change (2 ^ 12) with 4096. zdm.
Qed.

Lemma addr_of_page_base v : addr_of (page_base v) = addr_of v.
Proof. rewrite !addr_of_spec, page_base_spec. do 2 f_equal. zdm. Qed.

Lemma user_page_ok_same m cr3 v w : addr_of v = addr_of w → vmm_user_page_ok m cr3 v = vmm_user_page_ok m cr3 w.
Proof.
  intros H. destruct (same_page_indices v w H) as (E4 & E3 & E2 & E1).
  unfold vmm_user_page_ok. by rewrite E4, E3, E2, E1.
Qed.

Lemma user_page_ok_base m cr3 v : vmm_user_page_ok m cr3 (page_base v) = vmm_user_page_ok m cr3 v.
Proof. apply user_page_ok_same, addr_of_page_base. Qed.

(** The page loop decides user access to every page from [page] up to [e]. *)
Lemma range_loop m cr3 e n page :
  0 ≤ page → page mod 4096 = 0 → e ≤ 18446744073709547520 → e - page ≤ (n - 1) * 4096 → 0 < n →
  ∃ b, iterZ n (range_step m cr3 e) page = inr b ∧
       (b = true ↔ ∀ a, page ≤ a < e → vmm_user_page_ok m cr3 a = true).
Proof.
  intros Hp Ha He Hn H0. remember (Z.to_nat n) as k eqn:Hk. revert n page Hp Ha Hn H0 Hk.
  induction k as [|k IH]; intros n page Hp Ha Hn H0 Hk; [lia |].
  rewrite iterZ_step by lia. unfold range_step at 1, PAGE_SIZE.
  destruct (Z.ltb_spec page e) as [Hlt | Hge].
  2: { exists true. split; [done |]. split; [lia | done]. }
  assert (∀ a, page ≤ a < page + 4096 → vmm_user_page_ok m cr3 a = vmm_user_page_ok m cr3 page) as Hpage.
  { intros a Har. apply user_page_ok_same. rewrite !addr_of_spec. do 2 f_equal. zdm. }
  destruct (vmm_user_page_ok m cr3 page) eqn:Eok.
  - rewrite u64_small by lia.
    destruct (IH (n - 1) (page + 4096)) as (b & Hb & Hiff); [lia | zdm | lia | lia | lia |].
    exists b. split; [done |]. rewrite Hiff. split; intros H a Har.
    + destruct (decide (a < page + 4096)); [apply Hpage; lia | apply H; lia].
    + apply H. lia.
  - exists false. split; [done |]. split; [done |]. intros H. specialize (H page ltac:(lia)). congruence.
Qed.

(** A range that ends within the last page: the loop variable wraps, so the
    loop goes on through the whole address space until a page is refused. *)
Lemma range_wraps m cr3 e n page :
  18446744073709547520 < e → 0 ≤ page < 18446744073709551616 → page mod 4096 = 0 → iterZ n (range_step m cr3 e) page ≠ inr true.
Proof.
  intros He. remember (Z.to_nat n) as k eqn:Hk. revert n page Hk. induction k as [| k IH]; intros n page Hk Hp Ha; [by rewrite iterZ_nonpos by lia |].
  rewrite iterZ_step by lia. unfold range_step at 1, PAGE_SIZE. replace (page <? e) with true by (symmetry; zdm).
  destruct (vmm_user_page_ok m cr3 page); [| done]. apply IH; [lia | apply u64_range | ulia].
Qed.
Lemma range_refused m cr3 e k n page :
  18446744073709547520 < e → 0 ≤ page < 18446744073709551616 → page mod 4096 = 0 →
  vmm_user_page_ok m cr3 (u64 (page + 4096 * Z.of_nat k)) = false → Z.of_nat k < n → iterZ n (range_step m cr3 e) page = inr false.
Proof.
  intros He. revert n page. induction k as [| k IH]; intros n page Hp Ha Hf Hn; rewrite iterZ_step by lia; unfold range_step at 1, PAGE_SIZE;
    (replace (page <? e) with true by (symmetry; zdm)).
  - rewrite Z.mul_0_r, Z.add_0_r, u64_small in Hf by done. by rewrite Hf.
  - destruct (vmm_user_page_ok m cr3 page); [| done]. apply IH; [apply u64_range | ulia | | lia]. rewrite <- Hf. f_equal. ulia.
Qed.
Lemma range_last m cr3 virt size : 0 ≤ virt → 18446744073709547520 < virt + size < 18446744073709551616 → 0 < size →
  vmm_user_range_ok m cr3 virt size ≠ Some true ∧
  ∀ a, 0 ≤ a < 18446744073709551616 → vmm_user_page_ok m cr3 a = false → vmm_user_range_ok m cr3 virt size = Some false.
Proof.
  intros Hv He Hs. unfold vmm_user_range_ok. destruct (Z.eqb_spec size 0); [lia |]. rewrite u64_small by lia. destruct (Z.ltb_spec (virt + size) virt); [lia |].
  pose proof (page_base_spec virt) as Hpb. assert (0 ≤ page_base virt < 18446744073709551616) as Hr by zdm. assert (page_base virt mod 4096 = 0) as Ha by zdm. split.
  - pose proof (range_wraps m cr3 (virt + size) (2 ^ 52 + 1) (page_base virt) ltac:(lia) Hr Ha) as K. destruct (iterZ _ _ _) as [| []]; congruence.
  - intros a Har Hf. set (k := Z.to_nat (u64 (page_base a - page_base virt) / 4096)). pose proof (page_base_spec a) as Hpa.
    rewrite (range_refused m cr3 (virt + size) k); [done | lia | done | done | | unfold k; ulia].
    replace (u64 (page_base virt + 4096 * Z.of_nat k)) with (page_base a) by (unfold k; ulia). rewrite <- Hf. apply user_page_ok_same. rewrite !addr_of_spec, Hpa. do 2 f_equal. zdm.
Qed.

Lemma range_exact m cr3 virt size :
  0 ≤ virt → 0 < size → virt + size ≤ 18446744073709547520 →
  ∃ b, vmm_user_range_ok m cr3 virt size = Some b ∧
       (b = true ↔ ∀ a, virt ≤ a < virt + size → vmm_user_page_ok m cr3 a = true).
Proof.
  intros Hv Hs He. unfold vmm_user_range_ok. destruct (Z.eqb_spec size 0); [lia |].
  rewrite u64_small by lia. destruct (Z.ltb_spec (virt + size) virt); [lia |].
  pose proof (page_base_spec virt) as Hpb.
  destruct (range_loop m cr3 (virt + size) (2 ^ 52 + 1) (page_base virt)) as (b & -> & Hb);
    [zdm | zdm | lia | zdm | lia |].
  exists b. split; [done |]. rewrite Hb. split; intros Hall a Ha; [apply Hall; zdm |].
  destruct (decide (virt ≤ a)) as [| Hlt]; [apply Hall; lia |].
  rewrite (user_page_ok_same m cr3 a virt); [apply Hall; lia |].
  rewrite !addr_of_spec. do 2 f_equal. zdm.
Qed.
Lemma range_rejects m cr3 virt size :
  0 ≤ virt < 18446744073709551616 → 0 ≤ size < 18446744073709551616 →
  size = 0 ∨ 18446744073709551616 ≤ virt + size → vmm_user_range_ok m cr3 virt size = Some false.
Proof.
  intros Hv Hs H. unfold vmm_user_range_ok. destruct (Z.eqb_spec size 0); [done |].
  destruct (Z.ltb_spec (u64 (virt + size)) virt) as [| Hge]; [done |]. exfalso. ulia.
Qed.

(** Whatever the range, the answer 1 means that every byte is accessible; a
    range that ends within the last page never gets it. *)
Lemma range_true m cr3 e n page :
  0 ≤ page → page mod 4096 = 0 → iterZ n (range_step m cr3 e) page = inr true →
  ∀ a, page ≤ a < e → vmm_user_page_ok m cr3 a = true.
Proof.
  intros Hp Ha. remember (Z.to_nat n) as k eqn:Hk. revert n page Hp Ha Hk.
  induction k as [|k IH]; intros n page Hp Ha Hk E a Har; [by rewrite iterZ_nonpos in E by lia |].
  rewrite iterZ_step in E by lia. unfold range_step at 1, PAGE_SIZE in E.
  destruct (Z.ltb_spec page e) as [Hlt | Hge]; [| lia].
  destruct (vmm_user_page_ok m cr3 page) eqn:Eok; [| done].
  destruct (decide (a < page + 4096)) as [Hin | Hout].
  - rewrite <- Eok. apply user_page_ok_same. rewrite !addr_of_spec. do 2 f_equal. zdm.
  - apply (IH (n - 1) (u64 (page + 4096))); [apply u64_range | ulia | lia | done | ulia].
Qed.
Lemma user_range_true m cr3 virt size :
  0 ≤ virt → 0 ≤ size < 2 ^ 64 → vmm_user_range_ok m cr3 virt size = Some true →
  virt + size < 2 ^ 64 ∧ ∀ a, virt ≤ a < virt + size → vmm_user_page_ok m cr3 a = true.
Proof.
  intros Hv Hs. unfold vmm_user_range_ok. destruct (size =? 0); [done |].
  destruct (Z.ltb_spec (u64 (virt + size)) virt) as [| Hge]; [done |].
  destruct (iterZ _ _ _) as [| b] eqn:E; [done |]. intros [= ->].
  assert (virt + size < 2 ^ 64) as Hlt by (unfold u64 in Hge; zdm). split; [done |].
  rewrite u64_small in E by lia. pose proof (page_base_spec virt) as Hpb.
  intros a Ha. apply (range_true m cr3 (virt + size) _ (page_base virt)) with (a := a) in E; [done | zdm | zdm | zdm].
Qed.

(** The scan of [vmm_user_strlen]: everything before the result is mapped for
    the user and not NUL. *)
Definition str_prefix (m : pmem) (cr3 virt i : Z) : Prop :=
  ∀ j, 0 ≤ j < i → vmm_user_page_ok m cr3 (u64 (virt + j)) = true ∧ vload m cr3 (u64 (virt + j)) ≠ 0.

Lemma user_strlen_spec m cr3 virt max_len :
  let r := vmm_user_strlen m cr3 virt max_len in
  r = -1 ∨ (0 ≤ r < max_len ∧ str_prefix m cr3 virt r ∧
            vmm_user_page_ok m cr3 (u64 (virt + r)) = true ∧ vload m cr3 (u64 (virt + r)) = 0).
Proof.
  cbn zeta. unfold vmm_user_strlen. destruct (vmm_user_page_ok m cr3 (page_base virt)) eqn:E0; [| by left].
  cbn [negb]. set (Q := λ r, r = -1 ∨ (0 ≤ r < max_len ∧ str_prefix m cr3 virt r ∧
    vmm_user_page_ok m cr3 (u64 (virt + r)) = true ∧ vload m cr3 (u64 (virt + r)) = 0)).
  match goal with |- context [for_range 0 max_len ?f _] => set (body := f) end.
  assert (∀ i page, vmm_user_page_ok m cr3 page = true →
    (if page_base (u64 (virt + i)) =? page then true else vmm_user_page_ok m cr3 (page_base (u64 (virt + i)))) =
    vmm_user_page_ok m cr3 (u64 (virt + i))) as Hok.
  { intros i page Hp. destruct (Z.eqb_spec (page_base (u64 (virt + i))) page) as [Heq | _].
    - by rewrite <- user_page_ok_base, Heq.
    - by rewrite user_page_ok_base. }
  enough (match for_range 0 max_len body (page_base virt) with
          | inl p => vmm_user_page_ok m cr3 p = true ∧ str_prefix m cr3 virt (Z.max 0 max_len)
          | inr r => Q r end) as H.
  { destruct (for_range 0 max_len body (page_base virt)); [by left | done]. }
  apply (for_range_inv (λ i p, vmm_user_page_ok m cr3 p = true ∧ str_prefix m cr3 virt i)).
  - split; [done |]. intros j Hj. lia.
  - intros i p p' Hi [Hp Hpre]. unfold body. rewrite (Hok i p Hp).
    destruct (vmm_user_page_ok m cr3 (u64 (virt + i))) eqn:E; [| done]. cbn [negb].
    destruct (Z.eqb_spec (vload m cr3 (u64 (virt + i))) 0); [done |]. intros [= <-].
    split; [by rewrite user_page_ok_base |]. intros j Hj.
    destruct (decide (j = i)) as [-> |]; [done | apply Hpre; lia].
  - intros i p r Hi [Hp Hpre]. unfold body. rewrite (Hok i p Hp).
    destruct (vmm_user_page_ok m cr3 (u64 (virt + i))) eqn:E; cbn [negb].
    + destruct (Z.eqb_spec (vload m cr3 (u64 (virt + i))) 0); [| done]. intros [= <-]. by right.
    + intros [= <-]. by left.
Qed.

(** ** Address spaces *)
Lemma create_address_space_spec st p st' :
  vm_ok st → table_page st (kernel_pml4_phys st) →
  vmm_create_address_space st = (p, st') → p ≠ 0 →
  frame [] st st' ∧ table_page st' p ∧ ¬ table_page st p ∧
  ∀ j, 0 ≤ j < 512 → entry (mem st') p j = entry (mem st) (kernel_pml4_phys st) j.
Proof.
  intros Hok Hk Hrun Hne. unfold vmm_create_address_space in Hrun.
  destruct (alloc_table_page st) as [q s1] eqn:Ea.
  destruct (Z.eqb_spec q 0) as [-> | Hq]; [congruence |]. injection Hrun as <- <-.
  destruct (alloc_table_page_spec _ _ _ Hok Ea Hq) as (F & Hpg & Hfresh & _).
  destruct (fr_ok _ _ _ F Hok) as [Hm1 Hpm1]. rewrite (fr_kernel _ _ _ F). set (k := kernel_pml4_phys st) in *.
  assert (q ≠ k) as Hqk by congruence.
  assert (q + 4096 ≤ k ∨ k + 4096 ≤ q) as Hdis by (destruct Hpg as (? & _), Hk as (? & _); zdm).
  split; [| split; [done | split; [done |]]].
  - constructor; [| apply F | apply F |].
    + intros _. split; [by apply pmemcpy_ok | done].
    + intros r j Hr Hj Hn. cbn [mem set_mem]. rewrite <- (fr_entry _ _ _ F r j) by done. unfold entry.
      apply rd64_pmemcpy_other; [done | done | done |]. unfold PAGE_SIZE.
      apply page_disjoint; [apply Hpg | apply Hr | congruence | done].
  - intros j Hj. cbn [mem set_mem]. rewrite <- (fr_entry _ _ _ F k j) by (done || lmem).
    unfold entry, PAGE_SIZE. rewrite rd64_pmemcpy_in; [| done | lia | done | lia | lia]. f_equal. lia.
Qed.

(** Two roots whose level-4 slot for [v] agrees translate [v] alike when the
    tables below are kept. *)
(** ** The registers: no operation below [vmm_set_cr3] changes them *)
Definition regs (st : vmm_state) : Z * Z * Z * bool :=
  (cr3_reg st, efer st, kernel_pml4_phys st, nx_available st).
Definition keeps_regs {A} (c : vm A) : Prop := ∀ st, regs (c st).2 = regs st.

Lemma regs_alloc_page st : regs (alloc_page st).2 = regs st.
Proof. unfold alloc_page. by case_match. Qed.
Lemma regs_alloc_table_page st : regs (alloc_table_page st).2 = regs st.
Proof.
  unfold alloc_table_page. pose proof (regs_alloc_page st) as E.
  destruct (alloc_page st) as [p st1]. cbn [snd] in E. by destruct (p =? 0).
Qed.
Lemma keeps_bind {A B} (c : vm A) (k : A → vm B) :
  keeps_regs c → (∀ x, keeps_regs (k x)) → keeps_regs (c ≫= k).
Proof.
  intros Hc Hk st. unfold mbind, vm_bind. specialize (Hc st). destruct (c st) as [[x |] st1]; cbn [snd] in *; [| done].
  by rewrite Hk.
Qed.
Lemma keeps_ensure_private c t i f : keeps_regs (ensure_private_entry c t i f).
Proof.
  intros st. unfold ensure_private_entry, copy_table_page.
  destruct (_ =? _); [done |]. destruct (negb _); [done |]. destruct (has _ _); [done |].
  match goal with |- context [alloc_page st] => pose proof (regs_alloc_page st) as E; destruct (alloc_page st) as [p st1] end.
  cbn [snd] in E. destruct (p =? 0) eqn:Ep; [done |]. by rewrite Ep.
Qed.
Lemma keeps_ensure_table t i f pf : keeps_regs (ensure_table t i f pf).
Proof.
  intros st. unfold ensure_table. destruct (negb _); [| by destruct (has f PTE_USER)].
  pose proof (regs_alloc_table_page st) as E. destruct (alloc_table_page st) as [p st1]. by destruct (p =? 0).
Qed.
Lemma keeps_split_huge t i pf : keeps_regs (split_huge t i pf).
Proof.
  intros st. unfold split_huge. destruct (_ && _); [| done].
  pose proof (regs_alloc_table_page st) as E. destruct (alloc_table_page st) as [p st1]. by destruct (p =? 0).
Qed.
Lemma keeps_map_walk c v p f : keeps_regs (map_page_walk c v p f).
Proof.
  unfold map_page_walk, map_upper, map_lower.
  repeat first [apply keeps_ensure_private | apply keeps_ensure_table | apply keeps_split_huge
    | apply keeps_bind; [| intros ?]]; done.
Qed.
Lemma regs_map_page_in c v p f st : regs (vmm_map_page_in c v p f st).2 = regs st.
Proof.
  unfold vmm_map_page_in. destruct (_ =? 0); [done |].
  match goal with |- context [map_page_walk ?a ?b ?x ?y st] =>
    pose proof (keeps_map_walk a b x y st) as E; destruct (map_page_walk a b x y st) as [[u |] st1] end; exact E.
Qed.
Lemma regs_create_address_space st : regs (vmm_create_address_space st).2 = regs st.
Proof.
  unfold vmm_create_address_space. pose proof (regs_alloc_table_page st) as E.
  destruct (alloc_table_page st) as [p st1]. by destruct (p =? 0).
Qed.
Lemma regs_free_slots below t st :
  (∀ rec c s, below = Some rec → regs (rec c s) = regs s) →
  regs (for_each 0 512 (free_slot below t) st) = regs st.
Proof.
  intros Hb. apply (for_each_inv (λ _ st', regs st' = regs st)); [done |]. intros i s _ E. unfold free_slot.
  destruct (negb _); [done |]. destruct (negb _); [done |]. destruct (has _ _); [done |].
  destruct below as [rec |]; [| exact E]. rewrite <- E, <- (Hb rec (addr_of (entry (mem s) t i)) s eq_refl). done.
Qed.
Lemma free_private_tables_eq level t st :
  free_private_tables level t st =
  for_each 0 512 (free_slot (match level with S (S _ as l) => Some (free_private_tables l) | _ => None end) t) st.
Proof. destruct level; reflexivity. Qed.
Lemma regs_free_private level t st : regs (free_private_tables level t st) = regs st.
Proof.
  revert t st. induction level as [|level IH]; intros t st; rewrite free_private_tables_eq;
    apply regs_free_slots; intros rec c s; [done |].
  destruct level as [|l]; [done |]. intros [= <-]. apply IH.
Qed.
Lemma regs_set_mem st m : regs (set_mem st m) = regs st.
Proof. done. Qed.
Lemma regs_free_page st a : regs (free_page st a) = regs st.
Proof. done. Qed.
Lemma regs_destroy_address_space c st : regs (vmm_destroy_address_space c st) = regs st.
Proof.
  unfold vmm_destroy_address_space. cbn zeta. case_match; [exact eq_refl |].
  rewrite regs_free_page, regs_free_private. exact eq_refl.
Qed.

Lemma same_root_same_walk S st st' c c' v :
  frame S st st' → path_ok st c v → (∀ q, q ∈ S.*1 → ¬ table_page st q) →
  table_page st' c' → addr_of c' = c' → addr_of c = c →
  entry (mem st') c' (PML4_INDEX v) = entry (mem st) c (PML4_INDEX v) →
  vmm_get_physical_in (mem st') c' v = vmm_get_physical_in (mem st) c v ∧
  vmm_user_page_ok (mem st') c' v = vmm_user_page_ok (mem st) c v.
Proof.
  intros F (Hc & Hch4 & Hp3) HS Hc' Ha' Ha He.
  assert (∀ q j, table_page st q → 0 ≤ j < 512 → entry (mem st') q j = entry (mem st) q j) as K.
  { intros q j Hq Hj. eapply frame_keep; [exact F | done | done |]. intros Hin. by apply (HS q). }
  unfold vmm_get_physical_in, vmm_user_page_ok. rewrite Ha', Ha, He, !user_bits_spec.
  destruct (Z.eqb_spec c' 0); [destruct Hc' as (_ & ? & _); lia |].
  destruct (Z.eqb_spec c 0); [destruct Hc as (_ & ? & _); lia |].
  destruct (has (entry (mem st) c (PML4_INDEX v)) PTE_PRESENT) eqn:E4; cbn [negb andb]; [| done].
  destruct (Hch4 E4) as [Ht3 _]. destruct (Hp3 eq_refl) as [Hch3 Hp2]. rewrite K by auto with cint.
  destruct (has (entry (mem st) _ (PDPT_INDEX v)) PTE_PRESENT) eqn:E3; cbn [negb andb].
  2: { by destruct (has _ PTE_USER). }
  destruct (Hch3 E3) as [Ht2 _]. specialize (Hp2 eq_refl). unfold path2_ok in Hp2. rewrite K by auto with cint.
  destruct (has (entry (mem st) _ (PD_INDEX v)) PTE_PRESENT) eqn:E2; cbn [negb andb].
  2: { by repeat destruct (has _ PTE_USER). }
  destruct (has (entry (mem st) _ (PD_INDEX v)) PTE_HUGE) eqn:Eh; [done |].
  destruct (Hp2 eq_refl E2) as [Ht1 _]. by rewrite K by auto with cint.
Qed.

(** ** Properties *)

(** C5: when [vmm_map_page_in] returns 0, every address of the page is
    translated to the requested frame at the same offset; the page passes the
    user-access check if and only if PTE_USER was requested; the memory and
    allocator invariants hold.  The hypothesis is that the tables already on
    the path are distinct tables in use; 2 MiB mappings on the way are split,
    shared tables copied. *)
Theorem vmm_map_page_in_correct cr3 virt phys flags st st' v :
  vm_ok st → path_ok st (addr_of cr3) virt →
  vmm_map_page_in cr3 virt phys flags st = (0, st') → addr_of v = addr_of virt →
  vm_ok st' ∧
  vmm_get_physical_in (mem st') cr3 v = addr_of phys + v mod 4096 ∧
  vmm_user_page_ok (mem st') cr3 v = has flags PTE_USER.
Proof.
  intros Hok Hp Hrun Hv.
  destruct (map_page_in_spec _ _ _ _ _ _ Hok Hp Hrun) as (t3 & t2 & t1 & Hw & Hok' & _ & He).
  destruct (leaf_entry phys flags) as (L1 & L2 & L3). pose proof (leaf_user phys flags) as L4. rewrite <- He in L1, L2, L3, L4.
  split; [done |]. split.
  - by rewrite (walked_translate _ _ _ _ _ _ _ _ Hw Hv L1), L2.
  - destruct (has flags PTE_USER) eqn:Hu.
    + eapply walked_user; [exact Hw | done | by rewrite has_user_andnot | done | auto].
    + eapply walked_no_user; [exact Hw | done | done].
Qed.

(** C15: what [vmm_user_range_ok] answers for every 64-bit address and size.
    An empty range and one that passes the end of the address space are
    refused.  For a range that ends below the last page it terminates and
    answers 1 exactly when every byte lies in a page that is present and
    user-accessible at all levels.  A range that ends within the last page is
    never accepted, whatever is mapped there: the loop variable wraps and the
    loop goes on from address 0 until it meets a page that is refused, as it
    does in every address space that protects anything at all. *)
Theorem vmm_user_range_ok_exact m cr3 virt size :
  0 ≤ virt < 18446744073709551616 → 0 ≤ size < 18446744073709551616 →
  (size = 0 ∨ 18446744073709551616 ≤ virt + size → vmm_user_range_ok m cr3 virt size = Some false) ∧
  (0 < size → virt + size ≤ 18446744073709547520 →
     ∃ b, vmm_user_range_ok m cr3 virt size = Some b ∧
          (b = true ↔ ∀ a, virt ≤ a < virt + size → vmm_user_page_ok m cr3 a = true)) ∧
  (0 < size → 18446744073709547520 < virt + size < 18446744073709551616 →
     vmm_user_range_ok m cr3 virt size ≠ Some true ∧
     ∀ a, 0 ≤ a < 18446744073709551616 → vmm_user_page_ok m cr3 a = false → vmm_user_range_ok m cr3 virt size = Some false).
Proof.
  intros Hv Hs. split; [by apply range_rejects |]. split; [intros; by apply range_exact; lia | intros; apply range_last; lia].
Qed.

(** [vmm_user_strlen] returns [n >= 0] exactly when the string at [virt]
    has its first NUL at offset [n < max_len] and every byte up to and
    including the NUL lies in a user-accessible page; otherwise it returns -1. *)
Theorem vmm_user_strlen_exact m cr3 virt max_len n :
  0 ≤ virt < 18446744073709551616 → 0 ≤ n →
  vmm_user_strlen m cr3 virt max_len = n ↔
  n < max_len ∧ str_prefix m cr3 virt n ∧
  vmm_user_page_ok m cr3 (u64 (virt + n)) = true ∧ vload m cr3 (u64 (virt + n)) = 0.
Proof.
  intros Hv Hn. split.
  - intros <-. destruct (user_strlen_spec m cr3 virt max_len) as [? | (? & ? & ?)]; [lia |].
    split; [lia | done].
  - intros (Hlt & Hpre & Hok & Hz). unfold vmm_user_strlen.
    assert (∀ j, 0 ≤ j ≤ n → vmm_user_page_ok m cr3 (u64 (virt + j)) = true) as Hall.
    { intros j Hj. destruct (decide (j = n)) as [-> |]; [done | apply Hpre; lia]. }
    pose proof (Hall 0 ltac:(lia)) as H0. rewrite Z.add_0_r, u64_small, <- user_page_ok_base in H0 by done.
    rewrite H0. cbn [negb].
    match goal with |- context [for_range 0 max_len ?f _] => set (body := f) end.
    enough (match for_range 0 max_len body (page_base virt) with
            | inl p => Z.max 0 max_len ≤ n | inr r => r = n end) as H.
    { destruct (for_range 0 max_len body (page_base virt)); [lia | done]. }
    apply (for_range_inv (λ i p, i ≤ n)); [done | |]; intros i p r Hi Hin; unfold body;
      rewrite (user_page_ok_base m cr3 (u64 (virt + i))), Hall by lia;
      (replace (if _ =? p then true else true) with true by (by case_match)); cbn [negb].
    + destruct (Z.eqb_spec (vload m cr3 (u64 (virt + i))) 0) as [| Hnz]; [done |]. intros _.
      assert (i ≠ n) by (intros ->; done). lia.
    + destruct (Z.eqb_spec (vload m cr3 (u64 (virt + i))) 0) as [Hz' |]; [| done]. intros [= <-].
      destruct (decide (i = n)); [done |]. destruct (Hpre i ltac:(lia)). done.
Qed.

(** a new address space translates every address as the kernel's does,
    with the same user-access verdict; its root is a page that was free, and
    no table of the kernel is modified. *)
Theorem vmm_create_address_space_correct st p st' v :
  vm_ok st → path_ok st (kernel_pml4_phys st) v →
  vmm_create_address_space st = (p, st') → p ≠ 0 →
  vm_ok st' ∧ ¬ table_page st p ∧
  vmm_get_physical_in (mem st') p v = vmm_get_physical_in (mem st) (kernel_pml4_phys st) v ∧
  vmm_user_page_ok (mem st') p v = vmm_user_page_ok (mem st) (kernel_pml4_phys st) v ∧
  ∀ q j, table_page st q → 0 ≤ j < 512 → entry (mem st') q j = entry (mem st) q j.
Proof.
  intros Hok Hp Hrun Hne. pose proof Hp as (Hk & _).
  destruct (create_address_space_spec _ _ _ Hok Hk Hrun Hne) as (F & Hpg & Hfresh & Hent).
  split; [by apply F |]. split; [done |].
  destruct (same_root_same_walk [] st st' (kernel_pml4_phys st) p v) as [H1 H2]; try done.
  - intros q Hq. by apply elem_of_nil in Hq.
  - by apply (table_page_addr st').
  - by apply (table_page_addr st).
  - apply Hent. auto with cint.
  - split; [done |]. split; [done |]. intros q j Hq Hj. apply (fr_entry _ _ _ F); [done | done | lmem].
Qed.

(** [vmm_unmap_page_in] on a mapped 4 KiB page returns its frame; the page
    is no longer translated, and every other slot of every table keeps its
    entry. *)
Theorem vmm_unmap_page_in_correct cr3 virt st flags t3 t2 t1 v :
  walked flags st (addr_of cr3) virt t3 t2 t1 → addr_of v = addr_of virt →
  let r := vmm_unmap_page_in cr3 virt st in
  r.1 = addr_of (entry (mem st) t1 (PT_INDEX virt)) ∧
  vmm_get_physical_in (mem r.2) cr3 v = 0 ∧
  frame [(t1, PT_INDEX virt)] st r.2.
Proof.
  intros [[P4 A4] [P3 A3] (P2 & H2 & A2) _ Hpg Hnd] Hv.
  apply Forall_cons in Hpg as [Ht1 Hpg]. apply Forall_cons in Hpg as [Ht2 Hpg].
  apply Forall_cons in Hpg as [Ht3 Hpg]. apply Forall_inv in Hpg as Ht4.
  destruct (same_page_indices (addr_of virt) virt (addr_of_idemp virt)) as (E4 & E3 & E2 & E1).
  assert (addr_of cr3 ≠ 0) as Hne by (destruct Ht4 as (_ & ? & _); lia).
  cbn zeta. unfold vmm_unmap_page_in. rewrite E4, E3, E2, E1.
  rewrite (proj2 (Z.eqb_neq _ _) Hne), P4, A4, P3, A3, P2, H2, A2. cbn [negb fst snd].
  set (st' := set_mem st _). pose proof (frame_store st t1 (PT_INDEX virt) 0 Ht1 (PT_INDEX_range virt)) as F.
  split; [done |]. split; [| done].
  apply NoDup_cons in Hnd as [Hn1 _]. lmem.
  assert (∀ q j, q ≠ t1 → table_page st q → 0 ≤ j < 512 → entry (mem st') q j = entry (mem st) q j) as K.
  { intros q j Hq Hqt Hj. eapply frame_keep; [exact F | done | done |]. cbn. lmem. }
  unfold vmm_get_physical_in. destruct (same_page_indices v virt Hv) as (-> & -> & -> & ->).
  rewrite (proj2 (Z.eqb_neq _ _) Hne), !K, P4, A4, K, P3, A3, K, P2, H2, A2 by auto with cint.
  cbn [negb]. unfold st'. cbn [mem set_mem]. by rewrite entry_set_same.
Qed.

(** ** Witnesses *)

(** Four tables at 0x1000..0x4000 map the user page 0x5000 to the frame
    0x9000, which holds the string "AB". *)
Definition demo_mem : pmem :=
  wr64 (wr64 (wr64 (wr64 (wr64 (λ _, 0) 0x1000 0x2007) 0x2000 0x3007) 0x3000 0x4007) 0x4028 0x9007) 0x9000 0x4241.
Definition demo_vmm : vmm_state := Vmm demo_mem demo_state 0x1000 0 0x1000 false.

Lemma demo_vmm_ok : vm_ok demo_vmm.
Proof. split; [repeat apply wr64_ok; intros x; split; lia | apply demo_state_ok]. Qed.

Lemma demo_table t : t = 0x1000 ∨ t = 0x2000 ∨ t = 0x3000 ∨ t = 0x4000 → table_page demo_vmm t.
Proof. intros [-> | [-> | [-> | ->]]]; split_and!; vm_compute; reflexivity. Qed.

Lemma demo_entries :
  entry (mem demo_vmm) 0x1000 (PML4_INDEX 0x5000) = 0x2007 ∧
  entry (mem demo_vmm) 0x2000 (PDPT_INDEX 0x5000) = 0x3007 ∧
  entry (mem demo_vmm) 0x3000 (PD_INDEX 0x5000) = 0x4007.
Proof. split_and!; vm_compute; reflexivity. Qed.

Lemma demo_path : path_ok demo_vmm 0x1000 0x5000.
Proof.
  destruct demo_entries as (E4 & E3 & E2). unfold path_ok, path3_ok, path2_ok, child_ok. cbn zeta. rewrite E4.
  change (addr_of 0x2007) with 0x2000. rewrite E3. change (addr_of 0x3007) with 0x3000. rewrite E2.
  change (addr_of 0x4007) with 0x4000.
  split; [apply demo_table; tauto |].
  split; [| intros _; split; [| intros _ _]]; (intros _; split; [apply demo_table; tauto | lmem]).
Qed.

Lemma demo_walked : walked PTE_USER demo_vmm 0x1000 0x5000 0x2000 0x3000 0x4000.
Proof.
  constructor.
  - split; vm_compute; reflexivity.
  - split; vm_compute; reflexivity.
  - split_and!; vm_compute; reflexivity.
  - split_and!; intros _; vm_compute; reflexivity.
  - fall; apply demo_table; tauto.
  - apply (bool_decide_unpack _). vm_compute. exact I.
Qed.

Lemma vmm_map_page_in_correct_witness :
  vmm_get_physical_in (mem (vmm_map_page_in 0x1000 0x6000 0xA000 PTE_USER demo_vmm).2) 0x1000 0x6123 = 0xA123 ∧
  vmm_user_page_ok (mem (vmm_map_page_in 0x1000 0x6000 0xA000 0 demo_vmm).2) 0x1000 0x6123 = false.
Proof.
  destruct (vmm_map_page_in_correct 0x1000 0x6000 0xA000 PTE_USER demo_vmm
    (vmm_map_page_in 0x1000 0x6000 0xA000 PTE_USER demo_vmm).2 0x6123) as (_ & H & _).
  - apply demo_vmm_ok.
  - apply demo_path.
  - rewrite (surjective_pairing (vmm_map_page_in _ _ _ _ _)) at 1. f_equal.
  - reflexivity.
  - split; [exact H |]. destruct (vmm_map_page_in_correct 0x1000 0x6000 0xA000 0 demo_vmm
      (vmm_map_page_in 0x1000 0x6000 0xA000 0 demo_vmm).2 0x6123) as (_ & _ & U).
    + apply demo_vmm_ok.
    + apply demo_path.
    + rewrite (surjective_pairing (vmm_map_page_in _ _ _ _ _)) at 1. f_equal.
    + reflexivity.
    + exact U.
Defined.

Lemma vmm_user_range_ok_exact_witness :
  ∃ b, vmm_user_range_ok demo_mem 0x1000 0x5800 0x800 = Some b ∧
       (b = true ↔ ∀ a, 0x5800 ≤ a < 0x5800 + 0x800 → vmm_user_page_ok demo_mem 0x1000 a = true).
Proof. apply (vmm_user_range_ok_exact demo_mem 0x1000 0x5800 0x800); lia. Defined.

Lemma vmm_user_strlen_exact_witness : vmm_user_strlen demo_mem 0x1000 0x5000 64 = 2.
Proof.
  apply (vmm_user_strlen_exact demo_mem 0x1000 0x5000 64 2); [lia | lia |].
  split; [lia |]. split; [| split; vm_compute; reflexivity].
  intros j Hj. assert (j = 0 ∨ j = 1) as [-> | ->] by lia; (split; vm_compute; [reflexivity | discriminate]).
Defined.

Lemma vmm_create_address_space_correct_witness :
  vmm_get_physical_in (mem (vmm_create_address_space demo_vmm).2) (300 * PAGE_SIZE) 0x5123 =
  vmm_get_physical_in demo_mem 0x1000 0x5123.
Proof.
  destruct (vmm_create_address_space_correct demo_vmm (300 * PAGE_SIZE)
    (vmm_create_address_space demo_vmm).2 0x5123) as (_ & _ & H & _).
  - apply demo_vmm_ok.
  - apply (path_ok_same_page _ _ 0x5000); [reflexivity | apply demo_path].
  - rewrite (surjective_pairing (vmm_create_address_space _)) at 1. f_equal.
  - discriminate.
  - exact H.
Defined.

Lemma vmm_unmap_page_in_correct_witness :
  (vmm_unmap_page_in 0x1000 0x5000 demo_vmm).1 = 0x9000 ∧
  vmm_get_physical_in (mem (vmm_unmap_page_in 0x1000 0x5000 demo_vmm).2) 0x1000 0x5123 = 0.
Proof.
  destruct (vmm_unmap_page_in_correct 0x1000 0x5000 demo_vmm PTE_USER 0x2000 0x3000 0x4000 0x5123) as (H1 & H2 & _).
  - apply demo_walked.
  - reflexivity.
  - split; [rewrite H1; vm_compute; reflexivity | exact H2].
Defined.
End Vmm.
