(* ===== verification/Demo.v ===== *)
(** * A small address space

    Four tables at 0x1000..0x4000 that map one user page, for the examples:
    what they translate, in every memory that holds the tables. *)
From S2P Require Import Prelude.
From S2P Require Import PhysMem.
From S2P Require Import Vmm.
Import Vmm.

Module Demo.
Definition one_page (v f : Z) : pmem :=
  wr64 (wr64 (wr64 (wr64 (λ _, 0) (0x1000 + 8 * PML4_INDEX v) 0x2007) (0x2000 + 8 * PDPT_INDEX v) 0x3007)
    (0x3000 + 8 * PD_INDEX v) 0x4007) (0x4000 + 8 * PT_INDEX v) (f + 7).
(** The frame can be an entry with the bits P, W and U. *)
Definition frame_ok (f : Z) : Prop :=
  0x5000 ≤ f < 2 ^ 52 ∧ addr_of (f + 7) = f ∧ user_bits (f + 7) = true ∧ has (f + 7) PTE_PRESENT = true.
Definition has_tables (m : pmem) (v f : Z) : Prop := ∀ x, 0x1000 ≤ x < 0x5000 → m x = one_page v f x.

Lemma one_entries m v f i :
  has_tables m v f → frame_ok f → 0 ≤ i < 512 →
  entry m 0x1000 i = (if i =? PML4_INDEX v then 0x2007 else 0) ∧ entry m 0x2000 i = (if i =? PDPT_INDEX v then 0x3007 else 0) ∧
  entry m 0x3000 i = (if i =? PD_INDEX v then 0x4007 else 0) ∧ entry m 0x4000 i = (if i =? PT_INDEX v then f + 7 else 0).
Proof.
  intros Hm (Hf & _) Hi. pose proof (PML4_INDEX_range v). pose proof (PDPT_INDEX_range v). pose proof (PD_INDEX_range v). pose proof (PT_INDEX_range v).
  unfold entry, rd64. rewrite !(le_read_ext 8 m (one_page v f)) by (intros x Hx; apply Hm; lia). clear Hm.
  fold (rd64 (one_page v f) (0x1000 + 8 * i)). fold (rd64 (one_page v f) (0x2000 + 8 * i)).
  fold (rd64 (one_page v f) (0x3000 + 8 * i)). fold (rd64 (one_page v f) (0x4000 + 8 * i)).
  assert (∀ b, rd64 (λ _, 0) b = 0) as Z0 by done. unfold one_page. split_and!.
  - rewrite !(rd64_wr64_other (wr64 _ _ _)) by lia. destruct (Z.eqb_spec i (PML4_INDEX v)) as [-> |]; [by rewrite rd64_wr64_same | by rewrite rd64_wr64_other by lia].
  - rewrite !(rd64_wr64_other (wr64 (wr64 _ _ _) _ _)) by lia.
    destruct (Z.eqb_spec i (PDPT_INDEX v)) as [-> |]; [by rewrite rd64_wr64_same | by rewrite !rd64_wr64_other by lia].
  - rewrite (rd64_wr64_other (wr64 (wr64 (wr64 _ _ _) _ _) _ _)) by lia.
    destruct (Z.eqb_spec i (PD_INDEX v)) as [-> |]; [by rewrite rd64_wr64_same | by rewrite !rd64_wr64_other by lia].
  - destruct (Z.eqb_spec i (PT_INDEX v)) as [-> |]; [rewrite rd64_wr64_same; apply u64_small; lia | by rewrite !rd64_wr64_other by lia].
Qed.

(** Which addresses the tables translate. *)
Definition in_page (v a : Z) : bool :=
  (PML4_INDEX a =? PML4_INDEX v) && (PDPT_INDEX a =? PDPT_INDEX v) && (PD_INDEX a =? PD_INDEX v) && (PT_INDEX a =? PT_INDEX v).
Lemma one_walk m v f a :
  has_tables m v f → frame_ok f →
  vmm_get_physical_in m 0x1000 a = (if in_page v a then f + a mod 4096 else 0) ∧ vmm_user_page_ok m 0x1000 a = in_page v a.
Proof.
  intros Hm Hf. pose proof Hf as (Hr & Ha & Hu & Hp). unfold in_page, vmm_get_physical_in, vmm_user_page_ok.
  change (Z.land 0x1000 PTE_ADDR_MASK) with 0x1000.
  destruct (one_entries m v f (PML4_INDEX a) Hm Hf (PML4_INDEX_range a)) as (-> & _).
  destruct (one_entries m v f (PDPT_INDEX a) Hm Hf (PDPT_INDEX_range a)) as (_ & E3 & _).
  destruct (one_entries m v f (PD_INDEX a) Hm Hf (PD_INDEX_range a)) as (_ & _ & E2 & _).
  destruct (one_entries m v f (PT_INDEX a) Hm Hf (PT_INDEX_range a)) as (_ & _ & _ & E1).
  destruct (PML4_INDEX a =? _); [| done]. change (Z.land 0x2007 PTE_ADDR_MASK) with 0x2000. rewrite E3.
  destruct (PDPT_INDEX a =? _); [| done]. change (Z.land 0x3007 PTE_ADDR_MASK) with 0x3000. rewrite E2.
  destruct (PD_INDEX a =? _); [| done]. change (Z.land 0x4007 PTE_ADDR_MASK) with 0x4000. rewrite E1.
  destruct (PT_INDEX a =? _); [| done]. rewrite Hp, Hu, Ha, land_fff. split; [| done].
  change (negb true) with false. change (negb (has 0x2007 PTE_PRESENT)) with false. change (negb (has 0x3007 PTE_PRESENT)) with false.
  change (negb (has 0x4007 PTE_PRESENT)) with false. change (has 0x4007 PTE_HUGE) with false. change (0x1000 =? 0) with false. cbn [andb].
  apply u64_small. pose proof (Z.mod_pos_bound a 4096 ltac:(lia)). lia.
Qed.

Lemma in_page_offset v j : v mod 4096 = 0 → 0 ≤ j < 4096 → in_page v (v + j) = true.
Proof.
  intros Hv Hj. unfold in_page. destruct (same_page_indices (v + j) v) as (-> & -> & -> & ->); [| lia].
  rewrite !addr_of_spec. do 2 f_equal. zdm.
Qed.
End Demo.
