(* ===== verification/CString.v ===== *)
(** * The kernel's string library (kernel/lib/string.c)

    A [char*] that points into an array is the suffix of the array that starts
    there; a read or write past the end of the array has no result ([None]).
    Characters are unsigned bytes.  [cstr] is the string an array holds; the
    properties relate the routines to it. *)
From S2P Require Import Prelude.

Module CString.

(** ** Operations *)
Fixpoint strlen (str : list Z) : option Z :=
  match str with
  | [] => None
  | c :: rest => if c =? 0 then Some 0 else n ← strlen rest; Some (n + 1)
  end.

Fixpoint strcmp (s1 s2 : list Z) : option Z :=
  match s1, s2 with
  | c1 :: r1, c2 :: r2 =>
      if negb (c1 =? 0) && (c1 =? c2) then strcmp r1 r2 else Some (c1 - c2)
  | _, _ => None
  end.

(** [n] is consulted before either string is read. *)
Fixpoint strncmp (s1 s2 : list Z) (n : nat) {struct n} : option Z :=
  match n with
  | O => Some 0
  | S n' =>
      match s1, s2 with
      | c1 :: r1, c2 :: r2 =>
          if negb (c1 =? 0) && (c1 =? c2) then strncmp r1 r2 n' else Some (c1 - c2)
      | _, _ => None
      end
  end.

(** The result is the array [dest] points into, after the stores. *)
Fixpoint strcpy (dest src : list Z) : option (list Z) :=
  match dest, src with
  | _ :: d, c :: s => if c =? 0 then Some (0 :: d) else rest ← strcpy d s; Some (c :: rest)
  | _, _ => None
  end.

(** The second loop of [strncpy]: [while (n--) *dest++ = 0]. *)
Fixpoint zero_fill (dest : list Z) (n : nat) : option (list Z) :=
  match n with
  | O => Some dest
  | S n' => match dest with [] => None | _ :: d => rest ← zero_fill d n'; Some (0 :: rest) end
  end.

(** The NUL that ends the first loop is stored without decrementing [n]. *)
Fixpoint strncpy (dest src : list Z) (n : nat) {struct n} : option (list Z) :=
  match n with
  | O => Some dest
  | S n' =>
      match dest, src with
      | _ :: d, c :: s =>
          if c =? 0 then rest ← zero_fill d n; Some (0 :: rest)
          else rest ← strncpy d s n'; Some (c :: rest)
      | _, _ => None
      end
  end.

Fixpoint strcat (dest src : list Z) : option (list Z) :=
  match dest with
  | [] => None
  | c :: d => if c =? 0 then strcpy dest src else rest ← strcat d src; Some (c :: rest)
  end.

(** [memset] and [memcpy] on arrays the pointer points into. *)
Fixpoint memset (ptr : list Z) (value : Z) (num : nat) : option (list Z) :=
  match num with
  | O => Some ptr
  | S n => match ptr with [] => None | _ :: p => rest ← memset p value n; Some (u8 value :: rest) end
  end.

Fixpoint memcpy (dest src : list Z) (n : nat) : option (list Z) :=
  match n with
  | O => Some dest
  | S n' =>
      match dest, src with
      | _ :: d, c :: s => rest ← memcpy d s n'; Some (c :: rest)
      | _, _ => None
      end
  end.

(** ** What an array means as a string *)
Fixpoint cstr (s : list Z) : list Z :=
  match s with [] => [] | c :: r => if c =? 0 then [] else c :: cstr r end.

Definition terminated (s : list Z) : Prop := 0 ∈ s.

(** Dictionary order on byte strings, the order [strcmp] promises. *)
Fixpoint lex_lt (a b : list Z) : Prop :=
  match a, b with
  | [], _ :: _ => True
  | x :: a', y :: b' => x < y ∨ x = y ∧ lex_lt a' b'
  | _, _ => False
  end.

(** ** Lemmas *)
Lemma terminated_cons c s : c ≠ 0 → terminated (c :: s) → terminated s.
Proof. intros Hc [H | H]%elem_of_cons; [congruence | done]. Qed.

Lemma terminated_decomp s : terminated s → ∃ t, s = cstr s ++ 0 :: t.
Proof.
  induction s as [| c s IH]; intros Ht; [by apply elem_of_nil in Ht |]. cbn.
  destruct (Z.eqb_spec c 0) as [-> | Hc]; [by exists s |].
  destruct IH as [t Hs]; [by eapply terminated_cons |]. exists t. cbn. by rewrite <- Hs.
Qed.

Lemma cstr_no_nul s : 0 ∉ cstr s.
Proof.
  induction s as [| c s IH]; cbn; [apply not_elem_of_nil |].
  destruct (Z.eqb_spec c 0); [apply not_elem_of_nil | lmem].
Qed.

Lemma cstr_app_nul a t : 0 ∉ a → cstr (a ++ 0 :: t) = a.
Proof.
  induction a as [| c a IH]; intros Ha; [done |]. cbn. apply not_elem_of_cons in Ha as [Hc Ha].
  destruct (Z.eqb_spec c 0); [congruence |]. by rewrite IH.
Qed.

Lemma strlen_cstr s : terminated s → strlen s = Some (zlen (cstr s)).
Proof.
  induction s as [| c s IH]; intros Ht; [by apply elem_of_nil in Ht |]. cbn.
  destruct (Z.eqb_spec c 0) as [-> | Hc]; [done |].
  rewrite IH by (by eapply terminated_cons). cbn. by rewrite zlen_cons.
Qed.

Lemma strlen_unterminated s : ¬ terminated s → strlen s = None.
Proof.
  induction s as [| c s IH]; intros Ht; [done |]. apply not_elem_of_cons in Ht as [Hc Ht]. cbn.
  destruct (Z.eqb_spec c 0); [congruence |]. by rewrite IH.
Qed.

Lemma zero_fill_spec d n : (n ≤ length d)%nat → zero_fill d n = Some (replicate n 0 ++ drop n d).
Proof.
  revert d. induction n as [| n IH]; intros [| x d] Hn; cbn in *; try done; try lia.
  by rewrite IH by lia.
Qed.

Lemma zero_fill_short d n : (length d < n)%nat → zero_fill d n = None.
Proof.
  revert d. induction n as [| n IH]; intros [| x d] Hn; cbn in *; try done; try lia.
  by rewrite IH by lia.
Qed.

Lemma memset_spec p v n : (n ≤ length p)%nat → memset p v n = Some (replicate n (u8 v) ++ drop n p).
Proof.
  revert p. induction n as [| n IH]; intros [| x p] Hn; cbn in *; try done; try lia.
  by rewrite IH by lia.
Qed.

Lemma memcpy_spec d s n :
  (n ≤ length d)%nat → (n ≤ length s)%nat → memcpy d s n = Some (take n s ++ drop n d).
Proof.
  revert d s. induction n as [| n IH]; intros [| x d] [| y s] Hd Hs; cbn in *; try done; try lia.
  by rewrite IH by lia.
Qed.

Lemma strcpy_app d a t :
  0 ∉ a → (length a < length d)%nat →
  strcpy d (a ++ 0 :: t) = Some (a ++ 0 :: drop (S (length a)) d).
Proof.
  revert d. induction a as [| c a IH]; intros [| x d] Ha Hd; cbn in *; try lia; [done |].
  apply not_elem_of_cons in Ha as [Hc Ha]. destruct (Z.eqb_spec c 0); [congruence |].
  rewrite IH by (done || lia). done.
Qed.

Lemma strncpy_short d a t n :
  0 ∉ a → (length a < n)%nat → (n < length d)%nat →
  strncpy d (a ++ 0 :: t) n = Some (a ++ replicate (S (n - length a)) 0 ++ drop (S n) d).
Proof.
  revert d n. induction a as [| c a IH]; intros [| x d] [| n] Ha Hn Hd; cbn [length app strncpy] in *; try lia.
  - cbn [Z.eqb]. rewrite zero_fill_spec by lia. done.
  - apply not_elem_of_cons in Ha as [Hc Ha]. destruct (Z.eqb_spec c 0); [congruence |].
    rewrite IH by (done || lia). done.
Qed.

Lemma strncpy_long d s n :
  0 ∉ take n s → (n ≤ length s)%nat → (n ≤ length d)%nat →
  strncpy d s n = Some (take n s ++ drop n d).
Proof.
  revert d s. induction n as [| n IH]; intros [| x d] [| c s] Ha Hs Hd; cbn [length take strncpy] in *; try lia; try done.
  apply not_elem_of_cons in Ha as [Hc Ha]. destruct (Z.eqb_spec c 0); [congruence |].
  rewrite IH by (done || lia). done.
Qed.

Lemma strncpy_overrun_aux d a t n :
  0 ∉ a → (length a < n)%nat → length d = n → strncpy d (a ++ 0 :: t) n = None.
Proof.
  revert d n. induction a as [| c a IH]; intros [| x d] [| n] Ha Hn Hd; cbn [length app strncpy] in *; try lia.
  - cbn [Z.eqb]. rewrite zero_fill_short by lia. done.
  - apply not_elem_of_cons in Ha as [Hc Ha]. destruct (Z.eqb_spec c 0); [congruence |].
    by rewrite IH by (done || lia).
Qed.

Lemma take_cstr_no_nul s n : terminated s → (n ≤ length (cstr s))%nat → 
  take n s = take n (cstr s) ∧ (0 ∉ take n s) ∧ (n ≤ length s)%nat.
Proof.
  intros Ht Hn. destruct (terminated_decomp s Ht) as [t Hs].
  assert (take n s = take n (cstr s)) as E by (rewrite Hs at 1; by rewrite take_app_le by lia).
  split; [done |]. split; [| rewrite Hs, length_app; lia].
  rewrite E. intros H. apply (cstr_no_nul s). apply elem_of_take in H as (i & Hi & _). by eapply list_elem_of_lookup_2.
Qed.

(** The idiom [strncpy(buf, s, n); buf[n] = 0] on a buffer of more than [n]
    bytes: the buffer then holds the first [n] characters of the string. *)
Lemma strncpy_truncates d s n d' :
  terminated s → (n < length d)%nat → strncpy d s n = Some d' →
  length d' = length d ∧ cstr (<[n := 0]> d') = take n (cstr s).
Proof.
  intros Ht Hd Hrun. destruct (terminated_decomp s Ht) as [t Hs]. pose proof (cstr_no_nul s) as Hnn.
  destruct (decide (length (cstr s) < n)%nat) as [Hlt | Hge].
  - rewrite Hs, strncpy_short in Hrun by (done || lia). apply (inj Some) in Hrun as <-.
    split; [rewrite !length_app, length_replicate, length_drop; lia |].
    rewrite insert_app_r_alt by lia. rewrite take_ge by lia.
    replace (S (n - length (cstr s))) with (1 + (n - length (cstr s)))%nat by lia.
    rewrite replicate_add. change (replicate 1 0) with [0]. cbn [app].
    destruct (n - length (cstr s))%nat eqn:E; [lia |]. cbn [insert list_insert]. by apply cstr_app_nul.
  - destruct (take_cstr_no_nul s n Ht ltac:(lia)) as (E & Hz & Hl).
    rewrite strncpy_long in Hrun by (done || lia). injection Hrun as <-.
    split; [rewrite length_app, length_take, length_drop; lia |].
    rewrite insert_app_r_alt by (rewrite length_take; lia).
    rewrite length_take, Nat.min_l, Nat.sub_diag by lia.
    destruct (drop n d) as [| y r] eqn:Ed.
    { apply (f_equal length) in Ed. rewrite length_drop in Ed. cbn in Ed. lia. }
    cbn [insert list_insert]. rewrite cstr_app_nul by done. done.
Qed.

(** ** Properties *)

(** on terminated strings [strcmp] stays inside both arrays, its result is
    zero exactly for equal strings and negative exactly when the first string
    precedes the second in dictionary order. *)
Theorem strcmp_correct s1 s2 :
  terminated s1 → terminated s2 → Forall is_byte s1 → Forall is_byte s2 →
  ∃ r, strcmp s1 s2 = Some r ∧
       (r = 0 ↔ cstr s1 = cstr s2) ∧ (r < 0 ↔ lex_lt (cstr s1) (cstr s2)).
Proof.
  revert s2. induction s1 as [| c1 s1 IH]; intros [| c2 s2] H1 H2 B1 B2;
    try (by apply elem_of_nil in H1); try (by apply elem_of_nil in H2). cbn.
  apply Forall_cons in B1 as [Hb1 B1]. apply Forall_cons in B2 as [Hb2 B2].
  unfold is_byte in Hb1, Hb2.
  destruct (Z.eqb_spec c1 0) as [-> | Hc1]; cbn.
  { exists (0 - c2). split; [done |]. destruct (Z.eqb_spec c2 0); cbn; split; split; (done || lia). }
  destruct (Z.eqb_spec c1 c2) as [<- | Hne].
  - destruct (Z.eqb_spec c1 0); [done |].
    destruct (IH s2) as (r & -> & Heq & Hlt); [by eapply terminated_cons.. | done | done |].
    exists r. split; [done |]. rewrite Heq, Hlt. cbn. split; [split; congruence |]. split; [auto |].
    intros [? | [_ ?]]; [lia | done].
  - exists (c1 - c2). split; [done |]. destruct (Z.eqb_spec c2 0) as [-> |]; cbn.
    + split; [split; (done || lia) | split; lia].
    + split; [split; [lia | congruence] |]. split; [left; lia | intros [? | [? _]]; [lia | done]].
Qed.

(** [strncpy(buf, s, n)] followed by [buf[n] = 0] on a buffer of at least
    [n + 1] bytes stays inside the buffer and leaves the first [n] characters
    of the string. *)
Theorem strncpy_bounded d s n :
  terminated s → (n < length d)%nat →
  ∃ d', strncpy d s n = Some d' ∧ length d' = length d ∧ cstr (<[n := 0]> d') = take n (cstr s).
Proof.
  intros Ht Hd. destruct (terminated_decomp s Ht) as [t Hs]. pose proof (cstr_no_nul s) as Hnn.
  assert (∃ d', strncpy d s n = Some d') as [d' Hrun].
  { destruct (decide (length (cstr s) < n)%nat).
    - rewrite Hs, strncpy_short by (done || lia). eauto.
    - destruct (take_cstr_no_nul s n Ht ltac:(lia)) as (_ & ? & ?). rewrite strncpy_long by (done || lia). eauto. }
  exists d'. split; [done |]. by apply (strncpy_truncates d s n).
Qed.

(** a buffer of exactly [n] bytes is overrun by [strncpy(buf, s, n)]
    whenever the string is shorter than [n]: one byte past the end is
    written, unlike the standard routine of that name. *)
Theorem strncpy_overruns d s n :
  terminated s → (length (cstr s) < n)%nat → length d = n → strncpy d s n = None.
Proof.
  intros Ht Hl Hd. destruct (terminated_decomp s Ht) as [t Hs]. rewrite Hs.
  apply strncpy_overrun_aux; [apply cstr_no_nul | done | done].
Qed.

(** [strcat] into an array with room for both strings and a NUL stays
    inside it and leaves their concatenation. *)
Theorem strcat_correct d s :
  terminated d → terminated s → (length (cstr d) + length (cstr s) < length d)%nat →
  ∃ d', strcat d s = Some d' ∧ length d' = length d ∧ cstr d' = cstr d ++ cstr s.
Proof.
  intros Hd Hs Hroom. destruct (terminated_decomp s Hs) as [t Et]. pose proof (cstr_no_nul s) as Hnn.
  induction d as [| c d IH]; [by apply elem_of_nil in Hd |].
  cbn [strcat cstr length] in *. destruct (Z.eqb_spec c 0) as [-> | Hc].
  - rewrite Et, strcpy_app by (done || cbn in *; lia). rewrite <- Et. eexists. split; [done |].
    split; [rewrite length_app; cbn in *; rewrite length_drop; lia | by apply cstr_app_nul].
  - destruct IH as (d' & -> & Hl & Hcs); [by eapply terminated_cons | cbn in *; lia |].
    exists (c :: d'). split; [done |]. cbn. split; [lia |].
    destruct (Z.eqb_spec c 0); [done |]. by rewrite Hcs.
Qed.

(** ** Witnesses *)
Lemma strcmp_correct_witness :
  ∃ r, strcmp [97; 98; 0] [97; 99; 0; 5] = Some r ∧
       (r = 0 ↔ [97; 98] = [97; 99]) ∧ (r < 0 ↔ lex_lt [97; 98] [97; 99]).
Proof.
  apply (strcmp_correct [97; 98; 0] [97; 99; 0; 5]); [| | fall; split; lia..];
    apply (bool_decide_unpack _); vm_compute; exact I.
Defined.

Lemma strncpy_bounded_witness :
  ∃ d', strncpy [1; 1; 1; 1] [97; 98; 99; 100; 0] 3 = Some d' ∧ length d' = 4%nat ∧
        cstr (<[3%nat := 0]> d') = [97; 98; 99].
Proof.
  apply (strncpy_bounded [1; 1; 1; 1] [97; 98; 99; 100; 0] 3);
    [apply (bool_decide_unpack _); vm_compute; exact I | cbn; lia].
Defined.

Lemma strncpy_overruns_witness : strncpy [1; 1; 1; 1] [97; 0] 4 = None.
Proof.
  apply (strncpy_overruns [1; 1; 1; 1] [97; 0] 4);
    [apply (bool_decide_unpack _); vm_compute; exact I | cbn; lia | reflexivity].
Defined.

Lemma strcat_correct_witness :
  ∃ d', strcat [97; 0; 7; 7; 7] [98; 99; 0] = Some d' ∧ length d' = 5%nat ∧ cstr d' = [97; 98; 99].
Proof.
  apply (strcat_correct [97; 0; 7; 7; 7] [98; 99; 0]);
    [apply (bool_decide_unpack _); vm_compute; exact I.. | cbn; lia].
Defined.
End CString.
