(* ===== verification/Ata.v ===== *)
(** * The ATA PIO driver (kernel/drivers/ata.c)

    The controller is hardware: its ports are the operations of the class
    [PortIO], with no law assumed; the instructions [cli] and [sti] are those
    of [IrqFlag].  The driver is modelled at the level of single accesses; the
    properties speak of the log of accesses and of the two instructions it
    produces with any device. *)
From S2P Require Import Prelude.

Module Ata.
Class PortIO (hw : Type) := {
  inb : Z → hw → Z * hw;
  inw : Z → hw → Z * hw;
  outb : Z → Z → hw → hw;
  outw : Z → Z → hw → hw
}.

Class IrqFlag (hw : Type) := {
  cli : hw → hw;
  sti : hw → hw
}.

Definition ATA_REG_DATA : Z := 0x1F0.
Definition ATA_REG_SECCOUNT : Z := 0x1F2.
Definition ATA_REG_LBA_LOW : Z := 0x1F3.
Definition ATA_REG_LBA_MID : Z := 0x1F4.
Definition ATA_REG_LBA_HIGH : Z := 0x1F5.
Definition ATA_REG_DRIVE : Z := 0x1F6.
Definition ATA_REG_STATUS : Z := 0x1F7.
Definition ATA_REG_COMMAND : Z := 0x1F7.
Definition ATA_CMD_READ_PIO : Z := 0x20.
Definition ATA_CMD_WRITE_PIO : Z := 0x30.
Definition ATA_CMD_IDENTIFY : Z := 0xEC.
Definition ATA_STATUS_BSY : Z := 0x80.
Definition ATA_STATUS_DRQ : Z := 0x08.
Definition ATA_STATUS_ERR : Z := 0x01.
Definition ATA_TIMEOUT : Z := 1000000.

Section Driver.
Context {hw : Type} `{PortIO hw} `{IrqFlag hw}.

(** The driver's static variables and the machine below it. *)
Record ata_state := AtaState {
  device : hw;
  ata_available : Z;
  ata_sector_count : Z;
  ata_drive_select : Z
}.

Definition set_device (st : ata_state) (d : hw) : ata_state :=
  AtaState d (ata_available st) (ata_sector_count st) (ata_drive_select st).
Definition set_available (st : ata_state) (n : Z) : ata_state :=
  AtaState (device st) n (ata_sector_count st) (ata_drive_select st).

(** Poll the status port at most [ATA_TIMEOUT] times until [stop] holds:
    the loops of [ata_wait_bsy] and [ata_wait_drq]. *)
Definition poll_status (stop : Z → bool) (d : hw) : Z * hw :=
  match for_range 0 ATA_TIMEOUT
          (λ _ d, let '(s, d') := inb ATA_REG_STATUS d in if stop s then inr d' else inl d') d with
  | inl d' => (-1, d')
  | inr d' => (0, d')
  end.
Definition ata_wait_bsy : hw → Z * hw := poll_status (λ s, Z.land s ATA_STATUS_BSY =? 0).
Definition ata_wait_drq : hw → Z * hw := poll_status (λ s, negb (Z.land s ATA_STATUS_DRQ =? 0)).

Definition ata_is_available (st : ata_state) : Z := ata_available st.
Definition ata_get_sector_count (st : ata_state) : Z := ata_sector_count st.
Definition ata_select_drive (slave : Z) (st : ata_state) : ata_state :=
  AtaState (device st) (ata_available st) (ata_sector_count st)
           (if slave =? 0 then 0xE0 else 0xF0).

(** [for (i = 0; i < n; i++) word = inw(DATA)] *)
Fixpoint read_words (n : nat) (d : hw) : list Z * hw :=
  match n with
  | O => ([], d)
  | S n' => let '(w, d1) := inw ATA_REG_DATA d in
            let '(ws, d2) := read_words n' d1 in (u16 w :: ws, d2)
  end.

Definition write_words (ws : list Z) (d : hw) : hw := foldl (λ d w, outw ATA_REG_DATA w d) d ws.

(** The bytes the read loop stores for one data word, and the word the write
    loop composes from two bytes. *)
Definition word_bytes (w : Z) : list Z := [u8 w; u8 (Z.shiftr w 8)].
Fixpoint buffer_words (buffer : list Z) : list Z :=
  match buffer with
  | lo :: hi :: rest => u16 (Z.lor lo (Z.shiftl hi 8)) :: buffer_words rest
  | _ => []
  end.

Definition ata_init (st : ata_state) : ata_state :=
  let '(r, d) := ata_wait_bsy (outb ATA_REG_DRIVE 0xA0 (device st)) in
  if negb (r =? 0) then set_available (set_device st d) 0 else
  let '(status, d) := inb ATA_REG_STATUS d in
  if (status =? 0xFF) || (status =? 0) then set_available (set_device st d) 0 else
  let d := outb ATA_REG_COMMAND ATA_CMD_IDENTIFY (outb ATA_REG_LBA_HIGH 0 (outb ATA_REG_LBA_MID 0
           (outb ATA_REG_LBA_LOW 0 (outb ATA_REG_SECCOUNT 0 (outb ATA_REG_DRIVE 0xA0 d))))) in
  let '(r1, d) := ata_wait_bsy d in
  let '(r2, d) := if r1 =? 0 then ata_wait_drq d else (-1, d) in
  if (r1 =? 0) && (r2 =? 0) then
    let '(ws, d) := read_words 256 d in
    AtaState d 1 (Z.lor ws.[60] (u32 (Z.shiftl ws.[61] 16))) (ata_drive_select st)
  else set_available (set_device st d) 1.

(** The six register writes that start a command. *)
Definition program_command (select lba cmd : Z) (d : hw) : hw :=
  let d := outb ATA_REG_DRIVE (u8 (Z.lor select (Z.land (Z.shiftr lba 24) 0x0F))) d in
  let d := outb ATA_REG_SECCOUNT 1 d in
  let d := outb ATA_REG_LBA_LOW (u8 lba) d in
  let d := outb ATA_REG_LBA_MID (u8 (Z.shiftr lba 8)) d in
  let d := outb ATA_REG_LBA_HIGH (u8 (Z.shiftr lba 16)) d in
  outb ATA_REG_COMMAND cmd d.

(** The exchange between [cli] and [sti]; [None] is [goto done] with -1. *)
Definition read_exchange (select lba : Z) (d : hw) : option (list Z) * hw :=
  let '(r, d) := ata_wait_bsy d in if negb (r =? 0) then (None, d) else
  let d := program_command select lba ATA_CMD_READ_PIO d in
  let '(r, d) := ata_wait_bsy d in if negb (r =? 0) then (None, d) else
  let '(s, d) := inb ATA_REG_STATUS d in
  if negb (Z.land s ATA_STATUS_ERR =? 0) then (None, d) else
  let '(r, d) := ata_wait_drq d in if negb (r =? 0) then (None, d) else
  let '(ws, d) := read_words 256 d in (Some (ws ≫= word_bytes), d).

Definition ata_read_sector (lba : Z) (st : ata_state) : option (list Z) * ata_state :=
  let d := cli (device st) in
  let '(r, d) := read_exchange (ata_drive_select st) lba d in
  (r, set_device st (sti d)).

Definition write_exchange (select lba : Z) (buffer : list Z) (d : hw) : Z * hw :=
  let '(r, d) := ata_wait_bsy d in if negb (r =? 0) then (-1, d) else
  let d := program_command select lba ATA_CMD_WRITE_PIO d in
  let '(r, d) := ata_wait_bsy d in if negb (r =? 0) then (-1, d) else
  let '(r, d) := ata_wait_drq d in if negb (r =? 0) then (-1, d) else
  let d := outb ATA_REG_COMMAND 0xE7 (write_words (buffer_words buffer) d) in
  let '(r, d) := ata_wait_bsy d in if negb (r =? 0) then (-1, d) else (0, d).

Definition ata_write_sector (lba : Z) (buffer : list Z) (st : ata_state) : Z * ata_state :=
  let d := cli (device st) in
  let '(r, d) := write_exchange (ata_drive_select st) lba buffer d in
  (r, set_device st (sti d)).
End Driver.
Arguments ata_state : clear implicits.

(** ** A device whose accesses are logged *)
Inductive event := EInb (port v : Z) | EInw (port v : Z) | EOutb (port v : Z) | EOutw (port v : Z) | ECli | ESti.
Definition port_event (e : event) : bool := match e with ECli | ESti => false | _ => true end.

Record logged (hw : Type) := Logged { base : hw; log : list event }.
Arguments Logged {hw}. Arguments base {hw}. Arguments log {hw}.

#[export] Instance logged_io {hw} `{PortIO hw} : PortIO (logged hw) := {
  inb p d := let '(v, b) := inb p (base d) in (v, Logged b (log d ++ [EInb p v]));
  inw p d := let '(v, b) := inw p (base d) in (v, Logged b (log d ++ [EInw p v]));
  outb p v d := Logged (outb p v (base d)) (log d ++ [EOutb p v]);
  outw p v d := Logged (outw p v (base d)) (log d ++ [EOutw p v])
}.

#[export] Instance logged_irq {hw} `{IrqFlag hw} : IrqFlag (logged hw) := {
  cli d := Logged (cli (base d)) (log d ++ [ECli]);
  sti d := Logged (sti (base d)) (log d ++ [ESti])
}.

(** Status reads only, at most [ATA_TIMEOUT] of them. *)
Definition polls (l : list event) : Prop :=
  (∃ vs, l = EInb ATA_REG_STATUS <$> vs) ∧ zlen l ≤ ATA_TIMEOUT.

Definition command_log (select lba cmd : Z) : list event :=
  [EOutb ATA_REG_DRIVE (u8 (Z.lor select (Z.land (Z.shiftr lba 24) 0x0F)));
   EOutb ATA_REG_SECCOUNT 1; EOutb ATA_REG_LBA_LOW (u8 lba);
   EOutb ATA_REG_LBA_MID (u8 (Z.shiftr lba 8)); EOutb ATA_REG_LBA_HIGH (u8 (Z.shiftr lba 16));
   EOutb ATA_REG_COMMAND cmd].

(** The sector a device addresses from its registers. *)
Definition register_lba (drive low mid high : Z) : Z :=
  Z.land drive 0x0F * 2 ^ 24 + high * 2 ^ 16 + mid * 2 ^ 8 + low.

Section Logged.
Context {hw : Type} `{PortIO hw}.
Implicit Types d : logged hw.

(** After [n] status reads starting from [d]. *)
Definition polled d (n : Z) d' : Prop :=
  ∃ vs, log d' = log d ++ (EInb ATA_REG_STATUS <$> vs) ∧ zlen vs = n.

Lemma polled_step d n e : polled d n e → polled d (n + 1) (inb ATA_REG_STATUS e).2.
Proof.
  intros (vs & E & L). cbn. destruct (inb ATA_REG_STATUS (base e)) as [v b]. cbn [snd log].
  exists (vs ++ [v]). rewrite fmap_app, E, <- app_assoc. split; [done |]. by rewrite zlen_app, L.
Qed.

Lemma polled_polls d n e : polled d n e → n ≤ ATA_TIMEOUT → ∃ l, log e = log d ++ l ∧ polls l.
Proof.
  intros (vs & E & L) Hn. eexists. split; [exact E |]. split; [eauto |]. rewrite zlen_fmap. lia.
Qed.

Lemma poll_log stop d r d' :
  poll_status stop d = (r, d') → (r = 0 ∨ r = -1) ∧ ∃ l, log d' = log d ++ l ∧ polls l.
Proof.
  unfold poll_status. set (body := λ (_ : Z) d, _).
  assert (match for_range 0 ATA_TIMEOUT body d with
          | inl e => polled d (Z.max 0 ATA_TIMEOUT) e
          | inr e => ∃ n, n ≤ ATA_TIMEOUT ∧ polled d n e end) as HI.
  { apply (for_range_inv (polled d)).
    - exists []. by rewrite app_nil_r.
    - intros i e1 e2 Hi HI Hb. apply polled_step in HI. unfold body in Hb.
      destruct (inb ATA_REG_STATUS e1) as [s d2], (stop s); by simplify_eq.
    - intros i e1 e2 Hi HI Hb. apply polled_step in HI. exists (i + 1). split; [lia |]. unfold body in Hb.
      destruct (inb ATA_REG_STATUS e1) as [s d2], (stop s); by simplify_eq. }
  destruct (for_range 0 ATA_TIMEOUT body d) as [e | e]; intros [= <- <-].
  - split; [by right |]. by eapply polled_polls.
  - split; [by left |]. destruct HI as (n & ? & ?). by eapply polled_polls.
Qed.

Lemma program_log select lba cmd d :
  log (program_command select lba cmd d) = log d ++ command_log select lba cmd.
Proof. unfold program_command, command_log. cbn [log outb logged_io]. by rewrite <- !app_assoc. Qed.

Lemma read_words_log n d ws d' :
  read_words n d = (ws, d') →
  length ws = n ∧ ∃ vs, log d' = log d ++ (EInw ATA_REG_DATA <$> vs) ∧ ws = u16 <$> vs.
Proof.
  revert d ws d'. induction n as [| n IH]; intros d ws d'; cbn [read_words].
  - intros [= <- <-]. split; [done |]. exists []. by rewrite app_nil_r.
  - cbn [inw logged_io]. destruct (inw ATA_REG_DATA (base d)) as [v b].
    destruct (read_words n _) as [ws' d2] eqn:E. intros [= <- <-].
    apply IH in E as (Hl & vs & Hlog & ->). split; [cbn; by rewrite Hl |].
    exists (v :: vs). cbn [log] in Hlog. by rewrite Hlog, <- app_assoc.
Qed.

Lemma write_words_log ws d : log (write_words ws d) = log d ++ (EOutw ATA_REG_DATA <$> ws).
Proof.
  unfold write_words. revert d. induction ws as [| w ws IH]; intros d; cbn [foldl fmap list_fmap].
  - by rewrite app_nil_r.
  - rewrite IH. cbn [log outw logged_io]. by rewrite <- app_assoc.
Qed.

(** What runs between the two instructions: port accesses only. *)
Definition accesses d d' : Prop := ∃ l, log d' = log d ++ l ∧ Forall port_event l.
#[local] Instance accesses_preorder : PreOrder accesses.
Proof.
  split.
  - intros d. exists []. by rewrite app_nil_r.
  - intros d1 d2 d3 (l1 & E1 & F1) (l2 & E2 & F2). exists (l1 ++ l2). rewrite E2, E1, app_assoc. split; [done |]. by apply Forall_app_2.
Qed.
Lemma poll_accesses stop d r d' : poll_status stop d = (r, d') → accesses d d'.
Proof.
  intros E. apply poll_log in E as (_ & l & L & (vs & ->) & _). eexists. split; [exact L |]. by apply Forall_fmap, Forall_true.
Qed.
Lemma program_accesses select lba cmd d : accesses d (program_command select lba cmd d).
Proof. eexists. split; [apply program_log | by repeat constructor]. Qed.
Lemma inb_accesses p d v d' : inb p d = (v, d') → accesses d d'.
Proof. cbn. destruct (inb p (base d)) as [v1 b]. intros [= <- <-]. eexists. split; [reflexivity | by repeat constructor]. Qed.
Lemma outb_accesses p v d : accesses d (outb p v d).
Proof. eexists. split; [reflexivity | by repeat constructor]. Qed.
Lemma words_accesses n d ws d' : read_words n d = (ws, d') → accesses d d'.
Proof. intros E. apply read_words_log in E as (_ & vs & L & _). eexists. split; [exact L |]. by apply Forall_fmap, Forall_true. Qed.
Lemma write_accesses ws d : accesses d (write_words ws d).
Proof. eexists. split; [apply write_words_log |]. by apply Forall_fmap, Forall_true. Qed.

Lemma read_exchange_accesses select lba d r d' : read_exchange select lba d = (r, d') → accesses d d'.
Proof.
  unfold read_exchange. destruct (ata_wait_bsy d) as [r1 d1] eqn:E1. apply poll_accesses in E1. destruct (negb _); [by intros [= _ <-] |].
  destruct (ata_wait_bsy (program_command _ _ _ d1)) as [r2 d2] eqn:E2. apply poll_accesses in E2.
  rewrite <- (program_accesses select lba ATA_CMD_READ_PIO d1), <- E1 in E2. destruct (negb (r2 =? 0)); [by intros [= _ <-] |].
  destruct (inb ATA_REG_STATUS d2) as [s d3] eqn:E3. apply inb_accesses in E3. rewrite <- E2 in E3. destruct (negb (Z.land s _ =? 0)); [by intros [= _ <-] |].
  destruct (ata_wait_drq d3) as [r4 d4] eqn:E4. apply poll_accesses in E4. rewrite <- E3 in E4. destruct (negb (r4 =? 0)); [by intros [= _ <-] |].
  destruct (read_words 256 d4) as [ws d5] eqn:E5. apply words_accesses in E5. rewrite <- E4 in E5. by intros [= _ <-].
Qed.
Lemma write_exchange_accesses select lba buf d r d' : write_exchange select lba buf d = (r, d') → accesses d d'.
Proof.
  unfold write_exchange. destruct (ata_wait_bsy d) as [r1 d1] eqn:E1. apply poll_accesses in E1. destruct (negb _); [by intros [= _ <-] |].
  destruct (ata_wait_bsy (program_command _ _ _ d1)) as [r2 d2] eqn:E2. apply poll_accesses in E2.
  rewrite <- (program_accesses select lba ATA_CMD_WRITE_PIO d1), <- E1 in E2. destruct (negb (r2 =? 0)); [by intros [= _ <-] |].
  destruct (ata_wait_drq d2) as [r3 d3] eqn:E3. apply poll_accesses in E3. rewrite <- E2 in E3. destruct (negb (r3 =? 0)); [by intros [= _ <-] |].
  destruct (ata_wait_bsy (outb _ _ _)) as [r4 d4] eqn:E4. apply poll_accesses in E4.
  rewrite <- outb_accesses, <- write_accesses, <- E3 in E4. destruct (negb (r4 =? 0)); by intros [= _ <-].
Qed.
End Logged.

Lemma word_bytes_join lo hi :
  is_byte lo → is_byte hi → word_bytes (u16 (Z.lor lo (Z.shiftl hi 8))) = [lo; hi].
Proof.
  unfold is_byte, word_bytes. intros Hl Hh.
  assert (Z.lor lo (Z.shiftl hi 8) = lo + hi * 256) as ->.
  { rewrite Z.shiftl_mul_pow2 by lia. by rewrite (lor_disjoint_add lo hi 8) by lia. }
  rewrite Z.shiftr_div_pow2 by lia. unfold u16, u8. f_equal; [zdm |]. f_equal. zdm.
Qed.

Lemma buffer_words_bytes n buf :
  length buf = (2 * n)%nat → Forall is_byte buf → buffer_words buf ≫= word_bytes = buf.
Proof.
  revert buf. induction n as [| n IH]; intros [| lo [| hi buf]] Hl Hb; cbn [length] in Hl; try lia; [done |].
  apply Forall_cons in Hb as [Hlo Hb]. apply Forall_cons in Hb as [Hhi Hb].
  cbn [buffer_words]. rewrite bind_cons, word_bytes_join, IH by (done || lia). done.
Qed.
Lemma register_lba_spec select lba :
  select = 0xE0 ∨ select = 0xF0 → 0 ≤ lba →
  register_lba (u8 (Z.lor select (Z.land (Z.shiftr lba 24) 0x0F))) (u8 lba) (u8 (Z.shiftr lba 8))
               (u8 (Z.shiftr lba 16)) = lba mod 2 ^ 28.
Proof.
  intros Hs Hl. unfold register_lba.
  assert (Z.land (u8 (Z.lor select (Z.land (Z.shiftr lba 24) 0x0F))) 0x0F = (lba / 2 ^ 24) mod 16) as ->.
  { change 0x0F with (Z.ones 4). rewrite <- (Z.shiftr_div_pow2 lba 24) by lia. change 16 with (2 ^ 4).
    rewrite <- (Z.land_ones (Z.shiftr lba 24)) by lia. apply Z.bits_inj'. intros k Hk.
    rewrite !Z.land_spec. destruct (decide (k < 4)).
    - rewrite testbit_u8, Z.lor_spec, Z.land_spec, Z.ones_spec_low by lia. rewrite !andb_true_r.
      destruct Hs as [-> | ->]; (replace (Z.testbit _ k) with false; [done |]);
        (assert (k = 0 ∨ k = 1 ∨ k = 2 ∨ k = 3) as [-> | [-> | [-> | ->]]] by lia; done).
    - rewrite Z.ones_spec_high by lia. by rewrite !andb_false_r. }
  rewrite !Z.shiftr_div_pow2 by lia. unfold u8. zdm.
Qed.

Section Exchange.
Context {hw : Type} `{PortIO hw}.
Implicit Types d : logged hw.
Lemma read_exchange_log select lba d buf d' :
  (select = 0xE0 ∨ select = 0xF0) → 0 ≤ lba → read_exchange select lba d = (Some buf, d') →
  ∃ p1 p2 s p3 ws drive low mid high,
    log d' = log d ++ p1 ++
      [EOutb ATA_REG_DRIVE drive; EOutb ATA_REG_SECCOUNT 1; EOutb ATA_REG_LBA_LOW low;
       EOutb ATA_REG_LBA_MID mid; EOutb ATA_REG_LBA_HIGH high; EOutb ATA_REG_COMMAND ATA_CMD_READ_PIO] ++
      p2 ++ [EInb ATA_REG_STATUS s] ++ p3 ++ (EInw ATA_REG_DATA <$> ws) ∧
    polls p1 ∧ polls p2 ∧ polls p3 ∧ Z.land s ATA_STATUS_ERR = 0 ∧
    register_lba drive low mid high = lba mod 2 ^ 28 ∧
    length ws = 256%nat ∧ buf = (u16 <$> ws) ≫= word_bytes.
Proof.
  intros Hsel Hlba. unfold read_exchange.
  destruct (ata_wait_bsy d) as [r1 d1] eqn:E1. apply poll_log in E1 as (_ & p1 & L1 & P1).
  destruct (negb (r1 =? 0)); [done |].
  destruct (ata_wait_bsy (program_command _ _ _ d1)) as [r2 d2] eqn:E2.
  apply poll_log in E2 as (_ & p2 & L2 & P2). destruct (negb (r2 =? 0)); [done |].
  destruct (inb ATA_REG_STATUS d2) as [s d3] eqn:E3.
  assert (log d3 = log d2 ++ [EInb ATA_REG_STATUS s]) as L3.
  { cbn in E3. destruct (inb ATA_REG_STATUS (base d2)). by simplify_eq. }
  destruct (Z.eqb_spec (Z.land s ATA_STATUS_ERR) 0) as [Hs |]; [| done].
  destruct (ata_wait_drq d3) as [r4 d4] eqn:E4. apply poll_log in E4 as (_ & p3 & L4 & P3).
  destruct (negb (r4 =? 0)); [done |].
  destruct (read_words 256 d4) as [ws d5] eqn:E5. apply read_words_log in E5 as (Hl & vs & L5 & ->).
  intros [= <- <-]. rewrite length_fmap in Hl. exists p1, p2, s, p3, vs. do 4 eexists.
  split; [by rewrite L5, L4, L3, L2, program_log, L1, <- !app_assoc |].
  split_and!; try done. by apply register_lba_spec.
Qed.
Lemma write_exchange_log select lba buf d d' :
  (select = 0xE0 ∨ select = 0xF0) → 0 ≤ lba → length buf = 512%nat → Forall is_byte buf →
  write_exchange select lba buf d = (0, d') →
  ∃ p1 p2 p3 p4 ws drive low mid high,
    log d' = log d ++ p1 ++
      [EOutb ATA_REG_DRIVE drive; EOutb ATA_REG_SECCOUNT 1; EOutb ATA_REG_LBA_LOW low;
       EOutb ATA_REG_LBA_MID mid; EOutb ATA_REG_LBA_HIGH high; EOutb ATA_REG_COMMAND ATA_CMD_WRITE_PIO] ++
      p2 ++ p3 ++ (EOutw ATA_REG_DATA <$> ws) ++ [EOutb ATA_REG_COMMAND 0xE7] ++ p4 ∧
    polls p1 ∧ polls p2 ∧ polls p3 ∧ polls p4 ∧
    register_lba drive low mid high = lba mod 2 ^ 28 ∧ ws ≫= word_bytes = buf.
Proof.
  intros Hsel Hlba Hlen Hb. unfold write_exchange.
  destruct (ata_wait_bsy d) as [r1 d1] eqn:E1. apply poll_log in E1 as (_ & p1 & L1 & P1).
  destruct (negb (r1 =? 0)); [done |].
  destruct (ata_wait_bsy (program_command _ _ _ d1)) as [r2 d2] eqn:E2.
  apply poll_log in E2 as (_ & p2 & L2 & P2). destruct (negb (r2 =? 0)); [done |].
  destruct (ata_wait_drq d2) as [r3 d3] eqn:E3. apply poll_log in E3 as (_ & p3 & L3 & P3).
  destruct (negb (r3 =? 0)); [done |].
  destruct (ata_wait_bsy (outb _ _ _)) as [r4 d4] eqn:E4. apply poll_log in E4 as (_ & p4 & L4 & P4).
  destruct (negb (r4 =? 0)); [done |].
  intros [= <-]. exists p1, p2, p3, p4, (buffer_words buf). do 4 eexists.
  split. { rewrite L4. cbn [log outb logged_io]. by rewrite write_words_log, L3, L2, program_log, L1, <- !app_assoc. }
  split_and!; try done; [by apply register_lba_spec | by apply (buffer_words_bytes 256)].
Qed.
End Exchange.

(** ** Properties *)


(** a write is one [cli], port accesses and one [sti] on every path; one that
    reports success sends the sector's 256 words to the addressed sector and
    flushes, and reading those words back with the read loop's byte order
    gives the written buffer. *)
Theorem ata_write_sector_protocol {hw} `{PortIO hw} `{IrqFlag hw} (st : ata_state (logged hw)) lba buf r st' :
  (ata_drive_select st = 0xE0 ∨ ata_drive_select st = 0xF0) → 0 ≤ lba →
  length buf = 512%nat → Forall is_byte buf →
  ata_write_sector lba buf st = (r, st') →
  ∃ exchange, log (device st') = log (device st) ++ [ECli] ++ exchange ++ [ESti] ∧ Forall port_event exchange ∧
  (r = 0 → ∃ p1 p2 p3 p4 ws drive low mid high,
    exchange = p1 ++
      [EOutb ATA_REG_DRIVE drive; EOutb ATA_REG_SECCOUNT 1; EOutb ATA_REG_LBA_LOW low;
       EOutb ATA_REG_LBA_MID mid; EOutb ATA_REG_LBA_HIGH high; EOutb ATA_REG_COMMAND ATA_CMD_WRITE_PIO] ++
      p2 ++ p3 ++ (EOutw ATA_REG_DATA <$> ws) ++ [EOutb ATA_REG_COMMAND 0xE7] ++ p4 ∧
    polls p1 ∧ polls p2 ∧ polls p3 ∧ polls p4 ∧
    register_lba drive low mid high = lba mod 2 ^ 28 ∧ ws ≫= word_bytes = buf).
Proof.
  intros Hsel Hlba Hlen Hb. unfold ata_write_sector. destruct (write_exchange _ _ _ _) as [r1 d1] eqn:E. intros [= <- <-].
  pose proof (write_exchange_accesses _ _ _ _ _ _ E) as (l & L & F). exists l. cbn [device set_device sti logged_irq log]. rewrite L.
  cbn [cli logged_irq log]. split; [by rewrite <- !app_assoc |]. split; [done |]. intros ->.
  destruct (write_exchange_log _ _ _ _ _ Hsel Hlba Hlen Hb E) as (p1 & p2 & p3 & p4 & ws & drive & low & mid & high & L' & Hrest).
  exists p1, p2, p3, p4, ws, drive, low, mid, high. split; [| exact Hrest]. rewrite L in L'. by apply app_inv_head in L'.
Qed.

(** ** Witnesses: a device that is always ready and answers a fixed word. *)
#[local] Instance ready_device : PortIO unit := {
  inb p d := (0x48, d); inw p d := (0x4142, d); outb p v d := d; outw p v d := d
}.
#[local] Instance ready_irq : IrqFlag unit := { cli d := d; sti d := d }.
Definition ready_state : ata_state (logged unit) := AtaState (Logged tt []) 1 0 0xE0.


Lemma ata_write_sector_protocol_witness :
  ∃ l, log (device (ata_write_sector 7 (replicate 512 3) ready_state).2) = ECli :: l ++ [ESti].
Proof.
  destruct (ata_write_sector_protocol ready_state 7 (replicate 512 3) 0
    (ata_write_sector 7 (replicate 512 3) ready_state).2) as (l & L & _); [by left | lia | reflexivity | | vm_compute; reflexivity |].
  - apply Forall_replicate. split; lia.
  - exists l. exact L.
Defined.
End Ata.
