(* ===== verification/BlockDev.v ===== *)
(** * The sector interface between drivers, cache and file system

    [Disk] is what the block cache uses of the ATA driver; [BlockDev] is what
    the FAT driver uses of the block cache (the macros at the top of
    kernel/fs/fat.c redirect it there).  The laws say what one component
    promises to the next; a failed write promises nothing about its sector. *)
From S2P Require Import Prelude.

Definition SECTOR_SIZE : Z := 512.

(** A sector image: 512 bytes. *)
Definition sector_ok (s : list Z) : Prop := length s = 512%nat ∧ Forall is_byte s.

Class Disk (D : Type) := {
  disk_read : Z → D → option (list Z) * D;
  disk_write : Z → list Z → D → Z * D;
  disk_select : Z → D → D;
  disk_available : D → Z
}.

Class DiskLaws (D : Type) `{Disk D} := {
  disk_sector : D → Z → list Z;
  disk_sector_ok d l : sector_ok (disk_sector d l);
  disk_read_law d l r d' : disk_read l d = (r, d') →
    (r = None ∨ r = Some (disk_sector d l)) ∧ ∀ k, disk_sector d' k = disk_sector d k;
  disk_write_law d l s rc d' : sector_ok s → disk_write l s d = (rc, d') →
    (∀ k, k ≠ l → disk_sector d' k = disk_sector d k) ∧ (rc = 0 → disk_sector d' l = s)
}.

Class BlockDev (B : Type) := {
  bd_read : Z → B → option (list Z) * B;
  bd_write : Z → list Z → B → Z * B;
  bd_select : Z → B → B;
  bd_available : B → Z
}.

Class BlockDevLaws (B : Type) `{BlockDev B} := {
  bd_ok : B → Prop;
  bd_sector : B → Z → list Z;
  bd_sector_ok b l : bd_ok b → sector_ok (bd_sector b l);
  bd_read_law b l r b' : bd_ok b → bd_read l b = (r, b') →
    bd_ok b' ∧ (∀ k, bd_sector b' k = bd_sector b k) ∧ (r = None ∨ r = Some (bd_sector b l));
  bd_write_law b l s b' : bd_ok b → sector_ok s → bd_write l s b = (0, b') →
    bd_ok b' ∧ ∀ k, bd_sector b' k = if k =? l then s else bd_sector b k
}.

(** ** A perfect disk: two drives held in memory.  It instantiates the laws,
    and the witnesses run on it. *)
Record mem_disk := MemDisk { drives : Z → Z → list Z; selected : Z }.

Definition norm_sector (s : list Z) : list Z := if bool_decide (sector_ok s) then s else replicate 512 0.

#[export] Instance sector_ok_dec s : Decision (sector_ok s).
Proof.
  unfold sector_ok, is_byte. apply and_dec; [solve_decision |]. apply Forall_dec. intros x. solve_decision.
Defined.

#[export] Instance mem_disk_ops : Disk mem_disk := {
  disk_read l d := (Some (norm_sector (drives d (selected d) l)), d);
  disk_write l s d :=
    (0, MemDisk (λ n k, if (n =? selected d) && (k =? l) then s else drives d n k) (selected d));
  disk_select n d := MemDisk (drives d) n;
  disk_available d := 1
}.

Lemma norm_sector_ok s : sector_ok (norm_sector s).
Proof.
  unfold norm_sector. case_bool_decide; [done |]. split; [done |].
  apply Forall_replicate. split; lia.
Qed.
Lemma norm_sector_id s : sector_ok s → norm_sector s = s.
Proof. intros Hs. unfold norm_sector. by rewrite bool_decide_true. Qed.

#[export] Instance mem_disk_laws : DiskLaws mem_disk.
Proof.
  refine (Build_DiskLaws _ _ (λ d l, norm_sector (drives d (selected d) l)) _ _ _).
  - intros d l. apply norm_sector_ok.
  - intros d l r d' [= <- <-]. auto.
  - intros d l s rc d' Hs [= <- <-]. cbn [drives selected]. split; intros k.
    + intros Hk. by rewrite (proj2 (Z.eqb_neq _ _) Hk), andb_false_r.
    + rewrite !Z.eqb_refl. by apply norm_sector_id.
Defined.

(** A perfect disk used directly as a block device. *)
#[export] Instance mem_bd : BlockDev mem_disk := {
  bd_read := disk_read; bd_write := disk_write; bd_select := disk_select; bd_available := disk_available
}.
#[export] Instance mem_bd_laws : BlockDevLaws mem_disk.
Proof.
  refine (Build_BlockDevLaws _ _ (λ _, True) disk_sector _ _ _).
  - intros b l _. apply disk_sector_ok.
  - intros b l r b' _ Hr. by apply disk_read_law in Hr as [? ?].
  - intros b l s b' _ Hs Hw. apply disk_write_law in Hw as [Ho Hl]; [| done]. split; [done |].
    intros k. destruct (Z.eqb_spec k l) as [-> | Hk]; auto.
Defined.
