(* ===== verification/BlockCache.v ===== *)
(** * The sector cache (kernel/drivers/block_cache.c)

    A write-through cache of 32 sectors between the FAT driver and the ATA
    driver, the latter used through the class [Disk].  The refinement: while
    writes succeed, the cache is indistinguishable from the disk. *)
From S2P Require Import Prelude.
From S2P Require Import BlockDev.

Module BlockCache.
Definition BLOCK_CACHE_SIZE : Z := 32.

Record cache_entry := CacheEntry { valid : Z; lba : Z; age : Z; data : list Z }.
#[export] Instance cache_entry_inhabited : Inhabited cache_entry :=
  populate (CacheEntry 0 0 0 (replicate 512 0)).

Section Cache.
Context {D : Type} `{Disk D}.

Record cache_state := CacheState { cache : list cache_entry; clock_tick : Z; disk : D }.

Definition block_cache_invalidate (st : cache_state) : cache_state :=
  CacheState (replicate (Z.to_nat BLOCK_CACHE_SIZE) (CacheEntry 0 0 0 (replicate 512 0))) 1 (disk st).
Definition block_cache_init (st : cache_state) : cache_state := block_cache_invalidate st.

Definition find_entry (st : cache_state) (l : Z) : Z :=
  match for_range 0 BLOCK_CACHE_SIZE (λ i (_ : unit),
          let e := (cache st).[i] in
          if negb (valid e =? 0) && (lba e =? l) then inr i else inl tt) tt with
  | inl _ => -1
  | inr i => i
  end.

Definition choose_victim (st : cache_state) : Z :=
  match for_range 0 BLOCK_CACHE_SIZE (λ i victim,
          if valid (cache st).[i] =? 0 then inr i
          else if age (cache st).[i] <? age (cache st).[victim] then inl i else inl victim) 0 with
  | inl victim => victim
  | inr i => i
  end.

(** Fill entry [idx] with sector [l] and stamp it. *)
Definition fill_entry (st : cache_state) (idx l : Z) (bytes : list Z) (d : D) : cache_state :=
  CacheState ((cache st).[idx <- CacheEntry 1 l (clock_tick st) bytes]) (clock_tick st +32 1) d.

(** The buffer is not null; the result is the bytes copied into it. *)
Definition block_cache_read_sector (l : Z) (st : cache_state) : option (list Z) * cache_state :=
  let idx := find_entry st l in
  if 0 <=? idx then
    let e := (cache st).[idx] in
    (Some (data e),
     CacheState ((cache st).[idx <- CacheEntry (valid e) (lba e) (clock_tick st) (data e)])
                (clock_tick st +32 1) (disk st))
  else
    let idx := choose_victim st in
    match disk_read l (disk st) with
    | (None, d) => (None, CacheState (cache st) (clock_tick st) d)
    | (Some bytes, d) => (Some bytes, fill_entry st idx l bytes d)
    end.

Definition block_cache_write_sector (l : Z) (buffer : list Z) (st : cache_state) : Z * cache_state :=
  match disk_write l buffer (disk st) with
  | (rc, d) =>
      if negb (rc =? 0) then (-1, CacheState (cache st) (clock_tick st) d) else
      let idx := find_entry st l in
      let idx := if idx <? 0 then choose_victim st else idx in
      (0, fill_entry st idx l buffer d)
  end.

Definition block_cache_flush (st : cache_state) : cache_state := st.
End Cache.
Arguments cache_state : clear implicits.

#[export] Instance cache_block_dev {D} `{Disk D} : BlockDev (cache_state D) := {
  bd_read := block_cache_read_sector;
  bd_write := block_cache_write_sector;
  bd_select n st := CacheState (cache st) (clock_tick st) (disk_select n (disk st));
  bd_available st := disk_available (disk st)
}.

(** ** Invariant and lemmas *)
Section Laws.
Context {D : Type} `{DiskLaws D}.
Implicit Types st : cache_state D.

(** Entry [i] caches sector [l]. *)
Definition holds st (i l : Z) : Prop := valid (cache st).[i] ≠ 0 ∧ lba (cache st).[i] = l.

(** 32 entries; a valid entry agrees with the disk; no sector twice. *)
Record coherent st : Prop := Coherent {
  co_len : zlen (cache st) = BLOCK_CACHE_SIZE;
  co_data i l : 0 ≤ i < BLOCK_CACHE_SIZE → holds st i l → data (cache st).[i] = disk_sector (disk st) l;
  co_uniq i j l : 0 ≤ i < BLOCK_CACHE_SIZE → 0 ≤ j < BLOCK_CACHE_SIZE → holds st i l → holds st j l → i = j
}.

Lemma cache_find_spec st l :
  (find_entry st l = -1 ∧ ∀ i, 0 ≤ i < BLOCK_CACHE_SIZE → ¬ holds st i l) ∨
  (0 ≤ find_entry st l < BLOCK_CACHE_SIZE ∧ holds st (find_entry st l) l).
Proof.
  unfold find_entry. set (body := λ (i : Z) (_ : unit), _).
  assert (match for_range 0 BLOCK_CACHE_SIZE body tt with
    | inl _ => ∀ j, 0 ≤ j < Z.max 0 BLOCK_CACHE_SIZE → ¬ holds st j l
    | inr i => 0 ≤ i < BLOCK_CACHE_SIZE ∧ holds st i l end) as HI.
  { apply (for_range_inv (λ i _, ∀ j, 0 ≤ j < i → ¬ holds st j l)); [lia | |];
      intros i [] r Hi Hj; unfold body;
      destruct (Z.eqb_spec (valid (cache st).[i]) 0), (Z.eqb_spec (lba (cache st).[i]) l); cbn; try done.
    1-3: intros _ j Hjr; destruct (decide (j = i)) as [-> |]; [by intros [? ?] | apply Hj; lia].
    by intros [= <-]. }
  destruct (for_range 0 BLOCK_CACHE_SIZE body tt) as [[] | i]; auto.
Qed.

(** The victim is an invalid entry, or all entries are valid and it is one of
    the least recently stamped. *)
Lemma choose_victim_spec st :
  let v := choose_victim st in
  0 ≤ v < BLOCK_CACHE_SIZE ∧
  (valid (cache st).[v] = 0 ∨
   ∀ j, 0 ≤ j < BLOCK_CACHE_SIZE → valid (cache st).[j] ≠ 0 ∧ age (cache st).[v] ≤ age (cache st).[j]).
Proof.
  unfold choose_victim. set (body := λ (i : Z) (victim : Z), _).
  assert (match for_range 0 BLOCK_CACHE_SIZE body 0 with
    | inl v => (0 ≤ v < BLOCK_CACHE_SIZE) ∧ ∀ j, 0 ≤ j < Z.max 0 BLOCK_CACHE_SIZE →
         valid (cache st).[j] ≠ 0 ∧ age (cache st).[v] ≤ age (cache st).[j]
    | inr i => (0 ≤ i < BLOCK_CACHE_SIZE) ∧ valid (cache st).[i] = 0 end) as HI.
  { apply (for_range_inv (λ i v, (0 ≤ v < BLOCK_CACHE_SIZE) ∧ ∀ j, 0 ≤ j < i →
         valid (cache st).[j] ≠ 0 ∧ age (cache st).[v] ≤ age (cache st).[j])).
    - split; [done | lia].
    - intros i v v' Hi [Hv Hall]. unfold body. destruct (Z.eqb_spec (valid (cache st).[i]) 0); [done |].
      destruct (Z.ltb_spec (age (cache st).[i]) (age (cache st).[v])); intros [= <-];
        (split; [done |]; intros j Hj; destruct (decide (j = i)) as [-> |]; [split; [done | lia] |]);
        destruct (Hall j ltac:(lia)); (split; [done | lia]).
    - intros i v r Hi _. unfold body. destruct (Z.eqb_spec (valid (cache st).[i]) 0); [by intros [= <-] |].
      by destruct (_ <? _). }
  destruct (for_range 0 BLOCK_CACHE_SIZE body 0) as [v | i]; destruct HI as [? ?]; auto.
Qed.

Lemma holds_set st i j l e c d :
  zlen (cache st) = BLOCK_CACHE_SIZE → 0 ≤ i < BLOCK_CACHE_SIZE →
  holds (CacheState ((cache st).[i <- e]) c d) j l ↔
  if decide (j = i) then valid e ≠ 0 ∧ lba e = l else holds st j l.
Proof.
  intros Hl Hi. unfold holds. cbn [cache].
  destruct (decide (j = i)) as [-> | Hne]; [by rewrite aget_aset_eq by lia |].
  by rewrite aget_aset_ne by congruence.
Qed.

(** Storing sector [l] in entry [idx], which is the only one that may hold it. *)
Lemma fill_coherent st idx l bytes d :
  zlen (cache st) = BLOCK_CACHE_SIZE → 0 ≤ idx < BLOCK_CACHE_SIZE →
  (∀ i k, 0 ≤ i < BLOCK_CACHE_SIZE → i ≠ idx → holds st i k →
     k ≠ l ∧ data (cache st).[i] = disk_sector d k) →
  (∀ i j k, 0 ≤ i < BLOCK_CACHE_SIZE → 0 ≤ j < BLOCK_CACHE_SIZE → holds st i k → holds st j k → i = j) →
  bytes = disk_sector d l → coherent (fill_entry st idx l bytes d).
Proof.
  intros Hl Hi Hoth Hu Hb. unfold fill_entry. constructor; [by cbn [cache]; autorewrite with clen | |].
  - intros i k Hir Hh. apply holds_set in Hh; [| done | done]. cbn [cache disk]. case_decide as E.
    + subst i. rewrite aget_aset_eq by lia. destruct Hh as [_ Hk]. cbn in Hk. by rewrite <- Hk.
    + rewrite aget_aset_ne by congruence. by apply Hoth.
  - intros i j k Hir Hjr Hh1 Hh2. apply holds_set in Hh1; [| done | done]. apply holds_set in Hh2; [| done | done].
    destruct (decide (i = idx)) as [-> | Hi1], (decide (j = idx)) as [-> | Hj1]; try done.
    + destruct Hh1 as [_ Hk]. cbn in Hk. destruct (Hoth j k Hjr Hj1 Hh2). congruence.
    + destruct Hh2 as [_ Hk]. cbn in Hk. destruct (Hoth i k Hir Hi1 Hh1). congruence.
    + by apply (Hu i j k).
Qed.

Lemma read_refines st l r st' :
  coherent st → block_cache_read_sector l st = (r, st') →
  coherent st' ∧ (∀ k, disk_sector (disk st') k = disk_sector (disk st) k) ∧
  (r = None ∨ r = Some (disk_sector (disk st) l)).
Proof.
  intros [Hlen Hdata Huniq]. unfold block_cache_read_sector.
  destruct (cache_find_spec st l) as [[-> Hno] | [Hr Hh]].
  - cbn [Z.leb]. destruct (disk_read l (disk st)) as [o d] eqn:E.
    apply disk_read_law in E as [Hres Hsame]. destruct (choose_victim_spec st) as [Hv _].
    destruct o as [bytes |]; intros [= <- <-].
    + destruct Hres as [| [= ->]]; [done |]. split; [| auto].
      apply fill_coherent; [done | done | | done | by rewrite Hsame].
      intros i k Hi _ Hk. rewrite Hsame. split; [intros ->; by apply (Hno i) | auto].
    + split; [| auto]. constructor; [done | | done]. intros i k Hi Hk. cbn [disk cache] in *. rewrite Hsame. auto.
  - rewrite (proj2 (Z.leb_le 0 _)) by lia. set (idx := find_entry st l) in *. clearbody idx.
    pose proof (Hdata idx l Hr Hh) as Hd. destruct Hh as [Hvalid Hlba].
    intros [= <- <-]. split; [| by rewrite Hd; auto]. constructor; [by cbn [cache]; autorewrite with clen | |].
    + intros i k Hi Hk. apply holds_set in Hk; [| done | done]. cbn [cache disk]. case_decide as E.
      * subst i. rewrite aget_aset_eq by lia. destruct Hk as [_ Hk]. cbn in *. congruence.
      * rewrite aget_aset_ne by congruence. auto.
    + intros i j k Hi Hj H1 H2. apply holds_set in H1; [| done | done]. apply holds_set in H2; [| done | done].
      apply (Huniq i j k); [done | done | |].
      * by destruct (decide (i = idx)) as [-> |].
      * by destruct (decide (j = idx)) as [-> |].
Qed.

(** Sector [l] is in the cache. *)
Definition cached st (l : Z) : Prop := ∃ i, 0 ≤ i < BLOCK_CACHE_SIZE ∧ holds st i l.
Lemma read_where st l r st' : coherent st → block_cache_read_sector l st = (r, st') →
  (cached st l → is_Some r ∧ disk st' = disk st) ∧ (¬ cached st l → (r, disk st') = disk_read l (disk st)) ∧ (is_Some r → cached st' l).
Proof.
  intros [Hlen _ _]. unfold block_cache_read_sector. destruct (cache_find_spec st l) as [[-> Hno] | [Hr Hh]].
  - cbn [Z.leb]. destruct (choose_victim_spec st) as [Hv _]. destruct (disk_read l (disk st)) as [[bytes |] d]; intros [= <- <-]; cbn [disk].
    all: split; [intros (i & Hi & Hl); by destruct (Hno i Hi) |]; split; [done |]; intros [x Hx]; try done.
    exists (choose_victim st). split; [done |]. unfold fill_entry. apply holds_set; [done | done |]. by rewrite decide_True.
  - rewrite (proj2 (Z.leb_le 0 _)) by lia. set (idx := find_entry st l) in *. clearbody idx. intros [= <- <-]. cbn [disk].
    split; [done |]. split; [intros Hn; destruct Hn; by exists idx |]. intros _. exists idx. split; [done |].
    apply holds_set; [done | done |]. by rewrite decide_True.
Qed.

Lemma write_refines st l s st' :
  coherent st → sector_ok s → block_cache_write_sector l s st = (0, st') →
  coherent st' ∧ ∀ k, disk_sector (disk st') k = if k =? l then s else disk_sector (disk st) k.
Proof.
  intros [Hlen Hdata Huniq] Hs. unfold block_cache_write_sector.
  destruct (disk_write l s (disk st)) as [rc d] eqn:E. apply disk_write_law in E as [Hoth Hl]; [| done].
  destruct (Z.eqb_spec rc 0) as [Hrc |]; [| done]. specialize (Hl Hrc).
  intros Hrun. injection Hrun as <-. split.
  2: { intros k. cbn [disk]. destruct (Z.eqb_spec k l) as [-> |]; auto. }
  destruct (choose_victim_spec st) as [Hv _].
  destruct (cache_find_spec st l) as [[-> Hno] | [Hr Hh]]; cbn [Z.ltb].
  - apply fill_coherent; [done | done | | done | done]. intros i k Hi _ Hk.
    assert (k ≠ l) by (intros ->; by apply (Hno i)). rewrite Hoth by done. auto.
  - rewrite (proj2 (Z.ltb_ge _ 0)) by lia. apply fill_coherent; [done | done | | done | done].
    intros i k Hi Hne Hk. assert (k ≠ l) by (intros ->; apply Hne; by apply (Huniq i _ l)).
    rewrite Hoth by done. auto.
Qed.

Lemma invalidate_coherent st : coherent (block_cache_invalidate st).
Proof.
  constructor; [done | |]; unfold holds, block_cache_invalidate, BLOCK_CACHE_SIZE; cbn [cache].
  - intros i l Hi [Hv _]. rewrite aget_replicate in Hv by lia. done.
  - intros i j l Hi Hj [Hv _]. rewrite aget_replicate in Hv by lia. done.
Qed.

(** The cache keeps the block-device promise of the disk below it. *)
#[export] Instance cache_block_dev_laws : BlockDevLaws (cache_state D).
Proof.
  refine (Build_BlockDevLaws _ _ coherent (λ st l, disk_sector (disk st) l) _ _ _).
  - intros b l _. apply disk_sector_ok.
  - intros b l r b' Hb. by apply read_refines.
  - intros b l s b' Hb Hs. by apply write_refines.
Defined.
End Laws.

(** ** Properties *)

(** C10: the cache is transparent.  A read of a cached sector never fails and
    does not touch the disk; a read of any other sector fails exactly when the
    disk's read fails, and is that one read of the disk.  A read that succeeds
    returns what the disk holds and leaves the sector cached.  No read changes
    the contents of the disk, and the cache stays coherent: every valid entry
    agrees with the disk and no sector is cached twice. *)
Theorem block_cache_read_refines {D} `{DiskLaws D} (st : cache_state D) l r st' :
  coherent st → block_cache_read_sector l st = (r, st') →
  coherent st' ∧ (∀ k, disk_sector (disk st') k = disk_sector (disk st) k) ∧
  (cached st l → r = Some (disk_sector (disk st) l) ∧ disk st' = disk st) ∧
  (¬ cached st l → (r, disk st') = disk_read l (disk st)) ∧
  (∀ bytes, r = Some bytes → bytes = disk_sector (disk st) l ∧ cached st' l).
Proof.
  intros Hc Hr. destruct (read_refines _ _ _ _ Hc Hr) as (Hc' & Hsame & Hres). destruct (read_where _ _ _ _ Hc Hr) as (Hhit & Hmiss & Hkept).
  split; [done |]. split; [done |]. split; [| split; [done |]].
  - intros Hl. destruct (Hhit Hl) as [Hs Hd]. split; [| done]. destruct Hres as [-> | ->]; [by destruct Hs | done].
  - intros bytes ->. destruct Hres as [| [= ->]]; [done |]. split; [done | by apply Hkept].
Qed.

(** after a successful write every later read that succeeds returns the
    written sector, whether it hits the cache or the disk; other sectors are
    unaffected. *)
Theorem block_cache_read_after_write {D} `{DiskLaws D} (st : cache_state D) l s st1 k r st2 :
  coherent st → sector_ok s → block_cache_write_sector l s st = (0, st1) →
  block_cache_read_sector k st1 = (Some r, st2) →
  r = (if k =? l then s else disk_sector (disk st) k) ∧ coherent st2.
Proof.
  intros Hc Hs Hw Hr. destruct (write_refines _ _ _ _ Hc Hs Hw) as [Hc1 Hsec].
  destruct (read_refines _ _ _ _ Hc1 Hr) as (Hc2 & _ & [| [= ->]]); [done |]. auto.
Qed.

(** the replacement policy: the victim is an empty entry when there is
    one, otherwise a least recently used entry. *)
Theorem block_cache_evicts_lru {D} `{Disk D} (st : cache_state D) :
  let v := choose_victim st in
  0 ≤ v < BLOCK_CACHE_SIZE ∧
  (valid (cache st).[v] = 0 ∨
   ∀ j, 0 ≤ j < BLOCK_CACHE_SIZE → valid (cache st).[j] ≠ 0 ∧ age (cache st).[v] ≤ age (cache st).[j]).
Proof. apply choose_victim_spec. Qed.

(** entries are not tagged with the drive: a sector cached from drive 0 is
    returned for drive 1 after the drive is switched, so the cache is not
    coherent with the newly selected drive. *)
Theorem block_cache_ignores_drive :
  let d := MemDisk (λ n _, replicate 512 n) 0 in
  let st := bd_select 1 (block_cache_read_sector 0 (block_cache_init (CacheState [] 0 d))).2 in
  (block_cache_read_sector 0 st).1 = Some (replicate 512 0) ∧
  disk_sector (disk st) 0 = replicate 512 1.
Proof. vm_compute. split; reflexivity. Qed.

(** ** Witnesses *)
Definition demo_cache : cache_state mem_disk := block_cache_init (CacheState [] 0 (MemDisk (λ _ _, []) 0)).

Lemma block_cache_read_refines_witness :
  let st := (block_cache_read_sector 5 demo_cache).2 in
  coherent st ∧ (block_cache_read_sector 5 st).1 = Some (disk_sector (disk st) 5).
Proof.
  intros st. destruct (block_cache_read_refines demo_cache 5 (block_cache_read_sector 5 demo_cache).1 st) as (Hc & _ & _ & _ & Hk);
    [apply invalidate_coherent | apply surjective_pairing |]. split; [exact Hc |].
  destruct (block_cache_read_refines st 5 (block_cache_read_sector 5 st).1 (block_cache_read_sector 5 st).2 Hc) as (_ & _ & Hhit & _);
    [apply surjective_pairing |]. apply Hhit. apply (Hk (replicate 512 0)). vm_compute. reflexivity.
Defined.

Lemma block_cache_read_after_write_witness :
  let st1 := (block_cache_write_sector 5 (replicate 512 7) demo_cache).2 in
  coherent (block_cache_read_sector 5 st1).2.
Proof.
  cbv zeta.
  apply (block_cache_read_after_write demo_cache 5 (replicate 512 7)
    (block_cache_write_sector 5 (replicate 512 7) demo_cache).2 5 (replicate 512 7)).
  - apply invalidate_coherent.
  - apply (bool_decide_unpack _). vm_compute. exact I.
  - vm_compute. reflexivity.
  - vm_compute. reflexivity.
Defined.
End BlockCache.
