(* ===== verification/Heap.v ===== *)
(** * The kernel heap (kernel/memory/memory.c)

    Block headers live in the heap's own bytes: [size] at offset 0, [is_free]
    at 8 and [next] at 16 of each 24-byte header, read and written in physical
    memory as the code does.  The invariant says that the headers reachable
    from [heap_start] tile the heap; the properties are stated on the list of
    blocks they describe. *)
From stdpp Require Import relations.
From S2P Require Import Prelude.
From S2P Require Import PhysMem.
From S2P Require Import Pmm.

Module Heap.
Import Pmm.
Definition HEAP_SIZE : Z := 0x00100000.
Definition BLOCK_SIZE : Z := 16.
(** [sizeof(memory_block_t)] *)
Definition HDR : Z := 24.

Record heap_state := HeapState {
  hmem : pmem;
  heap_start : Z;
  heap_base : Z;
  total_memory : Z;
  used_memory : Z
}.

(** The fields of a [memory_block_t]. *)
Definition blk_size (m : pmem) (b : Z) : Z := rd64 m b.
Definition blk_free (m : pmem) (b : Z) : Z := rd32 m (b + 8).
Definition blk_next (m : pmem) (b : Z) : Z := rd64 m (b + 16).
Definition set_size (m : pmem) (b v : Z) : pmem := wr64 m b v.
Definition set_free (m : pmem) (b v : Z) : pmem := wr32 m (b + 8) v.
Definition set_next (m : pmem) (b v : Z) : pmem := wr64 m (b + 16) v.

(** [_kernel_end] is the linker's symbol. *)
Definition memory_init (kernel_end : Z) (m : pmem) (pm : pmm_state) : heap_state * pmm_state :=
  let base := Z.land (kernel_end +64 0xFFF) (Z.lnot 0xFFF) in
  let m := set_size m base (HEAP_SIZE - HDR) in
  let m := set_free m base 1 in
  let m := set_next m base 0 in
  (HeapState m base base HEAP_SIZE 0, pmm_mark_region_used pm base HEAP_SIZE).

(** The loops walk at most one step per header; the heap has room for fewer
    than [HEAP_SIZE] headers.  [None]: a cyclic list, the loop never ends. *)
Definition find_step (m : pmem) (size current : Z) : Z + Z :=
  if current =? 0 then inr 0
  else if negb (blk_free m current =? 0) && (size <=? blk_size m current) then inr current
  else inl (blk_next m current).

Definition find_free_block (st : heap_state) (size : Z) : option Z :=
  match iterZ HEAP_SIZE (find_step (hmem st) size) (heap_start st) with
  | inl _ => None
  | inr b => Some b
  end.

Definition split_block (m : pmem) (block size : Z) : pmem :=
  if (size +64 HDR) +64 BLOCK_SIZE <=? blk_size m block then
    let new_block := block +64 (HDR + size) in
    let m1 := set_size m new_block ((blk_size m block -64 size) -64 HDR) in
    let m2 := set_free m1 new_block 1 in
    let m3 := set_next m2 new_block (blk_next m2 block) in
    let m4 := set_size m3 block size in
    set_next m4 block new_block
  else m.

Definition merge_step (s : pmem * Z) : (pmem * Z) + pmem :=
  let '(m, current) := s in
  if (current =? 0) || (blk_next m current =? 0) then inr m
  else if negb (blk_free m current =? 0) && negb (blk_free m (blk_next m current) =? 0) then
    let m1 := set_size m current (blk_size m current +64 (HDR +64 blk_size m (blk_next m current))) in
    inl (set_next m1 current (blk_next m1 (blk_next m1 current)), current)
  else inl (m, blk_next m current).

Definition merge_free_blocks (st : heap_state) : option heap_state :=
  match iterZ HEAP_SIZE merge_step (hmem st, heap_start st) with
  | inl _ => None
  | inr m => Some (HeapState m (heap_start st) (heap_base st) (total_memory st) (used_memory st))
  end.

Definition aligned_size (size : Z) : Z := Z.land (u64 (size + (BLOCK_SIZE - 1))) (u64 (Z.lnot (BLOCK_SIZE - 1))).

Definition kmalloc (size : Z) (st : heap_state) : option (Z * heap_state) :=
  if size =? 0 then Some (0, st) else
  block ← find_free_block st (aligned_size size);
  if block =? 0 then Some (0, st) else
  let m := set_free (split_block (hmem st) block (aligned_size size)) block 0 in
  Some (block +64 HDR,
        HeapState m (heap_start st) (heap_base st) (total_memory st)
                  (used_memory st +64 (blk_size m block +64 HDR))).

(** [panic] does not return. *)
Inductive free_result :=
| Freed (st : heap_state)
| PanicInvalid
| PanicDoubleFree
| NoReturn.

Definition kfree (ptr : Z) (st : heap_state) : free_result :=
  if ptr =? 0 then Freed st else
  let block := ptr -64 HDR in
  if (block <? heap_base st) || (heap_base st +64 HEAP_SIZE <=? block) then PanicInvalid
  else if negb (blk_free (hmem st) block =? 0) then PanicDoubleFree
  else
    let m := set_free (hmem st) block 1 in
    let st1 := HeapState m (heap_start st) (heap_base st) (total_memory st)
                 (used_memory st -64 (blk_size m block +64 HDR)) in
    match merge_free_blocks st1 with Some st2 => Freed st2 | None => NoReturn end.

Definition memory_get_free (st : heap_state) : Z := total_memory st -64 used_memory st.
Definition memory_get_used (st : heap_state) : Z := used_memory st.
Definition memory_get_heap_start (st : heap_state) : Z := heap_base st.

(** ** The block list *)
Record block := Block { b_addr : Z; b_size : Z; b_free : bool }.

Definition hdr (m : pmem) (b : block) (next : Z) : Prop :=
  blk_size m (b_addr b) = b_size b ∧ blk_free m (b_addr b) = cbool (b_free b) ∧ blk_next m (b_addr b) = next.

(** [seg m a bs e nx]: the blocks [bs] tile the bytes from [a] to [e]; each
    header points to the following one and the last to [nx]. *)
Fixpoint seg (m : pmem) (a : Z) (bs : list block) (e nx : Z) : Prop :=
  match bs with
  | [] => a = e
  | b :: r =>
      b_addr b = a ∧ 0 ≤ b_size b ∧
      hdr m b (match r with [] => nx | _ => a + HDR + b_size b end) ∧
      seg m (a + HDR + b_size b) r e nx
  end.

Definition block_cost (b : block) : Z := if b_free b then 0 else b_size b + HDR.
Definition used_total (bs : list block) : Z := foldr (λ b n, block_cost b + n) 0 bs.

(** The invariant of the heap. *)
Record heap_ok (st : heap_state) (bs : list block) : Prop := HeapOk {
  hk_mem : pmem_ok (hmem st);
  hk_start : heap_start st = heap_base st;
  hk_base : 0 < heap_base st ∧ heap_base st + HEAP_SIZE < 2 ^ 63;
  hk_seg : seg (hmem st) (heap_base st) bs (heap_base st + HEAP_SIZE) 0;
  hk_ne : bs ≠ [];
  hk_used : used_memory st = used_total bs;
  hk_total : total_memory st = HEAP_SIZE
}.
(** ** Lemmas on headers and segments *)
Definition b_end (b : block) : Z := b_addr b + HDR + b_size b.

Lemma hdr_frame m m' b nx :
  (∀ x, b_addr b ≤ x < b_addr b + HDR → m' x = m x) → hdr m b nx → hdr m' b nx.
Proof.
  unfold hdr, blk_size, blk_free, blk_next, HDR. intros Hx (<- & <- & <-).
  split_and!; apply le_read_ext; intros x ?; apply Hx; lia.
Qed.

Lemma seg_bounds m a bs e nx : seg m a bs e nx → a + HDR * zlen bs ≤ e.
Proof.
  revert a. induction bs as [| b bs IH]; intros a; cbn [seg]; [intros ->; unfold zlen; cbn; lia |].
  intros (_ & ? & _ & Hs). apply IH in Hs. rewrite zlen_cons. unfold HDR in *. lia.
Qed.

Lemma seg_frame m m' a bs e nx :
  seg m a bs e nx → (∀ x, a ≤ x < e → m' x = m x) → seg m' a bs e nx.
Proof.
  revert a. induction bs as [| b bs IH]; intros a; cbn [seg]; [done |].
  intros (Ha & Hsz & Hh & Hs) Hx. pose proof (seg_bounds _ _ _ _ _ Hs) as Hb.
  pose proof (zlen_nonneg bs). unfold HDR in *. split; [done |]. split; [done |]. split.
  - eapply hdr_frame; [| done]. unfold HDR. intros x Hr. apply Hx. lia.
  - apply IH; [done |]. intros x Hr. apply Hx. lia.
Qed.

Lemma seg_split m a l1 b l2 e nx :
  seg m a (l1 ++ b :: l2) e nx ↔
  seg m a l1 (b_addr b) (b_addr b) ∧ seg m (b_addr b) (b :: l2) e nx.
Proof.
  revert a. induction l1 as [| c l1 IH]; intros a.
  - cbn [app]. split; [intros H; pose proof H as (<- & _); done | by intros [-> ?]].
  - cbn [app seg]. rewrite IH. cbn [seg].
    destruct l1 as [| d l1]; cbn [app]; [| tauto].
    split.
    + intros (? & ? & Hh & Hs & Hrest). cbn [seg] in Hs. rewrite Hs in Hh. tauto.
    + intros ((? & ? & Hh & Hs) & Hrest). rewrite Hs. tauto.
Qed.

(** Blocks of a segment lie inside it. *)
Lemma seg_elem m a bs e nx b :
  seg m a bs e nx → b ∈ bs → a ≤ b_addr b ∧ 0 ≤ b_size b ∧ b_end b ≤ e.
Proof.
  intros Hs [l1 [l2 ->]]%list_elem_of_split. apply seg_split in Hs as [H1 H2].
  pose proof (seg_bounds _ _ _ _ _ H1). cbn [seg] in H2. destruct H2 as (_ & ? & _ & H3).
  pose proof (seg_bounds _ _ _ _ _ H3). pose proof (zlen_nonneg l1). pose proof (zlen_nonneg l2).
  unfold b_end, HDR in *. lia.
Qed.

(** Two distinct positions of a segment are disjoint. *)
Lemma seg_disjoint m a bs e nx b c :
  seg m a bs e nx → b ∈ bs → c ∈ bs → b_addr b ≠ b_addr c → b_end b ≤ b_addr c ∨ b_end c ≤ b_addr b.
Proof.
  intros Hs [l1 [l2 ->]]%list_elem_of_split Hc Hne. apply seg_split in Hs as [H1 H2].
  apply elem_of_app in Hc as [Hc | [-> | Hc]%elem_of_cons]; [| done |].
  - right. by apply (seg_elem _ _ _ _ _ _ H1).
  - left. cbn [seg] in H2. destruct H2 as (_ & _ & _ & H3).
    by apply (seg_elem _ _ _ _ _ _ H3).
Qed.

(** ** The search *)
Definition first_ptr (bs : list block) (a : Z) : Z := match bs with [] => 0 | _ => a end.

Lemma find_loop m n size a bs e :
  seg m a bs e 0 → 0 < a → zlen bs < n →
  let r := iterZ n (find_step m size) (first_ptr bs a) in
  (r = inr 0 ∧ ∀ b, b ∈ bs → b_free b = true → b_size b < size) ∨
  ∃ l1 b l2, bs = l1 ++ b :: l2 ∧ r = inr (b_addr b) ∧ b_free b = true ∧ size ≤ b_size b ∧
             ∀ c, c ∈ l1 → b_free c = true → b_size c < size.
Proof.
  revert a n. induction bs as [| b bs IH]; intros a n Hs Ha Hn; cbn zeta.
  { left. rewrite iterZ_step by (unfold zlen in Hn; cbn in Hn; lia). split; [done |].
    intros b Hb. by apply elem_of_nil in Hb. }
  pose proof (zlen_nonneg bs). rewrite zlen_cons in Hn. rewrite iterZ_step by lia.
  cbn [seg] in Hs. destruct Hs as (Hba & Hsz & (Hh1 & Hh2 & Hh3) & Hs). rewrite Hba in Hh1, Hh2, Hh3.
  unfold find_step at 1 3. cbn [first_ptr]. rewrite Hh1, Hh2, Hh3. destruct (Z.eqb_spec a 0); [lia |].
  destruct (decide (b_free b = true ∧ size ≤ b_size b)) as [[Hf Hle] | Hno].
  { right. exists [], b, bs. rewrite Hf, (proj2 (Z.leb_le _ _) Hle), Hba. split_and!; try done.
    intros c Hc. by apply elem_of_nil in Hc. }
  replace (negb (cbool (b_free b) =? 0) && (size <=? b_size b)) with false.
  2: { symmetry. apply andb_false_iff. destruct (b_free b); [right | by left]. apply Z.leb_gt. lia. }
  assert (∀ c, c ∈ [b] → b_free c = true → b_size c < size) as Hb.
  { intros c ->%list_elem_of_singleton Hc. destruct (decide (size ≤ b_size b)); [tauto | lia]. }
  fold (first_ptr bs (a + HDR + b_size b)).
  destruct (IH (a + HDR + b_size b) (n - 1) Hs ltac:(unfold HDR; lia) ltac:(lia))
    as [[Hr Hall] | (l1 & c & l2 & -> & Hr & Hc & Hle & Hall)].
  - left. split; [exact Hr |]. intros c [-> | Hc]%elem_of_cons; [apply Hb; lmem | auto].
  - right. exists (b :: l1), c, l2. split_and!; try done.
    intros d [-> | Hd]%elem_of_cons; [apply Hb; lmem | auto].
Qed.

(** ** Stores *)

(** Evaluate header reads over header writes. *)
Ltac hread :=
  repeat first
    [ rewrite rd64_wr64_same | rewrite rd32_wr32_same
    | rewrite rd64_wr64_other by lia | rewrite rd64_wr32_other by lia
    | rewrite rd32_wr64_other by lia | rewrite rd32_wr32_other by lia ].
Ltac hout := repeat first [ rewrite wr64_out by lia | rewrite wr32_out by lia ]; try done.

(** What [kmalloc] leaves of a free block from which it takes [n] bytes. *)
Definition carve (b : block) (n : Z) : list block :=
  if n + HDR + BLOCK_SIZE <=? b_size b
  then [Block (b_addr b) n false; Block (b_addr b + HDR + n) (b_size b - n - HDR) true]
  else [Block (b_addr b) (b_size b) false].

Lemma carve_spec m b n l2 e nx :
  seg m (b_addr b) (b :: l2) e nx → 0 < b_addr b → e < 2 ^ 63 → 0 ≤ n ≤ b_size b → 0 ≤ nx < 2 ^ 64 →
  let m' := set_free (split_block m (b_addr b) n) (b_addr b) 0 in
  seg m' (b_addr b) (carve b n ++ l2) e nx ∧
  (∀ x, x < b_addr b ∨ b_end b ≤ x → m' x = m x) ∧
  blk_size m' (b_addr b) = (if n + HDR + BLOCK_SIZE <=? b_size b then n else b_size b).
Proof.
  intros Hs Ha He Hn Hnx. cbn [seg] in Hs. destruct Hs as (_ & Hsz & (Hh1 & Hh2 & Hh3) & Hs).
  pose proof (seg_bounds _ _ _ _ _ Hs) as Hb. pose proof (zlen_nonneg l2). cbn zeta.
  set (a := b_addr b) in *. set (sz := b_size b) in *.
  assert (0 ≤ match l2 with [] => nx | _ => a + HDR + sz end < 2 ^ 64) as Hnext.
  { destruct l2; [done |]. unfold HDR in *. lia. }
  set (next := match l2 with [] => nx | _ => a + HDR + sz end) in *.
  unfold blk_size, blk_free, blk_next in Hh1, Hh2, Hh3.
  unfold split_block, carve, b_end, set_size, set_free, set_next, blk_size, blk_next. fold a sz. rewrite Hh1.
  unfold HDR, BLOCK_SIZE in *. rewrite !(u64_small (n + 24)), (u64_small (n + 24 + 16)) by lia.
  destruct (Z.leb_spec (n + 24 + 16) sz) as [Hfit | Hno].
  - rewrite (u64_small (a + (24 + n))), (u64_small (sz - n)), (u64_small (sz - n - 24)) by lia.
    assert (∀ v x, x < a ∨ a + 24 + sz ≤ x → wr32 (wr64 (wr64 (wr64 (wr32 (wr64 m (a + (24 + n))
      (sz - n - 24)) (a + (24 + n) + 8) 1) (a + (24 + n) + 16) v) a n) (a + 16) (a + (24 + n))) (a + 8) 0 x = m x) as Hout.
    { intros v x Hx. hout. }
    split; [| split].
    + cbn [app seg b_addr b_size]. split; [done |]. split; [lia |]. split.
      { unfold hdr, blk_size, blk_free, blk_next. cbn [b_addr b_size b_free]. hread.
        rewrite !u64_small by lia. split_and!; [done | done | unfold HDR; lia]. }
      unfold HDR. split; [lia |]. split; [lia |]. split.
      { unfold hdr, blk_size, blk_free, blk_next. cbn [b_addr b_size b_free].
        replace (a + 24 + n + 8) with (a + (24 + n) + 8) by lia.
        replace (a + 24 + n + 16) with (a + (24 + n) + 16) by lia.
        replace (a + 24 + n) with (a + (24 + n)) by lia. hread.
        rewrite Hh3, !u64_small by lia. split_and!; [done | done |]. unfold next, HDR. destruct l2; [done | lia]. }
      replace (a + 24 + n + 24 + (sz - n - 24)) with (a + 24 + sz) by lia.
      apply (seg_frame m); [done |]. intros x Hx. apply Hout. lia.
    + intros x Hx. by apply Hout.
    + hread. by rewrite u64_small by lia.
  - split; [| split].
    + cbn [app seg b_addr b_size]. split; [done |]. split; [lia |]. split.
      { unfold hdr, blk_size, blk_free, blk_next. cbn [b_addr b_size b_free]. by hread. }
      unfold HDR. apply (seg_frame m); [done |]. intros x Hx. hout.
    + intros x Hx. hout.
    + by hread.
Qed.

Lemma carve_mem_ok m a n : pmem_ok m → pmem_ok (set_free (split_block m a n) a 0).
Proof.
  intros Hm. unfold split_block, set_free, set_size, set_next. apply wr32_ok. case_match; [| done].
  by repeat first [apply wr64_ok | apply wr32_ok].
Qed.

(** ** Merging *)
Definition join (b c : block) : block := Block (b_addr b) (b_size b + (HDR + b_size c)) true.

(** Coalesce runs of free blocks, as the loop of [merge_free_blocks] does. *)
Fixpoint merge (b : block) (rest : list block) : list block :=
  match rest with
  | [] => [b]
  | c :: r => if b_free b && b_free c then merge (join b c) r else b :: merge c r
  end.

(** [x] is a byte of a free block of [bs]. *)
Definition in_free (bs : list block) (x : Z) : Prop :=
  ∃ c, c ∈ bs ∧ b_free c = true ∧ b_addr c ≤ x < b_end c.

Lemma merge_pair m b c r e :
  seg m (b_addr b) (b :: c :: r) e 0 → 0 < b_addr b → e < 2 ^ 63 → b_free b = true → b_free c = true →
  ∃ m', merge_step (m, b_addr b) = inl (m', b_addr b) ∧
        seg m' (b_addr b) (join b c :: r) e 0 ∧ (pmem_ok m → pmem_ok m') ∧
        ∀ x, x < b_addr b ∨ b_addr b + HDR ≤ x → m' x = m x.
Proof.
  intros Hs Ha He Hfb Hfc. cbn [seg] in Hs.
  destruct Hs as (_ & Hsz & (Hh1 & Hh2 & Hh3) & Hac & Hszc & (Hc1 & Hc2 & Hc3) & Hs).
  pose proof (seg_bounds _ _ _ _ _ Hs) as Hb. pose proof (zlen_nonneg r).
  set (a := b_addr b) in *. set (sz := b_size b) in *. set (szc := b_size c) in *.
  rewrite Hac in *. unfold HDR in *.
  assert (0 ≤ match r with [] => 0 | _ => a + 24 + sz + 24 + szc end < 2 ^ 64) as Hnx by (destruct r; lia).
  eexists. split.
  { unfold merge_step. rewrite Hh2, Hh3, Hc2, Hfb, Hfc.
    destruct (Z.eqb_spec a 0); [lia |]. destruct (Z.eqb_spec (a + 24 + sz) 0); [lia |]. reflexivity. }
  unfold set_size, set_next, blk_size, blk_free, blk_next in *. rewrite (rd64_wr64_other m a (a + 16)) by lia. rewrite Hh3, (rd64_wr64_other m a (a + 24 + sz + 16)) by lia.
  rewrite Hh1, Hc1, Hc3. unfold HDR. rewrite (u64_small (24 + szc)), (u64_small (sz + (24 + szc))) by lia.
  assert (∀ v w x, x < a ∨ a + 24 ≤ x → wr64 (wr64 m a v) (a + 16) w x = m x) as Hout.
  { intros v w x Hx. hout. }
  split; [| split; [auto with cint | intros; by apply Hout]].
  cbn [seg join b_addr b_size]. unfold HDR. split; [done |]. split; [lia |]. split.
  - unfold hdr, blk_size, blk_free, blk_next. cbn [join b_addr b_size b_free]. fold a. unfold HDR. hread.
    rewrite Hh2, Hfb. rewrite !u64_small by (done || lia). split_and!; [done | done |].
    destruct r; [done | fold sz szc; lia].
  - fold sz szc. replace (a + 24 + (sz + (24 + szc))) with (a + 24 + sz + 24 + szc) by lia.
    apply (seg_frame m); [done |]. intros x Hx. apply Hout. lia.
Qed.

Lemma merge_loop l2 l1 b m n a e :
  seg m a (l1 ++ b :: l2) e 0 → pmem_ok m → 0 < a → e < 2 ^ 63 → zlen l2 < n →
  ∃ m', iterZ n merge_step (m, b_addr b) = inr m' ∧ seg m' a (l1 ++ merge b l2) e 0 ∧ pmem_ok m' ∧
        ∀ x, ¬ in_free (b :: l2) x → m' x = m x.
Proof.
  revert l1 b m n. induction l2 as [| c r IH]; intros l1 b m n Hs Hm Ha He Hn;
    pose proof Hs as [Hs1 Hs2]%seg_split; pose proof (seg_bounds _ _ _ _ _ Hs1);
    pose proof (zlen_nonneg l1); rewrite ?zlen_cons in Hn; try pose proof (zlen_nonneg r).
  - exists m. rewrite iterZ_step by (unfold zlen in Hn; cbn in Hn; lia). cbn [seg] in Hs2.
    destruct Hs2 as (_ & _ & (_ & _ & Hnx) & _). unfold merge_step. rewrite Hnx, orb_true_r. auto.
  - rewrite iterZ_step by lia. destruct (b_free b && b_free c) eqn:Ef; cbn [merge]; rewrite Ef.
    + apply andb_true_iff in Ef as [Hfb Hfc].
      destruct (merge_pair m b c r e) as (m1 & -> & Hs1' & Hok & Hout); [done | unfold HDR in *; lia | done.. |].
      destruct (IH l1 (join b c) m1 (n - 1)) as (m' & Hr & Hs' & Hm' & Hx); [| auto | done | done | lia |].
      { apply seg_split. split; [| done]. apply (seg_frame m); [done |]. intros x Hx. apply Hout. cbn in Hx. lia. }
      exists m'. split; [exact Hr |]. split; [done |]. split; [done |]. intros x Hno.
      cbn [seg] in Hs2. destruct Hs2 as (_ & Hsz & _ & Hac & Hszc & _). unfold HDR in *.
      rewrite Hx.
      * apply Hout. unfold HDR. destruct (decide (b_addr b ≤ x < b_addr b + 24)); [| lia].
        destruct Hno. exists b. split; [lmem |]. split; [done |]. unfold b_end, HDR. lia.
      * intros (d & [-> | Hd]%elem_of_cons & Hfd & Hr'); apply Hno.
        -- unfold b_end in Hr'. cbn [join b_addr b_size] in Hr'. unfold HDR in Hr'.
           destruct (decide (x < b_addr b + 24 + b_size b)).
           ++ exists b. split; [lmem |]. split; [done |]. unfold b_end, HDR. lia.
           ++ exists c. split; [apply list_elem_of_further; lmem |]. split; [done |]. unfold b_end, HDR. lia.
        -- exists d. split; [by do 2 apply list_elem_of_further | done].
    + cbn [seg] in Hs2. destruct Hs2 as (_ & Hsz & (Hh1 & Hh2 & Hh3) & Hac & Hszc & (Hc1 & Hc2 & Hc3) & _).
      unfold merge_step at 1. rewrite Hh2, Hh3, <- Hac, Hc2.
      destruct (Z.eqb_spec (b_addr b) 0); [unfold HDR in *; lia |].
      destruct (Z.eqb_spec (b_addr c) 0); [unfold HDR in *; lia |]. cbn [orb].
      replace (negb (cbool (b_free b) =? 0) && negb (cbool (b_free c) =? 0)) with false
        by (by destruct (b_free b), (b_free c)).
      destruct (IH (l1 ++ [b]) c m (n - 1)) as (m' & Hr & Hs' & Hm' & Hx);
        [by rewrite <- app_assoc | done.. | lia |].
      exists m'. split; [exact Hr |]. rewrite <- app_assoc in Hs'. split; [exact Hs' |]. split; [done |].
      intros x Hno. apply Hx. intros (d & Hd & ?). apply Hno. exists d. split; [by apply list_elem_of_further | done].
Qed.

(** ** Whole operations *)
Lemma aligned_size_spec size :
  0 < size ≤ 2 ^ 64 - 16 →
  size ≤ aligned_size size < size + 16 ∧ aligned_size size mod 16 = 0.
Proof.
  intros Hs. unfold aligned_size. change (BLOCK_SIZE - 1) with 15.
  assert (∀ x, 0 ≤ x < 2 ^ 64 → Z.land x (u64 (Z.lnot 15)) = x / 16 * 16) as H.
  { intros x Hx. apply Z.bits_inj'. intros k Hk. rewrite Z.land_spec.
    change 16 with (2 ^ 4). rewrite <- Z.shiftl_mul_pow2, <- Z.shiftr_div_pow2 by lia.
    destruct (decide (k < 64)).
    - rewrite testbit_u64 by lia. destruct (decide (k < 4)).
      + rewrite Z.shiftl_spec_low by lia. change 15 with (Z.ones 4).
        rewrite Z.lnot_spec, Z.ones_spec_low by lia. apply andb_false_r.
      + rewrite Z.shiftl_spec, Z.shiftr_spec by lia. change 15 with (Z.ones 4).
        rewrite Z.lnot_spec, Z.ones_spec_high by lia. rewrite andb_true_r. f_equal. lia.
    - rewrite Z.shiftl_spec, Z.shiftr_spec by lia. rewrite (testbit_high x 64), (testbit_high x 64) by lia. done. }
  rewrite u64_small, H by lia. split; zdm.
Qed.

Lemma used_total_app l1 l2 : used_total (l1 ++ l2) = used_total l1 + used_total l2.
Proof. induction l1 as [| b l1 IH]; cbn; [done |]. unfold used_total in *. lia. Qed.

Lemma used_total_bounds m a bs e nx : seg m a bs e nx → 0 ≤ used_total bs ≤ e - a.
Proof.
  revert a. induction bs as [| b bs IH]; intros a; cbn [seg]; [intros ->; cbn; lia |].
  intros (_ & ? & _ & Hs). apply IH in Hs. cbn. fold (used_total bs). unfold block_cost, HDR in *.
  destruct (b_free b); lia.
Qed.

Lemma used_total_merge b l : used_total (merge b l) = used_total (b :: l).
Proof.
  revert b. induction l as [| c r IH]; intros b; cbn [merge]; [done |].
  destruct (b_free b && b_free c) eqn:E; [| cbn; fold (used_total (merge c r)); by rewrite IH].
  apply andb_true_iff in E as [Eb Ec]. rewrite IH. cbn. unfold block_cost. by rewrite Eb, Ec.
Qed.

Lemma carve_cost b n :
  used_total (carve b n) = (if n + HDR + BLOCK_SIZE <=? b_size b then n else b_size b) + HDR.
Proof. unfold carve. destruct (_ <=? _); cbn; unfold block_cost; cbn; lia. Qed.

Lemma used_total_free b : b_free b = true → used_total [b] = 0.
Proof. intros Hf. cbn. unfold block_cost. by rewrite Hf. Qed.

Lemma heap_len st bs : heap_ok st bs → zlen bs < HEAP_SIZE.
Proof.
  intros Hok. pose proof (seg_bounds _ _ _ _ _ (hk_seg _ _ Hok)). unfold HDR, HEAP_SIZE in *. lia.
Qed.

Lemma kmalloc_cases st bs size :
  heap_ok st bs → 0 < size ≤ 2 ^ 64 - 16 →
  let n := aligned_size size in
  (kmalloc size st = Some (0, st) ∧ ∀ b, b ∈ bs → b_free b = true → b_size b < n) ∨
  ∃ l1 b l2 st', bs = l1 ++ b :: l2 ∧ b_free b = true ∧ n ≤ b_size b ∧
    (∀ c, c ∈ l1 → b_free c = true → b_size c < n) ∧
    kmalloc size st = Some (b_addr b + HDR, st') ∧ heap_ok st' (l1 ++ carve b n ++ l2) ∧
    ∀ x, x < b_addr b ∨ b_end b ≤ x → hmem st' x = hmem st x.
Proof.
  intros Hok Hsize n. pose proof (heap_len _ _ Hok) as Hlen.
  destruct Hok as [Hm Hstart [Hb1 Hb2] Hseg Hne Hused Htot].
  assert (n = aligned_size size) as Hn by done. destruct (aligned_size_spec size Hsize) as [Hal _].
  unfold kmalloc, find_free_block. destruct (Z.eqb_spec size 0); [lia |]. rewrite <- Hn in *.
  pose proof (find_loop (hmem st) HEAP_SIZE n (heap_base st) bs _ Hseg Hb1 Hlen) as HF.
  replace (first_ptr bs (heap_base st)) with (heap_start st) in HF by (by destruct bs). cbn zeta in HF.
  destruct HF as [[Hr Hall] | (l1 & b & l2 & Ebs & Hr & Hf & Hle & Hall)]; rewrite Hr; cbn [mbind option_bind].
  { left. split; [done | exact Hall]. }
  subst bs. pose proof Hseg as [Hs1 Hs2]%seg_split. pose proof (seg_bounds _ _ _ _ _ Hs1).
  pose proof (zlen_nonneg l1). pose proof (seg_elem _ _ _ _ _ b Hs2 ltac:(lmem)) as (_ & Hsz & Hend).
  unfold b_end in Hend. assert (0 < b_addr b) as Hba by (unfold HDR in *; lia).
  destruct (Z.eqb_spec (b_addr b) 0); [lia |]. right. do 4 eexists. split; [done |]. split; [done |].
  split; [done |]. split; [exact Hall |].
  destruct (carve_spec (hmem st) b n l2 _ 0 Hs2 Hba Hb2 ltac:(lia) ltac:(lia)) as (Hseg' & Hout & Hsz').
  unfold HDR, HEAP_SIZE in *. rewrite (u64_small (b_addr b + 24)) by lia. split; [done |]. split; [| exact Hout].
  constructor; cbn [hmem heap_start heap_base total_memory used_memory]; try done.
  - by apply carve_mem_ok.
  - unfold carve in *. destruct (Z.leb_spec (n + HDR + BLOCK_SIZE) (b_size b)); cbn [app] in *;
      (apply seg_split; split; [apply (seg_frame (hmem st)); [done |]; intros x Hx; apply Hout; cbn in *; lia | done]).
  - intros [_ [Hnil _]%app_nil]%app_nil. unfold carve in Hnil. by destruct (_ <=? _).
  - rewrite Hsz', Hused, !used_total_app, carve_cost. change (b :: l2) with ([b] ++ l2).
    rewrite used_total_app, (used_total_free b Hf). pose proof (used_total_bounds _ _ _ _ _ Hs1).
    cbn [seg] in Hs2. destruct Hs2 as (_ & _ & _ & Hs3). pose proof (used_total_bounds _ _ _ _ _ Hs3).
    unfold HDR, BLOCK_SIZE in *. destruct (Z.leb_spec (n + 24 + 16) (b_size b)); (rewrite (u64_small (_ + 24)) by lia); rewrite u64_small by lia; lia.
Qed.

Definition release (b : block) : block := Block (b_addr b) (b_size b) true.
Definition merge_all (bs : list block) : list block := match bs with [] => [] | b :: r => merge b r end.

Lemma merge_keeps_used b l c : c ∈ b :: l → b_free c = false → c ∈ merge b l.
Proof.
  revert b. induction l as [| d r IH]; intros b Hc Hf; cbn [merge]; [done |].
  destruct (b_free b && b_free d) eqn:E.
  - apply andb_true_iff in E as [Eb Ed]. apply IH; [| done].
    apply elem_of_cons in Hc as [-> | [-> | Hc]%elem_of_cons]; [congruence.. |]. by apply list_elem_of_further.
  - apply elem_of_cons in Hc as [-> | Hc]; [lmem |]. apply list_elem_of_further. auto.
Qed.

(** No two neighbouring free blocks. *)
Fixpoint coalesced (bs : list block) : Prop :=
  match bs with
  | b :: ((c :: _) as r) => b_free b && b_free c = false ∧ coalesced r
  | _ => True
  end.

Lemma merge_head b l : ∃ c r, merge b l = c :: r ∧ b_free c = b_free b ∧ b_addr c = b_addr b.
Proof.
  revert b. induction l as [| d l IH]; intros b; cbn [merge]; [eauto |].
  destruct (b_free b && b_free d) eqn:E; [| eauto].
  destruct (IH (join b d)) as (c & r & -> & Hf & Ha). exists c, r. split; [done |].
  apply andb_true_iff in E as [Eb _]. by rewrite Hf, Eb.
Qed.

Lemma merge_coalesced b l : coalesced (merge b l).
Proof.
  revert b. induction l as [| c r IH]; intros b; cbn [merge]; [done |].
  destruct (b_free b && b_free c) eqn:E; [apply IH |].
  destruct (merge_head c r) as (d & r' & Hd & Hf & _). pose proof (IH c) as HI. rewrite Hd in *.
  cbn [coalesced]. split; [by rewrite Hf | exact HI].
Qed.

(** Clearing the in-use mark of [b] in its header. *)
Lemma release_seg m a l1 b l2 e :
  seg m a (l1 ++ b :: l2) e 0 →
  let m1 := set_free m (b_addr b) 1 in
  seg m1 a (l1 ++ release b :: l2) e 0 ∧ blk_size m1 (b_addr b) = b_size b ∧
  ∀ x, x < b_addr b ∨ b_addr b + HDR ≤ x → m1 x = m x.
Proof.
  intros [Hs1 Hs2]%seg_split m1. cbn [seg] in Hs2. destruct Hs2 as (_ & Hsz & (Hh1 & Hh2 & Hh3) & Hs3).
  assert (∀ x, x < b_addr b ∨ b_addr b + HDR ≤ x → m1 x = m x) as Hout.
  { unfold m1, set_free, HDR. intros x Hx. hout. }
  assert (hdr m1 (release b) (match l2 with [] => 0 | _ => b_addr b + HDR + b_size b end)) as Hh.
  { unfold hdr, blk_size, blk_free, blk_next, m1, set_free in *. cbn [release b_addr b_size b_free].
    hread. by rewrite Hh1, Hh3. }
  split; [| split; [apply Hh | done]].
  apply seg_split. cbn [release b_addr seg b_size]. split; [| split; [done |]; split; [done |]; split; [done |]].
  - apply (seg_frame m); [done |]. intros x Hx. apply Hout. lia.
  - apply (seg_frame m); [done |]. intros x Hx. apply Hout. lia.
Qed.

Lemma kfree_cases st l1 b l2 :
  heap_ok st (l1 ++ b :: l2) → b_free b = false →
  let bs' := merge_all (l1 ++ release b :: l2) in
  ∃ st', kfree (b_addr b + HDR) st = Freed st' ∧ heap_ok st' bs' ∧
         ∀ x, ¬ in_free (l1 ++ release b :: l2) x → hmem st' x = hmem st x.
Proof.
  intros Hok Hf bs'. pose proof (heap_len _ _ Hok) as Hlen.
  destruct Hok as [Hm Hstart [Hb1 Hb2] Hseg Hne Hused Htot].
  pose proof Hseg as [Hs1 Hs2]%seg_split. pose proof (seg_bounds _ _ _ _ _ Hs1). pose proof (zlen_nonneg l1).
  pose proof (seg_elem _ _ _ _ _ b Hs2 ltac:(lmem)) as (_ & Hsz & Hend). unfold b_end in Hend.
  pose proof Hs2 as Hs2'. cbn [seg] in Hs2'. destruct Hs2' as (_ & _ & (_ & Hh2 & _) & Hs3).
  destruct (release_seg _ _ _ _ _ _ Hseg) as (Hseg1 & Hbs & Hout). cbn zeta in Hseg1, Hbs, Hout.
  set (a := b_addr b) in *. set (m1 := set_free (hmem st) a 1) in *.
  assert (pmem_ok m1) as Hm1 by (by apply wr32_ok).
  unfold kfree. destruct (Z.eqb_spec (a + HDR) 0); [unfold HDR in *; lia |].
  assert (a + HDR -64 HDR = a) as -> by (unfold HDR, HEAP_SIZE in *; rewrite u64_small; lia).
  rewrite (proj2 (Z.ltb_ge a (heap_base st))), (u64_small (heap_base st + HEAP_SIZE)), (proj2 (Z.leb_gt _ a))
    by (unfold HDR, HEAP_SIZE in *; lia). rewrite Hh2, Hf. cbn [orb cbool Z.eqb negb]. fold m1.
  rewrite Hbs.
  unfold merge_free_blocks. cbn [hmem heap_start]. rewrite Hstart.
  destruct (l1 ++ release b :: l2) as [| d r] eqn:Ebs; [by destruct l1 |].
  assert (b_addr d = heap_base st) as Hd by (by cbn [seg] in Hseg1; destruct Hseg1 as (? & _)).
  assert (zlen r < HEAP_SIZE) as Hr.
  { assert (zlen (l1 ++ b :: l2) = zlen (d :: r)) as E.
    { rewrite <- Ebs. unfold zlen. rewrite !length_app. done. } rewrite zlen_cons in E. lia. }
  destruct (merge_loop r [] d m1 HEAP_SIZE (heap_base st) _ Hseg1 Hm1 Hb1 Hb2 Hr) as (m' & Hrun & Hseg' & Hm' & Hfr).
  rewrite Hd in Hrun. rewrite Hrun. eexists. split; [reflexivity |]. split.
  - constructor; cbn [hmem heap_start heap_base total_memory used_memory]; try done.
    + subst bs'. cbn [merge_all]. by destruct (merge_head d r) as (? & ? & -> & _).
    + subst bs'. cbn [merge_all]. rewrite used_total_merge, <- Ebs, Hused.
      change (release b :: l2) with ([release b] ++ l2). change (b :: l2) with ([b] ++ l2).
      rewrite !used_total_app, (used_total_free (release b)) by done.
      assert (used_total [b] = b_size b + HDR) as -> by (cbn; unfold block_cost; rewrite Hf; lia).
      pose proof (used_total_bounds _ _ _ _ _ Hs1). pose proof (used_total_bounds _ _ _ _ _ Hs3).
      unfold HDR, HEAP_SIZE in *. rewrite (u64_small (_ + 24)), u64_small by lia. lia.
  - intros x Hno. cbn [hmem]. rewrite Hfr by done. apply Hout.
    destruct (decide (a ≤ x < a + HDR)); [| lia]. destruct Hno. exists (release b).
    rewrite <- Ebs. split; [apply elem_of_app; right; lmem |]. split; [done |]. unfold b_end. cbn. fold a. lia.
Qed.

(** ** Clients of the heap

    A client allocates, frees what it allocated and stores bytes into its own
    allocations, in any order. *)
Inductive heap_step : heap_state * list (Z * Z) → heap_state * list (Z * Z) → Prop :=
| step_kmalloc st live size p st' :
    0 < size ≤ 2 ^ 64 - 16 → kmalloc size st = Some (p, st') → p ≠ 0 →
    heap_step (st, live) (st', (p, size) :: live)
| step_kmalloc_fail st live size st' :
    0 < size ≤ 2 ^ 64 - 16 → kmalloc size st = Some (0, st') → heap_step (st, live) (st', live)
| step_kfree st l1 p size l2 st' :
    kfree p st = Freed st' → heap_step (st, l1 ++ (p, size) :: l2) (st', l1 ++ l2)
| step_store st live p size x v :
    (p, size) ∈ live → p ≤ x < p + size →
    heap_step (st, live)
      (HeapState (mupd (hmem st) x v) (heap_start st) (heap_base st) (total_memory st) (used_memory st), live).

(** The allocation [(p, size)] lies in the used block [b]. *)
Definition backs (bs : list block) (ps : Z * Z) : Prop :=
  ∃ b, b ∈ bs ∧ b_free b = false ∧ ps.1 = b_addr b + HDR ∧ ps.2 ≤ b_size b.

Definition client_ok (s : heap_state * list (Z * Z)) : Prop :=
  ∃ bs, heap_ok s.1 bs ∧ NoDup (s.2.*1) ∧ Forall (backs bs) s.2.

Lemma seg_addr_inj m a bs e nx b c :
  seg m a bs e nx → b ∈ bs → c ∈ bs → b_addr b = b_addr c → b = c.
Proof.
  intros Hs [l1 [l2 ->]]%list_elem_of_split Hc Heq. apply seg_split in Hs as [H1 H2].
  apply elem_of_app in Hc as [Hc | [-> | Hc]%elem_of_cons]; [| done |].
  - apply (seg_elem _ _ _ _ _ _ H1) in Hc as (_ & ? & ?). unfold b_end, HDR in *. lia.
  - cbn [seg] in H2. destruct H2 as (_ & ? & _ & H3).
    apply (seg_elem _ _ _ _ _ _ H3) in Hc as (? & _). unfold HDR in *. lia.
Qed.

Lemma carve_head b n : ∃ c r, carve b n = c :: r ∧ b_addr c = b_addr b ∧ b_free c = false ∧
  (n ≤ b_size b → n ≤ b_size c).
Proof. unfold carve. destruct (_ <=? _); do 2 eexists; (split; [done |]); cbn; (split; [done |]); (split; [done | lia]). Qed.

Lemma carve_keeps l1 b l2 n c : c ∈ l1 ++ b :: l2 → b_free b = true → b_free c = false → c ∈ l1 ++ carve b n ++ l2.
Proof.
  rewrite !elem_of_app, elem_of_cons. intros [| [-> |]] Hb Hc; [auto | congruence | auto].
Qed.

Lemma store_ok st bs b x v :
  heap_ok st bs → b ∈ bs → b_addr b + HDR ≤ x < b_end b →
  heap_ok (HeapState (mupd (hmem st) x v) (heap_start st) (heap_base st) (total_memory st) (used_memory st)) bs.
Proof.
  intros [Hm Hs Hb Hseg Hne Hu Ht] [l1 [l2 ->]]%list_elem_of_split Hx. constructor; try done; cbn [hmem heap_base].
  - intros y. unfold mupd. case_match; auto with cint.
  - apply seg_split in Hseg as [H1 H2]. apply seg_split.
    assert (∀ y, y ≠ x → mupd (hmem st) x v y = hmem st y) as Hy.
    { intros y Hy. unfold mupd. by rewrite (proj2 (Z.eqb_neq y x)). }
    unfold b_end in Hx. cbn [seg] in H2 |- *. destruct H2 as (? & ? & Hh & H3). split_and!; try done.
    + apply (seg_frame (hmem st)); [done |]. intros y ?. apply Hy. unfold HDR in *. lia.
    + eapply hdr_frame; [| exact Hh]. intros y ?. apply Hy. lia.
    + apply (seg_frame (hmem st)); [done |]. intros y ?. apply Hy. lia.
Qed.

Lemma kmalloc_client st live size p st' :
  client_ok (st, live) → 0 < size ≤ 2 ^ 64 - 16 → kmalloc size st = Some (p, st') → p ≠ 0 →
  client_ok (st', (p, size) :: live).
Proof.
  intros (bs & Hok & Hnd & Hall) Hsz Hrun Hp. cbn [fst snd] in Hok, Hnd, Hall.
  destruct (kmalloc_cases _ _ _ Hok Hsz) as [[Hr _] | (k1 & b & k2 & st1 & -> & Hf & Hle & _ & Hr & Hok' & _)];
    [congruence |]. rewrite Hr in Hrun. injection Hrun as <- <-. destruct (aligned_size_spec size Hsz) as [Hal _].
  exists (k1 ++ carve b (aligned_size size) ++ k2). split; [done |]. split.
  - apply NoDup_cons. split; [| done]. intros ([q n] & Heq & Hq)%list_elem_of_fmap.
    rewrite Forall_forall in Hall. destruct (Hall _ Hq) as (c & Hc & Hcf & Hca & _). cbn [fst] in *.
    assert (b = c); [| congruence].
    eapply seg_addr_inj; [apply Hok | apply elem_of_app; right; lmem | done | lia].
  - apply Forall_cons. split.
    + destruct (carve_head b (aligned_size size)) as (c & r & E & Ha & Hcf & Hs). exists c. rewrite E.
      split; [apply elem_of_app; right; cbn [app]; lmem |]. cbn [fst snd]. rewrite Ha. split_and!; [done | done |].
      specialize (Hs Hle). lia.
    + eapply Forall_impl; [exact Hall |]. intros [q n] (c & Hc & Hcf & ?). exists c.
      split; [by apply carve_keeps | done].
Qed.

Lemma kmalloc_fail_client st live size st' :
  client_ok (st, live) → 0 < size ≤ 2 ^ 64 - 16 → kmalloc size st = Some (0, st') → client_ok (st', live).
Proof.
  intros (bs & Hok & Hnd & Hall) Hsz Hrun. cbn [fst snd] in Hok, Hnd, Hall.
  destruct (kmalloc_cases _ _ _ Hok Hsz) as [[Hr _] | (k1 & b & k2 & st1 & -> & _ & _ & _ & Hr & Hok' & _)].
  - rewrite Hr in Hrun. injection Hrun as <-. by exists bs.
  - rewrite Hr in Hrun. injection Hrun as E. exfalso.
    assert (b ∈ k1 ++ b :: k2) as Hb by (apply elem_of_app; right; lmem).
    apply (seg_elem _ _ _ _ _ _ (hk_seg _ _ Hok)) in Hb as (? & _).
    destruct (hk_base _ _ Hok). unfold HDR in *. lia.
Qed.

(** The other allocations are in other blocks. *)
Lemma others_elsewhere l1 p size l2 :
  NoDup ((l1 ++ (p, size) :: l2).*1) → NoDup ((l1 ++ l2).*1) ∧ Forall (λ ps : Z * Z, ps.1 ≠ p) (l1 ++ l2).
Proof.
  rewrite !fmap_app. intros (H1 & H2 & [H3 H4]%NoDup_cons)%NoDup_app. split.
  - apply NoDup_app. split; [done |]. split; [| done]. intros y Hy Hy2. apply (H2 y Hy). by apply list_elem_of_further.
  - apply Forall_app. split; apply Forall_forall; intros ps Hps E.
    + apply (H2 ps.1); [by apply list_elem_of_fmap_2 | rewrite E; apply list_elem_of_here].
    + apply H3. cbn [fst]. rewrite <- E. by apply list_elem_of_fmap_2.
Qed.

Lemma kfree_client st l1 p size l2 st' :
  client_ok (st, l1 ++ (p, size) :: l2) → kfree p st = Freed st' → client_ok (st', l1 ++ l2).
Proof.
  intros (bs & Hok & Hnd & Hall) Hrun. cbn [fst snd] in Hok, Hnd, Hall.
  apply others_elsewhere in Hnd as [Hnd Hne].
  apply Forall_app in Hall as [Hall1 [(b & Hb & Hf & Hpa & _) Hall2]%Forall_cons].
  cbn [fst] in Hpa. subst p. apply list_elem_of_split in Hb as (k1 & k2 & ->).
  destruct (kfree_cases _ _ _ _ Hok Hf) as (st1 & Hr & Hok' & _). rewrite Hr in Hrun. injection Hrun as <-.
  eexists. split; [exact Hok' |]. split; [done |].
  assert (Forall (backs (k1 ++ b :: k2)) (l1 ++ l2)) as Hall by (by apply Forall_app).
  rewrite Forall_forall in Hne, Hall. apply Forall_forall. intros ps Hps.
  destruct (Hall _ Hps) as (c & Hc & Hcf & Hca & Hcs). specialize (Hne _ Hps). cbn in Hne.
  exists c. split; [| done].
  assert (c ∈ k1 ++ release b :: k2) as Hc'.
  { apply elem_of_app in Hc as [| [-> |]%elem_of_cons]; [by apply elem_of_app; left | done |].
    apply elem_of_app; right. by apply list_elem_of_further. }
  destruct (k1 ++ release b :: k2) as [| d r]; [by apply elem_of_nil in Hc' |]. by apply merge_keeps_used.
Qed.

Lemma heap_step_ok s s' : heap_step s s' → client_ok s → client_ok s'.
Proof.
  intros Hstep Hok. destruct Hstep as [| | | st live p size x v Hin Hx];
    [by eapply kmalloc_client | by eapply kmalloc_fail_client | by eapply kfree_client |].
  destruct Hok as (bs & Hok & Hnd & Hall). cbn [fst snd] in *. exists bs. split; [| done].
  rewrite Forall_forall in Hall. destruct (Hall _ Hin) as (b & Hb & Hf & Hpa & Hsz). cbn [fst snd] in *.
  apply (store_ok _ _ b); [done | done |]. unfold b_end. lia.
Qed.

Lemma memory_init_spec ke m pm :
  pmem_ok m → pmm_ok pm → 0 < ke → ke < 2 ^ 32 - 2 ^ 22 →
  let r := memory_init ke m pm in
  heap_ok r.1 [Block (heap_base r.1) (HEAP_SIZE - HDR) true] ∧ ke ≤ heap_base r.1 ∧ pmm_ok r.2 ∧
  ∀ p, heap_base r.1 ≤ p * 4096 < heap_base r.1 + HEAP_SIZE → used r.2 p = true.
Proof.
  intros Hm Hpm H0 Hke. unfold memory_init. cbn zeta. rewrite (u64_small (ke + 0xFFF)) by lia.
  assert (Z.land (ke + 0xFFF) (Z.lnot 0xFFF) = (ke + 0xFFF) / 4096 * 4096) as ->.
  { change (0xFFF) with (Z.ones 12) at 2. rewrite <- Z.ldiff_land, Z.ldiff_ones_r by lia.
    rewrite Z.shiftl_mul_pow2, Z.shiftr_div_pow2 by lia. done. }
  set (base := (ke + 0xFFF) / 4096 * 4096). assert (ke ≤ base < ke + 4096) as Hbase by (subst base; zdm).
  assert (base mod 4096 = 0) as Hal by (subst base; by apply Z.mod_mul). clearbody base. cbn [fst snd heap_base].
  destruct (mark_region_used_spec pm base HEAP_SIZE ltac:(lia) Hpm) as [Hpm' Hu].
  split; [constructor; cbn; try done | split; [lia | split; [done |]]].
  - unfold set_size, set_free, set_next. auto with cint.
  - unfold HEAP_SIZE. lia.
  - split; [done |]. split; [done |]. split; [| unfold HDR; lia].
    unfold hdr, blk_size, blk_free, blk_next, set_size, set_free, set_next. cbn [b_addr b_size b_free]. hread. done.
  - intros p Hp. unfold pmm_mark_region_used. rewrite Hu. apply orb_true_iff. left. apply page_range_spec.
    unfold used_end, HEAP_SIZE, MAX_PAGES, PAGE_SIZE in *. rewrite u64_small by lia. zdm.
Qed.

Lemma merge_used b l c : b_free c = false → c ∈ merge b l → c ∈ b :: l.
Proof.
  intros Hf. revert b. induction l as [| d r IH]; intros b Hc; cbn [merge] in Hc; [done |]. destruct (b_free b && b_free d) eqn:E.
  - apply IH, elem_of_cons in Hc as [-> | Hc]; [done |]. do 2 apply list_elem_of_further. done.
  - apply elem_of_cons in Hc as [-> | Hc]; [lmem |]. apply list_elem_of_further. by apply IH.
Qed.
Lemma merge_all_used bs c : b_free c = false → c ∈ merge_all bs ↔ c ∈ bs.
Proof. intros Hf. destruct bs as [| b r]; [done |]. split; [by apply merge_used | intros Hc; by apply merge_keeps_used]. Qed.
Lemma merge_all_total bs : used_total (merge_all bs) = used_total bs.
Proof. destruct bs; [done | apply used_total_merge]. Qed.
(** The blocks of a segment cover it. *)
Lemma seg_cover m a bs e nx x : seg m a bs e nx → a ≤ x < e → ∃ c, c ∈ bs ∧ b_addr c ≤ x < b_end c.
Proof.
  revert a. induction bs as [| b r IH]; intros a; cbn [seg]; [lia |]. intros (Ha & Hsz & _ & Hs) Hx.
  destruct (decide (x < a + HDR + b_size b)); [exists b; split; [lmem | unfold b_end; lia] |].
  destruct (IH _ Hs) as (c & Hc & Hcx); [lia |]. exists c. split; [by apply list_elem_of_further | done].
Qed.
Lemma kfree_base p st st' : kfree p st = Freed st' → heap_base st' = heap_base st.
Proof.
  unfold kfree, merge_free_blocks. destruct (p =? 0); [by intros [= <-] |]. destruct (_ || _); [done |]. destruct (negb _); [done |].
  destruct (iterZ _ _ _); [done |]. by intros [= <-].
Qed.

(** ** Properties *)

(** C17: [kmalloc] is first fit with rounded sizes.  The request is rounded up
    to the next multiple of 16; when no free block is that large it returns 0
    and changes nothing.  Otherwise it takes the first large enough free
    block: if a header and 16 more bytes remain, the block is cut to exactly
    the rounded size and the rest stays behind it as a free block, else it is
    handed out whole.  The pointer is just behind the block's header, the
    headers still tile the heap with exact accounting, and no byte outside the
    chosen block (so no byte of any other allocation) changes. *)
Theorem kmalloc_correct st bs size :
  heap_ok st bs → 0 < size ≤ 2 ^ 64 - 16 →
  let n := aligned_size size in
  (size ≤ n < size + 16 ∧ n mod 16 = 0) ∧
  ((kmalloc size st = Some (0, st) ∧ ∀ b, b ∈ bs → b_free b = true → b_size b < n) ∨
   ∃ l1 b l2 st' c r,
    bs = l1 ++ b :: l2 ∧ b_free b = true ∧ n ≤ b_size b ∧ (∀ d, d ∈ l1 → b_free d = true → b_size d < n) ∧
    kmalloc size st = Some (b_addr b + HDR, st') ∧ heap_ok st' (l1 ++ c :: r ++ l2) ∧
    (if n + HDR + 16 <=? b_size b
     then c = Block (b_addr b) n false ∧ r = [Block (b_addr b + HDR + n) (b_size b - n - HDR) true]
     else c = Block (b_addr b) (b_size b) false ∧ r = []) ∧
    ∀ x, x < b_addr b ∨ b_end b ≤ x → hmem st' x = hmem st x).
Proof.
  intros Hok Hsz n. destruct (aligned_size_spec size Hsz) as [Hal Hmod]. split; [done |].
  destruct (kmalloc_cases _ _ _ Hok Hsz) as [? | (l1 & b & l2 & st' & -> & Hf & Hle & Hall & Hr & Hok' & Hx)]; [by left |]. right.
  fold n in Hle, Hall, Hok'. unfold carve in Hok'. change BLOCK_SIZE with 16 in Hok'. destruct (n + HDR + 16 <=? b_size b) eqn:En.
  - exists l1, b, l2, st', (Block (b_addr b) n false), [Block (b_addr b + HDR + n) (b_size b - n - HDR) true]. rewrite En. by split_and!.
  - exists l1, b, l2, st', (Block (b_addr b) (b_size b) false), []. rewrite En. by split_and!.
Qed.

(** C18: [kfree] of a live block returns (it neither panics nor loops) and
    releases exactly that block: every byte of it, header included, lies in a
    free block afterwards, the blocks in use are the other ones that were in
    use before, unchanged, and the memory in use drops by the block and its
    header.  Neighbouring free blocks are coalesced all over the heap and the
    heap's invariant holds. *)
Theorem kfree_correct st l1 b l2 :
  heap_ok st (l1 ++ b :: l2) → b_free b = false →
  ∃ st' bs', kfree (b_addr b + HDR) st = Freed st' ∧ heap_ok st' bs' ∧ coalesced bs' ∧
    (∀ x, b_addr b ≤ x < b_end b → in_free bs' x) ∧
    (∀ c, b_free c = false → c ∈ bs' ↔ c ∈ l1 ++ l2) ∧
    memory_get_used st' = memory_get_used st - (b_size b + HDR) ∧
    ∀ c x, c ∈ l1 ++ l2 → b_free c = false → b_addr c ≤ x < b_end c → hmem st' x = hmem st x.
Proof.
  intros Hok Hf. destruct (kfree_cases _ _ _ _ Hok Hf) as (st' & Hr & Hok' & Hx).
  assert (seg (set_free (hmem st) (b_addr b) 1) (heap_base st) (l1 ++ release b :: l2) (heap_base st + HEAP_SIZE) 0) as Hs by (apply release_seg, Hok).
  set (bs1 := l1 ++ release b :: l2) in *. assert (∀ c, b_free c = false → c ∈ bs1 ↔ c ∈ l1 ++ l2) as Hin.
  { intros c Hc. unfold bs1. rewrite !elem_of_app, elem_of_cons. split; [intros [| [-> |]]; [auto | done | auto] | intros [|]; auto]. }
  assert (∀ c, b_free c = false → c ∈ merge_all bs1 ↔ c ∈ l1 ++ l2) as Hused by (intros c Hc; rewrite merge_all_used by done; by apply Hin).
  assert (∀ c d, c ∈ bs1 → d ∈ bs1 → b_free c = false → b_free d = true → b_end c ≤ b_addr d ∨ b_end d ≤ b_addr c) as Hdis.
  { intros c d Hc Hd Fc Fd. apply (seg_disjoint _ _ _ _ _ c d Hs Hc Hd). intros E. pose proof (seg_addr_inj _ _ _ _ _ c d Hs Hc Hd E). congruence. }
  assert (release b ∈ bs1) as Hb by (unfold bs1; apply elem_of_app; right; lmem).
  exists st', (merge_all bs1). split; [done |]. split; [exact Hok' |]. split; [destruct bs1; [done | apply merge_coalesced] |]. split; [| split; [exact Hused |]; split].
  - intros x Hxb. destruct (seg_elem _ _ _ _ _ (release b) Hs Hb) as (B1 & B2 & B3). unfold b_end in *. cbn [release b_addr b_size] in *.
    pose proof (kfree_base _ _ _ Hr) as Hbase.
    destruct (seg_cover _ _ _ _ _ x (hk_seg _ _ Hok')) as (c & Hc & Hcx); [rewrite Hbase; lia |]. exists c. split; [done |]. split; [| done].
    destruct (b_free c) eqn:Fc; [done |]. pose proof (proj2 (Hin c Fc) (proj1 (Hused c Fc) Hc)) as Hc1.
    destruct (Hdis c (release b) Hc1 Hb Fc eq_refl); unfold b_end in *; cbn [release b_addr b_size] in *; lia.
  - unfold memory_get_used. rewrite (hk_used _ _ Hok'), (hk_used _ _ Hok), merge_all_total. unfold bs1. rewrite !used_total_app. cbn [used_total foldr].
    unfold block_cost at 1 3. rewrite Hf. cbn [release b_free]. lia.
  - intros c x Hc Hcf Hr'. apply Hx. intros (d & Hd & Hdf & Hdx). destruct (Hdis c d (proj2 (Hin c Hcf) Hc) Hd Hcf Hdf); lia.
Qed.


(** when the last live block is freed the heap is again one free block of
    [HEAP_SIZE - 24] bytes, as after [memory_init], and nothing is in use. *)
Theorem kfree_last_restores st b l1 l2 :
  heap_ok st (l1 ++ b :: l2) → b_free b = false → Forall (λ c, b_free c = true) (l1 ++ l2) →
  ∃ st', kfree (b_addr b + HDR) st = Freed st' ∧
         heap_ok st' [Block (heap_base st') (HEAP_SIZE - HDR) true] ∧ memory_get_used st' = 0.
Proof.
  intros Hok Hf Hall. destruct (kfree_cases _ _ _ _ Hok Hf) as (st' & Hr & Hok' & _). exists st'. split; [done |].
  assert (∀ b l, b_free b = true → Forall (λ c, b_free c = true) l → ∃ c, merge b l = [c] ∧ b_free c = true) as K.
  { clear. intros b l. revert b. induction l as [| d l IH]; intros b Hb Hl; cbn [merge]; [eauto |].
    apply Forall_cons in Hl as [Hd Hl]. rewrite Hb, Hd. by apply IH. }
  assert (∃ c, merge_all (l1 ++ release b :: l2) = [c] ∧ b_free c = true) as (c & E & Hcf).
  { apply Forall_app in Hall as [H1 H2]. destruct l1 as [| d l1]; cbn [app merge_all]; [by apply K |].
    apply Forall_cons in H1 as [Hd H1]. apply K; [done |]. apply Forall_app. split; [done |]. by apply Forall_cons. }
  rewrite E in Hok'. pose proof (hk_seg _ _ Hok') as (Ha & Hsz & _ & Hend). cbn [seg] in Hend.
  assert (c = Block (heap_base st') (HEAP_SIZE - HDR) true) as ->.
  { destruct c as [ca cs cf]. cbn in *. subst cf ca. f_equal. lia. }
  split; [done |]. unfold memory_get_used. by rewrite (hk_used _ _ Hok').
Qed.

(** [memory_init] establishes the invariant with one free block, and no
    page of the heap is left to the page allocator. *)
Theorem memory_init_ok ke m pm :
  pmem_ok m → pmm_ok pm → 0 < ke → ke < 2 ^ 32 - 2 ^ 22 →
  let r := memory_init ke m pm in
  heap_ok r.1 [Block (heap_base r.1) (HEAP_SIZE - HDR) true] ∧ ke ≤ heap_base r.1 ∧ pmm_ok r.2 ∧
  ∀ p, heap_base r.1 ≤ p * 4096 < heap_base r.1 + HEAP_SIZE → used r.2 p = true.
Proof. apply memory_init_spec. Qed.

(** a request within 15 bytes of [2^64] is rounded up to 0 and served
    from the first free block: the caller gets a pointer with almost nothing
    behind it instead of 0. *)
Theorem kmalloc_wraps st b l2 size :
  heap_ok st (b :: l2) → b_free b = true → 2 ^ 64 - 15 ≤ size < 2 ^ 64 →
  ∃ st', kmalloc size st = Some (b_addr b + HDR, st').
Proof.
  intros Hok Hf Hsz. assert (aligned_size size = 0) as Ha.
  { unfold aligned_size. change (BLOCK_SIZE - 1) with 15.
    assert (u64 (size + 15) = size + 15 - 2 ^ 64) as -> by (unfold u64; zdm).
    assert (∃ k, size + 15 - 2 ^ 64 = k ∧ 0 ≤ k < 15) as (k & -> & Hk) by (eexists; split; [done | lia]).
    change (u64 (Z.lnot 15)) with (2 ^ 64 - 16).
    assert (k = 0 ∨ k = 1 ∨ k = 2 ∨ k = 3 ∨ k = 4 ∨ k = 5 ∨ k = 6 ∨ k = 7 ∨ k = 8 ∨ k = 9 ∨ k = 10 ∨ k = 11 ∨ k = 12 ∨ k = 13 ∨ k = 14) as Hc by lia.
    repeat (destruct Hc as [-> | Hc]; [reflexivity |]). by subst k. }
  pose proof (heap_len _ _ Hok) as Hlen. destruct Hok as [_ Hstart [Hb1 Hb2] Hseg _ _ _].
  pose proof Hseg as (Hba & Hbs & _). unfold kmalloc, find_free_block. rewrite Ha.
  destruct (Z.eqb_spec size 0); [lia |].
  pose proof (find_loop (hmem st) HEAP_SIZE 0 (heap_base st) _ _ Hseg Hb1 Hlen) as HF.
  cbn [first_ptr] in HF. rewrite <- Hstart in HF. cbn zeta in HF.
  destruct HF as [[_ Hall] | (l1 & c & k2 & Ebs & -> & Hcf & Hle & Hall)].
  - specialize (Hall b ltac:(lmem) Hf). lia.
  - assert (c = b) as ->.
    { destruct l1; [by injection Ebs as <- |]. injection Ebs as <- _. specialize (Hall b ltac:(lmem) Hf). lia. }
    cbn [mbind option_bind]. rewrite Hba. destruct (Z.eqb_spec (heap_base st) 0); [lia |].
    unfold HDR. rewrite (u64_small (heap_base st + 24)) by (unfold HEAP_SIZE in *; lia). eauto.
Qed.

(** ** Witnesses *)
Definition demo_heap : heap_state := (memory_init 0x200000 (λ _, 0) full_state).1.
Definition demo_block : block := Block 0x200000 (HEAP_SIZE - HDR) true.

Lemma demo_heap_ok : heap_ok demo_heap [demo_block].
Proof.
  apply (memory_init_spec 0x200000 (λ _, 0) full_state);
    [intros x; split; lia | apply full_state_ok | lia | lia].
Qed.

(** The heap after one allocation of 100 bytes. *)
Definition demo_alloc : heap_state := default demo_heap (snd <$> kmalloc 100 demo_heap).
Definition demo_used : block := Block 0x200000 112 false.
Definition demo_rest : block := Block (0x200000 + HDR + 112) (HEAP_SIZE - HDR - 112 - HDR) true.

Lemma demo_alloc_ok : kmalloc 100 demo_heap = Some (0x200018, demo_alloc) ∧ heap_ok demo_alloc [demo_used; demo_rest].
Proof.
  destruct (kmalloc_cases _ _ 100 demo_heap_ok ltac:(lia)) as [[_ Hno] | (l1 & b & l2 & st' & E & _ & _ & _ & Hr & Hok & _)].
  - specialize (Hno demo_block ltac:(lmem) eq_refl). vm_compute in Hno. discriminate.
  - destruct l1 as [| ? [|]]; [| discriminate..]. injection E as <- <-.
    unfold demo_alloc. rewrite Hr. split; [reflexivity |]. exact Hok.
Qed.

Lemma kmalloc_correct_witness : ∃ st', kmalloc 100 demo_heap = Some (0x200018, st') ∧ ∃ r, heap_ok st' (Block 0x200000 112 false :: r).
Proof.
  destruct (kmalloc_correct demo_heap [demo_block] 100 demo_heap_ok) as (_ & [[_ Hno] | (l1 & b & l2 & st' & c & r & E & _ & _ & _ & Hr & Hok & Hc & _)]); [lia | |].
  - specialize (Hno demo_block (list_elem_of_here _ _) eq_refl). exfalso. revert Hno. by vm_compute.
  - destruct l1 as [| ? l1]; [| by destruct l1]. injection E as <- <-. destruct Hc as [-> ->]. exists st'. split; [exact Hr |]. eexists. exact Hok.
Defined.

Lemma kfree_correct_witness :
  ∃ st' bs', kfree 0x200018 demo_alloc = Freed st' ∧ heap_ok st' bs' ∧ coalesced bs' ∧ in_free bs' 0x200018.
Proof.
  destruct (kfree_correct demo_alloc [] demo_used [demo_rest]) as (st' & bs' & H1 & H2 & H3 & H4 & _);
    [apply demo_alloc_ok | reflexivity |].
  exists st', bs'. split; [exact H1 |]. split; [exact H2 |]. split; [exact H3 | apply H4; split; by vm_compute].
Defined.


Lemma kfree_last_restores_witness :
  ∃ st', kfree 0x200018 demo_alloc = Freed st' ∧ memory_get_used st' = 0.
Proof.
  destruct (kfree_last_restores demo_alloc demo_used [] [demo_rest]) as (st' & H1 & _ & H2);
    [apply demo_alloc_ok | reflexivity | fall |].
  exists st'. split; [exact H1 | exact H2].
Defined.

Lemma memory_init_ok_witness :
  heap_ok (memory_init 0x123456 (λ _, 0) full_state).1
    [Block (heap_base (memory_init 0x123456 (λ _, 0) full_state).1) (HEAP_SIZE - HDR) true].
Proof.
  apply (memory_init_ok 0x123456 (λ _, 0) full_state);
    [intros x; split; lia | apply full_state_ok | lia | lia].
Defined.

Lemma kmalloc_wraps_witness : ∃ st', kmalloc (2 ^ 64 - 1) demo_heap = Some (0x200018, st').
Proof. apply (kmalloc_wraps demo_heap demo_block [] (2 ^ 64 - 1)); [apply demo_heap_ok | reflexivity | lia]. Defined.
End Heap.
