(* ===== verification/Fat.v ===== *)
(** * The FAT12/16/32 driver (kernel/fs/fat.c): the model

    The driver runs over a block device (class [BlockDev]; in the kernel, the
    sector cache).  Directory entries and the BIOS parameter block are the raw
    packed bytes the code copies.  A computation returns a value, is
    [Undefined] (a store outside an object) or [Diverges] (a loop that never
    ends). *)
From S2P Require Import Prelude.
From S2P Require Import BlockDev.

Module Fat.
Definition DIR_ENTRY_SIZE : Z := 32.
Definition ATTR_DIRECTORY : Z := 0x10.
Definition ATTR_VOLUME_ID : Z := 0x08.
Definition ATTR_LFN : Z := 0x0F.
Definition MAX_DIR_ENTRIES : Z := 512.
Definition FS_MAX_FILENAME : Z := 256.
Definition LOOP_FUEL : Z := 2 ^ 33.

Inductive fat_type_t := FAT_TYPE_NONE | FAT_TYPE_12 | FAT_TYPE_16 | FAT_TYPE_32.
#[export] Instance fat_type_eq_dec : EqDecision fat_type_t.
Proof. solve_decision. Defined.

(** ** Packed structures *)
Definition u16_at (s : list Z) (p : Z) : Z := le_read 2 (aget s) p.
Definition u32_at (s : list Z) (p : Z) : Z := le_read 4 (aget s) p.
Definition put_u16 (s : list Z) (p v : Z) : list Z := ablit s p (le_bytes 2 v).
Definition put_u32 (s : list Z) (p v : Z) : list Z := ablit s p (le_bytes 4 v).

(** [fat_bpb_t]: the first 36 bytes of the boot sector. *)
Definition bpb_t := list Z.
Definition bytes_per_sector (b : bpb_t) : Z := u16_at b 11.
Definition sectors_per_cluster (b : bpb_t) : Z := b.[13].
Definition reserved_sectors (b : bpb_t) : Z := u16_at b 14.
Definition fat_count (b : bpb_t) : Z := b.[16].
Definition root_entries (b : bpb_t) : Z := u16_at b 17.
Definition total16 (b : bpb_t) : Z := u16_at b 19.
Definition fat16_size (b : bpb_t) : Z := u16_at b 22.
Definition total32 (b : bpb_t) : Z := u32_at b 32.

(** [fat_dir_entry_t]: 32 bytes. *)
Definition dir_entry := list Z.
Definition e_name (e : dir_entry) (i : Z) : Z := e.[i].
Definition e_ext (e : dir_entry) (i : Z) : Z := e.[8 + i].
Definition e_attr (e : dir_entry) : Z := e.[11].
Definition e_cluster_high (e : dir_entry) : Z := u16_at e 20.
Definition e_cluster_low (e : dir_entry) : Z := u16_at e 26.
Definition e_size (e : dir_entry) : Z := u32_at e 28.

(** The static variables [mount_drive] fills. *)
Record volume := Volume {
  bpb : bpb_t;
  type : fat_type_t;
  total_sectors : Z;
  fat_size : Z;
  root_sectors : Z;
  first_data : Z;
  cluster_count : Z;
  root_cluster : Z;
  fsinfo_sector : Z;
  backup_boot_sector : Z;
  mounted_drive : Z
}.

(** ** Computations over the device *)
Inductive outcome (A : Type) := Val (a : A) | Undefined | Diverges.
Arguments Val {A}. Arguments Undefined {A}. Arguments Diverges {A}.

Section Driver.
Context {B : Type} `{BlockDev B}.

Definition fm (A : Type) : Type := B → outcome A * B.
#[export] Instance fm_ret : MRet fm := λ A a b, (Val a, b).
#[export] Instance fm_bind : MBind fm := λ A A' k c b,
  match c b with
  | (Val a, b') => k a b'
  | (Undefined, b') => (Undefined, b')
  | (Diverges, b') => (Diverges, b')
  end.
Definition undefined {A} : fm A := λ b, (Undefined, b).

(** [for (i = lo; i < hi; i++) body], left early by [Some r]. *)
Definition fm_for {R} (lo hi : Z) (body : Z → fm (option R)) : fm (option R) := λ b,
  match for_range lo hi (λ i b,
          match body i b with
          | (Val None, b') => inl b'
          | (Val (Some r), b') => inr (Val (Some r), b')
          | (Undefined, b') => inr (Undefined, b')
          | (Diverges, b') => inr (Diverges, b')
          end) b with
  | inl b' => (Val None, b')
  | inr x => x
  end.

(** [while (1) step]: the step continues with [inl] and leaves with [inr]. *)
Definition fm_loop {S R} (step : S → fm (S + R)) (s : S) : fm R := λ b,
  match iterZ LOOP_FUEL (λ sb : S * B,
          match step sb.1 sb.2 with
          | (Val (inl s'), b') => inl (s', b')
          | (Val (inr r), b') => inr (Val r, b')
          | (Undefined, b') => inr (Undefined, b')
          | (Diverges, b') => inr (Diverges, b')
          end) (s, b) with
  | inl (_, b') => (Diverges, b')
  | inr x => x
  end.

Definition sec_read (l : Z) : fm (option (list Z)) := λ b, let '(r, b') := bd_read l b in (Val r, b').
Definition sec_write (l : Z) (s : list Z) : fm Z := λ b, let '(r, b') := bd_write l s b in (Val r, b').

(** ** The allocation table *)
Section Volume.
Context (v : volume).

Definition entry_cluster (e : dir_entry) : Z :=
  let c := e_cluster_low e in
  if decide (type v = FAT_TYPE_32) then Z.lor c (u32 (Z.shiftl (e_cluster_high e) 16)) else c.

Definition set_entry_cluster (e : dir_entry) (c : Z) : dir_entry :=
  put_u16 (put_u16 e 26 (u16 c)) 20 (if decide (type v = FAT_TYPE_32) then u16 (Z.shiftr c 16) else 0).

Definition eoc_value : Z :=
  match type v with FAT_TYPE_12 => 0xFFF | FAT_TYPE_16 => 0xFFFF | _ => 0x0FFFFFFF end.

Definition is_eoc (c : Z) : bool :=
  match type v with FAT_TYPE_12 => 0xFF8 <=? c | FAT_TYPE_16 => 0xFFF8 <=? c | _ => 0x0FFFFFF8 <=? c end.

Definition valid_data_cluster (c : Z) : bool := (2 <=? c) && (c <? cluster_count v +32 2).

Definition cluster_sector (c : Z) : Z :=
  first_data v +32 ((c -32 2) *32 sectors_per_cluster (bpb v)).

Definition fat_offset (cluster : Z) : Z :=
  match type v with
  | FAT_TYPE_12 => cluster +32 (cluster / 2)
  | FAT_TYPE_16 => cluster *32 2
  | _ => cluster *32 4
  end.

(** For FAT12 an entry may straddle two sectors; the second one is read into
    the one-byte variable [next]. *)
Definition fat_get (cluster : Z) : fm Z :=
  let offset := fat_offset cluster in
  let sector := reserved_sectors (bpb v) +32 (offset / SECTOR_SIZE) in
  let pos := offset mod SECTOR_SIZE in
  r ← sec_read sector;
  match r with
  | None => mret eoc_value
  | Some sec =>
      match type v with
      | FAT_TYPE_12 =>
          if pos =? 511 then
            r2 ← sec_read (sector +32 1);
            match r2 with None => mret eoc_value | Some _ => undefined end
          else
            let w := Z.lor sec.[pos] (u16 (Z.shiftl sec.[pos + 1] 8)) in
            mret (if Z.land cluster 1 =? 0 then Z.land w 0xFFF else Z.shiftr w 4)
      | FAT_TYPE_16 => mret (Z.lor sec.[pos] (u16 (Z.shiftl sec.[pos + 1] 8)))
      | _ => mret (Z.land (u32_at sec pos) 0x0FFFFFFF)
      end
  end.

(** The FAT12 update of the 16-bit word that holds the entry. *)
Definition fat12_mix (cluster old value : Z) : Z :=
  u16 (if Z.land cluster 1 =? 0
       then Z.lor (Z.land old 0xF000) (Z.land value 0xFFF)
       else Z.lor (Z.land old 0x000F) (u32 (Z.shiftl value 4))).

Definition fat_set_copy (base cluster value : Z) : fm Z :=
  let offset := fat_offset cluster in
  let sector := base +32 (offset / SECTOR_SIZE) in
  let pos := offset mod SECTOR_SIZE in
  r ← sec_read sector;
  match r with
  | None => mret (-1)
  | Some sec =>
      match type v with
      | FAT_TYPE_12 =>
          if pos =? 511 then
            r2 ← sec_read (sector +32 1);
            match r2 with
            | None => mret (-1)
            | Some next =>
                let w := fat12_mix cluster (Z.lor sec.[pos] (u16 (Z.shiftl next.[0] 8))) value in
                let sec := sec.[pos <- u8 w] in
                let next := next.[0 <- u8 (Z.shiftr w 8)] in
                rc ← sec_write (sector +32 1) next;
                if negb (rc =? 0) then mret (-1) else sec_write sector sec
            end
          else
            let w := fat12_mix cluster (Z.lor sec.[pos] (u16 (Z.shiftl sec.[pos + 1] 8))) value in
            sec_write sector (sec.[pos <- u8 w].[pos + 1 <- u8 (Z.shiftr w 8)])
      | FAT_TYPE_16 => sec_write sector (sec.[pos <- u8 value].[pos + 1 <- u8 (Z.shiftr value 8)])
      | _ =>
          let old := u32_at sec pos in
          sec_write sector (put_u32 sec pos (Z.lor (Z.land old 0xF0000000) (Z.land value 0x0FFFFFFF)))
      end
  end.

Definition fat_set (cluster value : Z) : fm Z :=
  r ← fm_for 0 (fat_count (bpb v)) (λ i,
        rc ← fat_set_copy (reserved_sectors (bpb v) +32 (i *32 fat_size v)) cluster value;
        mret (if negb (rc =? 0) then Some (-1) else None));
  mret (default 0 r).

(** [checked_next]: the result, [*next] and [*terminal]; [None] is -1. *)
Definition checked_next (c : Z) : fm (option (Z * bool)) :=
  if negb (valid_data_cluster c) then mret None else
  value ← fat_get c;
  mret (if is_eoc value then Some (value, true)
        else if negb (valid_data_cluster value) then None else Some (value, false)).

Definition fsinfo_adjust_sector (sector delta next_free : Z) : fm unit :=
  if negb (bool_decide (type v = FAT_TYPE_32)) || (reserved_sectors (bpb v) <=? sector) then mret tt else
  r ← sec_read sector;
  match r with
  | None => mret tt
  | Some data =>
      if negb (u32_at data 0 =? 0x41615252) || negb (u32_at data 484 =? 0x61417272)
         || negb (u32_at data 508 =? 0xAA550000) then mret tt
      else
        let free_count := u32_at data 488 in
        let data := if negb (free_count =? 0xFFFFFFFF) then put_u32 data 488 (u32 (free_count + delta)) else data in
        let data := put_u32 data 492 (if next_free <? cluster_count v +32 2 then next_free else 2) in
        _ ← sec_write sector data; mret tt
  end.

Definition fsinfo_adjust (delta next_free : Z) : fm unit :=
  if negb (bool_decide (type v = FAT_TYPE_32)) || (fsinfo_sector v =? 0) || (fsinfo_sector v =? 0xFFFF)
  then mret tt else
  _ ← fsinfo_adjust_sector (fsinfo_sector v) delta next_free;
  if negb (backup_boot_sector v =? 0) && negb (backup_boot_sector v =? 0xFFFF)
  then fsinfo_adjust_sector (backup_boot_sector v +32 1) delta next_free else mret tt.

Definition zero_sector : list Z := replicate 512 0.

(** Clear the sectors of a cluster; [Some] is a failed write. *)
Definition zero_cluster (c : Z) : fm (option Z) :=
  fm_for 0 (sectors_per_cluster (bpb v)) (λ s,
    rc ← sec_write (cluster_sector c +32 s) zero_sector;
    mret (if negb (rc =? 0) then Some 0 else None)).

Definition alloc_cluster : fm Z :=
  r ← fm_for 2 (cluster_count v +32 2) (λ c,
    x ← fat_get c;
    if negb (x =? 0) then mret None else
    rc ← fat_set c eoc_value;
    if negb (rc =? 0) then mret (Some 0) else
    z ← zero_cluster c;
    match z with
    | Some _ => mret (Some 0)
    | None => _ ← fsinfo_adjust (-1) (c +32 1); mret (Some c)
    end);
  mret (default 0 r).

Definition free_chain (c : Z) : fm unit :=
  fm_loop (λ c,
    if negb ((2 <=? c) && (c <? cluster_count v +32 2)) then mret (inr tt) else
    next ← fat_get c;
    _ ← fat_set c 0;
    _ ← fsinfo_adjust 1 c;
    mret (if is_eoc next || (next <? 2) then inr tt else inl next)) c.

(** ** Directories *)

(** [while (skip--) c = fat_get(c)]; [None] when the chain ends early. *)
Definition skip_clusters (skip c : Z) : fm (option Z) :=
  fm_loop (λ sc : Z * Z,
    if sc.1 =? 0 then mret (inr (Some sc.2)) else
    c' ← fat_get sc.2;
    mret (if is_eoc c' || (c' <? 2) then inr None else inl (sc.1 - 1, c'))) (skip, c).

(** Sector and byte offset of a directory entry. *)
Definition dir_location (dir index : Z) : fm (option (Z * Z)) :=
  if (dir =? 0) && negb (bool_decide (type v = FAT_TYPE_32)) then
    if root_entries (bpb v) <=? index then mret None
    else mret (Some ((reserved_sectors (bpb v) +32 (fat_count (bpb v) *32 fat_size v)) +32 (index / 16),
                     index mod 16 * DIR_ENTRY_SIZE))
  else
    let c := if dir =? 0 then root_cluster v else dir in
    let per_cluster := sectors_per_cluster (bpb v) * 16 in
    r ← skip_clusters (index / per_cluster) c;
    match r with
    | None => mret None
    | Some c =>
        let within := index mod per_cluster in
        mret (Some (cluster_sector c +32 (within / 16), within mod 16 * DIR_ENTRY_SIZE))
    end.

Definition dir_read (dir index : Z) : fm (option dir_entry) :=
  loc ← dir_location dir index;
  match loc with
  | None => mret None
  | Some (sector, offset) =>
      r ← sec_read sector;
      mret (sec ← r; Some (take 32 (drop (Z.to_nat offset) sec)))
  end.

Definition dir_write (dir index : Z) (e : dir_entry) : fm Z :=
  loc ← dir_location dir index;
  match loc with
  | None => mret (-1)
  | Some (sector, offset) =>
      r ← sec_read sector;
      match r with
      | None => mret (-1)
      | Some sec => sec_write sector (ablit sec offset e)
      end
  end.

End Volume.

(** ** Names

    A [char*] name is the list of its characters, without the NUL. *)
Definition DOT : Z := 46.
Definition SPACE : Z := 32.
Definition upcase (c : Z) : Z := if (97 <=? c) && (c <=? 122) then c - 32 else c.

(** The first loop: up to [n] characters before a dot, and the rest. *)
Fixpoint sfn_base (n : nat) (input : list Z) : list Z * list Z :=
  match n, input with
  | S n', c :: r =>
      if c =? DOT then ([], input)
      else let '(o, rest) := sfn_base n' r in (upcase c :: o, rest)
  | _, _ => ([], input)
  end.

Fixpoint skip_to_dot (input : list Z) : list Z :=
  match input with [] => [] | c :: r => if c =? DOT then input else skip_to_dot r end.

Definition pad (n : nat) (s : list Z) : list Z := take n (s ++ replicate n SPACE).

Definition make_sfn (input : list Z) : list Z :=
  let '(base, rest) := sfn_base 8 input in
  let rest := match skip_to_dot rest with c :: r => r | [] => [] end in
  pad 8 base ++ pad 3 (upcase <$> take 3 rest).

Definition name_match (e : dir_entry) (name : list Z) : bool :=
  let sfn := make_sfn name in
  bool_decide (Forall (λ i, e_name e i = sfn.[i]) (seqZ 0 8)) &&
  bool_decide (Forall (λ i, e_ext e i = sfn.[8 + i]) (seqZ 0 3)).

Definition skipped (e : dir_entry) : bool :=
  (e_name e 0 =? 0xE5) || (e_attr e =? ATTR_LFN) || negb (Z.land (e_attr e) ATTR_VOLUME_ID =? 0).

Section Volume.
Context (v : volume).

(** The entry and its index. *)
Definition find_entry (dir : Z) (name : list Z) : fm (option (dir_entry * Z)) :=
  r ← fm_for 0 MAX_DIR_ENTRIES (λ i,
    o ← dir_read v dir i;
    mret match o with
         | None => Some None
         | Some e =>
             if e_name e 0 =? 0 then Some None
             else if skipped e then None
             else if name_match e name then Some (Some (e, i)) else None
         end);
  mret (default None r).

(** Follow the chain to its last cluster. *)
Definition last_cluster (c : Z) : fm (option Z) :=
  fm_loop (λ c,
    next ← fat_get v c;
    mret (if is_eoc v next then inr (Some c) else if next <? 2 then inr None else inl next)) c.

Definition free_entry_index (dir : Z) : fm Z :=
  r ← fm_for 0 MAX_DIR_ENTRIES (λ i,
    o ← dir_read v dir i;
    match o with
    | None =>
        if (dir =? 0) && negb (bool_decide (type v = FAT_TYPE_32)) then mret (Some (-1)) else
        l ← last_cluster (if dir =? 0 then root_cluster v else dir);
        match l with
        | None => mret (Some (-1))
        | Some c =>
            added ← alloc_cluster v;
            if added =? 0 then mret (Some (-1)) else
            rc ← fat_set v c added;
            mret (Some (if negb (rc =? 0) then -1 else i))
        end
    | Some e => mret (if (e_name e 0 =? 0) || (e_name e 0 =? 0xE5) then Some i else None)
    end);
  mret (default (-1) r).
End Volume.

(** ** The driver's state and entry points *)
Record fs_file_info := FileInfo { f_name : list Z; f_size : Z; f_used : Z; f_is_directory : Z }.

Record fat_state := FatState {
  vol : volume;
  dev : B;
  current_cluster : Z;
  cwd : list Z;
  file_list : list fs_file_info
}.

Definition set_dev (st : fat_state) (b : B) : fat_state :=
  FatState (vol st) b (current_cluster st) (cwd st) (file_list st).
Definition set_type (v : volume) (t : fat_type_t) : volume :=
  Volume (bpb v) t (total_sectors v) (fat_size v) (root_sectors v) (first_data v) (cluster_count v)
         (root_cluster v) (fsinfo_sector v) (backup_boot_sector v) (mounted_drive v).

(** Run a device computation of the mounted volume. *)
Definition on_dev {A} (st : fat_state) (c : fm A) : outcome A * fat_state :=
  let '(r, b) := c (dev st) in (r, set_dev st b).

(** The volume the boot sector describes; every variable is assigned in the
    order of the code, so a later check that fails leaves the earlier ones. *)
Definition volume_of (sector : list Z) (drive : Z) : volume :=
  let b := take 36 sector in
  let total := if total16 b =? 0 then total32 b else total16 b in
  let fsz := if fat16_size b =? 0 then u32_at sector 36 else fat16_size b in
  let root := (root_entries b * 32 + 511) / 512 in
  let first := (reserved_sectors b +32 (fat_count b *32 fsz)) +32 root in
  let count := (total -32 first) / sectors_per_cluster b in
  let t := if count <? 4085 then FAT_TYPE_12 else if count <? 65525 then FAT_TYPE_16 else FAT_TYPE_32 in
  let is32 := bool_decide (t = FAT_TYPE_32) in
  Volume b t total fsz root first count
    (if is32 then Z.land (u32_at sector 44) 0x0FFFFFFF else 0)
    (if is32 then u16_at sector 48 else 0) (if is32 then u16_at sector 50 else 0) (u8 drive).

Definition mount_drive (drive : Z) (st : fat_state) : Z * fat_state :=
  let '(r, b) := bd_read 0 (bd_select drive (dev st)) in
  let st := set_dev st b in
  match r with
  | None => (-1, st)
  | Some sector =>
      if negb (sector.[510] =? 0x55) || negb (sector.[511] =? 0xAA) then (-1, st) else
      let n := volume_of sector drive in
      let old := vol st in
      let st1 := FatState (Volume (bpb n) (type old) (total_sectors old) (fat_size old) (root_sectors old)
                   (first_data old) (cluster_count old) (root_cluster old) (fsinfo_sector old)
                   (backup_boot_sector old) (mounted_drive old)) b (current_cluster st) (cwd st) (file_list st) in
      if negb (bytes_per_sector (bpb n) =? 512) || (sectors_per_cluster (bpb n) =? 0)
         || (fat_count (bpb n) =? 0) || (reserved_sectors (bpb n) =? 0) then (-1, st1) else
      let st2 := FatState (Volume (bpb n) (type old) (total_sectors n) (fat_size n) (root_sectors n)
                   (first_data n) (cluster_count old) (root_cluster old) (fsinfo_sector old)
                   (backup_boot_sector old) (mounted_drive old)) b (current_cluster st) (cwd st) (file_list st) in
      if (fat_size n =? 0) || (total_sectors n <=? first_data n) then (-1, st2) else
      let st3 := FatState (Volume (bpb n) (type n) (total_sectors n) (fat_size n) (root_sectors n)
                   (first_data n) (cluster_count n) (root_cluster n) (fsinfo_sector n)
                   (backup_boot_sector n) (mounted_drive old)) b (current_cluster st) (cwd st) (file_list st) in
      if bool_decide (type n = FAT_TYPE_32) && (root_cluster n <? 2) then (-1, st3) else
      (0, FatState n b (if bool_decide (type n = FAT_TYPE_32) then root_cluster n else 0) [47] (file_list st))
  end.

Definition fat_init (st : fat_state) : fat_state :=
  let none st := FatState (set_type (vol st) FAT_TYPE_NONE) (dev st) (current_cluster st) (cwd st) (file_list st) in
  let st := none st in
  if bd_available (dev st) =? 0 then st else
  let '(r0, st) := mount_drive 0 st in
  if r0 =? 0 then st else
  let '(r1, st) := mount_drive 1 st in
  if r1 =? 0 then st else none (set_dev st (bd_select 0 (dev st))).

Definition fat_available (st : fat_state) : bool := negb (bool_decide (type (vol st) = FAT_TYPE_NONE)).
Definition fat_get_type (st : fat_state) : fat_type_t := type (vol st).
Definition fat16_available (st : fat_state) : bool := bool_decide (fat_get_type st = FAT_TYPE_16).
Definition fat32_available (st : fat_state) : bool := bool_decide (fat_get_type st = FAT_TYPE_32).
Definition fat_getcwd (st : fat_state) : list Z := cwd st.
(** *** Reading a file *)

(** What [fat_read] leaves: its result, [*size] when it was assigned, and the
    bytes stored at the start of the buffer. *)
Record read_result := ReadResult { rr_rc : Z; rr_size : option Z; rr_buf : list Z }.

(** The sectors of one cluster: [None] is a read error, otherwise [done] and
    the buffer. *)
Definition read_cluster (v : volume) (c size done : Z) (buf : list Z) : fm (option (Z * list Z)) :=
  fm_loop (λ s : Z * Z * list Z,
    let '(s, done, buf) := s in
    if negb ((s <? sectors_per_cluster (bpb v)) && (done <? size)) then mret (inr (Some (done, buf))) else
    r ← sec_read (cluster_sector v c +32 s);
    mret match r with
         | None => inr None
         | Some sec =>
             let n := Z.min (size - done) SECTOR_SIZE in
             inl (s + 1, done + n, buf ++ take (Z.to_nat n) sec)
         end) (0, done, buf).

(** The position in the chain, the cycle detector and the bytes so far. *)
Record cursor := Cursor { cur_c : Z; anchor : Z; power : Z; len : Z; cur_done : Z; cur_buf : list Z }.

Definition read_step (v : volume) (size : Z) (k : cursor) : fm (cursor + read_result) :=
  if negb (cur_done k <? size) then
    mret (inr (ReadResult (if cur_done k =? size then 0 else -1) (Some (cur_done k)) (cur_buf k)))
  else if negb (valid_data_cluster v (cur_c k)) then
    mret (inr (ReadResult (-1) (Some (cur_done k)) (cur_buf k)))
  else
    r ← read_cluster v (cur_c k) size (cur_done k) (cur_buf k);
    match r with
    | None => mret (inr (ReadResult (-1) None (cur_buf k)))
    | Some (done, buf) =>
        if negb (done <? size) then mret (inl (Cursor (cur_c k) (anchor k) (power k) (len k) done buf)) else
        n ← checked_next v (cur_c k);
        mret match n with
             | None | Some (_, true) => inr (ReadResult (-1) (Some done) buf)
             | Some (next, false) =>
                 if next =? anchor k then inr (ReadResult (-1) (Some done) buf)
                 else if len k +32 1 =? power k
                 then inl (Cursor next next (u32 (Z.shiftl (power k) 1)) 0 done buf)
                 else inl (Cursor next (anchor k) (power k) (len k +32 1) done buf)
             end
    end.

Definition fat_read (name : list Z) (max_size : Z) (st : fat_state) : outcome read_result * fat_state :=
  let fail := ReadResult (-1) None [] in
  if negb (fat_available st) then (Val fail, st) else
  on_dev st (
    let v := vol st in
    f ← find_entry v (current_cluster st) name;
    match f with
    | None => mret fail
    | Some (e, _) =>
        if negb (Z.land (e_attr e) ATTR_DIRECTORY =? 0) then mret fail
        else if max_size <? e_size e then mret (ReadResult (-1) (Some (e_size e)) [])
        else
          let c := entry_cluster v e in
          fm_loop (read_step v (e_size e)) (Cursor c c 1 0 0 [])
    end).

(** *** Creating a file *)
Definition empty_entry : dir_entry := replicate 32 0.
Definition named_entry (name : list Z) (attr : Z) : dir_entry :=
  (ablit empty_entry 0 (make_sfn name)).[11 <- attr].

(** Store the data of one cluster: [None] is a write error. *)
Definition write_cluster (v : volume) (c : Z) (data : list Z) (size written : Z) : fm (option Z) :=
  fm_loop (λ s : Z * Z,
    let '(s, written) := s in
    if negb ((s <? sectors_per_cluster (bpb v)) && (written <? size)) then mret (inr (Some written)) else
    let n := Z.min (size - written) SECTOR_SIZE in
    let sec := ablit zero_sector 0 (take (Z.to_nat n) (drop (Z.to_nat written) data)) in
    rc ← sec_write (cluster_sector v c +32 s) sec;
    mret (if negb (rc =? 0) then inr None else inl (s + 1, written + n))) (0, written).

(** The allocation loop: [inr None] after [free_chain(first)] and -1. *)
Definition create_step (v : volume) (data : list Z) (size : Z) (s : Z * Z * Z) : fm (Z * Z * Z + option Z) :=
  let '(first, prev, written) := s in
  if negb ((written <? size) || ((size =? 0) && (first =? 0))) then mret (inr (Some first)) else
  c ← alloc_cluster v;
  if c =? 0 then _ ← free_chain v first; mret (inr None) else
  let first := if first =? 0 then c else first in
  rc ← (if prev =? 0 then mret 0 else fat_set v prev c);
  if negb (rc =? 0) then _ ← free_chain v first; mret (inr None) else
  w ← write_cluster v c data size written;
  match w with
  | None => _ ← free_chain v first; mret (inr None)
  | Some written => mret (inl (first, c, written))
  end.

(** The entry to fill and its index; [None] is -1. *)
Definition create_target (v : volume) (dir : Z) (name : list Z) : fm (option (dir_entry * Z)) :=
  f ← find_entry v dir name;
  match f with
  | Some (e, index) =>
      if negb (Z.land (e_attr e) ATTR_DIRECTORY =? 0) then mret None
      else _ ← free_chain v (entry_cluster v e); mret (Some (e, index))
  | None =>
      index ← free_entry_index v dir;
      mret (if index <? 0 then None else Some (named_entry name 0x20, index))
  end.

Definition fat_create (name data : list Z) (size : Z) (st : fat_state) : outcome Z * fat_state :=
  if negb (fat_available st) || bool_decide (name = []) then (Val (-1), st) else
  on_dev st (
    let v := vol st in
    t ← create_target v (current_cluster st) name;
    match t with
    | None => mret (-1)
    | Some (e, index) =>
        f ← fm_loop (create_step v data size) (0, 0, 0);
        match f with
        | None => mret (-1)
        | Some first =>
            dir_write v (current_cluster st) index (put_u32 (set_entry_cluster v e first) 28 size)
        end
    end).

(** *** The other entry points *)
Definition fat_delete (name : list Z) (st : fat_state) : outcome Z * fat_state :=
  on_dev st (
    let v := vol st in
    f ← find_entry v (current_cluster st) name;
    match f with
    | None => mret (-1)
    | Some (e, i) =>
        if negb (Z.land (e_attr e) ATTR_DIRECTORY =? 0) then mret (-1) else
        _ ← free_chain v (entry_cluster v e);
        dir_write v (current_cluster st) i (e.[0 <- 0xE5])
    end).

(** Characters before the padding. *)
Fixpoint trim (s : list Z) : list Z :=
  match s with [] => [] | c :: r => if c =? SPACE then [] else c :: trim r end.

Definition info_of (e : dir_entry) : fs_file_info :=
  let is_dir := negb (Z.land (e_attr e) ATTR_DIRECTORY =? 0) in
  let base := trim (take 8 e) in
  let ext := if negb is_dir && negb (e_ext e 0 =? SPACE) then DOT :: trim (take 3 (drop 8 e)) else [] in
  FileInfo (base ++ ext) (e_size e) 1 (cbool is_dir).

(** The files found, in order. *)
Definition fat_list (st : fat_state) : outcome (list fs_file_info) * fat_state :=
  let '(r, b) :=
    fm_loop (λ s : Z * list fs_file_info,
      let '(i, acc) := s in
      if negb (i <? MAX_DIR_ENTRIES) then mret (inr acc) else
      o ← dir_read (vol st) (current_cluster st) i;
      mret match o with
           | None => inr acc
           | Some e =>
               if e_name e 0 =? 0 then inr acc
               else if skipped e then inl (i + 1, acc)
               else inl (i + 1, acc ++ [info_of e])
           end) (0, []) (dev st) in
  (r, FatState (vol st) b (current_cluster st) (cwd st)
        (match r with Val l => l ++ drop (length l) (file_list st) | _ => file_list st end)).

Definition fat_mkdir (name : list Z) (st : fat_state) : outcome Z * fat_state :=
  if bool_decide (name = []) then (Val (-1), st) else
  on_dev st (
    let v := vol st in
    f ← find_entry v (current_cluster st) name;
    if bool_decide (is_Some f) then mret (-1) else
    index ← free_entry_index v (current_cluster st);
    c ← alloc_cluster v;
    if (index <? 0) || (c =? 0) then mret (-1) else
    let e := set_entry_cluster v (named_entry name ATTR_DIRECTORY) c in
    let dot := (ablit empty_entry 0 (replicate 11 SPACE)).[0 <- DOT].[11 <- ATTR_DIRECTORY] in
    let dot1 := set_entry_cluster v dot c in
    _ ← dir_write v c 0 dot1;
    let up := if current_cluster st =? root_cluster v then 0 else current_cluster st in
    let dot2 := set_entry_cluster v (dot1.[1 <- DOT]) up in
    _ ← dir_write v c 1 dot2;
    dir_write v (current_cluster st) index e).

Definition fat_rmdir (name : list Z) (st : fat_state) : outcome Z * fat_state :=
  on_dev st (
    let v := vol st in
    f ← find_entry v (current_cluster st) name;
    match f with
    | None => mret (-1)
    | Some (e, i) =>
        if Z.land (e_attr e) ATTR_DIRECTORY =? 0 then mret (-1) else
        let c := entry_cluster v e in
        busy ← fm_for 2 MAX_DIR_ENTRIES (λ j,
          o ← dir_read v c j;
          mret match o with
               | None => Some false
               | Some x => if e_name x 0 =? 0 then Some false
                           else if negb (e_name x 0 =? 0xE5) then Some true else None
               end);
        if default false busy then mret (-1) else
        _ ← free_chain v c;
        dir_write v (current_cluster st) i (e.[0 <- 0xE5])
    end).

(** [while (n > 1 && p(cwd[n-1])) cwd[--n] = 0], on the reversed string. *)
Fixpoint strip_rev (p : Z → bool) (s : list Z) : list Z :=
  match s with
  | c :: ((_ :: _) as r) => if p c then strip_rev p r else s
  | _ => s
  end.
Definition SLASH : Z := 47.
Definition cwd_up (s : list Z) : list Z :=
  reverse (strip_rev (λ c, negb (c =? SLASH)) (strip_rev (λ c, c =? SLASH) (reverse s))).
(** Append a component; [None] when the final NUL falls outside [cwd]. *)
Definition cwd_down (s name : list Z) : option (list Z) :=
  let s := if (1 <? zlen s) && negb (s.[zlen s - 1] =? SLASH) then s ++ [SLASH] else s in
  let s := s ++ take (Z.to_nat (FS_MAX_FILENAME - 1 - zlen s)) name in
  if zlen s <? FS_MAX_FILENAME then Some s else None.

Definition fat_chdir (name : list Z) (st : fat_state) : outcome Z * fat_state :=
  let v := vol st in
  let root := if bool_decide (type v = FAT_TYPE_32) then root_cluster v else 0 in
  let goto st c path := FatState (vol st) (dev st) c path (file_list st) in
  if bool_decide (name = [] ∨ name = [SLASH]) then (Val 0, goto st root [SLASH])
  else if bool_decide (name = [DOT; DOT]) then
    if current_cluster st =? root then (Val 0, st) else
    match on_dev st (dir_read v (current_cluster st) 1) with
    | (Val (Some e), st) =>
        let p := entry_cluster v e in
        (Val 0, goto st (if p =? 0 then root else p) (cwd_up (cwd st)))
    | (Val None, st) => (Val (-1), st)
    | (Undefined, st) => (Undefined, st)
    | (Diverges, st) => (Diverges, st)
    end
  else
    match on_dev st (find_entry v (current_cluster st) name) with
    | (Val (Some (e, _)), st) =>
        if Z.land (e_attr e) ATTR_DIRECTORY =? 0 then (Val (-1), st)
        else match cwd_down (cwd st) name with
             | Some path => (Val 0, goto st (entry_cluster v e) path)
             | None => (Undefined, st)
             end
    | (Val None, st) => (Val (-1), st)
    | (Undefined, st) => (Undefined, st)
    | (Diverges, st) => (Diverges, st)
    end.

(** Total, used and free kilobytes. *)
Definition fat_get_disk_info (st : fat_state) : outcome (Z * Z * Z) * fat_state :=
  on_dev st (
    let v := vol st in
    free ← fm_loop (λ s : Z * Z,
      if negb (s.1 <? cluster_count v +32 2) then mret (inr s.2) else
      x ← fat_get v s.1;
      mret (inl (s.1 + 1, if x =? 0 then s.2 + 1 else s.2))) (2, 0);
    let bytes := sectors_per_cluster (bpb v) * 512 in
    let total_kb := (cluster_count v *32 bytes) / 1024 in
    let free_kb := (free *32 bytes) / 1024 in
    mret (total_kb, total_kb -32 free_kb, free_kb)).
End Driver.
Arguments fat_state : clear implicits.
Arguments fm : clear implicits.
End Fat.
