(* ===== verification/FatLogic.v ===== *)
(** * A program logic for the FAT driver

    [hoare S c Q]: on a device that holds the disk image [S] and has no I/O
    errors, [c] returns a value (it is neither undefined nor endless) that
    satisfies [Q] together with the new image. *)
From S2P Require Import Prelude.
From S2P Require Import BlockDev.
From S2P Require Import Fat.

(** A device without I/O errors. *)
Class Reliable (B : Type) `{BlockDevLaws B} := {
  rel_read b l : bd_ok b → ∃ b', bd_read l b = (Some (bd_sector b l), b');
  rel_write b l s : bd_ok b → sector_ok s → ∃ b', bd_write l s b = (0, b')
}.

#[export] Instance mem_disk_reliable : Reliable mem_disk.
Proof.
  refine (Build_Reliable _ _ _ _ _).
  - intros b l _. eexists. reflexivity.
  - intros b l s _ _. eexists. reflexivity.
Qed.

Module FatLogic.
Import Fat.

Definition image := Z → list Z.
Definition upd (S : image) (l : Z) (s : list Z) : image := λ k, if k =? l then s else S k.
Definition image_ok (S : image) : Prop := ∀ l, sector_ok (S l).

Lemma upd_same S l s : upd S l s l = s.
Proof. unfold upd. by rewrite Z.eqb_refl. Qed.
Lemma upd_other S l s k : k ≠ l → upd S l s k = S k.
Proof. intros Hk. unfold upd. by rewrite (proj2 (Z.eqb_neq k l) Hk). Qed.
Lemma upd_ok S l s : image_ok S → sector_ok s → image_ok (upd S l s).
Proof. intros HS Hs k. unfold upd. by case_match. Qed.

Section Logic.
Context {B : Type} `{Reliable B}.

(** The device holds the image. *)
Definition holds (b : B) (S : image) : Prop := bd_ok b ∧ ∀ l, bd_sector b l = S l.

Lemma holds_image_ok b S : holds b S → image_ok S.
Proof. intros [Hb HS] l. rewrite <- HS. by apply bd_sector_ok. Qed.

Definition hoare {A} (S : image) (c : fm B A) (Q : A → image → Prop) : Prop :=
  ∀ b, holds b S → ∃ a S' b', c b = (Val a, b') ∧ holds b' S' ∧ Q a S'.

(** The image of a device that satisfies the invariant is well formed. *)
Lemma hoare_image {A} S (c : fm B A) Q : (image_ok S → hoare S c Q) → hoare S c Q.
Proof. intros Hc b Hb. apply Hc; [by eapply holds_image_ok | done]. Qed.

Lemma hoare_mono {A} S (c : fm B A) (Q Q' : A → image → Prop) :
  hoare S c Q → (∀ a S', Q a S' → Q' a S') → hoare S c Q'.
Proof. intros Hc HQ b Hb. destruct (Hc b Hb) as (a & S' & b' & ? & ? & ?). exists a, S', b'. auto. Qed.

Lemma hoare_ret {A} S (a : A) (Q : A → image → Prop) : Q a S → hoare S (mret a) Q.
Proof. intros HQ b Hb. exists a, S, b. auto. Qed.

Lemma hoare_bind {A A'} S (c : fm B A) (k : A → fm B A') (R : A → image → Prop) Q :
  hoare S c R → (∀ a S', R a S' → hoare S' (k a) Q) → hoare S (c ≫= k) Q.
Proof.
  intros Hc Hk b Hb. destruct (Hc b Hb) as (a & S' & b' & E & Hb' & HR).
  unfold mbind, fm_bind. rewrite E. by apply (Hk a S' HR).
Qed.

Lemma hoare_read S l (Q : option (list Z) → image → Prop) : Q (Some (S l)) S → hoare S (sec_read l) Q.
Proof.
  intros HQ b [Hok HS]. destruct (rel_read b l Hok) as [b' E].
  destruct (bd_read_law _ _ _ _ Hok E) as (Hok' & Hsame & _).
  exists (Some (S l)), S, b'. unfold sec_read. rewrite E, HS. split; [done |]. split; [| done].
  split; [done |]. intros k. by rewrite Hsame.
Qed.

Lemma hoare_write S l s (Q : Z → image → Prop) :
  sector_ok s → Q 0 (upd S l s) → hoare S (sec_write l s) Q.
Proof.
  intros Hs HQ b [Hok HS]. destruct (rel_write b l s Hok Hs) as [b' E].
  destruct (bd_write_law _ _ _ _ Hok Hs E) as (Hok' & Hsame).
  exists 0, (upd S l s), b'. unfold sec_write. rewrite E. split; [done |]. split; [| done].
  split; [done |]. intros k. rewrite Hsame. unfold upd. by rewrite HS.
Qed.

Lemma hoare_bind_read {A} S l (k : option (list Z) → fm B A) Q :
  hoare S (k (Some (S l))) Q → hoare S (sec_read l ≫= k) Q.
Proof.
  intros Hk. eapply (hoare_bind _ _ _ (λ r T, r = Some (S l) ∧ T = S)); [by apply hoare_read |].
  by intros r T [-> ->].
Qed.

Lemma hoare_bind_write {A} S l s (k : Z → fm B A) Q :
  sector_ok s → hoare (upd S l s) (k 0) Q → hoare S (sec_write l s ≫= k) Q.
Proof.
  intros Hs Hk. eapply (hoare_bind _ _ _ (λ r T, r = 0 ∧ T = upd S l s)); [by apply hoare_write |].
  by intros r T [-> ->].
Qed.

(** A [for] loop with an invariant on the image. *)
Lemma hoare_for {R} (I : Z → image → Prop) (Q : option R → image → Prop) lo hi body S :
  lo ≤ hi → I lo S →
  (∀ i T, lo ≤ i < hi → I i T →
     hoare T (body i) (λ r T', match r with None => I (i + 1) T' | Some _ => Q r T' end)) →
  (∀ T, I hi T → Q None T) →
  hoare S (fm_for lo hi body) Q.
Proof.
  intros Hle HI Hbody Hend b Hb. unfold fm_for. set (step := λ (i : Z) (b : B), _).
  pose proof (for_range_inv (λ i b, ∃ T, holds b T ∧ I i T)
    (λ x : outcome (option R) * B, ∃ r T, x.1 = Val r ∧ holds x.2 T ∧ Q r T) lo hi step b) as HF.
  assert (∀ i t, lo ≤ i < hi → (∃ T, holds t T ∧ I i T) →
    match step i t with inl t' => ∃ T, holds t' T ∧ I (i + 1) T
                      | inr x => ∃ r T, x.1 = Val r ∧ holds x.2 T ∧ Q r T end) as Hstep.
  { intros i t Hi (T & Ht & HT). destruct (Hbody i T Hi HT t Ht) as (a & T' & t' & E & Ht' & HQ).
    unfold step. rewrite E. destruct a as [r |]; [exists (Some r), T' | exists T']; auto. }
  destruct (for_range lo hi step b) as [b' | [o b']].
  - destruct HF as (T & Hb' & HT); [by exists S | | |].
    + intros i t t' Hi HIi Et. specialize (Hstep i t Hi HIi). by rewrite Et in Hstep.
    + intros i t r Hi HIi Et. specialize (Hstep i t Hi HIi). by rewrite Et in Hstep.
    + rewrite Z.max_r in HT by done. exists None, T, b'. auto.
  - destruct HF as (r & T & E & Hb' & HT); [by exists S | | |].
    + intros i t t' Hi HIi Et. specialize (Hstep i t Hi HIi). by rewrite Et in Hstep.
    + intros i t x Hi HIi Et. specialize (Hstep i t Hi HIi). by rewrite Et in Hstep.
    + cbn [fst snd] in *. subst o. exists r, T, b'. auto.
Qed.

(** A [while] loop: the invariant is indexed by a bound on the remaining
    iterations, which every step decreases unless it leaves. *)
Lemma hoare_loop_bound {St R} (I : Z → St → image → Prop) (Q : R → image → Prop) (step : St → fm B (St + R)) n s S :
  I n s S → n < LOOP_FUEL →
  (∀ n s T, I n s T → 0 ≤ n ∧
     hoare T (step s) (λ r T', match r with inl s' => ∃ n', n' < n ∧ I n' s' T' | inr x => Q x T' end)) →
  hoare S (fm_loop step s) Q.
Proof.
  intros HI Hn Hstep b Hb. unfold fm_loop. set (f := λ sb : St * B, _).
  assert (∀ k n s b T, holds b T → I n s T → n < Z.of_nat k →
    ∃ r T' b', iter_nat k f (s, b) = inr (Val r, b') ∧ holds b' T' ∧ Q r T') as K.
  { intros k. induction k as [| k IH]; intros n1 s1 b1 T Hb1 HI1 Hm1; [destruct (Hstep _ _ _ HI1); lia |].
    destruct (Hstep _ _ _ HI1) as [_ Hs]. destruct (Hs b1 Hb1) as (r & T' & b' & E & Hb' & HQ).
    cbn [iter_nat]. unfold f at 1. cbn [fst snd]. rewrite E. destruct r as [s' | x].
    - destruct HQ as (n' & Hlt & HI'). by apply (IH n' s' b' T'); [done | done | lia].
    - exists x, T', b'. auto. }
  rewrite iterZ_nat. destruct (K (Z.to_nat LOOP_FUEL) n s b S Hb HI) as (r & T' & b' & E & ? & ?); [lia |].
  rewrite E. exists r, T', b'. auto.
Qed.

(** The same with a measure of the loop's state. *)
Lemma hoare_loop {St R} (I : St → image → Prop) (m : St → Z) (Q : R → image → Prop) (step : St → fm B (St + R)) s S :
  I s S → m s < LOOP_FUEL →
  (∀ s T, I s T → 0 ≤ m s) →
  (∀ s T, I s T → hoare T (step s) (λ r T', match r with inl s' => I s' T' ∧ m s' < m s | inr x => Q x T' end)) →
  hoare S (fm_loop step s) Q.
Proof.
  intros HI Hm Hnn Hstep. apply (hoare_loop_bound (λ n s T, n = m s ∧ I s T) Q step (m s)); [done | done |].
  intros n s1 T [-> HI1]. split; [by eapply Hnn |]. eapply hoare_mono; [by apply Hstep |].
  intros [s' | x] T' Hx; [| done]. destruct Hx as [HI' Hlt]. by exists (m s').
Qed.
End Logic.
End FatLogic.
