(* ===== verification/FatTable.v ===== *)
(** * The FAT as a map from clusters to entries

    The bytes of one copy of the table, the entry they hold for a cluster, and
    the proofs that [fat_get] reads it, [fat_set] updates exactly one entry in
    every copy, and [alloc_cluster] takes the first free one. *)
From S2P Require Import Prelude.
From S2P Require Import BlockDev.
From S2P Require Import Fat.
From S2P Require Import FatLogic.

Module FatTable.
Import Fat FatLogic.

(** ** Geometry *)
Definition table_bytes (t : fat_type_t) (n : Z) : Z :=
  match t with FAT_TYPE_12 => (3 * n + 1) / 2 | FAT_TYPE_16 => 2 * n | _ => 4 * n end.

(** A well-formed volume: no field wraps, the table has room for every
    cluster and the type follows the cluster count. *)
Record vol_ok (v : volume) : Prop := VolOk {
  vk_res : 0 < reserved_sectors (bpb v);
  vk_cnt : 0 < fat_count (bpb v);
  vk_spc : 0 < sectors_per_cluster (bpb v) < 256;
  vk_fsz : 0 < fat_size v;
  vk_root : 0 ≤ root_sectors v;
  vk_first : first_data v = reserved_sectors (bpb v) + fat_count (bpb v) * fat_size v + root_sectors v;
  vk_cc : 0 ≤ cluster_count v ≤ 2 ^ 28 - 16;
  vk_end : first_data v + cluster_count v * sectors_per_cluster (bpb v) < 2 ^ 32;
  vk_cover : table_bytes (type v) (cluster_count v + 2) ≤ fat_size v * 512;
  vk_type : type v = (if cluster_count v <? 4085 then FAT_TYPE_12
                      else if cluster_count v <? 65525 then FAT_TYPE_16 else FAT_TYPE_32)
}.

Definition is_cluster (v : volume) (c : Z) : Prop := 2 ≤ c < cluster_count v + 2.

Lemma valid_data_cluster_spec v c : vol_ok v → valid_data_cluster v c = true ↔ is_cluster v c.
Proof.
  intros Hv. pose proof (vk_cc _ Hv). unfold valid_data_cluster, is_cluster.
  rewrite andb_true_iff, Z.leb_le, Z.ltb_lt, u32_small by lia. done.
Qed.

(** Offset of an entry, without wrap-around. *)
Definition entry_offset (t : fat_type_t) (c : Z) : Z :=
  match t with FAT_TYPE_12 => c + c / 2 | FAT_TYPE_16 => 2 * c | _ => 4 * c end.
Definition entry_width (t : fat_type_t) : Z :=
  match t with FAT_TYPE_12 | FAT_TYPE_16 => 2 | _ => 4 end.

Lemma fat_offset_spec v c : vol_ok v → is_cluster v c → fat_offset v c = entry_offset (type v) c.
Proof.
  intros Hv [Hc1 Hc2]. pose proof (vk_cc _ Hv). unfold fat_offset, entry_offset.
  destruct (type v); rewrite u32_small; zdm.
Qed.

Lemma entry_in_table v c : vol_ok v → is_cluster v c →
  0 ≤ entry_offset (type v) c ∧ entry_offset (type v) c + entry_width (type v) ≤ fat_size v * 512.
Proof.
  intros Hv [Hc1 Hc2]. pose proof (vk_cover _ Hv) as Hk. unfold table_bytes, entry_offset, entry_width in *.
  destruct (type v); zdm.
Qed.

(** The entry whose bytes straddle two sectors (FAT12 only). *)
Definition straddles (t : fat_type_t) (c : Z) : Prop := t = FAT_TYPE_12 ∧ entry_offset t c mod 512 = 511.

(** ** Entries as functions of the table's bytes *)
Definition entry_of (t : fat_type_t) (F : Z → Z) (c : Z) : Z :=
  let o := entry_offset t c in
  match t with
  | FAT_TYPE_12 => let w := F o + 256 * F (o + 1) in if Z.even c then w mod 4096 else w / 16
  | FAT_TYPE_16 => F o + 256 * F (o + 1)
  | _ => le_read 4 F o mod 2 ^ 28
  end.

Definition entry_mod (t : fat_type_t) : Z :=
  match t with FAT_TYPE_12 => 2 ^ 12 | FAT_TYPE_16 => 2 ^ 16 | _ => 2 ^ 28 end.

(** The bytes stored by an update. *)
Definition new_bytes (t : fat_type_t) (F : Z → Z) (c value : Z) : list Z :=
  let o := entry_offset t c in
  match t with
  | FAT_TYPE_12 => let w := fat12_mix c (F o + 256 * F (o + 1)) value in [u8 w; u8 (Z.shiftr w 8)]
  | FAT_TYPE_16 => [u8 value; u8 (Z.shiftr value 8)]
  | _ => le_bytes 4 (Z.lor (Z.land (le_read 4 F o) 0xF0000000) (Z.land value 0x0FFFFFFF))
  end.

Definition put_bytes (F : Z → Z) (o : Z) (bs : list Z) : Z → Z :=
  λ i, if (o <=? i) && (i <? o + zlen bs) then bs.[i - o] else F i.

Lemma put_in F o bs i : o ≤ i < o + zlen bs → put_bytes F o bs i = bs.[i - o].
Proof. intros. unfold put_bytes. by rewrite (proj2 (Z.leb_le o i)), (proj2 (Z.ltb_lt i _)) by lia. Qed.
Lemma put_out F o bs i : i < o ∨ o + zlen bs ≤ i → put_bytes F o bs i = F i.
Proof.
  intros. unfold put_bytes. destruct (Z.leb_spec o i), (Z.ltb_spec i (o + zlen bs)); cbn; try done. lia.
Qed.

Lemma land_mod_pow2 x k : 0 ≤ k → Z.land x (2 ^ k - 1) = x mod 2 ^ k.
Proof. intros. rewrite <- Z.land_ones by done. f_equal. rewrite Z.ones_equiv. lia. Qed.

Lemma even_land c : (Z.land c 1 =? 0) = Z.even c.
Proof. rewrite land_1_odd, <- Z.negb_odd. by destruct (Z.odd c). Qed.

Lemma fat12_mix_spec c w value :
  0 ≤ w < 65536 → 0 ≤ value →
  fat12_mix c w value =
  if Z.even c then w / 4096 * 4096 + value mod 4096 else w mod 16 + value mod 4096 * 16.
Proof.
  intros Hw Hv. unfold fat12_mix. rewrite even_land. destruct (Z.even c).
  - change 0xFFF with (2 ^ 12 - 1). rewrite (land_mod_pow2 value 12) by lia.
    assert (Z.land w 0xF000 = w / 2 ^ 12 * 2 ^ 12) as ->.
    { change 0xF000 with (Z.shiftl (2 ^ 4 - 1) 12).
      rewrite <- (Z.shiftr_div_pow2 w 12) by lia. rewrite <- Z.shiftl_mul_pow2 by lia.
      assert (Z.shiftr w 12 = Z.land (Z.shiftr w 12) (2 ^ 4 - 1)) as E.
      { rewrite land_mod_pow2 by lia. rewrite Z.mod_small; [done |]. rewrite Z.shiftr_div_pow2 by lia. zdm. }
      rewrite E. apply Z.bits_inj'. intros k Hk. rewrite Z.land_spec.
      destruct (decide (k < 12)); [by rewrite !Z.shiftl_spec_low, andb_false_r by lia |].
      rewrite !Z.shiftl_spec, Z.land_spec, Z.shiftr_spec by lia. do 2 f_equal. lia. }
    rewrite Z.lor_comm, (lor_disjoint_add (value mod 2 ^ 12) (w / 2 ^ 12) 12) by zdm.
    unfold u16. rewrite Z.mod_small by zdm. zdm.
  - change 0x000F with (2 ^ 4 - 1). rewrite (land_mod_pow2 w 4), Z.shiftl_mul_pow2 by lia. unfold u32.
    replace (value * 2 ^ 4 mod 4294967296) with (value mod 2 ^ 28 * 2 ^ 4) by zdm.
    rewrite (lor_disjoint_add (w mod 2 ^ 4) (value mod 2 ^ 28) 4) by zdm. unfold u16. zdm.
Qed.

(** FAT32 keeps the top four bits of the word. *)
Lemma fat32_mix_mod old value :
  Z.lor (Z.land old 0xF0000000) (Z.land value 0x0FFFFFFF) mod 2 ^ 28 = value mod 2 ^ 28.
Proof.
  change 0x0FFFFFFF with (2 ^ 28 - 1). rewrite land_mod_pow2 by lia.
  rewrite <- Z.land_ones, Z.land_lor_distr_l by lia.
  rewrite !Z.land_ones by lia. rewrite Z.mod_mod by lia.
  replace (Z.land old 0xF0000000 mod 2 ^ 28) with 0; [done |]. symmetry.
  rewrite <- Z.land_ones by lia. rewrite <- Z.land_assoc. change (Z.land 0xF0000000 (Z.ones 28)) with 0. apply Z.land_0_r.
Qed.

Section Bytes.
Context (F : Z → Z) (HF : ∀ i, is_byte (F i)).

Lemma word_range o : 0 ≤ F o + 256 * F (o + 1) < 65536.
Proof. pose proof (HF o). pose proof (HF (o + 1)). unfold is_byte in *. lia. Qed.

Lemma entry_of_range t c : 0 ≤ entry_of t F c < entry_mod t.
Proof.
  unfold entry_of, entry_mod. destruct t; try (apply Z.mod_pos_bound; lia).
  - pose proof (word_range (entry_offset FAT_TYPE_12 c)). destruct (Z.even c); zdm.
  - apply word_range.
Qed.

Lemma read_put_word32 o w : le_read 4 (put_bytes F o (le_bytes 4 w)) o = w mod 2 ^ 32.
Proof.
  rewrite (le_read_bytes 4 _ o w); [done |]. intros i Hi.
  rewrite put_in by (unfold zlen; rewrite length_le_bytes; lia). f_equal. lia.
Qed.

(** The two bytes a FAT12 or FAT16 update stores. *)
Lemma put_pair o a b :
  put_bytes F o [a; b] o = a ∧ put_bytes F o [a; b] (o + 1) = b ∧
  ∀ i, i < o ∨ o + 2 ≤ i → put_bytes F o [a; b] i = F i.
Proof.
  assert (zlen [a; b] = 2) as L by done.
  split; [rewrite put_in by lia; by rewrite Z.sub_diag |]. split.
  - rewrite put_in by lia. by rewrite Z.add_simpl_l.
  - intros i Hi. apply put_out. lia.
Qed.

(** The updated entry reads back. *)
Lemma entry_put_same t c value :
  0 ≤ value →
  entry_of t (put_bytes F (entry_offset t c) (new_bytes t F c value)) c = value mod entry_mod t.
Proof.
  intros Hv. unfold entry_of, new_bytes, entry_mod. destruct t.
  - rewrite read_put_word32, <- (fat32_mix_mod (le_read 4 F (entry_offset FAT_TYPE_NONE c)) value). zdm.
  - set (o := entry_offset FAT_TYPE_12 c). pose proof (word_range o) as Hw.
    set (w := F o + 256 * F (o + 1)) in *. pose proof (fat12_mix_spec c w value Hw Hv) as Hmix.
    destruct (put_pair o (u8 (fat12_mix c w value)) (u8 (Z.shiftr (fat12_mix c w value) 8))) as (-> & -> & _).
    rewrite Hmix, Z.shiftr_div_pow2 by lia. unfold u8. destruct (Z.even c); zdm.
  - set (o := entry_offset FAT_TYPE_16 c).
    destruct (put_pair o (u8 value) (u8 (Z.shiftr value 8))) as (-> & -> & _).
    rewrite Z.shiftr_div_pow2 by lia. unfold u8. zdm.
  - rewrite read_put_word32, <- (fat32_mix_mod (le_read 4 F (entry_offset FAT_TYPE_32 c)) value). zdm.
Qed.

(** FAT12 entries of neighbouring clusters share a byte; the update keeps the
    neighbour's half of it. *)
Lemma entry12_put_other c d value :
  0 ≤ value → 0 ≤ c → 0 ≤ d → d ≠ c →
  entry_of FAT_TYPE_12 (put_bytes F (entry_offset FAT_TYPE_12 c) (new_bytes FAT_TYPE_12 F c value)) d =
  entry_of FAT_TYPE_12 F d.
Proof.
  intros Hv Hc Hd Hne. unfold entry_of, new_bytes, entry_offset.
  set (o := c + c / 2). pose proof (word_range o) as Hw. pose proof (HF o) as Ho. pose proof (HF (o + 1)) as Ho1.
  set (w := F o + 256 * F (o + 1)) in *. rewrite (fat12_mix_spec c w value Hw Hv).
  set (x := if Z.even c then _ else _).
  destruct (put_pair o (u8 x) (u8 (Z.shiftr x 8))) as (P0 & P1 & Pout). set (G := put_bytes F o _) in *. clearbody G.
  rewrite Z.shiftr_div_pow2 in P1 by lia. unfold is_byte in Ho, Ho1. unfold u8 in P0, P1.
  destruct (Z.eqb_spec d (c + 1)) as [-> | Hn1]; [| destruct (Z.eqb_spec d (c - 1)) as [-> | Hn2]].
  - replace (Z.even (c + 1)) with (negb (Z.even c)) by (rewrite Z.even_add; by destruct (Z.even c)).
    unfold x in *. destruct (Z.even c) eqn:Ec; cbn [negb].
    + apply Z.even_spec in Ec as [k ->]. replace (2 * k + 1 + (2 * k + 1) / 2) with (o + 1) by (subst o; zdm).
      rewrite P1, (Pout (o + 1 + 1)) by lia. subst w. generalize dependent (F (o + 1 + 1)). intros. zdm.
    + rewrite <- Z.negb_odd in Ec. apply negb_false_iff, Z.odd_spec in Ec as [k ->].
      rewrite !Pout by (subst o; zdm). done.
  - replace (Z.even (c - 1)) with (negb (Z.even c)) by (rewrite Z.even_sub; by destruct (Z.even c)).
    unfold x in *. destruct (Z.even c) eqn:Ec; cbn [negb].
    + apply Z.even_spec in Ec as [k ->]. rewrite !Pout by (subst o; zdm). done.
    + rewrite <- Z.negb_odd in Ec. apply negb_false_iff, Z.odd_spec in Ec as [k ->].
      replace (2 * k + 1 - 1 + (2 * k + 1 - 1) / 2) with (o - 1) by (subst o; zdm).
      replace (o - 1 + 1) with o by lia. rewrite P0, (Pout (o - 1)) by lia. subst w.
      generalize dependent (F (o - 1)). intros. zdm.
  - rewrite !Pout by (subst o; zdm). done.
Qed.

(** The other entries are unchanged. *)
Lemma entry_put_other t c d value :
  0 ≤ value → 0 ≤ c → 0 ≤ d → d ≠ c →
  entry_of t (put_bytes F (entry_offset t c) (new_bytes t F c value)) d = entry_of t F d.
Proof.
  intros Hv Hc Hd Hne. destruct t; [| by apply entry12_put_other | |].
  - unfold entry_of. f_equal. apply le_read_ext. intros x Hx. apply put_out.
    unfold new_bytes, zlen, entry_offset in *. rewrite length_le_bytes. lia.
  - unfold entry_of, new_bytes, entry_offset. destruct (put_pair (2 * c) (u8 value) (u8 (Z.shiftr value 8))) as (_ & _ & Pout).
    rewrite !Pout by lia. done.
  - unfold entry_of. f_equal. apply le_read_ext. intros x Hx. apply put_out.
    unfold new_bytes, zlen, entry_offset in *. rewrite length_le_bytes. lia.
Qed.
End Bytes.

(** ** Bytes of a copy of the table on disk *)
Definition cbyte (S : image) (base i : Z) : Z := (S (base + i / 512)).[i mod 512].

Lemma cbyte_is_byte S base i : image_ok S → is_byte (cbyte S base i).
Proof.
  intros HS. destruct (HS (base + i / 512)) as [Hl Hb]. unfold cbyte. apply (Forall_aget is_byte); [done |]. unfold zlen. rewrite Hl. zdm.
Qed.

Lemma cbyte_at S base o j :
  0 ≤ o → 0 ≤ j → o mod 512 + j < 512 → (S (base + o / 512)).[o mod 512 + j] = cbyte S base (o + j).
Proof.
  intros. unfold cbyte. assert ((o + j) / 512 = o / 512) as -> by zdm.
  by assert ((o + j) mod 512 = o mod 512 + j) as -> by zdm.
Qed.

(** Rewriting bytes of one sector. *)
Lemma cbyte_patch S base o bs i :
  image_ok S → 0 ≤ o → 0 ≤ i → o mod 512 + zlen bs ≤ 512 →
  cbyte (upd S (base + o / 512) (ablit (S (base + o / 512)) (o mod 512) bs)) base i =
  put_bytes (cbyte S base) o bs i.
Proof.
  intros HS Ho Hi Hfit. destruct (HS (base + o / 512)) as [Hl _]. unfold cbyte at 1. unfold upd.
  destruct (Z.eqb_spec (base + i / 512) (base + o / 512)) as [E | E].
  - assert (i / 512 = o / 512) as Eq by lia.
    destruct (decide (o ≤ i < o + zlen bs)) as [Hin | Hout].
    + rewrite put_in, aget_ablit_in by (unfold zlen in *; zdm). f_equal. zdm.
    + rewrite put_out, aget_ablit_out by zdm. unfold cbyte. by rewrite Eq.
  - rewrite put_out; [done |]. pose proof (zlen_nonneg bs). zdm.
Qed.

Lemma sector_patch_ok s pos bs : sector_ok s → Forall is_byte bs → sector_ok (ablit s pos bs).
Proof. intros [Hl Hb] Hbs. split; [by rewrite length_ablit | by apply Forall_ablit]. Qed.

Lemma join_word a b : is_byte a → is_byte b → Z.lor a (u16 (Z.shiftl b 8)) = a + 256 * b.
Proof.
  unfold is_byte. intros Ha Hb. rewrite Z.shiftl_mul_pow2, u16_small by lia.
  rewrite (lor_disjoint_add a b 8) by lia. lia.
Qed.

Lemma new_bytes_ok t F c value : Forall is_byte (new_bytes t F c value).
Proof. unfold new_bytes. destruct t; try apply le_bytes_is_byte; fall; auto with cint. Qed.

Lemma entry_offset_aligned t c : 0 ≤ c → ¬ straddles t c → entry_offset t c mod 512 + entry_width t ≤ 512.
Proof.
  intros Hc Hns. unfold straddles, entry_offset, entry_width in *. destruct t; try zdm.
  assert ((c + c / 2) mod 512 ≠ 511) by tauto. zdm.
Qed.

Lemma first_fat_range v : vol_ok v → reserved_sectors (bpb v) + fat_size v ≤ first_data v < 2 ^ 32.
Proof.
  intros Hv. pose proof (vk_first _ Hv). pose proof (vk_cnt _ Hv). pose proof (vk_fsz _ Hv).
  pose proof (vk_root _ Hv). pose proof (vk_end _ Hv). pose proof (vk_cc _ Hv). pose proof (vk_spc _ Hv). nia.
Qed.

Section Table.
Context {B : Type} `{Reliable B} (v : volume) (Hv : vol_ok v).

(** The entry of cluster [c] in the first copy of the table. *)
Definition fat_entry (S : image) (c : Z) : Z :=
  entry_of (type v) (cbyte S (reserved_sectors (bpb v))) c.

Lemma fat_get_spec S c :
  is_cluster v c → ¬ straddles (type v) c →
  hoare (B := B) S (fat_get v c) (λ x S', x = fat_entry S c ∧ S' = S).
Proof.
  intros Hc Hns. apply hoare_image. intros HS. unfold fat_get, fat_entry, SECTOR_SIZE.
  rewrite (fat_offset_spec v c Hv Hc). destruct (entry_in_table v c Hv Hc) as [Ho0 Ho1].
  pose proof (entry_offset_aligned (type v) c ltac:(destruct Hc; lia) Hns) as Hfit.
  pose proof (first_fat_range v Hv) as Hr. pose proof (vk_res _ Hv). pose proof (vk_fsz _ Hv).
  set (o := entry_offset (type v) c) in *. set (base := reserved_sectors (bpb v)) in *.
  rewrite (u32_small (base + o / 512)) by (unfold entry_width in *; destruct (type v); zdm).
  apply hoare_bind_read.
  pose proof (λ i, cbyte_is_byte S base i HS) as Hb.
  assert (∀ j, 0 ≤ j < entry_width (type v) → (S (base + o / 512)).[o mod 512 + j] = cbyte S base (o + j)) as Hcell.
  { intros j Hj. apply cbyte_at; lia. }
  assert (2 ≤ entry_width (type v)) as Hew by (unfold entry_width; destruct (type v); lia).
  pose proof (Hcell 0 ltac:(lia)) as Hc0. pose proof (Hcell 1 ltac:(lia)) as Hc1. rewrite !Z.add_0_r in Hc0.
  unfold entry_width, entry_of in *. fold o. destruct (type v) eqn:Et.
  2: { destruct (Z.eqb_spec (o mod 512) 511) as [E |]; [lia |].
       rewrite Hc0, Hc1, join_word by auto.
       apply hoare_ret. split; [| done]. rewrite even_land. change 0xFFF with (2 ^ 12 - 1).
       rewrite land_mod_pow2, Z.shiftr_div_pow2 by lia. done. }
  2: { rewrite Hc0, Hc1, join_word by auto.
       by apply hoare_ret. }
  all: apply hoare_ret; (split; [| done]); change 0x0FFFFFFF with (2 ^ 28 - 1); rewrite land_mod_pow2 by lia;
    f_equal; apply le_read_shift; intros i Hi; apply Hcell; lia.
Qed.

(** The update of a FAT12 entry that straddles two sectors. *)
Lemma fat12_straddle_spec S base c value :
  image_ok S → is_cluster v c → 0 ≤ base → base + fat_size v < 2 ^ 32 → type v = FAT_TYPE_12 →
  let o := entry_offset FAT_TYPE_12 c in o mod 512 = 511 →
  hoare (B := B) S
    (r2 ← sec_read (base + o / 512 +32 1);
     match r2 with
     | None => mret (-1)
     | Some next =>
         let w := fat12_mix c (Z.lor (S (base + o / 512)).[o mod 512] (u16 (Z.shiftl next.[0] 8))) value in
         let sec := (S (base + o / 512)).[o mod 512 <- u8 w] in
         let next := next.[0 <- u8 (Z.shiftr w 8)] in
         rc ← sec_write (base + o / 512 +32 1) next;
         if negb (rc =? 0) then mret (-1) else sec_write (base + o / 512) sec
     end)
    (λ rc S', rc = 0 ∧
    (∀ l, l < base ∨ base + fat_size v ≤ l → S' l = S l) ∧
    ∀ i, 0 ≤ i → cbyte S' base i =
      put_bytes (cbyte S base) o (new_bytes FAT_TYPE_12 (cbyte S base) c value) i).
Proof.
  intros HS Hc Hb0 Hb1 Et o E. destruct (entry_in_table v c Hv Hc) as [Ho0 Ho1]. rewrite Et in Ho0, Ho1.
  fold o in Ho0, Ho1. cbn [entry_width] in Ho1.
  assert (o / 512 + 1 < fat_size v) as Hq by zdm. rewrite (u32_small (base + o / 512 + 1)) by zdm.
  apply hoare_bind_read. cbn zeta.
  assert ((S (base + o / 512 + 1)).[0] = cbyte S base (o + 1)) as ->.
  { unfold cbyte. assert ((o + 1) / 512 = o / 512 + 1) as -> by zdm. assert ((o + 1) mod 512 = 0) as -> by zdm.
    by rewrite Z.add_assoc. }
  pose proof (λ i, cbyte_is_byte S base i HS) as Hb.
  change ((S (base + o / 512)).[o mod 512]) with (cbyte S base o). rewrite join_word by auto.
  unfold new_bytes. fold o. set (w := fat12_mix c _ value). destruct (HS (base + o / 512)) as [Hl0 Hf0].
  destruct (HS (base + o / 512 + 1)) as [Hl1 Hf1].
  apply hoare_bind_write; [split; [by rewrite length_aset | apply Forall_aset; auto with cint] |]. cbn [negb Z.eqb].
  apply hoare_write; [split; [by rewrite length_aset | apply Forall_aset; auto with cint] |].
  split; [done |]. split; [intros l Hl; rewrite !upd_other by zdm; done |]. intros i Hi. unfold cbyte at 1.
  destruct (put_pair (cbyte S base) o (u8 w) (u8 (Z.shiftr w 8))) as (P0 & P1 & Pout).
  assert (zlen (S (base + o / 512)) = 512 ∧ zlen (S (base + o / 512 + 1)) = 512) as [HL0 HL1] by (unfold zlen; by rewrite Hl0, Hl1).
  destruct (decide (i = o)) as [-> | Hn0]; [| destruct (decide (i = o + 1)) as [-> | Hn1]].
  - rewrite P0, upd_same, aget_aset_eq by zdm. done.
  - rewrite P1. assert ((o + 1) / 512 = o / 512 + 1) as -> by zdm. assert ((o + 1) mod 512 = 0) as -> by zdm.
    rewrite Z.add_assoc, upd_other, upd_same, aget_aset_eq by lia. done.
  - rewrite Pout by lia. destruct (decide (i / 512 = o / 512)) as [Hq0 | Hq0].
    + rewrite Hq0, upd_same, aget_aset_ne by zdm. unfold cbyte. by rewrite Hq0.
    + rewrite upd_other by lia. destruct (decide (i / 512 = o / 512 + 1)) as [Hq1 | Hq1].
      * rewrite Hq1, Z.add_assoc, upd_same, aget_aset_ne by zdm. unfold cbyte. by rewrite Hq1, Z.add_assoc.
      * by rewrite upd_other by lia.
Qed.

Lemma fat_set_copy_spec S base c value :
  is_cluster v c → 0 ≤ base → base + fat_size v < 2 ^ 32 →
  hoare (B := B) S (fat_set_copy v base c value) (λ rc S', rc = 0 ∧
    (∀ l, l < base ∨ base + fat_size v ≤ l → S' l = S l) ∧
    ∀ i, 0 ≤ i → cbyte S' base i =
      put_bytes (cbyte S base) (entry_offset (type v) c) (new_bytes (type v) (cbyte S base) c value) i).
Proof.
  intros Hc Hb0 Hb1. apply hoare_image. intros HS. unfold fat_set_copy, SECTOR_SIZE.
  rewrite (fat_offset_spec v c Hv Hc). destruct (entry_in_table v c Hv Hc) as [Ho0 Ho1].
  set (o := entry_offset (type v) c) in *. pose proof (vk_fsz _ Hv).
  assert (o / 512 < fat_size v) as Hq by (unfold entry_width in *; destruct (type v); zdm).
  rewrite (u32_small (base + o / 512)) by zdm.
  apply hoare_bind_read.
  pose proof (λ i, cbyte_is_byte S base i HS) as Hb.
  pose proof (entry_offset_aligned (type v) c ltac:(destruct Hc; lia)) as Hfit. fold o in Hfit.
  assert (¬ straddles (type v) c → ∀ bs, zlen bs = entry_width (type v) →
    bs = new_bytes (type v) (cbyte S base) c value →
    hoare (B := B) S (sec_write (base + o / 512) (ablit (S (base + o / 512)) (o mod 512) bs)) (λ rc S', rc = 0 ∧
    (∀ l, l < base ∨ base + fat_size v ≤ l → S' l = S l) ∧
    ∀ i, 0 ≤ i → cbyte S' base i = put_bytes (cbyte S base) o (new_bytes (type v) (cbyte S base) c value) i)) as Hwrite.
  { intros Hns bs Hlen ->. specialize (Hfit Hns).
    apply hoare_write; [apply sector_patch_ok; [done | apply new_bytes_ok] |].
    split; [done |]. split; [intros l Hl; apply upd_other; zdm |].
    intros i Hi. apply cbyte_patch; (done || lia). }
  unfold straddles, entry_width in *. destruct (type v) eqn:Et.
  - apply Hwrite; [by intros [? _] | done | unfold new_bytes; fold o; do 4 f_equal ].
    specialize (Hfit ltac:(by intros [? _])). apply le_read_shift. intros i Hi. apply cbyte_at; lia.
  - destruct (Z.eqb_spec (o mod 512) 511) as [E | E].
    + apply (fat12_straddle_spec S base c value); done.
    + assert (¬ (FAT_TYPE_12 = FAT_TYPE_12 ∧ entry_offset FAT_TYPE_12 c mod 512 = 511)) as Hns by (fold o; tauto).
      specialize (Hfit Hns). change ((S (base + o / 512)).[o mod 512]) with (cbyte S base o).
      rewrite (cbyte_at S base o 1), join_word by (auto || lia).
      by apply (Hwrite Hns (new_bytes FAT_TYPE_12 (cbyte S base) c value)).
  - apply (Hwrite ltac:(by intros [? _]) (new_bytes FAT_TYPE_16 (cbyte S base) c value)); done.
  - apply Hwrite; [by intros [? _] | done | unfold new_bytes; fold o; do 4 f_equal ].
    specialize (Hfit ltac:(by intros [? _])). apply le_read_shift. intros i Hi. apply cbyte_at; lia.
Qed.

(** ** All copies *)
Definition copy_base (k : Z) : Z := reserved_sectors (bpb v) + k * fat_size v.
Definition copy_entry (S : image) (k c : Z) : Z := entry_of (type v) (cbyte S (copy_base k)) c.
Definition in_fat (l : Z) : Prop := reserved_sectors (bpb v) ≤ l < copy_base (fat_count (bpb v)).

Lemma copy_base_range k :
  0 ≤ k < fat_count (bpb v) →
  0 < copy_base k ∧ copy_base k + fat_size v ≤ copy_base (fat_count (bpb v)) ∧ copy_base (fat_count (bpb v)) ≤ first_data v < 2 ^ 32.
Proof.
  intros Hk. pose proof (vk_first _ Hv). pose proof (vk_res _ Hv). pose proof (vk_fsz _ Hv).
  pose proof (vk_root _ Hv). pose proof (first_fat_range v Hv). unfold copy_base in *. nia.
Qed.

(** Different copies occupy different sectors. *)
Lemma copies_disjoint k i j :
  i ≠ k → 0 ≤ j < fat_size v * 512 →
  copy_base k + j / 512 < copy_base i ∨ copy_base i + fat_size v ≤ copy_base k + j / 512.
Proof.
  intros Hne Hj. pose proof (vk_fsz _ Hv). unfold copy_base.
  assert (0 ≤ j / 512 < fat_size v) as Hq by zdm. nia.
Qed.

Lemma fat_set_bytes S c value :
  is_cluster v c →
  hoare (B := B) S (fat_set v c value) (λ rc S', rc = 0 ∧ (∀ l, ¬ in_fat l → S' l = S l) ∧
    ∀ k j, 0 ≤ k < fat_count (bpb v) → 0 ≤ j < fat_size v * 512 →
      cbyte S' (copy_base k) j = put_bytes (cbyte S (copy_base k)) (entry_offset (type v) c)
                                   (new_bytes (type v) (cbyte S (copy_base k)) c value) j).
Proof.
  intros Hc. unfold fat_set. pose proof (vk_cnt _ Hv) as Hcnt.
  set (done_copy := λ k (T : image), ∀ j, 0 ≤ j < fat_size v * 512 →
    cbyte T (copy_base k) j = put_bytes (cbyte S (copy_base k)) (entry_offset (type v) c)
                                   (new_bytes (type v) (cbyte S (copy_base k)) c value) j).
  eapply (hoare_bind _ _ _ (λ r T, r = None ∧ (∀ l, ¬ in_fat l → T l = S l) ∧
    ∀ k, 0 ≤ k < fat_count (bpb v) → done_copy k T)).
  2: { intros r T (-> & Ho & Hd). apply hoare_ret. split; [done |]. split; [done |]. intros k j Hk Hj. by apply Hd. }
  apply (hoare_for (λ i T, (∀ l, ¬ in_fat l → T l = S l) ∧ (∀ k, 0 ≤ k < i → done_copy k T) ∧
    ∀ k l, i ≤ k < fat_count (bpb v) → copy_base k ≤ l < copy_base k + fat_size v → T l = S l)); [lia | | |].
  - split; [done |]. split; [lia | done].
  - intros i T Hi (Ho & Hd & Hr). destruct (copy_base_range i Hi) as (Hb1 & Hb2 & Hb3).
    pose proof (vk_fsz _ Hv). pose proof (vk_res _ Hv).
    assert (reserved_sectors (bpb v) +32 (i *32 fat_size v) = copy_base i) as ->.
    { unfold copy_base in *. rewrite (u32_small (i * fat_size v)), u32_small by nia. done. }
    eapply hoare_bind; [apply fat_set_copy_spec; [done | lia | lia] |].
    intros rc T' (-> & Hout & Hby). apply hoare_ret. cbn [negb Z.eqb].
    assert (∀ j, 0 ≤ j < fat_size v * 512 → cbyte T (copy_base i) j = cbyte S (copy_base i) j) as Hcell.
    { intros j Hj. unfold cbyte. rewrite (Hr i); [done | lia | zdm]. }
    split; [| split].
    + intros l Hl. rewrite Hout; [by apply Ho |]. unfold in_fat, copy_base in *. nia.
    + intros k Hk. destruct (decide (k = i)) as [-> | Hne].
      * intros j Hj. rewrite Hby by lia. destruct (entry_in_table v c Hv Hc) as [He0 He1].
        assert (new_bytes (type v) (cbyte T (copy_base i)) c value = new_bytes (type v) (cbyte S (copy_base i)) c value) as ->.
        { unfold new_bytes, entry_width in *. destruct (type v); [| | done |]; f_equal.
          all: try (do 2 f_equal; apply le_read_ext; intros x Hx; apply Hcell; lia).
          all: rewrite ?Hcell by lia; done. }
        unfold put_bytes. destruct (_ && _); [done | by apply Hcell].
      * intros j Hj. rewrite <- (Hd k ltac:(lia) j Hj). unfold cbyte. rewrite Hout; [done |].
        by apply copies_disjoint.
    + intros k l Hk Hl. rewrite Hout; [apply (Hr k); [lia | done] |]. unfold copy_base in *. nia.
  - intros T (Ho & Hd & _). split; [done |]. split; [done |]. intros k Hk. by apply Hd.
Qed.

Lemma entry_of_ext t F G c :
  0 ≤ c → (∀ j, entry_offset t c ≤ j < entry_offset t c + entry_width t → F j = G j) → entry_of t F c = entry_of t G c.
Proof.
  intros Hc Hj. unfold entry_of, entry_width in *. destruct t.
  - f_equal. by apply le_read_ext.
  - by rewrite !Hj by lia.
  - by rewrite !Hj by lia.
  - f_equal. by apply le_read_ext.
Qed.

(** [fat_set] writes one entry of every copy and nothing else. *)
Lemma fat_set_spec S c value :
  is_cluster v c → 0 ≤ value →
  hoare (B := B) S (fat_set v c value) (λ rc S', rc = 0 ∧ (∀ l, ¬ in_fat l → S' l = S l) ∧
    ∀ k d, 0 ≤ k < fat_count (bpb v) → is_cluster v d →
      copy_entry S' k d = if d =? c then value mod entry_mod (type v) else copy_entry S k d).
Proof.
  intros Hc Hval. apply hoare_image. intros HS. eapply hoare_mono; [by apply fat_set_bytes |].
  intros rc S' (-> & Hout & Hb). split; [done |]. split; [done |]. intros k d Hk Hd.
  pose proof (λ i, cbyte_is_byte S (copy_base k) i HS) as Hby. destruct (entry_in_table v d Hv Hd) as [Hd0 Hd1].
  unfold copy_entry. destruct Hd as [Hd2 Hd3], Hc as [Hc2 Hc3].
  rewrite (entry_of_ext _ _ (put_bytes (cbyte S (copy_base k)) (entry_offset (type v) c)
    (new_bytes (type v) (cbyte S (copy_base k)) c value))); [| lia | intros j Hj; apply Hb; [done | lia]].
  destruct (Z.eqb_spec d c) as [-> | Hne]; [by apply entry_put_same | apply entry_put_other; (done || lia)].
Qed.

Lemma fat_entry_copy0 S c : fat_entry S c = copy_entry S 0 c.
Proof. unfold fat_entry, copy_entry, copy_base. by rewrite Z.mul_0_l, Z.add_0_r. Qed.

(** ** Allocation *)

(** No entry of the table straddles two sectors: true for FAT16, FAT32 and
    FAT12 volumes of fewer than 340 clusters. *)
Definition safe_fat : Prop := ∀ c, is_cluster v c → ¬ straddles (type v) c.

Definition in_cluster (c l : Z) : Prop :=
  first_data v + (c - 2) * sectors_per_cluster (bpb v) ≤ l <
  first_data v + (c - 1) * sectors_per_cluster (bpb v).

Lemma cluster_sector_spec c s :
  is_cluster v c → 0 ≤ s < sectors_per_cluster (bpb v) →
  cluster_sector v c +32 s = first_data v + (c - 2) * sectors_per_cluster (bpb v) + s ∧
  in_cluster c (cluster_sector v c +32 s).
Proof.
  intros [Hc1 Hc2] Hs. pose proof (vk_end _ Hv). pose proof (vk_cc _ Hv). pose proof (first_fat_range v Hv).
  pose proof (vk_res _ Hv). pose proof (vk_fsz _ Hv). unfold in_cluster, cluster_sector.
  assert (0 ≤ (c - 2) * sectors_per_cluster (bpb v) ∧
          (c - 1) * sectors_per_cluster (bpb v) ≤ cluster_count v * sectors_per_cluster (bpb v)) by nia.
  rewrite (u32_small (c - 2)), (u32_small ((c - 2) * _)), (u32_small (first_data v + _)), u32_small by lia. lia.
Qed.

(** Data clusters lie behind the tables, and different ones are disjoint. *)
Lemma in_cluster_not_fat c l : is_cluster v c → in_cluster c l → ¬ in_fat l ∧ reserved_sectors (bpb v) ≤ l.
Proof.
  intros [Hc1 Hc2] [Hl1 Hl2]. pose proof (vk_cnt _ Hv). pose proof (vk_spc _ Hv).
  destruct (copy_base_range 0 ltac:(lia)) as (? & ? & ?). pose proof (first_fat_range v Hv). pose proof (vk_fsz _ Hv).
  unfold in_fat. nia.
Qed.
Lemma in_cluster_inj c d l : in_cluster c l → in_cluster d l → c = d.
Proof. pose proof (vk_spc _ Hv). unfold in_cluster. intros. nia. Qed.

Lemma copy_entry_ext S S' k c :
  0 ≤ k < fat_count (bpb v) → is_cluster v c → (∀ l, in_fat l → S' l = S l) → copy_entry S' k c = copy_entry S k c.
Proof.
  intros Hk Hc Hl. destruct (entry_in_table v c Hv Hc). destruct (copy_base_range k Hk) as (? & ? & ?).
  apply entry_of_ext; [destruct Hc; lia |]. intros j Hj. unfold cbyte. rewrite Hl; [done |].
  pose proof (vk_fsz _ Hv). unfold in_fat. split; [unfold copy_base; assert (0 ≤ j / 512) by zdm; nia |].
  assert (j / 512 < fat_size v) by zdm. lia.
Qed.

Lemma put_u32_ok s p x : sector_ok s → sector_ok (put_u32 s p x).
Proof. intros Hs. apply sector_patch_ok; [done | apply le_bytes_is_byte]. Qed.

(** The FSInfo update stays in the reserved area. *)
Lemma fsinfo_adjust_sector_spec S sector delta nf :
  hoare (B := B) S (fsinfo_adjust_sector v sector delta nf) (λ _ S', ∀ l, reserved_sectors (bpb v) ≤ l → S' l = S l).
Proof.
  apply hoare_image. intros HS. unfold fsinfo_adjust_sector.
  destruct (Z.leb_spec (reserved_sectors (bpb v)) sector); [rewrite orb_true_r; by apply hoare_ret |].
  destruct (negb _ || false); [by apply hoare_ret |]. apply hoare_bind_read.
  destruct (_ || _ || _); [by apply hoare_ret |]. cbn zeta.
  apply hoare_bind_write.
  - apply put_u32_ok. case_match; [by apply put_u32_ok | done].
  - apply hoare_ret. intros l Hl. apply upd_other. lia.
Qed.

Lemma fsinfo_adjust_spec S delta nf :
  hoare (B := B) S (fsinfo_adjust v delta nf) (λ _ S', ∀ l, reserved_sectors (bpb v) ≤ l → S' l = S l).
Proof.
  unfold fsinfo_adjust. destruct (_ || _ || _); [by apply hoare_ret |].
  eapply hoare_bind; [apply fsinfo_adjust_sector_spec |]. intros [] S1 K1. cbn beta in K1.
  destruct (_ && _); [| by apply hoare_ret].
  eapply hoare_mono; [apply fsinfo_adjust_sector_spec |]. intros [] S2 K2 l Hl. cbn beta in K2. rewrite K2, K1; done.
Qed.

Lemma zero_sector_ok : sector_ok zero_sector.
Proof. split; [done |]. apply Forall_replicate. split; lia. Qed.

Lemma zero_cluster_spec S c :
  is_cluster v c →
  hoare (B := B) S (zero_cluster v c) (λ r S', r = None ∧ (∀ l, in_cluster c l → S' l = zero_sector) ∧
    ∀ l, ¬ in_cluster c l → S' l = S l).
Proof.
  intros Hc. pose proof (vk_spc _ Hv). unfold zero_cluster.
  set (first := first_data v + (c - 2) * sectors_per_cluster (bpb v)).
  apply (hoare_for (λ i T, (∀ l, first ≤ l < first + i → T l = zero_sector) ∧ ∀ l, ¬ in_cluster c l → T l = S l)); [lia | | |].
  - split; [lia | done].
  - intros s T Hs [Hz Ho]. destruct (cluster_sector_spec c s Hc Hs) as [E Hin]. rewrite E in *. fold first in E, Hin |- *.
    apply hoare_bind_write; [apply zero_sector_ok |]. apply hoare_ret. cbn [negb Z.eqb]. split.
    + intros l Hl. unfold upd. destruct (Z.eqb_spec l (first + s)); [done | apply Hz; lia].
    + intros l Hl. rewrite upd_other; [by apply Ho | intros ->; done].
  - intros T [Hz Ho]. split; [done |]. split; [| done]. intros l [Hl1 Hl2]. apply Hz. subst first. lia.
Qed.

Lemma eoc_value_range : 0 ≤ eoc_value v < entry_mod (type v).
Proof. unfold eoc_value, entry_mod. destruct (type v); lia. Qed.

(** The effect of taking cluster [c]. *)
Record allocated (S S' : image) (c : Z) : Prop := Allocated {
  al_cluster : is_cluster v c;
  al_free : fat_entry S c = 0;
  al_first : ∀ d, 2 ≤ d < c → fat_entry S d ≠ 0;
  al_entries : ∀ k d, 0 ≤ k < fat_count (bpb v) → is_cluster v d →
               copy_entry S' k d = if d =? c then eoc_value v else copy_entry S k d;
  al_zero : ∀ l, in_cluster c l → S' l = zero_sector;
  al_other : ∀ l, reserved_sectors (bpb v) ≤ l → ¬ in_fat l → ¬ in_cluster c l → S' l = S l
}.

Lemma take_cluster_spec S c :
  is_cluster v c → fat_entry S c = 0 → (∀ d, 2 ≤ d < c → fat_entry S d ≠ 0) →
  hoare (B := B) S
    (rc ← fat_set v c (eoc_value v);
     if negb (rc =? 0) then mret (Some 0) else
     z ← zero_cluster v c;
     match z with
     | Some _ => mret (Some 0)
     | None => _ ← fsinfo_adjust v (-1) (c +32 1); mret (Some c)
     end) (λ r S', r = Some c ∧ allocated S S' c).
Proof.
  intros Hc Hfree Hfirst. pose proof eoc_value_range as Heoc.
  eapply hoare_bind; [apply fat_set_spec; [done | lia] |]. intros rc S1 (-> & H1o & H1e). cbn [negb Z.eqb].
  eapply hoare_bind; [by apply zero_cluster_spec |]. intros z S2 (-> & H2z & H2o).
  eapply hoare_bind; [apply fsinfo_adjust_spec |]. intros [] S3 H3. cbn beta in H3.
  apply hoare_ret. split; [done |]. constructor; try done.
  - intros k d Hk Hd. rewrite Z.mod_small in H1e by done. rewrite <- H1e by done.
    apply copy_entry_ext; [done | done |]. intros l Hl.
    assert (reserved_sectors (bpb v) ≤ l) by (unfold in_fat in Hl; lia).
    rewrite H3, H2o; [done | | done]. intros Hin. by apply (in_cluster_not_fat c l Hc) in Hin as [? _].
  - intros l Hl. destruct (in_cluster_not_fat c l Hc Hl). rewrite H3 by done. by apply H2z.
  - intros l Hr Hf Hcl. by rewrite H3, H2o, H1o.
Qed.

Lemma alloc_cluster_spec S :
  safe_fat →
  hoare (B := B) S (alloc_cluster v) (λ r S',
    (r = 0 ∧ S' = S ∧ ∀ c, is_cluster v c → fat_entry S c ≠ 0) ∨ allocated S S' r).
Proof.
  intros Hsafe. pose proof (vk_cc _ Hv). unfold alloc_cluster. rewrite u32_small by lia.
  eapply (hoare_bind _ _ _ (λ r T, (r = None ∧ T = S ∧ ∀ c, is_cluster v c → fat_entry S c ≠ 0) ∨
    ∃ c, r = Some c ∧ allocated S T c)).
  2: { intros r T [(-> & -> & Hn) | (c & -> & Ha)]; apply hoare_ret; [by left | by right]. }
  apply (hoare_for (λ i T, T = S ∧ ∀ d, 2 ≤ d < i → fat_entry S d ≠ 0)); [lia | | |].
  - split; [done | lia].
  - intros c T Hc [-> Hd]. assert (is_cluster v c) as Hcl by (split; lia).
    eapply hoare_bind; [apply fat_get_spec; [done | by apply Hsafe] |]. intros x T [-> ->].
    destruct (Z.eqb_spec (fat_entry S c) 0) as [E | E]; cbn [negb].
    + eapply hoare_mono; [by apply take_cluster_spec |]. intros r T (-> & Ha). right. eauto.
    + apply hoare_ret. split; [done |]. intros d Hr. destruct (decide (d = c)) as [-> |]; [done | apply Hd; lia].
  - intros T [-> Hd]. left. split; [done |]. split; [done |]. intros c [? ?]. apply Hd. lia.
Qed.
End Table.

(** ** Properties *)

(** on every well-formed volume and every cluster, [fat_set] succeeds on
    an error-free device; in every copy of the table the entry then holds the
    value (modulo 12, 16 or 28 bits) and all other entries are unchanged, also
    those that share a byte with it; no sector outside the tables changes. *)
Theorem fat_set_updates_one_entry {B} `{Reliable B} v S c value :
  vol_ok v → is_cluster v c → 0 ≤ value →
  hoare (B := B) S (fat_set v c value) (λ rc S', rc = 0 ∧ (∀ l, ¬ in_fat v l → S' l = S l) ∧
    ∀ k d, 0 ≤ k < fat_count (bpb v) → is_cluster v d →
      copy_entry v S' k d = if d =? c then value mod entry_mod (type v) else copy_entry v S k d).
Proof. intros Hv. by apply fat_set_spec. Qed.

(** [fat_get] after [fat_set] returns the stored value for every cluster
    whose FAT12 entry does not straddle a sector boundary. *)
Theorem fat_get_set_roundtrip {B} `{Reliable B} v S c value :
  vol_ok v → is_cluster v c → ¬ straddles (type v) c → 0 ≤ value < entry_mod (type v) →
  hoare (B := B) S (rc ← fat_set v c value; x ← fat_get v c; mret (rc, x)) (λ r _, r = (0, value)).
Proof.
  intros Hv Hc Hns Hval. eapply hoare_bind; [apply fat_set_spec; [done | done | lia] |].
  intros rc S' (-> & _ & He). eapply hoare_bind; [by apply fat_get_spec |].
  intros x S'' [-> ->]. apply hoare_ret. rewrite fat_entry_copy0, He; [| split; [done | by apply vk_cnt] | done].
  by rewrite Z.eqb_refl, Z.mod_small.
Qed.

(** [fat_get] of a FAT12 cluster whose entry straddles two sectors stores
    a whole sector into a one-byte variable: the behaviour is undefined
    whenever both reads succeed.  The first such cluster is 341. *)
Theorem fat_get_straddle_undefined {B} `{Reliable B} v b c :
  bd_ok b → vol_ok v → is_cluster v c → straddles (type v) c →
  ∃ b', fat_get v c b = (Undefined, b').
Proof.
  intros Hb Hv Hc [Et Es]. rewrite Et in Es. unfold fat_get, SECTOR_SIZE. rewrite (fat_offset_spec v c Hv Hc), Et, Es.
  unfold mbind, fm_bind, sec_read. destruct (rel_read b (reserved_sectors (bpb v) +32 (entry_offset FAT_TYPE_12 c / 512)) Hb) as [b1 E1].
  rewrite E1. destruct (bd_read_law _ _ _ _ Hb E1) as (Hb1 & _).
  destruct (rel_read b1 ((reserved_sectors (bpb v) +32 (entry_offset FAT_TYPE_12 c / 512)) +32 1) Hb1) as [b2 E2].
  destruct (Z.eqb_spec 511 511) as [_ |]; [| done]. rewrite E2. by exists b2.
Qed.

(** [alloc_cluster] returns 0 and changes nothing exactly when no table
    entry is free; otherwise it takes the lowest free cluster: its entry
    becomes the end-of-chain mark in every copy, its sectors are cleared, and
    every other entry and every other sector from the tables on is kept. *)
Theorem alloc_cluster_correct {B} `{Reliable B} v S :
  vol_ok v → safe_fat v →
  hoare (B := B) S (alloc_cluster v) (λ r S',
    (r = 0 ∧ S' = S ∧ ∀ c, is_cluster v c → fat_entry v S c ≠ 0) ∨ allocated v S S' r).
Proof. intros Hv. by apply alloc_cluster_spec. Qed.
End FatTable.
