(* ===== verification/FatFile.v ===== *)
(** * Files and directories of the FAT driver

    Cluster chains, the directory entries they hold, and the proofs that
    lookups and [fat_read] return what the disk image describes. *)
From S2P Require Import Prelude.
From S2P Require Import BlockDev.
From S2P Require Import Fat.
From S2P Require Import FatLogic.
From S2P Require Import FatTable.

Module FatFile.
Import Fat FatLogic FatTable.

Section Chains.
Context (v : volume) (Hv : vol_ok v).

(** The clusters of a file, from the first to the one with the end mark. *)
Inductive chain (S : image) : Z → list Z → Prop :=
| chain_last c : is_cluster v c → is_eoc v (fat_entry v S c) = true → chain S c [c]
| chain_next c cs : is_cluster v c → chain S (fat_entry v S c) cs → chain S c (c :: cs).

Lemma chain_head S c cs : chain S c cs → is_cluster v c ∧ ∃ r, cs = c :: r.
Proof. intros []; eauto. Qed.

Lemma chain_clusters S c cs : chain S c cs → Forall (is_cluster v) cs.
Proof. induction 1; by apply Forall_cons. Qed.

(** A cluster number is no end mark. *)
Lemma is_eoc_cluster c : is_cluster v c → is_eoc v c = false.
Proof.
  intros [Hc1 Hc2]. pose proof (vk_cc _ Hv). pose proof (vk_type _ Hv) as Ht. unfold is_eoc. rewrite Ht in *.
  destruct (Z.ltb_spec (cluster_count v) 4085); [| destruct (Z.ltb_spec (cluster_count v) 65525)]; apply Z.leb_gt; lia.
Qed.

(** The entry of a chain's head tells whether it is the last cluster. *)
Lemma chain_step S c r :
  chain S c (c :: r) →
  match r with
  | [] => is_eoc v (fat_entry v S c) = true
  | d :: _ => fat_entry v S c = d ∧ is_eoc v d = false ∧ is_cluster v d ∧ chain S d r
  end.
Proof.
  intros Hch. inversion Hch as [c1 Hc He | c1 cs Hc Hr]; subst; [done |].
  destruct (chain_head _ _ _ Hr) as (Hd & r' & ->). auto using is_eoc_cluster.
Qed.

(** ** Contents *)
Fixpoint sectors (S : image) (l : Z) (n : nat) : list Z :=
  match n with O => [] | Datatypes.S n' => S l ++ sectors S (l + 1) n' end.

Definition cluster_first (c : Z) : Z := first_data v + (c - 2) * sectors_per_cluster (bpb v).
Definition cluster_bytes : Z := sectors_per_cluster (bpb v) * 512.
Definition cluster_data (S : image) (c : Z) : list Z :=
  sectors S (cluster_first c) (Z.to_nat (sectors_per_cluster (bpb v))).
Definition chain_data (S : image) (cs : list Z) : list Z := cs ≫= cluster_data S.

Lemma sectors_snoc S l n : sectors S l (n + 1) = sectors S l n ++ S (l + Z.of_nat n).
Proof.
  revert l. induction n as [| n IH]; intros l; cbn [sectors Nat.add].
  - rewrite Z.add_0_r. apply app_nil_r.
  - rewrite IH, app_assoc. do 2 f_equal. lia.
Qed.

Lemma sectors_app S l n m : sectors S l (n + m) = sectors S l n ++ sectors S (l + Z.of_nat n) m.
Proof.
  revert l. induction n as [| n IH]; intros l; cbn [sectors Nat.add app]; [f_equal; lia |].
  rewrite IH, app_assoc. do 2 f_equal. lia.
Qed.

Lemma zlen_sectors S l n : image_ok S → zlen (sectors S l n) = 512 * Z.of_nat n.
Proof.
  intros HS. revert l. induction n as [| n IH]; intros l; cbn [sectors]; [done |].
  rewrite zlen_app, IH. destruct (HS l) as [Hl _]. unfold zlen. rewrite Hl. lia.
Qed.

Lemma zlen_cluster_data S c : image_ok S → zlen (cluster_data S c) = cluster_bytes.
Proof.
  intros HS. pose proof (vk_spc _ Hv). unfold cluster_data, cluster_bytes. rewrite zlen_sectors by done. lia.
Qed.

Lemma zlen_chain_data S cs : image_ok S → zlen (chain_data S cs) = zlen cs * cluster_bytes.
Proof.
  intros HS. induction cs as [| c cs IH]; [done |]. unfold chain_data in *.
  rewrite bind_cons, zlen_app, zlen_cluster_data, IH, zlen_cons by done. lia.
Qed.
End Chains.

(** ** Walking and reading *)
Section Files.
Context {B : Type} `{Reliable B} (v : volume) (Hv : vol_ok v) (Hsafe : safe_fat v).

Lemma get_in_chain S c cs :
  chain v S c cs → hoare (B := B) S (fat_get v c) (λ x S', x = fat_entry v S c ∧ S' = S).
Proof. intros Hch. destruct (chain_head _ _ _ _ Hch) as [Hc _]. apply fat_get_spec; auto. Qed.

(** [skip_clusters] finds the cluster at an index of the chain. *)
Lemma skip_clusters_spec S c cs k :
  chain v S c cs → 0 ≤ k < 2 ^ 32 →
  hoare (B := B) S (skip_clusters v k c) (λ r S', S' = S ∧ r = cs !! Z.to_nat k).
Proof.
  intros Hch Hk. unfold skip_clusters.
  apply (hoare_loop (λ sc T, T = S ∧ 0 ≤ sc.1 ∧ ∃ cs', chain v S sc.2 cs' ∧ cs' !! Z.to_nat sc.1 = cs !! Z.to_nat k)
           (λ sc, sc.1)).
  - cbn. split; [done |]. split; [lia | eauto].
  - unfold LOOP_FUEL. cbn. lia.
  - by intros [n d] T (_ & ? & _).
  - intros [n d] T (-> & Hn & cs' & Hch' & Hl). cbn [fst snd] in *.
    destruct (chain_head _ _ _ _ Hch') as (Hd & r & ->).
    destruct (Z.eqb_spec n 0) as [-> | Hn0]; [apply hoare_ret; by rewrite <- Hl |].
    eapply hoare_bind; [by eapply get_in_chain |]. intros x T [-> ->]. apply hoare_ret.
    pose proof (chain_step v Hv _ _ _ Hch') as Hst. replace (Z.to_nat n) with (Datatypes.S (Z.to_nat (n - 1))) in Hl by lia.
    destruct r as [| e r]; cbn in Hl.
    + rewrite Hst. cbn [orb]. done.
    + destruct Hst as (-> & -> & [He1 He2] & Hr). rewrite (proj2 (Z.ltb_ge e 2)) by done. cbn [orb].
      cbn [fst snd]. split; [| lia]. split; [done |]. split; [lia | eauto].
Qed.

(** *** Directory entries *)

(** A directory is the fixed root area ([None]) or a chain of clusters. *)
Definition is_dir (S : image) (dir : Z) (cs : option (list Z)) : Prop :=
  match cs with
  | None => dir = 0 ∧ type v ≠ FAT_TYPE_32
  | Some cs => (dir ≠ 0 ∨ type v = FAT_TYPE_32) ∧ chain v S (if dir =? 0 then root_cluster v else dir) cs
  end.

Definition per_cluster : Z := sectors_per_cluster (bpb v) * 16.

(** Where entry [i] of a directory is stored. *)
Definition slot (cs : option (list Z)) (i : Z) : option (Z * Z) :=
  match cs with
  | None => if root_entries (bpb v) <=? i then None
            else Some (copy_base v (fat_count (bpb v)) + i / 16, i mod 16 * 32)
  | Some cs => c ← cs !! Z.to_nat (i / per_cluster);
               Some (cluster_first v c + i mod per_cluster / 16, i mod per_cluster mod 16 * 32)
  end.

Definition entry_at (S : image) (cs : option (list Z)) (i : Z) : option dir_entry :=
  '(l, o) ← slot cs i; Some (take 32 (drop (Z.to_nat o) (S l))).

(** The root area is large enough for its entries. *)
Definition root_fits : Prop := root_entries (bpb v) ≤ root_sectors v * 16 ∧ 0 ≤ root_entries (bpb v).

Lemma dir_location_spec S dir cs i :
  is_dir S dir cs → root_fits → 0 ≤ i < MAX_DIR_ENTRIES →
  hoare (B := B) S (dir_location v dir i) (λ r S', S' = S ∧ r = slot cs i).
Proof.
  intros Hd Hroot Hi. pose proof (vk_spc _ Hv) as Hspc. unfold dir_location, slot, DIR_ENTRY_SIZE, MAX_DIR_ENTRIES in *.
  destruct cs as [cs |]; cbn [is_dir] in Hd.
  - destruct Hd as [Hnr Hch].
    replace ((dir =? 0) && negb (bool_decide (type v = FAT_TYPE_32))) with false.
    2: { destruct (Z.eqb_spec dir 0); [| done]. destruct Hnr as [| ->]; [done |]. by rewrite bool_decide_true. }
    eapply hoare_bind; [apply skip_clusters_spec; [exact Hch |] |].
    { split; [apply Z.div_pos; lia |]. assert (i / (sectors_per_cluster (bpb v) * 16) ≤ i); [| lia].
      apply Z.div_le_upper_bound; nia. }
    intros r T [-> ->]. fold per_cluster. destruct (cs !! Z.to_nat (i / per_cluster)) as [c |] eqn:El; cbn [mbind option_bind].
    + apply hoare_ret. split; [done |]. do 2 f_equal.
      assert (is_cluster v c) as Hc by (eapply Forall_lookup_1; [eapply chain_clusters; exact Hch | exact El]).
      destruct (cluster_sector_spec v Hv c (i mod per_cluster / 16) Hc) as [E _]; [| exact E].
      unfold per_cluster. assert (0 ≤ i mod (sectors_per_cluster (bpb v) * 16) < sectors_per_cluster (bpb v) * 16)
        as Hm by (apply Z.mod_pos_bound; lia). generalize dependent (i mod (sectors_per_cluster (bpb v) * 16)).
      intros m Hm. zdm.
    + by apply hoare_ret.
  - destruct Hd as [-> Hnt]. rewrite bool_decide_false by done. cbn [andb negb Z.eqb].
    destruct (Z.leb_spec (root_entries (bpb v)) i); [by apply hoare_ret |]. apply hoare_ret. split; [done |].
    pose proof (vk_first _ Hv). pose proof (vk_res _ Hv). pose proof (vk_cnt _ Hv). pose proof (vk_fsz _ Hv).
    pose proof (first_fat_range v Hv). destruct Hroot as [Hroot _].
    assert (i / 16 < root_sectors v) by zdm. assert (0 ≤ i / 16) by zdm.
    assert (0 ≤ fat_count (bpb v) * fat_size v) by nia.
    unfold copy_base. rewrite (u32_small (fat_count (bpb v) * fat_size v)), (u32_small (reserved_sectors (bpb v) + _)), u32_small by lia.
    done.
Qed.

Lemma dir_read_spec S dir cs i :
  is_dir S dir cs → root_fits → 0 ≤ i < MAX_DIR_ENTRIES →
  hoare (B := B) S (dir_read v dir i) (λ r S', S' = S ∧ r = entry_at S cs i).
Proof.
  intros Hd Hroot Hi. unfold dir_read, entry_at. eapply hoare_bind; [by apply dir_location_spec |].
  intros loc T [-> ->]. destruct (slot cs i) as [[l o] |]; cbn [mbind option_bind]; [| by apply hoare_ret].
  apply hoare_bind_read. by apply hoare_ret.
Qed.

(** The scan of [find_entry] as a function of the entries. *)
Fixpoint find_from (E : Z → option dir_entry) (name : list Z) (n : nat) (i : Z) : option (dir_entry * Z) :=
  match n with
  | O => None
  | Datatypes.S n' =>
      match E i with
      | None => None
      | Some e =>
          if e_name e 0 =? 0 then None
          else if skipped e then find_from E name n' (i + 1)
          else if name_match e name then Some (e, i) else find_from E name n' (i + 1)
      end
  end.
Definition lookup_name (S : image) (cs : option (list Z)) (name : list Z) : option (dir_entry * Z) :=
  find_from (entry_at S cs) name (Z.to_nat MAX_DIR_ENTRIES) 0.

Lemma find_entry_spec S dir cs name :
  is_dir S dir cs → root_fits →
  hoare (B := B) S (find_entry v dir name) (λ r S', S' = S ∧ r = lookup_name S cs name).
Proof.
  intros Hd Hroot. unfold find_entry.
  eapply (hoare_bind _ _ _ (λ r T, T = S ∧ default None r = lookup_name S cs name)).
  2: { intros r T [-> Hr]. by apply hoare_ret. }
  apply (hoare_for (λ i T, T = S ∧ lookup_name S cs name =
      find_from (entry_at S cs) name (Z.to_nat (MAX_DIR_ENTRIES - i)) i)); [done | by rewrite Z.sub_0_r | |].
  - intros i T Hi [-> Hl]. eapply hoare_bind; [by apply dir_read_spec |]. intros o T [-> ->].
    apply hoare_ret. replace (Z.to_nat (MAX_DIR_ENTRIES - i)) with (Datatypes.S (Z.to_nat (MAX_DIR_ENTRIES - (i + 1)))) in Hl by lia.
    cbn [find_from] in Hl. destruct (entry_at S cs i) as [e |]; [| by rewrite Hl].
    destruct (e_name e 0 =? 0); [by rewrite Hl |]. destruct (skipped e); [done |].
    destruct (name_match e name); [by rewrite Hl | done].
  - intros T [-> Hl]. split; [done |]. by rewrite Hl, Z.sub_diag.
Qed.

(** The entry found is a live entry with that name, and no earlier one is. *)
Lemma find_from_sound E name n i e j :
  find_from E name n i = Some (e, j) →
  i ≤ j < i + Z.of_nat n ∧ E j = Some e ∧ name_match e name = true ∧ skipped e = false ∧ e_name e 0 ≠ 0 ∧
  ∀ k, i ≤ k < j → ∃ f, E k = Some f ∧ e_name f 0 ≠ 0 ∧ (skipped f = true ∨ name_match f name = false).
Proof.
  revert i. induction n as [| n IH]; intros i; cbn [find_from]; [done |].
  destruct (E i) as [f |] eqn:Ei; [| done]. destruct (Z.eqb_spec (e_name f 0) 0) as [| Hf]; [done |].
  assert (find_from E name n (i + 1) = Some (e, j) → (skipped f = true ∨ name_match f name = false) →
    i ≤ j < i + Z.of_nat (Datatypes.S n) ∧ E j = Some e ∧ name_match e name = true ∧ skipped e = false ∧ e_name e 0 ≠ 0 ∧
    ∀ k, i ≤ k < j → ∃ f, E k = Some f ∧ e_name f 0 ≠ 0 ∧ (skipped f = true ∨ name_match f name = false)) as Hrec.
  { intros Hr Hs. destruct (IH _ Hr) as (Hj & He & Hm & Hsk & Hn & Hall). split; [lia |]. split_and!; try done.
    intros k Hk. destruct (decide (k = i)) as [-> |]; [by exists f | apply Hall; lia]. }
  destruct (skipped f) eqn:Es; [auto |]. destruct (name_match f name) eqn:Em; [| auto].
  intros [= <- <-]. split; [lia |]. split_and!; try done. intros k Hk. lia.
Qed.

Lemma lookup_name_sound S cs name e j :
  lookup_name S cs name = Some (e, j) →
  0 ≤ j < MAX_DIR_ENTRIES ∧ entry_at S cs j = Some e ∧ name_match e name = true ∧ skipped e = false.
Proof.
  unfold lookup_name. generalize (entry_at S cs). intros E Hl.
  apply find_from_sound in Hl as (Hj & He & Hm & Hs & _). rewrite Z2Nat.id in Hj by (unfold MAX_DIR_ENTRIES; lia).
  split_and!; (done || lia).
Qed.

(** *** Reading the sectors of a cluster *)
Lemma read_cluster_spec S c size done buf :
  is_cluster v c → 0 ≤ done ≤ size → size < 2 ^ 32 →
  hoare (B := B) S (read_cluster v c size done buf) (λ r S', S' = S ∧
    let done' := Z.min size (done + cluster_bytes v) in
    r = Some (done', buf ++ take (Z.to_nat (done' - done)) (cluster_data v S c))).
Proof.
  intros Hc Hd Hsz. apply hoare_image. intros HS. pose proof (vk_spc _ Hv) as Hspc. unfold read_cluster.
  set (part := λ n : Z, take (Z.to_nat (Z.min size (done + n * 512) - done)) (sectors S (cluster_first v c) (Z.to_nat n))).
  apply (hoare_loop (λ x T, T = S ∧ 0 ≤ x.1.1 ≤ sectors_per_cluster (bpb v) ∧
      x.1.2 = Z.min size (done + x.1.1 * 512) ∧ x.2 = buf ++ part x.1.1) (λ x, sectors_per_cluster (bpb v) - x.1.1)).
  - cbn [fst snd]. split; [done |]. split; [lia |]. split; [lia |]. unfold part.
    change (Z.to_nat 0) with 0%nat. cbn [sectors]. by rewrite take_nil, app_nil_r.
  - unfold LOOP_FUEL. cbn. lia.
  - intros [[s d] b] T (_ & ? & _). cbn in *. lia.
  - intros [[s d] b] T (-> & Hs & Hd' & Hb'). cbn [fst snd] in *. subst d b.
    destruct (Z.ltb_spec s (sectors_per_cluster (bpb v))) as [Hs1 |]; cbn [andb negb].
    2: { apply hoare_ret. split; [done |]. assert (s = sectors_per_cluster (bpb v)) as -> by lia. done. }
    destruct (Z.ltb_spec (Z.min size (done + s * 512)) size) as [Hd1 |]; cbn [negb].
    2: { apply hoare_ret. split; [done |]. unfold cluster_bytes, part.
         assert (Z.min size (done + sectors_per_cluster (bpb v) * 512) = size) as -> by nia.
         assert (Z.min size (done + s * 512) = size) as -> by lia. do 3 f_equal.
         unfold cluster_data. replace (Z.to_nat (sectors_per_cluster (bpb v)))
           with (Z.to_nat s + Z.to_nat (sectors_per_cluster (bpb v) - s))%nat by lia.
         rewrite sectors_app, take_app_le; [done |].
         pose proof (zlen_sectors S (cluster_first v c) (Z.to_nat s) HS) as Hl. unfold zlen in Hl. lia. }
    destruct (cluster_sector_spec v Hv c s Hc ltac:(lia)) as [-> _]. fold (cluster_first v c).
    apply hoare_bind_read. apply hoare_ret. cbn [fst snd]. split; [| lia].
    assert (Z.min size (done + s * 512) = done + s * 512) as E by lia. rewrite E.
    split; [done |]. split; [lia |]. split; [unfold SECTOR_SIZE; lia |].
    rewrite <- app_assoc. f_equal. unfold part. rewrite E.
    replace (Z.to_nat (s + 1)) with (Z.to_nat s + 1)%nat by lia. rewrite sectors_snoc, Z2Nat.id by lia.
    pose proof (zlen_sectors S (cluster_first v c) (Z.to_nat s) HS) as Hl. unfold zlen in Hl.
    rewrite (take_ge (sectors _ _ _)) by lia. rewrite take_app_ge by lia. f_equal.
    f_equal. unfold SECTOR_SIZE. lia.
Qed.

Lemma checked_next_spec S c d r :
  chain v S c (c :: d :: r) →
  hoare (B := B) S (checked_next v c) (λ x S', S' = S ∧ x = Some (d, false)).
Proof.
  intros Hch. destruct (chain_head _ _ _ _ Hch) as [Hc _]. destruct (chain_step v Hv _ _ _ Hch) as (He & Heoc & Hd & _).
  unfold checked_next. rewrite (proj2 (valid_data_cluster_spec v c Hv) Hc). cbn [negb].
  eapply hoare_bind; [by eapply get_in_chain |]. intros x T [-> ->]. apply hoare_ret.
  by rewrite He, Heoc, (proj2 (valid_data_cluster_spec v d Hv) Hd).
Qed.

Lemma chain_data_app S pre c r : chain_data v S (pre ++ c :: r) = chain_data v S pre ++ cluster_data v S c ++ chain_data v S r.
Proof. unfold chain_data. by rewrite bind_app, bind_cons. Qed.

(** Reading one more cluster extends the prefix of the file read so far. *)
Lemma prefix_extends S pre c r size :
  image_ok S → let done := zlen pre * cluster_bytes v in let done' := Z.min size (done + cluster_bytes v) in
  done ≤ size →
  take (Z.to_nat done) (chain_data v S (pre ++ c :: r)) ++ take (Z.to_nat (done' - done)) (cluster_data v S c) =
  take (Z.to_nat done') (chain_data v S (pre ++ c :: r)).
Proof.
  intros HS done done' Hle. pose proof (vk_spc _ Hv). rewrite chain_data_app.
  pose proof (zlen_chain_data v Hv S pre HS) as Hp. pose proof (zlen_cluster_data v Hv S c HS) as Hc.
  fold done in Hp. unfold zlen in Hp, Hc. assert (0 < cluster_bytes v) by (unfold cluster_bytes; lia).
  rewrite take_app_le, take_ge by lia. rewrite take_app_ge by lia. f_equal.
  rewrite take_app_le by lia. f_equal. lia.
Qed.

(** The position of the reader in the chain. *)
Definition reading (S : image) (cs : list Z) (size : Z) (k : cursor) : Prop :=
  0 ≤ cur_done k ≤ size ∧ cur_buf k = take (Z.to_nat (cur_done k)) (chain_data v S cs) ∧
  (cur_done k < size → ∃ pre suf, cs = pre ++ suf ∧ chain v S (cur_c k) suf ∧
     cur_done k = zlen pre * cluster_bytes v ∧ anchor k ∈ pre ++ [cur_c k]).

Lemma read_step_spec S cs size k :
  NoDup cs → size ≤ zlen cs * cluster_bytes v → size < 2 ^ 32 → reading S cs size k →
  hoare (B := B) S (read_step v size k) (λ r S', S' = S ∧
    match r with
    | inl k' => reading S cs size k' ∧ cur_done k < cur_done k'
    | inr x => x = ReadResult 0 (Some size) (take (Z.to_nat size) (chain_data v S cs))
    end).
Proof.
  intros Hnd Hlen Hsz (Hd & Hbuf & Hpos). apply hoare_image. intros HS. unfold read_step.
  destruct (Z.ltb_spec (cur_done k) size) as [Hlt | Hge]; cbn [negb].
  2: { assert (cur_done k = size) as E by lia. apply hoare_ret. by rewrite Hbuf, E, Z.eqb_refl. }
  destruct (Hpos Hlt) as (pre & suf & -> & Hch & Hdone & Hanc).
  destruct (chain_head _ _ _ _ Hch) as (Hc & r & ->). set (c := cur_c k) in *.
  rewrite (proj2 (valid_data_cluster_spec v c Hv) Hc). cbn [negb]. pose proof (vk_spc _ Hv).
  assert (0 < cluster_bytes v) as Hcb by (unfold cluster_bytes; lia).
  eapply hoare_bind; [by apply read_cluster_spec |]. intros x T [-> ->]. cbn zeta.
  rewrite Hbuf, Hdone, prefix_extends by (done || lia). rewrite <- Hdone.
  set (done' := Z.min size (cur_done k + cluster_bytes v)).
  destruct (Z.ltb_spec done' size) as [Hlt' | Hge']; cbn [negb].
  2: { apply hoare_ret. split; [done |]. unfold reading. cbn [cur_done cur_buf]. split; [| lia].
       split; [lia |]. split; [done |]. lia. }
  assert (done' = (zlen pre + 1) * cluster_bytes v) as Hd' by lia.
  destruct r as [| d r].
  { rewrite zlen_app, zlen_cons in Hlen. change (zlen (A := Z) []) with 0 in Hlen. lia. }
  destruct (chain_step v Hv _ _ _ Hch) as (_ & _ & _ & Hchd).
  eapply hoare_bind; [by eapply checked_next_spec |]. intros x T [-> ->]. apply hoare_ret.
  destruct (Z.eqb_spec d (anchor k)) as [E | Hne].
  { exfalso. replace (pre ++ c :: d :: r) with ((pre ++ [c]) ++ d :: r) in Hnd by (by rewrite <- app_assoc).
    apply NoDup_app in Hnd as (_ & Hx & _). apply (Hx (anchor k) Hanc). rewrite E. apply list_elem_of_here. }
  assert (∀ a p n, a ∈ (pre ++ [c]) ++ [d] →
    reading S (pre ++ c :: d :: r) size (Cursor d a p n done' (take (Z.to_nat done') (chain_data v S (pre ++ c :: d :: r)))) ∧
    cur_done k < done') as Hnext.
  { intros a p n Ha. split; [| lia]. unfold reading. cbn [cur_done cur_buf cur_c anchor]. split; [lia |]. split; [done |].
    intros _. exists (pre ++ [c]), (d :: r). split; [by rewrite <- app_assoc |]. split; [done |]. split; [| done].
    rewrite zlen_app. exact Hd'. }
  split; [done |]. destruct (_ =? power k); apply Hnext; apply elem_of_app; [right; lmem | by left].
Qed.

(** The data of a file whose chain is long enough and has no cycle. *)
Lemma read_file_spec S c cs size :
  NoDup cs → 0 ≤ size ≤ zlen cs * cluster_bytes v → size < 2 ^ 32 → (0 < size → chain v S c cs) →
  hoare (B := B) S (fm_loop (read_step v size) (Cursor c c 1 0 0 [])) (λ r S', S' = S ∧
    r = ReadResult 0 (Some size) (take (Z.to_nat size) (chain_data v S cs))).
Proof.
  intros Hnd Hlen Hsz Hch.
  apply (hoare_loop (λ k T, T = S ∧ reading S cs size k) (λ k, size - cur_done k)).
  - split; [done |]. unfold reading. cbn [cur_done cur_buf cur_c anchor]. split; [lia |]. split; [done |].
    intros Hp. exists [], cs. split; [done |]. split; [auto |]. split; [done |]. apply list_elem_of_here.
  - unfold LOOP_FUEL. cbn. lia.
  - intros k T (_ & Hr). destruct Hr as (? & _). lia.
  - intros k T [-> Hr]. eapply hoare_mono; [apply read_step_spec; [done | lia | done | exact Hr] |].
    intros [k' | x] T [-> Hx]; [| done]. destruct Hx as [Hr' Hlt]. split; [done | lia].
Qed.

(** *** Writing a directory entry *)
Lemma slot_bounds cs i l o :
  slot cs i = Some (l, o) → 0 ≤ i → root_fits → (∀ c, c ∈ default [] cs → is_cluster v c) →
  (o mod 32 = 0 ∧ 0 ≤ o ∧ o + 32 ≤ 512) ∧ reserved_sectors (bpb v) ≤ l ∧ ¬ in_fat v l ∧
  match cs with None => l < first_data v | Some _ => first_data v ≤ l end.
Proof.
  intros Hs Hi [Hroot _] Hcl. pose proof (vk_spc _ Hv) as Hspc. pose proof (vk_first _ Hv). pose proof (vk_cnt _ Hv).
  pose proof (vk_fsz _ Hv). destruct cs as [cs |]; cbn [slot] in Hs.
  - destruct (cs !! Z.to_nat (i / per_cluster)) as [c |] eqn:El; cbn [mbind option_bind] in Hs; [| done].
    injection Hs as <- <-. assert (is_cluster v c) as Hc by (apply Hcl; by eapply list_elem_of_lookup_2).
    unfold per_cluster. assert (0 ≤ i mod (sectors_per_cluster (bpb v) * 16) < sectors_per_cluster (bpb v) * 16) as Hm
      by (apply Z.mod_pos_bound; lia).
    generalize dependent (i mod (sectors_per_cluster (bpb v) * 16)). intros m Hm. split; [zdm |].
    assert (in_cluster v c (cluster_first v c + m / 16)) as Hin.
    { unfold in_cluster, cluster_first. zdm. }
    destruct (in_cluster_not_fat v Hv c _ Hc Hin). split; [done |]. split; [done |]. unfold cluster_first in *.
    destruct Hc. assert (0 ≤ m / 16) by zdm. nia.
  - destruct (Z.leb_spec (root_entries (bpb v)) i); [done |]. injection Hs as <- <-. split; [zdm |].
    unfold in_fat, copy_base in *. assert (0 ≤ i / 16 < root_sectors v) by zdm. pose proof (vk_res _ Hv).
    split; [nia |]. split; [lia |]. nia.
Qed.

(** Two entries of a directory never share a slot. *)
Lemma slot_inj cs i j x :
  slot cs i = Some x → slot cs j = Some x → 0 ≤ i → 0 ≤ j → NoDup (default [] cs) → i = j.
Proof.
  intros Hi Hj Hi0 Hj0 Hnd. pose proof (vk_spc _ Hv) as Hspc. destruct cs as [cs |]; cbn [slot] in Hi, Hj.
  - destruct (cs !! Z.to_nat (i / per_cluster)) as [c |] eqn:Ei; cbn [mbind option_bind] in Hi; [| done].
    destruct (cs !! Z.to_nat (j / per_cluster)) as [d |] eqn:Ej; cbn [mbind option_bind] in Hj; [| done].
    rewrite <- Hi in Hj. injection Hj as E1 E2. unfold per_cluster in *.
    pose proof (Z.mod_pos_bound i (sectors_per_cluster (bpb v) * 16) ltac:(lia)) as Bi.
    pose proof (Z.mod_pos_bound j (sectors_per_cluster (bpb v) * 16) ltac:(lia)) as Bj.
    assert (c = d) as ->.
    { apply (in_cluster_inj v Hv c d (cluster_first v c + i mod (sectors_per_cluster (bpb v) * 16) / 16)).
      - unfold in_cluster, cluster_first. generalize dependent (i mod (sectors_per_cluster (bpb v) * 16)). intros. zdm.
      - rewrite <- E1. unfold in_cluster, cluster_first. generalize dependent (j mod (sectors_per_cluster (bpb v) * 16)). intros. zdm. }
    assert (Z.to_nat (i / (sectors_per_cluster (bpb v) * 16)) = Z.to_nat (j / (sectors_per_cluster (bpb v) * 16))) as Eq.
    { cbn in Hnd. by eapply NoDup_lookup. }
    assert (i mod (sectors_per_cluster (bpb v) * 16) = j mod (sectors_per_cluster (bpb v) * 16)) as Em.
    { generalize dependent (i mod (sectors_per_cluster (bpb v) * 16)). generalize dependent (j mod (sectors_per_cluster (bpb v) * 16)). intros. zdm. }
    assert (0 ≤ i / (sectors_per_cluster (bpb v) * 16)) by (apply Z.div_pos; lia).
    assert (0 ≤ j / (sectors_per_cluster (bpb v) * 16)) by (apply Z.div_pos; lia).
    rewrite (Z.div_mod i (sectors_per_cluster (bpb v) * 16)), (Z.div_mod j (sectors_per_cluster (bpb v) * 16)) by lia. nia.
  - destruct (root_entries (bpb v) <=? i), (root_entries (bpb v) <=? j); try done.
    rewrite <- Hi in Hj. injection Hj as E1 E2. zdm.
Qed.

Lemma ablit_read sec o e : length e = 32%nat → 0 ≤ o → o + 32 ≤ zlen sec →
  take 32 (drop (Z.to_nat o) (ablit sec o e)) = e.
Proof.
  intros He Ho Hl. apply array_ext; [rewrite zlen_take, zlen_drop, zlen_ablit; unfold zlen in *; lia |].
  intros i Hi. rewrite zlen_take, zlen_drop, zlen_ablit in Hi.
  rewrite aget_take, aget_drop, aget_ablit_in by (unfold zlen in *; lia). f_equal. lia.
Qed.

Lemma ablit_read_other sec o e p : length e = 32%nat → 0 ≤ o → 0 ≤ p → p + 32 ≤ o ∨ o + 32 ≤ p →
  take 32 (drop (Z.to_nat p) (ablit sec o e)) = take 32 (drop (Z.to_nat p) sec).
Proof.
  intros He Ho Hp Hd. apply array_ext; rewrite !zlen_take, !zlen_drop, zlen_ablit; [done |].
  intros i Hi. rewrite !aget_take, !aget_drop, aget_ablit_out by (unfold zlen in *; lia). done.
Qed.

Lemma dir_write_spec S dir cs i e :
  is_dir S dir cs → root_fits → NoDup (default [] cs) → 0 ≤ i < MAX_DIR_ENTRIES →
  is_Some (slot cs i) → length e = 32%nat → Forall is_byte e →
  hoare (B := B) S (dir_write v dir i e) (λ rc S', rc = 0 ∧
    (∀ l, in_fat v l → S' l = S l) ∧
    (∀ l, (∀ o, slot cs i ≠ Some (l, o)) → S' l = S l) ∧
    ∀ j, 0 ≤ j → entry_at S' cs j = if j =? i then Some e else entry_at S cs j).
Proof.
  intros Hd Hroot Hnd Hi [[l o] Hs] Hle Hbe. apply hoare_image. intros HS.
  assert (∀ c, c ∈ default [] cs → is_cluster v c) as Hcl.
  { destruct cs as [cs |]; cbn; [| intros c Hc; by apply elem_of_nil in Hc].
    destruct Hd as [_ Hch]. intros c Hc. pose proof (chain_clusters _ _ _ _ Hch) as HF. rewrite Forall_forall in HF. auto. }
  destruct (slot_bounds cs i l o Hs ltac:(lia) Hroot Hcl) as ((Ho1 & Ho2 & Ho3) & Hl1 & Hl2 & _).
  unfold dir_write. eapply hoare_bind; [by apply dir_location_spec |]. intros loc T [-> ->]. rewrite Hs.
  apply hoare_bind_read. destruct (HS l) as [Hlen Hby].
  apply hoare_write; [by apply sector_patch_ok |]. split; [done |]. split; [| split].
  - intros k Hk. apply upd_other. by intros ->.
  - intros k Hk. apply upd_other. intros ->. by apply (Hk o).
  - intros j Hj. unfold entry_at. destruct (Z.eqb_spec j i) as [-> | Hne].
    + rewrite Hs. cbn [mbind option_bind]. rewrite upd_same, ablit_read by (done || unfold zlen; lia). done.
    + destruct (slot cs j) as [[l' o'] |] eqn:Ej; cbn [mbind option_bind]; [| done]. f_equal.
      destruct (slot_bounds cs j l' o' Ej Hj Hroot Hcl) as ((Hp1 & Hp2 & Hp3) & _).
      destruct (decide (l' = l)) as [-> | Hnl]; [| by rewrite upd_other].
      rewrite upd_same. apply ablit_read_other; [done | done | done |].
      assert (o ≠ o') by (intros ->; apply Hne; eapply slot_inj; [exact Ej | exact Hs | lia | lia | done]). zdm.
Qed.

(** *** Releasing a chain *)
Lemma chain_frame S S' c cs :
  chain v S c cs → (∀ d, d ∈ cs → fat_entry v S' d = fat_entry v S d) → chain v S' c cs.
Proof.
  induction 1 as [c Hc He | c cs Hc Hch IH]; intros Hsame.
  - apply chain_last; [done |]. by rewrite Hsame by lmem.
  - apply chain_next; [done |]. rewrite Hsame by lmem. apply IH. intros d Hd. apply Hsame. by apply list_elem_of_further.
Qed.

(** The table after the clusters [cs] have been released. *)
Definition released (S S' : image) (cs : list Z) : Prop :=
  (∀ k d, 0 ≤ k < fat_count (bpb v) → is_cluster v d →
     copy_entry v S' k d = if bool_decide (d ∈ cs) then 0 else copy_entry v S k d) ∧
  ∀ l, reserved_sectors (bpb v) ≤ l → ¬ in_fat v l → S' l = S l.

Lemma released_nil S : released S S [].
Proof. split; [| done]. intros k d Hk Hd. by rewrite bool_decide_false by apply not_elem_of_nil. Qed.

(** Releasing one cluster: the body of the loop up to the test. *)
Lemma release_one_spec S T pre c :
  is_cluster v c → released S T pre →
  hoare (B := B) T (_ ← fat_set v c 0; fsinfo_adjust v 1 c) (λ _ T', released S T' (pre ++ [c])).
Proof.
  intros Hc [He Ho]. eapply hoare_bind; [by apply fat_set_spec |]. intros rc T1 (_ & H1o & H1e).
  eapply hoare_mono; [apply fsinfo_adjust_spec |]. intros [] T2 H2. cbn beta in H2. split.
  - intros k d Hk Hd. rewrite (copy_entry_ext v Hv T1 T2) by (done || intros l [? _]; auto).
    rewrite H1e, Z.mod_0_l, He by (done || unfold entry_mod; destruct (type v); lia).
    destruct (Z.eqb_spec d c) as [-> | Hne].
    + by rewrite bool_decide_true by (apply elem_of_app; right; lmem).
    + destruct (decide (d ∈ pre)); [rewrite !bool_decide_true | rewrite !bool_decide_false]; try done.
      * by apply elem_of_app; left.
      * intros [|Hx%list_elem_of_singleton]%elem_of_app; done.
  - intros l Hl Hn. rewrite H2, H1o by done. by apply Ho.
Qed.

Lemma free_chain_spec S c cs :
  chain v S c cs → NoDup cs → zlen cs < 2 ^ 32 →
  hoare (B := B) S (free_chain v c) (λ _ S', released S S' cs).
Proof.
  intros Hch Hnd Hlen. pose proof (vk_cc _ Hv) as Hcc. pose proof (vk_cnt _ Hv) as Hcnt. unfold free_chain.
  rewrite (u32_small (cluster_count v + 2)) by lia.
  apply (hoare_loop_bound (λ n c T, ∃ pre suf, cs = pre ++ suf ∧ n = zlen suf ∧ chain v T c suf ∧ released S T pre) _ _ (zlen cs)).
  - exists [], cs. split_and!; (done || apply released_nil).
  - unfold LOOP_FUEL. lia.
  - intros n d T (pre & suf & -> & -> & Hd & Hrel). split; [apply zlen_nonneg |].
    destruct (chain_head _ _ _ _ Hd) as (Hcl & r & ->). pose proof Hcl as [Hd1 Hd2].
    rewrite (proj2 (Z.leb_le 2 d)), (proj2 (Z.ltb_lt d _)) by done. cbn [andb negb].
    eapply hoare_bind; [by eapply get_in_chain |]. intros x T0 [-> ->].
    pose proof (chain_step v Hv _ _ _ Hd) as Hst. set (next := fat_entry v T d) in *.
    assert (hoare (B := B) T (_ ← fat_set v d 0; _ ← fsinfo_adjust v 1 d;
      mret (if is_eoc v next || (next <? 2) then inr tt else inl next))
      (λ x T', released S T' (pre ++ [d]) ∧ x = if is_eoc v next || (next <? 2) then inr tt else inl next)) as Hbody.
    { pose proof (release_one_spec S T pre d Hcl Hrel) as K. intros b Hb. destruct (K b Hb) as (u & T' & b' & E & Hb' & HQ).
      exists (if is_eoc v next || (next <? 2) then inr tt else inl next), T', b'.
      split; [| split; [done | split; [done | done]]]. unfold mbind, fm_bind in E |- *.
      destruct (fat_set v d 0 b) as [[]]; try done. by rewrite E. }
    eapply hoare_mono; [exact Hbody |]. intros x T' [Hrel' ->]. destruct r as [| e r].
    + rewrite Hst. cbn [orb]. exact Hrel'.
    + destruct Hst as (Hn & Heoc & [He1 He2] & Hr). rewrite Hn, Heoc, (proj2 (Z.ltb_ge e 2)) by done. cbn [orb].
      exists (zlen (e :: r)). split; [rewrite !zlen_cons; pose proof (zlen_nonneg r); lia |].
      exists (pre ++ [d]), (e :: r). split; [by rewrite <- app_assoc |]. split; [done |]. split; [| done].
      apply (chain_frame T); [done |]. intros f Hf. rewrite !fat_entry_copy0.
      assert (is_cluster v f) as Hfc.
      { pose proof (chain_clusters _ _ _ _ Hr) as HF. rewrite Forall_forall in HF. auto. }
      destruct Hrel as [He _], Hrel' as [He' _]. rewrite He, He' by (done || lia).
      replace (pre ++ d :: e :: r) with ((pre ++ [d]) ++ e :: r) in Hnd by (by rewrite <- app_assoc).
      apply NoDup_app in Hnd as (_ & Hx & _).
      rewrite !bool_decide_false; [done | |]; intros Hin; apply (Hx f); (done || by apply elem_of_app; left).
Qed.
End Files.

(** ** Entry points *)
Section EntryPoints.
Context {B : Type} `{Reliable B}.

(** A mounted driver whose device holds the image and whose current directory
    has the clusters [cs] ([None] for the fixed root area). *)
Record mounted (st : fat_state B) (S : image) (cs : option (list Z)) : Prop := Mounted {
  mt_vol : vol_ok (vol st);
  mt_safe : safe_fat (vol st);
  mt_root : root_fits (vol st);
  mt_dev : holds (dev st) S;
  mt_dir : is_dir (vol st) S (current_cluster st) cs;
  mt_nodup : NoDup (default [] cs)
}.

Lemma on_dev_hoare {A} (st : fat_state B) S (c : fm B A) Q :
  holds (dev st) S → hoare S c Q →
  ∃ a S' b, on_dev st c = (Val a, set_dev st b) ∧ holds b S' ∧ Q a S'.
Proof. intros Hd Hc. destruct (Hc _ Hd) as (a & S' & b & E & ? & ?). exists a, S', b. unfold on_dev. by rewrite E. Qed.

Lemma available_of_ok (st : fat_state B) : vol_ok (vol st) → fat_available st = true.
Proof.
  intros Hv. unfold fat_available. rewrite (vk_type _ Hv), bool_decide_false; [done |]. by repeat case_match.
Qed.

Lemma entry_at_bytes v S cs i e : image_ok S → entry_at v S cs i = Some e → Forall is_byte e.
Proof.
  intros HS. unfold entry_at. destruct (slot v cs i) as [[l o] |]; cbn [mbind option_bind]; [| done].
  intros [= <-]. destruct (HS l) as [_ Hb]. by apply Forall_take, Forall_drop.
Qed.

Lemma e_size_range e : Forall is_byte e → 0 ≤ e_size e < 2 ^ 32.
Proof.
  intros He. apply (le_read_range 4). intros x Hx. destruct (decide (0 ≤ x < zlen e)).
  - by apply (Forall_aget is_byte).
  - rewrite aget_oob by done. split; [done |]. cbn. lia.
Qed.
End EntryPoints.

Lemma dir_clusters v S dir cs c : is_dir v S dir cs → c ∈ default [] cs → is_cluster v c.
Proof.
  destruct cs as [cs |]; cbn; [| intros _ Hc; by apply elem_of_nil in Hc].
  intros [_ Hch] Hc. pose proof (chain_clusters _ _ _ _ Hch) as HF. rewrite Forall_forall in HF. auto.
Qed.

(** Entries of a directory depend only on its own sectors. *)
Lemma entry_at_ext v S T dir cs j :
  vol_ok v → root_fits v → is_dir v S dir cs → 0 ≤ j →
  (∀ l, reserved_sectors (bpb v) ≤ l → ¬ in_fat v l → T l = S l) → entry_at v T cs j = entry_at v S cs j.
Proof.
  intros Hv Hr Hd Hj Hl. unfold entry_at. destruct (slot v cs j) as [[l o] |] eqn:Es; cbn [mbind option_bind]; [| done].
  destruct (slot_bounds v Hv cs j l o Es Hj Hr) as (_ & H1 & H2 & _); [intros c; by eapply dir_clusters |].
  by rewrite Hl.
Qed.

Lemma entry_at_length v S dir cs i e :
  vol_ok v → root_fits v → image_ok S → is_dir v S dir cs → 0 ≤ i → entry_at v S cs i = Some e → length e = 32%nat.
Proof.
  intros Hv Hr HS Hd Hi. unfold entry_at. destruct (slot v cs i) as [[l o] |] eqn:Es; cbn [mbind option_bind]; [| done].
  intros [= <-]. destruct (slot_bounds v Hv cs i l o Es Hi Hr) as ((_ & ? & ?) & _); [intros c; by eapply dir_clusters |].
  rewrite length_take, length_drop. destruct (HS l) as [-> _]. lia.
Qed.

(** ** Properties *)

Lemma fat_read_spec {B} `{Reliable B} (st : fat_state B) S cs name max e i fs :
  mounted st S cs → lookup_name (vol st) S cs name = Some (e, i) →
  Z.land (e_attr e) ATTR_DIRECTORY = 0 → e_size e ≤ max →
  NoDup fs → e_size e ≤ zlen fs * cluster_bytes (vol st) →
  (0 < e_size e → chain (vol st) S (entry_cluster (vol st) e) fs) →
  ∃ b, fat_read name max st =
         (Val (ReadResult 0 (Some (e_size e)) (take (Z.to_nat (e_size e)) (chain_data (vol st) S fs))), set_dev st b) ∧
       holds b S.
Proof.
  intros [Hv Hs Hr Hd Hdir _] Hl Hattr Hmax Hnd Hlen Hch. unfold fat_read. rewrite available_of_ok by done. cbn [negb].
  assert (0 ≤ e_size e < 2 ^ 32) as Hsz.
  { apply e_size_range. apply lookup_name_sound in Hl as (_ & He & _).
    eapply entry_at_bytes; [by eapply holds_image_ok | exact He]. }
  match goal with |- context [on_dev st ?c] => set (k := c) end.
  destruct (on_dev_hoare st S k (λ r S', S' = S ∧ r = ReadResult 0 (Some (e_size e))
    (take (Z.to_nat (e_size e)) (chain_data (vol st) S fs))) Hd) as (a & S' & b & E & Hb & -> & ->).
  - subst k. cbn zeta. eapply hoare_bind; [by apply find_entry_spec |]. intros f T [-> ->]. rewrite Hl, Hattr. cbn [Z.eqb negb].
    rewrite (proj2 (Z.ltb_ge max (e_size e))) by done. apply read_file_spec; (done || lia).
  - exists b. by rewrite E.
Qed.

(** C9: reading a file that is in the current directory, is no directory, fits
    the buffer and whose cluster chain is acyclic and long enough terminates
    with 0, reports the size of the entry, and delivers exactly the first
    [size] bytes of the chain's clusters in order; the disk is unchanged. *)
Theorem fat_read_correct {B} `{Reliable B} (st : fat_state B) S cs name max e i fs :
  mounted st S cs → lookup_name (vol st) S cs name = Some (e, i) →
  Z.land (e_attr e) ATTR_DIRECTORY = 0 → e_size e ≤ max →
  NoDup fs → e_size e ≤ zlen fs * cluster_bytes (vol st) →
  (0 < e_size e → chain (vol st) S (entry_cluster (vol st) e) fs) →
  ∃ b, fat_read name max st =
         (Val (ReadResult 0 (Some (e_size e)) (take (Z.to_nat (e_size e)) (chain_data (vol st) S fs))), set_dev st b) ∧
       holds b S.
Proof. apply fat_read_spec. Qed.

(** the error paths of [fat_read]: an absent name and a directory give -1
    and leave [*size] alone; a file larger than the buffer gives -1 with
    [*size] set to the file's size; nothing is stored in the buffer and the
    disk is unchanged. *)
Theorem fat_read_errors {B} `{Reliable B} (st : fat_state B) S cs name max :
  mounted st S cs →
  match lookup_name (vol st) S cs name with
  | None => True
  | Some (e, _) => Z.land (e_attr e) ATTR_DIRECTORY ≠ 0 ∨ max < e_size e
  end →
  ∃ b sz, fat_read name max st = (Val (ReadResult (-1) sz []), set_dev st b) ∧ holds b S ∧
          sz = match lookup_name (vol st) S cs name with
               | None => None
               | Some (e, _) => if Z.land (e_attr e) ATTR_DIRECTORY =? 0 then Some (e_size e) else None
               end.
Proof.
  intros [Hv Hs Hr Hd Hdir _] Hbad. unfold fat_read. rewrite available_of_ok by done. cbn [negb].
  set (sz := match lookup_name (vol st) S cs name with None => None | Some _ => _ end).
  match goal with |- context [on_dev st ?c] => set (k := c) end.
  destruct (on_dev_hoare st S k (λ r S', S' = S ∧ r = ReadResult (-1) sz []) Hd) as (a & S' & b & E & Hb & -> & ->).
  2: { exists b, sz. by rewrite E. }
  - subst k. cbn zeta. eapply hoare_bind; [by apply find_entry_spec |]. intros f T [-> ->]. subst sz.
    destruct (lookup_name (vol st) S cs name) as [[e i] |]; [| by apply hoare_ret].
    destruct (Z.eqb_spec (Z.land (e_attr e) ATTR_DIRECTORY) 0) as [Hz |]; cbn [negb]; [| by apply hoare_ret].
    destruct Hbad as [| Hmax]; [done |]. rewrite (proj2 (Z.ltb_lt max (e_size e))) by done. by apply hoare_ret.
Qed.

(** The image after a file with entry [e] at index [i] and clusters [fs] is
    deleted from the directory [cs]. *)
Definition deleted (v : volume) (S S' : image) (cs : option (list Z)) (e : dir_entry) (i : Z) (fs : list Z) : Prop :=
  (∀ k d, 0 ≤ k < fat_count (bpb v) → is_cluster v d →
     copy_entry v S' k d = if bool_decide (d ∈ fs) then 0 else copy_entry v S k d) ∧
  ∀ j, 0 ≤ j → entry_at v S' cs j = if j =? i then Some (e.[0 <- 0xE5]) else entry_at v S cs j.

(** C24: deleting a file returns 0, frees every cluster of its chain in every
    copy of the table, keeps all other table entries, and replaces only its
    directory entry (by one marked deleted): all other entries stay. *)
Theorem fat_delete_correct {B} `{Reliable B} (st : fat_state B) S cs name e i fs :
  mounted st S cs → lookup_name (vol st) S cs name = Some (e, i) →
  Z.land (e_attr e) ATTR_DIRECTORY = 0 → chain (vol st) S (entry_cluster (vol st) e) fs → NoDup fs → zlen fs < 2 ^ 32 →
  (∀ c, c ∈ fs → c ∉ default [] cs) →
  ∃ b S', fat_delete name st = (Val 0, set_dev st b) ∧ holds b S' ∧
    deleted (vol st) S S' cs e i fs.
Proof.
  intros [Hv Hs Hr Hd Hdir Hnd] Hl Hattr Hch Hfs Hlen Hdisj. unfold fat_delete.
  pose proof (holds_image_ok _ _ Hd) as HS. pose proof (vk_cnt _ Hv).
  pose proof (lookup_name_sound _ _ _ _ _ _ Hl) as (Hir & He & _).
  assert (is_Some (slot (vol st) cs i)) as Hslot.
  { unfold entry_at in He. destruct (slot (vol st) cs i); [eauto | done]. }
  assert (length e = 32%nat) as Hlen32 by (eapply entry_at_length; [done | done | done | exact Hdir | apply Hir | exact He]).
  assert (Forall is_byte e) as Hbytes by (by eapply entry_at_bytes).
  match goal with |- context [on_dev st ?c] => set (k := c) end.
  destruct (on_dev_hoare st S k (λ rc S', rc = 0 ∧ deleted (vol st) S S' cs e i fs) Hd) as (a & S' & b & E & Hb & -> & HQ).
  2: { exists b, S'. rewrite E. split; [done |]. split; [done |]. exact HQ. }
  subst k. cbn zeta. eapply hoare_bind; [by apply find_entry_spec |]. intros f T [-> ->]. rewrite Hl, Hattr. cbn [Z.eqb negb].
  eapply hoare_bind; [by apply free_chain_spec |]. intros [] T [Hent Hsec].
  assert (is_dir (vol st) T (current_cluster st) cs) as Hdir'.
  { destruct cs as [cs |]; [| done]. destruct Hdir as [Hk Hc]. split; [done |]. apply (chain_frame _ S); [done |].
    intros d Hdc. rewrite !fat_entry_copy0. rewrite Hent; [| lia |].
    - rewrite bool_decide_false; [done |]. intros Hin. by apply (Hdisj d Hin).
    - by eapply (dir_clusters _ _ _ (Some cs)). }
  assert (∀ j, 0 ≤ j → entry_at (vol st) T cs j = entry_at (vol st) S cs j) as Hsame.
  { intros j Hj. by eapply entry_at_ext. }
  eapply hoare_mono; [apply (dir_write_spec _ Hv Hs T _ cs i (e.[0 <- 0xE5])); (done || idtac) |].
  - by rewrite length_aset.
  - apply Forall_aset; [done | split; lia].
  - intros rc S' (-> & Hfat & _ & Hw). split; [done |]. split.
    + intros k d Hk Hdc. rewrite <- Hent by done. apply copy_entry_ext; auto.
    + intros j Hj. rewrite Hw, Hsame by done. done.
Qed.
End FatFile.
