(* ===== verification/FatMount.v ===== *)
(** * Mounting a FAT volume, and the demonstration volume

    What [mount_drive] guarantees about the variables it fills, and a small
    FAT12 disk on which the witnesses of the FAT properties run. *)
From S2P Require Import Prelude.
From S2P Require Import BlockDev.
From S2P Require Import Fat.
From S2P Require Import FatLogic.
From S2P Require Import FatTable.
From S2P Require Import FatFile.

Module FatMount.
Import Fat FatLogic FatTable FatFile.

(** ** A demonstration disk: 14 sectors, two FAT copies, one file *)
Definition demo_boot : list Z :=
  [0xEB; 0x3C; 0x90; 65; 79; 79; 83; 32; 32; 32; 32; 0; 2; 1; 1; 0; 2; 16; 0; 14; 0; 0xF8; 1; 0;
   0; 0; 0; 0; 0; 0; 0; 0; 0; 0; 0; 0] ++ replicate 474 0 ++ [0x55; 0xAA].
Definition demo_fat : list Z := [0xF8; 0xFF; 0xFF; 3; 0xF0; 0xFF] ++ replicate 506 0.
(** HELLO.TXT: 600 bytes in clusters 2 and 3. *)
Definition demo_name : list Z := [104; 101; 108; 108; 111; 46; 116; 120; 116].
Definition demo_entry : dir_entry :=
  [72; 69; 76; 76; 79; 32; 32; 32; 84; 88; 84; 0x20; 0; 0; 0; 0; 0; 0; 0; 0; 0; 0; 0; 0; 0; 0; 2; 0; 88; 2; 0; 0].
Definition demo_root : list Z := demo_entry ++ replicate 480 0.

Definition demo_image : image := λ l,
  if l =? 0 then demo_boot else if (l =? 1) || (l =? 2) then demo_fat else if l =? 3 then demo_root
  else if l =? 4 then replicate 512 65 else if l =? 5 then replicate 512 66 else replicate 512 0.
Definition demo_disk : mem_disk := MemDisk (λ _, demo_image) 0.
Definition demo_vol : volume := volume_of demo_boot 0.
Definition blank_volume : volume := Volume (replicate 36 0) FAT_TYPE_NONE 0 0 0 0 0 0 0 0 0.
Definition demo_fs : fat_state mem_disk := FatState demo_vol demo_disk 0 [47] [].

Lemma demo_image_ok : image_ok demo_image.
Proof.
  intros l. unfold demo_image. repeat case_match; apply (bool_decide_unpack _); vm_compute; exact I.
Qed.
Lemma demo_holds : holds demo_disk demo_image.
Proof. split; [exact I |]. intros l. apply norm_sector_id, demo_image_ok. Qed.

Lemma demo_vol_ok : vol_ok demo_vol.
Proof. constructor; vm_compute; (reflexivity || (split; (reflexivity || discriminate)) || discriminate). Qed.

Lemma demo_safe : safe_fat demo_vol.
Proof. intros c [Hc1 Hc2] [_ Hs]. change (cluster_count demo_vol) with 10 in Hc2. cbn [entry_offset] in Hs.
  change (type demo_vol) with FAT_TYPE_12 in Hs. cbn [entry_offset] in Hs. zdm.
Qed.

Lemma demo_chain : chain demo_vol demo_image 2 [2; 3].
Proof.
  apply chain_next; [split; vm_compute; [discriminate | reflexivity] |].
  replace (fat_entry demo_vol demo_image 2) with 3 by (vm_compute; reflexivity).
  apply chain_last; [split; vm_compute; [discriminate | reflexivity] | vm_compute; reflexivity].
Qed.

Lemma demo_mounted : mounted demo_fs demo_image None.
Proof.
  constructor; [apply demo_vol_ok | apply demo_safe | | apply demo_holds | | apply NoDup_nil_2].
  - split; vm_compute; discriminate.
  - split; [reflexivity | discriminate].
Qed.

(** ** Mounting *)
Lemma u16_at_range s p : Forall is_byte s → 0 ≤ u16_at s p < 65536.
Proof.
  intros Hs. apply (le_read_range 2). intros x Hx. destruct (decide (0 ≤ x < zlen s)).
  - by apply (Forall_aget is_byte).
  - rewrite aget_oob by done. split; [done |]. cbn. lia.
Qed.
Lemma u32_at_range s p : Forall is_byte s → 0 ≤ u32_at s p < 2 ^ 32.
Proof.
  intros Hs. apply (le_read_range 4). intros x Hx. destruct (decide (0 ≤ x < zlen s)).
  - by apply (Forall_aget is_byte).
  - rewrite aget_oob by done. split; [done |]. cbn. lia.
Qed.
Lemma aget_byte s p : Forall is_byte s → 0 ≤ s.[p] < 256.
Proof.
  intros Hs. destruct (decide (0 ≤ p < zlen s)); [by apply (Forall_aget is_byte) |].
  rewrite aget_oob by done. cbn. lia.
Qed.

(** The fields of a boot sector that passes the checks of [mount_drive]. *)
Record boot_ok (v : volume) : Prop := BootOk {
  bo_bps : bytes_per_sector (bpb v) = 512;
  bo_spc : 0 < sectors_per_cluster (bpb v) < 256;
  bo_cnt : 0 < fat_count (bpb v) < 256;
  bo_res : 0 < reserved_sectors (bpb v) < 65536;
  bo_fsz : 0 < fat_size v < 2 ^ 32;
  bo_total : first_data v < total_sectors v < 2 ^ 32;
  bo_root : root_sectors v = (root_entries (bpb v) * 32 + 511) / 512 ∧ 0 ≤ root_entries (bpb v) < 65536
}.

Lemma mount_drive_inv {B} `{BlockDevLaws B} drive (st st' : fat_state B) :
  bd_ok (bd_select drive (dev st)) → mount_drive drive st = (0, st') →
  ∃ sector, sector_ok sector ∧ sector = bd_sector (bd_select drive (dev st)) 0 ∧
    sector.[510] = 0x55 ∧ sector.[511] = 0xAA ∧ vol st' = volume_of sector drive ∧ boot_ok (vol st') ∧
    (type (vol st') = FAT_TYPE_32 → 2 ≤ root_cluster (vol st')) ∧
    current_cluster st' = (if bool_decide (type (vol st') = FAT_TYPE_32) then root_cluster (vol st') else 0) ∧ cwd st' = [47].
Proof.
  intros Hok. unfold mount_drive. destruct (bd_read 0 _) as [r b] eqn:Er.
  destruct (bd_read_law _ _ _ _ Hok Er) as (_ & _ & [-> | ->]); [done |].
  remember (bd_sector (bd_select drive (dev st)) 0) as sector eqn:Esec.
  assert (sector_ok sector) as Hsec by (subst; by apply bd_sector_ok). pose proof Hsec as [_ Hby].
  destruct (Z.eqb_spec sector.[510] 0x55) as [E1 |]; cbn [negb orb]; [| done].
  destruct (Z.eqb_spec sector.[511] 0xAA) as [E2 |]; cbn [negb]; [| done]. cbn zeta.
  set (n := volume_of sector drive).
  assert (Forall is_byte (bpb n)) as Hb by (by apply Forall_take).
  destruct (Z.eqb_spec (bytes_per_sector (bpb n)) 512); cbn [negb orb]; [| done].
  pose proof (aget_byte (bpb n) 13 Hb). pose proof (aget_byte (bpb n) 16 Hb). pose proof (u16_at_range (bpb n) 14 Hb).
  pose proof (u16_at_range (bpb n) 17 Hb). pose proof (u16_at_range (bpb n) 22 Hb). pose proof (u32_at_range sector 36 Hby).
  pose proof (u16_at_range (bpb n) 19 Hb). pose proof (u32_at_range (bpb n) 32 Hb).
  destruct (Z.eqb_spec (sectors_per_cluster (bpb n)) 0); cbn [orb]; [done |].
  destruct (Z.eqb_spec (fat_count (bpb n)) 0); cbn [orb]; [done |].
  destruct (Z.eqb_spec (reserved_sectors (bpb n)) 0); cbn [orb]; [done |].
  destruct (Z.eqb_spec (fat_size n) 0); cbn [orb]; [done |].
  destruct (Z.leb_spec (total_sectors n) (first_data n)); [done |].
  assert (boot_ok n) as Hboot.
  { constructor; try done; unfold sectors_per_cluster, fat_count, reserved_sectors, root_entries in *; try lia.
    - assert (fat_size n = if fat16_size (bpb n) =? 0 then u32_at sector 36 else fat16_size (bpb n)) as Ef by done.
      unfold fat16_size in Ef. destruct (u16_at (bpb n) 22 =? 0); lia.
    - split; [done |].
      assert (total_sectors n = if total16 (bpb n) =? 0 then total32 (bpb n) else total16 (bpb n)) as -> by done.
      unfold total16, total32. destruct (u16_at (bpb n) 19 =? 0); lia. }
  destruct (bool_decide_reflect (type n = FAT_TYPE_32)) as [E32 | E32]; cbn [andb].
  - destruct (Z.ltb_spec (root_cluster n) 2); [done |]. intros [_ <-]%pair_equal_spec. exists sector. cbn [vol current_cluster cwd].
    rewrite !bool_decide_true by done. split_and!; done.
  - intros [_ <-]%pair_equal_spec. exists sector. cbn [vol current_cluster cwd]. rewrite !bool_decide_false by done.
    split_and!; done.
Qed.

(** A mounted volume is well formed when its sizes do not wrap and its table
    covers its clusters (neither is checked by the driver). *)
Lemma boot_ok_vol_ok sector drive :
  let v := volume_of sector drive in
  boot_ok v → reserved_sectors (bpb v) + fat_count (bpb v) * fat_size v + root_sectors v < 2 ^ 32 →
  table_bytes (type v) (cluster_count v + 2) ≤ fat_size v * 512 → cluster_count v ≤ 2 ^ 28 - 16 →
  vol_ok v ∧ root_fits v.
Proof.
  intros v [? Hspc Hcnt Hres Hfsz Htot [Hroot Hre]] Hwrap Hcover Hcc.
  assert (first_data v = reserved_sectors (bpb v) + fat_count (bpb v) * fat_size v + root_sectors v) as Hfirst.
  { assert (first_data v = (reserved_sectors (bpb v) +32 (fat_count (bpb v) *32 fat_size v)) +32 root_sectors v) as -> by done.
    assert (0 ≤ fat_count (bpb v) * fat_size v) by nia. assert (0 ≤ root_sectors v) by (rewrite Hroot; zdm).
    rewrite (u32_small (fat_count (bpb v) * fat_size v)), (u32_small (reserved_sectors (bpb v) + _)), u32_small by lia. done. }
  assert (0 ≤ root_sectors v) by (rewrite Hroot; zdm). assert (0 ≤ fat_count (bpb v) * fat_size v) by nia.
  assert (cluster_count v = (total_sectors v - first_data v) / sectors_per_cluster (bpb v)) as Hcount.
  { assert (cluster_count v = (total_sectors v -32 first_data v) / sectors_per_cluster (bpb v)) as -> by done.
    by rewrite u32_small by lia. }
  assert (0 ≤ cluster_count v) by (rewrite Hcount; apply Z.div_pos; lia).
  split; [| split; [rewrite Hroot; zdm | lia]].
  constructor; try done; try lia. rewrite Hcount.
  pose proof (Z.mul_div_le (total_sectors v - first_data v) (sectors_per_cluster (bpb v)) ltac:(lia)). lia.
Qed.

(** ** Properties *)

(** [mount_drive] returns 0 only for a boot sector with the signature and
    plausible fields; the volume then is the one the sector describes, the
    current directory is the root, and, when its sizes do not wrap and its
    table covers its clusters, the volume is well formed in the sense all
    other FAT properties assume. *)
Theorem mount_drive_correct {B} `{BlockDevLaws B} drive (st st' : fat_state B) :
  bd_ok (bd_select drive (dev st)) → mount_drive drive st = (0, st') →
  let v := vol st' in
  boot_ok v ∧ v = volume_of (bd_sector (bd_select drive (dev st)) 0) drive ∧ cwd st' = [47] ∧
  current_cluster st' = (if bool_decide (type v = FAT_TYPE_32) then root_cluster v else 0) ∧
  (reserved_sectors (bpb v) + fat_count (bpb v) * fat_size v + root_sectors v < 2 ^ 32 →
   table_bytes (type v) (cluster_count v + 2) ≤ fat_size v * 512 → cluster_count v ≤ 2 ^ 28 - 16 →
   vol_ok v ∧ root_fits v).
Proof.
  intros Hok Hm v. destruct (mount_drive_inv _ _ _ Hok Hm) as (sector & _ & Esec & _ & _ & Ev & Hb & _ & Hc & Hw).
  fold v in Ev, Hb, Hc |- *. rewrite <- Esec. split_and!; try done. rewrite Ev in *. by apply boot_ok_vol_ok.
Qed.

(** ** Witnesses *)
Lemma mount_drive_correct_witness :
  cwd (mount_drive 0 (FatState blank_volume demo_disk 7 [] [])).2 = [47].
Proof.
  apply (mount_drive_correct 0 (FatState blank_volume demo_disk 7 [] [])
    (mount_drive 0 (FatState blank_volume demo_disk 7 [] [])).2); [exact I | vm_compute; reflexivity].
Defined.

Lemma fat_set_updates_one_entry_witness :
  hoare (B := mem_disk) demo_image (fat_set demo_vol 5 0xABC) (λ rc S', rc = 0 ∧ (∀ l, ¬ in_fat demo_vol l → S' l = demo_image l) ∧
    ∀ k d, 0 ≤ k < fat_count (bpb demo_vol) → is_cluster demo_vol d →
      copy_entry demo_vol S' k d = if d =? 5 then 0xABC mod entry_mod (type demo_vol) else copy_entry demo_vol demo_image k d).
Proof. apply (fat_set_updates_one_entry demo_vol demo_image 5 0xABC); [apply demo_vol_ok | split; vm_compute; [discriminate | reflexivity] | lia]. Defined.

Lemma fat_get_set_roundtrip_witness :
  hoare (B := mem_disk) demo_image (rc ← fat_set demo_vol 5 0xABC; x ← fat_get demo_vol 5; mret (rc, x)) (λ r _, r = (0, 0xABC)).
Proof.
  assert (is_cluster demo_vol 5) as Hc by (split; vm_compute; [discriminate | reflexivity]).
  apply (fat_get_set_roundtrip demo_vol demo_image 5 0xABC);
    [apply demo_vol_ok | exact Hc | apply demo_safe; exact Hc | split; vm_compute; [discriminate | reflexivity]].
Defined.

(** A FAT12 volume of 400 clusters has the straddling entry 341. *)
Definition wide_boot : list Z :=
  [0xEB; 0x3C; 0x90; 65; 79; 79; 83; 32; 32; 32; 32; 0; 2; 1; 1; 0; 2; 16; 0; 150; 1; 0xF8; 2; 0;
   0; 0; 0; 0; 0; 0; 0; 0; 0; 0; 0; 0] ++ replicate 474 0 ++ [0x55; 0xAA].
Definition wide_vol : volume := volume_of wide_boot 0.
Lemma wide_vol_ok : vol_ok wide_vol.
Proof. constructor; vm_compute; (reflexivity || (split; (reflexivity || discriminate)) || discriminate). Qed.

Lemma fat_get_straddle_undefined_witness : ∃ b', fat_get wide_vol 341 demo_disk = (Undefined, b').
Proof.
  apply (fat_get_straddle_undefined wide_vol demo_disk 341);
    [exact I | apply wide_vol_ok | split; vm_compute; [discriminate | reflexivity] | split; vm_compute; reflexivity].
Defined.

Lemma alloc_cluster_correct_witness :
  hoare (B := mem_disk) demo_image (alloc_cluster demo_vol) (λ r S',
    (r = 0 ∧ S' = demo_image ∧ ∀ c, is_cluster demo_vol c → fat_entry demo_vol demo_image c ≠ 0) ∨
    allocated demo_vol demo_image S' r).
Proof. apply (alloc_cluster_correct demo_vol demo_image); [apply demo_vol_ok | apply demo_safe]. Defined.

Lemma demo_lookup : lookup_name demo_vol demo_image None demo_name = Some (demo_entry, 0).
Proof. vm_compute. reflexivity. Qed.

Lemma fat_read_correct_witness :
  ∃ b, fat_read demo_name 1000 demo_fs =
    (Val (ReadResult 0 (Some 600) (take 600 (replicate 512 65 ++ replicate 512 66))), set_dev demo_fs b) ∧ holds b demo_image.
Proof.
  apply (fat_read_correct demo_fs demo_image None demo_name 1000 demo_entry 0 [2; 3]).
  - apply demo_mounted.
  - apply demo_lookup.
  - reflexivity.
  - vm_compute. discriminate.
  - apply (bool_decide_unpack _). vm_compute. exact I.
  - vm_compute. discriminate.
  - intros _. apply demo_chain.
Defined.

Lemma fat_read_errors_witness :
  ∃ b sz, fat_read demo_name 599 demo_fs = (Val (ReadResult (-1) sz []), set_dev demo_fs b) ∧ holds b demo_image ∧ sz = Some 600.
Proof.
  destruct (fat_read_errors demo_fs demo_image None demo_name 599) as (b & sz & H1 & H2 & H3).
  - apply demo_mounted.
  - change (vol demo_fs) with demo_vol. rewrite demo_lookup. right. vm_compute. reflexivity.
  - exists b, sz. split; [exact H1 |]. split; [exact H2 |]. rewrite H3.
    change (vol demo_fs) with demo_vol. rewrite demo_lookup. reflexivity.
Defined.

Lemma fat_delete_correct_witness :
  ∃ b S', fat_delete demo_name demo_fs = (Val 0, set_dev demo_fs b) ∧ holds b S' ∧
    deleted demo_vol demo_image S' None demo_entry 0 [2; 3].
Proof.
  apply (fat_delete_correct demo_fs demo_image None demo_name demo_entry 0 [2; 3]).
  - apply demo_mounted.
  - apply demo_lookup.
  - reflexivity.
  - apply demo_chain.
  - apply (bool_decide_unpack _). vm_compute. exact I.
  - vm_compute. reflexivity.
  - intros c _. apply not_elem_of_nil.
Defined.
End FatMount.
