(* ===== verification/FatNames.v ===== *)
(** * Names and paths of the FAT driver

    Short names (8.3), the names [fat_list] reports, and the path string
    [fat_chdir] maintains. *)
From S2P Require Import Prelude.
From S2P Require Import BlockDev.
From S2P Require Import Fat.
From S2P Require Import FatMount.

Module FatNames.
Import Fat FatMount.

(** ** Short names *)
Lemma upcase_idemp c : upcase (upcase c) = upcase c.
Proof.
  unfold upcase. destruct (Z.leb_spec 97 c), (Z.leb_spec c 122); cbn [andb];
    destruct (Z.leb_spec 97 c), (Z.leb_spec c 122); cbn [andb]; try lia;
    destruct (Z.leb_spec 97 (c - 32)), (Z.leb_spec (c - 32) 122); cbn [andb]; lia.
Qed.

Lemma upcase_dot c : (upcase c =? DOT) = (c =? DOT).
Proof.
  unfold upcase, DOT. destruct (Z.leb_spec 97 c), (Z.leb_spec c 122); cbn [andb]; try done.
  destruct (Z.eqb_spec (c - 32) 46), (Z.eqb_spec c 46); (done || lia).
Qed.

Lemma sfn_base_upcase n (s : list Z) :
  sfn_base n (upcase <$> s) = ((sfn_base n s).1, upcase <$> (sfn_base n s).2).
Proof.
  revert s. induction n as [| n IH]; intros [| c s]; cbn [sfn_base fmap list_fmap]; try done.
  rewrite upcase_dot. destruct (c =? DOT); [done |]. change (list_fmap _ _ upcase s) with (upcase <$> s).
  rewrite IH. destruct (sfn_base n s) as [o r]. cbn [fst snd]. by rewrite upcase_idemp.
Qed.

Lemma skip_to_dot_upcase (s : list Z) : skip_to_dot (upcase <$> s) = upcase <$> skip_to_dot s.
Proof.
  induction s as [| c s IH]; cbn [skip_to_dot fmap list_fmap]; [done |].
  rewrite upcase_dot. by destruct (c =? DOT).
Qed.

Lemma length_pad n s : length (pad n s) = n.
Proof. unfold pad. rewrite length_take, length_app, length_replicate. lia. Qed.

Lemma length_make_sfn s : length (make_sfn s) = 11%nat.
Proof. unfold make_sfn. destruct (sfn_base 8 s) as [b r]. rewrite length_app, !length_pad. done. Qed.

Lemma fmap_upcase_idemp (s : list Z) : upcase <$> (upcase <$> s) = upcase <$> s.
Proof. rewrite <- list_fmap_compose. apply list_fmap_ext. intros i c _. apply upcase_idemp. Qed.

(** A base part without a dot, followed by an optional extension. *)
Lemma sfn_base_stop b r n :
  Forall (λ c, c ≠ DOT) b → (length b ≤ n)%nat → (r = [] ∨ ∃ x, r = DOT :: x) →
  sfn_base n (b ++ r) = (upcase <$> b, r).
Proof.
  intros Hb. revert n. induction Hb as [| c b Hc Hb IH]; intros n Hn Hr.
  - cbn [app fmap list_fmap]. destruct Hr as [-> | [x ->]], n; done.
  - destruct n as [| n]; cbn [length] in Hn; [lia |]. cbn [app sfn_base].
    rewrite (proj2 (Z.eqb_neq c DOT) Hc). by rewrite IH by (done || lia).
Qed.

(** ** Listed names *)

(** A part of a stored name: no padding inside, nothing in lower case. *)
Definition sfn_char (c : Z) : Prop := c ≠ SPACE ∧ upcase c = c.

(** A directory entry as [fat_create] and [fat_mkdir] write it. *)
Record canonical (e : dir_entry) (b x : list Z) : Prop := Canonical {
  cn_base : take 8 e = pad 8 b;
  cn_ext : take 3 (drop 8 e) = pad 3 x;
  cn_len : length e = 32%nat ∧ (length b ≤ 8)%nat ∧ (length x ≤ 3)%nat;
  cn_b : Forall (λ c, sfn_char c ∧ c ≠ DOT) b;
  cn_x : Forall sfn_char x;
  cn_dir : Z.land (e_attr e) ATTR_DIRECTORY ≠ 0 → x = []
}.

Lemma trim_pad n s : Forall (λ c, c ≠ SPACE) s → (length s ≤ n)%nat → trim (pad n s) = s.
Proof.
  intros Hs Hn. unfold pad.
  assert (∀ k, trim (take k (s ++ replicate n SPACE)) = take k s) as K; [| by rewrite K, take_ge].
  clear Hn. induction Hs as [| c s Hc Hs IH]; intros k.
  - cbn [app]. rewrite take_nil. destruct (decide (k ≤ n)%nat).
    + rewrite take_replicate. by destruct (k `min` n)%nat.
    + rewrite take_replicate. by destruct (k `min` n)%nat.
  - destruct k as [| k]; [done |]. cbn [app take trim]. rewrite (proj2 (Z.eqb_neq c SPACE) Hc). f_equal. apply IH.
Qed.

Lemma upcase_fixed (s : list Z) : Forall sfn_char s → upcase <$> s = s.
Proof. induction 1 as [| c s [_ Hc] Hs IH]; [done |]. cbn. rewrite Hc. by f_equal. Qed.

Lemma f_name_canonical e b x : canonical e b x → f_name (info_of e) = b ++ (if decide (x = []) then [] else DOT :: x).
Proof.
  intros [Hb Hx (Hl & Hlb & Hlx) Fb Fx Hdir]. unfold info_of. cbn [f_name]. rewrite Hb, Hx.
  rewrite trim_pad by (done || (eapply Forall_impl; [exact Fb | by intros c [[? _] _]])). f_equal.
  rewrite trim_pad by (done || (eapply Forall_impl; [exact Fx | by intros c [? _]])).
  assert (e_ext e 0 = (pad 3 x).[0]) as Hext.
  { unfold e_ext. rewrite <- Hx, aget_take, aget_drop by lia. done. }
  rewrite Hext. destruct x as [| c x].
  - rewrite decide_True by done. unfold pad. cbn. by rewrite andb_false_r.
  - rewrite decide_False by done. apply Forall_cons in Fx as [[Hc _] _].
    assert ((pad 3 (c :: x)).[0] = c) as -> by done. rewrite (proj2 (Z.eqb_neq c SPACE) Hc).
    destruct (Z.eqb_spec (Z.land (e_attr e) ATTR_DIRECTORY) 0); [done |]. by specialize (Hdir ltac:(done)).
Qed.

Lemma make_sfn_join b x :
  Forall (λ c, sfn_char c ∧ c ≠ DOT) b → Forall sfn_char x → (length b ≤ 8)%nat → (length x ≤ 3)%nat →
  make_sfn (b ++ (if decide (x = []) then [] else DOT :: x)) = pad 8 b ++ pad 3 x.
Proof.
  intros Fb Fx Hb Hx. unfold make_sfn.
  rewrite sfn_base_stop; [| eapply Forall_impl; [exact Fb | by intros c [_ ?]] | done | case_decide; eauto].
  rewrite upcase_fixed by (eapply Forall_impl; [exact Fb | by intros c [? _]]). f_equal.
  case_decide as E; [by subst x |]. cbn [skip_to_dot Z.eqb]. rewrite Z.eqb_refl.
  by rewrite take_ge, upcase_fixed by (done || lia).
Qed.

Lemma name_match_sfn e name : length e = 32%nat → name_match e name = bool_decide (take 11 e = make_sfn name).
Proof.
  intros Hl. unfold name_match. pose proof (length_make_sfn name) as Hs.
  assert (Forall (λ i, e_name e i = (make_sfn name).[i]) (seqZ 0 8) ∧ Forall (λ i, e_ext e i = (make_sfn name).[8 + i]) (seqZ 0 3)
    ↔ take 11 e = make_sfn name) as Hiff.
  { rewrite !Forall_forall. unfold e_name, e_ext. split.
    - intros [H1 H2]. apply array_ext; [rewrite zlen_take; unfold zlen; lia |]. rewrite zlen_take. intros i Hi.
      rewrite aget_take by lia. unfold zlen in Hi. destruct (decide (i < 8)).
      + apply H1. rewrite elem_of_seqZ. lia.
      + replace i with (8 + (i - 8)) by lia. apply H2. rewrite elem_of_seqZ. lia.
    - intros E. split; intros i Hi; rewrite elem_of_seqZ in Hi; rewrite <- E, aget_take by lia; done. }
  rewrite <- bool_decide_and. by apply bool_decide_ext.
Qed.

(** ** Paths *)
Lemma strip_rev_app p s c r : Forall (λ c, p c = true) s → p c = false → strip_rev p (s ++ c :: r) = c :: r.
Proof.
  intros Hs Hc. induction Hs as [| d s Hd Hs IH]; cbn [app].
  - cbn [strip_rev]. destruct r; [done |]. by rewrite Hc.
  - cbn [strip_rev]. destruct (s ++ c :: r) as [| e t] eqn:E; [by destruct s |]. by rewrite Hd.
Qed.

(** ** Properties *)

(** lookups ignore the case of letters: two names that differ only in case
    have the same short name, which always has eleven characters. *)
Theorem make_sfn_case_insensitive (name : list Z) :
  make_sfn (upcase <$> name) = make_sfn name ∧ length (make_sfn name) = 11%nat.
Proof.
  split; [| apply length_make_sfn]. unfold make_sfn. rewrite sfn_base_upcase.
  destruct (sfn_base 8 name) as [b r]. cbn [fst snd]. rewrite skip_to_dot_upcase. do 2 f_equal.
  destruct (skip_to_dot r) as [| c t]; cbn [fmap list_fmap]; [done |].
  change (list_fmap _ _ upcase t) with (upcase <$> t). by rewrite <- fmap_take, fmap_upcase_idemp.
Qed.

(** the name [fat_list] reports for an entry finds that entry again. *)
Theorem listed_name_matches e b x : canonical e b x → name_match e (f_name (info_of e)) = true.
Proof.
  intros Hc. pose proof Hc as [Hb Hx (Hl & Hlb & Hlx) Fb Fx Hdir].
  rewrite name_match_sfn, (f_name_canonical e b x Hc), make_sfn_join by done.
  apply bool_decide_eq_true_2. rewrite <- Hb, <- Hx.
  change 11%nat with (8 + 3)%nat. rewrite <- take_take_drop. done.
Qed.

(** [cd name] followed by [cd ..] gives back the path, up to a slash left
    at the end. *)
Theorem cwd_down_up s name s' :
  s ≠ [] → name ≠ [] → Forall (λ c, c ≠ SLASH) name → s.[0] = SLASH →
  zlen s + 1 + zlen name < FS_MAX_FILENAME → cwd_down s name = Some s' →
  cwd_up s' = (if (1 <? zlen s) && negb (s.[zlen s - 1] =? SLASH) then s ++ [SLASH] else s).
Proof.
  intros Hs Hn Hslash Hroot Hfit. unfold cwd_down. set (s1 := if _ && _ then s ++ [SLASH] else s).
  assert (∃ p, s1 = p ++ [SLASH]) as [p Hp].
  { destruct (exists_last Hs) as (p & c & ->). unfold s1. rewrite zlen_app. change (zlen [c]) with 1.
    replace (zlen p + 1 - 1) with (zlen p) by lia. rewrite aget_app_r, Z.sub_diag by lia. change ([c].[0]) with c.
    destruct (Z.eqb_spec c SLASH) as [-> | Hc]; [rewrite andb_false_r; eauto |].
    destruct (Z.ltb_spec 1 (zlen p + 1)); cbn [andb negb]; [eauto |].
    assert (p = []) as -> by (destruct p; [done |]; rewrite zlen_cons in *; pose proof (zlen_nonneg p); lia).
    cbn in Hroot. done. }
  assert (zlen s1 ≤ zlen s + 1) as Hl1 by (unfold s1; destruct (_ && _); [rewrite zlen_app; done | lia]).
  rewrite take_ge by (unfold zlen in *; lia). clearbody s1. destruct (zlen (s1 ++ name) <? FS_MAX_FILENAME); [| done]. intros [= <-]. rewrite Hp. unfold cwd_up.
  rewrite reverse_app. destruct (reverse name) as [| c r] eqn:Er.
  { apply (f_equal reverse) in Er. rewrite reverse_involutive in Er. done. }
  assert (Forall (λ c, c ≠ SLASH) (c :: r)) as Hr by (rewrite <- Er; by apply Forall_reverse).
  pose proof Hr as [Hc _]%Forall_cons. rewrite reverse_app. cbn [app].
  assert (strip_rev (λ c, c =? SLASH) (c :: r ++ reverse [SLASH] ++ reverse p) = c :: r ++ reverse [SLASH] ++ reverse p) as ->.
  { destruct (r ++ reverse [SLASH] ++ reverse p) eqn:E; [done |]. cbn [strip_rev]. by rewrite (proj2 (Z.eqb_neq c SLASH) Hc). }
  change (reverse [SLASH] ++ reverse p) with (SLASH :: reverse p). change (c :: r ++ SLASH :: reverse p) with ((c :: r) ++ SLASH :: reverse p).
  rewrite strip_rev_app; [| eapply Forall_impl; [exact Hr |]; intros d Hd; cbn; by rewrite (proj2 (Z.eqb_neq d SLASH) Hd) | done].
  rewrite reverse_cons, reverse_involutive. done.
Qed.

(** with 255 characters in the path, entering a subdirectory writes the
    terminating NUL past the end of the 256-byte array. *)
Theorem cwd_down_overflows s name :
  zlen s = FS_MAX_FILENAME - 1 → s.[zlen s - 1] ≠ SLASH → cwd_down s name = None.
Proof.
  intros Hl Hs. unfold cwd_down. rewrite (proj2 (Z.eqb_neq _ _) Hs), Hl. change (1 <? FS_MAX_FILENAME - 1) with true.
  cbn [andb negb]. assert (zlen (s ++ [SLASH]) = 256) as E by (by rewrite zlen_app, Hl). rewrite E.
  change (Z.to_nat (FS_MAX_FILENAME - 1 - 256)) with 0%nat. by rewrite take_0, app_nil_r, E.
Qed.

(** ** Witnesses *)
Lemma listed_name_matches_witness : name_match demo_entry (f_name (info_of demo_entry)) = true.
Proof.
  apply (listed_name_matches demo_entry [72; 69; 76; 76; 79] [84; 88; 84]).
  constructor; [reflexivity | reflexivity | cbn; lia | | | done]; fall; repeat split; done.
Defined.

Lemma cwd_down_up_witness : cwd_up [47; 65; 47; 66] = [47; 65; 47].
Proof.
  apply (cwd_down_up [47; 65] [66] [47; 65; 47; 66]); [done | done | fall | reflexivity | vm_compute; reflexivity | reflexivity].
Defined.

Lemma cwd_down_overflows_witness : cwd_down (replicate 255 65) [66] = None.
Proof. apply (cwd_down_overflows (replicate 255 65) [66]); [reflexivity | vm_compute; discriminate]. Defined.
End FatNames.
