(* ===== verification/Ramfs.v ===== *)
(** * The RAM file system (kernel/fs/ramfs.c)

    Sixteen fixed-size files.  Names are the strings the [char] arrays hold
    (without the NUL): [strcmp] on them is equality and
    [strncpy(name, s, 31); name[31] = 0] keeps the first 31 characters, by the
    lemmas of CString.v.  The file system refines a finite map from names to
    contents as long as names fit. *)
From S2P Require Import Prelude.
From S2P Require Import CString.

Module Ramfs.
Definition MAX_FILES : Z := 16.
Definition MAX_FILENAME : Z := 32.
Definition MAX_FILESIZE : Z := 512.

Record ramfs_file := RamFile { name : list Z; data : list Z; size : Z; used : Z }.
#[export] Instance ramfs_file_inhabited : Inhabited ramfs_file := populate (RamFile [] (replicate 512 0) 0 0).

Record ramfs_state := RamState { files : list ramfs_file; file_count : Z }.

Definition ramfs_init (st : ramfs_state) : ramfs_state :=
  RamState (replicate (Z.to_nat MAX_FILES) (RamFile [] (replicate 512 0) 0 0)) 0.

(** The scan [used && strcmp(files[i].name, name) == 0]; -1 when none. *)
Definition find_file (st : ramfs_state) (n : list Z) : Z :=
  match for_range 0 MAX_FILES (λ i (_ : unit),
          let f := (files st).[i] in
          if negb (used f =? 0) && bool_decide (name f = n) then inr i else inl tt) tt with
  | inl _ => -1
  | inr i => i
  end.

(** The scan for an unused slot. *)
Definition find_slot (st : ramfs_state) : Z :=
  match for_range 0 MAX_FILES (λ i (_ : unit), if used (files st).[i] =? 0 then inr i else inl tt) tt with
  | inl _ => -1
  | inr i => i
  end.

(** [memcpy(data, src, size); if (size < 512) data[size] = 0] *)
Definition fill_data (old src : list Z) (sz : Z) : list Z :=
  let d := ablit old 0 (take (Z.to_nat sz) src) in
  if sz <? MAX_FILESIZE then d.[sz <- 0] else d.

Definition ramfs_create (n src : list Z) (sz : Z) (st : ramfs_state) : Z * ramfs_state :=
  if MAX_FILESIZE <? sz then (-1, st) else
  let i := find_file st n in
  if 0 <=? i then
    let f := (files st).[i] in
    (0, RamState ((files st).[i <- RamFile (name f) (fill_data (replicate 512 0) src sz) sz (used f)]) (file_count st))
  else
    let j := find_slot st in
    if 0 <=? j then
      let f := (files st).[j] in
      (0, RamState ((files st).[j <- RamFile (take (Z.to_nat (MAX_FILENAME - 1)) n) (fill_data (data f) src sz) sz 1])
                   (file_count st + 1))
    else (-1, st).

(** The result, [*size] when assigned, and the bytes copied to the buffer. *)
Definition ramfs_read (n : list Z) (max_size : Z) (st : ramfs_state) : Z * option Z * list Z :=
  let i := find_file st n in
  if 0 <=? i then
    let f := (files st).[i] in
    if max_size <? size f then (-1, Some (size f), [])
    else (0, Some (size f), take (Z.to_nat (size f)) (data f))
  else (-1, None, []).

Definition ramfs_delete (n : list Z) (st : ramfs_state) : Z * ramfs_state :=
  let i := find_file st n in
  if 0 <=? i then
    (0, RamState ((files st).[i <- RamFile [] (replicate 512 0) 0 0]) (file_count st - 1))
  else (-1, st).

Definition ramfs_list (st : ramfs_state) : Z := file_count st.
Definition ramfs_get_files (st : ramfs_state) : list ramfs_file := files st.
Definition ramfs_get_file_count (st : ramfs_state) : Z := file_count st.
Definition ramfs_mkdir (n : list Z) : Z := -1.
Definition ramfs_rmdir (n : list Z) : Z := -1.
Definition ramfs_chdir (n : list Z) : Z := -1.
Definition ramfs_getcwd : list Z := [47].

(** ** Invariant *)
Definition live (st : ramfs_state) (i : Z) (n : list Z) : Prop := used (files st).[i] ≠ 0 ∧ name (files st).[i] = n.

Definition is_used (f : ramfs_file) : bool := negb (used f =? 0).

Record ram_ok (st : ramfs_state) : Prop := RamOk {
  ro_len : zlen (files st) = MAX_FILES;
  ro_data i : 0 ≤ i < MAX_FILES → zlen (data (files st).[i]) = 512;
  ro_size i : 0 ≤ i < MAX_FILES → 0 ≤ size (files st).[i] ≤ MAX_FILESIZE;
  ro_uniq i j n : 0 ≤ i < MAX_FILES → 0 ≤ j < MAX_FILES → live st i n → live st j n → i = j;
  ro_count : file_count st = countb is_used (files st)
}.

(** What the file system stores under a name. *)
Definition contents (st : ramfs_state) (n : list Z) : option (list Z) :=
  let i := find_file st n in
  if 0 <=? i then Some (take (Z.to_nat (size (files st).[i])) (data (files st).[i])) else None.

Lemma find_file_spec st n :
  (find_file st n = -1 ∧ ∀ i, 0 ≤ i < MAX_FILES → ¬ live st i n) ∨
  (0 ≤ find_file st n < MAX_FILES ∧ live st (find_file st n) n).
Proof.
  unfold find_file. set (body := λ (i : Z) (_ : unit), _).
  assert (match for_range 0 MAX_FILES body tt with
    | inl _ => ∀ j, 0 ≤ j < Z.max 0 MAX_FILES → ¬ live st j n
    | inr i => 0 ≤ i < MAX_FILES ∧ live st i n end) as HI.
  { apply (for_range_inv (λ i _, ∀ j, 0 ≤ j < i → ¬ live st j n)); [lia | |];
      intros i [] r Hi Hj; unfold body; destruct (Z.eqb_spec (used (files st).[i]) 0),
        (bool_decide_reflect (name (files st).[i] = n)); cbn; try done.
    1-3: intros _ j Hjr; destruct (decide (j = i)) as [-> |]; [by intros [? ?] | apply Hj; lia].
    by intros [= <-]. }
  destruct (for_range 0 MAX_FILES body tt) as [[] | i]; auto.
Qed.

Lemma find_slot_spec st :
  (find_slot st = -1 ∧ ∀ i, 0 ≤ i < MAX_FILES → used (files st).[i] ≠ 0) ∨
  (0 ≤ find_slot st < MAX_FILES ∧ used (files st).[find_slot st] = 0).
Proof.
  unfold find_slot. set (body := λ (i : Z) (_ : unit), _).
  assert (match for_range 0 MAX_FILES body tt with
    | inl _ => ∀ j, 0 ≤ j < Z.max 0 MAX_FILES → used (files st).[j] ≠ 0
    | inr i => 0 ≤ i < MAX_FILES ∧ used (files st).[i] = 0 end) as HI.
  { apply (for_range_inv (λ i _, ∀ j, 0 ≤ j < i → used (files st).[j] ≠ 0)); [lia | |];
      intros i [] r Hi Hj; unfold body; destruct (Z.eqb_spec (used (files st).[i]) 0); try done.
    - intros _ j Hjr. destruct (decide (j = i)) as [-> |]; [done | apply Hj; lia].
    - by intros [= <-]. }
  destruct (for_range 0 MAX_FILES body tt) as [[] | i]; auto.
Qed.

(** Under the invariant the scan finds the only slot with the name. *)
Lemma find_file_live st i n : ram_ok st → 0 ≤ i < MAX_FILES → live st i n → find_file st n = i.
Proof.
  intros Hok Hi Hl. destruct (find_file_spec st n) as [[_ Hno] | [Hr Hf]]; [by destruct (Hno i) |].
  by apply (ro_uniq _ Hok _ _ n).
Qed.

Lemma contents_live st i n : ram_ok st → 0 ≤ i < MAX_FILES → live st i n →
  contents st n = Some (take (Z.to_nat (size (files st).[i])) (data (files st).[i])).
Proof.
  intros Hok Hi Hl. unfold contents. rewrite (find_file_live st i n) by done.
  by rewrite (proj2 (Z.leb_le 0 i)) by lia.
Qed.

Lemma contents_absent st n : (∀ i, 0 ≤ i < MAX_FILES → ¬ live st i n) → contents st n = None.
Proof.
  intros Hno. unfold contents. destruct (find_file_spec st n) as [[-> _] | [Hr Hf]]; [done |].
  by destruct (Hno _ Hr).
Qed.

Lemma fill_data_spec old src sz :
  zlen old = 512 → 0 ≤ sz ≤ MAX_FILESIZE → sz ≤ zlen src →
  zlen (fill_data old src sz) = 512 ∧ take (Z.to_nat sz) (fill_data old src sz) = take (Z.to_nat sz) src.
Proof.
  unfold MAX_FILESIZE. intros Hl Hs Hsrc. unfold fill_data.
  assert (zlen (take (Z.to_nat sz) src) = sz) as Ht by (rewrite zlen_take; lia).
  split. { destruct (sz <? MAX_FILESIZE); rewrite ?zlen_aset, zlen_ablit; done. }
  apply array_ext.
  - destruct (sz <? MAX_FILESIZE); rewrite !zlen_take, ?zlen_aset, zlen_ablit; lia.
  - rewrite zlen_take. intros i Hi. rewrite !aget_take by lia.
    destruct (sz <? MAX_FILESIZE); rewrite ?aget_aset_ne by lia; rewrite aget_ablit_in, Z.sub_0_r, aget_take by lia; done.
Qed.

Section SetSlot.
Context (st : ramfs_state) (i : Z) (f : ramfs_file) (c : Z).
Hypothesis Hok : ram_ok st.
Hypothesis Hi : 0 ≤ i < MAX_FILES.
Let st' := RamState ((files st).[i <- f]) c.

Lemma slot_get j : (files st').[j] = if decide (j = i) then f else (files st).[j].
Proof.
  unfold st'. cbn [files]. pose proof (ro_len _ Hok). case_decide; [subst; apply aget_aset_eq; lia | by apply aget_aset_ne].
Qed.

Lemma slot_live j n : live st' j n ↔ if decide (j = i) then used f ≠ 0 ∧ name f = n else live st j n.
Proof. unfold live. rewrite slot_get. by case_decide. Qed.

Lemma count_set : countb is_used (files st') = countb is_used (files st) - cbool (is_used (files st).[i]) + cbool (is_used f).
Proof. pose proof (ro_len _ Hok). apply countb_aset. lia. Qed.

Lemma set_ok :
  zlen (data f) = 512 → 0 ≤ size f ≤ MAX_FILESIZE →
  (used f ≠ 0 → ∀ j, 0 ≤ j < MAX_FILES → j ≠ i → ¬ live st j (name f)) →
  c = countb is_used (files st) - cbool (is_used (files st).[i]) + cbool (is_used f) →
  ram_ok st'.
Proof.
  intros Hd Hs Hu Hc. destruct Hok as [Hl Hda Hsz Hun Hcnt]. constructor.
  - unfold st'. cbn [files]. by rewrite zlen_aset.
  - intros j Hj. rewrite slot_get. case_decide; auto.
  - intros j Hj. rewrite slot_get. case_decide; auto.
  - intros j k n Hj Hk Lj Lk. apply slot_live in Lj, Lk.
    destruct (decide (j = i)) as [-> | Hji], (decide (k = i)) as [-> | Hki]; try done.
    + destruct Lj as [Hf <-]. by destruct (Hu Hf k Hk Hki).
    + destruct Lk as [Hf <-]. by destruct (Hu Hf j Hj Hji).
    + by apply (Hun j k n).
  - rewrite count_set. done.
Qed.
End SetSlot.

(** The map after slot [i] is replaced by [f], whose name was in no other slot. *)
Lemma contents_set st i f c :
  ram_ok st → 0 ≤ i < MAX_FILES → ram_ok (RamState ((files st).[i <- f]) c) →
  (used (files st).[i] ≠ 0 → used f ≠ 0 → name f = name (files st).[i]) →
  ∀ k, contents (RamState ((files st).[i <- f]) c) k =
    if decide (used f ≠ 0 ∧ name f = k) then Some (take (Z.to_nat (size f)) (data f))
    else if decide (live st i k) then None else contents st k.
Proof.
  intros Hok Hi Hok' Hname k. set (st' := RamState _ c) in *.
  destruct (decide (used f ≠ 0 ∧ name f = k)) as [Hf | Hf].
  - rewrite (contents_live st' i k) by (done || apply slot_live; (done || by rewrite decide_True)).
    unfold st'. by rewrite slot_get, decide_True by done.
  - destruct (decide (live st i k)) as [Hl | Hl].
    + apply contents_absent. intros j Hj Lj. apply slot_live in Lj; [| done | done].
      destruct (decide (j = i)) as [-> | Hne]; [done |]. apply Hne. by apply (ro_uniq _ Hok j i k).
    + destruct (find_file_spec st k) as [[Hn Hno] | [Hr Hlive]].
      * rewrite !contents_absent; [done | done |]. intros j Hj Lj. apply slot_live in Lj; [| done | done].
        destruct (decide (j = i)); [done | by apply (Hno j)].
      * assert (find_file st k ≠ i) as Hne by (intros E; apply Hl; by rewrite <- E).
        rewrite (contents_live st (find_file st k) k), (contents_live st' (find_file st k) k); try done.
        -- unfold st'. by rewrite slot_get, decide_False by done.
        -- apply slot_live; [done | done |]. by rewrite decide_False by done.
Qed.

Lemma is_used_true f : used f ≠ 0 → cbool (is_used f) = 1.
Proof. intros Hf. unfold is_used. by rewrite (proj2 (Z.eqb_neq _ _) Hf). Qed.
Lemma is_used_false f : used f = 0 → cbool (is_used f) = 0.
Proof. intros Hf. unfold is_used. by rewrite Hf. Qed.

Lemma countb_all {A} (f : A → bool) l : Forall (λ x, f x = true) l → countb f l = zlen l.
Proof. induction 1 as [| x l Hx Hl IH]; [done |]. rewrite countb_cons, zlen_cons, Hx, IH. cbn. lia. Qed.

Lemma no_slot_full st : ram_ok st → (∀ i, 0 ≤ i < MAX_FILES → used (files st).[i] ≠ 0) → file_count st = MAX_FILES.
Proof.
  intros Hok Hall. rewrite (ro_count _ Hok), <- (ro_len _ Hok). apply countb_all. apply Forall_lookup. intros j f Hf.
  assert (Z.of_nat j < zlen (files st)) by (unfold zlen; apply lookup_lt_Some in Hf; lia).
  rewrite (ro_len _ Hok) in *. specialize (Hall (Z.of_nat j) ltac:(lia)).
  assert ((files st).[Z.of_nat j] = f) as E by (apply aget_lookup; [lia | by rewrite Nat2Z.id]).
  rewrite E in Hall. unfold is_used. by rewrite (proj2 (Z.eqb_neq _ _) Hall).
Qed.

(** ** The effect of the operations *)
Lemma create_spec st n src sz rc st' :
  ram_ok st → zlen n < MAX_FILENAME → 0 ≤ sz ≤ zlen src → ramfs_create n src sz st = (rc, st') →
  (rc = -1 ∧ st' = st ∧ (MAX_FILESIZE < sz ∨ contents st n = None ∧ file_count st = MAX_FILES)) ∨
  (rc = 0 ∧ ram_ok st' ∧ ∀ k, contents st' k = if decide (k = n) then Some (take (Z.to_nat sz) src) else contents st k).
Proof.
  intros Hok Hn Hsz. unfold ramfs_create. destruct (Z.ltb_spec MAX_FILESIZE sz) as [Hbig | Hsmall].
  { intros [= <- <-]. left. auto. }
  pose proof (fill_data_spec (replicate 512 0) src sz ltac:(done) ltac:(lia) ltac:(lia)) as [Hl0 Ht0].
  destruct (find_file_spec st n) as [[-> Hno] | [Hr Hlive]].
  - change (0 <=? -1) with false. cbv iota. destruct (find_slot_spec st) as [[-> Hfull] | [Hr Hfree]].
    { intros [= <- <-]. left. split; [done |]. split; [done |]. right. split; [by apply contents_absent | by apply no_slot_full]. }
    rewrite (proj2 (Z.leb_le 0 _)) by lia. set (j := find_slot st) in *. clearbody j.
    rewrite take_ge by (unfold zlen, MAX_FILENAME in *; lia). intros [<- <-]%pair_equal_spec. right. split; [done |].
    destruct (fill_data_spec (data (files st).[j]) src sz (ro_data _ Hok j Hr) ltac:(lia) ltac:(lia)) as [Hl1 Ht1].
    assert (ram_ok (RamState ((files st).[j <- RamFile n (fill_data (data (files st).[j]) src sz) sz 1]) (file_count st + 1))) as Hok'.
    { apply set_ok; try done; cbn [data size used name]; [lia | intros _ k Hk _; by apply Hno |].
      rewrite (is_used_false _ Hfree), (ro_count _ Hok). cbn. lia. }
    split; [done |]. intros k. rewrite contents_set by (done || intros; congruence). cbn [used name size data].
    destruct (decide (k = n)) as [-> | Hne]; [rewrite decide_True by done; by rewrite Ht1 |].
    rewrite decide_False by (intros [_ ?]; congruence). rewrite decide_False; [done |]. intros [? _]. congruence.
  - rewrite (proj2 (Z.leb_le 0 _)) by lia. set (i := find_file st n) in *. clearbody i.
    destruct Hlive as [Hu Hname]. intros [<- <-]%pair_equal_spec. right. split; [done |].
    assert (ram_ok (RamState ((files st).[i <- RamFile (name (files st).[i]) (fill_data (replicate 512 0) src sz) sz (used (files st).[i])]) (file_count st))) as Hok'.
    { apply set_ok; try done; cbn [data size used name]; [lia | |].
      - intros _ k Hk Hne [Hku Hkn]. apply Hne. by apply (ro_uniq _ Hok k i (name (files st).[i])).
      - rewrite (ro_count _ Hok). unfold is_used. cbn [used]. lia. }
    split; [done |]. intros k. rewrite contents_set by done. cbn [used name size data].
    destruct (decide (k = n)) as [-> | Hne]; [rewrite decide_True by done; by rewrite Ht0 |].
    rewrite decide_False by (intros [_ ?]; congruence). rewrite decide_False; [done |]. intros [_ ?]. congruence.
Qed.

Lemma delete_spec st n rc st' :
  ram_ok st → ramfs_delete n st = (rc, st') →
  (rc = -1 ∧ st' = st ∧ contents st n = None) ∨
  (rc = 0 ∧ ram_ok st' ∧ is_Some (contents st n) ∧ ∀ k, contents st' k = if decide (k = n) then None else contents st k).
Proof.
  intros Hok. unfold ramfs_delete. destruct (find_file_spec st n) as [[-> Hno] | [Hr Hlive]].
  - intros [= <- <-]. left. split; [done |]. split; [done |]. by apply contents_absent.
  - rewrite (proj2 (Z.leb_le 0 _)) by lia. set (i := find_file st n) in *. clearbody i.
    intros [<- <-]%pair_equal_spec. right. split; [done |]. pose proof Hlive as [Hu Hname].
    assert (ram_ok (RamState ((files st).[i <- RamFile [] (replicate 512 0) 0 0]) (file_count st - 1))) as Hok'.
    { apply set_ok; try done. rewrite (is_used_true _ Hu), (ro_count _ Hok). cbn. lia. }
    split; [done |]. split; [by rewrite (contents_live st i n) |]. intros k. rewrite contents_set by done.
    cbn [used name]. rewrite decide_False by (by intros [? _]). destruct (decide (k = n)) as [-> | Hne].
    + by rewrite decide_True by done.
    + rewrite decide_False; [done |]. intros [_ ?]. congruence.
Qed.

Lemma read_spec st n max :
  ram_ok st →
  ramfs_read n max st =
  match contents st n with
  | None => (-1, None, [])
  | Some c => if max <? zlen c then (-1, Some (zlen c), []) else (0, Some (zlen c), c)
  end.
Proof.
  intros Hok. unfold ramfs_read, contents. destruct (find_file_spec st n) as [[-> _] | [Hr _]]; [done |].
  rewrite (proj2 (Z.leb_le 0 _)) by lia. pose proof (ro_size _ Hok _ Hr). pose proof (ro_data _ Hok _ Hr).
  set (f := (files st).[find_file st n]) in *. unfold MAX_FILESIZE in *.
  rewrite zlen_take. replace (Z.min _ _) with (size f) by lia. done.
Qed.

(** ** Properties *)

(** the file system refines a map from names to contents (names shorter
    than 32 characters).  [ramfs_create] either fails without effect, because
    the file is larger than 512 bytes or all 16 slots are taken by other
    names, or binds the name to exactly the given bytes and nothing else. *)
Theorem ramfs_create_refines st n src sz rc st' :
  ram_ok st → zlen n < MAX_FILENAME → 0 ≤ sz ≤ zlen src → ramfs_create n src sz st = (rc, st') →
  (rc = -1 ∧ st' = st ∧ (MAX_FILESIZE < sz ∨ contents st n = None ∧ file_count st = MAX_FILES)) ∨
  (rc = 0 ∧ ram_ok st' ∧ ∀ k, contents st' k = if decide (k = n) then Some (take (Z.to_nat sz) src) else contents st k).
Proof. apply create_spec. Qed.

(** [ramfs_delete] unbinds the name and nothing else, and fails exactly on
    absent names; the slot is free again. *)
Theorem ramfs_delete_refines st n rc st' :
  ram_ok st → ramfs_delete n st = (rc, st') →
  (rc = -1 ∧ st' = st ∧ contents st n = None) ∨
  (rc = 0 ∧ ram_ok st' ∧ is_Some (contents st n) ∧ ∀ k, contents st' k = if decide (k = n) then None else contents st k).
Proof. apply delete_spec. Qed.

(** [ramfs_read] delivers the contents bound to the name when they fit the
    buffer; otherwise it reports the needed size and copies nothing. *)
Theorem ramfs_read_correct st n max :
  ram_ok st →
  ramfs_read n max st =
  match contents st n with
  | None => (-1, None, [])
  | Some c => if max <? zlen c then (-1, Some (zlen c), []) else (0, Some (zlen c), c)
  end.
Proof. apply read_spec. Qed.

(** a name of 32 or more characters is cut to 31 when the file is created,
    so the file cannot be found under the name it was created with. *)
Theorem ramfs_long_name_lost st n src sz st' :
  ram_ok st → MAX_FILENAME ≤ zlen n → 0 ≤ sz ≤ zlen src → sz ≤ MAX_FILESIZE → find_file st n = -1 →
  ramfs_create n src sz st = (0, st') → ramfs_read n MAX_FILESIZE st' = (-1, None, []).
Proof.
  intros Hok Hn Hsz Hs Hnf. unfold ramfs_create. rewrite (proj2 (Z.ltb_ge MAX_FILESIZE sz)), Hnf by done. change (0 <=? -1) with false. cbv iota.
  destruct (find_slot_spec st) as [[-> _] | [Hr Hfree]]; [done |]. rewrite (proj2 (Z.leb_le 0 _)) by lia.
  intros [_ <-]%pair_equal_spec. unfold ramfs_read. destruct (find_file_spec st n) as [[_ Hno] | [? _]]; [| lia].
  destruct (find_file_spec (RamState ((files st).[find_slot st <- RamFile (take (Z.to_nat (MAX_FILENAME - 1)) n)
    (fill_data (data (files st).[find_slot st]) src sz) sz 1]) (file_count st + 1)) n) as [[-> _] | [Hr2 Hl]]; [done |].
  exfalso. apply slot_live in Hl; [| done | done]. case_decide; [| by apply (Hno _ Hr2)].
  destruct Hl as [_ Hname]. cbn [name] in Hname. apply (f_equal zlen) in Hname. rewrite zlen_take in Hname.
  unfold MAX_FILENAME in *. lia.
Qed.

(** ** Witnesses *)
Definition empty_ram : ramfs_state := ramfs_init (RamState [] 0).
Lemma empty_ram_ok : ram_ok empty_ram.
Proof.
  constructor; [done | | | |].
  - intros i Hi. unfold empty_ram, ramfs_init. cbn [files]. rewrite aget_replicate by (unfold MAX_FILES in *; lia). done.
  - intros i Hi. unfold empty_ram, ramfs_init. cbn [files]. rewrite aget_replicate by (unfold MAX_FILES in *; lia). done.
  - intros i j n Hi Hj [Hu _]. unfold empty_ram, ramfs_init in Hu. cbn [files] in Hu.
    rewrite aget_replicate in Hu by (unfold MAX_FILES in *; lia). done.
  - vm_compute. reflexivity.
Qed.
Definition one_file : ramfs_state := (ramfs_create [97] [1; 2; 3] 3 empty_ram).2.
Lemma one_file_ok : ram_ok one_file.
Proof.
  destruct (create_spec empty_ram [97] [1; 2; 3] 3 0 one_file) as [[? _] | (_ & H & _)]; try done.
  apply empty_ram_ok.
Qed.

Lemma ramfs_create_refines_witness : contents one_file [97] = Some [1; 2; 3].
Proof.
  destruct (ramfs_create_refines empty_ram [97] [1; 2; 3] 3 0 one_file) as [[H _] | (_ & _ & H)];
    [apply empty_ram_ok | vm_compute; reflexivity | vm_compute; split; discriminate | vm_compute; reflexivity | discriminate H |].
  rewrite H. reflexivity.
Defined.

Lemma ramfs_delete_refines_witness : contents (ramfs_delete [97] one_file).2 [97] = None.
Proof.
  destruct (ramfs_delete_refines one_file [97] 0 (ramfs_delete [97] one_file).2) as [[H _] | (_ & _ & _ & H)];
    [apply one_file_ok | vm_compute; reflexivity | discriminate H |].
  rewrite H. reflexivity.
Defined.

Lemma ramfs_read_correct_witness : ramfs_read [97] 2 one_file = (-1, Some 3, []).
Proof. rewrite (ramfs_read_correct one_file [97] 2 one_file_ok). vm_compute. reflexivity. Defined.

Lemma ramfs_long_name_lost_witness :
  ramfs_read (replicate 40 97) 512 (ramfs_create (replicate 40 97) [1] 1 empty_ram).2 = (-1, None, []).
Proof.
  apply (ramfs_long_name_lost empty_ram (replicate 40 97) [1] 1);
    [apply empty_ram_ok | vm_compute; discriminate | vm_compute; split; discriminate | vm_compute; discriminate
    | vm_compute; reflexivity | vm_compute; reflexivity].
Defined.
End Ramfs.
