(* ===== verification/Vfs.v ===== *)
(** * The virtual file system switch (kernel/fs/vfs.c)

    A table of at most eight mount points.  [vfs_ops_t] is a record of optional
    functions over a world [W]; mounts hold pointers [O] to such records.
    Strings are lists of non-zero characters; [zt] adds the NUL where the code
    compares with the string library. *)
From S2P Require Import Prelude.
From S2P Require Import CString.
From S2P Require Import Fat.

Module Vfs.
Import CString.
Definition VFS_MAX_MOUNTS : Z := 8.
(** [sizeof(mounts[0].path)] *)
Definition PATH_SIZE : Z := 32.
Definition SLASH : Z := 47.

Record vfs_ops (W : Type) := VfsOps {
  op_name : W → list Z;
  op_create : option (list Z → list Z → Z → W → Fat.outcome Z * W);
  op_read : option (list Z → Z → W → Fat.outcome Fat.read_result * W);
  op_delete : option (list Z → W → Fat.outcome Z * W);
  op_list : option (W → Fat.outcome (Z * list Fat.fs_file_info) * W);
  op_mkdir : option (list Z → W → Fat.outcome Z * W);
  op_rmdir : option (list Z → W → Fat.outcome Z * W);
  op_chdir : option (list Z → W → Fat.outcome Z * W);
  op_getcwd : option (W → list Z);
  op_disk_info : option (W → Fat.outcome (Z * Z * Z) * W)
}.
Arguments op_name {W}. Arguments op_create {W}. Arguments op_read {W}. Arguments op_delete {W}.
Arguments op_list {W}. Arguments op_mkdir {W}. Arguments op_rmdir {W}. Arguments op_chdir {W}.
Arguments op_getcwd {W}. Arguments op_disk_info {W}.

(** The zero-terminated array of a string. *)
Definition zt (s : list Z) : list Z := s ++ [0].
Definition streq (a b : list Z) : bool := bool_decide (strcmp (zt a) (zt b) = Some 0).
Definition strneq (a b : list Z) (n : Z) : bool := bool_decide (strncmp (zt a) (zt b) (Z.to_nat n) = Some 0).
Definition is_sep (c : Z) : bool := (c =? SLASH) || (c =? 0).

Section Table.
Context {O : Type}.

Record mount_t := Mount { m_path : list Z; m_ops : option O }.
#[export] Instance mount_inhabited : Inhabited mount_t := populate (Mount [] None).
Record vfs_state := VfsState { mounts : list mount_t; mount_count : Z }.

Definition vfs_init (st : vfs_state) : vfs_state := VfsState (replicate (Z.to_nat VFS_MAX_MOUNTS) (Mount [] None)) 0.

(** [while (len > 1 && path[len - 1] == '/') len--] *)
Fixpoint strip_len (path : list Z) (len : nat) : nat :=
  match len with
  | S ((S _) as n) => if path.[Z.of_nat n] =? SLASH then strip_len path n else len
  | _ => len
  end.

Definition vfs_mount (path : list Z) (ops : O) (st : vfs_state) : Z * vfs_state :=
  if negb (path.[0] =? SLASH) then (-1, st) else
  let len := zlen path in
  if (len <=? 0) || (PATH_SIZE <=? len) then (-1, st) else
  let len := Z.of_nat (strip_len path (length path)) in
  match for_range 0 (mount_count st) (λ i (_ : unit),
          let m := (mounts st).[i] in
          if strneq (m_path m) path len && ((zt (m_path m)).[len] =? 0) then inr i else inl tt) tt with
  | inr i => (0, VfsState ((mounts st).[i <- Mount (m_path (mounts st).[i]) (Some ops)]) (mount_count st))
  | inl _ =>
      if VFS_MAX_MOUNTS <=? mount_count st then (-1, st) else
      (0, VfsState ((mounts st).[mount_count st <- Mount (take (Z.to_nat len) path) (Some ops)]) (mount_count st + 1))
  end.

Definition vfs_mount_root (ops : O) (st : vfs_state) : Z * vfs_state := vfs_mount [SLASH] ops st.

(** [for (j = i; j < mount_count - 1; j++) mounts[j] = mounts[j + 1]] *)
Definition shift_down (l : list mount_t) (i n : Z) : list mount_t :=
  for_each i (n - 1) (λ j l, l.[j <- l.[j + 1]]) l.

Definition vfs_umount (path : list Z) (st : vfs_state) : Z * vfs_state :=
  if negb (path.[0] =? SLASH) || streq path [SLASH] then (-1, st) else
  match for_range 0 (mount_count st) (λ i (_ : unit),
          if streq (m_path (mounts st).[i]) path then inr i else inl tt) tt with
  | inr i =>
      let n := mount_count st - 1 in
      (0, VfsState ((shift_down (mounts st) i (mount_count st)).[n <- Mount [] None]) n)
  | inl _ => (-1, st)
  end.

(** The mount's operations and the path below it. *)
Definition resolve (path : list Z) (st : vfs_state) : option O * list Z :=
  if mount_count st =? 0 then (None, []) else
  if negb (path.[0] =? SLASH) then (m_ops (mounts st).[0], path) else
  let '(best, best_len) :=
    for_each 0 (mount_count st) (λ i b,
      let '(best, best_len) := b in
      let m := m_path (mounts st).[i] in
      let len := zlen m in
      if len =? 1 then (if best_len <? 1 then (i, 1) else b)
      else if strneq path m len && is_sep (zt path).[len] && (best_len <? len) then (i, len) else b) (-1, -1) in
  if best <? 0 then (None, []) else
  (m_ops (mounts st).[best],
   if best_len =? 1 then drop 1 path
   else if (zt path).[best_len] =? SLASH then drop (Z.to_nat (best_len + 1)) path else []).

(** ** The switch *)
Context {W : Type} (deref : O → vfs_ops W).
Definition NONE_NAME : list Z := [110; 111; 110; 101].

(** [append]: copy while there is room for one more and the NUL. *)
Definition append (buf : list Z) (max : Z) (s : list Z) : list Z := buf ++ take (Z.to_nat (max - 1 - zlen buf)) s.

(** The text left in the buffer (without the NUL) and [*size]; [None] is -1. *)
Definition vfs_get_mounts (max_size : Z) (st : vfs_state) (w : W) : option (list Z * Z) :=
  if max_size =? 0 then None else
  let text := for_each 0 (mount_count st) (λ i buf,
    let m := (mounts st).[i] in
    let buf := append buf max_size (m_path m) in
    let buf := append buf max_size [32] in
    let buf := append buf max_size (match m_ops m with Some o => op_name (deref o) w | None => NONE_NAME end) in
    append buf max_size [10]) [] in
  Some (text, zlen text).

Definition vfs_get_root_type (st : vfs_state) (w : W) : list Z :=
  match (if 0 <? mount_count st then m_ops (mounts st).[0] else None) with
  | Some o => op_name (deref o) w
  | None => NONE_NAME
  end.

Definition vfs_create (path data : list Z) (size : Z) (st : vfs_state) (w : W) : Fat.outcome Z * W :=
  let '(ops, sub) := resolve path st in
  match o ← ops; op_create (deref o) with Some f => f sub data size w | None => (Fat.Val (-1), w) end.
Definition vfs_read (path : list Z) (max : Z) (st : vfs_state) (w : W) : Fat.outcome Fat.read_result * W :=
  let '(ops, sub) := resolve path st in
  match o ← ops; op_read (deref o) with
  | Some f => f sub max w
  | None => (Fat.Val (Fat.ReadResult (-1) None []), w)
  end.
Definition vfs_delete (path : list Z) (st : vfs_state) (w : W) : Fat.outcome Z * W :=
  let '(ops, sub) := resolve path st in
  match o ← ops; op_delete (deref o) with Some f => f sub w | None => (Fat.Val (-1), w) end.
Definition vfs_list (st : vfs_state) (w : W) : Fat.outcome (Z * list Fat.fs_file_info) * W :=
  let '(ops, sub) := resolve [] st in
  match o ← ops; op_list (deref o) with Some f => f w | None => (Fat.Val (-1, []), w) end.
Definition vfs_mkdir (path : list Z) (st : vfs_state) (w : W) : Fat.outcome Z * W :=
  let '(ops, sub) := resolve path st in
  match o ← ops; op_mkdir (deref o) with Some f => f sub w | None => (Fat.Val (-1), w) end.
Definition vfs_rmdir (path : list Z) (st : vfs_state) (w : W) : Fat.outcome Z * W :=
  let '(ops, sub) := resolve path st in
  match o ← ops; op_rmdir (deref o) with Some f => f sub w | None => (Fat.Val (-1), w) end.
Definition vfs_chdir (path : list Z) (st : vfs_state) (w : W) : Fat.outcome Z * W :=
  let '(ops, sub) := resolve path st in
  match o ← ops; op_chdir (deref o) with Some f => f sub w | None => (Fat.Val (-1), w) end.
Definition vfs_getcwd (st : vfs_state) (w : W) : list Z :=
  match (if 0 <? mount_count st then o ← m_ops (mounts st).[0]; op_getcwd (deref o) else None) with
  | Some f => f w
  | None => [SLASH]
  end.
Definition vfs_get_disk_info (st : vfs_state) (w : W) : Fat.outcome (Z * Z * Z) * W :=
  match (if 0 <? mount_count st then o ← m_ops (mounts st).[0]; op_disk_info (deref o) else None) with
  | Some f => f w
  | None => (Fat.Val (0, 0, 0), w)
  end.
End Table.
Arguments vfs_state : clear implicits.
Arguments mount_t : clear implicits.

(** ** Strings *)
Lemma strcmp_zt a b : 0 ∉ a → 0 ∉ b → strcmp (zt a) (zt b) = Some 0 ↔ a = b.
Proof.
  revert b. induction a as [| x a IH]; intros [| y b] Ha Hb; unfold zt in *; cbn [app strcmp].
  - done.
  - apply not_elem_of_cons in Hb as [Hy _]. cbn [negb Z.eqb andb]. split; [intros [= ?]; lia | done].
  - apply not_elem_of_cons in Ha as [Hx _]. rewrite (proj2 (Z.eqb_neq x 0)) by congruence. cbn [negb andb].
    split; [intros [= ?]; lia | done].
  - apply not_elem_of_cons in Ha as [Hx Ha]. apply not_elem_of_cons in Hb as [Hy Hb].
    rewrite (proj2 (Z.eqb_neq x 0)) by congruence. cbn [negb andb].
    destruct (Z.eqb_spec x y) as [-> |].
    + rewrite IH by done. split; congruence.
    + split; [intros [= ?]; lia | congruence].
Qed.

Lemma streq_spec a b : 0 ∉ a → 0 ∉ b → streq a b = bool_decide (a = b).
Proof. intros Ha Hb. unfold streq. apply bool_decide_ext. by apply strcmp_zt. Qed.

(** With [n] at most the length of the second string, [strncmp] is zero
    exactly when the first [n] characters agree. *)
Lemma strncmp_zt a b n :
  0 ∉ a → 0 ∉ b → (n ≤ length b)%nat → strncmp (zt a) (zt b) n = Some 0 ↔ take n a = take n b.
Proof.
  revert a b. induction n as [| n IH]; intros a b Ha Hb Hn; [split; reflexivity |].
  destruct b as [| y b]; [cbn in Hn; lia |]. apply not_elem_of_cons in Hb as [Hy Hb].
  destruct a as [| x a]; unfold zt in *; cbn [app strncmp take].
  - cbn [negb Z.eqb andb]. split; [intros [= ?]; lia | done].
  - apply not_elem_of_cons in Ha as [Hx Ha]. rewrite (proj2 (Z.eqb_neq x 0)) by congruence. cbn [negb andb].
    destruct (Z.eqb_spec x y) as [-> |].
    + cbn in Hn. rewrite IH by (done || lia). split; congruence.
    + split; [intros [= ?]; lia | congruence].
Qed.

Lemma strneq_spec a b n : 0 ∉ a → 0 ∉ b → 0 ≤ n ≤ zlen b →
  strneq a b n = bool_decide (take (Z.to_nat n) a = take (Z.to_nat n) b).
Proof. intros Ha Hb Hn. unfold strneq. apply bool_decide_ext. apply strncmp_zt; [done | done |]. unfold zlen in Hn. lia. Qed.

Lemma strncmp_zt_sym a b n :
  0 ∉ a → 0 ∉ b → (n ≤ length a)%nat → strncmp (zt a) (zt b) n = Some 0 ↔ take n a = take n b.
Proof.
  revert a b. induction n as [| n IH]; intros a b Ha Hb Hn; [split; reflexivity |].
  destruct a as [| x a]; [cbn in Hn; lia |]. apply not_elem_of_cons in Ha as [Hx Ha].
  unfold zt in *. cbn [app strncmp take]. rewrite (proj2 (Z.eqb_neq x 0)) by congruence. cbn [negb andb].
  destruct b as [| y b]; cbn [app take].
  - rewrite (proj2 (Z.eqb_neq x 0)) by congruence. split; [intros [= ?]; lia | done].
  - apply not_elem_of_cons in Hb as [Hy Hb]. destruct (Z.eqb_spec x y) as [-> |].
    + cbn in Hn. rewrite IH by (done || lia). split; congruence.
    + split; [intros [= ?]; lia | congruence].
Qed.

(** ** The table *)
Section Laws.
Context {O : Type}.
Implicit Types st : vfs_state O.

Definition active st : list (mount_t O) := take (Z.to_nat (mount_count st)) (mounts st).

(** A path as [vfs_mount] stores it. *)
Definition path_ok (p : list Z) : Prop := p.[0] = SLASH ∧ (0 ∉ p) ∧ 0 < zlen p < PATH_SIZE.

Record vfs_ok st : Prop := VfsOk {
  vo_len : zlen (mounts st) = VFS_MAX_MOUNTS;
  vo_count : 0 ≤ mount_count st ≤ VFS_MAX_MOUNTS;
  vo_paths : Forall (λ m, path_ok (m_path m)) (active st);
  vo_uniq : NoDup (m_path <$> active st)
}.

Lemma zlen_active st : vfs_ok st → zlen (active st) = mount_count st.
Proof. intros Hok. destruct (vo_count _ Hok). unfold active. rewrite zlen_take, (vo_len _ Hok). lia. Qed.

Lemma active_get st i : vfs_ok st → 0 ≤ i < mount_count st → (active st).[i] = (mounts st).[i].
Proof. intros Hok Hi. unfold active. apply aget_take. lia. Qed.

Lemma active_path_ok st i : vfs_ok st → 0 ≤ i < mount_count st → path_ok (m_path (mounts st).[i]).
Proof.
  intros Hok Hi. rewrite <- active_get by done.
  apply (Forall_aget (λ m, path_ok (m_path m))); [apply Hok | by rewrite zlen_active].
Qed.

(** The file system mounted at exactly a path. *)
Fixpoint assoc (l : list (mount_t O)) (p : list Z) : option O :=
  match l with [] => None | m :: r => if bool_decide (m_path m = p) then m_ops m else assoc r p end.
Definition mounted_at st (p : list Z) : option O := assoc (active st) p.

Lemma assoc_app l1 l2 p : p ∉ (m_path <$> l1) → assoc (l1 ++ l2) p = assoc l2 p.
Proof.
  induction l1 as [| m l1 IH]; intros Hp; [done |]. cbn in *. apply not_elem_of_cons in Hp as [Hne Hp].
  rewrite bool_decide_false by congruence. by apply IH.
Qed.
Lemma assoc_app_l l1 l2 p : p ∉ (m_path <$> l2) → assoc (l1 ++ l2) p = assoc l1 p.
Proof.
  induction l1 as [| m l1 IH]; intros Hp; cbn.
  - induction l2 as [| m l2 IH]; [done |]. cbn in *. apply not_elem_of_cons in Hp as [Hne Hp].
    rewrite bool_decide_false by congruence. by apply IH.
  - case_bool_decide; [done | by apply IH].
Qed.
Lemma assoc_absent l p : p ∉ (m_path <$> l) → assoc l p = None.
Proof. intros Hp. rewrite <- (app_nil_r l). by rewrite (assoc_app l [] p). Qed.

(** Replacing, removing and adding one element of a list of distinct paths. *)
Lemma assoc_middle l1 m m' l2 p :
  m_path m' = m_path m → NoDup (m_path <$> (l1 ++ m :: l2)) →
  assoc (l1 ++ m' :: l2) p = if decide (p = m_path m) then m_ops m' else assoc (l1 ++ m :: l2) p.
Proof.
  intros Hm Hnd. rewrite fmap_app in Hnd. apply NoDup_app in Hnd as (_ & Hx & [Hn _]%NoDup_cons).
  destruct (decide (p = m_path m)) as [-> | Hne].
  - rewrite assoc_app; [cbn; by rewrite bool_decide_true | intros Hin; apply (Hx _ Hin); apply list_elem_of_here].
  - induction l1 as [| k l1 IH]; cbn; [by rewrite !bool_decide_false by congruence |].
    case_bool_decide; [done |]. apply IH. intros y Hy. apply Hx. by apply list_elem_of_further.
Qed.
Lemma assoc_remove l1 m l2 p :
  NoDup (m_path <$> (l1 ++ m :: l2)) → assoc (l1 ++ l2) p = if decide (p = m_path m) then None else assoc (l1 ++ m :: l2) p.
Proof.
  intros Hnd. rewrite fmap_app in Hnd. apply NoDup_app in Hnd as (_ & Hx & [Hn _]%NoDup_cons).
  destruct (decide (p = m_path m)) as [-> | Hne].
  - rewrite assoc_app; [by apply assoc_absent | intros Hin; apply (Hx _ Hin); apply list_elem_of_here].
  - induction l1 as [| k l1 IH]; cbn; [by rewrite bool_decide_false by congruence |].
    case_bool_decide; [done |]. apply IH. intros y Hy. apply Hx. by apply list_elem_of_further.
Qed.

(** The mount whose path is [p], found by scanning. *)
Lemma active_split st i : vfs_ok st → 0 ≤ i < mount_count st →
  active st = take (Z.to_nat i) (mounts st) ++ (mounts st).[i] :: drop (Z.to_nat (i + 1)) (active st).
Proof.
  intros Hok Hi. pose proof (lookup_aget (active st) i ltac:(by rewrite zlen_active)) as E. rewrite active_get in E by done.
  rewrite <- (take_drop_middle _ _ _ E) at 1. f_equal; [unfold active; rewrite take_take; f_equal; lia |].
  f_equal. f_equal. lia.
Qed.

Lemma strip_len_le path n : (strip_len path n ≤ n)%nat ∧ (0 < n → 0 < strip_len path n)%nat.
Proof.
  induction n as [| [| n] IH]; [done | cbn; lia |]. change (strip_len path (Datatypes.S (Datatypes.S n))) with
    (if path.[Z.of_nat (Datatypes.S n)] =? SLASH then strip_len path (Datatypes.S n) else Datatypes.S (Datatypes.S n)).
  destruct (_ =? SLASH); lia.
Qed.

(** The path a mount request is stored under. *)
Definition mount_path (path : list Z) : list Z := take (strip_len path (length path)) path.

Lemma mount_path_ok path : path.[0] = SLASH → 0 ∉ path → 0 < zlen path < PATH_SIZE → path_ok (mount_path path).
Proof.
  intros Hs H0 Hl. destruct (strip_len_le path (length path)) as [H1 H2]. unfold path_ok, mount_path. unfold zlen in *.
  rewrite length_take. split; [rewrite aget_take; [done | lia] |]. split; [| lia].
  intros Hin. apply H0. by apply elem_of_take in Hin as (? & ? & _); eapply list_elem_of_lookup_2.
Qed.

(** The scan of [vfs_mount] compares whole paths. *)
Lemma mount_match (m : mount_t O) path :
  path_ok (m_path m) → 0 ∉ path → 0 < zlen path →
  let len := Z.of_nat (strip_len path (length path)) in
  strneq (m_path m) path len && ((zt (m_path m)).[len] =? 0) = bool_decide (m_path m = mount_path path).
Proof.
  intros (_ & Hm0 & Hml) H0 Hl len. destruct (strip_len_le path (length path)) as [Hs1 Hs2]. unfold zlen in *.
  rewrite strneq_spec by (done || unfold zlen; lia). unfold mount_path. subst len. rewrite Nat2Z.id.
  set (n := strip_len path (length path)) in *. set (p := m_path m) in *.
  destruct (bool_decide_reflect (take n p = take n path)) as [E | E]; cbn [andb].
  - assert (n ≤ length p)%nat as Hn.
    { apply (f_equal length) in E. rewrite !length_take in E. lia. }
    rewrite <- E. unfold zt. destruct (decide (length p = n)) as [Hlen | Hlen].
    + rewrite aget_app_r by (unfold zlen; lia). unfold zlen. rewrite Hlen, Z.sub_diag. rewrite take_ge by lia.
      by rewrite bool_decide_true.
    + rewrite aget_app_l by (unfold zlen; lia). rewrite bool_decide_false by (intros Hp; rewrite Hp, length_take in Hlen; lia).
      apply Z.eqb_neq. intros Hz. apply Hm0. rewrite <- Hz. eapply list_elem_of_lookup_2. apply (lookup_aget p). unfold zlen. lia.
  - rewrite bool_decide_false; [done |]. intros ->. apply E. rewrite take_take, Nat.min_id. done.
Qed.

(** A scan for the first index with a property. *)
Lemma scan_spec (n : Z) (test : Z → bool) :
  match for_range 0 n (λ i (_ : unit), if test i then inr i else inl tt) tt with
  | inl _ => ∀ i, 0 ≤ i < n → test i = false
  | inr i => 0 ≤ i < n ∧ test i = true
  end.
Proof.
  set (body := λ (i : Z) (_ : unit), _).
  assert (match for_range 0 n body tt with
    | inl _ => ∀ j, 0 ≤ j < Z.max 0 n → test j = false | inr i => 0 ≤ i < n ∧ test i = true end) as HI.
  { apply (for_range_inv (λ i _, ∀ j, 0 ≤ j < i → test j = false)); [lia | |]; intros i [] r Hi Hj; unfold body;
      destruct (test i) eqn:E; try done.
    - intros _ j Hjr. destruct (decide (j = i)) as [-> |]; [done | apply Hj; lia].
    - by intros [= <-]. }
  destruct (for_range 0 n body tt); [| done]. intros i Hi. apply HI. lia.
Qed.

Lemma paths_absent st p : vfs_ok st → (∀ i, 0 ≤ i < mount_count st → m_path (mounts st).[i] ≠ p) → p ∉ (m_path <$> active st).
Proof.
  intros Hok Hno (m & -> & Hm)%list_elem_of_fmap. apply list_elem_of_lookup in Hm as [k Hk].
  assert (Z.of_nat k < mount_count st) by (rewrite <- zlen_active by done; unfold zlen; apply lookup_lt_Some in Hk; lia).
  apply (Hno (Z.of_nat k)); [lia |]. rewrite <- active_get by (done || lia).
  f_equal. apply aget_lookup; [lia | by rewrite Nat2Z.id].
Qed.

Lemma mount_spec path ops st rc st' :
  vfs_ok st → 0 ∉ path → vfs_mount path ops st = (rc, st') →
  (rc = -1 ∧ st' = st ∧ (path.[0] ≠ SLASH ∨ PATH_SIZE ≤ zlen path ∨ mount_count st = VFS_MAX_MOUNTS ∧ mount_path path ∉ (m_path <$> active st))) ∨
  (rc = 0 ∧ vfs_ok st' ∧ ∀ p, mounted_at st' p = if decide (p = mount_path path) then Some ops else mounted_at st p).
Proof.
  intros Hok H0. unfold vfs_mount. destruct (Z.eqb_spec path.[0] SLASH) as [Hs | Hs]; cbn [negb].
  2: { intros [= <- <-]. left. auto. }
  destruct (Z.leb_spec (zlen path) 0) as [Hz | Hz].
  { destruct path; [done |]. rewrite zlen_cons in Hz. pose proof (zlen_nonneg path). lia. }
  destruct (Z.leb_spec PATH_SIZE (zlen path)); cbn [orb]; [intros [= <- <-]; left; auto |].
  pose proof (mount_path_ok path Hs H0 ltac:(lia)) as Hp. cbn zeta.
  pose proof (scan_spec (mount_count st) (λ i, strneq (m_path (mounts st).[i]) path (Z.of_nat (strip_len path (length path))) &&
    ((zt (m_path (mounts st).[i])).[Z.of_nat (strip_len path (length path))] =? 0))) as HF. cbn beta in HF.
  pose proof (vo_len _ Hok) as Hlen. pose proof (vo_count _ Hok) as Hcnt.
  destruct (for_range 0 (mount_count st) _ tt) as [[] | i].
  - assert (mount_path path ∉ (m_path <$> active st)) as Hnew.
    { apply paths_absent; [done |]. intros j Hj E. specialize (HF j Hj). rewrite mount_match in HF by (done || by apply active_path_ok).
      by rewrite bool_decide_true in HF. }
    destruct (Z.leb_spec VFS_MAX_MOUNTS (mount_count st)).
    { intros [= <- <-]. left. split; [done |]. split; [done |]. right; right. split; [lia | done]. }
    rewrite Nat2Z.id. fold (mount_path path). intros [<- <-]%pair_equal_spec. right. split; [done |].
    set (st' := VfsState _ _).
    assert (active st' = active st ++ [Mount (mount_path path) (Some ops)]) as Ha.
    { unfold active, st'. cbn [mounts mount_count]. unfold aset. rewrite decide_True by lia.
      replace (Z.to_nat (mount_count st + 1)) with (Datatypes.S (Z.to_nat (mount_count st))) by lia.
      rewrite (take_S_r _ _ (Mount (mount_path path) (Some ops))) by (apply list_lookup_insert_eq; unfold zlen in *; lia).
      by rewrite take_insert_ge by lia. }
    split.
    + constructor; [unfold st'; cbn [mounts]; by rewrite zlen_aset | unfold st'; cbn [mount_count]; lia | |]; rewrite Ha.
      * apply Forall_app. split; [apply Hok |]. fall.
      * rewrite fmap_app. apply NoDup_app. split; [apply Hok |]. split; [| apply NoDup_singleton].
        intros y Hy ->%list_elem_of_singleton. done.
    + intros p. unfold mounted_at. rewrite Ha. destruct (decide (p = mount_path path)) as [-> | Hne].
      * rewrite assoc_app by done. cbn. by rewrite bool_decide_true.
      * apply assoc_app_l. intros ->%list_elem_of_singleton. done.
  - destruct HF as [Hi Ht]. rewrite mount_match in Ht by (done || by apply active_path_ok). apply bool_decide_eq_true in Ht.
    intros [<- <-]%pair_equal_spec. right. split; [done |]. set (m := (mounts st).[i]) in *.
    set (st' := VfsState _ _).
    assert (active st' = take (Z.to_nat i) (mounts st) ++ Mount (m_path m) (Some ops) :: drop (Z.to_nat (i + 1)) (active st)) as Ha.
    { unfold active at 1, st'. cbn [mounts mount_count]. unfold aset. rewrite decide_True by lia.
      rewrite take_insert_lt by lia. fold (active st). rewrite (active_split st i) at 1 by done.
      assert (length (take (Z.to_nat i) (mounts st)) = Z.to_nat i) as Hli by (rewrite length_take; unfold zlen in *; lia).
      rewrite insert_app_r_alt by lia. rewrite Hli, Nat.sub_diag. done. }
    pose proof (active_split st i Hok Hi) as Hsp. fold m in Hsp. pose proof (vo_uniq _ Hok) as Hu. pose proof (vo_paths _ Hok) as Hpa.
    split.
    + constructor; [unfold st'; cbn [mounts]; by rewrite zlen_aset | done | |]; rewrite Ha; rewrite Hsp in Hu, Hpa.
      * apply Forall_app in Hpa as [? [? ?]%Forall_cons]. apply Forall_app. split; [done |]. by apply Forall_cons.
      * rewrite fmap_app in Hu |- *. exact Hu.
    + intros p. unfold mounted_at. rewrite Ha, (assoc_middle _ m); [| done | by rewrite <- Hsp].
      by rewrite <- Hsp, Ht.
Qed.

(** Removing an entry by shifting the following ones down. *)
Lemma shift_down_spec (l : list (mount_t O)) i n :
  0 ≤ i < n → n ≤ zlen l →
  zlen (shift_down l i n) = zlen l ∧
  take (Z.to_nat (n - 1)) (shift_down l i n) = take (Z.to_nat i) l ++ drop (Z.to_nat (i + 1)) (take (Z.to_nat n) l).
Proof.
  intros Hi Hn. unfold shift_down.
  assert (zlen (for_each i (n - 1) (λ j l, l.[j <- l.[j + 1]]) l) = zlen l ∧
    ∀ k, 0 ≤ k → (for_each i (n - 1) (λ j l, l.[j <- l.[j + 1]]) l).[k] =
      if (i <=? k) && (k <? n - 1) then l.[k + 1] else l.[k]) as [Hl Hk].
  { apply (for_each_inv_le (λ j t, zlen t = zlen l ∧ ∀ k, 0 ≤ k → t.[k] = if (i <=? k) && (k <? j) then l.[k + 1] else l.[k])); [lia | |].
    - split; [done |]. intros k Hk. destruct (Z.leb_spec i k), (Z.ltb_spec k i); (done || lia).
    - intros j t Hj [Hlt Hkt]. split; [by rewrite zlen_aset |]. intros k Hk.
      destruct (decide (k = j)) as [-> | Hne].
      + rewrite aget_aset_eq, Hkt by lia.
        destruct (Z.leb_spec i (j + 1)), (Z.ltb_spec (j + 1) j), (Z.leb_spec i j), (Z.ltb_spec j (j + 1)); (done || lia).
      + rewrite aget_aset_ne, Hkt by (lia || congruence).
        destruct (Z.leb_spec i k), (Z.ltb_spec k j), (Z.ltb_spec k (j + 1)); (done || lia). }
  split; [done |]. apply array_ext.
  - rewrite zlen_app, !zlen_take, zlen_drop, zlen_take, Hl. lia.
  - rewrite zlen_take, Hl. intros k Hkr. rewrite aget_take, Hk by lia.
    destruct (decide (k < i)) as [Hlt | Hge].
    + rewrite aget_app_l, aget_take by (rewrite ?zlen_take; lia). by rewrite (proj2 (Z.leb_gt i k)) by lia.
    + rewrite aget_app_r by (rewrite zlen_take; lia). rewrite zlen_take, Z.min_l, aget_drop, aget_take by lia.
      rewrite (proj2 (Z.leb_le i k)), (proj2 (Z.ltb_lt k (n - 1))) by lia. cbn [andb]. f_equal. lia.
Qed.

Lemma umount_spec path st rc st' :
  vfs_ok st → 0 ∉ path → vfs_umount path st = (rc, st') →
  (rc = -1 ∧ st' = st ∧ (path.[0] ≠ SLASH ∨ path = [SLASH] ∨ path ∉ (m_path <$> active st))) ∨
  (rc = 0 ∧ vfs_ok st' ∧ path ≠ [SLASH] ∧ ∀ p, mounted_at st' p = if decide (p = path) then None else mounted_at st p).
Proof.
  intros Hok H0. unfold vfs_umount. destruct (Z.eqb_spec path.[0] SLASH); cbn [negb orb]; [| intros [= <- <-]; left; auto].
  rewrite streq_spec by (done || lmem). destruct (bool_decide_reflect (path = [SLASH])) as [| Hroot]; [intros [= <- <-]; left; auto |].
  pose proof (scan_spec (mount_count st) (λ i, streq (m_path (mounts st).[i]) path)) as HF. cbn beta in HF.
  destruct (for_range 0 (mount_count st) _ tt) as [[] | i].
  { intros [= <- <-]. left. split; [done |]. split; [done |]. right; right. apply paths_absent; [done |].
    intros j Hj E. specialize (HF j Hj). destruct (active_path_ok st j Hok Hj) as (_ & ? & _).
    rewrite streq_spec, bool_decide_true in HF by done. done. }
  destruct HF as [Hi Ht]. destruct (active_path_ok st i Hok Hi) as (_ & Hp0 & _).
  rewrite streq_spec in Ht by done. apply bool_decide_eq_true in Ht. pose proof (vo_len _ Hok). pose proof (vo_count _ Hok).
  destruct (shift_down_spec (mounts st) i (mount_count st) Hi ltac:(lia)) as [Hsl Hst].
  cbn zeta. intros [<- <-]%pair_equal_spec. right. split; [done |].
  pose proof (active_split st i Hok Hi) as Hsp. set (m := (mounts st).[i]) in *. set (st' := VfsState _ _).
  assert (active st' = take (Z.to_nat i) (mounts st) ++ drop (Z.to_nat (i + 1)) (active st)) as Ha.
  { unfold active, st'. cbn [mounts mount_count]. rewrite <- Hst. apply array_ext.
    - rewrite !zlen_take, zlen_aset. done.
    - rewrite zlen_take, zlen_aset. intros k Hk. rewrite !aget_take, aget_aset_ne by lia. done. }
  pose proof (vo_uniq _ Hok) as Hu. pose proof (vo_paths _ Hok) as Hpa.
  split; [| split; [done |]].
  - constructor; [unfold st'; cbn [mounts]; by rewrite zlen_aset, Hsl | unfold st'; cbn [mount_count]; lia | |]; rewrite Ha; rewrite Hsp in Hu, Hpa.
    + apply Forall_app in Hpa as [? [? ?]%Forall_cons]. by apply Forall_app.
    + rewrite fmap_app in *. apply NoDup_app in Hu as (? & Hx & [? ?]%NoDup_cons). apply NoDup_app. split; [done |]. split; [| done].
      intros y Hy Hy2. apply (Hx y Hy). by apply list_elem_of_further.
  - intros p. unfold mounted_at. rewrite Ha, (assoc_remove _ m); [| by rewrite <- Hsp]. by rewrite <- Hsp, Ht.
Qed.

(** ** Resolution *)

(** Mount point [m] covers [path]: it is the root or a prefix of whole
    components. *)
Definition covers (m path : list Z) : Prop :=
  zlen m = 1 ∨ ∃ r, path = m ++ r ∧ (r = [] ∨ r.[0] = SLASH).

Lemma covers_spec m path :
  path_ok m → 0 ∉ path → zlen m ≠ 1 →
  strneq path m (zlen m) && is_sep (zt path).[zlen m] = true ↔ covers m path.
Proof.
  intros (_ & Hm0 & Hml) H0 Hne. rewrite strneq_spec by (done || lia). rewrite andb_true_iff, bool_decide_eq_true.
  unfold covers, zlen in *. rewrite Nat2Z.id, (take_ge m) by lia. split.
  - intros [E Hsep]. right. exists (drop (length m) path). split; [rewrite <- E at 1; by rewrite take_drop |].
    assert (length m ≤ length path)%nat as Hl by (apply (f_equal length) in E; rewrite length_take in E; lia).
    destruct (drop (length m) path) as [| c r] eqn:Ed; [by left |]. right. rewrite aget_cons_0.
    assert (length (drop (length m) path) = length (c :: r)) as Hld by (by rewrite Ed). rewrite length_drop in Hld. cbn in Hld.
    assert (path.[Z.of_nat (length m)] = c) as Hc.
    { replace (Z.of_nat (length m)) with (Z.of_nat (length m) + 0) by lia. by rewrite <- aget_drop, Ed. }
    unfold zt in Hsep. rewrite aget_app_l, Hc in Hsep by (unfold zlen; lia). unfold is_sep in Hsep.
    apply orb_true_iff in Hsep as [Hs | Hs]; [by apply Z.eqb_eq |]. apply Z.eqb_eq in Hs. exfalso. apply H0.
    rewrite <- Hs, <- Hc. eapply list_elem_of_lookup_2. apply (lookup_aget path). unfold zlen. lia.
  - intros [| (r & -> & Hr)]; [done |]. rewrite take_app_length. split; [done |]. unfold zt. rewrite <- app_assoc.
    rewrite aget_app_r by (unfold zlen; lia). unfold zlen. rewrite Z.sub_diag. unfold is_sep.
    destruct r as [| c r]; [done |]. destruct Hr as [| Hr]; [done |]. rewrite aget_cons_0 in Hr. subst c. done.
Qed.

Lemma resolve_spec path st :
  vfs_ok st → 0 ∉ path → path.[0] = SLASH →
  (resolve path st = (None, []) ∧ ∀ i, 0 ≤ i < mount_count st → ¬ covers (m_path (mounts st).[i]) path) ∨
  ∃ i sub, 0 ≤ i < mount_count st ∧ resolve path st = (m_ops (mounts st).[i], sub) ∧
    covers (m_path (mounts st).[i]) path ∧
    (∀ j, 0 ≤ j < mount_count st → covers (m_path (mounts st).[j]) path →
       zlen (m_path (mounts st).[j]) ≤ zlen (m_path (mounts st).[i])) ∧
    sub = drop (Z.to_nat (if zlen (m_path (mounts st).[i]) =? 1 then 1 else zlen (m_path (mounts st).[i]) + 1)) path.
Proof.
  intros Hok H0 Hs. pose proof (vo_count _ Hok) as Hcnt. unfold resolve.
  destruct (Z.eqb_spec (mount_count st) 0) as [-> | Hc]; [left; split; [done | lia] |]. rewrite Hs. cbn [negb Z.eqb].
  set (body := λ (i : Z) (b : Z * Z), _). set (len := λ i, zlen (m_path (mounts st).[i])).
  assert (let b := for_each 0 (mount_count st) body (-1, -1) in
    (b = (-1, -1) ∧ ∀ j, 0 ≤ j < mount_count st → ¬ covers (m_path (mounts st).[j]) path) ∨
    (0 ≤ b.1 < mount_count st ∧ b.2 = len b.1 ∧ covers (m_path (mounts st).[b.1]) path ∧
     ∀ j, 0 ≤ j < mount_count st → covers (m_path (mounts st).[j]) path → len j ≤ b.2)) as HI.
  { apply (for_each_inv_le (λ i b, (b = (-1, -1) ∧ ∀ j, 0 ≤ j < i → ¬ covers (m_path (mounts st).[j]) path) ∨
      (0 ≤ b.1 < i ∧ b.2 = len b.1 ∧ covers (m_path (mounts st).[b.1]) path ∧
       ∀ j, 0 ≤ j < i → covers (m_path (mounts st).[j]) path → len j ≤ b.2))); [lia | left; split; [done | lia] |].
    intros i [best bl] Hi HI. pose proof (active_path_ok st i Hok Hi) as Hp. pose proof Hp as (_ & _ & Hpl).
    assert (∀ b' : Z * Z, covers (m_path (mounts st).[i]) path → b' = (i, len i) → bl < len i →
      (b' = (-1, -1) ∧ ∀ j, 0 ≤ j < i + 1 → ¬ covers (m_path (mounts st).[j]) path) ∨
      (0 ≤ b'.1 < i + 1 ∧ b'.2 = len b'.1 ∧ covers (m_path (mounts st).[b'.1]) path ∧
       ∀ j, 0 ≤ j < i + 1 → covers (m_path (mounts st).[j]) path → len j ≤ b'.2)) as Htake.
    { intros b' Hcv -> Hlt. right. cbn [fst snd]. split_and!; try done; try lia. intros j Hj Hcj.
      destruct (decide (j = i)) as [-> |]; [done |]. destruct HI as [[_ Hno] | (_ & _ & _ & Hmax)]; [by destruct (Hno j ltac:(lia)) |].
      specialize (Hmax j ltac:(lia) Hcj). cbn [snd] in Hmax. lia. }
    assert (¬ (covers (m_path (mounts st).[i]) path ∧ bl < len i) →
      ((best, bl) = (-1, -1) ∧ ∀ j, 0 ≤ j < i + 1 → ¬ covers (m_path (mounts st).[j]) path) ∨
      (0 ≤ best < i + 1 ∧ bl = len best ∧ covers (m_path (mounts st).[best]) path ∧
       ∀ j, 0 ≤ j < i + 1 → covers (m_path (mounts st).[j]) path → len j ≤ bl)) as Hkeep.
    { intros Hnot. destruct HI as [[E Hno] | (Hb & Hbl & Hcv & Hmax)]; cbn [fst snd] in *.
      - left. split; [done |]. intros j Hj. destruct (decide (j = i)) as [-> |]; [| apply Hno; lia].
        intros Hcv. apply Hnot. split; [done |]. injection E as _ ->. unfold len. lia.
      - right. split_and!; try done; try lia. intros j Hj Hcj. destruct (decide (j = i)) as [-> |]; [| apply Hmax; (done || lia)].
        destruct (decide (bl < len i)); [tauto | lia]. }
    unfold body. fold (len i). destruct (Z.eqb_spec (len i) 1) as [E1 | E1].
    - assert (covers (m_path (mounts st).[i]) path) as Hcv by (by left).
      destruct (Z.ltb_spec bl 1); [apply Htake; [done | by rewrite E1 | lia] | apply Hkeep; lia].
    - destruct (strneq path (m_path (mounts st).[i]) (len i) && is_sep (zt path).[len i]) eqn:Em.
      + apply covers_spec in Em; [| done | done | done]. cbn [andb].
        destruct (Z.ltb_spec bl (len i)); [by apply Htake | apply Hkeep; lia].
      + cbn [andb]. apply Hkeep. intros [Hcv _]. apply covers_spec in Hcv; [| done | done | done]. unfold len in Em. congruence. }
  destruct (for_each 0 (mount_count st) body (-1, -1)) as [best bl]. cbn [fst snd] in HI.
  destruct HI as [[[= -> ->] Hno] | (Hb & Hbl & Hcv & Hmax)]; [left; by split |].
  right. exists best. eexists. split; [done |]. rewrite (proj2 (Z.ltb_ge best 0)) by lia. subst bl.
  split; [reflexivity |]. split; [done |]. split; [exact Hmax |]. fold (len best).
  destruct (Z.eqb_spec (len best) 1) as [| Hne]; [done |]. destruct Hcv as [| (r & -> & Hr)]; [done |].
  unfold zt, len, zlen. rewrite <- app_assoc, aget_app_r by (unfold zlen; lia). unfold zlen. rewrite Z.sub_diag.
  rewrite drop_app_ge by lia. replace (Z.to_nat (Z.of_nat (length (m_path (mounts st).[best])) + 1) - length (m_path (mounts st).[best]))%nat with 1%nat by lia.
  destruct r as [| c r]; [done |]. destruct Hr as [| Hr]; [done |]. rewrite aget_cons_0 in Hr. subst c. done.
Qed.
End Laws.

(** ** Properties *)

(** C12: an absolute path is served by the mount point that covers it with the
    longest path, and the path handed down is what follows that mount point;
    without a covering mount there is no file system for it. *)
Theorem vfs_resolve_longest_prefix {O} path (st : vfs_state O) :
  vfs_ok st → 0 ∉ path → path.[0] = SLASH →
  (resolve path st = (None, []) ∧ ∀ i, 0 ≤ i < mount_count st → ¬ covers (m_path (mounts st).[i]) path) ∨
  ∃ i sub, 0 ≤ i < mount_count st ∧ resolve path st = (m_ops (mounts st).[i], sub) ∧
    covers (m_path (mounts st).[i]) path ∧
    (∀ j, 0 ≤ j < mount_count st → covers (m_path (mounts st).[j]) path →
       zlen (m_path (mounts st).[j]) ≤ zlen (m_path (mounts st).[i])) ∧
    sub = drop (Z.to_nat (if zlen (m_path (mounts st).[i]) =? 1 then 1 else zlen (m_path (mounts st).[i]) + 1)) path.
Proof. apply resolve_spec. Qed.

(** the mount table refines a map from paths to file systems.  A mount
    binds its path (trailing slashes dropped), replacing an older binding, and
    no other; it fails without effect on a relative path, a path of 32 or more
    characters, and a new path when eight are bound. *)
Theorem vfs_mount_refines {O} path (ops : O) st rc st' :
  vfs_ok st → 0 ∉ path → vfs_mount path ops st = (rc, st') →
  (rc = -1 ∧ st' = st ∧ (path.[0] ≠ SLASH ∨ PATH_SIZE ≤ zlen path ∨
     mount_count st = VFS_MAX_MOUNTS ∧ mount_path path ∉ (m_path <$> active st))) ∨
  (rc = 0 ∧ vfs_ok st' ∧ ∀ p, mounted_at st' p = if decide (p = mount_path path) then Some ops else mounted_at st p).
Proof. apply mount_spec. Qed.

(** an unmount removes exactly the binding of its path; the root can
    never be unmounted, and an unbound path changes nothing. *)
Theorem vfs_umount_refines {O} path (st : vfs_state O) rc st' :
  vfs_ok st → 0 ∉ path → vfs_umount path st = (rc, st') →
  (rc = -1 ∧ st' = st ∧ (path.[0] ≠ SLASH ∨ path = [SLASH] ∨ path ∉ (m_path <$> active st))) ∨
  (rc = 0 ∧ vfs_ok st' ∧ path ≠ [SLASH] ∧ ∀ p, mounted_at st' p = if decide (p = path) then None else mounted_at st p).
Proof. apply umount_spec. Qed.

(** ** Witnesses: numbers stand for the operation tables. *)
Definition empty_vfs : vfs_state Z := vfs_init (VfsState [] 0).
Lemma empty_vfs_ok : vfs_ok empty_vfs.
Proof. constructor; [done | done | apply Forall_nil; exact I | apply NoDup_nil_2]. Qed.
Definition DEV : list Z := [47; 100; 101; 118].
Definition root_vfs : vfs_state Z := (vfs_mount_root 1 empty_vfs).2.
Definition demo_vfs : vfs_state Z := (vfs_mount DEV 2 root_vfs).2.

Lemma dev_no_nul : 0 ∉ DEV.
Proof. apply (bool_decide_unpack _). vm_compute. exact I. Qed.
Lemma root_vfs_ok : vfs_ok root_vfs.
Proof.
  destruct (mount_spec [SLASH] 1 empty_vfs 0 root_vfs) as [[? _] | (_ & H & _)]; [apply empty_vfs_ok | lmem | | done | done].
  vm_compute. reflexivity.
Qed.
Lemma demo_vfs_ok : vfs_ok demo_vfs.
Proof.
  destruct (mount_spec DEV 2 root_vfs 0 demo_vfs) as [[? _] | (_ & H & _)];
    [apply root_vfs_ok | apply dev_no_nul | vm_compute; reflexivity | done | done].
Qed.

Lemma vfs_resolve_longest_prefix_witness :
  (resolve (DEV ++ [47; 120]) demo_vfs = (None, []) ∧
   ∀ i, 0 ≤ i < mount_count demo_vfs → ¬ covers (m_path (mounts demo_vfs).[i]) (DEV ++ [47; 120])) ∨
  ∃ i sub, 0 ≤ i < mount_count demo_vfs ∧ resolve (DEV ++ [47; 120]) demo_vfs = (m_ops (mounts demo_vfs).[i], sub) ∧
    covers (m_path (mounts demo_vfs).[i]) (DEV ++ [47; 120]).
Proof.
  destruct (vfs_resolve_longest_prefix (DEV ++ [47; 120]) demo_vfs) as [H | (i & sub & H1 & H2 & H3 & _)].
  - apply demo_vfs_ok.
  - apply (bool_decide_unpack _). vm_compute. exact I.
  - reflexivity.
  - left. exact H.
  - right. exists i, sub. split; [exact H1 |]. split; [exact H2 | exact H3].
Defined.

Lemma vfs_mount_refines_witness : mounted_at demo_vfs DEV = Some 2.
Proof.
  destruct (vfs_mount_refines DEV 2 root_vfs 0 demo_vfs) as [[H _] | (_ & _ & H)];
    [apply root_vfs_ok | apply dev_no_nul | vm_compute; reflexivity | discriminate H |].
  rewrite H. reflexivity.
Defined.

Lemma vfs_umount_refines_witness : mounted_at (vfs_umount DEV demo_vfs).2 DEV = None.
Proof.
  destruct (vfs_umount_refines DEV demo_vfs 0 (vfs_umount DEV demo_vfs).2) as [[H _] | (_ & _ & _ & H)];
    [apply demo_vfs_ok | apply dev_no_nul | vm_compute; reflexivity | discriminate H |].
  rewrite H. reflexivity.
Defined.
End Vfs.
