(* ===== verification/Fdtab.v ===== *)
(** * The file-handle table (kernel/syscall.c, the table part)

    The table is shared by all processes; a slot is tagged with the process
    that opened it.  It is kept apart from the dispatcher because
    process.c calls [syscall_close_process_fds] when it tears a process
    down, while the dispatcher calls process.c. *)
From S2P Require Import Prelude.

Module Fdtab.

Definition MAX_FD : Z := 8.
Definition FD_DATA_SIZE : Z := 16384.

Record fd_entry := Fd {
  fd_name : list Z;
  fd_data : list Z;
  fd_size : Z;
  fd_pos : Z;
  fd_used : bool;
  fd_owner_pid : Z
}.

Definition set_used (f : fd_entry) (b : bool) : fd_entry :=
  Fd (fd_name f) (fd_data f) (fd_size f) (fd_pos f) b (fd_owner_pid f).
Definition set_pos (f : fd_entry) (p : Z) : fd_entry :=
  Fd (fd_name f) (fd_data f) (fd_size f) p (fd_used f) (fd_owner_pid f).

(** The zero-initialised element of the static array. *)
Definition zero_fd : fd_entry := Fd (replicate 256 0) (replicate (Z.to_nat FD_DATA_SIZE) 0) 0 0 false 0.
#[export] Instance fd_entry_inhabited : Inhabited fd_entry := populate (Fd [] [] 0 0 false 0).

Definition fd_table := list fd_entry.
Definition fd_table_bss : fd_table := replicate 8 zero_fd.

Definition fd_table_init (t : fd_table) : fd_table :=
  for_each 0 MAX_FD (λ i t,
    t.[i <- Fd (fd_name t.[i]) (fd_data t.[i]) (fd_size t.[i]) 0 false 0]) t.

Definition syscall_close_process_fds (pid : Z) (t : fd_table) : fd_table :=
  for_each 0 MAX_FD (λ i t,
    if fd_used t.[i] && (fd_owner_pid t.[i] =? pid) then t.[i <- set_used t.[i] false] else t) t.

(** The slots a process holds. *)
Definition owns (t : fd_table) (pid i : Z) : bool :=
  fd_used t.[i] && (fd_owner_pid t.[i] =? pid).

(** Well-formed slots: the cursor of an open handle stays within the file
    and the file within the buffer. *)
Definition fd_ok (f : fd_entry) : Prop :=
  zlen (fd_name f) = 256 ∧ zlen (fd_data f) = FD_DATA_SIZE ∧
  (fd_used f = true → 0 ≤ fd_pos f ≤ fd_size f ∧ fd_size f ≤ FD_DATA_SIZE).
Definition fds_ok (t : fd_table) : Prop := zlen t = MAX_FD ∧ ∀ i, 0 ≤ i < MAX_FD → fd_ok t.[i].

Lemma close_fds_spec pid t :
  zlen t = MAX_FD →
  zlen (syscall_close_process_fds pid t) = MAX_FD ∧
  ∀ i, 0 ≤ i < MAX_FD →
    (syscall_close_process_fds pid t).[i] = if owns t pid i then set_used t.[i] false else t.[i].
Proof.
  intros Hl. unfold syscall_close_process_fds.
  set (f := λ (i : Z) (e : fd_entry), if fd_used e && (fd_owner_pid e =? pid) then set_used e false else e).
  assert (for_each 0 MAX_FD (λ i t, if fd_used t.[i] && (fd_owner_pid t.[i] =? pid)
            then t.[i <- set_used t.[i] false] else t) t
        = for_each 0 MAX_FD (λ i t, t.[i <- f i t.[i]]) t) as ->.
  { apply for_each_ext. intros i t1. unfold f. case_match; [done | by rewrite aset_aget_id]. }
  destruct (for_each_map 0 MAX_FD f t) as [F1 F2]; [lia | lia |]. split; [lia |].
  intros i Hi. rewrite F2 by lia. replace ((0 <=? i) && (i <? MAX_FD)) with true by lia. done.
Qed.

End Fdtab.
