(* ===== verification/Process.v ===== *)
(** * Processes and the scheduler (kernel/process/process.c, include/process.h)

    The kernel state [kern] holds the process table and the static variables
    of process.c, the tick counter of timer.c, RSP0 of the TSS (gdt.c), the
    virtual memory manager and the file-handle table.  A [process_t*] is the
    index of its slot.  The linker's addresses of [kernel_stacks] and of the
    boot stack are parameters.

    Operations that can hang or that run undefined behaviour (a page test
    that does not end, an unterminated name) are in the monad [km]: [None]
    means that the call does not return.  [hlt] is what happens between two
    instructions of a process that waits: the other processes and the timer.
    It is a parameter of the operations that wait. *)
From S2P Require Import Prelude.
From S2P Require Import PhysMem.
From S2P Require Import Pmm.
From S2P Require Import Vmm.
From S2P Require Import CString.
From S2P Require Import Fdtab.
Import Pmm Vmm Fdtab.

Module Process.

Definition MAX_PROCESSES : Z := 16.
Definition PROCESS_KERNEL_STACK_SIZE : Z := 8192.
Definition PROCESS_USER_STACK_PAGES : Z := 4.
Definition PROCESS_MAX_USER_PAGES : Z := 256.
Definition SEL_KERNEL_CS : Z := 0x08.
Definition SEL_KERNEL_DS : Z := 0x10.
Definition SEL_USER_DS : Z := 0x2B.
Definition SEL_USER_CS : Z := 0x33.
Definition USER_CODE_BASE : Z := 0x00200000.
Definition USER_STACK_BASE : Z := 0x00800000.
Definition USER_STACK_TOP : Z := USER_STACK_BASE + PROCESS_USER_STACK_PAGES * 4096.
Definition USER_API_BASE : Z := 0x00090000.
Definition USER_ARGV_BASE : Z := 0x00091000.
Definition TIME_QUANTUM : Z := 5.

Inductive process_state_t :=
  PROC_UNUSED | PROC_LOADING | PROC_READY | PROC_RUNNING | PROC_BLOCKED | PROC_SLEEPING | PROC_TERMINATED.
#[export] Instance process_state_eq_dec : EqDecision process_state_t.
Proof. solve_decision. Defined.
Definition is_st (a b : process_state_t) : bool := bool_decide (a = b).

Record process_t := Proc {
  pid : Z;
  state : process_state_t;
  name : list Z;
  kernel_rsp : Z;
  kernel_stack : Z;
  kernel_stack_top : Z;
  cr3 : Z;
  is_user : bool;
  exit_code : Z;
  detached : bool;
  wait_target : Z;
  wake_tick : Z;
  user_pages : list Z;
  user_page_count : Z
}.

(** The zero-initialised element of the static array. *)
Definition zero_proc : process_t :=
  Proc 0 PROC_UNUSED (replicate 32 0) 0 0 0 0 false 0 false 0 0 (replicate 256 0) 0.
#[export] Instance process_inhabited : Inhabited process_t := populate zero_proc.

Definition set_pid (v : Z) (p : process_t) : process_t :=
  Proc v (state p) (name p) (kernel_rsp p) (kernel_stack p) (kernel_stack_top p) (cr3 p) (is_user p)
    (exit_code p) (detached p) (wait_target p) (wake_tick p) (user_pages p) (user_page_count p).
Definition set_state (v : process_state_t) (p : process_t) : process_t :=
  Proc (pid p) v (name p) (kernel_rsp p) (kernel_stack p) (kernel_stack_top p) (cr3 p) (is_user p)
    (exit_code p) (detached p) (wait_target p) (wake_tick p) (user_pages p) (user_page_count p).
Definition set_rsp (v : Z) (p : process_t) : process_t :=
  Proc (pid p) (state p) (name p) v (kernel_stack p) (kernel_stack_top p) (cr3 p) (is_user p)
    (exit_code p) (detached p) (wait_target p) (wake_tick p) (user_pages p) (user_page_count p).
Definition set_proc_cr3 (v : Z) (p : process_t) : process_t :=
  Proc (pid p) (state p) (name p) (kernel_rsp p) (kernel_stack p) (kernel_stack_top p) v (is_user p)
    (exit_code p) (detached p) (wait_target p) (wake_tick p) (user_pages p) (user_page_count p).
Definition set_exit_code (v : Z) (p : process_t) : process_t :=
  Proc (pid p) (state p) (name p) (kernel_rsp p) (kernel_stack p) (kernel_stack_top p) (cr3 p) (is_user p)
    v (detached p) (wait_target p) (wake_tick p) (user_pages p) (user_page_count p).
Definition set_detached (v : bool) (p : process_t) : process_t :=
  Proc (pid p) (state p) (name p) (kernel_rsp p) (kernel_stack p) (kernel_stack_top p) (cr3 p) (is_user p)
    (exit_code p) v (wait_target p) (wake_tick p) (user_pages p) (user_page_count p).
Definition set_wait (v : Z) (p : process_t) : process_t :=
  Proc (pid p) (state p) (name p) (kernel_rsp p) (kernel_stack p) (kernel_stack_top p) (cr3 p) (is_user p)
    (exit_code p) (detached p) v (wake_tick p) (user_pages p) (user_page_count p).
Definition set_wake (v : Z) (p : process_t) : process_t :=
  Proc (pid p) (state p) (name p) (kernel_rsp p) (kernel_stack p) (kernel_stack_top p) (cr3 p) (is_user p)
    (exit_code p) (detached p) (wait_target p) v (user_pages p) (user_page_count p).
Definition set_pages (l : list Z) (n : Z) (p : process_t) : process_t :=
  Proc (pid p) (state p) (name p) (kernel_rsp p) (kernel_stack p) (kernel_stack_top p) (cr3 p) (is_user p)
    (exit_code p) (detached p) (wait_target p) (wake_tick p) l n.

Record kern := Kern {
  processes : list process_t;
  current_process : option Z;
  next_pid : Z;
  scheduling_enabled : bool;
  foreground_pid : Z;
  ticks_remaining : Z;
  system_ticks : Z;
  tss_rsp0 : Z;
  vmm : vmm_state;
  fds : fd_table
}.

Definition set_procs (k : kern) (l : list process_t) : kern :=
  Kern l (current_process k) (next_pid k) (scheduling_enabled k) (foreground_pid k)
    (ticks_remaining k) (system_ticks k) (tss_rsp0 k) (vmm k) (fds k).
Definition set_current (k : kern) (c : option Z) : kern :=
  Kern (processes k) c (next_pid k) (scheduling_enabled k) (foreground_pid k)
    (ticks_remaining k) (system_ticks k) (tss_rsp0 k) (vmm k) (fds k).
Definition set_next_pid (k : kern) (n : Z) : kern :=
  Kern (processes k) (current_process k) n (scheduling_enabled k) (foreground_pid k)
    (ticks_remaining k) (system_ticks k) (tss_rsp0 k) (vmm k) (fds k).
Definition set_ticks (k : kern) (n : Z) : kern :=
  Kern (processes k) (current_process k) (next_pid k) (scheduling_enabled k) (foreground_pid k)
    n (system_ticks k) (tss_rsp0 k) (vmm k) (fds k).
Definition set_system_ticks (k : kern) (n : Z) : kern :=
  Kern (processes k) (current_process k) (next_pid k) (scheduling_enabled k) (foreground_pid k)
    (ticks_remaining k) n (tss_rsp0 k) (vmm k) (fds k).
Definition set_vmm (k : kern) (v : vmm_state) : kern :=
  Kern (processes k) (current_process k) (next_pid k) (scheduling_enabled k) (foreground_pid k)
    (ticks_remaining k) (system_ticks k) (tss_rsp0 k) v (fds k).
Definition set_fds (k : kern) (t : fd_table) : kern :=
  Kern (processes k) (current_process k) (next_pid k) (scheduling_enabled k) (foreground_pid k)
    (ticks_remaining k) (system_ticks k) (tss_rsp0 k) (vmm k) t.

(** [processes[i]], and an assignment to fields of it. *)
Definition proc (k : kern) (i : Z) : process_t := (processes k).[i].
Definition pstate (k : kern) (i : Z) : process_state_t := state (proc k i).
Definition upd (i : Z) (f : process_t → process_t) (k : kern) : kern :=
  set_procs k (processes k).[i <- f (proc k i)].
Definition at_state (k : kern) (i : Z) (s : process_state_t) : bool := is_st (pstate k i) s.

(** Calls that may fail to return. *)
Definition km (A : Type) : Type := kern → option (A * kern).
#[export] Instance km_ret : MRet km := λ A x k, Some (x, k).
#[export] Instance km_bind : MBind km := λ A B f c k,
  match c k with Some (x, k') => f x k' | None => None end.
Definition km_get : km kern := λ k, Some (k, k).
Definition km_mod (f : kern → kern) : km unit := λ k, Some (tt, f k).
Definition km_opt {A} (o : option A) : km A := λ k, match o with Some x => Some (x, k) | None => None end.
(** A virtual-memory operation on the kernel state. *)
Definition km_vmm {A} (f : vmm_state → A * vmm_state) : km A := λ k,
  let '(x, v) := f (vmm k) in Some (x, set_vmm k v).

(** ** timer.c *)
Definition timer_tick (k : kern) : kern := set_system_ticks k (system_ticks k +32 1).
Definition timer_get_ticks (k : kern) : Z := system_ticks k.

(** [tss_set_rsp0] of gdt.c *)
Definition tss_set_rsp0 (rsp0 : Z) (k : kern) : kern :=
  Kern (processes k) (current_process k) (next_pid k) (scheduling_enabled k) (foreground_pid k)
    (ticks_remaining k) (system_ticks k) rsp0 (vmm k) (fds k).

Definition process_set_foreground (p : Z) (k : kern) : kern :=
  Kern (processes k) (current_process k) (next_pid k) (scheduling_enabled k) p
    (ticks_remaining k) (system_ticks k) (tss_rsp0 k) (vmm k) (fds k).
Definition process_is_foreground (k : kern) (p : Z) : bool := foreground_pid k =? p.

Definition scheduler_start (k : kern) : kern :=
  Kern (processes k) (current_process k) (next_pid k) true (foreground_pid k)
    (ticks_remaining k) (system_ticks k) (tss_rsp0 k) (vmm k) (fds k).

Section Operations.
Context (kernel_stacks stack_top : Z).

(** [strcpy(p->name, "kernel")] *)
Definition kernel_name : list Z := [107; 101; 114; 110; 101; 108; 0].

Definition process_init : km unit :=
  km_mod (for_each 0 MAX_PROCESSES (λ i, upd i (λ p, set_pid 0 (set_state PROC_UNUSED p))));;
  k ← km_get;
  nm ← km_opt (CString.strcpy (name (proc k 0)) kernel_name);
  let p := proc k 0 in
  km_mod (upd 0 (λ _,
    Proc 0 PROC_RUNNING nm 0 0 stack_top (vmm_get_cr3 (vmm k)) false 0 false 0 0 (user_pages p) 0));;
  km_mod (λ k, set_current k (Some 0)).

Definition process_get_current (k : kern) : option Z := current_process k.

Definition process_get (k : kern) (p : Z) : option Z :=
  match for_range 0 MAX_PROCESSES (λ i (_ : unit),
    if negb (at_state k i PROC_UNUSED) && (pid (proc k i) =? p) then inr i else inl ()) () with
  | inr i => Some i
  | inl _ => None
  end.

Definition process_is_running (k : kern) (p : Z) : bool :=
  match process_get k p with
  | Some i => at_state k i PROC_RUNNING || at_state k i PROC_READY
  | None => false
  end.

Definition free_user_pages (i : Z) (k : kern) : kern :=
  for_each 0 (user_page_count (proc k i)) (λ j k,
    let pg := (user_pages (proc k i)).[j] in
    let k := if pg =? 0 then k else set_vmm k (free_page (vmm k) pg) in
    upd i (λ p, set_pages (user_pages p).[j <- 0] (user_page_count p) p) k) k.

Definition process_cleanup (i : Z) (k : kern) : kern :=
  if pid (proc k i) =? 0 then k else
  let k := set_fds k (syscall_close_process_fds (pid (proc k i)) (fds k)) in
  let k := free_user_pages i k in
  let k := upd i (λ p, set_pages (user_pages p) 0 p) k in
  let c := cr3 (proc k i) in
  let k := if negb (c =? 0) && negb (c =? vmm_get_kernel_cr3 (vmm k))
           then set_vmm k (vmm_destroy_address_space c (vmm k)) else k in
  upd i (set_proc_cr3 0) k.

Definition process_map_user_page (i virt flags : Z) : km Z :=
  k ← km_get;
  let p := proc k i in
  if negb (is_user p) || (cr3 p =? 0) then mret (-1) else
  already ← km_opt (vmm_user_range_ok (mem (vmm k)) (cr3 p) (andnot virt (PAGE_SIZE - 1)) 1);
  if (already : bool) then mret 0 else
  if PROCESS_MAX_USER_PAGES <=? user_page_count p then mret (-1) else
  phys ← km_vmm alloc_page;
  if phys =? 0 then mret (-1) else
  km_mod (λ k, set_vmm k (set_mem (vmm k) (pmemset (mem (vmm k)) phys 0 PAGE_SIZE)));;
  r ← km_vmm (vmm_map_page_in (cr3 p) virt phys (Z.lor flags PTE_USER));
  if negb (r =? 0) then km_mod (λ k, set_vmm k (free_page (vmm k) phys));; mret (-1) else
  km_mod (upd i (λ p, set_pages (user_pages p).[user_page_count p <- phys] (user_page_count p + 1) p));;
  mret 0.

(** The page-by-page loop of [process_write_user] and [process_zero_user]:
    [put] stores the [n] bytes that start at offset [off] of the data at
    physical address [phys].  Every round but the first starts a page, so
    [size / 4096 + 3] rounds suffice. *)
Definition user_loop (put : Z → Z → Z → pmem → pmem) (c virt size : Z) (m : pmem) : option (Z * pmem) :=
  match iterZ (size / PAGE_SIZE + 3) (λ x : Z * pmem, let '(off, m) := x in
    if size - off <=? 0 then inr (0, m) else
    let v := virt +64 off in
    let phys := vmm_get_physical_in m c v in
    if phys =? 0 then inr (-1, m) else
    let page_left := PAGE_SIZE - Z.land v (PAGE_SIZE - 1) in
    let n := if size - off <? page_left then size - off else page_left in
    inl (off + n, put phys off n m)) (0, m) with
  | inr r => Some r
  | inl _ => None
  end.

Definition run_user_loop (put : Z → Z → Z → pmem → pmem) (c virt size : Z) : km Z := λ k,
  match user_loop put c virt size (mem (vmm k)) with
  | Some (r, m) => Some (r, set_vmm k (set_mem (vmm k) m))
  | None => None
  end.

(** The bytes [data[off..off+n)]. *)
Definition chunk (data : list Z) (off n : Z) : list Z := take (Z.to_nat n) (drop (Z.to_nat off) data).

Definition process_write_user (i virt : Z) (data : list Z) : km Z :=
  k ← km_get;
  if cr3 (proc k i) =? 0 then mret (-1) else
  run_user_loop (λ phys off n m, pmemcpy_from m phys (chunk data off n)) (cr3 (proc k i)) virt (zlen data).

Definition process_zero_user (i virt size : Z) : km Z :=
  k ← km_get;
  if cr3 (proc k i) =? 0 then mret (-1) else
  run_user_loop (λ phys _ n m, pmemset m phys 0 n) (cr3 (proc k i)) virt size.

(** The command line is the list of its characters, without the NUL. *)
Definition SPACE : Z := 32.
Fixpoint skip_spaces (s : list Z) : list Z :=
  match s with c :: r => if c =? SPACE then skip_spaces r else s | [] => [] end.
Fixpoint take_token (s : list Z) : list Z * list Z :=
  match s with
  | c :: r => if c =? SPACE then ([], s) else let '(t, r') := take_token r in (c :: t, r')
  | [] => ([], [])
  end.

Definition ARGV_STRINGS : Z := 8 + 16 * 8.
Record args_state := Args { a_s : list Z; a_page : list Z; a_pos : Z; a_argc : Z }.

Definition args_step (a : args_state) : args_state + args_state :=
  if bool_decide (a_s a = []) || negb (a_argc a <? 16) || negb (a_pos a <? PAGE_SIZE - 8 - 16 * 8 - 1)
  then inr a else
  let s := skip_spaces (a_s a) in
  if bool_decide (s = []) then inr a else
  let '(tok, rest) := take_token s in
  let len := zlen tok in
  if PAGE_SIZE - 8 - 16 * 8 <=? a_pos a + len + 1 then inr a else
  let page := ablit (a_page a) (8 * (1 + a_argc a)) (le_bytes 8 (USER_ARGV_BASE + ARGV_STRINGS + a_pos a)) in
  let page := ablit page (ARGV_STRINGS + a_pos a) tok in
  let page := page.[ARGV_STRINGS + a_pos a + len <- 0] in
  inl (Args rest page (a_pos a + len + 1) (a_argc a + 1)).

(** At most sixteen tokens, so seventeen rounds end the loop. *)
Definition args_page (full_cmd : list Z) : option (list Z) :=
  match iterZ 17 args_step (Args full_cmd (replicate (Z.to_nat PAGE_SIZE) 0) 0 0) with
  | inr a => Some (ablit (a_page a) 0 (le_bytes 8 (a_argc a)))
  | inl _ => None
  end.

Definition process_setup_user_args (i : Z) (full_cmd : list Z) : km Z :=
  page ← km_opt (args_page full_cmd);
  process_write_user i USER_ARGV_BASE page.

(** [sizeof(cpu_context_t)] and the offsets of the fields that are set. *)
Definition CTX_SIZE : Z := 160.
Definition CTX_RIP : Z := 120.
Definition CTX_CS : Z := 128.
Definition CTX_RFLAGS : Z := 136.
Definition CTX_RSP : Z := 144.
Definition CTX_SS : Z := 152.

Definition km_mem (f : pmem → pmem) : km unit :=
  km_mod (λ k, set_vmm k (set_mem (vmm k) (f (mem (vmm k))))).

(** The loop over the stack pages, then the API and the argv page; a page
    that cannot be mapped ends the sequence with a non-zero result. *)
Fixpoint map_pages (i flags : Z) (pages : list Z) : km Z :=
  match pages with
  | [] => mret 0
  | a :: rest =>
      r ← process_map_user_page i a flags;
      if negb (r =? 0) then mret r else map_pages i flags rest
  end.

Definition user_layout : list Z :=
  ((λ j, USER_STACK_BASE + j * PAGE_SIZE) <$> seqZ 0 PROCESS_USER_STACK_PAGES) ++ [USER_API_BASE; USER_ARGV_BASE].

Definition find_unused (k : kern) : option Z :=
  match for_range 1 MAX_PROCESSES (λ i (_ : unit), if at_state k i PROC_UNUSED then inr i else inl ()) () with
  | inr i => Some i
  | inl _ => None
  end.

(** The frame on the kernel stack that the first switch restores. *)
Definition init_context (top entry_point : Z) (user : bool) : km unit :=
  let ctx := top -64 CTX_SIZE in
  km_mem (λ m, pmemset m (top -64 PROCESS_KERNEL_STACK_SIZE) 0 PROCESS_KERNEL_STACK_SIZE);;
  km_mem (λ m, pmemset m ctx 0 CTX_SIZE);;
  km_mem (λ m, wr64 m (ctx + CTX_RIP) entry_point);;
  km_mem (λ m, wr64 m (ctx + CTX_RFLAGS) 0x202);;
  km_mem (λ m, wr64 m (ctx + CTX_CS) (if user then SEL_USER_CS else SEL_KERNEL_CS));;
  km_mem (λ m, wr64 m (ctx + CTX_SS) (if user then SEL_USER_DS else SEL_KERNEL_DS));;
  km_mem (λ m, wr64 m (ctx + CTX_RSP) (if user then USER_STACK_TOP else top)).

(** The part of [process_create] after the address space exists: the kernel
    stack, the user pages and the final state. *)
Definition create_finish (slot entry_point : Z) (user : bool) : km (option Z) :=
  let stack := kernel_stacks + slot * PROCESS_KERNEL_STACK_SIZE in
  let top := stack + PROCESS_KERNEL_STACK_SIZE in
  km_mod (upd slot (λ p, Proc (pid p) (state p) (name p) (kernel_rsp p) stack top (cr3 p) (is_user p)
    0 false 0 0 (user_pages p) 0));;
  init_context top entry_point user;;
  k ← km_get;
  let data_flags := Z.lor PTE_WRITABLE (if vmm_nx_supported (vmm k) then PTE_NX else 0) in
  r ← (if user then map_pages slot data_flags user_layout else mret 0);
  if negb (r =? 0) then
    km_mod (process_cleanup slot);; km_mod (upd slot (set_state PROC_UNUSED));; mret None
  else
    km_mod (upd slot (set_rsp (top -64 CTX_SIZE)));;
    km_mod (upd slot (set_state (if user then PROC_LOADING else PROC_READY)));;
    mret (Some slot).

Definition process_create (nm : list Z) (entry_point : Z) (user : bool) : km (option Z) :=
  k ← km_get;
  match find_unused k with
  | None => mret None
  | Some slot =>
      km_mod (upd slot (set_pid (next_pid k)));;
      km_mod (λ k, set_next_pid k (next_pid k +64 1));;
      nm' ← km_opt (CString.strncpy (name (proc k slot)) nm 31);
      km_mod (upd slot (λ p, Proc (pid p) (state p) nm'.[31 <- 0] (kernel_rsp p) (kernel_stack p) (kernel_stack_top p)
        (cr3 p) user (exit_code p) (detached p) (wait_target p) (wake_tick p) (user_pages p) (user_page_count p)));;
      c ← (if user then km_vmm vmm_create_address_space else km_vmm (λ v, (vmm_get_cr3 v, v)));
      km_mod (upd slot (set_proc_cr3 c));;
      if c =? 0 then mret None else create_finish slot entry_point user
  end.

Definition process_activate (p : Z) (k : kern) : kern :=
  match process_get k p with
  | Some i => if at_state k i PROC_LOADING then upd i (set_state PROC_READY) k else k
  | None => k
  end.

Definition wake_waiters (dead : Z) : kern → kern :=
  for_each 0 MAX_PROCESSES (λ i k,
    if at_state k i PROC_BLOCKED && ((wait_target (proc k i) =? 0) || (wait_target (proc k i) =? dead))
    then upd i (λ p, set_wait 0 (set_state PROC_READY p)) k else k).

(** [process_exit] up to its final loop, in which the process only halts. *)
Definition process_exit (code : Z) (k : kern) : kern :=
  match current_process k with
  | None => k
  | Some c =>
      if pid (proc k c) =? 0 then k else
      let k := upd c (λ p, set_exit_code code (set_state PROC_TERMINATED p)) k in
      wake_waiters (pid (proc k c)) k
  end.

Definition process_detach (p : Z) (k : kern) : kern :=
  match process_get k p with
  | Some i => if pid (proc k i) =? 0 then k else upd i (set_detached true) k
  | None => k
  end.

Definition process_reap_terminated (k : kern) : Z * kern :=
  for_each 1 MAX_PROCESSES (λ i '(reaped, k),
    if at_state k i PROC_TERMINATED && detached (proc k i) then
      let k := process_cleanup i k in
      (reaped + 1, upd i (λ p, set_detached false (set_pid 0 (set_state PROC_UNUSED p))) k)
    else (reaped, k)) (0, k).

Definition wake_sleepers (k : kern) : kern :=
  let now := timer_get_ticks k in
  for_each 1 MAX_PROCESSES (λ i k,
    if at_state k i PROC_SLEEPING && (wake_tick (proc k i) <=? now)
    then upd i (λ p, set_state PROC_READY (set_wake 0 p)) k else k) k.

Definition process_terminate (p : Z) (k : kern) : kern :=
  match process_get k p with
  | None => k
  | Some i =>
      if pid (proc k i) =? 0 then k else
      let k := upd i (set_state PROC_TERMINATED) k in
      for_each 0 MAX_PROCESSES (λ j k,
        if at_state k j PROC_BLOCKED then upd j (set_state PROC_READY) k else k) k
  end.

(** ** Waiting

    The parts of [process_sleep_ticks] and [process_waitpid] before and after
    their halt loops are definitions of their own, because the timer
    interrupts between them. *)
Definition sleep_begin (ticks : Z) (k : kern) : option kern :=
  match current_process k with
  | None => None
  | Some c =>
      if (pid (proc k c) =? 0) || (ticks =? 0) then None else
      Some (upd c (λ p, set_state PROC_SLEEPING (set_wake (timer_get_ticks k +64 ticks) p)) k)
  end.
Definition sleep_over (c : Z) (k : kern) : bool := negb (at_state k c PROC_SLEEPING).

Definition wait_begin (p : Z) (k : kern) : option kern :=
  match current_process k with
  | None => None
  | Some c => Some (upd c (λ q, set_state PROC_BLOCKED (set_wait p q)) k)
  end.
Definition wait_over (target : Z) (k : kern) : bool :=
  at_state k target PROC_TERMINATED || at_state k target PROC_UNUSED.
Definition wait_end (k : kern) : option kern :=
  match current_process k with
  | None => None
  | Some c => Some (upd c (λ q, set_wait 0 (set_state PROC_RUNNING q)) k)
  end.

(** [*status = code], an [int] stored through a virtual address. *)
Definition store_status (status code : Z) (k : kern) : kern :=
  if status =? 0 then k else
  set_vmm k (set_mem (vmm k)
    (for_each 0 4 (λ j m,
       mupd m (vmm_get_physical_in m (cr3_reg (vmm k)) (status +64 j)) (le_bytes 4 (u32 code)).[j]) (mem (vmm k)))).

(** The end of [process_waitpid], once the target is known to be dead. *)
Definition wait_reap (target status : Z) (k : kern) : Z * kern :=
  if at_state k target PROC_UNUSED then (-1, k) else
  let code := exit_code (proc k target) in
  let k := store_status status code k in
  let k := process_cleanup target k in
  (code, upd target (λ p, set_pid 0 (set_state PROC_UNUSED p)) k).

Section Waiting.
Context (hlt : kern → kern) (fuel : Z).

(** [while (!over) hlt], at most [fuel] rounds. *)
Definition halt_until (over : kern → bool) (k : kern) : option kern :=
  match iterZ fuel (λ k, if over k then inr k else inl (hlt k)) k with
  | inr k => Some k
  | inl _ => None
  end.

Definition process_sleep_ticks (ticks : Z) : km unit := λ k,
  match current_process k, sleep_begin ticks k with
  | Some c, Some k1 => k2 ← halt_until (sleep_over c) k1; Some (tt, k2)
  | _, _ => Some (tt, k)
  end.

Definition process_waitpid (p status options : Z) : km Z := λ k,
  match process_get k p with
  | None => Some (-1, k)
  | Some target =>
      if at_state k target PROC_UNUSED || (p =? 0) then Some (-1, k) else
      if negb (Z.land options 1 =? 0) then
        if negb (at_state k target PROC_TERMINATED) then Some (0, k) else Some (wait_reap target status k)
      else
        k ← wait_begin p k;
        k ← halt_until (wait_over target) k;
        k ← wait_end k;
        Some (wait_reap target status k)
  end.

Definition process_wait (p : Z) : km unit := process_waitpid p 0 0;; mret ().
End Waiting.

(** ** The scheduler *)
Definition must_switch (s : process_state_t) : bool :=
  is_st s PROC_TERMINATED || is_st s PROC_BLOCKED || is_st s PROC_SLEEPING.

(** The quantum: does this tick end the turn of the current process? *)
Definition charge_tick (c : Z) (k : kern) : bool * kern :=
  if must_switch (pstate k c) then (true, k) else
  let k := if 0 <? ticks_remaining k then set_ticks k (ticks_remaining k - 1) else k in
  if ticks_remaining k =? 0 then (true, set_ticks k TIME_QUANTUM) else (false, k).

Definition next_ready (k : kern) (start : Z) : option Z :=
  match for_range 1 (MAX_PROCESSES + 1) (λ i (_ : unit),
    let idx := (start + i) mod MAX_PROCESSES in
    if at_state k idx PROC_READY then inr idx else inl ()) () with
  | inr idx => Some idx
  | inl _ => None
  end.

Definition switch_to (n : Z) (k : kern) : kern :=
  let k := upd n (set_state PROC_RUNNING) k in
  let k := set_current k (Some n) in
  let k := tss_set_rsp0 (kernel_stack_top (proc k n)) k in
  let k := if negb (Z.land (vmm_get_cr3 (vmm k)) PTE_ADDR_MASK =? Z.land (cr3 (proc k n)) PTE_ADDR_MASK)
           then set_vmm k (vmm_set_cr3 (cr3 (proc k n)) (vmm k)) else k in
  set_ticks k TIME_QUANTUM.

Definition reschedule (current_rsp : Z) (k : kern) : Z * kern :=
  match current_process k with
  | None => (current_rsp, k)
  | Some c =>
      if negb (scheduling_enabled k) then (current_rsp, k) else
      let '(need_switch, k) := charge_tick c k in
      if negb need_switch then (current_rsp, k) else
      let k := upd c (set_rsp current_rsp) k in
      let k := if at_state k c PROC_RUNNING then upd c (set_state PROC_READY) k else k in
      match next_ready k c with
      | None => (current_rsp, if at_state k c PROC_READY then upd c (set_state PROC_RUNNING) k else k)
      | Some n =>
          let k := switch_to n k in
          (kernel_rsp (proc k n), k)
      end
  end.

Definition schedule_tick (current_rsp : Z) (k : kern) : Z * kern :=
  reschedule current_rsp (wake_sleepers (timer_tick k)).

End Operations.
End Process.
