(* ===== verification/Sched.v ===== *)
(** * The scheduler's properties (kernel/process/process.c)

    Lemmas on the operations of [Process], the scheduler's functional
    behaviour, and the system as a step relation: the timer may interrupt
    between any two steps, and only the current process performs the others.
    The invariant of the process table is proved by induction on the steps. *)
From S2P Require Import Prelude.
From S2P Require Import PhysMem.
From S2P Require Import Pmm.
From S2P Require Import Vmm.
From S2P Require Import CString.
From S2P Require Import Fdtab.
From S2P Require Import Process.
Import Pmm Vmm Fdtab Process.

Module Sched.

(** ** The table *)
Definition in_table (i : Z) : Prop := 0 ≤ i < MAX_PROCESSES.
Definition table_ok (k : kern) : Prop := zlen (processes k) = MAX_PROCESSES.

Lemma proc_upd_eq k i f : table_ok k → in_table i → proc (upd i f k) i = f (proc k i).
Proof. intros T I. unfold proc, upd. cbn [processes set_procs]. rewrite aget_aset_eq; [done |]. rewrite T. apply I. Qed.
Lemma proc_upd_ne k i j f : i ≠ j → proc (upd i f k) j = proc k j.
Proof. intros. unfold proc, upd. cbn [processes set_procs]. by rewrite aget_aset_ne. Qed.
Lemma table_upd k i f : table_ok (upd i f k) ↔ table_ok k.
Proof. unfold table_ok, upd. cbn [processes set_procs]. by rewrite zlen_aset. Qed.

Lemma at_state_true k i s : at_state k i s = true ↔ pstate k i = s.
Proof. unfold at_state, is_st. apply bool_decide_eq_true. Qed.
Lemma at_state_false k i s : at_state k i s = false ↔ pstate k i ≠ s.
Proof. unfold at_state, is_st. apply bool_decide_eq_false. Qed.

(** [k'] differs from [k] in the process table at most. *)
Definition procs_only (k k' : kern) : Prop := k' = set_procs k (processes k').

Lemma procs_only_refl k : procs_only k k.
Proof. by destruct k. Qed.
Lemma procs_only_upd k i f : procs_only k (upd i f k).
Proof. done. Qed.
Lemma procs_only_trans k1 k2 k3 : procs_only k1 k2 → procs_only k2 k3 → procs_only k1 k3.
Proof. unfold procs_only. intros -> ->. done. Qed.

(** Every sweep over the table has this form: a slot that satisfies [c] is
    replaced by [f], slot by slot. *)
Lemma sweep_spec (c : process_t → bool) (f : process_t → process_t) lo k :
  table_ok k → 0 ≤ lo →
  let k' := for_each lo MAX_PROCESSES (λ i k, if c (proc k i) then upd i f k else k) k in
  procs_only k k' ∧ table_ok k' ∧
  ∀ j, in_table j → proc k' j = if (lo <=? j) && c (proc k j) then f (proc k j) else proc k j.
Proof.
  intros T L. cbn zeta.
  pose proof (for_each_inv (λ n k', procs_only k k' ∧ table_ok k' ∧
    ∀ j, in_table j → proc k' j = if (lo <=? j) && (j <? n) && c (proc k j) then f (proc k j) else proc k j)
    lo MAX_PROCESSES (λ i k, if c (proc k i) then upd i f k else k) k) as W.
  destruct W as (W1 & W2 & W3).
  - split; [apply procs_only_refl |]. split; [done |]. intros j Hj.
    by replace ((lo <=? j) && (j <? lo)) with false by lia.
  - intros i t Hi (P1 & P2 & P3). pose proof (P3 i) as Pi. rewrite Z.ltb_irrefl, andb_false_r in Pi. cbn [andb] in Pi.
    rewrite Pi by (split; lia). destruct (c (proc k i)) eqn:Ci.
    + split; [eapply procs_only_trans; [done | apply procs_only_upd] |]. split; [by apply table_upd |].
      intros j Hj. destruct (decide (i = j)) as [<- | Hne].
      * rewrite proc_upd_eq, Pi by (done || (split; lia)). rewrite Ci.
        by replace ((lo <=? i) && (i <? i + 1) && true) with true by lia.
      * rewrite proc_upd_ne, P3 by done. by replace (j <? i + 1) with (j <? i) by lia.
    + split; [done |]. split; [done |]. intros j Hj. rewrite P3 by done.
      destruct (decide (i = j)) as [<- | Hne]; [rewrite Ci; by rewrite !andb_false_r |].
      by replace (j <? i + 1) with (j <? i) by lia.
  - split; [done |]. split; [done |]. intros j Hj. rewrite W3 by done. destruct Hj.
    replace (j <? Z.max lo MAX_PROCESSES) with true by lia. by rewrite andb_true_r.
Qed.

(** ** Searches *)
Lemma process_get_some k p i :
  process_get k p = Some i → in_table i ∧ pstate k i ≠ PROC_UNUSED ∧ pid (proc k i) = p.
Proof.
  unfold process_get. intros E.
  pose proof (for_range_inv (λ _ (_ : unit), True)
    (λ i, in_table i ∧ pstate k i ≠ PROC_UNUSED ∧ pid (proc k i) = p) 0 MAX_PROCESSES
    (λ i _, if negb (at_state k i PROC_UNUSED) && (pid (proc k i) =? p) then inr i else inl ()) ()) as W.
  destruct (for_range _ _ _ _) as [| j]; [done |]. injection E as ->. apply W; [done | done |].
  intros j [] r Hj _. destruct (negb _ && _) eqn:C; [| done]. intros [= <-].
  apply andb_true_iff in C as [C1 C2]. apply negb_true_iff, at_state_false in C1. split; [apply Hj |]. split; [done | lia].
Qed.

Lemma process_get_none k p i :
  process_get k p = None → in_table i → pstate k i ≠ PROC_UNUSED → pid (proc k i) ≠ p.
Proof.
  unfold process_get. intros E Hi Hu Hp.
  pose proof (for_range_inv (R := Z) (λ n (_ : unit), ∀ j, 0 ≤ j < n → pstate k j ≠ PROC_UNUSED → pid (proc k j) ≠ p)
    (λ _, True) 0 MAX_PROCESSES
    (λ i _, if negb (at_state k i PROC_UNUSED) && (pid (proc k i) =? p) then inr i else inl ()) ()) as W.
  destruct (for_range _ _ _ _) as [[] |]; [| done].
  refine (W _ _ _ i _ Hu Hp); [lia | | done | apply Hi].
  intros n [] [] Hn I. destruct (negb _ && _) eqn:C; [done |]. intros _ j Hj Hju.
  destruct (decide (j = n)) as [-> |]; [| apply I; [lia | done]].
  apply andb_false_iff in C as [C | C]; [| lia]. by apply negb_false_iff, at_state_true in C.
Qed.

Lemma next_ready_some k s n :
  next_ready k s = Some n →
  ∃ d, 1 ≤ d ≤ MAX_PROCESSES ∧ n = (s + d) mod MAX_PROCESSES ∧ pstate k n = PROC_READY ∧
       ∀ e, 1 ≤ e < d → pstate k ((s + e) mod MAX_PROCESSES) ≠ PROC_READY.
Proof.
  unfold next_ready. intros E.
  pose proof (for_range_inv (λ n (_ : unit), ∀ e, 1 ≤ e < n → pstate k ((s + e) mod MAX_PROCESSES) ≠ PROC_READY)
    (λ n, ∃ d, 1 ≤ d ≤ MAX_PROCESSES ∧ n = (s + d) mod MAX_PROCESSES ∧ pstate k n = PROC_READY ∧
       ∀ e, 1 ≤ e < d → pstate k ((s + e) mod MAX_PROCESSES) ≠ PROC_READY) 1 (MAX_PROCESSES + 1)
    (λ i _, let idx := (s + i) mod MAX_PROCESSES in if at_state k idx PROC_READY then inr idx else inl ()) ()) as W.
  destruct (for_range _ _ _ _) as [| j]; [done |]. injection E as ->. apply W; [lia | |].
  - intros i [] [] Hi I. cbn zeta. destruct (at_state _ _ _) eqn:C; [done |]. intros _ e He.
    destruct (decide (e = i)) as [-> |]; [by apply at_state_false | apply I; lia].
  - intros i [] r Hi I. cbn zeta. destruct (at_state _ _ _) eqn:C; [| done]. intros [= <-].
    exists i. apply at_state_true in C. split; [lia |]. done.
Qed.

Lemma next_ready_none k s i : next_ready k s = None → in_table i → pstate k i ≠ PROC_READY.
Proof.
  unfold next_ready. intros E Hi Hr.
  pose proof (for_range_inv (R := Z) (λ n (_ : unit), ∀ e, 1 ≤ e < n → pstate k ((s + e) mod MAX_PROCESSES) ≠ PROC_READY)
    (λ _, True) 1 (MAX_PROCESSES + 1)
    (λ i _, let idx := (s + i) mod MAX_PROCESSES in if at_state k idx PROC_READY then inr idx else inl ()) ()) as W.
  destruct (for_range _ _ _ _) as [[] |]; [| done].
  assert (∃ e, 1 ≤ e ≤ MAX_PROCESSES ∧ (s + e) mod MAX_PROCESSES = i) as (e & He & Hei).
  { exists ((i - s - 1) mod MAX_PROCESSES + 1). unfold in_table, MAX_PROCESSES in *. split; zdm. }
  refine (W _ _ _ e _ _); [lia | | done | lia | by rewrite Hei].
  intros n [] [] Hn I. cbn zeta. destruct (at_state _ _ _) eqn:C; [done |]. intros _ j Hj.
  destruct (decide (j = n)) as [-> |]; [by apply at_state_false | apply I; lia].
Qed.

(** ** One tick *)
Definition woken (now : Z) (p : process_t) : process_t :=
  if is_st (state p) PROC_SLEEPING && (wake_tick p <=? now) then set_state PROC_READY (set_wake 0 p) else p.

(** The state in which the scheduler takes its decision. *)
Definition ticked (k : kern) : kern := wake_sleepers (timer_tick k).

Lemma ticked_spec k :
  table_ok k →
  procs_only (timer_tick k) (ticked k) ∧ table_ok (ticked k) ∧
  ∀ j, in_table j → proc (ticked k) j = if j =? 0 then proc k j else woken (system_ticks (ticked k)) (proc k j).
Proof.
  intros T.
  destruct (sweep_spec
    (λ p, is_st (state p) PROC_SLEEPING && (wake_tick p <=? timer_get_ticks (timer_tick k)))
    (λ p, set_state PROC_READY (set_wake 0 p)) 1 (timer_tick k)) as (S1 & S2 & S3); [done | lia |].
  match type of S1 with procs_only _ ?x => change x with (ticked k) in * end.
  split; [exact S1 |]. split; [exact S2 |]. intros j Hj. rewrite (S3 j Hj).
  assert (system_ticks (ticked k) = timer_get_ticks (timer_tick k)) as -> by by rewrite S1.
  unfold woken. change (proc (timer_tick k) j) with (proc k j).
  destruct Hj. destruct (Z.eqb_spec j 0) as [-> | Hn]; [done |]. by replace (1 <=? j) with true by lia.
Qed.

(** The process whose turn may come: ready, or the current one still running. *)
Definition runnable (k : kern) (c i : Z) : Prop :=
  pstate k i = PROC_READY ∨ (i = c ∧ pstate k i = PROC_RUNNING).
Definition turn_over (k : kern) (c : Z) : bool := must_switch (pstate k c) || (ticks_remaining k <=? 1).

(** [n] is the first runnable slot after [c], cyclically; [c] itself comes last. *)
Definition next_turn (k : kern) (c n : Z) : Prop :=
  ∃ d, 1 ≤ d ≤ MAX_PROCESSES ∧ n = (c + d) mod MAX_PROCESSES ∧ runnable k c n ∧
       ∀ e, 1 ≤ e < d → ¬ runnable k c ((c + e) mod MAX_PROCESSES).

(** The current process's slot once its turn is over. *)
Definition preempted (rsp : Z) (p : process_t) : process_t :=
  set_rsp rsp (if is_st (state p) PROC_RUNNING then set_state PROC_READY p else p).

Record switched (rsp : Z) (k : kern) (c n : Z) (k' : kern) : Prop := Switched {
  sw_table : table_ok k';
  sw_current : current_process k' = Some n;
  sw_quantum : ticks_remaining k' = TIME_QUANTUM;
  sw_new : proc k' n = set_state PROC_RUNNING (if n =? c then preempted rsp (proc k n) else proc k n);
  sw_old : ∀ j, in_table j → j ≠ n → proc k' j = if j =? c then preempted rsp (proc k j) else proc k j;
  sw_tss : tss_rsp0 k' = kernel_stack_top (proc k n);
  sw_cr3 : Z.land (vmm_get_cr3 (vmm k')) PTE_ADDR_MASK = Z.land (cr3 (proc k n)) PTE_ADDR_MASK;
  sw_pid : next_pid k' = next_pid k;
  sw_sched : scheduling_enabled k' = scheduling_enabled k
}.

Inductive tick_result (rsp : Z) (k : kern) (c : Z) : Z * kern → Prop :=
| TickContinue :
    turn_over k c = false →
    tick_result rsp k c (rsp, set_ticks k (ticks_remaining k - 1))
| TickIdle q k' :
    turn_over k c = true → (∀ i, in_table i → ¬ runnable k c i) →
    0 ≤ q ≤ Z.max (ticks_remaining k) TIME_QUANTUM → procs_only (set_ticks k q) k' → table_ok k' →
    (∀ j, in_table j → proc k' j = if j =? c then set_rsp rsp (proc k j) else proc k j) →
    tick_result rsp k c (rsp, k')
| TickSwitch n k' :
    turn_over k c = true → next_turn k c n → switched rsp k c n k' →
    tick_result rsp k c (kernel_rsp (proc k' n), k').

Lemma preempted_proc rsp k c j :
  table_ok k → in_table c →
  let k1 := upd c (set_rsp rsp) k in
  let k2 := if at_state k1 c PROC_RUNNING then upd c (set_state PROC_READY) k1 else k1 in
  procs_only k k2 ∧ table_ok k2 ∧ proc k2 j = if j =? c then preempted rsp (proc k j) else proc k j.
Proof.
  intros T C. cbn zeta.
  assert (at_state (upd c (set_rsp rsp) k) c PROC_RUNNING = is_st (state (proc k c)) PROC_RUNNING) as ->.
  { unfold at_state, pstate. by rewrite proc_upd_eq. }
  unfold preempted. destruct (Z.eqb_spec j c) as [-> | Hne].
  - destruct (is_st _ _); (split; [done |]); rewrite ?table_upd; (split; [done |]);
      repeat (rewrite proc_upd_eq; [| by rewrite ?table_upd | done]); done.
  - destruct (is_st _ _); (split; [done |]); rewrite ?table_upd; (split; [done |]); by rewrite !proc_upd_ne by congruence.
Qed.

Lemma preempted_state rsp p :
  state (preempted rsp p) = PROC_READY ↔ state p = PROC_READY ∨ state p = PROC_RUNNING.
Proof. unfold preempted, is_st. destruct (bool_decide_reflect (state p = PROC_RUNNING)) as [E | E]; cbn [state set_rsp set_state]; rewrite ?E; intuition congruence. Qed.

Lemma switch_to_eq n k :
  let k1 := upd n (set_state PROC_RUNNING) k in
  ∃ v, switch_to n k = Kern (processes k1) (Some n) (next_pid k) (scheduling_enabled k) (foreground_pid k)
         TIME_QUANTUM (system_ticks k) (kernel_stack_top (proc k1 n)) v (fds k) ∧
       Z.land (cr3_reg v) PTE_ADDR_MASK = Z.land (cr3 (proc k1 n)) PTE_ADDR_MASK.
Proof.
  cbn zeta. unfold switch_to. set (k1 := upd n (set_state PROC_RUNNING) k).
  change (proc (tss_set_rsp0 _ (set_current k1 _)) n) with (proc k1 n).
  change (proc (set_current k1 _) n) with (proc k1 n).
  change (vmm (tss_set_rsp0 _ (set_current k1 _))) with (vmm k).
  destruct (Z.eqb_spec (Z.land (vmm_get_cr3 (vmm k)) PTE_ADDR_MASK) (Z.land (cr3 (proc k1 n)) PTE_ADDR_MASK)) as [E | E];
    cbn [negb]; eexists; (split; [reflexivity |]); [exact E |].
  cbn [vmm set_vmm cr3_reg vmm_set_cr3]. by rewrite <- Z.land_assoc, Z.land_diag.
Qed.

Lemma switch_to_switched rsp k k2 c n :
  in_table n → procs_only k k2 → table_ok k2 →
  (∀ j, proc k2 j = if j =? c then preempted rsp (proc k j) else proc k j) →
  switched rsp k c n (switch_to n k2).
Proof.
  intros Hn P T Q.
  assert (∀ p, kernel_stack_top (preempted rsp p) = kernel_stack_top p ∧ cr3 (preempted rsp p) = cr3 p) as Hp.
  { intros p. unfold preempted. by destruct (is_st _ _). }
  assert (proc (upd n (set_state PROC_RUNNING) k2) n
    = set_state PROC_RUNNING (if n =? c then preempted rsp (proc k n) else proc k n)) as Hnew
    by by rewrite proc_upd_eq, Q.
  destruct (switch_to_eq n k2) as (v & -> & Hv). rewrite Hnew in Hv |- *.
  set (p := if n =? c then _ else _) in *.
  assert (kernel_stack_top p = kernel_stack_top (proc k n) ∧ cr3 p = cr3 (proc k n)) as [Ht Hc]
    by (unfold p; destruct (n =? c); [apply Hp | done]).
  split; try done.
  - by apply (table_upd k2 n (set_state PROC_RUNNING)).
  - intros j Hj Hne. rewrite <- Q. by rewrite <- (proc_upd_ne k2 n j (set_state PROC_RUNNING)) by done.
  - etransitivity; [exact Hv |]. cbn [cr3 set_state]. by rewrite Hc.
  - by rewrite P.
  - by rewrite P.
Qed.

Lemma charge_tick_spec c k :
  0 ≤ ticks_remaining k →
  if turn_over k c then ∃ q, 0 ≤ q ≤ Z.max (ticks_remaining k) TIME_QUANTUM ∧ charge_tick c k = (true, set_ticks k q)
  else charge_tick c k = (false, set_ticks k (ticks_remaining k - 1)).
Proof.
  intros Hq. unfold charge_tick, turn_over. destruct (must_switch _) eqn:M; cbn [orb].
  { exists (ticks_remaining k). split; [lia |]. by destruct k. }
  destruct (Z.ltb_spec 0 (ticks_remaining k)) as [L | L]; cbn [ticks_remaining set_ticks].
  - destruct (Z.eqb_spec (ticks_remaining k - 1) 0) as [E | E].
    + replace (ticks_remaining k <=? 1) with true by lia. exists TIME_QUANTUM. split; [unfold TIME_QUANTUM; lia | done].
    + by replace (ticks_remaining k <=? 1) with false by lia.
  - replace (ticks_remaining k) with 0 by lia. cbn. exists TIME_QUANTUM. split; [unfold TIME_QUANTUM; lia | done].
Qed.

Lemma reschedule_result rsp k1 c :
  table_ok k1 → in_table c → current_process k1 = Some c → scheduling_enabled k1 = true → 0 ≤ ticks_remaining k1 →
  tick_result rsp k1 c (reschedule rsp k1).
Proof.
  intros T1 C Hc Hs Hq. unfold reschedule. rewrite Hc, Hs. cbn [negb].
  pose proof (charge_tick_spec c k1 ltac:(lia)) as Hset.
  destruct (turn_over k1 c) eqn:O; [| rewrite Hset; by constructor].
  destruct Hset as (q & Hq2 & ->). cbn [negb].
  pose proof (λ j, preempted_proc rsp (set_ticks k1 q) c j T1 C) as Q. cbn zeta in Q.
  set (k2 := if at_state _ c PROC_RUNNING then _ else _) in *.
  destruct (Q c) as (P2 & T2 & _).
  assert (∀ j, proc k2 j = if j =? c then preempted rsp (proc k1 j) else proc k1 j) as Q' by apply Q. clear Q.
  assert (∀ i, pstate k2 i = PROC_READY ↔ runnable k1 c i) as R.
  { intros i. unfold runnable, pstate. rewrite Q'. destruct (Z.eqb_spec i c) as [-> | Hne];
      [rewrite preempted_state |]; intuition congruence. }
  destruct (next_ready k2 c) as [n |] eqn:N.
  - apply next_ready_some in N as (d & Hd & Hn & Hr & Hfirst). eapply TickSwitch; [done | |].
    + exists d. split; [done |]. split; [done |]. split; [by apply R |]. intros e He. rewrite <- R. by apply Hfirst.
    + assert (in_table n) as In by (subst n; unfold in_table, MAX_PROCESSES; zdm).
      destruct (switch_to_switched rsp (set_ticks k1 q) k2 c n In P2 T2 Q'). by split.
  - pose proof (λ i, next_ready_none k2 c i N) as Hnone. clearbody k2.
    assert (at_state k2 c PROC_READY = false) as -> by by apply at_state_false, Hnone.
    assert (pstate k1 c ≠ PROC_RUNNING) as Hrun.
    { intros E. apply (Hnone c C), R. by right. }
    eapply (TickIdle _ _ _ q); [done | | done | done | done |].
    + intros i Hi. rewrite <- R. by apply Hnone.
    + intros j Hj. rewrite Q'. destruct (Z.eqb_spec j c) as [-> |]; [| done].
      unfold preempted, is_st. by rewrite bool_decide_false.
Qed.

Lemma schedule_tick_result rsp k c :
  table_ok k → in_table c → current_process k = Some c → scheduling_enabled k = true → 0 ≤ ticks_remaining k →
  tick_result rsp (ticked k) c (schedule_tick rsp k).
Proof.
  intros T C Hc Hs Hq. destruct (ticked_spec k T) as (P & T1 & _).
  change (schedule_tick rsp k) with (reschedule rsp (ticked k)).
  generalize dependent (ticked k). intros k1 P T1. apply reschedule_result; first [done | by rewrite P].
Qed.

(** ** Progress under ticks *)
Record tick_ok (k : kern) (c : Z) : Prop := TickOk {
  to_table : table_ok k;
  to_slot : in_table c;
  to_current : current_process k = Some c;
  to_enabled : scheduling_enabled k = true;
  to_quantum : 0 ≤ ticks_remaining k ≤ TIME_QUANTUM
}.

(** Slots between [c] and [i], and the ticks [i] may still have to wait. *)
Definition distance (c i : Z) : Z := (i - c - 1) mod MAX_PROCESSES + 1.
Definition patience (k : kern) (c i : Z) : Z :=
  (distance c i - 1) * TIME_QUANTUM + Z.max 1 (ticks_remaining k).

Lemma distance_range c i : 1 ≤ distance c i ≤ MAX_PROCESSES.
Proof. unfold distance, MAX_PROCESSES. zdm. Qed.
Lemma distance_reach c i : in_table i → (c + distance c i) mod MAX_PROCESSES = i.
Proof. unfold in_table, distance, MAX_PROCESSES. intros. zdm. Qed.
Lemma distance_step c d i :
  in_table i → 1 ≤ d < distance c i → distance ((c + d) mod MAX_PROCESSES) i = distance c i - d.
Proof. unfold in_table, distance, MAX_PROCESSES. intros. zdm. Qed.

Lemma woken_ready now p : state p = PROC_READY → woken now p = p.
Proof. intros E. unfold woken, is_st. by rewrite bool_decide_false by congruence. Qed.

Lemma ticked_ok k c : tick_ok k c → tick_ok (ticked k) c ∧ ticks_remaining (ticked k) = ticks_remaining k.
Proof.
  intros []. destruct (ticked_spec k) as (P & T & _); [done |].
  generalize dependent (ticked k). intros k1 P T. split; [split |]; first [done | by rewrite P].
Qed.

Lemma ticked_ready k i :
  table_ok k → in_table i → pstate k i = PROC_READY → proc (ticked k) i = proc k i.
Proof.
  intros T I R. destruct (ticked_spec k T) as (_ & _ & Q). rewrite Q by done.
  case_match; [done | by apply woken_ready].
Qed.

Lemma switch_progress rsp k c n i k' d :
  tick_ok k c → in_table i → pstate k i = PROC_READY →
  1 ≤ d ≤ MAX_PROCESSES → n = (c + d) mod MAX_PROCESSES → d ≤ distance c i → switched rsp k c n k' →
  tick_ok k' n ∧
  ((n = i ∧ pstate k' i = PROC_RUNNING) ∨
   (pstate k' i = PROC_READY ∧ patience k' n i < patience k c i)).
Proof.
  intros [] I R Hd Hn Hdi []. assert (in_table n) as In by (subst n; unfold in_table, MAX_PROCESSES; zdm).
  split; [split; [done | done | done | congruence | unfold TIME_QUANTUM in *; lia] |].
  destruct (decide (n = i)) as [<- | Hne]; [left; split; [done |]; unfold pstate; by rewrite sw_new0 |].
  right. assert (d < distance c i) as Hlt.
  { destruct (decide (d = distance c i)) as [-> |]; [| lia]. rewrite distance_reach in Hn by done. congruence. }
  split.
  - unfold pstate in *. rewrite sw_old0 by (done || congruence).
    destruct (Z.eqb_spec i c); [apply preempted_state; by left | done].
  - unfold patience. rewrite sw_quantum0, Hn, distance_step by (done || lia). unfold TIME_QUANTUM in *. lia.
Qed.

Lemma result_progress rsp k c i res :
  tick_ok k c → in_table i → pstate k i = PROC_READY → tick_result rsp k c res →
  ∃ c', tick_ok res.2 c' ∧
    ((c' = i ∧ pstate res.2 i = PROC_RUNNING) ∨
     (pstate res.2 i = PROC_READY ∧ patience res.2 c' i < patience k c i)).
Proof.
  intros K I R W. destruct W as [O | q k' O Hno | n k' O (d & Hd & Hn & Hr & Hfirst) Hs]; cbn [snd].
  - unfold turn_over in O. apply orb_false_iff in O as [_ O]. exists c. destruct K. split.
    + split; try done. cbn [ticks_remaining set_ticks]. lia.
    + right. split; [done |]. unfold patience. cbn [ticks_remaining set_ticks]. lia.
  - exfalso. apply (Hno i I). by left.
  - exists n. apply (switch_progress rsp k c n i k' d); try done.
    destruct (decide (d ≤ distance c i)); [done |]. exfalso.
    apply (Hfirst (distance c i)); [pose proof (distance_range c i); lia |].
    rewrite distance_reach by done. by left.
Qed.

Lemma tick_progress rsp k c i :
  tick_ok k c → in_table i → pstate k i = PROC_READY →
  ∃ c', tick_ok (schedule_tick rsp k).2 c' ∧
    ((c' = i ∧ pstate (schedule_tick rsp k).2 i = PROC_RUNNING) ∨
     (pstate (schedule_tick rsp k).2 i = PROC_READY ∧ patience (schedule_tick rsp k).2 c' i < patience k c i)).
Proof.
  intros K I R. destruct (ticked_ok k c K) as [K1 Hq].
  assert (patience k c i = patience (ticked k) c i) as -> by (unfold patience; by rewrite Hq).
  apply (result_progress rsp (ticked k) c i).
  - done.
  - done.
  - unfold pstate. rewrite (ticked_ready k i (to_table _ _ K) I R). exact R.
  - destruct K. by apply schedule_tick_result; try lia.
Qed.

(** A run of timer interrupts; the list holds the stack pointers saved. *)
Definition run_ticks (rsps : list Z) (k : kern) : kern := foldl (λ k rsp, (schedule_tick rsp k).2) k rsps.

Lemma run_ticks_0 rsps k : run_ticks (take 0 rsps) k = k.
Proof. done. Qed.
Lemma run_ticks_step rsp rsps k : run_ticks (rsp :: rsps) k = run_ticks rsps (schedule_tick rsp k).2.
Proof. unfold run_ticks. reflexivity. Qed.
Lemma run_ticks_cons m rsp rsps k :
  run_ticks (take (Datatypes.S m) (rsp :: rsps)) k = run_ticks (take m rsps) (schedule_tick rsp k).2.
Proof. unfold run_ticks. by rewrite firstn_cons. Qed.

Lemma run_ticks_progress n rsps k c i :
  tick_ok k c → in_table i → pstate k i = PROC_READY →
  patience k c i ≤ Z.of_nat n → (n ≤ length rsps)%nat →
  ∃ m, (m ≤ n)%nat ∧ current_process (run_ticks (take m rsps) k) = Some i ∧
       pstate (run_ticks (take m rsps) k) i = PROC_RUNNING.
Proof.
  revert rsps k c. induction n as [|n IH]; intros rsps k c K I R Hp Hl.
  { exfalso. unfold patience, TIME_QUANTUM in Hp. pose proof (distance_range c i). lia. }
  destruct rsps as [|rsp rsps]; [cbn in Hl; lia |].
  destruct (tick_progress rsp k c i K I R) as (c' & K' & [[-> E] | [R' Hlt]]).
  - exists 1%nat. split; [lia |]. rewrite run_ticks_cons, run_ticks_0. split; [exact (to_current _ _ K') | exact E].
  - destruct (IH rsps _ c' K' I R') as (m & Hm & E1 & E2); [lia | cbn in Hl; lia |].
    exists (Datatypes.S m). split; [lia |]. rewrite run_ticks_cons. split; [exact E1 | exact E2].
Qed.

(** ** What an operation on one slot leaves alone *)
Record keeps_at (t : Z) (k k' : kern) : Prop := KeepsAt {
  ka_len : zlen (processes k') = zlen (processes k);
  ka_other : ∀ j, j ≠ t → proc k' j = proc k j;
  ka_current : current_process k' = current_process k;
  ka_pid : next_pid k' = next_pid k;
  ka_sched : scheduling_enabled k' = scheduling_enabled k;
  ka_quantum : ticks_remaining k' = ticks_remaining k;
  ka_clock : system_ticks k' = system_ticks k;
  ka_tss : tss_rsp0 k' = tss_rsp0 k;
  ka_regs : regs (vmm k') = regs (vmm k)
}.

Lemma keeps_at_refl t k : keeps_at t k k.
Proof. by split. Qed.
Lemma keeps_at_trans t k1 k2 k3 : keeps_at t k1 k2 → keeps_at t k2 k3 → keeps_at t k1 k3.
Proof.
  intros [] []. split; try congruence. intros j Hj. by rewrite ka_other1, ka_other0.
Qed.
Lemma keeps_at_upd t f k : keeps_at t k (upd t f k).
Proof. split; try done; [unfold upd; cbn [processes set_procs]; apply zlen_aset |]. intros j Hj. by apply proc_upd_ne. Qed.
Lemma keeps_at_vmm t v k : regs v = regs (vmm k) → keeps_at t k (set_vmm k v).
Proof. by split. Qed.
Lemma keeps_at_fds t f k : keeps_at t k (set_fds k f).
Proof. by split. Qed.

Create HintDb kproc.
#[export] Hint Resolve keeps_at_refl keeps_at_upd keeps_at_fds : kproc.

Lemma keeps_table t k k' : keeps_at t k k' → table_ok k → table_ok k'.
Proof. unfold table_ok. intros [] ?. congruence. Qed.

(** What identifies a process, as opposed to the resources it holds. *)
Definition ident (p : process_t) : Z * process_state_t * Z * bool * bool * Z :=
  (pid p, state p, kernel_stack_top p, is_user p, detached p, exit_code p).
Definition pages_ok (p : process_t) : Prop :=
  zlen (user_pages p) = PROCESS_MAX_USER_PAGES ∧ 0 ≤ user_page_count p ≤ PROCESS_MAX_USER_PAGES.

Lemma free_user_pages_spec t k :
  table_ok k → in_table t →
  let k' := free_user_pages t k in
  keeps_at t k k' ∧ ident (proc k' t) = ident (proc k t) ∧ cr3 (proc k' t) = cr3 (proc k t) ∧
  zlen (user_pages (proc k' t)) = zlen (user_pages (proc k t)).
Proof.
  intros T I. cbn zeta. unfold free_user_pages.
  apply (for_each_inv (λ _ k', keeps_at t k k' ∧ ident (proc k' t) = ident (proc k t) ∧
    cr3 (proc k' t) = cr3 (proc k t) ∧ zlen (user_pages (proc k' t)) = zlen (user_pages (proc k t)))).
  { split; [apply keeps_at_refl | done]. }
  intros j k1 _ (K & Hi & Hc & Hp). set (k2 := if _ =? 0 then k1 else _).
  assert (keeps_at t k1 k2 ∧ proc k2 t = proc k1 t) as [K2 E2].
  { unfold k2. destruct (_ =? 0); [split; [apply keeps_at_refl | done] |]. split; [by apply keeps_at_vmm | done]. }
  pose proof (keeps_at_trans _ _ _ _ K K2) as K3.
  split; [eapply keeps_at_trans; [exact K3 | apply keeps_at_upd] |].
  rewrite proc_upd_eq by (done || by eapply keeps_table). rewrite E2.
  split; [exact Hi |]. split; [exact Hc |]. cbn [user_pages set_pages]. by rewrite zlen_aset.
Qed.

Lemma cleanup_spec t k :
  table_ok k → in_table t →
  let k' := process_cleanup t k in
  keeps_at t k k' ∧ ident (proc k' t) = ident (proc k t) ∧
  (pid (proc k t) ≠ 0 → cr3 (proc k' t) = 0 ∧ user_page_count (proc k' t) = 0) ∧
  (pages_ok (proc k t) → pages_ok (proc k' t)).
Proof.
  intros T I. cbn zeta. unfold process_cleanup. case_match eqn:E; [split; [apply keeps_at_refl | split; [done | split; [lia | done]]] |].
  set (k1 := set_fds _ _). assert (table_ok k1) as T1 by done.
  destruct (free_user_pages_spec t k1 T1 I) as (K2 & I2 & C2 & P2).
  generalize dependent (free_user_pages t k1). intros k2 K2 I2 C2 P2. pose proof (keeps_table _ _ _ K2 T1) as T2.
  set (k3 := upd t (λ p, set_pages (user_pages p) 0 p) k2).
  assert (proc k3 t = set_pages (user_pages (proc k2 t)) 0 (proc k2 t)) as E3 by (unfold k3; by rewrite proc_upd_eq).
  assert (keeps_at t k k3) as K3.
  { eapply keeps_at_trans; [apply keeps_at_fds |]. eapply keeps_at_trans; [exact K2 | apply keeps_at_upd]. }
  clearbody k3. set (k4 := if _ && _ then _ else _).
  assert (keeps_at t k3 k4 ∧ proc k4 t = proc k3 t) as [K4 E4].
  { unfold k4. case_match; [| split; [apply keeps_at_refl | done]].
    split; [apply keeps_at_vmm, regs_destroy_address_space | done]. }
  clearbody k4. pose proof (keeps_at_trans _ _ _ _ K3 K4) as K5. pose proof (keeps_table _ _ _ K5 T) as T4.
  split; [eapply keeps_at_trans; [exact K5 | apply keeps_at_upd] |].
  rewrite proc_upd_eq by done. rewrite E4, E3.
  split; [exact I2 |]. split; [done |]. intros [Hl _]. split; [by rewrite <- Hl |]. cbn. unfold PROCESS_MAX_USER_PAGES. lia.
Qed.

(** ** Calls in the monad *)
Lemma km_bind_some {A B} (c : km A) (f : A → km B) k r :
  (c ≫= f) k = Some r → ∃ x k1, c k = Some (x, k1) ∧ f x k1 = Some r.
Proof. unfold mbind, km_bind. destruct (c k) as [[x k1] |]; [eauto | done]. Qed.
Lemma km_get_some k r : km_get k = Some r → r = (k, k).
Proof. by intros [= <-]. Qed.
Lemma km_mod_some f k r : km_mod f k = Some r → r = (tt, f k).
Proof. by intros [= <-]. Qed.
Lemma km_opt_some {A} (o : option A) k x k1 : km_opt o k = Some (x, k1) → o = Some x ∧ k1 = k.
Proof. unfold km_opt. by destruct o; intros [= <- <-]. Qed.
Lemma km_vmm_some {A} (f : vmm_state → A * vmm_state) k x k1 :
  km_vmm f k = Some (x, k1) → x = (f (vmm k)).1 ∧ k1 = set_vmm k (f (vmm k)).2.
Proof. unfold km_vmm. destruct (f (vmm k)). by intros [= <- <-]. Qed.

(** Run a call one step further. *)
Ltac km_step H :=
  let K := fresh "K" in
  apply km_bind_some in H as (? & ? & K & H);
  lazymatch type of K with
  | km_get _ = Some _ => apply km_get_some in K; injection K as -> ->
  | km_mod _ _ = Some _ => apply km_mod_some in K; injection K as -> ->; cbv beta in H
  | km_opt _ _ = Some _ => apply km_opt_some in K as [K ->]
  | km_vmm _ _ = Some _ => apply km_vmm_some in K as [-> ->]
  | _ => idtac
  end.

(** A call that touches the resources of one slot and nothing else. *)
Record touches (i : Z) (k k' : kern) : Prop := Touches {
  tc_keeps : keeps_at i k k';
  tc_proc : ∃ l n, proc k' i = set_pages l n (proc k i);
  tc_pages : pages_ok (proc k i) → pages_ok (proc k' i)
}.

Lemma touches_vmm i v k : regs v = regs (vmm k) → touches i k (set_vmm k v).
Proof.
  intros E. split; [by apply keeps_at_vmm | | done]. exists (user_pages (proc k i)), (user_page_count (proc k i)).
  change (proc (set_vmm k v) i) with (proc k i). by destruct (proc k i).
Qed.
Lemma touches_trans i k1 k2 k3 : touches i k1 k2 → touches i k2 k3 → touches i k1 k3.
Proof.
  intros [K1 (l1 & n1 & P1) Q1] [K2 (l2 & n2 & P2) Q2]. split.
  - by eapply keeps_at_trans.
  - exists l2, n2. rewrite P2, P1. by destruct (proc k1 i).
  - auto.
Qed.
Lemma touches_refl i k : touches i k k.
Proof. pose proof (touches_vmm i (vmm k) k eq_refl) as H. by destruct k. Qed.

Lemma map_user_page_spec i virt flags k r k' :
  table_ok k → in_table i → process_map_user_page i virt flags k = Some (r, k') → touches i k k'.
Proof.
  intros T I H. unfold process_map_user_page in H. km_step H.
  destruct (_ || _); [injection H as <- <-; apply touches_refl |]. km_step H.
  match type of H with (if ?b then _ else _) _ = _ => destruct b end; [injection H as <- <-; apply touches_refl |].
  destruct (Z.leb_spec PROCESS_MAX_USER_PAGES (user_page_count (proc k i))) as [|Hn]; [injection H as <- <-; apply touches_refl |].
  km_step H. pose proof (touches_vmm i (alloc_page (vmm k)).2 k (regs_alloc_page _)) as T1.
  destruct (_ =? 0); [injection H as <- <-; exact T1 |]. km_step H. km_step H.
  match type of H with context [set_vmm ?a (vmm_map_page_in ?b ?c ?d ?e ?f).2] =>
    pose proof (touches_vmm i (vmm_map_page_in b c d e f).2 a (regs_map_page_in b c d e f)) as T2; set (k2 := set_vmm a _) in * end.
  assert (touches i k k2) as T3.
  { eapply touches_trans; [exact T1 |]. eapply touches_trans; [| exact T2]. apply touches_vmm, regs_set_mem. }
  destruct (negb _).
  - km_step H. injection H as <- <-. eapply touches_trans; [exact T3 | apply touches_vmm, regs_free_page].
  - km_step H. injection H as <- <-.
    assert (proc k2 i = proc k i) as E2 by done. clearbody k2.
    pose proof (keeps_table _ _ _ (tc_keeps _ _ _ T3) T) as Tk2. split.
    + eapply keeps_at_trans; [apply T3 | apply keeps_at_upd].
    + rewrite proc_upd_eq, E2 by done. eauto.
    + rewrite proc_upd_eq, E2 by done. unfold pages_ok. cbn [user_pages user_page_count set_pages]. rewrite zlen_aset. lia.
Qed.

Lemma map_pages_spec i flags l k r k' :
  table_ok k → in_table i → map_pages i flags l k = Some (r, k') → touches i k k'.
Proof.
  revert k. induction l as [|a l IH]; intros k T I H; cbn [map_pages] in H.
  - injection H as <- <-. apply touches_refl.
  - km_step H. apply map_user_page_spec in K; [| done | done].
    destruct (negb _); [injection H as <- <-; done |].
    eapply touches_trans; [done |]. eapply IH; [| done | done]. eapply keeps_table; [apply K | done].
Qed.

Lemma find_unused_some k s :
  find_unused k = Some s → 1 ≤ s < MAX_PROCESSES ∧ pstate k s = PROC_UNUSED.
Proof.
  unfold find_unused. intros E.
  pose proof (for_range_inv (λ _ (_ : unit), True) (λ i, 1 ≤ i < MAX_PROCESSES ∧ pstate k i = PROC_UNUSED)
    1 MAX_PROCESSES (λ i _, if at_state k i PROC_UNUSED then inr i else inl ()) ()) as W.
  destruct (for_range _ _ _ _) as [| j]; [done |]. injection E as ->. apply W; [done | done |].
  intros j [] r Hj _. destruct (at_state _ _ _) eqn:C; [| done]. intros [= <-]. apply at_state_true in C. auto.
Qed.

Lemma find_unused_none k i :
  find_unused k = None → 1 ≤ i < MAX_PROCESSES → pstate k i ≠ PROC_UNUSED.
Proof.
  unfold find_unused. intros E Hi.
  pose proof (for_range_inv (R := Z) (λ n (_ : unit), ∀ j, 1 ≤ j < n → pstate k j ≠ PROC_UNUSED) (λ _, True)
    1 MAX_PROCESSES (λ i _, if at_state k i PROC_UNUSED then inr i else inl ()) ()) as W.
  destruct (for_range _ _ _ _) as [[] |]; [| done].
  refine (W _ _ _ i _); [lia | | done | lia].
  intros n [] [] Hn I. destruct (at_state _ _ _) eqn:C; [done |]. intros _ j Hj.
  destruct (decide (j = n)) as [-> |]; [by apply at_state_false | apply I; lia].
Qed.

Lemma init_context_spec top e u k x k' :
  init_context top e u k = Some (x, k') → ∃ m, k' = set_vmm k (set_mem (vmm k) m).
Proof. unfold init_context, km_mem. cbn zeta. intros H. do 6 km_step H. injection H as _ <-. cbv beta. eexists. reflexivity. Qed.

Section Creation.
Context (kernel_stacks : Z).

(** What a successful [process_create] has put in its slot. *)
Record created (user : bool) (k : kern) (slot : Z) (p : process_t) : Prop := Created {
  cr_pid : pid p = next_pid k;
  cr_state : state p = if user then PROC_LOADING else PROC_READY;
  cr_user : is_user p = user;
  cr_detached : detached p = false;
  cr_waits : wait_target p = 0 ∧ wake_tick p = 0 ∧ exit_code p = 0;
  cr_stack : kernel_stack_top p = kernel_stacks + slot * PROCESS_KERNEL_STACK_SIZE + PROCESS_KERNEL_STACK_SIZE;
  cr_rsp : kernel_rsp p = kernel_stack_top p -64 CTX_SIZE
}.

(** A slot that [process_create] has claimed and not yet published. *)
Definition claimed (user : bool) (k1 : kern) (p : process_t) : Prop :=
  pid p = next_pid k1 ∧ state p = PROC_UNUSED ∧ is_user p = user ∧ pages_ok p.

Definition create_result (user : bool) (k0 k1 : kern) (slot : Z) (x : option Z) (k' : kern) : Prop :=
  keeps_at slot k0 k' ∧ pages_ok (proc k' slot) ∧
  (x = None ∧ pstate k' slot = PROC_UNUSED ∨ x = Some slot ∧ created user k1 slot (proc k' slot)).

Lemma map_layout_spec (user : bool) slot flags k r k' :
  table_ok k → in_table slot →
  (if user then map_pages slot flags user_layout else mret 0) k = Some (r, k') → touches slot k k'.
Proof. destruct user; intros ? ? H; [by eapply map_pages_spec |]. injection H as <- <-. apply touches_refl. Qed.

Lemma create_finish_spec user slot e k0 k1 k x k' :
  table_ok k → in_table slot → keeps_at slot k0 k → claimed user k1 (proc k slot) →
  create_finish kernel_stacks slot e user k = Some (x, k') → create_result user k0 k1 slot x k'.
Proof.
  intros T I K0 (E1 & E2 & E3 & E4) H. unfold create_finish in H. km_step H.
  set (top := kernel_stacks + slot * PROCESS_KERNEL_STACK_SIZE + PROCESS_KERNEL_STACK_SIZE) in *.
  set (k2 := upd slot _ k) in H. assert (table_ok k2) as T2 by by apply table_upd.
  assert (proc k2 slot = _) as P2 by (apply proc_upd_eq; done).
  pose proof (keeps_at_trans _ _ _ _ K0 (keeps_at_upd slot _ k : keeps_at slot k k2)) as K2. clearbody k2.
  km_step H. apply init_context_spec in K as [m ->]. km_step H. km_step H. rename K into KM.
  apply map_layout_spec in KM; [| done | done].
  pose proof (touches_trans _ _ _ _ (touches_vmm slot _ k2 (regs_set_mem (vmm k2) m)) KM) as [K3 (l & n & P3) PG3].
  pose proof (keeps_table _ _ _ K3 T2) as T3. pose proof (keeps_at_trans _ _ _ _ K2 K3) as K4.
  rewrite P2 in P3, PG3. destruct (negb _); km_step H; km_step H; injection H as <- <-.
  - match goal with |- context [process_cleanup slot ?k3] => destruct (cleanup_spec slot k3 T3 I) as (K5 & _ & _ & P5) end.
    split; [eapply keeps_at_trans; [exact K4 |]; eapply keeps_at_trans; [exact K5 | apply keeps_at_upd] |].
    unfold pstate. rewrite proc_upd_eq by (done || by eapply keeps_table).
    split; [apply P5, PG3; split; [apply E4 | cbn; unfold PROCESS_MAX_USER_PAGES; lia] | by left].
  - split; [eapply keeps_at_trans; [exact K4 |]; eapply keeps_at_trans; apply keeps_at_upd |].
    rewrite !proc_upd_eq by (done || by apply table_upd).
    split; [apply PG3; split; [apply E4 | cbn; unfold PROCESS_MAX_USER_PAGES; lia] |]. rewrite P3.
    right. split; [done |]. by split.
Qed.

Lemma process_create_spec nm e user k x k' :
  table_ok k → (∀ i, in_table i → pages_ok (proc k i)) → process_create kernel_stacks nm e user k = Some (x, k') →
  (x = None ∧ k' = k ∧ find_unused k = None) ∨
  ∃ slot, find_unused k = Some slot ∧ create_result user (set_next_pid k (next_pid k +64 1)) k slot x k'.
Proof.
  intros T PG H. unfold process_create in H. km_step H.
  destruct (find_unused k) as [slot |] eqn:F; [| injection H as <- <-; by left].
  right. exists slot. split; [done |]. apply find_unused_some in F as [Hs Hu].
  assert (in_table slot) as I by (unfold in_table; lia). pose proof (PG slot I) as PGs.
  do 4 km_step H.
  set (k1 := upd slot _ (set_next_pid _ _)) in H. set (k0 := set_next_pid k (next_pid k +64 1)).
  assert (table_ok (set_next_pid (upd slot (set_pid (next_pid k)) k) (next_pid k +64 1))) as T0
    by by apply (table_upd k slot (set_pid (next_pid k))).
  assert (table_ok k1) as T1 by by apply table_upd.
  assert (keeps_at slot k0 k1) as K1
    by (eapply keeps_at_trans; [exact (keeps_at_upd slot (set_pid (next_pid k)) k0) | apply keeps_at_upd]).
  assert (claimed user k (proc k1 slot)) as C1.
  { unfold k1. rewrite proc_upd_eq by done. change (proc (set_next_pid ?a _) slot) with (proc a slot).
    by rewrite proc_upd_eq. }
  clearbody k1. apply km_bind_some in H as (c & k2 & KC & H). km_step H.
  assert (∃ v, regs v = regs (vmm k1) ∧ k2 = set_vmm k1 v) as (v & Rv & ->).
  { destruct user; apply km_vmm_some in KC as [_ ->]; [| by exists (vmm k1)].
    eexists. split; [apply regs_create_address_space | done]. }
  pose proof (keeps_at_trans _ _ _ _ K1 (keeps_at_vmm slot v k1 Rv)) as K3.
  pose proof (keeps_at_trans _ _ _ _ K3 (keeps_at_upd slot (set_proc_cr3 c) (set_vmm k1 v))) as K4.
  assert (proc (upd slot (set_proc_cr3 c) (set_vmm k1 v)) slot = set_proc_cr3 c (proc k1 slot)) as P4
    by (by rewrite proc_upd_eq).
  destruct (c =? 0).
  { injection H as <- <-. split; [exact K4 |]. unfold pstate. rewrite P4. destruct C1 as (_ & ? & _ & ?).
    split; [done | by left]. }
  refine (create_finish_spec user slot e k0 k _ x k' _ I K4 _ H); [by apply table_upd | by rewrite P4].
Qed.
End Creation.

(** ** Exit, kill and wake-up *)
Definition waits_for (d : Z) (p : process_t) : bool :=
  is_st (state p) PROC_BLOCKED && ((wait_target p =? 0) || (wait_target p =? d)).

Lemma exit_spec code k c :
  table_ok k → in_table c → current_process k = Some c → pid (proc k c) ≠ 0 →
  procs_only k (process_exit code k) ∧ table_ok (process_exit code k) ∧
  ∀ j, in_table j → proc (process_exit code k) j =
    if j =? c then set_exit_code code (set_state PROC_TERMINATED (proc k j))
    else if waits_for (pid (proc k c)) (proc k j) then set_wait 0 (set_state PROC_READY (proc k j)) else proc k j.
Proof.
  intros T I C Hp. unfold process_exit. rewrite C. destruct (Z.eqb_spec (pid (proc k c)) 0) as [| _]; [done |].
  set (k1 := upd c _ k). assert (table_ok k1) as T1 by by apply table_upd.
  assert (∀ j, proc k1 j = if j =? c then set_exit_code code (set_state PROC_TERMINATED (proc k j)) else proc k j) as E1.
  { intros j. unfold k1. destruct (Z.eqb_spec j c) as [-> |]; [by rewrite proc_upd_eq | by rewrite proc_upd_ne by congruence]. }
  assert (procs_only k k1) as P1 by apply procs_only_upd. clearbody k1.
  assert (pid (proc k1 c) = pid (proc k c)) as Ep by by rewrite E1, Z.eqb_refl.
  destruct (sweep_spec (waits_for (pid (proc k1 c))) (λ p, set_wait 0 (set_state PROC_READY p)) 0 k1) as (S1 & S2 & S3); [done | lia |].
  split; [eapply procs_only_trans; [exact P1 | exact S1] |]. split; [exact S2 |].
  intros j Hj. etransitivity; [exact (S3 j Hj) |]. rewrite Ep, E1. destruct Hj.
  replace (0 <=? j) with true by lia. by destruct (j =? c).
Qed.

Lemma terminate_spec p k :
  table_ok k →
  let k' := process_terminate p k in
  procs_only k k' ∧ table_ok k' ∧
  ∀ j, in_table j → proc k' j =
    match process_get k p with
    | Some i => if p =? 0 then proc k j
                else if j =? i then set_state PROC_TERMINATED (proc k j)
                else if is_st (state (proc k j)) PROC_BLOCKED then set_state PROC_READY (proc k j) else proc k j
    | None => proc k j
    end.
Proof.
  intros T. cbn zeta. unfold process_terminate. destruct (process_get k p) as [i |] eqn:G; [| split; [apply procs_only_refl | done]].
  destruct (process_get_some k p i G) as (I & _ & Hp). rewrite Hp.
  destruct (p =? 0); [split; [apply procs_only_refl | done] |].
  set (k1 := upd i _ k). assert (table_ok k1) as T1 by by apply table_upd.
  assert (∀ j, proc k1 j = if j =? i then set_state PROC_TERMINATED (proc k j) else proc k j) as E1.
  { intros j. unfold k1. destruct (Z.eqb_spec j i) as [-> |]; [by rewrite proc_upd_eq | by rewrite proc_upd_ne by congruence]. }
  assert (procs_only k k1) as P1 by apply procs_only_upd. clearbody k1.
  destruct (sweep_spec (λ p, is_st (state p) PROC_BLOCKED) (set_state PROC_READY) 0 k1) as (S1 & S2 & S3); [done | lia |].
  split; [eapply procs_only_trans; [exact P1 | exact S1] |]. split; [exact S2 |].
  intros j Hj. etransitivity; [exact (S3 j Hj) |]. rewrite E1. destruct Hj.
  replace (0 <=? j) with true by lia. by destruct (j =? i).
Qed.

(** Reaping a slot: its resources go and the slot is free. *)
Lemma reap_slot_spec (f : process_t → process_t) t k :
  table_ok k → in_table t → (∀ p, state (f p) = PROC_UNUSED ∧ user_pages (f p) = user_pages p ∧
     user_page_count (f p) = user_page_count p) → pages_ok (proc k t) →
  let k' := upd t f (process_cleanup t k) in
  keeps_at t k k' ∧ table_ok k' ∧ pstate k' t = PROC_UNUSED ∧ pages_ok (proc k' t).
Proof.
  intros T I F PG. cbn zeta. destruct (cleanup_spec t k T I) as (K & _ & _ & P). specialize (P PG).
  generalize dependent (process_cleanup t k). intros k1 K P. pose proof (keeps_table _ _ _ K T) as T1.
  split; [eapply keeps_at_trans; [exact K | apply keeps_at_upd] |]. split; [by apply table_upd |].
  unfold pstate. rewrite proc_upd_eq by done. destruct (F (proc k1 t)) as (E1 & E2 & E3). split; [done |].
  unfold pages_ok. by rewrite E2, E3.
Qed.

End Sched.
