(* ===== verification/System.v ===== *)
(** * The processes as a transition system (kernel/process/process.c)

    A system state is the kernel state and, per slot, the point of the kernel
    at which the process is.  The timer may interrupt between any two steps;
    every other step is taken by the current process: a user process exits,
    sleeps or waits through its system calls, and the kernel process (slot 0,
    the shell) creates, loads, activates, detaches, kills and reaps.  The
    waits of [process_waitpid] and [process_sleep_ticks] are two steps each,
    since the process halts in between. *)
From stdpp Require Import relations.
From S2P Require Import Prelude.
From S2P Require Import PhysMem.
From S2P Require Import Pmm.
From S2P Require Import Vmm.
From S2P Require Import CString.
From S2P Require Import Fdtab.
From S2P Require Import Process.
From S2P Require Import Sched.
Import Pmm Vmm Fdtab Process Sched.

Module System.

Inductive kpc :=
| AtRun
| AtExit                (** halted for good in [process_exit] *)
| AtWait (target : Z)   (** halted in [process_waitpid] *)
| AtSleep.              (** halted in [process_sleep_ticks] *)

Record sys := Sys { kernel : kern; pcs : Z → kpc }.
Definition setpc (f : Z → kpc) (i : Z) (x : kpc) : Z → kpc := λ j, if j =? i then x else f j.

(** The current process is [c] and is executing, not halted. *)
Definition runs (k : kern) (f : Z → kpc) (c : Z) : Prop := current_process k = Some c ∧ f c = AtRun.

Section Steps.
Context (kernel_stacks : Z).

Inductive step : sys → sys → Prop :=
| s_tick k f rsp :
    scheduling_enabled k = true → step (Sys k f) (Sys (schedule_tick rsp k).2 f)
| s_user k f v t :
    regs v = regs (vmm k) → step (Sys k f) (Sys (set_fds (set_vmm k v) t) f)
| s_exit k f c code :
    runs k f c → pid (proc k c) ≠ 0 → step (Sys k f) (Sys (process_exit code k) (setpc f c AtExit))
| s_sleep k f c n k' :
    runs k f c → sleep_begin n k = Some k' → step (Sys k f) (Sys k' (setpc f c AtSleep))
| s_sleep_done k f c :
    current_process k = Some c → f c = AtSleep → sleep_over c k = true →
    step (Sys k f) (Sys k (setpc f c AtRun))
| s_wait k f c p t k' :
    runs k f c → process_get k p = Some t → p ≠ 0 → wait_begin p k = Some k' →
    step (Sys k f) (Sys k' (setpc f c (AtWait t)))
| s_wait_done k f c t status k' :
    current_process k = Some c → f c = AtWait t → wait_over t k = true → wait_end k = Some k' →
    step (Sys k f) (Sys (wait_reap t status k').2 (setpc f c AtRun))
| s_wait_nohang k f c p t status :
    runs k f c → process_get k p = Some t → p ≠ 0 → pstate k t = PROC_TERMINATED →
    step (Sys k f) (Sys (wait_reap t status k).2 f)
| s_create k f nm e user x k' :
    runs k f 0 → next_pid k < 2 ^ 64 - 1 → process_create kernel_stacks nm e user k = Some (x, k') →
    step (Sys k f) (Sys k' (match x with Some slot => setpc f slot AtRun | None => f end))
| s_load k f i virt flags r k' :
    runs k f 0 → in_table i → pstate k i = PROC_LOADING → process_map_user_page i virt flags k = Some (r, k') →
    step (Sys k f) (Sys k' f)
| s_activate k f p : runs k f 0 → step (Sys k f) (Sys (process_activate p k) f)
| s_detach k f p : runs k f 0 → step (Sys k f) (Sys (process_detach p k) f)
| s_terminate k f p : runs k f 0 → step (Sys k f) (Sys (process_terminate p k) f)
| s_reap k f : runs k f 0 → step (Sys k f) (Sys (process_reap_terminated k).2 f)
| s_foreground k f p : runs k f 0 → step (Sys k f) (Sys (process_set_foreground p k) f).

(** ** The invariant *)
Record slot_inv (c : Z) (f : Z → kpc) (n i : Z) (p : process_t) : Prop := SlotInv {
  si_running : state p = PROC_RUNNING → i = c;
  si_current : i = c → state p ≠ PROC_UNUSED ∧ state p ≠ PROC_LOADING ∧ (state p = PROC_TERMINATED → f i = AtExit);
  si_zero : i = 0 → pid p = 0 ∧ (state p = PROC_READY ∨ state p = PROC_RUNNING ∨ state p = PROC_BLOCKED);
  si_exit : f i = AtExit → state p = PROC_TERMINATED ∨ state p = PROC_UNUSED;
  si_wait : ∀ t, f i = AtWait t → in_table t ∧ t ≠ 0;
  si_pages : pages_ok p;
  si_pid : i ≠ 0 → state p ≠ PROC_UNUSED → 1 ≤ pid p < n
}.

Record inv_at (s : sys) (c : Z) : Prop := InvAt {
  iv_table : table_ok (kernel s);
  iv_current : current_process (kernel s) = Some c;
  iv_slot : in_table c;
  iv_tss : tss_rsp0 (kernel s) = kernel_stack_top (proc (kernel s) c);
  iv_cr3 : Z.land (cr3_reg (vmm (kernel s))) PTE_ADDR_MASK = Z.land (cr3 (proc (kernel s) c)) PTE_ADDR_MASK;
  iv_quantum : 0 ≤ ticks_remaining (kernel s) ≤ TIME_QUANTUM;
  iv_next : 1 ≤ next_pid (kernel s) < 2 ^ 64;
  iv_slots : ∀ i, in_table i → slot_inv c (pcs s) (next_pid (kernel s)) i (proc (kernel s) i);
  iv_unique : ∀ i j, in_table i → in_table j →
    pstate (kernel s) i ≠ PROC_UNUSED → pstate (kernel s) j ≠ PROC_UNUSED →
    pid (proc (kernel s) i) = pid (proc (kernel s) j) → i = j
}.
Definition inv (s : sys) : Prop := ∃ c, inv_at s c.

(** A step that keeps the pids of the processes it does not remove. *)
Lemma inv_step k f c k' f' c' :
  inv_at (Sys k f) c → table_ok k' → current_process k' = Some c' → in_table c' →
  tss_rsp0 k' = kernel_stack_top (proc k' c') →
  Z.land (cr3_reg (vmm k')) PTE_ADDR_MASK = Z.land (cr3 (proc k' c')) PTE_ADDR_MASK →
  0 ≤ ticks_remaining k' ≤ TIME_QUANTUM → next_pid k' = next_pid k →
  (∀ i, in_table i → slot_inv c f (next_pid k) i (proc k i) →
     slot_inv c' f' (next_pid k) i (proc k' i) ∧
     (pstate k' i ≠ PROC_UNUSED → pstate k i ≠ PROC_UNUSED ∧ pid (proc k' i) = pid (proc k i))) →
  inv_at (Sys k' f') c'.
Proof.
  intros [] T C I Ht Hc Hq Hn Hs. cbn [kernel pcs] in *.
  split; cbn [kernel pcs]; try done; [by rewrite Hn | |].
  - intros i Hi. rewrite Hn. by apply Hs; [| apply iv_slots0].
  - intros i j Hi Hj Ui Uj Hp. destruct (Hs i Hi (iv_slots0 i Hi)) as [_ Si]. destruct (Hs j Hj (iv_slots0 j Hj)) as [_ Sj].
    destruct (Si Ui) as [Ui' Pi]. destruct (Sj Uj) as [Uj' Pj]. apply iv_unique0; congruence.
Qed.

(** The common case: the current process stays, and so do the resources. *)
Lemma inv_states k f c k' f' :
  inv_at (Sys k f) c → procs_only k k' → table_ok k' →
  (∀ i, in_table i → slot_inv c f (next_pid k) i (proc k i) →
     slot_inv c f' (next_pid k) i (proc k' i) ∧ pid (proc k' i) = pid (proc k i) ∧
     (pstate k' i ≠ PROC_UNUSED → pstate k i ≠ PROC_UNUSED) ∧
     kernel_stack_top (proc k' i) = kernel_stack_top (proc k i) ∧ cr3 (proc k' i) = cr3 (proc k i)) →
  inv_at (Sys k' f') c.
Proof.
  intros V P T Hs. pose proof V as []. cbn [kernel pcs] in *.
  destruct (Hs c iv_slot0 (iv_slots0 c iv_slot0)) as (_ & _ & _ & Ek & Ec).
  apply (inv_step k f c); try done; try (by rewrite P).
  - rewrite Ek, <- iv_tss0. by rewrite P.
  - rewrite Ec, <- iv_cr4. by rewrite P.
  - intros i Hi Si. destruct (Hs i Hi Si) as (? & ? & ? & _). auto.
Qed.

(** *** One slot *)
Lemma slot_ext c f n i p q :
  pid q = pid p → state q = state p → user_pages q = user_pages p → user_page_count q = user_page_count p →
  slot_inv c f n i p → slot_inv c f n i q.
Proof. intros E1 E2 E3 E4 []. split; unfold pages_ok; rewrite ?E1, ?E2, ?E3, ?E4; done. Qed.

Lemma slot_state c f n i p s :
  slot_inv c f n i p → state p ≠ PROC_UNUSED → s ≠ PROC_UNUSED → s ≠ PROC_LOADING →
  (s = PROC_RUNNING → i = c) → (s = PROC_TERMINATED → i = c → f i = AtExit) →
  (i = 0 → s ≠ PROC_TERMINATED ∧ s ≠ PROC_SLEEPING) → (f i = AtExit → s = PROC_TERMINATED) →
  slot_inv c f n i (set_state s p).
Proof.
  intros [] U S1 S2 S3 S4 S5 S6. split; cbn [state pid set_state].
  - done.
  - intros ->. auto.
  - intros H0. destruct (si_zero0 H0) as [Hp _]. destruct (S5 H0). split; [done |]. destruct s; auto; done.
  - intros E. left. auto.
  - done.
  - done.
  - auto.
Qed.

(** A process that sleeps, waits or is being loaded becomes ready. *)
Lemma slot_ready c f n i p :
  slot_inv c f n i p → state p = PROC_BLOCKED ∨ state p = PROC_SLEEPING ∨ state p = PROC_LOADING ∨ state p = PROC_READY →
  slot_inv c f n i (set_state PROC_READY p).
Proof.
  intros S Hs. pose proof (si_exit _ _ _ _ _ S) as Se.
  apply slot_state; try done.
  - intuition congruence.
  - intros E. destruct (Se E); intuition congruence.
Qed.

(** The point of the kernel moves in one slot only. *)
Lemma slot_pc c f n i p x :
  slot_inv c f n i p → (i = c → x = AtRun ∨ x = AtSleep → state p ≠ PROC_TERMINATED) →
  (∀ t, x = AtWait t → i = c → state p ≠ PROC_TERMINATED ∧ in_table t ∧ t ≠ 0) →
  (x = AtExit → i = c → state p = PROC_TERMINATED) → slot_inv c (setpc f c x) n i p.
Proof.
  intros [] R W E. unfold setpc. destruct (Z.eqb_spec i c) as [-> | Hne].
  - split; rewrite ?Z.eqb_refl; try done.
    + intros _. destruct (si_current0 eq_refl) as (? & ? & _). split; [done |]. split; [done |]. intros Ht.
      destruct x as [| | t |]; [by destruct (R eq_refl (or_introl eq_refl)) | done | | by destruct (R eq_refl (or_intror eq_refl))].
      by destruct (W t eq_refl eq_refl).
    + intros ->. left. auto.
    + intros t ->. by apply (W t).
  - split; rewrite ?(proj2 (Z.eqb_neq i c) Hne); done.
Qed.

(** *** The timer *)
Lemma inv_timer k f c : inv_at (Sys k f) c → inv_at (Sys (timer_tick k) f) c.
Proof. intros []. by split. Qed.

Lemma inv_ticked k f c : inv_at (Sys k f) c → inv_at (Sys (ticked k) f) c.
Proof.
  intros V%inv_timer. pose proof (iv_table _ _ V) as T. destruct (ticked_spec k T) as (P & T' & Q).
  generalize dependent (ticked k). intros k1 P T' Q.
  apply (inv_states _ _ _ _ _ V P T'). change (next_pid (timer_tick k)) with (next_pid k).
  intros i Hi S. unfold pstate. rewrite Q by done. change (proc (timer_tick k) i) with (proc k i) in *.
  destruct (i =? 0); [done |]. unfold woken, is_st.
  destruct (bool_decide_reflect (state (proc k i) = PROC_SLEEPING)) as [E |]; [| done].
  destruct (_ <=? _); cbn [andb]; [| done]. split; [| rewrite E; done].
  apply slot_ready; [| by right; left]. by eapply slot_ext; [.. | exact S].
Qed.

Lemma slot_preempted c f n p rsp c' :
  slot_inv c f n c p → c' ≠ c → slot_inv c' f n c (preempted rsp p).
Proof.
  intros [] Hne. assert (state (preempted rsp p) = if is_st (state p) PROC_RUNNING then PROC_READY else state p) as E.
  { unfold preempted. by destruct (is_st _ _). }
  assert (pid (preempted rsp p) = pid p ∧ pages_ok (preempted rsp p)) as [Ep Eg].
  { unfold preempted. by destruct (is_st _ _). }
  unfold is_st in E. split; rewrite ?E, ?Ep; try done.
  - destruct (bool_decide_reflect (state p = PROC_RUNNING)); congruence.
  - intros H0. destruct (si_zero0 H0) as [? Hz]. split; [done |].
    destruct (bool_decide_reflect (state p = PROC_RUNNING)); auto.
  - intros H0. destruct (si_exit0 H0) as [-> | ->]; auto.
  - intros H0 U. apply si_pid0; [done |]. intros Hu. by rewrite Hu in U.
Qed.

Lemma slot_other c f n i p c' : slot_inv c f n i p → i ≠ c → i ≠ c' → slot_inv c' f n i p.
Proof. intros [] H1 H2. split; try done. intros E. by destruct (H1 (si_running0 E)). Qed.

Lemma preempted_same rsp p :
  pid (preempted rsp p) = pid p ∧ kernel_stack_top (preempted rsp p) = kernel_stack_top p ∧
  cr3 (preempted rsp p) = cr3 p ∧ user_pages (preempted rsp p) = user_pages p ∧
  user_page_count (preempted rsp p) = user_page_count p ∧ (state (preempted rsp p) ≠ PROC_UNUSED → state p ≠ PROC_UNUSED).
Proof. unfold preempted, is_st. destruct (bool_decide_reflect (state p = PROC_RUNNING)) as [E |]; [rewrite E; done | done]. Qed.

Lemma slot_running c f n i p q :
  slot_inv c f n i p → state p = PROC_READY ∨ state p = PROC_RUNNING →
  pid q = pid p → user_pages q = user_pages p → user_page_count q = user_page_count p →
  slot_inv i f n i (set_state PROC_RUNNING q).
Proof.
  intros [] R E1 E2 E3. split; cbn [state pid set_state]; try done.
  - intros H0. rewrite E1. destruct (si_zero0 H0). auto.
  - intros H0. destruct (si_exit0 H0); intuition congruence.
  - unfold pages_ok. cbn [user_pages user_page_count set_state]. by rewrite E2, E3.
  - intros H0 _. rewrite E1. apply si_pid0; [done |]. intuition congruence.
Qed.

Lemma inv_switch rsp k f c n k' :
  inv_at (Sys k f) c → in_table n → runnable k c n → switched rsp k c n k' → inv_at (Sys k' f) n.
Proof.
  intros V I R W. pose proof V as []. destruct W as [S1 S2 S3 S4 S5 S6 S7 S8 S9]. cbn [kernel pcs] in *.
  set (q := if n =? c then preempted rsp (proc k n) else proc k n) in *.
  assert (pid q = pid (proc k n) ∧ kernel_stack_top q = kernel_stack_top (proc k n) ∧ cr3 q = cr3 (proc k n) ∧
    user_pages q = user_pages (proc k n) ∧ user_page_count q = user_page_count (proc k n)) as (Q1 & Q2 & Q3 & Q4 & Q5).
  { unfold q. destruct (n =? c); [| done]. destruct (preempted_same rsp (proc k n)) as (? & ? & ? & ? & ? & _). done. }
  clearbody q. apply (inv_step k f c); try done.
  - by rewrite S6, S4, <- Q2.
  - rewrite S4. cbn [cr3 set_state]. rewrite Q3. exact S7.
  - unfold TIME_QUANTUM in *. lia.
  - intros i Hi S. unfold pstate. destruct (decide (i = n)) as [-> | Hne].
    + rewrite S4. split; [eapply slot_running; [exact S | | done..] | split; [| done]];
        unfold runnable, pstate in R; intuition congruence.
    + rewrite S5 by done. destruct (Z.eqb_spec i c) as [-> | Hc].
      * split; [by eapply slot_preempted |]. destruct (preempted_same rsp (proc k c)) as (? & _ & _ & _ & _ & ?). auto.
      * split; [by apply (slot_other c) | done].
Qed.

Lemma inv_result rsp k f c res : inv_at (Sys k f) c → tick_result rsp k c res → inv (Sys res.2 f).
Proof.
  intros V W. destruct W as [O | q k' O Hno Hq P T Q | n k' O (d & Hd & Hn & Hr & _) Hs]; cbn [snd].
  - exists c. unfold turn_over in O. apply orb_false_iff in O as [_ O]. destruct V. split; try done.
    cbn [kernel ticks_remaining set_ticks] in *. lia.
  - exists c. apply (inv_states (set_ticks k q) f c); try done.
    + destruct V. split; try done. cbn [kernel ticks_remaining set_ticks] in *. unfold TIME_QUANTUM in *. lia.
    + intros i Hi S. unfold pstate. rewrite Q by done. destruct (i =? c); [| done].
      split; [| done]. by eapply slot_ext; [.. | exact S].
  - exists n. eapply inv_switch; [done | | done | done]. subst n. unfold in_table, MAX_PROCESSES. zdm.
Qed.

Lemma inv_tick rsp k f : inv (Sys k f) → scheduling_enabled k = true → inv (Sys (schedule_tick rsp k).2 f).
Proof.
  intros [c V] E. apply (inv_result rsp (ticked k) f c); [by apply inv_ticked |].
  destruct V. cbn [kernel] in *. apply schedule_tick_result; first [exact E | done | lia].
Qed.

(** *** The other steps *)
Lemma inv_exit k f c code :
  inv_at (Sys k f) c → pid (proc k c) ≠ 0 → inv_at (Sys (process_exit code k) (setpc f c AtExit)) c.
Proof.
  intros V Hp. pose proof V as []. cbn [kernel pcs] in *.
  destruct (exit_spec code k c) as (P & T & Q); [done.. |]. generalize dependent (process_exit code k). intros k' P T Q.
  apply (inv_states k f c); [done.. |]. intros i Hi S. unfold pstate. rewrite Q by done.
  destruct (Z.eqb_spec i c) as [-> | Hne].
  - cbn [pid kernel_stack_top cr3 state set_exit_code set_state]. destruct (si_current _ _ _ _ _ S eq_refl) as (Hu & _).
    split; [| done]. destruct S. split; cbn [state pid set_exit_code set_state]; unfold setpc; rewrite ?Z.eqb_refl; try done.
    + intros H0. by destruct (si_zero0 H0).
    + auto.
    + auto.
  - unfold waits_for, is_st. destruct (bool_decide_reflect (state (proc k i) = PROC_BLOCKED)) as [E |]; cbn [andb].
    + destruct (_ || _); (split; [| try rewrite E; done]).
      * apply slot_pc; [| done..]. eapply slot_ext; [.. | apply slot_ready; [exact S | by left]]; done.
      * by apply slot_pc.
    + split; [by apply slot_pc | done].
Qed.

Lemma inv_terminate k f p : inv_at (Sys k f) 0 → inv_at (Sys (process_terminate p k) f) 0.
Proof.
  intros V. pose proof V as []. cbn [kernel pcs] in *. destruct (terminate_spec p k) as (P & T & Q); [done |].
  generalize dependent (process_terminate p k). intros k' P T Q. apply (inv_states k f 0); [done.. |].
  intros i Hi S. unfold pstate. rewrite Q by done. destruct (process_get k p) as [j |] eqn:G; [| done].
  destruct (Z.eqb_spec p 0) as [| Hp]; [done |]. destruct (process_get_some k p j G) as (Ij & Uj & Pj).
  destruct (Z.eqb_spec i j) as [-> | Hne].
  - assert (j ≠ 0) by (intros ->; destruct (si_zero _ _ _ _ _ S eq_refl); congruence).
    cbn [pid kernel_stack_top cr3 state set_state]. split; [| done]. by apply slot_state.
  - unfold is_st. destruct (bool_decide_reflect (state (proc k i) = PROC_BLOCKED)) as [E |]; [| done].
    split; [apply slot_ready; auto | cbn [state set_state]; rewrite E; done].
Qed.

Lemma inv_upd k f f' c i g :
  inv_at (Sys k f) c → in_table i →
  (∀ p, pid (g p) = pid p ∧ kernel_stack_top (g p) = kernel_stack_top p ∧ cr3 (g p) = cr3 p) →
  (state (g (proc k i)) ≠ PROC_UNUSED → state (proc k i) ≠ PROC_UNUSED) →
  (slot_inv c f (next_pid k) i (proc k i) → slot_inv c f' (next_pid k) i (g (proc k i))) →
  (∀ j, j ≠ i → slot_inv c f (next_pid k) j (proc k j) → slot_inv c f' (next_pid k) j (proc k j)) →
  inv_at (Sys (upd i g k) f') c.
Proof.
  intros V I G U Si Sj. pose proof V as []. cbn [kernel pcs] in *.
  apply (inv_states k f c); [done | apply procs_only_upd | by apply table_upd |].
  intros j Hj S. unfold pstate. destruct (decide (i = j)) as [<- | Hne].
  - rewrite proc_upd_eq by done. destruct (G (proc k i)) as (? & ? & ?). auto.
  - rewrite proc_upd_ne by done. split; [by apply Sj | done].
Qed.

Lemma inv_remove k f c t k' :
  inv_at (Sys k f) c → t ≠ c → t ≠ 0 → keeps_at t k k' → table_ok k' →
  pstate k' t = PROC_UNUSED → pages_ok (proc k' t) → inv_at (Sys k' f) c.
Proof.
  intros V Hc H0 [] T U PG. pose proof V as []. cbn [kernel pcs] in *.
  assert (proc k' c = proc k c) as Ec by auto.
  apply (inv_step k f c); [done | done | congruence | done | congruence | | congruence | done |].
  - rewrite Ec. by injection ka_regs0 as -> _ _ _.
  - intros i Hi S. destruct (decide (i = t)) as [-> |]; [| unfold pstate; rewrite ka_other0 by done; done].
    split; [| intros W; by destruct (W U)]. unfold pstate in U. destruct S.
    split; rewrite ?U; try done. by right.
Qed.

Lemma inv_reap_target k f c t status :
  inv_at (Sys k f) c → in_table t → t ≠ c → t ≠ 0 → inv_at (Sys (wait_reap t status k).2 f) c.
Proof.
  intros V I Hc H0. unfold wait_reap. destruct (at_state _ _ _); [done |]. cbn [snd].
  set (k1 := store_status status _ k).
  assert (keeps_at t k k1 ∧ proc k1 t = proc k t) as [K1 P1].
  { unfold k1, store_status. destruct (_ =? 0); [split; [apply keeps_at_refl | done] |].
    split; [apply keeps_at_vmm, regs_set_mem | done]. }
  clearbody k1. pose proof (keeps_table _ _ _ K1 (iv_table _ _ V)) as T1.
  destruct (reap_slot_spec (λ p, set_pid 0 (set_state PROC_UNUSED p)) t k1) as (K2 & T2 & U & PG); [done | done | done | |].
  { rewrite P1. apply (si_pages _ _ _ _ _ (iv_slots _ _ V t I)). }
  eapply inv_remove; [done | done | done | eapply keeps_at_trans; [exact K1 | exact K2] | done..].
Qed.

Lemma inv_sleep k f c n k' :
  inv_at (Sys k f) c → f c = AtRun → sleep_begin n k = Some k' → inv_at (Sys k' (setpc f c AtSleep)) c.
Proof.
  intros V F H. pose proof V as []. cbn [kernel pcs] in *. unfold sleep_begin in H. rewrite iv_current0 in H.
  destruct (Z.eqb_spec (pid (proc k c)) 0) as [| Hp]; [done |]. destruct (n =? 0); [done |]. injection H as <-.
  apply (inv_upd k f); [done | done | done | | | intros j Hj S; by apply slot_pc].
  - intros _. by destruct (si_current _ _ _ _ _ (iv_slots0 c iv_slot0) eq_refl).
  - intros S. destruct (si_current _ _ _ _ _ S eq_refl) as (U & L & X). apply slot_pc; [| by intros | done | done].
    eapply slot_ext; [.. | apply (slot_state _ _ _ _ (proc k c) PROC_SLEEPING S)]; try done.
    + intros ->. destruct (si_zero _ _ _ _ _ S eq_refl). done.
    + by rewrite F.
Qed.

Lemma inv_sleep_done k f c :
  inv_at (Sys k f) c → f c = AtSleep → inv_at (Sys k (setpc f c AtRun)) c.
Proof.
  intros V F. destruct V. split; try done. cbn [kernel pcs] in *. intros i Hi. specialize (iv_slots0 i Hi).
  apply slot_pc; [done | | done | done]. intros -> _ E.
  destruct (si_current _ _ _ _ _ iv_slots0 eq_refl) as (_ & _ & X). rewrite F in X. by specialize (X E).
Qed.

Lemma inv_wait k f c p t k' :
  inv_at (Sys k f) c → f c = AtRun → process_get k p = Some t → p ≠ 0 → wait_begin p k = Some k' →
  inv_at (Sys k' (setpc f c (AtWait t))) c.
Proof.
  intros V F G Hp H. pose proof V as []. cbn [kernel pcs] in *. unfold wait_begin in H. rewrite iv_current0 in H.
  injection H as <-. destruct (process_get_some _ _ _ G) as (It & _ & Pt).
  assert (t ≠ 0) by (intros ->; destruct (si_zero _ _ _ _ _ (iv_slots0 0 It) eq_refl); congruence).
  apply (inv_upd k f); [done | done | done | | | intros j Hj S; by apply slot_pc].
  - intros _. by destruct (si_current _ _ _ _ _ (iv_slots0 c iv_slot0) eq_refl).
  - intros S. destruct (si_current _ _ _ _ _ S eq_refl) as (U & L & X). apply slot_pc; [| intuition congruence | | done].
    + eapply slot_ext; [.. | apply (slot_state _ _ _ _ (proc k c) PROC_BLOCKED S)]; try done. by rewrite F.
    + intros t' [= <-] _. done.
Qed.

(** A process that is awake in its halt loop is not dead. *)
Lemma awake_alive k f c : inv_at (Sys k f) c → f c ≠ AtExit → pstate k c ≠ PROC_TERMINATED.
Proof.
  intros [] F E. cbn [kernel pcs] in *. apply F. by apply (si_current _ _ _ _ _ (iv_slots0 c iv_slot0) eq_refl).
Qed.

Lemma inv_wait_done k f c t status k' :
  inv_at (Sys k f) c → f c = AtWait t → wait_over t k = true → wait_end k = Some k' →
  inv_at (Sys (wait_reap t status k').2 (setpc f c AtRun)) c.
Proof.
  intros V F O H. pose proof (awake_alive k f c V ltac:(by rewrite F)) as Alive. pose proof V as []. cbn [kernel pcs] in *.
  unfold wait_end in H. rewrite iv_current0 in H. injection H as <-.
  pose proof (iv_slots0 c iv_slot0) as Sc. destruct (si_wait _ _ _ _ _ Sc t F) as [It Ht].
  destruct (si_current _ _ _ _ _ Sc eq_refl) as (U & L & X).
  assert (t ≠ c) as Hne.
  { intros ->. unfold wait_over in O. apply orb_true_iff in O as [O | O]; apply at_state_true in O; done. }
  apply inv_reap_target; [| done | done | done].
  apply (inv_upd k f); [done | done | done | done | | intros j Hj S; by apply slot_pc].
  intros S. apply slot_pc; [| by intros | done | done].
  eapply slot_ext; [.. | apply (slot_state _ _ _ _ (proc k c) PROC_RUNNING S)]; try done. by rewrite F.
Qed.

Lemma inv_nohang k f c p t status :
  inv_at (Sys k f) c → f c = AtRun → process_get k p = Some t → p ≠ 0 → pstate k t = PROC_TERMINATED →
  inv_at (Sys (wait_reap t status k).2 f) c.
Proof.
  intros V F G Hp E. pose proof (awake_alive k f c V ltac:(by rewrite F)) as Alive.
  destruct (process_get_some _ _ _ G) as (It & _ & Pt). apply inv_reap_target; [done | done | congruence |].
  intros ->. destruct (si_zero _ _ _ _ _ (iv_slots _ _ V 0 It) eq_refl). cbn [kernel] in *. congruence.
Qed.

Lemma inv_touches k f c i k' : inv_at (Sys k f) c → in_table i → pstate k i ≠ PROC_UNUSED → touches i k k' → inv_at (Sys k' f) c.
Proof.
  intros V I U [[] (l & n & P) PG]. pose proof V as []. cbn [kernel pcs] in *.
  assert (∀ j, in_table j → pid (proc k' j) = pid (proc k j) ∧ state (proc k' j) = state (proc k j) ∧
    kernel_stack_top (proc k' j) = kernel_stack_top (proc k j) ∧ cr3 (proc k' j) = cr3 (proc k j) ∧
    pages_ok (proc k' j)) as E.
  { intros j Hj. pose proof (si_pages _ _ _ _ _ (iv_slots0 j Hj)) as Pj.
    destruct (decide (j = i)) as [-> |]; [rewrite P; rewrite P in PG; specialize (PG Pj); done | rewrite ka_other0 by done; done]. }
  destruct (E c iv_slot0) as (_ & _ & E3 & E4 & _).
  apply (inv_step k f c); [done | unfold table_ok in *; congruence | congruence | done | congruence | | lia | done |].
  - rewrite E4. by injection ka_regs0 as -> _ _ _.
  - intros j Hj S. destruct (E j Hj) as (E5 & E6 & _ & _ & E7). unfold pstate. rewrite E5, E6. split; [| done].
    destruct S. split; rewrite ?E5, ?E6; done.
Qed.

Lemma slot_created k f user x slot n p q :
  n = next_pid k + 1 → 0 ≠ slot → 1 ≤ next_pid k → slot_inv 0 f (next_pid k) slot p → pages_ok q →
  (x = None ∧ state q = PROC_UNUSED ∨ x = Some slot ∧ created kernel_stacks user k slot q) →
  slot_inv 0 (match x with Some slot => setpc f slot AtRun | None => f end) n slot q.
Proof.
  intros -> H0 Hn S PG [[-> E] | [-> []]]; destruct S.
  - split; rewrite ?E; try done; try lia. by right.
  - unfold setpc. split; rewrite ?Z.eqb_refl; try done; try lia. rewrite cr_state0. by destruct user.
Qed.

Lemma inv_create k f nm e user x k' :
  inv_at (Sys k f) 0 → next_pid k < 2 ^ 64 - 1 → process_create kernel_stacks nm e user k = Some (x, k') →
  inv_at (Sys k' (match x with Some slot => setpc f slot AtRun | None => f end)) 0.
Proof.
  intros V Hn H. pose proof V as []. cbn [kernel pcs] in *.
  apply process_create_spec in H; [| done | intros i Hi; apply (si_pages _ _ _ _ _ (iv_slots0 i Hi))].
  destruct H as [(-> & -> & _) | (slot & F & [] & PG & R)]; [done |]. apply find_unused_some in F as [Hs Hu].
  change (next_pid (set_next_pid _ ?n)) with n in *. rewrite u64_small in ka_pid0 by lia.
  change (processes (set_next_pid k _)) with (processes k) in *.
  assert (∀ j, j ≠ slot → proc k' j = proc k j) as Ho by done. assert (0 ≠ slot) as H0 by lia.
  set (f' := match x with Some slot => setpc f slot AtRun | None => f end).
  assert (∀ j, j ≠ slot → f' j = f j) as Hf.
  { intros j Hj. unfold f'. destruct R as [[-> _] | [-> _]]; [done |]. unfold setpc. by rewrite (proj2 (Z.eqb_neq j slot)). }
  split; cbn [kernel pcs].
  - unfold table_ok in *. congruence.
  - rewrite ka_current0. exact iv_current0.
  - done.
  - rewrite Ho by done. rewrite <- iv_tss0. exact ka_tss0.
  - rewrite Ho by done. rewrite <- iv_cr4. by injection ka_regs0 as -> _ _ _.
  - rewrite ka_quantum0. exact iv_quantum0.
  - lia.
  - intros i Hi. specialize (iv_slots0 i Hi). rewrite ka_pid0. destruct (decide (i = slot)) as [-> | Hne].
    + apply (slot_created k f user x slot _ (proc k slot)); try done; lia.
    + rewrite Ho by done. destruct iv_slots0. split; rewrite ?Hf by done; try done. intros. destruct (si_pid0 ltac:(done) ltac:(done)). lia.
  - assert (∀ i j, in_table i → in_table j → pstate k' i ≠ PROC_UNUSED → pstate k' j ≠ PROC_UNUSED →
      pid (proc k' i) = pid (proc k' j) → i = slot → j ≠ slot → False) as X.
    { intros i j Hi Hj Ui Uj E -> Hne. destruct R as [[_ R] | [_ []]]; [done |]. unfold pstate in Uj.
      rewrite (Ho j) in E, Uj by done. rewrite cr_pid0 in E. pose proof (iv_slots0 j Hj) as [].
      destruct (decide (j = 0)) as [Hz |]; [destruct (si_zero0 Hz); lia | destruct (si_pid0 ltac:(done) Uj); lia]. }
    intros i j Hi Hj Ui Uj E. destruct (decide (i = slot)) as [Ei | Ei], (decide (j = slot)) as [Ej | Ej].
    + congruence.
    + destruct (X i j); done.
    + symmetry in E. destruct (X j i); done.
    + unfold pstate in *. rewrite (Ho i) in Ui, E by done. rewrite (Ho j) in Uj, E by done. by apply iv_unique0.
Qed.

Lemma inv_activate k f c p : inv_at (Sys k f) c → inv_at (Sys (process_activate p k) f) c.
Proof.
  intros V. unfold process_activate. destruct (process_get k p) as [i |] eqn:G; [| done].
  destruct (at_state k i PROC_LOADING) eqn:E; [| done]. apply at_state_true in E. apply process_get_some in G as (I & U & _).
  apply (inv_upd k f); [done | done | done | done | | done]. intros S. apply slot_ready; auto.
Qed.

Lemma inv_detach k f c p : inv_at (Sys k f) c → inv_at (Sys (process_detach p k) f) c.
Proof.
  intros V. unfold process_detach. destruct (process_get k p) as [i |] eqn:G; [| done].
  destruct (_ =? 0); [done |]. apply process_get_some in G as (I & U & _).
  apply (inv_upd k f); [done | done | done | done | | done]. intros S. by eapply slot_ext; [.. | exact S].
Qed.

Lemma inv_reap k f : inv_at (Sys k f) 0 → inv_at (Sys (process_reap_terminated k).2 f) 0.
Proof.
  intros V. unfold process_reap_terminated.
  apply (for_each_inv (λ _ s, inv_at (Sys s.2 f) 0)); [done |]. intros i [n k1] Hi V1. cbn [snd] in *.
  destruct (_ && _); [| done]. cbn [snd]. assert (in_table i) as I by (unfold in_table; lia).
  destruct (reap_slot_spec (λ p, set_detached false (set_pid 0 (set_state PROC_UNUSED p))) i k1) as (K & T & U & PG); [apply V1 | done | done | |].
  - apply (si_pages _ _ _ _ _ (iv_slots _ _ V1 i I)).
  - eapply (inv_remove _ _ _ i); [exact V1 | lia | lia | exact K | exact T | exact U | exact PG].
Qed.

Lemma step_inv s s' : step s s' → inv s → inv s'.
Proof.
  assert (∀ k f c c', inv_at (Sys k f) c → current_process k = Some c' → c = c') as Same.
  { intros k f c c' [] E. cbn [kernel] in *. congruence. }
  intros H [c V]. destruct H; try match goal with R : runs _ _ _ |- _ => destruct R as [R ?F] end;
    try match goal with R : current_process _ = Some _ |- _ => pose proof (Same _ _ _ _ V R) as -> end;
    try (eexists; eauto using inv_exit, inv_sleep, inv_sleep_done, inv_wait, inv_wait_done, inv_nohang, inv_create,
      inv_activate, inv_detach, inv_terminate, inv_reap; fail).
  - apply inv_tick; [by exists c | done].
  - exists c. destruct V. split; try done. cbn [kernel pcs set_fds set_vmm vmm] in *.
    match goal with R : regs _ = regs _ |- _ => by injection R as -> _ _ _ end.
  - exists 0. eapply inv_touches; [done | done | congruence |].
    eapply map_user_page_spec; [apply V | done | done].
  - exists 0. destruct V. by split.
Qed.

Lemma steps_inv s s' : rtc step s s' → inv s → inv s'.
Proof. induction 1; eauto using step_inv. Qed.
End Steps.

(** ** Boot *)
Definition boot (stack_top : Z) (v : vmm_state) : kern :=
  Kern (replicate 16 zero_proc) None 1 false 0 TIME_QUANTUM 0 stack_top v fd_table_bss.
Definition kernel_proc (stack_top : Z) (v : vmm_state) : process_t :=
  Proc 0 PROC_RUNNING (kernel_name ++ replicate 25 0) 0 0 stack_top (cr3_reg v) false 0 false 0 0 (replicate 256 0) 0.
Definition booted (stack_top : Z) (v : vmm_state) : kern :=
  Kern (kernel_proc stack_top v :: replicate 15 zero_proc) (Some 0) 1 true 0 TIME_QUANTUM 0 stack_top v fd_table_bss.

Lemma boot_runs stack_top v :
  ∃ k, process_init stack_top (boot stack_top v) = Some (tt, k) ∧ scheduler_start k = booted stack_top v.
Proof. eexists. split; vm_compute; reflexivity. Qed.

Lemma booted_inv stack_top v f : (∀ i, f i = AtRun) → inv_at (Sys (booted stack_top v) f) 0.
Proof.
  intros F. assert (∀ i, in_table i → proc (booted stack_top v) i = if i =? 0 then kernel_proc stack_top v else zero_proc) as P.
  { intros i [H1 H2]. unfold MAX_PROCESSES in H2. assert (i = 0 ∨ 1 ≤ i < 16) as [-> | H] by lia; [done |].
    replace (i =? 0) with false by lia. unfold proc, booted. cbn [processes].
    rewrite aget_cons_pos by lia. by apply aget_replicate; lia. }
  split; cbn [kernel pcs]; try done.
  - intros i Hi. rewrite P by done. destruct (Z.eqb_spec i 0) as [-> |]; split; rewrite ?F; try done; by auto.
  - intros i j Hi Hj. unfold pstate. rewrite (P i), (P j) by done.
    destruct (Z.eqb_spec i 0), (Z.eqb_spec j 0); [congruence | intros _ U | intros U | intros U]; by destruct U.
Qed.

(** ** States that ticks do not change *)
Lemma ticked_clock k : table_ok k → system_ticks (ticked k) = system_ticks k +32 1.
Proof. intros T. destruct (ticked_spec k T) as (P & _ & _). generalize dependent (ticked k). by intros k1 ->. Qed.

Lemma tick_keeps rsp k c i s :
  tick_ok k c → in_table i → s ≠ PROC_READY → s ≠ PROC_RUNNING → pstate (ticked k) i = s →
  pstate (schedule_tick rsp k).2 i = s.
Proof.
  intros K I S1 S2 S. destruct (ticked_ok k c K) as [K1 _]. destruct K.
  pose proof (schedule_tick_result rsp k c ltac:(done) ltac:(done) ltac:(done) ltac:(done) ltac:(lia)) as R.
  generalize dependent (schedule_tick rsp k). generalize dependent (ticked k). intros k1 S K1 res R. unfold pstate in *.
  destruct R as [O | q k' O Hno Hq P' T' Q' | n k' O (d & Hd & Hn & Hr & _) []]; cbn [snd].
  - exact S.
  - rewrite Q' by done. by destruct (i =? c).
  - assert (i ≠ n) as Hne by (intros ->; unfold runnable, pstate in Hr; intuition congruence).
    rewrite sw_old0 by done. destruct (i =? c); [| done].
    unfold preempted, is_st. rewrite bool_decide_false by congruence. exact S.
Qed.

(** The scheduler stays runnable, whatever it decides. *)
Lemma tick_stays_ok rsp k c : tick_ok k c → ∃ c', tick_ok (schedule_tick rsp k).2 c'.
Proof.
  intros K. destruct (ticked_ok k c K) as [K1 _]. destruct K.
  pose proof (schedule_tick_result rsp k c ltac:(done) ltac:(done) ltac:(done) ltac:(done) ltac:(lia)) as R.
  generalize dependent (schedule_tick rsp k). generalize dependent (ticked k). intros k1 K1 res R. destruct K1.
  destruct R as [O | q k' O Hno Hq P' T' Q' | n k' O (d & Hd & Hn & Hr & _) []]; cbn [snd].
  - exists c. unfold turn_over in O. apply orb_false_iff in O as [_ O]. split; try done. cbn [ticks_remaining set_ticks]. lia.
  - exists c. split; try done; rewrite P'; try done. cbn [ticks_remaining set_ticks set_procs]. lia.
  - exists n. split; [done | subst n; unfold in_table, MAX_PROCESSES; zdm | done | congruence | unfold TIME_QUANTUM in *; lia].
Qed.

Lemma ticks_keep_blocked rsps k c i :
  tick_ok k c → in_table i → pstate k i = PROC_BLOCKED → pstate (run_ticks rsps k) i = PROC_BLOCKED.
Proof.
  revert k c. induction rsps as [|rsp rsps IH]; intros k c K I B; [exact B |].
  destruct (tick_stays_ok rsp k c K) as [c' K']. rewrite run_ticks_step. apply (IH (schedule_tick rsp k).2 c' K' I).
  apply (tick_keeps rsp k c i PROC_BLOCKED); [done.. |].
  destruct (ticked_spec k (to_table _ _ K)) as (_ & _ & Q). unfold pstate in *. rewrite Q by done.
  destruct (i =? 0); [done |]. unfold woken, is_st. by rewrite B.
Qed.

(** ** Properties *)
Definition start (stack_top : Z) (v : vmm_state) : sys := Sys (booted stack_top v) (λ _, AtRun).

(** C1: From boot on, whatever the processes do and whenever the timer
    interrupts them: there is a current process; no other process is marked
    running; the TSS holds its kernel stack and CR3 its page table; two live
    processes never share a pid; the kernel process keeps pid 0 and is never
    killed; a process that has exited is never made ready again. *)
Theorem scheduler_invariant kernel_stacks stack_top v s :
  rtc (step kernel_stacks) (start stack_top v) s →
  ∃ c, current_process (kernel s) = Some c ∧ in_table c ∧
    (∀ i, in_table i → pstate (kernel s) i = PROC_RUNNING → i = c) ∧
    tss_rsp0 (kernel s) = kernel_stack_top (proc (kernel s) c) ∧
    Z.land (cr3_reg (vmm (kernel s))) PTE_ADDR_MASK = Z.land (cr3 (proc (kernel s) c)) PTE_ADDR_MASK ∧
    (∀ i j, in_table i → in_table j → pstate (kernel s) i ≠ PROC_UNUSED → pstate (kernel s) j ≠ PROC_UNUSED →
       pid (proc (kernel s) i) = pid (proc (kernel s) j) → i = j) ∧
    pid (proc (kernel s) 0) = 0 ∧ pstate (kernel s) 0 ≠ PROC_UNUSED ∧ pstate (kernel s) 0 ≠ PROC_TERMINATED ∧
    (∀ i, in_table i → pcs s i = AtExit → pstate (kernel s) i = PROC_TERMINATED ∨ pstate (kernel s) i = PROC_UNUSED).
Proof.
  intros R. destruct (steps_inv _ _ _ R) as [c []]; [exists 0; by apply booted_inv |].
  exists c. split; [done |]. split; [done |]. split; [intros i Hi; apply (si_running _ _ _ _ _ (iv_slots0 i Hi)) |].
  split; [done |]. split; [done |]. split; [done |].
  destruct (si_zero _ _ _ _ _ (iv_slots0 0 ltac:(done)) eq_refl) as [Hp Hz].
  split; [done |]. unfold pstate. split; [intuition congruence |]. split; [intuition congruence |].
  intros i Hi. apply (si_exit _ _ _ _ _ (iv_slots0 i Hi)).
Qed.

(** C19: One tick of the scheduler. After the sleepers that are due have been
    woken, the turn of the current process goes on unless its quantum is used
    up or it waits, sleeps or is dead; otherwise the next process in cyclic
    order that can run is switched in (its state, the TSS, CR3, the quantum
    and the saved stack pointer), and with none the current one halts on. *)
Theorem schedule_tick_correct rsp k c :
  table_ok k → in_table c → current_process k = Some c → scheduling_enabled k = true → 0 ≤ ticks_remaining k →
  tick_result rsp (ticked k) c (schedule_tick rsp k) ∧
  (∀ j, in_table j → proc (ticked k) j = if j =? 0 then proc k j else woken (system_ticks k +32 1) (proc k j)).
Proof.
  intros T I C E Q. split; [by apply schedule_tick_result |].
  destruct (ticked_spec k T) as (P & _ & W).
  assert (system_ticks (ticked k) = system_ticks k +32 1) as Es by (generalize dependent (ticked k); intros k1 -> _; done).
  intros j Hj. by rewrite W, Es.
Qed.

(** C8: No starvation. However the other processes behave under timer
    interrupts, a ready process is running after at most 80 of them: sixteen
    slots of five ticks. *)
Theorem schedule_no_starvation rsps k c i :
  tick_ok k c → in_table i → pstate k i = PROC_READY → (80 ≤ length rsps)%nat →
  ∃ m, (m ≤ 80)%nat ∧ current_process (run_ticks (take m rsps) k) = Some i ∧
       pstate (run_ticks (take m rsps) k) i = PROC_RUNNING.
Proof.
  intros K I R L. apply (run_ticks_progress 80 rsps k c i); [done.. | | done].
  unfold patience. pose proof (distance_range c i). destruct K. unfold MAX_PROCESSES, TIME_QUANTUM in *. lia.
Qed.

(** C20: [process_exit] marks the process dead with its exit code and wakes
    exactly the processes blocked on it (or on nothing in particular); every
    other process is left as it was. *)
Theorem process_exit_wakes_waiters code k c j :
  table_ok k → in_table c → current_process k = Some c → pid (proc k c) ≠ 0 → in_table j →
  (j = c → pstate (process_exit code k) j = PROC_TERMINATED ∧ exit_code (proc (process_exit code k) j) = code) ∧
  (j ≠ c → pstate k j = PROC_BLOCKED → (wait_target (proc k j) = 0 ∨ wait_target (proc k j) = pid (proc k c)) →
     pstate (process_exit code k) j = PROC_READY) ∧
  (j ≠ c → pstate k j ≠ PROC_BLOCKED ∨ (wait_target (proc k j) ≠ 0 ∧ wait_target (proc k j) ≠ pid (proc k c)) →
     proc (process_exit code k) j = proc k j).
Proof.
  intros T I C Hp Hj. destruct (exit_spec code k c T I C Hp) as (_ & _ & Q). specialize (Q j Hj).
  unfold pstate. rewrite Q. unfold waits_for, is_st. split; [intros ->; by rewrite Z.eqb_refl |].
  split; intros Hne; rewrite (proj2 (Z.eqb_neq j c) Hne).
  - intros E W. rewrite bool_decide_true by done. cbn [andb].
    by replace ((wait_target (proc k j) =? 0) || (wait_target (proc k j) =? pid (proc k c))) with true by lia.
  - intros [E | W]; [by rewrite bool_decide_false by done |].
    replace ((wait_target (proc k j) =? 0) || (wait_target (proc k j) =? pid (proc k c))) with false by lia.
    by rewrite andb_false_r.
Qed.

(** C21: [process_create] takes the first free slot and a pid no live process
    has; a user process is not schedulable until [process_activate]; on
    failure (no slot, no memory) no process appears and, as on success, no
    other process is touched. *)
Theorem process_create_correct kernel_stacks nm e user k x k' :
  table_ok k → (∀ i, in_table i → pages_ok (proc k i)) →
  process_create kernel_stacks nm e user k = Some (x, k') →
  match x with
  | None => ∀ i, in_table i → pstate k i ≠ PROC_UNUSED → proc k' i = proc k i
  | Some slot =>
      1 ≤ slot < MAX_PROCESSES ∧ pstate k slot = PROC_UNUSED ∧
      pid (proc k' slot) = next_pid k ∧ next_pid k' = next_pid k +64 1 ∧
      pstate k' slot = (if user then PROC_LOADING else PROC_READY) ∧ is_user (proc k' slot) = user ∧
      kernel_stack_top (proc k' slot) = kernel_stacks + (slot + 1) * PROCESS_KERNEL_STACK_SIZE ∧
      ∀ i, i ≠ slot → proc k' i = proc k i
  end.
Proof.
  intros T PG H. apply process_create_spec in H; [| done | done].
  destruct H as [(-> & -> & _) | (slot & F & [] & _ & [[-> E] | [-> []]])]; [done | |];
    apply find_unused_some in F as [Hs Hu].
  - intros i Hi Ui. rewrite ka_other0; [done |]. intros ->. done.
  - split; [done |]. split; [done |]. split; [done |]. split; [done |]. split; [done |]. split; [done |].
    split; [rewrite cr_stack0; lia |]. intros i Hi. by rewrite ka_other0.
Qed.

(** The tick counter has 32 bits and a wake-up tick has 64: a process put
    to sleep until a tick beyond 2^32 is never woken by the timer. *)
Theorem sleeper_beyond_counter_never_wakes rsp k c i :
  tick_ok k c → in_table i → pstate k i = PROC_SLEEPING → 2 ^ 32 ≤ wake_tick (proc k i) →
  pstate (schedule_tick rsp k).2 i = PROC_SLEEPING.
Proof.
  intros K I S W. apply (tick_keeps rsp k c i PROC_SLEEPING); try done.
  destruct (ticked_spec k (to_table _ _ K)) as (P & T & Q). unfold pstate. rewrite Q by done.
  destruct (i =? 0); [done |]. unfold woken. rewrite ticked_clock by apply K.
  pose proof (u32_range (system_ticks k + 1)). replace (wake_tick (proc k i) <=? system_ticks k +32 1) with false by lia.
  by rewrite andb_false_r.
Qed.

(** ** Runs *)
Definition demo_stacks : Z := 0x500000.
Definition demo_top : Z := 0x90000.
Definition run1 {A} (c : km A) (k : kern) : kern := match c k with Some (_, k') => k' | None => k end.
Definition thread (ch : Z) : km (option Z) := process_create demo_stacks [ch; 0] 0x1000 false.
Definition ticks_n (n : nat) (k : kern) : kern := run_ticks (replicate n 0x1234) k.

Lemma run1_some {A} (c : km A) k x : fst <$> c k = Some x → c k = Some (x, run1 c k).
Proof. unfold run1. destruct (c k) as [[y k'] |]; cbn; congruence. Qed.

Lemma ticks_n_S n k : ticks_n (Datatypes.S n) k = ticks_n n (schedule_tick 0x1234 k).2.
Proof. unfold ticks_n. cbn [replicate]. apply run_ticks_step. Qed.

Lemma ticks_steps n k f ks c :
  tick_ok k c → rtc (step ks) (Sys k f) (Sys (ticks_n n k) f).
Proof.
  revert k c. induction n as [|n IH]; intros k c K; [apply rtc_refl |].
  destruct (tick_stays_ok 0x1234 k c K) as [c' K']. eapply rtc_l; [exact (s_tick ks k f 0x1234 (to_enabled _ _ K)) |].
  rewrite ticks_n_S. exact (IH _ c' K').
Qed.

Lemma inv_tick_ok k f c : inv_at (Sys k f) c → scheduling_enabled k = true → tick_ok k c.
Proof. intros [] E. by split. Qed.

(** Two kernel threads; the first exits before the shell waits for it. *)
Definition demo0 : kern := booted demo_top demo_vmm.
Definition demo1 : kern := run1 (thread 97) demo0.
Definition demo2 : kern := run1 (thread 98) demo1.
Definition demo3 : kern := process_exit 7 (ticks_n 5 demo2).
Definition demo4 : kern := ticks_n 6 demo3.
Definition demo5 : kern := default demo4 (wait_begin 1 demo4).
Definition demo6 : kern := ticks_n 1 demo5.

Definition reachable (k : kern) (f : Z → kpc) : Prop := rtc (step demo_stacks) (start demo_top demo_vmm) (Sys k f).

Lemma reach_ok k f : reachable k f → scheduling_enabled k = true → ∃ c, tick_ok k c.
Proof.
  intros R E. destruct (steps_inv _ _ _ R) as [c V]; [exists 0; by apply booted_inv |]. exists c. by eapply inv_tick_ok.
Qed.
Lemma reach_ticks n k f : reachable k f → scheduling_enabled k = true → reachable (ticks_n n k) f.
Proof.
  intros R E. destruct (reach_ok k f R E) as [c K]. eapply rtc_trans; [exact R |]. by apply (ticks_steps n k f _ c).
Qed.

Lemma demo1_create : thread 97 demo0 = Some (Some 1, demo1).
Proof. unfold demo1. refine (run1_some (thread 97) demo0 (Some 1) _). vm_compute. reflexivity. Qed.
Lemma demo2_create : thread 98 demo1 = Some (Some 2, demo2).
Proof. unfold demo2. refine (run1_some (thread 98) demo1 (Some 2) _). vm_compute. reflexivity. Qed.

Definition pc1 : Z → kpc := setpc (λ _, AtRun) 1 AtRun.
Definition pc2 : Z → kpc := setpc pc1 2 AtRun.

Lemma demo1_reachable : reachable demo1 pc1.
Proof. apply rtc_once. apply (s_create demo_stacks demo0 _ [97; 0] 0x1000 false (Some 1)); [done | done | apply demo1_create]. Qed.
Lemma demo2_reachable : reachable demo2 pc2.
Proof.
  eapply rtc_r; [exact demo1_reachable |].
  apply (s_create demo_stacks demo1 _ [98; 0] 0x1000 false (Some 2)); [| | apply demo2_create].
  - split; [vm_compute; reflexivity | done].
  - vm_compute. reflexivity.
Qed.
Lemma demo4_reachable : reachable demo4 (setpc pc2 1 AtExit).
Proof.
  apply reach_ticks; [| vm_compute; reflexivity]. eapply rtc_r; [apply (reach_ticks 5 demo2 pc2 demo2_reachable); vm_compute; reflexivity |].
  apply s_exit; [split; [vm_compute; reflexivity | done] |]. vm_compute. discriminate.
Qed.
Lemma demo6_reachable : reachable demo6 (setpc (setpc pc2 1 AtExit) 0 (AtWait 1)).
Proof.
  apply reach_ticks; [| vm_compute; reflexivity]. eapply rtc_r; [exact demo4_reachable |].
  apply (s_wait demo_stacks demo4 _ 0 1 1); [split; [vm_compute; reflexivity | done] | vm_compute; reflexivity | done |].
  unfold demo5. assert (is_Some (wait_begin 1 demo4)) as [k Hk].
  { unfold wait_begin. assert (current_process demo4 = Some 0) as -> by (vm_compute; reflexivity). eauto. }
  by rewrite Hk.
Qed.

(** A wake-up can be lost. [process_waitpid] marks the caller blocked and
    only then looks at its target; if the timer interrupts in between and the
    target is already dead, the caller is switched out and no later tick makes
    it ready again. *)
Theorem waitpid_lost_wakeup :
  ∃ k f, rtc (step demo_stacks) (start demo_top demo_vmm) (Sys k f) ∧
    f 0 = AtWait 1 ∧ pstate k 1 = PROC_TERMINATED ∧ current_process k = Some 2 ∧
    ∀ rsps, pstate (run_ticks rsps k) 0 = PROC_BLOCKED.
Proof.
  exists demo6, (setpc (setpc pc2 1 AtExit) 0 (AtWait 1)). split; [exact demo6_reachable |].
  split; [done |]. split; [vm_compute; reflexivity |]. split; [vm_compute; reflexivity |].
  destruct (reach_ok _ _ demo6_reachable) as [c K]; [vm_compute; reflexivity |].
  intros rsps. apply (ticks_keep_blocked rsps demo6 c 0 K); [done | vm_compute; reflexivity].
Qed.

(** ** Witnesses *)
Lemma demo1_pages i : in_table i → pages_ok (proc demo0 i).
Proof. intros Hi. apply (si_pages _ _ _ _ _ (iv_slots _ _ (booted_inv demo_top demo_vmm (λ _, AtRun) ltac:(done)) i Hi)). Qed.
Lemma demo_ok k : zlen (processes k) = 16 → current_process k = Some 0 → scheduling_enabled k = true →
  ticks_remaining k = 5 → tick_ok k 0.
Proof. intros E1 E2 E3 E4. split; [exact E1 | done | done | done | rewrite E4; done]. Qed.

Lemma scheduler_invariant_witness :
  ∃ c, current_process demo2 = Some c ∧ ∀ i, in_table i → pstate demo2 i = PROC_RUNNING → i = c.
Proof.
  destruct (scheduler_invariant demo_stacks demo_top demo_vmm (Sys demo2 pc2) demo2_reachable) as (c & H1 & _ & H2 & _).
  exists c. split; [exact H1 | exact H2].
Defined.

Lemma schedule_tick_correct_witness :
  tick_result 0x1234 (ticked demo2) 0 (schedule_tick 0x1234 demo2).
Proof.
  destruct (schedule_tick_correct 0x1234 demo2 0) as [H _];
    [vm_compute; reflexivity | done | vm_compute; reflexivity | vm_compute; reflexivity | vm_compute; discriminate | exact H].
Defined.

Lemma schedule_no_starvation_witness :
  ∃ m, (m ≤ 80)%nat ∧ current_process (run_ticks (take m (replicate 80 0)) demo2) = Some 2 ∧
       pstate (run_ticks (take m (replicate 80 0)) demo2) 2 = PROC_RUNNING.
Proof.
  apply (schedule_no_starvation (replicate 80 0) demo2 0 2).
  - apply demo_ok; vm_compute; reflexivity.
  - done.
  - vm_compute. reflexivity.
  - apply Nat.le_refl.
Defined.

Definition demo_waiting : kern :=
  set_current (upd 1 (λ p, set_state PROC_RUNNING p) (upd 0 (λ p, set_wait 1 (set_state PROC_BLOCKED p)) demo1)) (Some 1).
Lemma process_exit_wakes_waiters_witness : pstate (process_exit 7 demo_waiting) 0 = PROC_READY.
Proof.
  apply (process_exit_wakes_waiters 7 demo_waiting 1 0).
  - vm_compute. reflexivity.
  - done.
  - reflexivity.
  - vm_compute. discriminate.
  - done.
  - done.
  - vm_compute. reflexivity.
  - right. vm_compute. reflexivity.
Defined.

Lemma process_create_correct_witness : pid (proc demo1 1) = 1 ∧ pstate demo1 1 = PROC_READY.
Proof.
  destruct (process_create_correct demo_stacks [97; 0] 0x1000 false demo0 (Some 1) demo1) as (_ & _ & H1 & _ & H2 & _);
    [reflexivity | exact demo1_pages | exact demo1_create | split; [exact H1 | exact H2]].
Defined.

Definition demo_asleep : kern := upd 1 (λ p, set_wake (2 ^ 32) (set_state PROC_SLEEPING p)) demo1.
Lemma sleeper_beyond_counter_never_wakes_witness : pstate (schedule_tick 0 demo_asleep).2 1 = PROC_SLEEPING.
Proof.
  apply (sleeper_beyond_counter_never_wakes 0 demo_asleep 0 1).
  - apply demo_ok; vm_compute; reflexivity.
  - done.
  - vm_compute. reflexivity.
  - vm_compute. discriminate.
Defined.

End System.
