(* ===== verification/Keyboard.v ===== *)
(** * The keyboard (kernel/drivers/input/keyboard.c, scancode.c)

    [translate_scancode] with its three modifier flags, the ring buffer the
    interrupt handler fills and [keyboard_getchar] empties, and the set-up of
    the PS/2 controller.  The controller is the device behind [PortIO]; the
    loops that drain it run on fuel, and [None] means that the device never
    stops offering data.  The ring refines a queue of at most 255 characters. *)
From S2P Require Import Prelude.
From S2P Require Import Ata.
Import Ata.

Module Keyboard.

Definition KB_BUFFER_SIZE : Z := 256.
Definition PS2_TIMEOUT : Z := 100000.
Definition KEY_UP : Z := 0x80.
Definition KEY_DOWN : Z := 0x81.
Definition KEY_LEFT : Z := 0x82.
Definition KEY_RIGHT : Z := 0x83.
Definition KEY_PAGEUP : Z := 0x84.
Definition KEY_PAGEDOWN : Z := 0x85.

Definition scancode_to_ascii : list Z :=
  [0; 27; 49; 50; 51; 52; 53; 54; 55; 56; 57; 48; 45; 61; 8;
   9; 113; 119; 101; 114; 116; 121; 117; 105; 111; 112; 91; 93; 10;
   0; 97; 115; 100; 102; 103; 104; 106; 107; 108; 59; 39; 96;
   0; 92; 122; 120; 99; 118; 98; 110; 109; 44; 46; 47; 0;
   42; 0; 32].
Definition scancode_to_ascii_shift : list Z :=
  [0; 27; 33; 64; 35; 36; 37; 94; 38; 42; 40; 41; 95; 43; 8;
   9; 81; 87; 69; 82; 84; 89; 85; 73; 79; 80; 123; 125; 10;
   0; 65; 83; 68; 70; 71; 72; 74; 75; 76; 58; 34; 126;
   0; 124; 90; 88; 67; 86; 66; 78; 77; 60; 62; 63; 0;
   42; 0; 32].

(** The static variables of scancode.c. *)
Record modifiers := Modifiers { shift_pressed : bool; ctrl_pressed : bool; extended_key : bool }.
Definition set_shift (b : bool) (m : modifiers) : modifiers := Modifiers b (ctrl_pressed m) (extended_key m).
Definition set_ctrl (b : bool) (m : modifiers) : modifiers := Modifiers (shift_pressed m) b (extended_key m).
Definition set_ext (b : bool) (m : modifiers) : modifiers := Modifiers (shift_pressed m) (ctrl_pressed m) b.

Definition between (a c b : Z) : bool := (a <=? c) && (c <=? b).

Definition extended_code (scancode : Z) : Z :=
  if scancode =? 0x48 then KEY_UP
  else if scancode =? 0x50 then KEY_DOWN
  else if scancode =? 0x4B then KEY_LEFT
  else if scancode =? 0x4D then KEY_RIGHT
  else if scancode =? 0x49 then KEY_PAGEUP
  else if scancode =? 0x51 then KEY_PAGEDOWN
  else 0.

Definition translate_scancode (scancode : Z) (m : modifiers) : Z * modifiers :=
  if scancode =? 0xE0 then (0, set_ext true m)
  else if (scancode =? 0x2A) || (scancode =? 0x36) then (0, set_shift true m)
  else if (scancode =? 0xAA) || (scancode =? 0xB6) then (0, set_shift false m)
  else if scancode =? 0x1D then (0, set_ctrl true m)
  else if scancode =? 0x9D then (0, set_ctrl false m)
  else if negb (Z.land scancode 0x80 =? 0) then (0, set_ext false m)
  else if extended_key m then (extended_code scancode, set_ext false m)
  else if scancode <? zlen scancode_to_ascii then
    let ch := if shift_pressed m then scancode_to_ascii_shift.[scancode] else scancode_to_ascii.[scancode] in
    if ctrl_pressed m && between 97 ch 122 then (ch - 97 + 1, m)
    else if ctrl_pressed m && between 65 ch 90 then (ch - 65 + 1, m)
    else (ch, m)
  else (0, m).

(** ** The driver *)
Section Driver.
Context {hw : Type} `{PortIO hw}.

Record kb_state := Kb {
  kb_buffer : list Z;
  kb_head : Z;
  kb_tail : Z;
  kb_mods : modifiers;
  kb_dev : hw
}.
Definition set_kb_dev (d : hw) (k : kb_state) : kb_state := Kb (kb_buffer k) (kb_head k) (kb_tail k) (kb_mods k) d.

Definition ps2_wait (stop : Z → bool) (d : hw) : Z * hw :=
  match for_range 0 PS2_TIMEOUT (λ _ d, let '(s, d') := inb 0x64 d in if stop s then inr d' else inl d') d with
  | inl d' => (-1, d')
  | inr d' => (0, d')
  end.
Definition ps2_wait_input : hw → Z * hw := ps2_wait (λ s, Z.land s 0x02 =? 0).
Definition ps2_wait_output : hw → Z * hw := ps2_wait (λ s, negb (Z.land s 0x01 =? 0)).

(** [while (inb(0x64) & 0x01) inb(0x60)], at most [fuel] rounds. *)
Definition drain (fuel : Z) (d : hw) : option hw :=
  match iterZ fuel (λ d, let '(s, d) := inb 0x64 d in
    if Z.land s 0x01 =? 0 then inr d else inl (inb 0x60 d).2) d with
  | inr d => Some d
  | inl _ => None
  end.

(** [if (wait() == 0) body] *)
Definition when_ready (wait : hw → Z * hw) (body : hw → hw) (d : hw) : hw :=
  let '(r, d) := wait d in if r =? 0 then body d else d.

Definition ps2_configure (d : hw) : hw :=
  let d := when_ready ps2_wait_input (outb 0x64 0xAE) d in
  when_ready ps2_wait_input (λ d,
    let d := outb 0x64 0x20 d in
    when_ready ps2_wait_output (λ d,
      let '(config, d) := inb 0x60 d in
      let config := Z.land (Z.lor config 0x01) (Z.lnot 0x10) in
      when_ready ps2_wait_input (λ d,
        let d := outb 0x64 0x60 d in
        when_ready ps2_wait_input (outb 0x60 config) d) d) d) d.

Definition keyboard_init (fuel : Z) (k : kb_state) : option kb_state :=
  d ← drain fuel (kb_dev k);
  d ← drain fuel (ps2_configure d);
  Some (Kb (kb_buffer k) 0 0 (kb_mods k) d).

(** The tail of the handler: store one character if there is room. *)
Definition kb_push (ch : Z) (k : kb_state) : kb_state :=
  if ch =? 0 then k else
  let next := (kb_head k + 1) mod KB_BUFFER_SIZE in
  if next =? kb_tail k then k
  else Kb (kb_buffer k).[kb_head k <- ch] next (kb_tail k) (kb_mods k) (kb_dev k).

Definition keyboard_irq_handler (k : kb_state) : kb_state :=
  let '(scancode, d) := inb 0x60 (kb_dev k) in
  let '(ch, m) := translate_scancode scancode (kb_mods k) in
  kb_push ch (Kb (kb_buffer k) (kb_head k) (kb_tail k) m d).

(** [keyboard_getchar]: the test, the load and the update of the tail. *)
Definition kb_empty (k : kb_state) : bool := kb_tail k =? kb_head k.
Definition kb_peek (k : kb_state) : Z := (kb_buffer k).[kb_tail k].
Definition kb_advance (k : kb_state) : kb_state :=
  Kb (kb_buffer k) (kb_head k) ((kb_tail k + 1) mod KB_BUFFER_SIZE) (kb_mods k) (kb_dev k).
Definition keyboard_getchar (k : kb_state) : Z * kb_state :=
  if negb (kb_empty k) then (kb_peek k, kb_advance k) else (0, k).

(** [keyboard_wait_for_key]: [hlt] is what happens until the next interrupt
    returns; at most [fuel] rounds. *)
Definition keyboard_wait_for_key (fuel : Z) (hlt : kb_state → kb_state) (k : kb_state) : option kb_state :=
  match iterZ fuel (λ k, let '(c, k) := keyboard_getchar k in if c =? 0 then inl (hlt k) else inr k) k with
  | inr k => Some k
  | inl _ => None
  end.

(** ** The queue the ring stands for *)
Definition kb_count (k : kb_state) : Z := (kb_head k - kb_tail k) mod KB_BUFFER_SIZE.
Definition kb_queue (k : kb_state) : list Z :=
  (λ i, (kb_buffer k).[(kb_tail k + i) mod KB_BUFFER_SIZE]) <$> seqZ 0 (kb_count k).
Definition kb_ok (k : kb_state) : Prop :=
  zlen (kb_buffer k) = KB_BUFFER_SIZE ∧ 0 ≤ kb_head k < KB_BUFFER_SIZE ∧ 0 ≤ kb_tail k < KB_BUFFER_SIZE.

(** The abstract operations. *)
Definition q_push (ch : Z) (q : list Z) : list Z :=
  if (ch =? 0) || (255 <=? zlen q) then q else q ++ [ch].
Definition q_pop (q : list Z) : Z * list Z := match q with [] => (0, []) | c :: q' => (c, q') end.

Lemma kb_count_range k : 0 ≤ kb_count k < KB_BUFFER_SIZE.
Proof. unfold kb_count, KB_BUFFER_SIZE. zdm. Qed.
Lemma kb_queue_len k : zlen (kb_queue k) = kb_count k.
Proof. unfold kb_queue. rewrite zlen_fmap. unfold zlen. rewrite length_seqZ. pose proof (kb_count_range k). lia. Qed.

Lemma kb_push_spec ch k :
  kb_ok k → kb_ok (kb_push ch k) ∧ kb_queue (kb_push ch k) = q_push ch (kb_queue k).
Proof.
  intros (L & Hh & Ht). unfold kb_push, q_push. rewrite kb_queue_len. destruct (Z.eqb_spec ch 0) as [| Hc]; [by split |].
  cbn [orb]. unfold KB_BUFFER_SIZE in *.
  destruct (Z.eqb_spec ((kb_head k + 1) mod 256) (kb_tail k)) as [E | E].
  - replace (255 <=? kb_count k) with true; [by split |]. unfold kb_count, KB_BUFFER_SIZE. zdm.
  - assert (kb_count k < 255) as Hlt by (unfold kb_count, KB_BUFFER_SIZE; zdm).
    replace (255 <=? kb_count k) with false by lia. split.
    { split; [cbn [kb_buffer]; by rewrite zlen_aset |]. cbn [kb_head kb_tail]. unfold KB_BUFFER_SIZE. split; [zdm | lia]. }
    set (k' := Kb _ _ _ _ _). assert (kb_count k' = kb_count k + 1) as Hn
      by (unfold k', kb_count, KB_BUFFER_SIZE in *; cbn [kb_head kb_tail]; zdm).
    unfold kb_queue. rewrite Hn. pose proof (kb_count_range k) as Hr. unfold KB_BUFFER_SIZE in Hr.
    rewrite seqZ_app by lia. rewrite fmap_app. f_equal.
    + apply list_fmap_ext. intros i x Hx. apply lookup_seqZ in Hx as [-> Hi].
      unfold k', KB_BUFFER_SIZE. cbn [kb_buffer kb_tail]. rewrite aget_aset_ne; [done |].
      unfold kb_count, KB_BUFFER_SIZE in Hi. zdm.
    + rewrite Z.add_0_l. change 1 with (Z.succ 0). rewrite seqZ_cons, seqZ_nil by lia. cbn [fmap list_fmap].
      unfold k', KB_BUFFER_SIZE. cbn [kb_buffer kb_tail]. f_equal.
      assert ((kb_tail k + kb_count k) mod 256 = kb_head k) as -> by (unfold kb_count, KB_BUFFER_SIZE; zdm).
      apply aget_aset_eq. lia.
Qed.

Lemma kb_queue_pop k :
  kb_ok k → kb_empty k = false → kb_queue k = kb_peek k :: kb_queue (kb_advance k) ∧ kb_ok (kb_advance k).
Proof.
  intros (L & Hh & Ht) E. unfold kb_empty in E. unfold KB_BUFFER_SIZE in *. split.
  - unfold kb_queue, kb_peek. assert (0 < kb_count k) as Hn by (unfold kb_count, KB_BUFFER_SIZE; zdm).
    rewrite (seqZ_cons 0) by lia. cbn [fmap list_fmap]. f_equal.
    { f_equal. unfold KB_BUFFER_SIZE. zdm. }
    assert (kb_count (kb_advance k) = Z.pred (kb_count k)) as ->
      by (unfold kb_count, kb_advance, KB_BUFFER_SIZE in *; cbn [kb_head kb_tail]; zdm).
    change (Z.succ 0) with (1 + 0). rewrite <- fmap_add_seqZ, <- list_fmap_compose.
    apply list_fmap_ext. intros i x _. unfold compose, kb_advance, KB_BUFFER_SIZE. cbn [kb_buffer kb_tail].
    f_equal. zdm.
  - split; [done |]. unfold kb_advance, KB_BUFFER_SIZE. cbn [kb_head kb_tail]. split; [lia | zdm].
Qed.

Lemma kb_queue_empty k : kb_ok k → kb_empty k = true → kb_queue k = [].
Proof.
  intros (L & Hh & Ht) E. unfold kb_empty in E. unfold kb_queue.
  assert (kb_count k = 0) as -> by (unfold kb_count, KB_BUFFER_SIZE in *; zdm). done.
Qed.

Lemma irq_push k :
  ∃ ch m d, keyboard_irq_handler k = kb_push ch (Kb (kb_buffer k) (kb_head k) (kb_tail k) m d) ∧
    ch = (translate_scancode (inb 0x60 (kb_dev k)).1 (kb_mods k)).1.
Proof.
  unfold keyboard_irq_handler. destruct (inb 0x60 (kb_dev k)) as [s d]. cbn [fst].
  destruct (translate_scancode s (kb_mods k)) as [ch m]. by exists ch, m, d.
Qed.

Lemma irq_spec k :
  kb_ok k →
  kb_ok (keyboard_irq_handler k) ∧
  kb_queue (keyboard_irq_handler k) = q_push (translate_scancode (inb 0x60 (kb_dev k)).1 (kb_mods k)).1 (kb_queue k).
Proof. intros K. destruct (irq_push k) as (ch & m & d & -> & <-). exact (kb_push_spec ch (Kb (kb_buffer k) (kb_head k) (kb_tail k) m d) K). Qed.

(** Any number of interrupts. *)
Fixpoint irqs (n : nat) (k : kb_state) : kb_state :=
  match n with O => k | Datatypes.S n => irqs n (keyboard_irq_handler k) end.

Lemma irqs_keep n k :
  kb_ok k → kb_ok (irqs n k) ∧ kb_tail (irqs n k) = kb_tail k ∧ ∃ l, kb_queue (irqs n k) = kb_queue k ++ l.
Proof.
  revert k. induction n as [|n IH]; intros k K; cbn [irqs].
  - split; [done |]. split; [done |]. exists []. by rewrite app_nil_r.
  - destruct (irq_spec k K) as [K1 Q1]. destruct (IH _ K1) as (K2 & T2 & l & Q2). split; [done |]. split.
    + rewrite T2. destruct (irq_push k) as (ch & m & d & -> & _). unfold kb_push. by repeat case_match.
    + rewrite Q2, Q1. unfold q_push. case_match; [by exists l |]. rewrite <- app_assoc. eauto.
Qed.

(** ** Properties *)

(** C26: The ring buffer refines a queue of at most 255 characters: the
    interrupt handler appends the translated character unless it is 0 or the
    queue is full, and [keyboard_getchar] takes the oldest one, or returns 0. *)
Theorem keyboard_refines_queue k :
  kb_ok k →
  (kb_ok (keyboard_irq_handler k) ∧
   kb_queue (keyboard_irq_handler k)
     = q_push (translate_scancode (inb 0x60 (kb_dev k)).1 (kb_mods k)).1 (kb_queue k)) ∧
  (kb_ok (keyboard_getchar k).2 ∧
   ((keyboard_getchar k).1, kb_queue (keyboard_getchar k).2) = q_pop (kb_queue k)).
Proof.
  intros K. split; [by apply irq_spec |]. unfold keyboard_getchar. destruct (kb_empty k) eqn:E; cbn [negb fst snd].
  - split; [done |]. by rewrite kb_queue_empty.
  - destruct (kb_queue_pop k K E) as [Q K']. split; [done |]. by rewrite Q.
Qed.

(** [keyboard_getchar] is safe against the interrupts that arrive while it
    runs, between its test, its load and its update: it returns the oldest
    character, and afterwards the queue holds the others followed by what the
    interrupts added. *)
Theorem keyboard_getchar_irq_safe k n1 n2 :
  kb_ok k → kb_empty k = false →
  let k1 := irqs n1 k in
  let k2 := irqs n2 k1 in
  kb_ok (kb_advance k2) ∧
  ∃ new, kb_queue k ++ new = kb_peek k1 :: kb_queue (kb_advance k2).
Proof.
  intros K E. cbn zeta. destruct (irqs_keep n1 k K) as (K1 & T1 & l1 & Q1).
  destruct (irqs_keep n2 _ K1) as (K2 & T2 & l2 & Q2).
  destruct (kb_queue_pop k K E) as [Q _].
  assert (∀ k', kb_ok k' → kb_queue k' ≠ [] → kb_empty k' = false) as Ne.
  { intros k' K' Hn. destruct (kb_empty k') eqn:E'; [| done]. by rewrite kb_queue_empty in Hn. }
  destruct (kb_queue_pop _ K1 (Ne _ K1 ltac:(by rewrite Q1, Q))) as [P1 _].
  destruct (kb_queue_pop _ K2 (Ne _ K2 ltac:(by rewrite Q2, Q1, Q))) as [P2 K3].
  split; [done |]. exists (l1 ++ l2). rewrite app_assoc, <- Q1, <- Q2, P2. f_equal.
  rewrite P1 in Q2. rewrite P2 in Q2. by injection Q2.
Qed.

End Driver.

(** What a sequence of scan codes types. *)
Fixpoint typed (codes : list Z) (m : modifiers) : list Z :=
  match codes with
  | [] => []
  | s :: r => let '(ch, m') := translate_scancode s m in if ch =? 0 then typed r m' else ch :: typed r m'
  end.
Definition no_modifiers : modifiers := Modifiers false false false.

(** A character key: pressed and released, with a modifier held around it. *)
Definition press_release (s : Z) : list Z := [s; Z.lor s 0x80].

(** Pressing and releasing any key of the main block types the character
    of the table, with shift held the shifted one, with control held the
    control code of a letter, and leaves no modifier behind. *)
Theorem typed_key s m :
  0 ≤ s < 58 → s ≠ 0x2A → s ≠ 0x36 → s ≠ 0x1D → extended_key m = false →
  let ch := if shift_pressed m then scancode_to_ascii_shift.[s] else scancode_to_ascii.[s] in
  let out := if ctrl_pressed m && between 97 ch 122 then ch - 96
             else if ctrl_pressed m && between 65 ch 90 then ch - 64 else ch in
  typed (press_release s) m = (if out =? 0 then [] else [out]).
Proof.
  intros Hs H1 H2 H3 E. destruct m as [sh ct ex]. cbn [extended_key] in E. subst ex.
  assert (s ∈ seqZ 0 58) as Hin by (apply elem_of_seqZ; lia). revert H1 H2 H3.
  vm_compute in Hin.
  repeat (apply elem_of_cons in Hin as [-> | Hin];
    [intros; destruct sh, ct; vm_compute; (reflexivity || congruence) |]). by apply elem_of_nil in Hin.
Qed.

(** The flag an E0 prefix sets survives the right control key: the first
    character typed while right control is held is taken for a grey key and
    lost. *)
Theorem right_ctrl_swallows_key :
  typed [0xE0; 0x1D; 0x2E; 0xAE] no_modifiers = [] ∧ typed [0x1D; 0x2E; 0xAE] no_modifiers = [3].
Proof. by vm_compute. Qed.

(** ** Witnesses *)
Definition demo_kb : kb_state (hw := Z) := Kb (replicate 256 0).[255 <- 97] 0 255 no_modifiers 0x1E.
#[local] Instance demo_port : PortIO Z := {|
  inb := λ _ d, (d, d); inw := λ _ d, (d, d); outb := λ _ _ d, d; outw := λ _ _ d, d |}.

Lemma demo_kb_ok : kb_ok demo_kb.
Proof. by vm_compute. Qed.
Lemma keyboard_refines_queue_witness : kb_queue demo_kb = [97] ∧ kb_queue (keyboard_irq_handler demo_kb) = [97; 97].
Proof.
  split; [reflexivity |]. destruct (keyboard_refines_queue demo_kb demo_kb_ok) as [[_ Q] _]. rewrite Q. reflexivity.
Defined.
Lemma keyboard_getchar_irq_safe_witness :
  ∃ new, kb_queue demo_kb ++ new = kb_peek (irqs 2 demo_kb) :: kb_queue (kb_advance (irqs 1 (irqs 2 demo_kb))).
Proof. apply (keyboard_getchar_irq_safe demo_kb 2 1 demo_kb_ok); reflexivity. Defined.
Lemma typed_key_witness : typed (press_release 0x1E) (Modifiers true false false) = [65].
Proof. apply (typed_key 0x1E (Modifiers true false false)); done. Defined.

End Keyboard.
