(* ===== verification/Terminal.v ===== *)
(** * The text terminal (kernel/drivers/display/terminal.c, vga.c; klog.c,
      drivers/serial/serial.c)

    A history of 1000 lines of 80 cells, the cursor, and the VGA text memory
    that [terminal_render] fills with the 25 lines in view.  The cursor
    registers and the serial line are the device behind [PortIO].  A nested
    loop that copies or blanks a line cell by cell is a row assignment.

    C does not check an index.  Every load and store of the model compares
    its index with the bounds of the array ([checked]); an access outside
    them clears [in_bounds], which no operation sets again.  The flag is not a
    variable of the program: it records that nothing was accessed outside the
    arrays so far. *)
From S2P Require Import Prelude.
From S2P Require Import Ata.
From S2P Require Import CString.
Import Ata.

Module Terminal.

Definition VGA_WIDTH : Z := 80.
Definition TERM_WIDTH : Z := 80.
Definition TERM_HEIGHT : Z := 25.
Definition TERM_HISTORY : Z := 1000.
Definition VGA_COLOR_BLACK : Z := 0.
Definition VGA_COLOR_LIGHT_GREY : Z := 7.
Definition BLANK : Z := 32.

Definition vga_entry_color (fg bg : Z) : Z := u8 (Z.lor fg (Z.shiftl bg 4)).
Definition vga_entry (uc color : Z) : Z := u16 (Z.lor (u8 uc) (Z.shiftl color 8)).

Section Display.
Context {hw : Type} `{PortIO hw}.

Record term := Term {
  term_buffer : list (list Z);
  term_color_buffer : list (list Z);
  scroll_offset : Z;
  current_line : Z;
  terminal_column : Z;
  terminal_color : Z;
  vga_memory : list Z;
  cursor_visible : bool;
  rendering_enabled : bool;
  term_dev : hw;
  in_bounds : bool
}.

Definition set_buffers (t : term) (b c : list (list Z)) : term :=
  Term b c (scroll_offset t) (current_line t) (terminal_column t) (terminal_color t) (vga_memory t)
    (cursor_visible t) (rendering_enabled t) (term_dev t) (in_bounds t).
Definition set_position (t : term) (scroll line col : Z) : term :=
  Term (term_buffer t) (term_color_buffer t) scroll line col (terminal_color t) (vga_memory t)
    (cursor_visible t) (rendering_enabled t) (term_dev t) (in_bounds t).
Definition set_vga (t : term) (m : list Z) : term :=
  Term (term_buffer t) (term_color_buffer t) (scroll_offset t) (current_line t) (terminal_column t) (terminal_color t) m
    (cursor_visible t) (rendering_enabled t) (term_dev t) (in_bounds t).
Definition set_tdev (t : term) (d : hw) : term :=
  Term (term_buffer t) (term_color_buffer t) (scroll_offset t) (current_line t) (terminal_column t) (terminal_color t)
    (vga_memory t) (cursor_visible t) (rendering_enabled t) d (in_bounds t).
Definition set_flags (t : term) (cursor render : bool) : term :=
  Term (term_buffer t) (term_color_buffer t) (scroll_offset t) (current_line t) (terminal_column t) (terminal_color t)
    (vga_memory t) cursor render (term_dev t) (in_bounds t).
Definition terminal_setcolor (color : Z) (t : term) : term :=
  Term (term_buffer t) (term_color_buffer t) (scroll_offset t) (current_line t) (terminal_column t) (u8 color)
    (vga_memory t) (cursor_visible t) (rendering_enabled t) (term_dev t) (in_bounds t).

(** ** Checked accesses *)
Definition fault (t : term) : term :=
  Term (term_buffer t) (term_color_buffer t) (scroll_offset t) (current_line t) (terminal_column t) (terminal_color t)
    (vga_memory t) (cursor_visible t) (rendering_enabled t) (term_dev t) false.
Definition checked (inside : bool) (t : term) : term := if inside then t else fault t.
Definition line_in (i : Z) : bool := (0 <=? i) && (i <? TERM_HISTORY).
Definition cell_in (x : Z) : bool := (0 <=? x) && (x <? TERM_WIDTH).
Definition vga_in (i : Z) : bool := (0 <=? i) && (i <? TERM_HEIGHT * TERM_WIDTH).

(** Both buffers are stored to at the same place. *)
Definition store_line (i : Z) (text color : list Z) (t : term) : term :=
  checked (line_in i) (set_buffers t (term_buffer t).[i <- text] (term_color_buffer t).[i <- color]).
Definition store_cell (i x c color : Z) (t : term) : term :=
  checked (line_in i && cell_in x)
    (set_buffers t (term_buffer t).[i <- ((term_buffer t).[i]).[x <- c]]
                   (term_color_buffer t).[i <- ((term_color_buffer t).[i]).[x <- color]]).
Definition store_vga (i v : Z) (t : term) : term := checked (vga_in i) (set_vga t (vga_memory t).[i <- v]).

(** ** vga.c *)
Definition start_line (t : term) : Z :=
  let s := current_line t - TERM_HEIGHT + 1 - scroll_offset t in if s <? 0 then 0 else s.

(** The line of the history shown in screen row [y]. *)
Definition buffer_line (t : term) (y : Z) : Z :=
  let l := start_line t + y in
  let l := if TERM_HISTORY <=? l then TERM_HISTORY - 1 else l in
  if l <? 0 then 0 else l.

Definition render_row (y : Z) (t : term) : term :=
  for_each 0 TERM_WIDTH (λ x t,
    let t := checked (line_in (buffer_line t y) && cell_in x) t in
    let c := ((term_buffer t).[buffer_line t y]).[x] in
    let color := ((term_color_buffer t).[buffer_line t y]).[x] in
    store_vga (y * TERM_WIDTH + x) (vga_entry c color) t) t.

Definition terminal_render (t : term) : term :=
  if negb (rendering_enabled t) then t else for_each 0 TERM_HEIGHT render_row t.

Definition cursor_pos (t : term) : Z :=
  let v := current_line t - start_line t in
  let v := if v <? 0 then 0 else v in
  let v := if TERM_HEIGHT <=? v then TERM_HEIGHT - 1 else v in
  u16 (v * VGA_WIDTH + terminal_column t).

Definition terminal_update_cursor (t : term) : term :=
  let pos := cursor_pos t in
  set_tdev t (outb 0x3D5 (u8 (Z.land (Z.shiftr pos 8) 0xFF))
    (outb 0x3D4 0x0E (outb 0x3D5 (u8 (Z.land pos 0xFF)) (outb 0x3D4 0x0F (term_dev t))))).

Definition terminal_show_cursor (t : term) : term :=
  let t := set_flags t true (rendering_enabled t) in
  let d := outb 0x3D4 0x0A (term_dev t) in
  let '(a, d) := inb 0x3D5 d in
  let d := outb 0x3D5 (Z.lor (Z.land a 0xC0) 0x0E) d in
  let d := outb 0x3D4 0x0B d in
  let '(b, d) := inb 0x3D5 d in
  let d := outb 0x3D5 (Z.lor (Z.land b 0xE0) 0x0F) d in
  terminal_update_cursor (set_tdev t d).

Definition terminal_hide_cursor (t : term) : term :=
  let t := set_flags t false (rendering_enabled t) in
  set_tdev t (outb 0x3D5 0x20 (outb 0x3D4 0x0A (term_dev t))).

(** [if (cursor_visible) terminal_update_cursor()] *)
Definition show_if_visible (t : term) : term := if cursor_visible t then terminal_update_cursor t else t.

(** ** terminal.c *)
Definition blank_row (v : Z) : list Z := replicate (Z.to_nat TERM_WIDTH) v.
Definition blank_all (t : term) : term :=
  for_each 0 TERM_HISTORY (λ i t, store_line i (blank_row BLANK) (blank_row (terminal_color t)) t) t.

Definition terminal_initialize (t : term) : term :=
  let t := set_position t 0 0 0 in
  let t := terminal_setcolor (vga_entry_color VGA_COLOR_LIGHT_GREY VGA_COLOR_BLACK) t in
  terminal_show_cursor (terminal_render (blank_all t)).

(** The history moves up by one line. *)
Definition shift_lines (t : term) : term :=
  for_each 0 (TERM_HISTORY - 1) (λ i t,
    let t := checked (line_in (i + 1)) t in
    store_line i (term_buffer t).[i + 1] (term_color_buffer t).[i + 1] t) t.

Definition scroll_history (t : term) : term :=
  let t := shift_lines t in
  let t := set_position t (scroll_offset t) (TERM_HISTORY - 1) (terminal_column t) in
  store_line (current_line t) (blank_row BLANK) (blank_row (terminal_color t)) t.

Definition terminal_newline (t : term) : term :=
  let t := set_position t (scroll_offset t) (current_line t + 1) 0 in
  let t := if TERM_HISTORY <=? current_line t then scroll_history t else t in
  terminal_render (set_position t 0 (current_line t) (terminal_column t)).

(** Store a cell at the cursor. *)
Definition put_cell (t : term) (c : Z) : term :=
  store_cell (current_line t) (terminal_column t) c (terminal_color t) t.

Definition NL : Z := 10.
Definition TAB : Z := 9.
Definition terminal_putchar (c : Z) (t : term) : term :=
  if c =? NL then show_if_visible (terminal_newline t)
  else if c =? TAB then
    let t := set_position t (scroll_offset t) (current_line t) (Z.land (terminal_column t + 4) (Z.lnot 3)) in
    let t := if VGA_WIDTH <=? terminal_column t then terminal_newline t else t in
    show_if_visible t
  else
    let t := put_cell t c in
    let t := set_position t (scroll_offset t) (current_line t) (terminal_column t + 1) in
    let t := if terminal_column t =? VGA_WIDTH then terminal_newline t
             else terminal_render (set_position t 0 (current_line t) (terminal_column t)) in
    show_if_visible t.

Definition terminal_write (data : list Z) (t : term) : term := foldl (λ t c, terminal_putchar c t) t data.
(** [data] is a buffer with its NUL; without one the call does not return. *)
Definition terminal_writestring (data : list Z) (t : term) : option term :=
  n ← CString.strlen data; Some (terminal_write (take (Z.to_nat n) data) t).

Definition terminal_clear (t : term) : term :=
  show_if_visible (terminal_render (blank_all (set_position t 0 0 0))).

Definition terminal_backspace (t : term) : term :=
  if 0 <? terminal_column t then
    let t := set_position t (scroll_offset t) (current_line t) (terminal_column t - 1) in
    let t := put_cell t BLANK in
    show_if_visible (terminal_render (set_position t 0 (current_line t) (terminal_column t)))
  else t.

Definition terminal_scroll_up (t : term) : term :=
  let s := scroll_offset t + 1 in
  let s := if current_line t <? s then current_line t else s in
  terminal_update_cursor (terminal_render (set_position t s (current_line t) (terminal_column t))).
Definition terminal_scroll_down (t : term) : term :=
  let s := scroll_offset t - 1 in
  let s := if s <? 0 then 0 else s in
  terminal_update_cursor (terminal_render (set_position t s (current_line t) (terminal_column t))).
Definition terminal_get_row (t : term) : Z := current_line t.
Definition terminal_get_column (t : term) : Z := terminal_column t.
Definition terminal_set_cursor (row col : Z) (t : term) : term :=
  let line := if (0 <=? row) && (row <? TERM_HISTORY) then row else current_line t in
  let c := if (0 <=? col) && (col <? TERM_WIDTH) then col else terminal_column t in
  terminal_update_cursor (set_position t (scroll_offset t) line c).
Definition terminal_disable_rendering (t : term) : term :=
  terminal_hide_cursor (set_flags t (cursor_visible t) false).
Definition terminal_enable_rendering (t : term) : term :=
  terminal_show_cursor (terminal_render (set_flags t (cursor_visible t) true)).

(** ** serial.c and klog.c *)
Definition COM1 : Z := 0x3F8.
Definition serial_init (d : hw) : hw :=
  outb (COM1 + 4) 0x0B (outb (COM1 + 2) 0xC7 (outb (COM1 + 3) 0x03 (outb (COM1 + 1) 0x00
    (outb (COM1 + 0) 0x03 (outb (COM1 + 3) 0x80 (outb (COM1 + 1) 0x00 d)))))).
Definition serial_is_transmit_empty (d : hw) : Z * hw := let '(s, d) := inb (COM1 + 5) d in (Z.land s 0x20, d).
(** At most [fuel] polls. *)
Definition serial_putchar (fuel c : Z) (d : hw) : option hw :=
  match iterZ fuel (λ d, let '(e, d) := serial_is_transmit_empty d in if e =? 0 then inl d else inr d) d with
  | inr d => Some (outb COM1 c d)
  | inl _ => None
  end.
Definition serial_writestring (fuel : Z) (str : list Z) (d : hw) : option hw :=
  foldl (λ o c, d ← o; serial_putchar fuel c d) (Some d) (CString.cstr str).

Inductive log_level_t := LOG_INFO | LOG_WARN | LOG_ERROR | LOG_DEBUG.
Definition log_level_strings (l : log_level_t) : list Z :=
  match l with
  | LOG_INFO => [91; 73; 78; 70; 79; 93; 32; 32; 0]
  | LOG_WARN => [91; 87; 65; 82; 78; 93; 32; 32; 0]
  | LOG_ERROR => [91; 69; 82; 82; 79; 82; 93; 32; 0]
  | LOG_DEBUG => [91; 68; 69; 66; 85; 71; 93; 32; 0]
  end.
Definition log_level_colors (l : log_level_t) : Z :=
  match l with LOG_INFO => 0x0A | LOG_WARN => 0x0E | LOG_ERROR => 0x0C | LOG_DEBUG => 0x0B end.

Definition klog (fuel : Z) (level : log_level_t) (message : list Z) (t : term) : option term :=
  let old_color := vga_entry_color VGA_COLOR_LIGHT_GREY VGA_COLOR_BLACK in
  d ← serial_writestring fuel (log_level_strings level) (term_dev t);
  d ← serial_writestring fuel message d;
  d ← serial_writestring fuel [NL; 0] d;
  t ← terminal_writestring (log_level_strings level) (terminal_setcolor (log_level_colors level) (set_tdev t d));
  t ← terminal_writestring message (terminal_setcolor old_color t);
  t ← terminal_writestring [NL; 0] t;
  Some (terminal_setcolor old_color t).
Definition klog_info (fuel : Z) : list Z → term → option term := klog fuel LOG_INFO.
Definition klog_warn (fuel : Z) : list Z → term → option term := klog fuel LOG_WARN.
Definition klog_error (fuel : Z) : list Z → term → option term := klog fuel LOG_ERROR.
Definition klog_debug (fuel : Z) : list Z → term → option term := klog fuel LOG_DEBUG.

(** ** Invariants *)
Definition grid (b : list (list Z)) : Prop :=
  zlen b = TERM_HISTORY ∧ ∀ i, 0 ≤ i < TERM_HISTORY → zlen b.[i] = TERM_WIDTH.

Record term_ok (t : term) : Prop := TermOk {
  ok_text : grid (term_buffer t);
  ok_color : grid (term_color_buffer t);
  ok_line : 0 ≤ current_line t < TERM_HISTORY;
  ok_col : 0 ≤ terminal_column t < TERM_WIDTH;
  ok_vga : zlen (vga_memory t) = TERM_HEIGHT * TERM_WIDTH;
  ok_bounds : in_bounds t = true
}.

(** What the screen should show in row [y], column [x]. *)
Definition shown (t : term) (y x : Z) : Z :=
  vga_entry ((term_buffer t).[buffer_line t y]).[x] ((term_color_buffer t).[buffer_line t y]).[x].
Definition synced (t : term) : Prop :=
  rendering_enabled t = true → ∀ y x, 0 ≤ y < TERM_HEIGHT → 0 ≤ x < TERM_WIDTH →
    (vga_memory t).[y * TERM_WIDTH + x] = shown t y x.

Lemma grid_set b i r : grid b → zlen r = TERM_WIDTH → grid (b.[i <- r]).
Proof.
  intros [L R] Hr. split; [by rewrite zlen_aset |]. intros j Hj.
  destruct (decide (i = j)) as [<- |]; [by rewrite aget_aset_eq by lia | by rewrite aget_aset_ne; auto].
Qed.
Lemma blank_row_len v : zlen (blank_row v) = TERM_WIDTH.
Proof. done. Qed.

(** What the loops over the history and the screen preserve: the arrays keep
    their shape and nothing is accessed outside them; the rest of the state
    does not change. *)
Record shape (t : term) : Prop := Shape {
  sh_text : grid (term_buffer t);
  sh_color : grid (term_color_buffer t);
  sh_vga : zlen (vga_memory t) = TERM_HEIGHT * TERM_WIDTH;
  sh_bounds : in_bounds t = true
}.
Lemma ok_shape t : term_ok t → shape t.
Proof. by intros []; split. Qed.
Lemma shape_ok t : shape t → 0 ≤ current_line t < TERM_HISTORY → 0 ≤ terminal_column t < TERM_WIDTH → term_ok t.
Proof. by intros []; split. Qed.
Definition rest (t : term) :=
  (scroll_offset t, current_line t, terminal_column t, terminal_color t, cursor_visible t, rendering_enabled t, term_dev t).

Lemma checked_rest b t : rest (checked b t) = rest t.
Proof. by destruct b. Qed.
Lemma rest_position t t' :
  rest t = rest t' → current_line t = current_line t' ∧ terminal_column t = terminal_column t'.
Proof. unfold rest. intros E. by injection E. Qed.
Lemma rest_dev t t' : rest t = rest t' → term_dev t = term_dev t'.
Proof. unfold rest. intros E. by injection E. Qed.
Lemma loop_rest {B} (f : term → B) lo hi body t : (∀ i t, f (body i t) = f t) → f (for_each lo hi body t) = f t.
Proof.
  intros F. apply (for_each_inv (λ _ t', f t' = f t) lo hi body t); [done |]. intros i t' _ E. by rewrite F.
Qed.
Lemma store_line_rest i r c t : rest (store_line i r c t) = rest t.
Proof. unfold store_line. by rewrite checked_rest. Qed.
Lemma render_rest t : rest (terminal_render t) = rest t.
Proof.
  unfold terminal_render. destruct (negb _); [done |]. apply (loop_rest rest). intros y t1. apply (loop_rest rest). intros x t2.
  unfold store_vga. rewrite checked_rest. exact (checked_rest _ t2).
Qed.
Lemma blank_rest t : rest (blank_all t) = rest t.
Proof. apply (loop_rest rest). intros. apply store_line_rest. Qed.
Lemma shift_rest t : rest (shift_lines t) = rest t.
Proof. apply (loop_rest rest). intros. rewrite store_line_rest. apply checked_rest. Qed.

Lemma scroll_dev t : term_dev (scroll_history t) = term_dev t.
Proof. rewrite <- (rest_dev _ _ (shift_rest t)). unfold scroll_history. exact (rest_dev _ _ (store_line_rest _ _ _ _)). Qed.
Lemma set_position_dev t s l c : term_dev (set_position t s l c) = term_dev t.
Proof. done. Qed.
Lemma newline_dev t : term_dev (terminal_newline t) = term_dev t.
Proof.
  unfold terminal_newline. cbv zeta. rewrite (rest_dev _ _ (render_rest _)), set_position_dev.
  case_match; [by rewrite scroll_dev, set_position_dev | by rewrite set_position_dev].
Qed.
Lemma put_cell_rest t c : rest (put_cell t c) = rest t.
Proof. unfold put_cell, store_cell. by rewrite checked_rest. Qed.

Lemma line_in_true i : 0 ≤ i < TERM_HISTORY → line_in i = true.
Proof. unfold line_in. lia. Qed.
Lemma cell_in_true x : 0 ≤ x < TERM_WIDTH → cell_in x = true.
Proof. unfold cell_in. lia. Qed.
Lemma store_line_shape i r c t :
  shape t → 0 ≤ i < TERM_HISTORY → zlen r = TERM_WIDTH → zlen c = TERM_WIDTH → shape (store_line i r c t).
Proof.
  intros [] Hi Hr Hc. unfold store_line. rewrite line_in_true by done. cbn [checked]. split; cbn; try done; by apply grid_set.
Qed.
Lemma blank_shape t : shape t → shape (blank_all t).
Proof.
  intros S. apply (for_each_inv (λ _ t, shape t)); [done |]. intros i t1 Hi S1. by apply store_line_shape.
Qed.
Lemma shift_shape t : shape t → shape (shift_lines t).
Proof.
  intros S. apply (for_each_inv (λ _ t, shape t)); [done |]. intros i t1 Hi S1. unfold TERM_HISTORY in Hi.
  rewrite line_in_true by (unfold TERM_HISTORY; lia). cbn [checked].
  apply store_line_shape; [done | unfold TERM_HISTORY; lia | |]; apply S1; unfold TERM_HISTORY; lia.
Qed.

Lemma buffer_line_in t y : line_in (buffer_line t y) = true.
Proof.
  apply line_in_true. unfold buffer_line. set (l := start_line t + y). clearbody l. unfold TERM_HISTORY.
  destruct (Z.leb_spec 1000 l) as [|]; [done |]. destruct (Z.ltb_spec l 0); lia.
Qed.

Lemma render_row_spec t y m :
  0 ≤ y < TERM_HEIGHT → zlen m = TERM_HEIGHT * TERM_WIDTH →
  ∃ m', render_row y (set_vga t m) = set_vga t m' ∧ zlen m' = TERM_HEIGHT * TERM_WIDTH ∧
  ∀ i, 0 ≤ i < TERM_HEIGHT * TERM_WIDTH →
    m'.[i] = if i / TERM_WIDTH =? y then shown t y (i mod TERM_WIDTH) else m.[i].
Proof.
  intros Hy L. unfold render_row.
  pose proof (for_each_inv_le (λ n t', ∃ m', t' = set_vga t m' ∧ zlen m' = TERM_HEIGHT * TERM_WIDTH ∧
    ∀ i, 0 ≤ i < TERM_HEIGHT * TERM_WIDTH →
      m'.[i] = if (i / TERM_WIDTH =? y) && (i mod TERM_WIDTH <? n) then shown t y (i mod TERM_WIDTH) else m.[i])
    0 TERM_WIDTH) as W.
  edestruct W as (m' & E & L' & Q); [done | | | exists m'; split; [exact E |]; split; [exact L' |]].
  - exists m. split; [done |]. split; [done |]. intros i Hi. unfold TERM_WIDTH.
    replace (i mod 80 <? 0) with false by zdm. by rewrite andb_false_r.
  - intros x t1 Hx (m1 & -> & L1 & Q1). rewrite buffer_line_in, cell_in_true by done. cbn [andb checked].
    unfold store_vga. unfold TERM_HEIGHT, TERM_WIDTH in *. replace (vga_in (y * 80 + x)) with true by (unfold vga_in, TERM_HEIGHT, TERM_WIDTH; lia).
    eexists. split; [reflexivity |]. cbn [vga_memory set_vga]. rewrite zlen_aset. split; [done |]. intros i Hi.
    destruct (decide (y * 80 + x = i)) as [<- | Hne].
    + rewrite aget_aset_eq by lia. replace ((y * 80 + x) / 80 =? y) with true by zdm.
      replace ((y * 80 + x) mod 80) with x by zdm. by replace (x <? x + 1) with true by lia.
    + rewrite aget_aset_ne, Q1 by done.
      replace ((i / 80 =? y) && (i mod 80 <? x + 1)) with ((i / 80 =? y) && (i mod 80 <? x)); [done |].
      destruct (Z.eqb_spec (i / 80) y); [| done]. cbn [andb]. zdm.
  - intros i Hi. rewrite Q by done. unfold TERM_WIDTH. replace (i mod 80 <? 80) with true by zdm. by rewrite andb_true_r.
Qed.

Lemma render_form t :
  zlen (vga_memory t) = TERM_HEIGHT * TERM_WIDTH →
  ∃ m, terminal_render t = set_vga t m ∧ zlen m = TERM_HEIGHT * TERM_WIDTH ∧
    (rendering_enabled t = true → ∀ y x, 0 ≤ y < TERM_HEIGHT → 0 ≤ x < TERM_WIDTH → m.[y * TERM_WIDTH + x] = shown t y x).
Proof.
  intros L. unfold terminal_render. destruct (rendering_enabled t) eqn:E; cbn [negb].
  2: { exists (vga_memory t). split; [by destruct t |]. split; [done |]. intros F. congruence. }
  pose proof (for_each_inv_le (λ n t', ∃ m, t' = set_vga t m ∧ zlen m = TERM_HEIGHT * TERM_WIDTH ∧
    ∀ y x, 0 ≤ y < n → 0 ≤ x < TERM_WIDTH → m.[y * TERM_WIDTH + x] = shown t y x) 0 TERM_HEIGHT render_row t) as W.
  destruct W as (m & -> & Lm & Q); [done | | | by exists m].
  - exists (vga_memory t). split; [by destruct t |]. split; [done | lia].
  - intros y t1 Hy (m & -> & Lm & Q). destruct (render_row_spec t y m Hy Lm) as (m' & -> & L' & Q').
    exists m'. split; [done |]. split; [done |].
    intros y' x Hy' Hx. unfold TERM_WIDTH, TERM_HEIGHT in *. rewrite Q' by lia.
    replace ((y' * 80 + x) mod 80) with x by zdm. replace ((y' * 80 + x) / 80) with y' by zdm.
    destruct (Z.eqb_spec y' y) as [-> |]; [done | apply Q; lia].
Qed.

Lemma render_spec t :
  term_ok t → term_ok (terminal_render t) ∧ synced (terminal_render t).
Proof.
  intros K. destruct (render_form t (ok_vga t K)) as (m & -> & L & Q). split; [destruct K; by split |].
  intros E y x Hy Hx. by apply Q.
Qed.

(** The device is not part of what the invariants speak of. *)
Lemma cursor_ok t : term_ok t → term_ok (terminal_update_cursor t).
Proof. by intros []; split. Qed.
Lemma cursor_synced t : synced t → synced (terminal_update_cursor t).
Proof. done. Qed.
Lemma visible_ok t : term_ok t ∧ synced t → term_ok (show_if_visible t) ∧ synced (show_if_visible t).
Proof. unfold show_if_visible. destruct (cursor_visible t); [| done]. intros []. split; [by apply cursor_ok | done]. Qed.

Lemma position_ok t s l c :
  term_ok t → 0 ≤ l < TERM_HISTORY → 0 ≤ c < TERM_WIDTH → term_ok (set_position t s l c).
Proof. by intros [] ? ?; split. Qed.

Lemma set_position_shape t s l c : shape t → shape (set_position t s l c).
Proof. by intros []; split. Qed.
Lemma scroll_ok t : shape t → 0 ≤ terminal_column t < TERM_WIDTH → term_ok (scroll_history t).
Proof.
  intros S C. unfold scroll_history. pose proof (shift_shape t S) as S1. destruct (rest_position _ _ (shift_rest t)) as [_ R1].
  set (t1 := shift_lines t) in *. clearbody t1. cbv zeta. apply (set_position_shape _ (scroll_offset t1) (TERM_HISTORY - 1) (terminal_column t1)) in S1.
  assert (current_line (set_position t1 (scroll_offset t1) (TERM_HISTORY - 1) (terminal_column t1)) = TERM_HISTORY - 1) as El by done.
  assert (terminal_column (set_position t1 (scroll_offset t1) (TERM_HISTORY - 1) (terminal_column t1)) = terminal_column t) as Ec by done.
  set (t2 := set_position t1 _ _ _) in *. clearbody t2.
  destruct (rest_position _ _ (store_line_rest (current_line t2) (blank_row BLANK) (blank_row (terminal_color t2)) t2)) as [R2 R3].
  apply shape_ok; [apply store_line_shape; [done | by rewrite El | done | done] | by rewrite R2, El | by rewrite R3, Ec].
Qed.
Lemma newline_ok t :
  shape t → 0 ≤ current_line t < TERM_HISTORY → term_ok (terminal_newline t) ∧ synced (terminal_newline t).
Proof.
  intros S L. unfold terminal_newline. cbv zeta. apply render_spec.
  assert (term_ok (if TERM_HISTORY <=? current_line t + 1 then scroll_history (set_position t (scroll_offset t) (current_line t + 1) 0)
                   else set_position t (scroll_offset t) (current_line t + 1) 0)) as K.
  { destruct (Z.leb_spec TERM_HISTORY (current_line t + 1)) as [H1 | H1].
    - apply scroll_ok; [by apply set_position_shape | done].
    - apply shape_ok; [by apply set_position_shape | cbn; lia | done]. }
  apply position_ok; [exact K | apply K | apply K].
Qed.

Lemma blank_ok t : term_ok t → term_ok (blank_all t).
Proof.
  intros K. destruct (rest_position _ _ (blank_rest t)) as [R1 R2].
  apply shape_ok; [by apply blank_shape, ok_shape | rewrite R1; apply K | rewrite R2; apply K].
Qed.
Lemma put_cell_ok t c : term_ok t → term_ok (put_cell t c).
Proof.
  intros []. unfold put_cell, store_cell. rewrite line_in_true, cell_in_true by done. cbn [andb checked].
  split; cbn; try done; apply grid_set; try done; rewrite zlen_aset; [by apply ok_text0 | by apply ok_color0].
Qed.

Lemma visible_tail t (P : Prop) :
  term_ok t ∧ (P → synced t) → term_ok (show_if_visible t) ∧ (P → synced (show_if_visible t)).
Proof. unfold show_if_visible. destruct (cursor_visible t); [| done]. intros []. split; [by apply cursor_ok | done]. Qed.
Lemma both_weaken (A B P : Prop) : A ∧ B → A ∧ (P → B).
Proof. tauto. Qed.

Lemma putchar_ok c t : term_ok t → term_ok (terminal_putchar c t) ∧ (synced t → synced (terminal_putchar c t)).
Proof.
  intros K. unfold terminal_putchar. destruct (c =? NL).
  { apply visible_tail, both_weaken, newline_ok; [by apply ok_shape | apply K]. }
  destruct (c =? TAB).
  - apply visible_tail. cbn [terminal_column set_position]. pose proof K as [].
    destruct (Z.leb_spec VGA_WIDTH (Z.land (terminal_column t + 4) (Z.lnot 3))) as [H1 | H1];
      [apply both_weaken, newline_ok; [by split | done] |].
    split; [apply position_ok; try done | by intros S]. unfold VGA_WIDTH in H1. split; [| done].
    apply Z.land_nonneg. left. lia.
  - apply visible_tail, both_weaken. destruct (put_cell_ok t c K) as []. cbn [terminal_column set_position].
    set (t1 := put_cell t c) in *. clearbody t1.
    destruct (Z.eqb_spec (terminal_column t1 + 1) VGA_WIDTH) as [H1 | H1]; [apply newline_ok; [by split | done] |].
    apply render_spec. split; try done. cbn [terminal_column set_position]. unfold VGA_WIDTH, TERM_WIDTH in *. lia.
Qed.

Lemma putchar_synced c t : c ≠ TAB → term_ok t → synced (terminal_putchar c t).
Proof.
  intros Hc K. unfold terminal_putchar. rewrite (proj2 (Z.eqb_neq c TAB) Hc). destruct (c =? NL).
  { apply visible_ok, newline_ok; [by apply ok_shape | apply K]. }
  apply visible_ok. destruct (put_cell_ok t c K) as []. cbn [terminal_column set_position]. set (t1 := put_cell t c) in *. clearbody t1.
  destruct (Z.eqb_spec (terminal_column t1 + 1) VGA_WIDTH) as [H1 | H1]; [apply newline_ok; [by split | done] |].
  apply render_spec. split; try done. cbn [terminal_column set_position]. unfold VGA_WIDTH, TERM_WIDTH in *. lia.
Qed.

(** ** The calls of the other components *)
Inductive tcall :=
| TPut (c : Z) | TNewline | TClear | TBackspace | TColor (c : Z)
| TScrollUp | TScrollDown | TDisable | TEnable | TSetCursor (row col : Z).
Definition texec (t : term) (c : tcall) : term :=
  match c with
  | TPut c => terminal_putchar c t
  | TNewline => terminal_newline t
  | TClear => terminal_clear t
  | TBackspace => terminal_backspace t
  | TColor c => terminal_setcolor c t
  | TScrollUp => terminal_scroll_up t
  | TScrollDown => terminal_scroll_down t
  | TDisable => terminal_disable_rendering t
  | TEnable => terminal_enable_rendering t
  | TSetCursor r c => terminal_set_cursor r c t
  end.
Definition moves_cursor (c : tcall) : bool := match c with TSetCursor _ _ => true | _ => false end.

Lemma show_cursor_keeps t : term_ok t ∧ synced t → term_ok (terminal_show_cursor t) ∧ synced (terminal_show_cursor t).
Proof.
  intros [[] S]. unfold terminal_show_cursor. destruct (inb _ _) as [a d]. destruct (inb _ _) as [b d'].
  split; [by split | exact S].
Qed.

Lemma initialize_ok t : term_ok t → term_ok (terminal_initialize t).
Proof.
  intros K. apply show_cursor_keeps, render_spec, blank_ok.
  assert (term_ok (set_position t 0 0 0)) as [] by (by apply position_ok). by split.
Qed.
Lemma rerender_ok t s :
  term_ok t → let t' := terminal_update_cursor (terminal_render (set_position t s (current_line t) (terminal_column t))) in
  term_ok t' ∧ synced t'.
Proof.
  intros K. cbn zeta. destruct (render_spec (set_position t s (current_line t) (terminal_column t))) as [R1 R2].
  { destruct K. by split. }
  split; [by apply cursor_ok | exact R2].
Qed.

Lemma backspace_ok t : term_ok t → term_ok (terminal_backspace t) ∧ (synced t → synced (terminal_backspace t)).
Proof.
  intros K. unfold terminal_backspace. destruct (Z.ltb_spec 0 (terminal_column t)); [| done].
  pose proof (put_cell_ok (set_position t (scroll_offset t) (current_line t) (terminal_column t - 1)) BLANK) as K1.
  specialize (K1 ltac:(apply position_ok; [done | apply K | destruct K; lia])).
  apply both_weaken, visible_ok, render_spec, position_ok; [done | apply K1 | apply K1].
Qed.

Lemma backspace_drawn t : term_ok t → 0 < terminal_column t → synced (terminal_backspace t).
Proof.
  intros K Hc. unfold terminal_backspace. replace (0 <? terminal_column t) with true by lia.
  pose proof (put_cell_ok (set_position t (scroll_offset t) (current_line t) (terminal_column t - 1)) BLANK) as K1.
  specialize (K1 ltac:(apply position_ok; [done | apply K | destruct K; lia])).
  apply visible_ok, render_spec, position_ok; [done | apply K1 | apply K1].
Qed.
Lemma set_cursor_ok r c t : term_ok t → term_ok (terminal_set_cursor r c t).
Proof.
  intros K. apply cursor_ok, position_ok; [done | |]; destruct K.
  - destruct (Z.leb_spec 0 r), (Z.ltb_spec r TERM_HISTORY); cbn [andb]; lia.
  - destruct (Z.leb_spec 0 c), (Z.ltb_spec c TERM_WIDTH); cbn [andb]; lia.
Qed.

Lemma texec_ok c t :
  term_ok t → term_ok (texec t c) ∧ (synced t → moves_cursor c = false → synced (texec t c)).
Proof.
  intros K. destruct c; cbn [texec moves_cursor].
  - destruct (putchar_ok c t K). auto.
  - apply both_weaken, both_weaken, newline_ok; [by apply ok_shape | apply K].
  - apply both_weaken, both_weaken, visible_ok, render_spec. destruct K. by apply blank_ok, position_ok.
  - destruct (backspace_ok t K). auto.
  - split; [destruct K; by split | done].
  - by apply both_weaken, both_weaken, rerender_ok.
  - by apply both_weaken, both_weaken, rerender_ok.
  - split; [destruct K; by split | done].
  - apply both_weaken, both_weaken, show_cursor_keeps, render_spec. destruct K; by split.
  - split; [by apply set_cursor_ok | done].
Qed.

(** ** The terminal under the VGA memory *)
(** Equal but for the VGA memory, which another component may draw on: every
    call respects it, since no call reads that memory. *)
Definition same (t t' : term) : Prop := set_vga t [] = set_vga t' [].
#[export] Instance same_equivalence : Equivalence same.
Proof. unfold same. split; [done | by intros ??? | intros ??? -> ->; done]. Qed.
Lemma same_form t t' : same t t' → t' = set_vga t (vga_memory t').
Proof. destruct t, t'. unfold same, set_vga. cbn. by intros [= -> -> -> -> -> -> -> -> -> ->]. Qed.
Lemma same_vga t m : same t (set_vga t m).
Proof. done. Qed.
Lemma loop_same lo hi body t t' :
  (∀ i, Proper (same ==> same) (body i)) → same t t' → same (for_each lo hi body t) (for_each lo hi body t').
Proof.
  intros B. remember (Z.to_nat (hi - lo)) as n eqn:Hn. revert lo t t' Hn. induction n as [| n IH]; intros lo t t' Hn S.
  - by rewrite !for_each_end by lia.
  - rewrite (for_each_step lo hi body t), (for_each_step lo hi body t') by lia. apply IH; [lia |]. by apply B.
Qed.
(** An operation that does not read the memory. *)
Ltac blind := intros ?t ?t' S; rewrite (same_form _ _ S); clear S; unfold same.
#[export] Instance checked_same b : Proper (same ==> same) (checked b).
Proof. blind. by destruct b. Qed.
#[export] Instance store_line_same i r c : Proper (same ==> same) (store_line i r c).
Proof. blind. unfold store_line. by destruct (line_in i). Qed.
#[export] Instance render_same_vga : Proper (same ==> same) terminal_render.
Proof.
  intros t t' S. unfold terminal_render. assert (rendering_enabled t' = rendering_enabled t) as -> by (rewrite (same_form _ _ S); done).
  destruct (negb _); [done |]. apply loop_same; [| done]. clear t t' S. intros y t t' S. apply loop_same; [| done]. clear t t' S. intros x. blind.
  change (buffer_line (set_vga t (vga_memory t')) y) with (buffer_line t y). rewrite buffer_line_in. unfold store_vga. by destruct (cell_in x), (vga_in _).
Qed.
#[export] Instance blank_same : Proper (same ==> same) blank_all.
Proof.
  intros t t' S. apply loop_same; [| done]. clear t t' S. intros i. blind. unfold store_line. by destruct (line_in i).
Qed.
#[export] Instance scroll_same : Proper (same ==> same) scroll_history.
Proof.
  intros t t' S. assert (same (shift_lines t) (shift_lines t')) as S1.
  { apply loop_same; [| done]. clear t t' S. intros i. blind. unfold store_line. by destruct (line_in (i + 1)), (line_in i). }
  unfold scroll_history. revert S1. generalize (shift_lines t), (shift_lines t'). clear. intros t t' S. rewrite (same_form _ _ S). clear S.
  unfold same, store_line. cbv zeta. cbn [current_line set_position]. by destruct (line_in _).
Qed.
#[export] Instance position_same : Proper (same ==> eq ==> eq ==> eq ==> same) set_position.
Proof. intros t t' S ? s -> ? l -> ? c ->. rewrite (same_form _ _ S). done. Qed.
Lemma same_position t t' : same t t' →
  scroll_offset t = scroll_offset t' ∧ current_line t = current_line t' ∧ terminal_column t = terminal_column t' ∧ cursor_visible t = cursor_visible t'.
Proof. intros S. by rewrite (same_form _ _ S). Qed.
#[export] Instance newline_same : Proper (same ==> same) terminal_newline.
Proof.
  intros t t' S. unfold terminal_newline. cbv zeta. destruct (same_position _ _ S) as (-> & -> & _ & _).
  set (l := current_line t' + 1). assert (same (set_position t (scroll_offset t') l 0) (set_position t' (scroll_offset t') l 0)) as S1 by (by rewrite S).
  set (u := set_position t _ _ _) in *. set (u' := set_position t' _ _ _) in *. change (current_line u) with l. change (current_line u') with l.
  clearbody u u'. clear S. assert (same (if TERM_HISTORY <=? l then scroll_history u else u) (if TERM_HISTORY <=? l then scroll_history u' else u')) as S2.
  { destruct (TERM_HISTORY <=? l); [by rewrite S1 | done]. }
  revert S2. generalize (if TERM_HISTORY <=? l then scroll_history u else u), (if TERM_HISTORY <=? l then scroll_history u' else u').
  intros v v' S. destruct (same_position _ _ S) as (_ & -> & -> & _). by rewrite S.
Qed.

#[export] Instance cursor_same : Proper (same ==> same) terminal_update_cursor.
Proof. by blind. Qed.
#[export] Instance visible_same_vga : Proper (same ==> same) show_if_visible.
Proof.
  intros t t' S. unfold show_if_visible. destruct (same_position _ _ S) as (_ & _ & _ & ->). destruct (cursor_visible t'); [by rewrite S | done].
Qed.
#[export] Instance put_cell_same : Proper (same ==> eq ==> same) put_cell.
Proof.
  intros t t' S ? c ->. rewrite (same_form _ _ S). unfold same, put_cell, store_cell. cbn [current_line terminal_column set_vga].
  by destruct (line_in _ && _).
Qed.
#[export] Instance setcolor_same : Proper (eq ==> same ==> same) terminal_setcolor.
Proof. intros ? c -> t t' S. by rewrite (same_form _ _ S). Qed.
(** A call that places the cursor and draws. *)
Lemma redraw_same t t' s : same t t' →
  same (terminal_render (set_position t s (current_line t) (terminal_column t)))
       (terminal_render (set_position t' s (current_line t') (terminal_column t'))).
Proof. intros S. destruct (same_position _ _ S) as (_ & -> & -> & _). by rewrite S. Qed.
#[export] Instance putchar_same : Proper (eq ==> same ==> same) terminal_putchar.
Proof.
  intros ? c -> t t' S. unfold terminal_putchar. destruct (c =? NL); [by rewrite S |]. cbv zeta. destruct (c =? TAB).
  - destruct (same_position _ _ S) as (-> & -> & -> & _). cbn [terminal_column set_position]. destruct (_ <=? _); by rewrite S.
  - assert (same (put_cell t c) (put_cell t' c)) as S1 by (by rewrite S). revert S1. generalize (put_cell t c), (put_cell t' c). clear.
    intros t t' S. destruct (same_position _ _ S) as (-> & -> & -> & _). cbn [terminal_column current_line set_position].
    destruct (_ =? _); by rewrite S.
Qed.
#[export] Instance write_same : Proper (eq ==> same ==> same) terminal_write.
Proof. intros ? s -> t t' S. unfold terminal_write. revert t t' S. induction s as [| c s IH]; intros t t' S; [done |]. cbn [foldl]. apply IH. by rewrite S. Qed.
#[export] Instance backspace_same : Proper (same ==> same) terminal_backspace.
Proof.
  intros t t' S. unfold terminal_backspace. cbv zeta. destruct (same_position _ _ S) as (-> & -> & -> & _). destruct (0 <? _); [| done].
  set (x := terminal_column t' - 1). set (u := put_cell (set_position t _ _ x) BLANK). set (u' := put_cell (set_position t' _ _ x) BLANK).
  assert (same u u') as S1 by (unfold u, u'; by rewrite S). clearbody u u'. apply visible_same_vga. by apply redraw_same.
Qed.
#[export] Instance texec_same c : Proper (same ==> same) (λ t, texec t c).
Proof.
  intros t t' S. destruct c; cbn [texec].
  - by apply putchar_same.
  - by apply newline_same.
  - apply visible_same_vga, render_same_vga, blank_same. by apply position_same.
  - by apply backspace_same.
  - by apply setcolor_same.
  - unfold terminal_scroll_up. cbv zeta. destruct (same_position _ _ S) as (-> & -> & -> & _). by rewrite S.
  - unfold terminal_scroll_down. cbv zeta. destruct (same_position _ _ S) as (-> & _ & _ & _). by apply cursor_same, redraw_same.
  - unfold terminal_disable_rendering, terminal_hide_cursor. rewrite (same_form _ _ S). done.
  - unfold terminal_enable_rendering. assert (same (terminal_render (set_flags t (cursor_visible t) true)) (terminal_render (set_flags t' (cursor_visible t') true))) as S1.
    { apply render_same_vga. rewrite (same_form _ _ S). done. }
    revert S1. generalize (terminal_render (set_flags t (cursor_visible t) true)), (terminal_render (set_flags t' (cursor_visible t') true)).
    clear. intros t t' S. rewrite (same_form _ _ S). unfold terminal_show_cursor. cbn [term_dev set_flags set_vga].
    destruct (inb _ _) as [a d]. destruct (inb _ _) as [b e]. done.
  - unfold terminal_set_cursor. cbv zeta. destruct (same_position _ _ S) as (-> & -> & -> & _). by rewrite S.
Qed.

Definition plain (c : Z) : Prop := c ≠ NL ∧ c ≠ TAB.

Lemma visible_same t :
  term_buffer (show_if_visible t) = term_buffer t ∧ current_line (show_if_visible t) = current_line t ∧
  terminal_column (show_if_visible t) = terminal_column t.
Proof. unfold show_if_visible. by destruct (cursor_visible t). Qed.
Lemma render_same t :
  term_buffer (terminal_render t) = term_buffer t ∧ current_line (terminal_render t) = current_line t ∧
  terminal_column (terminal_render t) = terminal_column t.
Proof.
  split; [| apply rest_position, render_rest]. unfold terminal_render. destruct (negb _); [done |].
  apply (loop_rest term_buffer). intros y t1. apply (loop_rest term_buffer). intros x t2.
  unfold store_vga. by destruct (vga_in _), (_ && _).
Qed.

Lemma putchar_plain c t :
  plain c → terminal_column t + 1 < VGA_WIDTH →
  let t' := terminal_putchar c t in
  term_buffer t' = (term_buffer t).[current_line t <- ((term_buffer t).[current_line t]).[terminal_column t <- c]] ∧
  current_line t' = current_line t ∧ terminal_column t' = terminal_column t + 1.
Proof.
  intros [P1 P2] Hc. cbn zeta. unfold terminal_putchar.
  rewrite (proj2 (Z.eqb_neq c NL) P1), (proj2 (Z.eqb_neq c TAB) P2).
  set (b' := (term_buffer t).[_ <- _]). assert (term_buffer (put_cell t c) = b') as Eb by (unfold put_cell, store_cell; by destruct (_ && _)).
  destruct (rest_position _ _ (put_cell_rest t c)) as [R1 R2].
  set (t1 := put_cell t c) in *. clearbody t1. cbn [terminal_column set_position]. rewrite R2.
  replace (terminal_column t + 1 =? VGA_WIDTH) with false by lia.
  match goal with |- context [show_if_visible ?x] => destruct (visible_same x) as (-> & -> & ->) end.
  match goal with |- context [terminal_render ?x] => destruct (render_same x) as (-> & -> & ->) end. cbn. by rewrite Eb, R1.
Qed.

Lemma write_plain text t :
  grid (term_buffer t) → 0 ≤ current_line t < TERM_HISTORY → Forall plain text →
  0 ≤ terminal_column t → terminal_column t + zlen text < VGA_WIDTH →
  let t' := terminal_write text t in
  term_buffer t' = (term_buffer t).[current_line t <- ablit ((term_buffer t).[current_line t]) (terminal_column t) text] ∧
  current_line t' = current_line t ∧ terminal_column t' = terminal_column t + zlen text.
Proof.
  revert t. induction text as [|c text IH]; intros t G L F C0 C1; cbn zeta.
  { cbn [terminal_write foldl ablit]. rewrite aset_aget_id. change (zlen (@nil Z)) with 0. split; [done |]. split; [done | lia]. }
  rewrite zlen_cons in C1. pose proof (zlen_nonneg text). apply Forall_cons in F as [P F].
  destruct (putchar_plain c t P) as (B & E1 & E2); [lia |].
  change (terminal_write (c :: text) t) with (terminal_write text (terminal_putchar c t)).
  destruct (IH (terminal_putchar c t)) as (B' & E1' & E2'); [| lia | done | lia | lia |].
  { rewrite B. apply grid_set; [done |]. rewrite zlen_aset. apply G. lia. }
  rewrite B', E1', E2', B, E1, E2, zlen_cons. split; [| lia]. cbn [ablit].
  rewrite aset_aset, aget_aset_eq by (destruct G as [-> _]; lia). done.
Qed.

(** ** Properties *)

(** C27: Whatever calls the rest of the kernel makes, none of them loads or
    stores outside the text and colour buffers or the VGA memory ([in_bounds]
    stays true, and an access out of range would clear it for good); the
    cursor stays inside the history of 1000 lines of 80 cells and every line
    keeps its width. *)
Theorem terminal_stays_in_bounds calls t :
  term_ok t → term_ok (foldl texec t calls).
Proof. revert t. induction calls as [|c calls IH]; intros t K; [done |]. by apply IH, texec_ok. Qed.

(** As long as rendering is enabled the screen shows the 25 lines of the
    history in view: every output call leaves the VGA memory equal to the
    visible part of the buffer (only [terminal_set_cursor] moves the view
    without drawing it). *)
Theorem terminal_screen_shows_buffer calls t :
  term_ok t → synced t → forallb (λ c, negb (moves_cursor c)) calls = true → synced (foldl texec t calls).
Proof.
  revert t. induction calls as [|c calls IH]; intros t K S F; [done |].
  cbn [forallb] in F. apply andb_true_iff in F as [F1%negb_true_iff F2].
  destruct (texec_ok c t K) as [K' S']. apply IH; auto.
Qed.

(** Writing text without newlines or tabs that fits on the line puts it at
    the cursor, cell by cell, moves the cursor past it and changes no other
    cell of the history. *)
Theorem terminal_write_places_text text t :
  term_ok t → Forall plain text → terminal_column t + zlen text < VGA_WIDTH →
  let t' := terminal_write text t in
  term_buffer t' = (term_buffer t).[current_line t <- ablit ((term_buffer t).[current_line t]) (terminal_column t) text] ∧
  current_line t' = current_line t ∧ terminal_column t' = terminal_column t + zlen text.
Proof. intros [] F C. apply write_plain; try done; lia. Qed.

(** [klog] does not restore the colour it found: afterwards the terminal
    writes light grey on black, whatever colour was set before. *)
Theorem klog_forgets_color fuel level message t t' :
  klog fuel level message t = Some t' → terminal_color t' = 7.
Proof.
  unfold klog. intros E. repeat (apply bind_Some in E as (? & _ & E)). by injection E as <-.
Qed.

End Display.

(** ** Witnesses *)
#[local] Instance demo_console : PortIO (list Z) := {|
  inb := λ _ d, (0x20, d); inw := λ _ d, (0, d); outb := λ p v d, p :: v :: d; outw := λ _ _ d, d |}.
Definition blank_term : term (hw := list Z) :=
  Term (replicate 1000 (blank_row BLANK)) (replicate 1000 (blank_row 7)) 0 0 0 7 (replicate 2000 (vga_entry 32 7)) true true [] true.

Lemma grid_replicate r : zlen r = TERM_WIDTH → grid (replicate 1000 r).
Proof. intros L. split; [reflexivity |]. intros i Hi. rewrite aget_replicate; [done |]. unfold TERM_HISTORY in Hi. lia. Qed.
Lemma blank_term_ok : term_ok blank_term.
Proof. split; [by apply grid_replicate | by apply grid_replicate | done | done | reflexivity | done]. Qed.
Lemma blank_term_synced : synced blank_term.
Proof.
  intros _ y x Hy Hx. unfold shown, blank_term, TERM_HEIGHT, TERM_WIDTH in *. cbn [vga_memory term_buffer term_color_buffer].
  rewrite aget_replicate by lia.
  assert (∀ v, (blank_row v).[x] = v) as B by (intros v; apply aget_replicate; unfold TERM_WIDTH; lia).
  assert (0 ≤ buffer_line blank_term y < 1000) as Hb.
  { unfold buffer_line, start_line, TERM_HISTORY. cbn [current_line scroll_offset blank_term]. unfold TERM_HEIGHT.
    repeat case_match; lia. }
  unfold blank_term in Hb. rewrite !aget_replicate by lia. by rewrite !B.
Qed.

Definition demo_calls : list tcall := [TPut 72; TPut 105; TPut 10; TColor 14; TPut 33; TBackspace; TScrollUp; TClear].
Lemma terminal_stays_in_bounds_witness : term_ok (foldl texec blank_term demo_calls).
Proof. apply (terminal_stays_in_bounds demo_calls blank_term blank_term_ok). Defined.
Lemma terminal_screen_shows_buffer_witness : synced (foldl texec blank_term demo_calls).
Proof. apply (terminal_screen_shows_buffer demo_calls blank_term blank_term_ok blank_term_synced). reflexivity. Defined.
Lemma terminal_write_places_text_witness : terminal_column (terminal_write [72; 105] blank_term) = 2.
Proof.
  apply (terminal_write_places_text [72; 105] blank_term blank_term_ok); [| done].
  repeat constructor; done.
Defined.
Lemma klog_forgets_color_witness :
  ∃ t', klog 10 LOG_INFO [72; 0] (terminal_setcolor 0x1F blank_term) = Some t' ∧ terminal_color t' = 7.
Proof.
  destruct (klog 10 LOG_INFO [72; 0] (terminal_setcolor 0x1F blank_term)) as [t' |] eqn:E.
  - exists t'. split; [reflexivity |]. exact (klog_forgets_color 10 LOG_INFO [72; 0] _ t' E).
  - exfalso. assert (match klog 10 LOG_INFO [72; 0] (terminal_setcolor 0x1F blank_term) with Some _ => true | None => false end = true) as F
      by (vm_compute; reflexivity).
    rewrite E in F. discriminate.
Defined.

End Terminal.
