(* ===== verification/Format.v ===== *)
(** * Text formatting (the append helpers of kernel/fs/fs.c and kernel/net/net.c)

    A buffer that is being filled is the text written so far, [b]; the
    position of the source is [zlen b].  A string argument is the list of its
    characters; the end of the list, or a 0 in it, is the NUL.  Decimal and
    dotted notation are related to the numbers they stand for. *)
From S2P Require Import Prelude.

Module Format.

(** [while ( *s && *p + 1 < max) b[( *p)++] = *s++] *)
Fixpoint append_str (max : Z) (s : list Z) (b : list Z) : list Z :=
  match s with
  | [] => b
  | c :: s' => if negb (c =? 0) && (zlen b + 1 <? max) then append_str max s' (b ++ [c]) else b
  end.

(** The digits loop, at most [n] characters of [tmp]; the list holds the last
    character stored first, as the output loop takes them. *)
Fixpoint store_digits (n : nat) (v : Z) (tmp : list Z) : list Z :=
  match n with
  | O => tmp
  | S n' => if v =? 0 then tmp else store_digits n' (v / 10) (48 + v mod 10 :: tmp)
  end.
Definition digits_of (size : nat) (v : Z) : list Z :=
  if v =? 0 then [48] else store_digits size v [].

(** [while (n > 0 && *p + 1 < max) b[( *p)++] = tmp[--n]] *)
Fixpoint append_tmp (max : Z) (tmp : list Z) (b : list Z) : list Z :=
  match tmp with
  | [] => b
  | c :: tmp' => if zlen b + 1 <? max then append_tmp max tmp' (b ++ [c]) else b
  end.
Definition append_u32 (max v : Z) (b : list Z) : list Z := append_tmp max (digits_of 16 v) b.
Definition append_u64 (max v : Z) (b : list Z) : list Z := append_tmp max (digits_of 24 v) b.

Definition hex_digit (v : Z) : Z := if v <? 10 then 48 + v else 97 + (v - 10).
Definition append_hex2 (max v : Z) (b : list Z) : list Z :=
  if max <=? zlen b + 2 then b else b ++ [hex_digit (Z.shiftr v 4); hex_digit (Z.land v 0x0F)].

Definition append_ip (max ip : Z) (b : list Z) : list Z :=
  let b := append_u32 max (Z.land (Z.shiftr ip 24) 0xFF) b in
  let b := append_str max [46] b in
  let b := append_u32 max (Z.land (Z.shiftr ip 16) 0xFF) b in
  let b := append_str max [46] b in
  let b := append_u32 max (Z.land (Z.shiftr ip 8) 0xFF) b in
  let b := append_str max [46] b in
  append_u32 max (Z.land ip 0xFF) b.

Definition append_mac (max : Z) (mac : list Z) (b : list Z) : list Z :=
  for_each 0 6 (λ i b,
    let b := if i =? 0 then b else append_str max [58] b in append_hex2 max mac.[i] b) b.

(** [net_parse_ipv4]: the digits of one part, the part so far in [v];
    [None] is the early return of 0 for a part above 255.  The string is the
    suffix that [s] points to, read as NUL at its end. *)
Fixpoint parse_part (s : list Z) (v : Z) : option (Z * list Z) :=
  match s with
  | c :: s' =>
      if (48 <=? c) && (c <=? 57) then
        let v := u32 (u32 (v * 10) + (c - 48)) in
        if 255 <? v then None else parse_part s' v
      else Some (v, s)
  | [] => Some (v, [])
  end.

(** [if ( *s != '.') return 0; s++] *)
Definition skip_dot (s : list Z) : option (list Z) :=
  match s with c :: s' => if c =? 46 then Some s' else None | [] => None end.
(** [if (! *s) return 0] and the digits *)
Definition ip_part (s : list Z) : option (Z * list Z) :=
  match s with c :: _ => if c =? 0 then None else parse_part s 0 | [] => None end.

Definition parse_parts (s : list Z) : option (Z * Z * Z * Z) :=
  '(a, s) ← ip_part s; s ← skip_dot s;
  '(b, s) ← ip_part s; s ← skip_dot s;
  '(c, s) ← ip_part s; s ← skip_dot s;
  '(d, _) ← ip_part s; Some (a, b, c, d).
Definition net_parse_ipv4 (s : list Z) : Z :=
  match parse_parts s with
  | Some (a, b, c, d) => Z.lor (Z.lor (Z.lor (u32 (Z.shiftl a 24)) (u32 (Z.shiftl b 16))) (u32 (Z.shiftl c 8))) d
  | None => 0
  end.

(** ** What the helpers write *)
Definition is_digit (c : Z) : Prop := 48 ≤ c ≤ 57.
Definition decimal (l : list Z) : Z := foldl (λ a c, 10 * a + (c - 48)) 0 l.

(** [b] was extended by a prefix of [t] and stays below [max]; all of [t] if it fits. *)
Definition extends (max : Z) (t b b' : list Z) : Prop :=
  ∃ n, b' = b ++ take n t ∧ (zlen b < max → zlen b' < max) ∧ (zlen b + zlen t < max → take n t = t).

Lemma append_tmp_ext max t b : extends max t b (append_tmp max t b).
Proof.
  revert b. induction t as [| c t IH]; intros b; cbn [append_tmp].
  - exists 0%nat. rewrite app_nil_r. split_and!; done.
  - destruct (Z.ltb_spec (zlen b + 1) max) as [Hl | Hl].
    + destruct (IH (b ++ [c])) as (n & E & L & F). exists (S n).
      assert (zlen (b ++ [c]) = zlen b + 1) as Hz by (rewrite zlen_app; done).
      rewrite E, <- app_assoc. split; [done |]. split.
      * intros _. rewrite <- app_assoc in E. rewrite E in L. apply L. lia.
      * rewrite zlen_cons. intros Hf. cbn [take]. rewrite F; [done |]. lia.
    + exists 0%nat. rewrite app_nil_r. split; [done |]. split; [done |].
      rewrite zlen_cons. pose proof (zlen_nonneg t). lia.
Qed.

Lemma append_str_tmp max s b : Forall (λ c, c ≠ 0) s → append_str max s b = append_tmp max s b.
Proof.
  intros Hs. revert b. induction Hs as [| c s Hc _ IH]; intros b; cbn [append_str append_tmp]; [done |].
  replace (c =? 0) with false by lia. cbn [negb andb]. by rewrite IH.
Qed.

(** The characters of [s] before a NUL. *)
Fixpoint until_nul (s : list Z) : list Z :=
  match s with [] => [] | c :: s' => if c =? 0 then [] else c :: until_nul s' end.
Lemma append_str_until max s b : append_str max s b = append_tmp max (until_nul s) b.
Proof.
  revert b. induction s as [| c s IH]; intros b; cbn [append_str until_nul]; [done |].
  destruct (c =? 0); cbn [negb andb append_tmp]; [done |]. by rewrite IH.
Qed.
Lemma append_str_ext max s b : extends max (until_nul s) b (append_str max s b).
Proof. rewrite append_str_until. apply append_tmp_ext. Qed.

(** Bounds of each helper, in the form the formatters chain. *)
Definition bounded (max : Z) (b b' : list Z) : Prop := zlen b < max → zlen b' < max.
#[export] Instance bounded_refl max : Reflexive (bounded max).
Proof. intros b. unfold bounded. auto. Qed.
#[export] Instance bounded_trans max : Transitive (bounded max).
Proof. intros a b c. unfold bounded. auto. Qed.

Lemma append_str_bounded max s b : bounded max b (append_str max s b).
Proof. by destruct (append_str_ext max s b) as (n & _ & H & _). Qed.
Lemma append_u32_bounded max v b : bounded max b (append_u32 max v b).
Proof. by destruct (append_tmp_ext max (digits_of 16 v) b) as (n & _ & H & _). Qed.
Lemma append_u64_bounded max v b : bounded max b (append_u64 max v b).
Proof. by destruct (append_tmp_ext max (digits_of 24 v) b) as (n & _ & H & _). Qed.
Lemma append_hex2_bounded max v b : bounded max b (append_hex2 max v b).
Proof. unfold append_hex2, bounded. destruct (Z.leb_spec max (zlen b + 2)); [done |]. unfold zlen in *. rewrite length_app. cbn [length]. lia. Qed.

Create HintDb fmt discriminated.
#[export] Hint Resolve append_str_bounded append_u32_bounded append_u64_bounded append_hex2_bounded : fmt.
(** Peel the appends of a formatter, innermost last. *)
Ltac fmt_bounded :=
  repeat first [ solve [auto with fmt] | reflexivity | etransitivity; [| solve [auto with fmt]] ].

(** The same for a goal written out. *)
Ltac chain_bounded :=
  match goal with |- zlen ?b < ?max → zlen ?x < ?max => change (bounded max b x) end; try case_match; fmt_bounded.

Lemma append_ip_bounded max ip b : bounded max b (append_ip max ip b).
Proof. unfold append_ip. fmt_bounded. Qed.
Lemma append_mac_bounded max mac b : bounded max b (append_mac max mac b).
Proof.
  unfold append_mac. apply (for_each_inv (λ _ b', bounded max b b') 0 6); [done |].
  intros i t _ Ht. etransitivity; [exact Ht |]. destruct (i =? 0); fmt_bounded.
Qed.
#[export] Hint Resolve append_ip_bounded append_mac_bounded : fmt.

(** ** Decimal notation *)
Lemma decimal_app l c : decimal (l ++ [c]) = 10 * decimal l + (c - 48).
Proof. unfold decimal. by rewrite foldl_app. Qed.

(** [store_digits] puts the decimal notation of [v] before [tmp]. *)
Lemma store_digits_spec n v tmp :
  0 < v < 10 ^ Z.of_nat n →
  ∃ ds, store_digits n v tmp = ds ++ tmp ∧ decimal ds = v ∧ Forall is_digit ds ∧ (∃ c r, ds = c :: r ∧ c ≠ 48).
Proof.
  revert v tmp. induction n as [| n IH]; intros v tmp Hv.
  { change (10 ^ Z.of_nat 0) with 1 in Hv. lia. }
  cbn [store_digits]. replace (v =? 0) with false by lia.
  replace (Z.of_nat (S n)) with (Z.succ (Z.of_nat n)) in Hv by lia. rewrite Z.pow_succ_r in Hv by lia.
  set (d := 48 + v mod 10). assert (is_digit d) as Hd by (unfold d, is_digit; zdm).
  destruct (decide (v / 10 = 0)) as [E | E].
  - exists [d]. rewrite E. split; [by destruct n |]. unfold decimal. cbn [foldl]. split; [unfold d; zdm |].
    split; [by constructor |]. exists d, []. split; [done |]. unfold d. zdm.
  - destruct (IH (v / 10) (d :: tmp)) as (ds & -> & Dv & Fd & c & r & -> & Hc); [zdm |].
    exists ((c :: r) ++ [d]). rewrite <- app_assoc. split; [done |]. rewrite decimal_app, Dv.
    split; [unfold d; zdm |]. split; [by apply Forall_app; split; [| constructor] |]. by exists c, (r ++ [d]).
Qed.

Lemma digits_of_spec n v :
  (0 < n)%nat → 0 ≤ v < 10 ^ Z.of_nat n → let ds := digits_of n v in
  decimal ds = v ∧ Forall is_digit ds ∧ ds ≠ [] ∧ (ds = [48] ∨ ∃ c r, ds = c :: r ∧ c ≠ 48).
Proof.
  intros Hn Hv. cbn zeta. unfold digits_of. destruct (Z.eqb_spec v 0) as [-> |].
  - split_and!; [done | by repeat constructor | done | by left].
  - destruct (store_digits_spec n v []) as (ds & -> & D & F & c & r & -> & Hc); [lia |].
    rewrite app_nil_r. split_and!; try done. right. by exists c, r.
Qed.

(** ** Dotted notation *)
Definition octet (ip k : Z) : Z := Z.land (Z.shiftr ip k) 0xFF.
Definition dotted (ip : Z) : list Z :=
  digits_of 16 (octet ip 24) ++ 46 :: digits_of 16 (octet ip 16) ++ 46 ::
  digits_of 16 (octet ip 8) ++ 46 :: digits_of 16 (octet ip 0).

Lemma octet_eq ip k : 0 ≤ k → octet ip k = (ip / 2 ^ k) mod 256.
Proof.
  intros. unfold octet. rewrite Z.shiftr_div_pow2 by done. change 0xFF with (Z.ones 8).
  by rewrite Z.land_ones.
Qed.

Lemma append_all max t b b' : extends max t b b' → zlen b + zlen t < max → b' = b ++ t.
Proof. intros (n & -> & _ & F) H. by rewrite F. Qed.

Lemma append_ip_text max ip b :
  zlen b + zlen (dotted ip) < max → append_ip max ip b = b ++ dotted ip.
Proof.
  unfold append_ip, dotted. change (Z.land ip 0xFF) with (octet ip 0). fold (octet ip 24) (octet ip 16) (octet ip 8).
  set (d3 := digits_of 16 (octet ip 24)). set (d2 := digits_of 16 (octet ip 16)).
  set (d1 := digits_of 16 (octet ip 8)). set (d0 := digits_of 16 (octet ip 0)).
  repeat rewrite ?zlen_app, ?zlen_cons. intros Hm.
  pose proof (zlen_nonneg d3). pose proof (zlen_nonneg d2). pose proof (zlen_nonneg d1). pose proof (zlen_nonneg d0).
  rewrite !append_str_tmp by (constructor; [lia | constructor]). unfold append_u32. fold d3 d2 d1 d0.
  assert (zlen [46] = 1) as H46 by done.
  rewrite (append_all _ _ _ _ (append_tmp_ext max d3 (b))) by (rewrite ?zlen_app; lia).
  rewrite (append_all _ _ _ _ (append_tmp_ext max [46] (b ++ d3))) by (rewrite ?zlen_app; lia).
  rewrite (append_all _ _ _ _ (append_tmp_ext max d2 ((b ++ d3) ++ [46]))) by (rewrite ?zlen_app; lia).
  rewrite (append_all _ _ _ _ (append_tmp_ext max [46] (((b ++ d3) ++ [46]) ++ d2))) by (rewrite ?zlen_app; lia).
  rewrite (append_all _ _ _ _ (append_tmp_ext max d1 ((((b ++ d3) ++ [46]) ++ d2) ++ [46]))) by (rewrite ?zlen_app; lia).
  rewrite (append_all _ _ _ _ (append_tmp_ext max [46] (((((b ++ d3) ++ [46]) ++ d2) ++ [46]) ++ d1))) by (rewrite ?zlen_app; lia).
  rewrite (append_all _ _ _ _ (append_tmp_ext max d0 ((((((b ++ d3) ++ [46]) ++ d2) ++ [46]) ++ d1) ++ [46]))) by (rewrite ?zlen_app; lia).
  by rewrite <- !app_assoc.
Qed.

(** Reading digits that stay below 256. *)
Lemma parse_part_digits ds s v :
  Forall is_digit ds → 0 ≤ v → foldl (λ a c, 10 * a + (c - 48)) v ds ≤ 255 →
  (∀ c r, s = c :: r → ¬ is_digit c) →
  parse_part (ds ++ s) v = Some (foldl (λ a c, 10 * a + (c - 48)) v ds, s).
Proof.
  intros Hd Hv Hle Hs. revert v Hv Hle. induction Hd as [| c ds Hc Hds IH]; intros v Hv Hle; cbn [app foldl].
  - destruct s as [| c r]; [done |]. cbn [parse_part]. specialize (Hs c r eq_refl). unfold is_digit in Hs.
    replace ((48 <=? c) && (c <=? 57)) with false by lia. done.
  - cbn [parse_part]. unfold is_digit in Hc. replace ((48 <=? c) && (c <=? 57)) with true by lia.
    cbn [foldl] in Hle. assert (∀ l a, Forall is_digit l → 0 ≤ a → a ≤ foldl (λ a c, 10 * a + (c - 48)) a l) as Hmono.
    { clear. intros l a Hl. revert a. induction Hl as [| c l Hc _ IH]; intros a Ha; cbn [foldl]; [lia |].
      unfold is_digit in Hc. etransitivity; [| apply IH; lia]. lia. }
    pose proof (Hmono ds (10 * v + (c - 48)) Hds ltac:(lia)) as Hm.
    rewrite (u32_small (v * 10)), u32_small by lia. replace (255 <? v * 10 + (c - 48)) with false by lia.
    replace (v * 10 + (c - 48)) with (10 * v + (c - 48)) by lia. apply IH; [lia | done].
Qed.

Lemma ip_part_digits v s :
  0 ≤ v ≤ 255 → (∀ c r, s = c :: r → ¬ is_digit c) → ip_part (digits_of 16 v ++ s) = Some (v, s).
Proof.
  intros Hv Hs. destruct (digits_of_spec 16 v ltac:(lia) ltac:(lia)) as (D & F & N & _). cbn zeta in *.
  destruct (digits_of 16 v) as [| c ds] eqn:E; [done |]. cbn [app ip_part].
  apply Forall_cons in F as Hc. destruct Hc as [Hc _]. unfold is_digit in Hc. replace (c =? 0) with false by lia.
  change (c :: ds ++ s) with ((c :: ds) ++ s). unfold decimal in D.
  rewrite parse_part_digits; [by rewrite D | done | lia | lia | done].
Qed.

Lemma parse_dotted ip s :
  0 ≤ ip < 2 ^ 32 → (∀ c r, s = c :: r → ¬ is_digit c) → net_parse_ipv4 (dotted ip ++ s) = ip.
Proof.
  intros Hip Hs. assert (∀ k, 0 ≤ k → 0 ≤ octet ip k ≤ 255) as Ho
    by (intros k Hk; rewrite octet_eq by done; pose proof (Z.mod_pos_bound (ip / 2 ^ k) 256); lia).
  assert (∀ r c t, 46 :: r = c :: t → ¬ is_digit c) as Hdot by (intros ??? [= <- _]; unfold is_digit; lia).
  assert (parse_parts (dotted ip ++ s) = Some (octet ip 24, octet ip 16, octet ip 8, octet ip 0)) as P.
  { unfold parse_parts, dotted. rewrite <- app_assoc, ip_part_digits by (first [apply Ho; lia | apply Hdot | exact Hs]). cbn.
    rewrite <- app_assoc, ip_part_digits by (first [apply Ho; lia | apply Hdot | exact Hs]). cbn.
    rewrite <- app_assoc, ip_part_digits by (first [apply Ho; lia | apply Hdot | exact Hs]). cbn.
    rewrite ip_part_digits by (first [apply Ho; lia | apply Hdot | exact Hs]). done. }
  unfold net_parse_ipv4. rewrite P. rewrite !Z.shiftl_mul_pow2 by lia.
  pose proof (Ho 24 ltac:(lia)). pose proof (Ho 16 ltac:(lia)). pose proof (Ho 8 ltac:(lia)). pose proof (Ho 0 ltac:(lia)).
  rewrite !u32_small by lia.
  set (a := octet ip 24) in *. set (b := octet ip 16) in *. set (c := octet ip 8) in *. set (d := octet ip 0) in *.
  rewrite (Z.lor_comm (a * 2 ^ 24)), (lor_disjoint_add (b * 2 ^ 16) a 24) by lia.
  replace (b * 2 ^ 16 + a * 2 ^ 24) with ((b + a * 2 ^ 8) * 2 ^ 16) by lia.
  rewrite (Z.lor_comm _ (c * 2 ^ 8)), (lor_disjoint_add (c * 2 ^ 8) _ 16) by lia.
  replace (c * 2 ^ 8 + (b + a * 2 ^ 8) * 2 ^ 16) with ((c + (b + a * 2 ^ 8) * 2 ^ 8) * 2 ^ 8) by lia.
  rewrite (Z.lor_comm _ d), (lor_disjoint_add d _ 8) by lia.
  unfold a, b, c, d. rewrite !octet_eq by lia. zdm.
Qed.

(** ** Properties *)

(** [net_parse_ipv4] reads back what [append_ip] prints: for every 32-bit
    address and a buffer with room for it, the text appended is a dotted quad
    that parses to the address, whatever other than a digit follows. *)
Theorem ipv4_text_roundtrip max ip b s :
  0 ≤ ip < 2 ^ 32 → zlen b + 15 < max → (∀ c r, s = c :: r → ¬ is_digit c) →
  ∃ t, append_ip max ip b = b ++ t ∧ zlen t ≤ 15 ∧ net_parse_ipv4 (t ++ s) = ip.
Proof.
  intros Hip Hm Hs. assert (zlen (dotted ip) ≤ 15) as Hl.
  { assert (∀ k, 0 ≤ k → zlen (digits_of 16 (octet ip k)) ≤ 3) as H3.
    { intros k Hk. rewrite octet_eq by done. pose proof (Z.mod_pos_bound (ip / 2 ^ k) 256 ltac:(lia)) as Hr.
      set (v := (ip / 2 ^ k) mod 256) in *. clearbody v. assert (v ∈ seqZ 0 256) as Hv by (apply elem_of_seqZ; lia).
      assert (Forall (λ v, zlen (digits_of 16 v) ≤ 3) (seqZ 0 256)) as HF
        by (apply (bool_decide_unpack _); by vm_compute).
      by rewrite Forall_forall in HF; apply HF. }
    unfold dotted. rewrite !zlen_app, !zlen_cons, !zlen_app, !zlen_cons, !zlen_app, !zlen_cons.
    pose proof (H3 24 ltac:(lia)). pose proof (H3 16 ltac:(lia)). pose proof (H3 8 ltac:(lia)). pose proof (H3 0 ltac:(lia)). lia. }
  exists (dotted ip). split; [apply append_ip_text; lia |]. split; [done |]. by apply parse_dotted.
Qed.

(** [append_u64] writes the decimal notation of any 64-bit number: digits
    only, no leading zero, and the number is their value; the 24 characters of
    [tmp] are enough.  A buffer that is too small receives a prefix of it and
    is never filled up to [max]. *)
Theorem append_u64_decimal max v b :
  0 ≤ v < 2 ^ 64 → zlen b < max →
  ∃ ds, decimal ds = v ∧ Forall is_digit ds ∧ (ds = [48] ∨ ∃ c r, ds = c :: r ∧ c ≠ 48) ∧
    (∃ n, append_u64 max v b = b ++ take n ds) ∧ zlen (append_u64 max v b) < max ∧
    (zlen b + zlen ds < max → append_u64 max v b = b ++ ds).
Proof.
  intros Hv Hb. destruct (digits_of_spec 24 v ltac:(lia)) as (D & F & _ & Z0).
  { split; [lia |]. etransitivity; [apply Hv |]. by vm_compute. }
  exists (digits_of 24 v). destruct (append_tmp_ext max (digits_of 24 v) b) as (n & E & L & A).
  split_and!; try done; [by exists n | by apply L |]. intros Hf. unfold append_u64. by rewrite E, A.
Qed.

(** ** Witnesses *)
Lemma ipv4_text_roundtrip_witness :
  ∃ t, append_ip 64 0x0A00020F [] = [] ++ t ∧ zlen t ≤ 15 ∧ net_parse_ipv4 (t ++ [0]) = 0x0A00020F.
Proof.
  apply (ipv4_text_roundtrip 64 0x0A00020F [] [0]); [lia | by vm_compute |].
  intros c r [= <- _]. unfold is_digit. lia.
Defined.
Lemma append_u64_decimal_witness :
  append_u64 32 18446744073709551615 [] = [49; 56; 52; 52; 54; 55; 52; 52; 48; 55; 51; 55; 48; 57; 53; 53; 49; 54; 49; 53] ∧
  zlen (append_u64 32 18446744073709551615 []) < 32.
Proof.
  split; [reflexivity |].
  destruct (append_u64_decimal 32 18446744073709551615 []) as (ds & _ & _ & _ & _ & L & _); [lia | done | exact L].
Defined.

End Format.
