(* ===== verification/Clock.v ===== *)
(** * The interval timer and the real-time clock (kernel/drivers/time)

    The two bytes of the PIT divisor, the tick counter's busy wait, and the
    CMOS clock with its BCD/binary and 12/24-hour formats.  The chips are
    behind [PortIO]; waiting runs on fuel and [None] means that it did not
    end. *)
From S2P Require Import Prelude.
From S2P Require Import Ata.
Import Ata.

Module Clock.
Definition PIT_FREQUENCY : Z := 1193182.
Definition CMOS_ADDR : Z := 0x70.
Definition CMOS_DATA : Z := 0x71.

Record rtc_time_t := RtcTime {
  second : Z; minute : Z; hour : Z; day : Z; month : Z; year : Z; weekday : Z
}.

Definition bcd_to_bin (bcd : Z) : Z := u8 (Z.shiftr bcd 4 * 10 + Z.land bcd 0x0F).

Section Chips.
Context {hw : Type} `{PortIO hw}.

(** [None]: division by zero. *)
Definition timer_phase (hz : Z) (d : hw) : option hw :=
  if hz =? 0 then None else
  let divisor := PIT_FREQUENCY / hz in
  let d := outb 0x43 0x36 d in
  let d := outb 0x40 (Z.land divisor 0xFF) d in
  Some (outb 0x40 (Z.land (Z.shiftr divisor 8) 0xFF) d).
(** The tick counter and the chip after [timer_init]. *)
Definition timer_init (frequency : Z) (d : hw) : option (Z * hw) := d ← timer_phase frequency d; Some (0, d).

(** [timer_wait]: the counter when the wait ends.  [hlt] is the value of the
    counter after the next interrupt. *)
Definition timer_wait (fuel : Z) (hlt : Z → Z) (ticks now : Z) : option Z :=
  let end_tick := u32 (now + ticks) in
  match iterZ fuel (λ t, if t <? end_tick then inl (hlt t) else inr t) now with
  | inr t => Some t
  | inl _ => None
  end.

Definition cmos_read (reg : Z) (d : hw) : Z * hw :=
  let '(v, d) := inb CMOS_DATA (outb CMOS_ADDR reg d) in (u8 v, d).
Definition cmos_updating (d : hw) : bool * hw :=
  let '(v, d) := inb CMOS_DATA (outb CMOS_ADDR 0x0A d) in (negb (Z.land (u8 v) 0x80 =? 0), d).

(** [while (cmos_updating());] *)
Definition wait_update (fuel : Z) (d : hw) : option hw :=
  match iterZ fuel (λ d, let '(b, d) := cmos_updating d in if b : bool then inl d else inr d) d with
  | inr d => Some d
  | inl _ => None
  end.

Definition rtc_read (fuel : Z) (d : hw) : option (rtc_time_t * hw) :=
  d ← wait_update fuel d;
  let '(sec, d) := cmos_read 0x00 d in
  let '(min, d) := cmos_read 0x02 d in
  let '(hour, d) := cmos_read 0x04 d in
  let '(day, d) := cmos_read 0x07 d in
  let '(mon, d) := cmos_read 0x08 d in
  let '(year, d) := cmos_read 0x09 d in
  let '(wday, d) := cmos_read 0x06 d in
  let '(regb, d) := cmos_read 0x0B d in
  let bcd := Z.land regb 0x04 =? 0 in
  let conv v := if bcd then bcd_to_bin v else v in
  let hour := if bcd then bcd_to_bin (Z.land hour 0x7F) else hour in
  let '(hour, d) :=
    if Z.land regb 0x02 =? 0 then
      let '(h, d) := cmos_read 0x04 d in
      (if Z.land h 0x80 =? 0 then hour else (Z.land hour 0x7F + 12) mod 24, d)
    else (hour, d) in
  Some (RtcTime (conv sec) (conv min) hour (conv day) (conv mon) (2000 + conv year) (conv wday), d).
End Chips.

(** ** A clock chip that holds a given time *)
Definition bin_to_bcd (v : Z) : Z := 16 * (v / 10) + v mod 10.
(** The data mode (register B, bit 2) and the hour mode (bit 1). *)
Record rtc_mode := RtcMode { binary : bool; hours24 : bool }.
Definition enc (m : rtc_mode) (v : Z) : Z := if binary m then v else bin_to_bcd v.
(** The hour register: 24-hour, or 1 to 12 with bit 7 set after noon. *)
Definition enc_hour (m : rtc_mode) (h : Z) : Z :=
  if hours24 m then enc m h
  else Z.lor (enc m (if h mod 12 =? 0 then 12 else h mod 12)) (if 12 <=? h then 0x80 else 0).
Definition regb_of (m : rtc_mode) : Z := Z.lor (if binary m then 4 else 0) (if hours24 m then 2 else 0).

Record cmos := Cmos { index : Z; held : rtc_time_t; mode : rtc_mode }.
Definition cmos_cell (c : cmos) : Z :=
  let t := held c in let m := mode c in
  if index c =? 0x00 then enc m (second t) else if index c =? 0x02 then enc m (minute t)
  else if index c =? 0x04 then enc_hour m (hour t) else if index c =? 0x06 then enc m (weekday t)
  else if index c =? 0x07 then enc m (day t) else if index c =? 0x08 then enc m (month t)
  else if index c =? 0x09 then enc m (year t - 2000) else if index c =? 0x0B then regb_of m else 0.
#[export] Instance cmos_port : PortIO cmos := {|
  inb := λ p c, (if p =? CMOS_DATA then cmos_cell c else 0, c);
  inw := λ _ c, (0, c);
  outb := λ p v c, if p =? CMOS_ADDR then Cmos v (held c) (mode c) else c;
  outw := λ _ _ c, c
|}.

Definition valid_time (t : rtc_time_t) : Prop :=
  0 ≤ second t < 60 ∧ 0 ≤ minute t < 60 ∧ 0 ≤ hour t < 24 ∧ 1 ≤ day t ≤ 31 ∧ 1 ≤ month t ≤ 12 ∧
  2000 ≤ year t < 2100 ∧ 1 ≤ weekday t ≤ 7.

(** The hour [rtc_read] reports: exact in 24-hour mode; in 12-hour mode noon
    reads as 0 and midnight as 12. *)
Definition reported_hour (m : rtc_mode) (h : Z) : Z :=
  if hours24 m then h else if h =? 12 then 0 else if h =? 0 then 12 else h.

Lemma below_100 (P : Z → bool) : forallb P (seqZ 0 100) = true → ∀ v, 0 ≤ v < 100 → P v = true.
Proof.
  intros F v Hv. rewrite forallb_forall in F. apply F. apply list_elem_of_In, elem_of_seqZ. lia.
Qed.
Lemma enc_byte m v : 0 ≤ v < 100 → u8 (enc m v) = enc m v.
Proof. intros Hv. apply u8_small. unfold enc, bin_to_bcd. destruct (binary m); zdm. Qed.
Lemma enc_dec m v : 0 ≤ v < 100 → (if negb (binary m) then bcd_to_bin (enc m v) else enc m v) = v.
Proof.
  intros Hv. unfold enc. destruct (binary m); cbn [negb]; [done |]. apply Z.eqb_eq.
  by apply (below_100 (λ v, bcd_to_bin (bin_to_bcd v) =? v)).
Qed.
(** The hour's way through the two conversions. *)
Definition read_hour (m : rtc_mode) (h : Z) : Z :=
  let r := u8 (enc_hour m h) in
  let h1 := if negb (binary m) then bcd_to_bin (Z.land r 0x7F) else r in
  if negb (hours24 m) then if Z.land r 0x80 =? 0 then h1 else (Z.land h1 0x7F + 12) mod 24 else h1.
Lemma hour_dec m h : 0 ≤ h < 24 → read_hour m h = reported_hour m h.
Proof.
  intros Hh. apply Z.eqb_eq. destruct m as [b a].
  assert (forallb (λ h, (24 <=? h) || (read_hour (RtcMode b a) h =? reported_hour (RtcMode b a) h)) (seqZ 0 100) = true) as F
    by (destruct b, a; by vm_compute).
  pose proof (below_100 _ F h ltac:(lia)) as E. cbn beta in E. by replace (24 <=? h) with false in E by lia.
Qed.

(** ** Properties *)

(** [rtc_read] decodes the chip's registers: for any valid time in either
    data mode it reports every field exactly, and the hour exactly in 24-hour
    mode; in 12-hour mode 1 to 11 and 13 to 23 are exact, noon is reported as
    0 and midnight as 12. *)
Theorem rtc_read_correct t m i fuel :
  0 < fuel → valid_time t →
  ∃ c, rtc_read fuel (Cmos i t m) =
    Some (RtcTime (second t) (minute t) (reported_hour m (hour t)) (day t) (month t) (year t) (weekday t), c).
Proof.
  intros Hf (Hs & Hm & Hh & Hd & Hmo & Hy & Hw). unfold rtc_read, wait_update. rewrite iterZ_step by done.
  cbn -[u8 bcd_to_bin enc enc_hour regb_of Z.land Z.modulo Z.add].
  replace (negb (Z.land (u8 0) 128 =? 0)) with false by done.
  cbn -[u8 bcd_to_bin enc enc_hour regb_of Z.land Z.modulo Z.add]. rewrite !enc_byte by lia.
  assert ((Z.land (u8 (regb_of m)) 4 =? 0) = negb (binary m)) as -> by (by destruct m as [[] []]).
  assert ((Z.land (u8 (regb_of m)) 2 =? 0) = negb (hours24 m)) as -> by (by destruct m as [[] []]).
  rewrite !enc_dec by lia. pose proof (hour_dec m (hour t) Hh) as HH. unfold read_hour in HH. cbn zeta in HH.
  replace (2000 + (year t - 2000)) with (year t) by lia.
  destruct (negb (hours24 m)); rewrite HH; eexists; reflexivity.
Qed.

(** ** Witnesses *)
Definition demo_time : rtc_time_t := RtcTime 59 30 12 31 12 2026 4.
Lemma rtc_read_correct_witness :
  ∃ c, rtc_read 1 (Cmos 0 demo_time (RtcMode false false)) = Some (RtcTime 59 30 0 31 12 2026 4, c).
Proof. apply (rtc_read_correct demo_time (RtcMode false false) 0 1); [lia | by vm_compute]. Defined.

End Clock.
