(* ===== verification/Packet.v ===== *)
(** * Packet buffers and the Internet checksum (kernel/net/net.c)

    A stack or static array is a list of bytes.  An access outside of it has
    no result ([None]), so a theorem that an operation has a result is a
    theorem that it stays inside its arrays.  [checksum] is related to the
    ones'-complement sum of RFC 1071. *)
From S2P Require Import Prelude.

Module Packet.

(** ** Accesses *)
Definition rd8 (b : list Z) (i : Z) : option Z := if (0 <=? i) && (i <? zlen b) then Some b.[i] else None.
Definition slice (b : list Z) (off n : Z) : option (list Z) :=
  if (0 <=? off) && (0 <=? n) && (off + n <=? zlen b) then Some (take (Z.to_nat n) (drop (Z.to_nat off) b)) else None.
Definition blit (b : list Z) (off : Z) (bs : list Z) : option (list Z) :=
  if (0 <=? off) && (off + zlen bs <=? zlen b) then Some (ablit b off bs) else None.
(** [*(uint16_t* )(b + off)], [*(uint32_t* )(b + off)] on a little-endian CPU *)
Definition load16 (b : list Z) (off : Z) : option Z := l ← slice b off 2; Some (le_read 2 (aget l) 0).
Definition load32 (b : list Z) (off : Z) : option Z := l ← slice b off 4; Some (le_read 4 (aget l) 0).
Definition store16 (b : list Z) (off v : Z) : option (list Z) := blit b off (le_bytes 2 v).
Definition store32 (b : list Z) (off v : Z) : option (list Z) := blit b off (le_bytes 4 v).
(** [memcpy(dst + doff, src + soff, n)] *)
Definition copy (dst : list Z) (doff : Z) (src : list Z) (soff n : Z) : option (list Z) :=
  l ← slice src soff n; blit dst doff l.

Definition bswap16 (v : Z) : Z := u16 (Z.lor (Z.shiftl v 8) (Z.shiftr v 8)).
Definition bswap32 (v : Z) : Z :=
  Z.lor (Z.lor (Z.lor (u32 (Z.shiftl (Z.land v 0x000000FF) 24)) (u32 (Z.shiftl (Z.land v 0x0000FF00) 8)))
    (Z.shiftr (Z.land v 0x00FF0000) 8)) (Z.shiftr (Z.land v 0xFF000000) 24).

(** ** The checksum *)
Fixpoint sum_words (p : list Z) (sum : Z) : Z :=
  match p with
  | a :: b :: r => sum_words r (u32 (sum + u16 (Z.lor (Z.shiftl a 8) b)))
  | [a] => u32 (sum + u16 (Z.shiftl a 8))
  | [] => sum
  end.
(** [while (sum >> 16) sum = (sum & 0xFFFF) + (sum >> 16)], at most [n] rounds. *)
Fixpoint fold_carry (n : nat) (sum : Z) : Z :=
  match n with
  | O => sum
  | S n' => if Z.shiftr sum 16 =? 0 then sum else fold_carry n' (u32 (Z.land sum 0xFFFF + Z.shiftr sum 16))
  end.
Definition checksum (data : list Z) : Z := u16 (Z.lnot (fold_carry 2 (sum_words data 0))).
(** [checksum(b + off, len)] *)
Definition checksum_at (b : list Z) (off len : Z) : option Z := l ← slice b off len; Some (checksum l).

(** ** Lemmas on accesses *)
Lemma rd8_some b i : 0 ≤ i < zlen b → rd8 b i = Some b.[i].
Proof. intros. unfold rd8. by replace ((0 <=? i) && (i <? zlen b)) with true by lia. Qed.
Lemma slice_some b off n :
  0 ≤ off → 0 ≤ n → off + n ≤ zlen b → slice b off n = Some (take (Z.to_nat n) (drop (Z.to_nat off) b)).
Proof. intros. unfold slice. by replace ((0 <=? off) && (0 <=? n) && (off + n <=? zlen b)) with true by lia. Qed.
Lemma slice_zlen b off n l : slice b off n = Some l → zlen l = n ∧ 0 ≤ off ∧ off + n ≤ zlen b.
Proof. unfold slice. case_match eqn:E; [| done]. intros [= <-]. rewrite zlen_take, zlen_drop. lia. Qed.
Lemma slice_aget b off n l i : slice b off n = Some l → 0 ≤ i < n → l.[i] = b.[off + i].
Proof.
  unfold slice. case_match eqn:E; [| done]. intros [= <-] Hi.
  rewrite aget_take, aget_drop by lia. f_equal. lia.
Qed.
Lemma blit_some b off bs : 0 ≤ off → off + zlen bs ≤ zlen b → blit b off bs = Some (ablit b off bs).
Proof. intros. unfold blit. by replace ((0 <=? off) && (off + zlen bs <=? zlen b)) with true by lia. Qed.
Lemma blit_zlen b off bs b' : blit b off bs = Some b' → zlen b' = zlen b.
Proof. unfold blit. case_match; [| done]. intros [= <-]. apply zlen_ablit. Qed.

Lemma slice_ok b off n : 0 ≤ off → 0 ≤ n → off + n ≤ zlen b → ∃ l, slice b off n = Some l ∧ zlen l = n.
Proof. intros. eexists. split; [by apply slice_some |]. rewrite zlen_take, zlen_drop. lia. Qed.
Lemma blit_ok b off bs : 0 ≤ off → off + zlen bs ≤ zlen b → ∃ b', blit b off bs = Some b' ∧ zlen b' = zlen b.
Proof. intros. eexists. split; [by apply blit_some | apply zlen_ablit]. Qed.
Lemma load16_ok b off : 0 ≤ off → off + 2 ≤ zlen b → ∃ v, load16 b off = Some v.
Proof. intros. unfold load16. rewrite slice_some by lia. cbn. eauto. Qed.
Lemma load32_ok b off : 0 ≤ off → off + 4 ≤ zlen b → ∃ v, load32 b off = Some v.
Proof. intros. unfold load32. rewrite slice_some by lia. cbn. eauto. Qed.
Lemma zlen_le_bytes n v : zlen (le_bytes n v) = Z.of_nat n.
Proof. unfold zlen. by rewrite length_le_bytes. Qed.
Lemma store16_ok b off v : 0 ≤ off → off + 2 ≤ zlen b → ∃ b', store16 b off v = Some b' ∧ zlen b' = zlen b.
Proof. intros. apply blit_ok; [done |]. rewrite zlen_le_bytes. lia. Qed.
Lemma store32_ok b off v : 0 ≤ off → off + 4 ≤ zlen b → ∃ b', store32 b off v = Some b' ∧ zlen b' = zlen b.
Proof. intros. apply blit_ok; [done |]. rewrite zlen_le_bytes. lia. Qed.
Lemma copy_ok dst doff src soff n :
  0 ≤ doff → 0 ≤ soff → 0 ≤ n → doff + n ≤ zlen dst → soff + n ≤ zlen src →
  ∃ d, copy dst doff src soff n = Some d ∧ zlen d = zlen dst.
Proof.
  intros. unfold copy. destruct (slice_ok src soff n) as (l & -> & L); [done.. |]. cbn. apply blit_ok; lia.
Qed.
Lemma checksum_at_ok b off n : 0 ≤ off → 0 ≤ n → off + n ≤ zlen b → ∃ c, checksum_at b off n = Some c.
Proof. intros. unfold checksum_at. rewrite slice_some by lia. cbn. eauto. Qed.
Lemma rd8_ok b i : 0 ≤ i < zlen b → ∃ v, rd8 b i = Some v.
Proof. intros. rewrite rd8_some by done. eauto. Qed.

(** [16-bit swap] exchanges the two bytes. *)
Lemma bswap16_eq v : 0 ≤ v < 65536 → bswap16 v = 256 * (v mod 256) + v / 256.
Proof.
  intros Hv. unfold bswap16. rewrite Z.shiftl_mul_pow2, Z.shiftr_div_pow2 by lia.
  rewrite Z.lor_comm, (lor_disjoint_add (v / 2 ^ 8) v 8) by zdm. change (2 ^ 8) with 256. ulia.
Qed.
Lemma bswap16_invol v : 0 ≤ v < 65536 → bswap16 (bswap16 v) = v.
Proof. intros Hv. rewrite (bswap16_eq v) by done. rewrite bswap16_eq by zdm. zdm. Qed.

(** ** Ones'-complement arithmetic *)

(** The sum of the big-endian words, the last byte padded with a zero. *)
Fixpoint word_sum (p : list Z) : Z :=
  match p with
  | a :: b :: r => 256 * a + b + word_sum r
  | [a] => 256 * a
  | [] => 0
  end.
(** The representative of [s] modulo 65535 that end-around carries give. *)
Definition ones_sum (s : Z) : Z := if s =? 0 then 0 else (s - 1) mod 65535 + 1.

Lemma list_ind2 {A} (P : list A → Prop) :
  P [] → (∀ a, P [a]) → (∀ a b r, P r → P (a :: b :: r)) → ∀ l, P l.
Proof.
  intros H0 H1 H2. fix IH 1. intros [| a [| b r]]; [done | apply H1 |]. apply H2, IH.
Qed.

Lemma word_sum_range p : Forall is_byte p → 0 ≤ word_sum p ≤ 65535 * ((zlen p + 1) / 2).
Proof.
  induction p as [| a | a b r IH] using list_ind2; intros Hp; cbn [word_sum]; [done | |].
  - apply Forall_cons in Hp as [Ha _]. unfold is_byte in Ha. change (zlen [a]) with 1. zdm.
  - apply Forall_cons in Hp as [Ha Hp]. apply Forall_cons in Hp as [Hb Hp]. unfold is_byte in *.
    specialize (IH Hp). rewrite !zlen_cons.
    replace ((zlen r + 1 + 1 + 1) / 2) with ((zlen r + 1) / 2 + 1) by zdm. lia.
Qed.

Lemma be_word a b : is_byte a → is_byte b → u16 (Z.lor (Z.shiftl a 8) b) = 256 * a + b.
Proof.
  unfold is_byte. intros Ha Hb. rewrite Z.shiftl_mul_pow2 by lia.
  rewrite Z.lor_comm, (lor_disjoint_add b a 8) by lia. rewrite u16_small by lia. lia.
Qed.

Lemma sum_words_spec p s :
  Forall is_byte p → 0 ≤ s → s + word_sum p < 2 ^ 32 → sum_words p s = s + word_sum p.
Proof.
  revert s. induction p as [| a | a b r IH] using list_ind2; intros s Hp Hs Hlt; cbn [sum_words word_sum] in *.
  - lia.
  - apply Forall_cons in Hp as [Ha _]. unfold is_byte in Ha.
    rewrite Z.shiftl_mul_pow2 by lia. rewrite u16_small, u32_small by lia. lia.
  - apply Forall_cons in Hp as [Ha Hp]. apply Forall_cons in Hp as [Hb Hp].
    rewrite be_word by done. pose proof (word_sum_range r Hp) as Hr. unfold is_byte in Ha, Hb.
    rewrite u32_small by lia. rewrite IH by (done || lia). lia.
Qed.

(** One round keeps the residue and shrinks the sum. *)
Lemma fold_round s : 0 ≤ s < 2 ^ 32 → Z.land s 0xFFFF + Z.shiftr s 16 = s mod 65536 + s / 65536.
Proof.
  intros. change 0xFFFF with (Z.ones 16). rewrite Z.land_ones, Z.shiftr_div_pow2 by lia. done.
Qed.
Lemma fold_carry_spec s : 0 ≤ s < 2 ^ 32 → fold_carry 2 s = ones_sum s.
Proof.
  intros Hs. assert (∀ t, 0 ≤ t ≤ 65535 → ones_sum t = t) as Small
    by (intros t Ht; unfold ones_sum; destruct (Z.eqb_spec t 0); [lia |]; rewrite Z.mod_small; lia).
  assert (∀ t, 65536 ≤ t < 2 ^ 32 → ones_sum (t mod 65536 + t / 65536) = ones_sum t) as Round.
  { intros t Ht. unfold ones_sum. destruct (Z.eqb_spec (t mod 65536 + t / 65536) 0); [zdm |].
    destruct (Z.eqb_spec t 0); [lia |]. f_equal. symmetry.
    replace (t - 1) with (t mod 65536 + t / 65536 - 1 + (t / 65536) * 65535) by zdm. apply Z.mod_add. lia. }
  cbn [fold_carry]. rewrite (fold_round s) by lia. rewrite Z.shiftr_div_pow2 by lia. change (2 ^ 16) with 65536.
  destruct (Z.eqb_spec (s / 65536) 0) as [E | E]; [rewrite Small; [done | zdm] |].
  rewrite <- Round by zdm. set (t := s mod 65536 + s / 65536). assert (0 ≤ t ≤ 131070) as Ht by (unfold t; zdm).
  rewrite (u32_small t), (fold_round t) by lia. rewrite Z.shiftr_div_pow2 by lia. change (2 ^ 16) with 65536.
  destruct (Z.eqb_spec (t / 65536) 0) as [E' | E']; [rewrite Small; [done | zdm] |].
  rewrite <- Round by zdm. rewrite u32_small by zdm. symmetry. apply Small. zdm.
Qed.

Lemma ones_sum_range s : 0 ≤ s → 0 ≤ ones_sum s ≤ 65535.
Proof. intros. unfold ones_sum. destruct (s =? 0); [lia |]. pose proof (Z.mod_pos_bound (s - 1) 65535). lia. Qed.

Lemma checksum_spec p : Forall is_byte p → zlen p ≤ 65535 → checksum p = 65535 - ones_sum (word_sum p).
Proof.
  intros Hp Hl. pose proof (word_sum_range p Hp) as Hr.
  assert (word_sum p < 2 ^ 32) by (pose proof (zlen_nonneg p); zdm).
  unfold checksum. rewrite sum_words_spec, Z.add_0_l, fold_carry_spec by (done || lia).
  pose proof (ones_sum_range (word_sum p) ltac:(lia)). unfold Z.lnot. ulia.
Qed.

Lemma word_sum_app p r : Z.even (zlen p) = true → word_sum (p ++ r) = word_sum p + word_sum r.
Proof.
  induction p as [| a | a b p IH] using list_ind2; intros He; cbn [word_sum app]; [lia | done |].
  rewrite IH; [lia |]. rewrite !zlen_cons in He. replace (zlen p + 1 + 1) with (zlen p + 2) in He by lia.
  by rewrite Z.even_add_even in He by (by exists 1).
Qed.

(** What the checksum becomes when its zeroed field receives the word [w]. *)
Lemma checksum_field p r hi lo :
  Z.even (zlen p) = true → Forall is_byte (p ++ [0; 0] ++ r) → is_byte hi → is_byte lo →
  zlen (p ++ [0; 0] ++ r) ≤ 65535 →
  let c := checksum (p ++ [0; 0] ++ r) in
  0 ≤ c ≤ 65535 ∧ (checksum (p ++ [hi; lo] ++ r) = 0 ↔ 256 * hi + lo = c ∨ 256 * hi + lo = 65535 ∧ c = 0).
Proof.
  intros He Hb Hh Hlo Hl. cbn zeta.
  assert (Forall is_byte (p ++ [hi; lo] ++ r)) as Hb'.
  { rewrite !Forall_app in Hb |- *. destruct Hb as (? & _ & ?). split; [done |]. split; [fall | done]. }
  rewrite !checksum_spec by (done || (rewrite !zlen_app in *; done)).
  rewrite !(word_sum_app p) by done. cbn [app word_sum].
  rewrite !Forall_app in Hb. destruct Hb as (Hp & _ & Hr).
  pose proof (word_sum_range p Hp). pose proof (word_sum_range r Hr). unfold is_byte in *.
  set (s := word_sum p + (256 * 0 + 0 + word_sum r)).
  replace (word_sum p + (256 * hi + lo + word_sum r)) with (s + (256 * hi + lo)) by (unfold s; lia).
  set (w := 256 * hi + lo). assert (0 ≤ w ≤ 65535) by (unfold w; lia). assert (0 ≤ s) by (unfold s; lia).
  clearbody s w. split; [pose proof (ones_sum_range s); lia |].
  unfold ones_sum. destruct (Z.eqb_spec s 0), (Z.eqb_spec (s + w) 0); zdm.
Qed.

(** ** Properties *)

(** C28: [checksum] computes the Internet checksum: the complement of the
    ones'-complement sum of the big-endian 16-bit words, an odd last byte
    padded with zero; the 32-bit accumulator does not overflow for any
    packet length, and the carry loop ends after two rounds at most. *)
Theorem checksum_correct p :
  Forall is_byte p → zlen p ≤ 65535 →
  checksum p = 65535 - ones_sum (word_sum p) ∧
  Z.shiftr (fold_carry 2 (sum_words p 0)) 16 = 0.
Proof.
  intros Hp Hl. split; [by apply checksum_spec |]. pose proof (word_sum_range p Hp) as Hr.
  assert (word_sum p < 2 ^ 32) by (pose proof (zlen_nonneg p); zdm).
  rewrite sum_words_spec, Z.add_0_l, fold_carry_spec by (done || lia).
  rewrite Z.shiftr_div_pow2 by lia. pose proof (ones_sum_range (word_sum p) ltac:(lia)). zdm.
Qed.

(** A block whose checksum field holds the checksum in network byte order,
    computed with the field zero, passes the receiver's test
    [checksum(...) == 0]; the field may be anywhere at an even offset. *)
Theorem checksum_verifies p r :
  Z.even (zlen p) = true → Forall is_byte (p ++ [0; 0] ++ r) → zlen (p ++ [0; 0] ++ r) ≤ 65535 →
  let c := checksum (p ++ [0; 0] ++ r) in
  checksum (p ++ [c / 256; c mod 256] ++ r) = 0.
Proof.
  intros He Hb Hl. cbn zeta. set (c := checksum (p ++ [0; 0] ++ r)).
  assert (0 ≤ c < 65536) as Hc by (unfold c, checksum; apply u16_range).
  assert (is_byte (c / 256) ∧ is_byte (c mod 256)) as [H1 H2] by (unfold is_byte; zdm).
  apply (checksum_field p r _ _ He Hb H1 H2 Hl). left. fold c. zdm.
Qed.

(** Stored the way the senders store it, [*(uint16_t* )(h + 10) =
    checksum(h, n)], the field gets the two bytes in the wrong order: the
    block passes the receiver's test exactly when the two bytes are equal. *)
Theorem checksum_stored_swapped p r :
  Z.even (zlen p) = true → Forall is_byte (p ++ [0; 0] ++ r) → zlen (p ++ [0; 0] ++ r) ≤ 65535 →
  let c := checksum (p ++ [0; 0] ++ r) in
  checksum (p ++ le_bytes 2 c ++ r) = 0 ↔ c / 256 = c mod 256.
Proof.
  intros He Hb Hl. cbn zeta. set (c := checksum (p ++ [0; 0] ++ r)).
  assert (0 ≤ c < 65536) as Hc by (unfold c, checksum; apply u16_range).
  assert (le_bytes 2 c = [c mod 256; c / 256]) as ->.
  { cbn [le_bytes]. unfold u8. do 2 f_equal. zdm. }
  assert (is_byte (c / 256) ∧ is_byte (c mod 256)) as [H1 H2] by (unfold is_byte; zdm).
  pose proof (checksum_field p r _ _ He Hb H2 H1 Hl) as [_ F]. fold c in F. rewrite F. zdm.
Qed.

(** ** Witnesses: the IP header of an echo request to 10.0.2.2. *)
Definition demo_head : list Z := [0x45; 0; 0; 44; 0; 0; 0; 0; 64; 1].
Definition demo_tail : list Z := [10; 0; 2; 15; 10; 0; 2; 2].
Lemma demo_bytes : Forall is_byte (demo_head ++ [0; 0] ++ demo_tail).
Proof. by repeat constructor. Qed.
Lemma checksum_correct_witness : checksum (demo_head ++ [0; 0] ++ demo_tail) = 65535 - ones_sum (word_sum (demo_head ++ [0; 0] ++ demo_tail)).
Proof. apply (checksum_correct (demo_head ++ [0; 0] ++ demo_tail)); [exact demo_bytes | by vm_compute]. Defined.
Lemma checksum_verifies_witness : checksum (demo_head ++ [0x62; 0xC1] ++ demo_tail) = 0.
Proof. apply (checksum_verifies demo_head demo_tail); [reflexivity | exact demo_bytes | by vm_compute]. Defined.
Lemma checksum_stored_swapped_witness : checksum (demo_head ++ le_bytes 2 (checksum (demo_head ++ [0; 0] ++ demo_tail)) ++ demo_tail) ≠ 0.
Proof.
  intros E. apply (checksum_stored_swapped demo_head demo_tail) in E; [by vm_compute in E | reflexivity | exact demo_bytes | by vm_compute].
Defined.

End Packet.
