(* ===== verification/Pci.v ===== *)
(** * The PCI bus (kernel/drivers/pci/pci.c)

    Configuration space is read through two 32-bit ports, the operations of
    the class [Port32].  The device table is a list with room for
    [PCI_MAX_DEVICES]; its length is [device_count]. *)
From S2P Require Import Prelude.

Module Pci.
Class Port32 (hw : Type) := {
  port_inl : Z → hw → Z * hw;
  port_outl : Z → Z → hw → hw
}.

Definition PCI_MAX_DEVICES : Z := 32.
Definition PCI_CONFIG_ADDRESS : Z := 0xCF8.
Definition PCI_CONFIG_DATA : Z := 0xCFC.

Record pci_device_t := PciDevice {
  bus : Z; slot : Z; function : Z;
  vendor_id : Z; device_id : Z;
  class_code : Z; subclass : Z; prog_if : Z; revision : Z;
  interrupt_line : Z;
  bar : list Z
}.
#[export] Instance pci_device_inhabited : Inhabited pci_device_t :=
  populate (PciDevice 0 0 0 0 0 0 0 0 0 0 (replicate 6 0)).

Definition config_address (b s f off : Z) : Z :=
  Z.lor (Z.lor (Z.lor (Z.lor (Z.shiftl 1 31) (Z.shiftl b 16)) (Z.shiftl s 11)) (Z.shiftl f 8)) (Z.land off 0xFC).

Section Scan.
Context {hw : Type} `{Port32 hw}.

Definition pci_config_read32 (b s f off : Z) (d : hw) : Z * hw :=
  let d := port_outl PCI_CONFIG_ADDRESS (config_address b s f off) d in
  let '(v, d) := port_inl PCI_CONFIG_DATA d in (u32 v, d).

(** [for (i = 0; i < 6; i++) d->bar[i] = ...] *)
Fixpoint read_bars (b s f i : Z) (n : nat) (d : hw) : list Z * hw :=
  match n with
  | O => ([], d)
  | S n' => let '(v, d) := pci_config_read32 b s f (u8 (0x10 + i * 4)) d in
            let '(vs, d) := read_bars b s f (i + 1) n' d in (v :: vs, d)
  end.

Definition pci_read_device (b s f : Z) (p : list pci_device_t * hw) : list pci_device_t * hw :=
  let '(devices, d) := p in
  if PCI_MAX_DEVICES <=? zlen devices then (devices, d) else
  let '(id, d) := pci_config_read32 b s f 0x00 d in
  let vendor := Z.land id 0xFFFF in
  if vendor =? 0xFFFF then (devices, d) else
  let '(classreg, d) := pci_config_read32 b s f 0x08 d in
  let '(line, d) := pci_config_read32 b s f 0x3C d in
  let '(bars, d) := read_bars b s f 0 6 d in
  (devices ++ [PciDevice b s f vendor (u16 (Z.shiftr id 16))
     (Z.land (Z.shiftr classreg 24) 0xFF) (Z.land (Z.shiftr classreg 16) 0xFF)
     (Z.land (Z.shiftr classreg 8) 0xFF) (Z.land classreg 0xFF) (Z.land line 0xFF) bars], d).

(** The body of the scan for one slot. *)
Definition scan_slot (b s : Z) (p : list pci_device_t * hw) : list pci_device_t * hw :=
  let '(devices, d) := p in
  let '(id, d) := pci_config_read32 b s 0 0x00 d in
  if Z.land id 0xFFFF =? 0xFFFF then (devices, d) else
  let '(header, d) := pci_config_read32 b s 0 0x0C d in
  let multi := Z.land (Z.shiftr header 16) 0x80 in
  let max_fn := if multi =? 0 then 1 else 8 in
  for_each 0 max_fn (λ fn p, pci_read_device b s fn p) (devices, d).

Definition pci_init (d : hw) : list pci_device_t * hw :=
  for_each 0 256 (λ b p, for_each 0 32 (λ s p, scan_slot b s p) p) ([], d).

(** The index of the first device of a class; [None] is the null pointer. *)
Definition pci_find_class (class sub : Z) (devices : list pci_device_t) : option Z :=
  match for_range 0 (zlen devices) (λ i (_ : unit),
    if (class_code devices.[i] =? class) && (subclass devices.[i] =? sub) then inr i else inl tt) tt with
  | inr i => Some i
  | inl _ => None
  end.
End Scan.

(** ** A machine whose configuration space does not change *)
Record static_pci := StaticPci { latch : Z; space : Z → Z }.
#[export] Instance static_port32 : Port32 static_pci := {|
  port_inl := λ p d, (if p =? PCI_CONFIG_DATA then space d (latch d) else 0, d);
  port_outl := λ p v d, if p =? PCI_CONFIG_ADDRESS then StaticPci v (space d) else d
|}.

(** What the configuration space says of one function. *)
Definition cfg (sp : Z → Z) (b s f off : Z) : Z := u32 (sp (config_address b s f off)).
Definition present (sp : Z → Z) (b s f : Z) : bool := negb (Z.land (cfg sp b s f 0x00) 0xFFFF =? 0xFFFF).
Definition describe (sp : Z → Z) (b s f : Z) : pci_device_t :=
  PciDevice b s f (Z.land (cfg sp b s f 0) 0xFFFF) (u16 (Z.shiftr (cfg sp b s f 0) 16))
    (Z.land (Z.shiftr (cfg sp b s f 8) 24) 0xFF) (Z.land (Z.shiftr (cfg sp b s f 8) 16) 0xFF)
    (Z.land (Z.shiftr (cfg sp b s f 8) 8) 0xFF) (Z.land (cfg sp b s f 8) 0xFF)
    (Z.land (cfg sp b s f 0x3C) 0xFF)
    [cfg sp b s f 0x10; cfg sp b s f 0x14; cfg sp b s f 0x18; cfg sp b s f 0x1C; cfg sp b s f 0x20; cfg sp b s f 0x24].
(** The functions of a slot, and of the machine, in the order of the scan. *)
Definition slot_functions (sp : Z → Z) (b s : Z) : list pci_device_t :=
  if negb (present sp b s 0) then [] else
  let max_fn := if Z.land (Z.shiftr (cfg sp b s 0 0x0C) 16) 0x80 =? 0 then 1 else 8 in
  seqZ 0 max_fn ≫= λ f, if present sp b s f then [describe sp b s f] else [].
Definition all_functions (sp : Z → Z) : list pci_device_t :=
  seqZ 0 256 ≫= λ b, seqZ 0 32 ≫= λ s, slot_functions sp b s.

Lemma config_read_static b s f off d :
  pci_config_read32 b s f off d = (cfg (space d) b s f off, StaticPci (config_address b s f off) (space d)).
Proof. done. Qed.

Definition cap (l : list pci_device_t) : list pci_device_t := take 32 l.
Lemma cap_app l1 l2 : cap (cap l1 ++ l2) = cap (l1 ++ l2).
Proof.
  unfold cap. destruct (decide (length l1 ≤ 32)%nat).
  - by rewrite (take_ge l1) by lia.
  - rewrite (take_app_le (take 32 l1)) by (rewrite length_take; lia). rewrite take_app_le by lia.
    rewrite take_take. by rewrite Nat.min_id.
Qed.

Lemma read_device_static sp b s f l d :
  space d = sp →
  ∃ d', space d' = sp ∧
    pci_read_device b s f (cap l, d) = (cap (l ++ if present sp b s f then [describe sp b s f] else []), d').
Proof.
  intros <-. unfold pci_read_device. rewrite <- (cap_app l). unfold PCI_MAX_DEVICES. destruct (Z.leb_spec 32 (zlen (cap l))) as [E | E].
  - exists d. split; [done |]. f_equal. unfold cap, zlen in *. rewrite take_app_le by lia. rewrite take_take. by rewrite Nat.min_id.
  - cbn [read_bars]. rewrite !config_read_static. cbn [space]. unfold present. fold (cfg (space d) b s f 0).
    destruct (Z.land (cfg (space d) b s f 0) 0xFFFF =? 0xFFFF); cbn [negb].
    + eexists. split; [| rewrite app_nil_r; unfold cap; rewrite take_take, Nat.min_id; reflexivity]. done.
    + eexists. split; [| rewrite ?config_read_static; cbn [space]; f_equal; unfold cap at 2;
        rewrite take_ge; [reflexivity |]]; [done |]. rewrite length_app. unfold zlen in E. cbn. lia.
Qed.

(** A sweep whose step appends what [g i] says. *)
Lemma sweep_static sp (g : Z → list pci_device_t) (step : Z → list pci_device_t * static_pci → list pci_device_t * static_pci) hi l d :
  0 ≤ hi → space d = sp →
  (∀ i l d, space d = sp → ∃ d', space d' = sp ∧ step i (cap l, d) = (cap (l ++ g i), d')) →
  ∃ d', space d' = sp ∧ for_each 0 hi step (cap l, d) = (cap (l ++ (seqZ 0 hi ≫= g)), d').
Proof.
  intros Hhi Hd Hstep.
  apply (for_each_inv_le (λ k p, ∃ d', space d' = sp ∧ p = (cap (l ++ (seqZ 0 k ≫= g)), d')) 0 hi); [done | |].
  - exists d. cbn. by rewrite app_nil_r.
  - intros i p Hi (d1 & Hd1 & ->). destruct (Hstep i (l ++ (seqZ 0 i ≫= g)) d1 Hd1) as (d2 & Hd2 & E).
    exists d2. split; [done |]. rewrite E, seqZ_app by lia. rewrite bind_app, app_assoc. do 3 f_equal.
    rewrite Z.add_0_l. change 1 with (Z.succ 0). rewrite seqZ_cons, seqZ_nil by lia. cbn. by rewrite app_nil_r.
Qed.

Lemma scan_slot_static sp b s l d :
  space d = sp → ∃ d', space d' = sp ∧ scan_slot b s (cap l, d) = (cap (l ++ slot_functions sp b s), d').
Proof.
  intros <-. unfold scan_slot, slot_functions. rewrite config_read_static. unfold present at 1.
  destruct (Z.land (cfg (space d) b s 0 0) 0xFFFF =? 0xFFFF); cbn [negb].
  - eexists. rewrite app_nil_r. split; [| reflexivity]. done.
  - rewrite config_read_static. cbn [space]. apply (sweep_static); [by case_match | done |].
    intros i l1 d1 H1. by apply read_device_static.
Qed.

(** ** Properties *)

(** The scan lists the functions of the bus: on a machine whose
    configuration space does not change, [pci_init] records, in bus order, the
    first 32 functions present (all eight functions of a multi-function
    device, function 0 only of the others), each with its fields, and
    [pci_find_class] returns the first of a class or null if there is none. *)
Theorem pci_init_lists_functions d class sub :
  let devices := (pci_init d).1 in
  devices = take 32 (all_functions (space d)) ∧
  match pci_find_class class sub devices with
  | Some i => 0 ≤ i < zlen devices ∧ class_code devices.[i] = class ∧ subclass devices.[i] = sub ∧
      ∀ j, 0 ≤ j < i → ¬ (class_code devices.[j] = class ∧ subclass devices.[j] = sub)
  | None => ∀ j, 0 ≤ j < zlen devices → ¬ (class_code devices.[j] = class ∧ subclass devices.[j] = sub)
  end.
Proof.
  cbn zeta. split.
  - unfold pci_init. destruct (sweep_static (space d) (λ b, seqZ 0 32 ≫= λ s, slot_functions (space d) b s)
      (λ b p, for_each 0 32 (λ s p, scan_slot b s p) p) 256 [] d ltac:(lia) eq_refl) as (d' & _ & E).
    + intros b l d1 H1. apply (sweep_static); [lia | done |].
      intros s l2 d2 H2. by apply scan_slot_static.
    + change (cap []) with (@nil pci_device_t) in E. by rewrite E.
  - generalize ((pci_init d).1) as l. intros l. unfold pci_find_class. set (body := λ (i : Z) (_ : ()), _).
    assert (match for_range 0 (zlen l) body tt with
      | inl _ => ∀ j, 0 ≤ j < Z.max 0 (zlen l) → ¬ (class_code l.[j] = class ∧ subclass l.[j] = sub)
      | inr i => 0 ≤ i < zlen l ∧ class_code l.[i] = class ∧ subclass l.[i] = sub ∧
          ∀ j, 0 ≤ j < i → ¬ (class_code l.[j] = class ∧ subclass l.[j] = sub) end) as F.
    { apply (for_range_inv (λ k _, ∀ j, 0 ≤ j < k → ¬ (class_code l.[j] = class ∧ subclass l.[j] = sub)));
        unfold body; [lia | |]; intros i t r Hi Hb E;
        destruct (Z.eqb_spec (class_code l.[i]) class), (Z.eqb_spec (subclass l.[i]) sub); simplify_eq/=; try done;
        intros j Hj; destruct (decide (j = i)) as [-> |]; (apply Hb; lia) || tauto. }
    pose proof (zlen_nonneg l). destruct (for_range 0 (zlen l) body tt); [| done].
    intros j Hj. apply F. lia.
Qed.

End Pci.
