(* ===== verification/Net.v ===== *)
(** * The network stack (kernel/net/net.c, include/net.h)

    The NE2000 driver and the ARP, IPv4, ICMP and UDP handlers above it, over
    the static variables of net.c.  The card and the timer interrupt are the
    class [NetEnv]: ports, and the tick counter as it stands when it is read.
    Operations are in the monad [nm]; [None] is an access outside an array.
    Uninitialised stack arrays hold the bytes of an arbitrary [junk].

    Pointer arguments are not null.  An interrupt handler runs to its end
    before the interrupted code goes on; a packet that arrives while
    [net_poll] runs outside the handler is not interleaved with it. *)
From S2P Require Import Prelude.
From S2P Require Import Ata.
From S2P Require Import Format.
From S2P Require Import Packet.
From S2P Require Import Pci.
Import Ata Format Packet.

Module Net.
Definition ETH_TYPE_ARP : Z := 0x0806.
Definition ETH_TYPE_IPV4 : Z := 0x0800.
Definition IP_PROTO_ICMP : Z := 1.
Definition IP_PROTO_UDP : Z := 17.
Definition NE_CR : Z := 0x00.
Definition NE_PSTART : Z := 0x01.
Definition NE_PSTOP : Z := 0x02.
Definition NE_BNRY : Z := 0x03.
Definition NE_TPSR : Z := 0x04.
Definition NE_TBCR0 : Z := 0x05.
Definition NE_ISR : Z := 0x07.
Definition NE_RSAR0 : Z := 0x08.
Definition NE_RBCR0 : Z := 0x0A.
Definition NE_RCR : Z := 0x0C.
Definition NE_TCR : Z := 0x0D.
Definition NE_DCR : Z := 0x0E.
Definition NE_IMR : Z := 0x0F.
Definition NE_DATA : Z := 0x10.
Definition NE_CURR : Z := 0x07.
Definition NE_RX_START : Z := 0x46.
Definition NE_RX_STOP : Z := 0x80.
Definition LOCAL_IP : Z := 0x0A00020F.
Definition ARP_TTL_TICKS : Z := 6000.
Definition PING_WAIT_SPINS : Z := 120000.

Inductive net_driver_t := NET_DRIVER_NONE | NET_DRIVER_NE2000 | NET_DRIVER_VIRTIO.
#[export] Instance net_driver_eq_dec : EqDecision net_driver_t.
Proof. solve_decision. Defined.

Record net_status_t := NetStatus {
  initialized : bool; driver : net_driver_t;
  s_vendor_id : Z; s_device_id : Z; s_bus : Z; s_slot : Z; s_function : Z; s_irq : Z;
  packets_rx : Z; packets_tx : Z; rx_errors : Z; dropped : Z; checksum_errors : Z; irq_count : Z;
  arp_entries : Z;
  last_ping_ip : Z; last_ping_ok : bool; last_ping_seq : Z;
  io_base : Z; mac : list Z
}.
Definition st_counts (rx tx re dr ce ic : Z) (s : net_status_t) : net_status_t :=
  NetStatus (initialized s) (driver s) (s_vendor_id s) (s_device_id s) (s_bus s) (s_slot s) (s_function s) (s_irq s)
    rx tx re dr ce ic (arp_entries s) (last_ping_ip s) (last_ping_ok s) (last_ping_seq s) (io_base s) (mac s).
Definition inc_rx (s : net_status_t) := st_counts (packets_rx s +32 1) (packets_tx s) (rx_errors s) (dropped s) (checksum_errors s) (irq_count s) s.
Definition inc_tx (s : net_status_t) := st_counts (packets_rx s) (packets_tx s +32 1) (rx_errors s) (dropped s) (checksum_errors s) (irq_count s) s.
Definition inc_rx_errors (s : net_status_t) := st_counts (packets_rx s) (packets_tx s) (rx_errors s +32 1) (dropped s) (checksum_errors s) (irq_count s) s.
Definition inc_dropped (s : net_status_t) := st_counts (packets_rx s) (packets_tx s) (rx_errors s) (dropped s +32 1) (checksum_errors s) (irq_count s) s.
Definition inc_checksum_errors (s : net_status_t) := st_counts (packets_rx s) (packets_tx s) (rx_errors s) (dropped s) (checksum_errors s +32 1) (irq_count s) s.
Definition inc_irq (s : net_status_t) := st_counts (packets_rx s) (packets_tx s) (rx_errors s) (dropped s) (checksum_errors s) (irq_count s +32 1) s.
Definition st_arp (n : Z) (s : net_status_t) : net_status_t :=
  NetStatus (initialized s) (driver s) (s_vendor_id s) (s_device_id s) (s_bus s) (s_slot s) (s_function s) (s_irq s)
    (packets_rx s) (packets_tx s) (rx_errors s) (dropped s) (checksum_errors s) (irq_count s)
    n (last_ping_ip s) (last_ping_ok s) (last_ping_seq s) (io_base s) (mac s).
Definition st_ping (ip : Z) (ok : bool) (seq : Z) (s : net_status_t) : net_status_t :=
  NetStatus (initialized s) (driver s) (s_vendor_id s) (s_device_id s) (s_bus s) (s_slot s) (s_function s) (s_irq s)
    (packets_rx s) (packets_tx s) (rx_errors s) (dropped s) (checksum_errors s) (irq_count s)
    (arp_entries s) ip ok seq (io_base s) (mac s).

Record arp_entry_t := ArpEntry { a_ip : Z; a_mac : list Z; updated : Z; a_valid : bool }.
#[export] Instance arp_entry_inhabited : Inhabited arp_entry_t := populate (ArpEntry 0 (replicate 6 0) 0 false).
Definition invalidate (e : arp_entry_t) : arp_entry_t := ArpEntry (a_ip e) (a_mac e) (updated e) false.

Record udp_packet_t := UdpPacket {
  src_ip : Z; src_port : Z; dst_port : Z; u_len : Z; u_data : list Z; u_valid : bool
}.

Class NetEnv (hw : Type) := {
  net_io :: PortIO hw;
  timer_ticks : hw → Z
}.

Definition net_driver_name (d : net_driver_t) : list Z :=
  match d with
  | NET_DRIVER_NE2000 => [78; 69; 50; 48; 48; 48]
  | NET_DRIVER_VIRTIO => [118; 105; 114; 116; 105; 111; 45; 110; 101; 116]
  | NET_DRIVER_NONE => [110; 111; 110; 101]
  end.
Definition is_ne2000 (vendor device : Z) : bool := (vendor =? 0x10EC) && (device =? 0x8029).
Definition is_virtio_net (vendor device : Z) : bool := (vendor =? 0x1AF4) && (0x1000 <=? device) && (device <=? 0x104F).
Definition io_base_from_bar (bar : Z) : Z := u16 (Z.land bar (u32 (Z.lnot 0x3))).

Section Stack.
Context {hw : Type} `{NetEnv hw}.
Variable junk : Z → Z.
Definition uninit (n : Z) : list Z := junk <$> seqZ 0 n.

Record net_state := NetState {
  status : net_status_t;
  arp_cache : list arp_entry_t;
  icmp_seq : Z;
  rx_boundary : Z;
  pending_ping_ip : Z;
  pending_ping_seq : Z;
  last_udp : udp_packet_t;
  dev : hw
}.
Definition set_status (f : net_status_t → net_status_t) (n : net_state) : net_state :=
  NetState (f (status n)) (arp_cache n) (icmp_seq n) (rx_boundary n) (pending_ping_ip n) (pending_ping_seq n) (last_udp n) (dev n).
Definition set_arp (c : list arp_entry_t) (n : net_state) : net_state :=
  NetState (status n) c (icmp_seq n) (rx_boundary n) (pending_ping_ip n) (pending_ping_seq n) (last_udp n) (dev n).
Definition set_boundary (b : Z) (n : net_state) : net_state :=
  NetState (status n) (arp_cache n) (icmp_seq n) b (pending_ping_ip n) (pending_ping_seq n) (last_udp n) (dev n).
Definition set_pending (ip seq : Z) (n : net_state) : net_state :=
  NetState (status n) (arp_cache n) seq (rx_boundary n) ip seq (last_udp n) (dev n).
Definition set_udp (u : udp_packet_t) (n : net_state) : net_state :=
  NetState (status n) (arp_cache n) (icmp_seq n) (rx_boundary n) (pending_ping_ip n) (pending_ping_seq n) u (dev n).
Definition set_dev (d : hw) (n : net_state) : net_state :=
  NetState (status n) (arp_cache n) (icmp_seq n) (rx_boundary n) (pending_ping_ip n) (pending_ping_seq n) (last_udp n) d.

(** ** The monad *)
Definition nm (A : Type) : Type := net_state → option (A * net_state).
#[export] Instance nm_ret : MRet nm := λ A a n, Some (a, n).
#[export] Instance nm_bind : MBind nm := λ A B f m n, '(a, n) ← m n; f a n.
Definition n_get {A} (f : net_state → A) : nm A := λ n, Some (f n, n).
Definition n_mod (f : net_state → net_state) : nm unit := λ n, Some (tt, f n).
Definition n_opt {A} (o : option A) : nm A := λ n, a ← o; Some (a, n).
Definition n_status (f : net_status_t → net_status_t) : nm unit := n_mod (set_status f).
(** Port accesses; the port is a [uint16_t]. *)
Definition n_out (port v : Z) : nm unit := n_mod (λ n, set_dev (outb (u16 port) v (dev n)) n).
Definition n_in (port : Z) : nm Z := λ n, let '(v, d) := inb (u16 port) (dev n) in Some (u8 v, set_dev d n).
Fixpoint n_outsw (port : Z) (ws : list Z) : nm unit :=
  match ws with
  | [] => mret tt
  | w :: ws' => n_mod (λ n, set_dev (outw (u16 port) w (dev n)) n) ;; n_outsw port ws'
  end.
Fixpoint n_inw (port : Z) (count : nat) : nm (list Z) :=
  match count with
  | O => mret []
  | S c => λ n, let '(w, d) := inw (u16 port) (dev n) in
                (ws ← n_inw port c; mret (u16 w :: ws)) (set_dev d n)
  end.
(** [insw(port, data + off, count)] *)
Definition n_insw (port : Z) (data : list Z) (off count : Z) : nm (list Z) :=
  ws ← n_inw port (Z.to_nat count);
  n_opt (blit data off (ws ≫= le_bytes 2)).

(** ** The driver *)
Definition ne2k_init (io : Z) : nm unit :=
  n_out (io + NE_CR) 0x21;;
  n_out (io + NE_DCR) 0x49;;
  n_out (io + NE_RBCR0) 0;;
  n_out (io + NE_RBCR0 + 1) 0;;
  n_out (io + NE_RCR) 0x20;;
  n_out (io + NE_TCR) 0x02;;
  n_mod (set_boundary NE_RX_START);;
  n_out (io + NE_PSTART) NE_RX_START;;
  n_out (io + NE_PSTOP) NE_RX_STOP;;
  b ← n_get rx_boundary;
  n_out (io + NE_BNRY) b;;
  n_out (io + NE_ISR) 0xFF;;
  n_out (io + NE_IMR) 0x1F;;
  n_out (io + NE_CR) 0x61;;
  n_out (io + NE_CURR) (NE_RX_START + 1);;
  m ← n_get (λ n, mac (status n));
  n_out (io + 0x01) m.[0];; n_out (io + 0x01 + 1) m.[1];; n_out (io + 0x01 + 2) m.[2];;
  n_out (io + 0x01 + 3) m.[3];; n_out (io + 0x01 + 4) m.[4];; n_out (io + 0x01 + 5) m.[5];;
  n_out (io + 0x08) 0;; n_out (io + 0x08 + 1) 0;; n_out (io + 0x08 + 2) 0;; n_out (io + 0x08 + 3) 0;;
  n_out (io + 0x08 + 4) 0;; n_out (io + 0x08 + 5) 0;; n_out (io + 0x08 + 6) 0;; n_out (io + 0x08 + 7) 0;;
  n_out (io + NE_CR) 0x22;;
  n_out (io + NE_TCR) 0x00;;
  n_out (io + NE_RCR) 0x04.

(** The status after [net_init] has recorded the class-2 device [d]. *)
Definition st_device (d : Pci.pci_device_t) (s : net_status_t) : net_status_t :=
  NetStatus (initialized s) (driver s) (Pci.vendor_id d) (Pci.device_id d) (Pci.bus d) (Pci.slot d) (Pci.function d)
    (Pci.interrupt_line d) (packets_rx s) (packets_tx s) (rx_errors s) (dropped s) (checksum_errors s) (irq_count s)
    (arp_entries s) (last_ping_ip s) (last_ping_ok s) (last_ping_seq s) (io_base s) (mac s).
Definition st_driver (dr : net_driver_t) (io : Z) (s : net_status_t) : net_status_t :=
  NetStatus (initialized s) dr (s_vendor_id s) (s_device_id s) (s_bus s) (s_slot s) (s_function s) (s_irq s)
    (packets_rx s) (packets_tx s) (rx_errors s) (dropped s) (checksum_errors s) (irq_count s)
    (arp_entries s) (last_ping_ip s) (last_ping_ok s) (last_ping_seq s) io (mac s).
Definition initial_status : net_status_t :=
  NetStatus true NET_DRIVER_NONE 0 0 0 0 0 0 0 0 0 0 0 0 0 0 false 0 0 [0x52; 0x54; 0x00; 0x12; 0x34; 0x56].

(** [if (status.irq == 10 || status.irq == 11) idt_unmask_irq(status.irq)];
    [idt_unmask_irq] is the parameter of [net_init]. *)
Definition unmask (idt_unmask_irq : Z → hw → hw) : nm unit :=
  irq ← n_get (λ n, s_irq (status n));
  if (irq =? 10) || (irq =? 11) then n_mod (λ n, set_dev (idt_unmask_irq irq (dev n)) n) else mret tt.

Fixpoint probe (idt_unmask_irq : Z → hw → hw) (devices : list Pci.pci_device_t) : nm unit :=
  match devices with
  | [] => mret tt
  | d :: rest =>
      if negb (Pci.class_code d =? 0x02) || negb (Pci.subclass d =? 0x00) then probe idt_unmask_irq rest else
      n_status (st_device d);;
      let io := io_base_from_bar (Pci.bar d).[0] in
      if is_ne2000 (Pci.vendor_id d) (Pci.device_id d) then
        n_status (st_driver NET_DRIVER_NE2000 io);; ne2k_init io;; unmask idt_unmask_irq
      else if is_virtio_net (Pci.vendor_id d) (Pci.device_id d) then
        n_status (st_driver NET_DRIVER_VIRTIO io);; unmask idt_unmask_irq
      else probe idt_unmask_irq rest
  end.
Definition net_init (idt_unmask_irq : Z → hw → hw) (devices : list Pci.pci_device_t) : nm unit :=
  n_status (λ _, initial_status);;
  n_mod (set_arp (replicate 8 (ArpEntry 0 (replicate 6 0) 0 false)));;
  probe idt_unmask_irq devices.

(** [net_arp_init] to [net_tcp_init] are the same test. *)
Definition net_proto_init : nm Z :=
  n_get (λ n, if decide (driver (status n) = NET_DRIVER_NONE) then -1 else 0).

(** [driver != NE2000 || !io_base] *)
Definition not_ready (n : net_state) : bool :=
  negb (bool_decide (driver (status n) = NET_DRIVER_NE2000)) || (io_base (status n) =? 0).

Definition net_send_packet (data : list Z) (len : Z) : nm Z :=
  bad ← n_get not_ready;
  if (len =? 0) || bad then mret (-1) else
  let out_len := if len <? 60 then 60 else len in
  frame ← n_opt (copy (replicate 1536 0) 0 data 0 len);
  io ← n_get (λ n, u16 (io_base (status n)));
  n_out (io + NE_ISR) 0x40;;
  n_out (io + NE_RBCR0) (Z.land out_len 0xFF);;
  n_out (io + NE_RBCR0 + 1) (u8 (Z.shiftr out_len 8));;
  n_out (io + NE_RSAR0) 0x00;;
  n_out (io + NE_RSAR0 + 1) 0x40;;
  n_out (io + NE_CR) 0x12;;
  body ← n_opt (slice frame 0 (2 * ((out_len + 1) / 2)));
  n_outsw (io + NE_DATA) (buffer_words body);;
  n_out (io + NE_TPSR) 0x40;;
  n_out (io + NE_TBCR0) (Z.land out_len 0xFF);;
  n_out (io + NE_TBCR0 + 1) (u8 (Z.shiftr out_len 8));;
  n_out (io + NE_CR) 0x26;;
  n_status inc_tx;;
  mret 0.

(** The four writes and the command that start a remote read. *)
Definition remote_read (io count addr : Z) : nm unit :=
  n_out (io + NE_RBCR0) (Z.land count 0xFF);;
  n_out (io + NE_RBCR0 + 1) (u8 (Z.shiftr count 8));;
  n_out (io + NE_RSAR0) (Z.land addr 0xFF);;
  n_out (io + NE_RSAR0 + 1) (u8 (Z.shiftr addr 8));;
  n_out (io + NE_CR) 0x0A.

(** [rx_boundary] for the next packet at page [p]. *)
Definition boundary_before (p : Z) : Z := if p =? NE_RX_START then NE_RX_STOP - 1 else u8 (p - 1).

(** The payload after a valid header. *)
Definition receive_payload (io packet_page next_page count : Z) (data : list Z) : nm (list Z * Z) :=
  let addr := u16 (Z.shiftl packet_page 8) in
  let payload_len := count - 4 in
  let first := u16 (Z.shiftl (NE_RX_STOP - packet_page) 8) in
  let first := if count <? first then count else first in
  let first_payload := if 4 <? first then first - 4 else 0 in
  let first_payload := if payload_len <? first_payload then payload_len else first_payload in
  remote_read io first_payload (addr + 4);;
  data ← n_insw (io + NE_DATA) data 0 ((first_payload + 1) / 2);
  data ← (if first_payload <? payload_len then
    let rest := payload_len - first_payload in
    remote_read io rest (Z.shiftl NE_RX_START 8);;
    n_insw (io + NE_DATA) data first_payload ((rest + 1) / 2)
  else mret data);
  n_mod (set_boundary (boundary_before next_page));;
  b ← n_get rx_boundary;
  n_out (io + NE_BNRY) b;;
  n_out (io + NE_ISR) 0x01;;
  n_status inc_rx;;
  mret (data, payload_len).

(** Returns the result, the buffer and [*len]. *)
Definition net_receive_packet (data : list Z) (len : Z) : nm (Z * list Z * Z) :=
  bad ← n_get not_ready;
  if bad : bool then mret (-1, data, len) else
  io ← n_get (λ n, u16 (io_base (status n)));
  n_out (io + NE_CR) 0x62;;
  curr ← n_in (io + NE_CURR);
  n_out (io + NE_CR) 0x22;;
  boundary ← n_get rx_boundary;
  let packet_page := u8 (boundary + 1) in
  let packet_page := if NE_RX_STOP <=? packet_page then NE_RX_START else packet_page in
  if packet_page =? curr then mret (0, data, 0) else
  remote_read io 4 (u16 (Z.shiftl packet_page 8));;
  hdr ← n_insw (io + NE_DATA) (uninit 4) 0 2;
  let next_page := hdr.[1] in
  let count := Z.lor hdr.[2] (u16 (Z.shiftl hdr.[3] 8)) in
  if (next_page <? NE_RX_START) || (NE_RX_STOP <=? next_page) || (count <? 4) || (1600 <? count) then
    n_status inc_rx_errors;;
    n_mod (set_boundary (boundary_before curr));;
    b ← n_get rx_boundary;
    n_out (io + NE_BNRY) b;;
    mret (-1, data, 0)
  else
    '(data, plen) ← receive_payload io packet_page next_page count data;
    mret (1, data, plen).

(** ** ARP *)
Definition valid_count (c : list arp_entry_t) : Z := countb a_valid c.

Definition expire_arp : nm unit :=
  now ← n_get (λ n, timer_ticks (dev n));
  n_mod (λ n,
    let c := for_each 0 8 (λ i c,
      let e := c.[i] in
      if a_valid e && (ARP_TTL_TICKS <? u64 (now - updated e)) then c.[i <- invalidate e] else c) (arp_cache n) in
    set_status (st_arp (valid_count c)) (set_arp c n)).

(** The slot the scan of [arp_cache_put] settles on. *)
Definition put_slot (ip : Z) (c : list arp_entry_t) : Z :=
  match for_range 0 8 (λ i slot,
    if a_valid c.[i] && (a_ip c.[i] =? ip) then inr i
    else if negb (a_valid c.[i]) && (slot <? 0) then inl i else inl slot) (-1) with
  | inr i => i
  | inl slot => if slot <? 0 then 0 else slot
  end.
Definition arp_put (ip : Z) (m : list Z) (now : Z) (c : list arp_entry_t) : list arp_entry_t :=
  c.[put_slot ip c <- ArpEntry ip m now true].
Definition arp_cache_put (ip : Z) (m : list Z) : nm unit :=
  n_mod (λ n, let c := arp_put ip m (timer_ticks (dev n)) (arp_cache n) in
    set_status (st_arp (valid_count c)) (set_arp c n)).

Definition arp_find (ip : Z) (c : list arp_entry_t) : option Z :=
  match for_range 0 8 (λ i (_ : unit), if a_valid c.[i] && (a_ip c.[i] =? ip) then inr i else inl tt) tt with
  | inr i => Some i
  | inl _ => None
  end.
Definition arp_lookup (ip : Z) : nm (option Z) := expire_arp;; n_get (λ n, arp_find ip (arp_cache n)).

(** The reply to [request], [m] our hardware address. *)
Definition arp_reply (request m : list Z) : option (list Z) :=
  p ← copy (uninit 42) 0 request 6 6;
  p ← blit p 6 m;
  p ← store16 p 12 (bswap16 ETH_TYPE_ARP);
  p ← store16 p 14 (bswap16 1);
  p ← store16 p 16 (bswap16 ETH_TYPE_IPV4);
  p ← blit p 18 [6; 4];
  p ← store16 p 20 (bswap16 2);
  p ← blit p 22 m;
  p ← store32 p 28 (bswap32 LOCAL_IP);
  p ← copy p 32 request 22 6;
  copy p 38 request 28 4.
Definition send_arp_reply (request : list Z) : nm unit :=
  m ← n_get (λ n, mac (status n));
  p ← n_opt (arp_reply request m);
  net_send_packet p 42;;
  mret tt.

Definition send_arp_request (target_ip : Z) : nm Z :=
  m ← n_get (λ n, mac (status n));
  p ← n_opt (
    p ← blit (replicate 42 0) 0 (replicate 6 0xFF);
    p ← blit p 6 m;
    p ← store16 p 12 (bswap16 ETH_TYPE_ARP);
    p ← store16 p 14 (bswap16 1);
    p ← store16 p 16 (bswap16 ETH_TYPE_IPV4);
    p ← blit p 18 [6; 4];
    p ← store16 p 20 (bswap16 1);
    p ← blit p 22 m;
    p ← store32 p 28 (bswap32 LOCAL_IP);
    store32 p 38 (bswap32 target_ip));
  net_send_packet p 42.

Definition handle_arp (frame : list Z) (len : Z) : nm unit :=
  if len <? 42 then mret tt else
  op ← n_opt (load16 frame 20);
  spa ← n_opt (load32 frame 28);
  tpa ← n_opt (load32 frame 38);
  m ← n_opt (slice frame 22 6);
  arp_cache_put (bswap32 spa) m;;
  if (bswap16 op =? 1) && (bswap32 tpa =? LOCAL_IP) then send_arp_reply frame else mret tt.

(** ** IPv4, ICMP, UDP *)

(** The reply frame; [n] is the length of the IP packet, [m] our address. *)
Definition echo_reply (frame m : list Z) (ip_len : Z) : option (list Z) :=
  r ← copy (uninit 1514) 0 frame 0 (ip_len + 14);
  r ← copy r 0 frame 6 6;
  r ← blit r 6 m;
  src ← load32 r (14 + 12);
  r ← store32 r (14 + 12) (bswap32 LOCAL_IP);
  r ← store32 r (14 + 16) (bswap32 (bswap32 src));
  r ← store16 r (14 + 10) 0;
  ihl ← rd8 r 14;
  let ihl := Z.land ihl 0x0F * 4 in
  c ← checksum_at r 14 ihl;
  r ← store16 r (14 + 10) c;
  r ← blit r (14 + ihl) [0];
  r ← blit r (14 + ihl + 2) [0; 0];
  c ← checksum_at r (14 + ihl) (ip_len - ihl);
  store16 r (14 + ihl + 2) c.

Definition send_icmp_echo_reply (frame : list Z) (len : Z) : nm unit :=
  if len <? 14 + 20 + 8 then mret tt else
  raw ← n_opt (load16 frame 16);
  let ip_len := bswap16 raw in
  if (len <? ip_len + 14) || (1514 <? ip_len + 14) then mret tt else
  m ← n_get (λ n, mac (status n));
  r ← n_opt (echo_reply frame m ip_len);
  net_send_packet r (u16 (ip_len + 14));;
  mret tt.

Definition handle_icmp (frame : list Z) (len ihl total src : Z) : nm unit :=
  let icmp_len := total - ihl in
  if icmp_len <? 8 then n_status inc_dropped else
  c ← n_opt (checksum_at frame (14 + ihl) icmp_len);
  if negb (c =? 0) then n_status inc_checksum_errors else
  t ← n_opt (rd8 frame (14 + ihl));
  if t =? 8 then send_icmp_echo_reply frame len
  else if t =? 0 then
    raw ← n_opt (load16 frame (14 + ihl + 6));
    ok ← n_get (λ n, (src =? pending_ping_ip n) && (bswap16 raw =? pending_ping_seq n));
    if ok : bool then n_status (λ s, st_ping (last_ping_ip s) true (last_ping_seq s) s) else mret tt
  else mret tt.

Definition handle_udp (frame : list Z) (ihl total src : Z) : nm unit :=
  let udp_len := total - ihl in
  if udp_len <? 8 then n_status inc_dropped else
  sp ← n_opt (load16 frame (14 + ihl));
  dp ← n_opt (load16 frame (14 + ihl + 2));
  let len := udp_len - 8 in
  let len := if 127 <? len then 127 else len in
  old ← n_get (λ n, u_data (last_udp n));
  data ← n_opt (copy old 0 frame (14 + ihl + 8) len);
  data ← n_opt (blit data len [0]);
  n_mod (set_udp (UdpPacket src (bswap16 sp) (bswap16 dp) len data true)).

Definition handle_ipv4 (frame : list Z) (len : Z) : nm unit :=
  if len <? 34 then mret tt else
  b0 ← n_opt (rd8 frame 14);
  let ihl := Z.land b0 0x0F * 4 in
  if (ihl <? 20) || (len <? 14 + ihl) then mret tt else
  raw ← n_opt (load16 frame (14 + 2));
  let total := bswap16 raw in
  if total <? ihl then n_status inc_dropped else
  if len <? 14 + total then n_status inc_dropped else
  c ← n_opt (checksum_at frame 14 ihl);
  if negb (c =? 0) then n_status inc_checksum_errors else
  rsrc ← n_opt (load32 frame (14 + 12));
  rdst ← n_opt (load32 frame (14 + 16));
  let src := bswap32 rsrc in
  if negb (bswap32 rdst =? LOCAL_IP) then mret tt else
  m ← n_opt (slice frame 6 6);
  arp_cache_put src m;;
  proto ← n_opt (rd8 frame (14 + 9));
  if proto =? IP_PROTO_ICMP then handle_icmp frame len ihl total src
  else if proto =? IP_PROTO_UDP then handle_udp frame ihl total src
  else mret tt.

(** One frame of [net_poll]'s loop. *)
Definition dispatch (frame : list Z) (len : Z) : nm unit :=
  raw ← n_opt (load16 frame 12);
  let type := bswap16 raw in
  if type =? ETH_TYPE_ARP then handle_arp frame len
  else if type =? ETH_TYPE_IPV4 then handle_ipv4 frame len
  else n_status inc_dropped.

Fixpoint poll_loop (n : nat) (frame : list Z) (len handled : Z) : nm Z :=
  match n with
  | O => mret handled
  | S n' =>
      '(r, frame, len) ← net_receive_packet frame len;
      if (r <=? 0) || (len <? 14) then mret handled else
      dispatch frame len;;
      poll_loop n' frame len (handled + 1)
  end.
Definition net_poll : nm Z := poll_loop 8 (uninit 1600) 0 0.

Definition net_irq_handler (irq : Z) : nm unit :=
  stop ← n_get (λ n, negb (bool_decide (driver (status n) = NET_DRIVER_NE2000)) || negb (irq =? s_irq (status n))
                     || (io_base (status n) =? 0));
  if stop : bool then mret tt else
  io ← n_get (λ n, u16 (io_base (status n)));
  isr ← n_in (io + NE_ISR);
  if isr =? 0 then mret tt else
  n_out (io + NE_ISR) isr;;
  n_status inc_irq;;
  (if negb (Z.land isr 0x15 =? 0) then net_poll;; mret tt else mret tt);;
  if negb (Z.land isr 0x10 =? 0) then n_status inc_rx_errors else mret tt.

(** [for (spin = 0; spin < n; spin++) { body; if (found) break; }] *)
Definition spin {A} (n : Z) (body : nm (option A)) : nm (option A) := λ st,
  match iterZ n (λ st, match body st with
                       | Some (Some a, st) => inr (Some (Some a, st))
                       | Some (None, st) => inl st
                       | None => inr None
                       end) st with
  | inl st => Some (None, st)
  | inr r => r
  end.
Definition poll_lookup (ip : Z) : nm (option Z) := net_poll;; arp_lookup ip.
(** [-1]: the request could not be sent. *)
Definition ask (ip : Z) : nm (Z + option Z) :=
  r ← send_arp_request ip;
  if negb (r =? 0) then mret (inl (-1)) else
  e ← spin PING_WAIT_SPINS (poll_lookup ip); mret (inr e).
(** Three attempts at most. *)
Fixpoint resolve_mac (n : nat) (ip : Z) : nm (Z + option Z) :=
  match n with
  | O => mret (inr None)
  | S n' => a ← ask ip;
            match a with inr None => resolve_mac n' ip | _ => mret a end
  end.

(** The 20-byte IP header at offset 14, its checksum stored as the code does. *)
Definition ip_header (p : list Z) (ip_len proto ip : Z) : option (list Z) :=
  p ← blit p 14 [0x45];
  p ← store16 p (14 + 2) (bswap16 ip_len);
  p ← blit p (14 + 8) [64];
  p ← blit p (14 + 9) [proto];
  p ← store32 p (14 + 12) (bswap32 LOCAL_IP);
  p ← store32 p (14 + 16) (bswap32 ip);
  c ← checksum_at p 14 20;
  store16 p (14 + 10) c.
Definition eth_header (p dst m : list Z) : option (list Z) :=
  p ← blit p 0 dst; p ← blit p 6 m; store16 p 12 (bswap16 ETH_TYPE_IPV4).
(** "AO-OS-PING-0000" and its NUL *)
Definition PING_DATA : list Z := [65; 79; 45; 79; 83; 45; 80; 73; 78; 71; 45; 48; 48; 48; 48; 0].
Definition ping_frame (dst m : list Z) (ip seq : Z) : option (list Z) :=
  p ← eth_header (replicate 58 0) dst m;
  p ← ip_header p (20 + 8 + 16) IP_PROTO_ICMP ip;
  p ← blit p 34 [8];
  p ← store16 p (34 + 4) (bswap16 1);
  p ← store16 p (34 + 6) (bswap16 seq);
  p ← blit p (34 + 8) PING_DATA;
  c ← checksum_at p 34 (8 + 16);
  store16 p (34 + 2) c.

Definition echo_request (ip i : Z) : nm Z :=
  dst ← n_get (λ n, a_mac (arp_cache n).[i]);
  m ← n_get (λ n, mac (status n));
  seq ← n_get (λ n, u16 (icmp_seq n + 1));
  n_mod (set_pending ip seq);;
  n_status (st_ping ip false seq);;
  p ← n_opt (ping_frame dst m ip seq);
  r ← net_send_packet p 58;
  if negb (r =? 0) then mret (-1) else
  e ← spin (PING_WAIT_SPINS * 3)
        (net_poll;; n_get (λ n, if last_ping_ok (status n) then Some tt else None));
  mret (match (e : option unit) with Some _ => 1 | None => 0 end).

Definition net_ping_ipv4 (ip : Z) : nm Z :=
  none ← n_get (λ n, bool_decide (driver (status n) = NET_DRIVER_NONE));
  if none : bool then mret (-1) else
  net_poll;;
  e ← arp_lookup ip;
  match e with
  | Some i => echo_request ip i
  | None =>
      n_status (λ s, st_ping ip false (last_ping_seq s) s);;
      a ← resolve_mac 3 ip;
      match a with
      | inl r => mret r
      | inr None => mret 0
      | inr (Some i) => echo_request ip i
      end
  end.

Definition udp_frame (dst m : list Z) (ip port len : Z) (data : list Z) : option (list Z) :=
  let udp_len := u16 (8 + len) in
  p ← eth_header (replicate 298 0) dst m;
  p ← ip_header p (u16 (20 + udp_len)) IP_PROTO_UDP ip;
  p ← store16 p 34 (bswap16 49152);
  p ← store16 p (34 + 2) (bswap16 port);
  p ← store16 p (34 + 4) (bswap16 udp_len);
  copy p (34 + 8) data 0 len.

Definition send_udp_to (i ip port : Z) (data : list Z) (len : Z) : nm Z :=
  dst ← n_get (λ n, a_mac (arp_cache n).[i]);
  m ← n_get (λ n, mac (status n));
  p ← n_opt (udp_frame dst m ip port len data);
  net_send_packet p (u16 (14 + u16 (20 + u16 (8 + len)))).

Definition net_send_udp (ip port : Z) (data : list Z) (len : Z) : nm Z :=
  none ← n_get (λ n, bool_decide (driver (status n) = NET_DRIVER_NONE));
  if (256 <? len) || none then mret (-1) else
  net_poll;;
  e ← arp_lookup ip;
  match e with
  | Some i => send_udp_to i ip port data len
  | None =>
      a ← ask ip;
      match a with
      | inl r => mret r
      | inr None => mret 0
      | inr (Some i) => send_udp_to i ip port data len
      end
  end.
(** ** Reports: the text, its size in [*size]; [None] is -1.  The source stores
    a NUL after the text. *)
Definition txt_arp_head : list Z := [73; 80; 32; 77; 65; 67; 10].
Definition txt_age : list Z := [32; 97; 103; 101; 61].
Definition txt_dev_head : list Z := [105; 102; 97; 99; 101; 32; 100; 114; 105; 118; 101; 114; 32; 114; 120; 32; 116; 120; 32; 105; 114; 113; 32; 114; 120; 101; 114; 114; 32; 100; 114; 111; 112; 32; 99; 115; 117; 109; 32; 109; 97; 99; 10].
Definition txt_eth0 : list Z := [101; 116; 104; 48; 32].
Definition txt_no_udp : list Z := [110; 111; 32; 117; 100; 112; 32; 112; 97; 99; 107; 101; 116; 115; 10].
Definition txt_src : list Z := [115; 114; 99; 61].
Definition txt_dst : list Z := [32; 100; 115; 116; 61].
Definition txt_data : list Z := [32; 100; 97; 116; 97; 61].

Definition net_format_arp_cache (max_size : Z) (n : net_state) : option (list Z * Z) :=
  if max_size =? 0 then None else
  let b := append_str max_size txt_arp_head [] in
  let b := for_each 0 8 (λ i b,
    let e := (arp_cache n).[i] in
    if negb (a_valid e) then b else
    let b := append_ip max_size (a_ip e) b in
    let b := append_str max_size [32] b in
    let b := append_mac max_size (a_mac e) b in
    let b := append_str max_size txt_age b in
    let b := append_u32 max_size (u32 (timer_ticks (dev n) - updated e)) b in
    append_str max_size [10] b) b in
  Some (b, zlen b).

Definition net_format_device_stats (max_size : Z) (n : net_state) : option (list Z * Z) :=
  if max_size =? 0 then None else
  let s := status n in
  let num v b := append_str max_size [32] (append_u32 max_size v b) in
  let b := append_str max_size txt_dev_head [] in
  let b := append_str max_size txt_eth0 b in
  let b := append_str max_size (net_driver_name (driver s)) b in
  let b := append_str max_size [32] b in
  let b := num (packets_rx s) b in
  let b := num (packets_tx s) b in
  let b := num (irq_count s) b in
  let b := num (rx_errors s) b in
  let b := num (dropped s) b in
  let b := num (checksum_errors s) b in
  let b := append_mac max_size (mac s) b in
  let b := append_str max_size [10] b in
  Some (b, zlen b).

Definition net_format_udp (max_size : Z) (n : net_state) : option (list Z * Z) :=
  if max_size =? 0 then None else
  let u := last_udp n in
  let b :=
    if negb (u_valid u) then append_str max_size txt_no_udp [] else
    let b := append_str max_size txt_src [] in
    let b := append_ip max_size (src_ip u) b in
    let b := append_str max_size [58] b in
    let b := append_u32 max_size (src_port u) b in
    let b := append_str max_size txt_dst b in
    let b := append_u32 max_size (dst_port u) b in
    let b := append_str max_size txt_data b in
    let b := append_str max_size (u_data u) b in
    append_str max_size [10] b in
  Some (b, zlen b).
End Stack.
End Net.
