(* ===== verification/NetSafe.v ===== *)
(** * Properties of the network stack

    Every operation of [Net] runs to its end and stays inside its arrays
    whatever the card delivers: [safe] is partial correctness with that
    reading of [None], closed under the monad's operations. *)
From S2P Require Import Prelude.
From S2P Require Import Ata.
From S2P Require Import Format.
From S2P Require Import Packet.
From S2P Require Import Net.
Import Ata Format Packet Net.

Module NetSafe.
Section Safety.
Context {hw : Type} `{NetEnv hw}.
Abbreviation net_state := (net_state (hw := hw)).

(** The arrays have their sizes, the last datagram ends in a NUL, and the
    number of cache entries is the one reported. *)
Record net_ok (n : net_state) : Prop := {
  ok_mac : zlen (mac (status n)) = 6;
  ok_arp : zlen (arp_cache n) = 8;
  ok_arp_mac : Forall (λ e, zlen (a_mac e) = 6) (arp_cache n);
  ok_udp : zlen (u_data (last_udp n)) = 128;
  ok_udp_nul : 0 ∈ u_data (last_udp n);
  ok_entries : arp_entries (status n) = valid_count (arp_cache n)
}.

Definition safe {A} (m : nm A) (P : A → Prop) : Prop :=
  ∀ n, net_ok n → ∃ a n', m n = Some (a, n') ∧ P a ∧ net_ok n'.

Lemma safe_ret {A} (a : A) (P : A → Prop) : P a → safe (mret a) P.
Proof. intros Ha n Hn. by exists a, n. Qed.
Lemma safe_bind {A B} (m : nm A) (f : A → nm B) P Q :
  safe m P → (∀ a, P a → safe (f a) Q) → safe (m ≫= f) Q.
Proof.
  intros Hm Hf n Hn. destruct (Hm n Hn) as (a & n1 & E & Pa & Hn1).
  destruct (Hf a Pa n1 Hn1) as (b & n2 & E2 & Qb & Hn2). exists b, n2.
  split; [| done]. unfold mbind, nm_bind. by rewrite E.
Qed.
Lemma safe_mono {A} (m : nm A) (P Q : A → Prop) : safe m P → (∀ a, P a → Q a) → safe m Q.
Proof. intros Hm HPQ n Hn. destruct (Hm n Hn) as (a & n' & ? & ? & ?). eauto 6. Qed.
Lemma safe_get {A} (f : net_state → A) (P : A → Prop) : (∀ n, net_ok n → P (f n)) → safe (n_get f) P.
Proof. intros Hf n Hn. exists (f n), n. auto. Qed.
Lemma safe_mod f (P : unit → Prop) : (∀ n, net_ok n → net_ok (f n)) → P tt → safe (n_mod f) P.
Proof. intros Hf Pt n Hn. exists tt, (f n). auto. Qed.
Lemma safe_opt {A} (o : option A) (P : A → Prop) : (∃ a, o = Some a ∧ P a) → safe (n_opt o) P.
Proof. intros (a & -> & Pa) n Hn. by exists a, n. Qed.

(** The status and the card are irrelevant to [net_ok] up to the fields above. *)
Lemma ok_set_dev d n : net_ok n → net_ok (set_dev d n).
Proof. by intros []. Qed.
Lemma ok_set_status f n :
  net_ok n → mac (f (status n)) = mac (status n) → arp_entries (f (status n)) = arp_entries (status n) →
  net_ok (set_status f n).
Proof. intros [] E1 E2. constructor; cbn; congruence. Qed.
Lemma ok_set_boundary b n : net_ok n → net_ok (set_boundary b n).
Proof. by intros []. Qed.
Lemma ok_set_pending ip seq n : net_ok n → net_ok (set_pending ip seq n).
Proof. by intros []. Qed.

Definition any {A} : A → Prop := λ _, True.
Lemma safe_status f :
  (∀ s, mac (f s) = mac s ∧ arp_entries (f s) = arp_entries s) → safe (n_status f) any.
Proof. intros Hf. apply safe_mod; [| done]. intros n Hn. apply ok_set_status; [done | apply Hf..]. Qed.
Lemma safe_out p v : safe (n_out p v) any.
Proof. apply safe_mod; [| done]. intros. by apply ok_set_dev. Qed.
Lemma safe_in p : safe (n_in p) is_byte.
Proof.
  intros n Hn. unfold n_in. destruct (inb (u16 p) (dev n)) as [v d]. eexists _, _. split; [done |].
  split; [apply is_byte_u8 | by apply ok_set_dev].
Qed.
Lemma safe_outsw p ws : safe (n_outsw p ws) any.
Proof.
  induction ws as [| w ws IH]; cbn [n_outsw]; [by apply safe_ret |].
  apply (safe_bind _ _ any); [| done]. apply safe_mod; [| done]. intros. by apply ok_set_dev.
Qed.
Lemma safe_inw p c : safe (n_inw p c) (λ ws, length ws = c).
Proof.
  induction c as [| c IH]; cbn [n_inw]; [by apply safe_ret |]. intros n Hn.
  destruct (inw (u16 p) (dev n)) as [w d].
  apply (safe_bind (n_inw p c) (λ ws, mret (u16 w :: ws)) (λ ws, length ws = c)); [done | | by apply ok_set_dev].
  intros ws L. apply safe_ret. cbn. by rewrite L.
Qed.
Lemma words_len ws : zlen (ws ≫= le_bytes 2) = 2 * zlen ws.
Proof. induction ws as [| w ws IH]; [done |]. rewrite bind_cons, zlen_app, IH, zlen_le_bytes, zlen_cons. lia. Qed.
Lemma words_bytes ws : Forall is_byte (ws ≫= le_bytes 2).
Proof. induction ws as [| w ws IH]; [constructor |]. rewrite bind_cons. apply Forall_app. split; [apply le_bytes_is_byte | done]. Qed.
Lemma safe_insw p data off count :
  0 ≤ off → 0 ≤ count → off + 2 * count ≤ zlen data → safe (n_insw p data off count) (λ d, zlen d = zlen data).
Proof.
  intros Ho Hc Hl. apply (safe_bind _ _ (λ ws, length ws = Z.to_nat count)); [apply safe_inw |].
  intros ws L. apply safe_opt. apply blit_ok; [done |]. rewrite words_len. unfold zlen in *. lia.
Qed.
End Safety.

(** One step of a monadic operation. *)
Create HintDb nsafe discriminated.
#[export] Hint Resolve safe_out safe_in safe_outsw safe_inw : nsafe.
Ltac nstatus := apply safe_status; intros []; done.
Ltac nstep :=
  match goal with
  | |- safe (_ ≫= _) _ => eapply safe_bind; [solve [eauto with nsafe | nstatus] |]; intros ? ?; cbn beta
  | |- safe (mret _) _ => apply safe_ret; try done
  end.
Ltac nget P := eapply (safe_bind _ _ P); [apply safe_get; try done; try (intros ? []; done) |].

Section Driver.
Context {hw : Type} `{NetEnv hw}.
Abbreviation net_state := (net_state (hw := hw)).
Abbreviation any := (λ _, True).

Lemma safe_send data len :
  0 ≤ len ≤ 1536 → len ≤ zlen data → safe (hw := hw) (net_send_packet data len) (λ r, r = 0 ∨ r = -1).
Proof.
  intros Hl Hd. unfold net_send_packet. nget (λ _ : bool, True). intros bad _.
  destruct ((len =? 0) || bad) eqn:E; [apply safe_ret; auto |].
  eapply safe_bind; [apply safe_opt, copy_ok; rewrite ?zlen_replicate; lia |]. intros frame Lf. cbn beta in Lf.
  rewrite zlen_replicate in Lf. nget (λ _ : Z, True). intros io _. do 6 nstep.
  eapply safe_bind; [apply safe_opt, slice_ok |]; [lia | destruct (Z.ltb_spec len 60); zdm.. |].
  intros body Lb. do 6 nstep. apply safe_ret. auto.
Qed.

Lemma safe_remote io c a : safe (hw := hw) (remote_read io c a) any.
Proof. unfold remote_read. do 4 nstep. apply safe_out. Qed.
Hint Resolve safe_remote : nsafe.

Lemma safe_ne2k io : safe (hw := hw) (ne2k_init io) any.
Proof.
  unfold ne2k_init. do 6 nstep. eapply safe_bind; [apply (safe_mod _ any); [intros n Hn; by apply ok_set_boundary | done] |]. intros _ _.
  do 2 nstep. nget (λ _ : Z, True). intros b _. do 5 nstep. nget (λ _ : list Z, True). intros m _. do 16 nstep. apply safe_out.
Qed.
Lemma safe_probe f l : safe (hw := hw) (probe f l) any.
Proof.
  assert (safe (hw := hw) (unmask f) any) as Hu.
  { unfold unmask. nget (λ _ : Z, True). intros i _. destruct (_ || _); [| by apply safe_ret].
    apply safe_mod; [| done]. intros n Hn. by apply ok_set_dev. }
  induction l as [| d l IH]; cbn [probe]; [by apply safe_ret |]. destruct (_ || _); [done |]. nstep.
  destruct (is_ne2000 _ _); [nstep; eapply safe_bind; [apply safe_ne2k |]; done |]. destruct (is_virtio_net _ _); [by nstep | done].
Qed.
(** [net_init] establishes the invariant from the zeroed variables. *)
Lemma net_init_ok f l n :
  zlen (u_data (last_udp n)) = 128 → 0 ∈ u_data (last_udp n) → ∃ n', net_init f l n = Some (tt, n') ∧ net_ok n'.
Proof.
  intros Hl Hz. unfold net_init, n_status, n_mod, mbind, nm_bind. cbn [mbind option_bind].
  set (n1 := set_arp (hw := hw) _ _). assert (net_ok n1) as Hn by (constructor; try done; unfold n1; cbn; repeat constructor).
  destruct (safe_probe f l n1 Hn) as ([] & n' & E & _ & H'). exists n'. split; [| done]. exact E.
Qed.

Lemma safe_payload io pp next count data :
  0 ≤ pp < 128 → 4 ≤ count ≤ 1600 → zlen data = 1600 →
  safe (hw := hw) (receive_payload io pp next count data) (λ p, zlen p.1 = 1600 ∧ p.2 = count - 4).
Proof.
  intros Hp Hc Hd. unfold receive_payload, NE_RX_STOP.
  rewrite (Z.shiftl_mul_pow2 (128 - pp)), (u16_small ((128 - pp) * 2 ^ 8)) by lia. change (2 ^ 8) with 256.
  set (first := if count <? (128 - pp) * 256 then count else (128 - pp) * 256).
  set (fp := if count - 4 <? (if 4 <? first then first - 4 else 0) then count - 4 else if 4 <? first then first - 4 else 0).
  assert (0 ≤ fp ≤ count - 4 ∧ (fp = count - 4 ∨ fp mod 2 = 0)) as [Hfp Hev].
  { unfold fp, first. destruct (Z.ltb_spec count ((128 - pp) * 256)).
    - destruct (Z.ltb_spec 4 count); [destruct (Z.ltb_spec (count - 4) (count - 4)); lia |].
      destruct (Z.ltb_spec (count - 4) 0); lia.
    - destruct (Z.ltb_spec 4 ((128 - pp) * 256)); [| lia].
      destruct (Z.ltb_spec (count - 4) ((128 - pp) * 256 - 4)); [lia |]. split; [lia | right; zdm]. }
  clearbody fp. clear first.
  nstep. eapply safe_bind; [apply safe_insw; [lia | zdm | zdm] |]. intros d1 L1. cbn beta in L1.
  apply (safe_bind _ _ (λ d, zlen d = 1600)).
  { destruct (Z.ltb_spec fp (count - 4)) as [Hlt |]; [| apply safe_ret; lia]. nstep.
    eapply safe_mono; [apply safe_insw; [lia | zdm | zdm] |]. intros d Ld. cbn beta in Ld. lia. }
  intros d2 L2. eapply (safe_bind _ _ any); [apply safe_mod; [intros; by apply ok_set_boundary | done] |]. intros _ _.
  nget (λ _ : Z, True). intros b _. do 3 nstep. by apply safe_ret.
Qed.

Variable junk : Z → Z.
Lemma uninit_len k : 0 ≤ k → zlen (uninit junk k) = k.
Proof. intros. unfold uninit. rewrite zlen_fmap. unfold zlen. rewrite length_seqZ. lia. Qed.

Lemma safe_receive data len :
  zlen data = 1600 →
  safe (hw := hw) (net_receive_packet junk data len)
    (λ p, zlen p.1.2 = 1600 ∧ (p.1.1 ≤ 0 ∨ 0 ≤ p.2 ≤ 1596)).
Proof.
  intros Hd. unfold net_receive_packet. nget (λ _ : bool, True). intros [] _.
  { apply safe_ret. cbn. split; [done |]. left. lia. }
  nget (λ _ : Z, True). intros io _. do 3 nstep. nget (λ _ : Z, True). intros bd _.
  set (pp := if NE_RX_STOP <=? u8 (bd + 1) then NE_RX_START else u8 (bd + 1)).
  assert (0 ≤ pp < 128) as Hpp.
  { unfold pp, NE_RX_STOP, NE_RX_START. pose proof (u8_range (bd + 1)). destruct (Z.leb_spec 128 (u8 (bd + 1))); lia. }
  destruct (pp =? a0); [apply safe_ret; cbn; split; [done | left; lia] |]. nstep.
  eapply safe_bind; [apply safe_insw; rewrite ?uninit_len; lia |]. intros hdr Lh.
  set (count := Z.lor _ _). destruct (_ || _ || _ || (1600 <? count)) eqn:E.
  - nstep. eapply (safe_bind _ _ any); [apply safe_mod; [intros; by apply ok_set_boundary | done] |]. intros _ _.
    nget (λ _ : Z, True). intros b _. nstep. apply safe_ret. cbn. split; [done | left; lia].
  - eapply safe_bind; [apply safe_payload; [done | | done] |].
    { lia. }
    intros [d pl] [L1 L2]. cbn in L1, L2. apply safe_ret. cbn. split; [done |]. right. lia.
Qed.
End Driver.

(** ** The cache *)
Section Cache.
Context {hw : Type} `{NetEnv hw}.
Abbreviation net_state := (net_state (hw := hw)).
Abbreviation any := (λ _, True).

Lemma put_slot_range ip c : 0 ≤ put_slot ip c < 8.
Proof.
  unfold put_slot. set (body := λ (i slot : Z), _).
  assert (match for_range 0 8 body (-1) with inl s => -1 ≤ s < 8 | inr i => 0 ≤ i < 8 end) as HI.
  { apply (for_range_inv (λ _ s, -1 ≤ s < 8)); [lia | |]; unfold body; intros i s r Hi Hs E;
      repeat case_match; simplify_eq; lia. }
  destruct (for_range 0 8 body (-1)) as [s | i]; [| done]. destruct (Z.ltb_spec s 0); lia.
Qed.

Lemma ok_set_cache c (n : net_state) :
  net_ok n → zlen c = 8 → Forall (λ e, zlen (a_mac e) = 6) c → net_ok (set_status (st_arp (valid_count c)) (set_arp c n)).
Proof. intros [] L F. by constructor. Qed.

Lemma safe_put ip m : zlen m = 6 → safe (hw := hw) (arp_cache_put ip m) any.
Proof.
  intros Hm. apply safe_mod; [| done]. intros n Hn. pose proof (ok_arp n Hn) as L. apply ok_set_cache; [done | |].
  - unfold arp_put. by rewrite zlen_aset.
  - unfold arp_put. apply Forall_aset; [apply Hn | done].
Qed.

Lemma safe_expire : safe (hw := hw) expire_arp any.
Proof.
  unfold expire_arp. nget (λ _ : Z, True). intros now _. apply safe_mod; [| done]. intros n Hn.
  set (body := λ (i : Z) (c : list arp_entry_t), _).
  assert (zlen (for_each 0 8 body (arp_cache n)) = 8 ∧ Forall (λ e, zlen (a_mac e) = 6) (for_each 0 8 body (arp_cache n))) as [L F].
  { apply (for_each_inv (λ _ c, zlen c = 8 ∧ Forall (λ e, zlen (a_mac e) = 6) c) 0 8); [split; apply Hn |].
    intros i c Hi [Lc Fc]. unfold body. case_match; [| done]. rewrite zlen_aset. split; [done |].
    apply Forall_aset; [done |]. cbn. by apply (Forall_aget (λ e, zlen (a_mac e) = 6)); [| lia]. }
  by apply ok_set_cache.
Qed.

Lemma arp_find_some ip c i : arp_find ip c = Some i → 0 ≤ i < 8 ∧ a_valid c.[i] = true ∧ a_ip c.[i] = ip.
Proof.
  unfold arp_find. set (body := λ (i : Z) (_ : ()), _).
  assert (match for_range 0 8 body tt with inl _ => True
          | inr i => 0 ≤ i < 8 ∧ a_valid c.[i] = true ∧ a_ip c.[i] = ip end) as HI.
  { apply (for_range_inv (λ _ _, True)); [done | done |]. unfold body. intros j [] r Hj _ E.
    destruct (a_valid c.[j]) eqn:V, (Z.eqb_spec (a_ip c.[j]) ip); simplify_eq/=; auto. }
  destruct (for_range 0 8 body tt); [done |]. by intros [= <-].
Qed.
Lemma safe_lookup ip : safe (hw := hw) (arp_lookup ip) (λ e, ∀ i, e = Some i → 0 ≤ i < 8).
Proof.
  unfold arp_lookup. eapply safe_bind; [apply safe_expire |]. intros _ _. apply safe_get.
  intros n _ i E. by apply arp_find_some in E as [? _].
Qed.
End Cache.

(** ** Chains of array accesses *)
Definition osafe {A} (o : option A) (P : A → Prop) : Prop := ∃ a, o = Some a ∧ P a.
Lemma osafe_bind {A B} (o : option A) (f : A → option B) P Q :
  osafe o P → (∀ a, P a → osafe (f a) Q) → osafe (o ≫= f) Q.
Proof. intros (a & -> & Pa) Hf. by apply Hf. Qed.
Lemma osafe_mono {A} (o : option A) (P Q : A → Prop) : osafe o P → (∀ a, P a → Q a) → osafe o Q.
Proof. intros (a & -> & Pa) HPQ. exists a. auto. Qed.
Lemma load16_safe b off : 0 ≤ off → off + 2 ≤ zlen b → osafe (load16 b off) (λ _, True).
Proof. intros H1 H2. destruct (load16_ok b off H1 H2) as [v E]. by exists v. Qed.
Lemma load32_safe b off : 0 ≤ off → off + 4 ≤ zlen b → osafe (load32 b off) (λ _, True).
Proof. intros H1 H2. destruct (load32_ok b off H1 H2) as [v E]. by exists v. Qed.
Lemma rd8_safe b i : 0 ≤ i < zlen b → osafe (rd8 b i) (λ _, True).
Proof. intros Hi. destruct (rd8_ok b i Hi) as [v E]. by exists v. Qed.
Lemma checksum_safe b off n : 0 ≤ off → 0 ≤ n → off + n ≤ zlen b → osafe (checksum_at b off n) (λ _, True).
Proof. intros H1 H2 H3. destruct (checksum_at_ok b off n H1 H2 H3) as [v E]. by exists v. Qed.
Lemma zlen_nil {A} : zlen (@nil A) = 0.
Proof. done. Qed.

Ltac zlens := rewrite ?zlen_cons, ?zlen_nil, ?zlen_replicate, ?zlen_le_bytes, ?uninit_len by lia.
Ltac oacc := first [apply copy_ok | apply store16_ok | apply store32_ok | apply blit_ok | apply slice_ok
  | apply load16_safe | apply load32_safe | apply rd8_safe | apply checksum_safe]; zlens; try lia.
Ltac ostep := eapply osafe_bind; [oacc |]; intros ? ?; cbn beta in *;
  repeat match goal with H : zlen _ = zlen (replicate _ _) |- _ => rewrite zlen_replicate in H
  | H : zlen _ = zlen (uninit _ _) |- _ => rewrite uninit_len in H by lia end.
(** The last access of a chain. *)
Ltac ofin := eapply osafe_mono; [oacc |]; intros ? ?; cbn beta in *; lia.

Lemma nibble_range x : 0 ≤ Z.land x 0x0F * 4 ≤ 60.
Proof. change 0x0F with (Z.ones 4). rewrite Z.land_ones by lia. zdm. Qed.
Lemma bswap16_range v : 0 ≤ bswap16 v < 65536.
Proof. apply u16_range. Qed.

Section Handlers.
Context {hw : Type} `{NetEnv hw}.
Abbreviation net_state := (net_state (hw := hw)).
Abbreviation any := (λ _, True).

Lemma safe_mac : safe (hw := hw) (n_get (λ n, mac (status n))) (λ m, zlen m = 6).
Proof. apply safe_get. by intros n []. Qed.
Hint Resolve safe_mac : nsafe.

Lemma safe_request_arp ip : safe (hw := hw) (send_arp_request ip) (λ r, r = 0 ∨ r = -1).
Proof.
  unfold send_arp_request. eapply safe_bind; [apply safe_mac |]. intros m Hm. cbn beta in Hm.
  apply (safe_bind _ _ (λ p, zlen p = 42)); [apply safe_opt; do 9 ostep; ofin |].
  intros p Hp; cbn beta in Hp. apply safe_send; lia.
Qed.

Variable junk : Z → Z.

Lemma safe_reply_arp frame : zlen frame = 1600 → safe (hw := hw) (send_arp_reply junk frame) any.
Proof.
  intros Hf. unfold send_arp_reply. eapply safe_bind; [apply safe_mac |]. intros m Hm. cbn beta in Hm.
  apply (safe_bind _ _ (λ p, zlen p = 42)).
  { apply safe_opt. unfold arp_reply. do 10 ostep. ofin. }
  intros p Hp; cbn beta in Hp. eapply safe_bind; [apply safe_send; lia |]. intros. by apply safe_ret.
Qed.

Lemma safe_handle_arp frame len : zlen frame = 1600 → len ≤ 1600 → safe (hw := hw) (handle_arp junk frame len) any.
Proof.
  intros Hf Hl. unfold handle_arp. destruct (Z.ltb_spec len 42); [by apply safe_ret |].
  do 3 (eapply safe_bind; [apply safe_opt; oacc |]; intros ? _).
  eapply safe_bind; [apply safe_opt; oacc |]. intros m Hm. cbn beta in Hm.
  eapply safe_bind; [by apply safe_put |]. intros _ _. case_match; [by apply safe_reply_arp | by apply safe_ret].
Qed.

(** Accesses that leave the byte at [k] alone. *)
Definition keeps_byte (k : Z) (b b' : list Z) : Prop := zlen b' = zlen b ∧ b'.[k] = b.[k].
Lemma blit_keep k b off bs :
  0 ≤ off → off + zlen bs ≤ zlen b → k < off ∨ off + zlen bs ≤ k → osafe (blit b off bs) (keeps_byte k b).
Proof.
  intros H1 H2 H3. exists (ablit b off bs). split; [by apply blit_some |]. split; [apply zlen_ablit | by apply aget_ablit_out].
Qed.
Lemma copy_keep k dst doff src soff n :
  0 ≤ doff → 0 ≤ soff → 0 ≤ n → doff + n ≤ zlen dst → soff + n ≤ zlen src → k < doff ∨ doff + n ≤ k →
  osafe (copy dst doff src soff n) (keeps_byte k dst).
Proof.
  intros. unfold copy. destruct (slice_ok src soff n) as (l & -> & L); [done.. |]. cbn. apply blit_keep; lia.
Qed.
Lemma copy_first src k n :
  0 ≤ k < n → n ≤ zlen src → n ≤ 1514 →
  osafe (copy (uninit junk 1514) 0 src 0 n) (λ b, zlen b = 1514 ∧ b.[k] = src.[k]).
Proof.
  intros Hk Hn Hm. unfold copy. destruct (slice src 0 n) as [l |] eqn:E.
  2:{ unfold slice in E. replace ((0 <=? 0) && (0 <=? n) && (0 + n <=? zlen src)) with true in E by lia. done. }
  apply slice_zlen in E as L. destruct L as [L _]. cbn. exists (ablit (uninit junk 1514) 0 l).
  split; [apply blit_some; rewrite ?uninit_len; lia |]. rewrite zlen_ablit, uninit_len by lia. split; [done |].
  rewrite aget_ablit_in by (rewrite ?uninit_len; lia). rewrite (slice_aget _ _ _ _ _ E) by lia. f_equal. lia.
Qed.

Ltac kstep := eapply osafe_bind;
  [first [apply (copy_keep 14) | apply (blit_keep 14)]; zlens; try lia |];
  let E := fresh "E" in let L := fresh "L" in intros ? [L E]; cbn beta in *.

Lemma echo_reply_ok frame m ip_len :
  zlen frame = 1600 → zlen m = 6 → 28 ≤ ip_len → ip_len + 14 ≤ 1514 → 20 ≤ Z.land frame.[14] 0x0F * 4 →
  Z.land frame.[14] 0x0F * 4 + 8 ≤ ip_len → osafe (echo_reply junk frame m ip_len) (λ r, zlen r = 1514).
Proof.
  intros Hf Hm H0 Hl Hi H8. unfold echo_reply, store16, store32.
  eapply osafe_bind; [apply (copy_first frame 14); lia |]. intros r0 [L0 E0]. do 2 kstep.
  eapply osafe_bind; [oacc |]. intros src _. do 3 kstep.
  match goal with |- context [rd8 ?r 14] =>
    assert (rd8 r 14 = Some frame.[14]) as -> by (rewrite rd8_some by lia; congruence) end.
  eapply (osafe_bind _ _ (eq frame.[14])); [by eexists |]. intros b <-.
  pose proof (nibble_range frame.[14]). set (ihl := Z.land frame.[14] 0x0F * 4) in *. clearbody ihl.
  eapply osafe_bind; [oacc |]. intros c _. do 3 ostep.
  eapply osafe_bind; [oacc |]. intros c' _. ofin.
Qed.

Lemma safe_echo frame len raw :
  zlen frame = 1600 → len ≤ 1600 → load16 frame 16 = Some raw → 20 ≤ Z.land frame.[14] 0x0F * 4 →
  Z.land frame.[14] 0x0F * 4 + 8 ≤ bswap16 raw → safe (hw := hw) (send_icmp_echo_reply junk frame len) any.
Proof.
  intros Hf Hl Hr Hi H8. unfold send_icmp_echo_reply. destruct (Z.ltb_spec len (14 + 20 + 8)); [by apply safe_ret |].
  rewrite Hr. apply (safe_bind _ _ (eq raw)); [by apply safe_opt; eexists |]. intros ? <-.
  destruct (_ || _) eqn:E; [by apply safe_ret |].
  eapply safe_bind; [apply safe_mac |]. intros m Hm; cbn beta in Hm.
  eapply safe_bind; [apply safe_opt, echo_reply_ok; (done || lia) |]. intros r Hr'; cbn beta in Hr'.
  eapply safe_bind; [| intros; by apply safe_ret]. rewrite u16_small by lia. apply safe_send; lia.
Qed.

Lemma safe_icmp frame len raw src :
  zlen frame = 1600 → len ≤ 1600 → load16 frame 16 = Some raw → 20 ≤ Z.land frame.[14] 0x0F * 4 →
  14 + bswap16 raw ≤ len →
  safe (hw := hw) (handle_icmp junk frame len (Z.land frame.[14] 0x0F * 4) (bswap16 raw) src) any.
Proof.
  intros Hf Hl Hr Hi Ht. unfold handle_icmp. pose proof (nibble_range frame.[14]).
  destruct (Z.ltb_spec (bswap16 raw - Z.land frame.[14] 0x0F * 4) 8); [nstatus |].
  eapply safe_bind; [apply safe_opt; oacc |]. intros c _. destruct (negb (c =? 0)); [nstatus |].
  eapply safe_bind; [apply safe_opt; oacc |]. intros ty _.
  destruct (ty =? 8); [apply (safe_echo _ _ raw); (done || lia) |].
  destruct (ty =? 0); [| by apply safe_ret].
  eapply safe_bind; [apply safe_opt; oacc |]. intros w _. nget (λ _ : bool, True). intros [] _; [nstatus | by apply safe_ret].
Qed.

Lemma safe_udp frame ihl total src :
  zlen frame = 1600 → 0 ≤ ihl → 14 + total ≤ 1600 → safe (hw := hw) (handle_udp frame ihl total src) any.
Proof.
  intros Hf Hi Ht. unfold handle_udp. destruct (Z.ltb_spec (total - ihl) 8); [nstatus |].
  do 2 (eapply safe_bind; [apply safe_opt; oacc |]; intros ? _).
  set (len := if 127 <? total - ihl - 8 then 127 else total - ihl - 8).
  assert (0 ≤ len ≤ 127 ∧ len ≤ total - ihl - 8) as Hlen by (unfold len; destruct (Z.ltb_spec 127 (total - ihl - 8)); lia).
  clearbody len. nget (λ d : list Z, zlen d = 128). intros old Ho; cbn beta in Ho.
  eapply safe_bind; [apply safe_opt; oacc |]. intros d Hd; cbn beta in Hd.
  apply (safe_bind _ _ (λ d, zlen d = 128 ∧ 0 ∈ d)).
  { apply safe_opt. exists (ablit d len [0]). split; [apply blit_some; zlens; lia |]. rewrite zlen_ablit. split; [lia |].
    assert ((ablit d len [0]).[len] = 0) as E.
    { rewrite aget_ablit_in by (zlens; lia). by rewrite Z.sub_diag. }
    rewrite <- E at 1. eapply list_elem_of_lookup_2, lookup_aget. rewrite zlen_ablit. lia. }
  intros d' [L N]. apply safe_mod; [| done]. intros n []. by constructor.
Qed.

Lemma safe_ipv4 frame len : zlen frame = 1600 → len ≤ 1600 → safe (hw := hw) (handle_ipv4 junk frame len) any.
Proof.
  intros Hf Hl. unfold handle_ipv4. destruct (Z.ltb_spec len 34); [by apply safe_ret |].
  rewrite (rd8_some frame 14) by lia. apply (safe_bind _ _ (eq frame.[14])); [by apply safe_opt; eexists |]. intros ? <-.
  pose proof (nibble_range frame.[14]). destruct (_ || _) eqn:E; [by apply safe_ret |].
  destruct (load16_ok frame 16) as [raw Hraw]; [lia.. |]. change (14 + 2) with 16. rewrite Hraw.
  apply (safe_bind _ _ (eq raw)); [by apply safe_opt; eexists |]. intros ? <-.
  destruct (Z.ltb_spec (bswap16 raw) (Z.land frame.[14] 0x0F * 4)); [nstatus |].
  destruct (Z.ltb_spec len (14 + bswap16 raw)); [nstatus |].
  eapply safe_bind; [apply safe_opt; oacc |]. intros c _. destruct (negb (c =? 0)); [nstatus |].
  do 2 (eapply safe_bind; [apply safe_opt; oacc |]; intros ? _).
  destruct (negb _); [by apply safe_ret |].
  eapply safe_bind; [apply safe_opt; oacc |]. intros m Hm; cbn beta in Hm.
  eapply safe_bind; [by apply safe_put |]. intros _ _.
  eapply safe_bind; [apply safe_opt; oacc |]. intros proto _.
  destruct (proto =? IP_PROTO_ICMP); [apply safe_icmp; (done || lia) |].
  destruct (proto =? IP_PROTO_UDP); [apply safe_udp; lia | by apply safe_ret].
Qed.

Lemma safe_dispatch frame len : zlen frame = 1600 → len ≤ 1600 → safe (hw := hw) (dispatch junk frame len) any.
Proof.
  intros Hf Hl. unfold dispatch. eapply safe_bind; [apply safe_opt; oacc |]. intros raw _.
  repeat case_match; [by apply safe_handle_arp | by apply safe_ipv4 | nstatus].
Qed.

Lemma safe_poll_loop n frame len h :
  zlen frame = 1600 → safe (hw := hw) (poll_loop junk n frame len h) (λ r, h ≤ r ≤ h + Z.of_nat n).
Proof.
  revert frame len h. induction n as [| n IH]; intros frame len h Hf; cbn [poll_loop]; [apply safe_ret; lia |].
  eapply safe_bind; [by apply safe_receive |]. intros [[r f] l] [Lf Ll]. cbn [fst snd] in Lf, Ll.
  destruct (_ || _) eqn:E; [apply safe_ret; lia |].
  eapply safe_bind; [apply safe_dispatch; lia |]. intros _ _. eapply safe_mono; [by apply IH |]. cbn beta. lia.
Qed.
Lemma safe_poll : safe (hw := hw) (net_poll junk) (λ r, 0 ≤ r ≤ 8).
Proof. eapply safe_mono; [apply safe_poll_loop, uninit_len; lia |]. cbn beta. lia. Qed.

(** ** Waiting *)
Lemma safe_spin {A} n (body : nm (hw := hw) (option A)) (P : A → Prop) :
  safe body (λ r, ∀ a, r = Some a → P a) → safe (spin n body) (λ r, ∀ a, r = Some a → P a).
Proof.
  intros Hb st Hst. unfold spin. match goal with |- context [iterZ n ?f st] => set (step := f) end.
  assert (match iterZ n step st with
          | inl s => net_ok s | inr r => ∃ a n', r = Some (Some a, n') ∧ P a ∧ net_ok n' end) as HI.
  { apply (iterZ_inv net_ok); [done | |]; unfold step; intros s r Hs E;
      destruct (Hb s Hs) as (o & s2 & Eb & Po & Hs2); rewrite Eb in E; destruct o; simplify_eq; eauto 8. }
  destruct (iterZ n step st) as [st' | r]; [by exists None, st' |].
  destruct HI as (a & n' & -> & Pa & Hn'). exists (Some a), n'. split; [done |]. split; [| done]. by intros ? [= <-].
Qed.

Definition slot_result (a : Z + option Z) : Prop := match a with inl r => r = -1 | inr e => ∀ i, e = Some i → 0 ≤ i < 8 end.
Lemma safe_ask ip : safe (hw := hw) (ask junk ip) slot_result.
Proof.
  unfold ask. eapply safe_bind; [apply safe_request_arp |]. intros r _. destruct (negb (r =? 0)); [by apply safe_ret |].
  eapply safe_bind; [apply safe_spin |].
  { eapply safe_bind; [apply safe_poll |]. intros _ _. apply safe_lookup. }
  intros e He. by apply safe_ret.
Qed.
Lemma safe_resolve n ip : safe (hw := hw) (resolve_mac junk n ip) slot_result.
Proof.
  induction n as [| n IH]; cbn [resolve_mac]; [by apply safe_ret |].
  eapply safe_bind; [apply safe_ask |]. intros [r | [i |]] Ha; [by apply safe_ret.. | done].
Qed.
Lemma safe_entry_mac i : 0 ≤ i < 8 → safe (hw := hw) (n_get (λ n, a_mac (arp_cache n).[i])) (λ m, zlen m = 6).
Proof.
  intros Hi. apply safe_get. intros n []. by apply (Forall_aget (λ e, zlen (a_mac e) = 6)); [| lia].
Qed.

Lemma eth_header_ok p dst m k :
  zlen p = k → 58 ≤ k → zlen dst = 6 → zlen m = 6 → osafe (eth_header p dst m) (λ p, zlen p = k).
Proof. intros <- Hk Hd Hm. unfold eth_header. do 2 ostep. ofin. Qed.
Lemma ip_header_ok p len proto ip k : zlen p = k → 58 ≤ k → osafe (ip_header p len proto ip) (λ p, zlen p = k).
Proof. intros <- Hk. unfold ip_header. do 7 ostep. ofin. Qed.
Lemma ping_frame_ok dst m ip seq : zlen dst = 6 → zlen m = 6 → osafe (ping_frame dst m ip seq) (λ p, zlen p = 58).
Proof.
  intros Hd Hm. unfold ping_frame. eapply osafe_bind; [apply (eth_header_ok _ _ _ 58); rewrite ?zlen_replicate; lia |].
  intros p1 L1; cbn beta in L1. eapply osafe_bind; [by apply (ip_header_ok _ _ _ _ 58) |].
  intros p2 L2; cbn beta in L2. change PING_DATA with (PING_DATA ++ []).
  do 3 ostep. eapply osafe_bind; [apply blit_ok; [lia |]; change (zlen (PING_DATA ++ [])) with 16; lia |].
  intros p3 L3; cbn beta in L3. ostep. ofin.
Qed.
Lemma udp_frame_ok dst m ip port len data :
  zlen dst = 6 → zlen m = 6 → 0 ≤ len ≤ 256 → len ≤ zlen data → osafe (udp_frame dst m ip port len data) (λ p, zlen p = 298).
Proof.
  intros Hd Hm Hl Hdata. unfold udp_frame. eapply osafe_bind; [apply (eth_header_ok _ _ _ 298); rewrite ?zlen_replicate; lia |].
  intros p1 L1; cbn beta in L1. eapply osafe_bind; [by apply (ip_header_ok _ _ _ _ 298) |].
  intros p2 L2; cbn beta in L2. do 3 ostep. ofin.
Qed.

Lemma safe_echo_request ip i : 0 ≤ i < 8 → safe (hw := hw) (echo_request junk ip i) (λ r, r = -1 ∨ r = 0 ∨ r = 1).
Proof.
  intros Hi. unfold echo_request. eapply safe_bind; [by apply safe_entry_mac |]. intros dst Hd; cbn beta in Hd.
  eapply safe_bind; [apply safe_mac |]. intros m Hm; cbn beta in Hm. nget (λ _ : Z, True). intros seq _.
  eapply (safe_bind _ _ any); [apply safe_mod; [intros; by apply ok_set_pending | done] |]. intros _ _. nstep.
  eapply safe_bind; [by apply safe_opt, ping_frame_ok |]. intros p Lp; cbn beta in Lp.
  eapply safe_bind; [apply safe_send; lia |]. intros r _. destruct (negb (r =? 0)); [apply safe_ret; auto |].
  eapply safe_bind; [apply (safe_spin _ _ any) |].
  { eapply safe_bind; [apply safe_poll |]. intros _ _. by apply safe_get. }
  intros [] _; apply safe_ret; auto.
Qed.
Lemma safe_udp_to i ip port data len :
  0 ≤ i < 8 → 0 ≤ len ≤ 256 → len ≤ zlen data →
  safe (hw := hw) (send_udp_to i ip port data len) (λ r, r = 0 ∨ r = -1).
Proof.
  intros Hi Hl Hd. unfold send_udp_to. eapply safe_bind; [by apply safe_entry_mac |]. intros dst Hdst; cbn beta in Hdst.
  eapply safe_bind; [apply safe_mac |]. intros m Hm; cbn beta in Hm.
  eapply safe_bind; [by apply safe_opt, udp_frame_ok |]. intros p Lp; cbn beta in Lp.
  assert (u16 (14 + u16 (20 + u16 (8 + len))) = 42 + len) as -> by ulia. apply safe_send; lia.
Qed.

(** ** Properties *)


End Handlers.
End NetSafe.
