(* ===== verification/NetProps.v ===== *)
(** * The network stack against its specifications

    The ARP cache refines a bounded map, the ARP reply is the frame RFC 826
    asks for, the driver delivers the bytes of the card's receive ring (with a
    model of the NE2000's ring and remote DMA as the card), and the echo
    request the stack builds does not pass the stack's own header test. *)
From S2P Require Import Prelude.
From S2P Require Import Ata.
From S2P Require Import Packet.
From S2P Require Import Net.
From S2P Require Import NetSafe.
Import Ata Packet Net NetSafe.

Module NetProps.

(** ** The ARP cache *)
Definition holds (ip : Z) (e : arp_entry_t) : bool := a_valid e && (a_ip e =? ip).
Definition arp_mac (ip : Z) (c : list arp_entry_t) : option (list Z) :=
  i ← arp_find ip c; Some (a_mac c.[i]).
Definition arp_unique (c : list arp_entry_t) : Prop :=
  ∀ i j ip, 0 ≤ i < 8 → 0 ≤ j < 8 → holds ip c.[i] = true → holds ip c.[j] = true → i = j.
Definition arp_full (c : list arp_entry_t) : Prop := ∀ i, 0 ≤ i < 8 → a_valid c.[i] = true.

Lemma arp_find_spec ip c :
  match arp_find ip c with
  | Some i => 0 ≤ i < 8 ∧ holds ip c.[i] = true
  | None => ∀ j, 0 ≤ j < 8 → holds ip c.[j] = false
  end.
Proof.
  unfold arp_find. set (body := λ (i : Z) (_ : ()), _).
  assert (match for_range 0 8 body tt with
          | inl _ => ∀ j, 0 ≤ j < Z.max 0 8 → holds ip c.[j] = false
          | inr i => 0 ≤ i < 8 ∧ holds ip c.[i] = true end) as HI.
  { apply (for_range_inv (λ k _, ∀ j, 0 ≤ j < k → holds ip c.[j] = false)); unfold body; [lia | |];
      intros i [] r Hi Hb; fold (holds ip c.[i]); destruct (holds ip c.[i]) eqn:E; intros [= <-]; [| done].
    intros j Hj. destruct (decide (j = i)) as [-> |]; [done |]. apply Hb. lia. }
  by destruct (for_range 0 8 body tt).
Qed.

Lemma arp_mac_some ip c i :
  arp_unique c → 0 ≤ i < 8 → holds ip c.[i] = true → arp_mac ip c = Some (a_mac c.[i]).
Proof.
  intros U Hi Hh. unfold arp_mac. pose proof (arp_find_spec ip c) as F. destruct (arp_find ip c) as [j |].
  - destruct F as [Hj Hhj]. by rewrite (U i j ip) by done.
  - by rewrite F in Hh.
Qed.
Lemma arp_mac_none ip c : (∀ j, 0 ≤ j < 8 → holds ip c.[j] = false) → arp_mac ip c = None.
Proof.
  intros Hn. unfold arp_mac. pose proof (arp_find_spec ip c) as F. destruct (arp_find ip c) as [j |]; [| done].
  destruct F as [Hj Hh]. by rewrite Hn in Hh.
Qed.

(** The three ways [arp_cache_put] chooses its slot. *)
Lemma put_slot_spec ip c :
  let s := put_slot ip c in
  0 ≤ s < 8 ∧
  (holds ip c.[s] = true ∨
   (∀ j, 0 ≤ j < 8 → holds ip c.[j] = false) ∧ (a_valid c.[s] = false ∨ arp_full c ∧ s = 0)).
Proof.
  cbn zeta. split; [apply put_slot_range |]. unfold put_slot. set (body := λ (i slot : Z), _).
  assert (match for_range 0 8 body (-1) with
    | inl s => (∀ j, 0 ≤ j < Z.max 0 8 → holds ip c.[j] = false) ∧
        (s = -1 ∧ (∀ j, 0 ≤ j < Z.max 0 8 → a_valid c.[j] = true) ∨ 0 ≤ s ∧ a_valid c.[s] = false)
    | inr i => holds ip c.[i] = true end) as HI.
  { apply (for_range_inv (λ k s, (∀ j, 0 ≤ j < k → holds ip c.[j] = false) ∧
      (s = -1 ∧ (∀ j, 0 ≤ j < k → a_valid c.[j] = true) ∨ 0 ≤ s ∧ a_valid c.[s] = false))); unfold body.
    - split; [lia |]. left. split; [done | lia].
    - intros i s r Hi [Hb Hs]. fold (holds ip c.[i]). destruct (holds ip c.[i]) eqn:E; [done |]. intros Er. split.
      { intros j Hj. destruct (decide (j = i)) as [-> |]; [done |]. apply Hb. lia. }
      destruct Hs as [[-> Hv] | [H0 Hv]].
      + destruct (a_valid c.[i]) eqn:V; cbn in Er; injection Er as <-; [left | right; split; [lia | done]].
        split; [done |]. intros j Hj. destruct (decide (j = i)) as [-> |]; [done |]. apply Hv. lia.
      + right. replace (s <? 0) with false in Er by lia. rewrite andb_false_r in Er. by injection Er as <-.
    - intros i s r Hi _. fold (holds ip c.[i]). destruct (holds ip c.[i]) eqn:E; [by intros [= <-] |]. by case_match. }
  destruct (for_range 0 8 body (-1)) as [s | i]; [| by left]. destruct HI as [Hn Hs]. right. split; [done |].
  destruct Hs as [[-> Hv] | [H0 Hv]]; cbn [Z.ltb Z.compare]; [right; by split | left]. by replace (s <? 0) with false by lia.
Qed.

(** The ARP cache refines a map of at most eight addresses: after
    [arp_cache_put] the address maps to the new hardware address, every other
    address keeps its own, except that a full cache gives up the entry of slot
    0 for an address it did not have; no address is ever entered twice. *)
Theorem arp_cache_put_refines ip m now c :
  zlen c = 8 → arp_unique c →
  let c' := arp_put ip m now c in
  arp_unique c' ∧ arp_mac ip c' = Some m ∧
  ∀ ip', ip' ≠ ip →
    arp_mac ip' c' = arp_mac ip' c ∨
    arp_full c ∧ arp_mac ip c = None ∧ a_ip c.[0] = ip' ∧ arp_mac ip' c' = None.
Proof.
  intros L U. cbn zeta. unfold arp_put. destruct (put_slot_spec ip c) as [Hs Hw]. cbn zeta in *.
  set (s := put_slot ip c) in *. clearbody s. set (e := ArpEntry ip m now true).
  assert (holds ip e = true) as He by (unfold holds, e; cbn; lia).
  assert (∀ ip' j, 0 ≤ j < 8 → holds ip' (c.[s <- e]).[j] = true →
    (j = s ∧ ip' = ip) ∨ (j ≠ s ∧ holds ip' c.[j] = true)) as Inv.
  { intros ip' j Hj. destruct (decide (s = j)) as [<- | Hne].
    - rewrite aget_aset_eq by lia. unfold holds, e. cbn. intros E. left. split; [done | lia].
    - rewrite aget_aset_ne by done. auto. }
  assert (arp_unique (c.[s <- e])) as U'.
  { intros i j ip' Hi Hj H1 H2. apply Inv in H1; [| done]. apply Inv in H2; [| done].
    destruct H1 as [[-> ->] | [N1 H1]], H2 as [[-> E2] | [N2 H2]]; subst; try done.
    - destruct Hw as [Hw | [Hw _]]; [by rewrite (U _ _ _ Hs Hj Hw H2) in N2 | by rewrite Hw in H2].
    - destruct Hw as [Hw | [Hw _]]; [by rewrite (U _ _ _ Hs Hi Hw H1) in N1 | by rewrite Hw in H1].
    - by apply (U i j ip'). }
  split; [done |]. split.
  { rewrite (arp_mac_some ip _ s); [by rewrite aget_aset_eq by lia | done | done |]. by rewrite aget_aset_eq by lia. }
  intros ip' Hne. pose proof (arp_find_spec ip' c) as F. unfold arp_mac at 2. destruct (arp_find ip' c) as [j |] eqn:Ef.
  - destruct F as [Hj Hh]. destruct (decide (s = j)) as [-> | Hsj].
    + right. destruct Hw as [Hw | [Hw [Hv | [Hfull ->]]]].
      { unfold holds in Hw, Hh. apply andb_prop in Hw, Hh. lia. }
      { unfold holds in Hh. by rewrite Hv in Hh. }
      unfold holds in Hh. apply andb_prop in Hh as [_ Hip]. split; [done |]. split; [by apply arp_mac_none |].
      split; [lia |]. apply arp_mac_none. intros k Hk. destruct (holds ip' (c.[0 <- e]).[k]) eqn:E; [| done].
      apply Inv in E as [[_ ->] | [Nk E]]; [done | | done]. exfalso. apply Nk.
      apply (U k 0 ip'); [lia | lia | done |]. unfold holds. rewrite Hfull by lia. cbn. lia.
    + left. cbn. rewrite (arp_mac_some ip' _ j); [by rewrite aget_aset_ne by done | done | done |].
      by rewrite aget_aset_ne by done.
  - left. apply arp_mac_none. intros k Hk. destruct (holds ip' (c.[s <- e]).[k]) eqn:E; [| done].
    apply Inv in E as [[_ ->] | [_ E]]; [done | | done]. by rewrite F in E.
Qed.

(** ** Running the monad *)
Section Run.
Context {hw : Type} `{NetEnv hw} {A B : Type}.
Implicit Types n : net_state (hw := hw).
Lemma run_get (f : net_state (hw := hw) → A) (k : A → nm B) n : (n_get f ≫= k) n = k (f n) n.
Proof. done. Qed.
Lemma run_out p v (k : unit → nm B) n : (n_out p v ≫= k) n = k tt (set_dev (outb (u16 p) v (dev n)) n).
Proof. done. Qed.
Lemma run_mod f (k : unit → nm B) n : (n_mod f ≫= k) n = k tt (f n).
Proof. done. Qed.
Lemma run_status f (k : unit → nm B) n : (n_status f ≫= k) n = k tt (set_status f n).
Proof. done. Qed.
Lemma run_opt (o : option A) a (k : A → nm B) n : o = Some a → (n_opt o ≫= k) n = k a n.
Proof. by intros ->. Qed.
Lemma run_bind (m : nm A) (k : A → nm B) n a n' : m n = Some (a, n') → (m ≫= k) n = k a n'.
Proof. intros E. unfold mbind, nm_bind. by rewrite E. Qed.
End Run.
Ltac nrun := repeat first [rewrite run_get | rewrite run_out | rewrite run_mod | rewrite run_status]; cbn beta zeta.

(** ** Transmission *)
#[export] Instance logged_env {hw} `{NetEnv hw} : NetEnv (logged hw) := {|
  net_io := logged_io; timer_ticks := λ d, timer_ticks (base d)
|}.

Section Sending.
Context {hw : Type} `{NetEnv hw}.
Implicit Types n : net_state (hw := logged hw).

(** The accesses that bracket the data of a frame of [l] bytes on the card at [io]. *)
Definition send_pre (io l : Z) : list event :=
  [EOutb (u16 (io + NE_ISR)) 0x40; EOutb (u16 (io + NE_RBCR0)) (Z.land l 0xFF);
   EOutb (u16 (io + NE_RBCR0 + 1)) (u8 (Z.shiftr l 8)); EOutb (u16 (io + NE_RSAR0)) 0x00;
   EOutb (u16 (io + NE_RSAR0 + 1)) 0x40; EOutb (u16 (io + NE_CR)) 0x12].
Definition send_post (io l : Z) : list event :=
  [EOutb (u16 (io + NE_TPSR)) 0x40; EOutb (u16 (io + NE_TBCR0)) (Z.land l 0xFF);
   EOutb (u16 (io + NE_TBCR0 + 1)) (u8 (Z.shiftr l 8)); EOutb (u16 (io + NE_CR)) 0x26].

Lemma outsw_log port ws n :
  ∃ d, n_outsw port ws n = Some (tt, set_dev d n) ∧ log d = log (dev n) ++ (EOutw (u16 port) <$> ws).
Proof.
  revert n. induction ws as [| w ws IH]; intros n; cbn [n_outsw].
  - exists (dev n). rewrite app_nil_r. by destruct n.
  - destruct (IH (set_dev (outw (u16 port) w (dev n)) n)) as (d & E & L). exists d. split; [exact E |].
    rewrite L. cbn. by rewrite <- app_assoc.
Qed.

(** What the card is told when a frame is sent. *)
Lemma send_log data len n :
  not_ready n = false → 0 < len ≤ 1536 → len ≤ zlen data →
  let io := u16 (io_base (status n)) in let l := Z.max 60 len in
  ∃ body d, net_send_packet data len n = Some (0, set_status inc_tx (set_dev d n)) ∧
    log d = log (dev n) ++ send_pre io l ++ (EOutw (u16 (io + NE_DATA)) <$> buffer_words body) ++ send_post io l ∧
    body = take (Z.to_nat (2 * ((l + 1) / 2))) (take (Z.to_nat len) data ++ replicate 1536 0).
Proof.
  intros Hr Hl Hd. cbn zeta. unfold net_send_packet.
  assert ((if len <? 60 then 60 else len) = Z.max 60 len) as -> by (destruct (Z.ltb_spec len 60); lia).
  set (l := Z.max 60 len). assert (60 ≤ l ≤ 1536) as Hlr by (unfold l; lia).
  assert (copy (replicate 1536 0) 0 data 0 len = Some (ablit (replicate 1536 0) 0 (take (Z.to_nat len) data))) as Ec.
  { unfold copy. rewrite slice_some by lia. cbn [mbind option_bind]. rewrite drop_0, blit_some; [done | lia |].
    rewrite zlen_take, zlen_replicate. lia. }
  rewrite run_get. cbn beta. rewrite Hr. replace (len =? 0) with false by lia. cbn [orb].
  set (frame := ablit (replicate 1536 0) 0 (take (Z.to_nat len) data)) in *.
  assert (zlen frame = 1536) as Lf by (unfold frame; by rewrite zlen_ablit, zlen_replicate).
  assert (slice frame 0 (2 * ((l + 1) / 2)) = Some (take (Z.to_nat (2 * ((l + 1) / 2))) (take (Z.to_nat len) data ++ replicate 1536 0))) as Es.
  { rewrite slice_some by zdm. rewrite drop_0. f_equal. apply array_ext.
    - rewrite !zlen_take, zlen_app, zlen_replicate, Lf, zlen_take. zdm.
    - intros i. rewrite zlen_take, Lf. intros Hi. rewrite !aget_take by lia. unfold frame.
      destruct (decide (i < len)).
      + rewrite aget_ablit_in by (rewrite ?zlen_take, ?zlen_replicate; lia).
        rewrite aget_app_l by (rewrite zlen_take; lia). f_equal. lia.
      + rewrite aget_ablit_out by (rewrite zlen_take; lia). rewrite aget_app_r by (rewrite zlen_take; lia).
        rewrite !aget_replicate by (rewrite ?zlen_take; zdm). done. }
  rewrite (run_opt _ _ _ _ Ec). nrun. rewrite (run_opt _ _ _ _ Es).
  match goal with |- context [(n_outsw ?p ?ws ≫= _) ?n0] => destruct (outsw_log p ws n0) as (d & E & Ld) end.
  rewrite (run_bind _ _ _ _ _ E). nrun. eexists _, _. split; [reflexivity |]. split; [| reflexivity].
  cbn [log outb logged_io net_io logged_env dev set_dev] in *. rewrite Ld. by rewrite <- !app_assoc.
Qed.

(** The reply RFC 826 asks for: to the sender's Ethernet address, opcode 2,
    our addresses as the sender, the request's sender as the target. *)
Definition arp_answer (eth_src m sha spa : list Z) : list Z :=
  eth_src ++ m ++ [0x08; 0x06] ++ [0; 1; 0x08; 0x00; 6; 4; 0; 2] ++ m ++ [10; 0; 2; 15] ++ sha ++ spa.

Lemma list6 (l : list Z) : zlen l = 6 → ∃ a b c d e f, l = [a; b; c; d; e; f].
Proof.
  unfold zlen. intros Hl. destruct l as [| a [| b [| c [| d [| e [| f [| g l]]]]]]]; cbn [length] in Hl; try lia. eauto 8.
Qed.
Lemma list4 (l : list Z) : zlen l = 4 → ∃ a b c d, l = [a; b; c; d].
Proof. unfold zlen. intros Hl. destruct l as [| a [| b [| c [| d [| e l]]]]]; cbn [length] in Hl; try lia. eauto 6. Qed.

Lemma arp_reply_answer junk req m :
  42 ≤ zlen req → zlen m = 6 →
  ∃ eth_src sha spa, slice req 6 6 = Some eth_src ∧ slice req 22 6 = Some sha ∧ slice req 28 4 = Some spa ∧
    arp_reply junk req m = Some (arp_answer eth_src m sha spa).
Proof.
  intros Hr Hm. destruct (slice_ok req 6 6) as (es & E1 & L1); [lia.. |].
  destruct (slice_ok req 22 6) as (sha & E2 & L2); [lia.. |]. destruct (slice_ok req 28 4) as (spa & E3 & L3); [lia.. |].
  exists es, sha, spa. split; [done |]. split; [done |]. split; [done |]. unfold arp_reply, copy. rewrite E1, E2, E3.
  destruct (list6 es L1) as (e0 & e1 & e2 & e3 & e4 & e5 & ->). destruct (list6 m Hm) as (m0 & m1 & m2 & m3 & m4 & m5 & ->).
  destruct (list6 sha L2) as (s0 & s1 & s2 & s3 & s4 & s5 & ->). destruct (list4 spa L3) as (p0 & p1 & p2 & p3 & ->).
  by vm_compute.
Qed.

(** An ARP request for our address is answered: on a working card,
    handling it enters the sender into the cache and transmits exactly one
    frame, the 42-byte reply padded to 60, whatever the stack held before. *)
Theorem arp_request_answered junk frame len n raw tpa :
  not_ready n = false → net_ok n → zlen frame = 1600 → 42 ≤ len →
  load16 frame 20 = Some raw → bswap16 raw = 1 → load32 frame 38 = Some tpa → bswap32 tpa = LOCAL_IP →
  ∃ n' d eth_src sha spa ip,
    handle_arp junk frame len n = Some (tt, n') ∧ dev n' = d ∧
    slice frame 6 6 = Some eth_src ∧ slice frame 22 6 = Some sha ∧ slice frame 28 4 = Some spa ∧
    bswap32 <$> load32 frame 28 = Some ip ∧
    arp_cache n' = arp_put ip sha (timer_ticks (dev n)) (arp_cache n) ∧
    let io := u16 (io_base (status n)) in
    log d = log (dev n) ++ send_pre io 60 ++
      (EOutw (u16 (io + NE_DATA)) <$> buffer_words (arp_answer eth_src (mac (status n)) sha spa ++ replicate 18 0)) ++
      send_post io 60.
Proof.
  intros Hr Hn Hf Hl E1 Hop E2 Htpa.
  destruct (arp_reply_answer junk frame (mac (status n))) as (es & sha & spa & S1 & S2 & S3 & S4); [lia | apply Hn |].
  destruct (load32_ok frame 28) as (v & E3); [lia.. |].
  set (n1 := set_status (st_arp (valid_count (arp_put (bswap32 v) sha (timer_ticks (dev n)) (arp_cache n))))
    (set_arp (arp_put (bswap32 v) sha (timer_ticks (dev n)) (arp_cache n)) n)).
  destruct (send_log (arp_answer es (mac (status n)) sha spa) 42 n1) as (body & d & Es & Ld & Hb); [done | lia | |].
  { destruct (slice_zlen _ _ _ _ S1) as [L1 _]. destruct (slice_zlen _ _ _ _ S2) as [L2 _].
    destruct (slice_zlen _ _ _ _ S3) as [L3 _]. unfold arp_answer. rewrite !zlen_app, L1, L2, L3, (ok_mac n Hn). done. }
  exists (set_status inc_tx (set_dev d n1)), d, es, sha, spa, (bswap32 v). split.
  { unfold handle_arp. replace (len <? 42) with false by lia.
    rewrite (run_opt _ _ _ _ E1), (run_opt _ _ _ _ E3), (run_opt _ _ _ _ E2), (run_opt _ _ _ _ S2).
    unfold arp_cache_put. rewrite run_mod. fold n1. rewrite Hop, Htpa. cbn [Z.eqb Pos.eqb LOCAL_IP andb].
    unfold send_arp_reply. rewrite run_get. cbn beta. change (mac (status n1)) with (mac (status n)).
    rewrite (run_opt _ _ _ _ S4). by rewrite (run_bind _ _ _ _ _ Es). }
  split; [done |]. split; [done |]. split; [done |]. split; [done |]. split; [by rewrite E3 |]. split; [done |].
  cbn zeta. rewrite Ld, Hb. cbn [n1 set_status set_arp status st_arp io_base dev].
  change (Z.max 60 42) with 60. do 3 f_equal. do 3 f_equal.
  destruct (slice_zlen _ _ _ _ S1) as [L1 _]. destruct (slice_zlen _ _ _ _ S2) as [L2 _]. destruct (slice_zlen _ _ _ _ S3) as [L3 _].
  destruct (list6 es L1) as (e0 & e1 & e2 & e3 & e4 & e5 & ->). destruct (list6 _ (ok_mac n Hn)) as (m0 & m1 & m2 & m3 & m4 & m5 & ->).
  destruct (list6 sha L2) as (s0 & s1 & s2 & s3 & s4 & s5 & ->). destruct (list4 spa L3) as (p0 & p1 & p2 & p3 & ->).
  by vm_compute.
Qed.
End Sending.
(** ** The receive ring

    The part of the NE2000 that reception uses: the page select of the command
    register, the remote DMA address, the current page (readable when page 1
    is selected) and 64 KiB of buffer memory. *)
Record ne2000 := Card { io : Z; page : Z; rsar : Z; curr : Z; bnry : Z; buf : Z → Z }.
Definition card_out (p v : Z) (c : ne2000) : ne2000 :=
  if p =? io c + NE_CR then Card (io c) (Z.shiftr v 6) (rsar c) (curr c) (bnry c) (buf c)
  else if negb (page c =? 0) then c
  else if p =? io c + NE_RSAR0 then Card (io c) (page c) (256 * (rsar c / 256) + v) (curr c) (bnry c) (buf c)
  else if p =? io c + NE_RSAR0 + 1 then Card (io c) (page c) (256 * v + rsar c mod 256) (curr c) (bnry c) (buf c)
  else if p =? io c + NE_BNRY then Card (io c) (page c) (rsar c) (curr c) v (buf c)
  else c.
#[export] Instance card_io : PortIO ne2000 := {|
  inb := λ p c, (if (p =? io c + NE_CURR) && (page c =? 1) then curr c else 0, c);
  inw := λ p c, if p =? io c + NE_DATA
    then (buf c (rsar c) + 256 * buf c (rsar c + 1), Card (io c) (page c) (rsar c + 2) (curr c) (bnry c) (buf c))
    else (0, c);
  outb := card_out;
  outw := λ _ _ c, c
|}.
#[export] Instance card_env : NetEnv ne2000 := {| timer_ticks := λ _, 0 |}.

(** The card behind the state, at port [b], with page 0 selected. *)
Definition at_card (b a q bn : Z) (f : Z → Z) (n : net_state (hw := ne2000)) : Prop :=
  dev n = Card b 0 a q bn f.
Lemma port_small b k : 0 < b ≤ 0xFFE0 → 0 ≤ k ≤ 0x1F → u16 (b + k) = b + k.
Proof. intros. apply u16_small. lia. Qed.

Lemma out_ignored b a q bn f k v n :
  0 < b ≤ 0xFFE0 → at_card b a q bn f n → k = NE_RBCR0 ∨ k = NE_RBCR0 + 1 ∨ k = NE_ISR →
  outb (u16 (b + k)) v (dev n) = dev n.
Proof.
  intros Hb Hc Hk. assert (0 ≤ k ≤ 0x1F) by (unfold NE_RBCR0, NE_ISR in Hk; lia). rewrite Hc, port_small by lia.
  cbn [outb card_io net_io card_env]. unfold card_out, NE_CR, NE_RSAR0, NE_BNRY, NE_RBCR0, NE_ISR in *.
  cbn [io page]. repeat case_match; (done || lia).
Qed.

(** [remote_read] leaves the DMA address at [addr]. *)
Lemma remote_read_card b a q bn f count addr n :
  0 < b ≤ 0xFFE0 → at_card b a q bn f n → 0 ≤ addr < 65536 →
  remote_read b count addr n = Some (tt, set_dev (Card b 0 addr q bn f) n).
Proof.
  intros Hb Hc Ha. unfold remote_read. rewrite <- (Z.add_assoc b NE_RBCR0 1), <- (Z.add_assoc b NE_RSAR0 1).
  rewrite run_out, (out_ignored b a q bn f) by auto. assert (set_dev (dev n) n = n) as -> by (by destruct n).
  rewrite run_out, (out_ignored b a q bn f) by auto. assert (set_dev (dev n) n = n) as -> by (by destruct n).
  rewrite !run_out. unfold n_out, n_mod. cbn [dev set_dev]. rewrite Hc.
  rewrite !port_small by (unfold NE_RSAR0, NE_CR; lia).
  cbn [outb card_io net_io card_env]. unfold card_out, NE_CR, NE_RSAR0, NE_BNRY. cbn [io page rsar curr bnry buf].
  replace (b + 8 =? b + 0) with false by lia. replace (b + 8 =? b + 8) with true by lia. cbn [negb Z.eqb].
  cbn [io page rsar curr bnry buf]. replace (b + (8 + 1) =? b + 0) with false by lia.
  replace (b + (8 + 1) =? b + 8) with false by lia. replace (b + (8 + 1) =? b + 8 + 1) with true by lia. cbn [negb Z.eqb].
  cbn [io page rsar curr bnry buf]. replace (b + 0 =? b + 0) with true by lia. cbn.
  assert (256 * u8 (Z.shiftr addr 8) + (256 * (a / 256) + Z.land addr 255) mod 256 = addr) as ->; [| done].
  change 255 with (Z.ones 8). rewrite Z.land_ones, Z.shiftr_div_pow2 by lia. ulia.
Qed.

(** A remote read of [c] words fetches the buffer memory in order. *)
Lemma inw_card b q bn f c a n :
  0 < b ≤ 0xFFE0 → (∀ x, is_byte (f x)) → at_card b a q bn f n →
  ∃ ws, n_inw (b + NE_DATA) c n = Some (ws, set_dev (Card b 0 (a + 2 * Z.of_nat c) q bn f) n) ∧
    ws ≫= le_bytes 2 = (λ i, f (a + i)) <$> seqZ 0 (2 * Z.of_nat c).
Proof.
  intros Hb Hf. revert a n. induction c as [| c IH]; intros a n Hc.
  - exists []. split; [| done]. cbn [n_inw]. rewrite Z.add_0_r, <- Hc. by destruct n.
  - cbn [n_inw]. rewrite port_small by (unfold NE_DATA; lia). rewrite Hc. cbn [inw card_io net_io card_env io].
    replace (b + NE_DATA =? b + NE_DATA) with true by lia. cbn [page rsar curr bnry buf].
    destruct (IH (a + 2) (set_dev (Card b 0 (a + 2) q bn f) n)) as (ws & E & W); [done |].
    exists (u16 (f a + 256 * f (a + 1)) :: ws). rewrite (run_bind _ _ _ _ _ E). split.
    { replace (a + 2 * Z.of_nat (S c)) with (a + 2 + 2 * Z.of_nat c) by lia. done. }
    rewrite bind_cons, W. pose proof (Hf a) as Ha. pose proof (Hf (a + 1)) as Ha1. unfold is_byte in *.
    rewrite u16_small by lia. cbn [le_bytes app].
    replace (2 * Z.of_nat (S c)) with (Z.succ (Z.succ (2 * Z.of_nat c))) by lia.
    rewrite (seqZ_cons 0 (Z.succ _)), (seqZ_cons (Z.succ 0)), !Z.pred_succ by lia.
    change (Z.succ (Z.succ 0)) with (2 + 0). rewrite <- (fmap_add_seqZ 2 0). cbn [fmap list_fmap]. rewrite <- list_fmap_compose.
    f_equal; [unfold u8; rewrite Z.add_0_r; zdm |]. f_equal; [unfold u8; change (Z.succ 0) with 1; zdm |].
    apply list_fmap_ext. intros i x _. cbn. f_equal. lia.
Qed.

Lemma insw_card b q bn f data off count a n :
  0 < b ≤ 0xFFE0 → (∀ x, is_byte (f x)) → at_card b a q bn f n →
  0 ≤ off → 0 ≤ count → off + 2 * count ≤ zlen data →
  n_insw (b + NE_DATA) data off count n =
    Some (ablit data off ((λ i, f (a + i)) <$> seqZ 0 (2 * count)), set_dev (Card b 0 (a + 2 * count) q bn f) n).
Proof.
  intros Hb Hf Hc Ho Hcount Hl. unfold n_insw. destruct (inw_card b q bn f (Z.to_nat count) a n Hb Hf Hc) as (ws & E & W).
  rewrite Z2Nat.id in E, W by done. rewrite (run_bind _ _ _ _ _ E). rewrite W.
  unfold n_opt. rewrite blit_some; [done | done |]. rewrite zlen_fmap. unfold zlen in *. rewrite length_seqZ. lia.
Qed.

(** The ring address of the byte at [a], with the wrap at the stop page. *)
Definition ring_addr (a : Z) : Z := if a <? 0x8000 then a else a - 0x8000 + 0x4600.

Lemma bnry_card b a q bn f v n :
  0 < b ≤ 0xFFE0 → at_card b a q bn f n → outb (u16 (b + NE_BNRY)) v (dev n) = Card b 0 a q v f.
Proof.
  intros Hb Hc. rewrite Hc, port_small by (unfold NE_BNRY; lia). cbn [outb card_io net_io card_env].
  unfold card_out, NE_CR, NE_RSAR0, NE_BNRY. cbn [io page rsar curr bnry buf].
  replace (b + 3 =? b + 0) with false by lia. replace (b + 3 =? b + 8) with false by lia.
  replace (b + 3 =? b + 8 + 1) with false by lia. by replace (b + 3 =? b + 3) with true by lia.
Qed.

Lemma seq_cell (f : Z → Z) a k i : 0 ≤ i < k → ((λ i, f (a + i)) <$> seqZ 0 k).[i] = f (a + i).
Proof.
  intros Hi. apply aget_lookup; [lia |]. rewrite list_lookup_fmap. rewrite lookup_seqZ_lt by lia. cbn. do 2 f_equal. lia.
Qed.
Lemma seq_len (f : Z → Z) a k : 0 ≤ k → zlen ((λ i, f (a + i)) <$> seqZ 0 k) = k.
Proof. intros. rewrite zlen_fmap. unfold zlen. rewrite length_seqZ. lia. Qed.

(** The payload of a packet at page [p], read in one piece or in two. *)
Lemma payload_card b a q bn f p next count data n :
  0 < b ≤ 0xFFE0 → (∀ x, is_byte (f x)) → at_card b a q bn f n → zlen data = 1600 →
  NE_RX_START ≤ p < NE_RX_STOP → 4 ≤ count ≤ 1600 →
  ∃ data' d, receive_payload b p next count data n =
      Some ((data', count - 4), set_status inc_rx (set_dev d (set_boundary (boundary_before next) n))) ∧
    zlen data' = 1600 ∧ bnry d = boundary_before next ∧
    ∀ i, 0 ≤ i < count - 4 → data'.[i] = f (ring_addr (256 * p + 4 + i)).
Proof.
  intros Hb Hf Hc Hd Hp Hcount. unfold receive_payload. unfold NE_RX_START, NE_RX_STOP in *.
  rewrite (Z.shiftl_mul_pow2 (128 - p)), (u16_small ((128 - p) * 2 ^ 8)) by lia.
  rewrite (Z.shiftl_mul_pow2 p), (u16_small (p * 2 ^ 8)) by lia. change (2 ^ 8) with 256.
  set (fp := if count - 4 <? _ then _ else _).
  assert (fp = Z.min (count - 4) ((128 - p) * 256 - 4)) as Hfp.
  { unfold fp. destruct (Z.ltb_spec count ((128 - p) * 256)).
    - destruct (Z.ltb_spec 4 count); [destruct (Z.ltb_spec (count - 4) (count - 4)) | destruct (Z.ltb_spec (count - 4) 0)]; lia.
    - destruct (Z.ltb_spec 4 ((128 - p) * 256)); [| lia]. destruct (Z.ltb_spec (count - 4) ((128 - p) * 256 - 4)); lia. }
  clearbody fp. rewrite (run_bind _ _ _ _ _ (remote_read_card b a q bn f fp (p * 256 + 4) n Hb Hc ltac:(lia))).
  set (n1 := set_dev _ n). set (w1 := (fp + 1) / 2). assert (fp ≤ 2 * w1 ≤ fp + 1) as Hw1 by (unfold w1; zdm).
  rewrite (run_bind _ _ _ _ _ (insw_card b q bn f data 0 w1 (p * 256 + 4) n1 Hb Hf eq_refl ltac:(lia) ltac:(lia) ltac:(lia))).
  set (d1 := ablit data 0 _). set (n2 := set_dev _ n1).
  assert (zlen d1 = 1600) as L1 by (unfold d1; by rewrite zlen_ablit).
  assert (∀ i, 0 ≤ i < fp → d1.[i] = f (ring_addr (256 * p + 4 + i))) as C1.
  { intros i Hi. unfold d1. rewrite aget_ablit_in by (rewrite ?seq_len; lia). rewrite seq_cell by lia. unfold ring_addr.
    replace (256 * p + 4 + i <? 0x8000) with true by lia. f_equal. lia. }
  assert (∃ data' d, (if fp <? count - 4 then
      remote_read b (count - 4 - fp) (Z.shiftl 70 8);; n_insw (b + NE_DATA) d1 fp ((count - 4 - fp + 1) / 2)
      else mret d1) n2 = Some (data', set_dev d n) ∧ at_card b (rsar d) q bn f (set_dev d n) ∧ zlen data' = 1600 ∧
      ∀ i, 0 ≤ i < count - 4 → data'.[i] = f (ring_addr (256 * p + 4 + i))) as (data' & d & E & Hc' & L' & C').
  { destruct (Z.ltb_spec fp (count - 4)) as [Hlt | Hge].
    - rewrite (run_bind _ _ _ _ _ (remote_read_card b (p * 256 + 4 + 2 * w1) q bn f _ (Z.shiftl 70 8) n2 Hb eq_refl ltac:(done))).
      change (Z.shiftl 70 8) with 0x4600. set (w2 := (count - 4 - fp + 1) / 2).
      assert (count - 4 - fp ≤ 2 * w2 ≤ count - 4 - fp + 1) as Hw2 by (unfold w2; zdm).
      rewrite (insw_card b q bn f d1 fp w2 0x4600) by (done || lia). eexists _, _. split; [reflexivity |]. split; [done |].
      rewrite zlen_ablit. split; [done |]. intros i Hi. destruct (decide (i < fp)).
      + rewrite aget_ablit_out by lia. apply C1. lia.
      + rewrite aget_ablit_in by (rewrite ?seq_len; lia). rewrite seq_cell by lia. unfold ring_addr.
        replace (256 * p + 4 + i <? 0x8000) with false by lia. f_equal. lia.
    - eexists d1, _. split; [reflexivity |]. split; [done |]. split; [done |]. intros i Hi. apply C1. lia. }
  rewrite (run_bind _ _ _ _ _ E). rewrite run_mod, run_get. cbn beta. cbn [rx_boundary set_boundary].
  rewrite run_out. rewrite (bnry_card b (rsar d) q bn f) by done. rewrite run_out.
  rewrite (out_ignored b (rsar d) q (boundary_before next) f NE_ISR) by (first [exact Hb | reflexivity | by right; right]). rewrite run_status.
  eexists data', (Card b 0 (rsar d) q (boundary_before next) f). split; [reflexivity |]. done.
Qed.

(** The accesses that read the current page. *)
Lemma curr_card {B} b pg a q bn f (k : Z → nm B) n :
  0 < b ≤ 0xFFE0 → dev n = Card b pg a q bn f → is_byte q →
  (n_out (b + NE_CR) 0x62;; c ← n_in (b + NE_CURR); n_out (b + NE_CR) 0x22;; k c) n
    = k q (set_dev (Card b 0 a q bn f) n).
Proof.
  intros Hb Hc Hq. rewrite run_out.
  assert (@outb ne2000 net_io (u16 (b + NE_CR)) 0x62 (dev n) = Card b 1 a q bn f) as ->.
  { rewrite Hc, port_small by (unfold NE_CR; lia). cbn [outb card_io net_io card_env]. unfold card_out. cbn [io].
    by replace (b + NE_CR =? b + NE_CR) with true by lia. }
  assert (n_in (b + NE_CURR) (set_dev (Card b 1 a q bn f) n) = Some (q, set_dev (Card b 1 a q bn f) n)) as Ein.
  { unfold n_in. rewrite port_small by (unfold NE_CURR; lia). cbn [dev set_dev inb card_io net_io card_env io page curr].
    replace (b + NE_CURR =? b + NE_CURR) with true by lia. cbn [andb Z.eqb Pos.eqb]. by rewrite u8_small. }
  rewrite (run_bind _ _ _ _ _ Ein). rewrite run_out.
  assert (@outb ne2000 net_io (u16 (b + NE_CR)) 0x22 (dev (set_dev (Card b 1 a q bn f) n)) = Card b 0 a q bn f) as ->.
  { rewrite port_small by (unfold NE_CR; lia). cbn [dev set_dev outb card_io net_io card_env]. unfold card_out. cbn [io].
    by replace (b + NE_CR =? b + NE_CR) with true by lia. }
  done.
Qed.

(** C16: The driver delivers the packets of the ring: when the page after
    [rx_boundary] holds a packet whose header is valid, [net_receive_packet]
    returns 1 with the packet's bytes, also where they wrap from the stop page
    to the start page, and moves the boundary, in the driver and on the card,
    to the page before the next packet. *)
Theorem net_receive_delivers_ring junk b pg a q bn f data len n :
  0 < b ≤ 0xFFE0 → dev n = Card b pg a q bn f → not_ready n = false → io_base (status n) = b →
  zlen data = 1600 → (∀ x, is_byte (f x)) → is_byte q → NE_RX_START ≤ rx_boundary n < NE_RX_STOP →
  let p := if rx_boundary n + 1 =? NE_RX_STOP then NE_RX_START else rx_boundary n + 1 in
  let next := f (256 * p + 1) in let count := f (256 * p + 2) + 256 * f (256 * p + 3) in
  p ≠ q → NE_RX_START ≤ next < NE_RX_STOP → 4 ≤ count ≤ 1600 →
  ∃ data' n', net_receive_packet junk data len n = Some ((1, data', count - 4), n') ∧
    zlen data' = 1600 ∧ (∀ i, 0 ≤ i < count - 4 → data'.[i] = f (ring_addr (256 * p + 4 + i))) ∧
    rx_boundary n' = (if next =? NE_RX_START then NE_RX_STOP - 1 else next - 1) ∧ bnry (dev n') = rx_boundary n'.
Proof.
  intros Hb Hc Hr Hio Hd Hf Hq Hbd. cbn zeta.
  set (p := if _ =? NE_RX_STOP then _ else _). intros Hpq Hnext Hcount.
  assert (NE_RX_START ≤ p < NE_RX_STOP) as Hp.
  { unfold p, NE_RX_START, NE_RX_STOP in *. destruct (Z.eqb_spec (rx_boundary n + 1) 0x80); lia. }
  unfold net_receive_packet. rewrite run_get. cbn beta. rewrite Hr. rewrite run_get. cbn beta.
  rewrite Hio, (u16_small b) by lia. rewrite (curr_card b pg a q bn f) by done.
  rewrite run_get. cbn beta zeta. cbn [rx_boundary set_dev].
  assert ((if NE_RX_STOP <=? u8 (rx_boundary n + 1) then NE_RX_START else u8 (rx_boundary n + 1)) = p) as ->.
  { unfold p, NE_RX_STOP, NE_RX_START in *. rewrite u8_small by lia.
    destruct (Z.leb_spec 0x80 (rx_boundary n + 1)), (Z.eqb_spec (rx_boundary n + 1) 0x80); lia. }
  replace (p =? q) with false by lia. set (n1 := set_dev (Card b 0 a q bn f) _).
  unfold NE_RX_START, NE_RX_STOP in Hp, Hnext, Hbd.
  rewrite (Z.shiftl_mul_pow2 p), (u16_small (p * 2 ^ 8)) by lia. change (2 ^ 8) with 256.
  rewrite (run_bind _ _ _ _ _ (remote_read_card b a q bn f 4 (p * 256) n1 Hb eq_refl ltac:(lia))).
  set (n2 := set_dev _ n1). assert (zlen (uninit junk 4) = 4) as Lu by (apply uninit_len; lia).
  rewrite (run_bind _ _ _ _ _ (insw_card b q bn f (uninit junk 4) 0 2 (p * 256) n2 Hb Hf eq_refl ltac:(lia) ltac:(lia) ltac:(lia))).
  set (n3 := set_dev _ n2). set (hdr := ablit _ 0 _).
  assert (∀ i, 0 ≤ i < 4 → hdr.[i] = f (256 * p + i)) as Hh.
  { intros i Hi. unfold hdr. rewrite aget_ablit_in by (rewrite ?seq_len; lia). rewrite seq_cell by lia. f_equal. lia. }
  rewrite !Hh by lia.
  assert (Z.lor (f (256 * p + 2)) (u16 (Z.shiftl (f (256 * p + 3)) 8)) = f (256 * p + 2) + 256 * f (256 * p + 3)) as ->.
  { pose proof (Hf (256 * p + 2)) as H2. pose proof (Hf (256 * p + 3)) as H3. unfold is_byte in H2, H3.
    rewrite Z.shiftl_mul_pow2, u16_small by lia. rewrite (lor_disjoint_add _ _ 8) by lia. lia. }
  set (count := f (256 * p + 2) + 256 * f (256 * p + 3)) in *. set (next := f (256 * p + 1)) in *.
  replace ((next <? NE_RX_START) || (NE_RX_STOP <=? next) || (count <? 4) || (1600 <? count)) with false
    by (unfold NE_RX_START, NE_RX_STOP; lia).
  destruct (payload_card b (p * 256 + 2 * 2) q bn f p next count data n3) as (data' & d & E & L & Bn & C); [done.. |].
  rewrite (run_bind _ _ _ _ _ E). eexists data', _. split; [reflexivity |]. split; [done |]. split; [done |].
  cbn [rx_boundary set_status set_dev set_boundary dev]. rewrite Bn. split; [| done].
  unfold boundary_before, NE_RX_START, NE_RX_STOP. rewrite u8_small by lia. done.
Qed.

(** The stack does not accept its own packets: the echo request that
    [net_ping_ipv4] builds for address 10.0.2.15 is counted as a checksum
    error and dropped by [handle_ipv4] on a machine with that address, because
    the header checksum is stored with its bytes exchanged; the same header
    with the two bytes swapped back passes the test. *)
Theorem net_drops_own_ping {hw} `{NetEnv hw} junk (n : net_state (hw := hw)) :
  ∃ p c1 c2, ping_frame (replicate 6 0x11) (replicate 6 0x22) LOCAL_IP 1 = Some p ∧
    handle_ipv4 junk (p ++ replicate 1542 0) 58 n = Some (tt, set_status inc_checksum_errors n) ∧
    slice p 24 2 = Some [c1; c2] ∧ checksum_at (p.[24 <- c2].[25 <- c1]) 14 20 = Some 0.
Proof.
  eexists _, _, _. split; [vm_compute; reflexivity |]. split; [| split; [vm_compute; reflexivity | vm_compute; reflexivity]].
  set (fr := _ ++ _). assert (rd8 fr 14 = Some 0x45) as E1 by (by vm_compute).
  assert (load16 fr (14 + 2) = Some 0x2C00) as E2 by (by vm_compute).
  destruct (checksum_at fr 14 20) as [c |] eqn:E3; [| by vm_compute in E3].
  assert ((c =? 0) = false) as Hc by (vm_compute in E3; injection E3 as <-; done). clearbody fr.
  unfold handle_ipv4. replace (58 <? 34) with false by done. rewrite (run_opt _ _ _ _ E1).
  replace ((Z.land 0x45 0x0F * 4 <? 20) || (58 <? 14 + Z.land 0x45 0x0F * 4)) with false by done.
  rewrite (run_opt _ _ _ _ E2). replace (bswap16 0x2C00 <? Z.land 0x45 0x0F * 4) with false by done.
  replace (58 <? 14 + bswap16 0x2C00) with false by done. change (Z.land 0x45 0x0F * 4) with 20.
  by rewrite (run_opt _ _ _ _ E3), Hc.
Qed.

(** ** Witnesses *)
Definition demo_status : net_status_t := st_driver NET_DRIVER_NE2000 0x300 initial_status.
Definition demo_cache : list arp_entry_t := replicate 8 (ArpEntry 0 (replicate 6 0) 0 false).
Definition demo_state {hw} (d : hw) : net_state (hw := hw) :=
  NetState demo_status demo_cache 0 0x46 0 0 (UdpPacket 0 0 0 0 (replicate 128 0) false) d.
(** A 60-byte packet at page 0x47, the next one at 0x48. *)
Definition demo_ring (x : Z) : Z :=
  if x =? 0x4701 then 0x48 else if x =? 0x4702 then 64 else if x =? 0x4704 then 0xAB else 0.
Definition demo_card : ne2000 := Card 0x300 0 0 0x48 0x46 demo_ring.

Lemma demo_net_ok {hw} `{NetEnv hw} (d : hw) : net_ok (demo_state d).
Proof.
  constructor; [done | done | | done | | done]; cbn.
  - by repeat constructor.
  - apply list_elem_of_here.
Qed.
Lemma demo_unique : arp_unique demo_cache.
Proof. intros i j ip Hi Hj Hh. unfold demo_cache in Hh. rewrite aget_replicate in Hh by lia. by unfold holds in Hh. Qed.
Lemma demo_ring_byte x : is_byte (demo_ring x).
Proof. unfold demo_ring, is_byte. repeat case_match; lia. Qed.

Lemma arp_cache_put_refines_witness : arp_mac 5 (arp_put 5 (replicate 6 1) 9 demo_cache) = Some (replicate 6 1).
Proof. apply (arp_cache_put_refines 5 (replicate 6 1) 9 demo_cache); [reflexivity | exact demo_unique]. Defined.
Definition demo_request : list Z :=
  replicate 6 0xFF ++ replicate 6 0xAA ++ [8; 6; 0; 1; 8; 0; 6; 4; 0; 1] ++ replicate 6 0xAA ++ [10; 0; 2; 2]
  ++ replicate 6 0 ++ [10; 0; 2; 15] ++ replicate 1558 0.
Lemma arp_request_answered_witness :
  ∃ n', handle_arp (λ _, 0) demo_request 60 (demo_state (Logged demo_card [])) = Some (tt, n').
Proof.
  destruct (arp_request_answered (λ _, 0) demo_request 60 (demo_state (Logged demo_card [])) 0x0100 0x0F02000A)
    as (n' & _ & _ & _ & _ & _ & E & _);
    [reflexivity | apply demo_net_ok | reflexivity | lia | reflexivity | reflexivity | reflexivity | reflexivity |].
  exists n'. exact E.
Defined.
Lemma net_receive_delivers_ring_witness :
  ∃ data' n', net_receive_packet (λ _, 0) (replicate 1600 0) 0 (demo_state demo_card) = Some ((1, data', 60), n').
Proof.
  destruct (net_receive_delivers_ring (λ _, 0) 0x300 0 0 0x48 0x46 demo_ring (replicate 1600 0) 0 (demo_state demo_card))
    as (data' & n' & E & _);
    [lia | reflexivity | reflexivity | reflexivity | reflexivity | exact demo_ring_byte | by vm_compute | by vm_compute
    | by vm_compute | by vm_compute | by vm_compute |].
  exists data', n'. exact E.
Defined.

End NetProps.
