(* ===== verification/Fs.v ===== *)
(** * The file system layer (kernel/fs/fs.c)

    The operation tables of the four file systems (FAT, ramfs, procfs, devfs),
    the entry points [fs_*] and [fs_init].  The world of the tables is what the
    file systems keep: the mounted FAT volume, the RAM files, the process table
    and network state that procfs reads, and the name field of [fat_ops].  A
    pointer to a table is a value of [fs_ops_ptr].

    Strings are lists without their NUL.  [block_cache_init] is a parameter of
    [fs_init] (its model is in BlockCache.v), and the log messages are left
    out.  [ramfs_list_adapter] casts an array of [ramfs_file_t] to
    [fs_file_info_t]; the model reads the array's bytes with the other layout. *)
From S2P Require Import Prelude.
From S2P Require Import BlockDev.
From S2P Require Import Fat.
From S2P Require Import Ramfs.
From S2P Require Import Vfs.
From S2P Require Import Process.
From S2P Require Import Format.
From S2P Require Import Net.
From S2P Require Import NetProps.
Import Format.
Import (hints) Fat Ramfs Vfs Process NetProps.

Module Fs.

Inductive fs_ops_ptr := fat_ops_ptr | ramfs_ops_ptr | proc_ops_ptr | dev_ops_ptr.

Definition s_FAT : list Z := [70; 65; 84].
Definition s_FAT12 : list Z := [70; 65; 84; 49; 50].
Definition s_FAT16 : list Z := [70; 65; 84; 49; 54].
Definition s_FAT32 : list Z := [70; 65; 84; 51; 50].
Definition s_ramfs : list Z := [114; 97; 109; 102; 115].
Definition s_procfs : list Z := [112; 114; 111; 99; 102; 115].
Definition s_devfs : list Z := [100; 101; 118; 102; 115].
Definition s_proc : list Z := [112; 114; 111; 99].
Definition s_dev : list Z := [100; 101; 118].
Definition s_root : list Z := [114; 111; 111; 116].
Definition p_proc : list Z := [47; 112; 114; 111; 99].
Definition p_dev : list Z := [47; 100; 101; 118].
Definition s_processes : list Z := [112; 114; 111; 99; 101; 115; 115; 101; 115].
Definition s_net : list Z := [110; 101; 116].
Definition s_net_arp : list Z := [110; 101; 116; 47; 97; 114; 112].
Definition s_net_dev : list Z := [110; 101; 116; 47; 100; 101; 118].
Definition s_net_udp : list Z := [110; 101; 116; 47; 117; 100; 112].
Definition s_null : list Z := [110; 117; 108; 108].
Definition s_zero : list Z := [122; 101; 114; 111].
Definition txt_proc_head : list Z := [80; 73; 68; 32; 83; 84; 65; 84; 69; 32; 78; 65; 77; 69; 10].

Definition proc_state_name (s : Process.process_state_t) : list Z :=
  match s with
  | Process.PROC_LOADING => [76; 79; 65; 68; 73; 78; 71]
  | Process.PROC_READY => [82; 69; 65; 68; 89]
  | Process.PROC_RUNNING => [82; 85; 78; 78; 73; 78; 71]
  | Process.PROC_BLOCKED => [66; 76; 79; 67; 75; 69; 68]
  | Process.PROC_SLEEPING => [83; 76; 69; 69; 80; 73; 78; 71]
  | Process.PROC_TERMINATED => [84; 69; 82; 77; 73; 78; 65; 84; 69; 68]
  | Process.PROC_UNUSED => [85; 78; 85; 83; 69; 68]
  end.

Section FileSystems.
Context {B : Type} `{BlockDev B} {hw : Type} `{Net.NetEnv hw}.

Record world := World {
  w_fat : Fat.fat_state B;
  w_ram : Ramfs.ramfs_state;
  w_procs : list Process.process_t;
  w_net : Net.net_state (hw := hw);
  fat_ops_name : list Z
}.
Definition set_fat (s : Fat.fat_state B) (w : world) : world := World s (w_ram w) (w_procs w) (w_net w) (fat_ops_name w).
Definition set_ram (s : Ramfs.ramfs_state) (w : world) : world := World (w_fat w) s (w_procs w) (w_net w) (fat_ops_name w).

(** ** FAT *)
Definition on_fat {A} (f : Fat.fat_state B → Fat.outcome A * Fat.fat_state B) (w : world) : Fat.outcome A * world :=
  let '(r, s) := f (w_fat w) in (r, set_fat s w).
Definition fatfs_list (w : world) : Fat.outcome (Z * list Fat.fs_file_info) * world :=
  on_fat (λ s, let '(r, s) := Fat.fat_list s in
    (match r with Fat.Val l => Fat.Val (0, l) | Fat.Undefined => Fat.Undefined | Fat.Diverges => Fat.Diverges end, s)) w.
Definition fatfs_name (w : world) : list Z :=
  if bool_decide (Fat.fat_get_type (w_fat w) = Fat.FAT_TYPE_16) then s_FAT16
  else if bool_decide (Fat.fat_get_type (w_fat w) = Fat.FAT_TYPE_32) then s_FAT32 else s_FAT12.
Definition fat_ops : Vfs.vfs_ops world := {|
  Vfs.op_name := fat_ops_name;
  Vfs.op_create := Some (λ p d n, on_fat (Fat.fat_create p d n));
  Vfs.op_read := Some (λ p m, on_fat (Fat.fat_read p m));
  Vfs.op_delete := Some (λ p, on_fat (Fat.fat_delete p));
  Vfs.op_list := Some fatfs_list;
  Vfs.op_mkdir := Some (λ p, on_fat (Fat.fat_mkdir p));
  Vfs.op_rmdir := Some (λ p, on_fat (Fat.fat_rmdir p));
  Vfs.op_chdir := Some (λ p, on_fat (Fat.fat_chdir p));
  Vfs.op_getcwd := Some (λ w, Fat.fat_getcwd (w_fat w));
  Vfs.op_disk_info := Some (on_fat Fat.fat_get_disk_info)
|}.

(** ** ramfs *)

(** The bytes of one [ramfs_file_t], 552 with its padding. *)
Definition ramfs_file_bytes (f : Ramfs.ramfs_file) : list Z :=
  take 32 (Ramfs.name f ++ replicate 32 0) ++ Ramfs.data f ++ le_bytes 4 (Ramfs.size f) ++ [Ramfs.used f; 0; 0; 0].
(** One [fs_file_info_t], 264 bytes: name[256], size, used, is_directory. *)
Definition file_info_at (b : list Z) : Fat.fs_file_info :=
  Fat.FileInfo (until_nul (take 256 b)) (le_read 4 (aget b) 256) b.[260] b.[261].
Definition ramfs_list_adapter (w : world) : Fat.outcome (Z * list Fat.fs_file_info) * world :=
  let bytes := Ramfs.ramfs_get_files (w_ram w) ≫= ramfs_file_bytes in
  let count := Ramfs.ramfs_get_file_count (w_ram w) in
  (Fat.Val (0, (λ i, file_info_at (take 264 (drop (Z.to_nat (264 * i)) bytes))) <$> seqZ 0 count), w).
Definition ramfs_disk_info (w : world) : Fat.outcome (Z * Z * Z) * world := (Fat.Val (0, 0, 0), w).

Definition ram_create (p d : list Z) (n : Z) (w : world) : Fat.outcome Z * world :=
  let '(r, s) := Ramfs.ramfs_create p d n (w_ram w) in (Fat.Val r, set_ram s w).
Definition ram_read (p : list Z) (m : Z) (w : world) : Fat.outcome Fat.read_result * world :=
  let '(r, sz, b) := Ramfs.ramfs_read p m (w_ram w) in (Fat.Val (Fat.ReadResult r sz b), w).
Definition ram_delete (p : list Z) (w : world) : Fat.outcome Z * world :=
  let '(r, s) := Ramfs.ramfs_delete p (w_ram w) in (Fat.Val r, set_ram s w).
Definition ramfs_ops : Vfs.vfs_ops world := {|
  Vfs.op_name := λ _, s_ramfs;
  Vfs.op_create := Some ram_create;
  Vfs.op_read := Some ram_read;
  Vfs.op_delete := Some ram_delete;
  Vfs.op_list := Some ramfs_list_adapter;
  Vfs.op_mkdir := Some (λ p w, (Fat.Val (Ramfs.ramfs_mkdir p), w));
  Vfs.op_rmdir := Some (λ p w, (Fat.Val (Ramfs.ramfs_rmdir p), w));
  Vfs.op_chdir := Some (λ p w, (Fat.Val (Ramfs.ramfs_chdir p), w));
  Vfs.op_getcwd := Some (λ _, Ramfs.ramfs_getcwd);
  Vfs.op_disk_info := Some ramfs_disk_info
|}.

(** ** procfs *)
Definition process_list (w : world) : Z * list Process.process_t := (Process.MAX_PROCESSES, w_procs w).
Definition proc_line (max : Z) (p : Process.process_t) (b : list Z) : list Z :=
  if Process.is_st (Process.state p) Process.PROC_UNUSED then b else
  let b := append_u64 max (Process.pid p) b in
  let b := append_str max [32] b in
  let b := append_str max (proc_state_name (Process.state p)) b in
  let b := append_str max [32] b in
  let b := append_str max (Process.name p) b in
  append_str max [10] b.
Definition net_report (r : option (list Z * Z)) : Fat.read_result :=
  match r with
  | Some (b, n) => Fat.ReadResult 0 (Some n) b
  | None => Fat.ReadResult (-1) None []
  end.
Definition proc_read (path : list Z) (max_size : Z) (w : world) : Fat.outcome Fat.read_result * world :=
  (Fat.Val (
    if max_size =? 0 then Fat.ReadResult (-1) None []
    else if Vfs.streq path s_net_arp then net_report (Net.net_format_arp_cache max_size (w_net w))
    else if Vfs.streq path s_net_dev then net_report (Net.net_format_device_stats max_size (w_net w))
    else if Vfs.streq path s_net_udp then net_report (Net.net_format_udp max_size (w_net w))
    else if negb (Vfs.streq path s_processes) then Fat.ReadResult (-1) None []
    else
      let '(count, list) := process_list w in
      let b := append_str max_size txt_proc_head [] in
      let b := for_each 0 count (λ i b, proc_line max_size list.[i] b) b in
      Fat.ReadResult 0 (Some (zlen b)) b), w).
Definition proc_list (w : world) : Fat.outcome (Z * list Fat.fs_file_info) * world :=
  (Fat.Val (0, [Fat.FileInfo s_processes 0 1 0; Fat.FileInfo s_net 0 1 1]), w).

Definition readonly_fail (path data : list Z) (size : Z) (w : world) : Fat.outcome Z * world := (Fat.Val (-1), w).
Definition path_fail (path : list Z) (w : world) : Fat.outcome Z * world := (Fat.Val (-1), w).
Definition chdir_fail (path : list Z) (w : world) : Fat.outcome Z * world := (Fat.Val (-1), w).
Definition proc_ops : Vfs.vfs_ops world := {|
  Vfs.op_name := λ _, s_procfs;
  Vfs.op_create := Some readonly_fail;
  Vfs.op_read := Some proc_read;
  Vfs.op_delete := Some path_fail;
  Vfs.op_list := Some proc_list;
  Vfs.op_mkdir := Some path_fail;
  Vfs.op_rmdir := Some path_fail;
  Vfs.op_chdir := Some chdir_fail;
  Vfs.op_getcwd := Some (λ _, p_proc);
  Vfs.op_disk_info := Some ramfs_disk_info
|}.

(** ** devfs *)
Definition dev_read (path : list Z) (max_size : Z) (w : world) : Fat.outcome Fat.read_result * world :=
  (Fat.Val (
    if Vfs.streq path s_null then Fat.ReadResult 0 (Some 0) []
    else if Vfs.streq path s_zero then
      if max_size <? 512 then Fat.ReadResult (-1) (Some 512) []
      else Fat.ReadResult 0 (Some 512) (replicate 512 0)
    else Fat.ReadResult (-1) None []), w).
Definition dev_list (w : world) : Fat.outcome (Z * list Fat.fs_file_info) * world :=
  (Fat.Val (0, [Fat.FileInfo s_null 0 1 0; Fat.FileInfo s_zero 0 1 0]), w).
Definition dev_ops : Vfs.vfs_ops world := {|
  Vfs.op_name := λ _, s_devfs;
  Vfs.op_create := Some readonly_fail;
  Vfs.op_read := Some dev_read;
  Vfs.op_delete := Some path_fail;
  Vfs.op_list := Some dev_list;
  Vfs.op_mkdir := Some path_fail;
  Vfs.op_rmdir := Some path_fail;
  Vfs.op_chdir := Some chdir_fail;
  Vfs.op_getcwd := Some (λ _, p_dev);
  Vfs.op_disk_info := Some ramfs_disk_info
|}.

(** ** The entry points *)
Definition deref (o : fs_ops_ptr) : Vfs.vfs_ops world :=
  match o with fat_ops_ptr => fat_ops | ramfs_ops_ptr => ramfs_ops | proc_ops_ptr => proc_ops | dev_ops_ptr => dev_ops end.

Record fs_state := FsState { vfs : Vfs.vfs_state fs_ops_ptr; fsw : world }.
Definition on_vfs {A} (f : Vfs.vfs_state fs_ops_ptr → world → Fat.outcome A * world) (s : fs_state) : Fat.outcome A * fs_state :=
  let '(r, w) := f (vfs s) (fsw s) in (r, FsState (vfs s) w).
Definition mounting (f : Vfs.vfs_state fs_ops_ptr → Z * Vfs.vfs_state fs_ops_ptr) (s : fs_state) : Z * fs_state :=
  let '(r, v) := f (vfs s) in (r, FsState v (fsw s)).

Definition fs_create (name data : list Z) (size : Z) : fs_state → Fat.outcome Z * fs_state := on_vfs (Vfs.vfs_create deref name data size).
Definition fs_read (name : list Z) (max_size : Z) : fs_state → Fat.outcome Fat.read_result * fs_state := on_vfs (Vfs.vfs_read deref name max_size).
Definition fs_delete (name : list Z) : fs_state → Fat.outcome Z * fs_state := on_vfs (Vfs.vfs_delete deref name).
Definition fs_list : fs_state → Fat.outcome (Z * list Fat.fs_file_info) * fs_state := on_vfs (Vfs.vfs_list deref).
Definition fs_get_type (s : fs_state) : list Z := Vfs.vfs_get_root_type deref (vfs s) (fsw s).
Definition fs_mkdir (name : list Z) : fs_state → Fat.outcome Z * fs_state := on_vfs (Vfs.vfs_mkdir deref name).
Definition fs_rmdir (name : list Z) : fs_state → Fat.outcome Z * fs_state := on_vfs (Vfs.vfs_rmdir deref name).
Definition fs_chdir (name : list Z) : fs_state → Fat.outcome Z * fs_state := on_vfs (Vfs.vfs_chdir deref name).
Definition fs_getcwd (s : fs_state) : list Z := Vfs.vfs_getcwd deref (vfs s) (fsw s).
Definition fs_get_disk_info : fs_state → Fat.outcome (Z * Z * Z) * fs_state := on_vfs (Vfs.vfs_get_disk_info deref).

Definition fs_mount (type path : list Z) (s : fs_state) : Z * fs_state :=
  if Vfs.streq type s_proc || Vfs.streq type s_procfs then mounting (Vfs.vfs_mount path proc_ops_ptr) s
  else if Vfs.streq type s_dev || Vfs.streq type s_devfs then mounting (Vfs.vfs_mount path dev_ops_ptr) s
  else if Vfs.streq type s_ramfs then mounting (Vfs.vfs_mount path ramfs_ops_ptr) s
  else if Vfs.streq type s_root then
    mounting (Vfs.vfs_mount path (if Fat.fat_available (w_fat (fsw s)) then fat_ops_ptr else ramfs_ops_ptr)) s
  else (-1, s).
Definition fs_umount (path : list Z) : fs_state → Z * fs_state := mounting (Vfs.vfs_umount path).
Definition fs_mounts (max_size : Z) (s : fs_state) : option (list Z * Z) := Vfs.vfs_get_mounts deref max_size (vfs s) (fsw s).

Definition fs_init (block_cache_init : B → B) (s : fs_state) : fs_state :=
  let w := fsw s in
  let fat := Fat.set_dev (w_fat w) (block_cache_init (Fat.dev (w_fat w))) in
  let v := Vfs.vfs_init (vfs s) in
  let fat := Fat.fat_init fat in
  let w := set_fat fat w in
  if Fat.fat_available fat then
    let w := World (w_fat w) (w_ram w) (w_procs w) (w_net w) (fatfs_name w) in
    let v := (Vfs.vfs_mount_root fat_ops_ptr v).2 in
    let w := set_ram (Ramfs.ramfs_init (w_ram w)) w in
    let v := (Vfs.vfs_mount p_dev dev_ops_ptr v).2 in
    let v := (Vfs.vfs_mount p_proc proc_ops_ptr v).2 in
    FsState v w
  else
    let w := set_ram (Ramfs.ramfs_init (w_ram w)) w in
    let v := (Vfs.vfs_mount_root ramfs_ops_ptr v).2 in
    let v := (Vfs.vfs_mount p_dev dev_ops_ptr v).2 in
    let v := (Vfs.vfs_mount p_proc proc_ops_ptr v).2 in
    FsState v w.
End FileSystems.
Arguments world : clear implicits.
Arguments fs_state : clear implicits.

(** ** The mount table after [fs_init] *)
Definition table (root : fs_ops_ptr) : Vfs.vfs_state fs_ops_ptr :=
  Vfs.VfsState ([Vfs.Mount [47] (Some root); Vfs.Mount p_dev (Some dev_ops_ptr); Vfs.Mount p_proc (Some proc_ops_ptr)]
    ++ replicate 5 (Vfs.Mount [] None)) 3.

Lemma table_ok root : Vfs.vfs_ok (table root).
Proof.
  assert (∀ p, p ∈ [[47]; p_dev; p_proc] → Vfs.path_ok p) as Hp.
  { intros p Hp. unfold Vfs.path_ok. repeat (apply elem_of_cons in Hp as [-> | Hp]; [split; [done | split; [| done]];
      apply (bool_decide_unpack _); by vm_compute |]). by apply elem_of_nil in Hp. }
  constructor; [done | done | |].
  - change (Vfs.active (table root)) with [Vfs.Mount [47] (Some root); Vfs.Mount p_dev (Some dev_ops_ptr); Vfs.Mount p_proc (Some proc_ops_ptr)].
    repeat (apply Forall_cons; split); [apply Hp; set_solver.. | apply Forall_nil; exact I].
  - change (Vfs.m_path <$> Vfs.active (table root)) with [[47]; p_dev; p_proc].
    apply (bool_decide_unpack _). by vm_compute.
Qed.

(** Paths below a mounted prefix, and paths that only the root covers. *)
Lemma covers_below m p : Vfs.covers m (m ++ 47 :: p).
Proof. right. exists (47 :: p). split; [done | by right]. Qed.


Lemma resolve_best root path i :
  0 ∉ path → path.[0] = 47 → 0 ≤ i < 3 → Vfs.covers (Vfs.m_path (Vfs.mounts (table root)).[i]) path →
  (∀ j, 0 ≤ j < 3 → j ≠ i → Vfs.covers (Vfs.m_path (Vfs.mounts (table root)).[j]) path →
     zlen (Vfs.m_path (Vfs.mounts (table root)).[j]) < zlen (Vfs.m_path (Vfs.mounts (table root)).[i])) →
  Vfs.resolve path (table root) =
    (Vfs.m_ops (Vfs.mounts (table root)).[i],
     drop (Z.to_nat (let n := zlen (Vfs.m_path (Vfs.mounts (table root)).[i]) in if n =? 1 then 1 else n + 1)) path).
Proof.
  intros H0 Hs Hi Hc Hbest. destruct (Vfs.resolve_spec path (table root)) as [[_ Hno] | (k & sub & Hk & E & Hck & Hmax & ->)];
    [apply table_ok | done | done | by destruct (Hno i Hi) |].
  change (Vfs.mount_count (table root)) with 3 in *. destruct (decide (k = i)) as [-> | Hne]; [exact E |].
  specialize (Hbest k Hk Hne Hck). specialize (Hmax i Hi Hc). lia.
Qed.

Lemma no_cover m p r : (∀ q, m ++ q ≠ r ++ 47 :: p) → zlen m ≠ 1 → ¬ Vfs.covers m (r ++ 47 :: p).
Proof. intros Hn Hl [| (q & E & _)]; [done |]. by apply (Hn q). Qed.
Ltac table_cases j Hj := assert (j = 0 ∨ j = 1 ∨ j = 2) as [-> | [-> | ->]] by (clear -Hj; lia).

Lemma resolve_dev root p : 0 ∉ p → Vfs.resolve (p_dev ++ 47 :: p) (table root) = (Some dev_ops_ptr, p).
Proof.
  intros Hp. rewrite (resolve_best root _ 1); [done | | done | lia | apply covers_below |].
  { unfold p_dev. cbn [app]. repeat (apply not_elem_of_cons; split; [lia |]). done. }
  intros j Hj Hne. table_cases j Hj; [done | done |]. intros Hc. exfalso. revert Hc. by apply (no_cover p_proc).
Qed.
Lemma resolve_proc root p : 0 ∉ p → Vfs.resolve (p_proc ++ 47 :: p) (table root) = (Some proc_ops_ptr, p).
Proof.
  intros Hp. rewrite (resolve_best root _ 2); [done | | done | lia | apply covers_below |].
  { unfold p_proc. cbn [app]. repeat (apply not_elem_of_cons; split; [lia |]). done. }
  intros j Hj Hne. table_cases j Hj; [done | | done]. intros Hc. exfalso. revert Hc. by apply (no_cover p_dev).
Qed.
Lemma resolve_root root p :
  0 ∉ p → ¬ Vfs.covers p_dev (47 :: p) → ¬ Vfs.covers p_proc (47 :: p) → Vfs.resolve (47 :: p) (table root) = (Some root, p).
Proof.
  intros Hp Hd Hpr. rewrite (resolve_best root _ 0); [done | | done | lia | by left |].
  { apply not_elem_of_cons. split; [lia | done]. }
  intros j Hj Hne Hc. table_cases j Hj; done.
Qed.
Lemma resolve_relative root p : p.[0] ≠ 47 → Vfs.resolve p (table root) = (Some root, p).
Proof.
  intros Hp. unfold Vfs.resolve. change (Vfs.mount_count (table root) =? 0) with false. cbv iota.
  unfold Vfs.SLASH. by replace (p.[0] =? 47) with false by lia.
Qed.

Section Laws.
Context {B : Type} `{BlockDev B} {hw : Type} `{Net.NetEnv hw}.
Implicit Types s : fs_state B hw.
Variable block_cache_init : B → B.

(** The file system mounted at the root. *)
Definition root_of s : fs_ops_ptr := if Fat.fat_available (w_fat (fsw s)) then fat_ops_ptr else ramfs_ops_ptr.

Lemma init_vfs s : vfs (fs_init block_cache_init s) = table (root_of (fs_init block_cache_init s)).
Proof.
  unfold fs_init, root_of. destruct (Fat.fat_available _) eqn:E; cbn [fsw w_fat set_fat set_ram vfs].
  - rewrite E. by vm_compute.
  - rewrite E. by vm_compute.
Qed.

(** After [fs_init] every path reaches its file system: a path below
    /proc or /dev is read by procfs or devfs under the rest of the path and
    cannot be written, created, deleted or changed into; any other path, absolute
    or relative, goes to the root file system, FAT when a volume was found and
    ramfs otherwise. *)
Theorem fs_paths_dispatch s0 p max data size :
  0 ∉ p →
  let s := fs_init block_cache_init s0 in
  fs_read (p_proc ++ 47 :: p) max s = ((proc_read p max (fsw s)).1, s) ∧
  fs_read (p_dev ++ 47 :: p) max s = ((dev_read p max (fsw s)).1, s) ∧
  (∀ m, m = p_proc ∨ m = p_dev →
     fs_create (m ++ 47 :: p) data size s = (Fat.Val (-1), s) ∧ fs_delete (m ++ 47 :: p) s = (Fat.Val (-1), s) ∧
     fs_mkdir (m ++ 47 :: p) s = (Fat.Val (-1), s) ∧ fs_chdir (m ++ 47 :: p) s = (Fat.Val (-1), s)) ∧
  (p.[0] ≠ 47 →
     fs_read p max s = on_vfs (λ _ w, match root_of s with
       | fat_ops_ptr => on_fat (Fat.fat_read p max) w | _ => ram_read p max w end) s ∧
     (¬ Vfs.covers p_dev (47 :: p) → ¬ Vfs.covers p_proc (47 :: p) → fs_read (47 :: p) max s = fs_read p max s)).
Proof.
  intros Hp s. assert (vfs s = table (root_of s)) as Hv by apply init_vfs.
  assert (FsState (vfs s) (fsw s) = s) as Hs by (by destruct s). clearbody s.
  unfold fs_read, fs_create, fs_delete, fs_mkdir, fs_chdir, on_vfs, Vfs.vfs_read, Vfs.vfs_create, Vfs.vfs_delete,
    Vfs.vfs_mkdir, Vfs.vfs_chdir. rewrite Hv.
  split; [rewrite resolve_proc by done; cbn; rewrite <- Hv; by rewrite Hs |].
  split; [rewrite resolve_dev by done; cbn; rewrite <- Hv; by rewrite Hs |]. split.
  { intros m [-> | ->]; [rewrite !resolve_proc by done | rewrite !resolve_dev by done]; cbn; rewrite <- Hv; by rewrite Hs. }
  intros Hrel. split.
  - rewrite resolve_relative by done. unfold root_of. by destruct (Fat.fat_available _).
  - intros Hd Hpr. by rewrite resolve_root, resolve_relative by done.
Qed.

(** Without a disk the file system keeps what is written to it: a file
    created under a relative name shorter than 32 characters is read back
    with its bytes when the buffer is large enough, and the others are
    unchanged. *)
Theorem fs_create_read_roundtrip s0 n data size max :
  let s := fs_init block_cache_init s0 in
  root_of s = ramfs_ops_ptr → 0 ∉ n → n.[0] ≠ 47 → zlen n < 32 → 0 ≤ size ≤ zlen data → size ≤ 512 → size ≤ max →
  ∃ s', fs_create n data size s = (Fat.Val 0, s') ∧
    fs_read n max s' = (Fat.Val (Fat.ReadResult 0 (Some size) (take (Z.to_nat size) data)), s') ∧
    ∀ k, k ≠ n → k.[0] ≠ 47 → (fs_read k max s').1 = (fs_read k max s).1.
Proof.
  intros s Hr Hn0 Hn Hl Hsz H512 Hmax. assert (vfs s = table (root_of s)) as Hv by apply init_vfs.
  assert (w_ram (fsw s) = Ramfs.empty_ram) as Hram.
  { unfold s, fs_init. by destruct (Fat.fat_available _). }
  pose proof Ramfs.empty_ram_ok as Hok. rewrite <- Hram in Hok. clearbody s.
  destruct (Ramfs.ramfs_create n data size (w_ram (fsw s))) as [rc ram] eqn:Ec.
  destruct (Ramfs.create_spec _ _ _ _ _ _ Hok Hl Hsz Ec) as [(-> & _ & Hbad) | (-> & Hok' & Hc)].
  { exfalso. rewrite Hram in Hbad. destruct Hbad as [| [_ Hb]]; [unfold Ramfs.MAX_FILESIZE in *; lia | done]. }
  assert (∀ k s1, k.[0] ≠ 47 → vfs s1 = table ramfs_ops_ptr → Ramfs.ram_ok (w_ram (fsw s1)) →
    fs_read k max s1 = (Fat.Val (match Ramfs.contents (w_ram (fsw s1)) k with
      | None => Fat.ReadResult (-1) None []
      | Some c => if max <? zlen c then Fat.ReadResult (-1) (Some (zlen c)) [] else Fat.ReadResult 0 (Some (zlen c)) c end), s1)) as Hread.
  { intros k s1 Hk Hv1 Hok1. unfold fs_read, on_vfs, Vfs.vfs_read. rewrite Hv1, resolve_relative by done. cbn.
    unfold ram_read. rewrite Ramfs.read_spec by done. destruct s1 as [v1 w1]. cbn in *. subst v1.
    destruct (Ramfs.contents (w_ram w1) k) as [c |]; [by destruct (max <? zlen c) | done]. }
  exists (FsState (vfs s) (set_ram ram (fsw s))). rewrite Hr in Hv. split_and!.
  - unfold fs_create, on_vfs, Vfs.vfs_create. rewrite Hv, resolve_relative by done. cbn. unfold ram_create. by rewrite Ec.
  - rewrite Hread by done. cbn [fsw set_ram w_ram]. rewrite Hc, decide_True by done.
    rewrite zlen_take. replace (Z.min (Z.of_nat (Z.to_nat size)) (zlen data)) with size by lia. by replace (max <? size) with false by lia.
  - intros k Hk Hk0. rewrite (Hread k (FsState _ _)), (Hread k s) by done. cbn [fsw set_ram w_ram fst]. by rewrite Hc, decide_False.
Qed.

(** ** The text of /proc *)
Definition proc_entry (p : Process.process_t) : list Z :=
  if Process.is_st (Process.state p) Process.PROC_UNUSED then [] else
  digits_of 24 (Process.pid p) ++ 32 :: proc_state_name (Process.state p) ++ 32 :: until_nul (Process.name p) ++ [10].
Definition proc_text (procs : list Process.process_t) : list Z := txt_proc_head ++ (procs ≫= proc_entry).

Lemma state_name_until st : until_nul (proc_state_name st) = proc_state_name st.
Proof. by destruct st. Qed.
Lemma proc_line_text max p b :
  zlen b + zlen (proc_entry p) < max → proc_line max p b = b ++ proc_entry p.
Proof.
  unfold proc_line, proc_entry. destruct (Process.is_st _ _); [by rewrite app_nil_r |].
  set (d := digits_of 24 (Process.pid p)). set (nm := until_nul (Process.name p)).
  rewrite !append_str_until, state_name_until. set (sn := proc_state_name (Process.state p)).
  repeat rewrite ?zlen_app, ?zlen_cons. change (zlen []) with 0. intros Hm.
  pose proof (zlen_nonneg d). pose proof (zlen_nonneg nm). pose proof (zlen_nonneg sn).
  unfold append_u64. fold d nm. change (until_nul [32]) with [32]. change (until_nul [10]) with [10]. assert (zlen [32] = 1 ∧ zlen [10] = 1) as [H32 H10] by done.
  rewrite (append_all _ _ _ _ (append_tmp_ext max d b)) by lia.
  rewrite (append_all _ _ _ _ (append_tmp_ext max [32] (b ++ d))) by (rewrite ?zlen_app; lia).
  rewrite (append_all _ _ _ _ (append_tmp_ext max sn _)) by (rewrite ?zlen_app; lia).
  rewrite (append_all _ _ _ _ (append_tmp_ext max [32] ((((b ++ d) ++ [32]) ++ sn)))) by (rewrite ?zlen_app; lia).
  rewrite (append_all _ _ _ _ (append_tmp_ext max nm _)) by (rewrite ?zlen_app; lia).
  rewrite (append_all _ _ _ _ (append_tmp_ext max [10] _)) by (rewrite ?zlen_app; lia).
  by rewrite <- !app_assoc.
Qed.
Lemma proc_line_bounded max p b : bounded max b (proc_line max p b).
Proof. unfold proc_line. destruct (Process.is_st _ _); [reflexivity |]. fmt_bounded. Qed.

Lemma take_bind_snoc {A} `{Inhabited A} (g : A → list Z) l i :
  0 ≤ i < zlen l → take (Z.to_nat (i + 1)) l ≫= g = (take (Z.to_nat i) l ≫= g) ++ g l.[i].
Proof.
  intros Hi. replace (Z.to_nat (i + 1)) with (S (Z.to_nat i)) by lia.
  rewrite (take_S_r _ _ l.[i]) by (by apply lookup_aget). rewrite bind_app. cbn. by rewrite app_nil_r.
Qed.
Lemma bind_take_len (g : Process.process_t → list Z) l n : zlen (take n l ≫= g) ≤ zlen (l ≫= g).
Proof. rewrite <- (take_drop n l) at 2. rewrite bind_app, zlen_app. pose proof (zlen_nonneg (drop n l ≫= g)). lia. Qed.

(** Every report fits the buffer, and its size is the number of its bytes. *)
Definition report_ok (max : Z) (r : Fat.read_result) : Prop :=
  zlen (Fat.rr_buf r) ≤ max ∧ (Fat.rr_rc r = 0 → Fat.rr_size r = Some (zlen (Fat.rr_buf r))).
Definition full_report (max : Z) (r : Fat.read_result) : Prop :=
  ∃ b, r = Fat.ReadResult 0 (Some (zlen b)) b ∧ zlen b < max.
Lemma full_report_ok max r : full_report max r → report_ok max r.
Proof. intros (b & -> & Hb). split; cbn; [lia | done]. Qed.
Lemma failed_report_ok max sz : 0 < max → report_ok max (Fat.ReadResult (-1) sz []).
Proof. intros Hm. split; cbn [Fat.rr_buf Fat.rr_rc]; [change (zlen (@nil Z)) with 0; lia | done]. Qed.

Lemma net_report_arp max (n : Net.net_state (hw := hw)) :
  0 < max → full_report max (net_report (Net.net_format_arp_cache max n)).
Proof.
  intros Hm. assert (zlen (@nil Z) < max) by done. unfold Net.net_format_arp_cache. replace (max =? 0) with false by lia.
  eexists. split; [reflexivity |]. apply (for_each_inv (λ _ b, zlen b < max) 0 8); [by apply append_str_bounded |].
  intros i b _ Hb. case_match; [done |]. revert Hb. chain_bounded.
Qed.
Lemma net_report_dev max (n : Net.net_state (hw := hw)) :
  0 < max → full_report max (net_report (Net.net_format_device_stats max n)).
Proof.
  intros Hm. assert (zlen (@nil Z) < max) as Hnil by done. unfold Net.net_format_device_stats. replace (max =? 0) with false by lia.
  eexists. split; [reflexivity |]. revert Hnil. chain_bounded.
Qed.
Lemma net_report_udp max (n : Net.net_state (hw := hw)) :
  0 < max → full_report max (net_report (Net.net_format_udp max n)).
Proof.
  intros Hm. assert (zlen (@nil Z) < max) as Hnil by done. unfold Net.net_format_udp. replace (max =? 0) with false by lia.
  eexists. split; [reflexivity |]. revert Hnil. chain_bounded.
Qed.
Definition process_text (max : Z) (procs : list Process.process_t) : list Z :=
  for_each 0 Process.MAX_PROCESSES (λ i b, proc_line max procs.[i] b) (append_str max txt_proc_head []).
Lemma read_processes max (w : world B hw) :
  0 < max →
  proc_read s_processes max w =
  (Fat.Val (Fat.ReadResult 0 (Some (zlen (process_text max (w_procs w)))) (process_text max (w_procs w))), w).
Proof. intros Hm. unfold proc_read. by replace (max =? 0) with false by lia. Qed.
Lemma process_text_bounded max procs : 0 < max → zlen (process_text max procs) < max.
Proof.
  intros Hm. assert (zlen (@nil Z) < max) by done.
  apply (for_each_inv (λ _ b, zlen b < max) 0 Process.MAX_PROCESSES); [by apply append_str_bounded |].
  intros i b _ Hb. by apply proc_line_bounded.
Qed.

(** Reading /proc/processes reports the process table: for any non-zero
    buffer size the call succeeds, the text and its NUL fit the buffer, and
    when the whole report fits it is the header and one line with the pid, the
    state and the name of every slot in use; the three network reports are
    bounded in the same way. *)
Theorem procfs_reports max (w : world B hw) :
  0 < max → zlen (w_procs w) = Process.MAX_PROCESSES →
  (∃ b, proc_read s_processes max w = (Fat.Val (Fat.ReadResult 0 (Some (zlen b)) b), w) ∧ zlen b < max ∧
     (zlen (proc_text (w_procs w)) < max → b = proc_text (w_procs w))) ∧
  (∀ f, f ∈ [s_net_arp; s_net_dev; s_net_udp] →
     ∃ b, proc_read f max w = (Fat.Val (Fat.ReadResult 0 (Some (zlen b)) b), w) ∧ zlen b < max).
Proof.
  intros Hm Hp. split.
  - exists (process_text max (w_procs w)). split; [by apply read_processes |]. split; [by apply process_text_bounded |].
    { intros Hfit. unfold process_text, proc_text in *. rewrite zlen_app in Hfit.
      assert (append_str max txt_proc_head [] = txt_proc_head) as ->.
      { pose proof (zlen_nonneg (w_procs w ≫= proc_entry)).
        rewrite append_str_until. change (until_nul txt_proc_head) with txt_proc_head.
        by rewrite (append_all _ _ _ _ (append_tmp_ext max txt_proc_head [])) by (change (zlen (@nil Z)) with 0; lia). }
      pose proof (for_each_inv (λ i b, b = txt_proc_head ++ (take (Z.to_nat i) (w_procs w) ≫= proc_entry)) 0 Process.MAX_PROCESSES
        (λ i b, proc_line max (w_procs w).[i] b) txt_proc_head) as L.
      change (Z.max 0 Process.MAX_PROCESSES) with 16 in L. rewrite L.
      * rewrite take_ge; [done |]. unfold zlen, Process.MAX_PROCESSES in Hp. lia.
      * done.
      * intros i b Hi ->. rewrite <- Hp in Hi. rewrite take_bind_snoc by done. rewrite proc_line_text; [by rewrite <- app_assoc |].
        pose proof (bind_take_len proc_entry (w_procs w) (Z.to_nat (i + 1))) as Hb. rewrite take_bind_snoc, zlen_app in Hb by done.
        rewrite zlen_app. lia. }
  - intros f Hf. unfold proc_read. replace (max =? 0) with false by lia.
    apply elem_of_cons in Hf as [-> | Hf]; [destruct (net_report_arp max (w_net w) Hm) as (b & E & Hb) |
      apply elem_of_cons in Hf as [-> | Hf]; [destruct (net_report_dev max (w_net w) Hm) as (b & E & Hb) |
      apply elem_of_cons in Hf as [-> | []%elem_of_nil]; destruct (net_report_udp max (w_net w) Hm) as (b & E & Hb)]];
      exists b; cbn [Vfs.streq]; (split; [by rewrite <- E | done]).
Qed.
End Laws.

(** ** A machine without a disk *)
#[export] Instance no_disk : BlockDev unit := {|
  bd_read := λ _ d, (None, d); bd_write := λ _ _ d, (-1, d); bd_select := λ _ d, d; bd_available := λ _, 0 |}.
Definition demo_fat : Fat.fat_state unit :=
  Fat.FatState (Fat.Volume [] Fat.FAT_TYPE_NONE 0 0 0 0 0 0 0 0 0) tt 0 [47] [].
Definition demo_procs : list Process.process_t :=
  (replicate 16 Process.zero_proc).[0 <- Process.set_state Process.PROC_RUNNING Process.zero_proc].
Definition demo_world : world unit NetProps.ne2000 :=
  World demo_fat Ramfs.empty_ram demo_procs (NetProps.demo_state NetProps.demo_card) s_FAT.
Definition demo_fs : fs_state unit NetProps.ne2000 :=
  fs_init (λ d, d) (FsState (Vfs.VfsState [] 0) demo_world).

(** A listing of ramfs is wrong: the adapter hands out the array of
    [ramfs_file_t] as an array of [fs_file_info_t], whose fields are elsewhere.
    With one file of three bytes the listing has one entry with the right
    name, the size 0 and the flag that marks it as unused. *)
Theorem ramfs_list_misreports :
  ∃ s', fs_create [97] [1; 2; 3] 3 demo_fs = (Fat.Val 0, s') ∧
    (fs_list s').1 = Fat.Val (0, [Fat.FileInfo [97] 0 0 0]) ∧
    (fs_read [97] 512 s').1 = Fat.Val (Fat.ReadResult 0 (Some 3) [1; 2; 3]).
Proof. eexists. split; [reflexivity |]. by vm_compute. Qed.

(** ** Witnesses *)
Lemma fs_paths_dispatch_witness :
  fs_read (p_dev ++ 47 :: s_zero) 512 demo_fs = ((dev_read s_zero 512 (fsw demo_fs)).1, demo_fs).
Proof.
  apply (fs_paths_dispatch (λ d, d) (FsState (Vfs.VfsState [] 0) demo_world) s_zero 512 [] 0).
  apply (bool_decide_unpack _). by vm_compute.
Defined.
Lemma fs_create_read_roundtrip_witness :
  ∃ s', fs_create [97] [1; 2; 3] 3 demo_fs = (Fat.Val 0, s') ∧
    fs_read [97] 512 s' = (Fat.Val (Fat.ReadResult 0 (Some 3) [1; 2; 3]), s').
Proof.
  destruct (fs_create_read_roundtrip (λ d, d) (FsState (Vfs.VfsState [] 0) demo_world) [97] [1; 2; 3] 3 512)
    as (s' & E1 & E2 & _); [by vm_compute | | done | done | by vm_compute | lia | lia |].
  { apply (bool_decide_unpack _). by vm_compute. }
  exists s'. split; [exact E1 | exact E2].
Defined.
Lemma procfs_reports_witness :
  ∃ b, proc_read s_processes 100 demo_world = (Fat.Val (Fat.ReadResult 0 (Some (zlen b)) b), demo_world) ∧
    b = proc_text demo_procs.
Proof.
  destruct (procfs_reports 100 demo_world) as [(b & E & _ & F) _]; [lia | by vm_compute |].
  exists b. split; [exact E |]. apply F. by vm_compute.
Defined.

End Fs.
