(* ===== verification/Syscall.v ===== *)
(** * System calls (kernel/syscall.c)

    [syscall_dispatch] over the machine: the kernel state of Process.v, the
    terminal, the keyboard and the file system.  A pointer argument is an
    address of the calling process; loads and stores go through the page
    tables that CR3 selects.  [intr] is what happens between two polls of a
    loop that waits for a key, [hlt] what happens while the caller is not
    scheduled; the loops that wait run on [fuel], and [None] means that the
    call does not return (no key, an endless page test, or undefined behaviour
    of the file system below).

    The file system is used through the class [FileReader]; its laws say what
    a successful read promises, and the file system of Fs.v satisfies them. *)
From S2P Require Import Prelude.
From S2P Require Import PhysMem.
From S2P Require Import Vmm.
From S2P Require Import Ata.
From S2P Require Import Fdtab.
From S2P Require Import Fat.
From S2P Require Import Process.
From S2P Require Import Keyboard.
From S2P Require Import Terminal.
Import Vmm Ata Fdtab Process.
Import (hints) Keyboard Terminal.

Module Syscall.
Definition SYSCALL_MAX_STR : Z := 4096.
Definition SYS_PRINT : Z := 1.
Definition SYS_PUTCHAR : Z := 2.
Definition SYS_CLEAR : Z := 3.
Definition SYS_GETCHAR : Z := 4.
Definition SYS_READLINE : Z := 5.
Definition SYS_EXIT : Z := 6.
Definition SYS_UPTIME : Z := 7.
Definition SYS_SYSINFO : Z := 8.
Definition SYS_OPEN : Z := 9.
Definition SYS_READ : Z := 10.
Definition SYS_WRITE : Z := 11.
Definition SYS_CLOSE : Z := 12.
Definition SYS_SETCOLOR : Z := 13.
Definition SYS_WAITPID : Z := 14.
Definition SYS_SLEEP : Z := 15.
Definition OS_NAME : list Z := [65; 79; 45; 79; 83].
Definition KERNEL_VERSION_STRING : list Z := [50; 46; 48; 46; 48].

(** What the dispatcher uses of the file system: [fs_read], which also sees
    the process table (through /proc). *)
Class FileReader (F : Type) := {
  file_read : list process_t → list Z → Z → F → Fat.outcome Fat.read_result * F
}.
Class FileReaderLaws (F : Type) `{FileReader F} := {
  fr_ok : F → Prop;
  fr_bounded procs name max f r f' : fr_ok f → 0 < max → zlen procs = MAX_PROCESSES →
    file_read procs name max f = (Fat.Val r, f') →
    fr_ok f' ∧ zlen (Fat.rr_buf r) ≤ max ∧
    (Fat.rr_rc r = 0 → Fat.rr_size r = Some (zlen (Fat.rr_buf r)))
}.

Section Dispatch.
Context {hw : Type} `{PortIO hw} {F : Type} `{FileReader F}.

Record machine := Machine {
  kernel : kern;
  terminal : Terminal.term (hw := hw);
  keyboard : Keyboard.kb_state (hw := hw);
  files : F
}.
Definition set_kernel (k : kern) (m : machine) : machine := Machine k (terminal m) (keyboard m) (files m).
Definition set_terminal (t : Terminal.term) (m : machine) : machine := Machine (kernel m) t (keyboard m) (files m).
Definition set_keyboard (b : Keyboard.kb_state) (m : machine) : machine := Machine (kernel m) (terminal m) b (files m).
Definition set_files (f : F) (m : machine) : machine := Machine (kernel m) (terminal m) (keyboard m) f.
Definition set_fd_table (t : fd_table) (m : machine) : machine := set_kernel (set_fds (kernel m) t) m.
Definition put_char (c : Z) (m : machine) : machine := set_terminal (Terminal.terminal_putchar c (terminal m)) m.

(** ** User memory *)
Definition load_byte (m : machine) (addr : Z) : Z :=
  vload (mem (vmm (kernel m))) (cr3_reg (vmm (kernel m))) (u64 addr).
Definition store_byte (addr v : Z) (m : machine) : machine :=
  let k := kernel m in
  let a := vmm_get_physical_in (mem (vmm k)) (cr3_reg (vmm k)) (u64 addr) in
  set_kernel (set_vmm k (set_mem (vmm k) (mupd (mem (vmm k)) a v))) m.
(** [for (i = 0; i < n; i++) buf[i] = bs[i]] *)
Fixpoint store_bytes (addr : Z) (bs : list Z) (m : machine) : machine :=
  match bs with [] => m | b :: r => store_bytes (addr + 1) r (store_byte addr b m) end.

Definition user_buf_ok (addr len : Z) (m : machine) : option bool :=
  if len =? 0 then Some true else
  match process_get_current (kernel m) with
  | None => Some false
  | Some c =>
      if negb (is_user (proc (kernel m) c)) then Some false
      else vmm_user_range_ok (mem (vmm (kernel m))) (cr3 (proc (kernel m) c)) addr len
  end.
Definition user_str_len (addr : Z) (m : machine) : Z :=
  match process_get_current (kernel m) with
  | None => -1
  | Some c =>
      if negb (is_user (proc (kernel m) c)) then -1
      else vmm_user_strlen (mem (vmm (kernel m))) (cr3 (proc (kernel m) c)) addr SYSCALL_MAX_STR
  end.
Definition user_string (addr len : Z) (m : machine) : list Z := (λ i, load_byte m (addr + i)) <$> seqZ 0 len.

(** ** The calls, each the body of its [case] *)
Definition result := option (Z * machine).

Definition sys_print (arg1 : Z) (m : machine) : result :=
  if arg1 =? 0 then Some (0, m) else
  let n := user_str_len arg1 m in
  if n <? 0 then Some (-1, m) else
  Some (0, set_terminal (Terminal.terminal_write (user_string arg1 n m) (terminal m)) m).

Definition current_pid (m : machine) : Z :=
  match process_get_current (kernel m) with Some c => pid (proc (kernel m) c) | None => 0 end.

Section Waiting.
Context (intr : machine → machine) (fuel : Z).

(** [while (c == 0) if (foreground) c = keyboard_getchar()] *)
Definition wait_key (pid : Z) (m : machine) : option (Z * machine) :=
  match iterZ fuel (λ m,
    let m := intr m in
    if process_is_foreground (kernel m) pid then
      let '(c, b) := Keyboard.keyboard_getchar (keyboard m) in
      if c =? 0 then inl (set_keyboard b m) else inr (c, set_keyboard b m)
    else inl m) m with
  | inr r => Some r
  | inl _ => None
  end.

Definition sys_getchar (m : machine) : result := wait_key (current_pid m) m.

(** One round of the line editor: the index and the machine; [inr None] when
    no key ever comes. *)
Definition readline_step (buf maxlen pid : Z) (s : Z * machine) : (Z * machine) + option (Z * machine) :=
  let '(i, m) := s in
  if negb (i <? maxlen - 1) then inr (Some (i, m)) else
  match wait_key pid m with
  | None => inr None
  | Some (c, m) =>
      if (c =? 10) || (c =? 13) then inr (Some (i, put_char 10 m))
      else if c =? 8 then
        if 0 <? i then inl (i - 1, set_terminal (Terminal.terminal_backspace (terminal m)) m) else inl (i, m)
      else if (32 <=? c) && (c <? 128) then inl (i + 1, put_char c (store_byte (buf + i) c m))
      else inl (i, m)
  end.
Definition sys_readline (arg1 arg2 : Z) (m : machine) : result :=
  let maxlen := u32 arg2 in
  if (arg1 =? 0) || (maxlen =? 0) then Some (-1, m) else
  ok ← user_buf_ok arg1 maxlen m;
  if negb ok then Some (-1, m) else
  match iterZ fuel (readline_step arg1 maxlen (current_pid m)) (0, m) with
  | inr (Some (i, m)) => Some (i32 i, store_byte (arg1 + i) 0 m)
  | _ => None
  end.
End Waiting.

(** Append while the text is shorter than [limit]. *)
Definition copy_text (limit : Z) (s b : list Z) : list Z := b ++ take (Z.to_nat (limit - zlen b)) s.
Definition sys_sysinfo (arg1 arg2 : Z) (m : machine) : result :=
  let maxlen := u32 arg2 in
  if (arg1 =? 0) || (maxlen <? 2) then Some (-1, m) else
  ok ← user_buf_ok arg1 maxlen m;
  if negb ok then Some (-1, m) else
  let b := copy_text (maxlen - 2) OS_NAME [] in
  let b := b ++ [32] in
  let b := copy_text (maxlen - 1) KERNEL_VERSION_STRING b in
  Some (i32 (zlen b), store_bytes arg1 (b ++ [0]) m).

(** The first unused slot. *)
Definition free_fd (t : fd_table) : option Z :=
  match for_range 0 MAX_FD (λ i (_ : unit), if negb (fd_used t.[i]) then inr i else inl tt) tt with
  | inr i => Some i
  | inl _ => None
  end.
(** The name as the loop at the end of [SYS_OPEN] stores it. *)
Definition fd_name_of (old name : list Z) : list Z :=
  let n := take 255 name in (ablit old 0 n).[zlen n <- 0].
Definition sys_open (arg1 : Z) (m : machine) : result :=
  if arg1 =? 0 then Some (-1, m) else
  let n := user_str_len arg1 m in
  if n <? 0 then Some (-1, m) else
  match process_get_current (kernel m) with
  | None => Some (-1, m)
  | Some c =>
      match free_fd (fds (kernel m)) with
      | None => Some (-1, m)
      | Some i =>
          let name := user_string arg1 n m in
          let f := (fds (kernel m)).[i] in
          match file_read (processes (kernel m)) name FD_DATA_SIZE (files m) with
          | (Fat.Val r, fs) =>
              let data := ablit (fd_data f) 0 (Fat.rr_buf r) in
              let m := set_files fs m in
              if negb (Fat.rr_rc r =? 0) then
                Some (-1, set_fd_table ((fds (kernel m)).[i <- Fd (fd_name f) data (fd_size f) (fd_pos f) (fd_used f) (fd_owner_pid f)]) m)
              else
                Some (i, set_fd_table ((fds (kernel m)).[i <-
                  Fd (fd_name_of (fd_name f) name) data (default 0 (Fat.rr_size r)) 0 true (pid (proc (kernel m) c))]) m)
          | _ => None
          end
      end
  end.

Definition sys_read (arg1 arg2 arg3 : Z) (m : machine) : result :=
  let fd := i32 arg1 in
  let len := u32 arg3 in
  let f := (fds (kernel m)).[fd] in
  if (fd <? 0) || (MAX_FD <=? fd) || negb (fd_used f) || (arg2 =? 0) then Some (-1, m) else
  match process_get_current (kernel m) with
  | None => Some (-1, m)
  | Some c =>
      if negb (fd_owner_pid f =? pid (proc (kernel m) c)) then Some (-1, m) else
      ok ← (if 0 <? len then user_buf_ok arg2 len m else Some true);
      if negb ok then Some (-1, m) else
      if fd_size f <=? fd_pos f then Some (0, m) else
      let remaining := fd_size f - fd_pos f in
      let len := if remaining <? len then remaining else len in
      let m := store_bytes arg2 (take (Z.to_nat len) (drop (Z.to_nat (fd_pos f)) (fd_data f))) m in
      Some (i32 len, set_fd_table ((fds (kernel m)).[fd <- set_pos f (fd_pos f +32 len)]) m)
  end.

Definition sys_write (arg1 arg2 : Z) (m : machine) : result :=
  let len := u32 arg2 in
  if arg1 =? 0 then Some (-1, m) else
  ok ← (if 0 <? len then user_buf_ok arg1 len m else Some true);
  if negb ok then Some (-1, m) else
  Some (i32 len, set_terminal (Terminal.terminal_write (user_string arg1 len m) (terminal m)) m).

Definition sys_close (arg1 : Z) (m : machine) : result :=
  let fd := i32 arg1 in
  let f := (fds (kernel m)).[fd] in
  if (fd <? 0) || (MAX_FD <=? fd) || negb (fd_used f) then Some (-1, m) else
  match process_get_current (kernel m) with
  | None => Some (-1, m)
  | Some c =>
      if negb (fd_owner_pid f =? pid (proc (kernel m) c)) then Some (-1, m) else
      Some (0, set_fd_table ((fds (kernel m)).[fd <- set_used f false]) m)
  end.

(** [process_waitpid] and [process_sleep_ticks] on the machine. *)
Definition on_kernel {A} (c : km A) (m : machine) : option (A * machine) :=
  '(a, k) ← c (kernel m); Some (a, set_kernel k m).

Context (intr : machine → machine) (hlt : kern → kern) (fuel : Z).
Definition sys_waitpid (arg1 arg2 arg3 : Z) (m : machine) : result :=
  ok ← (if negb (arg2 =? 0) then user_buf_ok arg2 4 m else Some true);
  if negb ok then Some (-1, m) else
  on_kernel (process_waitpid hlt fuel arg1 arg2 (i32 arg3)) m.

Definition syscall_dispatch (num arg1 arg2 arg3 : Z) (m : machine) : result :=
  if num =? SYS_PRINT then sys_print arg1 m
  else if num =? SYS_PUTCHAR then Some (0, put_char (u8 arg1) m)
  else if num =? SYS_CLEAR then Some (0, set_terminal (Terminal.terminal_clear (terminal m)) m)
  else if num =? SYS_GETCHAR then sys_getchar intr fuel m
  else if num =? SYS_READLINE then sys_readline intr fuel arg1 arg2 m
  else if num =? SYS_EXIT then Some (0, set_kernel (process_exit (i32 arg1) (kernel m)) m)
  else if num =? SYS_UPTIME then Some (i32 (timer_get_ticks (kernel m)), m)
  else if num =? SYS_SYSINFO then sys_sysinfo arg1 arg2 m
  else if num =? SYS_OPEN then sys_open arg1 m
  else if num =? SYS_READ then sys_read arg1 arg2 arg3 m
  else if num =? SYS_WRITE then sys_write arg1 arg2 m
  else if num =? SYS_CLOSE then sys_close arg1 m
  else if num =? SYS_SETCOLOR then Some (0, set_terminal (Terminal.terminal_setcolor (u8 arg1) (terminal m)) m)
  else if num =? SYS_WAITPID then sys_waitpid arg1 arg2 arg3 m
  else if num =? SYS_SLEEP then '(_, m) ← on_kernel (process_sleep_ticks hlt fuel arg1) m; Some (0, m)
  else Some (-1, m).

Definition syscall_init (m : machine) : machine := set_fd_table (fd_table_init (fds (kernel m))) m.
End Dispatch.
Arguments machine : clear implicits.
End Syscall.
