(* ===== verification/SyscallProps.v ===== *)
(** * Properties of the system calls

    No call writes memory that its caller cannot access, no call touches the
    file handles of another process, and the handles deliver the files.  The
    hypothesis [isolated] says that the page tables of the caller are not in
    pages it can access itself, which is how process.c builds them. *)
From S2P Require Import Prelude.
From S2P Require Import PhysMem.
From S2P Require Import Vmm.
From S2P Require Import Ata.
From S2P Require Import Fdtab.
From S2P Require Import Fat.
From S2P Require Import Process.
From S2P Require Import Keyboard.
From S2P Require Import Terminal.
From S2P Require Import Syscall.
Import Vmm Ata Fdtab Process Syscall.
Import (hints) Keyboard Terminal.

Module SyscallProps.

(** A physical address that belongs to a page the address space lets the user access. *)
Definition user_cell (m : pmem) (c x : Z) : Prop :=
  ∃ a, vmm_user_page_ok m c a = true ∧ vmm_get_physical_in m c a = x.
(** Memories that differ from [m] in user cells only. *)
Definition confined (m : pmem) (c : Z) (m' : pmem) : Prop := ∀ x, m' x ≠ m x → user_cell m c x.
(** The translation does not depend on user cells. *)
Definition isolated (m : pmem) (c : Z) : Prop :=
  ∀ m' a, confined m c m' →
    vmm_get_physical_in m' c a = vmm_get_physical_in m c a ∧ vmm_user_page_ok m' c a = vmm_user_page_ok m c a.

Lemma confined_refl m c : confined m c m.
Proof. by intros x Hx. Qed.
Lemma confined_upd m c m' a v :
  confined m c m' → vmm_user_page_ok m c a = true → confined m c (mupd m' (vmm_get_physical_in m c a) v).
Proof.
  intros Hc Ha x Hx. unfold mupd in Hx. destruct (Z.eqb_spec x (vmm_get_physical_in m c a)) as [E |]; [by exists a | by apply Hc].
Qed.

(** Only the page-aligned part of CR3 matters. *)
Lemma phys_mask m c c' a :
  Z.land c PTE_ADDR_MASK = Z.land c' PTE_ADDR_MASK → vmm_get_physical_in m c a = vmm_get_physical_in m c' a.
Proof. intros E. unfold vmm_get_physical_in. by rewrite E. Qed.

Section Memory.
Context {hw : Type} `{PortIO hw} {F : Type} `{FileReader F}.
Implicit Types m : machine hw F.

Definition mem_of m : pmem := mem (vmm (kernel m)).
Definition with_mem (mm : pmem) m : machine hw F :=
  set_kernel (set_vmm (kernel m) (set_mem (vmm (kernel m)) mm)) m.

(** The caller in slot [c], its tables in CR3. *)
Record runs (c : Z) m : Prop := Runs {
  rn_current : current_process (kernel m) = Some c;
  rn_cr3 : Z.land (cr3_reg (vmm (kernel m))) PTE_ADDR_MASK = Z.land (cr3 (proc (kernel m) c)) PTE_ADDR_MASK
}.
Definition space c m : Z := cr3 (proc (kernel m) c).

(** The memory after the bytes [bs] are stored from [addr] on. *)
Fixpoint stores (phys : Z → Z) (addr : Z) (bs : list Z) (mm : pmem) : pmem :=
  match bs with [] => mm | b :: r => stores phys (addr + 1) r (mupd mm (phys addr) b) end.

Lemma store_byte_eq c (m0 : pmem) m addr v :
  runs c m → isolated m0 (space c m) → confined m0 (space c m) (mem_of m) →
  store_byte addr v m = with_mem (mupd (mem_of m) (vmm_get_physical_in m0 (space c m) (u64 addr)) v) m.
Proof.
  intros [_ Hc] Hi Hf. unfold store_byte, with_mem. rewrite (phys_mask _ _ _ _ Hc).
  fold (mem_of m). fold (space c m). by rewrite (proj1 (Hi _ (u64 addr) Hf)).
Qed.

Lemma runs_with_mem c mm m : runs c m → runs c (with_mem mm m).
Proof. by intros [E1 E2]. Qed.

Lemma store_bytes_eq c (m0 : pmem) bs addr m :
  runs c m → isolated m0 (space c m) → confined m0 (space c m) (mem_of m) →
  (∀ i, 0 ≤ i < zlen bs → vmm_user_page_ok m0 (space c m) (u64 (addr + i)) = true) →
  store_bytes addr bs m = with_mem (stores (λ a, vmm_get_physical_in m0 (space c m) (u64 a)) addr bs (mem_of m)) m ∧
  confined m0 (space c m) (stores (λ a, vmm_get_physical_in m0 (space c m) (u64 a)) addr bs (mem_of m)).
Proof.
  revert addr m. induction bs as [| b bs IH]; intros addr m Hr Hi Hf Hu; cbn [store_bytes stores].
  { split; [| done]. by destruct m as [[] ? ? ?]; unfold with_mem, mem_of; destruct vmm0. }
  rewrite zlen_cons in Hu. pose proof (zlen_nonneg bs).
  rewrite (store_byte_eq c m0) by done.
  specialize (IH (addr + 1) (with_mem (mupd (mem_of m) (vmm_get_physical_in m0 (space c m) (u64 addr)) b) m)).
  destruct IH as [E Hc]; [by apply runs_with_mem | done | | |].
  - apply confined_upd; [done |]. specialize (Hu 0). rewrite Z.add_0_r in Hu. apply Hu. lia.
  - intros i Hi'. replace (addr + 1 + i) with (addr + (i + 1)) by lia. apply Hu. lia.
  - split; [exact E | exact Hc].
Qed.

Lemma buf_ok_true c addr len m :
  runs c m → 0 ≤ addr → 0 < len < 2 ^ 64 → user_buf_ok addr len m = Some true →
  ∀ i, 0 ≤ i < len → vmm_user_page_ok (mem_of m) (space c m) (u64 (addr + i)) = true.
Proof.
  intros [Hr _] Ha Hl. unfold user_buf_ok, process_get_current. rewrite Hr. replace (len =? 0) with false by lia.
  destruct (negb _); [done |]. intros E i Hi.
  destruct (user_range_true _ _ addr len Ha ltac:(lia) E) as [Hlt Hu]. rewrite u64_small by lia. apply Hu. lia.
Qed.

(** Storing part of a buffer that was checked. *)
Lemma checked_stores c addr len bs m :
  runs c m → isolated (mem_of m) (space c m) → 0 ≤ addr → 0 < len < 2 ^ 64 → zlen bs ≤ len →
  user_buf_ok addr len m = Some true →
  store_bytes addr bs m = with_mem (stores (λ a, vmm_get_physical_in (mem_of m) (space c m) (u64 a)) addr bs (mem_of m)) m ∧
  confined (mem_of m) (space c m) (mem_of (store_bytes addr bs m)).
Proof.
  intros Hr Hi Ha Hl Hb Hok. destruct (store_bytes_eq c (mem_of m) bs addr m) as [E Hc]; [done | done | apply confined_refl | |].
  - intros i Hib. by apply (buf_ok_true c addr len); [| | | | lia].
  - rewrite E. split; [done | exact Hc].
Qed.

(** What the loops that wait for a key keep. *)
Section Keys.
Context (intr : machine hw F → machine hw F) (fuel : Z) {A : Type} (view : kern → A).
Hypothesis intr_keeps : ∀ m, view (kernel (intr m)) = view (kernel m).

Lemma wait_key_keeps pid m ch m' : wait_key intr fuel pid m = Some (ch, m') → view (kernel m') = view (kernel m).
Proof.
  unfold wait_key. match goal with |- context [iterZ fuel ?f m] => set (step := f) end.
  assert (match iterZ fuel step m with inl m1 => view (kernel m1) = view (kernel m) | inr r => view (kernel r.2) = view (kernel m) end) as HI.
  { apply (iterZ_inv (λ m1, view (kernel m1) = view (kernel m))); [done | |]; unfold step; intros m1 r Hm1;
      rewrite <- Hm1, <- (intr_keeps m1); destruct (process_is_foreground _ _); try (by intros [= <-]); try done;
      destruct (Keyboard.keyboard_getchar (keyboard (intr m1))) as [c b]; destruct (c =? 0); intros [= <-]; done. }
  destruct (iterZ fuel step m); [done |]. by intros [= ->].
Qed.
End Keys.

(** What an interrupt that runs no other process leaves alone. *)
Definition kview (c : Z) (k : kern) := (vmm k, current_process k, cr3 (proc k c), fds k).
Context (intr : machine hw F → machine hw F) (hlt : kern → kern) (fuel c : Z).
Hypothesis intr_keeps : ∀ m, kview c (kernel (intr m)) = kview c (kernel m).

Lemma kview_inv m m' :
  kview c (kernel m') = kview c (kernel m) →
  vmm (kernel m') = vmm (kernel m) ∧ fds (kernel m') = fds (kernel m) ∧ space c m' = space c m ∧ (runs c m → runs c m').
Proof.
  unfold kview. intros [= E1 E2 E3 E4]. split; [done |]. split; [done |]. split; [done |].
  intros [R1 R2]. constructor; [by rewrite E2 | by rewrite E1, E3].
Qed.

(** The state of the line editor after any number of keys. *)
Record editing (m : machine hw F) (maxlen i : Z) (m1 : machine hw F) : Prop := Editing {
  ed_index : 0 ≤ i ≤ maxlen - 1;
  ed_runs : runs c m1;
  ed_space : space c m1 = space c m;
  ed_fds : fds (kernel m1) = fds (kernel m);
  ed_mem : confined (mem_of m) (space c m) (mem_of m1)
}.

Lemma editing_store m maxlen i m1 addr v :
  isolated (mem_of m) (space c m) → editing m maxlen i m1 → vmm_user_page_ok (mem_of m) (space c m) (u64 addr) = true →
  editing m maxlen i (store_byte addr v m1).
Proof.
  intros Hi [E1 E2 E3 E4 E5] Hu. rewrite (store_byte_eq c (mem_of m)) by (rewrite ?E3; done). rewrite E3.
  constructor; [done | by apply runs_with_mem | done | done | by apply confined_upd].
Qed.
Lemma editing_same m maxlen i m1 m2 :
  kview c (kernel m2) = kview c (kernel m1) → editing m maxlen i m1 → editing m maxlen i m2.
Proof.
  intros E [E1 E2 E3 E4 E5]. apply kview_inv in E as (V & Fd & S & R).
  constructor; [done | auto | congruence | congruence | unfold mem_of in *; by rewrite V].
Qed.

Lemma readline_step_inv m buf maxlen pid i m1 :
  isolated (mem_of m) (space c m) →
  (∀ j, 0 ≤ j < maxlen → vmm_user_page_ok (mem_of m) (space c m) (u64 (buf + j)) = true) →
  editing m maxlen i m1 →
  match readline_step intr fuel buf maxlen pid (i, m1) with
  | inl s => editing m maxlen s.1 s.2
  | inr (Some s) => editing m maxlen s.1 s.2
  | inr None => True
  end.
Proof.
  intros Hi Hu He. pose proof (ed_index _ _ _ _ He) as Hr. unfold readline_step.
  destruct (Z.ltb_spec i (maxlen - 1)) as [Hlt | ?]; cbn [negb]; [| done].
  destruct (wait_key intr fuel pid m1) as [[ch m2] |] eqn:Ew; [| done].
  apply (wait_key_keeps intr fuel (kview c) intr_keeps) in Ew. apply (editing_same _ _ _ _ m2) in He; [| done].
  assert (∀ i', 0 ≤ i' ≤ maxlen - 1 → ∀ m3, kview c (kernel m3) = kview c (kernel m2) → editing m maxlen i' m3) as Hmove.
  { intros i' Hi' m3 Hv. apply (editing_same _ _ _ m2); [done |]. destruct He. by constructor. }
  destruct ((ch =? 10) || (ch =? 13)); [apply Hmove; [cbn; lia | done] |].
  destruct (ch =? 8); [destruct (Z.ltb_spec 0 i); apply Hmove; (done || cbn; lia) |].
  destruct (_ && _); [| apply Hmove; [cbn; lia | done]].
  pose proof (editing_store m maxlen i m2 (buf + i) ch Hi He (Hu i ltac:(lia))) as [S1 S2 S3 S4 S5].
  constructor; [cbn; lia | by destruct S2 | exact S3 | exact S4 | exact S5].
Qed.

Lemma readline_confined arg1 arg2 m r m' :
  runs c m → isolated (mem_of m) (space c m) → 0 ≤ arg1 →
  sys_readline intr fuel arg1 arg2 m = Some (r, m') →
  confined (mem_of m) (space c m) (mem_of m') ∧ fds (kernel m') = fds (kernel m).
Proof.
  intros Hr Hi Ha. unfold sys_readline. pose proof (u32_range arg2) as Hml. set (maxlen := u32 arg2) in *. clearbody maxlen.
  destruct ((arg1 =? 0) || (maxlen =? 0)) eqn:E0; [intros [= _ <-]; split; [apply confined_refl | done] |].
  destruct (user_buf_ok arg1 maxlen m) as [[] |] eqn:Eb; cbn; [| intros [= _ <-]; split; [apply confined_refl | done] | done].
  assert (∀ j, 0 ≤ j < maxlen → vmm_user_page_ok (mem_of m) (space c m) (u64 (arg1 + j)) = true) as Hu
    by (apply (buf_ok_true c); [done | done | lia | done]).
  assert (editing m maxlen 0 m) as He by (constructor; [lia | done | done | done | apply confined_refl]).
  match goal with |- context [iterZ fuel ?f ?s] => set (step := f); set (s0 := s) end.
  assert (match iterZ fuel step s0 with
          | inl s => editing m maxlen s.1 s.2 | inr (Some s) => editing m maxlen s.1 s.2 | inr None => True end) as HI.
  { pose proof (iterZ_inv (λ s, editing m maxlen s.1 s.2) (λ o, match o with Some s => editing m maxlen s.1 s.2 | None => True end)
      fuel step s0 He) as L. destruct (iterZ fuel step s0) as [s | o]; apply L; intros [i m1] x Hs Ex;
      pose proof (readline_step_inv m arg1 maxlen (current_pid m) i m1 Hi Hu Hs) as Q; unfold step in Ex; by rewrite Ex in Q. }
  destruct (iterZ fuel step s0) as [s | [[i m1] |]]; [done | | done]. cbn [fst snd] in HI. intros [= _ <-].
  pose proof (ed_index _ _ _ _ HI). destruct (editing_store m maxlen i m1 (arg1 + i) 0 Hi HI (Hu i ltac:(lia))). done.
Qed.

Lemma exit_keeps code k : vmm (process_exit code k) = vmm k ∧ fds (process_exit code k) = fds k.
Proof.
  unfold process_exit. destruct (current_process k) as [i |]; [| done]. destruct (pid (proc k i) =? 0); [done |].
  unfold wake_waiters. apply (for_each_inv (λ _ k', vmm k' = vmm k ∧ fds k' = fds k)); [done |].
  intros j k' _ Hk. by case_match.
Qed.

Lemma getchar_keeps m r m' : sys_getchar intr fuel m = Some (r, m') → kview c (kernel m') = kview c (kernel m).
Proof. apply (wait_key_keeps intr fuel (kview c) intr_keeps). Qed.

Lemma sysinfo_text_len maxlen :
  2 ≤ maxlen →
  let b := copy_text (maxlen - 1) KERNEL_VERSION_STRING (copy_text (maxlen - 2) OS_NAME [] ++ [32]) in
  zlen b ≤ maxlen - 1.
Proof.
  intros Hm. cbn zeta. unfold copy_text. cbn [app]. change (zlen (@nil Z)) with 0.
  rewrite !zlen_app, !zlen_take. change (zlen [32]) with 1. lia.
Qed.

Lemma sysinfo_confined arg1 arg2 m r m' :
  runs c m → isolated (mem_of m) (space c m) → 0 ≤ arg1 → sys_sysinfo arg1 arg2 m = Some (r, m') →
  confined (mem_of m) (space c m) (mem_of m') ∧ fds (kernel m') = fds (kernel m).
Proof.
  intros Hr Hi Ha. unfold sys_sysinfo. pose proof (u32_range arg2). set (maxlen := u32 arg2) in *. clearbody maxlen.
  destruct ((arg1 =? 0) || (maxlen <? 2)) eqn:E0; [intros [= _ <-]; split; [apply confined_refl | done] |].
  destruct (user_buf_ok arg1 maxlen m) as [[] |] eqn:Eb; cbn [mbind option_bind negb];
    [| intros [= _ <-]; split; [apply confined_refl | done] | done].
  pose proof (sysinfo_text_len maxlen ltac:(lia)) as Hl. cbn zeta in Hl. set (b := copy_text _ _ _) in *. clearbody b.
  intros [= _ <-].
  destruct (checked_stores c arg1 maxlen (b ++ [0]) m Hr Hi Ha ltac:(lia)) as [E Hc]; [rewrite zlen_app; change (zlen [0]) with 1; lia | done |].
  split; [done |]. by rewrite E.
Qed.

(** The handle and the length of a successful read. *)
Lemma sys_read_inv arg1 arg2 arg3 m r m' :
  runs c m → sys_read arg1 arg2 arg3 m = Some (r, m') →
  (m' = m ∧ (r = -1 ∨ r = 0)) ∨
  ∃ fd len, fd = i32 arg1 ∧ 0 ≤ fd < MAX_FD ∧ owns (fds (kernel m)) (pid (proc (kernel m) c)) fd = true ∧
    fd_pos (fds (kernel m)).[fd] < fd_size (fds (kernel m)).[fd] ∧
    len = Z.min (u32 arg3) (fd_size (fds (kernel m)).[fd] - fd_pos (fds (kernel m)).[fd]) ∧ r = i32 len ∧
    (0 < u32 arg3 → user_buf_ok arg2 (u32 arg3) m = Some true) ∧
    let f := (fds (kernel m)).[fd] in
    let m1 := store_bytes arg2 (take (Z.to_nat len) (drop (Z.to_nat (fd_pos f)) (fd_data f))) m in
    m' = set_fd_table ((fds (kernel m1)).[fd <- set_pos f (fd_pos f +32 len)]) m1.
Proof.
  intros [Hr _]. unfold sys_read, process_get_current. rewrite Hr. set (fd := i32 arg1). set (f := (fds (kernel m)).[fd]).
  destruct (_ || _ || _ || (arg2 =? 0)) eqn:E0; [intros [= <- <-]; auto |].
  destruct (fd_owner_pid f =? pid (proc (kernel m) c)) eqn:E1; cbn [negb]; [| intros [= <- <-]; auto].
  destruct (if 0 <? u32 arg3 then _ else _) as [[] |] eqn:E2; cbn [mbind option_bind negb]; [| intros [= <- <-]; auto | done].
  destruct (Z.leb_spec (fd_size f) (fd_pos f)); [intros [= <- <-]; auto |]. intros [= <- <-]. right.
  exists fd, (Z.min (u32 arg3) (fd_size f - fd_pos f)). apply orb_false_iff in E0 as [E0 _]. apply orb_false_iff in E0 as [E0 Eu].
  assert ((if fd_size f - fd_pos f <? u32 arg3 then fd_size f - fd_pos f else u32 arg3) = Z.min (u32 arg3) (fd_size f - fd_pos f)) as ->
    by (destruct (Z.ltb_spec (fd_size f - fd_pos f) (u32 arg3)); lia).
  split; [done |]. split; [lia |]. split; [unfold owns; fold f; rewrite E1; by destruct (fd_used f) |].
  split; [done |]. split; [done |]. split; [done |]. split; [| done].
  intros Hpos. by replace (0 <? u32 arg3) with true in E2 by lia.
Qed.

Lemma read_confined arg1 arg2 arg3 m r m' :
  runs c m → isolated (mem_of m) (space c m) → 0 ≤ arg2 → sys_read arg1 arg2 arg3 m = Some (r, m') →
  confined (mem_of m) (space c m) (mem_of m').
Proof.
  intros Hr Hi Ha E. apply sys_read_inv in E as [[-> _] | (fd & len & -> & Hfd & _ & _ & Hlen & _ & Hok & ->)];
    [apply confined_refl | | done]. cbn zeta. pose proof (u32_range arg3).
  set (bs := take _ _). assert (zlen bs ≤ u32 arg3) as Hb by (unfold bs; rewrite zlen_take; lia). clearbody bs.
  destruct (decide (0 < u32 arg3)) as [Hpos |].
  - exact (proj2 (checked_stores c arg2 (u32 arg3) bs m Hr Hi Ha ltac:(lia) Hb (Hok Hpos))).
  - destruct bs; [apply confined_refl |]. rewrite zlen_cons in Hb. pose proof (zlen_nonneg bs). lia.
Qed.

(** ** Properties *)

(** C2: No system call writes memory its caller cannot access.  For every call
    number other than WAITPID and SLEEP (which run other processes) and any
    64-bit arguments, every byte of physical memory that changes is in a page
    that the caller's own tables map for user access. *)
Theorem syscall_memory_confined num arg1 arg2 arg3 m r m' :
  runs c m → isolated (mem_of m) (space c m) → 0 ≤ arg1 → 0 ≤ arg2 →
  num ≠ SYS_WAITPID → num ≠ SYS_SLEEP →
  syscall_dispatch intr hlt fuel num arg1 arg2 arg3 m = Some (r, m') →
  confined (mem_of m) (space c m) (mem_of m').
Proof.
  intros Hr Hi Ha1 Ha2 Hw Hs. unfold syscall_dispatch.
  assert (∀ x y : machine hw F, vmm (kernel y) = vmm (kernel x) → confined (mem_of x) (space c x) (mem_of y)) as Same.
  { intros x y E. unfold mem_of. rewrite E. apply confined_refl. }
  destruct (num =? SYS_PRINT).
  { unfold sys_print. repeat case_match; intros [= _ <-]; by apply Same. }
  destruct (num =? SYS_PUTCHAR); [intros [= _ <-]; by apply Same |].
  destruct (num =? SYS_CLEAR); [intros [= _ <-]; by apply Same |].
  destruct (num =? SYS_GETCHAR); [intros E%getchar_keeps; apply Same; by apply kview_inv in E as [? _] |].
  destruct (num =? SYS_READLINE); [intros E; exact (proj1 (readline_confined _ _ _ _ _ Hr Hi Ha1 E)) |].
  destruct (num =? SYS_EXIT); [intros [= _ <-]; apply Same; apply exit_keeps |].
  destruct (num =? SYS_UPTIME); [intros [= _ <-]; by apply Same |].
  destruct (num =? SYS_SYSINFO); [intros E; exact (proj1 (sysinfo_confined _ _ _ _ _ Hr Hi Ha1 E)) |].
  destruct (num =? SYS_OPEN).
  { unfold sys_open. repeat case_match; try done; intros [= _ <-]; by apply Same. }
  destruct (num =? SYS_READ); [intros E; exact (read_confined _ _ _ _ _ _ Hr Hi Ha2 E) |].
  destruct (num =? SYS_WRITE).
  { unfold sys_write. destruct (arg1 =? 0); [intros [= _ <-]; by apply Same |].
    destruct (if 0 <? u32 arg2 then _ else _) as [[] |]; cbn [mbind option_bind negb]; [intros [= _ <-]; by apply Same.. | done]. }
  destruct (num =? SYS_CLOSE).
  { unfold sys_close. repeat case_match; intros [= _ <-]; by apply Same. }
  destruct (num =? SYS_SETCOLOR); [intros [= _ <-]; by apply Same |].
  replace (num =? SYS_WAITPID) with false by lia. replace (num =? SYS_SLEEP) with false by lia.
  intros [= _ <-]. by apply Same.
Qed.

(** ** File handles *)
Lemma store_bytes_frame addr bs m :
  fds (kernel (store_bytes addr bs m)) = fds (kernel m) ∧ files (store_bytes addr bs m) = files m ∧
  processes (kernel (store_bytes addr bs m)) = processes (kernel m).
Proof. revert addr m. induction bs as [| b bs IH]; intros addr m; cbn [store_bytes]; [done | by rewrite !(proj1 (IH _ _)), !(proj1 (proj2 (IH _ _))), !(proj2 (proj2 (IH _ _)))]. Qed.

(** The calls that do not open, read or close. *)
Definition handle_call (num : Z) : bool := (num =? SYS_OPEN) || (num =? SYS_READ) || (num =? SYS_CLOSE).

Context (intr_files : ∀ m, files (intr m) = files m).
Lemma wait_key_files pid m ch m' : wait_key intr fuel pid m = Some (ch, m') → files m' = files m.
Proof.
  unfold wait_key. match goal with |- context [iterZ fuel ?f m] => set (step := f) end.
  assert (match iterZ fuel step m with inl m1 => files m1 = files m | inr r => files r.2 = files m end) as HI.
  { apply (iterZ_inv (λ m1, files m1 = files m)); [done | |]; unfold step; intros m1 r Hm1;
      rewrite <- Hm1, <- (intr_files m1); destruct (process_is_foreground _ _); try (by intros [= <-]); try done;
      destruct (Keyboard.keyboard_getchar (keyboard (intr m1))) as [k b]; destruct (k =? 0); intros [= <-]; done. }
  destruct (iterZ fuel step m); [done |]. by intros [= ->].
Qed.

Definition hview m := (fds (kernel m), files m).
Lemma wait_key_hview pid m ch m' : wait_key intr fuel pid m = Some (ch, m') → hview m' = hview m.
Proof.
  intros E. unfold hview. rewrite (wait_key_files _ _ _ _ E).
  apply (wait_key_keeps intr fuel (kview c) intr_keeps) in E. apply kview_inv in E as (_ & -> & _). done.
Qed.

Lemma readline_hview arg1 arg2 m r m' : sys_readline intr fuel arg1 arg2 m = Some (r, m') → hview m' = hview m.
Proof.
  unfold sys_readline. case_match; [by intros [= _ <-] |]. destruct (user_buf_ok _ _ m) as [[] |]; cbn; [| by intros [= _ <-] | done].
  match goal with |- context [iterZ fuel ?f ?s] => set (step := f); set (s0 := s) end.
  assert (match iterZ fuel step s0 with
          | inl s => hview s.2 = hview m | inr (Some s) => hview s.2 = hview m | inr None => True end) as HI.
  { pose proof (iterZ_inv (λ s, hview s.2 = hview m) (λ o, match o with Some s => hview s.2 = hview m | None => True end)
      fuel step s0 eq_refl) as L. destruct (iterZ fuel step s0) as [s | o]; apply L; intros [i m1] x Hs Ex; unfold step, readline_step in Ex;
      cbn [snd] in Hs; rewrite <- Hs; (destruct (negb _); [by simplify_eq |]);
      (destruct (wait_key intr fuel (current_pid m) m1) as [[ch m2] |] eqn:Ew; [apply wait_key_hview in Ew; rewrite <- Ew | by simplify_eq]);
      repeat case_match; by simplify_eq. }
  destruct (iterZ fuel step s0) as [s | [[i m1] |]]; [done | | done]. cbn [snd] in HI. intros [= _ <-]. by rewrite <- HI.
Qed.

Lemma other_calls num arg1 arg2 arg3 m r m' :
  handle_call num = false → num ≠ SYS_WAITPID → num ≠ SYS_SLEEP →
  syscall_dispatch intr hlt fuel num arg1 arg2 arg3 m = Some (r, m') → hview m' = hview m.
Proof.
  unfold handle_call. intros Hc Hw Hs. unfold syscall_dispatch.
  destruct (num =? SYS_PRINT); [unfold sys_print; repeat case_match; by intros [= _ <-] |].
  destruct (num =? SYS_PUTCHAR); [by intros [= _ <-] |]. destruct (num =? SYS_CLEAR); [by intros [= _ <-] |].
  destruct (num =? SYS_GETCHAR); [apply wait_key_hview |]. destruct (num =? SYS_READLINE); [apply readline_hview |].
  destruct (num =? SYS_EXIT).
  { intros [= _ <-]. unfold hview. cbn [kernel set_kernel files]. by rewrite (proj2 (exit_keeps _ _)). }
  destruct (num =? SYS_UPTIME); [by intros [= _ <-] |].
  destruct (num =? SYS_SYSINFO).
  { unfold sys_sysinfo. case_match; [by intros [= _ <-] |]. destruct (user_buf_ok _ _ m) as [[] |]; cbn [mbind option_bind negb];
      [| by intros [= _ <-] | done]. intros [= _ <-]. unfold hview. by rewrite (proj1 (store_bytes_frame _ _ _)), (proj1 (proj2 (store_bytes_frame _ _ _))). }
  destruct (num =? SYS_OPEN); [done |]. destruct (num =? SYS_READ); [done |].
  destruct (num =? SYS_WRITE).
  { unfold sys_write. destruct (arg1 =? 0); [by intros [= _ <-] |].
    destruct (if 0 <? u32 arg2 then _ else _) as [[] |]; cbn [mbind option_bind negb]; [by intros [= _ <-].. | done]. }
  destruct (num =? SYS_CLOSE); [done |]. destruct (num =? SYS_SETCOLOR); [by intros [= _ <-] |].
  replace (num =? SYS_WAITPID) with false by lia. replace (num =? SYS_SLEEP) with false by lia. by intros [= _ <-].
Qed.

Lemma free_fd_spec (t : fd_table) i : free_fd t = Some i → 0 ≤ i < MAX_FD ∧ fd_used t.[i] = false.
Proof.
  unfold free_fd. set (body := λ (i : Z) (_ : ()), _).
  assert (match for_range 0 MAX_FD body tt with inl _ => True | inr i => 0 ≤ i < MAX_FD ∧ fd_used t.[i] = false end) as HI.
  { apply (for_range_inv (λ _ _, True)); [done | done |]. unfold body. intros j [] x Hj _.
    destruct (fd_used t.[j]) eqn:E; intros [= <-]. done. }
  destruct (for_range 0 MAX_FD body tt); [done |]. by intros [= <-].
Qed.

(** The slot a call works on, and what it leaves there. *)
Lemma handle_calls num arg1 arg2 arg3 m r m' :
  runs c m → handle_call num = true →
  syscall_dispatch intr hlt fuel num arg1 arg2 arg3 m = Some (r, m') →
  fds (kernel m') = fds (kernel m) ∨
  ∃ i f, 0 ≤ i < MAX_FD ∧ fds (kernel m') = (fds (kernel m)).[i <- f] ∧
    (fd_used (fds (kernel m)).[i] = false ∨ fd_owner_pid (fds (kernel m)).[i] = pid (proc (kernel m) c)).
Proof.
  intros Hr Hh. unfold syscall_dispatch.
  assert (num = SYS_OPEN ∨ num = SYS_READ ∨ num = SYS_CLOSE) as [-> | [-> | ->]] by (unfold handle_call in Hh; lia); cbn [Z.eqb Pos.eqb SYS_PRINT
    SYS_PUTCHAR SYS_CLEAR SYS_GETCHAR SYS_READLINE SYS_EXIT SYS_UPTIME SYS_SYSINFO SYS_OPEN SYS_READ SYS_WRITE SYS_CLOSE].
  - unfold sys_open. repeat case_match; try done; intros [= _ <-]; auto;
      match goal with E : free_fd _ = Some ?i |- _ => apply free_fd_spec in E as [? ?]; right; exists i; eexists; split; [done |]; split; [reflexivity | auto] end.
  - intros E. apply sys_read_inv in E as [[-> _] | (fd & len & _ & Hfd & Ho & _ & _ & _ & _ & ->)]; [by left | | done].
    right. exists fd. eexists. split; [done |]. cbn [set_fd_table kernel set_kernel set_fds fds].
    rewrite (proj1 (store_bytes_frame _ _ _)). split; [reflexivity |]. right.
    unfold owns in Ho. apply andb_prop in Ho as [_ Ho]. lia.
  - unfold sys_close, process_get_current. rewrite (rn_current _ _ Hr). destruct (_ || _ || _) eqn:E0; [intros [= _ <-]; auto |].
    destruct (Z.eqb_spec (fd_owner_pid (fds (kernel m)).[i32 arg1]) (pid (proc (kernel m) c))); cbn [negb]; [| intros [= _ <-]; auto].
    intros [= _ <-]. right. exists (i32 arg1). eexists. split; [lia |]. split; [reflexivity | auto].
Qed.

(** C13: Processes cannot reach each other's file handles: no call of a process
    (WAITPID and SLEEP apart, which run others) changes a handle that another
    process holds, and READ and CLOSE on such a handle fail without effect. *)
Theorem syscall_handles_isolated num arg1 arg2 arg3 m r m' i :
  runs c m → zlen (fds (kernel m)) = MAX_FD → num ≠ SYS_WAITPID → num ≠ SYS_SLEEP →
  0 ≤ i < MAX_FD → fd_used (fds (kernel m)).[i] = true →
  fd_owner_pid (fds (kernel m)).[i] ≠ pid (proc (kernel m) c) →
  (syscall_dispatch intr hlt fuel num arg1 arg2 arg3 m = Some (r, m') → (fds (kernel m')).[i] = (fds (kernel m)).[i]) ∧
  syscall_dispatch intr hlt fuel SYS_READ i arg2 arg3 m = Some (-1, m) ∧
  syscall_dispatch intr hlt fuel SYS_CLOSE i arg2 arg3 m = Some (-1, m).
Proof.
  intros Hr Hl Hw Hs Hi Hu Ho. split.
  - intros E. destruct (handle_call num) eqn:Hh.
    + destruct (handle_calls _ _ _ _ _ _ _ Hr Hh E) as [-> | (j & f & Hj & -> & Hf)]; [done |].
      destruct (decide (j = i)) as [-> | Hne]; [by destruct Hf; congruence | by apply aget_aset_ne].
    + apply other_calls in E; [| done..]. unfold hview in E. by injection E as -> _.
  - unfold MAX_FD in *. assert (i32 i = i) as Hii by (unfold i32; zdm).
    unfold syscall_dispatch. cbn [Z.eqb Pos.eqb SYS_PRINT SYS_PUTCHAR SYS_CLEAR SYS_GETCHAR SYS_READLINE SYS_EXIT SYS_UPTIME
      SYS_SYSINFO SYS_OPEN SYS_READ SYS_WRITE SYS_CLOSE]. unfold sys_read, sys_close, process_get_current.
    rewrite (rn_current _ _ Hr), Hii, Hu. replace (fd_owner_pid _ =? _) with false by lia. cbn [negb].
    split; [by case_match | by case_match].
Qed.

(** ** The handle table stays well formed *)
Context `{!FileReaderLaws F}.

Lemma fds_ok_set (t : fd_table) i f : fds_ok t → 0 ≤ i < MAX_FD → fd_ok f → fds_ok t.[i <- f].
Proof.
  intros [Hl Ht] Hi Hf. split; [by rewrite zlen_aset |]. intros j Hj.
  destruct (decide (i = j)) as [-> |]; [rewrite aget_aset_eq by lia; done | rewrite aget_aset_ne by done; auto].
Qed.
Lemma name_len old nm : zlen (fd_name_of old nm) = zlen old.
Proof. unfold fd_name_of. by rewrite zlen_aset, zlen_ablit. Qed.

Lemma open_ok arg1 m r m' :
  fds_ok (fds (kernel m)) → fr_ok (files m) → zlen (processes (kernel m)) = MAX_PROCESSES →
  sys_open arg1 m = Some (r, m') → fds_ok (fds (kernel m')) ∧ fr_ok (files m').
Proof.
  intros Hf Hr Hp. unfold sys_open. repeat (case_match; [by intros [= _ <-] |]).
  case_match; [| by intros [= _ <-]]. destruct (free_fd (fds (kernel m))) as [i |] eqn:Ei; [| by intros [= _ <-]].
  destruct (file_read _ _ _ _) as [[rr | |] f'] eqn:Ef; [| done..].
  apply fr_bounded in Ef as (Hr' & Hle & Hsz); [| done | done | done]. apply free_fd_spec in Ei as [Hi Hu].
  destruct (proj2 Hf i Hi) as (Hn & Hd & _). destruct (Z.eqb_spec (Fat.rr_rc rr) 0) as [E0 |]; cbn [negb]; intros [= _ <-];
    (split; [| done]); (apply fds_ok_set; [done | done |]); (split; [cbn; by rewrite ?name_len |]); (split; [cbn; by rewrite zlen_ablit |]); cbn.
  - rewrite (Hsz E0). intros _. cbn. pose proof (zlen_nonneg (Fat.rr_buf rr)). unfold FD_DATA_SIZE in *. lia.
  - by rewrite Hu.
Qed.

(** C22: The table of file handles stays well formed under every call (WAITPID and
    SLEEP apart): each slot keeps a 256-byte name and a 16384-byte buffer, and
    the position of an open handle never passes the size of its file, which
    never passes the buffer, as long as the file system keeps the contract that its reads fit the
    buffer. *)
Theorem syscall_handles_wf num arg1 arg2 arg3 m r m' :
  runs c m → fds_ok (fds (kernel m)) → fr_ok (files m) → zlen (processes (kernel m)) = MAX_PROCESSES →
  num ≠ SYS_WAITPID → num ≠ SYS_SLEEP →
  syscall_dispatch intr hlt fuel num arg1 arg2 arg3 m = Some (r, m') →
  fds_ok (fds (kernel m')) ∧ fr_ok (files m').
Proof.
  intros Hr Hf Hfr Hp Hw Hs E. destruct (handle_call num) eqn:Hh.
  2:{ apply other_calls in E; [| done..]. unfold hview in E. by injection E as -> ->. }
  revert E. unfold syscall_dispatch.
  assert (num = SYS_OPEN ∨ num = SYS_READ ∨ num = SYS_CLOSE) as [-> | [-> | ->]] by (unfold handle_call in Hh; lia); cbn [Z.eqb Pos.eqb SYS_PRINT
    SYS_PUTCHAR SYS_CLEAR SYS_GETCHAR SYS_READLINE SYS_EXIT SYS_UPTIME SYS_SYSINFO SYS_OPEN SYS_READ SYS_WRITE SYS_CLOSE].
  - by apply open_ok.
  - intros E. apply sys_read_inv in E as [[-> _] | (fd & len & _ & Hfd & Ho & Hlt & Hlen & _ & _ & ->)]; [done | | done].
    cbn [set_fd_table kernel set_kernel set_fds fds files].
    rewrite (proj1 (store_bytes_frame _ _ _)), (proj1 (proj2 (store_bytes_frame _ _ _))). split; [| done].
    destruct (proj2 Hf fd Hfd) as (Hn & Hd & Hu). apply fds_ok_set; [done | done |]. split; [done |]. split; [done |]. cbn. intros Hus.
    destruct (Hu Hus) as [? ?]. unfold FD_DATA_SIZE in *. pose proof (u32_range arg3). rewrite u32_small by lia. lia.
  - unfold sys_close, process_get_current. rewrite (rn_current _ _ Hr). destruct (_ || _ || _) eqn:E0; [by intros [= _ <-] |].
    destruct (fd_owner_pid _ =? _); cbn [negb]; [| by intros [= _ <-]]. intros [= _ <-]. split; [| done].
    assert (0 ≤ i32 arg1 < MAX_FD) as Hi by lia. destruct (proj2 Hf _ Hi) as (Hn & Hd & _). by apply fds_ok_set.
Qed.

(** ** What READ delivers *)
Lemma stores_read (phys : Z → Z) addr bs mm i :
  (∀ j k, 0 ≤ j < zlen bs → 0 ≤ k < zlen bs → phys (addr + j) = phys (addr + k) → j = k) → Forall is_byte bs →
  0 ≤ i < zlen bs → stores phys addr bs mm (phys (addr + i)) = bs.[i].
Proof.
  revert addr mm i. induction bs as [| b bs IH]; intros addr mm i Hinj Hb Hi; [by change (zlen []) with 0 in Hi; lia |].
  rewrite zlen_cons in Hi, Hinj. apply Forall_cons in Hb as [Hb0 Hb]. pose proof (zlen_nonneg bs). cbn [stores].
  assert (∀ j k, 0 ≤ j < zlen bs → 0 ≤ k < zlen bs → phys (addr + 1 + j) = phys (addr + 1 + k) → j = k) as Hinj'.
  { intros j k Hj Hk E. specialize (Hinj (j + 1) (k + 1)). rewrite !Z.add_assoc in Hinj.
    replace (addr + 1 + j) with (addr + j + 1) in E by lia. replace (addr + 1 + k) with (addr + k + 1) in E by lia.
    specialize (Hinj ltac:(lia) ltac:(lia) E). lia. }
  destruct (decide (i = 0)) as [-> | Hne].
  - rewrite aget_cons_0. rewrite Z.add_0_r. assert (∀ mm, (∀ j, 0 ≤ j < zlen bs → phys (addr + 1 + j) ≠ phys addr) →
      stores phys (addr + 1) bs mm (phys addr) = mm (phys addr)) as Frame.
    { clear. generalize (addr + 1). induction bs as [| x bs IH]; intros a mm Hne; [done |]. rewrite zlen_cons in Hne. pose proof (zlen_nonneg bs).
      cbn [stores]. rewrite IH.
      - unfold mupd. destruct (Z.eqb_spec (phys addr) (phys a)) as [E |]; [| done]. specialize (Hne 0). rewrite Z.add_0_r in Hne.
        exfalso. apply Hne; [lia | done].
      - intros j Hj. replace (a + 1 + j) with (a + (j + 1)) by lia. apply Hne. lia. }
    rewrite Frame; [unfold mupd; rewrite Z.eqb_refl; by apply u8_small |].
    intros j Hj E. specialize (Hinj (j + 1) 0). rewrite Z.add_0_r in Hinj. replace (addr + (j + 1)) with (addr + 1 + j) in Hinj by lia.
    specialize (Hinj ltac:(lia) ltac:(lia) E). lia.
  - replace (addr + i) with (addr + 1 + (i - 1)) by lia. rewrite (IH _ _ _ Hinj' Hb) by lia. by rewrite aget_cons_pos by lia.
Qed.

(** C14: READ delivers the file: on a handle the caller owns, with the position
    before the end and a buffer that is checked and whose pages are distinct,
    the call returns the number [k] of bytes left, at most the length asked
    for; the buffer then holds the bytes of the file from the position on,
    the position moves by [k], and no other handle changes. *)
Theorem sys_read_delivers fd buf len m :
  runs c m → isolated (mem_of m) (space c m) → fds_ok (fds (kernel m)) →
  0 ≤ fd < MAX_FD → owns (fds (kernel m)) (pid (proc (kernel m) c)) fd = true → 0 < buf → 0 < len < 2 ^ 32 →
  user_buf_ok buf len m = Some true →
  (∀ i j, 0 ≤ i < len → 0 ≤ j < len → vmm_get_physical_in (mem_of m) (space c m) (u64 (buf + i)) =
     vmm_get_physical_in (mem_of m) (space c m) (u64 (buf + j)) → i = j) →
  let f := (fds (kernel m)).[fd] in
  Forall is_byte (fd_data f) → fd_pos f < fd_size f →
  let k := Z.min len (fd_size f - fd_pos f) in
  ∃ m', syscall_dispatch intr hlt fuel SYS_READ fd buf len m = Some (k, m') ∧
    (∀ i, 0 ≤ i < k → load_byte m' (buf + i) = (fd_data f).[fd_pos f + i]) ∧
    fds (kernel m') = (fds (kernel m)).[fd <- set_pos f (fd_pos f + k)].
Proof.
  intros Hr Hi Hfds Hfd Ho Hbuf Hlen Hok Hinj f Hbytes Hpos k.
  destruct (proj2 Hfds fd Hfd) as (_ & Hd & Hu). fold f in Hd, Hu. unfold owns in Ho. fold f in Ho.
  apply andb_prop in Ho as [Hused Hown]. specialize (Hu Hused). unfold MAX_FD, FD_DATA_SIZE in *.
  assert (i32 fd = fd) as Efd by (unfold i32; zdm). assert (u32 len = len) as Elen by (apply u32_small; lia).
  assert (i32 k = k) as Ek by (unfold i32, k; zdm).
  unfold syscall_dispatch. cbn [Z.eqb Pos.eqb SYS_PRINT SYS_PUTCHAR SYS_CLEAR SYS_GETCHAR SYS_READLINE SYS_EXIT SYS_UPTIME
      SYS_SYSINFO SYS_OPEN SYS_READ SYS_WRITE SYS_CLOSE].
  unfold sys_read, process_get_current. rewrite (rn_current _ _ Hr), Efd, Elen. fold f. rewrite Hused, Hown, Hok.
  replace ((fd <? 0) || (MAX_FD <=? fd) || negb true || (buf =? 0)) with false by (unfold MAX_FD; lia).
  replace (0 <? len) with true by lia. replace (fd_size f <=? fd_pos f) with false by lia. cbn [negb mbind option_bind].
  replace (if fd_size f - fd_pos f <? len then fd_size f - fd_pos f else len) with k by (unfold k; destruct (Z.ltb_spec (fd_size f - fd_pos f) len); lia).
  set (bs := take (Z.to_nat k) (drop (Z.to_nat (fd_pos f)) (fd_data f))).
  assert (zlen bs = k) as Hbs by (unfold bs; rewrite zlen_take, zlen_drop; unfold k; lia).
  destruct (checked_stores c buf len bs m Hr Hi ltac:(lia) ltac:(lia) ltac:(lia) Hok) as [E Hc]. rewrite Ek.
  eexists. split; [reflexivity |]. split.
  - intros i Hik. unfold load_byte, set_fd_table. cbn [kernel set_kernel set_fds vmm]. rewrite E in Hc |- *.
    cbn [with_mem set_kernel kernel vmm set_vmm mem set_mem cr3_reg]. unfold mem_of in Hc at 2. cbn [with_mem set_kernel kernel vmm set_vmm mem set_mem] in Hc.
    unfold vload. rewrite (phys_mask _ _ _ _ (rn_cr3 _ _ Hr)). fold (space c m). rewrite (proj1 (Hi _ (u64 (buf + i)) Hc)).
    rewrite (stores_read (λ a, vmm_get_physical_in (mem_of m) (space c m) (u64 a)) buf bs).
    + unfold bs. rewrite aget_take, aget_drop by lia. f_equal. lia.
    + rewrite Hbs. intros j l Hj Hl. apply Hinj; unfold k in *; lia.
    + unfold bs. by apply Forall_take, Forall_drop.
    + lia.
  - cbn [set_fd_table kernel set_kernel set_fds fds]. rewrite (proj1 (store_bytes_frame _ _ _)). do 2 f_equal. apply u32_small. unfold k. lia.
Qed.
End Memory.
End SyscallProps.
