(* ===== verification/Handles.v ===== *)
(** * The file system behind the system calls

    The file system of fs.c is an instance of the interface that the system
    calls use ([FileReader]) and satisfies its laws when no FAT volume is
    mounted: whatever the path, a read through the mount table fits the buffer
    and reports the number of its bytes.  The end of the file runs the
    theorems of SyscallProps.v on a machine with one user page. *)
From S2P Require Import Prelude.
From S2P Require Import PhysMem.
From S2P Require Import Pmm.
From S2P Require Import Vmm.
From S2P Require Import Demo.
From S2P Require Import Ata.
From S2P Require Import BlockDev.
From S2P Require Import Fdtab.
From S2P Require Import Fat.
From S2P Require Import Ramfs.
From S2P Require Import Vfs.
From S2P Require Import Process.
From S2P Require Import Keyboard.
From S2P Require Import Terminal.
From S2P Require Import Net.
From S2P Require Import NetProps.
From S2P Require Import Fs.
From S2P Require Import Syscall.
From S2P Require Import SyscallProps.
Import Vmm Demo Ata Fdtab Process Syscall SyscallProps.
Import (hints) Fs NetProps Vfs Ramfs.

Module Handles.

Section Reader.
Context {B : Type} `{BlockDev B} {hw : Type} `{Net.NetEnv hw}.
Implicit Types s : Fs.fs_state B hw.

(** The process table that /proc shows is the one of the kernel. *)
Definition with_procs (l : list process_t) s : Fs.fs_state B hw :=
  let w := Fs.fsw s in
  Fs.FsState (Fs.vfs s) (Fs.World (Fs.w_fat w) (Fs.w_ram w) l (Fs.w_net w) (Fs.fat_ops_name w)).
#[export] Instance fs_reader : FileReader (Fs.fs_state B hw) := {|
  file_read l name max s := Fs.fs_read name max (with_procs l s)
|}.

(** No mount leads to a FAT volume. *)
Record no_fat s : Prop := NoFat {
  nf_mounts : ∀ i, Vfs.m_ops (Vfs.mounts (Fs.vfs s)).[i] ≠ Some Fs.fat_ops_ptr;
  nf_ram : Ramfs.ram_ok (Fs.w_ram (Fs.fsw s))
}.

Lemma resolve_in (st : Vfs.vfs_state Fs.fs_ops_ptr) path :
  (Vfs.resolve path st).1 = None ∨ ∃ i, (Vfs.resolve path st).1 = Vfs.m_ops (Vfs.mounts st).[i].
Proof.
  unfold Vfs.resolve. destruct (_ =? 0); [by left |]. destruct (negb _); [right; by exists 0 |].
  destruct (for_each _ _ _ _) as [best len]. destruct (best <? 0); [by left | right; by exists best].
Qed.

Lemma ram_read_report p max (w : Fs.world B hw) :
  Ramfs.ram_ok (Fs.w_ram w) → 0 < max → ∃ r, Fs.ram_read p max w = (Fat.Val r, w) ∧ Fs.report_ok max r.
Proof.
  intros Hr Hm. unfold Fs.ram_read. rewrite Ramfs.read_spec by done.
  destruct (Ramfs.contents _ p) as [d |]; [| eexists; split; [reflexivity | by apply Fs.failed_report_ok]].
  destruct (Z.ltb_spec max (zlen d)); eexists; (split; [reflexivity |]); [by apply Fs.failed_report_ok |]. split; cbn; [lia | done].
Qed.
Lemma dev_read_report p max (w : Fs.world B hw) :
  0 < max → ∃ r, Fs.dev_read p max w = (Fat.Val r, w) ∧ Fs.report_ok max r.
Proof.
  intros Hm. unfold Fs.dev_read. eexists. split; [reflexivity |].
  destruct (Vfs.streq p _); [split; cbn; [change (zlen (@nil Z)) with 0; lia | done] |].
  destruct (Vfs.streq p _); [| by apply Fs.failed_report_ok]. destruct (Z.ltb_spec max 512); [by apply Fs.failed_report_ok |].
  split; cbn [Fat.rr_buf Fat.rr_rc Fat.rr_size]; rewrite zlen_replicate; [lia | done].
Qed.
Lemma proc_read_report p max (w : Fs.world B hw) :
  0 < max → ∃ r, Fs.proc_read p max w = (Fat.Val r, w) ∧ Fs.report_ok max r.
Proof.
  intros Hm. unfold Fs.proc_read. replace (max =? 0) with false by lia. eexists. split; [reflexivity |].
  destruct (Vfs.streq p _); [by apply Fs.full_report_ok, Fs.net_report_arp |].
  destruct (Vfs.streq p _); [by apply Fs.full_report_ok, Fs.net_report_dev |].
  destruct (Vfs.streq p _); [by apply Fs.full_report_ok, Fs.net_report_udp |].
  destruct (negb _); [by apply Fs.failed_report_ok |]. cbn [Fs.process_list].
  split; [| done]. cbn [Fat.rr_buf]. pose proof (Fs.process_text_bounded max (Fs.w_procs w) Hm) as L. unfold Fs.process_text in L.
  apply Z.lt_le_incl. exact L.
Qed.

Lemma fs_read_report name max s :
  no_fat s → 0 < max → ∃ r, Fs.fs_read name max s = (Fat.Val r, s) ∧ Fs.report_ok max r.
Proof.
  intros [Hm Hr] Hmax. unfold Fs.fs_read, Fs.on_vfs, Vfs.vfs_read.
  assert (∀ q : Fat.outcome Fat.read_result * Fs.world B hw, (∃ r, q = (Fat.Val r, Fs.fsw s) ∧ Fs.report_ok max r) →
    ∃ r, (let '(r, w) := q in (r, Fs.FsState (Fs.vfs s) w)) = (Fat.Val r, s) ∧ Fs.report_ok max r) as K.
  { intros q (r & -> & Hq). exists r. split; [by destruct s | done]. }
  assert (∃ o sub, Vfs.resolve name (Fs.vfs s) = (o, sub) ∧ o ≠ Some Fs.fat_ops_ptr) as (o & sub & -> & Ho).
  { destruct (resolve_in (Fs.vfs s) name) as [E | [i E]]; destruct (Vfs.resolve name (Fs.vfs s)) as [o sub]; exists o, sub;
      (split; [done |]); cbn in E; rewrite E; [done | apply Hm]. }
  apply K. destruct o as [[] |]; cbn [mbind option_bind Fs.deref Vfs.op_read Fs.ramfs_ops Fs.proc_ops Fs.dev_ops Fs.fat_ops].
  - done.
  - by apply ram_read_report.
  - by apply proc_read_report.
  - by apply dev_read_report.
  - eexists. split; [reflexivity | by apply Fs.failed_report_ok].
Qed.

#[export] Instance fs_reader_laws : FileReaderLaws (Fs.fs_state B hw).
Proof.
  refine {| fr_ok := no_fat |}. intros l name max s r s' [Hm Hr] Hmax _ E.
  destruct (fs_read_report name max (with_procs l s)) as (r0 & E0 & Hr0); [by constructor | done |].
  cbn [file_read fs_reader] in E. rewrite E0 in E. injection E as <- <-. split; [by constructor | exact Hr0].
Defined.
End Reader.

(** ** The memory of Vmm.v: the user page 0x5000 in the frame 0x9000 *)
Lemma demo_frame : frame_ok 0x9000.
Proof. split; [lia |]. split_and!; vm_compute; reflexivity. Qed.
Lemma demo_tables : has_tables demo_mem 0x5000 0x9000.
Proof. intros x Hx. change demo_mem with (wr64 (one_page 0x5000 0x9000) 0x9000 0x4241). apply wr64_out. lia. Qed.
Lemma demo_isolated : isolated demo_mem 0x1000.
Proof.
  intros m' a Hc. assert (has_tables m' 0x5000 0x9000) as Hm.
  { intros x Hx. rewrite <- demo_tables by done. destruct (decide (m' x = demo_mem x)) as [| Hne]; [done |].
    destruct (Hc x Hne) as (b & Hb & E). destruct (one_walk _ _ _ b demo_tables demo_frame) as [Ep Eu]. rewrite Eu in Hb. rewrite Ep, Hb in E.
    pose proof (Z.mod_pos_bound b 4096). lia. }
  destruct (one_walk _ _ _ a Hm demo_frame) as [-> ->]. by destruct (one_walk _ _ _ a demo_tables demo_frame) as [-> ->].
Qed.

(** ** A machine: the process 3 in slot 1 runs, and has the file "a" open. *)
#[local] Instance no_port : PortIO unit := {|
  inb := λ _ d, (0, d); inw := λ _ d, (0, d); outb := λ _ _ d, d; outw := λ _ _ d, d |}.
Definition demo_proc : process_t :=
  Proc 3 PROC_RUNNING (replicate 32 0) 0 0 0 0x1000 true 0 false 0 0 (replicate 256 0) 0.
Definition demo_fds : fd_table :=
  fd_table_bss.[0 <- Fd (replicate 256 0) (ablit (replicate (Z.to_nat FD_DATA_SIZE) 0) 0 [104; 105; 33]) 3 1 true 3]
              .[1 <- Fd (replicate 256 0) (replicate (Z.to_nat FD_DATA_SIZE) 0) 0 0 true 4].
Definition demo_kern : kern :=
  Kern ((replicate 16 zero_proc).[1 <- demo_proc]) (Some 1) 4 true 3 5 0 0 demo_vmm demo_fds.
Definition demo_machine : machine unit (Fs.fs_state unit NetProps.ne2000) :=
  Machine demo_kern
    (Terminal.Term (replicate 1000 (replicate 80 32)) (replicate 1000 (replicate 80 7)) 0 0 0 7 (replicate 2000 0) true true tt true)
    (Keyboard.Kb (replicate 256 0) 0 0 Keyboard.no_modifiers tt) Fs.demo_fs.

Lemma demo_runs : runs 1 demo_machine.
Proof. by constructor. Qed.
Lemma demo_fds_ok : fds_ok demo_fds.
Proof.
  split; [by vm_compute |]. intros i Hi. unfold demo_fds.
  assert (i = 0 ∨ i = 1 ∨ 1 < i) as [-> | [-> | Hi2]] by lia; [split_and!; [by vm_compute.. | by vm_compute] | split_and!; [by vm_compute.. | by vm_compute] |].
  rewrite !aget_aset_ne by lia. unfold fd_table_bss. rewrite aget_replicate by (unfold MAX_FD in *; lia). split_and!; by vm_compute.
Qed.
Lemma demo_no_fat : no_fat Fs.demo_fs.
Proof.
  constructor; [| apply Ramfs.empty_ram_ok]. intros i. destruct (decide (0 ≤ i < 8)) as [Hi | Hi].
  - assert (i = 0 ∨ i = 1 ∨ i = 2 ∨ i = 3 ∨ i = 4 ∨ i = 5 ∨ i = 6 ∨ i = 7) as Hc by lia.
    destruct Hc as [-> | [-> | [-> | [-> | [-> | [-> | [-> | ->]]]]]]]; by vm_compute.
  - rewrite aget_oob by (change (zlen (Vfs.mounts (Fs.vfs Fs.demo_fs))) with 8; lia). by vm_compute.
Qed.

Abbreviation demo_call := (syscall_dispatch (hw := unit) (λ m, m) (λ k, k) 10).


(** The call of a process that returns has a final machine. *)
Lemma call_result {A} (o : option (Z * A)) r : fst <$> o = Some r → ∃ x, o = Some (r, x).
Proof. destruct o as [[r' x] |]; [| done]. intros [= ->]. by exists x. Qed.
Lemma demo_read : fst <$> demo_call SYS_READ 0 0x5000 2 demo_machine = Some 2.
Proof. vm_compute. reflexivity. Qed.

Lemma syscall_memory_confined_witness :
  ∃ m', demo_call SYS_READ 0 0x5000 2 demo_machine = Some (2, m') ∧ confined demo_mem 0x1000 (mem_of m').
Proof.
  destruct (call_result _ _ demo_read) as [m' E]. exists m'. split; [exact E |].
  exact (syscall_memory_confined (λ m, m) (λ k, k) 10 1 (λ m, eq_refl) SYS_READ 0 0x5000 2 demo_machine 2 m'
    demo_runs demo_isolated ltac:(lia) ltac:(lia) ltac:(done) ltac:(done) E).
Defined.

(** The process 3 closes its own handle 0; the handle 1 belongs to process 4. *)
Lemma demo_close : fst <$> demo_call SYS_CLOSE 0 0 0 demo_machine = Some 0.
Proof. vm_compute. reflexivity. Qed.
Lemma syscall_handles_isolated_witness :
  ∃ m', demo_call SYS_CLOSE 0 0 0 demo_machine = Some (0, m') ∧ (fds (kernel m')).[1] = demo_fds.[1] ∧
    demo_call SYS_READ 1 0x5000 2 demo_machine = Some (-1, demo_machine).
Proof.
  destruct (call_result _ _ demo_close) as [m' E]. exists m'. split; [exact E |].
  destruct (syscall_handles_isolated (λ m, m) (λ k, k) 10 1 (λ m, eq_refl) (λ m, eq_refl) SYS_CLOSE 0 0x5000 2 demo_machine 0 m' 1
    demo_runs ltac:(vm_compute; reflexivity) ltac:(done) ltac:(done) ltac:(done) ltac:(vm_compute; reflexivity) ltac:(vm_compute; discriminate))
    as (K1 & K2 & _).
  split; [exact (K1 E) | exact K2].
Defined.

Lemma syscall_handles_wf_witness :
  ∃ m', demo_call SYS_CLOSE 0 0 0 demo_machine = Some (0, m') ∧ fds_ok (fds (kernel m')).
Proof.
  destruct (call_result _ _ demo_close) as [m' E]. exists m'. split; [exact E |].
  exact (proj1 (syscall_handles_wf (λ m, m) (λ k, k) 10 1 (λ m, eq_refl) (λ m, eq_refl) SYS_CLOSE 0 0 0 demo_machine 0 m'
    demo_runs demo_fds_ok demo_no_fat ltac:(vm_compute; reflexivity) ltac:(done) ltac:(done) E)).
Defined.

Lemma demo_phys i : 0 ≤ i < 0x1000 → vmm_get_physical_in demo_mem 0x1000 (u64 (0x5000 + i)) = 0x9000 + i.
Proof.
  intros Hi. rewrite u64_small by lia. destruct (one_walk _ _ _ (0x5000 + i) demo_tables demo_frame) as [-> _].
  rewrite in_page_offset by done. zdm.
Qed.

Lemma sys_read_delivers_witness :
  ∃ m', demo_call SYS_READ 0 0x5000 10 demo_machine = Some (2, m') ∧ load_byte m' 0x5000 = 105 ∧ load_byte m' 0x5001 = 33.
Proof.
  destruct (sys_read_delivers (λ m, m) (λ k, k) 10 1 0 0x5000 10 demo_machine) as (m' & E & L & _).
  - exact demo_runs.
  - exact demo_isolated.
  - exact demo_fds_ok.
  - done.
  - vm_compute. reflexivity.
  - lia.
  - lia.
  - vm_compute. reflexivity.
  - intros i j Hi Hj. change (mem_of demo_machine) with demo_mem. change (space 1 demo_machine) with 0x1000. rewrite !demo_phys by lia. lia.
  - change (fd_data (fds (kernel demo_machine)).[0]) with (ablit (replicate (Z.to_nat FD_DATA_SIZE) 0) 0 [104; 105; 33]).
    apply Forall_ablit; [apply Forall_replicate; split; lia | repeat constructor; lia].
  - vm_compute. reflexivity.
  - exists m'. split; [exact E |]. split; [exact (L 0 ltac:(vm_compute; split; [discriminate | reflexivity])) |
      exact (L 1 ltac:(vm_compute; split; [discriminate | reflexivity]))].
Defined.
End Handles.
