(* ===== verification/Loader.v ===== *)
(** * Program loading (kernel/exec/elf.c, kernel/aob/aob.c)

    [elf_spawn] reads an ELF file into a static buffer, checks its headers,
    creates a process, maps and fills the pages of every loadable segment and
    starts the process; [aob_load] and [aob_spawn] do the same for the flat
    AOB format.  Both run on the kernel's page tables, where a kernel pointer
    is a physical address: the buffers are cells of the physical memory, at
    the addresses [elf_buffer] and [aob_buffer] that the linker chose, and the
    headers are read from there.  The messages to the kernel log are left
    out.

    [None] is undefined behaviour, or a wait that does not end within
    [fuel] rounds. *)
From S2P Require Import Prelude.
From S2P Require Import PhysMem.
From S2P Require Import Pmm.
From S2P Require Import Vmm.
From S2P Require Import CString.
From S2P Require Import Fat.
From S2P Require Import Process.
From S2P Require Import Syscall.
Import Pmm Vmm Process Syscall.

Module Loader.
Definition EI_CLASS : Z := 4.
Definition EI_DATA : Z := 5.
Definition ELFCLASS64 : Z := 2.
Definition ELFDATA2LSB : Z := 1.
Definition ET_EXEC : Z := 2.
Definition EM_X86_64 : Z := 62.
Definition EV_CURRENT : Z := 1.
Definition PT_LOAD : Z := 1.
Definition PF_X : Z := 1.
Definition PF_W : Z := 2.
Definition ELF_LOAD_BUFFER_SIZE : Z := 131072.
Definition ELF_MAGIC : Z := 0x464C457F.
Definition AOB_MAGIC : Z := 0x00424F41.
Definition AOB_VERSION : Z := 1.
Definition AO_API_MAGIC : Z := 0x414F4150.
Definition AOB_BUFFER_SIZE : Z := 16384.

Record elf64_header_t := Ehdr {
  ident : list Z; e_type : Z; e_machine : Z; e_version : Z; e_entry : Z; e_phoff : Z; e_shoff : Z; e_flags : Z;
  e_ehsize : Z; e_phentsize : Z; e_phnum : Z; e_shentsize : Z; e_shnum : Z; e_shstrndx : Z
}.
Record elf64_phdr_t := Phdr {
  p_type : Z; p_flags : Z; p_offset : Z; p_vaddr : Z; p_paddr : Z; p_filesz : Z; p_memsz : Z; p_align : Z
}.
Definition EHDR_SIZE : Z := 64.
Definition PHDR_SIZE : Z := 56.

(** The structures at an address. *)
Definition bytes_at (m : pmem) (a n : Z) : list Z := (λ i, m (a + i)) <$> seqZ 0 n.
Definition ehdr_at (m : pmem) (a : Z) : elf64_header_t :=
  Ehdr (bytes_at m a 16) (rd16 m (a + 16)) (rd16 m (a + 18)) (rd32 m (a + 20)) (rd64 m (a + 24)) (rd64 m (a + 32))
    (rd64 m (a + 40)) (rd32 m (a + 48)) (rd16 m (a + 52)) (rd16 m (a + 54)) (rd16 m (a + 56)) (rd16 m (a + 58))
    (rd16 m (a + 60)) (rd16 m (a + 62)).
Definition phdr_at (m : pmem) (a : Z) : elf64_phdr_t :=
  Phdr (rd32 m a) (rd32 m (a + 4)) (rd64 m (a + 8)) (rd64 m (a + 16)) (rd64 m (a + 24)) (rd64 m (a + 32))
    (rd64 m (a + 40)) (rd64 m (a + 48)).

Definition page_down (v : Z) : Z := andnot v (4096 - 1).
Definition page_up (v : Z) : Z := andnot (v +64 4095) (4096 - 1).

(** The pages [addr = page_down(start); addr < page_up(end); addr += 4096].
    The bound is a page address below 2^64, so [addr] never wraps. *)
Definition range_pages (start fin : Z) : list Z :=
  (λ j, page_down start + 4096 * j) <$> seqZ 0 ((page_up fin - page_down start) / 4096).
Definition segment_flags (nx : bool) (ph_flags : Z) : Z :=
  let flags := PTE_USER in
  let flags := if has ph_flags PF_W then Z.lor flags PTE_WRITABLE else flags in
  if negb (has ph_flags PF_X) && nx then Z.lor flags PTE_NX else flags.
Definition map_range (i start fin ph_flags : Z) : km Z :=
  k ← km_get;
  r ← map_pages i (segment_flags (vmm_nx_supported (vmm k)) ph_flags) (range_pages start fin);
  mret (if r =? 0 then 0 else -1).

Definition valid_user_range (vaddr size : Z) : bool :=
  if size =? 0 then true else
  if vaddr <? 0x10000 then false else
  if USER_STACK_BASE <=? vaddr then false else
  if vaddr +64 size <? vaddr then false else
  if USER_STACK_BASE <? vaddr +64 size then false else
  if (vaddr <=? USER_API_BASE + 4096) && (USER_API_BASE <? vaddr +64 size) then false else
  if (vaddr <=? USER_ARGV_BASE + 4096) && (USER_ARGV_BASE <? vaddr +64 size) then false else
  true.

(** The checks on the file header, in the order of the code. *)
Definition supported (eh : elf64_header_t) : bool :=
  (le_read 4 (aget (ident eh)) 0 =? ELF_MAGIC) && ((ident eh).[EI_CLASS] =? ELFCLASS64) &&
  ((ident eh).[EI_DATA] =? ELFDATA2LSB) && (e_type eh =? ET_EXEC) && (e_machine eh =? EM_X86_64) &&
  (e_version eh =? EV_CURRENT).
Definition headers_ok (file_size : Z) (eh : elf64_header_t) : bool :=
  negb ((file_size <? EHDR_SIZE) || (ELF_LOAD_BUFFER_SIZE <? file_size)) &&
  supported eh &&
  negb (negb (e_phentsize eh =? PHDR_SIZE) || (e_phnum eh =? 0)) &&
  negb (file_size <? e_phoff eh +64 (e_phnum eh * e_phentsize eh)) &&
  valid_user_range (e_entry eh) 1.
(** The checks on a loadable segment. *)
Definition bad_segment (file_size : Z) (ph : elf64_phdr_t) : bool :=
  (p_memsz ph <? p_filesz ph) || (file_size <? p_offset ph +64 p_filesz ph) ||
  negb (valid_user_range (p_vaddr ph) (p_memsz ph)).

(** [process_write_user] from kernel memory. *)
Definition write_user_from (i virt src size : Z) : km Z :=
  k ← km_get;
  if cr3 (proc k i) =? 0 then mret (-1) else
  run_user_loop (λ phys off n m, pmemcpy m phys (u64 (src + off)) n) (cr3 (proc k i)) virt size.

Section Spawn.
Context {F : Type} `{FileReader F}.
Context (kernel_stacks elf_buffer aob_buffer : Z) (hlt : kern → kern) (fuel : Z).

Definition abandon (i : Z) : km Z :=
  k ← km_get;
  km_mod (process_terminate (pid (proc k i)));;
  k ← km_get;
  process_wait hlt fuel (pid (proc k i));;
  mret (-1).

Definition ph_at (phoff j : Z) : km elf64_phdr_t :=
  k ← km_get; mret (phdr_at (mem (vmm k)) (u64 (elf_buffer + phoff + j * PHDR_SIZE))).

(** One round of the loop over the program headers; 0 is [continue]. *)
Definition load_segment (i file_size phoff j : Z) : km Z :=
  ph ← ph_at phoff j;
  if negb (p_type ph =? PT_LOAD) then mret 0 else
  if bad_segment file_size ph then abandon i else
  r ← map_range i (p_vaddr ph) (p_vaddr ph +64 p_memsz ph) (p_flags ph);
  if negb (r =? 0) then abandon i else
  ph ← ph_at phoff j;
  r ← write_user_from i (p_vaddr ph) (elf_buffer +64 p_offset ph) (p_filesz ph);
  if negb (r =? 0) then abandon i else
  ph ← ph_at phoff j;
  r ← process_zero_user i (p_vaddr ph +64 p_filesz ph) (p_memsz ph -64 p_filesz ph);
  if negb (r =? 0) then abandon i else mret 0.
Fixpoint load_segments (n : nat) (i file_size phoff j : Z) : km Z :=
  match n with
  | O => mret 0
  | S n =>
      r ← load_segment i file_size phoff j;
      if negb (r =? 0) then mret (-1) else load_segments n i file_size phoff (j + 1)
  end.

(** The last part of both loaders: the process may run now. *)
Definition start_process (i : Z) (background : bool) : km Z :=
  k ← km_get;
  let p := pid (proc k i) in
  km_mod (process_activate p);;
  if background then km_mod (process_detach p);; mret (i32 p)
  else
    km_mod (process_set_foreground p);;
    process_wait hlt fuel p;;
    km_mod (process_set_foreground 0);;
    mret 0.

Definition api_page (words : list Z) : list Z := words ≫= le_bytes 8.

(** [elf_spawn] once the file is in the buffer.  [pname] is the local array,
    before it is written. *)
Definition elf_load (pname filename : list Z) (cmdline : option (list Z)) (background : bool) (file_size : Z) : km Z :=
  k ← km_get;
  let eh := ehdr_at (mem (vmm k)) elf_buffer in
  if negb (headers_ok file_size eh) then mret (-1) else
  pname ← km_opt (CString.strncpy pname (filename ++ [0]) 31);
  p ← process_create kernel_stacks pname.[31 <- 0] (e_entry eh) true;
  match p with
  | None => mret (-1)
  | Some i =>
      r ← load_segments (Z.to_nat (e_phnum eh)) i file_size (e_phoff eh) 0;
      if negb (r =? 0) then mret (-1) else
      process_write_user i USER_API_BASE (api_page (AO_API_MAGIC :: replicate 7 0));;
      process_setup_user_args i (default filename cmdline);;
      start_process i background
  end.

(** A file that is read into a static buffer. *)
Definition read_into (buffer max : Z) (filename : list Z) (k : kern) (f : F) : option (Fat.read_result * kern * F) :=
  match file_read (processes k) filename max f with
  | (Fat.Val r, f') => Some (r, set_vmm k (set_mem (vmm k) (pmemcpy_from (mem (vmm k)) buffer (Fat.rr_buf r))), f')
  | _ => None
  end.

Definition elf_spawn (pname filename : list Z) (cmdline : option (list Z)) (background : bool) (k : kern) (f : F) :
    option (Z * kern * F) :=
  '(r, k, f) ← read_into elf_buffer ELF_LOAD_BUFFER_SIZE filename k f;
  if negb (Fat.rr_rc r =? 0) then Some (-1, k, f) else
  '(x, k) ← elf_load pname filename cmdline background (default 0 (Fat.rr_size r)) k;
  Some (x, k, f).
Definition elf_execute (pname filename : list Z) (cmdline : option (list Z)) : kern → F → option (Z * kern * F) :=
  elf_spawn pname filename cmdline false.

(** ** AOB *)
Record aob_header_t := AobHeader {
  h_magic : Z; h_version : Z; h_flags : Z; h_entry_point : Z; h_code_size : Z; h_data_size : Z; h_bss_size : Z; h_name : list Z
}.
Definition AOB_HEADER_SIZE : Z := 72.
Definition aob_header_at (m : pmem) (a : Z) : aob_header_t :=
  AobHeader (rd32 m a) (rd16 m (a + 4)) (rd16 m (a + 6)) (rd32 m (a + 8)) (rd32 m (a + 12)) (rd32 m (a + 16))
    (rd32 m (a + 20)) (bytes_at m (a + 24) 32).
Record aob_context_t := AobContext { code_ptr : Z; code_size : Z; entry_point : Z; ctx_name : list Z }.

Definition aob_load (filename : list Z) (ctx : aob_context_t) (k : kern) (f : F) : option (Z * aob_context_t * kern * F) :=
  '(r, k, f) ← read_into aob_buffer AOB_BUFFER_SIZE filename k f;
  if negb (Fat.rr_rc r =? 0) then Some (-1, ctx, k, f) else
  file_size ← Fat.rr_size r;
  let header := aob_header_at (mem (vmm k)) aob_buffer in
  if file_size <? AOB_HEADER_SIZE then Some (-1, ctx, k, f) else
  if negb (h_magic header =? AOB_MAGIC) then Some (-1, ctx, k, f) else
  if negb (h_version header =? AOB_VERSION) then Some (-1, ctx, k, f) else
  if h_code_size header =? 0 then Some (-1, ctx, k, f) else
  if file_size <? AOB_HEADER_SIZE + h_code_size header then Some (-1, ctx, k, f) else
  Some (0, AobContext (aob_buffer + AOB_HEADER_SIZE) (h_code_size header) (h_entry_point header) (h_name header), k, f).

Definition aob_name : list Z := [97; 111; 98; 0].
(** The characters of a NUL-terminated array; [None] when the NUL is missing. *)
Fixpoint text_of (s : list Z) : option (list Z) :=
  match s with [] => None | c :: r => if c =? 0 then Some [] else t ← text_of r; Some (c :: t) end.
Definition aob_pages (size : Z) : Z :=
  let pages := (size +32 4095) / 4096 in if pages =? 0 then 1 else pages.

(** [api] holds the addresses of the four terminal functions. *)
Definition aob_spawn (api : list Z) (ctx : aob_context_t) (cmdline : option (list Z)) (background : bool) : km Z :=
  if code_ptr ctx =? 0 then mret (-1) else
  if code_size ctx <=? entry_point ctx then mret (-1) else
  let pname := if (ctx_name ctx).[0] =? 0 then aob_name else ctx_name ctx in
  p ← process_create kernel_stacks pname (USER_CODE_BASE + entry_point ctx) true;
  match p with
  | None => mret (-1)
  | Some i =>
      r ← map_pages i PTE_WRITABLE ((λ j, USER_CODE_BASE + j * 4096) <$> seqZ 0 (aob_pages (code_size ctx)));
      if negb (r =? 0) then k ← km_get; km_mod (process_terminate (pid (proc k i)));; mret (-1) else
      r ← write_user_from i USER_CODE_BASE (code_ptr ctx) (code_size ctx);
      if negb (r =? 0) then k ← km_get; km_mod (process_terminate (pid (proc k i)));; mret (-1) else
      process_write_user i USER_API_BASE (api_page (AO_API_MAGIC :: take 4 api ++ replicate 3 0));;
      args ← km_opt (match cmdline with Some c => Some c | None => text_of pname end);
      process_setup_user_args i args;;
      start_process i background
  end.
Definition aob_execute (api : list Z) (ctx : aob_context_t) (cmdline : option (list Z)) : km Z := aob_spawn api ctx cmdline false.
Definition aob_unload (ctx : aob_context_t) : aob_context_t := AobContext 0 0 0 (ctx_name ctx).
End Spawn.
End Loader.
