(* ===== verification/LoaderProps.v ===== *)
(** * Properties of the loaders

    [user_loop], the page-by-page copy of [process_write_user] and
    [process_zero_user], is related to the address space it writes to; on top
    of it a segment that passes the checks of elf.c is loaded as its program
    header says, into pages of the user range only. *)
From S2P Require Import Prelude.
From S2P Require Import PhysMem.
From S2P Require Import Pmm.
From S2P Require Import Vmm.
From S2P Require Import Demo.
From S2P Require Import CString.
From S2P Require Import Fat.
From S2P Require Import Process.
From S2P Require Import Syscall.
From S2P Require Import Vfs.
From S2P Require Import Ramfs.
From S2P Require Import NetProps.
From S2P Require Import Fs.
From S2P Require Import Handles.
From S2P Require Import Loader.
Import Pmm Vmm Demo Process Syscall Loader.
Import (hints) Fs NetProps Handles.

Module LoaderProps.

(** Within a page the translation is an offset. *)
Lemma phys_contiguous m c v j :
  0 ≤ j → v mod 4096 + j < 4096 → vmm_get_physical_in m c v ≠ 0 →
  vmm_get_physical_in m c (v + j) = vmm_get_physical_in m c v + j.
Proof.
  intros Hj Hp. assert (addr_of (v + j) = addr_of v) as Ha.
  { rewrite !addr_of_spec. do 2 f_equal. zdm. }
  unfold vmm_get_physical_in. destruct (same_page_indices _ _ Ha) as (-> & -> & -> & ->).
  repeat match goal with |- context [if ?b then _ else _] => destruct b; [done || idtac | done || idtac] end; try done; intros _.
  - change 0x1FFFFF with (Z.ones 21). rewrite !Z.land_ones by lia.
    pose proof (addr_of_props (entry m (addr_of (entry m (addr_of (entry m (addr_of c) (PML4_INDEX v))) (PDPT_INDEX v))) (PD_INDEX v))) as [_ Hb].
    assert (v mod 2 ^ 21 + j < 2 ^ 21) as Hlt by (change (2 ^ 21) with 2097152; zdm).
    assert ((v + j) mod 2 ^ 21 = v mod 2 ^ 21 + j) as -> by (rewrite <- Zplus_mod_idemp_l; apply Z.mod_small; pose proof (Z.mod_pos_bound v (2 ^ 21)); lia).
    pose proof (Z.mod_pos_bound v (2 ^ 21) ltac:(lia)).
    rewrite !u64_small by lia. lia.
  - rewrite !land_fff.
    match goal with |- u64 (addr_of ?e + _) = _ => pose proof (addr_of_props e) as [_ Hb]; set (b := addr_of e) in *; clearbody b end.
    assert ((v + j) mod 4096 = v mod 4096 + j) as -> by zdm. pose proof (Z.mod_pos_bound v 4096 ltac:(lia)).
    rewrite !u64_small by lia. lia.
Qed.

Section Copy.
Context (m0 : pmem) (c virt size : Z) (val : Z → Z) (put : Z → Z → Z → pmem → pmem).
Definition target (j : Z) : Z := vmm_get_physical_in m0 c (u64 (virt + j)).

(** The range is mapped, one-to-one, and the page tables are not in it. *)
Record user_range : Prop := UserRange {
  ur_bounds : 0 ≤ virt ∧ 0 ≤ size ∧ virt + size ≤ 2 ^ 64;
  ur_mapped j : 0 ≤ j < size → target j ≠ 0;
  ur_inj i j : 0 ≤ i < size → 0 ≤ j < size → target i = target j → i = j;
  ur_stable (m' : pmem) j : (∀ x, (∀ i, 0 ≤ i < size → x ≠ target i) → m' x = m0 x) → 0 ≤ j < size →
    vmm_get_physical_in m' c (u64 (virt + j)) = target j
}.

(** The first [off] bytes are in place and nothing else has changed. *)
Definition copied (off : Z) (m : pmem) : Prop :=
  (∀ j, 0 ≤ j < off → m (target j) = val j) ∧ ∀ x, (∀ j, 0 ≤ j < off → x ≠ target j) → m x = m0 x.

Hypothesis Hrange : user_range.
Hypothesis put_ok : ∀ off n m x, copied off m → 0 ≤ off → 0 < n → off + n ≤ size → (virt + off) mod 4096 + n ≤ 4096 →
  put (target off) off n m x = if (target off <=? x) && (x <? target off + n) then val (off + (x - target off)) else m x.

Lemma target_next off i :
  0 ≤ off < size → 0 ≤ i → (virt + off) mod 4096 + i < 4096 → off + i < size → target (off + i) = target off + i.
Proof.
  destruct (ur_bounds Hrange) as (Hv & Hs & Hvs). intros Ho Hi Hp Hl. unfold target. rewrite !u64_small by lia.
  replace (virt + (off + i)) with (virt + off + i) by lia. apply phys_contiguous; [done | done |].
  pose proof (ur_mapped Hrange off ltac:(lia)) as Hm. unfold target in Hm. by rewrite u64_small in Hm by lia.
Qed.

Lemma copied_step off n m :
  copied off m → 0 ≤ off → 0 < n → off + n ≤ size → (virt + off) mod 4096 + n ≤ 4096 →
  copied (off + n) (put (target off) off n m).
Proof.
  intros Hc Ho Hn Hl Hp. assert (∀ i, 0 ≤ i < n → target (off + i) = target off + i) as T.
  { intros i Hi. apply target_next; lia. }
  split.
  - intros j Hj. rewrite put_ok by done. destruct (decide (j < off)) as [Hlt | Hge].
    + assert ((target off <=? target j) && (target j <? target off + n) = false) as ->.
      { apply not_true_iff_false. intros E. assert (target j = target (off + (target j - target off))) as Ej by (rewrite T by lia; lia).
        apply (ur_inj Hrange) in Ej; lia. }
      apply (proj1 Hc). lia.
    + assert (target j = target off + (j - off)) as -> by (rewrite <- T by lia; f_equal; lia).
      replace ((target off <=? target off + (j - off)) && (target off + (j - off) <? target off + n)) with true by lia.
      f_equal. lia.
  - intros x Hx. rewrite put_ok by done.
    assert ((target off <=? x) && (x <? target off + n) = false) as ->.
    { apply not_true_iff_false. intros E. apply (Hx (off + (x - target off)) ltac:(lia)). rewrite T by lia. lia. }
    apply (proj2 Hc). intros j Hj. apply Hx. lia.
Qed.

Lemma copied_translation off m j :
  copied off m → off ≤ size → 0 ≤ j < size → vmm_get_physical_in m c (u64 (virt + j)) = target j.
Proof.
  intros Hc Ho Hj. apply (ur_stable Hrange); [| done]. intros x Hx. apply (proj2 Hc). intros i Hi. apply Hx. lia.
Qed.

(** The rounds left: one per page that the rest of the range touches, and the
    one that ends the loop. *)
Definition rounds (off : Z) : Z := if size <=? off then 0 else (size - off + (virt + off) mod 4096 + 4095) / 4096.

Lemma user_loop_copies : ∃ m', user_loop put c virt size m0 = Some (0, m') ∧ copied size m'.
Proof.
  destruct (ur_bounds Hrange) as (Hv & Hs & Hvs). unfold user_loop. set (step := λ x : Z * pmem, _).
  set (I := λ s : Z * pmem, 0 ≤ s.1 ≤ size ∧ copied s.1 s.2).
  assert (∀ off m, I (off, m) → off < size → let n := Z.min (size - off) (4096 - (virt + off) mod 4096) in
    step (off, m) = inl (off + n, put (target off) off n m) ∧ I (off + n, put (target off) off n m)) as Step.
  { intros off m [Ho Hc] Hlt n. cbn [fst snd] in *. pose proof (Z.mod_pos_bound (virt + off) 4096 ltac:(lia)). split.
    - unfold step. replace (size - off <=? 0) with false by lia. unfold PAGE_SIZE. change (4096 - 1) with 0xFFF.
      rewrite land_fff. rewrite (copied_translation off m off Hc) by lia.
      rewrite (proj2 (Z.eqb_neq _ _) (ur_mapped Hrange off ltac:(lia))). rewrite u64_small by lia.
      assert ((if size - off <? 4096 - (virt + off) mod 4096 then size - off else 4096 - (virt + off) mod 4096) = n) as ->; [| done].
      unfold n. destruct (Z.ltb_spec (size - off) (4096 - (virt + off) mod 4096)); lia.
    - split; cbn [fst snd]; [lia |]. apply copied_step; [done | lia..]. }
  assert (I (0, m0)) as I0 by (split; cbn; [lia |]; split; [intros; lia | done]).
  destruct (iterZ_measure I (λ s, rounds s.1) (size / PAGE_SIZE + 3) step (0, m0)) as [r Er]; [done | | | |].
  - cbn [fst]. unfold rounds, PAGE_SIZE. destruct (size <=? 0); zdm.
  - intros [off m] _. cbn. unfold rounds. case_match; [done |]. zdm.
  - intros [off m] s' HI E. destruct HI as [Ho Hc] eqn:EI. cbn [fst] in *. destruct (decide (off < size)) as [Hlt |].
    + destruct (Step off m HI Hlt) as [E1 HI']. rewrite E1 in E. injection E as <-. split; [done |]. cbn [fst]. unfold rounds.
      replace (size <=? off) with false by lia. pose proof (Z.mod_pos_bound (virt + off) 4096 ltac:(lia)).
      destruct (Z.leb_spec size (off + Z.min (size - off) (4096 - (virt + off) mod 4096))) as [| Hmore]; [zdm |].
      rewrite Z.min_r by lia. assert ((virt + (off + (4096 - (virt + off) mod 4096))) mod 4096 = 0) as -> by zdm. zdm.
    + unfold step in E. by replace (size - off <=? 0) with true in E by lia.
  - rewrite Er. pose proof (iterZ_inv I (λ r, r.1 = 0 ∧ copied size r.2) (size / PAGE_SIZE + 3) step (0, m0) I0) as L. rewrite Er in L.
    assert (r.1 = 0 ∧ copied size r.2) as [E0 Hc].
    { apply L; intros [off m] x HI E; pose proof HI as [Ho Hc]; cbn [fst snd] in *; destruct (decide (off < size)) as [Hlt |];
        [destruct (Step off m HI Hlt) as [E1 HI']; rewrite E1 in E; by simplify_eq | | destruct (Step off m HI Hlt) as [E1 _]; by rewrite E1 in E |];
        unfold step in E; replace (size - off <=? 0) with true in E by lia; simplify_eq.
      split; [done |]. cbn. by replace size with off by lia. }
    exists r.2. split; [| done]. destruct r. cbn in *. by subst.
Qed.
End Copy.

(** Part of a range is a range, also in a memory that differs in it. *)
Lemma user_range_part m0 c virt size m1 a n :
  user_range m0 c virt size → 0 ≤ a → 0 ≤ n → a + n ≤ size →
  (∀ x, (∀ j, 0 ≤ j < size → x ≠ target m0 c virt j) → m1 x = m0 x) →
  user_range m1 c (virt + a) n ∧ ∀ j, 0 ≤ j < n → target m1 c (virt + a) j = target m0 c virt (a + j).
Proof.
  intros Hr Ha Hn Hs Hm. destruct (ur_bounds _ _ _ _ Hr) as (Hv & Hz & Hvz).
  assert (∀ j, 0 ≤ j < n → target m1 c (virt + a) j = target m0 c virt (a + j)) as T.
  { intros j Hj. unfold target at 1. rewrite <- Z.add_assoc. apply (ur_stable _ _ _ _ Hr); [done | lia]. }
  split; [| done]. constructor.
  - lia.
  - intros j Hj. rewrite T by done. apply (ur_mapped _ _ _ _ Hr). lia.
  - intros i j Hi Hj. rewrite !T by done. intros E%(ur_inj _ _ _ _ Hr); lia.
  - intros m' j Hm' Hj. rewrite T by done. rewrite <- Z.add_assoc. apply (ur_stable _ _ _ _ Hr); [| lia].
    intros x Hx. rewrite Hm'; [by apply Hm |]. intros i Hi. rewrite T by done. apply Hx. lia.
Qed.

(** The memory of the kernel, replaced. *)
Definition with_mem (k : kern) (m : pmem) : kern := set_vmm k (set_mem (vmm k) m).
Lemma run_user_loop_eq put c virt size k m' :
  user_loop put c virt size (mem (vmm k)) = Some (0, m') → run_user_loop put c virt size k = Some (0, with_mem k m').
Proof. intros E. unfold run_user_loop. by rewrite E. Qed.

Lemma write_user_spec i virt data k :
  cr3 (proc k i) ≠ 0 → user_range (mem (vmm k)) (cr3 (proc k i)) virt (zlen data) →
  ∃ m', process_write_user i virt data k = Some (0, with_mem k m') ∧
    copied (mem (vmm k)) (cr3 (proc k i)) virt (aget data) (zlen data) m'.
Proof.
  intros Hc Hr. set (m0 := mem (vmm k)) in *. set (c := cr3 (proc k i)) in *.
  destruct (user_loop_copies m0 c virt (zlen data) (aget data) (λ phys off n m, pmemcpy_from m phys (chunk data off n)) Hr) as (m' & E & Hcp).
  - intros off n m x _ Ho Hn Hl _. unfold pmemcpy_from. assert (zlen (chunk data off n) = n) as ->.
    { unfold chunk. rewrite zlen_take, zlen_drop. lia. }
    destruct ((target m0 c virt off <=? x) && (x <? target m0 c virt off + n)) eqn:E; [| done].
    unfold chunk. rewrite aget_take, aget_drop by lia. f_equal. lia.
  - exists m'. split; [| done]. unfold process_write_user, mbind, km_bind, km_get. cbv beta iota. fold c.
    rewrite (proj2 (Z.eqb_neq _ _) Hc). by apply run_user_loop_eq.
Qed.

Lemma zero_user_spec i virt size k :
  cr3 (proc k i) ≠ 0 → user_range (mem (vmm k)) (cr3 (proc k i)) virt size →
  ∃ m', process_zero_user i virt size k = Some (0, with_mem k m') ∧
    copied (mem (vmm k)) (cr3 (proc k i)) virt (λ _, 0) size m'.
Proof.
  intros Hc Hr. set (m0 := mem (vmm k)) in *. set (c := cr3 (proc k i)) in *.
  destruct (user_loop_copies m0 c virt size (λ _, 0) (λ phys _ n m, pmemset m phys 0 n) Hr) as (m' & E & Hcp).
  - intros off n m x _ Ho Hn Hl _. by rewrite pmemset_spec.
  - exists m'. split; [| done]. unfold process_zero_user, mbind, km_bind, km_get. cbv beta iota. fold c.
    rewrite (proj2 (Z.eqb_neq _ _) Hc). by apply run_user_loop_eq.
Qed.

Lemma write_from_spec i virt src size k :
  cr3 (proc k i) ≠ 0 → user_range (mem (vmm k)) (cr3 (proc k i)) virt size → pmem_ok (mem (vmm k)) →
  0 ≤ src → src + size ≤ 2 ^ 64 →
  (∀ j l, 0 ≤ j < size → 0 ≤ l < size → target (mem (vmm k)) (cr3 (proc k i)) virt j ≠ src + l) →
  ∃ m', write_user_from i virt src size k = Some (0, with_mem k m') ∧
    copied (mem (vmm k)) (cr3 (proc k i)) virt (λ j, mem (vmm k) (src + j)) size m'.
Proof.
  intros Hc Hr Hok Hs Hss Hdis. set (m0 := mem (vmm k)) in *. set (c := cr3 (proc k i)) in *.
  destruct (user_loop_copies m0 c virt size (λ j, m0 (src + j)) (λ phys off n m, pmemcpy m phys (u64 (src + off)) n) Hr) as (m' & E & Hcp).
  2:{ exists m'. split; [| done]. unfold write_user_from, mbind, km_bind, km_get. cbv beta iota. fold c.
      rewrite (proj2 (Z.eqb_neq _ _) Hc). by apply run_user_loop_eq. }
  intros off n m x Hcp Ho Hn Hl Hp. rewrite u64_small by lia.
  assert (∀ i, 0 ≤ i < n → target m0 c virt (off + i) = target m0 c virt off + i) as T.
  { intros i0 Hi0. apply (target_next m0 c virt size Hr); lia. }
  assert (∀ l, 0 ≤ l < size → m (src + l) = m0 (src + l)) as Src.
  { intros l Hl'. apply (proj2 Hcp). intros j Hj E. apply (Hdis j l); [lia | done | done]. }
  rewrite pmemcpy_spec.
  - destruct ((target m0 c virt off <=? x) && (x <? target m0 c virt off + n)) eqn:E; [| done].
    rewrite <- Z.add_assoc. apply Src. lia.
  - intros y. destruct (decide (y ∈ (target m0 c virt <$> seqZ 0 off))) as [(j & -> & Hj)%list_elem_of_fmap | Hno].
    + apply elem_of_seqZ in Hj. rewrite (proj1 Hcp) by lia. apply Hok.
    + rewrite (proj2 Hcp); [apply Hok |]. intros j Hj ->. apply Hno, list_elem_of_fmap. exists j. split; [done | by apply elem_of_seqZ].
  - lia.
  - destruct (decide (target m0 c virt off + n ≤ src + off)) as [| H1]; [by left |].
    destruct (decide (src + off + n ≤ target m0 c virt off)) as [| H2]; [by right |]. exfalso.
    destruct (decide (src + off ≤ target m0 c virt off)) as [H3 | H3].
    + apply (Hdis off (target m0 c virt off - src)); lia.
    + apply (Hdis (off + (src + off - target m0 c virt off)) off); [lia | lia |]. rewrite T by lia. lia.
Qed.

Lemma phdr_at_ext (m m' : pmem) a : (∀ x, a ≤ x < a + PHDR_SIZE → m' x = m x) → phdr_at m' a = phdr_at m a.
Proof.
  intros E. unfold PHDR_SIZE in E. unfold phdr_at, rd32, rd64. f_equal; apply le_read_ext; intros x Hx; apply E; lia.
Qed.

(** What is read back through the tables after a copy. *)
Lemma copied_load m0 c virt size val m' j :
  user_range m0 c virt size → copied m0 c virt val size m' → 0 ≤ j < size → vload m' c (u64 (virt + j)) = val j.
Proof.
  intros Hr Hc Hj. unfold vload. rewrite (copied_translation m0 c virt size val Hr size m') by (done || lia).
  by apply (proj1 Hc).
Qed.

(** The two copies of a segment, one after the other. *)
Lemma fill_segment i vaddr src filesz memsz k :
  let m0 := mem (vmm k) in let c := cr3 (proc k i) in
  c ≠ 0 → user_range m0 c vaddr memsz → pmem_ok m0 → 0 ≤ filesz ≤ memsz → 0 ≤ src → src + filesz ≤ 2 ^ 64 →
  (∀ j l, 0 ≤ j < memsz → 0 ≤ l < filesz → target m0 c vaddr j ≠ src + l) →
  ∃ m1 m2, write_user_from i vaddr src filesz k = Some (0, with_mem k m1) ∧
    process_zero_user i (vaddr + filesz) (memsz - filesz) (with_mem k m1) = Some (0, with_mem k m2) ∧
    copied m0 c vaddr (λ l, if l <? filesz then m0 (src + l) else 0) memsz m2 ∧
    ∀ x, (∀ l, 0 ≤ l < memsz → x ≠ target m0 c vaddr l) → m1 x = m0 x.
Proof.
  intros m0 c Hc Hr Hok Hf Hs Hsf Hdis. destruct (user_range_part m0 c vaddr memsz m0 0 filesz Hr) as [Hr1 T1]; [lia.. | done |].
  rewrite Z.add_0_r in Hr1, T1. destruct (write_from_spec i vaddr src filesz k) as (m1 & E1 & C1); [done.. | |].
  { intros j l Hj Hl. apply Hdis; lia. }
  assert (∀ x, (∀ l, 0 ≤ l < memsz → x ≠ target m0 c vaddr l) → m1 x = m0 x) as F1.
  { intros x Hx. apply (proj2 C1). intros l Hl. apply Hx. lia. }
  destruct (user_range_part m0 c vaddr memsz m1 filesz (memsz - filesz) Hr) as [Hr2 T2]; [lia.. | done |].
  destruct (zero_user_spec i (vaddr + filesz) (memsz - filesz) (with_mem k m1)) as (m2 & E2 & C2); [done | done |].
  exists m1, m2. split; [done |]. split; [exact E2 |]. split; [| done]. cbn [with_mem vmm set_vmm mem set_mem] in C2.
  change (cr3 (proc (with_mem k m1) i)) with c in C2. change (mem (vmm (with_mem k m1))) with m1 in C2. split.
  - intros l Hl. destruct (Z.ltb_spec l filesz).
    + rewrite (proj2 C2); [exact (proj1 C1 l ltac:(lia)) |]. intros j Hj. rewrite T2 by done. intros E%(ur_inj _ _ _ _ Hr); lia.
    + replace l with (filesz + (l - filesz)) at 1 by lia. rewrite <- T2 by lia. apply (proj1 C2). lia.
  - intros x Hx. rewrite (proj2 C2); [by apply F1 |]. intros j Hj. rewrite T2 by done. apply Hx. lia.
Qed.

(** ** Properties *)

(** What [process_write_user] writes, the process reads: on a range that is
    mapped one-to-one in pages away from the page tables the call succeeds,
    every address of the range then reads the byte of the data, and nothing
    else in memory changes.  [process_zero_user] does the same with zeros. *)
Theorem process_write_user_roundtrip i virt data k :
  let m := mem (vmm k) in let c := cr3 (proc k i) in
  c ≠ 0 → user_range m c virt (zlen data) →
  (∃ m', process_write_user i virt data k = Some (0, with_mem k m') ∧
    (∀ j, 0 ≤ j < zlen data → vload m' c (u64 (virt + j)) = data.[j]) ∧
    (∀ x, (∀ j, 0 ≤ j < zlen data → x ≠ target m c virt j) → m' x = m x)) ∧
  (∃ m', process_zero_user i virt (zlen data) k = Some (0, with_mem k m') ∧
    (∀ j, 0 ≤ j < zlen data → vload m' c (u64 (virt + j)) = 0) ∧
    (∀ x, (∀ j, 0 ≤ j < zlen data → x ≠ target m c virt j) → m' x = m x)).
Proof.
  intros m c Hc Hr. split.
  - destruct (write_user_spec i virt data k Hc Hr) as (m' & E & C). exists m'. split; [done |]. split; [| apply C].
    intros j Hj. exact (copied_load _ _ _ _ _ _ _ Hr C Hj).
  - destruct (zero_user_spec i virt (zlen data) k Hc Hr) as (m' & E & C). exists m'. split; [done |]. split; [| apply C].
    intros j Hj. exact (copied_load _ _ _ _ _ _ _ Hr C Hj).
Qed.

(** C11: A segment is loaded as its header says.  When the program header lies
    in the file, the segment passes the checks, the sum of its offset and file
    size does not wrap at 64 bits (the one case that the checks let through
    and should not), and its pages have been mapped (one-to-one, away from the
    page tables and from the load buffer), the round of the loop succeeds; the
    memory of the process then holds the bytes of the file, zeros up to the
    memory size, and no other cell has changed. *)
Theorem elf_segment_loaded elf_buffer hlt fuel i file_size phoff j k k1 :
  let ph := phdr_at (mem (vmm k)) (elf_buffer + phoff + j * PHDR_SIZE) in
  let m1 := mem (vmm k1) in let c := cr3 (proc k1 i) in
  0 ≤ elf_buffer → elf_buffer + ELF_LOAD_BUFFER_SIZE < 2 ^ 64 → file_size ≤ ELF_LOAD_BUFFER_SIZE →
  0 ≤ phoff → 0 ≤ j → phoff + (j + 1) * PHDR_SIZE ≤ file_size →
  p_type ph = PT_LOAD → bad_segment file_size ph = false → p_offset ph + p_filesz ph < 2 ^ 64 →
  map_range i (p_vaddr ph) (p_vaddr ph +64 p_memsz ph) (p_flags ph) k = Some (0, k1) →
  c ≠ 0 → pmem_ok m1 → user_range m1 c (p_vaddr ph) (p_memsz ph) →
  (∀ x, elf_buffer ≤ x < elf_buffer + ELF_LOAD_BUFFER_SIZE →
     m1 x = mem (vmm k) x ∧ ∀ l, 0 ≤ l < p_memsz ph → target m1 c (p_vaddr ph) l ≠ x) →
  ∃ m', load_segment elf_buffer hlt fuel i file_size phoff j k = Some (0, with_mem k1 m') ∧
    (∀ l, 0 ≤ l < p_memsz ph → vload m' c (p_vaddr ph + l) =
       if l <? p_filesz ph then mem (vmm k) (elf_buffer + p_offset ph + l) else 0) ∧
    (∀ x, (∀ l, 0 ≤ l < p_memsz ph → x ≠ target m1 c (p_vaddr ph) l) → m' x = m1 x).
Proof.
  intros ph m1 c Hb Hbe Hfs Hpo Hj Hin Hty Hbad Hwrap Hmap Hc Hok Hr Hbuf. unfold PHDR_SIZE, ELF_LOAD_BUFFER_SIZE in *.
  set (a := elf_buffer + phoff + j * 56) in *.
  assert (∀ m : pmem, (∀ x, (∀ l, 0 ≤ l < p_memsz ph → x ≠ target m1 c (p_vaddr ph) l) → m x = m1 x) → phdr_at m a = ph) as Same.
  { intros m Hm. apply phdr_at_ext. intros x Hx. unfold PHDR_SIZE in Hx.
    destruct (Hbuf x) as [E Ht]; [lia |]. rewrite Hm; [done |]. intros l Hl E'. by apply (Ht l Hl). }
  assert (ph = phdr_at m1 a) as Eph by (symmetry; by apply Same).
  assert (0 ≤ p_vaddr ph < 2 ^ 64 ∧ 0 ≤ p_filesz ph ∧ 0 ≤ p_offset ph ∧ 0 ≤ p_memsz ph < 2 ^ 64) as (Hv & Hf & Ho & Hm).
  { rewrite Eph. unfold phdr_at. cbn [p_vaddr p_filesz p_offset p_memsz]. pose proof (rd64_range m1 (a + 16) Hok).
    pose proof (rd64_range m1 (a + 32) Hok). pose proof (rd64_range m1 (a + 8) Hok). pose proof (rd64_range m1 (a + 40) Hok). lia. }
  assert (p_filesz ph ≤ p_memsz ph ∧ (0 < p_memsz ph → p_vaddr ph + p_memsz ph < 2 ^ 64)) as [Hfm Hvm].
  { unfold bad_segment, valid_user_range in Hbad. apply orb_false_iff in Hbad as [Hb1 Hb2]. apply orb_false_iff in Hb1 as [Hb1 _]. split; [lia |].
    intros Hpos. replace (p_memsz ph =? 0) with false in Hb2 by lia. destruct (ur_bounds _ _ _ _ Hr) as (_ & _ & Hu).
    destruct (decide (p_vaddr ph + p_memsz ph = 2 ^ 64)) as [E |]; [| lia]. rewrite E in Hb2. change (u64 (2 ^ 64)) with 0 in Hb2. exfalso. revert Hb2. repeat case_match; lia. }
  assert (p_offset ph + p_filesz ph ≤ file_size) as Hoff.
  { unfold bad_segment in Hbad. apply orb_false_iff in Hbad as [Hb1 _]. apply orb_false_iff in Hb1 as [_ Hb1]. rewrite u64_small in Hb1 by lia. lia. }
  destruct (fill_segment i (p_vaddr ph) (elf_buffer + p_offset ph) (p_filesz ph) (p_memsz ph) k1) as (m2 & m3 & E2 & E3 & C3 & F2);
    [done.. | lia | lia | lia | |].
  { intros l l' Hl Hl'. fold m1 c. apply (Hbuf (elf_buffer + p_offset ph + l')); lia. }
  fold m1 c in C3, F2. exists m3. split; [| split].
  - unfold load_segment, ph_at, mbind, km_bind, km_get, mret, km_ret. cbv beta iota. change PHDR_SIZE with 56. fold a. rewrite (u64_small a) by lia.
    fold ph. rewrite Hty, Hbad. change (negb (PT_LOAD =? PT_LOAD)) with false. cbv beta iota. rewrite Hmap. cbv beta iota. change (negb (0 =? 0)) with false. cbv beta iota.
    fold m1. rewrite <- Eph. rewrite (u64_small (elf_buffer + p_offset ph)) by lia. rewrite E2. cbv beta iota. change (negb (0 =? 0)) with false. cbv beta iota.
    cbn [with_mem vmm set_vmm mem set_mem]. rewrite (Same m2 F2).
    rewrite (u64_small (p_memsz ph - p_filesz ph)) by lia.
    destruct (decide (p_memsz ph = 0)) as [E0 | E0]; [| rewrite (u64_small (p_vaddr ph + p_filesz ph)) by lia; by rewrite E3].
    replace (p_filesz ph) with 0 in * by lia. rewrite Z.add_0_r in *. rewrite (u64_small (p_vaddr ph)) by lia. by rewrite E3.
  - intros l Hl. rewrite <- (u64_small (p_vaddr ph + l)) by lia. rewrite (copied_load m1 c _ _ _ m3 l Hr C3 Hl). destruct (Z.ltb_spec l (p_filesz ph)); [| done].
    apply (Hbuf (elf_buffer + p_offset ph + l)). lia.
  - intros x Hx. by apply (proj2 C3).
Qed.

Lemma page_down_spec v : page_down v = v - v mod 4096.
Proof. apply page_base_spec. Qed.
Lemma page_up_spec v : 0 ≤ v → v + 4095 < 2 ^ 64 → page_up v = 4096 * ((v + 4095) / 4096).
Proof.
  intros Hv Hlt. unfold page_up. rewrite u64_small by lia. change (andnot (v + 4095) (4096 - 1)) with (page_base (v + 4095)).
  rewrite page_base_spec. zdm.
Qed.
Lemma range_pages_spec start fin p :
  0 ≤ start ≤ fin → fin + 4095 < 2 ^ 64 →
  p ∈ range_pages start fin ↔ p mod 4096 = 0 ∧ page_down start ≤ p < page_up fin.
Proof.
  intros Hs Hf. unfold range_pages. rewrite list_elem_of_fmap. rewrite page_up_spec, page_down_spec by lia. split.
  - intros (j & -> & Hj%elem_of_seqZ). revert Hj. zdm.
  - intros [Hp Hr]. exists ((p - (start - start mod 4096)) / 4096). split; [revert Hp; zdm | apply elem_of_seqZ; zdm].
Qed.

(** The range a segment may occupy, in the order of the tests. *)
Lemma valid_range_spec vaddr size :
  0 ≤ vaddr < 2 ^ 64 → 0 < size < 2 ^ 64 →
  valid_user_range vaddr size = true ↔
  0x10000 ≤ vaddr ∧ vaddr + size ≤ USER_STACK_BASE ∧ (vaddr + size ≤ USER_API_BASE ∨ USER_ARGV_BASE + 4096 < vaddr).
Proof.
  intros Hv Hs. unfold valid_user_range, USER_STACK_BASE, USER_API_BASE, USER_ARGV_BASE. replace (size =? 0) with false by lia.
  destruct (decide (vaddr + size < 2 ^ 64)) as [Hlt | Hge].
  - rewrite u64_small by lia. repeat case_match; lia.
  - assert (u64 (vaddr + size) = vaddr + size - 2 ^ 64) as -> by ulia. repeat case_match; lia.
Qed.

(** A loadable segment can only get pages of the user range: when it passes
    the checks, the pages that [map_range] maps for it are exactly those that
    meet it, at most 2032 of them, all between 64 KiB and the user stack, and
    neither the API page nor the argument page is among them. *)
Theorem elf_segment_pages_confined file_size ph p :
  0 ≤ p_vaddr ph < 2 ^ 64 → 0 < p_memsz ph < 2 ^ 64 → bad_segment file_size ph = false →
  let pages := range_pages (p_vaddr ph) (p_vaddr ph +64 p_memsz ph) in
  (p ∈ pages ↔ p mod 4096 = 0 ∧ p < p_vaddr ph + p_memsz ph ∧ p_vaddr ph < p + 4096) ∧
  (p ∈ pages → 0x10000 ≤ p ∧ p + 4096 ≤ USER_STACK_BASE ∧ p ≠ USER_API_BASE ∧ p ≠ USER_ARGV_BASE) ∧
  zlen pages ≤ 2032.
Proof.
  intros Hv Hm Hbad pages. apply orb_false_iff in Hbad as [_ Hval]. apply negb_false_iff in Hval.
  apply valid_range_spec in Hval as (H1 & H2 & H3); [| done..]. unfold pages, USER_STACK_BASE, USER_API_BASE, USER_ARGV_BASE in *.
  rewrite u64_small by lia. split; [| split].
  - rewrite range_pages_spec, page_down_spec, page_up_spec by lia. zdm.
  - rewrite range_pages_spec, page_down_spec, page_up_spec by lia. zdm.
  - unfold range_pages. rewrite zlen_fmap. unfold zlen. rewrite length_seqZ, page_down_spec, page_up_spec by lia. zdm.
Qed.

(** The kernel image is not protected: it is linked at 1 MiB (linker.ld), and
    a segment anywhere between the argument page and the user stack is
    accepted, so that an executable can have pages of its own in place of the
    kernel's code and data in its address space. *)
Theorem elf_accepts_kernel_image vaddr memsz :
  0x100000 ≤ vaddr → 0 < memsz → vaddr + memsz ≤ USER_STACK_BASE →
  bad_segment 4096 (Phdr PT_LOAD (Z.lor PF_X PF_W) 0 vaddr 0 0 memsz 4096) = false ∧
  page_down vaddr ∈ range_pages vaddr (vaddr +64 memsz).
Proof.
  unfold USER_STACK_BASE. intros Hv Hm Hs. split.
  - unfold bad_segment. cbn [p_memsz p_filesz p_offset p_vaddr]. rewrite (proj2 (valid_range_spec vaddr memsz ltac:(lia) ltac:(lia))).
    + change (u64 (0 + 0)) with 0. lia.
    + unfold USER_STACK_BASE, USER_API_BASE, USER_ARGV_BASE. lia.
  - rewrite u64_small by lia. rewrite range_pages_spec, page_down_spec, page_up_spec by lia. zdm.
Qed.

(** The test of a segment against the size of the file wraps around: with an
    offset [d] bytes below 2^64 and a file size of [d] bytes the sum is 0, and
    the segment is filled from the [d] bytes of kernel memory in front of the
    load buffer. *)
Theorem elf_offset_check_wraps elf_buffer file_size d k i :
  0 < d ≤ 0x1000 → d ≤ elf_buffer → elf_buffer < 2 ^ 64 → 0 ≤ file_size →
  let ph := Phdr PT_LOAD 0 (2 ^ 64 - d) USER_CODE_BASE 0 d d 4096 in
  bad_segment file_size ph = false ∧
  elf_buffer +64 p_offset ph = elf_buffer - d ∧
  (cr3 (proc k i) ≠ 0 → pmem_ok (mem (vmm k)) → user_range (mem (vmm k)) (cr3 (proc k i)) USER_CODE_BASE d →
   (∀ j, 0 ≤ j < d → elf_buffer ≤ target (mem (vmm k)) (cr3 (proc k i)) USER_CODE_BASE j) →
   ∃ m', write_user_from i (p_vaddr ph) (elf_buffer +64 p_offset ph) (p_filesz ph) k = Some (0, with_mem k m') ∧
     ∀ j, 0 ≤ j < d → vload m' (cr3 (proc k i)) (USER_CODE_BASE + j) = mem (vmm k) (elf_buffer - d + j)).
Proof.
  intros Hd Hb Hb2 Hf ph. assert (elf_buffer +64 p_offset ph = elf_buffer - d) as E by (cbn [p_offset ph]; ulia). split; [| split; [done |]].
  - unfold bad_segment. cbn [ph p_memsz p_filesz p_offset p_vaddr]. replace (u64 (2 ^ 64 - d + d)) with 0 by (replace (2 ^ 64 - d + d) with (2 ^ 64) by lia; done).
    rewrite (proj2 (valid_range_spec USER_CODE_BASE d ltac:(done) ltac:(lia))); [lia |].
    unfold USER_STACK_BASE, USER_API_BASE, USER_ARGV_BASE, USER_CODE_BASE. lia.
  - intros Hc Hok Hr Hdis. rewrite E. cbn [ph p_vaddr p_filesz]. destruct (write_from_spec i USER_CODE_BASE (elf_buffer - d) d k) as (m' & Ew & C);
      [done | done | done | lia | lia | |].
    { intros j l Hj Hl Ej. specialize (Hdis j Hj). lia. }
    exists m'. split; [done |]. intros j Hj. rewrite <- (u64_small (USER_CODE_BASE + j)) by (unfold USER_CODE_BASE; lia).
    exact (copied_load _ _ _ _ _ m' j Hr C Hj).
Qed.

(** ** Reading the file *)
Lemma loaded_read n (m : pmem) b buf o :
  0 ≤ o → o + Z.of_nat n ≤ zlen buf → le_read n (pmemcpy_from m b buf) (b + o) = le_read n (aget buf) o.
Proof.
  intros Ho Hn. apply le_read_shift. intros i Hi. unfold pmemcpy_from.
  replace ((b <=? b + o + i) && (b + o + i <? b + zlen buf)) with true by lia. f_equal. lia.
Qed.
Lemma bytes_at_get (m : pmem) a n i : 0 ≤ i < n → (bytes_at m a n).[i] = m (a + i).
Proof.
  intros Hi. apply aget_lookup; [lia |]. unfold bytes_at. rewrite list_lookup_fmap, lookup_seqZ_lt by lia. cbn. do 2 f_equal. lia.
Qed.
Lemma loaded_bytes (m : pmem) b buf o n :
  0 ≤ o → 0 ≤ n → o + n ≤ zlen buf → bytes_at (pmemcpy_from m b buf) (b + o) n = take (Z.to_nat n) (drop (Z.to_nat o) buf).
Proof.
  intros Ho Hn Hl. apply (array_ext (A := Z)).
  - unfold bytes_at. rewrite zlen_fmap, zlen_take, zlen_drop. unfold zlen at 1. rewrite length_seqZ. lia.
  - intros i Hi. unfold bytes_at in Hi. rewrite zlen_fmap in Hi. unfold zlen in Hi at 1. rewrite length_seqZ in Hi.
    rewrite bytes_at_get, aget_take, aget_drop by lia. unfold pmemcpy_from.
    replace ((b <=? b + o + i) && (b + o + i <? b + zlen buf)) with true by lia. f_equal. lia.
Qed.

Section Files.
Context {F : Type} `{FileReaderLaws F}.

(** The memory after the file is in the buffer. *)
Definition loaded (k : kern) (b : Z) (buf : list Z) : kern := with_mem k (pmemcpy_from (mem (vmm k)) b buf).
Lemma read_into_inv b max name k f r k' f' :
  fr_ok f → 0 < max → zlen (processes k) = MAX_PROCESSES → read_into b max name k f = Some (r, k', f') →
  k' = loaded k b (Fat.rr_buf r) ∧ zlen (Fat.rr_buf r) ≤ max ∧
  (Fat.rr_rc r = 0 → Fat.rr_size r = Some (zlen (Fat.rr_buf r))).
Proof.
  intros Hf Hm Hp. unfold read_into. destruct (file_read _ _ _ _) as [[r0 | |] f0] eqn:E; [| done..]. intros [= <- <- <-].
  apply fr_bounded in E as (_ & E1 & E2); [| done..]. done.
Qed.

(** What the bytes of an AOB file must be. *)
Definition aob_valid (buf : list Z) : Prop :=
  AOB_HEADER_SIZE ≤ zlen buf ∧ le_read 4 (aget buf) 0 = AOB_MAGIC ∧ le_read 2 (aget buf) 4 = AOB_VERSION ∧
  le_read 4 (aget buf) 12 ≠ 0 ∧ AOB_HEADER_SIZE + le_read 4 (aget buf) 12 ≤ zlen buf.

(** [aob_load] accepts exactly the well-formed AOB files: for a file that can
    be read it returns 0 when the file has the magic number, the version, some
    code and all of it, and the context then names the code inside the buffer,
    the entry point and the name of the header; otherwise it returns -1 and
    leaves the context alone.  Only the buffer changes in memory. *)
Theorem aob_load_correct aob_buffer name ctx k f x ctx' k' f' :
  fr_ok f → zlen (processes k) = MAX_PROCESSES → aob_load aob_buffer name ctx k f = Some (x, ctx', k', f') →
  ∃ r, file_read (processes k) name AOB_BUFFER_SIZE f = (Fat.Val r, f') ∧ k' = loaded k aob_buffer (Fat.rr_buf r) ∧
    let buf := Fat.rr_buf r in
    (Fat.rr_rc r = 0 ∧ aob_valid buf ∧ x = 0 ∧ AOB_HEADER_SIZE + code_size ctx' ≤ AOB_BUFFER_SIZE ∧
       ctx' = AobContext (aob_buffer + AOB_HEADER_SIZE) (le_read 4 (aget buf) 12) (le_read 4 (aget buf) 8) (take 32 (drop 24 buf))) ∨
    (¬ (Fat.rr_rc r = 0 ∧ aob_valid buf) ∧ x = -1 ∧ ctx' = ctx).
Proof.
  intros Hf Hp. unfold aob_load. destruct (read_into _ _ _ _ _) as [[[r k1] f1] |] eqn:E; [| done]. cbn [mbind option_bind].
  pose proof E as E'. apply read_into_inv in E' as (-> & Hlen & Hsz); [| done..]. unfold read_into in E.
  destruct (file_read _ _ _ _) as [[r0 | |] f0]; [| done..]. injection E as -> _ ->. intros Hrun. exists r.
  assert (f' = f1 ∧ k' = loaded k aob_buffer (Fat.rr_buf r)) as [-> ->].
  { revert Hrun. destruct (negb _); [by intros [= _ _ <- <-] |]. destruct (Fat.rr_size r); [| done]. cbn.
    repeat (case_match; [by intros [= _ _ <- <-] |]). by intros [= _ _ <- <-]. }
  split; [done |]. split; [done |]. cbn zeta. set (buf := Fat.rr_buf r) in *. revert Hrun.
  destruct (Z.eqb_spec (Fat.rr_rc r) 0) as [E0 |]; cbn [negb]; [| intros [= <- <-]; right; tauto]. rewrite (Hsz E0). cbn [mbind option_bind].
  unfold loaded, with_mem. cbn [vmm set_vmm mem set_mem]. unfold aob_header_at. cbn [h_magic h_version h_code_size h_entry_point h_name].
  unfold aob_valid, AOB_HEADER_SIZE, AOB_BUFFER_SIZE in *. destruct (Z.ltb_spec (zlen buf) 72); [intros [= <- <-]; right; split; [lia | done] |].
  pose proof (loaded_read 4 (mem (vmm k)) aob_buffer buf 0) as L0. rewrite Z.add_0_r in L0. unfold rd32, rd16. rewrite L0, !loaded_read by lia. rewrite loaded_bytes by lia.
  destruct (Z.eqb_spec (le_read 4 (aget buf) 0) AOB_MAGIC); cbn [negb]; [| intros [= <- <-]; right; split; [tauto | done]].
  destruct (Z.eqb_spec (le_read 2 (aget buf) 4) AOB_VERSION); cbn [negb]; [| intros [= <- <-]; right; split; [tauto | done]].
  destruct (Z.eqb_spec (le_read 4 (aget buf) 12) 0); [intros [= <- <-]; right; split; [tauto | done] |].
  destruct (Z.ltb_spec (zlen buf) (72 + le_read 4 (aget buf) 12)); [intros [= <- <-]; right; split; [lia | done] |].
  set (cs := le_read 4 (aget buf) 12) in *. clearbody cs.
  intros [= <- <-]. left. split; [done |]. split; [done |]. split; [done |]. split; [cbn [code_size]; lia | done].
Qed.

(** What the bytes of an ELF file must be. *)
Definition elf_acceptable (buf : list Z) : Prop :=
  EHDR_SIZE ≤ zlen buf ≤ ELF_LOAD_BUFFER_SIZE ∧
  le_read 4 (aget buf) 0 = ELF_MAGIC ∧ buf.[EI_CLASS] = ELFCLASS64 ∧ buf.[EI_DATA] = ELFDATA2LSB ∧
  le_read 2 (aget buf) 16 = ET_EXEC ∧ le_read 2 (aget buf) 18 = EM_X86_64 ∧ le_read 4 (aget buf) 20 = EV_CURRENT ∧
  le_read 2 (aget buf) 54 = PHDR_SIZE ∧ le_read 2 (aget buf) 56 ≠ 0 ∧
  u64 (le_read 8 (aget buf) 32 + le_read 2 (aget buf) 56 * PHDR_SIZE) ≤ zlen buf ∧
  valid_user_range (le_read 8 (aget buf) 24) 1 = true.

Lemma headers_ok_acceptable (m : pmem) b buf :
  headers_ok (zlen buf) (ehdr_at (pmemcpy_from m b buf) b) = true → elf_acceptable buf.
Proof.
  unfold headers_ok, supported. rewrite !andb_true_iff, !negb_true_iff, !orb_false_iff.
  intros ((((Hs & Hid) & Hph) & Hpo) & Hent). unfold elf_acceptable, EHDR_SIZE, PHDR_SIZE, ELF_LOAD_BUFFER_SIZE in *.
  assert (64 ≤ zlen buf ≤ 131072) as Hb by lia. clear Hs. revert Hid Hph Hpo Hent. unfold ehdr_at.
  cbn [ident e_type e_machine e_version e_phentsize e_phnum e_phoff e_entry].
  unfold rd16, rd32, rd64. rewrite !loaded_read by lia. unfold EI_CLASS, EI_DATA. rewrite !bytes_at_get by lia. intros Hid Hph Hpo Hent.
  assert (∀ i, 0 ≤ i < zlen buf → pmemcpy_from m b buf (b + i) = buf.[i]) as B.
  { intros i Hi. unfold pmemcpy_from. replace ((b <=? b + i) && (b + i <? b + zlen buf)) with true by lia. f_equal. lia. }
  rewrite !B in Hid by lia.
  rewrite (le_read_shift 4 _ (aget buf) 0 0) in Hid by (intros i Hi; rewrite Z.add_0_l, bytes_at_get by lia; apply B; lia).
  rewrite !Z.eqb_eq in Hid. rewrite negb_false_iff, Z.eqb_eq, Z.eqb_neq in Hph. apply Z.ltb_ge in Hpo. rewrite (proj1 Hph) in Hpo. tauto.
Qed.

(** A file that is not an executable is rejected without any effect on the
    processes: unless the file can be read and has the size, identification,
    type, machine and version of a 64-bit x86 executable, program headers of
    the expected size inside the file (as the code adds them up) and an entry
    point in the user range, [elf_spawn] returns -1, and all that has changed
    is the contents of the load buffer. *)
Theorem elf_spawn_rejects kernel_stacks elf_buffer hlt fuel pname name cmdline bg k f r f' :
  fr_ok f → zlen (processes k) = MAX_PROCESSES →
  file_read (processes k) name ELF_LOAD_BUFFER_SIZE f = (Fat.Val r, f') →
  ¬ (Fat.rr_rc r = 0 ∧ elf_acceptable (Fat.rr_buf r)) →
  elf_spawn kernel_stacks elf_buffer hlt fuel pname name cmdline bg k f = Some (-1, loaded k elf_buffer (Fat.rr_buf r), f').
Proof.
  intros Hf Hp E Hno. unfold elf_spawn, read_into. rewrite E. cbn [mbind option_bind].
  fold (with_mem k (pmemcpy_from (mem (vmm k)) elf_buffer (Fat.rr_buf r))). fold (loaded k elf_buffer (Fat.rr_buf r)).
  destruct (Z.eqb_spec (Fat.rr_rc r) 0) as [E0 |]; cbn [negb]; [| done].
  apply fr_bounded in E as (_ & _ & Hsz); [| done..]. rewrite (Hsz E0). change (default 0 (Some ?x)) with x.
  unfold elf_load, mbind, km_bind, km_get. cbv beta iota.
  change (mem (vmm (loaded k elf_buffer (Fat.rr_buf r)))) with (pmemcpy_from (mem (vmm k)) elf_buffer (Fat.rr_buf r)).
  destruct (headers_ok (zlen (Fat.rr_buf r)) (ehdr_at (pmemcpy_from (mem (vmm k)) elf_buffer (Fat.rr_buf r)) elf_buffer)) eqn:Eh; [| done].
  exfalso. apply Hno. split; [done |]. by apply headers_ok_acceptable in Eh.
Qed.
End Files.

(** ** Witnesses: a process with one user page at [USER_CODE_BASE] *)
Lemma one_page_range m v f size :
  has_tables m v f → frame_ok f → v mod 4096 = 0 → 0 ≤ v → v < 2 ^ 63 → 0 ≤ size ≤ 4096 →
  user_range m 0x1000 v size ∧ ∀ j, 0 ≤ j < size → target m 0x1000 v j = f + j.
Proof.
  intros Hm Hf Hv H0 H1 Hs.
  assert (∀ m' j, has_tables m' v f → 0 ≤ j < size → target m' 0x1000 v j = f + j) as T.
  { intros m' j Hm' Hj. unfold target. rewrite u64_small by lia. destruct (one_walk m' v f (v + j) Hm' Hf) as [-> _].
    rewrite in_page_offset by lia. zdm. }
  pose proof Hf as (Hfr & _). split; [| by intros j; apply T]. constructor.
  - lia.
  - intros j Hj. rewrite T by done. lia.
  - intros i j Hi Hj. rewrite !T by done. lia.
  - intros m' j Hm' Hj. fold (target m' 0x1000 v j). rewrite !T; [done | done | done | | done].
    intros x Hx. rewrite Hm'; [by apply Hm |]. intros i Hi. rewrite T by done. lia.
Qed.

Definition demo_phdr : list Z :=
  le_bytes 4 PT_LOAD ++ le_bytes 4 (Z.lor PF_X PF_W) ++ le_bytes 8 120 ++ le_bytes 8 USER_CODE_BASE ++ le_bytes 8 0 ++
  le_bytes 8 3 ++ le_bytes 8 8 ++ le_bytes 8 4096.
Definition demo_file : list Z := replicate 64 0 ++ demo_phdr ++ [104; 105; 33].
Definition demo_mem : pmem := pmemcpy_from (one_page USER_CODE_BASE 0x9000) 0x20000 demo_file.
Definition demo_kern : kern :=
  Kern ((replicate 16 zero_proc).[1 <- Proc 3 PROC_LOADING (replicate 32 0) 0 0 0 0x1000 true 0 false 0 0 (replicate 256 0) 0])
    (Some 0) 4 true 0 5 0 0 (Vmm demo_mem demo_state 0x1000 0 0x1000 false) [].

Lemma demo_range size : 0 ≤ size ≤ 4096 →
  user_range demo_mem 0x1000 USER_CODE_BASE size ∧ ∀ j, 0 ≤ j < size → target demo_mem 0x1000 USER_CODE_BASE j = 0x9000 + j.
Proof.
  intros Hs. apply one_page_range; [| | done | done | done | done].
  - intros x Hx. unfold demo_mem, pmemcpy_from. by replace (0x20000 <=? x) with false by lia.
  - split; [lia |]. split_and!; vm_compute; reflexivity.
Qed.
Lemma demo_mem_ok : pmem_ok demo_mem.
Proof.
  apply pmemcpy_from_ok; [repeat apply wr64_ok; intros x; split; lia |].
  unfold demo_file, demo_phdr. repeat (apply Forall_app; split); try apply le_bytes_is_byte; [apply Forall_replicate; split; lia | repeat constructor; lia].
Qed.

(** Pages that are mapped already are left alone. *)
Lemma map_pages_mapped i fl l k :
  is_user (proc k i) = true → cr3 (proc k i) ≠ 0 →
  (∀ p, p ∈ l → vmm_user_range_ok (mem (vmm k)) (cr3 (proc k i)) (andnot p (PAGE_SIZE - 1)) 1 = Some true) →
  map_pages i fl l k = Some (0, k).
Proof.
  intros Hu Hc. induction l as [| p l IH]; intros Hl; [done |]. cbn [map_pages]. unfold mbind at 1, km_bind at 1.
  assert (process_map_user_page i p fl k = Some (0, k)) as ->.
  { unfold process_map_user_page, mbind, km_bind, km_get, km_opt, mret, km_ret. cbv beta iota. rewrite Hu. replace (cr3 (proc k i) =? 0) with false by lia.
    cbn [negb orb]. by rewrite Hl by (by left). }
  cbv iota beta. change (negb (0 =? 0)) with false. cbv iota. apply IH. intros q Hq. apply Hl. by right.
Qed.

Lemma process_write_user_roundtrip_witness :
  ∃ m', process_write_user 1 USER_CODE_BASE [7; 8; 9] demo_kern = Some (0, with_mem demo_kern m') ∧
    vload m' 0x1000 (USER_CODE_BASE + 2) = 9.
Proof.
  destruct (process_write_user_roundtrip 1 USER_CODE_BASE [7; 8; 9] demo_kern) as [(m' & E & L & _) _].
  - vm_compute. discriminate.
  - exact (proj1 (demo_range 3 ltac:(lia))).
  - exists m'. split; [exact E |]. exact (L 2 ltac:(vm_compute; split; [discriminate | reflexivity])).
Defined.

Lemma elf_segment_loaded_witness :
  ∃ m', load_segment 0x20000 (λ k, k) 10 1 123 64 0 demo_kern = Some (0, with_mem demo_kern m') ∧
    vload m' 0x1000 (USER_CODE_BASE + 1) = 105 ∧ vload m' 0x1000 (USER_CODE_BASE + 3) = 0.
Proof.
  assert (phdr_at (mem (vmm demo_kern)) (0x20000 + 64 + 0 * PHDR_SIZE) = Phdr PT_LOAD 3 120 USER_CODE_BASE 0 3 8 4096) as Ph by (vm_compute; reflexivity).
  destruct (elf_segment_loaded 0x20000 (λ k, k) 10 1 123 64 0 demo_kern demo_kern) as (m' & E & L & _); try rewrite Ph; cbn [p_type p_vaddr p_memsz p_filesz p_offset p_flags].
  - lia.
  - vm_compute. reflexivity.
  - vm_compute. discriminate.
  - lia.
  - lia.
  - vm_compute. discriminate.
  - reflexivity.
  - vm_compute. reflexivity.
  - lia.
  - unfold map_range, mbind, km_bind, km_get, mret, km_ret. cbv beta iota. rewrite map_pages_mapped; [reflexivity | reflexivity | vm_compute; discriminate |].
    change (range_pages USER_CODE_BASE (USER_CODE_BASE +64 8)) with [USER_CODE_BASE]. intros p ->%list_elem_of_singleton. vm_compute. reflexivity.
  - vm_compute. discriminate.
  - exact demo_mem_ok.
  - exact (proj1 (demo_range 8 ltac:(lia))).
  - intros x Hx. split; [reflexivity |]. intros l Hl. change (cr3 (proc demo_kern 1)) with 0x1000. change (mem (vmm demo_kern)) with demo_mem.
    rewrite (proj2 (demo_range 8 ltac:(lia)) l Hl). unfold ELF_LOAD_BUFFER_SIZE in Hx. lia.
  - exists m'. split; [exact E |]. rewrite Ph in L. split; [exact (L 1 ltac:(vm_compute; split; [discriminate | reflexivity])) |
      exact (L 3 ltac:(vm_compute; split; [discriminate | reflexivity]))].
Defined.

Lemma elf_segment_pages_confined_witness :
  USER_CODE_BASE ∈ range_pages USER_CODE_BASE (USER_CODE_BASE +64 8) ∧ USER_CODE_BASE ≠ USER_API_BASE.
Proof.
  destruct (elf_segment_pages_confined 123 (Phdr PT_LOAD 3 120 USER_CODE_BASE 0 3 8 4096) USER_CODE_BASE) as (H1 & H2 & _).
  - vm_compute. split; [discriminate | reflexivity].
  - vm_compute. split; reflexivity.
  - vm_compute. reflexivity.
  - assert (USER_CODE_BASE ∈ range_pages USER_CODE_BASE (USER_CODE_BASE +64 8)) as Hin
      by (apply H1; split; [reflexivity |]; vm_compute; split; reflexivity).
    split; [exact Hin | exact (proj1 (proj2 (proj2 (H2 Hin))))].
Defined.

Lemma elf_accepts_kernel_image_witness :
  bad_segment 4096 (Phdr PT_LOAD (Z.lor PF_X PF_W) 0 0x100000 0 0 4096 4096) = false ∧
  0x100000 ∈ range_pages 0x100000 (0x100000 +64 4096).
Proof. apply (elf_accepts_kernel_image 0x100000 4096); [lia | lia | vm_compute; discriminate]. Defined.

Lemma elf_offset_check_wraps_witness :
  bad_segment 123 (Phdr PT_LOAD 0 (2 ^ 64 - 16) USER_CODE_BASE 0 16 16 4096) = false ∧
  ∃ m', write_user_from 1 USER_CODE_BASE (0x8000 - 16) 16 demo_kern = Some (0, with_mem demo_kern m') ∧
    vload m' 0x1000 (USER_CODE_BASE + 5) = demo_mem (0x8000 - 16 + 5).
Proof.
  destruct (elf_offset_check_wraps 0x8000 123 16 demo_kern 1) as (H1 & _ & H3); [lia | lia | lia | lia |].
  split; [exact H1 |]. destruct H3 as (m' & E & L).
  - vm_compute. discriminate.
  - exact demo_mem_ok.
  - exact (proj1 (demo_range 16 ltac:(lia))).
  - intros j Hj. change (cr3 (proc demo_kern 1)) with 0x1000. change (mem (vmm demo_kern)) with demo_mem.
    rewrite (proj2 (demo_range 16 ltac:(lia)) j Hj). lia.
  - exists m'. split; [exact E |]. exact (L 5 ltac:(lia)).
Defined.

(** A program in the file system. *)
Definition demo_aob : list Z :=
  le_bytes 4 AOB_MAGIC ++ le_bytes 2 AOB_VERSION ++ le_bytes 2 0 ++ le_bytes 4 1 ++ le_bytes 4 2 ++ replicate 8 0 ++
  [104; 105] ++ replicate 30 0 ++ replicate 16 0 ++ [0x90; 0xC3].
Definition demo_files : Fs.fs_state unit NetProps.ne2000 := (Fs.fs_create [97] demo_aob 74 Fs.demo_fs).2.

Lemma create_no_fat (s : Fs.fs_state unit NetProps.ne2000) n d sz :
  Handles.no_fat s → Vfs.resolve n (Fs.vfs s) = (Some Fs.ramfs_ops_ptr, n) → zlen n < Ramfs.MAX_FILENAME → 0 ≤ sz ≤ zlen d → Handles.no_fat (Fs.fs_create n d sz s).2.
Proof.
  intros [Hm Hr] Hn Hnl Hsz. unfold Fs.fs_create, Fs.on_vfs, Vfs.vfs_create. rewrite Hn. cbn [mbind option_bind Fs.deref Vfs.op_create Fs.ramfs_ops].
  unfold Fs.ram_create. destruct (Ramfs.ramfs_create n d sz (Fs.w_ram (Fs.fsw s))) as [r st'] eqn:E. constructor; [exact Hm |].
  cbn. destruct (Ramfs.create_spec _ _ _ _ _ _ Hr Hnl Hsz E) as [(_ & -> & _) | (_ & Hok & _)]; [exact Hr | exact Hok].
Qed.
Lemma demo_files_ok : Handles.no_fat demo_files.
Proof.
  apply create_no_fat; [apply Handles.demo_no_fat | by vm_compute..].
Qed.

Lemma aob_load_correct_witness :
  ∃ ctx k f, aob_load 0x20000 [97] (AobContext 0 0 0 []) demo_kern demo_files = Some (0, ctx, k, f) ∧
    72 + code_size ctx ≤ 16384.
Proof.
  assert ((λ '(x, c, _, _), (x, code_size c)) <$> aob_load 0x20000 [97] (AobContext 0 0 0 []) demo_kern demo_files = Some (0, 2)) as R
    by (vm_compute; reflexivity).
  destruct (aob_load 0x20000 [97] (AobContext 0 0 0 []) demo_kern demo_files) as [[[[x ctx] k] f] |] eqn:E; [| discriminate R].
  destruct (aob_load_correct 0x20000 [97] (AobContext 0 0 0 []) demo_kern demo_files x ctx k f) as (r & _ & _ & [(_ & _ & -> & Hc & _) | (_ & -> & _)]).
  - exact demo_files_ok.
  - vm_compute. reflexivity.
  - exact E.
  - exists ctx, k, f. split; [reflexivity | exact Hc].
  - discriminate R.
Defined.

(** The AOB program is not an ELF executable. *)
Lemma elf_spawn_rejects_witness :
  ∃ r f, file_read (processes demo_kern) [97] ELF_LOAD_BUFFER_SIZE demo_files = (Fat.Val r, f) ∧
    elf_spawn 0x500000 0x20000 (λ k, k) 10 (replicate 32 0) [97] None false demo_kern demo_files =
    Some (-1, loaded demo_kern 0x20000 (Fat.rr_buf r), f).
Proof.
  assert (∃ r f, file_read (processes demo_kern) [97] ELF_LOAD_BUFFER_SIZE demo_files = (Fat.Val r, f) ∧ Fat.rr_buf r = demo_aob) as (r & f & Er & Eb)
    by (eexists; eexists; split; [reflexivity | vm_compute; reflexivity]).
  exists r, f. split; [exact Er |].
  apply (elf_spawn_rejects 0x500000 0x20000 (λ k, k) 10 (replicate 32 0) [97] None false demo_kern demo_files r f).
  - exact demo_files_ok.
  - vm_compute. reflexivity.
  - exact Er.
  - rewrite Eb. intros (_ & _ & Hm & _). vm_compute in Hm. discriminate Hm.
Defined.
End LoaderProps.
