(* ===== verification/Editor.v ===== *)
(** * The text editor (kernel/editor/editor.c)

    The state is the static data of the file, the terminal and the file
    system; the local variables of the loop are a record of their own.  The
    status bar is written to the screen memory of the terminal.  [None] is an
    access outside one of the small arrays of [draw_status_bar], or undefined
    behaviour of the file system.  The file name is the list of its
    characters.

    The file system is used through the class [FileStore]; the editor refines
    a document that is a list of characters: each key edits it, and saving
    hands exactly this text to the file system. *)
From S2P Require Import Prelude.
From S2P Require Import Ata.
From S2P Require Import Fat.
From S2P Require Import Process.
From S2P Require Import Keyboard.
From S2P Require Import Terminal.
From S2P Require Import Format.
From S2P Require Import Syscall.
Import Ata Format Syscall.
Import (hints) Keyboard Terminal.

Module Editor.
Definition EDITOR_BUFFER_SIZE : Z := 4096.
Definition KEY_ESC : Z := 27.
Definition KEY_BACKSPACE : Z := 8.
Definition KEY_ENTER : Z := 10.
Definition KEY_CTRL_S : Z := 19.

Class FileStore (F : Type) `{FileReader F} := {
  file_create : list Z → list Z → Z → F → Fat.outcome Z * F
}.
(** Creating a file returns, and reads the data up to the size only. *)
Class FileStoreLaws (F : Type) `{FileReaderLaws F} `{!FileStore F} := {
  create_law name data size f : fr_ok f → zlen name < 32 → 0 ≤ size ≤ zlen data →
    ∃ rc f', file_create name data size f = (Fat.Val rc, f') ∧ fr_ok f' ∧
      file_create name (take (Z.to_nat size) data) size f = (Fat.Val rc, f')
}.

Section Editor.
Context {hw : Type} `{PortIO hw} {F : Type} `{FileReader F} `{!FileStore F}.
Context (procs : list Process.process_t).

Record editor := Ed {
  buffer : list Z;
  cursor : Z;
  cur_line : Z;
  cur_col : Z;
  status_message : list Z;
  term : Terminal.term (hw := hw);
  files : F
}.
(** The local variables of the loop. *)
Record locals := Locals { saved_indicator : bool; last_line : Z; last_col : Z; last_cursor : Z }.

Definition set_text (b : list Z) (n : Z) (s : editor) : editor :=
  Ed b n (cur_line s) (cur_col s) (status_message s) (term s) (files s).
Definition set_line_col (l c : Z) (s : editor) : editor :=
  Ed (buffer s) (cursor s) l c (status_message s) (term s) (files s).
Definition set_message (m : list Z) (s : editor) : editor :=
  Ed (buffer s) (cursor s) (cur_line s) (cur_col s) m (term s) (files s).
Definition set_term (t : Terminal.term) (s : editor) : editor :=
  Ed (buffer s) (cursor s) (cur_line s) (cur_col s) (status_message s) t (files s).
Definition set_files (f : F) (s : editor) : editor :=
  Ed (buffer s) (cursor s) (cur_line s) (cur_col s) (status_message s) (term s) f.
Definition on_term (g : Terminal.term → Terminal.term) (s : editor) : editor := set_term (g (term s)) s.

Definition update_line_col (s : editor) : editor :=
  let '(l, c) := for_each 0 (cursor s) (λ i '(l, c),
    if (buffer s).[i] =? 10 then (l + 1, 1) else (l, c + 1)) (1, 1) in
  set_line_col l c s.

(** ** The status bar *)
Definition status_color : Z := Terminal.vga_entry_color Terminal.VGA_COLOR_BLACK Terminal.VGA_COLOR_LIGHT_GREY.
(** [char] is signed. *)
Definition schar (c : Z) : Z := if c <? 128 then c else c - 256.
Definition cell (c : Z) : Z := u16 (Z.lor (Z.shiftl status_color 8) (schar c)).
(** Stores through [vga_memory], each inside the text memory. *)
Definition put_row (pos : Z) (s : list Z) (t : Terminal.term (hw := hw)) : Terminal.term :=
  Terminal.checked ((0 <=? 24 * 80 + pos) && (24 * 80 + pos + zlen s <=? Terminal.TERM_HEIGHT * Terminal.TERM_WIDTH))
    (Terminal.set_vga t (ablit (Terminal.vga_memory t) (24 * 80 + pos) (cell <$> s))).

(** A number in one of the arrays of eight characters: at most seven digits. *)
Definition number (v : Z) : option (list Z) :=
  let d := digits_of 24 v in if zlen d <? 8 then Some d else None.
Definition t_ln : list Z := [76; 110; 58].
Definition t_col : list Z := [44; 67; 58].
Definition t_bar : list Z := [32; 124; 32].
Definition t_slash : list Z := [47].
Definition t_keys : list Z :=
  [32; 124; 32; 69; 83; 67; 58; 69; 120; 105; 116; 32; 67; 116; 114; 108; 43; 83; 58; 83; 97; 118; 101].
Definition t_saved : list Z := [32; 91; 83; 65; 86; 69; 68; 93].
(** The array [info] of 80 characters, with its NUL. *)
Definition info_text (saved : bool) (s : editor) : option (list Z) :=
  line_str ← number (cur_line s);
  col_str ← number (cur_col s);
  chars_str ← number (cursor s);
  max_str ← number (EDITOR_BUFFER_SIZE - 1);
  let info := t_ln ++ line_str ++ t_col ++ col_str ++ t_bar ++ chars_str ++ t_slash ++ max_str ++ t_keys ++
              (if saved then t_saved else []) in
  if zlen info <? 80 then Some info else None.

Definition draw_status_bar (filename : list Z) (saved : bool) (s : editor) : option editor :=
  let t := put_row 0 (replicate 80 32) (term s) in
  let name := take 29 filename in
  let t := put_row 1 name t in
  let pos := 1 + zlen name in
  let t := if (status_message s).[0] =? 0 then t else
             let t := put_row pos [32; 45; 32] t in
             put_row (pos + 3) (take (Z.to_nat (50 - (pos + 3))) (until_nul (status_message s))) t in
  info ← info_text saved s;
  Some (on_term (λ _, put_row (80 - zlen info) info t) s).

(** ** The keys *)
Definition EMPTY_MESSAGE : list Z := replicate 40 0.
Definition msg_loaded : list Z := [76; 111; 97; 100; 101; 100].
Definition msg_new : list Z := [78; 101; 119; 32; 102; 105; 108; 101].
Definition msg_saved : list Z := [83; 97; 118; 101; 100].
Definition file_saved : list Z := [70; 105; 108; 101; 32; 115; 97; 118; 101; 100; 58; 32].
Definition message (msg old : list Z) : list Z := ablit old 0 msg.
Definition light_green : Z := Terminal.vga_entry_color 10 Terminal.VGA_COLOR_BLACK.
Definition normal_color : Z := Terminal.vga_entry_color Terminal.VGA_COLOR_LIGHT_GREY Terminal.VGA_COLOR_BLACK.

Definition save (filename : list Z) (s : editor) : option editor :=
  match file_create filename (buffer s) (cursor s) (files s) with
  | (Fat.Val _, f) => Some (set_files f s)
  | _ => None
  end.

(** What follows every change of the text. *)
Definition edited (filename : list Z) (l : locals) (s : editor) : option (locals * editor) :=
  let s := update_line_col s in
  let s := set_message EMPTY_MESSAGE s in
  if negb (cur_line s =? last_line l) || negb (cur_col s =? last_col l) || negb (cursor s =? last_cursor l) then
    s ← draw_status_bar filename false s;
    Some (Locals false (cur_line s) (cur_col s) (cursor s), s)
  else Some (Locals false (last_line l) (last_col l) (last_cursor l), s).

Definition insert_char (filename : list Z) (key : Z) (l : locals) (s : editor) : option (locals * editor) :=
  if cursor s <? EDITOR_BUFFER_SIZE - 1 then
    let s := set_text ((buffer s).[cursor s <- key]) (cursor s + 1) s in
    edited filename l (on_term (Terminal.terminal_putchar key) s)
  else Some (l, s).

(** One round of the loop for a key: [inr] when the editor ends. *)
Definition editor_key (filename : list Z) (key : Z) (l : locals) (s : editor) : option (locals * editor + editor) :=
  if key =? Keyboard.KEY_PAGEUP then
    s ← draw_status_bar filename (saved_indicator l) (on_term Terminal.terminal_scroll_up s); Some (inl (l, s))
  else if key =? Keyboard.KEY_PAGEDOWN then
    s ← draw_status_bar filename (saved_indicator l) (on_term Terminal.terminal_scroll_down s); Some (inl (l, s))
  else if key =? KEY_CTRL_S then
    s ← save filename s;
    let s := set_message (message msg_saved EMPTY_MESSAGE) s in
    s ← draw_status_bar filename true s;
    Some (inl (Locals true (last_line l) (last_col l) (last_cursor l), s))
  else if key =? KEY_ESC then
    s ← save filename s;
    Some (inr (on_term (λ t,
      let t := Terminal.terminal_write [10; 10] t in
      let t := Terminal.terminal_setcolor light_green t in
      Terminal.terminal_write (file_saved ++ filename ++ [10]) t) s))
  else if key =? KEY_BACKSPACE then
    if 0 <? cursor s then
      let s := set_text ((buffer s).[cursor s - 1 <- 0]) (cursor s - 1) s in
      p ← edited filename l (on_term Terminal.terminal_backspace s); Some (inl p)
    else Some (inl (l, s))
  else if (key =? KEY_ENTER) || ((32 <=? key) && (key <? 127)) then
    p ← insert_char filename key l s; Some (inl p)
  else Some (inl (l, s)).

(** [editor_open] up to its loop. *)
Definition editor_load (filename : list Z) (s : editor) : option (locals * editor) :=
  match file_read procs filename (EDITOR_BUFFER_SIZE - 1) (files s) with
  | (Fat.Val r, f) =>
      let b := ablit (replicate (Z.to_nat EDITOR_BUFFER_SIZE) 0) 0 (Fat.rr_buf r) in
      n ← (if Fat.rr_rc r =? 0 then Fat.rr_size r else Some 0);
      let s := Ed b n (cur_line s) (cur_col s)
                 (message (if Fat.rr_rc r =? 0 then msg_loaded else msg_new) EMPTY_MESSAGE) (term s) f in
      let s := on_term (λ t, Terminal.terminal_setcolor normal_color (Terminal.terminal_clear t)) s in
      let s := update_line_col s in
      let s := on_term (Terminal.terminal_write (take (Z.to_nat n) b)) s in
      s ← draw_status_bar filename false s;
      Some (Locals false (cur_line s) (cur_col s) (cursor s), s)
  | _ => None
  end.

(** The loop over the keys that the keyboard delivers, 0 for none; the result
    is [inr] when ESC was among them. *)
Fixpoint editor_loop (filename : list Z) (keys : list Z) (p : locals * editor) : option (locals * editor + editor) :=
  match keys with
  | [] => Some (inl p)
  | key :: keys =>
      if key =? 0 then editor_loop filename keys p else
      r ← editor_key filename key p.1 p.2;
      match r with inl p => editor_loop filename keys p | inr s => Some (inr s) end
  end.
Definition editor_open (filename : list Z) (keys : list Z) (s : editor) : option (locals * editor + editor) :=
  p ← editor_load filename s;
  r ← editor_loop filename keys p;
  Some match r with inl p => inl p | inr s => inr (on_term (Terminal.terminal_setcolor normal_color) s) end.
End Editor.
Arguments editor : clear implicits.
End Editor.
