(* ===== verification/EditorProps.v ===== *)
(** * Properties of the text editor

    The editor stays inside its arrays whatever is typed, and refines a
    document: a list of characters that the keys edit at its end, saved as it
    is.  The file system of Fs.v is an instance of the interface it uses. *)
From S2P Require Import Prelude.
From S2P Require Import Ata.
From S2P Require Import BlockDev.
From S2P Require Import Fat.
From S2P Require Import Ramfs.
From S2P Require Import Vfs.
From S2P Require Import Process.
From S2P Require Import Keyboard.
From S2P Require Import Terminal.
From S2P Require Import Format.
From S2P Require Import Net.
From S2P Require Import NetProps.
From S2P Require Import Fs.
From S2P Require Import Syscall.
From S2P Require Import Handles.
From S2P Require Import Editor.
Import Ata Format Syscall Editor.
Import (hints) Keyboard Terminal Fs NetProps Handles Ramfs Vfs.

Module EditorProps.

(** ** Numbers of the status bar *)
Lemma store_digits_len n k v acc :
  0 ≤ k → 0 ≤ v < 10 ^ k → zlen (store_digits n v acc) ≤ k + zlen acc.
Proof.
  revert k v acc. induction n as [| n IH]; intros k v acc Hk Hv; cbn [store_digits]; [lia |].
  destruct (Z.eqb_spec v 0); [lia |]. destruct (decide (k = 0)) as [-> |]; [change (10 ^ 0) with 1 in Hv; lia |].
  assert (10 ^ k = 10 * 10 ^ (k - 1)) as E by (rewrite <- Z.pow_succ_r by lia; f_equal; lia).
  etransitivity; [apply (IH (k - 1)); [lia |] |].
  - split; [apply Z.div_pos; lia |]. apply Z.div_lt_upper_bound; lia.
  - rewrite zlen_cons. lia.
Qed.
Lemma number_small v : 0 ≤ v < 10000 → ∃ d, number v = Some d ∧ zlen d ≤ 4.
Proof.
  intros Hv. unfold number. assert (zlen (digits_of 24 v) ≤ 4) as Hl.
  { unfold digits_of. destruct (v =? 0); [by vm_compute |]. etransitivity; [apply (store_digits_len 24 4 v []); [lia | done] |].
    change (zlen (@nil Z)) with 0. lia. }
  exists (digits_of 24 v). by replace (zlen (digits_of 24 v) <? 8) with true by lia.
Qed.

Section Props.
Context {hw : Type} `{PortIO hw} {F : Type} `{FileReaderLaws F} `{!FileStore F} `{!FileStoreLaws F}.
Context (procs : list Process.process_t).
Implicit Types s : editor hw F.

Record ed_ok s : Prop := EdOk {
  eo_buffer : zlen (buffer s) = EDITOR_BUFFER_SIZE;
  eo_cursor : 0 ≤ cursor s < EDITOR_BUFFER_SIZE;
  eo_line : 1 ≤ cur_line s ≤ EDITOR_BUFFER_SIZE;
  eo_col : 1 ≤ cur_col s ≤ EDITOR_BUFFER_SIZE;
  eo_term : Terminal.term_ok (term s);
  eo_files : fr_ok (files s)
}.
(** The document. *)
Definition text s : list Z := take (Z.to_nat (cursor s)) (buffer s).

Lemma text_len s : ed_ok s → zlen (text s) = cursor s.
Proof. intros [Hb Hc _ _ _ _]. unfold text. rewrite zlen_take. lia. Qed.

Lemma info_total sv s : ed_ok s → ∃ info, info_text sv s = Some info ∧ zlen info < 80.
Proof.
  intros [_ Hc Hl Hk _ _]. unfold EDITOR_BUFFER_SIZE in *. unfold info_text.
  destruct (number_small (cur_line s)) as (d1 & -> & L1); [lia |]. destruct (number_small (cur_col s)) as (d2 & -> & L2); [lia |].
  destruct (number_small (cursor s)) as (d3 & -> & L3); [lia |]. cbn [mbind option_bind].
  destruct (number_small (EDITOR_BUFFER_SIZE - 1)) as (d4 & -> & L4); [done |]. cbn [mbind option_bind].
  set (info := t_ln ++ _). assert (zlen info < 80) as Hlt; [| exists info; by replace (zlen info <? 80) with true by lia].
  unfold info. rewrite !zlen_app. change (zlen t_ln) with 3. change (zlen t_col) with 3. change (zlen t_bar) with 3.
  change (zlen t_slash) with 1. change (zlen t_keys) with 23. assert (zlen (if sv then t_saved else []) ≤ 8) by (by destruct sv). lia.
Qed.

(** The status bar is drawn in the last row: [t'] differs from [t] in that
    row of the VGA memory only. *)
Definition bar (t t' : Terminal.term (hw := hw)) : Prop :=
  ∃ m, t' = Terminal.set_vga t m ∧ zlen m = zlen (Terminal.vga_memory t) ∧ ∀ i, i < 24 * 80 → m.[i] = (Terminal.vga_memory t).[i].
#[local] Instance bar_preorder : PreOrder bar.
Proof.
  split.
  - intros t. exists (Terminal.vga_memory t). by destruct t.
  - intros t ? ? (m1 & -> & L1 & F1) (m2 & -> & L2 & F2). exists m2. split; [done |]. split; [by rewrite L2 |].
    intros i Hi. by rewrite F2, F1.
Qed.
Lemma put_row_bar pos str t : 0 ≤ pos → pos + zlen str ≤ 80 → bar t (put_row pos str t).
Proof.
  intros Hp Hl. unfold put_row.
  replace ((0 <=? 24 * 80 + pos) && (24 * 80 + pos + zlen str <=? Terminal.TERM_HEIGHT * Terminal.TERM_WIDTH)) with true
    by (unfold Terminal.TERM_HEIGHT, Terminal.TERM_WIDTH; lia).
  eexists. split; [reflexivity |]. split; [by rewrite zlen_ablit |]. intros i Hi. apply aget_ablit_out. left. lia.
Qed.
Lemma draw_total fn sv s :
  ed_ok s → ∃ t', draw_status_bar fn sv s = Some (on_term (λ _, t') s) ∧ bar (term s) t'.
Proof.
  intros Hok. unfold draw_status_bar. destruct (info_total sv s Hok) as (info & -> & Hl). cbn [mbind option_bind].
  eexists. split; [reflexivity |]. pose proof (zlen_nonneg (take 29 fn)). pose proof (zlen_nonneg info).
  assert (zlen (take 29 fn) ≤ 29) as Hn by (unfold zlen; rewrite length_take; lia). cbv zeta.
  etransitivity; [| apply put_row_bar; lia].
  set (t1 := put_row 1 (take 29 fn) (put_row 0 (replicate 80 32) (term s))).
  assert (bar (term s) t1) as Hb by (etransitivity; [apply (put_row_bar 0 (replicate 80 32)); by vm_compute | apply put_row_bar; lia]).
  case_match; [done |]. etransitivity; [exact Hb |].
  etransitivity; [apply (put_row_bar (1 + zlen (take 29 fn)) [32; 45; 32]); [lia | change (zlen [32; 45; 32]) with 3; lia] |].
  apply put_row_bar; [lia |]. set (k := 1 + zlen (take 29 fn) + 3) in *.
  assert (zlen (take (Z.to_nat (50 - k)) (until_nul (status_message s))) ≤ 50 - k); [| lia]. unfold zlen at 1. rewrite length_take. lia.
Qed.

Lemma draw_ok fn sv s :
  ed_ok s → ∃ s', draw_status_bar fn sv s = Some s' ∧ ed_ok s' ∧ buffer s' = buffer s ∧ cursor s' = cursor s ∧ files s' = files s ∧
    bar (term s) (term s').
Proof.
  intros Hok. destruct (draw_total fn sv s Hok) as (t' & -> & Hbar). eexists. split; [reflexivity |]. split; [| done].
  destruct Hbar as (m & -> & Hm & _).
  destruct Hok as [? ? ? ? [] ?]. constructor; [done.. | | done]. constructor; [done.. | cbn; congruence | done].
Qed.

Lemma line_col_bounds (b : list Z) n l c :
  0 ≤ n → for_each 0 n (λ i '(l, c), if b.[i] =? 10 then (l + 1, 1) else (l, c + 1)) (1, 1) = (l, c) →
  1 ≤ l ≤ n + 1 ∧ 1 ≤ c ≤ n + 1.
Proof.
  intros Hn E. pose proof (for_each_inv (λ i p, 1 ≤ p.1 ≤ i + 1 ∧ 1 ≤ p.2 ≤ i + 1) 0 n
    (λ i '(l, c), if b.[i] =? 10 then (l + 1, 1) else (l, c + 1)) (1, 1)) as L.
  rewrite E in L. rewrite Z.max_r in L by lia. apply L; [cbn; lia |]. intros i [l1 c1] Hi [I1 I2]. cbn in *. case_match; cbn; lia.
Qed.
Lemma line_col_ok s :
  0 ≤ cursor s < EDITOR_BUFFER_SIZE → let s' := update_line_col s in
  (1 ≤ cur_line s' ≤ EDITOR_BUFFER_SIZE ∧ 1 ≤ cur_col s' ≤ EDITOR_BUFFER_SIZE) ∧
  buffer s' = buffer s ∧ cursor s' = cursor s ∧ term s' = term s ∧ files s' = files s.
Proof.
  intros Hc. unfold update_line_col. destruct (for_each _ _ _ _) as [l c] eqn:E. apply line_col_bounds in E; [| lia]. cbn. split; [lia | done].
Qed.

(** A change of the text, up to the redraw. *)
Lemma edited_ok fn l s :
  zlen (buffer s) = EDITOR_BUFFER_SIZE → 0 ≤ cursor s < EDITOR_BUFFER_SIZE → Terminal.term_ok (term s) → fr_ok (files s) →
  ∃ l' s', edited fn l s = Some (l', s') ∧ ed_ok s' ∧ buffer s' = buffer s ∧ cursor s' = cursor s ∧ files s' = files s ∧
    bar (term s) (term s').
Proof.
  intros Hb Hc Ht Hf. unfold edited. destruct (line_col_ok s Hc) as ((Hl & Hk) & E1 & E2 & E3 & E4).
  set (s1 := set_message EMPTY_MESSAGE (update_line_col s)).
  assert (ed_ok s1) as Hok by (constructor; cbn; rewrite ?E1, ?E2, ?E3, ?E4; done).
  destruct (_ || _ || _).
  - destruct (draw_ok fn false s1 Hok) as (s2 & -> & Hok2 & B & C & D & K). cbn [mbind option_bind].
    eexists _, s2. split; [reflexivity |]. split; [done |]. rewrite B, C, D. cbn. rewrite <- E3. done.
  - eexists _, s1. split; [reflexivity |]. split; [done |]. cbn. rewrite E3. done.
Qed.

(** ** The document *)
Definition printable (k : Z) : bool := (k =? KEY_ENTER) || ((32 <=? k) && (k <? 127)).
Definition doc_key (fn : list Z) (k : Z) (d : list Z * F) : list Z * F :=
  let '(t, f) := d in
  if k =? KEY_CTRL_S then (t, (file_create fn t (zlen t) f).2)
  else if k =? KEY_BACKSPACE then (take (Z.to_nat (zlen t - 1)) t, f)
  else if printable k then (if zlen t <? EDITOR_BUFFER_SIZE - 1 then t ++ [k] else t, f)
  else (t, f).

(** What a key shows, with the text [t] before it. *)
Definition echo (k : Z) (t : list Z) : list Terminal.tcall :=
  if k =? Keyboard.KEY_PAGEUP then [Terminal.TScrollUp]
  else if k =? Keyboard.KEY_PAGEDOWN then [Terminal.TScrollDown]
  else if k =? KEY_BACKSPACE then (if 0 <? zlen t then [Terminal.TBackspace] else [])
  else if printable k then (if zlen t <? EDITOR_BUFFER_SIZE - 1 then [Terminal.TPut k] else [])
  else [].
Fixpoint echoes (fn : list Z) (keys : list Z) (d : list Z * F) : list Terminal.tcall :=
  match keys with [] => [] | k :: keys => echo k d.1 ++ echoes fn keys (doc_key fn k d) end.

(** The rows above the status bar show the lines of the history in view. *)
Definition above_bar (t : Terminal.term (hw := hw)) : Prop :=
  Terminal.rendering_enabled t = true → ∀ y x, 0 ≤ y < 24 → 0 ≤ x < 80 →
    (Terminal.vga_memory t).[y * 80 + x] = Terminal.shown t y x.
Lemma synced_above t : Terminal.synced t → above_bar t.
Proof. intros S E y x Hy Hx. apply S; [done | unfold Terminal.TERM_HEIGHT; lia | done]. Qed.
Lemma bar_above t t' : bar t t' → above_bar t → above_bar t'.
Proof. intros (m & -> & _ & F1) A E y x Hy Hx. cbn. rewrite F1 by lia. by apply A. Qed.
Lemma bar_same t t' : bar t t' → Terminal.same t t'.
Proof. by intros (m & -> & _). Qed.
Lemma echo_above k txt t : Terminal.term_ok t → above_bar t → above_bar (foldl Terminal.texec t (echo k txt)).
Proof.
  intros K A. unfold echo. repeat case_match; cbn [foldl Terminal.texec]; try done.
  - by apply synced_above, Terminal.rerender_ok.
  - by apply synced_above, Terminal.rerender_ok.
  - destruct (decide (0 < Terminal.terminal_column t)) as [Hc | Hc]; [by apply synced_above, Terminal.backspace_drawn |].
    unfold Terminal.terminal_backspace. by replace (0 <? Terminal.terminal_column t) with false by lia.
  - apply synced_above, Terminal.putchar_synced; [| done]. unfold printable, KEY_ENTER, Terminal.TAB in *. lia.
Qed.

Lemma save_ok fn s :
  ed_ok s → zlen fn < 32 →
  ∃ f', save fn s = Some (set_files f' s) ∧ fr_ok f' ∧ f' = (file_create fn (text s) (zlen (text s)) (files s)).2.
Proof.
  intros Hok Hfn. pose proof (text_len s Hok) as Hl. destruct Hok as [Hb Hc _ _ _ Hf].
  destruct (create_law fn (buffer s) (cursor s) (files s) Hf Hfn ltac:(lia)) as (rc & f' & E & Hf' & E').
  exists f'. unfold save. rewrite E. split; [done |]. split; [done |]. rewrite Hl. unfold text. by rewrite E'.
Qed.

Lemma key_refines fn k l s :
  ed_ok s → zlen fn < 32 → k ≠ KEY_ESC →
  ∃ l' s', editor_key fn k l s = Some (inl (l', s')) ∧ ed_ok s' ∧ (text s', files s') = doc_key fn k (text s, files s) ∧
    bar (foldl Terminal.texec (term s) (echo k (text s))) (term s').
Proof.
  intros Hok Hfn Hesc. pose proof (text_len s Hok) as Hl. pose proof Hok as [Hb Hc Hln Hcol Ht Hf]. unfold editor_key, doc_key, echo.
  assert (∀ (g : Terminal.term → Terminal.term) sv, Terminal.term_ok (g (term s)) →
    ∃ s', draw_status_bar fn sv (on_term g s) = Some s' ∧ ed_ok s' ∧ (text s', files s') = (text s, files s) ∧ bar (g (term s)) (term s')) as Redraw.
  { intros g sv Hg. destruct (draw_ok fn sv (on_term g s)) as (s' & E & Hok' & B & C & D & K); [by constructor |].
    exists s'. split; [done |]. split; [done |]. unfold text. by rewrite B, C, D. }
  destruct (Z.eqb_spec k Keyboard.KEY_PAGEUP) as [-> |].
  { destruct (Redraw Terminal.terminal_scroll_up (saved_indicator l)) as (s' & -> & R); [exact (proj1 (Terminal.texec_ok Terminal.TScrollUp _ Ht)) |].
    by exists l, s'. }
  destruct (Z.eqb_spec k Keyboard.KEY_PAGEDOWN) as [-> |].
  { destruct (Redraw Terminal.terminal_scroll_down (saved_indicator l)) as (s' & -> & R); [exact (proj1 (Terminal.texec_ok Terminal.TScrollDown _ Ht)) |].
    by exists l, s'. }
  destruct (Z.eqb_spec k KEY_CTRL_S) as [-> |].
  { destruct (save_ok fn s Hok Hfn) as (f' & -> & Hf' & Ef). cbn [mbind option_bind].
    destruct (draw_ok fn true (set_message (message msg_saved EMPTY_MESSAGE) (set_files f' s))) as (s' & -> & Hok' & B & C & D & K); [by constructor |].
    cbn [mbind option_bind]. eexists _, s'. split; [reflexivity |]. split; [done |]. rewrite D. unfold text at 1. rewrite B, C. split; [cbn; by rewrite Ef | exact K]. }
  replace (k =? KEY_ESC) with false by lia.
  destruct (Z.eqb_spec k KEY_BACKSPACE) as [-> |].
  { destruct (Z.ltb_spec 0 (cursor s)) as [Hpos |].
    2:{ exists l, s. split; [done |]. split; [done |]. rewrite Hl. replace (0 <? cursor s) with false by lia. split; [| reflexivity]. f_equal.
        replace (cursor s) with 0 by lia. unfold text. by replace (cursor s) with 0 by lia. }
    set (s1 := set_text _ _ s). destruct (edited_ok fn l (on_term Terminal.terminal_backspace s1)) as (l' & s' & -> & Hok' & B & C & D & K).
    { cbn. by rewrite zlen_aset. } { cbn. lia. } { exact (proj1 (Terminal.texec_ok Terminal.TBackspace _ Ht)). } { done. }
    cbn [mbind option_bind]. exists l', s'. split; [done |]. split; [done |]. rewrite Hl. replace (0 <? cursor s) with true by lia. split; [| exact K].
    rewrite D. unfold text at 1. rewrite B, C. cbn. f_equal. rewrite take_aset_out by lia. unfold text. rewrite take_take. f_equal. lia. }
  unfold printable. destruct ((k =? KEY_ENTER) || (32 <=? k) && (k <? 127)); [| by exists l, s].
  unfold insert_char. rewrite Hl. destruct (Z.ltb_spec (cursor s) (EDITOR_BUFFER_SIZE - 1)) as [Hlt |]; [| by exists l, s].
  set (s1 := set_text _ _ s). destruct (edited_ok fn l (on_term (Terminal.terminal_putchar k) s1)) as (l' & s' & -> & Hok' & B & C & D & K).
  { cbn. by rewrite zlen_aset. } { cbn. lia. } { exact (proj1 (Terminal.texec_ok (Terminal.TPut k) _ Ht)). } { done. }
  cbn [mbind option_bind]. exists l', s'. split; [done |]. split; [done |]. split; [| exact K]. rewrite D. unfold text at 1. rewrite B, C. cbn. f_equal.
  by apply take_aset; lia.
Qed.

Lemma foldl_same calls t t' : Terminal.same (hw := hw) t t' → Terminal.same (foldl Terminal.texec t calls) (foldl Terminal.texec t' calls).
Proof. revert t t'. induction calls as [| c calls IH]; intros t t' S; [done |]. cbn [foldl]. by apply IH, (Terminal.texec_same c). Qed.
Lemma loop_refines fn keys l s :
  ed_ok s → zlen fn < 32 → KEY_ESC ∉ keys →
  ∃ l' s', editor_loop fn keys (l, s) = Some (inl (l', s')) ∧ ed_ok s' ∧
    (text s', files s') = foldl (λ d k, doc_key fn k d) (text s, files s) keys ∧
    Terminal.same (foldl Terminal.texec (term s) (echoes fn keys (text s, files s))) (term s') ∧
    (above_bar (term s) → above_bar (term s')).
Proof.
  intros Hok Hfn. revert l s Hok. induction keys as [| k keys IH]; intros l s Hok Hesc; [by exists l, s |].
  apply not_elem_of_cons in Hesc as [Hk Hks]. cbn [editor_loop foldl]. destruct (Z.eqb_spec k 0) as [-> |].
  - exact (IH l s Hok Hks).
  - destruct (key_refines fn k l s Hok Hfn) as (l1 & s1 & E & Hok1 & R1 & K); [congruence |]. cbn [fst snd]. rewrite E. cbn [mbind option_bind].
    destruct (IH l1 s1 Hok1 Hks) as (l' & s' & E' & Hok' & R' & S' & A'). exists l', s'. split; [done |]. split; [done |].
    cbn [echoes fst]. rewrite <- R1. split; [done |]. split.
    + rewrite foldl_app, <- S'. apply foldl_same. by apply bar_same.
    + intros A. apply A', (bar_above _ _ K), echo_above; [apply Hok | done].
Qed.

Lemma loop_app fn keys1 keys2 p p' :
  editor_loop fn keys1 p = Some (inl p') → editor_loop fn (keys1 ++ keys2) p = editor_loop fn keys2 p'.
Proof.
  revert p. induction keys1 as [| k keys1 IH]; intros p; cbn [editor_loop app]; [by intros [= ->] |].
  destruct (k =? 0); [apply IH |]. destruct (editor_key fn k p.1 p.2) as [[p1 | s1] |]; cbn [mbind option_bind]; [apply IH | done..].
Qed.

Lemma write_ok str (t : Terminal.term (hw := hw)) : Terminal.term_ok t → Terminal.term_ok (Terminal.terminal_write str t).
Proof.
  revert t. induction str as [| c str IH]; intros t Ht; [done |]. cbn. apply IH. exact (proj1 (Terminal.texec_ok (Terminal.TPut c) t Ht)).
Qed.

Lemma write_synced str (t : Terminal.term (hw := hw)) : Terminal.term_ok t → Terminal.synced t → Terminal.synced (Terminal.terminal_write str t).
Proof.
  revert t. induction str as [| c str IH]; intros t Ht Hs; [done |]. destruct (Terminal.texec_ok (Terminal.TPut c) t Ht) as [K S]. apply IH; [exact K | by apply S].
Qed.

(** What the editor starts with: the file, or nothing, on a cleared screen. *)
Definition opened (r : Fat.read_result) : list Z := if Fat.rr_rc r =? 0 then Fat.rr_buf r else [].
Definition opened_on (r : Fat.read_result) (t : Terminal.term (hw := hw)) : Terminal.term :=
  Terminal.terminal_write (opened r) (Terminal.terminal_setcolor normal_color (Terminal.terminal_clear t)).
Lemma opened_on_ok r t : Terminal.term_ok t → Terminal.term_ok (opened_on r t) ∧ Terminal.synced (opened_on r t).
Proof.
  intros Ht. assert (Terminal.term_ok (Terminal.terminal_clear t) ∧ Terminal.synced (Terminal.terminal_clear t)) as [K S].
  { apply Terminal.visible_ok, Terminal.render_spec, Terminal.blank_ok. by apply Terminal.position_ok. }
  destruct (Terminal.texec_ok (Terminal.TColor normal_color) _ K) as [K' S'].
  split; [by apply write_ok | apply write_synced; [exact K' | by apply S']].
Qed.
Lemma load_ok fn s r f' :
  Terminal.term_ok (term s) → fr_ok (files s) → zlen procs = Process.MAX_PROCESSES →
  file_read procs fn (EDITOR_BUFFER_SIZE - 1) (files s) = (Fat.Val r, f') →
  ∃ l s', editor_load procs fn s = Some (l, s') ∧ ed_ok s' ∧ text s' = opened r ∧ files s' = f' ∧
    bar (opened_on r (term s)) (term s').
Proof.
  intros Ht Hf Hp E. unfold editor_load. rewrite E. apply fr_bounded in E as (Hf' & Hlen & Hsz); [| done..]. pose proof (opened_on_ok r (term s) Ht) as [Hto _]. revert Hto. unfold opened_on. unfold opened. intros Hto.
  set (b := ablit (replicate (Z.to_nat EDITOR_BUFFER_SIZE) 0) 0 (Fat.rr_buf r)).
  assert (zlen b = EDITOR_BUFFER_SIZE) as Hb by (unfold b; by rewrite zlen_ablit, zlen_replicate).
  assert (∃ n, (if Fat.rr_rc r =? 0 then Fat.rr_size r else Some 0) = Some n ∧ 0 ≤ n < EDITOR_BUFFER_SIZE ∧
    take (Z.to_nat n) b = if Fat.rr_rc r =? 0 then Fat.rr_buf r else []) as (n & -> & Hn & Hb').
  { pose proof (zlen_nonneg (Fat.rr_buf r)). unfold EDITOR_BUFFER_SIZE in *. destruct (Z.eqb_spec (Fat.rr_rc r) 0) as [E0 |]; [| exists 0; split; [done | split; [lia | done]]].
    rewrite (Hsz E0). eexists. split; [reflexivity |]. split; [lia |]. apply (array_ext (A := Z)); [rewrite zlen_take; lia |].
    intros i Hi. rewrite zlen_take in Hi. rewrite aget_take by lia. unfold b. rewrite aget_ablit_in by (rewrite ?zlen_replicate; lia). f_equal. lia. }
  cbn [mbind option_bind]. set (s1 := on_term _ (Ed b n _ _ _ _ _)). destruct (line_col_ok s1 Hn) as (Hlc & E1 & E2 & E3 & E4).
  destruct (draw_ok fn false (on_term (Terminal.terminal_write (take (Z.to_nat n) b)) (update_line_col s1))) as (s' & -> & Hok' & B & C & D & K).
  { constructor; cbn; rewrite ?E1, ?E2, ?E3, ?E4; [done | done | apply Hlc | apply Hlc | | done].
    rewrite Hb'. exact Hto. }
  eexists _, s'. split; [reflexivity |]. split; [done |]. split; [unfold text; rewrite B, C; cbn; by rewrite E1, E2 |].
  split; [rewrite D; cbn; by rewrite E4 |]. cbn [on_term term set_term] in K. rewrite E3, Hb' in K. exact K.
Qed.

(** ** Properties *)

(** C35: The editor refines a document.  Opened on a file with a name below 32
    characters, it holds the bytes of the file, or nothing if the file cannot
    be read; whatever keys are then typed, it returns without leaving its
    arrays: printable keys and ENTER append to the text while it is below 4095
    characters, BACKSPACE drops the last character, Ctrl+S stores the text,
    the other keys leave it alone; ESC stores the text and ends.  The terminal
    holds, apart from the VGA memory, the file written on a cleared screen
    and then the echo of the keys: each character as it is appended, a
    terminal backspace for each one dropped, a scroll for PAGE UP and PAGE
    DOWN; and while rendering is enabled the rows above the status bar show
    the lines of that history in view. *)
Theorem editor_refines_document fn keys s r f' :
  Terminal.term_ok (term s) → fr_ok (files s) → zlen procs = Process.MAX_PROCESSES → zlen fn < 32 → KEY_ESC ∉ keys →
  file_read procs fn (EDITOR_BUFFER_SIZE - 1) (files s) = (Fat.Val r, f') →
  let '(t, f) := foldl (λ d k, doc_key fn k d) (opened r, f') keys in
  (∃ l s', editor_open procs fn keys s = Some (inl (l, s')) ∧ ed_ok s' ∧ text s' = t ∧ files s' = f ∧
     Terminal.same (foldl Terminal.texec (opened_on r (term s)) (echoes fn keys (opened r, f'))) (term s') ∧ above_bar (term s')) ∧
  (∃ s', editor_open procs fn (keys ++ [KEY_ESC]) s = Some (inr s') ∧ Terminal.term_ok (term s') ∧
     files s' = (file_create fn t (zlen t) f).2).
Proof.
  intros Ht Hf Hp Hfn Hesc E. destruct (load_ok fn s r f' Ht Hf Hp E) as (l0 & s0 & E0 & Hok0 & T0 & F0 & B0).
  destruct (loop_refines fn keys l0 s0 Hok0 Hfn Hesc) as (l1 & s1 & E1 & Hok1 & R & S1 & A1). rewrite T0, F0 in R, S1. rewrite <- R.
  unfold editor_open. rewrite E0. cbn [mbind option_bind]. split.
  - exists l1, s1. rewrite E1. do 4 (split; [done |]). split; [rewrite <- S1; by apply foldl_same, bar_same |].
    apply A1, (bar_above _ _ B0), synced_above, opened_on_ok, Ht.
  - rewrite (loop_app fn keys [KEY_ESC] (l0, s0) (l1, s1) E1). cbn [editor_loop]. change (KEY_ESC =? 0) with false. cbv iota.
    unfold editor_key. cbn [fst snd]. change (KEY_ESC =? Keyboard.KEY_PAGEUP) with false. change (KEY_ESC =? Keyboard.KEY_PAGEDOWN) with false.
    change (KEY_ESC =? KEY_CTRL_S) with false. change (KEY_ESC =? KEY_ESC) with true. cbv iota.
    destruct (save_ok fn s1 Hok1 Hfn) as (f2 & -> & _ & Ef). cbn [mbind option_bind]. eexists. split; [reflexivity |]. split; [| exact Ef].
    cbn [on_term set_term term set_files]. pose proof (eo_term _ Hok1) as K. exact (proj1 (Terminal.texec_ok (Terminal.TColor normal_color) _
      (write_ok (file_saved ++ fn ++ [10]) _ (proj1 (Terminal.texec_ok (Terminal.TColor light_green) _ (write_ok [10; 10] _ K)))))).
Qed.

(** The status bar stays in the last row of the screen: in every state of the
    editor it can be drawn, with any file name, and no cell of the rows above
    it changes. *)
Theorem editor_status_bar_confined fn sv s :
  ed_ok s →
  ∃ s', draw_status_bar fn sv s = Some s' ∧ zlen (Terminal.vga_memory (term s')) = zlen (Terminal.vga_memory (term s)) ∧
    (∀ y x, 0 ≤ y < 24 → 0 ≤ x < 80 → (Terminal.vga_memory (term s')).[y * 80 + x] = (Terminal.vga_memory (term s)).[y * 80 + x]) ∧
    text s' = text s ∧ files s' = files s.
Proof.
  intros Hok. destruct (draw_total fn sv s Hok) as (t' & E & m & -> & Hl & Hf). eexists. split; [exact E |]. split; [exact Hl |]. split; [| done].
  intros y x Hy Hx. apply Hf. lia.
Qed.

(** Leaving the editor destroys a file it could not read: a file larger than
    the 4095 bytes of the buffer, or one with a read error, is announced as a
    new file, and ESC replaces it by an empty one. *)
Theorem editor_esc_empties_unreadable fn s r f' :
  Terminal.term_ok (term s) → fr_ok (files s) → zlen procs = Process.MAX_PROCESSES → zlen fn < 32 →
  file_read procs fn (EDITOR_BUFFER_SIZE - 1) (files s) = (Fat.Val r, f') → Fat.rr_rc r ≠ 0 →
  ∃ s', editor_open procs fn [KEY_ESC] s = Some (inr s') ∧ files s' = (file_create fn [] 0 f').2.
Proof.
  intros Ht Hf Hp Hfn E Hr. destruct (load_ok fn s r f' Ht Hf Hp E) as (l0 & s0 & E0 & Hok0 & T0 & F0 & _).
  unfold editor_open. rewrite E0. cbn [mbind option_bind editor_loop]. change (KEY_ESC =? 0) with false. cbv iota.
  unfold editor_key. cbn [fst snd]. change (KEY_ESC =? Keyboard.KEY_PAGEUP) with false. change (KEY_ESC =? Keyboard.KEY_PAGEDOWN) with false.
  change (KEY_ESC =? KEY_CTRL_S) with false. change (KEY_ESC =? KEY_ESC) with true. cbv iota.
  destruct (save_ok fn s0 Hok0 Hfn) as (f2 & -> & _ & Ef). cbn [mbind option_bind]. eexists. split; [reflexivity |].
  cbn [files on_term set_term set_files]. rewrite Ef, T0, F0. unfold opened. by replace (Fat.rr_rc r =? 0) with false by lia.
Qed.
End Props.

(** ** The file system of Fs.v *)
Section Store.
Context {B : Type} `{BlockDev B} {hw : Type} `{Net.NetEnv hw}.
#[export] Instance fs_store : FileStore (Fs.fs_state B hw) := {| file_create := Fs.fs_create |}.

Lemma resolve_shorter (st : Vfs.vfs_state Fs.fs_ops_ptr) path : zlen (Vfs.resolve path st).2 ≤ zlen path.
Proof.
  pose proof (zlen_nonneg path). unfold Vfs.resolve. destruct (_ =? 0); [done |]. destruct (negb _); [done |].
  destruct (for_each _ _ _ _) as [best len]. destruct (best <? 0); [done |]. cbn [snd].
  repeat case_match; rewrite ?zlen_drop; try lia. by change (zlen (@nil Z)) with 0.
Qed.

Lemma ramfs_create_take n src sz st : Ramfs.ramfs_create n (take (Z.to_nat sz) src) sz st = Ramfs.ramfs_create n src sz st.
Proof. unfold Ramfs.ramfs_create, Ramfs.fill_data. by rewrite take_take, Nat.min_id. Qed.

#[export] Instance fs_store_laws : FileStoreLaws (Fs.fs_state B hw).
Proof.
  constructor. intros name data size s [Hm Hr] Hn Hsz. cbn [file_create fs_store]. unfold Fs.fs_create, Fs.on_vfs, Vfs.vfs_create.
  pose proof (resolve_shorter (Fs.vfs s) name) as Hsub.
  assert (∃ o sub, Vfs.resolve name (Fs.vfs s) = (o, sub) ∧ o ≠ Some Fs.fat_ops_ptr) as (o & sub & E & Ho).
  { destruct (Handles.resolve_in (Fs.vfs s) name) as [E | [i E]]; destruct (Vfs.resolve name (Fs.vfs s)) as [o sub]; exists o, sub;
      (split; [done |]); cbn in E; rewrite E; [done | apply Hm]. }
  rewrite E in Hsub |- *. cbn [snd] in Hsub.
  assert (∃ rc s', (Fat.Val (-1), Fs.FsState (Fs.vfs s) (Fs.fsw s)) = (Fat.Val rc, s') ∧ fr_ok s' ∧
    (Fat.Val (-1), Fs.FsState (Fs.vfs s) (Fs.fsw s)) = (Fat.Val rc, s')) as Same by (eexists _, _; split; [reflexivity |]; split; [by constructor | reflexivity]).
  destruct o as [[] |]; cbn [mbind option_bind Fs.deref Vfs.op_create Fs.ramfs_ops Fs.proc_ops Fs.dev_ops Fs.fat_ops]; [done | | exact Same..].
  unfold Fs.ram_create. rewrite ramfs_create_take. destruct (Ramfs.ramfs_create sub data size (Fs.w_ram (Fs.fsw s))) as [rc st'] eqn:Ec.
  eexists rc, _. split; [reflexivity |]. split; [| reflexivity]. constructor; [exact Hm |]. cbn.
  destruct (Ramfs.create_spec (Fs.w_ram (Fs.fsw s)) sub data size rc st' Hr ltac:(unfold Ramfs.MAX_FILENAME; lia) Hsz Ec) as [(_ & -> & _) | (_ & Hok & _)]; [exact Hr | exact Hok].
Qed.
End Store.

(** ** Witnesses *)
#[local] Instance no_port : PortIO unit := {|
  inb := λ _ d, (0, d); inw := λ _ d, (0, d); outb := λ _ _ d, d; outw := λ _ _ d, d |}.
Definition demo_term : Terminal.term (hw := unit) :=
  Terminal.Term (replicate 1000 (replicate 80 32)) (replicate 1000 (replicate 80 7)) 0 0 0 7 (replicate 2000 0) true true tt true.
Lemma demo_term_ok : Terminal.term_ok demo_term.
Proof.
  assert (∀ v, Terminal.grid (replicate 1000 (replicate 80 v))) as G.
  { intros v. split; [done |]. intros i Hi. unfold Terminal.TERM_HISTORY in *. rewrite aget_replicate by lia. done. }
  constructor; [apply G | apply G | by vm_compute.. ].
Qed.
Definition demo_editor : editor unit (Fs.fs_state unit NetProps.ne2000) :=
  Ed (replicate 4096 0) 0 1 1 (replicate 40 0) demo_term Fs.demo_fs.

Lemma editor_refines_document_witness :
  ∃ s', editor_open Fs.demo_procs [97] [104; 105; 8; 33; 27] demo_editor = Some (inr s') ∧
    files s' = (Fs.fs_create [97] [104; 33] 2 Fs.demo_fs).2.
Proof.
  assert (∃ r f, file_read Fs.demo_procs [97] (EDITOR_BUFFER_SIZE - 1) (files demo_editor) = (Fat.Val r, f) ∧ Fat.rr_rc r = -1 ∧ f = Fs.demo_fs)
    as (r & f & E & Er & ->) by (eexists _, _; split; [reflexivity |]; split; [vm_compute; reflexivity | reflexivity]).
  pose proof (editor_refines_document Fs.demo_procs [97] [104; 105; 8; 33] demo_editor r Fs.demo_fs demo_term_ok Handles.demo_no_fat
    ltac:(vm_compute; reflexivity) ltac:(vm_compute; reflexivity) ltac:(apply (bool_decide_unpack _); vm_compute; exact I) E) as L.
  unfold opened in L. rewrite Er in L. destruct L as [_ (s' & E1 & _ & E2)]. exists s'. split; [exact E1 | exact E2].
Defined.

Lemma editor_status_bar_confined_witness :
  ∃ s', draw_status_bar [97] true demo_editor = Some s' ∧ text s' = [].
Proof.
  destruct (editor_status_bar_confined [97] true demo_editor) as (s' & E & _ & _ & T & _).
  - constructor; [vm_compute; reflexivity | vm_compute; split; [discriminate | reflexivity].. | vm_compute; split; discriminate | | |].
    + vm_compute; split; discriminate.
    + exact demo_term_ok.
    + exact Handles.demo_no_fat.
  - exists s'. split; [exact E | exact T].
Defined.

Lemma editor_esc_empties_unreadable_witness :
  ∃ s', editor_open Fs.demo_procs [97] [27] demo_editor = Some (inr s') ∧ files s' = (Fs.fs_create [97] [] 0 Fs.demo_fs).2.
Proof.
  assert (∃ r f, file_read Fs.demo_procs [97] (EDITOR_BUFFER_SIZE - 1) (files demo_editor) = (Fat.Val r, f) ∧ Fat.rr_rc r = -1 ∧ f = Fs.demo_fs)
    as (r & f & E & Er & ->) by (eexists _, _; split; [reflexivity |]; split; [vm_compute; reflexivity | reflexivity]).
  destruct (editor_esc_empties_unreadable Fs.demo_procs [97] demo_editor r Fs.demo_fs) as (s' & E1 & E2).
  - exact demo_term_ok.
  - exact Handles.demo_no_fat.
  - vm_compute; reflexivity.
  - vm_compute; reflexivity.
  - exact E.
  - rewrite Er. discriminate.
  - exists s'. split; [exact E1 | exact E2].
Defined.

(** ENTER and BACKSPACE leave the text empty and the cursor on the second
    line: the terminal takes nothing back at the start of a line. *)
Lemma editor_backspace_over_newline :
  match editor_open Fs.demo_procs [97] [10; 8] demo_editor with
  | Some (inl (_, s')) => text s' = [] ∧ Terminal.current_line (term s') = 1
  | _ => False
  end.
Proof. by vm_compute. Qed.
End EditorProps.
