(* ===== verification/Shell.v ===== *)
(** * The shell (kernel/shell.c)

    The line editor with its history, the parsing of a command line, and the
    commands that shell.c carries out itself: ps, reap, kill and the start of
    programs.  The commands of kernel/shell/commands.c are the parameter
    [builtin], and the jump into a raw binary is the parameter [run_raw].

    [command_buffer] and the rows of [history] are arrays of 256 characters;
    the string functions on them are those of CString.v, whose [None] is an
    access outside the array.  A command line that is being taken apart is the
    list of its characters. *)
From S2P Require Import Prelude.
From S2P Require Import PhysMem.
From S2P Require Import Vmm.
From S2P Require Import CString.
From S2P Require Import Ata.
From S2P Require Import Fat.
From S2P Require Import Process.
From S2P Require Import Keyboard.
From S2P Require Import Terminal.
From S2P Require Import Format.
From S2P Require Import Syscall.
From S2P Require Import Loader.
Import Vmm Ata Process Format Syscall Loader.
Import (hints) Keyboard Terminal.

Module Shell.
Definition MAX_COMMAND_LENGTH : Z := 256.
Definition HISTORY_SIZE : Z := 10.
Definition ARGV_BASE : Z := 0x00091000.
Definition ARGV_MAX : Z := 16.
(** AO-OS: *)
Definition t_prompt : list Z := [65; 79; 45; 79; 83; 58].
(** >  *)
Definition t_gt : list Z := [62; 32].
(** Reaped  *)
Definition t_reaped : list Z := [82; 101; 97; 112; 101; 100; 32].
(**  background processes\n *)
Definition t_background : list Z := [32; 98; 97; 99; 107; 103; 114; 111; 117; 110; 100; 32; 112; 114; 111; 99; 101; 115; 115; 101; 115; 10].
(** Usage: kill <pid>\n *)
Definition t_kill_usage : list Z := [85; 115; 97; 103; 101; 58; 32; 107; 105; 108; 108; 32; 60; 112; 105; 100; 62; 10].
(** Cannot kill kernel process\n *)
Definition t_kill_kernel : list Z := [67; 97; 110; 110; 111; 116; 32; 107; 105; 108; 108; 32; 107; 101; 114; 110; 101; 108; 32; 112; 114; 111; 99; 101; 115; 115; 10].
(** Process terminated\n *)
Definition t_killed : list Z := [80; 114; 111; 99; 101; 115; 115; 32; 116; 101; 114; 109; 105; 110; 97; 116; 101; 100; 10].
(** [bg] started pid  *)
Definition t_started : list Z := [91; 98; 103; 93; 32; 115; 116; 97; 114; 116; 101; 100; 32; 112; 105; 100; 32].
(** Error: Failed to execute  *)
Definition t_exec_failed : list Z := [69; 114; 114; 111; 114; 58; 32; 70; 97; 105; 108; 101; 100; 32; 116; 111; 32; 101; 120; 101; 99; 117; 116; 101; 32].
(** Error: Failed to load or execute  *)
Definition t_load_failed : list Z := [69; 114; 114; 111; 114; 58; 32; 70; 97; 105; 108; 101; 100; 32; 116; 111; 32; 108; 111; 97; 100; 32; 111; 114; 32; 101; 120; 101; 99; 117; 116; 101; 32].
(** Unknown command:  *)
Definition t_unknown : list Z := [85; 110; 107; 110; 111; 119; 110; 32; 99; 111; 109; 109; 97; 110; 100; 58; 32].
(** Type 'help' for available commands.\n *)
Definition t_hint : list Z := [84; 121; 112; 101; 32; 39; 104; 101; 108; 112; 39; 32; 102; 111; 114; 32; 97; 118; 97; 105; 108; 97; 98; 108; 101; 32; 99; 111; 109; 109; 97; 110; 100; 115; 46; 10].
(** .aob *)
Definition s_aob : list Z := [46; 97; 111; 98].
(** .elf *)
Definition s_elf : list Z := [46; 101; 108; 102].
(** .bin *)
Definition s_bin : list Z := [46; 98; 105; 110].
(** reap *)
Definition s_reap : list Z := [114; 101; 97; 112].
(** kill *)
Definition s_kill : list Z := [107; 105; 108; 108].
(** ps *)
Definition s_ps : list Z := [112; 115].
(** PID  STATE       NAME\n *)
Definition t_ps_head : list Z := [80; 73; 68; 32; 32; 83; 84; 65; 84; 69; 32; 32; 32; 32; 32; 32; 32; 78; 65; 77; 69; 10].
(**  [user] *)
Definition t_user : list Z := [32; 91; 117; 115; 101; 114; 93].
(** Error: Binary size invalid (0 or >16KB)\n *)
Definition t_bin_size : list Z := [69; 114; 114; 111; 114; 58; 32; 66; 105; 110; 97; 114; 121; 32; 115; 105; 122; 101; 32; 105; 110; 118; 97; 108; 105; 100; 32; 40; 48; 32; 111; 114; 32; 62; 49; 54; 75; 66; 41; 10].
(** Error: Failed to load  *)
Definition t_bin_load : list Z := [69; 114; 114; 111; 114; 58; 32; 70; 97; 105; 108; 101; 100; 32; 116; 111; 32; 108; 111; 97; 100; 32].
(** ========================================\n *)
Definition t_rule : list Z := [61; 61; 61; 61; 61; 61; 61; 61; 61; 61; 61; 61; 61; 61; 61; 61; 61; 61; 61; 61; 61; 61; 61; 61; 61; 61; 61; 61; 61; 61; 61; 61; 61; 61; 61; 61; 61; 61; 61; 61; 10].
(**   Welcome to AO OS!\n *)
Definition t_welcome : list Z := [32; 32; 87; 101; 108; 99; 111; 109; 101; 32; 116; 111; 32; 65; 79; 32; 79; 83; 33; 10].
(**   Aleksandar Ovcharov's Operating System\n *)
Definition t_author : list Z := [32; 32; 65; 108; 101; 107; 115; 97; 110; 100; 97; 114; 32; 79; 118; 99; 104; 97; 114; 111; 118; 39; 115; 32; 79; 112; 101; 114; 97; 116; 105; 110; 103; 32; 83; 121; 115; 116; 101; 109; 10].

(** ** Taking a command line apart *)
Definition strip_spaces (s : list Z) : list Z := rev (skip_spaces (rev s)).
(** The line without its trailing spaces and [&], and whether there was one. *)
Definition split_background (line : list Z) : bool * list Z :=
  let e := strip_spaces line in
  match rev e with
  | 38 :: r => (true, strip_spaces (rev r))
  | _ => (false, e)
  end.
Record parsed := Parsed { exec_cmd : list Z; cmd_len : Z; args : list Z; background : bool }.
Definition parse_line (line : list Z) : parsed :=
  let '(bg, e) := split_background line in
  let '(tok, rest) := take_token e in
  Parsed e (zlen tok) (match rest with [] => [] | _ :: r => r end) bg.

(** How a command is recognised: by [strncmp] of the line or of its copy over
    the length of the first word, or by [strcmp] of the whole copy. *)
Inductive how := By_cmd | By_exec | Whole.
Definition table : list (how * list Z) := [
  (By_cmd, [104; 101; 108; 112] (* help *));
  (By_cmd, [99; 108; 101; 97; 114] (* clear *));
  (By_cmd, [101; 99; 104; 111] (* echo *));
  (By_cmd, [97; 98; 111; 117; 116] (* about *));
  (By_cmd, [107; 101; 114; 110; 101; 108] (* kernel *));
  (By_cmd, [115; 121; 115; 105; 110; 102; 111] (* sysinfo *));
  (By_cmd, [100; 105; 115; 107; 105; 110; 102; 111] (* diskinfo *));
  (By_cmd, [110; 101; 116; 115; 116; 97; 116] (* netstat *));
  (By_cmd, [112; 105; 110; 103] (* ping *));
  (By_cmd, [117; 100; 112; 45; 115; 101; 110; 100] (* udp-send *));
  (By_cmd, [117; 100; 112; 45; 108; 105; 115; 116; 101; 110] (* udp-listen *));
  (By_cmd, [115; 99; 111; 110; 115; 111; 108; 101] (* sconsole *));
  (Whole, [99; 104; 101; 99; 107; 102; 115] (* checkfs *));
  (By_exec, [109; 111; 117; 110; 116] (* mount *));
  (By_exec, [117; 109; 111; 117; 110; 116] (* umount *));
  (Whole, [109; 111; 117; 110; 116; 115] (* mounts *));
  (Whole, [105; 110; 115; 116; 97; 108; 108] (* install *));
  (By_cmd, [109; 107; 100; 105; 114] (* mkdir *));
  (By_cmd, [114; 109; 100; 105; 114] (* rmdir *));
  (By_cmd, [99; 100] (* cd *));
  (By_cmd, [112; 119; 100] (* pwd *));
  (By_cmd, [108; 115] (* ls *));
  (By_cmd, [99; 97; 116] (* cat *));
  (By_cmd, [101; 100; 105; 116] (* edit *));
  (By_cmd, [119; 114; 105; 116; 101] (* write *));
  (By_cmd, [114; 109] (* rm *));
  (By_cmd, [116; 111; 117; 99; 104] (* touch *));
  (By_cmd, [109; 101; 109] (* mem *));
  (By_cmd, [117; 112; 116; 105; 109; 101] (* uptime *));
  (By_cmd, [99; 111; 108; 111; 114] (* color *));
  (By_cmd, [114; 101; 98; 111; 111; 116] (* reboot *));
  (By_cmd, [115; 104; 117; 116; 100; 111; 119; 110] (* shutdown *));
  (By_cmd, [100; 105; 118; 97; 110] (* divan *));
  (By_cmd, [99; 112] (* cp *));
  (By_cmd, [109; 118] (* mv *));
  (By_cmd, [114; 101; 110; 97; 109; 101] (* rename *));
  (By_cmd, [119; 104; 105; 99; 104] (* which *));
  (By_cmd, [116; 114; 101; 101] (* tree *));
  (By_cmd, [100; 97; 116; 101] (* date *));
  (By_cmd, [104; 101; 120; 100; 117; 109; 112] (* hexdump *));
  (By_cmd, [119; 99] (* wc *));
  (By_cmd, [104; 101; 97; 100] (* head *));
  (By_cmd, [115; 108; 101; 101; 112] (* sleep *));
  (By_cmd, [104; 105; 115; 116; 111; 114; 121] (* history *));
  (By_cmd, [110; 101; 111; 102; 101; 116; 99; 104] (* neofetch *));
  (By_cmd, [99; 97; 108; 99] (* calc *));
  (By_cmd, [119; 97; 105; 116; 112; 105; 100] (* waitpid *));
  (By_exec, [112; 115] (* ps *));
  (By_exec, [114; 101; 97; 112] (* reap *));
  (By_exec, [107; 105; 108; 108] (* kill *))].
Definition strncmp_eq (a b : list Z) (n : Z) : bool :=
  match CString.strncmp (a ++ [0]) (b ++ [0]) (Z.to_nat n) with Some r => r =? 0 | None => false end.
Definition strcmp_eq (a b : list Z) : bool :=
  match CString.strcmp (a ++ [0]) (b ++ [0]) with Some r => r =? 0 | None => false end.
Definition matches (line : list Z) (p : parsed) (entry : how * list Z) : bool :=
  let '(h, name) := entry in
  match h with
  | By_cmd => strncmp_eq line name (cmd_len p) && (cmd_len p =? zlen name)
  | By_exec => strncmp_eq (exec_cmd p) name (cmd_len p) && (cmd_len p =? zlen name)
  | Whole => strcmp_eq (exec_cmd p) name
  end.

Inductive action :=
| Builtin (name args : list Z)
| RunAob (filename line : list Z) (background : bool)
| RunElf (filename line : list Z) (background : bool)
| RunBin (filename line : list Z)
| Unknown (line : list Z).
Definition suffix_is (p : parsed) (suffix : list Z) : bool :=
  (4 <? cmd_len p) && strncmp_eq (drop (Z.to_nat (cmd_len p - 4)) (exec_cmd p)) suffix 4.
Definition action_of (line : list Z) (p : parsed) : action :=
  match List.find (matches line p) table with
  | Some (_, name) => Builtin name (args p)
  | None =>
      let filename := take (Z.to_nat (cmd_len p)) (exec_cmd p) in
      if suffix_is p s_aob then RunAob filename (exec_cmd p) (background p)
      else if suffix_is p s_elf then RunElf filename (exec_cmd p) (background p)
      else if suffix_is p s_bin then RunBin filename (exec_cmd p)
      else Unknown (exec_cmd p)
  end.

(** ** kill and ps *)
(** [pid = pid * 10 + digit], an [int]: overflow is undefined. *)
Fixpoint parse_pid (s : list Z) (pid : Z) : option Z :=
  match s with
  | c :: s' =>
      if (48 <=? c) && (c <=? 57) then
        let pid := pid * 10 + (c - 48) in if pid <? 2 ^ 31 then parse_pid s' pid else None
      else Some pid
  | [] => Some pid
  end.
Definition ps_states : list (list Z) := [[85; 78; 85; 83; 69; 68]; [82; 69; 65; 68; 89]; [82; 85; 78; 78; 73; 78; 71]; [66; 76; 79; 67; 75; 69; 68]; [83; 76; 69; 69; 80; 73; 78; 71]; [84; 69; 82; 77; 73; 78; 65; 84; 69; 68]].
Definition state_index (s : process_state_t) : nat :=
  match s with
  | PROC_UNUSED => 0 | PROC_LOADING => 1 | PROC_READY => 2 | PROC_RUNNING => 3
  | PROC_BLOCKED => 4 | PROC_SLEEPING => 5 | PROC_TERMINATED => 6
  end.
(** [states[list[i].state]] *)
Definition ps_state_name (s : process_state_t) : option (list Z) := ps_states !! state_index s.
Definition pad (width : Z) (s : list Z) : list Z := s ++ replicate (Z.to_nat (width - zlen s)) 32.
(** The number in an array of eight characters; a negative one prints nothing. *)
Definition ps_number (v : Z) : option (list Z) :=
  let d := if v <? 0 then [] else digits_of 24 v in if zlen d <? 8 then Some d else None.
Definition ps_line (p : process_t) : option (list Z) :=
  if is_st (state p) PROC_UNUSED then Some [] else
  num ← ps_number (i32 (pid p));
  st ← ps_state_name (state p);
  Some (pad 5 num ++ pad 12 st ++ until_nul (name p) ++ (if is_user p then t_user else []) ++ [10]).
Fixpoint ps_text (l : list process_t) : option (list Z) :=
  match l with
  | [] => Some []
  | p :: l => a ← ps_line p; b ← ps_text l; Some (a ++ b)
  end.

(** ** The shell *)
Section Shell.
Context {hw : Type} `{PortIO hw} {F : Type} `{FileReader F}.
Context (kernel_stacks elf_buffer aob_buffer bin_buffer : Z) (api : list Z) (hlt : kern → kern) (fuel : Z).
Context (fs_getcwd : F → list Z).

Record shell := Sh {
  command_buffer : list Z;
  command_index : Z;
  history : list (list Z);
  history_count : Z;
  history_index : Z;
  browsing_history : bool;
  user_color : Z;
  mach : machine hw F
}.
(** A command of commands.c reads the state of the shell; it changes the
    machine and, through [shell_set_color], the colour. *)
Context (builtin : list Z → list Z → shell → option (Z * machine hw F)) (run_raw : machine hw F → option (machine hw F)).
Definition set_mach (m : machine hw F) (s : shell) : shell :=
  Sh (command_buffer s) (command_index s) (history s) (history_count s) (history_index s) (browsing_history s) (user_color s) m.
Definition set_command (b : list Z) (i : Z) (s : shell) : shell :=
  Sh b i (history s) (history_count s) (history_index s) (browsing_history s) (user_color s) (mach s).
Definition set_history (h : list (list Z)) (n : Z) (s : shell) : shell :=
  Sh (command_buffer s) (command_index s) h n (history_index s) (browsing_history s) (user_color s) (mach s).
Definition set_browse (b : bool) (i : Z) (s : shell) : shell :=
  Sh (command_buffer s) (command_index s) (history s) (history_count s) i b (user_color s) (mach s).

Definition color (fg : Z) : Z := Terminal.vga_entry_color fg Terminal.VGA_COLOR_BLACK.
Definition LIGHT_GREEN : Z := color 10.
Definition LIGHT_CYAN : Z := color 11.
Definition LIGHT_RED : Z := color 12.
Definition LIGHT_GREY : Z := color Terminal.VGA_COLOR_LIGHT_GREY.
Definition on_term (g : Terminal.term → Terminal.term) (m : machine hw F) : machine hw F := set_terminal (g (terminal m)) m.
Definition write (str : list Z) : machine hw F → machine hw F := on_term (Terminal.terminal_write str).
Definition setcolor (c : Z) : machine hw F → machine hw F := on_term (Terminal.terminal_setcolor c).
Definition on_mach (g : machine hw F → machine hw F) (s : shell) : shell := set_mach (g (mach s)) s.

Definition shell_print_prompt (s : shell) : shell :=
  on_mach (λ m,
    let m := write t_prompt (setcolor LIGHT_GREEN m) in
    let m := write (fs_getcwd (files m)) (setcolor LIGHT_CYAN m) in
    setcolor (user_color s) (write t_gt (setcolor LIGHT_GREEN m))) s.

Definition shell_clear_command (s : shell) : shell :=
  set_command (replicate (Z.to_nat MAX_COMMAND_LENGTH) 0) 0 s.

Definition set_user_color (c : Z) (s : shell) : shell :=
  Sh (command_buffer s) (command_index s) (history s) (history_count s) (history_index s) (browsing_history s) c (mach s).
Definition shell_set_color (c : Z) (s : shell) : shell := on_mach (setcolor c) (set_user_color c s).

(** [for (i = n; i > 0; i--) strcpy(history[i], history[i - 1])] *)
Fixpoint shift_history (n : nat) (h : list (list Z)) : option (list (list Z)) :=
  match n with
  | O => Some h
  | S n' => r ← CString.strcpy h.[Z.of_nat n] h.[Z.of_nat n']; shift_history n' (h.[Z.of_nat n <- r])
  end.
Definition shell_add_to_history (cmd : list Z) (s : shell) : option shell :=
  n ← CString.strlen cmd;
  if n =? 0 then Some s else
  same ← (if 0 <? history_count s then c ← CString.strcmp (history s).[0] cmd; Some (c =? 0) else Some false);
  if (same : bool) then Some s else
  h ← shift_history (Z.to_nat (HISTORY_SIZE - 1)) (history s);
  r ← CString.strcpy h.[0] cmd;
  Some (set_history (h.[0 <- r]) (if history_count s <? HISTORY_SIZE then history_count s + 1 else history_count s) s).

Definition shell_clear_current_line (s : shell) : shell :=
  on_mach (on_term (λ t, for_each 0 (command_index s) (λ _ t, Terminal.terminal_backspace t) t)) s.

Definition shell_load_from_history (index : Z) (s : shell) : option shell :=
  if (index <? 0) || (history_count s <=? index) then Some s else
  let s := shell_clear_current_line s in
  b ← CString.strcpy (command_buffer s) (history s).[index];
  n ← CString.strlen b;
  Some (on_mach (write (take (Z.to_nat n) b)) (set_command b n s)).

(** The arguments of a raw binary, written at a fixed address of the kernel's
    memory: the number, sixteen pointers, the strings. *)
Record raw_args := RawArgs { ra_s : list Z; ra_mem : pmem; ra_pos : Z; ra_argc : Z }.
Definition raw_args_step (a : raw_args) : raw_args + raw_args :=
  if bool_decide (ra_s a = []) || negb (ra_argc a <? ARGV_MAX) then inr a else
  let p := skip_spaces (ra_s a) in
  if bool_decide (p = []) then inr a else
  let '(tok, rest) := take_token p in
  let strbuf := ARGV_BASE + 8 + ARGV_MAX * 8 in
  let m := wr64 (ra_mem a) (ARGV_BASE + 8 * (1 + ra_argc a)) (strbuf + ra_pos a) in
  let m := pmemcpy_from m (strbuf + ra_pos a) (tok ++ [0]) in
  inl (RawArgs rest m (ra_pos a + zlen tok + 1) (ra_argc a + 1)).
(** At most sixteen arguments, so seventeen rounds end the loop. *)
Definition shell_setup_args (full_cmd : list Z) (m : pmem) : option pmem :=
  match iterZ 17 raw_args_step (RawArgs full_cmd m 0 0) with
  | inr a => Some (wr64 (ra_mem a) ARGV_BASE (ra_argc a))
  | inl _ => None
  end.

Definition failed (msg filename : list Z) (m : machine hw F) : machine hw F :=
  setcolor LIGHT_GREY (write (msg ++ filename ++ [10]) (setcolor LIGHT_RED m)).
Definition started (pid : Z) (m : machine hw F) : machine hw F := write (t_started ++ digits_of 16 pid ++ [10]) m.

(** [ctx] and [pname] are uninitialised locals. *)
Definition run_aob (ctx : aob_context_t) (filename line : list Z) (bg : bool) (m : machine hw F) : option (machine hw F) :=
  '(x, ctx, k, f) ← aob_load aob_buffer filename ctx (kernel m) (files m);
  let m := set_files f (set_kernel k m) in
  if negb (x =? 0) then Some (failed t_load_failed filename m) else
  '(r, k) ← aob_spawn kernel_stacks hlt fuel api ctx (Some line) bg (kernel m);
  let m := set_kernel k m in
  Some (if bg && (0 <? r) then started r m else if negb (r =? 0) then failed t_exec_failed filename m else m).
Definition run_elf (pname filename line : list Z) (bg : bool) (m : machine hw F) : option (machine hw F) :=
  '(r, k, f) ← elf_spawn kernel_stacks elf_buffer hlt fuel pname filename (Some line) bg (kernel m) (files m);
  let m := set_files f (set_kernel k m) in
  Some (if bg && (0 <? r) then started r m else if negb (r =? 0) then failed t_load_failed filename m else m).
Definition run_bin (filename line : list Z) (m : machine hw F) : option (machine hw F) :=
  '(r, k, f) ← read_into bin_buffer 16384 filename (kernel m) (files m);
  let m := set_files f (set_kernel k m) in
  if negb (Fat.rr_rc r =? 0) then Some (failed t_bin_load filename m) else
  file_size ← Fat.rr_size r;
  if (0 <? file_size) && (file_size <=? 16384) then
    let mem0 := mem (vmm (kernel m)) in
    mem1 ← shell_setup_args line (pmemcpy mem0 0x00200000 bin_buffer file_size);
    run_raw (set_kernel (set_vmm (kernel m) (set_mem (vmm (kernel m)) mem1)) m)
  else Some (setcolor LIGHT_GREY (write t_bin_size (setcolor LIGHT_RED m))).

Definition run_ps (m : machine hw F) : option (machine hw F) :=
  text ← ps_text (processes (kernel m));
  Some (write text (setcolor LIGHT_GREY (write t_ps_head (setcolor LIGHT_CYAN m)))).
Definition run_reap (m : machine hw F) : machine hw F :=
  let '(n, k) := process_reap_terminated (kernel m) in
  write (t_reaped ++ digits_of 16 n ++ t_background) (set_kernel k m).
Definition run_kill (a : list Z) (m : machine hw F) : option (machine hw F) :=
  if bool_decide (a = []) then Some (write t_kill_usage m) else
  pid ← parse_pid a 0;
  if pid =? 0 then Some (write t_kill_kernel m)
  else Some (write t_killed (set_kernel (process_terminate pid (kernel m)) m)).

(** [cmd] is the array with the command line; [exec], [ctx] and [pname] are
    uninitialised locals. *)
Definition shell_execute_command (exec : list Z) (ctx : aob_context_t) (pname : list Z) (cmd : list Z) (s : shell) : option shell :=
  n ← CString.strlen cmd;
  if n =? 0 then Some s else
  let s := on_mach (λ m, set_kernel (process_reap_terminated (kernel m)).2 m) s in
  let on o := m ← o; Some (set_mach m s) in
  e ← CString.strncpy exec cmd 255;
  match action_of (take (Z.to_nat n) cmd) (parse_line (until_nul (e.[255 <- 0]))) with
  | Builtin name a =>
      if bool_decide (name = s_ps) then on (run_ps (mach s))
      else if bool_decide (name = s_reap) then Some (on_mach run_reap s)
      else if bool_decide (name = s_kill) then on (run_kill a (mach s))
      else '(c, m) ← builtin name a s; Some (set_user_color c (set_mach m s))
  | RunAob filename line bg => on (run_aob ctx filename line bg (mach s))
  | RunElf filename line bg => on (run_elf pname filename line bg (mach s))
  | RunBin filename line => on (run_bin filename line (mach s))
  | Unknown line => Some (on_mach (λ m, write t_hint (failed t_unknown line m)) s)
  end.

Definition shell_init (s : shell) : shell :=
  let s := on_mach (on_term Terminal.terminal_clear) s in
  let s := Sh (command_buffer s) (command_index s) (replicate (Z.to_nat HISTORY_SIZE) (replicate (Z.to_nat MAX_COMMAND_LENGTH) 0))
             0 0 false LIGHT_GREY (mach s) in
  let s := on_mach (λ m, write (t_rule ++ t_welcome ++ t_author ++ t_rule) (setcolor LIGHT_CYAN m)) s in
  let s := on_mach (λ m, write ([10] ++ t_hint ++ [10]) (setcolor LIGHT_GREY m)) s in
  shell_clear_command s.

(** One round of the loop of [shell_run] for a key other than 0. *)
Definition shell_key (exec : list Z) (ctx : aob_context_t) (pname : list Z) (c : Z) (s : shell) : option shell :=
  if c =? Keyboard.KEY_PAGEUP then Some (on_mach (on_term Terminal.terminal_scroll_up) s)
  else if c =? Keyboard.KEY_PAGEDOWN then Some (on_mach (on_term Terminal.terminal_scroll_down) s)
  else if c =? Keyboard.KEY_UP then
    if 0 <? history_count s then
      let s := if negb (browsing_history s) then set_browse true 0 s
               else if history_index s <? history_count s - 1 then set_browse true (history_index s + 1) s else s in
      shell_load_from_history (history_index s) s
    else Some s
  else if c =? Keyboard.KEY_DOWN then
    if browsing_history s then
      if 0 <? history_index s then
        let s := set_browse true (history_index s - 1) s in shell_load_from_history (history_index s) s
      else Some (shell_clear_command (shell_clear_current_line (set_browse false (history_index s) s)))
    else Some s
  else if c =? 10 then
    let s := on_mach (put_char 10) s in
    let s := set_command ((command_buffer s).[command_index s <- 0]) (command_index s) s in
    s ← shell_add_to_history (command_buffer s) s;
    s ← shell_execute_command exec ctx pname (command_buffer s) s;
    Some (shell_print_prompt (set_browse false 0 (shell_clear_command s)))
  else if c =? 8 then
    if 0 <? command_index s then
      let i := command_index s - 1 in
      Some (on_mach (on_term Terminal.terminal_backspace) (set_command ((command_buffer s).[i <- 0]) i s))
    else Some s
  else if (c <? 0x80) && (command_index s <? MAX_COMMAND_LENGTH - 1) then
    Some (on_mach (put_char c) (set_command ((command_buffer s).[command_index s <- c]) (command_index s + 1) s))
  else Some s.

(** The loop over the keys that the keyboard delivers, 0 for none. *)
Fixpoint shell_loop (exec : list Z) (ctx : aob_context_t) (pname : list Z) (keys : list Z) (s : shell) : option shell :=
  match keys with
  | [] => Some s
  | c :: keys =>
      if c =? 0 then shell_loop exec ctx pname keys s else
      s ← shell_key exec ctx pname c s; shell_loop exec ctx pname keys s
  end.
Definition shell_run (exec : list Z) (ctx : aob_context_t) (pname : list Z) (keys : list Z) (s : shell) : option shell :=
  shell_loop exec ctx pname keys (shell_print_prompt s).
End Shell.
Arguments shell : clear implicits.
End Shell.
