(* ===== verification/ShellProps.v ===== *)
(** * Properties of the shell

    The line editor refines a console: a line that the keys edit at its end, a
    list of at most ten past lines, and the position in it.  The command table
    is equivalent to a comparison of words. *)
From S2P Require Import Prelude.
From S2P Require Import CString.
From S2P Require Import Ata.
From S2P Require Import Process.
From S2P Require Import Keyboard.
From S2P Require Import Terminal.
From S2P Require Import Format.
From S2P Require Import Net.
From S2P Require Import NetProps.
From S2P Require Import Fs.
From S2P Require Import Syscall.
From S2P Require Import Handles.
From S2P Require Import Loader.
From S2P Require Import Shell.
Import CString Ata Process Format Syscall Loader Shell.
Import (hints) Keyboard Terminal Fs NetProps Handles.

Module ShellProps.

(** ** Strings in the shell's arrays *)
Lemma strcmp_zero s1 s2 :
  terminated s1 → terminated s2 → ∃ r, strcmp s1 s2 = Some r ∧ (r = 0 ↔ cstr s1 = cstr s2).
Proof.
  revert s2. induction s1 as [| c1 s1 IH]; intros [| c2 s2] H1 H2;
    try (by apply elem_of_nil in H1); try (by apply elem_of_nil in H2). cbn.
  destruct (Z.eqb_spec c1 0) as [-> | Hc1]; cbn.
  { exists (0 - c2). split; [done |]. destruct (Z.eqb_spec c2 0); split; (done || lia). }
  destruct (Z.eqb_spec c1 c2) as [<- | Hne].
  - destruct (Z.eqb_spec c1 0); [done |]. destruct (IH s2) as (r & -> & Heq); [by eapply terminated_cons.. |].
    exists r. split; [done |]. rewrite Heq. split; congruence.
  - exists (c1 - c2). split; [done |]. destruct (Z.eqb_spec c2 0); (split; [lia | congruence]).
Qed.
Definition row (r : list Z) : Prop := zlen r = MAX_COMMAND_LENGTH ∧ terminated r.
Lemma row_len r : row r → zlen (cstr r) < MAX_COMMAND_LENGTH.
Proof. intros [Hl Ht]. destruct (terminated_decomp r Ht) as [t E]. rewrite E, zlen_app, zlen_cons in Hl. pose proof (zlen_nonneg t). lia. Qed.
Lemma strcpy_row d s :
  zlen d = MAX_COMMAND_LENGTH → row s → ∃ d', strcpy d s = Some d' ∧ row d' ∧ cstr d' = cstr s.
Proof.
  intros Hd Hs. pose proof (row_len s Hs) as Hl. destruct Hs as [Hsl Hs]. destruct (terminated_decomp s Hs) as [t E].
  pose proof (cstr_no_nul s) as Hn. unfold zlen, MAX_COMMAND_LENGTH in *.
  exists (cstr s ++ 0 :: drop (S (length (cstr s))) d). split; [rewrite E at 1; apply strcpy_app; [done | lia] |].
  split; [| by apply cstr_app_nul].
  split; [| unfold terminated; set_solver]. unfold zlen. rewrite length_app. cbn. rewrite length_drop. unfold MAX_COMMAND_LENGTH. lia.
Qed.

(** ** The history as a list of lines *)
Definition past_push (line : list Z) (past : list (list Z)) : list (list Z) :=
  if bool_decide (line = []) || bool_decide (head past = Some line) then past
  else take (Z.to_nat HISTORY_SIZE) (line :: past).

Lemma shift_spec n h :
  (n < length h)%nat → Forall row h →
  ∃ h', shift_history n h = Some h' ∧ length h' = length h ∧ Forall row h' ∧
    (∀ j, (j ≤ n)%nat → (0 < j)%nat → cstr (h' !!! j) = cstr (h !!! pred j)) ∧
    (h' !!! 0%nat = h !!! 0%nat) ∧ (∀ j, (n < j)%nat → h' !!! j = h !!! j).
Proof.
  revert h. induction n as [| n IH]; intros h Hn Hr; cbn [shift_history].
  { exists h. repeat split; try done. lia. }
  assert (∀ i, (i < length h)%nat → row (h !!! i)) as Hrow.
  { intros i Hi. eapply Forall_lookup_1; [exact Hr |]. by apply list_lookup_lookup_total_lt. }
  rewrite !aget_nat. destruct (strcpy_row (h !!! S n) (h !!! n)) as (r & -> & Rr & Ec); [apply Hrow; lia | apply Hrow; lia |].
  cbn [mbind option_bind]. unfold aset. rewrite decide_True by lia. rewrite Nat2Z.id.
  destruct (IH (<[S n := r]> h)) as (h' & -> & Hl & Hr' & Hj & H0 & Hout); [rewrite length_insert; lia | by apply Forall_insert |].
  exists h'. rewrite length_insert in Hl. split; [done |]. split; [done |]. split; [done |].
  split; [| split].
  - intros j Hj1 Hj2. destruct (decide (j = S n)) as [-> |].
    + rewrite Hout by lia. rewrite list_lookup_total_insert_eq by lia. done.
    + rewrite Hj by lia. by rewrite list_lookup_total_insert_ne by lia.
  - rewrite H0. by rewrite list_lookup_total_insert_ne by lia.
  - intros j Hj1. rewrite Hout by lia. by rewrite list_lookup_total_insert_ne by lia.
Qed.

Section Console.
Context {hw : Type} `{PortIO hw} {F : Type} `{FileReader F}.
Context (kernel_stacks elf_buffer aob_buffer bin_buffer : Z) (api : list Z) (hlt : kern → kern) (fuel : Z).
Context (fs_getcwd : F → list Z).
Context (builtin : list Z → list Z → shell hw F → option (Z * machine hw F)) (run_raw : machine hw F → option (machine hw F)).
Implicit Types s : shell hw F.

Record history_ok s : Prop := HistoryOk {
  ho_rows : Forall row (history s);
  ho_len : zlen (history s) = HISTORY_SIZE;
  ho_count : 0 ≤ history_count s ≤ HISTORY_SIZE
}.
Definition past s : list (list Z) := cstr <$> take (Z.to_nat (history_count s)) (history s).

Lemma past_lookup s j : (j < Z.to_nat (history_count s))%nat → past s !! j = cstr <$> history s !! j.
Proof. intros Hj. unfold past. rewrite list_lookup_fmap. by rewrite lookup_take_lt by lia. Qed.
Lemma past_len s : history_ok s → length (past s) = Z.to_nat (history_count s).
Proof. intros [_ Hl Hc]. unfold past. rewrite length_fmap, length_take. unfold zlen in Hl. lia. Qed.

(** The comparison with the newest line. *)
Lemma same_spec cmd s :
  history_ok s → row cmd →
  (if 0 <? history_count s then c ← strcmp (history s).[0] cmd; Some (c =? 0) else Some false) =
  Some (bool_decide (head (past s) = Some (cstr cmd))).
Proof.
  intros Hok Hcmd. pose proof Hok as [Hr Hl Hc]. destruct (Z.ltb_spec 0 (history_count s)) as [Hp | Hp].
  - assert (history s !! 0%nat = Some (history s).[0]) as E0 by (apply (lookup_aget _ 0); lia).
    assert (row (history s).[0]) as R0 by (eapply Forall_lookup_1; [exact Hr | exact E0]).
    destruct (strcmp_zero (history s).[0] cmd) as (r & -> & Hz); [apply R0 | apply Hcmd |]. cbn [mbind option_bind]. f_equal.
    rewrite head_lookup, past_lookup by lia. rewrite E0. cbn [fmap option_fmap option_map].
    apply eq_true_iff_eq. rewrite Z.eqb_eq, bool_decide_eq_true. rewrite Hz. split; congruence.
  - rewrite bool_decide_false; [done |]. rewrite head_lookup, lookup_ge_None_2; [done |]. rewrite past_len by done. lia.
Qed.
(** Rows shifted by one, with a new first row. *)
Lemma past_shifted s h r w :
  history_ok s → length h = length (history s) → cstr r = w →
  (∀ j, (j ≤ 9)%nat → (0 < j)%nat → cstr (h !!! j) = cstr (history s !!! pred j)) →
  cstr <$> take (Z.to_nat (Z.min 10 (history_count s + 1))) (h.[0 <- r]) = take 10 (w :: past s).
Proof.
  intros Hok Hlh Er Hj. pose proof Hok as [Hr Hl Hc]. unfold HISTORY_SIZE in *. unfold zlen in Hl.
  apply list_eq. intros j. rewrite list_lookup_fmap. destruct (decide (j < Z.to_nat (Z.min 10 (history_count s + 1)))%nat) as [Hjn | Hjn].
  - rewrite !lookup_take_lt by lia. unfold aset. rewrite decide_True by lia. change (Z.to_nat 0) with 0%nat.
    destruct j as [| j]; [rewrite list_lookup_insert_eq by lia; cbn; congruence |].
    rewrite list_lookup_insert_ne by done. cbn [lookup list_lookup]. rewrite past_lookup by lia.
    rewrite (list_lookup_lookup_total_lt h) by lia. rewrite (list_lookup_lookup_total_lt (history s)) by lia.
    cbn [fmap option_fmap option_map]. by rewrite Hj by lia.
  - rewrite lookup_take_ge by lia. cbn [fmap option_fmap option_map]. symmetry. apply lookup_ge_None_2.
    rewrite length_take. cbn [length]. rewrite past_len by done. lia.
Qed.

Lemma add_history_spec cmd s :
  history_ok s → row cmd →
  ∃ s', shell_add_to_history cmd s = Some s' ∧ history_ok s' ∧ past s' = past_push (cstr cmd) (past s) ∧
    s' = set_history (history s') (history_count s') s.
Proof.
  intros Hok Hcmd. unfold shell_add_to_history. rewrite strlen_cstr by apply Hcmd. cbn [mbind option_bind].
  rewrite same_spec by done. cbn [mbind option_bind]. unfold past_push.
  replace (zlen (cstr cmd) =? 0) with (bool_decide (cstr cmd = [])).
  2: { destruct (cstr cmd) as [| c w]; [done |]. rewrite zlen_cons. pose proof (zlen_nonneg w). rewrite bool_decide_false by done. lia. }
  case_bool_decide as Hne; [exists s; by destruct s |]. cbn [orb].
  case_bool_decide as Hs; [exists s; by destruct s |].
  pose proof Hok as [Hr Hl Hc]. change (Z.to_nat (HISTORY_SIZE - 1)) with 9%nat. unfold HISTORY_SIZE, zlen in Hl, Hc.
  destruct (shift_spec 9 (history s)) as (h & -> & Hlh & Hrh & Hj & _); [lia | done |]. cbn [mbind option_bind].
  assert (row (h !!! 0%nat)) as R0 by (eapply Forall_lookup_1; [exact Hrh |]; apply list_lookup_lookup_total_lt; lia).
  change h.[0] with (h !!! 0%nat). destruct (strcpy_row (h !!! 0%nat) cmd) as (r & -> & Rr & Er); [apply R0 | done |].
  cbn [mbind option_bind]. replace (if history_count s <? HISTORY_SIZE then _ else _) with (Z.min 10 (history_count s + 1)) by (unfold HISTORY_SIZE; case_match; lia).
  eexists. split; [reflexivity |]. split; [constructor; cbn [history history_count set_history] | split; [| done]].
  - by apply Forall_aset.
  - rewrite zlen_aset. unfold zlen, HISTORY_SIZE. lia.
  - unfold HISTORY_SIZE. lia.
  - by apply past_shifted.
Qed.

(** ** The console *)
Record console := Cons { line : list Z; lines : list (list Z); browse : option nat }.
Definition console_key (c : Z) (k : console) : console :=
  if (c =? Keyboard.KEY_PAGEUP) || (c =? Keyboard.KEY_PAGEDOWN) then k
  else if c =? Keyboard.KEY_UP then
    match lines k with
    | [] => k
    | _ :: older =>
        let j := match browse k with None => 0%nat | Some i => Nat.min (S i) (length older) end in
        Cons (lines k !!! j) (lines k) (Some j)
    end
  else if c =? Keyboard.KEY_DOWN then
    match browse k with
    | None => k
    | Some O => Cons [] (lines k) None
    | Some (S j) => Cons (lines k !!! j) (lines k) (Some j)
    end
  else if c =? 10 then Cons [] (past_push (line k) (lines k)) None
  else if c =? 8 then Cons (take (length (line k) - 1) (line k)) (lines k) (browse k)
  else if (c <? 128) && (zlen (line k) <? MAX_COMMAND_LENGTH - 1) then Cons (line k ++ [c]) (lines k) (browse k)
  else k.

Definition typed s : list Z := take (Z.to_nat (command_index s)) (command_buffer s).
Record shell_ok s : Prop := ShellOk {
  so_history : history_ok s;
  so_buffer : zlen (command_buffer s) = MAX_COMMAND_LENGTH;
  so_index : 0 ≤ command_index s < MAX_COMMAND_LENGTH;
  so_text : 0 ∉ typed s;
  so_browse : browsing_history s = true → 0 ≤ history_index s < history_count s
}.
Definition view s : console :=
  Cons (typed s) (past s) (if browsing_history s then Some (Z.to_nat (history_index s)) else None).

Lemma typed_len s : shell_ok s → zlen (typed s) = command_index s.
Proof. intros [_ Hb Hi _ _]. unfold typed. rewrite zlen_take. lia. Qed.

(** Only the terminal of the machine changes. *)
Lemma on_mach_ok g s : shell_ok s → shell_ok (on_mach g s) ∧ view (on_mach g s) = view s.
Proof. intros [[] ? ? ? ?]. split; [constructor; [constructor |..]; done | done]. Qed.
Lemma clear_ok s :
  history_ok s → browsing_history s = false → shell_ok (shell_clear_command s) ∧ view (shell_clear_command s) = Cons [] (past s) None.
Proof.
  intros [? ? ?] Hb. split; [| unfold view; cbn; by rewrite Hb]. constructor; [by constructor | done | done | |].
  - change (0 ∉ @nil Z). apply not_elem_of_nil.
  - cbn. congruence.
Qed.
Lemma set_browse_ok b i s :
  shell_ok s → (b = true → 0 ≤ i < history_count s) →
  shell_ok (set_browse b i s) ∧ view (set_browse b i s) = Cons (typed s) (past s) (if b then Some (Z.to_nat i) else None).
Proof. intros [[] ? ? ? ?] Hb. split; [constructor; [constructor |..]; done | done]. Qed.
Lemma recall_ok s :
  shell_ok s → browsing_history s = true →
  ∃ s', shell_load_from_history (history_index s) s = Some s' ∧ shell_ok s' ∧
    view s' = Cons (past s !!! Z.to_nat (history_index s)) (past s) (Some (Z.to_nat (history_index s))).
Proof.
  intros Hok Hb. pose proof Hok as [[Hr Hl Hc] Hbuf Hi Hz Hx]. specialize (Hx Hb). unfold shell_load_from_history.
  replace (history_index s <? 0) with false by lia. replace (history_count s <=? history_index s) with false by lia. cbn [orb].
  set (s1 := shell_clear_current_line s). change (command_buffer s1) with (command_buffer s). change (history s1) with (history s).
  assert (history s !! Z.to_nat (history_index s) = Some (history s).[history_index s]) as E0 by (apply lookup_aget; lia).
  assert (row (history s).[history_index s]) as R0 by (eapply Forall_lookup_1; [exact Hr | exact E0]).
  destruct (strcpy_row (command_buffer s) _ Hbuf R0) as (b & -> & Rb & Eb). cbn [mbind option_bind].
  rewrite strlen_cstr by apply Rb. cbn [mbind option_bind]. eexists. split; [reflexivity |].
  assert (take (Z.to_nat (zlen (cstr b))) b = cstr b) as Et.
  { destruct (terminated_decomp b) as [t E]; [apply Rb |]. rewrite E at 2. unfold zlen. rewrite Nat2Z.id. apply take_app_length. }
  pose proof (row_len b Rb) as Hlb. pose proof (zlen_nonneg (cstr b)).
  split; [constructor; [by constructor | apply Rb | cbn; lia | unfold typed; cbn; rewrite Et; apply cstr_no_nul | done] |].
  unfold view, typed. cbn. rewrite Hb, Et, Eb. f_equal. symmetry. apply list_lookup_total_correct.
  rewrite past_lookup by lia. by rewrite E0.
Qed.

(** The line as the array that [Enter] leaves. *)
Lemma enter_row s :
  shell_ok s → row (command_buffer s).[command_index s <- 0] ∧ cstr (command_buffer s).[command_index s <- 0] = typed s.
Proof.
  intros [_ Hb Hidx Hz _]. assert ((command_buffer s).[command_index s <- 0] =
    typed s ++ 0 :: drop (S (Z.to_nat (command_index s))) (command_buffer s)) as E.
  { unfold aset, typed. rewrite decide_True by lia. apply insert_take_drop. rewrite <- (Nat2Z.id (length _)). change (Z.of_nat (length (command_buffer s))) with (zlen (command_buffer s)). lia. }
  split; [| by rewrite E, cstr_app_nul]. split; [by rewrite zlen_aset |]. rewrite E.
  apply elem_of_app. right. apply list_elem_of_here.
Qed.

(** A command sees its line as a string: what the array holds after the NUL
    does not matter. *)
Lemma strncpy_string d cmd :
  zlen d = MAX_COMMAND_LENGTH → row cmd → strncpy d cmd 255 = strncpy d (cstr cmd ++ [0]) 255.
Proof.
  intros Hd Hr. pose proof (row_len cmd Hr) as Hl. destruct Hr as [_ Ht]. unfold MAX_COMMAND_LENGTH, zlen in *.
  destruct (terminated_decomp cmd Ht) as [t E]. pose proof (cstr_no_nul cmd) as Hn.
  destruct (decide (length (cstr cmd) < 255)%nat).
  - rewrite E at 1. rewrite !strncpy_short by (done || lia). done.
  - assert (take 255 cmd = cstr cmd) as E1 by (rewrite E at 1; apply take_app_length'; lia).
    assert (take 255 (cstr cmd ++ [0]) = cstr cmd) as E2 by (apply take_app_length'; lia).
    rewrite !strncpy_long; rewrite ?E1, ?E2; try done; try lia.
    + rewrite length_app. lia.
    + rewrite E, length_app. lia.
Qed.
Let run := shell_execute_command kernel_stacks elf_buffer aob_buffer bin_buffer api hlt fuel builtin run_raw.
Let key := shell_key kernel_stacks elf_buffer aob_buffer bin_buffer api hlt fuel fs_getcwd builtin run_raw.
Lemma execute_string exec ctx pname cmd s :
  zlen exec = MAX_COMMAND_LENGTH → row cmd → run exec ctx pname cmd s = run exec ctx pname (cstr cmd ++ [0]) s.
Proof.
  intros He Hr. unfold run, shell_execute_command. rewrite (strncpy_string exec cmd) by done.
  pose proof Hr as [_ Ht]. pose proof (cstr_no_nul cmd) as Hn.
  assert (cstr (cstr cmd ++ [0]) = cstr cmd) as Ec by (by apply cstr_app_nul).
  assert (terminated (cstr cmd ++ [0])) as Ht' by (apply elem_of_app; right; apply list_elem_of_here).
  rewrite (strlen_cstr cmd Ht), (strlen_cstr _ Ht'), Ec. cbn [mbind option_bind].
  unfold zlen. rewrite Nat2Z.id. rewrite take_app_length. destruct (terminated_decomp cmd Ht) as [t E].
  assert (take (length (cstr cmd)) cmd = cstr cmd) as -> by (rewrite E at 2; apply take_app_length). reflexivity.
Qed.

(** A command changes the machine and the colour of the shell only. *)
Lemma execute_frame exec ctx pname cmd s s' :
  run exec ctx pname cmd s = Some s' → ∃ c m, s' = set_user_color c (set_mach m s).
Proof.
  assert (∀ m, ∃ c m', set_mach m s = set_user_color c (set_mach m' s)) as Hset by (intros m; exists (user_color s), m; by destruct s).
  unfold run, shell_execute_command. destruct (strlen cmd) as [n |]; [| discriminate]. cbn [mbind option_bind].
  destruct (n =? 0). { intros [= <-]. exists (user_color s), (mach s). by destruct s. }
  destruct (strncpy exec cmd 255) as [e |]; [| discriminate]. cbn [mbind option_bind]. unfold on_mach. cbn [mach set_mach].
  assert (∀ o : option (machine hw F), (m ← o; Some (set_mach m s)) = Some s' → ∃ c m, s' = set_user_color c (set_mach m s)) as Hon.
  { intros [m |] E; [| discriminate]. cbn in E. injection E as <-. apply Hset. }
  destruct (action_of _ _) as [name a | f l bg | f l bg | f l | l]; [| apply Hon .. | intros E; injection E as <-; apply Hset].
  destruct (bool_decide _); [apply Hon |]. destruct (bool_decide _); [intros E; injection E as <-; apply Hset |].
  destruct (bool_decide _); [apply Hon |].
  destruct (builtin _ _ _) as [[c m] |]; [| discriminate]. cbn. intros [= <-]. by exists c, m.
Qed.

(** The state in which a command runs: the line is echoed, ended and recorded. *)
Definition submitted s : option (shell hw F) :=
  let b := (command_buffer s).[command_index s <- 0] in
  shell_add_to_history b (set_command b (command_index s) (on_mach (put_char 10) s)).
Lemma enter_spec exec ctx pname s :
  shell_ok s → zlen exec = MAX_COMMAND_LENGTH → ∃ s1, submitted s = Some s1 ∧
  match run exec ctx pname (typed s ++ [0]) s1 with
  | None => key exec ctx pname 10 s = None
  | Some _ => ∃ s', key exec ctx pname 10 s = Some s' ∧ shell_ok s' ∧ view s' = console_key 10 (view s)
  end.
Proof.
  intros Hok He. destruct (enter_row s Hok) as [Hr Ec]. unfold key, shell_key. cbn [Z.eqb Keyboard.KEY_PAGEUP Keyboard.KEY_PAGEDOWN Keyboard.KEY_UP Keyboard.KEY_DOWN Pos.eqb].
  unfold submitted. cbv zeta.
  set (s1 := set_command _ _ (on_mach (put_char 10) s)). change (command_buffer s1) with ((command_buffer s).[command_index s <- 0]).
  destruct (add_history_spec (command_buffer s).[command_index s <- 0] s1) as (s2 & E1 & Hh & Hp & E2).
  { destruct Hok as [[] _ _ _ _]. by constructor. } { done. }
  exists s2. split; [exact E1 |]. change (command_buffer (on_mach (put_char 10) s)) with (command_buffer s).
  change (command_index (on_mach (put_char 10) s)) with (command_index s). fold s1. change (command_buffer s1) with ((command_buffer s).[command_index s <- 0]).
  rewrite E1. cbn [mbind option_bind]. assert (command_buffer s2 = (command_buffer s).[command_index s <- 0]) as -> by (by rewrite E2).
  fold (run exec ctx pname (command_buffer s).[command_index s <- 0] s2).
  rewrite (execute_string _ _ _ _ _ He Hr), Ec. destruct (run _ _ _ _ _) as [s3 |] eqn:E3; [| done]. cbn [mbind option_bind].
  destruct (execute_frame _ _ _ _ _ _ E3) as (col & m & ->).
  eexists. split; [reflexivity |]. unfold shell_print_prompt. set (s3 := set_user_color col (set_mach m s2)).
  assert (history_ok (set_browse false 0 s3)) as Hh' by (destruct Hh; by constructor).
  change (set_browse false 0 (shell_clear_command s3)) with (shell_clear_command (set_browse false 0 s3)).
  destruct (clear_ok _ Hh' eq_refl) as [Hok' Hv]. match goal with |- shell_ok (on_mach ?g ?x) ∧ _ => destruct (on_mach_ok g x Hok') as [Hok2 Hv2] end.
  split; [done |]. rewrite Hv2, Hv. change (console_key 10 (view s)) with (Cons [] (past_push (typed s) (past s)) None).
  f_equal. change (past s2 = past_push (typed s) (past s)). rewrite Hp, Ec. done.
Qed.

Lemma up_spec s :
  shell_ok s → ∃ s', (if 0 <? history_count s then
      let s := if negb (browsing_history s) then set_browse true 0 s
               else if history_index s <? history_count s - 1 then set_browse true (history_index s + 1) s else s in
      shell_load_from_history (history_index s) s else Some s) = Some s' ∧ shell_ok s' ∧ view s' = console_key Keyboard.KEY_UP (view s).
Proof.
  intros Hok. pose proof Hok as [Hh _ _ _ Hx]. pose proof (past_len s Hh) as Hlen. pose proof Hh as [_ _ Hc].
  change (console_key Keyboard.KEY_UP (view s)) with (match past s with [] => view s | _ :: older =>
    let j := match browse (view s) with None => 0%nat | Some i => Nat.min (S i) (length older) end in
    Cons (past s !!! j) (past s) (Some j) end).
  destruct (past s) as [| l0 older] eqn:Ep; cbn [length] in Hlen.
  { replace (0 <? history_count s) with false by lia. by exists s. }
  replace (0 <? history_count s) with true by lia. cbv zeta. set (s1 := if negb _ then _ else _).
  assert (shell_ok s1 ∧ browsing_history s1 = true ∧ past s1 = past s ∧ Z.to_nat (history_index s1) =
    match browse (view s) with None => 0%nat | Some i => Nat.min (S i) (length older) end) as (Hok1 & Hb1 & Hp1 & Hj).
  { subst s1. unfold view. destruct (browsing_history s) eqn:Hb; cbn [negb browse].
    - specialize (Hx eq_refl). case_match; [| split_and!; [done | done | done | lia]].
      split; [apply set_browse_ok; [done | intros _; lia] |]. repeat split. cbn [history_index set_browse]. lia.
    - split; [apply set_browse_ok; [done | intros _; lia] |]. repeat split. }
  destruct (recall_ok s1 Hok1 Hb1) as (s' & E & Hok' & Hv). exists s'. split; [exact E |]. split; [done |].
  rewrite Hv, Hp1, Ep, Hj. done.
Qed.
Lemma down_spec s :
  shell_ok s → ∃ s', (if browsing_history s then
      if 0 <? history_index s then
        let s := set_browse true (history_index s - 1) s in shell_load_from_history (history_index s) s
      else Some (shell_clear_command (shell_clear_current_line (set_browse false (history_index s) s)))
    else Some s) = Some s' ∧ shell_ok s' ∧ view s' = console_key Keyboard.KEY_DOWN (view s).
Proof.
  intros Hok. pose proof Hok as [Hh _ _ _ Hx].
  change (console_key Keyboard.KEY_DOWN (view s)) with (match browse (view s) with None => view s
    | Some O => Cons [] (past s) None | Some (S j) => Cons (past s !!! j) (past s) (Some j) end).
  unfold view at 2. cbn [browse]. destruct (browsing_history s) eqn:Hb; [| by exists s]. specialize (Hx eq_refl).
  destruct (Z.ltb_spec 0 (history_index s)) as [Hp | Hp].
  - destruct (set_browse_ok true (history_index s - 1) s Hok ltac:(intros _; lia)) as [Hok1 _].
    destruct (recall_ok _ Hok1 eq_refl) as (s' & E & Hok' & Hv). exists s'. split; [exact E |]. split; [done |].
    rewrite Hv. cbn [history_index set_browse]. change (past (set_browse true (history_index s - 1) s)) with (past s).
    replace (Z.to_nat (history_index s)) with (S (Z.to_nat (history_index s - 1))) by lia. done.
  - replace (Z.to_nat (history_index s)) with 0%nat by lia. eexists. split; [reflexivity |].
    apply (clear_ok (shell_clear_current_line (set_browse false (history_index s) s))); [destruct Hh; by constructor | done].
Qed.
Lemma erase_ok s :
  shell_ok s → let i := command_index s - 1 in let s1 := set_command ((command_buffer s).[i <- 0]) i s in
  0 ≤ i → shell_ok s1 ∧ view s1 = Cons (take (length (typed s) - 1) (typed s)) (past s) (browse (view s)).
Proof.
  intros Hok i s1 Hi. pose proof (typed_len s Hok) as Hl. destruct Hok as [[] Hb Hidx Hz Hx].
  assert (typed s1 = take (length (typed s) - 1) (typed s)) as E.
  { unfold typed at 1. cbn. rewrite take_aset_out by done. unfold typed at 2. rewrite take_take. f_equal. unfold zlen in Hl. lia. }
  split; [| unfold view; by rewrite E]. constructor; [by constructor | cbn; by rewrite zlen_aset | cbn; lia | | done].
  rewrite E. intros Hin. apply Hz. by apply subseteq_take in Hin.
Qed.
Lemma append_ok c s :
  shell_ok s → c ≠ 0 → command_index s < MAX_COMMAND_LENGTH - 1 →
  let s1 := set_command ((command_buffer s).[command_index s <- c]) (command_index s + 1) s in
  shell_ok s1 ∧ view s1 = Cons (typed s ++ [c]) (past s) (browse (view s)).
Proof.
  intros Hok Hc Hlt s1. destruct Hok as [[] Hb Hidx Hz Hx].
  assert (typed s1 = typed s ++ [c]) as E by (apply take_aset; lia).
  split; [| unfold view; by rewrite E]. constructor; [by constructor | cbn; by rewrite zlen_aset | cbn; lia | | done].
  rewrite E. intros [Hin | Hin]%elem_of_app; [done |]. apply list_elem_of_singleton in Hin. congruence.
Qed.

(** The console that [shell_init] leaves is empty. *)
Lemma init_ok s : shell_ok (shell_init s) ∧ view (shell_init s) = Cons [] [] None.
Proof.
  unfold shell_init. cbv zeta. match goal with |- shell_ok (shell_clear_command ?x) ∧ _ => destruct (clear_ok x) as [Hok Hv] end; [| done |].
  - constructor; cbn [history history_count on_mach set_mach].
    + apply Forall_replicate. split; [by vm_compute |]. apply (bool_decide_unpack _). vm_compute. exact I.
    + by vm_compute.
    + by vm_compute.
  - split; [done |]. rewrite Hv. done.
Qed.

Lemma key_total exec ctx pname c s :
  shell_ok s → zlen exec = MAX_COMMAND_LENGTH → 0 < c < 256 → ∃ s1, submitted s = Some s1 ∧
  match (if c =? 10 then run exec ctx pname (typed s ++ [0]) s1 else Some s) with
  | None => key exec ctx pname c s = None
  | Some _ => ∃ s', key exec ctx pname c s = Some s' ∧ shell_ok s' ∧ view s' = console_key c (view s)
  end.
Proof.
  intros Hok He Hc. destruct (enter_spec exec ctx pname s Hok He) as (s1 & E1 & K). exists s1. split; [exact E1 |].
  destruct (Z.eqb_spec c 10) as [-> | Hn10]; [exact K |]. clear K E1.
  unfold key, shell_key. pose proof (typed_len s Hok) as Hl.
  destruct (Z.eqb_spec c Keyboard.KEY_PAGEUP) as [-> | Hpu].
  { eexists. split; [reflexivity |]. apply (on_mach_ok _ s Hok). }
  destruct (Z.eqb_spec c Keyboard.KEY_PAGEDOWN) as [-> | Hpd].
  { eexists. split; [reflexivity |]. apply (on_mach_ok _ s Hok). }
  destruct (Z.eqb_spec c Keyboard.KEY_UP) as [-> | Hu]; [exact (up_spec s Hok) |].
  destruct (Z.eqb_spec c Keyboard.KEY_DOWN) as [-> | Hd]; [exact (down_spec s Hok) |].
  replace (c =? 10) with false by lia. unfold console_key.
  replace (c =? Keyboard.KEY_PAGEUP) with false by lia. replace (c =? Keyboard.KEY_PAGEDOWN) with false by lia.
  replace (c =? Keyboard.KEY_UP) with false by lia. replace (c =? Keyboard.KEY_DOWN) with false by lia.
  replace (c =? 10) with false by lia. cbn [orb line lines view]. rewrite Hl.
  destruct (Z.eqb_spec c 8) as [-> | Hn8].
  - destruct (Z.ltb_spec 0 (command_index s)) as [Hp | Hp].
    + destruct (erase_ok s Hok ltac:(lia)) as [Hok1 Hv1]. destruct (on_mach_ok (on_term Terminal.terminal_backspace) _ Hok1) as [Hok2 Hv2].
      eexists. split; [reflexivity |]. split; [exact Hok2 |]. rewrite Hv2. exact Hv1.
    + exists s. split; [done |]. split; [done |]. assert (typed s = []) as E; [| unfold view; by rewrite E].
      apply nil_length_inv. unfold zlen in Hl. pose proof (so_index s Hok). lia.
  - destruct ((c <? 128) && (command_index s <? MAX_COMMAND_LENGTH - 1)) eqn:Ec; [| by exists s].
    apply andb_true_iff in Ec as [_ Hlt]. destruct (append_ok c s Hok ltac:(lia) ltac:(lia)) as [Hok1 Hv1].
    destruct (on_mach_ok (put_char c) _ Hok1) as [Hok2 Hv2].
    eexists. split; [reflexivity |]. split; [exact Hok2 |]. rewrite Hv2. exact Hv1.
Qed.
Lemma key_spec exec ctx pname c s s' :
  shell_ok s → zlen exec = MAX_COMMAND_LENGTH → 0 < c < 256 → key exec ctx pname c s = Some s' →
  shell_ok s' ∧ view s' = console_key c (view s).
Proof.
  intros Hok He Hc E. destruct (key_total exec ctx pname c s Hok He Hc) as (s0 & _ & K). destruct (if c =? 10 then _ else _) as [s2 |].
  - destruct K as (s1 & E1 & K). rewrite E in E1. injection E1 as <-. exact K.
  - rewrite E in K. discriminate.
Qed.

(** C36: the line editor of the shell refines the console: every key does to
    the line, the past lines and the position among them what [console_key]
    says, inside the arrays of shell.c, and [Enter] runs exactly the line that
    the keys have built, as a string.  The only way not to return is a
    command that does not. *)
Theorem shell_refines_console exec ctx pname c s :
  shell_ok s → zlen exec = MAX_COMMAND_LENGTH → 0 < c < 256 → ∃ s1, submitted s = Some s1 ∧
  match (if c =? 10
         then shell_execute_command kernel_stacks elf_buffer aob_buffer bin_buffer api hlt fuel builtin run_raw
                exec ctx pname (line (view s) ++ [0]) s1
         else Some s) with
  | None => shell_key kernel_stacks elf_buffer aob_buffer bin_buffer api hlt fuel fs_getcwd builtin run_raw exec ctx pname c s = None
  | Some _ => ∃ s',
      shell_key kernel_stacks elf_buffer aob_buffer bin_buffer api hlt fuel fs_getcwd builtin run_raw exec ctx pname c s = Some s' ∧
      shell_ok s' ∧ view s' = console_key c (view s)
  end.
Proof. exact (key_total exec ctx pname c s). Qed.

Lemma loop_spec exec ctx pname keys s s' :
  shell_ok s → zlen exec = MAX_COMMAND_LENGTH → Forall (λ c, 0 ≤ c < 256) keys →
  shell_loop kernel_stacks elf_buffer aob_buffer bin_buffer api hlt fuel fs_getcwd builtin run_raw exec ctx pname keys s = Some s' →
  shell_ok s' ∧ view s' = foldl (λ k c, if c =? 0 then k else console_key c k) (view s) keys.
Proof.
  intros Hok He Hk. revert s Hok. induction keys as [| c keys IH]; intros s Hok; cbn [shell_loop foldl]; [by intros [= <-] |].
  apply Forall_cons in Hk as [Hc Hk]. destruct (Z.eqb_spec c 0) as [-> | Hc0]; [by apply IH |].
  intros Hrun. destruct (shell_key _ _ _ _ _ _ _ _ _ _ _ _ _ c s) as [s1 |] eqn:E1; [| discriminate]. cbn [mbind option_bind] in Hrun.
  destruct (key_spec exec ctx pname c s s1) as [Hok1 Hv1]; [done | done | lia | exact E1 |]. rewrite <- Hv1. by apply IH.
Qed.
(** The whole loop: after any keys the console is what the keys make of it. *)
Theorem shell_session_refines exec ctx pname keys s s' :
  shell_ok s → zlen exec = MAX_COMMAND_LENGTH → Forall (λ c, 0 ≤ c < 256) keys →
  shell_run kernel_stacks elf_buffer aob_buffer bin_buffer api hlt fuel fs_getcwd builtin run_raw exec ctx pname keys s = Some s' →
  shell_ok s' ∧ view s' = foldl (λ k c, if c =? 0 then k else console_key c k) (view s) keys.
Proof.
  intros Hok He Hk. unfold shell_run. set (s1 := shell_print_prompt fs_getcwd s). intros Hrun.
  assert (shell_ok s1 ∧ view s1 = view s) as [Hok1 Hv] by (exact (on_mach_ok _ s Hok)).
  rewrite <- Hv. exact (loop_spec exec ctx pname keys s1 s' Hok1 He Hk Hrun).
Qed.
End Console.

(** ** The command table *)
Lemma take_token_spec s w r :
  take_token s = (w, r) → s = w ++ r ∧ (SPACE ∉ w) ∧ (r = [] ∨ (∃ a, r = SPACE :: a)).
Proof.
  revert w r. induction s as [| c s IH]; intros w r E; cbn [take_token] in E.
  - injection E as <- <-. split; [done |]. split; [apply not_elem_of_nil | by left].
  - destruct (Z.eqb_spec c SPACE) as [-> | Hc].
    + injection E as <- <-. split; [done |]. split; [apply not_elem_of_nil | right; by eexists].
    + destruct (take_token s) as [w' r'] eqn:Et. injection E as <- <-. destruct (IH _ _ eq_refl) as (-> & Hw & Hr).
      split; [done |]. split; [lmem | done].
Qed.
Lemma skip_spaces_spec s : ∃ n, s = replicate n SPACE ++ skip_spaces s ∧ head (skip_spaces s) ≠ Some SPACE.
Proof.
  induction s as [| c s [n [IH Hh]]]; [by exists 0%nat |]. cbn [skip_spaces].
  destruct (Z.eqb_spec c SPACE) as [-> | Hc]; [exists (S n); cbn; split; [by rewrite <- IH | done] | exists 0%nat; split; [done | cbn; congruence]].
Qed.
Lemma rev_replicate n (x : Z) : rev (replicate n x) = replicate n x.
Proof.
  induction n as [| n IH]; [done |]. cbn [replicate rev]. rewrite IH. change [x] with (replicate 1 x).
  rewrite <- replicate_add, Nat.add_comm. done.
Qed.
Lemma strip_spaces_spec s : ∃ n, s = strip_spaces s ++ replicate n SPACE ∧ last (strip_spaces s) ≠ Some SPACE.
Proof.
  unfold strip_spaces. destruct (skip_spaces_spec (rev s)) as (n & E & Hh). exists n. split.
  - rewrite <- (rev_involutive s) at 1. rewrite E at 1. by rewrite rev_app_distr, rev_replicate.
  - destruct (skip_spaces (rev s)) as [| c r]; [done |]. cbn [rev]. by rewrite last_snoc.
Qed.
Lemma split_background_spec line bg e :
  split_background line = (bg, e) →
  last e ≠ Some SPACE ∧ ∃ n m, line = e ++ replicate n SPACE ++ (if bg then 38 :: replicate m SPACE else []).
Proof.
  unfold split_background. destruct (strip_spaces_spec line) as (n & E & Hl). set (e0 := strip_spaces line) in *. clearbody e0.
  destruct (rev e0) as [| c r] eqn:Er.
  - intros [= <- <-]. split; [done |]. exists n, 0%nat. by rewrite app_nil_r.
  - assert (e0 = rev r ++ [c]) as E0 by (rewrite <- (rev_involutive e0), Er; done).
    destruct (decide (c = 38)) as [-> | Hc].
    + intros [= <- <-]. destruct (strip_spaces_spec (rev r)) as (n' & E' & Hl'). split; [done |]. exists n', n.
      rewrite E, E0, E' at 1. by rewrite <- !app_assoc.
    + intros Es. assert ((false, e0) = (bg, e)) as [= <- <-] by (rewrite <- Es; repeat case_match; congruence).
      split; [done |]. exists n, 0%nat. by rewrite app_nil_r.
Qed.

Lemma strncmp_prefix a b x y :
  0 ∉ a → 0 ∉ b → length a = length b → strncmp_eq (a ++ x) (b ++ y) (zlen a) = bool_decide (a = b).
Proof.
  unfold strncmp_eq, zlen. rewrite Nat2Z.id. revert b. induction a as [| c a IH]; intros [| d b] Ha Hb Hl; cbn in Hl; try lia; [done |].
  lmem. cbn [app length strncmp]. destruct (Z.eqb_spec c 0); [congruence |]. cbn [negb andb].
  destruct (Z.eqb_spec c d) as [<- | Hne].
  - rewrite IH by (done || lia). apply bool_decide_ext. split; congruence.
  - rewrite bool_decide_false by congruence. lia.
Qed.
Lemma strcmp_whole a b : 0 ∉ a → 0 ∉ b → strcmp_eq a b = bool_decide (a = b).
Proof.
  intros Ha Hb. unfold strcmp_eq. destruct (strcmp_zero (a ++ [0]) (b ++ [0])) as (r & -> & Hr).
  1, 2: apply elem_of_app; right; apply list_elem_of_here.
  rewrite !cstr_app_nul in Hr by done. apply eq_true_iff_eq. by rewrite Z.eqb_eq, bool_decide_eq_true.
Qed.

(** What the chain of comparisons means: the first word of the line, without
    a final ampersand, against the names; three names only as a whole line. *)
Definition is_whole (h : how) : bool := match h with Whole => true | _ => false end.
Definition command_words : list (list Z) := snd <$> List.filter (λ x, negb (is_whole x.1)) table.
Definition whole_words : list (list Z) := snd <$> List.filter (λ x, is_whole x.1) table.
Definition ends_with (suffix w : list Z) : bool :=
  (zlen suffix <? zlen w) && bool_decide (drop (length w - length suffix) w = suffix).
Definition dispatch (line : list Z) : action :=
  let '(bg, e) := split_background line in
  let '(w, rest) := take_token e in
  if bool_decide (w ∈ command_words) || bool_decide (e ∈ whole_words) then Builtin w (tail rest)
  else if ends_with s_aob w then RunAob w e bg
  else if ends_with s_elf w then RunElf w e bg
  else if ends_with s_bin w then RunBin w e
  else Unknown e.

Lemma table_names : Forall (λ x, (0 ∉ x.2) ∧ (SPACE ∉ x.2)) table.
Proof. apply (bool_decide_unpack _). vm_compute. exact I. Qed.
Lemma table_words h name : (h, name) ∈ table → name ∈ (if is_whole h then whole_words else command_words).
Proof.
  intros Hin. unfold whole_words, command_words. destruct (is_whole h) eqn:E; apply list_elem_of_fmap; exists (h, name);
    (split; [done |]); apply list_elem_of_In, filter_In; (split; [by apply list_elem_of_In | cbn [fst]; by rewrite E]).
Qed.
Lemma words_table name b :
  name ∈ (if b : bool then whole_words else command_words) → ∃ h, is_whole h = b ∧ (h, name) ∈ table.
Proof.
  unfold whole_words, command_words. destruct b; intros ([h n] & -> & Hin)%list_elem_of_fmap; exists h;
    apply list_elem_of_In, filter_In in Hin as [Hin Hb]; (split; [| by apply list_elem_of_In]); cbn [fst] in Hb; by destruct (is_whole h).
Qed.

Section Dispatch.
Context (line e w rest : list Z) (bg : bool).
Hypothesis (no_nul : 0 ∉ line) (split : split_background line = (bg, e)) (token : take_token e = (w, rest)).
Let p := Parsed e (zlen w) (tail rest) bg.

Lemma line_word : (0 ∉ w) ∧ (0 ∉ e) ∧ e = w ++ rest ∧ (∃ t, line = w ++ t).
Proof using All.
  destruct (split_background_spec _ _ _ split) as (_ & n & m & E). destruct (take_token_spec _ _ _ token) as (E' & _ & _).
  rewrite E' in E. rewrite <- app_assoc in E.
  assert (0 ∉ e) as He by (intros Hin; apply no_nul; rewrite E, app_assoc, <- E'; apply elem_of_app; by left).
  split; [intros Hin; apply He; rewrite E'; apply elem_of_app; by left |]. split; [done |]. split; [done |]. eexists. exact E.
Qed.
Lemma matches_spec h name :
  (h, name) ∈ table → matches line p (h, name) = bool_decide ((if is_whole h then e else w) = name).
Proof using All.
  intros Hin. destruct line_word as (Hw & He & E & t & El). pose proof table_names as T. rewrite Forall_forall in T.
  destruct (T _ Hin) as [Hn _]. cbn [snd] in Hn.
  assert (∀ l u, l = w ++ u → strncmp_eq l name (zlen w) && (zlen w =? zlen name) = bool_decide (w = name)) as L.
  { intros l u ->. destruct (Z.eqb_spec (zlen w) (zlen name)) as [Hz | Hz].
    - rewrite andb_true_r. pose proof (strncmp_prefix w name u []) as S. rewrite app_nil_r in S. apply S; [done | done |].
      unfold zlen in Hz. lia.
    - rewrite andb_false_r, bool_decide_false by congruence. done. }
  destruct h; cbn [matches cmd_len exec_cmd p is_whole]; [by apply (L _ t) | by apply (L _ rest) | by apply strcmp_whole].
Qed.
Lemma suffix_spec suffix : zlen suffix = 4 → 0 ∉ suffix → suffix_is p suffix = ends_with suffix w.
Proof using All.
  intros Hs Hn. destruct line_word as (Hw & He & E & _). unfold suffix_is, ends_with. cbn [cmd_len exec_cmd p]. rewrite Hs.
  destruct (Z.ltb_spec 4 (zlen w)) as [Hl | Hl]; [| done]. cbn [andb]. unfold zlen in *.
  replace (Z.to_nat (Z.of_nat (length w) - 4)) with (length w - length suffix)%nat by lia.
  rewrite E, drop_app_le by lia. set (v := drop _ w). assert (length v = 4%nat) as Hv by (unfold v; rewrite length_drop; lia).
  replace 4 with (zlen v) by (unfold zlen; lia). pose proof (strncmp_prefix v suffix rest []) as S. rewrite app_nil_r in S. apply S; [| done | lia].
  intros Hin. apply Hw. by apply subseteq_drop in Hin.
Qed.
Lemma find_hit : bool_decide (w ∈ command_words) || bool_decide (e ∈ whole_words) = true →
  ∃ h, List.find (matches line p) table = Some (h, w).
Proof using All.
  intros Hb. destruct (List.find (matches line p) table) as [[h name] |] eqn:Ef.
  - apply find_some in Ef as [Hin Hm]. apply list_elem_of_In in Hin. rewrite matches_spec in Hm by done.
    apply bool_decide_eq_true in Hm. exists h. do 2 f_equal. destruct (is_whole h) eqn:Eh; [| done].
    pose proof table_names as T. rewrite Forall_forall in T. destruct (T _ Hin) as [_ Hs]. cbn [snd] in Hs.
    destruct (take_token_spec _ _ _ token) as (E & _ & [-> | [a ->]]); [by rewrite <- Hm, E, app_nil_r |].
    exfalso. apply Hs. rewrite <- Hm, E. apply elem_of_app. right. apply list_elem_of_here.
  - exfalso. assert (∃ b, (if b : bool then e else w) ∈ (if b then whole_words else command_words)) as [b Hin].
    { apply orb_true_iff in Hb as [Hb | Hb]; apply bool_decide_eq_true in Hb; [by exists false | by exists true]. }
    apply words_table in Hin as (h & Hh & Hin). pose proof (find_none _ _ Ef _ (proj1 (list_elem_of_In _ _) Hin)) as Hm.
    rewrite matches_spec, Hh, bool_decide_true in Hm by done. done.
Qed.
Lemma find_miss : bool_decide (w ∈ command_words) || bool_decide (e ∈ whole_words) = false → List.find (matches line p) table = None.
Proof using All.
  intros Hb. apply orb_false_iff in Hb as [Hb1 Hb2]. apply bool_decide_eq_false in Hb1, Hb2.
  destruct (List.find (matches line p) table) as [[h name] |] eqn:Ef; [| done]. exfalso.
  apply find_some in Ef as [Hin Hm]. apply list_elem_of_In in Hin. rewrite matches_spec in Hm by done. apply bool_decide_eq_true in Hm.
  apply table_words in Hin. destruct (is_whole h); by subst name.
Qed.
End Dispatch.

Lemma dispatch_spec line : 0 ∉ line → action_of line (parse_line line) = dispatch line.
Proof.
  intros Hn. unfold parse_line, dispatch. destruct (split_background line) as [bg e] eqn:Es. destruct (take_token e) as [w rest] eqn:Et.
  destruct (line_word line e w rest bg Hn Es Et) as (_ & _ & E & _).
  replace (match rest with [] => [] | _ :: r => r end) with (tail rest) by done. unfold action_of.
  destruct (_ || _) eqn:Eb.
  - destruct (find_hit line e w rest bg Hn Es Et Eb) as [h ->]. done.
  - rewrite (find_miss line e w rest bg Hn Es Et Eb). rewrite !(suffix_spec line e w rest bg Hn Es Et) by (done || (apply (bool_decide_unpack _); vm_compute; exact I)).
    cbn [cmd_len exec_cmd background]. unfold zlen at 1 2 3. rewrite Nat2Z.id. by rewrite E, take_app_length, <- E.
Qed.

(** the chain of string comparisons that [shell_execute_command] goes
    through is equivalent to a comparison of words: the first word of the line
    (spaces at the end and a final ampersand removed) selects the command,
    three commands only when they are the whole line, and otherwise the suffix
    of that word decides how the file is run, in the background exactly when
    the ampersand was there. *)
Theorem shell_dispatch_correct line : 0 ∉ line → action_of line (parse_line line) = dispatch line.
Proof. exact (dispatch_spec line). Qed.

(** A command line with an argument that does not end in a space or an
    ampersand. *)
Definition plain_args (a : list Z) : Prop := (0 ∉ a) ∧ ∃ b c, a = b ++ [c] ∧ c ≠ SPACE ∧ c ≠ 38.
Lemma dispatch_plain name a : name ∈ command_words → plain_args a → dispatch (name ++ SPACE :: a) = Builtin name a.
Proof.
  intros Hn (Ha & b & c & -> & Hc & Hc'). assert (SPACE ∉ name) as Hs.
  { pose proof table_names as T. rewrite Forall_forall in T. destruct (words_table name false Hn) as (h & _ & Hin). apply (T _ Hin). }
  assert (split_background (name ++ SPACE :: b ++ [c]) = (false, name ++ SPACE :: b ++ [c])) as Es.
  { unfold split_background, strip_spaces. rewrite app_comm_cons, app_assoc, rev_app_distr. cbn [rev app skip_spaces].
    replace (c =? SPACE) with false by lia. cbn [rev app]. rewrite rev_involutive. rewrite rev_app_distr. cbn [rev app].
    destruct c as [| q | q]; try done. do 6 (destruct q as [q | q |]; try done). }
  unfold dispatch. rewrite Es. assert (take_token (name ++ SPACE :: b ++ [c]) = (name, SPACE :: b ++ [c])) as ->.
  { clear -Hs. induction name as [| x name IH]; [done |]. apply not_elem_of_cons in Hs as [Hx Hs]. cbn [app take_token].
    replace (x =? SPACE) with false by lia. by rewrite IH. }
  by rewrite bool_decide_eq_true_2.
Qed.
Lemma until_nul_app l t : 0 ∉ l → until_nul (l ++ 0 :: t) = l.
Proof.
  induction l as [| c l IH]; intros Hl; [done |]. apply not_elem_of_cons in Hl as [Hc Hl]. cbn [app until_nul].
  replace (c =? 0) with false by lia. by rewrite IH.
Qed.

(** Such a line runs its command, after the reaping of terminated processes. *)
Section Run.
Context {hw : Type} `{PortIO hw} {F : Type} `{FileReader F}.
Context (kernel_stacks elf_buffer aob_buffer bin_buffer : Z) (api : list Z) (hlt : kern → kern) (fuel : Z).
Context (builtin : list Z → list Z → shell hw F → option (Z * machine hw F)) (run_raw : machine hw F → option (machine hw F)).
Definition reaped (s : shell hw F) : shell hw F := on_mach (λ m, set_kernel (process_reap_terminated (kernel m)).2 m) s.
Lemma execute_builtin exec ctx pname name a s :
  zlen exec = MAX_COMMAND_LENGTH → name ∈ command_words → (name ∉ [s_ps; s_reap; s_kill]) → plain_args a → zlen name + zlen a < 254 →
  shell_execute_command kernel_stacks elf_buffer aob_buffer bin_buffer api hlt fuel builtin run_raw exec ctx pname
    ((name ++ SPACE :: a) ++ [0]) s =
  '(c, m) ← builtin name a (reaped s); Some (set_user_color c (set_mach m (reaped s))).
Proof.
  intros He Hn Hsp Ha Hlen. set (l := name ++ SPACE :: a).
  assert (0 ∉ l) as Hl.
  { pose proof table_names as T. rewrite Forall_forall in T. destruct (words_table name false Hn) as (h & _ & Hin).
    unfold l. intros [Hi | Hi]%elem_of_app; [by apply (proj1 (T _ Hin)) |]. apply elem_of_cons in Hi as [Hi | Hi]; [done | by apply (proj1 Ha)]. }
  assert (zlen l = zlen name + zlen a + 1) as Hzl by (unfold l; rewrite zlen_app, zlen_cons; lia).
  assert (length l < 255)%nat as Hll by (unfold zlen in *; lia).
  unfold shell_execute_command. rewrite strlen_cstr by (apply elem_of_app; right; apply list_elem_of_here).
  rewrite cstr_app_nul by done. cbn [mbind option_bind]. fold (zlen l).
  replace (zlen l =? 0) with false by (pose proof (zlen_nonneg name); pose proof (zlen_nonneg a); lia).
  rewrite strncpy_short by (done || (unfold MAX_COMMAND_LENGTH, zlen in *; lia)). cbn [mbind option_bind].
  assert (until_nul (aset (l ++ replicate (S (255 - length l)) 0 ++ drop 256 exec) 255 0) = l) as ->.
  { unfold aset. rewrite decide_True by lia. rewrite insert_app_r_alt by lia. cbn [replicate app].
    destruct (Z.to_nat 255 - length l)%nat eqn:E; [lia |]. cbn [insert list_insert]. by apply until_nul_app. }
  unfold zlen at 1. rewrite Nat2Z.id, take_app_length, dispatch_spec by done. unfold l. rewrite dispatch_plain by done.
  rewrite !bool_decide_eq_false_2 by (intros ->; apply Hsp; lmem). reflexivity.
Qed.
End Run.

(** ** ps *)
(** READY, RUNNING, BLOCKED and SLEEPING processes are listed as RUNNING,
    BLOCKED, SLEEPING and TERMINATED, since the array of names has no entry
    for LOADING; for a terminated process the array is read past its end, so
    that [ps] has no defined result as long as one is in the table. *)
Theorem ps_names_shifted :
  ps_state_name PROC_READY = ps_states !! 2%nat ∧ ps_states !! 2%nat = Some [82; 85; 78; 78; 73; 78; 71] ∧
  ps_state_name PROC_RUNNING = Some [66; 76; 79; 67; 75; 69; 68] ∧
  ps_state_name PROC_BLOCKED = Some [83; 76; 69; 69; 80; 73; 78; 71] ∧
  ps_state_name PROC_SLEEPING = Some [84; 69; 82; 77; 73; 78; 65; 84; 69; 68] ∧
  ∀ l p, p ∈ l → state p = PROC_TERMINATED → ps_text l = None.
Proof.
  split_and!; [done.. |]. intros l p Hin Hp. induction l as [| q l IH]; [by apply elem_of_nil in Hin |]. cbn [ps_text].
  apply elem_of_cons in Hin as [<- | Hin].
  - unfold ps_line. rewrite Hp. destruct (ps_number _); done.
  - rewrite IH by done. by destruct (ps_line q).
Qed.

(** ** Witnesses *)
#[local] Instance no_port : PortIO unit := {|
  inb := λ _ d, (0, d); inw := λ _ d, (0, d); outb := λ _ _ d, d; outw := λ _ _ d, d |}.
Definition demo_shell : shell unit (Fs.fs_state unit NetProps.ne2000) :=
  shell_init (Sh (replicate 256 0) 0 [] 0 0 false 7 Handles.demo_machine).
Definition demo_ctx : aob_context_t := AobContext 0 0 0 (replicate 32 0).
Lemma shell_refines_console_witness :
  ∃ s', shell_key 0 0 0 0 [] (λ k, k) 10 (λ _, [47]) (λ _ _ s, Some (7, mach s)) (λ m, Some m) (replicate 256 0) demo_ctx (replicate 32 0) 104
          demo_shell = Some s' ∧ view s' = Cons [104] [] None.
Proof.
  destruct (init_ok (Sh (replicate 256 0) 0 [] 0 0 false 7 Handles.demo_machine)) as [Hok Hv]. fold demo_shell in Hok, Hv.
  pose proof (shell_refines_console 0 0 0 0 [] (λ k, k) 10 (λ _, [47]) (λ _ _ s, Some (7, mach s)) (λ m, Some m) (replicate 256 0) demo_ctx
    (replicate 32 0) 104 demo_shell Hok ltac:(vm_compute; reflexivity) ltac:(lia)) as (_ & _ & s' & E & _ & V).
  exists s'. split; [exact E |]. rewrite V, Hv. vm_compute. reflexivity.
Defined.
(** Enter on "ls", then the line comes back with the up key. *)
Lemma demo_session : ∃ s',
  shell_run 0 0 0 0 [] (λ k, k) 10 (λ _, [47]) (λ _ _ s, Some (7, mach s)) (λ m, Some m) (replicate 256 0) demo_ctx (replicate 32 0)
    [108; 115; 10; 0; 128] demo_shell = Some s'.
Proof.
  destruct (shell_run _ _ _ _ _ _ _ _ _ _ _ _ _ _ _) as [s' |] eqn:E; [by exists s' |]. exfalso.
  apply (f_equal (λ o, match o with Some _ => true | None => false end)) in E. lazy in E. discriminate.
Qed.
Lemma shell_session_refines_witness : ∃ s' : shell unit (Fs.fs_state unit NetProps.ne2000),
  view s' = Cons [108; 115] [[108; 115]] (Some 0%nat).
Proof.
  destruct (init_ok (Sh (replicate 256 0) 0 [] 0 0 false 7 Handles.demo_machine)) as [Hok Hv]. fold demo_shell in Hok, Hv.
  destruct demo_session as [s' E]. exists s'.
  assert (zlen (replicate 256 0) = MAX_COMMAND_LENGTH) as Hx by (vm_compute; reflexivity).
  assert (Forall (λ c, 0 ≤ c < 256) [108; 115; 10; 0; 128]) as Hk by (fall; lia).
  destruct (shell_session_refines _ _ _ _ _ _ _ _ _ _ _ _ _ _ _ _ Hok Hx Hk E) as [_ V].
  rewrite V, Hv. vm_compute. reflexivity.
Defined.
(** "a.elf b &" *)
Lemma shell_dispatch_correct_witness :
  action_of [97; 46; 101; 108; 102; 32; 98; 32; 38] (parse_line [97; 46; 101; 108; 102; 32; 98; 32; 38]) =
  RunElf [97; 46; 101; 108; 102] [97; 46; 101; 108; 102; 32; 98] true.
Proof.
  rewrite (shell_dispatch_correct [97; 46; 101; 108; 102; 32; 98; 32; 38]); [vm_compute; reflexivity |].
  apply (bool_decide_unpack _). vm_compute. exact I.
Defined.
End ShellProps.
