(* ===== verification/Cpu.v ===== *)
(** * CPU detection (kernel/cpu.c)

    [cpuid] is the instruction: the registers EAX, EBX, ECX and EDX for a
    leaf.  [vendor] and [brand] are arrays of 13 and 49 characters.  The log
    message is left out. *)
From S2P Require Import Prelude.
From S2P Require Import Pmm.
From S2P Require Import CString.
Import Pmm.

Module Cpu.
Definition CPU_FEAT_FPU : Z := 2 ^ 0.
Definition CPU_FEAT_APIC : Z := 2 ^ 9.
Definition CPU_FEAT_SSE : Z := 2 ^ 25.
Definition CPU_FEAT_SSE2 : Z := 2 ^ 26.
Definition CPU_FEAT_SSE3 : Z := 2 ^ 0.
Definition CPU_FEAT_SSE41 : Z := 2 ^ 19.
Definition CPU_FEAT_SSE42 : Z := 2 ^ 20.
Definition CPU_FEAT_AVX : Z := 2 ^ 28.
Definition CPU_EXT_NX : Z := 2 ^ 20.

Record cpu_info_t := CpuInfo {
  vendor : list Z;
  brand : list Z;
  family : Z;
  model : Z;
  stepping : Z;
  features_edx : Z;
  features_ecx : Z;
  ext_features : Z;
  max_leaf : Z;
  max_ext_leaf : Z
}.

Record regs := Regs { eax : Z; ebx : Z; ecx : Z; edx : Z }.
(** Four bytes of a register stored at the index [i] of a character array. *)
Definition put_reg (i v : Z) (a : list Z) : list Z := ablit a i (le_bytes 4 v).

Section Detect.
Context (cpuid : Z → regs).

(** Family, model and stepping of leaf 1. *)
Definition signature (v : Z) : Z * Z * Z :=
  let fam := Z.land (Z.shiftr v 8) 0xF in
  let mdl := Z.land (Z.shiftr v 4) 0xF in
  let mdl := if (fam =? 6) || (fam =? 15) then Z.lor mdl (Z.shiftl (Z.land (Z.shiftr v 16) 0xF) 4) else mdl in
  (if fam =? 15 then fam + Z.land (Z.shiftr v 20) 0xFF else fam, mdl, Z.land v 0xF).
Definition put_regs (i : Z) (r : regs) (a : list Z) : list Z :=
  put_reg (i + 12) (edx r) (put_reg (i + 8) (ecx r) (put_reg (i + 4) (ebx r) (put_reg i (eax r) a))).

Definition cpu_detect : cpu_info_t :=
  let r0 := cpuid 0 in
  let max_leaf := eax r0 in
  let vendor := (put_reg 8 (ecx r0) (put_reg 4 (edx r0) (put_reg 0 (ebx r0) (replicate 13 0)))).[12 <- 0] in
  let r1 := if 1 <=? max_leaf then cpuid 1 else Regs 0 0 0 0 in
  let '(family, model, stepping) := if 1 <=? max_leaf then signature (eax r1) else (0, 0, 0) in
  let max_ext := eax (cpuid 0x80000000) in
  let ext := if 0x80000001 <=? max_ext then edx (cpuid 0x80000001) else 0 in
  let brand :=
    if 0x80000004 <=? max_ext then
      (put_regs 32 (cpuid 0x80000004) (put_regs 16 (cpuid 0x80000003) (put_regs 0 (cpuid 0x80000002) (replicate 49 0)))).[48 <- 0]
    else (for_each 0 12 (λ i b, b.[i <- vendor.[i]]) (replicate 49 0)).[12 <- 0] in
  CpuInfo vendor brand family model stepping (edx r1) (ecx r1) ext max_leaf max_ext.
Definition cpu_get_vendor (c : cpu_info_t) (buf : list Z) : list Z := for_each 0 13 (λ i b, b.[i <- (vendor c).[i]]) buf.
Definition cpu_detect_memory (st : pmm_state) : Z := u32 (pmm_get_total_memory st / 1024).

(** ** The strings *)
Lemma zlen_put_reg i v a : zlen (put_reg i v a) = zlen a.
Proof. apply zlen_ablit. Qed.
Lemma zlen_put_regs i r a : zlen (put_regs i r a) = zlen a.
Proof. unfold put_regs. by rewrite !zlen_put_reg. Qed.
Lemma zlen_copy (src a : list Z) n : zlen (for_each 0 n (λ i b, b.[i <- src.[i]]) a) = zlen a.
Proof.
  apply (for_each_inv (λ _ b, zlen b = zlen a)); [done |]. intros i b _ Hb. by rewrite zlen_aset.
Qed.
Lemma nul_terminated (a : list Z) n : 0 ≤ n < zlen a → CString.terminated (a.[n <- 0]).
Proof.
  intros Hn. apply list_elem_of_lookup. exists (Z.to_nat n). rewrite lookup_aget by (by rewrite zlen_aset). by rewrite aget_aset_eq.
Qed.

(** Whatever the processor answers, the two names are strings inside their
    arrays, so that printing them ends there. *)
Theorem cpu_names_terminated :
  zlen (vendor cpu_detect) = 13 ∧ CString.terminated (vendor cpu_detect) ∧
  zlen (brand cpu_detect) = 49 ∧ CString.terminated (brand cpu_detect).
Proof.
  unfold cpu_detect. destruct (if 1 <=? _ then signature _ else _) as [[fam mdl] st]. cbn [vendor brand]. split_and!.
  - by rewrite zlen_aset, !zlen_put_reg.
  - apply nul_terminated. by rewrite !zlen_put_reg.
  - case_match; rewrite zlen_aset, ?zlen_put_regs, ?zlen_copy; done.
  - case_match; apply nul_terminated; rewrite ?zlen_put_regs, ?zlen_copy; done.
Qed.
End Detect.

(** ** A processor *)
(** "AuthenticAMD", family 0x17, without the leaves of the brand. *)
Definition demo_cpuid (leaf : Z) : regs :=
  if leaf =? 0 then Regs 1 0x68747541 0x444D4163 0x69746E65
  else if leaf =? 1 then Regs 0x00870F10 0 0x7ED8320B 0x178BFBFF
  else if leaf =? 0x80000000 then Regs 0x80000001 0 0 0
  else if leaf =? 0x80000001 then Regs 0 0 0 0x2FD3FBFF else Regs 0 0 0 0.
Definition amd : list Z := [65; 117; 116; 104; 101; 110; 116; 105; 99; 65; 77; 68].
Example demo_detected :
  let c := cpu_detect demo_cpuid in
  vendor c = amd ++ [0] ∧ CString.cstr (brand c) = amd ∧ family c = 0x17 ∧ model c = 0x71 ∧ stepping c = 0 ∧
  Z.testbit (ext_features c) 20 = true.
Proof. by vm_compute. Qed.
End Cpu.
