(* ===== verification/Installer.v ===== *)
(** * The installer (kernel/installer/installer.c)

    The disk is reached through the sector interface of BlockDev.v, here
    provided by the ATA driver itself, which also reports the number of
    sectors ([SizedDisk]).  A step returns one of the codes of installer.h.
    The static variables are the fields of [installer]. *)
From S2P Require Import Prelude.
From S2P Require Import Text.
From S2P Require Import Ata.
From S2P Require Import BlockDev.
From S2P Require Import Keyboard.
From S2P Require Import Terminal.
Import Ata.
Import (hints) Keyboard Terminal.

Module Installer.
Definition INSTALLER_OK : Z := 0.
Definition INSTALLER_NO_DISK : Z := -1.
Definition INSTALLER_WRITE_ERROR : Z := -2.
Definition INSTALLER_READ_ERROR : Z := -3.
Definition INSTALLER_UNSUPPORTED : Z := -4.
Inductive installer_fs_t := INSTALLER_FS_FAT12 | INSTALLER_FS_FAT16 | INSTALLER_FS_FAT32.
#[export] Instance installer_fs_eq_dec : EqDecision installer_fs_t.
Proof. solve_decision. Defined.
Definition BOOT_RESERVED_SECTORS : Z := 512.

(** [ata_get_sector_count] *)
Class SizedDisk (B : Type) := { disk_sectors : B → Z }.

Definition put16 (p v : Z) (s : list Z) : list Z := ablit s p (le_bytes 2 v).
Definition put32 (p v : Z) (s : list Z) : list Z := ablit s p (le_bytes 4 v).
(** [memcpy(&s[p], text, n)] *)
Definition put (p : Z) (text s : list Z) : list Z := ablit s p text.

(** A choice by the type of file system. *)
Definition by_fs {A} (fs : installer_fs_t) (a12 a16 a32 : A) : A :=
  match fs with INSTALLER_FS_FAT12 => a12 | INSTALLER_FS_FAT16 => a16 | INSTALLER_FS_FAT32 => a32 end.
Definition is32 (fs : installer_fs_t) : bool := by_fs fs false false true.

(** ** The layout *)
Record layout := Layout {
  volume_sectors : Z;
  reserved_sectors : Z;
  fat_sectors : Z;
  root_sectors : Z;
  first_data_sector : Z;
  root_cluster : Z;
  sectors_per_cluster : Z;
  root_entries : Z
}.
Definition fat_bytes_for (fs : installer_fs_t) (clusters : Z) : Z :=
  by_fs fs (((clusters +32 2) *32 3 +32 1) / 2) ((clusters +32 2) *32 2) ((clusters +32 2) *32 4).

(** One round of the loop over [fat_sectors]: [inr (_, true)] is the early
    return, [inr (_, false)] the [break]. *)
Definition layout_step (fs : installer_fs_t) (volume reserved root spc : Z) (fat : Z) : Z + Z * bool :=
  if volume <=? (reserved +32 root) +32 (2 *32 fat) then inr (fat, true) else
  let data := ((volume -32 reserved) -32 root) -32 (2 *32 fat) in
  let clusters := data / spc in
  let next := (fat_bytes_for fs clusters +32 511) / 512 in
  if next =? fat then inr (fat, false) else inl next.

(** The result and the static variables; those that are not assigned keep
    their value. *)
Definition calculate_layout (fs : installer_fs_t) (sectors : Z) (old : layout) : Z * layout :=
  let volume := sectors in
  let reserved := BOOT_RESERVED_SECTORS in
  let entries := by_fs fs 224 512 0 in
  let root := (entries * 32 + 511) / 512 in
  let spc := by_fs fs 32 2 1 in
  let vars fat first cluster := Layout volume reserved fat root first cluster spc entries in
  if volume <=? (reserved +32 root) +32 100 then (INSTALLER_UNSUPPORTED, vars (fat_sectors old) (first_data_sector old) (root_cluster old)) else
  match match iterZ 16 (layout_step fs volume reserved root spc) 1 with inl fat => (fat, false) | inr r => r end with
  | (fat, true) => (INSTALLER_UNSUPPORTED, vars fat (first_data_sector old) (root_cluster old))
  | (fat, false) =>
      let first := (reserved +32 (2 *32 fat)) +32 root in
      if volume <=? first then (INSTALLER_UNSUPPORTED, vars fat first (root_cluster old)) else
      let clusters := (volume -32 first) / spc in
      if by_fs fs (4085 <=? clusters) ((clusters <? 4085) || (65525 <=? clusters)) (clusters <? 65525)
      then (INSTALLER_UNSUPPORTED, vars fat first (root_cluster old))
      else (INSTALLER_OK, vars fat first (by_fs fs 0 0 2))
  end.

(** ** Sectors *)
Definition bpb_fields (fs : installer_fs_t) (L : layout) (s : list Z) : list Z :=
  let s := put 0 [0xEB; 0x58; 0x90] s in
  let s := put 3 (txt "AOOS2.0 ") s in
  let s := (put16 11 512 s).[13 <- sectors_per_cluster L] in
  let s := (put16 14 (reserved_sectors L) s).[16 <- 2] in
  let s := put16 17 (root_entries L) s in
  let s := put16 19 (if volume_sectors L <? 65536 then volume_sectors L else 0) s in
  let s := s.[21 <- 0xF8] in
  let s := put16 22 (if is32 fs then 0 else fat_sectors L) s in
  let s := put32 28 0 (put16 26 255 (put16 24 63 s)) in
  put32 32 (if 65536 <=? volume_sectors L then volume_sectors L else 0) s.
Definition ebpb_fields (fs : installer_fs_t) (L : layout) (s : list Z) : list Z :=
  if is32 fs then
    let s := put16 42 0 (put16 40 0 (put32 36 (fat_sectors L) s)) in
    let s := put16 50 257 (put16 48 256 (put32 44 (root_cluster L) s)) in
    let s := (put 52 (replicate 12 0) s).[64 <- 0x80].[66 <- 0x29] in
    put 82 (txt "FAT32   ") (put 71 (txt "AO OS      ") (put32 67 0xA0200032 s))
  else
    let s := s.[36 <- 0x80].[38 <- 0x29] in
    let s := put32 39 (by_fs fs 0xA0200012 0xA0200016 0) s in
    put 54 (by_fs fs (txt "FAT12   ") (txt "FAT16   ") []) (put 43 (txt "AO OS      ") s).
Definition boot_sector (fs : installer_fs_t) (L : layout) (s : list Z) : list Z :=
  (ebpb_fields fs L (bpb_fields fs L s)).[510 <- 0x55].[511 <- 0xAA].
Definition zero_sector : list Z := replicate 512 0.
Definition fsinfo_sector : list Z :=
  put32 508 0xAA550000 (put32 492 0xFFFFFFFF (put32 488 0xFFFFFFFF (put32 484 0x61417272 (put32 0 0x41615252 zero_sector)))).

(** The result and the sector; an entry that is not inside it gives -1. *)
Definition set_fat_entry_in_sector (fs : installer_fs_t) (cluster value : Z) (sec : list Z) : Z * list Z :=
  let offset := by_fs fs (cluster +32 (cluster / 2)) (cluster *32 2) (cluster *32 4) in
  if (512 <=? offset) || (by_fs fs true false false && (offset =? 511)) then (-1, sec) else
  (0, match fs with
      | INSTALLER_FS_FAT12 =>
          let old := Z.lor sec.[offset] (u16 (Z.shiftl sec.[offset + 1] 8)) in
          let old := if Z.land cluster 1 =? 0 then Z.lor (Z.land old 0xF000) (Z.land value 0xFFF)
                     else Z.lor (Z.land old 0x000F) (u32 (Z.shiftl value 4)) in
          put16 offset old sec
      | INSTALLER_FS_FAT16 => put16 offset value sec
      | INSTALLER_FS_FAT32 => put32 offset value sec
      end).
Definition first_fat_sector (fs : installer_fs_t) : list Z :=
  by_fs fs (put 0 [0xF8; 0xFF; 0xFF] zero_sector)
    (put16 2 0xFFFF (put16 0 0xFFF8 zero_sector))
    (put32 8 0x0FFFFFFF (put32 4 0xFFFFFFFF (put32 0 0x0FFFFFF8 zero_sector))).

(** The entry at offset [p] of a directory sector. *)
Definition make_entry (fs : installer_fs_t) (base ext : list Z) (cluster size p : Z) (s : list Z) : list Z :=
  let s := put p (replicate 11 32) (put p (replicate 32 0) s) in
  let s := (put (p + 8) ext (put p base s)).[p + 11 <- 0x20] in
  let s := put16 (p + 26) cluster s in
  let s := if is32 fs then put16 (p + 20) (Z.shiftr cluster 16) s else s in
  put32 (p + 28) size s.
Definition make_volume_entry (s : list Z) : list Z := (put 0 (txt "AO OS      ") (put 0 (replicate 32 0) s)).[11 <- 0x08].
Definition welcome : list Z :=
  txt "Welcome to AO OS!" ++ [13; 10; 13; 10] ++ txt "The disk is formatted and ready." ++ [13; 10] ++
  txt "Try: ls, cat README.TXT, edit test.txt" ++ [13; 10].
Definition readme : list Z :=
  txt "AO OS persistent storage" ++ [13; 10] ++ txt "Supported formats: FAT12, FAT16 and FAT32." ++ [13; 10].

(** ** The steps *)
Section Steps.
Context {B : Type} `{BlockDev B} `{SizedDisk B} {hw : Type} `{PortIO hw}.

Record installer := Inst {
  sector_buffer : list Z;
  selected_fs : installer_fs_t;
  vars : layout;
  disk : B;
  term : Terminal.term (hw := hw);
  keyboard : Keyboard.kb_state (hw := hw)
}.
Definition im (A : Type) : Type := installer → A * installer.
#[export] Instance im_ret : MRet im := λ A a s, (a, s).
#[export] Instance im_bind : MBind im := λ A A' k c s, let '(a, s) := c s in k a s.
(** Go on after INSTALLER_OK, otherwise return the code. *)
Definition check (c : im Z) (k : im Z) : im Z := r ← c; if negb (r =? INSTALLER_OK) then mret r else k.
Definition get {A} (f : installer → A) : im A := λ s, (f s, s).
Definition set_buffer (b : list Z) : im unit := λ s, (tt, Inst b (selected_fs s) (vars s) (disk s) (term s) (keyboard s)).
Definition set_fs (fs : installer_fs_t) : im unit := λ s, (tt, Inst (sector_buffer s) fs (vars s) (disk s) (term s) (keyboard s)).
Definition set_vars (L : layout) : im unit := λ s, (tt, Inst (sector_buffer s) (selected_fs s) L (disk s) (term s) (keyboard s)).
Definition say (text : list Z) : im unit := λ s,
  (tt, Inst (sector_buffer s) (selected_fs s) (vars s) (disk s) (Terminal.terminal_write text (term s)) (keyboard s)).
Definition ata_select_drive (n : Z) : im unit := λ s,
  (tt, Inst (sector_buffer s) (selected_fs s) (vars s) (bd_select n (disk s)) (term s) (keyboard s)).
(** The sector and the result of the driver as a truth value. *)
Definition ata_read (lba : Z) : im bool := λ s,
  let '(r, d) := bd_read lba (disk s) in
  (bool_decide (r ≠ None), Inst (default (sector_buffer s) r) (selected_fs s) (vars s) d (term s) (keyboard s)).
Definition ata_write (lba : Z) (data : list Z) : im bool := λ s,
  let '(rc, d) := bd_write lba data (disk s) in
  (rc =? 0, Inst (sector_buffer s) (selected_fs s) (vars s) d (term s) (keyboard s)).
Definition must (c : im bool) (code : Z) : im Z := ok ← c; mret (if (ok : bool) then INSTALLER_OK else code).
Definition read_buffer (lba : Z) : im Z := must (ata_read lba) INSTALLER_READ_ERROR.
Definition write_buffer (lba : Z) : im Z := must (b ← get sector_buffer; ata_write lba b) INSTALLER_WRITE_ERROR.
(** [for (i = 0; i < n; i++) body], left with the first code that is not OK. *)
Definition each (n : Z) (body : Z → im Z) : im Z := λ s,
  match for_range 0 n (λ i s, let '(r, s) := body i s in if negb (r =? INSTALLER_OK) then inr (r, s) else inl s) s with
  | inl s => (INSTALLER_OK, s)
  | inr x => x
  end.

Definition write_zero (lba : Z) : im Z := _ ← set_buffer zero_sector; write_buffer lba.

Definition installer_detect_disk : im Z :=
  _ ← ata_select_drive 0;
  _ ← say (line "Detecting primary ATA disk...");
  d ← get disk;
  if (bd_available d =? 0) || (disk_sectors d =? 0) then
    _ ← say (line "ERROR: No usable ATA disk detected"); mret INSTALLER_NO_DISK
  else _ ← say (line "Disk found (LBA28)"); mret INSTALLER_OK.

Definition installer_prepare_disk : im Z :=
  _ ← ata_select_drive 0; _ ← say (line "Preserving AO boot area... OK"); mret INSTALLER_OK.

(** A failed read of the copies is reported as a write error. *)
Definition write_boot_sector (fs : installer_fs_t) : im Z :=
  check (read_buffer 0) (
  L ← get vars; b ← get sector_buffer;
  _ ← set_buffer (boot_sector fs L b);
  check (write_buffer 0) (
  if is32 fs then
    _ ← set_buffer fsinfo_sector;
    check (write_buffer 256) (
    check (must (ata_read 0) INSTALLER_WRITE_ERROR) (
    check (write_buffer 257) (
    check (must (ata_read 256) INSTALLER_WRITE_ERROR) (
    write_buffer 258))))
  else mret INSTALLER_OK)).

Definition initialize_fats (fs : installer_fs_t) : im Z :=
  L ← get vars;
  each 2 (λ copy,
    let base := reserved_sectors L +32 (copy *32 fat_sectors L) in
    each (fat_sectors L) (λ s,
      b ← get sector_buffer;
      check (must (ata_write (base +32 s) (if s =? 0 then first_fat_sector fs else b)) INSTALLER_WRITE_ERROR) (
      _ ← (if s =? 0 then set_buffer zero_sector else mret tt); mret INSTALLER_OK))).

(** [installer_format_filesystem_as] once the layout is known. *)
Definition write_filesystem (fs : installer_fs_t) (L : layout) : im Z :=
  _ ← say (txt "Writing " ++ by_fs fs (txt "FAT12") (txt "FAT16") (txt "FAT32") ++ line " filesystem...");
  check (write_boot_sector fs) (
  _ ← set_buffer zero_sector;
  check (initialize_fats fs) (
  check (each (root_sectors L) (λ s, write_zero ((reserved_sectors L +32 (2 *32 fat_sectors L)) +32 s))) (
  check (if is32 fs then each (sectors_per_cluster L) (λ s, write_zero (first_data_sector L +32 s)) else mret INSTALLER_OK) (
  _ ← say (line "Filesystem formatted successfully."); mret INSTALLER_OK)))).
Definition installer_format_filesystem_as (fs : installer_fs_t) : im Z :=
  _ ← ata_select_drive 0; _ ← set_fs fs;
  d ← get disk; old ← get vars;
  let '(result, L) := calculate_layout fs (disk_sectors d) old in
  _ ← set_vars L;
  if negb (result =? INSTALLER_OK) then _ ← say (line "ERROR: Disk is too small for selected FAT type"); mret result else
  write_filesystem fs L.

Definition installer_format_filesystem : im Z := fs ← get selected_fs; installer_format_filesystem_as fs.

(** The welcome text or the read-me text in its cluster. *)
Definition write_text (cluster : Z) (text : list Z) : im Z :=
  L ← get vars;
  _ ← set_buffer (put 0 text zero_sector);
  write_buffer (first_data_sector L +32 ((cluster -32 2) *32 sectors_per_cluster L)).
Definition installer_create_welcome_files : im Z :=
  L ← get vars; fs ← get selected_fs;
  let c1 := by_fs fs 2 2 3 in
  let c2 := c1 + 1 in
  let root_sector := if is32 fs then first_data_sector L else reserved_sectors L +32 (2 *32 fat_sectors L) in
  check (read_buffer root_sector) (
  b ← get sector_buffer;
  _ ← set_buffer (make_entry fs (txt "README") (txt "TXT") c2 (zlen readme) 64
                   (make_entry fs (txt "WELCOME") (txt "TXT") c1 (zlen welcome) 32 (make_volume_entry b)));
  check (write_buffer root_sector) (
  check (write_text c1 welcome) (
  check (write_text c2 readme) (
  check (each 2 (λ copy,
    let base := reserved_sectors L +32 (copy *32 fat_sectors L) in
    check (read_buffer base) (
    let eoc := by_fs fs 0xFFF 0xFFFF 0x0FFFFFFF in
    b ← get sector_buffer;
    _ ← set_buffer (set_fat_entry_in_sector fs c2 eoc (set_fat_entry_in_sector fs c1 eoc b).2).2;
    write_buffer base))) (
  _ ← say (line "Welcome files created."); mret INSTALLER_OK))))).

Definition installer_install_kernel : im Z := _ ← say (line "Kernel preserved in reserved area."); mret INSTALLER_OK.
Definition installer_install_bootloader : im Z := _ ← say (line "Bootloader preserved and BPB installed."); mret INSTALLER_OK.

(** [hlt] is what happens until the next interrupt returns; [None] when no
    digit arrives within [fuel] rounds. *)
Definition choose_filesystem (fuel : Z) (hlt : installer → installer) (s : installer) : option (installer_fs_t * installer) :=
  let s := (say ([10] ++ line "Choose filesystem:" ++ line "  1. FAT12 (compatibility)" ++ line "  2. FAT16 (recommended)" ++
                 line "  3. FAT32 (large volumes)" ++ txt "Selection [1-3]: ") s).2 in
  match iterZ fuel (λ s,
    let '(c, k) := Keyboard.keyboard_getchar (keyboard s) in
    let s := Inst (sector_buffer s) (selected_fs s) (vars s) (disk s) (term s) k in
    if (49 <=? c) && (c <=? 51) then
      inr (if c =? 49 then INSTALLER_FS_FAT12 else if c =? 50 then INSTALLER_FS_FAT16 else INSTALLER_FS_FAT32, (say [c; 10] s).2)
    else inl (hlt s)) s with
  | inr r => Some r
  | inl _ => None
  end.

(** [installer_run] up to the reboot; the log messages are left out. *)
Definition installer_run (fuel : Z) (hlt : installer → installer) (s : installer) : option (Z * installer) :=
  let '(r, s) := (_ ← say ([10] ++ line "================ AO OS Installer ================"); installer_detect_disk) s in
  if negb (r =? INSTALLER_OK) then Some (INSTALLER_NO_DISK, s) else
  '(fs, s) ← choose_filesystem fuel hlt s;
  let or_error c := r ← c; mret (if r =? INSTALLER_OK then INSTALLER_OK else INSTALLER_WRITE_ERROR) in
  Some ((_ ← set_fs fs;
    check (or_error installer_prepare_disk) (
    check (or_error installer_format_filesystem) (
    check (or_error installer_create_welcome_files) (
    _ ← installer_install_kernel; _ ← installer_install_bootloader;
    _ ← say (line "Installation complete. Rebooting in 3 seconds..."); mret INSTALLER_OK)))) s).
End Steps.
Arguments installer : clear implicits.
End Installer.
