(* ===== verification/InstallerProps.v ===== *)
(** * Properties of the installer

    What the steps do to the image of the disk, and the composition with the
    driver of Fat.v: a disk that the installer has formatted can be mounted,
    as the file system that was chosen, and the welcome files can be read. *)
From S2P Require Import Prelude.
From S2P Require Import Text.
From S2P Require Import Ata.
From S2P Require Import BlockDev.
From S2P Require Import Fat.
From S2P Require Import FatLogic.
From S2P Require Import FatTable.
From S2P Require Import FatFile.
From S2P Require Import FatMount.
From S2P Require Import Keyboard.
From S2P Require Import Terminal.
From S2P Require Import Installer.
Import Ata FatLogic Installer.
Import (hints) Keyboard Terminal Fat.

Module InstallerProps.

(** The first drive stays selected. *)
Class Primary (B : Type) `{Reliable B} := {
  primary : B → Prop;
  select_primary b : primary b → bd_ok b → primary (bd_select 0 b) ∧ bd_ok (bd_select 0 b) ∧
    ∀ l, bd_sector (bd_select 0 b) l = bd_sector b l;
  primary_read b l : primary b → primary (bd_read l b).2;
  primary_write b l s : primary b → primary (bd_write l s b).2
}.

(** ** A logic for the steps after the layout is known *)
Section Logic.
Context {B : Type} `{Primary B} `{!SizedDisk B} {hw : Type} `{PortIO hw}.
Context (fs : installer_fs_t) (L : layout).
Implicit Types (s : installer B hw) (S : image).

Record state_is s (b : list Z) S : Prop := StateIs {
  si_buffer : sector_buffer s = b;
  si_fs : selected_fs s = fs;
  si_vars : vars s = L;
  si_primary : primary (disk s);
  si_holds : holds (disk s) S
}.
Definition runs {A} (c : im A) (b : list Z) S (Q : A → list Z → image → Prop) : Prop :=
  ∀ s, state_is s b S → ∃ a s' b' S', c s = (a, s') ∧ state_is s' b' S' ∧ Q a b' S'.

Lemma runs_mono {A} (c : im A) b S (Q Q' : A → list Z → image → Prop) :
  runs c b S Q → (∀ a b' S', Q a b' S' → Q' a b' S') → runs c b S Q'.
Proof. intros Hc HQ s Hs. destruct (Hc s Hs) as (a & s' & b' & S' & ? & ? & ?). exists a, s', b', S'. auto. Qed.
Lemma runs_ret {A} (a : A) b S (Q : A → list Z → image → Prop) : Q a b S → runs (mret a) b S Q.
Proof. intros HQ s Hs. by exists a, s, b, S. Qed.
Lemma runs_bind {A A'} (c : im A) (k : A → im A') b S (R : A → list Z → image → Prop) Q :
  runs c b S R → (∀ a b' S', R a b' S' → runs (k a) b' S' Q) → runs (c ≫= k) b S Q.
Proof.
  intros Hc Hk s Hs. destruct (Hc s Hs) as (a & s' & b' & S' & E & Hs' & HR).
  unfold mbind, im_bind. rewrite E. exact (Hk a b' S' HR s' Hs').
Qed.
Lemma runs_pure {A A'} (a : A) (k : A → im A') b S Q : runs (k a) b S Q → runs (mret a ≫= k) b S Q.
Proof. done. Qed.
Lemma runs_vars {A} (k : layout → im A) b S Q : runs (k L) b S Q → runs (get vars ≫= k) b S Q.
Proof. intros Hk s Hs. unfold mbind, im_bind, get. rewrite (si_vars _ _ _ Hs). by apply Hk. Qed.
Lemma runs_fs {A} (k : installer_fs_t → im A) b S Q : runs (k fs) b S Q → runs (get selected_fs ≫= k) b S Q.
Proof. intros Hk s Hs. unfold mbind, im_bind, get. rewrite (si_fs _ _ _ Hs). by apply Hk. Qed.
Lemma runs_buffer {A} (k : list Z → im A) b S Q : runs (k b) b S Q → runs (get sector_buffer ≫= k) b S Q.
Proof. intros Hk s Hs. unfold mbind, im_bind, get. rewrite (si_buffer _ _ _ Hs). by apply Hk. Qed.
Lemma runs_set {A} (k : unit → im A) b b' S Q : runs (k tt) b' S Q → runs (set_buffer b' ≫= k) b S Q.
Proof. intros Hk s []. unfold mbind, im_bind, set_buffer. by apply Hk. Qed.
Lemma runs_say {A} (k : unit → im A) text b S Q : runs (k tt) b S Q → runs (say text ≫= k) b S Q.
Proof. intros Hk s []. unfold mbind, im_bind, say. by apply Hk. Qed.
Lemma runs_check (c k : im Z) b S (R : list Z → image → Prop) Q :
  runs c b S (λ r b' S', r = 0 ∧ R b' S') → (∀ b' S', R b' S' → runs k b' S' Q) → runs (check c k) b S Q.
Proof. intros Hc Hk. unfold check. eapply runs_bind; [exact Hc |]. intros r b' S' [-> HR]. cbn. by apply Hk. Qed.

Lemma runs_read l code b S : runs (must (ata_read l) code) b S (λ r b' S', r = 0 ∧ b' = S l ∧ S' = S).
Proof.
  intros s [Hb Hf HL Hp [Hok HS]]. unfold must, mbind, im_bind, ata_read. destruct (rel_read (disk s) l Hok) as [d E].
  pose proof (primary_read (disk s) l Hp) as Hp'. rewrite E in Hp' |- *. destruct (bd_read_law _ _ _ _ Hok E) as (Hok' & Hsame & _).
  eexists _, _, _, S. split; [reflexivity |]. split; [| split; [done | split; [apply HS | done]]].
  constructor; [done.. | exact Hp' |]. split; [done |]. intros k. cbn. by rewrite Hsame.
Qed.
Lemma runs_ata_write l data code b S :
  sector_ok data → runs (must (ata_write l data) code) b S (λ r b' S', r = 0 ∧ b' = b ∧ S' = upd S l data).
Proof.
  intros Hd s [Hb Hf HL Hp [Hok HS]]. unfold must, mbind, im_bind, ata_write. destruct (rel_write (disk s) l data Hok Hd) as [d E].
  pose proof (primary_write (disk s) l data Hp) as Hp'. rewrite E in Hp' |- *. destruct (bd_write_law _ _ _ _ Hok Hd E) as (Hok' & Hsame).
  eexists _, _, _, (upd S l data). split; [reflexivity |]. split; [| split; [done | split; [exact Hb | done]]].
  constructor; [done.. | exact Hp' |]. split; [done |]. intros k. cbn. rewrite Hsame. unfold upd. by rewrite HS.
Qed.
Lemma runs_write l b S : sector_ok b → runs (write_buffer l) b S (λ r b' S', r = 0 ∧ b' = b ∧ S' = upd S l b).
Proof.
  intros Hd. unfold write_buffer, must. intros s Hs. pose proof (runs_ata_write l b INSTALLER_WRITE_ERROR b S Hd s Hs) as R.
  unfold must, mbind, im_bind, get in *. rewrite (si_buffer _ _ _ Hs). exact R.
Qed.

(** A loop of steps that succeed. *)
Lemma runs_each (I : Z → list Z → image → Prop) n body b S :
  0 ≤ n → I 0 b S →
  (∀ i b' S', 0 ≤ i < n → I i b' S' → runs (body i) b' S' (λ r b2 S2, r = 0 ∧ I (i + 1) b2 S2)) →
  runs (each n body) b S (λ r b' S', r = 0 ∧ I n b' S').
Proof.
  intros Hn HI Hbody s Hs. unfold each.
  set (step := λ (i : Z) (s : installer B hw), let '(r, s0) := body i s in if negb (r =? INSTALLER_OK) then inr (r, s0) else inl s0).
  pose proof (for_range_inv (λ i s, ∃ b S, state_is s b S ∧ I i b S) (λ _ : Z * installer B hw, False) 0 n step s) as HF.
  assert (match for_range 0 n step s with inl s' => ∃ b S, state_is s' b S ∧ I (Z.max 0 n) b S | inr _ => False end) as R.
  { assert (∀ i s1, 0 ≤ i < n → (∃ b S, state_is s1 b S ∧ I i b S) → ∃ s2, step i s1 = inl s2 ∧ (∃ b S, state_is s2 b S ∧ I (i + 1) b S)) as Hst.
    { intros i s1 Hi (b1 & S1 & Hs1 & HI1). destruct (Hbody i b1 S1 Hi HI1 s1 Hs1) as (r & s2 & b2 & S2 & E & Hs2 & -> & HI2).
      exists s2. unfold step. rewrite E. split; [done |]. by exists b2, S2. }
    apply HF; [by exists b, S | |]; intros i s1 x Hi HI1 Ex; destruct (Hst i s1 Hi HI1) as (s2 & E & HI2); rewrite E in Ex; [| done].
    by injection Ex as <-. }
  destruct (for_range 0 n step s) as [s' |]; [| done]. destruct R as (b' & S' & Hs' & HI'). rewrite Z.max_r in HI' by lia.
  by exists 0, s', b', S'.
Qed.
End Logic.

(** ** The layout *)
Definition root_count (fs : installer_fs_t) : Z := by_fs fs 224 512 0.
Definition root_size (fs : installer_fs_t) : Z := by_fs fs 14 32 0.
Definition cluster_size (fs : installer_fs_t) : Z := by_fs fs 32 2 1.
(** The search for the size of the table ends in a fixed point within its
    sixteen rounds. *)
Definition converges (fs : installer_fs_t) (n : Z) : Prop :=
  ∃ fat, iterZ 16 (layout_step fs n 512 (root_size fs) (cluster_size fs)) 1 = inr (fat, false).

Record layout_ok (fs : installer_fs_t) (n : Z) (L : layout) : Prop := LayoutOk {
  lo_volume : volume_sectors L = n;
  lo_reserved : reserved_sectors L = 512;
  lo_fat : 1 ≤ fat_sectors L ∧ 128 * fat_sectors L ≤ n + 130;
  lo_root : root_sectors L = root_size fs;
  lo_first : first_data_sector L = 512 + 2 * fat_sectors L + root_size fs;
  lo_room : first_data_sector L < n;
  lo_min : 612 + root_size fs < n;
  lo_cluster : root_cluster L = by_fs fs 0 0 2;
  lo_spc : sectors_per_cluster L = cluster_size fs;
  lo_entries : root_entries L = root_count fs;
  lo_type : let c := (n - first_data_sector L) / cluster_size fs in
    match fs with
    | INSTALLER_FS_FAT12 => c < 4085
    | INSTALLER_FS_FAT16 => 4085 ≤ c < 65525
    | INSTALLER_FS_FAT32 => 65525 ≤ c
    end
}.
(** The table has room for every cluster of the volume. *)
Definition covers (fs : installer_fs_t) (n : Z) (L : layout) : Prop :=
  fat_bytes_for fs ((n - first_data_sector L) / cluster_size fs) ≤ fat_sectors L * 512.

Lemma cluster_size_pos fs : 0 < cluster_size fs ≤ 32.
Proof. by destruct fs. Qed.
Lemma root_size_range fs : 0 ≤ root_size fs ≤ 32.
Proof. by destruct fs. Qed.
Lemma fat_bytes_exact fs c :
  0 ≤ c < 2 ^ 28 → fat_bytes_for fs c = by_fs fs ((3 * (c + 2) + 1) / 2) (2 * (c + 2)) (4 * (c + 2)).
Proof.
  intros Hc. unfold fat_bytes_for. rewrite (u32_small (c + 2)) by lia.
  rewrite (u32_small ((c + 2) * 3)), (u32_small ((c + 2) * 2)), (u32_small ((c + 2) * 4)), u32_small by lia.
  destruct fs; cbn [by_fs]; [f_equal; lia | lia | lia].
Qed.
Lemma layout_step_spec fs n fat :
  0 ≤ n < 2 ^ 28 → 1 ≤ fat ∧ 128 * fat ≤ n + 130 →
  match layout_step fs n 512 (root_size fs) (cluster_size fs) fat with
  | inr (f, early) => f = fat ∧ (early = false →
      (fat_bytes_for fs ((n - (512 + 2 * fat + root_size fs)) / cluster_size fs) + 511) / 512 = fat)
  | inl f => 1 ≤ f ∧ 128 * f ≤ n + 130
  end.
Proof.
  intros Hn Hf. pose proof (cluster_size_pos fs) as Hs. pose proof (root_size_range fs) as Hr. unfold layout_step.
  rewrite (u32_small (2 * fat)), (u32_small (512 + _)), (u32_small (512 + root_size fs + _)) by lia.
  destruct (Z.leb_spec n (512 + root_size fs + 2 * fat)) as [Hle | Hlt]; [done |].
  rewrite (u32_small (n - 512)), (u32_small (n - 512 - _)), (u32_small (n - 512 - _ - _)) by lia.
  replace (n - 512 - root_size fs - 2 * fat) with (n - (512 + 2 * fat + root_size fs)) by lia.
  set (c := (n - (512 + 2 * fat + root_size fs)) / cluster_size fs).
  assert (0 ≤ c < 2 ^ 28) as Hc by (unfold c; split; [apply Z.div_pos; lia | apply Z.div_lt_upper_bound; nia]).
  assert (3 ≤ fat_bytes_for fs c ≤ 4 * n + 8) as Hb.
  { rewrite fat_bytes_exact by lia. assert (c ≤ n) by (unfold c; apply Z.div_le_upper_bound; nia). destruct fs; cbn [by_fs]; zdm. }
  rewrite (u32_small (fat_bytes_for fs c + 511)) by lia.
  destruct (Z.eqb_spec ((fat_bytes_for fs c + 511) / 512) fat); [done | zdm].
Qed.

Lemma layout_exit fs n :
  0 ≤ n < 2 ^ 28 →
  match iterZ 16 (layout_step fs n 512 (root_size fs) (cluster_size fs)) 1 with
  | inr (f, early) => (1 ≤ f ∧ 128 * f ≤ n + 130) ∧ (early = false →
      fat_bytes_for fs ((n - (512 + 2 * f + root_size fs)) / cluster_size fs) ≤ f * 512)
  | inl f => 1 ≤ f ∧ 128 * f ≤ n + 130
  end.
Proof.
  intros Hn. pose proof (iterZ_inv (λ f, 1 ≤ f ∧ 128 * f ≤ n + 130) (λ r : Z * bool, (1 ≤ r.1 ∧ 128 * r.1 ≤ n + 130) ∧ (r.2 = false →
      fat_bytes_for fs ((n - (512 + 2 * r.1 + root_size fs)) / cluster_size fs) ≤ r.1 * 512)) 16
      (layout_step fs n 512 (root_size fs) (cluster_size fs)) 1) as L.
  destruct (iterZ 16 _ 1) as [f | [f early]]; apply L; try lia; intros f0 x Hf E; pose proof (layout_step_spec fs n f0 Hn Hf) as S;
    rewrite E in S; try exact S; destruct x as [f1 e1]; destruct S as [-> S]; cbn; (split; [lia |]); intros He; specialize (S He); zdm.
Qed.

Lemma layout_spec fs n old L :
  0 ≤ n < 2 ^ 28 → calculate_layout fs n old = (INSTALLER_OK, L) → layout_ok fs n L ∧ (converges fs n → covers fs n L).
Proof.
  intros Hn. unfold calculate_layout. pose proof (cluster_size_pos fs) as Hs. pose proof (root_size_range fs) as Hr.
  assert ((by_fs fs 224 512 0 * 32 + 511) / 512 = root_size fs) as -> by (by destruct fs).
  fold (cluster_size fs). fold (root_count fs). change BOOT_RESERVED_SECTORS with 512. pose proof (layout_exit fs n Hn) as X.
  rewrite (u32_small (512 + root_size fs)), (u32_small (512 + root_size fs + 100)) by lia.
  destruct (Z.leb_spec n (512 + root_size fs + 100)); [discriminate |]. destruct (iterZ 16 _ 1) as [fat | [fat []]] eqn:Ei; [| discriminate |].
  all: set (conv := converges fs n).
  all: rewrite (u32_small (2 * fat)), (u32_small (512 + _)), (u32_small (512 + 2 * fat + _)) by lia.
  all: destruct (Z.leb_spec n (512 + 2 * fat + root_size fs)) as [Hle | Hlt]; [discriminate |].
  all: rewrite (u32_small (n - _)) by lia; set (c := (n - (512 + 2 * fat + root_size fs)) / cluster_size fs) in *.
  all: destruct (by_fs fs (4085 <=? c) _ _) eqn:Ec; [discriminate |]; intros [= <-].
  all: (split; [constructor; cbn; try done; try lia |]).
  all: try (fold c; destruct fs; cbn [by_fs] in Ec; lia).
  - intros [f Ef]. congruence.
  - intros _. unfold covers. cbn [first_data_sector fat_sectors]. fold c. apply X. done.
Qed.

(** ** The boot sector *)
Lemma get_put p bs s i : i < p ∨ p + zlen bs ≤ i → (put p bs s).[i] = s.[i].
Proof. apply aget_ablit_out. Qed.
Lemma u16_put p bs s q : q + 2 ≤ p ∨ p + zlen bs ≤ q → Fat.u16_at (put p bs s) q = Fat.u16_at s q.
Proof. intros Hq. apply le_read_ablit_other. lia. Qed.
Lemma u32_put p bs s q : q + 4 ≤ p ∨ p + zlen bs ≤ q → Fat.u32_at (put p bs s) q = Fat.u32_at s q.
Proof. intros Hq. apply le_read_ablit_other. lia. Qed.
Lemma u16_aset s i x q : i < q ∨ q + 2 ≤ i → Fat.u16_at (s.[i <- x]) q = Fat.u16_at s q.
Proof. intros Hi. apply le_read_ext. intros y Hy. apply aget_aset_ne. lia. Qed.
Lemma u32_aset s i x q : i < q ∨ q + 4 ≤ i → Fat.u32_at (s.[i <- x]) q = Fat.u32_at s q.
Proof. intros Hi. apply le_read_ext. intros y Hy. apply aget_aset_ne. lia. Qed.
Lemma u16_put16 p v s : 0 ≤ p → p + 2 ≤ zlen s → Fat.u16_at (put p (le_bytes 2 v) s) p = v mod 65536.
Proof. intros Hp Hs. exact (le_read_ablit_same 2 s p v Hp Hs). Qed.
Lemma u32_put32 p v s : 0 ≤ p → p + 4 ≤ zlen s → Fat.u32_at (put p (le_bytes 4 v) s) p = v mod 2 ^ 32.
Proof. intros Hp Hs. exact (le_read_ablit_same 4 s p v Hp Hs). Qed.
Lemma put16_put p v s : put16 p v s = put p (le_bytes 2 v) s.
Proof. done. Qed.
Lemma put32_put p v s : put32 p v s = put p (le_bytes 4 v) s.
Proof. done. Qed.
Lemma zlen_put p bs s : zlen (put p bs s) = zlen s.
Proof. apply zlen_ablit. Qed.
Lemma u16_take n s p : 0 ≤ p → p + 2 ≤ Z.of_nat n → Fat.u16_at (take n s) p = Fat.u16_at s p.
Proof. intros Hp Hn. apply le_read_ext. intros x Hx. apply aget_take. lia. Qed.
Lemma u32_take n s p : 0 ≤ p → p + 4 ≤ Z.of_nat n → Fat.u32_at (take n s) p = Fat.u32_at s p.
Proof. intros Hp Hn. apply le_read_ext. intros x Hx. apply aget_take. lia. Qed.

(** Read a field through the stores that do not touch it. *)
Ltac apart :=
  match goal with
  | |- _ ∨ ?p + zlen ?l ≤ _ => let n := eval vm_compute in (zlen l) in change (zlen l) with n; lia
  | |- _ => lia
  end.
Ltac peel :=
  repeat first [ rewrite get_put by apart | rewrite u16_put by apart | rewrite u32_put by apart
    | rewrite u16_aset by lia | rewrite u32_aset by lia | rewrite aget_aset_ne by lia ].
Ltac len512 := repeat first [rewrite zlen_put | rewrite zlen_aset]; lia.

Section Boot.
Context (fs : installer_fs_t) (n : Z) (L : layout) (s : list Z).
Hypothesis (Hn : 0 ≤ n < 2 ^ 28) (HL : layout_ok fs n L) (Hs : zlen s = 512).

Lemma bpb_spec : let b := bpb_fields fs L s in
  zlen b = 512 ∧ Fat.u16_at b 11 = 512 ∧ b.[13] = cluster_size fs ∧ Fat.u16_at b 14 = 512 ∧ b.[16] = 2 ∧
  Fat.u16_at b 17 = root_count fs ∧ Fat.u16_at b 19 = (if n <? 65536 then n else 0) ∧
  Fat.u16_at b 22 = (if is32 fs then 0 else fat_sectors L mod 65536) ∧ Fat.u32_at b 32 = (if 65536 <=? n then n else 0).
Proof using All.
  destruct HL as [Ev Er Hf _ _ _ _ _ Es Ee _]. unfold bpb_fields. cbv zeta. rewrite !put16_put, !put32_put.
  split_and!; peel.
  - len512.
  - rewrite u16_put16 by len512. done.
  - rewrite aget_aset_eq by len512. done.
  - rewrite u16_put16 by len512. by rewrite Er.
  - rewrite aget_aset_eq by len512. done.
  - rewrite u16_put16 by len512. rewrite Ee. by destruct fs.
  - rewrite u16_put16 by len512. rewrite Ev. case_match; [apply Z.mod_small; lia | done].
  - rewrite u16_put16 by len512. by destruct (is32 fs).
  - rewrite u32_put32 by len512. rewrite Ev. case_match; [apply Z.mod_small; lia | done].
Qed.
Lemma boot_spec : let b := boot_sector fs L s in
  zlen b = 512 ∧ (∀ i, 0 ≤ i < 36 → b.[i] = (bpb_fields fs L s).[i]) ∧ b.[510] = 0x55 ∧ b.[511] = 0xAA ∧
  (fs = INSTALLER_FS_FAT32 → Fat.u32_at b 36 = fat_sectors L ∧ Fat.u32_at b 44 = 2 ∧ Fat.u16_at b 48 = 256 ∧ Fat.u16_at b 50 = 257).
Proof using All.
  destruct bpb_spec as (Hb & _). destruct HL as [_ _ Hf _ _ _ _ Hc _ _ _]. unfold boot_sector. set (b0 := bpb_fields fs L s) in *. clearbody b0.
  unfold ebpb_fields. cbv zeta. rewrite !put16_put, !put32_put. destruct fs; cbn [is32 by_fs] in *.
  all: split; [len512 |].
  all: split; [intros i Hi; by peel |].
  all: split; [rewrite aget_aset_ne, aget_aset_eq by (lia || len512); done |].
  all: split; [rewrite aget_aset_eq by len512; done |]; intros Hfs; try discriminate.
  split_and!; peel; rewrite ?u32_put32, ?u16_put16 by len512; rewrite ?Hc; try done. apply Z.mod_small. lia.
Qed.
(** Its first 36 bytes, as [mount_drive] copies them. *)
Lemma boot_low : let b := boot_sector fs L s in let b0 := bpb_fields fs L s in
  (∀ p, 0 ≤ p → p + 2 ≤ 36 → Fat.u16_at (take 36 b) p = Fat.u16_at b0 p) ∧ Fat.u32_at (take 36 b) 32 = Fat.u32_at b0 32 ∧
  (∀ p, 0 ≤ p < 36 → (take 36 b).[p] = b0.[p]).
Proof using All.
  destruct boot_spec as (_ & Hlow & _). cbv zeta. split_and!.
  - intros p H1 H2. rewrite u16_take by lia. apply le_read_ext. intros x Hx. apply Hlow. lia.
  - rewrite u32_take by lia. apply le_read_ext. intros x Hx. apply Hlow. lia.
  - intros p Hp. rewrite aget_take by lia. by apply Hlow.
Qed.
Lemma boot_sizes : let b := boot_sector fs L s in
  (if Fat.total16 (take 36 b) =? 0 then Fat.total32 (take 36 b) else Fat.total16 (take 36 b)) = n ∧
  (if Fat.fat16_size (take 36 b) =? 0 then Fat.u32_at b 36 else Fat.fat16_size (take 36 b)) = fat_sectors L.
Proof using All.
  destruct boot_spec as (_ & _ & _ & _ & H32). destruct bpb_spec as (_ & _ & _ & _ & _ & _ & E6 & E7 & E8).
  destruct boot_low as (U16 & U32 & _). pose proof HL as [_ _ Hf _ Hfirst Hroom _ _ _ _ Ht]. cbv zeta.
  unfold Fat.total16, Fat.total32, Fat.fat16_size. rewrite !U16, U32, E6, E7, E8 by lia. split.
  - destruct (Z.ltb_spec n 65536); repeat case_match; lia.
  - destruct fs; cbn [is32 by_fs cluster_size root_size] in *; [| | by destruct H32 as [-> _]].
    all: assert (fat_sectors L < 65536) by zdm; rewrite Z.mod_small by lia; destruct (Z.eqb_spec (fat_sectors L) 0); [lia | done].
Qed.
(** The volume that the boot sector describes. *)
Definition fat_type (fs : installer_fs_t) : Fat.fat_type_t := by_fs fs Fat.FAT_TYPE_12 Fat.FAT_TYPE_16 Fat.FAT_TYPE_32.
Definition clusters : Z := (n - first_data_sector L) / cluster_size fs.
Lemma boot_volume : let v := Fat.volume_of (boot_sector fs L s) 0 in
  Fat.type v = fat_type fs ∧ Fat.total_sectors v = n ∧ Fat.fat_size v = fat_sectors L ∧ Fat.root_sectors v = root_size fs ∧
  Fat.first_data v = first_data_sector L ∧ Fat.cluster_count v = clusters ∧ Fat.root_cluster v = by_fs fs 0 0 2 ∧
  Fat.bytes_per_sector (Fat.bpb v) = 512 ∧ Fat.sectors_per_cluster (Fat.bpb v) = cluster_size fs ∧
  Fat.reserved_sectors (Fat.bpb v) = 512 ∧ Fat.fat_count (Fat.bpb v) = 2 ∧ Fat.root_entries (Fat.bpb v) = root_count fs.
Proof using All.
  destruct boot_spec as (_ & _ & _ & _ & H32). destruct bpb_spec as (_ & E1 & E2 & E3 & E4 & E5 & _).
  destruct boot_low as (U16 & _ & U8). destruct boot_sizes as [Etot Efat].
  pose proof HL as [_ _ Hf _ Hfirst Hroom _ _ _ _ Ht]. pose proof (cluster_size_pos fs) as Hcs. pose proof (root_size_range fs) as Hrs.
  set (b := boot_sector fs L s) in *. set (b0 := bpb_fields fs L s) in *. clearbody b b0.
  set (v := Fat.volume_of b 0). cbv zeta.
  assert (Fat.root_sectors v = root_size fs) as Hroot.
  { change (Fat.root_sectors v) with ((Fat.root_entries (take 36 b) * 32 + 511) / 512). unfold Fat.root_entries. rewrite U16, E5 by lia. by destruct fs. }
  assert (Fat.total_sectors v = n) as Htotal by exact Etot. assert (Fat.fat_size v = fat_sectors L) as Hfat by exact Efat.
  assert (Fat.reserved_sectors (Fat.bpb v) = 512) as Hres by (unfold Fat.reserved_sectors; cbn [Fat.bpb v Fat.volume_of]; by rewrite U16).
  assert (Fat.fat_count (Fat.bpb v) = 2) as Hcnt by (unfold Fat.fat_count; cbn [Fat.bpb v Fat.volume_of]; by rewrite U8).
  assert (Fat.sectors_per_cluster (Fat.bpb v) = cluster_size fs) as Hspc by (unfold Fat.sectors_per_cluster; cbn [Fat.bpb v Fat.volume_of]; by rewrite U8).
  assert (Fat.first_data v = first_data_sector L) as Hfd.
  { change (Fat.first_data v) with ((Fat.reserved_sectors (Fat.bpb v) +32 (Fat.fat_count (Fat.bpb v) *32 Fat.fat_size v)) +32 Fat.root_sectors v).
    rewrite Hroot, Hfat, Hres, Hcnt. rewrite (u32_small (2 * _)), (u32_small (512 + _)), u32_small by lia. lia. }
  assert (Fat.cluster_count v = clusters) as Hcc.
  { change (Fat.cluster_count v) with ((Fat.total_sectors v -32 Fat.first_data v) / Fat.sectors_per_cluster (Fat.bpb v)).
    rewrite Htotal, Hfd, Hspc, u32_small by lia. done. }
  assert (Fat.type v = fat_type fs) as Hty.
  { change (Fat.type v) with (if Fat.cluster_count v <? 4085 then Fat.FAT_TYPE_12 else if Fat.cluster_count v <? 65525 then Fat.FAT_TYPE_16 else Fat.FAT_TYPE_32).
    rewrite Hcc. fold clusters in Ht. clear - Ht. destruct fs; cbn [fat_type by_fs] in *.
    - by replace (clusters <? 4085) with true by lia.
    - replace (clusters <? 4085) with false by lia. by replace (clusters <? 65525) with true by lia.
    - replace (clusters <? 4085) with false by lia. by replace (clusters <? 65525) with false by lia. }
  split_and!; try done.
  - change (Fat.root_cluster v) with (if bool_decide (Fat.type v = Fat.FAT_TYPE_32) then Z.land (Fat.u32_at b 44) 0x0FFFFFFF else 0).
    rewrite Hty. destruct fs; cbn [fat_type by_fs]; [done | done |]. rewrite bool_decide_true by done. destruct H32 as (_ & -> & _); done.
  - unfold Fat.bytes_per_sector; cbn [Fat.bpb v Fat.volume_of]; by rewrite U16.
  - unfold Fat.root_entries; cbn [Fat.bpb v Fat.volume_of]; by rewrite U16.
Qed.
End Boot.

(** ** Formatting *)
Lemma put_ok p bs s : sector_ok s → Forall is_byte bs → sector_ok (put p bs s).
Proof. intros [Hl Hb] H. split; [unfold put; by rewrite length_ablit | by apply Forall_ablit]. Qed.
Lemma aset_ok p x s : sector_ok s → 0 ≤ x < 256 → sector_ok s.[p <- x].
Proof. intros [Hl Hb] H. split; [by rewrite length_aset | by apply Forall_aset]. Qed.
Lemma put16_ok p v s : sector_ok s → sector_ok (put16 p v s).
Proof. intros Hs. apply put_ok; [done | apply le_bytes_is_byte]. Qed.
Lemma put32_ok p v s : sector_ok s → sector_ok (put32 p v s).
Proof. intros Hs. apply put_ok; [done | apply le_bytes_is_byte]. Qed.
Lemma empty_sector_ok : sector_ok zero_sector.
Proof. apply (bool_decide_unpack _). vm_compute. exact I. Qed.
Lemma txt_bytes t : Forall is_byte (txt t).
Proof. induction t as [| c t IH]; cbn [txt]; [by apply Forall_nil |]. apply Forall_cons. split; [| done]. pose proof (Ascii.nat_ascii_bounded c). split; lia. Qed.
Lemma first_fat_ok fs : sector_ok (first_fat_sector fs).
Proof. destruct fs; apply (bool_decide_unpack _); vm_compute; exact I. Qed.
Lemma fsinfo_ok : sector_ok fsinfo_sector.
Proof. apply (bool_decide_unpack _). vm_compute. exact I. Qed.
Ltac sector :=
  repeat first [apply put16_ok | apply put32_ok | apply aset_ok; [| lia] | apply put_ok; [| first [apply txt_bytes | apply (bool_decide_unpack _); vm_compute; exact I]]].
Lemma boot_sector_ok fs n L s : layout_ok fs n L → sector_ok s → sector_ok (boot_sector fs L s).
Proof.
  intros HL Hs. pose proof (cluster_size_pos fs). unfold boot_sector, ebpb_fields, bpb_fields. rewrite (lo_spc _ _ _ HL).
  destruct fs; cbn [is32 by_fs]; cbv zeta; sector; done.
Qed.

(** [n] sectors from [base] on replaced. *)
Definition fill (S : image) (base n : Z) (f : Z → list Z) : image :=
  λ l, if (base <=? l) && (l <? base + n) then f (l - base) else S l.
Lemma fill_0 S base f l : fill S base 0 f l = S l.
Proof. unfold fill. by replace ((base <=? l) && (l <? base + 0)) with false by lia. Qed.
Lemma fill_next S S' base i f l :
  0 ≤ i → (∀ l, S' l = fill S base i f l) → upd S' (base + i) (f i) l = fill S base (i + 1) f l.
Proof.
  intros Hi E. unfold upd, fill in *. destruct (Z.eqb_spec l (base + i)) as [-> |].
  - replace ((base <=? base + i) && (base + i <? base + (i + 1))) with true by lia. f_equal. lia.
  - rewrite E. by replace ((base <=? l) && (l <? base + i)) with ((base <=? l) && (l <? base + (i + 1))) by lia.
Qed.
Lemma fill_in S base n f l : base ≤ l < base + n → fill S base n f l = f (l - base).
Proof. intros Hl. unfold fill. by replace ((base <=? l) && (l <? base + n)) with true by lia. Qed.
Lemma fill_out S base n f l : ¬ (base ≤ l < base + n) → fill S base n f l = S l.
Proof. intros Hl. unfold fill. by replace ((base <=? l) && (l <? base + n)) with false by lia. Qed.

Section Format.
Context {B : Type} `{Primary B} `{!SizedDisk B} {hw : Type} `{PortIO hw}.
Context (fs : installer_fs_t) (n : Z) (L : layout).
Hypothesis (Hn : 0 ≤ n < 2 ^ 28) (HL : layout_ok fs n L).
#[local] Abbreviation runs := (runs (B := B) (hw := hw) fs L).

Definition fat_image (i : Z) : list Z := if i =? 0 then first_fat_sector fs else zero_sector.
Lemma fat_copy_runs base b S :
  0 ≤ base → base + fat_sectors L < 2 ^ 32 →
  runs (each (fat_sectors L) (λ s,
      b ← get sector_buffer;
      check (must (ata_write (base +32 s) (if s =? 0 then first_fat_sector fs else b)) INSTALLER_WRITE_ERROR) (
      _ ← (if s =? 0 then set_buffer zero_sector else mret tt); mret INSTALLER_OK))) b S
    (λ r b' S', r = 0 ∧ b' = zero_sector ∧ ∀ l, S' l = fill S base (fat_sectors L) fat_image l).
Proof using All.
  intros Hb Hw. pose proof (lo_fat _ _ _ HL) as Hf.
  eapply runs_mono; [apply (runs_each fs L (λ i b' S', (0 < i → b' = zero_sector) ∧ ∀ l, S' l = fill S base i fat_image l)) |].
  - lia.
  - split; [lia |]. intros l. by rewrite fill_0.
  - intros i b' S' Hi [Hz E]. rewrite (u32_small (base + i)) by lia. apply runs_buffer.
    eapply runs_check; [eapply runs_mono; [apply runs_ata_write | intros r b2 S2 K; exact K] |].
    + destruct (Z.eqb_spec i 0); [apply first_fat_ok | rewrite Hz by lia; apply empty_sector_ok].
    + intros b2 S2 [-> ->]. assert ((if i =? 0 then first_fat_sector fs else b') = fat_image i) as ->.
      { unfold fat_image. destruct (Z.eqb_spec i 0); [done | apply Hz; lia]. }
      assert (∀ l, upd S' (base + i) (fat_image i) l = fill S base (i + 1) fat_image l) as E' by (intros l; apply fill_next; [lia | done]).
      destruct (Z.eqb_spec i 0) as [-> | Hi0].
      * apply runs_set, runs_ret. auto.
      * apply runs_pure, runs_ret. split; [done |]. split; [intros _; apply Hz; lia | done].
  - intros r b' S' (-> & Hz & E). split; [done |]. split; [apply Hz; lia | done].
Qed.
Lemma fats_runs b S :
  runs (initialize_fats fs) b S (λ r b' S', r = 0 ∧ b' = zero_sector ∧
    ∀ l, S' l = fill S 512 (2 * fat_sectors L) (λ i, fat_image (i mod fat_sectors L)) l).
Proof using All.
  pose proof (lo_fat _ _ _ HL) as Hf. unfold initialize_fats. apply runs_vars. rewrite (lo_reserved _ _ _ HL).
  eapply runs_mono; [apply (runs_each fs L (λ i b' S', (0 < i → b' = zero_sector) ∧
    ∀ l, S' l = fill S 512 (i * fat_sectors L) (λ i, fat_image (i mod fat_sectors L)) l)) |].
  - lia.
  - split; [lia |]. intros l. by rewrite fill_0.
  - intros i b' S' Hi [_ E]. cbv zeta. rewrite (u32_small (i * fat_sectors L)) by nia. rewrite (u32_small (512 + _)) by nia.
    eapply runs_mono; [apply fat_copy_runs; nia |]. intros r b2 S2 (-> & Hz & E2). split; [done |]. split; [done |].
    intros l. rewrite E2. unfold fill in *. rewrite E.
    destruct (decide (512 + i * fat_sectors L ≤ l < 512 + i * fat_sectors L + fat_sectors L)) as [Hin | Hout].
    + replace ((512 + i * fat_sectors L <=? l) && _) with true by lia.
      replace ((512 <=? l) && (l <? 512 + (i + 1) * fat_sectors L)) with true by nia. f_equal.
      apply (Z.mod_unique_pos _ _ i); lia.
    + replace ((512 + i * fat_sectors L <=? l) && _) with false by lia.
      replace ((512 <=? l) && (l <? 512 + (i + 1) * fat_sectors L)) with ((512 <=? l) && (l <? 512 + i * fat_sectors L)) by nia. done.
  - intros r b' S' (-> & Hz & E). split; [done |]. split; [apply Hz; lia | done].
Qed.
Lemma zeros_runs base m b S :
  0 ≤ m → 0 ≤ base → base + m < 2 ^ 32 →
  runs (each m (λ s, write_zero (base +32 s))) b S (λ r b' S', r = 0 ∧ ∀ l, S' l = fill S base m (λ _, zero_sector) l).
Proof using All.
  intros Hm Hb Hw. apply (runs_each fs L (λ i b' S', ∀ l, S' l = fill S base i (λ _, zero_sector) l)); [lia | intros l; by rewrite fill_0 |].
  intros i b' S' Hi E. rewrite u32_small by lia. unfold write_zero. apply runs_set.
  eapply runs_mono; [apply runs_write, empty_sector_ok |]. intros r b2 S2 (-> & -> & ->). split; [done |].
  intros l. apply (fill_next S S' base i (λ _, zero_sector)); [lia | done].
Qed.

(** The boot sector, and for FAT32 the information sector and the copies. *)
Definition booted (S : image) : image :=
  let boot := boot_sector fs L (S 0) in
  if is32 fs then upd (upd (upd (upd S 0 boot) 256 fsinfo_sector) 257 boot) 258 fsinfo_sector else upd S 0 boot.
Lemma boot_sector_runs b S : image_ok S → runs (write_boot_sector fs) b S (λ r b' S', r = 0 ∧ S' = booted S).
Proof using All.
  intros HS. unfold write_boot_sector, booted. pose proof (boot_sector_ok fs n L (S 0) HL (HS 0)) as Hok. pose proof fsinfo_ok as Hf.
  eapply runs_check; [apply (runs_read fs L 0) |]. intros b1 S1 [-> ->].
  apply runs_vars, runs_buffer, runs_set. eapply runs_check; [apply runs_write, Hok |]. intros b2 S2 [-> ->].
  destruct (is32 fs); [| by apply runs_ret]. apply runs_set. eapply runs_check; [apply runs_write, Hf |]. intros b3 S3 [-> ->].
  eapply runs_check; [apply (runs_read fs L 0) |]. intros b4 S4 [-> ->]. rewrite upd_other, upd_same by lia.
  eapply runs_check; [apply runs_write, Hok |]. intros b5 S5 [-> ->].
  eapply runs_check; [apply (runs_read fs L 256) |]. intros b6 S6 [-> ->]. rewrite upd_other, upd_same by lia.
  eapply runs_mono; [apply runs_write, Hf |]. by intros r b7 S7 (-> & -> & ->).
Qed.
End Format.

(** ** Mounting what was formatted *)
Section Mount.
Context {B : Type} `{Primary B}.
Context (fs : installer_fs_t) (n : Z) (L : layout) (boot0 : list Z).
Hypothesis (Hn : 0 ≤ n < 2 ^ 28) (HL : layout_ok fs n L) (Hcov : covers fs n L) (Hb0 : sector_ok boot0).
Let v := Fat.volume_of (boot_sector fs L boot0) 0.

Lemma boot0_len : zlen boot0 = 512.
Proof using Hb0. destruct Hb0 as [Hl _]. unfold zlen. by rewrite Hl. Qed.
Lemma clusters_range : 0 ≤ clusters fs n L < 2 ^ 28 ∧ first_data_sector L + clusters fs n L * cluster_size fs ≤ n.
Proof using Hn HL.
  pose proof (lo_room _ _ _ HL). pose proof (lo_first _ _ _ HL). pose proof (lo_fat _ _ _ HL). pose proof (root_size_range fs). pose proof (cluster_size_pos fs).
  unfold clusters. pose proof (Z.mul_div_le (n - first_data_sector L) (cluster_size fs) ltac:(lia)).
  split; [split; [apply Z.div_pos; lia | apply Z.div_lt_upper_bound; nia] | lia].
Qed.
Lemma volume_ok : FatTable.vol_ok v ∧ FatFile.root_fits v.
Proof using Hn HL Hcov Hb0.
  destruct (boot_volume fs n L boot0 Hn HL boot0_len) as (Hty & Htot & Hfs & Hrt & Hfd & Hcc & _ & _ & Hspc & Hres & Hcnt & Hre).
  fold v in Hty, Htot, Hfs, Hrt, Hfd, Hcc, Hspc, Hres, Hcnt, Hre. destruct clusters_range as [Hc Hend].
  pose proof (lo_fat _ _ _ HL). pose proof (lo_first _ _ _ HL) as Hfirst. pose proof (cluster_size_pos fs). pose proof (root_size_range fs).
  split; [| split; rewrite ?Hrt, ?Hre; destruct fs; cbn; lia].
  assert (clusters fs n L ≤ n - first_data_sector L) by nia.
  constructor; rewrite ?Hres, ?Hcnt, ?Hspc, ?Hfs, ?Hrt, ?Hfd, ?Hcc, ?Hty; try lia.
  - unfold covers in Hcov. fold (clusters fs n L) in Hcov. rewrite fat_bytes_exact in Hcov by lia.
    destruct fs; cbn [by_fs fat_type FatTable.table_bytes] in *; lia.
  - pose proof (lo_type _ _ _ HL) as T. cbv zeta in T. fold (clusters fs n L) in T. destruct fs; cbn [by_fs fat_type] in *.
    + by replace (clusters INSTALLER_FS_FAT12 n L <? 4085) with true by lia.
    + replace (clusters INSTALLER_FS_FAT16 n L <? 4085) with false by lia. by replace (clusters INSTALLER_FS_FAT16 n L <? 65525) with true by lia.
    + replace (clusters INSTALLER_FS_FAT32 n L <? 4085) with false by lia. by replace (clusters INSTALLER_FS_FAT32 n L <? 65525) with false by lia.
Qed.

Lemma fresh_mount_spec (st : Fat.fat_state B) S :
  primary (Fat.dev st) → holds (Fat.dev st) S → S 0 = boot_sector fs L boot0 →
  ∃ st', Fat.mount_drive 0 st = (0, st') ∧ Fat.vol st' = v ∧ holds (Fat.dev st') S ∧
    Fat.current_cluster st' = by_fs fs 0 0 2 ∧ Fat.cwd st' = [47].
Proof using All.
  intros Hp [Hok HS] Hboot. destruct (select_primary _ Hp Hok) as (_ & Hok' & Hsame).
  destruct (boot_volume fs n L boot0 Hn HL boot0_len) as (Hty & Htot & Hfs & Hrt & Hfd & _ & Hrc & Hbps & Hspc & Hres & Hcnt & _).
  fold v in Hty, Htot, Hfs, Hrt, Hfd, Hrc, Hbps, Hspc, Hres, Hcnt.
  destruct (boot_spec fs n L boot0 Hn HL boot0_len) as (_ & _ & E1 & E2 & _).
  pose proof (lo_fat _ _ _ HL). pose proof (lo_room _ _ _ HL). pose proof (cluster_size_pos fs).
  unfold Fat.mount_drive. destruct (rel_read (bd_select 0 (Fat.dev st)) 0 Hok') as [d E]. rewrite E.
  destruct (bd_read_law _ _ _ _ Hok' E) as (Hokd & Hsamed & _). rewrite Hsame, HS, Hboot, E1, E2. cbn [Z.eqb Pos.eqb negb orb]. cbv zeta.
  fold v. rewrite Hbps, Hspc, Hres, Hcnt, Hfs, Htot, Hfd, Hty, Hrc. cbn [Z.eqb Pos.eqb negb orb].
  replace (cluster_size fs =? 0) with false by lia. replace (fat_sectors L =? 0) with false by lia.
  replace (n <=? first_data_sector L) with false by lia. cbn [orb].
  replace (bool_decide (fat_type fs = Fat.FAT_TYPE_32) && (by_fs fs 0 0 2 <? 2)) with false by (by destruct fs).
  eexists. split; [reflexivity |]. cbn [Fat.vol Fat.dev Fat.current_cluster Fat.cwd]. split; [done |]. split; [| split; [by destruct fs | done]].
  split; [done |]. intros l. by rewrite Hsamed, Hsame.
Qed.
End Mount.

(** ** The image of a formatted disk *)
Section Formatted.
Context (fs : installer_fs_t) (n : Z) (L : layout).
Hypothesis (Hn : 0 ≤ n < 2 ^ 28) (HL : layout_ok fs n L).
Definition root_area (S : image) : image := fill S (512 + 2 * fat_sectors L) (root_size fs) (λ _, zero_sector).
Definition table_area (S : image) : image := fill S 512 (2 * fat_sectors L) (λ i, fat_image fs (i mod fat_sectors L)).
(** For FAT32 the root directory is a cluster. *)
Definition root_cluster_area (S : image) : image := fill S (first_data_sector L) (if is32 fs then 1 else 0) (λ _, zero_sector).
Definition formatted (S : image) : image := root_cluster_area (root_area (table_area (booted fs L S))).

Lemma formatted_boot S : formatted S 0 = boot_sector fs L (S 0).
Proof using All.
  pose proof (lo_first _ _ _ HL). pose proof (lo_fat _ _ _ HL). pose proof (root_size_range fs).
  unfold formatted, root_cluster_area, root_area, table_area. rewrite !fill_out by (destruct (is32 fs); lia). unfold booted.
  destruct (is32 fs); repeat (rewrite upd_other by lia); by rewrite upd_same.
Qed.
Lemma formatted_table S k j :
  0 ≤ k < 2 → 0 ≤ j < fat_sectors L → formatted S (512 + k * fat_sectors L + j) = fat_image fs j.
Proof using All.
  intros Hk Hj. pose proof (lo_first _ _ _ HL). pose proof (root_size_range fs).
  unfold formatted, root_cluster_area, root_area, table_area. rewrite !(fill_out _ (first_data_sector L)), !(fill_out _ (512 + _)) by (destruct (is32 fs); nia).
  rewrite fill_in by nia. f_equal. symmetry. apply (Z.mod_unique_pos _ _ k); lia.
Qed.
Lemma formatted_root S j : 0 ≤ j < root_size fs → formatted S (512 + 2 * fat_sectors L + j) = zero_sector.
Proof using All.
  intros Hj. pose proof (lo_first _ _ _ HL). unfold formatted, root_cluster_area, root_area.
  destruct fs; cbn [root_size by_fs is32] in *; [| | lia]; (rewrite (fill_out _ (first_data_sector L)) by lia); by rewrite fill_in by (cbn; lia).
Qed.
Lemma formatted_root32 S : fs = INSTALLER_FS_FAT32 → formatted S (first_data_sector L) = zero_sector.
Proof using All.
  intros E. unfold formatted, root_cluster_area. assert (is32 fs = true) as -> by (by rewrite E). by rewrite fill_in by lia.
Qed.
(** The boot area: stage 2 and the kernel. *)
Lemma formatted_kept S l :
  0 < l < 512 → (fs = INSTALLER_FS_FAT32 → ¬ (256 ≤ l ≤ 258)) → formatted S l = S l.
Proof using All.
  intros Hl H32. pose proof (lo_first _ _ _ HL). pose proof (lo_fat _ _ _ HL). pose proof (root_size_range fs).
  unfold formatted, root_cluster_area, root_area, table_area. rewrite !fill_out by (destruct (is32 fs); lia). unfold booted.
  destruct (is32 fs) eqn:E; [assert (¬ (256 ≤ l ≤ 258)) by (apply H32; by destruct fs) |]; repeat (rewrite upd_other by lia); done.
Qed.
End Formatted.

Lemma fill_ext S T base n f l : (∀ l, S l = T l) → fill S base n f l = fill T base n f l.
Proof. intros E. unfold fill. by case_match. Qed.

Section Run.
Context {B : Type} `{Primary B} `{!SizedDisk B} {hw : Type} `{PortIO hw}.
Lemma write_filesystem_runs fs n L b S :
  0 ≤ n < 2 ^ 28 → layout_ok fs n L → image_ok S →
  runs (B := B) (hw := hw) fs L (write_filesystem fs L) b S (λ r b' S', r = 0 ∧ ∀ l, S' l = formatted fs L S l).
Proof.
  intros Hn HL HS. pose proof (lo_fat _ _ _ HL) as Hf. pose proof (lo_first _ _ _ HL) as Hfirst. pose proof (root_size_range fs) as Hrs.
  pose proof (lo_room _ _ _ HL). unfold write_filesystem. apply runs_say.
  eapply runs_check; [by eapply boot_sector_runs |]. intros b1 S1 ->. apply runs_set. eapply runs_check; [by eapply fats_runs |]. intros b2 S2 [_ E2].
  rewrite (lo_root _ _ _ HL), (lo_reserved _ _ _ HL), (lo_spc _ _ _ HL), (u32_small (2 * _)), (u32_small (512 + _)) by lia.
  eapply runs_check; [by eapply zeros_runs; try exact HL; lia |]. intros b3 S3 E3.
  assert (∀ l, S3 l = root_area fs L (table_area fs L (booted fs L S)) l) as E3' by (intros l; rewrite E3; by apply fill_ext).
  eapply (runs_check _ _ _ _ _ _ (λ b' S', ∀ l, S' l = formatted fs L S l)).
  - unfold formatted, root_cluster_area. destruct (is32 fs) eqn:E32.
    + eapply runs_mono; [eapply zeros_runs; try exact HL; destruct fs; cbn in *; lia |]. intros r b4 S4 [-> E4]. split; [done |].
      intros l. rewrite E4. assert (cluster_size fs = 1) as -> by (by destruct fs). by apply fill_ext.
    + apply runs_ret. split; [done |]. intros l. by rewrite fill_0.
  - intros b4 S4 E4. apply runs_say, runs_ret. done.
Qed.

Lemma format_spec fs n (s : installer B hw) S L :
  primary (disk s) → holds (disk s) S → n = disk_sectors (bd_select 0 (disk s)) → 0 ≤ n < 2 ^ 28 →
  calculate_layout fs n (vars s) = (INSTALLER_OK, L) →
  ∃ s' b S', installer_format_filesystem_as fs s = (INSTALLER_OK, s') ∧ state_is fs L s' b S' ∧ ∀ l, S' l = formatted fs L S l.
Proof.
  intros Hp Hh En Hn HL. destruct (layout_spec fs n (vars s) L Hn HL) as [Hlay _]. pose proof (holds_image_ok _ _ Hh) as Himg.
  destruct Hh as [Hok HS]. destruct (select_primary _ Hp Hok) as (Hp' & Hok' & Hsame).
  unfold installer_format_filesystem_as, mbind, im_bind, ata_select_drive, set_fs, get, set_vars.
  cbn [vars disk]. rewrite <- En, HL. change (negb (INSTALLER_OK =? INSTALLER_OK)) with false. cbv iota.
  match goal with |- context [write_filesystem fs L ?x] => set (s1 := x) end.
  assert (state_is fs L s1 (sector_buffer s) S) as Hs1.
  { constructor; [done.. |]. split; [exact Hok' |]. intros l. cbn. by rewrite Hsame. }
  destruct (write_filesystem_runs fs n L (sector_buffer s) S Hn Hlay Himg s1 Hs1) as (r & s' & b' & S' & E & Hs' & -> & ES).
  exists s', b', S'. split; [exact E | done].
Qed.
End Run.

(** ** The table and the root directory *)
Section Table.
Context (fs : installer_fs_t) (n : Z) (L : layout) (boot0 : list Z).
Hypothesis (Hn : 0 ≤ n < 2 ^ 28) (HL : layout_ok fs n L) (Hcov : covers fs n L) (Hb0 : sector_ok boot0).
Let v := Fat.volume_of (boot_sector fs L boot0) 0.
(** The first copy of the table is one sector [F0], then zeros. *)
Definition table_is (T : image) (F0 : list Z) : Prop :=
  ∀ j, 0 ≤ j < fat_sectors L → T (512 + j) = if j =? 0 then F0 else zero_sector.
(** Bytes of the table that formatting uses. *)
Definition used_bytes : Z := by_fs fs 3 4 12.

Lemma table_byte T F0 i : table_is T F0 → 0 ≤ i < 512 → FatTable.cbyte T 512 i = F0.[i].
Proof using HL.
  intros HT Hi. pose proof (lo_fat _ _ _ HL). unfold FatTable.cbyte. rewrite Z.div_small, Z.mod_small by lia. by rewrite HT by lia.
Qed.
Lemma zero_get i : 0 ≤ i < 512 → zero_sector.[i] = 0.
Proof using. intros Hi. unfold zero_sector. apply aget_replicate. lia. Qed.
Lemma table_free T i :
  table_is T (first_fat_sector fs) → used_bytes ≤ i < fat_sectors L * 512 → FatTable.cbyte T 512 i = 0.
Proof using HL.
  clear v Hcov Hb0 Hn. intros HT Hi. unfold FatTable.cbyte. assert (0 < used_bytes) by (unfold used_bytes; by destruct fs). rewrite HT by zdm.
  destruct (Z.eqb_spec (i / 512) 0) as [Hz |]; [| apply zero_get; zdm]. rewrite Z.mod_small by zdm. assert (i < 512) by zdm.
  assert (first_fat_sector fs = take (Z.to_nat used_bytes) (first_fat_sector fs) ++ replicate (Z.to_nat (512 - used_bytes)) 0) as ->.
  { unfold used_bytes. destruct fs; vm_compute; reflexivity. }
  assert (zlen (take (Z.to_nat used_bytes) (first_fat_sector fs)) = used_bytes) as Hl by (unfold used_bytes; destruct fs; vm_compute; reflexivity).
  rewrite aget_app_r, Hl by lia. apply aget_replicate. unfold used_bytes in *. destruct fs; cbn [by_fs] in *; lia.
Qed.
Lemma free_clusters T c :
  table_is T (first_fat_sector fs) → FatTable.is_cluster v c → (fs = INSTALLER_FS_FAT32 → c ≠ 2) → FatTable.fat_entry v T c = 0.
Proof using All.
  intros HT Hc H32. destruct (volume_ok fs n L boot0 Hn HL Hcov Hb0) as [Hv _]. fold v in Hv.
  destruct (boot_volume fs n L boot0 Hn HL (boot0_len _ Hb0)) as (Hty & _ & Hfs & _ & _ & _ & _ & _ & _ & Hres & _).
  fold v in Hty, Hfs, Hres. pose proof (FatTable.entry_in_table v c Hv Hc) as [Ho1 Ho2]. destruct Hc as [Hc _].
  unfold FatTable.fat_entry. rewrite Hres, Hty in *. rewrite Hfs in Ho2.
  assert (∀ j, 0 ≤ j < FatTable.entry_width (fat_type fs) → FatTable.cbyte T 512 (FatTable.entry_offset (fat_type fs) c + j) = 0) as Z0.
  { intros j Hj. apply table_free; [done |]. split; [| lia]. unfold used_bytes.
    destruct fs; cbn [by_fs fat_type FatTable.entry_offset FatTable.entry_width] in *; [zdm | lia |]. specialize (H32 eq_refl). lia. }
  unfold FatTable.entry_of. set (o := FatTable.entry_offset (fat_type fs) c) in *. clearbody o.
  pose proof (Z0 0) as B0. pose proof (Z0 1) as B1. pose proof (Z0 2) as B2. pose proof (Z0 3) as B3. rewrite Z.add_0_r in B0.
  destruct fs; cbn [by_fs fat_type FatTable.entry_width le_read] in *; rewrite ?B0, ?B1 by lia.
  - by destruct (Z.even c).
  - done.
  - replace (o + 1 + 1) with (o + 2) by lia. replace (o + 2 + 1) with (o + 3) by lia. by rewrite B2, B3 by lia.
Qed.

(** The root directory: its fixed area, or cluster 2 of a FAT32 volume. *)
Definition root_chain : option (list Z) := if is32 fs then Some [2] else None.
Definition root_sector : Z := if is32 fs then first_data_sector L else 512 + 2 * fat_sectors L.
Lemma root_dir T F0 :
  table_is T F0 → (fs = INSTALLER_FS_FAT32 → Fat.u32_at F0 8 = 0x0FFFFFFF) → FatFile.is_dir v T (by_fs fs 0 0 2) root_chain.
Proof using All.
  intros HT H32. destruct (volume_ok fs n L boot0 Hn HL Hcov Hb0) as [Hv _]. fold v in Hv.
  destruct (boot_volume fs n L boot0 Hn HL (boot0_len _ Hb0)) as (Hty & _ & _ & _ & _ & Hcc & Hrc & _ & _ & Hres & _).
  fold v in Hty, Hcc, Hrc, Hres. unfold root_chain. pose proof (lo_type _ _ _ HL) as Ht. cbv zeta in Ht. fold (clusters fs n L) in Ht.
  assert (∀ i, 0 ≤ i < 512 → FatTable.cbyte T 512 i = F0.[i]) as HB by (intros; by apply table_byte).
  destruct fs; cbn [is32 by_fs fat_type FatFile.is_dir] in *; [by rewrite Hty | by rewrite Hty |].
  split; [by right |]. cbn [Z.eqb]. apply FatFile.chain_last.
  - split; [lia |]. rewrite Hcc. lia.
  - unfold Fat.is_eoc, FatTable.fat_entry. rewrite Hty, Hres. unfold FatTable.entry_of. cbn [FatTable.entry_offset].
    change (4 * 2) with 8. rewrite (le_read_ext 4 (FatTable.cbyte T 512) (aget F0) 8) by (intros; apply HB; lia).
    fold (Fat.u32_at F0 8). by rewrite H32.
Qed.
Lemma root_slot i : 0 ≤ i < 16 → FatFile.slot v root_chain i = Some (root_sector, i * 32).
Proof using All.
  intros Hi. destruct (boot_volume fs n L boot0 Hn HL (boot0_len _ Hb0)) as (Hty & _ & Hfs & _ & Hfd & _ & _ & _ & Hspc & Hres & Hcnt & Hre).
  fold v in Hty, Hfs, Hfd, Hspc, Hres, Hcnt, Hre. unfold FatFile.slot, root_chain, root_sector.
  unfold FatFile.per_cluster, FatFile.cluster_first, FatTable.copy_base. rewrite Hfs, Hfd, Hspc, Hres, Hcnt, Hre.
  destruct fs; cbn [is32 by_fs root_count cluster_size].
  1, 2: replace (_ <=? i) with false by lia; rewrite (Z.div_small i 16), (Z.mod_small i 16) by lia; do 2 f_equal; lia.
  change (1 * 16) with 16. rewrite (Z.div_small i 16), !(Z.mod_small i 16), (Z.div_small i 16) by lia.
  change ([2] !! Z.to_nat 0) with (Some 2). cbn [mbind option_bind]. do 2 f_equal. lia.
Qed.
Lemma root_entry T i : 0 ≤ i < 16 → FatFile.entry_at v T root_chain i = Some (take 32 (drop (Z.to_nat (i * 32)) (T root_sector))).
Proof using All. intros Hi. unfold FatFile.entry_at. by rewrite root_slot. Qed.
End Table.

(** Scanning a directory, entry by entry. *)
Lemma find_none (E : Z → option Fat.dir_entry) name n i e :
  (0 < n)%nat → E i = Some e → Fat.e_name e 0 = 0 → FatFile.find_from E name n i = None.
Proof. intros Hn He Hz. destruct n as [| n]; [lia |]. cbn. by rewrite He, Hz. Qed.
Lemma find_skip (E : Z → option Fat.dir_entry) name n i e :
  (0 < n)%nat → E i = Some e → Fat.e_name e 0 ≠ 0 → Fat.skipped e = true ∨ Fat.name_match e name = false →
  FatFile.find_from E name n i = FatFile.find_from E name (pred n) (i + 1).
Proof.
  intros Hn He Hz Hs. destruct n as [| n]; [lia |]. cbn. rewrite He. rewrite (proj2 (Z.eqb_neq _ _) Hz).
  destruct Hs as [-> | ->]; [done | by destruct (Fat.skipped e)].
Qed.
Lemma find_here (E : Z → option Fat.dir_entry) name n i e :
  (0 < n)%nat → E i = Some e → Fat.e_name e 0 ≠ 0 → Fat.skipped e = false → Fat.name_match e name = true →
  FatFile.find_from E name n i = Some (e, i).
Proof. intros Hn He Hz Hs Hm. destruct n as [| n]; [lia |]. cbn. by rewrite He, (proj2 (Z.eqb_neq _ _) Hz), Hs, Hm. Qed.

(** ** The welcome files *)
Definition first_cluster (fs : installer_fs_t) : Z := by_fs fs 2 2 3.
Definition root_sector0 (fs : installer_fs_t) : list Z :=
  make_entry fs (txt "README") (txt "TXT") (first_cluster fs + 1) (zlen readme) 64
    (make_entry fs (txt "WELCOME") (txt "TXT") (first_cluster fs) (zlen welcome) 32 (make_volume_entry zero_sector)).
Definition fat_sector0 (fs : installer_fs_t) : list Z :=
  let eoc := by_fs fs 0xFFF 0xFFFF 0x0FFFFFFF in
  (set_fat_entry_in_sector fs (first_cluster fs + 1) eoc (set_fat_entry_in_sector fs (first_cluster fs) eoc (first_fat_sector fs)).2).2.
Definition text_sector (text : list Z) : list Z := put 0 text zero_sector.
Lemma root_sector0_ok fs : sector_ok (root_sector0 fs).
Proof. destruct fs; apply (bool_decide_unpack _); vm_compute; exact I. Qed.
Lemma fat_sector0_ok fs : sector_ok (fat_sector0 fs).
Proof. destruct fs; apply (bool_decide_unpack _); vm_compute; exact I. Qed.
Lemma text_sector_ok : sector_ok (text_sector welcome) ∧ sector_ok (text_sector readme).
Proof. split; apply (bool_decide_unpack _); vm_compute; exact I. Qed.

Section Welcome.
Context {B : Type} `{Primary B} `{!SizedDisk B} {hw : Type} `{PortIO hw}.
Context (fs : installer_fs_t) (n : Z) (L : layout).
Hypothesis (Hn : 0 ≤ n < 2 ^ 28) (HL : layout_ok fs n L).
Definition text_lba (c : Z) : Z := first_data_sector L + (c - 2) * cluster_size fs.
Definition with_files (T : image) : image :=
  let T := upd T (root_sector fs L) (root_sector0 fs) in
  let T := upd T (text_lba (first_cluster fs)) (text_sector welcome) in
  let T := upd T (text_lba (first_cluster fs + 1)) (text_sector readme) in
  upd (upd T 512 (fat_sector0 fs)) (512 + fat_sectors L) (fat_sector0 fs).

Lemma write_text_runs c text b T :
  2 ≤ c ≤ 4 → sector_ok (text_sector text) →
  runs (B := B) (hw := hw) fs L (write_text c text) b T (λ r b' T', r = 0 ∧ T' = upd T (text_lba c) (text_sector text)).
Proof using All.
  intros Hc Hok. pose proof (lo_first _ _ _ HL). pose proof (lo_fat _ _ _ HL). pose proof (root_size_range fs). pose proof (cluster_size_pos fs).
  unfold write_text. apply runs_vars, runs_set. rewrite (lo_spc _ _ _ HL), (u32_small (c - 2)), (u32_small ((c - 2) * _)), u32_small by nia.
  eapply runs_mono; [by apply runs_write |]. by intros r b' T' (-> & _ & ->).
Qed.

(** The places of a volume that are written are different. *)
Lemma places : let t1 := text_lba (first_cluster fs) in let t2 := text_lba (first_cluster fs + 1) in
  512 + 2 * fat_sectors L ≤ root_sector fs L < t1 ∧ t1 < t2 ∨
  root_sector fs L = first_data_sector L ∧ first_data_sector L + 1 ≤ t1 < t2.
Proof using Hn HL.
  pose proof (lo_first _ _ _ HL). pose proof (lo_fat _ _ _ HL). unfold root_sector, text_lba, first_cluster.
  destruct fs; cbn [is32 by_fs cluster_size root_size] in *; lia.
Qed.
Lemma create_runs b T :
  (∀ k, 0 ≤ k < 2 → T (512 + k * fat_sectors L) = first_fat_sector fs) → T (root_sector fs L) = zero_sector →
  runs (B := B) (hw := hw) fs L installer_create_welcome_files b T (λ r b' T', r = 0 ∧ T' = with_files T).
Proof using All.
  intros HT Hroot. pose proof (lo_first _ _ _ HL) as Hfirst. pose proof (lo_fat _ _ _ HL) as Hf. pose proof (root_size_range fs).
  pose proof places as P. cbv zeta in P. pose proof (HT 0 ltac:(lia)) as HT0. pose proof (HT 1 ltac:(lia)) as HT1.
  rewrite Z.mul_0_l, Z.add_0_r in HT0. rewrite Z.mul_1_l in HT1.
  unfold installer_create_welcome_files. apply runs_vars, runs_fs. cbv zeta. fold (first_cluster fs).
  assert ((if is32 fs then first_data_sector L else reserved_sectors L +32 (2 *32 fat_sectors L)) = root_sector fs L) as ->.
  { unfold root_sector. rewrite (lo_reserved _ _ _ HL), (u32_small (2 * _)), u32_small by lia. done. }
  eapply runs_check; [apply (runs_read fs L) |]. intros b1 T1 [-> ->]. rewrite Hroot. apply runs_buffer, runs_set.
  fold (root_sector0 fs). eapply runs_check; [apply runs_write, root_sector0_ok |]. intros b2 T2 [_ ->].
  assert (2 ≤ first_cluster fs ≤ 3) as Hc by (by destruct fs).
  eapply runs_check; [apply write_text_runs; [lia | apply text_sector_ok] |]. intros b3 T3 ->.
  eapply runs_check; [apply write_text_runs; [lia | apply text_sector_ok] |]. intros b4 T4 ->.
  set (T4 := upd (upd (upd T _ _) _ _) _ _).
  assert (∀ l, 512 ≤ l < 512 + 2 * fat_sectors L → T4 l = T l) as HT4 by (intros l Hl; unfold T4; by rewrite !upd_other by lia).
  eapply (runs_check fs L _ _ _ _ (λ b' T', T' = with_files T)).
  - eapply runs_mono; [apply (runs_each fs L (λ i b' T', i = 0 ∧ T' = T4 ∨ i = 1 ∧ T' = upd T4 512 (fat_sector0 fs) ∨ i = 2 ∧ T' = with_files T)) |].
    + lia.
    + by left.
    + intros i b' T' Hi HI. rewrite (lo_reserved _ _ _ HL), (u32_small (i * _)), u32_small by nia.
      eapply runs_check; [apply (runs_read fs L) |]. intros b5 T5 [-> ->].
      assert (T' (512 + i * fat_sectors L) = first_fat_sector fs) as ->.
      { destruct HI as [[-> ->] | [[-> ->] | [-> ->]]]; [| | lia]; rewrite ?Z.mul_0_l, ?Z.mul_1_l, ?Z.add_0_r.
        - rewrite HT4 by lia. done.
        - rewrite upd_other, HT4 by lia. done. }
      apply runs_buffer, runs_set. fold (fat_sector0 fs). eapply runs_mono; [apply runs_write, fat_sector0_ok |].
      intros r b6 T6 (-> & _ & ->). split; [done |]. destruct HI as [[-> ->] | [[-> ->] | [-> ->]]]; [| | lia].
      * right. left. rewrite Z.mul_0_l, Z.add_0_r. done.
      * right. right. rewrite Z.mul_1_l. done.
    + intros r b' T' (-> & [[? ?] | [[? ?] | [_ ->]]]); [lia | lia | done].
  - intros b5 T5 ->. apply runs_say, runs_ret. done.
Qed.
End Welcome.

(** Reading a text through the driver. *)
Section ReadBack.
Context {B : Type} `{Primary B}.
Context (fs : installer_fs_t) (n : Z) (L : layout) (boot0 : list Z).
Hypothesis (Hn : 0 ≤ n < 2 ^ 28) (HL : layout_ok fs n L) (Hcov : covers fs n L) (Hb0 : sector_ok boot0).
Hypothesis (Hsmall : fs = INSTALLER_FS_FAT12 → clusters fs n L ≤ 339).
Let v := Fat.volume_of (boot_sector fs L boot0) 0.

Lemma no_straddling : FatTable.safe_fat v.
Proof using Hn HL Hcov Hb0 Hsmall.
  destruct (boot_volume fs n L boot0 Hn HL (boot0_len _ Hb0)) as (Hty & _ & _ & _ & _ & Hcc & _). fold v in Hty, Hcc.
  intros c [Hc1 Hc2] [Et Es]. rewrite Hty in Et. rewrite Hcc in Hc2. destruct fs; try discriminate.
  specialize (Hsmall eq_refl). cbn [fat_type by_fs] in Hty. rewrite Hty in Es. cbn [FatTable.entry_offset] in Es.
  rewrite Z.mod_small in Es by zdm. zdm.
Qed.

(** What the lookup needs of the entry at [i], a closed fact for each file. *)
Record file_entry (i c : Z) (name text : list Z) : Prop := FileEntry {
  fe_index : 1 ≤ i < 16;
  fe_cluster : 2 ≤ c ≤ 4;
  fe_entry : let e := take 32 (drop (Z.to_nat (i * 32)) (root_sector0 fs)) in
    Fat.e_name e 0 ≠ 0 ∧ Fat.skipped e = false ∧ Fat.name_match e name = true ∧ Z.land (Fat.e_attr e) Fat.ATTR_DIRECTORY = 0 ∧
    Fat.e_size e = zlen text ∧ Fat.e_cluster_low e = c ∧ Fat.e_cluster_high e = 0;
  fe_before : ∀ j, 0 ≤ j < i → let e := take 32 (drop (Z.to_nat (j * 32)) (root_sector0 fs)) in
    Fat.e_name e 0 ≠ 0 ∧ (Fat.skipped e = true ∨ Fat.name_match e name = false);
  fe_end : Fat.is_eoc v (FatTable.entry_of (fat_type fs) (aget (fat_sector0 fs)) c) = true;
  fe_len : zlen text ≤ 512;
  fe_text : take (length text) (text_sector text) = text
}.

Lemma lookup_file T i c name text :
  T (root_sector fs L) = root_sector0 fs → file_entry i c name text →
  FatFile.lookup_name v T (root_chain fs) name = Some (take 32 (drop (Z.to_nat (i * 32)) (root_sector0 fs)), i).
Proof using Hn HL Hcov Hb0.
  intros HT [Hi _ He Hbefore _ _ _]. unfold FatFile.lookup_name.
  assert (∀ j, 0 ≤ j < 16 → FatFile.entry_at v T (root_chain fs) j = Some (take 32 (drop (Z.to_nat (j * 32)) (root_sector0 fs)))) as HE.
  { intros j Hj. rewrite <- HT. by apply (root_entry fs n L boot0 Hn HL Hcov Hb0). }
  assert (∀ m : nat, Z.of_nat m ≤ i → FatFile.find_from (FatFile.entry_at v T (root_chain fs)) name (Z.to_nat Fat.MAX_DIR_ENTRIES) 0 =
    FatFile.find_from (FatFile.entry_at v T (root_chain fs)) name (Z.to_nat Fat.MAX_DIR_ENTRIES - m) (Z.of_nat m)) as HF.
  { induction m as [| m IH]; intros Hm; [by rewrite Nat.sub_0_r |]. rewrite IH by lia. destruct (Hbefore (Z.of_nat m) ltac:(lia)) as [Hz Hs].
    erewrite find_skip; [| unfold Fat.MAX_DIR_ENTRIES; lia | apply HE; lia | exact Hz | exact Hs]. f_equal; lia. }
  rewrite (HF (Z.to_nat i)) by lia. rewrite Z2Nat.id by lia. destruct He as (Hz & Hs & Hm & _).
  apply find_here; [unfold Fat.MAX_DIR_ENTRIES; lia | apply HE; lia | done..].
Qed.

Lemma read_file (st : Fat.fat_state B) T i c name text :
  Fat.vol st = v → Fat.current_cluster st = by_fs fs 0 0 2 → holds (Fat.dev st) T →
  table_is L T (fat_sector0 fs) → T (root_sector fs L) = root_sector0 fs → T (text_lba fs L c) = text_sector text →
  c < clusters fs n L + 2 → file_entry i c name text →
  ∃ b, Fat.fat_read name 512 st = (Fat.Val (Fat.ReadResult 0 (Some (zlen text)) text), Fat.set_dev st b) ∧ holds b T.
Proof using All.
  intros Ev Ec Hd HT Hroot Htext Hcl Hfe. pose proof (lookup_file T i c name text Hroot Hfe) as Hlook.
  destruct (volume_ok fs n L boot0 Hn HL Hcov Hb0) as [Hv Hr].
  destruct (boot_volume fs n L boot0 Hn HL (boot0_len _ Hb0)) as (Hty & _ & _ & _ & Hfd & Hcc & _ & _ & Hspc & Hres & _).
  fold v in Hv, Hr, Hty, Hfd, Hcc, Hspc, Hres. pose proof (cluster_size_pos fs) as Hcs. destruct Hfe as [Hi Hc He _ Hend Hlen Htxt].
  set (e := take 32 (drop (Z.to_nat (i * 32)) (root_sector0 fs))) in *. destruct He as (_ & _ & _ & Hattr & Hsize & Hlow & Hhigh).
  assert (FatTable.fat_entry v T c = FatTable.entry_of (fat_type fs) (aget (fat_sector0 fs)) c) as Hent.
  { unfold FatTable.fat_entry. rewrite Hty, Hres. apply FatTable.entry_of_ext; [lia |]. intros j Hj.
    apply (table_byte fs n L HL); [done |]. destruct fs; cbn [fat_type by_fs FatTable.entry_offset FatTable.entry_width] in Hj; zdm. }
  pose proof (FatFile.fat_read_spec st T (root_chain fs) name 512 e i [c]) as R. rewrite Ev, Hsize in R.
  destruct R as (b & R & Hb).
  - constructor; rewrite ?Ev, ?Ec; [done | apply no_straddling | done | done | | unfold root_chain; destruct (is32 fs); [apply NoDup_singleton | apply NoDup_nil_2]].
    eapply (root_dir fs n L boot0 Hn HL Hcov Hb0); [exact HT |]. intros E. rewrite E. vm_compute. reflexivity.
  - exact Hlook.
  - exact Hattr.
  - exact Hlen.
  - apply NoDup_singleton.
  - unfold FatFile.cluster_bytes. rewrite Hspc. change (zlen [c]) with 1. nia.
  - intros _. assert (Fat.entry_cluster v e = c) as ->.
    { unfold Fat.entry_cluster. rewrite Hlow, Hhigh. case_decide; [| done]. apply Z.lor_0_r. }
    apply FatFile.chain_last; [split; [lia | rewrite Hcc; lia] | by rewrite Hent].
  - exists b. split; [| exact Hb]. rewrite R. do 3 f_equal. unfold FatFile.chain_data. cbn [mbind list_bind]. rewrite app_nil_r.
    unfold FatFile.cluster_data, FatFile.cluster_first. rewrite Hfd, Hspc. fold (text_lba fs L c).
    destruct (Z.to_nat (cluster_size fs)) as [| k] eqn:Ek; [lia |]. cbn [FatFile.sectors]. rewrite Htext.
    assert (length (text_sector text) = 512%nat) as Hl by (unfold text_sector, put; rewrite length_ablit; vm_compute; reflexivity).
    unfold zlen in *. rewrite Nat2Z.id, take_app_le by lia. exact Htxt.
Qed.
End ReadBack.

Section Files.
Context (fs : installer_fs_t) (n : Z) (L : layout).
Hypothesis (Hn : 0 ≤ n < 2 ^ 28) (HL : layout_ok fs n L).
Lemma formatted_root_sector S : formatted fs L S (root_sector fs L) = zero_sector.
Proof using All.
  unfold root_sector. destruct (is32 fs) eqn:E32; [apply (formatted_root32 fs n L Hn HL); by destruct fs |].
  rewrite <- (Z.add_0_r (512 + _)). apply (formatted_root fs n L Hn HL). destruct fs; (done || cbn; lia).
Qed.
Lemma clusters_min : first_cluster fs < clusters fs n L + 2 ∧ first_cluster fs + 1 < clusters fs n L + 2.
Proof using All.
  pose proof (lo_type _ _ _ HL) as Ht. cbv zeta in Ht. fold (clusters fs n L) in Ht. pose proof (lo_min _ _ _ HL) as Hmin.
  pose proof (lo_first _ _ _ HL) as Hf. pose proof (lo_fat _ _ _ HL) as Hfat. unfold first_cluster.
  destruct fs; cbn [by_fs] in *; [| lia | lia]. unfold clusters. cbn [cluster_size root_size by_fs] in *. zdm.
Qed.
Lemma with_files_spec T : table_is L T (first_fat_sector fs) → let W := with_files fs L T in
  W 0 = T 0 ∧ table_is L W (fat_sector0 fs) ∧ W (root_sector fs L) = root_sector0 fs ∧
  W (text_lba fs L (first_cluster fs)) = text_sector welcome ∧ W (text_lba fs L (first_cluster fs + 1)) = text_sector readme.
Proof using All.
  intros HT W. pose proof (places fs n L Hn HL) as P. cbv zeta in P. pose proof (lo_first _ _ _ HL). pose proof (lo_fat _ _ _ HL). pose proof (root_size_range fs).
  unfold W, with_files. cbv zeta. split_and!.
  - by rewrite !upd_other by lia.
  - intros j Hj. rewrite (upd_other _ (512 + fat_sectors L)) by lia. destruct (Z.eqb_spec j 0) as [-> |]; [by rewrite Z.add_0_r, upd_same |].
    rewrite !upd_other, HT by lia. by replace (j =? 0) with false by lia.
  - rewrite !(upd_other _ (512 + fat_sectors L)), !(upd_other _ 512) by lia. rewrite !upd_other, upd_same by lia. done.
  - rewrite !upd_other, upd_same by lia. done.
  - rewrite !upd_other, upd_same by lia. done.
Qed.
Lemma welcome_entry boot0 : sector_ok boot0 → file_entry fs L boot0 1 (first_cluster fs) (txt "welcome.txt") welcome.
Proof using All.
  intros Hb. destruct (boot_volume fs n L boot0 Hn HL (boot0_len _ Hb)) as (Hty & _). constructor.
  - lia.
  - by destruct fs.
  - destruct fs; vm_compute; split_and!; (done || reflexivity).
  - intros j Hj. assert (j = 0) as -> by lia. destruct fs; vm_compute; (split; [done | by left]).
  - unfold Fat.is_eoc. rewrite Hty. destruct fs; vm_compute; reflexivity.
  - by vm_compute.
  - vm_compute. reflexivity.
Qed.
Lemma readme_entry boot0 : sector_ok boot0 → file_entry fs L boot0 2 (first_cluster fs + 1) (txt "readme.txt") readme.
Proof using All.
  intros Hb. destruct (boot_volume fs n L boot0 Hn HL (boot0_len _ Hb)) as (Hty & _). constructor.
  - lia.
  - by destruct fs.
  - destruct fs; vm_compute; split_and!; (done || reflexivity).
  - intros j Hj. assert (j = 0 ∨ j = 1) as [-> | ->] by lia; destruct fs; vm_compute; (split; [done |]); (by left) || (by right).
  - unfold Fat.is_eoc. rewrite Hty. destruct fs; vm_compute; reflexivity.
  - by vm_compute.
  - vm_compute. reflexivity.
Qed.
End Files.

(** ** Properties *)
Section Properties.
Context {B : Type} `{Primary B} `{!SizedDisk B} {hw : Type} `{PortIO hw}.

(** C39: a reliable disk that the installer formats can be mounted: when the
    layout is accepted and the search for the size of the table ends in a
    fixed point, formatting returns INSTALLER_OK and [mount_drive] then returns
    0 for a well-formed volume of the chosen type, in its root directory, in
    which no name is found and every cluster is free (but the root directory
    of a FAT32 volume); of the boot area only sector 0 and, for FAT32, the
    sectors 256 to 258 have changed. *)
Theorem installer_format_mounts fs n (s : installer B hw) S L vol0 cluster0 cwd0 list0 :
  primary (disk s) → holds (disk s) S → n = disk_sectors (bd_select 0 (disk s)) → 0 ≤ n < 2 ^ 28 →
  calculate_layout fs n (vars s) = (INSTALLER_OK, L) → converges fs n →
  ∃ s' st S', installer_format_filesystem_as fs s = (INSTALLER_OK, s') ∧
    Fat.mount_drive 0 (Fat.FatState vol0 (disk s') cluster0 cwd0 list0) = (0, st) ∧ holds (Fat.dev st) S' ∧
    Fat.type (Fat.vol st) = fat_type fs ∧ FatTable.vol_ok (Fat.vol st) ∧ FatFile.root_fits (Fat.vol st) ∧ Fat.cwd st = [47] ∧
    (∃ cs, FatFile.is_dir (Fat.vol st) S' (Fat.current_cluster st) cs ∧ ∀ name, FatFile.lookup_name (Fat.vol st) S' cs name = None) ∧
    (∀ c, FatTable.is_cluster (Fat.vol st) c → (fs = INSTALLER_FS_FAT32 → c ≠ 2) → FatTable.fat_entry (Fat.vol st) S' c = 0) ∧
    (∀ l, 0 < l < 512 → (fs = INSTALLER_FS_FAT32 → ¬ (256 ≤ l ≤ 258)) → S' l = S l).
Proof.
  intros Hp Hh En Hn Hcl Hconv. destruct (layout_spec fs n (vars s) L Hn Hcl) as [HL Hcov]. specialize (Hcov Hconv).
  pose proof (holds_image_ok _ _ Hh 0) as Hb0. destruct (format_spec fs n s S L Hp Hh En Hn Hcl) as (s' & b & S' & E & Hs' & ES).
  destruct (fresh_mount_spec fs n L (S 0) Hn HL Hcov Hb0 (Fat.FatState vol0 (disk s') cluster0 cwd0 list0) S') as (st & Em & Ev & Hd & Ec & Ew).
  { apply Hs'. } { apply Hs'. } { rewrite ES. by apply (formatted_boot fs n L). }
  assert (table_is L S' (first_fat_sector fs)) as HT.
  { intros j Hj. rewrite ES. rewrite <- (Z.add_0_r 512). apply (formatted_table fs n L Hn HL S 0 j); lia. }
  destruct (volume_ok fs n L (S 0) Hn HL Hcov Hb0) as [Hv Hr].
  destruct (boot_volume fs n L (S 0) Hn HL (boot0_len _ Hb0)) as (Hty & _).
  exists s', st, S'. rewrite Ev, Ec. split_and!; try done.
  - exists (root_chain fs). split.
    + eapply root_dir; try done. intros ->. vm_compute. reflexivity.
    + intros name. unfold FatFile.lookup_name. eapply find_none; [unfold Fat.MAX_DIR_ENTRIES; lia | apply (root_entry fs n L (S 0) Hn HL Hcov Hb0); lia |].
      rewrite ES, (formatted_root_sector fs n L Hn HL). vm_compute. reflexivity.
  - intros c. by apply (free_clusters fs n L (S 0) Hn HL Hcov Hb0).
  - intros l Hl H32. rewrite ES. by apply (formatted_kept fs n L).
Qed.

(** C40: after formatting, the installer's welcome files are there: the disk
    can be mounted and the driver reads back the two texts that the installer
    has written, whatever was on the disk before (for FAT12 on volumes whose
    table fits one sector, where the driver can read every entry). *)
Theorem installer_welcome_readable fs n (s : installer B hw) S L vol0 cluster0 cwd0 list0 :
  primary (disk s) → holds (disk s) S → n = disk_sectors (bd_select 0 (disk s)) → 0 ≤ n < 2 ^ 28 →
  calculate_layout fs n (vars s) = (INSTALLER_OK, L) → converges fs n →
  (fs = INSTALLER_FS_FAT12 → clusters fs n L ≤ 339) →
  ∃ s' st b1 b2, check (installer_format_filesystem_as fs) installer_create_welcome_files s = (INSTALLER_OK, s') ∧
    Fat.mount_drive 0 (Fat.FatState vol0 (disk s') cluster0 cwd0 list0) = (0, st) ∧
    Fat.fat_read (txt "welcome.txt") 512 st = (Fat.Val (Fat.ReadResult 0 (Some (zlen welcome)) welcome), b1) ∧
    Fat.fat_read (txt "readme.txt") 512 st = (Fat.Val (Fat.ReadResult 0 (Some (zlen readme)) readme), b2).
Proof.
  intros Hp Hh En Hn Hcl Hconv Hsmall. destruct (layout_spec fs n (vars s) L Hn Hcl) as [HL Hcov]. specialize (Hcov Hconv).
  pose proof (holds_image_ok _ _ Hh 0) as Hb0. destruct (format_spec fs n s S L Hp Hh En Hn Hcl) as (s1 & b & T & E1 & Hs1 & ES).
  destruct (create_runs (B := B) (hw := hw) fs n L Hn HL b T) with (s := s1) as (r & s' & b' & T' & E2 & Hs' & -> & ->).
  { intros k Hk. rewrite ES. rewrite <- (Z.add_0_r (512 + _)). apply (formatted_table fs n L Hn HL S k 0); [done |]. pose proof (lo_fat _ _ _ HL). lia. }
  { rewrite ES. by apply (formatted_root_sector fs n L). } { done. }
  destruct (with_files_spec fs n L Hn HL T) as (W0 & WT & WR & W1 & W2).
  { intros j Hj. rewrite ES. rewrite <- (Z.add_0_r 512). apply (formatted_table fs n L Hn HL S 0 j); lia. }
  destruct (fresh_mount_spec fs n L (S 0) Hn HL Hcov Hb0 (Fat.FatState vol0 (disk s') cluster0 cwd0 list0) (with_files fs L T)) as (st & Em & Ev & Hd & Ec & Ew).
  { apply Hs'. } { apply Hs'. } { rewrite W0, ES. by apply (formatted_boot fs n L). }
  destruct (clusters_min fs n L Hn HL) as [Hc1 Hc2].
  destruct (read_file fs n L (S 0) Hn HL Hcov Hb0 Hsmall st (with_files fs L T) 1 (first_cluster fs) (txt "welcome.txt") welcome) as (d1 & R1 & _);
    [done.. | by apply (welcome_entry fs n L) |].
  destruct (read_file fs n L (S 0) Hn HL Hcov Hb0 Hsmall st (with_files fs L T) 2 (first_cluster fs + 1) (txt "readme.txt") readme) as (d2 & R2 & _);
    [done.. | by apply (readme_entry fs n L) |].
  exists s', st, (Fat.set_dev st d1), (Fat.set_dev st d2). split_and!; [| exact Em | exact R1 | exact R2].
  unfold check, mbind, im_bind. rewrite E1. exact E2.
Qed.

(** Formatting as FAT32 replaces the sectors 256, 257 and 258, which belong to
    the area that the comment of [installer_prepare_disk] says is preserved,
    whatever they held. *)
Theorem installer_fat32_replaces_boot_area n (s : installer B hw) S L :
  primary (disk s) → holds (disk s) S → n = disk_sectors (bd_select 0 (disk s)) → 0 ≤ n < 2 ^ 28 →
  calculate_layout INSTALLER_FS_FAT32 n (vars s) = (INSTALLER_OK, L) →
  ∃ s' S', installer_format_filesystem_as INSTALLER_FS_FAT32 s = (INSTALLER_OK, s') ∧ holds (disk s') S' ∧
    S' 256 = fsinfo_sector ∧ S' 257 = boot_sector INSTALLER_FS_FAT32 L (S 0) ∧ S' 258 = fsinfo_sector.
Proof.
  intros Hp Hh En Hn Hcl. destruct (layout_spec _ n (vars s) L Hn Hcl) as [HL _].
  destruct (format_spec _ n s S L Hp Hh En Hn Hcl) as (s' & b & S' & E & Hs' & ES). exists s', S'. split; [done |]. split; [apply Hs' |].
  pose proof (lo_first _ _ _ HL). pose proof (lo_fat _ _ _ HL). cbn [root_size by_fs] in *.
  rewrite !ES. unfold formatted, root_cluster_area, root_area, table_area. cbn [is32 root_size by_fs]. rewrite !fill_out by lia.
  unfold booted. cbn [is32 by_fs]. rewrite !upd_same, !upd_other, !upd_same by lia. done.
Qed.

(** The search for the size of the table can alternate between two values: a
    disk of 8766 sectors is formatted as FAT16 with 16 sectors per table, one
    too few.  The entry of the last cluster, 4096, then lies in the first
    sector of the second copy, and in that copy in the first sector of the
    root directory. *)
Theorem installer_table_too_short old boot0 :
  let '(r, L) := calculate_layout INSTALLER_FS_FAT16 8766 old in
  let v := Fat.volume_of (boot_sector INSTALLER_FS_FAT16 L boot0) 0 in
  r = INSTALLER_OK ∧ ¬ covers INSTALLER_FS_FAT16 8766 L ∧
  (zlen boot0 = 512 → Fat.valid_data_cluster v 4096 = true ∧
    FatTable.copy_base v 0 + Fat.fat_offset v 4096 / 512 = FatTable.copy_base v 1 ∧
    FatTable.copy_base v 1 + Fat.fat_offset v 4096 / 512 = FatTable.copy_base v 2 ∧
    FatFile.slot v None 0 = Some (FatTable.copy_base v 2, 0)).
Proof.
  destruct (calculate_layout INSTALLER_FS_FAT16 8766 old) as [r L] eqn:E.
  assert (r = INSTALLER_OK ∧ fat_sectors L = 16 ∧ first_data_sector L = 576) as (-> & Hf & Hd).
  { assert (r = (calculate_layout INSTALLER_FS_FAT16 8766 old).1) as -> by (by rewrite E).
    assert (L = (calculate_layout INSTALLER_FS_FAT16 8766 old).2) as -> by (by rewrite E). clear E. vm_compute. split_and!; reflexivity. }
  split; [done |]. split; [unfold covers; rewrite Hf, Hd; vm_compute; intros K; apply K; reflexivity |]. intros Hb.
  destruct (layout_spec _ 8766 old L ltac:(lia) E) as [HL _].
  destruct (boot_volume _ 8766 L boot0 ltac:(lia) HL Hb) as (Hty & _ & Hfs & _ & _ & Hcc & _ & _ & _ & Hres & Hcnt & Hre).
  unfold Fat.valid_data_cluster, FatTable.copy_base, Fat.fat_offset, FatFile.slot. rewrite Hty, Hcc. unfold clusters. rewrite Hd.
  unfold FatTable.copy_base. rewrite Hcnt, Hfs, Hres, Hre, Hf. split_and!; vm_compute; reflexivity.
Qed.
End Properties.

(** ** Witnesses *)
#[local] Instance no_port : PortIO unit := {|
  inb := λ _ d, (0, d); inw := λ _ d, (0, d); outb := λ _ _ d, d; outw := λ _ _ d, d |}.
#[local] Instance mem_primary : Primary mem_disk.
Proof.
  refine (Build_Primary _ _ _ _ (λ d, selected d = 0) _ _ _); [| done..].
  intros [dr sel] Hsel _. cbn in Hsel. subst sel. split_and!; done.
Defined.
Definition demo_installer : installer mem_disk unit :=
  Inst (replicate 512 0) INSTALLER_FS_FAT16 (Layout 0 0 0 0 0 0 0 0) FatMount.demo_disk
    (Terminal.Term (replicate 1000 (replicate 80 32)) (replicate 1000 (replicate 80 7)) 0 0 0 7 (replicate 2000 0) true true tt true)
    (Keyboard.Kb (replicate 256 0) 0 0 Keyboard.no_modifiers tt).
Definition demo_layout (fs : installer_fs_t) (n : Z) : layout := (calculate_layout fs n (vars demo_installer)).2.
Lemma demo_disk_holds : holds (disk demo_installer) FatMount.demo_image.
Proof. exact FatMount.demo_holds. Qed.

Section Sized.
#[local] Instance demo_size : SizedDisk mem_disk := {| disk_sectors := λ _, 70000 |}.
Lemma installer_format_mounts_witness :
  ∃ s' st, installer_format_filesystem_as INSTALLER_FS_FAT16 demo_installer = (INSTALLER_OK, s') ∧
    Fat.mount_drive 0 (Fat.FatState FatMount.blank_volume (disk s') 0 [] []) = (0, st) ∧ Fat.type (Fat.vol st) = Fat.FAT_TYPE_16.
Proof.
  destruct (installer_format_mounts INSTALLER_FS_FAT16 70000 demo_installer FatMount.demo_image (demo_layout INSTALLER_FS_FAT16 70000)
    FatMount.blank_volume 0 [] []) as (s' & st & S' & E1 & E2 & _ & E3 & _).
  - reflexivity.
  - exact demo_disk_holds.
  - reflexivity.
  - lia.
  - vm_compute. reflexivity.
  - eexists. vm_compute. reflexivity.
  - exists s', st. split; [exact E1 |]. split; [exact E2 | exact E3].
Defined.
Lemma installer_welcome_readable_witness :
  ∃ s' st b, check (installer_format_filesystem_as INSTALLER_FS_FAT16) installer_create_welcome_files demo_installer = (INSTALLER_OK, s') ∧
    Fat.fat_read (txt "welcome.txt") 512 st = (Fat.Val (Fat.ReadResult 0 (Some (zlen welcome)) welcome), b).
Proof.
  destruct (installer_welcome_readable INSTALLER_FS_FAT16 70000 demo_installer FatMount.demo_image (demo_layout INSTALLER_FS_FAT16 70000)
    FatMount.blank_volume 0 [] []) as (s' & st & b1 & b2 & E1 & _ & E2 & _).
  - reflexivity.
  - exact demo_disk_holds.
  - reflexivity.
  - lia.
  - vm_compute. reflexivity.
  - eexists. vm_compute. reflexivity.
  - discriminate.
  - exists s', st, b1. split; [exact E1 | exact E2].
Defined.
Lemma installer_fat32_replaces_boot_area_witness :
  ∃ s' S', installer_format_filesystem_as INSTALLER_FS_FAT32 demo_installer = (INSTALLER_OK, s') ∧ holds (disk s') S' ∧ S' 256 = fsinfo_sector.
Proof.
  destruct (installer_fat32_replaces_boot_area 70000 demo_installer FatMount.demo_image (demo_layout INSTALLER_FS_FAT32 70000))
    as (s' & S' & E1 & E2 & E3 & _).
  - reflexivity.
  - exact demo_disk_holds.
  - reflexivity.
  - lia.
  - vm_compute. reflexivity.
  - exists s', S'. split; [exact E1 |]. split; [exact E2 | exact E3].
Defined.
End Sized.
End InstallerProps.
