(* ===== verification/Commands.v ===== *)
(** * The shell commands (kernel/shell/commands.c, kernel/version.c)

    A command writes to the terminal and never reads it back, so that what it
    does there is a value: the list of the colours it sets and the strings it
    prints, which [emit] carries out on the terminal of Terminal.v.  A command
    without other effects is a function to such a list; a command on files is
    a computation over the file system, reached through the class
    [FileSystem]; a command on the network is one over the state of Net.v.
    [builtin] puts them together as the [builtin] of Shell.v.

    The argument of a command is the list of its characters; the shell never
    passes a null pointer.  [None] and [Undefined] are undefined behaviour:
    overflow of an [int] or a [long], or bytes of a buffer that were not
    written.  The commands that talk to the user at the keyboard (edit,
    install) take the keys or the keyboard as an argument, and the two that
    switch the machine off end in a halted one; in [builtin] these four are
    the parameter [interactive]. *)
From S2P Require Import Prelude.
From S2P Require Import Text.
From S2P Require Import PhysMem.
From S2P Require Import Pmm.
From S2P Require Import Vmm.
From S2P Require Import CString.
From S2P Require Import Ata.
From S2P Require Import BlockDev.
From S2P Require Import Heap.
From S2P Require Import Fat.
From S2P Require Import Process.
From S2P Require Import Keyboard.
From S2P Require Import Terminal.
From S2P Require Import Format.
From S2P Require Import Clock.
From S2P Require Import Net.
From S2P Require Import Vfs.
From S2P Require Import Fs.
From S2P Require Import Syscall.
From S2P Require Import Editor.
From S2P Require Import Shell.
From S2P Require Import Cpu.
From S2P Require Import Installer.
Import Ata Format.
Import (hints) Keyboard Terminal Net Fat Vfs Fs.

Module Commands.
Definition FS_MAX_FILENAME : Z := 256.
Definition FS_MAX_FILESIZE : Z := 16384.
Definition TIMER_HZ : Z := 100.
Definition KERNEL_VERSION_STRING : list Z := txt "2.0.0".
Definition KERNEL_CODENAME : list Z := txt "Nebula".

(** ** What a command sends to the terminal *)
Inductive out := Color (c : Z) | Str (s : list Z).
Definition say (s : String.string) : out := Str (txt s).
Arguments say _%_string_scope.
Definition sayln (s : String.string) : out := Str (line s).
Arguments sayln _%_string_scope.
Definition put (c : Z) : out := Str [c].
Definition fg (c : Z) : Z := Terminal.vga_entry_color c Terminal.VGA_COLOR_BLACK.
Definition light_grey : Z := fg 7.
Definition dark_grey : Z := fg 8.
Definition light_blue : Z := fg 9.
Definition light_green : Z := fg 10.
Definition light_cyan : Z := fg 11.
Definition light_red : Z := fg 12.
Definition emit1 {hw} `{PortIO hw} (t : Terminal.term (hw := hw)) (o : out) : Terminal.term :=
  match o with Color c => Terminal.terminal_setcolor c t | Str s => Terminal.terminal_write s t end.
Definition emit {hw} `{PortIO hw} (o : list out) (t : Terminal.term (hw := hw)) : Terminal.term := foldl emit1 t o.
(** The text, without the colours. *)
Definition text (o : list out) : list Z := o ≫= λ x, match x with Color _ => [] | Str s => s end.
Definition rule : out := sayln "========================================".

Definition print_uint32 (n : Z) : out := Str (digits_of 12 n).
Definition print_2digit (v : Z) : out := Str [48 + v / 10; 48 + v mod 10].
Definition hex_char (v : Z) : Z := if v <? 10 then 48 + v else 55 + v.
Definition print_hex_byte (b : Z) : out := Str [hex_char (Z.shiftr b 4); hex_char (Z.land b 0x0F)].
Definition print_hex (shifts : list Z) (v : Z) : list Z := (λ i, hex_char (Z.land (Z.shiftr v i) 0xF)) <$> shifts.
Definition print_hex16 (v : Z) : out := Str (txt "0x" ++ print_hex [12; 8; 4; 0] v).
Definition print_hex32 (v : Z) : out := Str (print_hex [28; 24; 20; 16; 12; 8; 4; 0] v).
Definition print_size (bytes : Z) : list out :=
  if 1024 * 1024 <=? bytes then [print_uint32 (u32 (bytes / (1024 * 1024))); say " MB"]
  else if 1024 <=? bytes then [print_uint32 (u32 (bytes / 1024)); say " KB"]
  else [print_uint32 (u32 bytes); say " B"].

(** ** Reading arguments *)
(** [while (s[i] && s[i] != ' ' && j < n) ...] and the rest of the string. *)
Fixpoint take_word (n : nat) (s : list Z) : list Z * list Z :=
  match n, s with
  | S n', c :: r => if c =? 32 then ([], s) else let '(w, r') := take_word n' r in (c :: w, r')
  | _, _ => ([], s)
  end.
Definition skip_spaces : list Z → list Z := Process.skip_spaces.
Definition is_dig (c : Z) : bool := (48 <=? c) && (c <=? 57).
(** Decimal digits, accumulated by [step]; [None] when the step overflows. *)
Fixpoint read_number (step : Z → option Z) (s : list Z) (v : Z) : option (Z * list Z) :=
  match s with
  | c :: r => if is_dig c then v ← step (v * 10 + (c - 48)); read_number step r v else Some (v, s)
  | [] => Some (v, [])
  end.
Definition as_int (v : Z) : option Z := if v <? 2 ^ 31 then Some v else None.
Definition as_long (v : Z) : option Z := if (- 2 ^ 63 <=? v) && (v <? 2 ^ 63) then Some v else None.
(** [split_two_args]; the flag is the result 0. *)
Definition split_two_args (s : list Z) (alen blen : Z) : bool * list Z * list Z :=
  let '(a, r) := take_word (Z.to_nat (alen - 1)) s in
  let b := take (Z.to_nat (blen - 1)) (skip_spaces r) in
  (negb (bool_decide (a = [])) && negb (bool_decide (b = [])), a, b).
Definition streq (a b : list Z) : bool := Shell.strcmp_eq a b.

(** ** Information *)
Definition cmd_help : list out := [
   Color light_cyan; sayln "AO OS - Available Commands:"; Color light_grey; sayln "  help     - Display this help message";
   sayln "  clear    - Clear the screen"; sayln "  echo     - Print text to the screen"; sayln "  about    - Display OS information";
   sayln "  kernel   - Kernel information (usage: kernel -v or --version)"; sayln "  sysinfo  - Display system information";
   sayln "  diskinfo - Display disk information"; sayln "  netstat  - Display network stack status";
   sayln "  ping     - Send ICMP/ARP packet (usage: ping <ipv4>)"; sayln "  udp-send - Send UDP packet (usage: udp-send <ip> <port> <text>)";
   sayln "  udp-listen - Show last received UDP packet"; sayln "  sconsole - Serial console status (usage: sconsole --status)";
   sayln "  checkfs  - Display current filesystem type"; sayln "  mount    - Mount pseudo filesystem (usage: mount <type> <path>)";
   sayln "  umount   - Unmount filesystem (usage: umount <path>)"; sayln "  mounts   - List mounted filesystems";
   sayln "  install  - Install AO OS to disk"; sayln "  ls       - List files in filesystem";
   sayln "  cat      - Display file contents (usage: cat <filename>)"; sayln "  edit     - Edit file (usage: edit <filename>)";
   sayln "  write    - Write to file (usage: write <filename> <content>)"; sayln "  rm       - Remove file (usage: rm <filename>)";
   sayln "  touch    - Create empty file (usage: touch <filename>)"; sayln "  mkdir    - Create directory (usage: mkdir <dirname>)";
   sayln "  rmdir    - Remove directory (usage: rmdir <dirname>)"; sayln "  cd       - Change directory (usage: cd <dirname>)";
   sayln "  pwd      - Print working directory"; sayln "  cp       - Copy file (usage: cp <src> <dest>)";
   sayln "  mv       - Move file (usage: mv <src> <dest>)"; sayln "  rename   - Rename file (usage: rename <old> <new>)";
   sayln "  which    - Find command or file (usage: which <name>)"; sayln "  tree     - Show directory tree";
   sayln "  hexdump  - Hex dump of file (usage: hexdump <filename>)"; sayln "  wc       - Word/line/char count (usage: wc <filename>)";
   sayln "  head     - Show first N lines (usage: head <filename> [N])"; sayln "  mem      - Display memory usage information";
   sayln "  uptime   - Display system uptime"; sayln "  date     - Display current date and time";
   sayln "  sleep    - Wait N seconds (usage: sleep <seconds>)"; sayln "  history  - Show command history";
   sayln "  neofetch - Display system info with ASCII art"; sayln "  calc     - Calculator (usage: calc 10 + 3)";
   sayln "  ps       - List running processes"; sayln "  kill     - Terminate a process (usage: kill <pid>)";
   sayln "  waitpid  - Wait for a process (usage: waitpid <pid>)"; sayln "  reap     - Clean up finished background processes";
   sayln "  color    - Change text color (usage: color <foreground>)"; sayln "  reboot   - Restart the computer";
   sayln "  shutdown - Shutdown the computer"; Str [10]; sayln "Executables:"; sayln "  *.aob    - Run AOB executable (e.g., hello.aob)";
   sayln "  *.elf    - Run ELF64 executable (ET_EXEC)"; sayln "  &        - Append to *.aob/*.elf to run in background";
   sayln "  *.bin    - Run raw binary (e.g., hello.bin)"; Str ([10] ++ line "Available colors:");
   sayln "  black, blue, green, cyan, red, magenta, brown,"; sayln "  light_grey, dark_grey, light_blue, light_green,";
   sayln "  light_cyan, light_red, light_magenta, yellow, white"].
Definition cmd_echo (args : list Z) : list out :=
  if bool_decide (args = []) then [] else [Str args; Str [10]].
Definition cmd_about : list out := [
   Color light_cyan; rule; sayln "  AO OS - Aleksandar Ovcharov's OS"; rule;
   Color light_grey; say "Version: "; Color light_green; Str (KERNEL_VERSION_STRING ++ [10]);
   Color light_grey; say "Architecture: "; Color light_green; sayln "x86_64 (64-bit)";
   Color light_grey; say "Author: "; Color light_green; sayln "Aleksandar Ovcharov";
   Color light_grey; Str [10]; sayln "A simple operating system written in"; sayln "C and Assembly for educational purposes.";
   Color light_cyan; rule; Color light_grey].

Definition kernel_print_version : list out := [
   Color light_cyan; say "AO OS Kernel "; Color light_green; Str KERNEL_VERSION_STRING; Color light_grey; Str [10]].
(** [build_date] is the [__DATE__] of the compiler. *)
Definition kernel_print_full_info (build_date : list Z) : list out := [
   Color light_cyan; rule; sayln "  AO OS Kernel Information"; rule;
   Color light_grey; say "Version:     "; Color light_green; Str KERNEL_VERSION_STRING; Str [10];
   Color light_grey; say "Codename:    "; Color light_green; Str KERNEL_CODENAME; Str [10];
   Color light_grey; say "Build Date:  "; Color light_green; Str build_date; Str [10];
   Color light_cyan; rule; Color light_grey].
Definition cmd_kernel (build_date args : list Z) : list out :=
  if bool_decide (args = []) then [sayln "Usage: kernel [--version | -v]"]
  else if streq args (txt "--version") || streq args (txt "-v") then kernel_print_full_info build_date
  else [Color light_red; say "Unknown option: "; Str args; Str [10]; Color light_grey; sayln "Usage: kernel [--version | -v]"].

Definition color_names : list (list Z * Z) := [
  (txt "black", 0); (txt "blue", 1); (txt "green", 2); (txt "cyan", 3); (txt "red", 4); (txt "magenta", 5); (txt "brown", 6);
  (txt "light_grey", 7); (txt "dark_grey", 8); (txt "light_blue", 9); (txt "light_green", 10); (txt "light_cyan", 11);
  (txt "light_red", 12); (txt "light_magenta", 13); (txt "yellow", 14); (txt "white", 15)].
Definition parse_color (name : list Z) : Z :=
  match List.find (λ p, streq name p.1) color_names with Some (_, c) => c | None => 7 end.
(** The colour for [shell_set_color], if the command changes it. *)
Definition cmd_color (args : list Z) : option Z * list out :=
  if bool_decide (args = []) then (None, [sayln "Usage: color <foreground>"; sayln "Example: color light_green"]) else
  let c := fg (parse_color (take_word 31 args).1) in
  (Some c, [Color c; sayln "Color changed successfully!"]).

Definition cmd_mem (pm : Pmm.pmm_state) (heap : Heap.heap_state) : list out :=
  [Color light_cyan; rule; sayln "  Memory Information"; rule;
   Color light_cyan; sayln "Physical Memory:";
   Color light_grey; say "  Total RAM:   "; Color light_green] ++ print_size (Pmm.pmm_get_total_memory pm) ++ [Str [10];
   Color light_grey; say "  Free Pages:  "; Color light_green] ++ print_size (u64 (Pmm.pmm_get_free_pages pm * 4096)) ++
  [Color dark_grey; sayln "  (4 KB pages)";
   Color light_grey; say "  Used Pages:  "; Color light_green] ++
  print_size (u64 ((Pmm.pmm_get_total_pages pm - Pmm.pmm_get_free_pages pm) * 4096)) ++ [Str [10];
   Color light_cyan; sayln "Kernel Heap:";
   Color light_grey; say "  Total Heap:  "; Color light_green] ++ print_size Heap.HEAP_SIZE ++ [Str [10];
   Color light_grey; say "  Used:        "; Color light_green] ++ print_size (Heap.memory_get_used heap) ++ [Str [10];
   Color light_grey; say "  Free:        "; Color light_green] ++ print_size (Heap.memory_get_free heap) ++ [Str [10];
   Color light_cyan; rule; Color light_grey].

Definition cmd_uptime (ticks : Z) : list out :=
  let seconds := ticks / TIMER_HZ in
  let minutes := seconds / 60 in
  let hours := minutes / 60 in
  let days := hours / 24 in
  let seconds := seconds mod 60 in
  let minutes := minutes mod 60 in
  let hours := hours mod 24 in
  [Color light_cyan; say "System Uptime: "; Color light_green] ++
  (if 0 <? days then [print_uint32 days; say (if 1 <? days then " days " else " day ")] else []) ++
  (if (0 <? hours) || (0 <? days) then [print_uint32 hours; say "h "] else []) ++
  (if (0 <? minutes) || (0 <? hours) || (0 <? days) then [print_uint32 minutes; say "m "] else []) ++
  [print_uint32 seconds; say "s"; Color light_grey; Str [10]].

(** The brand without its leading spaces, or the vendor. *)
Definition cpu_name (c : Cpu.cpu_info_t) : out :=
  let b := skip_spaces (until_nul (Cpu.brand c)) in
  Str (if bool_decide (b = []) then until_nul (Cpu.vendor c) else b).
Definition feature (reg mask : Z) (name : String.string) : list out :=
  if Z.land reg mask =? 0 then [] else [say name].
Arguments feature _ _ _%_string_scope.
Definition usage_bar (filled : Z) : list out :=
  seqZ 0 20 ≫= λ b, if b <? filled then [Color light_green; put 35] else [Color light_grey; put 46].
Definition disk_report (total_kb used_kb free_kb : Z) : list out :=
  if 0 <? total_kb then
    [Color light_grey; say "Disk:   "; Color light_green; print_uint32 total_kb; say " KB total  ";
     Color light_green; print_uint32 used_kb; say " KB used  ";
     Color (if free_kb *32 10 <? total_kb then light_red else light_green); print_uint32 free_kb; sayln " KB free";
     Color light_grey; say "        ["] ++
    usage_bar (i32 ((used_kb *32 20) / total_kb)) ++
    [Color light_grey; say "] "; Color light_green; print_uint32 ((used_kb *32 100) / total_kb); sayln "%"]
  else [Color light_grey; sayln "Disk:   N/A (ramfs)"].
Definition cmd_sysinfo (c : Cpu.cpu_info_t) (pm : Pmm.pmm_state) (ticks : Z) (disk : Z * Z * Z) : list out :=
  let '(total_kb, used_kb, free_kb) := disk in
  [Color light_cyan; say "AO OS "; Color light_green; Str KERNEL_VERSION_STRING; Str [10];
   Color light_grey; say "CPU:    "; Color light_green; cpu_name c; Str [10];
   Color light_grey; say "Arch:   "; Color light_green; say "x86_64 (64-bit)"] ++
  feature (Cpu.ext_features c) Cpu.CPU_EXT_NX ", NX" ++ [Str [10]; Color light_grey; say "Feat:   "; Color light_green] ++
  feature (Cpu.features_edx c) Cpu.CPU_FEAT_FPU "FPU " ++ feature (Cpu.features_edx c) Cpu.CPU_FEAT_SSE "SSE " ++
  feature (Cpu.features_edx c) Cpu.CPU_FEAT_SSE2 "SSE2 " ++ feature (Cpu.features_ecx c) Cpu.CPU_FEAT_SSE3 "SSE3 " ++
  feature (Cpu.features_ecx c) Cpu.CPU_FEAT_SSE41 "SSE4.1 " ++ feature (Cpu.features_ecx c) Cpu.CPU_FEAT_SSE42 "SSE4.2 " ++
  feature (Cpu.features_ecx c) Cpu.CPU_FEAT_AVX "AVX " ++ feature (Cpu.features_edx c) Cpu.CPU_FEAT_APIC "APIC " ++
  [Str [10]; Color light_grey; say "RAM:    "; Color light_green] ++ print_size (Pmm.pmm_get_total_memory pm) ++
  [Str [10]; Color light_grey; say "Uptime: "; Color light_green; print_uint32 (ticks / TIMER_HZ); sayln "s"] ++
  disk_report total_kb used_kb free_kb ++ [Color light_grey].

Definition cmd_diskinfo (available : bool) : list out :=
  [Color light_cyan; rule; sayln "  Disk Information"; rule; Color light_grey; say "ATA Controller: "] ++
  (if available then
     [Color light_green; sayln "Primary (0x1F0)"; Color light_grey; say "Status:         "; Color light_green; sayln "Available";
      Color light_grey; say "Mode:           "; Color light_green; sayln "PIO";
      Color light_grey; say "Addressing:     "; Color light_green; sayln "LBA28"]
   else [Color light_red; sayln "Not detected"; Color light_grey; say "Status:         "; Color light_red; sayln "Unavailable"]) ++
  [Color light_cyan; rule; Color light_grey].

Definition cmd_sconsole (serial_initialized : bool) (args : list Z) : list out :=
  if bool_decide (args = []) then [sayln "Usage: sconsole --status"]
  else if streq args (txt "--status") then
    [Color light_cyan; rule; sayln "  Serial Console Status"; rule;
     Color light_grey; say "Port:           "; Color light_green; sayln "COM1 (0x3F8)"; Color light_grey; say "Status:         "] ++
    (if serial_initialized then
       [Color light_green; sayln "Initialized"; Color light_grey; say "Baud Rate:      "; Color light_green; sayln "115200";
        Color light_grey; say "Data Bits:      "; Color light_green; sayln "8";
        Color light_grey; say "Parity:         "; Color light_green; sayln "None";
        Color light_grey; say "Stop Bits:      "; Color light_green; sayln "1";
        Color light_grey; say "QEMU:           "; Color light_green; sayln "Use -serial stdio"]
     else [Color light_red; sayln "Not initialized"]) ++
    [Color light_cyan; rule; Color light_grey]
  else [Color light_red; say "Unknown option: "; Str args; Str [10]; Color light_grey; sayln "Usage: sconsole --status"].

Definition cmd_checkfs (fs_type : list Z) : list out :=
  [Color light_cyan; rule; sayln "  Filesystem Information"; rule;
   Color light_grey; say "Current filesystem: "; Color light_green; Str fs_type; Str [10];
   Color light_grey; say "Status: "; Color light_green;
   if Shell.strncmp_eq fs_type (txt "FAT") 3 then sayln "Persistent storage (disk-backed)" else sayln "Volatile storage (RAM-backed)";
   Color light_cyan; rule; Color light_grey].

Definition cmd_divan : list out := replicate 10 (sayln "Ne").

Definition wday_names : list (list Z) :=
  [txt "???"; txt "Sun"; txt "Mon"; txt "Tue"; txt "Wed"; txt "Thu"; txt "Fri"; txt "Sat"].
Definition month_names : list (list Z) :=
  [txt "???"; txt "Jan"; txt "Feb"; txt "Mar"; txt "Apr"; txt "May"; txt "Jun"; txt "Jul"; txt "Aug"; txt "Sep"; txt "Oct"; txt "Nov"; txt "Dec"].
Definition print_time (t : Clock.rtc_time_t) : list out :=
  [print_2digit (Clock.hour t); put 58; print_2digit (Clock.minute t); put 58; print_2digit (Clock.second t)].
Definition cmd_date (t : Clock.rtc_time_t) : list out :=
  let wday := if (1 <=? Clock.weekday t) && (Clock.weekday t <=? 7) then wday_names.[Clock.weekday t] else txt "???" in
  let month := if (1 <=? Clock.month t) && (Clock.month t <=? 12) then month_names.[Clock.month t] else txt "???" in
  [Color light_green; Str wday; Color light_grey; say " "; Color light_green; Str month; say " "; print_2digit (Clock.day t);
   say " "; print_uint32 (Clock.year t); say " "] ++ print_time t ++ [Color light_grey; sayln " UTC"].

(** [history] and [history_count] of shell.c *)
Definition cmd_history (history : list (list Z)) (history_count : Z) : list out :=
  if history_count =? 0 then [sayln "No history."] else
  seqZ 0 history_count ≫= λ k,
    let i := history_count - 1 - k in
    [Color dark_grey; print_uint32 (u32 (history_count - i)); say "  "; Color light_grey; Str (until_nul history.[i]); Str [10]].

Definition palette (c : Z) : list out := [Color (Terminal.vga_entry_color c c); say "  "].
Definition indent31 : out := say "                               ".
Definition cmd_neofetch (c : Cpu.cpu_info_t) (pm : Pmm.pmm_state) (heap : Heap.heap_state) (ticks : Z) (t : Clock.rtc_time_t) : list out :=
  let secs := ticks / TIMER_HZ in
  let mins := secs / 60 in
  let hours := mins / 60 in
  let secs := secs mod 60 in
  let mins := mins mod 60 in
  [Color light_cyan; say "     _    ___     ___  ____    "; Color light_green; say "root"; Color dark_grey; say "@"; Color light_green; sayln "ao-os";
   Color light_cyan; say "    / \  / _ \   / _ \/ ___|   "; Color dark_grey; sayln "---------------------";
   Color light_cyan; say "   / _ \| | | | | | | \___ \   "; Color light_grey; say "OS: "; Color light_green;
   Str (txt "AO OS " ++ KERNEL_VERSION_STRING ++ txt " " ++ KERNEL_CODENAME ++ [10]);
   Color light_cyan; say "  / ___ \ |_| | | |_| |___) |  "; Color light_grey; say "Arch: "; Color light_green; sayln "x86_64";
   Color light_cyan; say " /_/   \_\___/   \___/|____/   "; Color light_grey; say "CPU: "; Color light_green; cpu_name c; Str [10];
   Color light_cyan; indent31; Color light_grey; say "Mem: "; Color light_green] ++
  print_size (Heap.memory_get_used heap) ++ [say " / "] ++ print_size (Pmm.pmm_get_total_memory pm) ++
  [Str [10]; Color light_cyan; indent31; Color light_grey; say "Uptime: "; Color light_green] ++
  (if 0 <? hours then [print_uint32 hours; say "h "] else []) ++
  [print_uint32 mins; say "m "; print_uint32 secs; sayln "s";
   indent31; Color light_grey; say "Shell: "; Color light_green; sayln "aosh";
   indent31; Color light_grey; say "Time: "; Color light_green] ++ print_time t ++ [sayln " UTC"; indent31] ++
  (seqZ 0 8 ≫= palette) ++ [Str ([10] ++ txt "                               ")] ++ (seqZ 8 8 ≫= palette) ++ [Str [10]; Color light_grey].

(** ** calc *)
Definition calc_number (s : list Z) : option (option (Z * list Z)) :=
  let '(neg, s) := match s with c :: r => if c =? 45 then (true, r) else (false, s) | [] => (false, s) end in
  match s with
  | c :: _ =>
      if is_dig c then '(v, r) ← read_number as_long s 0; Some (Some (if (neg : bool) then - v else v, r)) else Some None
  | [] => Some None
  end.
Definition calc_error (s : String.string) : option (list out) := Some [sayln s].
Arguments calc_error _%_string_scope.
Definition calc_result (op a b : Z) : option (option Z) :=
  if op =? 43 then r ← as_long (a + b); Some (Some r)
  else if op =? 45 then r ← as_long (a - b); Some (Some r)
  else if op =? 42 then r ← as_long (a * b); Some (Some r)
  else if b =? 0 then Some None
  else if op =? 47 then r ← as_long (Z.quot a b); Some (Some r)
  else r ← as_long (Z.rem a b); Some (Some r).
Definition calc_print (result : Z) : option (list out) :=
  r ← (if result <? 0 then as_long (- result) else Some result);
  Some ([Color light_grey; say "= "; Color light_green] ++ (if result <? 0 then [put 45] else []) ++
        [print_uint32 (u32 r); Color light_grey; Str [10]]).
Definition cmd_calc (args : list Z) : option (list out) :=
  if bool_decide (args = []) then Some [sayln "Usage: calc <expr>  (e.g. calc 10 + 3)"; sayln "Operators: + - * / %"] else
  n1 ← calc_number (skip_spaces args);
  match n1 with
  | None => calc_error "Error: Expected number"
  | Some (a, s) =>
      let s := skip_spaces s in
      let op := default 0 (head s) in
      if negb (bool_decide (op ∈ [43; 45; 42; 47; 37])) then
        Some [say "Error: Unknown operator '"; put op; sayln "'"]
      else
      n2 ← calc_number (skip_spaces (tail s));
      match n2 with
      | None => calc_error "Error: Expected number"
      | Some (b, _) =>
          r ← calc_result op a b;
          match r with
          | None => calc_error "Error: Division by zero"
          | Some r => calc_print r
          end
      end
  end.

(** ** The network *)
Section Network.
Context {hw : Type} `{Net.NetEnv hw}.
(** The contents of uninitialised buffers. *)
Context (junk : Z → Z).

Definition digit_of (v : Z) : out := put (48 + v mod 10).
Definition netstat_text (s : Net.net_status_t) : list out :=
  [say "Network stack: "; if Net.initialized s then sayln "initialized" else sayln "not initialized";
   say "Driver:        "; Str (Net.net_driver_name (Net.driver s)); Str [10];
   say "TX packets:    "; print_uint32 (Net.packets_tx s); Str ([10] ++ txt "RX packets:    "); print_uint32 (Net.packets_rx s);
   Str ([10] ++ txt "IRQs:          "); print_uint32 (Net.irq_count s); Str ([10] ++ txt "RX errors:     "); print_uint32 (Net.rx_errors s);
   Str ([10] ++ txt "Dropped:       "); print_uint32 (Net.dropped s); Str ([10] ++ txt "Checksum err:  ");
   print_uint32 (Net.checksum_errors s); Str ([10] ++ txt "ARP entries:   "); print_uint32 (Net.arp_entries s); Str [10]] ++
  (if bool_decide (Net.driver s = Net.NET_DRIVER_NONE) then [] else
   [say "PCI:           bus "; digit_of (Net.s_bus s); say ", slot "; digit_of (Net.s_slot s); say ", function "; digit_of (Net.s_function s);
    say ", irq "; print_uint32 (Net.s_irq s); Str ([10] ++ txt "Vendor:        "); print_hex16 (Net.s_vendor_id s);
    Str ([10] ++ txt "Device:        "); print_hex16 (Net.s_device_id s);
    Str ([10] ++ txt "I/O base:      "); print_hex16 (u16 (Net.io_base s)); Str [10]]) ++
  [sayln "Protocols:     ARP cache, IPv4 dispatch, ICMP echo TX/RX"].
Definition cmd_netstat : Net.nm (list out) := Net.net_poll junk;; s ← Net.n_get Net.status; mret (netstat_text s).

Definition cmd_udp_send (args : list Z) : Net.nm (list out) :=
  if bool_decide (args = []) then mret [sayln "Usage: udp-send <ip> <port> <text>"] else
  let '(ipbuf, r) := take_word 31 args in
  match read_number (λ v, Some (u32 v)) (skip_spaces r) 0 with
  | None => λ _, None
  | Some (port, r) =>
      let text := skip_spaces r in
      if bool_decide (ipbuf = []) || (port =? 0) || (65535 <? port) || bool_decide (text = []) then
        mret [sayln "Usage: udp-send <ip> <port> <text>"] else
      let ip := net_parse_ipv4 ipbuf in
      if ip =? 0 then mret [sayln "Invalid IPv4 address"] else
      r ← Net.net_send_udp junk ip (u16 port) text (u16 (zlen text));
      mret [if (0 <? r) || (r =? 0) then sayln "udp packet queued or ARP requested" else sayln "udp-send failed"]
  end.

Definition cmd_udp_listen : Net.nm (list out) :=
  Net.net_poll junk;; r ← Net.n_get (Net.net_format_udp 512);
  mret (match r with Some (b, _) => [Str (until_nul b)] | None => [sayln "udp-listen failed"] end).

Definition cmd_ping (args : list Z) : Net.nm (list out) :=
  if bool_decide (args = []) then mret [sayln "Usage: ping <ipv4>"] else
  let ip := net_parse_ipv4 args in
  if ip =? 0 then mret [sayln "Invalid IPv4 address"] else
  r ← Net.net_ping_ipv4 junk ip;
  mret [if 0 <? r then sayln "ping reply received" else if r =? 0 then sayln "ping timed out or ARP unresolved"
        else sayln "ping failed: no supported NIC or TX error"].
End Network.

(** ** Files *)
(** The operations of fs.c on the state [F]; reading and creating are those of
    the classes [FileReader] and [FileStore].  [fs_listing] is the array that
    the last [fs_list] returned a pointer to, as it is now. *)
Class FileSystem (F : Type) := {
  fs_delete : list Z → Fat.fm F Z;
  fs_list : Fat.fm F (Z * list Fat.fs_file_info);
  fs_listing : F → list Fat.fs_file_info;
  fs_mkdir : list Z → Fat.fm F Z;
  fs_rmdir : list Z → Fat.fm F Z;
  fs_chdir : list Z → Fat.fm F Z;
  fs_getcwd : F → list Z;
  fs_get_type : F → list Z;
  fs_get_disk_info : Fat.fm F (Z * Z * Z);
  fs_mount : list Z → list Z → F → Z * F;
  fs_umount : list Z → F → Z * F;
  fs_mounts : Z → F → option (list Z * Z);
  disk_available : F → bool
}.

Section Files.
Context {F : Type} `{Syscall.FileReader F} `{!Editor.FileStore F} `{!FileSystem F}.
Context (procs : list Process.process_t).
#[local] Abbreviation fm := (Fat.fm F).

Definition gets {A} (g : F → A) : fm A := λ f, (Fat.Val (g f), f).
Definition plain {A} (g : F → A * F) : fm A := λ f, let '(a, f) := g f in (Fat.Val a, f).
Definition fs_read (name : list Z) : fm Fat.read_result := Syscall.file_read procs name FS_MAX_FILESIZE.
(** The bytes that a successful read has left in the buffer. *)
Definition bytes_of (r : Fat.read_result) : fm (list Z) :=
  match Fat.rr_size r with
  | Some n => if n <=? zlen (Fat.rr_buf r) then mret (take (Z.to_nat n) (Fat.rr_buf r)) else Fat.undefined
  | None => Fat.undefined
  end.
Definition complain (msg : String.string) (arg : list Z) : list out :=
  [Color light_red; say msg; Str arg; Str [10]; Color light_grey].
Arguments complain _%_string_scope.
Definition confirm (msg : String.string) (arg : list Z) : list out :=
  [Color light_green; say msg; Str arg; Str [10]; Color light_grey].
Arguments confirm _%_string_scope.
Definition fail (msg : String.string) : list out := [Color light_red; sayln msg; Color light_grey].
Arguments fail _%_string_scope.
(** [if (!args || !*args) { usage; return; }] *)
Definition with_args (usage : String.string) (args : list Z) (c : fm (list out)) : fm (list out) :=
  if bool_decide (args = []) then mret [sayln usage] else c.
Arguments with_args _%_string_scope.
(** A file read in full, or the message. *)
Definition with_file (name : list Z) (msg : String.string) (k : list Z → fm (list out)) : fm (list out) :=
  r ← fs_read name;
  if negb (Fat.rr_rc r =? 0) then mret (complain msg name) else
  b ← bytes_of r; k b.
Arguments with_file _ _%_string_scope.

Definition ls_line (f : Fat.fs_file_info) : list out :=
  if Fat.f_used f =? 0 then []
  else if negb (Fat.f_is_directory f =? 0) then [Color light_blue; say "[DIR] "; Str (Fat.f_name f); Str [10]]
  else [Color light_cyan; Str (Fat.f_name f); Color light_grey; say " ("; print_uint32 (Fat.f_size f); sayln " bytes)"].
Definition cmd_ls : fm (list out) :=
  '(rc, files) ← fs_list;
  mret (if negb (rc =? 0) then [sayln "Failed to list files"]
        else if zlen files =? 0 then [sayln "No files found"]
        else (take 224 files ≫= ls_line) ++ [Color light_grey]).

Definition cmd_cat (args : list Z) : fm (list out) :=
  with_args "Usage: cat <filename>" args (
  with_file args "Error: File not found: " (λ b, mret [Str b; Str [10]])).

Definition cmd_write (args : list Z) : fm (list out) :=
  with_args "Usage: write <filename> <content>" args (
  let '(filename, r) := take_word (Z.to_nat (FS_MAX_FILENAME - 1)) args in
  let content := skip_spaces r in
  if bool_decide (content = []) then mret [sayln "Usage: write <filename> <content>"] else
  let size := u32 (zlen content) in
  if FS_MAX_FILESIZE <? size then mret (fail "Error: Content too large (max 512 bytes)") else
  rc ← Editor.file_create filename (content ++ [0]) size;
  mret (if rc =? 0 then confirm "File written: " filename else fail "Error: Could not write file (filesystem full?)")).

Definition cmd_rm (args : list Z) : fm (list out) :=
  with_args "Usage: rm <filename>" args (
  rc ← fs_delete args;
  mret (if rc =? 0 then confirm "File removed: " args else complain "Error: File not found: " args)).

Definition cmd_touch (args : list Z) : fm (list out) :=
  with_args "Usage: touch <filename>" args (
  rc ← Editor.file_create args [0] 0;
  mret (if rc =? 0 then confirm "File created: " args else fail "Error: Cannot create file (must be in root /)")).

Definition cmd_mount (args : list Z) : fm (list out) :=
  with_args "Usage: mount <proc|dev|ramfs|root> <path>" args (
  let '(type, r) := take_word 31 args in
  let '(path, _) := take_word 63 (skip_spaces r) in
  if bool_decide (type = []) || bool_decide (path = []) then mret [sayln "Usage: mount <proc|dev|ramfs|root> <path>"] else
  rc ← plain (fs_mount type path);
  mret (if rc =? 0 then [say "Mounted "; Str type; say " at "; Str path; Str [10]] else [sayln "mount failed"])).

Definition cmd_umount (args : list Z) : fm (list out) :=
  with_args "Usage: umount <path>" args (
  rc ← plain (fs_umount args);
  mret (if rc =? 0 then [say "Unmounted "; Str args; Str [10]] else [sayln "umount failed"])).

Definition cmd_mounts : fm (list out) :=
  r ← gets (fs_mounts 1024);
  mret (match r with Some (b, _) => [Str (until_nul b)] | None => [sayln "Failed to list mounts"] end).

Definition cmd_mkdir (args : list Z) : fm (list out) :=
  with_args "Usage: mkdir <dirname>" args (
  rc ← fs_mkdir args;
  mret (if rc =? 0 then confirm "Directory created: " args else fail "Error: Could not create directory")).

Definition cmd_rmdir (args : list Z) : fm (list out) :=
  with_args "Usage: rmdir <dirname>" args (
  rc ← fs_rmdir args;
  mret (if rc =? 0 then confirm "Directory removed: " args else fail "Error: Directory not found or not empty")).

Definition cmd_cd (args : list Z) : fm (list out) :=
  with_args "Usage: cd <dirname>" args (
  rc ← fs_chdir args;
  cwd ← gets fs_getcwd;
  mret (if rc =? 0 then confirm "Changed directory to: " cwd else fail "Failed to change directory")).

Definition cmd_pwd : fm (list out) :=
  cwd ← gets fs_getcwd; mret [Color light_cyan; Str cwd; Str [10]; Color light_grey].

(** The copy that [cp] and [mv] share: read, create, then [k]. *)
Definition copy_file (usage : String.string) (args : list Z) (k : list Z → list Z → fm (list out)) : fm (list out) :=
  with_args usage args (
  let '(ok, src, dest) := split_two_args args FS_MAX_FILENAME FS_MAX_FILENAME in
  if negb ok then mret [sayln usage] else
  with_file src "Error: Source not found: " (λ b,
    rc ← Editor.file_create dest b (zlen b);
    if negb (rc =? 0) then mret (complain "Error: Could not create: " dest) else k src dest)).
Arguments copy_file _%_string_scope.
Definition cmd_cp (args : list Z) : fm (list out) :=
  copy_file "Usage: cp <src> <dest>" args (λ src dest,
    mret [Color light_green; Str src; say " -> "; Str dest; Str [10]; Color light_grey]).
Definition cmd_mv (args : list Z) : fm (list out) :=
  copy_file "Usage: mv <src> <dest>" args (λ src dest,
    _ ← fs_delete src;
    mret [Color light_green; Str src; say " => "; Str dest; Str [10]; Color light_grey]).
Definition cmd_rename (args : list Z) : fm (list out) := cmd_mv args.

Definition builtins : list (list Z) :=
  [txt "help"; txt "clear"; txt "echo"; txt "about"; txt "kernel"; txt "sysinfo"; txt "diskinfo";
   txt "sconsole"; txt "checkfs"; txt "install"; txt "ls"; txt "cat"; txt "edit"; txt "write"; txt "rm";
   txt "touch"; txt "mkdir"; txt "rmdir"; txt "cd"; txt "pwd"; txt "mem"; txt "uptime"; txt "color";
   txt "reboot"; txt "shutdown"; txt "cp"; txt "mv"; txt "rename"; txt "which"; txt "tree";
   txt "date"; txt "hexdump"; txt "wc"; txt "head"; txt "sleep"; txt "history"; txt "neofetch"; txt "calc";
   txt "ps"; txt "kill"; txt "divan"].
Definition cmd_which (args : list Z) : fm (list out) :=
  with_args "Usage: which <name>" args (
  if existsb (λ b, streq b args) builtins then mret [Color light_green; Str args; sayln ": shell built-in"; Color light_grey] else
  '(rc, files) ← fs_list;
  let hit f := negb (Fat.f_used f =? 0) && (Fat.f_is_directory f =? 0) && streq (Fat.f_name f) args in
  mret (match (if rc =? 0 then List.find hit files else None) with
        | Some f => [Color light_cyan; Str (Fat.f_name f); sayln ": executable on disk"; Color light_grey]
        | None => [Color light_red; Str args; sayln ": not found"; Color light_grey]
        end)).

(** ** tree *)
(** [for (i = 0; i < count; i++)] over the entries, read from the array when
    their turn comes. *)
Fixpoint each_entry (visit : Fat.fs_file_info → fm (list out)) (count : nat) (i : Z) (acc : list out) : fm (list out) :=
  match count with
  | O => mret acc
  | S count' =>
      files ← gets fs_listing;
      o ← visit (default (Fat.FileInfo [] 0 0 0) (files !! Z.to_nat i));
      each_entry visit count' (i + 1) (acc ++ o)
  end.
Definition tree_entry (depth : nat) (sub : option (list Z → fm (list out))) (f : Fat.fs_file_info) : fm (list out) :=
  if Fat.f_used f =? 0 then mret [] else
  let head := replicate depth (say "  ") ++ [say "|-- "] in
  if negb (Fat.f_is_directory f =? 0) then
    let head := head ++ [Color light_blue; say "["; Str (Fat.f_name f); sayln "]"; Color light_grey] in
    match sub with
    | Some descend => o ← descend (Fat.f_name f); _ ← fs_chdir (txt ".."); mret (head ++ o)
    | None => mret head
    end
  else mret (head ++ [Color light_grey; Str (Fat.f_name f); Color dark_grey; say " ("; print_uint32 (Fat.f_size f); sayln "B)"]).
(** [n] levels are left below this one, at depth [4 - n]. *)
Fixpoint tree_print_dir (n : nat) (path : list Z) : fm (list out) :=
  let depth := (4 - n)%nat in
  rc ← (if bool_decide (0 < depth)%nat then fs_chdir path else mret 0);
  if negb (rc =? 0) then mret [] else
  '(rc, files) ← fs_list;
  if negb (rc =? 0) then mret [] else
  o ← each_entry (tree_entry depth (match n with O => None | S n' => Some (tree_print_dir n') end)) (length files) 0 [];
  mret (o ++ [Color light_grey]).
Definition cmd_tree : fm (list out) :=
  cwd ← gets fs_getcwd;
  o ← tree_print_dir 4 (txt ".");
  mret ([Color light_cyan; Str cwd; Str [10]] ++ o ++ [Color light_grey]).

(** ** hexdump, wc, head *)
Definition printable (c : Z) : Z := if (32 <=? c) && (c <? 127) then c else 46.
Definition hex_cell (b : list Z) (off i : Z) : list out :=
  (if off + i <? zlen b then [print_hex_byte b.[off + i]] else [say "  "]) ++ [put 32] ++ (if i =? 7 then [put 32] else []).
Definition hexdump_line (b : list Z) (off : Z) : list out :=
  [Color dark_grey; print_hex32 off; say "  "; Color light_cyan] ++ (seqZ 0 16 ≫= hex_cell b off) ++
  [say " "; Color light_green; put 124] ++
  (seqZ 0 16 ≫= λ i, if off + i <? zlen b then [put (printable b.[off + i])] else []) ++ [put 124; Str [10]].
Definition hexdump_text (b : list Z) : list out :=
  (seqZ 0 ((zlen b + 15) / 16) ≫= λ k, hexdump_line b (16 * k)) ++ [Color light_grey; print_uint32 (zlen b); sayln " bytes"].
Definition cmd_hexdump (args : list Z) : fm (list out) :=
  with_args "Usage: hexdump <filename>" args (
  with_file args "Error: File not found: " (λ b, mret (hexdump_text b))).

Record counts := Counts { c_lines : Z; c_words : Z; in_word : bool }.
Definition is_blank (c : Z) : bool := (c =? 32) || (c =? 10) || (c =? 9) || (c =? 13).
Definition wc_step (s : counts) (c : Z) : counts :=
  let lines := if c =? 10 then c_lines s +32 1 else c_lines s in
  if is_blank c then Counts lines (c_words s) false
  else if in_word s then Counts lines (c_words s) true else Counts lines (c_words s +32 1) true.
Definition wc_counts (b : list Z) : Z * Z :=
  let s := foldl wc_step (Counts 0 0 false) b in
  (if (0 <? zlen b) && negb (b.[zlen b - 1] =? 10) then c_lines s +32 1 else c_lines s, c_words s).
Definition cmd_wc (args : list Z) : fm (list out) :=
  with_args "Usage: wc <filename>" args (
  with_file args "Error: File not found: " (λ b,
    let '(lines, words) := wc_counts b in
    mret [Color light_green; print_uint32 lines; Color light_grey; say " lines  "; Color light_green; print_uint32 words;
          Color light_grey; say " words  "; Color light_green; print_uint32 (zlen b); Color light_grey; say " chars  "; Str args; Str [10]])).

(** [for (j = 0; j < size && line_count < max_lines; j++)] *)
Fixpoint head_text (b : list Z) (line_count max_lines : Z) : list Z :=
  match b with
  | c :: r => if line_count <? max_lines then c :: head_text r (if c =? 10 then line_count + 1 else line_count) max_lines else []
  | [] => []
  end.
Definition head_args (args : list Z) : option (list Z * Z) :=
  let '(filename, r) := take_word 255 args in
  match r with
  | c :: r => if c =? 32 then '(n, _) ← read_number as_int r 0; Some (filename, if n =? 0 then 10 else n) else Some (filename, 10)
  | [] => Some (filename, 10)
  end.
Definition cmd_head (args : list Z) : fm (list out) :=
  with_args "Usage: head <filename> [lines]" args (
  match head_args args with
  | None => Fat.undefined
  | Some (filename, max_lines) =>
      with_file filename "Error: File not found: " (λ b,
        mret ([Str (head_text b 0 max_lines)] ++ (if (0 <? zlen b) && negb (b.[zlen b - 1] =? 10) then [put 10] else [])))
  end).
End Files.
Arguments complain _%_string_scope.
Arguments confirm _%_string_scope.
Arguments fail _%_string_scope.

(** ** Waiting *)
Section Waiting.
Context (hlt : Process.kern → Process.kern) (fuel : Z).

Definition timer_wait (ticks : Z) (k : Process.kern) : option Process.kern :=
  let end_tick := u32 (Process.timer_get_ticks k + ticks) in
  match iterZ fuel (λ k, if Process.timer_get_ticks k <? end_tick then inl (hlt k) else inr k) k with
  | inr k => Some k
  | inl _ => None
  end.
Definition cmd_sleep (args : list Z) (k : Process.kern) : option (list out * Process.kern) :=
  if bool_decide (args = []) then Some ([sayln "Usage: sleep <seconds>"], k) else
  '(secs, _) ← read_number as_int args 0;
  if (secs <=? 0) || (3600 <? secs) then Some ([sayln "Usage: sleep <seconds> (1-3600)"], k) else
  k ← timer_wait (u32 (secs * TIMER_HZ)) k; Some ([], k).

(** [status] is the address of the local variable of that name. *)
Definition cmd_waitpid (status : Z) (args : list Z) (k : Process.kern) : option (list out * Process.kern) :=
  if bool_decide (args = []) then Some ([sayln "Usage: waitpid <pid>"], k) else
  '(pid, _) ← read_number (λ v, Some (u64 v)) args 0;
  let k := Process.set_vmm k (Vmm.set_mem (Process.vmm k) (wr32 (Vmm.mem (Process.vmm k)) status 0)) in
  '(r, k) ← Process.process_waitpid hlt fuel pid status 0 k;
  if r <? 0 then Some ([sayln "waitpid failed"], k) else
  Some ([say "pid exited with status "; print_uint32 (rd32 (Vmm.mem (Process.vmm k)) status); Str [10]], k).
End Waiting.

(** ** Switching off (kernel/system/system.c) *)
Section Off.
Context {hw : Type} `{PortIO hw}.
(** The devices when the processor halts; [None] when the keyboard controller
    stays busy for [fuel] rounds. *)
Definition system_reboot (fuel : Z) (d : hw) : option hw :=
  match iterZ fuel (λ d,
    let '(temp, d) := inb 0x64 d in
    let d := if negb (Z.land (u8 temp) 0x01 =? 0) then (inb 0x60 d).2 else d in
    if negb (Z.land (u8 temp) 0x02 =? 0) then inl d else inr d) d with
  | inr d => Some (outb 0x64 0xFE d)
  | inl _ => None
  end.
Definition system_shutdown (t : Terminal.term (hw := hw)) : Terminal.term :=
  let t := emit [Str ([10] ++ line "Shutting down AO OS..."); sayln "It is now safe to turn off your computer."] t in
  Terminal.set_tdev t (outw 0x4004 0x3400 (outw 0xB004 0x2000 (outw 0x604 0x2000 (Terminal.term_dev t)))).
Definition cmd_reboot (fuel : Z) (t : Terminal.term (hw := hw)) : option Terminal.term :=
  let t := emit [Color light_red; Str ([10] ++ line "Rebooting system...")] t in
  d ← system_reboot fuel (Terminal.term_dev t); Some (Terminal.set_tdev t d).
Definition cmd_shutdown (t : Terminal.term (hw := hw)) : Terminal.term := system_shutdown (emit [Color light_red] t).
End Off.

(** ** At the keyboard *)
Definition cmd_edit {hw} `{PortIO hw} {F} `{Syscall.FileReader F} `{!Editor.FileStore F}
    (procs : list Process.process_t) (args keys : list Z) (s : Editor.editor hw F) :=
  if bool_decide (args = []) then
    Some (inr (Editor.set_term (emit [sayln "Usage: edit <filename>"] (Editor.term s)) s))
  else Editor.editor_open procs args keys s.

Section Install.
Context {B : Type} `{BlockDev B} `{Installer.SizedDisk B} {hw : Type} `{PortIO hw}.
Definition show_installer (o : list out) (s : Installer.installer B hw) : Installer.installer B hw :=
  Installer.Inst (Installer.sector_buffer s) (Installer.selected_fs s) (Installer.vars s) (Installer.disk s)
    (emit o (Installer.term s)) (Installer.keyboard s).
(** [while (1) { key = keyboard_getchar(); ... }]: the answer, [true] for yes. *)
Definition confirm_install (fuel : Z) (irq : Installer.installer B hw → Installer.installer B hw) (s : Installer.installer B hw) :
    option (bool * Installer.installer B hw) :=
  match iterZ fuel (λ s,
    let '(c, k) := Keyboard.keyboard_getchar (Installer.keyboard s) in
    let s := Installer.Inst (Installer.sector_buffer s) (Installer.selected_fs s) (Installer.vars s) (Installer.disk s) (Installer.term s) k in
    if (c =? 121) || (c =? 89) then inr (true, show_installer [Str (line "y" ++ [10])] s)
    else if (c =? 110) || (c =? 78) then inr (false, show_installer [sayln "n"; sayln "Installation cancelled."] s)
    else inl (irq s)) s with
  | inr r => Some r
  | inl _ => None
  end.
(** The code of the installer, or [None] when the user has answered no.  A
    successful installation ends in the reboot, before the file system would
    be initialised again. *)
Definition cmd_install (fuel : Z) (irq : Installer.installer B hw → Installer.installer B hw) (s : Installer.installer B hw) :
    option (option Z * Installer.installer B hw) :=
  let s := show_installer [Color light_red; Str [10]; sayln "WARNING: This will erase all data on the disk!"; Str [10]; Color light_grey;
                           say "Are you sure you want to continue? (y/n): "] s in
  '(yes, s) ← confirm_install fuel irq s;
  if (yes : bool) then '(r, s) ← Installer.installer_run fuel irq s; Some (Some r, s) else Some (None, s).
End Install.

(** ** The commands as the shell calls them *)
Section Builtin.
Context {hw : Type} `{PortIO hw} {F : Type} `{Syscall.FileReader F} `{!Editor.FileStore F} `{!FileSystem F} {nhw : Type} `{Net.NetEnv nhw}.
Context (net_of : F → Net.net_state (hw := nhw)) (set_net : Net.net_state (hw := nhw) → F → F).
Context (cpu : Cpu.cpu_info_t) (heap : Heap.heap_state) (serial_initialized : bool) (build_date : list Z).
Context (hlt : Process.kern → Process.kern) (fuel status : Z) (junk : Z → Z).
#[local] Abbreviation machine := (Syscall.machine hw F).
Context (interactive : list Z → list Z → machine → option machine).

Definition show (o : list out) (m : machine) : machine := Syscall.set_terminal (emit o (Syscall.terminal m)) m.
Definition on_files (c : Fat.fm F (list out)) (m : machine) : option machine :=
  match c (Syscall.files m) with
  | (Fat.Val o, f) => Some (show o (Syscall.set_files f m))
  | _ => None
  end.
Definition on_net (c : Net.nm (list out)) (m : machine) : option machine :=
  '(o, n) ← c (net_of (Syscall.files m)); Some (show o (Syscall.set_files (set_net n (Syscall.files m)) m)).
Definition on_kernel (c : Process.kern → option (list out * Process.kern)) (m : machine) : option machine :=
  '(o, k) ← c (Syscall.kernel m); Some (show o (Syscall.set_kernel k m)).
Definition with_rtc (c : Clock.rtc_time_t → list out) (m : machine) : option machine :=
  '(t, d) ← Clock.rtc_read fuel (Terminal.term_dev (Syscall.terminal m));
  Some (show (c t) (Syscall.set_terminal (Terminal.set_tdev (Syscall.terminal m) d) m)).

(** The calls of [shell_execute_command] that leave the colour alone. *)
Definition run_command (name args : list Z) (history : list (list Z)) (history_count : Z) (m : machine) : option machine :=
  let cmd n := bool_decide (name = n) in
  let pm := Vmm.pmm (Process.vmm (Syscall.kernel m)) in
  let ticks := Process.timer_get_ticks (Syscall.kernel m) in
  let procs := Process.processes (Syscall.kernel m) in
  let f := Syscall.files m in
  if cmd (txt "help") then Some (show cmd_help m)
  else if cmd (txt "clear") then Some (Syscall.set_terminal (Terminal.terminal_clear (Syscall.terminal m)) m)
  else if cmd (txt "echo") then Some (show (cmd_echo args) m)
  else if cmd (txt "about") then Some (show cmd_about m)
  else if cmd (txt "kernel") then Some (show (cmd_kernel build_date args) m)
  else if cmd (txt "sysinfo") then on_files (d ← fs_get_disk_info; mret (cmd_sysinfo cpu pm ticks d)) m
  else if cmd (txt "diskinfo") then Some (show (cmd_diskinfo (disk_available f)) m)
  else if cmd (txt "netstat") then on_net (cmd_netstat junk) m
  else if cmd (txt "ping") then on_net (cmd_ping junk args) m
  else if cmd (txt "udp-send") then on_net (cmd_udp_send junk args) m
  else if cmd (txt "udp-listen") then on_net (cmd_udp_listen junk) m
  else if cmd (txt "sconsole") then Some (show (cmd_sconsole serial_initialized args) m)
  else if cmd (txt "checkfs") then Some (show (cmd_checkfs (fs_get_type f)) m)
  else if cmd (txt "mount") then on_files (cmd_mount args) m
  else if cmd (txt "umount") then on_files (cmd_umount args) m
  else if cmd (txt "mounts") then on_files cmd_mounts m
  else if cmd (txt "mkdir") then on_files (cmd_mkdir args) m
  else if cmd (txt "rmdir") then on_files (cmd_rmdir args) m
  else if cmd (txt "cd") then on_files (cmd_cd args) m
  else if cmd (txt "pwd") then on_files cmd_pwd m
  else if cmd (txt "ls") then on_files cmd_ls m
  else if cmd (txt "cat") then on_files (cmd_cat procs args) m
  else if cmd (txt "write") then on_files (cmd_write args) m
  else if cmd (txt "rm") then on_files (cmd_rm args) m
  else if cmd (txt "touch") then on_files (cmd_touch args) m
  else if cmd (txt "mem") then Some (show (cmd_mem pm heap) m)
  else if cmd (txt "uptime") then Some (show (cmd_uptime ticks) m)
  else if cmd (txt "divan") then Some (show cmd_divan m)
  else if cmd (txt "cp") then on_files (cmd_cp procs args) m
  else if cmd (txt "mv") then on_files (cmd_mv procs args) m
  else if cmd (txt "rename") then on_files (cmd_rename procs args) m
  else if cmd (txt "which") then on_files (cmd_which args) m
  else if cmd (txt "tree") then on_files cmd_tree m
  else if cmd (txt "date") then with_rtc cmd_date m
  else if cmd (txt "hexdump") then on_files (cmd_hexdump procs args) m
  else if cmd (txt "wc") then on_files (cmd_wc procs args) m
  else if cmd (txt "head") then on_files (cmd_head procs args) m
  else if cmd (txt "sleep") then on_kernel (cmd_sleep hlt fuel args) m
  else if cmd (txt "history") then Some (show (cmd_history history history_count) m)
  else if cmd (txt "neofetch") then with_rtc (cmd_neofetch cpu pm heap ticks) m
  else if cmd (txt "calc") then o ← cmd_calc args; Some (show o m)
  else if cmd (txt "waitpid") then on_kernel (cmd_waitpid hlt fuel status args) m
  else interactive name args m.
Definition builtin (name args : list Z) (s : Shell.shell hw F) : option (Z * machine) :=
  if bool_decide (name = txt "color") then
    let '(c, o) := cmd_color args in Some (default (Shell.user_color s) c, show o (Shell.mach s))
  else m ← run_command name args (Shell.history s) (Shell.history_count s) (Shell.mach s); Some (Shell.user_color s, m).
End Builtin.

(** ** The file systems of Fs.v *)
Section Instances.
Context {B : Type} `{BlockDev B} {hw : Type} `{Net.NetEnv hw}.
(** The array behind the listing of the root file system. *)
Definition root_listing (s : Fs.fs_state B hw) : list Fat.fs_file_info :=
  match Vfs.m_ops (Vfs.mounts (Fs.vfs s)).[0] with
  | Some Fs.fat_ops_ptr => Fat.file_list (Fs.w_fat (Fs.fsw s))
  | Some o => match Vfs.op_list (Fs.deref o) with
              | Some f => match (f (Fs.fsw s)).1 with Fat.Val (_, l) => l | _ => [] end
              | None => []
              end
  | None => []
  end.
#[export] Instance fs_file_system : FileSystem (Fs.fs_state B hw) := {|
  fs_delete := Fs.fs_delete; fs_list := Fs.fs_list; fs_listing := root_listing;
  fs_mkdir := Fs.fs_mkdir; fs_rmdir := Fs.fs_rmdir; fs_chdir := Fs.fs_chdir; fs_getcwd := Fs.fs_getcwd;
  fs_get_type := Fs.fs_get_type; fs_get_disk_info := Fs.fs_get_disk_info;
  fs_mount := Fs.fs_mount; fs_umount := Fs.fs_umount; fs_mounts := Fs.fs_mounts;
  disk_available s := negb (bd_available (Fat.dev (Fs.w_fat (Fs.fsw s))) =? 0)
|}.
End Instances.
End Commands.
