(* ===== verification/Interrupts.v ===== *)
(** * Descriptor tables, interrupts and exceptions (kernel/idt.c, gdt.c,
      exception.c, panic.c)

    The interrupt descriptor table is the list of its 256 entries; the
    addresses of the assembly stubs are parameters, and so are those of the
    task-state segment, of its descriptor and of the stacks, which live in
    physical memory.  The two interrupt controllers are reached through
    [PortIO]; a model of the chips interprets the port accesses.  The two
    fatal screens are functions of the terminal up to the final halt. *)
From S2P Require Import Prelude.
From S2P Require Import Text.
From S2P Require Import PhysMem.
From S2P Require Import CString.
From S2P Require Import Ata.
From S2P Require Import Terminal.
From S2P Require Import Format.
From S2P Require Import Commands.
Import Ata Format Commands.
Import (hints) Terminal.

Module Interrupts.
(** ** The interrupt descriptor table *)
Definition IDT_ENTRIES : Z := 256.
Record idt_entry_t := IdtEntry {
  base_low : Z; selector : Z; ist : Z; flags : Z; base_mid : Z; base_high : Z; reserved : Z
}.
#[export] Instance idt_entry_inhabited : Inhabited idt_entry_t := populate (IdtEntry 0 0 0 0 0 0 0).
Definition zero_gate : idt_entry_t := IdtEntry 0 0 0 0 0 0 0.

Definition idt_set_gate (num base sel fl : Z) (t : list idt_entry_t) : list idt_entry_t :=
  t.[num <- IdtEntry (u16 (Z.land base 0xFFFF)) sel 0 fl (u16 (Z.land (Z.shiftr base 16) 0xFFFF))
              (u32 (Z.land (Z.shiftr base 32) 0xFFFFFFFF)) 0].
Definition idt_set_gate_ist (num base sel fl i : Z) (t : list idt_entry_t) : list idt_entry_t :=
  let t := idt_set_gate num base sel fl t in
  let e := t.[num] in
  t.[num <- IdtEntry (base_low e) (selector e) (Z.land i 0x07) (flags e) (base_mid e) (base_high e) (reserved e)].

Section Pic.
Context {hw : Type} `{PortIO hw}.
Definition pic_remap (d : hw) : hw :=
  let d := outb 0xA0 0x11 (outb 0x20 0x11 d) in
  let d := outb 0xA1 0x28 (outb 0x21 0x20 d) in
  let d := outb 0xA1 0x02 (outb 0x21 0x04 d) in
  let d := outb 0xA1 0x01 (outb 0x21 0x01 d) in
  outb 0xA1 0xFF (outb 0x21 0xFC d).
Definition clear_mask (port bit : Z) (d : hw) : hw :=
  let '(mask, d) := inb port d in outb port (Z.land (u8 mask) (u8 (Z.lnot (Z.shiftl 1 bit)))) d.
Definition idt_unmask_irq (irq : Z) (d : hw) : hw :=
  if irq <? 8 then clear_mask 0x21 irq d
  else if irq <? 16 then clear_mask 0x21 2 (clear_mask 0xA1 (irq - 8) d)
  else d.
End Pic.

Section Init.
Context (isr irq : Z → Z) (syscall_handler : Z).
Definition exception_gates (t : list idt_entry_t) : list idt_entry_t :=
  foldl (λ t n, if n =? 8 then idt_set_gate_ist n (isr n) 0x08 0x8E 1 t else idt_set_gate n (isr n) 0x08 0x8E t) t (seqZ 0 22).
Definition idt_table : list idt_entry_t :=
  let t := exception_gates (replicate (Z.to_nat IDT_ENTRIES) zero_gate) in
  let t := idt_set_gate 32 (irq 0) 0x08 0x8E t in
  let t := idt_set_gate 33 (irq 1) 0x08 0x8E t in
  let t := idt_set_gate 42 (irq 10) 0x08 0x8E t in
  let t := idt_set_gate 43 (irq 11) 0x08 0x8E t in
  idt_set_gate 0x80 syscall_handler 0x08 0xEE t.
(** The table and the controllers; [lidt] loads the table. *)
Definition idt_init {hw} `{PortIO hw} (d : hw) : list idt_entry_t * hw := (idt_table, pic_remap d).
End Init.

(** ** The task-state segment *)
(** [entry] is the address of the descriptor, [ist1_end] the end of
    [ist1_stack]. *)
Definition tss_descriptor (tss : Z) : list Z :=
  [u8 103; u8 (Z.shiftr 103 8); u8 tss; u8 (Z.shiftr tss 8); u8 (Z.shiftr tss 16); 0x89; 0x00; u8 (Z.shiftr tss 24);
   u8 (Z.shiftr tss 32); u8 (Z.shiftr tss 40); u8 (Z.shiftr tss 48); u8 (Z.shiftr tss 56); 0; 0; 0; 0].
Definition tss_set_rsp0 (tss rsp0 : Z) (m : pmem) : pmem := wr64 m (tss + 4) rsp0.
Definition gdt_init (tss entry stack_top ist1_end : Z) (m : pmem) : pmem :=
  let m := pmemcpy_from m entry (tss_descriptor tss) in
  wr64 (tss_set_rsp0 tss stack_top m) (tss + 36) ist1_end.

(** ** The screen of an exception *)
Record registers_t := Registers {
  cr2 : Z; r15 : Z; r14 : Z; r13 : Z; r12 : Z; r11 : Z; r10 : Z; r9 : Z; r8 : Z;
  rbp : Z; rdi : Z; rsi : Z; rdx : Z; rcx : Z; rbx : Z; rax : Z;
  int_no : Z; err_code : Z; rip : Z; cs : Z; rflags : Z; rsp : Z; ss : Z
}.
Definition exception_names : list (list Z) := [
  txt "Division by Zero"; txt "Debug"; txt "Non-Maskable Interrupt"; txt "Breakpoint"; txt "Overflow"; txt "Bound Range Exceeded";
  txt "Invalid Opcode"; txt "Device Not Available (No FPU)"; txt "Double Fault"; txt "Coprocessor Segment Overrun"; txt "Invalid TSS";
  txt "Segment Not Present"; txt "Stack-Segment Fault"; txt "General Protection Fault"; txt "Page Fault"; txt "Reserved";
  txt "x87 Floating-Point Exception"; txt "Alignment Check"; txt "Machine Check"; txt "SIMD Floating-Point Exception";
  txt "Virtualization Exception"; txt "Control Protection Exception"].
(** The digits from the last one, [n] of them. *)
Fixpoint hex_digits (n : nat) (v : Z) (acc : list Z) : list Z :=
  match n with
  | O => acc
  | S n' => let nibble := Z.land v 0xF in hex_digits n' (Z.shiftr v 4) ((if nibble <? 10 then 48 + nibble else 65 + nibble - 10) :: acc)
  end.
Definition hex64 (v : Z) : list Z := txt "0x" ++ hex_digits 16 v [].
Definition dump_register (name : list Z) (v : Z) : out := Str (txt "  " ++ name ++ txt " = " ++ hex64 v).
Definition on_blue (c : Z) : Z := Terminal.vga_entry_color c 1.
(** The two digits of the vector as the buffer [num] holds them, a string of
    bytes; [int n] is the low half of the field. *)
Definition int_text (v : Z) : list Z :=
  let n := i32 v in
  until_nul (if 10 <=? n then [u8 (48 + n `quot` 10); u8 (48 + n `rem` 10); 41] else [u8 (48 + n); 41]).
Definition exception_name (r : registers_t) : option (list Z) :=
  if int_no r <? 22 then exception_names !! Z.to_nat (int_no r) else None.
Definition fault_cause (r : registers_t) : list out :=
  [Color (on_blue 11); say "  Faulting Address (CR2): "; Color (on_blue 15); Str (hex64 (cr2 r)); Str [10]; say "  Cause: ";
   if Z.land (err_code r) 1 =? 0 then say "page not present" else say "protection violation";
   if Z.land (err_code r) 2 =? 0 then say ", read" else say ", write";
   if Z.land (err_code r) 4 =? 0 then say ", kernel mode" else say ", user mode"; Str [10]].
Definition register_pair (a : list Z) (va : Z) (b : list Z) (vb : Z) : list out := [dump_register a va; dump_register b vb; Str [10]].
Definition register_dump (r : registers_t) : list out :=
  [Str [10]; Color (on_blue 11); sayln "  Register Dump:"; Color (on_blue 10)] ++
  register_pair (txt "RAX") (rax r) (txt "RBX") (rbx r) ++ register_pair (txt "RCX") (rcx r) (txt "RDX") (rdx r) ++
  register_pair (txt "RSI") (rsi r) (txt "RDI") (rdi r) ++ register_pair (txt "RBP") (rbp r) (txt "R8 ") (r8 r) ++
  register_pair (txt "R9 ") (r9 r) (txt "R10") (r10 r) ++ register_pair (txt "R11") (r11 r) (txt "R12") (r12 r) ++
  register_pair (txt "R13") (r13 r) (txt "R14") (r14 r) ++
  [dump_register (txt "R15") (r15 r); dump_register (txt "CR2") (cr2 r); Str [10; 10];
   Color (on_blue 11); sayln "  Fault Location:"; Color (on_blue 10)] ++
  register_pair (txt "RIP") (rip r) (txt "CS ") (cs r) ++ register_pair (txt "RSP") (rsp r) (txt "SS ") (ss r) ++
  [dump_register (txt "FLG") (rflags r); Str [10]].
Definition exception_text (r : registers_t) : list out :=
  [Color (on_blue 14); Str ([10] ++ line "                       *** CPU EXCEPTION ***" ++ [10]); Color (on_blue 15); say "  ";
   Str (default (txt "Unknown Exception") (exception_name r)); say " (INT "; Str (int_text (int_no r)); Str [10]] ++
  (if err_code r =? 0 then [] else [Color (on_blue 11); say "  Error Code: "; Color (on_blue 15); Str (hex64 (err_code r)); Str [10]]) ++
  (if int_no r =? 14 then fault_cause r else []) ++ register_dump r ++
  [Color (on_blue 15); Str ([10] ++ line "  System halted. Please reboot your computer.")].
Definition serial_text (r : registers_t) : list Z :=
  [10] ++ txt "!!! CPU EXCEPTION: " ++ default [] (exception_name r) ++ line " !!!" ++ txt "  RIP=" ++ hex64 (rip r) ++
  txt "  ERR=" ++ hex64 (err_code r) ++ txt "  CR2=" ++ hex64 (cr2 r) ++ [10].

Section Screens.
Context {hw : Type} `{PortIO hw}.
Implicit Types t : Terminal.term (hw := hw).
Definition spaces : out := Str (replicate 2000 32).
(** Up to the halt; [None] when the serial line stays busy. *)
Definition exception_handler (fuel : Z) (r : registers_t) (t : Terminal.term) : option (Terminal.term (hw := hw)) :=
  let t := Terminal.terminal_clear (Terminal.terminal_setcolor (on_blue 15) t) in
  let t := emit (exception_text r) (Terminal.terminal_set_cursor 0 0 (emit [spaces] t)) in
  d ← Terminal.serial_writestring fuel (serial_text r) (Terminal.term_dev t);
  Some (Terminal.set_tdev t d).

(** ** panic.c *)
Definition on_red (c : Z) : Z := Terminal.vga_entry_color c 4.
Definition panic_header (t : Terminal.term) : Terminal.term (hw := hw) :=
  emit [Color (on_red 15); spaces; Color (on_red 14); Str [10]; sayln "                          *** KERNEL PANIC ***"; Str [10]; Color (on_red 15)]
    (Terminal.terminal_clear t).
Definition panic_footer : list out :=
  [Color (on_red 15); Str [10; 10]; sayln "  The system has been halted to prevent damage."; sayln "  Please reboot your computer."].
Definition panic (message : list Z) (t : Terminal.term) : Terminal.term (hw := hw) :=
  emit ([Color (on_red 15); Str (line "  A fatal error has occurred and the system cannot continue." ++ [10]);
         Color (on_red 12); say "  Error: "; Color (on_red 15); Str message; Str [10]] ++ panic_footer) (panic_header t).
(** A negative line number has no digits. *)
Definition line_text (n : Z) : list Z := if n <? 0 then [] else digits_of 12 n.
Definition panic_assert (file : list Z) (ln : Z) (desc : list Z) (t : Terminal.term) : Terminal.term (hw := hw) :=
  emit ([Color (on_red 15); Str (line "  Assertion failed!" ++ [10]); Color (on_red 12); say "  Condition: "; Color (on_red 15); Str desc; Str [10];
         Color (on_red 12); say "  File: "; Color (on_red 15); Str file; Str [10];
         Color (on_red 12); say "  Line: "; Color (on_red 15); Str (line_text ln); Str [10]] ++ panic_footer) (panic_header t).
End Screens.

(** ** The table as the processor reads it *)
Definition entry_bytes (e : idt_entry_t) : list Z :=
  le_bytes 2 (base_low e) ++ le_bytes 2 (selector e) ++ [ist e; flags e] ++ le_bytes 2 (base_mid e) ++ le_bytes 4 (base_high e) ++
  le_bytes 4 (reserved e).
(** A 64-bit interrupt gate: the address, the code segment, the stack of the
    table of stacks, the privilege level that may call it, present. *)
Record gate := Gate { g_offset : Z; g_selector : Z; g_ist : Z; g_dpl : Z; g_present : bool }.
Definition decode (b : list Z) : gate :=
  let rd n i := le_read n (aget b) i in
  Gate (rd 2%nat 0 + 2 ^ 16 * rd 2%nat 6 + 2 ^ 32 * rd 4%nat 8) (rd 2%nat 2) (Z.land b.[4] 7) (Z.land (Z.shiftr b.[5] 5) 3) (Z.testbit b.[5] 7).
(** What each vector leads to. *)
Definition vector (isr irq : Z → Z) (syscall_handler n : Z) : gate :=
  if n <? 22 then Gate (isr n) 8 (if n =? 8 then 1 else 0) 0 true
  else if (n =? 32) || (n =? 33) || (n =? 42) || (n =? 43) then Gate (irq (n - 32)) 8 0 0 true
  else if n =? 0x80 then Gate syscall_handler 8 0 3 true
  else Gate 0 0 0 0 false.

Definition made (base i fl : Z) : idt_entry_t :=
  IdtEntry (u16 (Z.land base 0xFFFF)) 8 i fl (u16 (Z.land (Z.shiftr base 16) 0xFFFF)) (u32 (Z.land (Z.shiftr base 32) 0xFFFFFFFF)) 0.
Lemma decode_entry e :
  decode (entry_bytes e) = Gate (base_low e mod 2 ^ 16 + 2 ^ 16 * (base_mid e mod 2 ^ 16) + 2 ^ 32 * (base_high e mod 2 ^ 32))
    (selector e mod 2 ^ 16) (Z.land (ist e) 7) (Z.land (Z.shiftr (flags e) 5) 3) (Z.testbit (flags e) 7).
Proof.
  destruct e as [lo sel i fl mid hi re]. unfold decode. cbn [base_low selector ist flags base_mid base_high reserved].
  set (b := entry_bytes _).
  assert (b = [] ++ le_bytes 2 lo ++ drop 2 b) as E0 by reflexivity. assert (b = take 2 b ++ le_bytes 2 sel ++ drop 4 b) as E2 by reflexivity.
  assert (b = take 6 b ++ le_bytes 2 mid ++ drop 8 b) as E6 by reflexivity. assert (b = take 8 b ++ le_bytes 4 hi ++ drop 12 b) as E8 by reflexivity.
  pose proof (le_read_app 2 [] (drop 2 b) lo) as R0. rewrite <- E0 in R0. pose proof (le_read_app 2 (take 2 b) (drop 4 b) sel) as R2. rewrite <- E2 in R2.
  pose proof (le_read_app 2 (take 6 b) (drop 8 b) mid) as R6. rewrite <- E6 in R6. pose proof (le_read_app 4 (take 8 b) (drop 12 b) hi) as R8. rewrite <- E8 in R8.
  change (zlen []) with 0 in R0. change (zlen (take 2 b)) with 2 in R2. change (zlen (take 6 b)) with 6 in R6. change (zlen (take 8 b)) with 8 in R8.
  change (256 ^ Z.of_nat 2) with (2 ^ 16) in *. change (256 ^ Z.of_nat 4) with (2 ^ 32) in *. rewrite R0, R2, R6, R8. reflexivity.
Qed.
Lemma decode_made base i fl :
  0 ≤ base < 2 ^ 64 → decode (entry_bytes (made base i fl)) = Gate base 8 (Z.land i 7) (Z.land (Z.shiftr fl 5) 3) (Z.testbit fl 7).
Proof.
  intros Hb. rewrite decode_entry. unfold made. cbn [base_low selector ist flags base_mid base_high reserved].
  change 0xFFFF with (Z.ones 16). change 0xFFFFFFFF with (Z.ones 32). rewrite !Z.land_ones, !Z.shiftr_div_pow2 by lia.
  f_equal. unfold u16, u32. change (2 ^ 16) with 65536. change (2 ^ 32) with 4294967296. rewrite !Z.mod_mod by lia. zdm.
Qed.

Section Table.
Context (isr irq : Z → Z) (syscall_handler : Z).
Hypothesis handlers : (∀ n, 0 ≤ isr n < 2 ^ 64) ∧ (∀ n, 0 ≤ irq n < 2 ^ 64) ∧ 0 ≤ syscall_handler < 2 ^ 64.
(** The entry that [idt_init] leaves for a vector. *)
Definition entry_for (n : Z) : idt_entry_t :=
  if n <? 22 then made (isr n) (if n =? 8 then 1 else 0) 0x8E
  else if (n =? 32) || (n =? 33) || (n =? 42) || (n =? 43) then made (irq (n - 32)) 0 0x8E
  else if n =? 0x80 then made syscall_handler 0 0xEE
  else zero_gate.
Lemma set_gate_get num base fl t n :
  0 ≤ num < zlen t → zlen (idt_set_gate num base 8 fl t) = zlen t ∧
  (idt_set_gate num base 8 fl t).[n] = if n =? num then made base 0 fl else t.[n].
Proof.
  intros Hn. split; [apply zlen_aset |]. unfold idt_set_gate. destruct (Z.eqb_spec n num) as [-> | Hne]; [by rewrite aget_aset_eq | by rewrite aget_aset_ne].
Qed.
Lemma set_gate_ist_get num base fl t n :
  0 ≤ num < zlen t → zlen (idt_set_gate_ist num base 8 fl 1 t) = zlen t ∧
  (idt_set_gate_ist num base 8 fl 1 t).[n] = if n =? num then made base 1 fl else t.[n].
Proof.
  intros Hn. unfold idt_set_gate_ist. destruct (set_gate_get num base fl t num Hn) as [Hl E]. rewrite Z.eqb_refl in E. rewrite zlen_aset. split; [exact Hl |].
  rewrite E. destruct (Z.eqb_spec n num) as [-> | Hne]; [by rewrite aget_aset_eq by lia |]. rewrite aget_aset_ne by done.
  rewrite (proj2 (set_gate_get num base fl t n Hn)). by replace (n =? num) with false by lia.
Qed.
(** The loop over the exceptions up to [k]. *)
Lemma exceptions_get (k : nat) n :
  (k ≤ 22)%nat → 0 ≤ n < 256 →
  let t := foldl (λ t n, if n =? 8 then idt_set_gate_ist n (isr n) 8 0x8E 1 t else idt_set_gate n (isr n) 8 0x8E t)
             (replicate (Z.to_nat IDT_ENTRIES) zero_gate) (seqZ 0 (Z.of_nat k)) in
  zlen t = 256 ∧ t.[n] = if n <? Z.of_nat k then made (isr n) (if n =? 8 then 1 else 0) 0x8E else zero_gate.
Proof.
  intros Hk Hn. cbv zeta. clear handlers. induction k as [| j IH].
  { change (seqZ 0 (Z.of_nat 0)) with (@nil Z). cbn [foldl]. rewrite aget_replicate by (unfold IDT_ENTRIES; lia).
    rewrite (proj2 (Z.ltb_ge n (Z.of_nat 0))) by lia. split; [reflexivity | done]. }
  destruct (IH ltac:(lia)) as [Hl Hg]. rewrite seqZ_S, foldl_app, Z.add_0_l. cbn [foldl]. replace (Z.of_nat (S j)) with (Z.of_nat j + 1) by lia.
  set (t := foldl _ _ (seqZ 0 (Z.of_nat j))) in *. set (q := Z.of_nat j) in *.
  destruct (Z.eqb_spec q 8) as [Eq | Eq].
  - destruct (set_gate_ist_get q (isr q) 0x8E t n ltac:(lia)) as [-> ->]. split; [done |]. rewrite Hg.
    destruct (Z.eqb_spec n q) as [-> | Hne]; [by replace (q <? q + 1) with true by lia; replace (q =? 8) with true by lia |].
    by replace (n <? q + 1) with (n <? q) by lia.
  - destruct (set_gate_get q (isr q) 0x8E t n ltac:(lia)) as [-> ->]. split; [done |]. rewrite Hg.
    destruct (Z.eqb_spec n q) as [-> | Hne]; [by replace (q <? q + 1) with true by lia; replace (q =? 8) with false by lia |].
    by replace (n <? q + 1) with (n <? q) by lia.
Qed.
Lemma table_lookup n : 0 ≤ n < 256 → (idt_table isr irq syscall_handler).[n] = entry_for n.
Proof.
  intros Hn. unfold idt_table. set (t0 := exception_gates _ _).
  assert (zlen t0 = 256 ∧ t0.[n] = if n <? 22 then made (isr n) (if n =? 8 then 1 else 0) 0x8E else zero_gate) as [Hl Hg]
    by exact (exceptions_get 22 n (le_n 22) Hn).
  clearbody t0.
  destruct (set_gate_get 32 (irq 0) 0x8E t0 n ltac:(lia)) as [L1 G1]. set (t1 := idt_set_gate 32 _ _ _ t0) in *. clearbody t1.
  destruct (set_gate_get 33 (irq 1) 0x8E t1 n ltac:(lia)) as [L2 G2]. set (t2 := idt_set_gate 33 _ _ _ t1) in *. clearbody t2.
  destruct (set_gate_get 42 (irq 10) 0x8E t2 n ltac:(lia)) as [L3 G3]. set (t3 := idt_set_gate 42 _ _ _ t2) in *. clearbody t3.
  destruct (set_gate_get 43 (irq 11) 0x8E t3 n ltac:(lia)) as [L4 G4]. set (t4 := idt_set_gate 43 _ _ _ t3) in *. clearbody t4.
  destruct (set_gate_get 0x80 syscall_handler 0xEE t4 n ltac:(lia)) as [_ ->]. rewrite G4, G3, G2, G1, Hg. clear. unfold entry_for.
  destruct (Z.eqb_spec n 128) as [-> |]; [done |]. destruct (Z.eqb_spec n 43) as [-> |]; [done |]. destruct (Z.eqb_spec n 42) as [-> |]; [done |].
  destruct (Z.eqb_spec n 33) as [-> |]; [done |]. destruct (Z.eqb_spec n 32) as [-> |]; [done |]. done.
Qed.
Lemma table_spec n : 0 ≤ n < 256 → decode (entry_bytes (idt_table isr irq syscall_handler).[n]) = vector isr irq syscall_handler n.
Proof.
  intros Hn. destruct handlers as (H1 & H2 & H3). rewrite table_lookup by done. unfold entry_for, vector.
  destruct (n <? 22); [rewrite decode_made by done; by destruct (n =? 8) |].
  destruct (_ || _); [by rewrite decode_made |]. destruct (n =? 0x80); [by rewrite decode_made | by rewrite decode_entry].
Qed.

(** C33: the interrupt table is what the processor needs: exceptions 0 to 21,
    the four hardware interrupts and the system call lead to their handlers in
    the kernel's code segment, the double fault on a stack of its own, and
    every other vector is absent.  User programs can enter the kernel by the
    instruction [int] through vector 0x80 only: no other gate that is present
    admits them. *)
Theorem idt_protects_kernel n :
  0 ≤ n < 256 →
  decode (entry_bytes (idt_table isr irq syscall_handler).[n]) = vector isr irq syscall_handler n ∧
  let g := vector isr irq syscall_handler n in
  (g_present g = true → g_dpl g = 3 → n = 0x80) ∧ (g_present g = true → g_selector g = 8).
Proof using handlers.
  intros Hn. split; [by apply table_spec |]. unfold vector.
  destruct (n <? 22); [done |]. destruct (_ || _); [done |]. destruct (Z.eqb_spec n 0x80); done.
Qed.
End Table.

(** ** The interrupt controllers *)
(** An 8259: which initialisation word it waits for (0 none), the vector of
    its line 0, the mask register. *)
Record chip := Chip { icw : nat; offset : Z; mask : Z }.
Definition pics : Type := chip * chip.
Definition command_write (v : Z) (c : chip) : chip := if Z.testbit v 4 then Chip 1 (offset c) 0 else c.
Definition data_write (v : Z) (c : chip) : chip :=
  match icw c with
  | 1%nat => Chip 2 (Z.land v 0xF8) (mask c)
  | 2%nat => Chip 3 (offset c) (mask c)
  | 3%nat => Chip 0 (offset c) (mask c)
  | _ => Chip 0 (offset c) (u8 v)
  end.
#[export] Instance pic_io : PortIO pics := {|
  inb p d := (if p =? 0x21 then mask d.1 else if p =? 0xA1 then mask d.2 else 0, d);
  inw p d := (0, d);
  outb p v d :=
    if p =? 0x20 then (command_write v d.1, d.2) else if p =? 0x21 then (data_write v d.1, d.2)
    else if p =? 0xA0 then (d.1, command_write v d.2) else if p =? 0xA1 then (d.1, data_write v d.2) else d;
  outw p v d := d
|}.
(** The line [k] of the pair is masked at its chip. *)
Definition masked (d : pics) (k : Z) : bool := Z.testbit (mask (if k <? 8 then d.1 else d.2)) (k mod 8).
Definition ready (d : pics) : Prop := icw d.1 = 0%nat ∧ icw d.2 = 0%nat ∧ is_byte (mask d.1) ∧ is_byte (mask d.2).

Lemma remap_spec (d : pics) : pic_remap d = (Chip 0 0x20 0xFC, Chip 0 0x28 0xFF).
Proof. by destruct d as [[i o m] [i' o' m']]. Qed.
Lemma clear_bit m b k : is_byte m → 0 ≤ b < 8 → 0 ≤ k < 8 →
  Z.testbit (u8 (Z.land (u8 m) (u8 (Z.lnot (Z.shiftl 1 b))))) k = Z.testbit m k && negb (k =? b).
Proof.
  intros Hm Hb Hk. rewrite testbit_u8, Z.land_spec, !testbit_u8, Z.lnot_spec, testbit_shiftl_one by lia.
  destruct (Z.eqb_spec k b); [rewrite bool_decide_eq_true_2 by done | rewrite bool_decide_eq_false_2 by done]; done.
Qed.
Lemma clear_low d b : ready d → 0 ≤ b < 8 →
  ready (clear_mask 0x21 b d) ∧ ∀ k, 0 ≤ k < 16 → masked (clear_mask 0x21 b d) k = masked d k && negb (k =? b).
Proof.
  intros (I1 & I2 & M1 & M2) Hb. destruct d as [[i o m] [i' o' m']]. cbn [icw mask fst snd] in *. subst i i'.
  split; [split_and!; try done; apply is_byte_u8 |]. intros k Hk. unfold masked. cbn [clear_mask inb outb pic_io fst snd Z.eqb Pos.eqb data_write icw mask].
  destruct (Z.ltb_spec k 8); cbn [mask]; [rewrite clear_bit by (done || lia || zdm); by rewrite Z.mod_small by lia |].
  replace (k =? b) with false by lia. by rewrite andb_true_r.
Qed.
Lemma clear_high d b : ready d → 0 ≤ b < 8 →
  ready (clear_mask 0xA1 b d) ∧ ∀ k, 0 ≤ k < 16 → masked (clear_mask 0xA1 b d) k = masked d k && negb (k =? b + 8).
Proof.
  intros (I1 & I2 & M1 & M2) Hb. destruct d as [[i o m] [i' o' m']]. cbn [icw mask fst snd] in *. subst i i'.
  split; [split_and!; try done; apply is_byte_u8 |]. intros k Hk. unfold masked. cbn [clear_mask inb outb pic_io fst snd Z.eqb Pos.eqb data_write icw mask].
  destruct (Z.ltb_spec k 8); cbn [mask]; [replace (k =? b + 8) with false by lia; by rewrite andb_true_r |].
  assert (k mod 8 = k - 8) as -> by zdm. rewrite clear_bit by (done || lia). f_equal. f_equal. lia.
Qed.
(** [idt_unmask_irq] opens its line, and the cascade for a line of the second
    chip, and no other. *)
Lemma unmask_spec irq d :
  ready d → 0 ≤ irq < 16 → ready (idt_unmask_irq irq d) ∧
  ∀ k, 0 ≤ k < 16 → masked (idt_unmask_irq irq d) k = masked d k && negb (k =? irq) && negb ((k =? 2) && (8 <=? irq)).
Proof.
  intros Hd Hi. unfold idt_unmask_irq. destruct (Z.ltb_spec irq 8) as [Hlt | Hge].
  - destruct (clear_low d irq Hd ltac:(lia)) as [R E]. split; [done |]. intros k Hk. rewrite E by done.
    replace (8 <=? irq) with false by lia. by rewrite andb_false_r, andb_true_r.
  - replace (irq <? 16) with true by lia. destruct (clear_high d (irq - 8) Hd ltac:(lia)) as [R E].
    destruct (clear_low _ 2 R ltac:(lia)) as [R2 E2]. split; [done |]. intros k Hk. rewrite E2, E by done.
    replace (irq - 8 + 8) with irq by lia. replace (8 <=? irq) with true by lia. by rewrite andb_true_r.
Qed.

Lemma unmask_offsets irq (d : pics) :
  ready d → offset (idt_unmask_irq irq d).1 = offset d.1 ∧ offset (idt_unmask_irq irq d).2 = offset d.2.
Proof.
  destruct d as [[i o m] [i' o' m']]. intros (I1 & I2 & _ & _). cbn [icw fst snd] in I1, I2. subst i i'.
  unfold idt_unmask_irq. destruct (irq <? 8); [done |]. by destruct (irq <? 16).
Qed.
Lemma unmask_all_spec lines (d : pics) :
  ready d → Forall (λ i, i = 10 ∨ i = 11) lines →
  let d' := foldl (λ d i, idt_unmask_irq i d) d lines in
  offset d'.1 = offset d.1 ∧ offset d'.2 = offset d.2 ∧
  ∀ k, 0 ≤ k < 16 → masked d' k = masked d k && negb (bool_decide (k ∈ lines)) && negb ((k =? 2) && bool_decide (lines ≠ [])).
Proof.
  intros Hd Hl. cbv zeta. revert d Hd. induction Hl as [| i lines Hi Hl IH]; intros d Hd.
  { split_and!; [done | done |]. intros k Hk. cbn [foldl]. rewrite (bool_decide_eq_false_2 (k ∈ [])) by apply not_elem_of_nil.
    rewrite (bool_decide_eq_false_2 (_ ≠ _)) by tauto. by rewrite andb_false_r, !andb_true_r. }
  destruct (unmask_spec i d Hd ltac:(lia)) as [Hr Hm]. destruct (unmask_offsets i d Hd) as [O1 O2].
  cbn [foldl]. destruct (IH _ Hr) as (P1 & P2 & HK). split_and!; [congruence | congruence |]. intros k Hk. rewrite HK, Hm by done.
  rewrite (bool_decide_eq_true_2 (i :: lines ≠ [])) by done. rewrite (bool_decide_ext _ _ (elem_of_cons _ _ _)).
  replace (8 <=? i) with true by lia. rewrite bool_decide_or, !andb_true_r.
  assert (bool_decide (k = i) = (k =? i)) as -> by (destruct (Z.eqb_spec k i); [by apply bool_decide_eq_true_2 | by apply bool_decide_eq_false_2]).
  destruct (masked d k), (k =? i), (bool_decide (k ∈ lines)), (k =? 2), (bool_decide (lines ≠ [])); done.
Qed.

(** every interrupt line that the kernel opens has a handler.  Whatever
    state the controllers are in at boot, after [idt_init] and the unmasking
    of any of the lines 10 and 11 that the network driver asks for, the open
    lines are the timer, the keyboard, the cascade and those lines, and the
    vector each raises leads to a gate that is present. *)
Theorem open_lines_have_gates isr irq syscall_handler (d : pics) lines k :
  Forall (λ i, i = 10 ∨ i = 11) lines → 0 ≤ k < 16 →
  let d' := foldl (λ d i, idt_unmask_irq i d) (idt_init isr irq syscall_handler d).2 lines in
  masked d' k = negb (bool_decide (k ∈ [0; 1] ++ lines) || ((k =? 2) && bool_decide (lines ≠ []))) ∧
  (masked d' k = false → k ≠ 2 →
   let g := decode (entry_bytes (idt_init isr irq syscall_handler d).1.[offset (if k <? 8 then d'.1 else d'.2) + k mod 8]) in
   g_present g = true ∧ g_dpl g = 0).
Proof.
  intros Hl Hk. cbn [idt_init fst snd]. rewrite remap_spec. set (d0 := (Chip 0 0x20 0xFC, Chip 0 0x28 0xFF)).
  destruct (unmask_all_spec lines d0 ltac:(split_and!; done || (split; done)) Hl) as (O1 & O2 & Hm). cbv zeta. set (d' := foldl _ _ _) in *.
  assert (masked d0 k = negb (bool_decide (k ∈ [0; 1]))) as H0.
  { assert (Forall (λ k, masked d0 k = negb (bool_decide (k ∈ [0; 1]))) (seqZ 0 16)) as F by (repeat constructor).
    rewrite Forall_forall in F. apply F, elem_of_seqZ. lia. }
  assert (masked d' k = negb (bool_decide (k ∈ [0; 1] ++ lines) || ((k =? 2) && bool_decide (lines ≠ [])))) as Hk'.
  { rewrite Hm, H0 by done. rewrite (bool_decide_ext _ _ (elem_of_app _ _ _)), bool_decide_or.
    destruct (bool_decide (k ∈ [0; 1])), (bool_decide (k ∈ lines)); done. }
  split; [done |]. intros Hopen Hne. rewrite Hk' in Hopen.
  assert (k = 0 ∨ k = 1 ∨ k = 10 ∨ k = 11) as Hc.
  { replace (k =? 2) with false in Hopen by lia. rewrite andb_false_l, orb_false_r in Hopen. apply negb_false_iff, bool_decide_eq_true in Hopen.
    rewrite Forall_forall in Hl. apply elem_of_app in Hopen as [Hx | Hx]; [| destruct (Hl _ Hx); lia].
    apply elem_of_cons in Hx as [-> | Hx]; [lia |]. apply list_elem_of_singleton in Hx. lia. }
  assert (offset (if k <? 8 then d'.1 else d'.2) = if k <? 8 then 32 else 40) as -> by (destruct (k <? 8); done).
  assert ((if k <? 8 then 32 else 40) + k mod 8 = 32 + k) as -> by (by destruct Hc as [-> | [-> | [-> | ->]]]).
  rewrite table_lookup, decode_entry by lia. by destruct Hc as [-> | [-> | [-> | ->]]].
Qed.

(** ** The stack an interrupt runs on *)
(** The system-segment descriptor at [e] and the stack the processor switches
    to: the slot of the table of stacks that the gate names, the stack of
    ring 0 when it comes from user mode, the current one otherwise. *)
Definition segment_base (m : pmem) (e : Z) : Z := le_read 8 (aget (map m [e + 2; e + 3; e + 4; e + 7; e + 8; e + 9; e + 10; e + 11])) 0.
Definition segment_limit (m : pmem) (e : Z) : Z := le_read 2 m e + 2 ^ 16 * Z.land (m (e + 6)) 15.
Definition entry_stack (m : pmem) (e : Z) (g : gate) (from_user : bool) (sp : Z) : Z :=
  if g_ist g =? 0 then if from_user then rd64 m (segment_base m e + 4) else sp
  else rd64 m (segment_base m e + 36 + 8 * (g_ist g - 1)).

Lemma copied m d src x : d ≤ x < d + zlen src → pmemcpy_from m d src x = src.[x - d].
Proof. intros H. unfold pmemcpy_from. by rewrite (proj2 (Z.leb_le _ _)), (proj2 (Z.ltb_lt _ _)) by lia. Qed.
Lemma descriptor_base tss : 0 ≤ tss < 2 ^ 64 →
  le_read 8 (aget (map (aget (tss_descriptor tss)) [2; 3; 4; 7; 8; 9; 10; 11])) 0 = tss.
Proof.
  intros Ht. rewrite (le_read_bytes 8 _ 0 tss).
  - change (256 ^ Z.of_nat 8) with (2 ^ 64). by apply Z.mod_small.
  - intros i Hi. f_equal. unfold tss_descriptor. cbn [map].
    transitivity (u8 tss :: map (λ k, u8 (Z.shiftr tss k)) [8; 16; 24; 32; 40; 48; 56]); [reflexivity |].
    cbn [map le_bytes]. rewrite !Z.shiftr_div_pow2, !Z.div_div by lia. reflexivity.
Qed.
(** What [gdt_init] leaves: a descriptor of the whole task-state segment and
    the two stacks in it. *)
Lemma gdt_init_spec m tss entry top ist :
  0 ≤ tss < 2 ^ 64 → entry + 16 ≤ tss ∨ tss + 104 ≤ entry →
  let m' := gdt_init tss entry top ist m in
  segment_base m' entry = tss ∧ segment_limit m' entry = 103 ∧ m' (entry + 5) = 0x89 ∧
  rd64 m' (tss + 4) = u64 top ∧ rd64 m' (tss + 36) = u64 ist.
Proof.
  intros Ht Hd. cbv zeta. set (m' := gdt_init _ _ _ _ _).
  assert (∀ i, 0 ≤ i < 16 → m' (entry + i) = (tss_descriptor tss).[i]) as G.
  { intros i Hi. unfold m', gdt_init, tss_set_rsp0. rewrite !wr64_out by lia.
    rewrite copied by (change (zlen (tss_descriptor tss)) with 16; lia). f_equal. lia. }
  split_and!.
  - unfold segment_base. cbn [map]. rewrite !G by lia. by apply descriptor_base.
  - unfold segment_limit. cbn [le_read]. rewrite <- (Z.add_0_r entry) at 1. by rewrite !G by lia.
  - by rewrite G by lia.
  - unfold m', gdt_init. rewrite rd64_wr64_other by lia. apply rd64_wr64_same.
  - apply rd64_wr64_same.
Qed.
Lemma set_rsp0_keeps m tss entry r :
  entry + 16 ≤ tss ∨ tss + 104 ≤ entry →
  segment_base (tss_set_rsp0 tss r m) entry = segment_base m entry ∧ rd64 (tss_set_rsp0 tss r m) (tss + 36) = rd64 m (tss + 36).
Proof.
  intros Hd. unfold tss_set_rsp0. split; [| apply rd64_wr64_other; lia]. unfold segment_base. cbn [map]. by rewrite !wr64_out by lia.
Qed.
Lemma switches_spec m tss entry top ist rs :
  0 ≤ tss < 2 ^ 64 → entry + 16 ≤ tss ∨ tss + 104 ≤ entry →
  let m' := foldl (λ m r, tss_set_rsp0 tss r m) (gdt_init tss entry top ist m) rs in
  segment_base m' entry = tss ∧ rd64 m' (tss + 4) = u64 (List.last rs top) ∧ rd64 m' (tss + 36) = u64 ist.
Proof.
  intros Ht Hd. cbv zeta. induction rs as [| r rs IH] using rev_ind.
  { destruct (gdt_init_spec m tss entry top ist Ht Hd) as (? & _ & _ & ? & ?). by split_and!. }
  rewrite foldl_app. cbn [foldl]. destruct IH as (B & _ & I).
  destruct (set_rsp0_keeps (foldl (λ m r, tss_set_rsp0 tss r m) (gdt_init tss entry top ist m) rs) tss entry r Hd) as [-> ->].
  split_and!; [done | | done]. rewrite List.last_last. apply rd64_wr64_same.
Qed.

(** C29: every interrupt runs on a stack of the kernel that is known to be good.
    After [gdt_init] and any sequence of context switches, each of which sets
    [rsp0], the processor that follows the descriptor, the task-state segment
    and the gate of a vector takes the kernel stack set last when it comes
    from a user program, the dedicated stack for a double fault whatever it
    interrupts, and stays on its stack otherwise. *)
Theorem interrupts_have_stacks isr irq sys m tss entry top ist1 switches n from_user sp :
  0 ≤ tss < 2 ^ 64 → entry + 16 ≤ tss ∨ tss + 104 ≤ entry → Forall (λ a, 0 ≤ a < 2 ^ 64) (ist1 :: top :: switches) →
  0 ≤ n < 256 →
  entry_stack (foldl (λ m r, tss_set_rsp0 tss r m) (gdt_init tss entry top ist1 m) switches) entry
    (decode (entry_bytes (idt_table isr irq sys).[n])) from_user sp =
  if n =? 8 then ist1 else if from_user then List.last switches top else sp.
Proof.
  intros Ht Hd Ha Hn. destruct (switches_spec m tss entry top ist1 switches Ht Hd) as (B & R & I).
  unfold entry_stack. rewrite table_lookup, decode_entry, B, R by done. apply Forall_cons in Ha as [Hi Ha].
  assert (0 ≤ List.last switches top < 2 ^ 64) as Hl.
  { clear -Ha. apply Forall_cons in Ha as [Ht Ha]. induction switches as [| r rs IH] using rev_ind; [done |].
    rewrite List.last_last. apply Forall_app in Ha as [_ Ha]. by apply Forall_cons in Ha as [? _]. }
  rewrite u64_small by done. cbn [g_ist]. destruct (Z.eqb_spec n 8) as [-> | Hne].
  { assert (Z.land (ist (entry_for isr irq sys 8)) 7 = 1) as -> by reflexivity. replace (tss + 36 + 8 * (1 - 1)) with (tss + 36) by lia.
    cbn [Z.eqb Pos.eqb]. rewrite I. by apply u64_small. }
  unfold entry_for. replace (n =? 8) with false by lia. destruct (n <? 22); [done |]. destruct (_ || _); [done |]. by destruct (n =? 0x80).
Qed.

(** ** The digits on the screen *)
Definition hex_value (c : Z) : Z := if c <? 65 then c - 48 else c - 55.
Definition read_hex (s : list Z) : Z := foldl (λ v c, 16 * v + hex_value c) 0 s.
Lemma read_hex_shift s acc : foldl (λ v c, 16 * v + hex_value c) acc s = acc * 16 ^ zlen s + read_hex s.
Proof.
  unfold read_hex. revert acc. induction s as [| c s IH] using rev_ind; intros acc; [change (16 ^ zlen []) with 1; cbn [foldl]; lia |].
  rewrite !foldl_app. cbn [foldl]. rewrite (IH acc), zlen_app.
  change (zlen [c]) with 1. rewrite Z.pow_add_r by (unfold zlen; lia). change (16 ^ 1) with 16. ring.
Qed.
Lemma hex_digits_spec k v acc : 0 ≤ v →
  zlen (hex_digits k v acc) = Z.of_nat k + zlen acc ∧
  read_hex (hex_digits k v acc) = (v mod 16 ^ Z.of_nat k) * 16 ^ zlen acc + read_hex acc.
Proof.
  revert v acc. induction k as [| k IH]; intros v acc Hv; cbn [hex_digits].
  { change (16 ^ Z.of_nat 0) with 1. rewrite Z.mod_1_r. lia. }
  change (Z.land v 15) with (Z.land v (Z.ones 4)). rewrite Z.land_ones, Z.shiftr_div_pow2 by lia. change (2 ^ 4) with 16.
  set (c := if _ <? 10 then _ else _). assert (hex_value c = v mod 16) as Hc.
  { unfold c, hex_value. clear. pose proof (Z.mod_pos_bound v 16 ltac:(lia)). destruct (Z.ltb_spec (v mod 16) 10); case_match; lia. }
  destruct (IH (v / 16) (c :: acc) ltac:(zdm)) as [-> ->]. rewrite zlen_cons. split; [lia |].
  unfold read_hex at 1. cbn [foldl]. rewrite read_hex_shift, Z.mul_0_r, Z.add_0_l, Hc.
  replace (Z.of_nat (S k)) with (Z.succ (Z.of_nat k)) by lia. rewrite Z.pow_succ_r by lia. rewrite Z.rem_mul_r by lia.
  rewrite Z.pow_add_r by (unfold zlen; lia). change (16 ^ 1) with 16. ring.
Qed.
(** the register dump of the exception screen shows the registers: the
    sixteen digits after [0x] read back as the 64-bit value. *)
Theorem hex64_roundtrip v : 0 ≤ v < 2 ^ 64 → read_hex (drop 2 (hex64 v)) = v ∧ zlen (hex64 v) = 18.
Proof.
  intros Hv. destruct (hex_digits_spec 16 v [] (proj1 Hv)) as [L R]. unfold hex64. rewrite drop_app_length', R by done.
  rewrite zlen_app, L. change (16 ^ Z.of_nat 16) with (2 ^ 64). rewrite Z.mod_small by done. split; [| done].
  change (16 ^ zlen []) with 1. change (read_hex []) with 0. lia.
Qed.

(** ** Reading the report *)
(** How a reader of the serial log finds a field: what follows the first
    occurrence of a label, and what precedes one. *)
Fixpoint strip (label s : list Z) : option (list Z) :=
  match label, s with
  | [], _ => Some s
  | a :: label, b :: s => if a =? b then strip label s else None
  | _ :: _, [] => None
  end.
Fixpoint after (label s : list Z) : option (list Z) :=
  match strip label s with
  | Some rest => Some rest
  | None => match s with [] => None | _ :: s => after label s end
  end.
Fixpoint before (label s : list Z) : option (list Z) :=
  match strip label s with
  | Some _ => Some []
  | None => match s with [] => None | c :: s => cons c <$> before label s end
  end.
(** The number printed after a label: sixteen digits after [0x]. *)
Definition number_after (label s : list Z) : option Z := (λ rest, read_hex (take 16 (drop 2 rest))) <$> after label s.
Definition name_in (s : list Z) : option (list Z) := rest ← after (txt "!!! CPU EXCEPTION: ") s; before (line " !!!") rest.

(** The registers the screen names, and the fields of 64 bits. *)
Definition named_registers (r : registers_t) : list (list Z * Z) :=
  [(txt "RAX", rax r); (txt "RBX", rbx r); (txt "RCX", rcx r); (txt "RDX", rdx r); (txt "RSI", rsi r); (txt "RDI", rdi r);
   (txt "RBP", rbp r); (txt "R8 ", r8 r); (txt "R9 ", r9 r); (txt "R10", r10 r); (txt "R11", r11 r); (txt "R12", r12 r);
   (txt "R13", r13 r); (txt "R14", r14 r); (txt "R15", r15 r); (txt "CR2", cr2 r); (txt "RIP", rip r); (txt "CS ", cs r);
   (txt "RSP", rsp r); (txt "SS ", ss r); (txt "FLG", rflags r)].
Definition registers_sized (r : registers_t) : Prop :=
  Forall (λ p, 0 ≤ p.2 < 2 ^ 64) (named_registers r) ∧ 0 ≤ err_code r < 2 ^ 64 ∧ 0 ≤ int_no r < 2 ^ 64.
Definition reported_name (r : registers_t) : list Z := default [] (exception_names !! Z.to_nat (int_no r)).

Lemma after_skip c label p s : Forall (λ x, x ≠ c) p → after (c :: label) (p ++ s) = after (c :: label) s.
Proof. induction 1 as [| x p Hx _ IH]; [done |]. cbn. by replace (c =? x) with false by lia. Qed.
Lemma hex64_digits v : 0 ≤ v < 2 ^ 64 →
  ∃ ds, hex64 v = txt "0x" ++ ds ∧ zlen ds = 16 ∧ read_hex ds = v ∧ Forall (λ c, c ≠ 32) ds.
Proof.
  intros Hv. exists (hex_digits 16 v []). destruct (hex_digits_spec 16 v [] (proj1 Hv)) as [L R]. split; [done |]. split; [done |].
  rewrite R. change (16 ^ Z.of_nat 16) with (2 ^ 64). rewrite Z.mod_small by done. change (16 ^ zlen []) with 1. change (read_hex []) with 0. split; [lia |].
  assert (Forall (λ c, c ≠ 32) (@nil Z)) as Ha by constructor. clear - Ha. revert v Ha. generalize (@nil Z).
  generalize 16%nat. intros k. induction k as [| k IH]; intros acc v Ha; [done |]. cbn [hex_digits]. apply IH. constructor; [| done].
  assert (0 ≤ Z.land v 15) by (apply Z.land_nonneg; lia). case_match; lia.
Qed.
Lemma digits_read ds s : zlen ds = 16 → read_hex (take 16 (drop 2 (txt "0x" ++ ds ++ s))) = read_hex ds.
Proof. intros L. change (drop 2 (txt "0x" ++ ds ++ s)) with (ds ++ s). rewrite take_app_length'; [done |]. unfold zlen in L. lia. Qed.

(** The text before the numbers, for each of the names. *)
Definition report_head (name : list Z) : list Z := [10] ++ txt "!!! CPU EXCEPTION: " ++ name ++ line " !!!".
Lemma report_heads name : name ∈ [] :: exception_names → ∀ s,
  name_in (report_head name ++ txt "  RIP=" ++ s) = Some name ∧
  after (txt "  RIP=") (report_head name ++ txt "  RIP=" ++ s) = Some s ∧
  after (txt "  ERR=") (report_head name ++ txt "  RIP=0x" ++ s) = after (txt "  ERR=") s ∧
  after (txt "  CR2=") (report_head name ++ txt "  RIP=0x" ++ s) = after (txt "  CR2=") s.
Proof.
  intros Hn. assert (Forall (λ name, ∀ s,
    name_in (report_head name ++ txt "  RIP=" ++ s) = Some name ∧
    after (txt "  RIP=") (report_head name ++ txt "  RIP=" ++ s) = Some s ∧
    after (txt "  ERR=") (report_head name ++ txt "  RIP=0x" ++ s) = after (txt "  ERR=") s ∧
    after (txt "  CR2=") (report_head name ++ txt "  RIP=0x" ++ s) = after (txt "  CR2=") s) ([] :: exception_names)) as F
    by (repeat constructor).
  rewrite Forall_forall in F. by apply F.
Qed.
Lemma reported_name_in r : reported_name r ∈ [] :: exception_names.
Proof.
  unfold reported_name. destruct (exception_names !! _) as [s |] eqn:E; cbn [default]; [right; by eapply list_elem_of_lookup_2 | left].
Qed.
Lemma reported_name_eq r : 0 ≤ int_no r → default [] (exception_name r) = reported_name r.
Proof.
  intros Hn. unfold exception_name, reported_name. destruct (Z.ltb_spec (int_no r) 22) as [| Hge]; [done |].
  rewrite lookup_ge_None_2; [done |]. change (length exception_names) with 22%nat. lia.
Qed.

Lemma serial_report r : registers_sized r →
  name_in (serial_text r) = Some (reported_name r) ∧ number_after (txt "  RIP=") (serial_text r) = Some (rip r) ∧
  number_after (txt "  ERR=") (serial_text r) = Some (err_code r) ∧ number_after (txt "  CR2=") (serial_text r) = Some (cr2 r).
Proof.
  intros (Hs & He & Hi). rewrite Forall_forall in Hs.
  assert (0 ≤ rip r < 2 ^ 64) as Hr by (apply (Hs (txt "RIP", rip r)); repeat (first [left | right])).
  assert (0 ≤ cr2 r < 2 ^ 64) as Hc by (apply (Hs (txt "CR2", cr2 r)); repeat (first [left | right])).
  destruct (hex64_digits _ Hr) as (dr & Er & Lr & Vr & Nr). destruct (hex64_digits _ He) as (de & Ee & Le & Ve & Ne).
  destruct (hex64_digits _ Hc) as (dc & Ec & Lc & Vc & Nc). unfold serial_text, number_after. rewrite reported_name_eq, Er, Ee, Ec by lia.
  set (t3 := txt "  CR2=" ++ txt "0x" ++ dc ++ [10]). set (t2 := txt "  ERR=" ++ txt "0x" ++ de ++ t3).
  assert ([10] ++ txt "!!! CPU EXCEPTION: " ++ reported_name r ++ line " !!!" ++ txt "  RIP=" ++ (txt "0x" ++ dr) ++
    txt "  ERR=" ++ (txt "0x" ++ de) ++ txt "  CR2=" ++ (txt "0x" ++ dc) ++ [10] =
    report_head (reported_name r) ++ txt "  RIP=" ++ txt "0x" ++ dr ++ t2) as ->
    by (unfold report_head, t2, t3; by rewrite <- !(app_assoc (A := Z))).
  destruct (report_heads _ (reported_name_in r) (txt "0x" ++ dr ++ t2)) as (-> & -> & _).
  destruct (report_heads _ (reported_name_in r) (dr ++ t2)) as (_ & _ & E3 & E4).
  change (txt "  RIP=" ++ txt "0x" ++ dr ++ t2) with (txt "  RIP=0x" ++ dr ++ t2). rewrite E3, E4.
  assert (∀ c l s, after (32 :: 32 :: c :: l) (dr ++ s) = after (32 :: 32 :: c :: l) s) as Sr by (intros; by apply after_skip).
  assert (∀ c l s, after (32 :: 32 :: c :: l) (de ++ s) = after (32 :: 32 :: c :: l) s) as Se by (intros; by apply after_skip).
  split; [done |]. split; [cbn [fmap option_fmap option_map]; by rewrite digits_read, Vr |]. split.
  - assert (after (txt "  ERR=") (dr ++ t2) = Some (txt "0x" ++ de ++ t3)) as -> by exact (Sr _ _ t2).
    cbn [fmap option_fmap option_map]. by rewrite digits_read, Ve.
  - assert (after (txt "  CR2=") (dr ++ t2) = after (txt "  CR2=") (de ++ t3)) as -> by exact (Sr _ _ t2).
    assert (after (txt "  CR2=") (de ++ t3) = Some (txt "0x" ++ dc ++ [10])) as -> by exact (Se _ _ t3).
    cbn [fmap option_fmap option_map]. by rewrite digits_read, Vc.
Qed.
Lemma screen_report r name v : registers_sized r → (name, v) ∈ named_registers r →
  ∃ h, Str (txt "  " ++ name ++ txt " = " ++ h) ∈ exception_text r ∧ read_hex (drop 2 h) = v.
Proof.
  intros (Hs & _) Hin. rewrite Forall_forall in Hs. specialize (Hs _ Hin). exists (hex64 v). split.
  2: { destruct (hex64_digits v Hs) as (ds & -> & _ & E & _). exact E. }
  change (Str (txt "  " ++ name ++ txt " = " ++ hex64 v)) with (dump_register name v).
  assert (dump_register name v ∈ register_dump r) as Hd.
  { unfold named_registers in Hin. repeat (apply elem_of_cons in Hin as [[= -> ->] | Hin]; [unfold register_dump, register_pair; cbn [app]; repeat (first [left | right]) |]).
    by apply elem_of_nil in Hin. }
  unfold exception_text. rewrite !elem_of_app. auto 10.
Qed.

(** ** The report on the serial line *)
(** What the kernel relies on of the 16550: a poll of the line status register
    finds the transmitter empty after at most [busy_max] polls, a byte stored
    in the data register is sent, and the VGA registers are other ports. *)
Class SerialLine (hw : Type) `{PortIO hw} := {
  sent : hw → list Z;
  busy : hw → Z;
  busy_max : Z;
  busy_range d : 0 ≤ busy d ≤ busy_max;
  poll_sent d : sent (inb (Terminal.COM1 + 5) d).2 = sent d;
  poll_busy d : Z.land (inb (Terminal.COM1 + 5) d).1 0x20 = 0 → busy (inb (Terminal.COM1 + 5) d).2 < busy d;
  data_sent c d : sent (outb Terminal.COM1 c d) = sent d ++ [c];
  index_sent v d : sent (outb 0x3D4 v d) = sent d;
  cursor_sent v d : sent (outb 0x3D5 v d) = sent d
}.

Section Report.
Context {hw : Type} `{SerialLine hw}.
Implicit Types t : Terminal.term (hw := hw).
Lemma serial_putchar_spec fuel c (d : hw) : busy_max < fuel → ∃ d', Terminal.serial_putchar fuel c d = Some d' ∧ sent d' = sent d ++ [c].
Proof.
  intros Hf. unfold Terminal.serial_putchar.
  set (f := λ d : hw, let '(e, d) := Terminal.serial_is_transmit_empty d in if e =? 0 then inl d else inr d).
  assert (busy d < fuel) as Hb by (pose proof (busy_range d); lia).
  destruct (iterZ_measure (λ _, True) busy fuel f d I Hb) as [d1 E].
  { intros s _. apply busy_range. }
  { intros s s' _. unfold f, Terminal.serial_is_transmit_empty. pose proof (poll_busy s) as P. destruct (inb _ s) as [v s1]. cbn [fst snd] in P.
    destruct (Z.eqb_spec (Z.land v 0x20) 0) as [Hz |]; [intros [= <-] | done]. auto. }
  pose proof (iterZ_inv (λ s, sent s = sent d) (λ s, sent s = sent d) fuel f d eq_refl) as P. rewrite E in P |- *.
  eexists. split; [done |]. rewrite data_sent. f_equal. apply P; unfold f, Terminal.serial_is_transmit_empty.
  all: intros s s' Hs; pose proof (poll_sent s) as Q; destruct (inb _ s) as [v s1]; cbn [snd] in Q; case_match; intros [= <-]; congruence.
Qed.
Lemma serial_writestring_spec fuel str (d : hw) : busy_max < fuel →
  ∃ d', Terminal.serial_writestring fuel str d = Some d' ∧ sent d' = sent d ++ CString.cstr str.
Proof.
  intros Hf. unfold Terminal.serial_writestring. generalize (CString.cstr str). intros s. revert d. induction s as [| c s IH]; intros d.
  { exists d. by rewrite app_nil_r. }
  cbn [foldl]. cbn [mbind option_bind]. destruct (serial_putchar_spec fuel c d Hf) as (d1 & -> & E1). destruct (IH d1) as (d2 & -> & E2).
  exists d2. split; [done |]. by rewrite E2, E1, <- app_assoc.
Qed.

(** The screen does not touch the line. *)
Lemma cursor_keeps t : sent (Terminal.term_dev (Terminal.terminal_update_cursor t)) = sent (Terminal.term_dev t).
Proof. unfold Terminal.terminal_update_cursor. cbn [Terminal.term_dev Terminal.set_tdev]. by rewrite !cursor_sent, !index_sent, !cursor_sent, !index_sent. Qed.
Lemma shown_keeps t : sent (Terminal.term_dev (Terminal.show_if_visible t)) = sent (Terminal.term_dev t).
Proof. unfold Terminal.show_if_visible. destruct (Terminal.cursor_visible t); [apply cursor_keeps | done]. Qed.
Lemma render_keeps t : Terminal.term_dev (Terminal.terminal_render t) = Terminal.term_dev t.
Proof. exact (Terminal.rest_dev _ _ (Terminal.render_rest t)). Qed.
Lemma putchar_keeps c t : sent (Terminal.term_dev (Terminal.terminal_putchar c t)) = sent (Terminal.term_dev t).
Proof.
  unfold Terminal.terminal_putchar. destruct (c =? _); [by rewrite shown_keeps, Terminal.newline_dev |].
  destruct (c =? _); rewrite shown_keeps; [destruct (_ <=? _) | destruct (_ =? _)]; rewrite ?Terminal.newline_dev, ?render_keeps, ?Terminal.set_position_dev, ?(Terminal.rest_dev _ _ (Terminal.put_cell_rest t c)); done.
Qed.
Definition keeps t t' : Prop := (Terminal.term_ok t → Terminal.term_ok t') ∧ sent (Terminal.term_dev t') = sent (Terminal.term_dev t).
#[local] Instance keeps_preorder : PreOrder keeps.
Proof. split; [by split | intros ??? [P1 P2] [Q1 Q2]; split; [auto | congruence]]. Qed.
Lemma emit_keeps o t : keeps t (emit o t).
Proof.
  revert t. induction o as [| [c | s] o IH]; intros t; [reflexivity | |]; cbn [emit foldl emit1]; etransitivity; [| apply IH | | apply IH].
  - split; [apply (Terminal.texec_ok (Terminal.TColor c)) | done].
  - revert t. induction s as [| c s IHs]; intros t; [reflexivity |]. cbn [Terminal.terminal_write foldl]. etransitivity; [| apply IHs].
    split; [apply (Terminal.texec_ok (Terminal.TPut c)) | apply putchar_keeps].
Qed.
Lemma clear_keeps t : keeps t (Terminal.terminal_clear t).
Proof. split; [apply (Terminal.texec_ok Terminal.TClear) |]. unfold Terminal.terminal_clear. by rewrite shown_keeps, render_keeps, (Terminal.rest_dev _ _ (Terminal.blank_rest _)). Qed.
Lemma home_keeps t : keeps t (Terminal.terminal_set_cursor 0 0 t).
Proof. split; [apply (Terminal.texec_ok (Terminal.TSetCursor 0 0)) |]. unfold Terminal.terminal_set_cursor. by rewrite cursor_keeps. Qed.
Lemma cstr_whole s : Forall (λ c, c ≠ 0) s → CString.cstr s = s.
Proof. induction 1 as [| c s Hc _ IH]; [done |]. cbn. rewrite IH. by replace (c =? 0) with false by lia. Qed.
Lemma hex64_chars v : Forall (λ c, c ≠ 0) (hex64 v).
Proof.
  unfold hex64. apply Forall_app_2; [by repeat constructor |]. assert (Forall (λ c, c ≠ 0) (@nil Z)) as Ha by constructor. revert v Ha. generalize (@nil Z).
  generalize 16%nat. intros k. induction k as [| k IH]; intros acc v Ha; [done |]. cbn [hex_digits]. apply IH. constructor; [| done].
  assert (0 ≤ Z.land v 15) by (apply Z.land_nonneg; lia). case_match; lia.
Qed.
Lemma serial_text_chars r : Forall (λ c, c ≠ 0) (serial_text r).
Proof.
  assert (Forall (λ c, c ≠ 0) (default [] (exception_name r))) as Hn.
  { unfold exception_name. case_match; [| constructor]. destruct (exception_names !! _) as [s |] eqn:E; [| constructor]. cbn.
    assert (Forall (Forall (λ c, c ≠ 0)) exception_names) as F by (repeat constructor; done). by eapply Forall_lookup_1 in F. }
  unfold serial_text. rewrite !Forall_app. split_and!; try apply hex64_chars; try done; apply (bool_decide_unpack _); vm_compute; exact I.
Qed.

(** C32: a fault in the kernel is always reported.  Whatever 64-bit values the
    registers hold and whatever the state of the screen, the exception handler reaches its final
    halt, every store of the two thousand blanks and of the dump is inside
    the buffers of the terminal, and one report has been sent on the serial
    line.  Read back by its labels, the report names the exception of the
    vector and gives the address of the instruction, the error code and the
    faulting address; and the text written from the top of the screen has,
    under the name of each of the twenty-one registers, its value in
    hexadecimal. *)
Theorem exception_reported fuel r t :
  busy_max < fuel → Terminal.term_ok t → registers_sized r →
  ∃ t' report, exception_handler fuel r t = Some t' ∧ Terminal.term_ok t' ∧
  sent (Terminal.term_dev t') = sent (Terminal.term_dev t) ++ report ∧
  (name_in report = Some (reported_name r) ∧ number_after (txt "  RIP=") report = Some (rip r) ∧
   number_after (txt "  ERR=") report = Some (err_code r) ∧ number_after (txt "  CR2=") report = Some (cr2 r)) ∧
  ∃ screen written, t' = Terminal.set_tdev (emit written screen) (Terminal.term_dev t') ∧
    Terminal.current_line screen = 0 ∧ Terminal.terminal_column screen = 0 ∧
    ∀ name v, (name, v) ∈ named_registers r →
      ∃ h, Str (txt "  " ++ name ++ txt " = " ++ h) ∈ written ∧ read_hex (drop 2 h) = v.
Proof.
  intros Hf Ht Hr. unfold exception_handler. set (t0 := Terminal.terminal_set_cursor 0 0 _). set (t1 := emit (exception_text r) t0).
  assert (keeps t t1) as [Hk Hs].
  { unfold t1, t0. rewrite <- emit_keeps, <- home_keeps, <- emit_keeps, <- clear_keeps. exact (emit_keeps [Color (on_blue 15)] t). }
  destruct (serial_writestring_spec fuel (serial_text r) (Terminal.term_dev t1) Hf) as (d & -> & E).
  eexists _, (serial_text r). split; [reflexivity |]. rewrite cstr_whole in E by apply serial_text_chars. split; [destruct (Hk Ht); by split |].
  split; [cbn [Terminal.term_dev Terminal.set_tdev]; congruence |]. split; [by apply serial_report |].
  exists t0, (exception_text r). do 3 (split; [done |]). intros name v. by apply screen_report.
Qed.
End Report.

(** A line that sends a byte in two polls. *)
Record uart := Uart { wire : list Z; wait : bool }.
#[export] Instance uart_io : PortIO uart := {|
  inb p d := if p =? 0x3FD then (if wait d then 0x40 else 0x60, Uart (wire d) false) else (0, d);
  inw p d := (0, d);
  outb p v d := if p =? 0x3F8 then Uart (wire d ++ [v]) true else d;
  outw p v d := d
|}.
#[export] Instance uart_line : SerialLine uart.
Proof.
  refine (Build_SerialLine uart uart_io wire (λ d, if wait d then 1 else 0) 1 _ _ _ _ _ _).
  - by intros [w []]; split.
  - done.
  - by intros [w []].
  - done.
  - done.
  - done.
Defined.

(** ** Witnesses *)
Definition demo_isr (n : Z) : Z := 0x100000 + 16 * (n mod 256).
Definition demo_irq (n : Z) : Z := 0x102000 + 16 * (n mod 256).
Lemma demo_handlers : (∀ n, 0 ≤ demo_isr n < 2 ^ 64) ∧ (∀ n, 0 ≤ demo_irq n < 2 ^ 64) ∧ 0 ≤ 0x103000 < 2 ^ 64.
Proof. unfold demo_isr, demo_irq. split_and!; try lia; intros n; zdm. Qed.
Lemma idt_protects_kernel_witness :
  decode (entry_bytes (idt_table demo_isr demo_irq 0x103000).[14]) = Gate 0x1000E0 8 0 0 true.
Proof. destruct (idt_protects_kernel demo_isr demo_irq 0x103000 demo_handlers 14 ltac:(lia)) as [E _]. rewrite E. reflexivity. Defined.
Definition bios_pics : pics := (Chip 0 8 0, Chip 0 0x70 0).
Lemma open_lines_have_gates_witness :
  masked (foldl (λ d i, idt_unmask_irq i d) (idt_init demo_isr demo_irq 0x103000 bios_pics).2 [11]) 11 = false.
Proof.
  destruct (open_lines_have_gates demo_isr demo_irq 0x103000 bios_pics [11] 11) as [E _];
    [by repeat constructor; right | lia |]. rewrite E. reflexivity.
Defined.
Lemma interrupts_have_stacks_witness :
  entry_stack (foldl (λ m r, tss_set_rsp0 0x1000 r m) (gdt_init 0x1000 0x2000 0x90000 0xA0000 (λ _, 0)) [0x95000]) 0x2000
    (decode (entry_bytes (idt_table demo_isr demo_irq 0x103000).[14])) true 0x400000 = 0x95000.
Proof.
  refine (interrupts_have_stacks demo_isr demo_irq 0x103000 (λ _, 0) 0x1000 0x2000 0x90000 0xA0000 [0x95000] 14 true 0x400000 _ _ _ _);
    [lia | lia | repeat constructor; lia | lia].
Defined.
Lemma hex64_roundtrip_witness : read_hex (drop 2 (hex64 0xDEADBEEF)) = 0xDEADBEEF ∧ zlen (hex64 0xDEADBEEF) = 18.
Proof. apply (hex64_roundtrip 0xDEADBEEF). lia. Defined.
Definition uart_term : Terminal.term (hw := uart) :=
  Terminal.Term (replicate 1000 (replicate 80 32)) (replicate 1000 (replicate 80 7)) 0 0 0 7 (replicate 2000 0) true true (Uart [] false) true.
Definition page_fault : registers_t := Registers 0x1234 0 0 0 0 0 0 0 0 0 0 0 0 0 0 0 14 2 0x100000 8 2 0x90000 16.
Lemma uart_term_ok : Terminal.term_ok uart_term.
Proof. split; [by apply Terminal.grid_replicate | by apply Terminal.grid_replicate | done | done | reflexivity | done]. Qed.
Lemma exception_reported_witness :
  ∃ t', exception_handler 5 page_fault uart_term = Some t' ∧ number_after (txt "  CR2=") (sent (Terminal.term_dev t')) = Some 0x1234 ∧
    name_in (sent (Terminal.term_dev t')) = Some (txt "Page Fault").
Proof.
  destruct (exception_reported 5 page_fault uart_term) as (t' & report & E & _ & S & (N & _ & _ & C) & _); [cbn; lia | exact uart_term_ok | |].
  - split; [repeat constructor; cbn; lia | cbn; lia].
  - exists t'. split; [exact E |]. rewrite S. split; [exact C | exact N].
Defined.
End Interrupts.
