(* ===== verification/CommandProps.v ===== *)
(** * Properties of the shell commands

    The commands on files are proved against a file system that is a map from
    names to contents ([StoreLaws]); Fs.v over the RAM file system is one.
    [wc], [head], [hexdump] and [calc] are compared with definitions of what
    they print.  A command that writes and one that shows a file meet in the
    shell of Shell.v. *)
From S2P Require Import Prelude.
From S2P Require Import Text.
From S2P Require Import CString.
From S2P Require Import Ata.
From S2P Require Import BlockDev.
From S2P Require Import Heap.
From S2P Require Import Fat.
From S2P Require Import FatMount.
From S2P Require Import Ramfs.
From S2P Require Import Vfs.
From S2P Require Import Process.
From S2P Require Import Keyboard.
From S2P Require Import Terminal.
From S2P Require Import Format.
From S2P Require Import Net.
From S2P Require Import NetProps.
From S2P Require Import Fs.
From S2P Require Import Syscall.
From S2P Require Import Handles.
From S2P Require Import Editor.
From S2P Require Import EditorProps.
From S2P Require Import Shell.
From S2P Require Import ShellProps.
From S2P Require Import Cpu.
From S2P Require Import Commands.
Import Ata Format Commands.
Import (hints) BlockDev Keyboard Terminal Net NetProps Fat Vfs Fs Handles EditorProps Commands ShellProps.

Module CommandProps.

(** ** A file system that is a map *)
Definition store := list Z → option (list Z).
Definition put_file (n d : list Z) (m : store) : store := λ k, if decide (k = n) then Some d else m k.
Definition drop_file (n : list Z) (m : store) : store := λ k, if decide (k = n) then None else m k.

(** [content] is the map, [accepts f n d] whether there is room for a file
    [n] with the bytes [d]. *)
Class StoreLaws (F : Type) `{Syscall.FileReader F} `{!Editor.FileStore F} `{!FileSystem F} := {
  st_ok : F → Prop;
  name_ok : list Z → Prop;
  content : F → store;
  accepts : F → list Z → list Z → bool;
  read_law procs n f : st_ok f → name_ok n →
    ∃ r f', Syscall.file_read procs n FS_MAX_FILESIZE f = (Fat.Val r, f') ∧ st_ok f' ∧ (∀ k, content f' k = content f k) ∧
      (∀ k d, accepts f' k d = accepts f k d) ∧
      match content f n with
      | Some c => Fat.rr_rc r = 0 ∧ Fat.rr_size r = Some (zlen c) ∧ Fat.rr_buf r = c
      | None => Fat.rr_rc r ≠ 0
      end;
  store_law n data size f : st_ok f → name_ok n → 0 ≤ size ≤ zlen data →
    let d := take (Z.to_nat size) data in
    ∃ f', Editor.file_create n data size f = (Fat.Val (if accepts f n d then 0 else -1), f') ∧ st_ok f' ∧
      ∀ k, content f' k = (if accepts f n d then put_file n d (content f) else content f) k;
  delete_law n f : st_ok f → name_ok n →
    ∃ f', fs_delete n f = (Fat.Val (if content f n is Some _ then 0 else -1), f') ∧ st_ok f' ∧
      ∀ k, content f' k = drop_file n (content f) k
}.

Section Store.
Context {F : Type} `{Syscall.FileReader F} `{!Editor.FileStore F} `{!FileSystem F} `{!StoreLaws F}.
Context (procs : list Process.process_t).
Implicit Types (f : F) (m : store).

(** What the commands do to the map, and whether they report success. *)
Inductive file_cmd := Cat (n : list Z) | Write (n d : list Z) | Rm (n : list Z) | Touch (n : list Z) | Cp (a b : list Z) | Mv (a b : list Z).
Definition command (c : file_cmd) : Fat.fm F (list out) :=
  match c with
  | Cat n => cmd_cat procs n
  | Write n d => cmd_write (n ++ 32 :: d)
  | Rm n => cmd_rm n
  | Touch n => cmd_touch n
  | Cp a b => cmd_cp procs (a ++ 32 :: b)
  | Mv a b => cmd_mv procs (a ++ 32 :: b)
  end.
Definition after (room : list Z → list Z → bool) (c : file_cmd) (m : store) : store :=
  match c with
  | Cat _ => m
  | Write n d => if room n d then put_file n d m else m
  | Rm n => drop_file n m
  | Touch n => if room n [] then put_file n [] m else m
  | Cp a b => match m a with Some d => if room b d then put_file b d m else m | None => m end
  | Mv a b => match m a with Some d => if room b d then drop_file a (put_file b d m) else m | None => m end
  end.
Definition report (room : list Z → list Z → bool) (c : file_cmd) (m : store) : list out :=
  match c with
  | Cat n => match m n with Some d => [Str d; Str [10]] | None => complain "Error: File not found: " n end
  | Write n d => if room n d then confirm "File written: " n else fail "Error: Could not write file (filesystem full?)"
  | Rm n => match m n with Some _ => confirm "File removed: " n | None => complain "Error: File not found: " n end
  | Touch n => if room n [] then confirm "File created: " n else fail "Error: Cannot create file (must be in root /)"
  | Cp a b | Mv a b =>
      match m a with
      | None => complain "Error: Source not found: " a
      | Some d =>
          if room b d then [Color light_green; Str a; say (match c with Cp _ _ => " -> " | _ => " => " end); Str b; Str [10]; Color light_grey]
          else complain "Error: Could not create: " b
      end
  end.
(** The argument of a command: a word, and for the second one text that does
    not begin with a space. *)
Definition word (n : list Z) : Prop := name_ok n ∧ n ≠ [] ∧ (32 ∉ n) ∧ zlen n < FS_MAX_FILENAME.
Definition rest_ok (d : list Z) : Prop := d ≠ [] ∧ head d ≠ Some 32.
Definition cmd_ok (c : file_cmd) : Prop :=
  match c with
  | Cat n | Rm n | Touch n => name_ok n ∧ n ≠ []
  | Write n d => word n ∧ rest_ok d ∧ zlen d ≤ FS_MAX_FILESIZE
  | Cp a b | Mv a b => word a ∧ name_ok b ∧ rest_ok b ∧ zlen b < FS_MAX_FILENAME
  end.

Lemma take_word_all k n r : 32 ∉ n → (length n ≤ k)%nat → (r = [] ∨ head r = Some 32) → take_word k (n ++ r) = (n, r).
Proof.
  intros Hn Hk Hr. revert k Hk. induction n as [| c n IH]; intros k Hk; cbn [app].
  - destruct k as [| k], r as [| x r]; cbn [take_word]; try done. destruct Hr as [| [= ->]]; done.
  - destruct k as [| k]; cbn [length] in Hk; [lia |]. cbn [take_word]. apply not_elem_of_cons in Hn as [Hc Hn].
    replace (c =? 32) with false by lia. rewrite IH by (done || lia). done.
Qed.
Lemma skip_one d : head d ≠ Some 32 → skip_spaces (32 :: d) = d.
Proof.
  intros Hd. cbn. destruct d as [| c d]; [done |]. cbn. unfold Process.SPACE. destruct (Z.eqb_spec c 32) as [-> |]; [by destruct Hd | done].
Qed.
Lemma split_args a b :
  word a → rest_ok b → zlen b < FS_MAX_FILENAME → split_two_args (a ++ 32 :: b) FS_MAX_FILENAME FS_MAX_FILENAME = (true, a, b).
Proof.
  intros (_ & Ha & Hs & Hl) [Hb Hh] Hlb. unfold split_two_args. unfold zlen, FS_MAX_FILENAME in *.
  rewrite (take_word_all _ a (32 :: b)); [| done | lia | by right]. rewrite skip_one by done. rewrite take_ge by lia.
  by rewrite !bool_decide_eq_false_2 by done.
Qed.
Lemma args_some a b usage (c : Fat.fm F (list out)) : with_args usage (a ++ 32 :: b) c = c.
Proof. unfold with_args. rewrite bool_decide_eq_false_2; [done |]. by destruct a. Qed.
Lemma args_word n usage (c : Fat.fm F (list out)) : n ≠ [] → with_args usage n c = c.
Proof. intros Hn. unfold with_args. by rewrite bool_decide_eq_false_2. Qed.

(** Reading a file of the map. *)
Lemma file_spec n msg k f :
  st_ok f → name_ok n → ∃ f', st_ok f' ∧ (∀ i, content f' i = content f i) ∧ (∀ i d, accepts f' i d = accepts f i d) ∧
    with_file procs n msg k f = match content f n with Some d => k d f' | None => (Fat.Val (complain msg n), f') end.
Proof.
  intros Hf Hn. destruct (read_law procs n f Hf Hn) as (r & f' & E & Hf' & Hc & Ha & Hr). exists f'. split; [done |]. split; [done |]. split; [done |].
  unfold with_file, fs_read. unfold mbind, Fat.fm_bind. rewrite E. destruct (content f n) as [d |].
  - destruct Hr as (-> & Hs & Hb). cbn [Z.eqb negb]. unfold bytes_of. rewrite Hs, Hb, Z.leb_refl. unfold mret, Fat.fm_ret.
    unfold zlen. by rewrite Nat2Z.id, firstn_all.
  - by replace (Fat.rr_rc r =? 0) with false by lia.
Qed.
(** Creating a file of the map, followed by [k] on the result. *)
Lemma create_then n data d (k : Z → Fat.fm F (list out)) f :
  st_ok f → name_ok n → zlen d ≤ zlen data → take (length d) data = d →
  ∃ f', st_ok f' ∧ (∀ i, content f' i = (if accepts f n d then put_file n d (content f) else content f) i) ∧
    (rc ← Editor.file_create n data (zlen d); k rc) f = k (if accepts f n d then 0 else -1) f'.
Proof.
  intros Hf Hn Hl Ht. destruct (store_law n data (zlen d) f Hf Hn) as (f' & E & Hf' & Hc); [pose proof (zlen_nonneg d); lia |].
  cbv zeta in E, Hc. replace (take (Z.to_nat (zlen d)) data) with d in E, Hc by (unfold zlen; by rewrite Nat2Z.id).
  exists f'. split; [done |]. split; [exact Hc |]. unfold mbind, Fat.fm_bind. by rewrite E.
Qed.
Lemma delete_then n (k : Z → Fat.fm F (list out)) f :
  st_ok f → name_ok n →
  ∃ f', st_ok f' ∧ (∀ i, content f' i = drop_file n (content f) i) ∧
    (rc ← fs_delete n; k rc) f = k (if content f n is Some _ then 0 else -1) f'.
Proof.
  intros Hf Hn. destruct (delete_law n f Hf Hn) as (f' & E & Hf' & Hc). exists f'. split; [done |]. split; [done |].
  unfold mbind, Fat.fm_bind. by rewrite E.
Qed.
Lemma copy_spec usage a b k f :
  st_ok f → word a → name_ok b → rest_ok b → zlen b < FS_MAX_FILENAME →
  ∃ f', st_ok f' ∧ (∀ i, content f' i = after (accepts f) (Cp a b) (content f) i) ∧
    copy_file procs usage (a ++ 32 :: b) k f =
    match content f a with
    | Some d => if accepts f b d then k a b f' else (Fat.Val (complain "Error: Could not create: " b), f')
    | None => (Fat.Val (complain "Error: Source not found: " a), f')
    end.
Proof.
  intros Hf Ha Hb Hr Hl. unfold copy_file. rewrite args_some, split_args by done. cbn [negb].
  match goal with |- context [with_file _ _ ?m ?g] => destruct (file_spec a m g f Hf (proj1 Ha)) as (f1 & Hf1 & Hc1 & Ha1 & E1) end.
  rewrite E1. cbn [after]. destruct (content f a) as [d |]; [| exists f1; split; [done |]; split; [exact Hc1 | done]].
  match goal with |- context [(mbind ?g _) _] => destruct (create_then b d d g f1 Hf1 Hb ltac:(done) ltac:(by rewrite firstn_all)) as (f2 & Hf2 & Hc2 & E2) end.
  rewrite Ha1 in Hc2, E2. exists f2. split; [done |]. split; [| rewrite E2; by destruct (accepts f b d)].
  intros i. rewrite Hc2. unfold put_file. destruct (accepts f b d); [| by rewrite Hc1]. case_decide; [done | by rewrite Hc1].
Qed.

Lemma command_spec c f :
  st_ok f → cmd_ok c →
  ∃ f', command c f = (Fat.Val (report (accepts f) c (content f)), f') ∧ st_ok f' ∧
    ∀ k, content f' k = after (accepts f) c (content f) k.
Proof.
  intros Hf Hc. destruct c as [n | n d | n | n | a b | a b]; cbn [command report cmd_ok] in *.
  - destruct Hc as [Hn He]. unfold cmd_cat. rewrite args_word by done.
    match goal with |- context [with_file _ _ ?m ?g] => destruct (file_spec n m g f Hf Hn) as (f1 & Hf1 & Hc1 & _ & ->) end.
    exists f1. split; [by destruct (content f n) |]. by split.
  - destruct Hc as ((Hn & He & Hs & Hl) & [Hd Hh] & Hm). unfold cmd_write. rewrite args_some.
    unfold FS_MAX_FILESIZE, FS_MAX_FILENAME in *. rewrite (take_word_all _ n (32 :: d)); [| done | unfold zlen in *; lia | by right].
    rewrite skip_one, bool_decide_eq_false_2 by done. pose proof (zlen_nonneg d). rewrite (u32_small (zlen d)) by lia.
    replace (16384 <? zlen d) with false by lia.
    match goal with |- context [(mbind ?g _) _] =>
      destruct (create_then n (d ++ [0]) d g f Hf Hn ltac:(rewrite zlen_app; unfold zlen; cbn; lia) ltac:(apply take_app_length)) as (f1 & Hf1 & Hc1 & ->) end.
    exists f1. split; [by destruct (accepts f n d) |]. by split.
  - destruct Hc as [Hn He]. unfold cmd_rm. rewrite args_word by done.
    match goal with |- context [(mbind ?g _) _] => destruct (delete_then n g f Hf Hn) as (f1 & Hf1 & Hc1 & ->) end.
    exists f1. split; [by destruct (content f n) |]. by split.
  - destruct Hc as [Hn He]. unfold cmd_touch. rewrite args_word by done.
    match goal with |- context [(mbind ?g _) _] => destruct (create_then n [0] [] g f Hf Hn ltac:(done) ltac:(done)) as (f1 & Hf1 & Hc1 & E) end.
    change (zlen (@nil Z)) with 0 in E. rewrite E. exists f1. split; [by destruct (accepts f n []) |]. by split.
  - destruct Hc as (Ha & Hb & Hr & Hl). unfold cmd_cp.
    match goal with |- context [copy_file _ ?u _ ?g] => destruct (copy_spec u a b g f Hf Ha Hb Hr Hl) as (f1 & Hf1 & Hc1 & ->) end.
    exists f1. split; [| by split]. destruct (content f a) as [d |]; [| done]. by destruct (accepts f b d).
  - destruct Hc as (Ha & Hb & Hr & Hl). unfold cmd_mv.
    match goal with |- context [copy_file _ ?u _ ?g] => destruct (copy_spec u a b g f Hf Ha Hb Hr Hl) as (f1 & Hf1 & Hc1 & ->) end.
    cbn [after] in Hc1 |- *. destruct (content f a) as [d |]; [| by exists f1]. destruct (accepts f b d); [| by exists f1].
    match goal with |- context [(mbind ?g _) _] => destruct (delete_then a g f1 Hf1 (proj1 Ha)) as (f2 & Hf2 & Hc2 & ->) end.
    exists f2. split; [done |]. split; [done |]. intros i. rewrite Hc2. unfold drop_file. case_decide; [done | apply Hc1].
Qed.

(** the file commands of the shell refine a map from names to contents:
    cat, write, rm, touch, cp and mv on a file system that is such a map
    return, change the map as [after] says and nothing else, and print what
    [report] says; a command that fails for lack of room or of a source
    leaves the map as it was. *)
Theorem file_commands_refine_map c f :
  st_ok f → cmd_ok c →
  ∃ f', command c f = (Fat.Val (report (accepts f) c (content f)), f') ∧ st_ok f' ∧
    ∀ k, content f' k = after (accepts f) c (content f) k.
Proof. exact (command_spec c f). Qed.

(** Moving or renaming a file to its own name deletes it, and reports
    success. *)
Theorem mv_onto_itself_deletes n d f :
  st_ok f → word n → rest_ok n → content f n = Some d → accepts f n d = true →
  ∃ f', cmd_mv procs (n ++ 32 :: n) f = (Fat.Val [Color light_green; Str n; say " => "; Str n; Str [10]; Color light_grey], f') ∧
    content f' n = None.
Proof.
  intros Hf Hn Hr Hd Ha. destruct (command_spec (Mv n n) f Hf) as (f' & E & _ & Hc).
  { split; [done |]. split; [apply Hn |]. split; [done | apply Hn]. }
  exists f'. cbn [command report after] in E, Hc. rewrite Hd, Ha in E, Hc. split; [exact E |]. rewrite Hc. unfold drop_file. by rewrite decide_True.
Qed.
End Store.

(** ** The RAM file system at the root *)
Section RamStore.
Context {B : Type} `{BlockDev B} {hw : Type} `{Net.NetEnv hw}.
Implicit Types s : Fs.fs_state B hw.
Definition ram_of s : Ramfs.ramfs_state := Fs.w_ram (Fs.fsw s).
Definition on_ram s : Prop := Fs.vfs s = Fs.table Fs.ramfs_ops_ptr ∧ Ramfs.ram_ok (ram_of s).
Definition ram_name (n : list Z) : Prop := n.[0] ≠ 47 ∧ zlen n < Ramfs.MAX_FILENAME.
Definition has_room s (n d : list Z) : bool := (Ramfs.ramfs_create n d (zlen d) (ram_of s)).1 =? 0.

(** There is room for an existing file and for a new one below sixteen. *)
Lemma room_spec s n d :
  on_ram s → ram_name n → zlen d ≤ Ramfs.MAX_FILESIZE →
  (Ramfs.contents (ram_of s) n ≠ None ∨ Ramfs.file_count (ram_of s) ≠ Ramfs.MAX_FILES) → has_room s n d = true.
Proof.
  intros [_ Hr] [_ Hn] Hd Hc. unfold has_room. destruct (Ramfs.ramfs_create n d (zlen d) (ram_of s)) as [rc st] eqn:E.
  assert (0 ≤ zlen d ≤ zlen d) as Hz by (pose proof (zlen_nonneg d); lia). destruct (Ramfs.create_spec _ _ _ _ _ _ Hr Hn Hz E) as [(-> & _ & Hbad) | (-> & _)]; [| done].
  exfalso. destruct Hbad as [| [? ?]]; [lia |]. by destruct Hc.
Qed.
Lemma contents_short st n c : Ramfs.ram_ok st → Ramfs.contents st n = Some c → zlen c ≤ FS_MAX_FILESIZE.
Proof.
  intros Hr E. unfold Ramfs.contents in E. destruct (Ramfs.find_file_spec st n) as [[Ef _] | [Hi _]]; [by rewrite Ef in E |].
  rewrite (proj2 (Z.leb_le 0 _)) in E by lia. injection E as <-. rewrite zlen_take, (Ramfs.ro_data _ Hr) by done. unfold FS_MAX_FILESIZE. lia.
Qed.

#[export] Instance ram_store : StoreLaws (Fs.fs_state B hw).
Proof.
  refine {| st_ok := on_ram; name_ok := ram_name; content := λ s, Ramfs.contents (ram_of s); accepts := has_room |}.
  - intros procs n s [Hv Hr] [Hn Hl]. cbn [Syscall.file_read Handles.fs_reader]. unfold Fs.fs_read, Fs.on_vfs, Vfs.vfs_read.
    cbn [Handles.with_procs Fs.vfs]. rewrite Hv, Fs.resolve_relative by done. cbn.
    unfold Fs.ram_read. rewrite Ramfs.read_spec by done. cbn [Fs.w_ram]. fold (ram_of s).
    destruct (Ramfs.contents (ram_of s) n) as [c |] eqn:Ec.
    + pose proof (contents_short _ _ _ Hr Ec). replace (FS_MAX_FILESIZE <? zlen c) with false by lia.
      eexists _, _. split; [reflexivity |]. split; [by split |]. split_and!; done.
    + eexists _, _. split; [reflexivity |]. split; [by split |]. split_and!; done.
  - intros n data size s [Hv Hr] [Hn Hl] Hsz d. assert (zlen d = size) as Hd by (unfold d; rewrite zlen_take; lia).
    cbn [Editor.file_create EditorProps.fs_store]. unfold Fs.fs_create, Fs.on_vfs, Vfs.vfs_create. rewrite Hv, Fs.resolve_relative by done. cbn.
    unfold Fs.ram_create, has_room. rewrite Hd. replace (Ramfs.ramfs_create n d size (ram_of s)) with (Ramfs.ramfs_create n data size (ram_of s))
      by (symmetry; apply EditorProps.ramfs_create_take). fold (ram_of s).
    destruct (Ramfs.ramfs_create n data size (ram_of s)) as [rc st] eqn:E. cbn [fst].
    destruct (Ramfs.create_spec _ _ _ _ _ _ Hr Hl Hsz E) as [(-> & -> & _) | (-> & Hr' & Hc)]; eexists; (split; [reflexivity |]).
    + split; [by split | intros k; reflexivity].
    + split; [by split |]. exact Hc.
  - intros n s [Hv Hr] [Hn Hl]. cbn [fs_delete fs_file_system]. unfold Fs.fs_delete, Fs.on_vfs, Vfs.vfs_delete.
    rewrite Hv, Fs.resolve_relative by done. cbn. unfold Fs.ram_delete. fold (ram_of s).
    destruct (Ramfs.ramfs_delete n (ram_of s)) as [rc st] eqn:E.
    destruct (Ramfs.delete_spec _ _ _ _ Hr E) as [(-> & -> & Hc) | (-> & Hr' & [c Hs] & Hc)]; eexists; (split; [| split]).
    + by rewrite Hc.
    + by split.
    + intros k. unfold drop_file. case_decide; [by subst | done].
    + by rewrite Hs.
    + by split.
    + exact Hc.
Defined.
End RamStore.

(** ** wc *)
(** The pieces between the characters that satisfy [p]. *)
Fixpoint split_at (p : Z → bool) (l : list Z) : list (list Z) :=
  match l with
  | [] => [[]]
  | c :: l => if p c then [] :: split_at p l
              else match split_at p l with w :: r => (c :: w) :: r | [] => [[c]] end
  end.
Definition is_newline (c : Z) : bool := c =? 10.
Definition words (b : list Z) : list (list Z) := filter (λ w, w ≠ []) (split_at is_blank b).
(** A last line without a newline counts, an empty one does not. *)
Definition lines (b : list Z) : list (list Z) :=
  let ps := split_at is_newline b in if bool_decide (last ps = Some []) then removelast ps else ps.

Fixpoint starts (inside : bool) (b : list Z) : Z :=
  match b with
  | [] => 0
  | c :: b => if is_blank c then starts false b else (if inside then 0 else 1) + starts true b
  end.
Lemma split_at_cons p l : ∃ w r, split_at p l = w :: r.
Proof. destruct l as [| c l]; cbn [split_at]; [by eexists _, _ |]. destruct (p c); [by eexists _, _ |]. destruct (split_at p l); by eexists _, _. Qed.
Lemma starts_spec b :
  starts false b = zlen (words b) ∧ starts true b = zlen (filter (λ w, w ≠ []) (tail (split_at is_blank b))).
Proof.
  unfold words. induction b as [| c b [IH1 IH2]]; cbn [starts split_at]; [done |]. destruct (is_blank c).
  - rewrite filter_cons, decide_False by (intros Hn; by apply Hn). by cbn [tail].
  - destruct (split_at_cons is_blank b) as (w & r & E). rewrite E in IH2 |- *. cbn [tail] in *. rewrite filter_cons_True, zlen_cons by done.
    split; [lia | done].
Qed.
Lemma starts_bound i b : 0 ≤ starts i b ≤ zlen b.
Proof.
  revert i. induction b as [| c b IH]; intros i; cbn [starts]; [done |]. rewrite zlen_cons.
  pose proof (IH true). pose proof (IH false). destruct (is_blank c), i; lia.
Qed.
Lemma wc_fold b L W i :
  0 ≤ L → 0 ≤ W → L + zlen b < 2 ^ 32 → W + zlen b < 2 ^ 32 →
  let s := foldl wc_step (Counts L W i) b in c_lines s = L + countb is_newline b ∧ c_words s = W + starts i b.
Proof.
  revert L W i. induction b as [| c b IH]; intros L W i HL HW H1 H2; cbn [foldl starts].
  { cbn [c_lines c_words]. rewrite countb_nil. lia. }
  rewrite zlen_cons in H1, H2. rewrite countb_cons. pose proof (zlen_nonneg b).
  assert (wc_step (Counts L W i) c =
    Counts (L + cbool (is_newline c)) (W + (if is_blank c then 0 else if i then 0 else 1)) (negb (is_blank c))) as ->.
  { unfold wc_step. cbn [c_lines c_words in_word]. rewrite (u32_small (L + 1)), (u32_small (W + 1)) by lia.
    change (is_newline c) with (c =? 10). destruct (c =? 10), (is_blank c), i; cbn [cbool negb]; f_equal; lia. }
  assert (0 ≤ cbool (is_newline c) ≤ 1) by (destruct (is_newline c); cbn; lia).
  destruct (IH (L + cbool (is_newline c)) (W + (if is_blank c then 0 else if i then 0 else 1)) (negb (is_blank c))) as [-> ->];
    destruct (is_blank c), i; cbn [negb]; lia.
Qed.
Lemma newlines_split b : zlen (split_at is_newline b) = countb is_newline b + 1.
Proof.
  induction b as [| c b IH]; cbn [split_at]; [done |]. rewrite countb_cons. destruct (is_newline c); cbn [cbool]; [rewrite zlen_cons; lia |].
  destruct (split_at_cons is_newline b) as (w & r & E). rewrite E in IH |- *. rewrite zlen_cons in *. lia.
Qed.
Lemma last_split b : last (split_at is_newline b) = Some [] ↔ (last b = None ∨ last b = Some 10).
Proof.
  induction b as [| c b IH]; cbn [split_at]; [cbn; tauto |].
  destruct (split_at_cons is_newline b) as (w & r & E). destruct (is_newline c) eqn:Ec; rewrite E in *.
  - rewrite last_cons_cons, IH. unfold is_newline in Ec. destruct b as [| d b].
    + cbn. split; [intros _; right; f_equal; lia | tauto].
    + by rewrite last_cons_cons.
  - unfold is_newline in Ec. destruct r as [| v r].
    + destruct b as [| d b]; [cbn in *; split; [done | intros [| [= ->]]; done] |]. rewrite last_cons_cons.
      cbn [last]. split; [intros [=] |]. intros Hl. exfalso. assert (w = []) as -> by (apply (inj Some), IH, Hl).
      clear IH. revert E. cbn [split_at]. destruct (is_newline d); [intros [= E']; by destruct (split_at_cons is_newline b) as (? & ? & E2); rewrite E2 in E' |].
      destruct (split_at is_newline b); intros [=].
    + rewrite last_cons_cons in *. rewrite IH. destruct b as [| d b]; [by cbn in E | by rewrite last_cons_cons].
Qed.
Lemma last_aget (b : list Z) : b ≠ [] → last b = Some b.[zlen b - 1].
Proof.
  intros Hb. assert (0 < zlen b) by (destruct b; [done | rewrite zlen_cons; pose proof (zlen_nonneg b); lia]).
  rewrite last_lookup, <- lookup_aget by lia. f_equal. unfold zlen. lia.
Qed.

(** [wc] counts what it says: the lines and the words of the file, a word
    being a maximal run of characters other than space, newline, tab and
    carriage return, and a last line without a newline being one too. *)
Theorem wc_correct b : zlen b < 2 ^ 32 - 1 → wc_counts b = (zlen (lines b), zlen (words b)).
Proof.
  intros Hb. unfold wc_counts. destruct (wc_fold b 0 0 false) as [-> ->]; [lia.. |]. rewrite !Z.add_0_l.
  pose proof (newlines_split b) as Hn. pose proof (countb_le is_newline b). pose proof (countb_nonneg is_newline b).
  f_equal; [| apply starts_spec]. unfold lines. pose proof (last_split b) as Hl.
  destruct (decide (b = [])) as [-> | Hne]; [done |]. rewrite (last_aget b Hne) in Hl.
  assert (0 < zlen b) by (destruct b; [done | rewrite zlen_cons; pose proof (zlen_nonneg b); lia]).
  replace (0 <? zlen b) with true by lia. cbn [andb].
  destruct (Z.eqb_spec b.[zlen b - 1] 10) as [E | E]; cbn [negb].
  - rewrite bool_decide_true by (apply Hl; right; by f_equal). destruct (split_at_cons is_newline b) as (w & r & Es). rewrite Es in *.
    unfold zlen in *. rewrite removelast_firstn_len, length_take. cbn [length] in *. lia.
  - rewrite bool_decide_false, (u32_small (_ + 1)) by (lia || (intros [| [=]]%Hl; done)). lia.
Qed.

(** ** calc *)
Definition signed (size : nat) (v : Z) : list Z := (if v <? 0 then [45] else []) ++ digits_of size (Z.abs v).
Definition accumulate (v : Z) (ds : list Z) : Z := foldl (λ a c, 10 * a + (c - 48)) v ds.
Lemma accumulate_grows ds v : Forall is_digit ds → 0 ≤ v → v ≤ accumulate v ds.
Proof.
  intros Hd. revert v. induction Hd as [| c ds Hc _ IH]; intros v Hv; cbn; [lia |]. unfold is_digit in Hc. etrans; [| apply IH]; lia.
Qed.
(** Digits that stay in range are read to their end. *)
Lemma read_digits step ds r v :
  Forall is_digit ds → (∀ c, head r = Some c → is_dig c = false) → 0 ≤ v →
  (∀ x, 0 ≤ x ≤ accumulate v ds → step x = Some x) → read_number step (ds ++ r) v = Some (accumulate v ds, r).
Proof.
  intros Hd Hr. revert v. induction Hd as [| c ds Hc Hd IH]; intros v Hv Hs; cbn [app].
  - destruct r as [| c r]; [done |]. cbn [read_number]. by rewrite (Hr c eq_refl).
  - unfold is_digit in Hc. cbn [read_number accumulate foldl] in *. unfold is_dig. replace ((48 <=? c) && (c <=? 57)) with true by lia.
    assert (v * 10 + (c - 48) = 10 * v + (c - 48)) as -> by lia.
    pose proof (accumulate_grows ds (10 * v + (c - 48)) Hd ltac:(lia)) as Hg. rewrite Hs by (unfold accumulate in *; lia).
    cbn [mbind option_bind]. apply IH; [lia |]. intros x Hx. apply Hs. unfold accumulate in *. lia.
Qed.
Lemma calc_number_spec v r :
  - 2 ^ 63 < v < 2 ^ 63 → (∀ c, head r = Some c → is_dig c = false) → calc_number (signed 20 v ++ r) = Some (Some (v, r)).
Proof.
  intros Hv Hr. destruct (digits_of_spec 20 (Z.abs v) ltac:(lia) ltac:(lia)) as (D & Fd & N & _). cbn zeta in *.
  assert (read_number as_long (digits_of 20 (Z.abs v) ++ r) 0 = Some (Z.abs v, r)) as Hread.
  { assert (accumulate 0 (digits_of 20 (Z.abs v)) = Z.abs v) as Da by exact D.
    rewrite read_digits; [by rewrite Da | done | done | lia |]. intros x Hx. unfold as_long. rewrite Da in Hx.
    by replace ((- 2 ^ 63 <=? x) && (x <? 2 ^ 63)) with true by lia. }
  unfold calc_number, signed. rewrite <- app_assoc. destruct (digits_of 20 (Z.abs v)) as [| c ds] eqn:E; [done |].
  assert (is_dig c = true ∧ c ≠ 45) as [Hc Hc'] by (apply Forall_cons in Fd as [Hc _]; unfold is_digit, is_dig in *; lia).
  destruct (Z.ltb_spec v 0); cbn [app] in *.
  - rewrite Z.eqb_refl. cbv beta iota zeta. rewrite Hc, Hread. cbn. do 3 f_equal. lia.
  - replace (c =? 45) with false by lia. cbv beta iota zeta. rewrite Hc, Hread. cbn. do 3 f_equal. lia.
Qed.
Lemma skip_none s : head s ≠ Some 32 → skip_spaces s = s.
Proof. intros Hs. destruct s as [| c s]; [done |]. cbn. unfold Process.SPACE. destruct (Z.eqb_spec c 32) as [-> |]; [by destruct Hs | done]. Qed.
Lemma signed_head v r : - 2 ^ 63 < v < 2 ^ 63 → ∃ c t, signed 20 v ++ r = c :: t ∧ c ≠ 32.
Proof.
  intros Hv. destruct (digits_of_spec 20 (Z.abs v) ltac:(lia) ltac:(lia)) as (_ & Fd & N & _). cbn zeta in *. unfold signed.
  destruct (v <? 0); [by eexists _, _ |]. destruct (digits_of 20 (Z.abs v)) as [| c ds]; [done |].
  apply Forall_cons in Fd as [Hc _]. unfold is_digit in Hc. eexists c, _. split; [reflexivity | lia].
Qed.

Definition operators : list Z := [43; 45; 42; 47; 37].
(** The value of an expression; the quotient is rounded towards zero. *)
Definition calc_value (op a b : Z) : option Z :=
  if op =? 43 then Some (a + b) else if op =? 45 then Some (a - b) else if op =? 42 then Some (a * b)
  else if b =? 0 then None else Some (if op =? 47 then Z.quot a b else Z.rem a b).
Lemma calc_result_spec op a b :
  op ∈ operators → (∀ r, calc_value op a b = Some r → Z.abs r < 2 ^ 32) → calc_result op a b = Some (calc_value op a b).
Proof.
  intros Ho Hr. assert (∀ r, Z.abs r < 2 ^ 32 → as_long r = Some r) as Hl.
  { intros r Hb. unfold as_long. by replace ((- 2 ^ 63 <=? r) && (r <? 2 ^ 63)) with true by lia. }
  unfold calc_result, calc_value in *. destruct (op =? 43); [by rewrite Hl by auto |]. destruct (op =? 45); [by rewrite Hl by auto |].
  destruct (op =? 42); [by rewrite Hl by auto |]. destruct (b =? 0); [done |]. destruct (op =? 47); by rewrite Hl by auto.
Qed.
Lemma calc_print_spec r : Z.abs r < 2 ^ 32 → ∃ o, calc_print r = Some o ∧ text o = txt "= " ++ signed 12 r ++ [10].
Proof.
  intros Hr. unfold calc_print, signed. assert (u32 (Z.abs r) = Z.abs r) as Hu by (apply u32_small; lia). destruct (Z.ltb_spec r 0).
  - unfold as_long. replace ((- 2 ^ 63 <=? - r) && (- r <? 2 ^ 63)) with true by lia. eexists. split; [reflexivity |].
    replace (- r) with (Z.abs r) by lia. rewrite Hu. reflexivity.
  - eexists. split; [reflexivity |]. rewrite Z.abs_eq in * by done. rewrite Hu. reflexivity.
Qed.

(** the calculator is right as long as the result fits the printer: for
    all 64-bit numbers, positive or negative, and the five operators it prints
    the exact sum, difference, product, quotient or remainder when its
    absolute value is below 2^32, and refuses to divide by zero. *)
Theorem calc_correct op a b :
  op ∈ operators → - 2 ^ 63 < a < 2 ^ 63 → - 2 ^ 63 < b < 2 ^ 63 → (∀ r, calc_value op a b = Some r → Z.abs r < 2 ^ 32) →
  let args := signed 20 a ++ [32; op; 32] ++ signed 20 b in
  match calc_value op a b with
  | Some r => ∃ o, cmd_calc args = Some o ∧ text o = txt "= " ++ signed 12 r ++ [10]
  | None => cmd_calc args = Some [sayln "Error: Division by zero"]
  end.
Proof.
  intros Ho Ha Hb Hr args. assert (op ≠ 32) as Hop by (intros ->; apply (bool_decide_pack _) in Ho; by vm_compute in Ho).
  destruct (signed_head a ([32; op; 32] ++ signed 20 b) Ha) as (c & t & Ea & Hc). destruct (signed_head b [] Hb) as (c' & t' & Eb & Hc').
  assert (cmd_calc args = r ← calc_result op a b; match r with None => Some [sayln "Error: Division by zero"] | Some r => calc_print r end) as ->.
  { unfold cmd_calc. rewrite bool_decide_eq_false_2 by (unfold args; by rewrite Ea).
    rewrite (skip_none args) by (unfold args; rewrite Ea; intros [= ->]; done).
    unfold args. rewrite calc_number_spec; [| done | by intros x [= <-]]. cbn [mbind option_bind app].
    rewrite skip_one by (cbn; congruence). cbn [head default tail from_option id]. rewrite bool_decide_eq_true_2 by exact Ho. cbn [negb].
    rewrite app_nil_r in Eb. rewrite skip_one by (rewrite Eb; cbn; congruence).
    rewrite <- (app_nil_r (signed 20 b)). by rewrite calc_number_spec. }
  rewrite calc_result_spec by done. cbn [mbind option_bind]. destruct (calc_value op a b) as [r |]; [| done].
  apply calc_print_spec. by apply Hr.
Qed.
(** A larger result loses its upper half: 65536 * 65536 is printed as 0. *)
Theorem calc_truncates :
  calc_value 42 65536 65536 = Some (2 ^ 32) ∧
  text <$> cmd_calc (txt "65536 * 65536") = Some (line "= 0") ∧ text <$> cmd_calc (txt "4294967295 + 2") = Some (line "= 1").
Proof. by vm_compute. Qed.

(** ** head *)
(** [head] prints a prefix of the file with at most the given number of
    newlines, and stops before the end only after the last of them. *)
Theorem head_prefix b n :
  0 < n → ∃ rest, b = head_text b 0 n ++ rest ∧ countb is_newline (head_text b 0 n) ≤ n ∧
    (rest ≠ [] → countb is_newline (head_text b 0 n) = n ∧ last (head_text b 0 n) = Some 10).
Proof.
  intros Hn. assert (∀ k, 0 ≤ k < n → ∃ rest, b = head_text b k n ++ rest ∧ k + countb is_newline (head_text b k n) ≤ n ∧
    (rest ≠ [] → k + countb is_newline (head_text b k n) = n ∧ last (head_text b k n) = Some 10)) as K; [| destruct (K 0) as (r & ? & ? & ?); [lia | by exists r]].
  induction b as [| c b IH]; intros k Hk; cbn [head_text].
  { exists []. rewrite countb_nil. split_and!; [done | lia | done]. }
  replace (k <? n) with true by lia. rewrite countb_cons. change (is_newline c) with (c =? 10).
  destruct (Z.eqb_spec c 10) as [-> | Hc]; cbn [cbool].
  - destruct (decide (k + 1 = n)) as [E | E].
    + exists b. assert (head_text b (k + 1) n = []) as -> by (destruct b; cbn [head_text]; [done | by replace (k + 1 <? n) with false by lia]).
      rewrite countb_nil. split_and!; [done | lia | intros _; split; [lia | done]].
    + destruct (IH (k + 1)) as (rest & Eb & Hle & Hmax); [lia |]. exists rest. rewrite <- app_comm_cons, <- Eb.
      split_and!; [done | lia |]. intros Hr. destruct (Hmax Hr) as [Hcnt Hlast]. split; [lia |].
      destruct (head_text b (k + 1) n); [done | by rewrite last_cons_cons].
  - destruct (IH k Hk) as (rest & Eb & Hle & Hmax). exists rest. rewrite <- app_comm_cons, <- Eb.
    split_and!; [done | lia |]. intros Hr. destruct (Hmax Hr) as [Hcnt Hlast]. split; [lia |].
    destruct (head_text b k n); [done | by rewrite last_cons_cons].
Qed.

(** ** hexdump *)
(** Reading a dump back: the two digits of each cell of a line. *)
Definition unhex (c : Z) : Z := if c <? 58 then c - 48 else c - 55.
Fixpoint read_cells (n : nat) (i : Z) (l : list Z) : list Z :=
  match n, l with
  | S n', x :: y :: _ :: r =>
      if x =? 32 then [] else 16 * unhex x + unhex y :: read_cells n' (i + 1) (if i =? 7 then tail r else r)
  | _, _ => []
  end.
Definition undump (t : list Z) : list Z :=
  let ps := split_at is_newline t in take (length ps - 2) ps ≫= λ l, read_cells 16 0 (drop 10 l).

Lemma text_app a b : text (a ++ b) = text a ++ text b.
Proof. apply bind_app. Qed.
Lemma hex_char_spec v : 0 ≤ v < 16 → unhex (hex_char v) = v ∧ hex_char v ≠ 32 ∧ hex_char v ≠ 10.
Proof. intros Hv. unfold hex_char, unhex. destruct (Z.ltb_spec v 10); split_and!; try lia; case_match; lia. Qed.
Lemma nibbles x : is_byte x → 0 ≤ Z.shiftr x 4 < 16 ∧ 0 ≤ Z.land x 0x0F < 16 ∧ 16 * Z.shiftr x 4 + Z.land x 0x0F = x.
Proof.
  unfold is_byte. intros Hx. change 0x0F with (Z.ones 4). rewrite Z.land_ones, Z.shiftr_div_pow2 by lia. change (2 ^ 4) with 16. zdm.
Qed.
Lemma cells_read b off rest n i :
  Forall is_byte b → 0 ≤ off → 0 ≤ i → (n ≤ 16)%nat →
  read_cells n i (text (seqZ i (Z.of_nat n) ≫= hex_cell b off) ++ rest) = take n (drop (Z.to_nat (off + i)) b).
Proof.
  intros Hb Ho. revert i. induction n as [| n IH]; intros i Hi Hn; [done |].
  rewrite seqZ_cons by lia. replace (Z.pred (Z.of_nat (S n))) with (Z.of_nat n) by lia. cbn [mbind list_bind]. rewrite text_app.
  unfold hex_cell at 1. destruct (Z.ltb_spec (off + i) (zlen b)) as [Hlt | Hge].
  - pose proof (Forall_aget _ _ (off + i) Hb ltac:(lia)) as Hx. destruct (nibbles _ Hx) as (H1 & H2 & H3).
    destruct (hex_char_spec _ H1) as (U1 & N1 & _). destruct (hex_char_spec _ H2) as (U2 & _ & _).
    rewrite (drop_S b b.[off + i]) by (apply lookup_aget; lia). cbn [take].
    replace (S (Z.to_nat (off + i))) with (Z.to_nat (off + (i + 1))) by lia. rewrite <- (IH (i + 1)) by lia. replace (Z.succ i) with (i + 1) by lia.
    destruct (Z.eqb_spec i 7) as [-> | Hi7]; cbn [text mbind list_bind app put print_hex_byte read_cells].
    + replace (hex_char _ =? 32) with false by lia. cbn [Z.eqb Pos.eqb tail]. rewrite U1, U2, H3. by f_equal.
    + replace (hex_char _ =? 32) with false by lia. replace (i =? 7) with false by lia. rewrite U1, U2, H3. by f_equal.
  - rewrite drop_ge by (unfold zlen in *; lia). done.
Qed.
(** The characters of a line before its newline. *)
Definition dump_body (b : list Z) (off : Z) : list Z := text (removelast (hexdump_line b off)).
Lemma line_body b off : text (hexdump_line b off) = dump_body b off ++ [10].
Proof.
  unfold dump_body. assert (∃ l, hexdump_line b off = l ++ [Str [10]]) as [l E].
  { unfold hexdump_line. rewrite !app_assoc. eexists. change [put 124; Str [10]] with ([put 124] ++ [Str [10]]). rewrite app_assoc. reflexivity. }
  rewrite E, removelast_last, text_app. done.
Qed.
Lemma text_forall (P : Z → Prop) o : Forall (λ x, match x with Color _ => True | Str s => Forall P s end) o → Forall P (text o).
Proof. intros Ho. unfold text. apply Forall_bind. eapply Forall_impl; [exact Ho |]. intros [c | t]; [by constructor | done]. Qed.
Lemma hex_no_newline l v : Forall (λ c, c ≠ 10) (print_hex l v).
Proof.
  unfold print_hex. apply Forall_fmap, Forall_true. intros i. cbn. apply hex_char_spec. change 0xF with (Z.ones 4). rewrite Z.land_ones by lia.
  apply Z.mod_pos_bound. lia.
Qed.
Lemma printable_no_newline c : printable c ≠ 10.
Proof. unfold printable. destruct (Z.leb_spec 32 c), (Z.ltb_spec c 127); cbn; lia. Qed.
#[local] Ltac closed_text := vm_compute; repeat constructor; discriminate.
Lemma cell_no_newline b off i : Forall is_byte b → 0 ≤ off + i → Forall (λ x, match x with Color _ => True | Str s => Forall (λ c, c ≠ 10) s end) (hex_cell b off i).
Proof.
  intros Hb Hi. unfold hex_cell. apply Forall_app. split; [| apply Forall_app; split; [| case_match]; closed_text].
  destruct (Z.ltb_spec (off + i) (zlen b)); [| closed_text].
  destruct (nibbles b.[off + i] (Forall_aget _ _ (off + i) Hb ltac:(lia))) as (H1 & H2 & _). constructor; [| constructor].
  cbn. constructor; [by apply hex_char_spec |]. constructor; [by apply hex_char_spec | constructor].
Qed.
Lemma body_spec b off :
  Forall is_byte b → 0 ≤ off → Forall (λ c, c ≠ 10) (dump_body b off) ∧
  read_cells 16 0 (drop 10 (dump_body b off)) = take 16 (drop (Z.to_nat off) b).
Proof.
  intros Hb Ho. set (cells := seqZ 0 16 ≫= hex_cell b off).
  set (ascii := seqZ 0 16 ≫= λ i, if off + i <? zlen b then [put (printable b.[off + i])] else []).
  assert (dump_body b off = print_hex [28; 24; 20; 16; 12; 8; 4; 0] off ++ [32; 32] ++ text cells ++ [32; 124] ++ text ascii ++ [124]) as E.
  { apply (app_inv_tail [10]). rewrite <- line_body. unfold hexdump_line. fold cells ascii. rewrite !text_app. cbn [text mbind list_bind app print_hex32 put].
    rewrite <- !app_assoc. cbn [app]. rewrite <- !app_assoc. cbn [app]. rewrite <- !app_assoc. cbn [app]. reflexivity. }
  rewrite E. split.
  - repeat (apply Forall_app; split); [apply hex_no_newline | closed_text | | closed_text | | closed_text].
    + apply text_forall, Forall_bind, Forall_forall. intros i [Hi _]%elem_of_seqZ. apply cell_no_newline; [done | lia].
    + apply text_forall, Forall_bind, Forall_true. intros i. unfold compose. destruct (off + i <? zlen b); [| constructor]. repeat constructor. apply printable_no_newline.
  - change (drop 10 _) with (text cells ++ [32; 124] ++ text ascii ++ [124]). rewrite (cells_read b off _ 16 0) by (done || lia). by rewrite Z.add_0_r.
Qed.
Lemma split_line w r : Forall (λ c, c ≠ 10) w → split_at is_newline (w ++ 10 :: r) = w :: split_at is_newline r.
Proof.
  induction 1 as [| c w Hc _ IH]; cbn [app split_at]; [done |]. unfold is_newline at 1. replace (c =? 10) with false by lia. by rewrite IH.
Qed.
Lemma split_dump b ks r :
  Forall is_byte b → Forall (λ k, 0 ≤ k) ks →
  split_at is_newline (text (ks ≫= λ k, hexdump_line b (16 * k)) ++ r) = ((λ k, dump_body b (16 * k)) <$> ks) ++ split_at is_newline r.
Proof.
  intros Hb Hk. induction Hk as [| k ks Hk _ IH]; [done |]. cbn [mbind list_bind fmap list_fmap app]. rewrite text_app, line_body, <- !app_assoc.
  cbn [app]. rewrite split_line by (apply body_spec; [done | lia]). by rewrite IH.
Qed.
Lemma chunks (b : list Z) n m :
  0 ≤ m → zlen b ≤ 16 * (m + Z.of_nat n) → (seqZ m (Z.of_nat n) ≫= λ k, take 16 (drop (Z.to_nat (16 * k)) b)) = drop (Z.to_nat (16 * m)) b.
Proof.
  revert m. induction n as [| n IH]; intros m Hm Hl; [rewrite drop_ge by (unfold zlen in *; lia); done |].
  rewrite seqZ_cons by lia. replace (Z.pred (Z.of_nat (S n))) with (Z.of_nat n) by lia. cbn [mbind list_bind].
  rewrite IH by lia. replace (Z.to_nat (16 * Z.succ m)) with (Z.to_nat (16 * m) + 16)%nat by lia. by rewrite <- drop_drop, take_drop.
Qed.

(** [hexdump] shows the file: the digits in the cells of its lines, read
    from left to right and line by line, are the bytes of the file. *)
Theorem hexdump_shows_file b : Forall is_byte b → zlen b < 2 ^ 32 → undump (text (hexdump_text b)) = b.
Proof.
  intros Hb Hl. pose proof (zlen_nonneg b). set (n := Z.to_nat ((zlen b + 15) / 16)).
  assert ((zlen b + 15) / 16 = Z.of_nat n) as En by (unfold n; rewrite Z2Nat.id; [done | zdm]).
  unfold hexdump_text. rewrite En, text_app.
  assert (text [Color light_grey; print_uint32 (zlen b); sayln " bytes"] = (digits_of 12 (zlen b) ++ txt " bytes") ++ [10]) as ->.
  { cbn [text mbind list_bind app print_uint32 sayln]. unfold line. by rewrite app_nil_r, app_assoc. }
  unfold undump. rewrite split_dump; [| done | apply Forall_forall; intros k [? _]%elem_of_seqZ; lia].
  rewrite split_line.
  2:{ destruct (digits_of_spec 12 (zlen b) ltac:(lia) ltac:(lia)) as (_ & Fd & _). apply Forall_app. split.
      - eapply Forall_impl; [exact Fd |]. unfold is_digit. lia.
      - closed_text. }
  cbn [split_at]. rewrite length_app. cbn [length]. replace (_ + 2 - 2)%nat with (length ((λ k, dump_body b (16 * k)) <$> seqZ 0 (Z.of_nat n))) by lia.
  rewrite take_app_length, list_fmap_bind. etrans; [| apply (chunks b n 0); [lia | unfold n; zdm]].
  assert (Forall (λ k, 0 ≤ k) (seqZ 0 (Z.of_nat n))) as Hk by (apply Forall_forall; intros k [Hk _]%elem_of_seqZ; exact Hk).
  induction Hk as [| k ks Hk _ IH]; [done |]. cbn [mbind list_bind]. rewrite IH. f_equal. apply body_spec; [done | lia].
Qed.

(** ** The commands in the shell *)
(** Every name that the shell looks up is one of the commands below or one of
    the four that [interactive] stands for. *)
Definition interactive_names : list (list Z) := [txt "edit"; txt "install"; txt "reboot"; txt "shutdown"].

Section InShell.
Context {hw : Type} `{PortIO hw} {F : Type} `{Syscall.FileReader F} `{!Editor.FileStore F} `{!FileSystem F} `{!StoreLaws F}.
Context {nhw : Type} `{Net.NetEnv nhw} (net_of : F → Net.net_state (hw := nhw)) (set_net : Net.net_state (hw := nhw) → F → F).
Context (cpu : Cpu.cpu_info_t) (heap : Heap.heap_state) (serial : bool) (build_date : list Z).
Context (hlt : Process.kern → Process.kern) (fuel status : Z) (junk : Z → Z).
Context (interactive : list Z → list Z → Syscall.machine hw F → option (Syscall.machine hw F)).
Context (kernel_stacks elf_buffer aob_buffer bin_buffer : Z) (api : list Z) (run_raw : Syscall.machine hw F → option (Syscall.machine hw F)).
#[local] Abbreviation commands := (builtin net_of set_net cpu heap serial build_date hlt fuel status junk interactive).
#[local] Abbreviation execute := (Shell.shell_execute_command kernel_stacks elf_buffer aob_buffer bin_buffer api hlt fuel commands run_raw).

Lemma commands_files name args s c o f :
  name ≠ txt "color" →
  run_command net_of set_net cpu heap serial build_date hlt fuel status junk interactive name args (Shell.history s) (Shell.history_count s)
    (Shell.mach s) = on_files c (Shell.mach s) →
  c (Syscall.files (Shell.mach s)) = (Fat.Val o, f) →
  commands name args s = Some (Shell.user_color s, show o (Syscall.set_files f (Shell.mach s))).
Proof. intros Hn Hr E. unfold builtin. rewrite bool_decide_eq_false_2 by done. rewrite Hr. unfold on_files. by rewrite E. Qed.

Definition cmd_name (c : file_cmd) : list Z :=
  match c with
  | Cat _ => txt "cat" | Write _ _ => txt "write" | Rm _ => txt "rm" | Touch _ => txt "touch" | Cp _ _ => txt "cp" | Mv _ _ => txt "mv"
  end.
Definition cmd_args (c : file_cmd) : list Z :=
  match c with Cat n | Rm n | Touch n => n | Write n d => n ++ 32 :: d | Cp a b | Mv a b => a ++ 32 :: b end.
Lemma cmd_name_ok c :
  (cmd_name c ∈ ShellProps.command_words) ∧ (cmd_name c ∉ [Shell.s_ps; Shell.s_reap; Shell.s_kill]) ∧ cmd_name c ≠ txt "color".
Proof. destruct c; split_and!; apply (bool_decide_unpack _); vm_compute; exact I. Qed.
Lemma run_file_command c h n m :
  run_command net_of set_net cpu heap serial build_date hlt fuel status junk interactive (cmd_name c) (cmd_args c) h n m =
  on_files (command (Process.processes (Syscall.kernel m)) c) m.
Proof. by destruct c. Qed.

(** C34: a command line of the shell that names one of the file commands
    carries it out: from the characters of the line to the file system and the
    screen.  The line is split into the command and its argument, the
    terminated processes are reaped, the map from names to contents changes as
    [after] says, and the terminal has shown exactly [report]. *)
Theorem shell_runs_file_command exec ctx pname c s :
  st_ok (Syscall.files (Shell.mach s)) → cmd_ok c → ShellProps.plain_args (cmd_args c) → zlen (cmd_args c) < 240 →
  zlen exec = Shell.MAX_COMMAND_LENGTH →
  let f := Syscall.files (Shell.mach s) in
  ∃ s', execute exec ctx pname ((cmd_name c ++ 32 :: cmd_args c) ++ [0]) s = Some s' ∧
    st_ok (Syscall.files (Shell.mach s')) ∧
    (∀ k, content (Syscall.files (Shell.mach s')) k = after (accepts f) c (content f) k) ∧
    Syscall.terminal (Shell.mach s') = emit (report (accepts f) c (content f)) (Syscall.terminal (Shell.mach s)).
Proof.
  intros Hf Hc Ha Hl He f. destruct (cmd_name_ok c) as (Hw & Hsp & Hcol).
  assert (zlen (cmd_name c) + zlen (cmd_args c) < 254) as Hlen by (destruct c; change (zlen (cmd_name _)) with 2 || change (zlen (cmd_name _)) with 3 || change (zlen (cmd_name _)) with 5; lia).
  rewrite (ShellProps.execute_builtin _ _ _ _ _ _ _ _ _ exec ctx pname _ _ s He Hw Hsp Ha Hlen).
  set (s1 := ShellProps.reaped s). destruct (command_spec (Process.processes (Syscall.kernel (Shell.mach s1))) c f Hf Hc) as (f' & E & Hf' & Hc').
  rewrite (commands_files _ _ s1 _ _ f' Hcol (run_file_command _ _ _ _) E). cbn [mbind option_bind]. eexists. split; [reflexivity |]. by split_and!.
Qed.
End InShell.

(** ** Places where the commands do something else *)
(** The names that the shell runs itself and [which] does not know. *)
Theorem which_misses_commands :
  List.filter (λ n, negb (existsb (λ b, streq b n) builtins)) (snd <$> Shell.table) =
    [txt "netstat"; txt "ping"; txt "udp-send"; txt "udp-listen"; txt "mount"; txt "umount"; txt "mounts"; txt "waitpid"; txt "reap"] ∧
  (cmd_which (txt "ping") Fs.demo_fs).1 = Fat.Val [Color light_red; say "ping"; sayln ": not found"; Color light_grey].
Proof. by vm_compute. Qed.

(** [head] ends with an empty line when it stops early in a file without a
    final newline. *)
Theorem head_extra_newline :
  ∃ s, Fs.fs_create (txt "f") (line "a" ++ txt "b") 3 Fs.demo_fs = (Fat.Val 0, s) ∧
    (cmd_head Fs.demo_procs (txt "f 1") s).1 = Fat.Val [sayln "a"; Str [10]].
Proof. eexists. split; [reflexivity |]. by vm_compute. Qed.

(** The percentage of sysinfo overflows above 42 GB in use: half of 100 GB is
    shown as seven per cent. *)
Theorem disk_percentage_wraps : text (disk_report 100000000 50000000 50000000) =
  txt "Disk:   100000000 KB total  50000000 KB used  50000000 KB free" ++ [10] ++ line "        [##########..........] 7%".
Proof. by vm_compute. Qed.

(** A FAT volume with the file HELLO.TXT and the empty directory SUB. *)
Definition tree_start : Fs.fs_state mem_disk NetProps.ne2000 :=
  Fs.FsState (Fs.table Fs.fat_ops_ptr) (Fs.World FatMount.demo_fs Ramfs.empty_ram Fs.demo_procs (NetProps.demo_state NetProps.demo_card) Fs.s_FAT).
Definition with_sub : Fs.fs_state mem_disk NetProps.ne2000 := (Fs.fs_mkdir (txt "SUB") tree_start).2.
Definition text_of (r : Fat.outcome (list out)) : list Z := match r with Fat.Val o => text o | _ => [] end.
(** [tree] follows the entry for the parent directory, and goes up after a
    directory that it could not enter: on this volume it lists HELLO.TXT three
    times, and run in SUB it leaves the shell in the root directory. *)
Theorem tree_walks_upwards :
  text_of (cmd_tree with_sub).1 =
    line "/" ++ line "|-- HELLO.TXT (600B)" ++ line "|-- [SUB]" ++ line "  |-- [.]" ++ line "  |-- [..]" ++
    line "    |-- HELLO.TXT (600B)" ++ line "    |-- [SUB]" ++ line "      |-- [.]" ++ line "      |-- [..]" ++
    line "        |-- HELLO.TXT (600B)" ++ line "        |-- [SUB]" ∧
  (let s := (Fs.fs_chdir (txt "SUB") with_sub).2 in
   Fs.fs_getcwd s = txt "/SUB" ∧ Fs.fs_getcwd (cmd_tree s).2 = txt "/").
Proof. by vm_compute. Qed.

(** ** Witnesses *)
Lemma demo_on_ram : st_ok Fs.demo_fs.
Proof. split; [reflexivity | apply Ramfs.empty_ram_ok]. Qed.
Lemma demo_word n : bool_decide (n.[0] ≠ 47 ∧ zlen n < 32 ∧ n ≠ [] ∧ (32 ∉ n)) = true → word (F := Fs.fs_state unit NetProps.ne2000) n.
Proof.
  intros (H1 & H2 & H3 & H4)%bool_decide_eq_true. split; [by split |]. split_and!; [done | done |]. unfold FS_MAX_FILENAME. lia.
Qed.
(** Writing "hi" to the file a. *)
Lemma demo_write_ok : cmd_ok (F := Fs.fs_state unit NetProps.ne2000) (Write (txt "a") (txt "hi")).
Proof. split; [by apply demo_word |]. split; [by split |]. by vm_compute. Qed.
Lemma file_commands_refine_map_witness :
  ∃ s, cmd_write (txt "a hi") Fs.demo_fs = (Fat.Val (confirm "File written: " (txt "a")), s) ∧ content s (txt "a") = Some (txt "hi").
Proof.
  destruct (file_commands_refine_map Fs.demo_procs (Write (txt "a") (txt "hi")) Fs.demo_fs demo_on_ram demo_write_ok) as (s & E & _ & Hc).
  exists s. split; [exact E |]. rewrite Hc. vm_compute. reflexivity.
Defined.
(** The file a holds "hi" and is moved to a. *)
Definition with_a : Fs.fs_state unit NetProps.ne2000 := (Fs.fs_create (txt "a") (txt "hi") 2 Fs.demo_fs).2.
Lemma with_a_ok : st_ok with_a.
Proof.
  split; [reflexivity |]. assert (zlen (txt "a") < Ramfs.MAX_FILENAME ∧ 0 ≤ 2 ≤ zlen (txt "hi")) as [H1 H2] by (vm_compute; split_and!; done).
  destruct (Ramfs.create_spec Ramfs.empty_ram (txt "a") (txt "hi") 2 0 (ram_of with_a) Ramfs.empty_ram_ok H1 H2) as [(H & _) | (_ & H & _)];
    [reflexivity | discriminate | exact H].
Qed.
Lemma mv_onto_itself_deletes_witness : content with_a (txt "a") = Some (txt "hi") ∧
  ∃ s, (cmd_mv Fs.demo_procs (txt "a a") with_a).2 = s ∧ content s (txt "a") = None.
Proof.
  split; [vm_compute; reflexivity |].
  assert (word (F := Fs.fs_state unit NetProps.ne2000) (txt "a")) as Hw by (by apply demo_word).
  assert (rest_ok (txt "a")) as Hr by (by split). assert (content with_a (txt "a") = Some (txt "hi")) as Hd by (vm_compute; reflexivity).
  assert (accepts with_a (txt "a") (txt "hi") = true) as Ha by (vm_compute; reflexivity).
  destruct (mv_onto_itself_deletes Fs.demo_procs (txt "a") (txt "hi") with_a with_a_ok Hw Hr Hd Ha) as (s & E & Hs).
  exists s. split; [| exact Hs]. change (cmd_mv _ (txt "a a") with_a) with (cmd_mv Fs.demo_procs (txt "a" ++ 32 :: txt "a") with_a). by rewrite E.
Defined.
Lemma wc_correct_witness : wc_counts (line "to be" ++ txt "or") = (2, 3).
Proof. rewrite (wc_correct (line "to be" ++ txt "or")); [vm_compute; reflexivity | vm_compute; reflexivity]. Defined.
Lemma calc_correct_witness : ∃ o, cmd_calc (txt "-7 / 2") = Some o ∧ text o = line "= -3".
Proof.
  assert (47 ∈ operators) as Ho by (apply (bool_decide_unpack _); vm_compute; exact I).
  assert (∀ r, calc_value 47 (-7) 2 = Some r → Z.abs r < 2 ^ 32) as Hr by (intros r E; vm_compute in E; injection E as <-; done).
  exact (calc_correct 47 (-7) 2 Ho ltac:(lia) ltac:(lia) Hr).
Defined.
Lemma hexdump_shows_file_witness : undump (text (hexdump_text (seqZ 0 20))) = seqZ 0 20.
Proof.
  apply (hexdump_shows_file (seqZ 0 20)); [| vm_compute; reflexivity].
  apply Forall_forall. intros x Hx%elem_of_seqZ. unfold is_byte. lia.
Defined.
Lemma head_prefix_witness : ∃ rest, line "a" ++ txt "b" = head_text (line "a" ++ txt "b") 0 1 ++ rest ∧ rest = txt "b".
Proof.
  destruct (head_prefix (line "a" ++ txt "b") 1 ltac:(lia)) as (rest & E & _). exists rest. split; [exact E |].
  vm_compute in E. by injection E as <-.
Defined.
#[local] Instance no_port : PortIO unit := {|
  inb := λ _ d, (0, d); inw := λ _ d, (0, d); outb := λ _ _ d, d; outw := λ _ _ d, d |}.
Lemma shell_runs_file_command_witness : ∃ s' : Shell.shell unit (Fs.fs_state unit NetProps.ne2000), content (Syscall.files (Shell.mach s')) (txt "a") = Some (txt "hi") ∧
  Syscall.terminal (Shell.mach s') = emit (confirm "File written: " (txt "a")) (Syscall.terminal (Shell.mach ShellProps.demo_shell)).
Proof.
  assert (ShellProps.plain_args (txt "a hi")) as Hp.
  { split; [apply (bool_decide_unpack _); vm_compute; exact I |]. exists (txt "a h"), 105. split_and!; [reflexivity | discriminate | discriminate]. }
  assert (st_ok (Syscall.files (Shell.mach ShellProps.demo_shell))) as Hf by exact demo_on_ram.
  destruct (shell_runs_file_command (λ s, Fs.w_net (Fs.fsw s)) (λ _ s, s) (Cpu.cpu_detect Cpu.demo_cpuid) Heap.demo_heap true [] (λ k, k) 10 0 (λ _, 0)
    (λ _ _ m, Some m) 0 0 0 0 [] (λ m, Some m) (replicate 256 0) ShellProps.demo_ctx (replicate 32 0) (Write (txt "a") (txt "hi")) ShellProps.demo_shell
    Hf demo_write_ok Hp) as (s' & _ & _ & Hc & Ht); [vm_compute; reflexivity | vm_compute; reflexivity |].
  assert (Syscall.files (Shell.mach ShellProps.demo_shell) = Fs.demo_fs) as Ef by reflexivity. rewrite Ef in Hc, Ht.
  exists s'. split; [rewrite Hc; vm_compute; reflexivity |]. rewrite Ht. apply (f_equal (λ o, emit o _)). vm_compute. reflexivity.
Defined.
End CommandProps.
