(* ===== verification/UserLib.v ===== *)
(** * The library of user programs (include/ao.h, examples/file.c)

    The wrappers of ao.h issue system calls on the machine of Syscall.v; a
    pointer is an address of the running process.  [ao_argc] and [ao_argv]
    read the page that [process_setup_user_args] fills.  The string functions
    work on arrays, as in CString.v: [None] is an access outside an array.
    The example program is the composition of the calls in its source; the
    addresses of its string literals are a parameter. *)
From S2P Require Import Prelude.
From S2P Require Import Text.
From S2P Require Import Vmm.
From S2P Require Import Ata.
From S2P Require Import Process.
From S2P Require Import Keyboard.
From S2P Require Import Terminal.
From S2P Require Import Syscall.
Import Vmm Ata Process Syscall.
Import (hints) Keyboard Terminal.

Module UserLib.
Definition AO_ARGV_BASE : Z := 0x00091000.
Definition AO_ARGV_MAX : Z := 16.

Definition i8 (x : Z) : Z := (x + 128) mod 256 - 128.

(** ** Strings *)
Fixpoint ao_strlen (str : list Z) : option Z :=
  match str with
  | [] => None
  | c :: rest => if c =? 0 then Some 0 else n ← ao_strlen rest; Some (n + 1)
  end.
Fixpoint ao_strcpy (dest src : list Z) : option (list Z) :=
  match dest, src with
  | _ :: d, c :: s => if c =? 0 then Some (0 :: d) else rest ← ao_strcpy d s; Some (c :: rest)
  | _, _ => None
  end.
Fixpoint ao_strcmp (s1 s2 : list Z) : option Z :=
  match s1, s2 with
  | c1 :: r1, c2 :: r2 => if negb (c1 =? 0) && (c1 =? c2) then ao_strcmp r1 r2 else Some (c1 - c2)
  | _, _ => None
  end.
Fixpoint ao_memset (ptr : list Z) (value : Z) (num : nat) : option (list Z) :=
  match num with
  | O => Some ptr
  | S n => match ptr with [] => None | _ :: p => rest ← ao_memset p value n; Some (u8 value :: rest) end
  end.
Fixpoint ao_memcpy (dest src : list Z) (num : nat) : option (list Z) :=
  match num with
  | O => Some dest
  | S n => match dest, src with _ :: d, c :: s => rest ← ao_memcpy d s n; Some (c :: rest) | _, _ => None end
  end.

(** The digits of a positive value, the last one first in [temp]; ten rounds
    end the loop for an [int]. *)
Fixpoint itoa_digits (n : nat) (value : Z) : list Z :=
  match n with
  | O => []
  | S n' => if 0 <? value then itoa_digits n' (value `quot` 10) ++ [48 + value `rem` 10] else []
  end.
(** The characters stored in [str], without the NUL; the negation wraps, as
    the machine does it. *)
Definition itoa_text (value : Z) : list Z :=
  let is_negative := value <? 0 in
  let value := if is_negative then i32 (- value) else value in
  if value =? 0 then [48] else (if is_negative then [45] else []) ++ itoa_digits 10 value.
Definition ao_itoa (value : Z) (str : list Z) : option (list Z) :=
  let s := itoa_text value ++ [0] in
  if zlen str <? zlen s then None else Some (ablit str 0 s).

(** ** The arguments of the program *)
(** [ld] loads a byte of the process. *)
Definition ao_argc (ld : Z → Z) : Z := i32 (le_read 8 ld AO_ARGV_BASE).
Definition ao_argv (ld : Z → Z) (i : Z) : Z :=
  if (i <? 0) || (ao_argc ld <=? i) then 0 else le_read 8 ld (AO_ARGV_BASE + 8 * (1 + i)).

(** ** System calls *)
Section Calls.
Context {hw : Type} `{PortIO hw} {F : Type} `{FileReader F}.
Context (intr : machine hw F → machine hw F) (hlt : kern → kern) (fuel : Z).
Implicit Types m : machine hw F.

(** The result is the low half of [rax]. *)
Definition syscall (num arg1 arg2 arg3 : Z) m : result :=
  '(r, m) ← syscall_dispatch intr hlt fuel (u64 num) (u64 arg1) (u64 arg2) (u64 arg3) m; Some (i32 r, m).
Definition call_ (num arg1 arg2 arg3 : Z) m : option (machine hw F) := '(_, m) ← syscall num arg1 arg2 arg3 m; Some m.

Definition ao_print (str : Z) m : option (machine hw F) := call_ SYS_PRINT str 0 0 m.
(** [char] is signed. *)
Definition ao_putchar (c : Z) m : option (machine hw F) := call_ SYS_PUTCHAR (i8 c) 0 0 m.
Definition ao_clear m : option (machine hw F) := call_ SYS_CLEAR 0 0 0 m.
Definition ao_println (str : Z) m : option (machine hw F) := m ← ao_print str m; ao_putchar 10 m.
Definition ao_setcolor (fg bg : Z) m : option (machine hw F) := call_ SYS_SETCOLOR (Z.lor fg (Z.shiftl bg 4)) 0 0 m.
Definition ao_getchar m : result := syscall SYS_GETCHAR 0 0 0 m.
Definition ao_readline (buf maxlen : Z) m : result := syscall SYS_READLINE buf maxlen 0 m.
Definition ao_exit (code : Z) m : option (machine hw F) := call_ SYS_EXIT code 0 0 m.
Definition ao_waitpid (pid status options : Z) m : result := syscall SYS_WAITPID pid status options m.
Definition ao_sleep_ticks (ticks : Z) m : option (machine hw F) := call_ SYS_SLEEP ticks 0 0 m.
Definition ao_uptime m : result := syscall SYS_UPTIME 0 0 0 m.
Definition ao_sysinfo (buf maxlen : Z) m : result := syscall SYS_SYSINFO buf maxlen 0 m.
Definition ao_open (name : Z) m : result := syscall SYS_OPEN name 0 0 m.
Definition ao_read (fd buf len : Z) m : result := syscall SYS_READ fd buf len m.
Definition ao_write (buf len : Z) m : result := syscall SYS_WRITE buf len 0 m.
Definition ao_close (fd : Z) m : result := syscall SYS_CLOSE fd 0 0 m.
(** [buffer] is the address of the twelve bytes on the stack of the program. *)
Definition ao_printint (buffer value : Z) m : option (machine hw F) :=
  s ← ao_itoa value (replicate 12 0); ao_print buffer (store_bytes buffer s m).

(** ** examples/file.c *)
Context (literal : list Z → Z).
Definition print_lit (s : String.string) m : option (machine hw F) := ao_print (literal (txt s)) m.
Definition println_lit (s : String.string) m : option (machine hw F) := ao_println (literal (txt s)) m.
Arguments print_lit _%_string_scope.
Arguments println_lit _%_string_scope.
Definition print_arg (m : machine hw F) (i : Z) : option (machine hw F) :=
  m ← print_lit "  argv[" m; m ← ao_putchar (48 + i) m; m ← print_lit "] = " m; ao_println (ao_argv (load_byte m) i) m.
(** Up to the wait for a key. *)
Definition start_output m : option (machine hw F) :=
  m ← ao_setcolor 11 0 m;
  m ← println_lit "=================================" m; m ← println_lit "  Hello from C Program!" m;
  m ← println_lit "=================================" m;
  let argc := ao_argc (load_byte m) in
  m ← ao_setcolor 14 0 m;
  m ← print_lit "Arguments: " m; m ← ao_putchar (48 + argc) m; m ← ao_putchar 10 m;
  m ← foldl (λ o i, m ← o; print_arg m i) (Some m) (seqZ 0 argc);
  m ← ao_setcolor 7 0 m; println_lit "Press any key to exit..." m.
Definition _start m : option (machine hw F) := m ← start_output m; '(_, m) ← ao_getchar m; ao_exit 0 m.
End Calls.
End UserLib.
