(* ===== verification/UserProps.v ===== *)
(** * Properties of the user library

    What [process_setup_user_args] writes, the program reads: [args_page] is
    the block of the words of the command line that fit, and [ao_argc] and
    [ao_argv] find them again through the page tables of the process.  The
    decimal conversion is right for every [int] but the least, and the
    example program prints what its source says. *)
From S2P Require Import Prelude.
From S2P Require Import Text.
From S2P Require Import PhysMem.
From S2P Require Import Pmm.
From S2P Require Import CString.
From S2P Require Import Vmm.
From S2P Require Import Demo.
From S2P Require Import Ata.
From S2P Require Import Process.
From S2P Require Import Keyboard.
From S2P Require Import Terminal.
From S2P Require Import Syscall.
From S2P Require Import SyscallProps.
From S2P Require Import NetProps.
From S2P Require Import Fs.
From S2P Require Import Handles.
From S2P Require Import LoaderProps.
From S2P Require Import Commands.
From S2P Require Import UserLib.
Import Pmm Vmm Demo Ata Process Syscall LoaderProps UserLib.
Import (hints) Keyboard Terminal Fs NetProps Handles.

Module UserProps.
(** ** The words of a command line *)
(** The reference: maximal runs of characters other than spaces. *)
Fixpoint words_from (w s : list Z) : list (list Z) :=
  let flush := if bool_decide (w = []) then [] else [w] in
  match s with
  | [] => flush
  | c :: r => if c =? SPACE then flush ++ words_from [] r else words_from (w ++ [c]) r
  end.
Definition words (s : list Z) : list (list Z) := words_from [] s.
(** The words that the page has room for: at most sixteen, the strings with
    their NULs in 3959 bytes. *)
Fixpoint fitting (n pos : Z) (ws : list (list Z)) : list (list Z) :=
  match ws with
  | [] => []
  | w :: ws => if (n <? 16) && (pos <? 3959) && (pos + zlen w + 1 <? 3960) then w :: fitting (n + 1) (pos + zlen w + 1) ws else []
  end.
(** The page: the count, the pointers, the strings. *)
Definition strings (ws : list (list Z)) : list Z := ws ≫= (λ w, w ++ [0]).
Fixpoint pointers (pos : Z) (ws : list (list Z)) : list Z :=
  match ws with [] => [] | w :: ws => le_bytes 8 (USER_ARGV_BASE + ARGV_STRINGS + pos) ++ pointers (pos + zlen w + 1) ws end.
Definition arg_block (count : Z) (ws : list (list Z)) : list Z :=
  le_bytes 8 count ++ pointers 0 ws ++ replicate (128 - 8 * length ws) 0 ++ strings ws ++ replicate (3960 - length (strings ws)) 0.

Lemma ablit_mid (A x y B : list Z) : length x = length y → ablit (A ++ y ++ B) (zlen A) x = A ++ x ++ B.
Proof.
  revert A y. induction x as [| c x IH]; intros A [| d y] Hl; try done. cbn [ablit]. cbn [app].
  assert ((A ++ d :: y ++ B).[zlen A <- c] = (A ++ [c]) ++ y ++ B) as ->.
  { unfold aset, zlen. rewrite decide_True, Nat2Z.id by lia. rewrite insert_app_r_alt, Nat.sub_diag by lia. cbn. by rewrite <- app_assoc. }
  replace (zlen A + 1) with (zlen (A ++ [c])) by (rewrite zlen_app; done). rewrite IH by (cbn in Hl; lia). by rewrite <- app_assoc.
Qed.
Lemma pointers_snoc pos ws w :
  pointers pos (ws ++ [w]) = pointers pos ws ++ le_bytes 8 (USER_ARGV_BASE + ARGV_STRINGS + (pos + zlen (strings ws))).
Proof.
  revert pos. induction ws as [| v ws IH]; intros pos; cbn [app pointers].
  { rewrite app_nil_r. change (zlen (strings [])) with 0. by rewrite Z.add_0_r. }
  rewrite IH, <- app_assoc. unfold strings. rewrite bind_cons, !zlen_app. change (zlen [0]) with 1. do 4 f_equal. lia.
Qed.
Lemma pointers_length pos ws : length (pointers pos ws) = (8 * length ws)%nat.
Proof. revert pos. induction ws as [| w ws IH]; intros pos; [done |]. cbn [pointers]. rewrite length_app, IH, length_le_bytes. cbn [length]. lia. Qed.
Lemma strings_snoc ws w : strings (ws ++ [w]) = strings ws ++ w ++ [0].
Proof. unfold strings. rewrite bind_app. cbn. by rewrite app_nil_r. Qed.
Lemma block_put c ws w :
  let pos := zlen (strings ws) in
  zlen ws < 16 → pos + zlen w + 1 < 3960 →
  (ablit (ablit (arg_block c ws) (8 * (1 + zlen ws)) (le_bytes 8 (USER_ARGV_BASE + ARGV_STRINGS + pos)))
     (ARGV_STRINGS + pos) w).[ARGV_STRINGS + pos + zlen w <- 0] = arg_block c (ws ++ [w]).
Proof.
  cbv zeta. intros Hn Hp. unfold arg_block. rewrite pointers_snoc, strings_snoc, Z.add_0_l.
  set (ptr := le_bytes 8 (USER_ARGV_BASE + _ + _)). assert (length ptr = 8%nat) as Lp by apply length_le_bytes.
  pose proof (pointers_length 0 ws) as Lq. unfold zlen in Hn, Hp. set (S := strings ws) in *. set (Q := pointers 0 ws) in *. clearbody S Q ptr.
  set (C := le_bytes 8 c). assert (length C = 8%nat) as Lc by apply length_le_bytes. clearbody C.
  replace (128 - 8 * length ws)%nat with (8 + (128 - 8 * length (ws ++ [w])))%nat by (rewrite length_app; cbn [length]; lia).
  rewrite replicate_add. set (R := replicate (128 - 8 * length (ws ++ [w])) 0). assert (length R = (128 - 8 * (length ws + 1))%nat) as Lr
    by (unfold R; rewrite length_replicate, length_app; cbn [length]; lia). clearbody R.
  replace (3960 - length S)%nat with (length w + (1 + (3960 - length (S ++ w ++ [0%Z]))))%nat by (rewrite !length_app; cbn [length]; lia).
  rewrite !replicate_add. set (T := replicate (3960 - length (S ++ w ++ [0])) 0). clearbody T.
  change (replicate 1 0) with [0].
  replace (C ++ Q ++ (replicate 8 0 ++ R) ++ S ++ replicate (length w) 0 ++ [0] ++ T)
    with ((C ++ Q) ++ replicate 8 0 ++ R ++ S ++ replicate (length w) 0 ++ [0] ++ T) by (by rewrite <- !app_assoc).
  replace (8 * (1 + zlen ws)) with (zlen (C ++ Q)) by (unfold zlen; rewrite length_app; lia).
  rewrite ablit_mid by (rewrite Lp; done).
  replace ((C ++ Q) ++ ptr ++ R ++ S ++ replicate (length w) 0 ++ [0] ++ T)
    with (((C ++ Q) ++ ptr ++ R ++ S) ++ replicate (length w) 0 ++ [0] ++ T) by (by rewrite <- !app_assoc).
  assert (ARGV_STRINGS + zlen S = zlen ((C ++ Q) ++ ptr ++ R ++ S)) as -> by (unfold zlen, ARGV_STRINGS; rewrite !length_app; lia).
  rewrite ablit_mid by (by rewrite length_replicate).
  set (A := (C ++ Q) ++ ptr ++ R ++ S). replace (A ++ w ++ [0] ++ T) with ((A ++ w) ++ [0] ++ T) by (by rewrite <- app_assoc).
  rewrite <- zlen_app. change (?l.[?i <- 0]) with (ablit l i [0]). rewrite ablit_mid by done. unfold A. by rewrite <- !app_assoc.
Qed.

(** The scanner of the loop finds the words. *)
Lemma words_skip s : words (skip_spaces s) = words s.
Proof. induction s as [| c s IH]; [done |]. cbn [skip_spaces]. destruct (Z.eqb_spec c SPACE) as [-> |]; [rewrite IH |]; done. Qed.
Lemma words_from_token w s tok rest :
  take_token s = (tok, rest) → words_from w s = (if bool_decide (w ++ tok = []) then [] else [w ++ tok]) ++ words rest.
Proof.
  revert w tok rest. induction s as [| c s IH]; intros w tok rest; cbn [take_token].
  { intros [= <- <-]. rewrite app_nil_r. cbn. by rewrite app_nil_r. }
  destruct (Z.eqb_spec c SPACE) as [-> | Hc].
  - intros [= <- <-]. rewrite app_nil_r. done.
  - destruct (take_token s) as [t r] eqn:E. intros [= <- <-]. cbn [words_from]. rewrite (proj2 (Z.eqb_neq _ _) Hc).
    rewrite (IH (w ++ [c]) t r eq_refl), <- app_assoc. done.
Qed.
Lemma skip_head s : match skip_spaces s with [] => True | c :: _ => c ≠ SPACE end.
Proof. induction s as [| c s IH]; [done |]. cbn [skip_spaces]. destruct (Z.eqb_spec c SPACE); done. Qed.
Lemma words_token s tok rest :
  skip_spaces s ≠ [] → take_token (skip_spaces s) = (tok, rest) → words s = tok :: words rest.
Proof.
  intros Hs E. rewrite <- words_skip. unfold words at 1. rewrite (words_from_token [] _ _ _ E). cbn [app].
  pose proof (skip_head s) as Hh. destruct (skip_spaces s) as [| c r]; [done |]. cbn [take_token] in E.
  rewrite (proj2 (Z.eqb_neq _ _) Hh) in E. destruct (take_token r). injection E as <- <-. done.
Qed.

Definition args_inv (a : args_state) (ws : list (list Z)) : Prop :=
  a_page a = arg_block 0 ws ∧ a_argc a = zlen ws ∧ a_pos a = zlen (strings ws) ∧ zlen ws ≤ 16.
Lemma args_step_spec a ws : args_inv a ws →
  match args_step a with
  | inr a' => a' = a ∧ fitting (zlen ws) (a_pos a) (words (a_s a)) = []
  | inl a' => ∃ w, args_inv a' (ws ++ [w]) ∧
      fitting (zlen ws) (a_pos a) (words (a_s a)) = w :: fitting (zlen (ws ++ [w])) (a_pos a') (words (a_s a'))
  end.
Proof.
  intros (Hp & Hc & Hs & Hn). unfold args_step. rewrite Hc. change (PAGE_SIZE - 8 - 16 * 8) with 3960.
  case_bool_decide as E0; [rewrite E0; done |]. cbn [orb].
  assert (∀ ws', negb (zlen ws <? 16) || negb (a_pos a <? 3960 - 1) = true → fitting (zlen ws) (a_pos a) ws' = []) as Hfull.
  { intros [| v ws'] Hf; [done |]. cbn [fitting]. destruct (zlen ws <? 16), (a_pos a <? 3959) eqn:E; try done.
    change (3960 - 1) with 3959 in Hf. by rewrite E in Hf. }
  destruct (_ || _) eqn:Ef; [split; [done | by apply Hfull] |]. clear Hfull. apply orb_false_iff in Ef as [F1%negb_false_iff F2%negb_false_iff].
  case_bool_decide as E1; [split; [done |]; by rewrite <- words_skip, E1 |].
  destruct (take_token (skip_spaces (a_s a))) as [tok rest] eqn:Et. rewrite (words_token _ _ _ E1 Et). cbn [fitting].
  change (a_pos a <? 3960 - 1) with (a_pos a <? 3959) in F2. rewrite F1, F2. cbn [andb].
  destruct (Z.leb_spec 3960 (a_pos a + zlen tok + 1)) as [Hl | Hl].
  { split; [done |]. by replace (a_pos a + zlen tok + 1 <? 3960) with false by lia. }
  replace (a_pos a + zlen tok + 1 <? 3960) with true by lia. exists tok. cbn [a_s a_pos a_page a_argc].
  rewrite zlen_app. change (zlen [tok]) with 1. split; [| done]. split_and!; cbn [a_page a_argc a_pos].
  - rewrite Hp, Hs. apply block_put; lia.
  - rewrite zlen_app. done.
  - rewrite strings_snoc, Hs, !zlen_app. change (zlen [0]) with 1. lia.
  - rewrite zlen_app. change (zlen [tok]) with 1. lia.
Qed.
Lemma args_loop_spec n a ws : args_inv a ws → 16 - zlen ws < n →
  ∃ a', iterZ n args_step a = inr a' ∧ args_inv a' (ws ++ fitting (zlen ws) (a_pos a) (words (a_s a))).
Proof.
  remember (Z.to_nat (16 - zlen ws)) as k eqn:Ek. revert n a ws Ek. induction k as [| k IH]; intros n a ws Ek Hi Hn.
  all: pose proof Hi as (_ & _ & _ & H16); rewrite iterZ_step by lia; pose proof (args_step_spec a ws Hi) as H.
  all: destruct (args_step a) as [a' | a']; [| destruct H as [-> ->]; exists a; by rewrite app_nil_r].
  all: destruct H as (w & Hi' & ->); pose proof Hi' as (_ & _ & _ & H16'); rewrite zlen_app in H16'; change (zlen [w]) with 1 in H16'.
  { lia. }
  destruct (IH (n - 1) a' (ws ++ [w])) as (a2 & E & Hi2); [rewrite zlen_app; change (zlen [w]) with 1; lia | done | rewrite zlen_app; change (zlen [w]) with 1; lia |].
  exists a2. split; [done |]. by rewrite <- app_assoc in Hi2.
Qed.
Lemma args_page_spec cmd :
  let ws := fitting 0 0 (words cmd) in args_page cmd = Some (arg_block (zlen ws) ws) ∧ zlen ws ≤ 16.
Proof.
  cbv zeta. unfold args_page.
  destruct (args_loop_spec 17 (Args cmd (replicate (Z.to_nat PAGE_SIZE) 0) 0 0) []) as (a & -> & (Hp & Hc & _ & H16)); [by split_and! | done |].
  cbn [a_s a_pos app] in *. change (zlen []) with 0 in *. split; [| done]. f_equal. rewrite Hp, Hc. unfold arg_block.
  refine (ablit_mid [] _ (le_bytes 8 0) _ _). by rewrite !length_le_bytes.
Qed.
Lemma pointers_app pos a b : pointers pos (a ++ b) = pointers pos a ++ pointers (pos + zlen (strings a)) b.
Proof.
  revert pos. induction a as [| w a IH]; intros pos; [by rewrite Z.add_0_r |]. cbn [app pointers]. rewrite IH, <- app_assoc.
  unfold strings. rewrite bind_cons, !zlen_app. change (zlen [0]) with 1. do 3 f_equal. lia.
Qed.
Lemma strings_app a b : strings (a ++ b) = strings a ++ strings b.
Proof. apply bind_app. Qed.
Lemma fitting_room n pos ws : pos < 3960 → pos + zlen (strings (fitting n pos ws)) < 3960.
Proof.
  revert n pos. induction ws as [| w ws IH]; intros n pos Hp; cbn [fitting]; [change (zlen (strings [])) with 0; lia |].
  destruct (_ && _) eqn:E; [| change (zlen (strings [])) with 0; lia]. apply andb_true_iff in E as [_ E%Z.ltb_lt]. pose proof (IH (n + 1) (pos + zlen w + 1) E).
  unfold strings in *. rewrite bind_cons, !zlen_app. change (zlen [0]) with 1. lia.
Qed.

Section Block.
Context (count : Z) (ws : list (list Z)).
Hypothesis room : zlen ws ≤ 16 ∧ zlen (strings ws) < 3960.
Lemma block_length : zlen (arg_block count ws) = 4096.
Proof using room.
  unfold arg_block, zlen in *. rewrite !length_app, length_le_bytes, pointers_length, !length_replicate. lia.
Qed.
Lemma block_count : 0 ≤ count < 2 ^ 64 → le_read 8 (aget (arg_block count ws)) 0 = count.
Proof using. intros Hc. pose proof (le_read_app 8 [] (drop 8 (arg_block count ws)) count) as E. etransitivity; [exact E | by apply Z.mod_small]. Qed.
Lemma block_pointer j w : ws !! j = Some w →
  le_read 8 (aget (arg_block count ws)) (8 * (1 + Z.of_nat j)) = USER_ARGV_BASE + ARGV_STRINGS + zlen (strings (take j ws)).
Proof using room.
  intros Hj. pose proof (take_drop_middle _ _ _ Hj) as D. unfold arg_block. set (R := replicate (128 - _) 0 ++ _).
  rewrite <- D at 1. rewrite pointers_app, Z.add_0_l. cbn [pointers]. rewrite <- !app_assoc, app_assoc.
  pose proof (lookup_lt_Some _ _ _ Hj) as Hl. replace (8 * (1 + Z.of_nat j)) with (zlen (le_bytes 8 count ++ pointers 0 (take j ws))).
  - rewrite le_read_app. apply Z.mod_small. change (256 ^ Z.of_nat 8) with (2 ^ 64). unfold USER_ARGV_BASE, ARGV_STRINGS.
    assert (zlen (strings ws) = zlen (strings (take j ws)) + zlen (strings (w :: drop (S j) ws))) as E by (by rewrite <- zlen_app, <- strings_app, D).
    pose proof (zlen_nonneg (strings (take j ws))). pose proof (zlen_nonneg (strings (w :: drop (S j) ws))). lia.
  - unfold zlen. rewrite length_app, length_le_bytes, pointers_length, length_take. lia.
Qed.
Lemma block_string j w x : ws !! j = Some w → 0 ≤ x ≤ zlen w →
  (arg_block count ws).[ARGV_STRINGS + zlen (strings (take j ws)) + x] = (w ++ [0]).[x].
Proof using room.
  intros Hj Hx. pose proof (take_drop_middle _ _ _ Hj) as D. unfold arg_block. set (Z := replicate (3960 - _) 0).
  set (H := le_bytes 8 count ++ pointers 0 ws ++ replicate (128 - 8 * length ws) 0).
  assert (zlen H = ARGV_STRINGS) as LH.
  { unfold H, zlen in *. rewrite !length_app, length_le_bytes, pointers_length, length_replicate. unfold ARGV_STRINGS. lia. }
  rewrite <- D at 3. rewrite strings_app. unfold strings at 2. rewrite bind_cons.
  replace (le_bytes 8 count ++ _) with ((H ++ strings (take j ws)) ++ (w ++ [0]) ++ (drop (S j) ws ≫= (λ w, w ++ [0])) ++ Z) by (unfold H; by rewrite <- !app_assoc).
  rewrite aget_app_r by (rewrite zlen_app; lia). rewrite zlen_app, LH. replace (_ + x - _) with x by lia.
  apply aget_app_l. rewrite zlen_app. change (zlen [0]) with 1. lia.
Qed.
End Block.

(** The arguments [ws] as the program sees them through its loads. *)
Record has_args (ld : Z → Z) (ws : list (list Z)) : Prop := HasArgs {
  ha_count : ao_argc ld = zlen ws;
  ha_string j w x : ws !! j = Some w → 0 ≤ x ≤ zlen w → ld (ao_argv ld (Z.of_nat j) + x) = (w ++ [0]).[x];
  ha_range j w : ws !! j = Some w →
    AO_ARGV_BASE ≤ ao_argv ld (Z.of_nat j) ∧ ao_argv ld (Z.of_nat j) + zlen w < AO_ARGV_BASE + 4096;
  ha_none j : j < 0 ∨ zlen ws ≤ j → ao_argv ld j = 0
}.
Lemma block_args ld ws :
  zlen ws ≤ 16 ∧ zlen (strings ws) < 3960 →
  (∀ a, AO_ARGV_BASE ≤ a < AO_ARGV_BASE + 4096 → ld a = (arg_block (zlen ws) ws).[a - AO_ARGV_BASE]) → has_args ld ws.
Proof.
  intros Hr Hld. pose proof (zlen_nonneg ws) as H0. unfold AO_ARGV_BASE in Hld.
  assert (∀ p, 0 ≤ p → p + 8 ≤ 4096 → le_read 8 ld (AO_ARGV_BASE + p) = le_read 8 (aget (arg_block (zlen ws) ws)) p) as L.
  { intros p Hp1 Hp2. apply le_read_shift. intros i Hi. unfold AO_ARGV_BASE. rewrite Hld by lia. f_equal. lia. }
  assert (ao_argc ld = zlen ws) as Hc.
  { unfold ao_argc. rewrite <- (Z.add_0_r AO_ARGV_BASE), L, block_count by lia. unfold i32. rewrite Z.mod_small by lia. lia. }
  assert (∀ j w, ws !! j = Some w → ao_argv ld (Z.of_nat j) = AO_ARGV_BASE + (ARGV_STRINGS + zlen (strings (take j ws)))) as Hp.
  { intros j w Hj. pose proof (lookup_lt_Some _ _ _ Hj) as Hl. unfold ao_argv. rewrite Hc.
    replace ((Z.of_nat j <? 0) || (zlen ws <=? Z.of_nat j)) with false by (unfold zlen; lia).
    rewrite L by (unfold zlen in *; lia). rewrite (block_pointer _ _ Hr _ _ Hj). change USER_ARGV_BASE with AO_ARGV_BASE. lia. }
  assert (∀ j w, ws !! j = Some w → 0 ≤ zlen (strings (take j ws)) ∧ zlen (strings (take j ws)) + zlen w + 1 < 3960) as Hs.
  { intros j w Hj. pose proof (zlen_nonneg (strings (take j ws))). split; [done |].
    pose proof (zlen_nonneg (strings (drop (S j) ws))). assert (zlen (strings ws) = zlen (strings (take j ws)) + (zlen w + 1 + zlen (strings (drop (S j) ws)))) as E; [| lia].
    rewrite <- (take_drop_middle _ _ _ Hj) at 1. rewrite strings_app, zlen_app. unfold strings at 2. rewrite bind_cons, !zlen_app. done. }
  constructor; [done | | |].
  - intros j w x Hj Hx. rewrite (Hp j w Hj). pose proof (Hs j w Hj). rewrite <- (block_string (zlen ws) ws Hr j w x Hj Hx).
    unfold AO_ARGV_BASE, ARGV_STRINGS in *. rewrite Hld by lia. f_equal. lia.
  - intros j w Hj. rewrite (Hp j w Hj). pose proof (Hs j w Hj). pose proof (zlen_nonneg w). unfold ARGV_STRINGS. lia.
  - intros j Hj. unfold ao_argv. rewrite Hc. by replace ((j <? 0) || (zlen ws <=? j)) with true by lia.
Qed.

(** C25: the arguments of a command line reach the program.  When the argument
    page of the process is mapped, [process_setup_user_args] succeeds for
    every command line, and the program that then asks [ao_argc] and
    [ao_argv] gets the words of the line, as many of the first sixteen as
    fit the page: the count, for each index a pointer inside the page to the
    word and its NUL, and a null pointer outside the range. *)
Theorem args_reach_program i cmd k :
  let c := cr3 (proc k i) in
  c ≠ 0 → user_range (mem (vmm k)) c USER_ARGV_BASE 4096 →
  ∃ m', process_setup_user_args i cmd k = Some (0, LoaderProps.with_mem k m') ∧
    has_args (λ a, vload m' c (u64 a)) (fitting 0 0 (words cmd)).
Proof.
  intros c Hc Hr. destruct (args_page_spec cmd) as [Hp H16]. set (ws := fitting 0 0 (words cmd)) in *.
  assert (zlen ws ≤ 16 ∧ zlen (strings ws) < 3960) as Hroom by (split; [done | exact (fitting_room 0 0 (words cmd) eq_refl)]).
  pose proof (block_length (zlen ws) ws Hroom) as Hl.
  destruct (LoaderProps.write_user_spec i USER_ARGV_BASE (arg_block (zlen ws) ws) k Hc) as (m' & E & C); [by rewrite Hl |].
  exists m'. split; [by unfold process_setup_user_args, mbind, km_bind, km_opt; rewrite Hp |].
  apply block_args; [done |]. intros a Ha. replace a with (USER_ARGV_BASE + (a - AO_ARGV_BASE)) at 1 by (unfold AO_ARGV_BASE, USER_ARGV_BASE; lia).
  rewrite Hl in C. eapply LoaderProps.copied_load; [exact Hr | exact C | lia].
Qed.

(** ** Decimal numbers *)
Definition number (s : list Z) : Z := foldl (λ v c, 10 * v + (c - 48)) 0 s.
Definition decimal (s : list Z) : Z := match s with c :: r => if c =? 45 then - number r else number s | [] => 0 end.
Lemma itoa_digits_spec n v :
  0 ≤ v < 10 ^ Z.of_nat n → number (itoa_digits n v) = v ∧ (length (itoa_digits n v) ≤ n)%nat ∧ Forall (λ c, 48 ≤ c < 58) (itoa_digits n v).
Proof.
  revert v. induction n as [| n IH]; intros v Hv; [cbn in *; split_and!; [lia | lia | constructor] |].
  cbn [itoa_digits]. destruct (Z.ltb_spec 0 v) as [Hp |]; [| split_and!; [cbn; lia | cbn; lia | constructor]].
  rewrite Z.quot_div_nonneg, Z.rem_mod_nonneg by lia. rewrite Nat2Z.inj_succ, Z.pow_succ_r in Hv by lia.
  destruct (IH (v / 10)) as (E & L & D). { split; [apply Z.div_pos; lia | apply Z.div_lt_upper_bound; lia]. }
  pose proof (Z.mod_pos_bound v 10 ltac:(lia)). pose proof (Z.div_mod v 10 ltac:(lia)). split_and!.
  - unfold number in *. rewrite foldl_app. cbn [foldl]. rewrite E. lia.
  - rewrite length_app. cbn [length]. lia.
  - apply Forall_app_2; [done |]. constructor; [lia | constructor].
Qed.
Lemma itoa_text_spec v : - 2 ^ 31 < v < 2 ^ 31 →
  decimal (itoa_text v) = v ∧ (length (itoa_text v) ≤ 11)%nat ∧ Forall (λ c, c ≠ 0) (itoa_text v).
Proof.
  intros Hv. assert (∀ d, Forall (λ c, 48 ≤ c < 58) d → Forall (λ c, c ≠ 0) d) as Hd by (intros d Hd; eapply Forall_impl; [exact Hd | intros; cbn in *; lia]).
  unfold itoa_text. destruct (Z.ltb_spec v 0) as [Hn | Hn].
  - assert (i32 (- v) = - v) as -> by (unfold i32; rewrite Z.mod_small by lia; lia). rewrite (proj2 (Z.eqb_neq (- v) 0)) by lia.
    destruct (itoa_digits_spec 10 (- v) ltac:(change (10 ^ Z.of_nat 10) with 10000000000; lia)) as (E & L & D). cbn [app].
    split_and!; [cbn [decimal]; rewrite E; cbn; lia | cbn [length]; lia | constructor; [done | auto]].
  - destruct (Z.eqb_spec v 0) as [-> | Hz]; [split_and!; [done | cbn; lia | repeat constructor; done] |].
    destruct (itoa_digits_spec 10 v ltac:(change (10 ^ Z.of_nat 10) with 10000000000; lia)) as (E & L & D). cbn [app].
    split_and!; [| lia | auto]. destruct (itoa_digits 10 v) as [| c r]; [cbn in E; lia |]. cbn [decimal]. apply Forall_cons in D as [Hc _].
    by replace (c =? 45) with false by lia.
Qed.
Lemma ablit_prefix (buf s : list Z) : (length s ≤ length buf)%nat → ablit buf 0 s = s ++ drop (length s) buf.
Proof.
  intros Hl. rewrite <- (take_drop (length s) buf) at 1. apply (ablit_mid [] s (take (length s) buf)). rewrite length_take. lia.
Qed.
Lemma cstr_app s r : Forall (λ c, c ≠ 0) s → CString.cstr (s ++ 0 :: r) = s.
Proof. induction 1 as [| c s Hc _ IH]; [done |]. cbn. rewrite IH. by replace (c =? 0) with false by lia. Qed.

(** [ao_itoa] converts every [int] but the least one: the result fits the
    twelve bytes that [ao_printint] reserves and reads back as the number. *)
Theorem ao_itoa_correct v str :
  - 2 ^ 31 < v < 2 ^ 31 → 12 ≤ zlen str → ∃ s', ao_itoa v str = Some s' ∧ zlen s' = zlen str ∧ decimal (CString.cstr s') = v.
Proof.
  intros Hv Hl. destruct (itoa_text_spec v Hv) as (E & L & Z). unfold ao_itoa. rewrite zlen_app. change (zlen [0]) with 1.
  assert (zlen (itoa_text v) ≤ 11) by (unfold zlen; lia). replace (zlen str <? zlen (itoa_text v) + 1) with false by lia.
  eexists. split; [done |]. split; [apply zlen_ablit |].
  rewrite ablit_prefix by (rewrite length_app; cbn [length]; unfold zlen in *; lia). rewrite <- app_assoc. cbn [app]. by rewrite cstr_app.
Qed.
(** The least [int] has no negation: the text is a minus sign alone. *)
Theorem ao_itoa_least : ao_itoa (- 2 ^ 31) (replicate 12 0) = Some (45 :: replicate 11 0).
Proof. reflexivity. Qed.

(** ** The example program *)
Section Program.
Context {hw : Type} `{PortIO hw} {F : Type} `{FileReader F}.
Context (intr : machine hw F → machine hw F) (hlt : kern → kern) (fuel : Z).
Implicit Types m : machine hw F.

(** The string [s] lies at [a] in pages that the program may read. *)
Record string_at (c : Z) m (a : Z) (s : list Z) : Prop := StringAt {
  sa_address : 0 < a < 2 ^ 64;
  sa_length : zlen s < SYSCALL_MAX_STR;
  sa_chars : Forall (λ c, c ≠ 0) s;
  sa_pages x : 0 ≤ x ≤ zlen s → vmm_user_page_ok (SyscallProps.mem_of m) (SyscallProps.space c m) (u64 (a + x)) = true;
  sa_bytes x : 0 ≤ x ≤ zlen s → load_byte m (a + x) = (s ++ [0]).[x]
}.
Lemma load_space c m a : SyscallProps.runs c m → load_byte m a = vload (SyscallProps.mem_of m) (SyscallProps.space c m) (u64 a).
Proof. intros [_ E]. unfold load_byte, vload, SyscallProps.mem_of, SyscallProps.space. by rewrite (SyscallProps.phys_mask _ _ _ _ E). Qed.
Lemma print_spec c m a s : SyscallProps.runs c m → is_user (proc (kernel m) c) = true → string_at c m a s →
  ao_print intr hlt fuel a m = Some (set_terminal (Terminal.terminal_write s (terminal m)) m).
Proof.
  intros Hr Hu [Ha Hl Hc Hp Hb]. unfold ao_print, call_, syscall, syscall_dispatch.
  change (u64 SYS_PRINT =? SYS_PRINT) with true. cbv iota. rewrite (u64_small a) by (unfold u64; lia). unfold sys_print. replace (a =? 0) with false by lia.
  assert (user_str_len a m = zlen s) as E.
  { unfold user_str_len, process_get_current. rewrite (SyscallProps.rn_current _ _ Hr), Hu. cbn [negb].
    apply vmm_user_strlen_exact; [lia | apply zlen_nonneg |]. split; [done |]. fold (SyscallProps.mem_of m) (SyscallProps.space c m).
    pose proof (zlen_nonneg s). split; [intros j Hj | split; [apply Hp; lia |]].
    - split; [apply Hp; lia |]. rewrite <- load_space, Hb, aget_app_l by (done || lia). by apply (Forall_aget (λ c, c ≠ 0)); [| lia].
    - rewrite <- load_space, Hb, aget_app_r by (done || lia). by replace (zlen s - zlen s) with 0 by lia. }
  rewrite E. pose proof (zlen_nonneg s). replace (zlen s <? 0) with false by lia. cbn [mbind option_bind].
  assert (user_string a (zlen s) m = s) as ->; [| done]. unfold user_string.
  apply list_eq. intros i. rewrite list_lookup_fmap. destruct (decide (i < length s)%nat) as [Hi | Hi].
  - rewrite (proj2 (lookup_seqZ 0 (zlen s) i (0 + Z.of_nat i))) by (unfold zlen; lia). cbn [fmap option_fmap option_map].
    rewrite Z.add_0_l, Hb, aget_app_l by (unfold zlen; lia). rewrite <- (Nat2Z.id i) at 2. symmetry. apply lookup_aget. unfold zlen. lia.
  - rewrite (lookup_ge_None_2 s) by lia. rewrite (lookup_ge_None_2 (seqZ 0 (zlen s))); [done |]. rewrite length_seqZ. unfold zlen. lia.
Qed.
Lemma putchar_spec ch m : 0 ≤ ch < 256 → ao_putchar intr hlt fuel ch m = Some (set_terminal (Terminal.terminal_write [ch] (terminal m)) m).
Proof.
  intros Hc. unfold ao_putchar, call_, syscall, syscall_dispatch. change (u64 SYS_PUTCHAR =? SYS_PRINT) with false. change (u64 SYS_PUTCHAR =? SYS_PUTCHAR) with true.
  cbv iota. assert (u8 (u64 (i8 ch)) = ch) as -> by (unfold i8, u64, u8; zdm). done.
Qed.

(** What file.c shows for the arguments [ws]. *)
Fixpoint arg_lines (n : Z) (ws : list (list Z)) : list Commands.out :=
  match ws with
  | [] => []
  | w :: ws => Commands.Str (txt "  argv[" ++ [48 + n] ++ txt "] = " ++ w ++ [10]) :: arg_lines (n + 1) ws
  end.
Definition hello_screen (ws : list (list Z)) : list Commands.out :=
  [Commands.Color 11; Commands.sayln "================================="; Commands.sayln "  Hello from C Program!";
   Commands.sayln "================================="; Commands.Color 14; Commands.Str (txt "Arguments: " ++ [48 + zlen ws; 10])] ++
  arg_lines 0 ws ++ [Commands.Color 7; Commands.sayln "Press any key to exit..."].
Definition literals : list (list Z) :=
  [txt "================================="; txt "  Hello from C Program!"; txt "Arguments: "; txt "  argv["; txt "] = "; txt "Press any key to exit..."].

Context (literal : list Z → Z) (c : Z) (m : machine hw F) (ws : list (list Z)).
Hypothesis running : SyscallProps.runs c m ∧ is_user (proc (kernel m) c) = true.
Hypothesis linked : Forall (λ s, string_at c m (literal s) s) literals.
Hypothesis arguments : ao_argc (load_byte m) = zlen ws ∧ zlen ws ≤ 16 ∧
  ∀ j w, ws !! j = Some w → string_at c m (ao_argv (load_byte m) (Z.of_nat j)) w.

(** The machine with another screen. *)
#[local] Abbreviation shows t := (set_terminal t m).
Lemma print_on a s t : string_at c m a s → ao_print intr hlt fuel a (shows t) = Some (shows (Terminal.terminal_write s t)).
Proof using running.
  intros [????]. destruct running as [[R1 R2] U]. apply (print_spec c (shows t)); [by constructor | done | by constructor].
Qed.
Lemma putchar_on ch t : 0 ≤ ch < 256 → ao_putchar intr hlt fuel ch (shows t) = Some (shows (Terminal.terminal_write [ch] t)).
Proof using. intros Hc. by rewrite putchar_spec. Qed.
Lemma write_app a b (t : Terminal.term (hw := hw)) : Terminal.terminal_write (a ++ b) t = Terminal.terminal_write b (Terminal.terminal_write a t).
Proof using. apply foldl_app. Qed.
Lemma write_two a b (t : Terminal.term (hw := hw)) : Terminal.terminal_write [a; b] t = Terminal.terminal_write [b] (Terminal.terminal_write [a] t).
Proof using. apply (write_app [a] [b]). Qed.
Lemma emit_app o o' (t : Terminal.term (hw := hw)) : Commands.emit (o ++ o') t = Commands.emit o' (Commands.emit o t).
Proof using. apply foldl_app. Qed.
Lemma emit_color x o (t : Terminal.term (hw := hw)) : Commands.emit (Commands.Color x :: o) t = Commands.emit o (Terminal.terminal_setcolor x t).
Proof using. reflexivity. Qed.
Lemma emit_str x o (t : Terminal.term (hw := hw)) : Commands.emit (Commands.Str x :: o) t = Commands.emit o (Terminal.terminal_write x t).
Proof using. reflexivity. Qed.
Lemma emit_nil (t : Terminal.term (hw := hw)) : Commands.emit [] t = t.
Proof using. reflexivity. Qed.
Lemma load_on t : load_byte (shows t) = load_byte m.
Proof using. reflexivity. Qed.
Lemma println_on a s t : string_at c m a s → ao_println intr hlt fuel a (shows t) = Some (shows (Terminal.terminal_write (s ++ [10]) t)).
Proof using running.
  intros Hs. unfold ao_println. rewrite (print_on _ _ _ Hs). cbn [mbind option_bind]. rewrite putchar_on by done. by rewrite write_app.
Qed.
Lemma literal_at s : s ∈ literals → string_at c m (literal s) s.
Proof using linked. intros Hs. rewrite Forall_forall in linked. by apply linked. Qed.
Lemma color_on fg t : 0 ≤ fg < 256 → ao_setcolor intr hlt fuel fg 0 (shows t) = Some (shows (Terminal.terminal_setcolor fg t)).
Proof using.
  intros Hf. unfold ao_setcolor, call_, syscall. rewrite Z.shiftl_0_l, Z.lor_0_r, (u64_small fg) by lia.
  change (syscall_dispatch intr hlt fuel (u64 SYS_SETCOLOR) fg (u64 0) (u64 0) (shows t))
    with (Some (0, set_terminal (Terminal.terminal_setcolor (u8 fg) (terminal (shows t))) (shows t))). by rewrite u8_small.
Qed.
Lemma arg_on j w t : ws !! j = Some w →
  print_arg intr hlt fuel literal (shows t) (Z.of_nat j) =
  Some (shows (Terminal.terminal_write (txt "  argv[" ++ [48 + Z.of_nat j] ++ txt "] = " ++ w ++ [10]) t)).
Proof using running linked arguments.
  intros Hj. destruct arguments as (_ & H16 & Ha). pose proof (lookup_lt_Some _ _ _ Hj). unfold print_arg, print_lit.
  assert (string_at c m (literal (txt "  argv[")) (txt "  argv[")) as S1 by (apply literal_at; do 3 right; left).
  assert (string_at c m (literal (txt "] = ")) (txt "] = ")) as S2 by (apply literal_at; do 4 right; left).
  revert S1 S2. generalize (txt "  argv["), (txt "] = "). intros s1 s2 S1 S2.
  rewrite (print_on _ s1) by exact S1. cbn [mbind option_bind]. rewrite putchar_on by (unfold zlen in *; lia).
  cbn [mbind option_bind]. rewrite (print_on _ s2) by exact S2. cbn [mbind option_bind].
  rewrite load_on, (println_on _ w) by (by apply Ha). by rewrite (write_app s1), (write_app [_]), (write_app s2).
Qed.
Lemma args_on pre suf t : ws = pre ++ suf →
  foldl (λ o i, m ← o; print_arg intr hlt fuel literal m i) (Some (shows t)) (seqZ (zlen pre) (zlen suf)) =
  Some (shows (Commands.emit (arg_lines (zlen pre) suf) t)).
Proof using running linked arguments.
  revert pre t. induction suf as [| w suf IH]; intros pre t E; [done |].
  rewrite zlen_cons, seqZ_cons by (pose proof (zlen_nonneg suf); lia). cbn [foldl]. cbn [mbind option_bind].
  unfold zlen at 1. rewrite (arg_on (length pre) w) by (rewrite E; by apply list_lookup_middle).
  replace (Z.succ (zlen pre)) with (zlen (pre ++ [w])) by (rewrite zlen_app; change (zlen [w]) with 1; lia).
  replace (Z.pred (zlen suf + 1)) with (zlen suf) by lia. etransitivity; [apply IH; by rewrite <- app_assoc |].
  cbn [arg_lines]. rewrite zlen_app. change (zlen [w]) with 1. done.
Qed.

(** the example program does what its source says.  In a process whose
    string literals and arguments lie in readable memory, the program of
    file.c sets its colours and prints the banner, the number of arguments
    and each argument on a line, and then waits for a key; nothing but the
    screen changes. *)
Theorem file_program_prints :
  start_output intr hlt fuel literal m = Some (set_terminal (Commands.emit (hello_screen ws) (terminal m)) m).
Proof using running linked arguments.
  unfold start_output, println_lit, print_lit.
  replace m with (shows (terminal m)) at 1 by (by destruct m). generalize (terminal m). intros t.
  pose proof linked as Hl. unfold literals in Hl. rewrite !Forall_cons in Hl. destruct Hl as (S1 & S2 & S3 & _ & _ & S4 & _).
  pose proof arguments as (Hc & H16 & _). pose proof (zlen_nonneg ws) as Hw.
  unfold hello_screen, Commands.sayln, line. revert S1 S2 S3 S4.
  generalize (txt "================================="), (txt "  Hello from C Program!"), (txt "Arguments: "), (txt "Press any key to exit...").
  intros s1 s2 s3 s4 S1 S2 S3 S4. rewrite color_on by lia. rewrite some_bind. rewrite (println_on _ s1) by exact S1. rewrite some_bind.
  rewrite (println_on _ s2) by exact S2. rewrite some_bind. rewrite (println_on _ s1) by exact S1. rewrite some_bind.
  rewrite load_on, Hc, color_on by lia. rewrite some_bind. rewrite (print_on _ s3) by exact S3. rewrite some_bind.
  rewrite putchar_on by lia. rewrite some_bind. rewrite putchar_on by lia. rewrite some_bind.
  rewrite (args_on [] ws _ eq_refl). change (zlen []) with 0. rewrite some_bind. rewrite color_on by lia. rewrite some_bind.
  rewrite (println_on _ s4) by exact S4. rewrite !emit_app, !emit_color, !emit_str, !emit_color, !emit_str, !emit_nil, (write_app s3), write_two. reflexivity.
Qed.
End Program.

(** ** Witnesses *)
(** A process in slot 1 with its argument page mapped; the string literals
    lie in the same page, from 0x91800 on. *)
Definition arg_page_mem (bytes : list Z) : pmem := pmemcpy_from (one_page USER_ARGV_BASE 0x9000) 0x9000 bytes.
Definition arg_kern (bytes : list Z) : kern :=
  Kern ((replicate 16 zero_proc).[1 <- Proc 3 PROC_RUNNING (replicate 32 0) 0 0 0 0x1000 true 0 false 0 0 (replicate 256 0) 0])
    (Some 1) 4 true 0 5 0 3 (Vmm (arg_page_mem bytes) demo_state 0x1000 0 0x1000 false) [].
Definition demo_cmd : list Z := txt "hello  a bc ".
Lemma arg_tables bytes : has_tables (arg_page_mem bytes) USER_ARGV_BASE 0x9000.
Proof. intros x Hx. unfold arg_page_mem, pmemcpy_from. by replace (0x9000 <=? x) with false by lia. Qed.
Lemma arg_frame : frame_ok 0x9000.
Proof. split; [lia |]. split_and!; vm_compute; reflexivity. Qed.
Lemma args_reach_program_witness :
  ∃ m', process_setup_user_args 1 demo_cmd (arg_kern []) = Some (0, LoaderProps.with_mem (arg_kern []) m') ∧
    ao_argc (λ a, vload m' 0x1000 (u64 a)) = 3.
Proof.
  destruct (args_reach_program 1 demo_cmd (arg_kern [])) as (m' & E & [Hc _ _ _]).
  - vm_compute. discriminate.
  - refine (proj1 (one_page_range _ USER_ARGV_BASE 0x9000 4096 (arg_tables []) arg_frame _ _ _ _)); [done | done | done | done].
  - exists m'. split; [exact E | exact Hc].
Defined.
Lemma ao_itoa_correct_witness : ∃ s', ao_itoa (-42) (replicate 12 7) = Some s' ∧ decimal (CString.cstr s') = -42.
Proof. destruct (ao_itoa_correct (-42) (replicate 12 7)) as (s' & E & _ & D); [lia | by vm_compute |]. by exists s'. Defined.

Definition demo_ws : list (list Z) := [txt "hello"; txt "a"].
Definition demo_page : list Z :=
  take 2048 (arg_block 2 demo_ws) ++ (literals ≫= (λ s, s ++ replicate (64 - length s) 0)).
Definition demo_literal (s : list Z) : Z :=
  0x91800 + 64 * match list_find (λ x, x = s) literals with Some (i, _) => Z.of_nat i | None => 0 end.
Definition demo_program : machine unit (Fs.fs_state unit NetProps.ne2000) := set_kernel (arg_kern demo_page) Handles.demo_machine.
Lemma demo_string a s :
  USER_ARGV_BASE ≤ a → a + zlen s < USER_ARGV_BASE + 4096 → Forall (λ c, c ≠ 0) s →
  take (length s + 1) (drop (Z.to_nat (a - USER_ARGV_BASE)) demo_page) = s ++ [0] → string_at 1 demo_program a s.
Proof.
  unfold USER_ARGV_BASE. intros H1 H2 Hc E. pose proof (zlen_nonneg s) as Hs.
  assert (∀ x, 0 ≤ x ≤ zlen s → in_page USER_ARGV_BASE (u64 (a + x)) = true ∧ u64 (a + x) mod 4096 = a + x - 0x91000) as Hin.
  { intros x Hx. rewrite u64_small by lia. split; [| zdm]. replace (a + x) with (USER_ARGV_BASE + (a + x - USER_ARGV_BASE)) by lia.
    apply in_page_offset; [done | unfold USER_ARGV_BASE; lia]. }
  assert (zlen demo_page < 4096) as Hl by (by vm_compute).
  constructor; [lia | unfold SYSCALL_MAX_STR; lia | done | |].
  - intros x Hx. destruct (Hin x Hx) as [Hi _]. change (SyscallProps.space 1 demo_program) with 0x1000.
    change (SyscallProps.mem_of demo_program) with (arg_page_mem demo_page). by rewrite (proj2 (one_walk _ _ _ _ (arg_tables demo_page) arg_frame)).
  - intros x Hx. destruct (Hin x Hx) as [Hi Ho].
    change (load_byte demo_program (a + x)) with (vload (arg_page_mem demo_page) 0x1000 (u64 (a + x))). unfold vload.
    rewrite (proj1 (one_walk _ _ _ _ (arg_tables demo_page) arg_frame)), Hi, Ho.
    assert (zlen (s ++ [0]) ≤ zlen demo_page - (a - 0x91000)) as Hd.
    { rewrite <- E. unfold zlen. rewrite length_take, length_drop. apply (f_equal length) in E. rewrite length_take, length_drop, length_app in E. cbn [length] in E. lia. }
    rewrite zlen_app in Hd. change (zlen [0]) with 1 in Hd. unfold arg_page_mem, pmemcpy_from.
    replace ((0x9000 <=? 0x9000 + (a + x - 0x91000)) && _) with true by lia. rewrite <- E, aget_take by (unfold zlen in *; lia).
    rewrite aget_drop by lia. f_equal. lia.
Qed.
#[local] Instance no_port : PortIO unit := {|
  inb := λ _ d, (0, d); inw := λ _ d, (0, d); outb := λ _ _ d, d; outw := λ _ _ d, d |}.
Lemma file_program_prints_witness :
  start_output id id 0 demo_literal demo_program =
  Some (set_terminal (Commands.emit (hello_screen demo_ws) (terminal demo_program)) demo_program).
Proof.
  apply (file_program_prints id id 0 demo_literal 1 demo_program demo_ws).
  - by repeat split.
  - unfold literals. repeat (constructor; [apply demo_string; [by vm_compute | by vm_compute | by repeat constructor | by vm_compute] |]). constructor.
  - split; [by vm_compute |]. split; [by vm_compute |]. intros [| [| j]] w Hj; [| | done]; injection Hj as <-.
    all: apply demo_string; [by vm_compute | by vm_compute | by repeat constructor | by vm_compute].
Defined.
End UserProps.
