(* ===== verification/AobTool.v ===== *)
(** * The AOB compiler (tools/aobcompile.c)

    The host program that wraps machine code in an AOB header, as a function
    of its arguments and of what the host's calls return.  The theorem closes
    the circle with kernel/aob/aob.c: what the tool writes, [aob_load] takes. *)
From S2P Require Import Prelude.
From S2P Require Import Text.
From S2P Require Import PhysMem.
From S2P Require Import Vmm.
From S2P Require Import Ata.
From S2P Require Import Process.
From S2P Require Import Fat.
From S2P Require Import Syscall.
From S2P Require Import NetProps.
From S2P Require Import Fs.
From S2P Require Import Handles.
From S2P Require Import Loader.
From S2P Require Import LoaderProps.
Import Vmm Process Syscall Loader LoaderProps.
Import (hints) Fs NetProps Handles.

Module AobTool.
Definition MAX_AOB : Z := 16384.
(** What the calls of the host do: the contents of the input file, or [None]
    when it cannot be opened; whether [malloc], [fread], the [fopen] of the
    output and the two [fwrite]s succeed. *)
Record host := Host {
  input : option (list Z); malloc_ok : bool; read_ok : bool; create_ok : bool; header_ok : bool; code_ok : bool
}.
(** [header.name], after [memset], [strncpy] and the final NUL; the name is
    the characters of the argument. *)
Definition header_name (program_name : list Z) : list Z :=
  let n := take 31 program_name in n ++ replicate (32 - length n) 0.
(** The 72 bytes of the packed structure. *)
Definition header_bytes (code_size : Z) (program_name : list Z) : list Z :=
  le_bytes 4 AOB_MAGIC ++ le_bytes 2 AOB_VERSION ++ le_bytes 2 0 ++ le_bytes 4 0 ++ le_bytes 4 code_size ++ le_bytes 4 0 ++ le_bytes 4 0 ++
  header_name program_name ++ replicate 16 0.
(** The exit code and what has been written to the output file, [None] when
    it was not created.  [args] are the arguments after the program's name. *)
Definition main (args : list (list Z)) (h : host) : Z * option (list Z) :=
  match args with
  | _ :: output_file :: rest =>
      let program_name := match rest with n :: _ => n | [] => output_file end in
      match input h with
      | None => (1, None)
      | Some code =>
          let code_size := zlen code in
          if code_size <=? 0 then (1, None) else
          if MAX_AOB - AOB_HEADER_SIZE <? code_size then (1, None) else
          if negb (malloc_ok h) then (1, None) else
          if negb (read_ok h) then (1, None) else
          let header := header_bytes code_size program_name in
          if negb (create_ok h) then (1, None) else
          if negb (header_ok h) then (1, Some []) else
          if negb (code_ok h) then (1, Some header) else
          (0, Some (header ++ code))
      end
  | _ => (1, None)
  end.

(** ** Properties *)
Lemma header_name_length n : length (header_name n) = 32%nat.
Proof. unfold header_name. rewrite length_app, length_replicate, length_take. lia. Qed.
Lemma header_length size n : length (header_bytes size n) = 72%nat.
Proof. unfold header_bytes. rewrite !length_app, !length_le_bytes, header_name_length. done. Qed.
Lemma main_output args h out :
  main args h = (0, Some out) →
  ∃ code name, input h = Some code ∧ 0 < zlen code ≤ MAX_AOB - AOB_HEADER_SIZE ∧ out = header_bytes (zlen code) name ++ code.
Proof.
  unfold main. destruct args as [| a [| o rest]]; [done | done |]. destruct (input h) as [code |]; [| done].
  destruct (Z.leb_spec (zlen code) 0); [done |]. destruct (Z.ltb_spec (MAX_AOB - AOB_HEADER_SIZE) (zlen code)); [done |].
  destruct (malloc_ok h), (read_ok h), (create_ok h), (header_ok h), (code_ok h); try done. intros [= <-]. by eexists _, _.
Qed.
(** The fields of the header, where [aob_load] reads them. *)
Lemma header_fields code n : 0 < zlen code ≤ MAX_AOB - AOB_HEADER_SIZE →
  let buf := header_bytes (zlen code) n ++ code in
  zlen buf = 72 + zlen code ∧ le_read 4 (aget buf) 0 = AOB_MAGIC ∧ le_read 2 (aget buf) 4 = AOB_VERSION ∧ le_read 4 (aget buf) 8 = 0 ∧
  le_read 4 (aget buf) 12 = zlen code ∧ take 32 (drop 24 buf) = header_name n ∧ drop 72 buf = code.
Proof.
  unfold MAX_AOB, AOB_HEADER_SIZE. intros Hc. cbv zeta. set (buf := header_bytes (zlen code) n ++ code).
  assert (zlen buf = 72 + zlen code) as Hl by (unfold buf, zlen; rewrite length_app, header_length; lia).
  assert (drop 72 buf = code) as Hd by (unfold buf; apply drop_app_length'; by rewrite header_length).
  assert (∀ k pre v post, header_bytes (zlen code) n = pre ++ le_bytes k v ++ post → le_read k (aget buf) (zlen pre) = v mod 256 ^ Z.of_nat k) as R.
  { intros k pre v post E. unfold buf. rewrite E, <- !app_assoc. apply le_read_app. }
  split_and!; try done.
  - etransitivity; [exact (R 4%nat (le_bytes 4 AOB_MAGIC ++ le_bytes 2 AOB_VERSION ++ le_bytes 2 0 ++ le_bytes 4 0) (zlen code) _ eq_refl) |].
    apply Z.mod_small. change (256 ^ Z.of_nat 4) with 4294967296. lia.
  - change (drop 24 buf) with ((header_name n ++ replicate 16 0) ++ code). rewrite <- app_assoc. apply take_app_length'. by rewrite header_name_length.
Qed.

Section Load.
Context {F : Type} `{FileReaderLaws F}.
(** C23: what the compiler writes, the loader takes.  When the tool exits with
    0 and the file it wrote is read by the kernel, [aob_load] returns 0 and
    the context describes the program: the bytes of the input file lie at
    the code pointer, their number is the code size, and the entry point is
    the first of them; a tool that fails exits with 1. *)
Theorem aob_roundtrip args h out aob_buffer name ctx k (f f' : F) r :
  main args h = (0, Some out) → fr_ok f → zlen (processes k) = MAX_PROCESSES →
  file_read (processes k) name AOB_BUFFER_SIZE f = (Fat.Val r, f') → Fat.rr_rc r = 0 → Fat.rr_buf r = out →
  ∃ code n k', input h = Some code ∧
    aob_load aob_buffer name ctx k f = Some (0, AobContext (aob_buffer + 72) (zlen code) 0 (header_name n), k', f') ∧
    bytes_at (mem (vmm k')) (aob_buffer + 72) (zlen code) = code ∧ 0 < zlen code.
Proof.
  intros Hm Hf Hp Hr Hrc Hb. destruct (main_output _ _ _ Hm) as (code & n & Hi & Hc & ->).
  destruct (header_fields code n Hc) as (Hl & F0 & F1 & F2 & F3 & F4 & F5). cbv zeta in *.
  set (buf := header_bytes (zlen code) n ++ code) in *. exists code, n, (loaded k aob_buffer buf).
  pose proof (fr_bounded _ _ _ _ _ _ Hf (eq_refl : 0 < AOB_BUFFER_SIZE) Hp Hr) as (_ & _ & Hsz). specialize (Hsz Hrc). rewrite Hb in Hsz.
  assert (aob_load aob_buffer name ctx k f = Some (0, AobContext (aob_buffer + 72) (zlen code) 0 (header_name n), loaded k aob_buffer buf, f')) as E.
  { destruct (aob_load aob_buffer name ctx k f) as [[[[x ctx'] k'] f1] |] eqn:E.
    - destruct (aob_load_correct _ _ _ _ _ _ _ _ _ Hf Hp E) as (r' & Hr' & -> & Hcase). rewrite Hr in Hr'. injection Hr' as <- <-. rewrite Hb in Hcase |- *.
      destruct Hcase as [(_ & _ & -> & _ & ->) | (Hno & _)]; [by rewrite F2, F3, F4 |].
      exfalso. apply Hno. split; [done |]. unfold aob_valid, AOB_HEADER_SIZE. rewrite F0, F1, F3, Hl. split_and!; (done || lia).
    - exfalso. revert E. unfold aob_load, read_into. rewrite Hr. cbn [mbind option_bind]. rewrite Hrc, Hsz. cbn [Z.eqb negb mbind option_bind].
      repeat (case_match; [done |]). done. }
  split_and!; [done | done | | lia]. change (mem (vmm (loaded k aob_buffer buf))) with (pmemcpy_from (mem (vmm k)) aob_buffer buf).
  rewrite loaded_bytes by lia. rewrite (F5 : drop (Z.to_nat 72) buf = code). unfold zlen. rewrite Nat2Z.id. apply firstn_all.
Qed.
End Load.

(** ** Witness *)
Definition demo_args : list (list Z) := [txt "x.bin"; txt "x.aob"].
Definition demo_host : host := Host (Some [0x90; 0xC3]) true true true true true.
Definition demo_out : list Z := header_bytes 2 (txt "x.aob") ++ [0x90; 0xC3].
Definition demo_disk : Fs.fs_state unit NetProps.ne2000 := (Fs.fs_create [97] demo_out 74 Fs.demo_fs).2.
Lemma demo_disk_ok : Handles.no_fat demo_disk.
Proof. apply create_no_fat; [apply Handles.demo_no_fat | by vm_compute..]. Qed.
Lemma aob_roundtrip_witness :
  ∃ n k f', aob_load 0x20000 [97] (AobContext 0 0 0 []) demo_kern demo_disk = Some (0, AobContext 0x20048 2 0 (header_name n), k, f').
Proof.
  destruct (aob_roundtrip demo_args demo_host demo_out 0x20000 [97] (AobContext 0 0 0 []) demo_kern demo_disk
    (file_read (processes demo_kern) [97] AOB_BUFFER_SIZE demo_disk).2
    (Fat.ReadResult 0 (Some 74) demo_out)) as (code & n & k' & Hi & E & _ & _).
  - reflexivity.
  - exact demo_disk_ok.
  - reflexivity.
  - etransitivity; [apply surjective_pairing |]. apply (f_equal2 pair); [vm_compute; reflexivity | reflexivity].
  - reflexivity.
  - reflexivity.
  - injection Hi as <-. eexists n, k', _. exact E.
Defined.
End AobTool.
