(* ===== verification/Boot.v ===== *)
(** * Start-up (kernel/kernel.c)

    [kernel_main] as the composition of the initialisation functions of the
    components, in the order of the source, up to the loop of the shell.  The
    state [os] is the machine of Syscall.v with what the other components
    keep; it starts as the loader leaves it, with zeroed variables.  The
    display, the serial port and the timer chip are behind the terminal's
    device, the interrupt controllers and the PCI bus behind the network
    card's.  The disk is the driver of Ata.v, with its own device; the FAT
    driver reaches it through the cache of BlockCache.v, the installer
    directly.  While the kernel waits, the timer interrupts; the messages of
    [kernel_main] itself are written, those of the components are left out. *)
From S2P Require Import Prelude.
From S2P Require Import Text.
From S2P Require Import PhysMem.
From S2P Require Import Pmm.
From S2P Require Import Vmm.
From S2P Require Import CString.
From S2P Require Import Ata.
From S2P Require Import BlockDev.
From S2P Require Import BlockCache.
From S2P Require Import Heap.
From S2P Require Import Fat.
From S2P Require Import Ramfs.
From S2P Require Import Fdtab.
From S2P Require Import Process.
From S2P Require Import Sched.
From S2P Require Import System.
From S2P Require Import Keyboard.
From S2P Require Import Terminal.
From S2P Require Import Clock.
From S2P Require Import Pci.
From S2P Require Import Net.
From S2P Require Import NetSafe.
From S2P Require Import NetProps.
From S2P Require Import Vfs.
From S2P Require Import Fs.
From S2P Require Import Syscall.
From S2P Require Import SyscallProps.
From S2P Require Import Handles.
From S2P Require Import Shell.
From S2P Require Import ShellProps.
From S2P Require Import Cpu.
From S2P Require Import Installer.
From S2P Require Import Commands.
From S2P Require Import Interrupts.
Import Ata BlockDev.
Import (hints) BlockCache Keyboard Terminal Net Fdtab NetProps Fs Interrupts.

Module Boot.
(** ** The disk *)
(** The ATA driver is the disk of the block cache and of the installer. *)
Section Disk.
Context {dhw : Type} `{PortIO dhw} `{IrqFlag dhw}.
#[export] Instance ata_disk : Disk (Ata.ata_state dhw) := {|
  disk_read := Ata.ata_read_sector; disk_write := Ata.ata_write_sector;
  disk_select := Ata.ata_select_drive; disk_available := Ata.ata_is_available |}.
#[export] Instance ata_block_dev : BlockDev (Ata.ata_state dhw) := {|
  bd_read := Ata.ata_read_sector; bd_write := Ata.ata_write_sector;
  bd_select := Ata.ata_select_drive; bd_available := Ata.ata_is_available |}.
#[export] Instance ata_sized : Installer.SizedDisk (Ata.ata_state dhw) := {| Installer.disk_sectors := Ata.ata_get_sector_count |}.
End Disk.

Definition TIMER_HZ : Z := 100.
Definition BOOT_FLAG_ADDR : Z := 0x7000.
Definition BOOT_FLAG_REINSTALL : Z := 0x01.

(** The addresses that the linker and the assembly files fix. *)
Record addresses := Addresses {
  tss : Z; gdt_tss_entry : Z; stack_top : Z; ist1_end : Z; kernel_start : Z; kernel_end : Z;
  isr : Z → Z; irq : Z → Z; syscall_handler : Z
}.

Section Kernel.
Context {hw : Type} `{PortIO hw} {dhw : Type} `{PortIO dhw} `{IrqFlag dhw} {nhw : Type} `{Net.NetEnv nhw} `{!Pci.Port32 nhw}.
#[local] Abbreviation D := (Ata.ata_state dhw).
#[local] Abbreviation B := (BlockCache.cache_state D).
#[local] Abbreviation machine := (Syscall.machine hw (Fs.fs_state B nhw)).

Record os := Os {
  mach : machine;
  serial_initialized : bool;
  cpu : Cpu.cpu_info_t;
  idt : list Interrupts.idt_entry_t;
  heap : Heap.heap_state;
  devices : list Pci.pci_device_t;
  sector_buffer : list Z;
  selected_fs : Installer.installer_fs_t;
  layout : Installer.layout
}.
Definition with_mach (f : machine → machine) (s : os) : os :=
  Os (f (mach s)) (serial_initialized s) (cpu s) (idt s) (heap s) (devices s) (sector_buffer s) (selected_fs s) (layout s).
Definition with_kernel (f : Process.kern → Process.kern) : os → os := with_mach (λ m, Syscall.set_kernel (f (Syscall.kernel m)) m).
Definition with_vmm (f : Vmm.vmm_state → Vmm.vmm_state) : os → os := with_kernel (λ k, Process.set_vmm k (f (Process.vmm k))).
Definition with_terminal (f : Terminal.term → Terminal.term) : os → os := with_mach (λ m, Syscall.set_terminal (f (Syscall.terminal m)) m).
Definition with_world (f : Fs.world B nhw → Fs.world B nhw) : os → os :=
  with_mach (λ m, Syscall.set_files (Fs.FsState (Fs.vfs (Syscall.files m)) (f (Fs.fsw (Syscall.files m)))) m).
Definition net_of (s : os) : Net.net_state (hw := nhw) := Fs.w_net (Fs.fsw (Syscall.files (mach s))).
Definition set_net (n : Net.net_state (hw := nhw)) : os → os :=
  with_world (λ w, Fs.World (Fs.w_fat w) (Fs.w_ram w) (Fs.w_procs w) n (Fs.fat_ops_name w)).

(** The driver's variables, below the cache. *)
Definition ata_of (b : B) : D := BlockCache.disk b.
Definition set_ata (t : D) (b : B) : B := BlockCache.CacheState (BlockCache.cache b) (BlockCache.clock_tick b) t.

Context (key_irq : Installer.installer D hw → Installer.installer D hw).
Context (a : addresses) (cpuid : Z → Cpu.regs) (fuel : Z).

(** ** The steps *)
Definition klog_info (message : String.string) (s : os) : option os :=
  t ← Terminal.klog_info fuel (txt message ++ [0]) (Syscall.terminal (mach s)); Some (with_terminal (λ _, t) s).
Arguments klog_info _%_string_scope.
(** An interrupt of the timer ends [hlt]. *)
Definition tick (k : Process.kern) : Process.kern := (Process.schedule_tick 0 k).2.
Definition wait (ticks : Z) (s : os) : option os :=
  k ← Commands.timer_wait tick fuel ticks (Syscall.kernel (mach s)); Some (with_kernel (λ _, k) s).

Definition start_display (s : os) : os :=
  let s := with_terminal Terminal.terminal_initialize s in
  let s := with_terminal (λ t, Terminal.set_tdev t (Terminal.serial_init (Terminal.term_dev t))) s in
  Os (mach s) true (cpu s) (idt s) (heap s) (devices s) (sector_buffer s) (selected_fs s) (layout s).
Definition serial_is_initialized (s : os) : bool := serial_initialized s.
Definition detect_cpu (s : os) : os :=
  Os (mach s) (serial_initialized s) (Cpu.cpu_detect cpuid) (idt s) (heap s) (devices s) (sector_buffer s) (selected_fs s) (layout s).
(** The field [tss_rsp0] of Process.v is the word at offset 4 of the segment. *)
Definition init_gdt (s : os) : os :=
  with_kernel (Process.tss_set_rsp0 (stack_top a))
    (with_vmm (λ v, Vmm.set_mem v (Interrupts.gdt_init (tss a) (gdt_tss_entry a) (stack_top a) (ist1_end a) (Vmm.mem v))) s).
Definition init_idt (s : os) : os :=
  let '(t, d) := Interrupts.idt_init (isr a) (irq a) (syscall_handler a) (Net.dev (net_of s)) in
  let s := set_net (Net.set_dev d (net_of s)) s in
  Os (mach s) (serial_initialized s) (cpu s) t (heap s) (devices s) (sector_buffer s) (selected_fs s) (layout s).
Definition init_timer (s : os) : option os :=
  '(ticks, d) ← Clock.timer_init TIMER_HZ (Terminal.term_dev (Syscall.terminal (mach s)));
  Some (with_kernel (λ k, Process.set_system_ticks k ticks) (with_terminal (λ t, Terminal.set_tdev t d) s)).
Definition init_pmm : os → os :=
  with_vmm (λ v, Vmm.set_pmm v (Pmm.pmm_init (Vmm.mem v) (kernel_start a) (kernel_end a) (Vmm.pmm v))).
Definition init_heap (s : os) : os :=
  let v := Process.vmm (Syscall.kernel (mach s)) in
  let '(h, p) := Heap.memory_init (kernel_end a) (Vmm.mem v) (Vmm.pmm v) in
  let s := with_vmm (λ v, Vmm.set_pmm (Vmm.set_mem v (Heap.hmem h)) p) s in
  Os (mach s) (serial_initialized s) (cpu s) (idt s) h (devices s) (sector_buffer s) (selected_fs s) (layout s).
Definition init_processes (s : os) : option os :=
  '(_, k) ← Process.process_init (stack_top a) (Syscall.kernel (mach s)); Some (with_kernel (λ _, k) s).
Definition with_ata (f : D → D) : os → os :=
  with_world (λ w, let b := Fat.dev (Fs.w_fat w) in Fs.set_fat (Fat.set_dev (Fs.w_fat w) (set_ata (f (ata_of b)) b)) w).
Definition init_disk : os → os := with_ata Ata.ata_init.
Definition init_pci (s : os) : os :=
  let '(l, d) := Pci.pci_init (Net.dev (net_of s)) in
  let s := set_net (Net.set_dev d (net_of s)) s in
  Os (mach s) (serial_initialized s) (cpu s) (idt s) (heap s) l (sector_buffer s) (selected_fs s) (layout s).
Definition init_net (s : os) : option os :=
  '(_, n) ← Net.net_init Interrupts.idt_unmask_irq (devices s) (net_of s); Some (set_net n s).
Definition init_files : os → os := with_mach (λ m, Syscall.set_files (Fs.fs_init BlockCache.block_cache_init (Syscall.files m)) m).
Definition init_keyboard (s : os) : option os :=
  k ← Keyboard.keyboard_init fuel (Syscall.keyboard (mach s)); Some (with_mach (Syscall.set_keyboard k) s).

(** ** [kernel_main] *)
Definition kernel_init (s : os) : option os :=
  s ← klog_info "AO OS Kernel starting..." (start_display s);
  s ← klog_info "Detecting CPU..." s;
  s ← klog_info "Initializing GDT and TSS..." (detect_cpu s);
  s ← klog_info "Initializing IDT..." (init_gdt s);
  let s := with_mach Syscall.syscall_init (init_idt s) in
  s ← klog_info "Initializing PIT timer..." s;
  s ← init_timer s; s ← wait 30 s;
  s ← klog_info "Initializing physical memory manager..." s;
  s ← wait 20 (init_pmm s);
  s ← klog_info "Initializing virtual memory manager..." s;
  s ← wait 20 (with_vmm (Vmm.vmm_init (Cpu.ext_features (cpu s))) s);
  s ← klog_info "Initializing kernel heap..." s;
  s ← wait 20 (init_heap s);
  s ← klog_info "Initializing process subsystem..." s;
  s ← init_processes s; s ← wait 10 s;
  s ← klog_info "Initializing ATA disk driver..." s;
  s ← wait 30 (init_disk s);
  s ← klog_info "Scanning PCI bus..." s;
  s ← wait 10 (init_pci s);
  s ← klog_info "Initializing network stack..." s;
  s ← init_net s; s ← wait 10 s;
  s ← klog_info "Initializing filesystem..." s;
  s ← wait 30 (init_files s);
  s ← klog_info "Initializing keyboard driver..." s;
  s ← init_keyboard s; s ← wait 30 s;
  s ← klog_info "Kernel initialization complete!" s;
  s ← wait 50 s;
  Some (with_terminal (Terminal.terminal_write [10]) s).

Definition reinstall (s : os) : option (Z * os) :=
  let m := mach s in let w := Fs.fsw (Syscall.files m) in
  '(r, i) ← Installer.installer_run fuel key_irq
    (Installer.Inst (sector_buffer s) (selected_fs s) (layout s) (ata_of (Fat.dev (Fs.w_fat w))) (Syscall.terminal m) (Syscall.keyboard m));
  let s := with_ata (λ _, Installer.disk i) s in
  let s := with_mach (λ m, Syscall.set_keyboard (Installer.keyboard i) (Syscall.set_terminal (Installer.term i) m)) s in
  Some (r, Os (mach s) (serial_initialized s) (cpu s) (idt s) (heap s) (devices s) (Installer.sector_buffer i) (Installer.selected_fs i) (Installer.vars i)).
(** The static variables of shell.c. *)
Definition shell_bss (m : machine) : Shell.shell hw (Fs.fs_state B nhw) :=
  Shell.Sh (replicate (Z.to_nat Shell.MAX_COMMAND_LENGTH) 0) 0
    (replicate (Z.to_nat Shell.HISTORY_SIZE) (replicate (Z.to_nat Shell.MAX_COMMAND_LENGTH) 0)) 0 0 false 0 m.
(** The shell at its first prompt, or the machine that a successful
    installation restarts. *)
Definition kernel_main (s : os) : option ((os * Shell.shell hw (Fs.fs_state B nhw)) + os) :=
  s ← kernel_init s;
  let boot_flag := Vmm.mem (Process.vmm (Syscall.kernel (mach s))) BOOT_FLAG_ADDR in
  '(rebooting, s) ← (if boot_flag =? BOOT_FLAG_REINSTALL then
      s ← klog_info "Reinstall requested by bootloader" s;
      '(r, s) ← reinstall s; Some (r =? Installer.INSTALLER_OK, s)
    else Some (false, s));
  if (rebooting : bool) then Some (inr s) else
  let s := with_kernel Process.scheduler_start s in
  Some (inl (s, Shell.shell_init (shell_bss (mach s)))).

(** ** What start-up establishes *)
(** The kernel before the scheduler runs: no process, or the kernel process. *)
Definition kern_at (up : bool) (ticks rsp0 : Z) (v : Vmm.vmm_state) (f : Fdtab.fd_table) : Process.kern :=
  Process.Kern (if up then System.kernel_proc (stack_top a) v :: replicate 15 Process.zero_proc else replicate 16 Process.zero_proc)
    (if up then Some 0 else None) 1 false 0 Process.TIME_QUANTUM ticks rsp0 v f.
(** The state without the screen. *)
Record view := View {
  up : bool; ticks : Z; rsp0 : Z; vm : Vmm.vmm_state; fdt : Fdtab.fd_table; v_heap : Heap.heap_state;
  v_idt : list Interrupts.idt_entry_t; v_cpu : Cpu.cpu_info_t; v_devices : list Pci.pci_device_t; v_files : Fs.fs_state B nhw;
  v_kb : Keyboard.kb_state (hw := hw); v_serial : bool
}.
Record at_stage (s : os) (d : view) : Prop := AtStage {
  as_kernel : Syscall.kernel (mach s) = kern_at (up d) (ticks d) (rsp0 d) (vm d) (fdt d);
  as_heap : heap s = v_heap d;
  as_idt : idt s = v_idt d;
  as_cpu : cpu s = v_cpu d;
  as_devices : devices s = v_devices d;
  as_files : Syscall.files (mach s) = v_files d;
  as_kb : Syscall.keyboard (mach s) = v_kb d;
  as_serial : serial_is_initialized s = v_serial d;
  as_term : Terminal.term_ok (Syscall.terminal (mach s))
}.
Definition runs_to (o : option os) (d : view) : Prop := ∃ s, o = Some s ∧ at_stage s d.
Lemma boot_bind o f d d' : runs_to o d → (∀ s, at_stage s d → runs_to (f s) d') → runs_to (o ≫= f) d'.
Proof. intros (s & -> & Hs) Hf. by apply Hf. Qed.
Lemma tick_at u t r v f : tick (kern_at u t r v f) = kern_at u (u32 (t + 1)) r v f.
Proof. destruct u; reflexivity. Qed.

Context `{!Interrupts.SerialLine hw}.
Hypothesis enough : Interrupts.busy_max < fuel ∧ 50 < fuel.

Lemma writestring_ok str t : Terminal.term_ok t → ∃ t', Terminal.terminal_writestring (str ++ [0]) t = Some t' ∧ Terminal.term_ok (hw := hw) t'.
Proof.
  intros Ht. unfold Terminal.terminal_writestring. rewrite CString.strlen_cstr by (apply elem_of_app; right; by left).
  rewrite some_bind. eexists. split; [done |]. generalize (take (Z.to_nat (zlen (CString.cstr (str ++ [0])))) (str ++ [0])).
  intros s. revert t Ht. induction s as [| c s IH]; intros t Ht; [done |]. cbn [Terminal.terminal_write foldl]. apply IH, (Terminal.texec_ok (Terminal.TPut c) t Ht).
Qed.
Lemma setcolor_ok c t : Terminal.term_ok t → Terminal.term_ok (hw := hw) (Terminal.terminal_setcolor c t).
Proof. intros Ht. apply (Terminal.texec_ok (Terminal.TColor c) t Ht). Qed.
Lemma set_tdev_ok d t : Terminal.term_ok t → Terminal.term_ok (hw := hw) (Terminal.set_tdev t d).
Proof. intros []. by split. Qed.
Lemma klog_ok msg t : Terminal.term_ok t → ∃ t', Terminal.klog fuel Terminal.LOG_INFO (msg ++ [0]) t = Some t' ∧ Terminal.term_ok (hw := hw) t'.
Proof.
  intros Ht. destruct enough as [Hf _]. unfold Terminal.klog. change [Terminal.NL; 0] with ([Terminal.NL] ++ [0]).
  assert (∃ l, Terminal.log_level_strings Terminal.LOG_INFO = l ++ [0]) as [l ->] by (by exists [91; 73; 78; 70; 79; 93; 32; 32]).
  generalize (Terminal.log_level_colors Terminal.LOG_INFO), (Terminal.vga_entry_color Terminal.VGA_COLOR_LIGHT_GREY Terminal.VGA_COLOR_BLACK). intros c1 c2.
  destruct (Interrupts.serial_writestring_spec fuel (l ++ [0]) (Terminal.term_dev t) Hf) as (d1 & -> & _). rewrite some_bind.
  destruct (Interrupts.serial_writestring_spec fuel (msg ++ [0]) d1 Hf) as (d2 & -> & _). rewrite some_bind.
  destruct (Interrupts.serial_writestring_spec fuel ([Terminal.NL] ++ [0]) d2 Hf) as (d3 & -> & _). rewrite some_bind.
  destruct (writestring_ok l _ (setcolor_ok c1 _ (set_tdev_ok d3 _ Ht))) as (t1 & -> & K1). rewrite some_bind.
  destruct (writestring_ok msg _ (setcolor_ok c2 _ K1)) as (t2 & -> & K2). rewrite some_bind.
  destruct (writestring_ok [Terminal.NL] _ K2) as (t3 & -> & K3). rewrite some_bind. eexists. split; [done | by apply setcolor_ok].
Qed.
Lemma klog_at msg s d : at_stage s d → runs_to (klog_info msg s) d.
Proof.
  intros []. unfold klog_info, Terminal.klog_info. destruct (klog_ok (txt msg) _ as_term0) as (t & -> & Ht). cbn [mbind option_bind].
  eexists. split; [done |]. by constructor.
Qed.
Arguments klog_at _%_string_scope.

Definition later (n : Z) (d : view) : view :=
  View (up d) (ticks d + n) (rsp0 d) (vm d) (fdt d) (v_heap d) (v_idt d) (v_cpu d) (v_devices d) (v_files d) (v_kb d) (v_serial d).
Lemma wait_loop u r v f n t m : 0 ≤ t → t + n < 2 ^ 32 → 0 ≤ n < m →
  iterZ m (λ k, if Process.timer_get_ticks k <? t + n then inl (tick k) else inr k) (kern_at u t r v f) = inr (kern_at u (t + n) r v f).
Proof.
  intros Ht Hs Hn. remember (Z.to_nat n) as j eqn:Ej. revert n t m Ht Hs Hn Ej. induction j as [| j IH]; intros n t m Ht Hs Hn Ej.
  all: rewrite iterZ_step by lia; change (Process.timer_get_ticks (kern_at u t r v f)) with t.
  - assert (n = 0) as -> by lia. by replace (t <? t + 0) with false by lia; rewrite Z.add_0_r.
  - replace (t <? t + n) with true by lia. rewrite tick_at. assert (u32 (t + 1) = t + 1) as -> by (unfold u32; rewrite Z.mod_small; lia).
    replace (t + n) with (t + 1 + (n - 1)) by lia. apply IH; lia.
Qed.
Lemma wait_at n s d : at_stage s d → 0 ≤ ticks d ≤ 1000 → 0 ≤ n ≤ 50 → runs_to (wait n s) (later n d).
Proof.
  intros [] Ht Hn. destruct enough as [_ Hf]. unfold wait, Commands.timer_wait. rewrite as_kernel0.
  change (Process.timer_get_ticks (kern_at (up d) (ticks d) (rsp0 d) (vm d) (fdt d))) with (ticks d).
  assert (u32 (ticks d + n) = ticks d + n) as -> by (unfold u32; rewrite Z.mod_small; lia).
  rewrite wait_loop by lia. cbn [mbind option_bind]. eexists. split; [done |]. by constructor.
Qed.

(** The steps on the view. *)
Definition on_vm (f : Vmm.vmm_state → Vmm.vmm_state) (d : view) : view :=
  View (up d) (ticks d) (rsp0 d) (f (vm d)) (fdt d) (v_heap d) (v_idt d) (v_cpu d) (v_devices d) (v_files d) (v_kb d) (v_serial d).
Definition on_files (f : Fs.fs_state B nhw → Fs.fs_state B nhw) (d : view) : view :=
  View (up d) (ticks d) (rsp0 d) (vm d) (fdt d) (v_heap d) (v_idt d) (v_cpu d) (v_devices d) (f (v_files d)) (v_kb d) (v_serial d).
Definition files_net (n : Net.net_state (hw := nhw)) (f : Fs.fs_state B nhw) : Fs.fs_state B nhw :=
  Fs.FsState (Fs.vfs f) (Fs.World (Fs.w_fat (Fs.fsw f)) (Fs.w_ram (Fs.fsw f)) (Fs.w_procs (Fs.fsw f)) n (Fs.fat_ops_name (Fs.fsw f))).
Definition v_net (d : view) : Net.net_state (hw := nhw) := Fs.w_net (Fs.fsw (v_files d)).
Definition with_serial (d : view) : view :=
  View (up d) (ticks d) (rsp0 d) (vm d) (fdt d) (v_heap d) (v_idt d) (v_cpu d) (v_devices d) (v_files d) (v_kb d) true.
Definition with_cpu (d : view) : view :=
  View (up d) (ticks d) (rsp0 d) (vm d) (fdt d) (v_heap d) (v_idt d) (Cpu.cpu_detect cpuid) (v_devices d) (v_files d) (v_kb d) (v_serial d).
Definition with_gdt (d : view) : view :=
  View (up d) (ticks d) (stack_top a)
    (Vmm.set_mem (vm d) (Interrupts.gdt_init (tss a) (gdt_tss_entry a) (stack_top a) (ist1_end a) (Vmm.mem (vm d)))) (fdt d)
    (v_heap d) (v_idt d) (v_cpu d) (v_devices d) (v_files d) (v_kb d) (v_serial d).
Definition with_idt (d : view) : view :=
  View (up d) (ticks d) (rsp0 d) (vm d) (fdt d) (v_heap d) (Interrupts.idt_table (isr a) (irq a) (syscall_handler a)) (v_cpu d) (v_devices d)
    (files_net (Net.set_dev (Interrupts.pic_remap (Net.dev (v_net d))) (v_net d)) (v_files d)) (v_kb d) (v_serial d).
Definition with_fds (d : view) : view :=
  View (up d) (ticks d) (rsp0 d) (vm d) (Fdtab.fd_table_init (fdt d)) (v_heap d) (v_idt d) (v_cpu d) (v_devices d) (v_files d) (v_kb d) (v_serial d).
Definition with_timer (d : view) : view :=
  View (up d) 0 (rsp0 d) (vm d) (fdt d) (v_heap d) (v_idt d) (v_cpu d) (v_devices d) (v_files d) (v_kb d) (v_serial d).
Definition with_heap (d : view) : view :=
  let r := Heap.memory_init (kernel_end a) (Vmm.mem (vm d)) (Vmm.pmm (vm d)) in
  View (up d) (ticks d) (rsp0 d) (Vmm.set_pmm (Vmm.set_mem (vm d) (Heap.hmem r.1)) r.2) (fdt d) r.1 (v_idt d) (v_cpu d) (v_devices d) (v_files d) (v_kb d) (v_serial d).
Definition with_process (d : view) : view :=
  View true (ticks d) (rsp0 d) (vm d) (fdt d) (v_heap d) (v_idt d) (v_cpu d) (v_devices d) (v_files d) (v_kb d) (v_serial d).
Definition with_pci (d : view) : view :=
  let r := Pci.pci_init (Net.dev (v_net d)) in
  View (up d) (ticks d) (rsp0 d) (vm d) (fdt d) (v_heap d) (v_idt d) (v_cpu d) r.1 (files_net (Net.set_dev r.2 (v_net d)) (v_files d)) (v_kb d) (v_serial d).
Definition with_kb (k : Keyboard.kb_state (hw := hw)) (d : view) : view :=
  View (up d) (ticks d) (rsp0 d) (vm d) (fdt d) (v_heap d) (v_idt d) (v_cpu d) (v_devices d) (v_files d) k (v_serial d).

Lemma display_at s d : at_stage s d → at_stage (start_display s) (with_serial d).
Proof.
  intros []. constructor; try done. cbn. by apply set_tdev_ok, Terminal.initialize_ok.
Qed.
Lemma cpu_at s d : at_stage s d → at_stage (detect_cpu s) (with_cpu d).
Proof. intros []. by constructor. Qed.
Lemma with_kernel_at f s d d' :
  at_stage s d → f (kern_at (up d) (ticks d) (rsp0 d) (vm d) (fdt d)) = kern_at (up d') (ticks d') (rsp0 d') (vm d') (fdt d') →
  v_heap d' = v_heap d → v_idt d' = v_idt d → v_cpu d' = v_cpu d → v_devices d' = v_devices d → v_files d' = v_files d → v_kb d' = v_kb d → v_serial d' = v_serial d →
  at_stage (with_kernel f s) d'.
Proof. intros [] Hf E1 E2 E3 E4 E5 E6 E7. unfold serial_is_initialized in *. constructor; cbn; congruence || done. Qed.
Lemma vmm_at f s d : up d = false → at_stage s d → at_stage (with_vmm f s) (on_vm f d).
Proof. intros Hu Hs. apply (with_kernel_at _ _ d); try done; cbn; by rewrite Hu. Qed.
Lemma gdt_at s d : up d = false → at_stage s d → at_stage (init_gdt s) (with_gdt d).
Proof.
  intros Hu Hs. pose proof (vmm_at (λ v, Vmm.set_mem v (Interrupts.gdt_init (tss a) (gdt_tss_entry a) (stack_top a) (ist1_end a) (Vmm.mem v))) s d Hu Hs) as H'.
  by apply (with_kernel_at _ _ _ (with_gdt d) H').
Qed.
Lemma set_net_at n s d : at_stage s d → at_stage (set_net n s) (on_files (files_net n) d).
Proof. intros []. constructor; try done. cbn. by rewrite as_files0. Qed.
Lemma net_at s d : at_stage s d → net_of s = v_net d.
Proof. intros []. unfold net_of, v_net. by rewrite as_files0. Qed.
Lemma idt_at s d : at_stage s d → at_stage (init_idt s) (with_idt d).
Proof.
  intros Hs. unfold init_idt. cbn [Interrupts.idt_init]. rewrite (net_at _ _ Hs).
  destruct (set_net_at (Net.set_dev (Interrupts.pic_remap (Net.dev (v_net d))) (v_net d)) s d Hs). by constructor.
Qed.
Lemma fds_at s d : at_stage s d → at_stage (with_mach Syscall.syscall_init s) (with_fds d).
Proof. intros []. constructor; try done. cbn. unfold Syscall.set_kernel. cbn. by rewrite as_kernel0. Qed.
Lemma timer_at s d : at_stage s d → runs_to (init_timer s) (with_timer d).
Proof.
  intros []. unfold init_timer, Clock.timer_init, Clock.timer_phase. cbn [TIMER_HZ Z.eqb]. rewrite !some_bind. eexists. split; [done |].
  constructor; try done; cbn; [by rewrite as_kernel0 | by apply set_tdev_ok].
Qed.
Lemma heap_at s d : up d = false → at_stage s d → at_stage (init_heap s) (with_heap d).
Proof.
  intros Hu Hs. unfold init_heap. rewrite (as_kernel _ _ Hs). cbn [Process.vmm kern_at]. unfold with_heap.
  destruct (Heap.memory_init _ _ _) as [h p]. cbn [fst snd]. destruct (vmm_at (λ v, Vmm.set_pmm (Vmm.set_mem v (Heap.hmem h)) p) s d Hu Hs). by constructor.
Qed.
Lemma process_at s d : up d = false → rsp0 d = stack_top a → at_stage s d → runs_to (init_processes s) (with_process d).
Proof.
  intros Hu Hr Hs. unfold init_processes. rewrite (as_kernel _ _ Hs), Hu, Hr.
  assert (Process.process_init (stack_top a) (kern_at false (ticks d) (stack_top a) (vm d) (fdt d)) =
    Some (tt, kern_at true (ticks d) (stack_top a) (vm d) (fdt d))) as -> by reflexivity. rewrite some_bind.
  eexists. split; [done |]. apply (with_kernel_at _ _ d); try done. cbn. by rewrite Hr.
Qed.
Definition files_disk (f : Fs.fs_state B nhw) : Fs.fs_state B nhw :=
  let b := Fat.dev (Fs.w_fat (Fs.fsw f)) in
  Fs.FsState (Fs.vfs f) (Fs.set_fat (Fat.set_dev (Fs.w_fat (Fs.fsw f)) (set_ata (Ata.ata_init (ata_of b)) b)) (Fs.fsw f)).
Lemma disk_at s d : at_stage s d → at_stage (init_disk s) (on_files files_disk d).
Proof. intros []. constructor; try done. cbn. by rewrite as_files0. Qed.
Lemma pci_at s d : at_stage s d → at_stage (init_pci s) (with_pci d).
Proof.
  intros Hs. unfold init_pci. rewrite (net_at _ _ Hs). unfold with_pci. destruct (Pci.pci_init _) as [l dv]. cbn [fst snd].
  destruct (set_net_at (Net.set_dev dv (v_net d)) s d Hs). by constructor.
Qed.
Lemma net_init_at s d n :
  Net.net_init Interrupts.idt_unmask_irq (v_devices d) (v_net d) = Some (tt, n) → at_stage s d → runs_to (init_net s) (on_files (files_net n) d).
Proof.
  intros E Hs. unfold init_net. rewrite (net_at _ _ Hs), (as_devices _ _ Hs), E, some_bind. eexists. split; [done |]. by apply set_net_at.
Qed.
Lemma files_at s d : at_stage s d → at_stage (init_files s) (on_files (Fs.fs_init BlockCache.block_cache_init) d).
Proof. intros []. constructor; try done. cbn. by rewrite as_files0. Qed.
Lemma keyboard_at s d k : Keyboard.keyboard_init fuel (v_kb d) = Some k → at_stage s d → runs_to (init_keyboard s) (with_kb k d).
Proof. intros E []. unfold init_keyboard. rewrite as_kb0, E, some_bind. eexists. split; [done |]. by constructor. Qed.
Lemma newline_at s d : at_stage s d → at_stage (with_terminal (Terminal.terminal_write [10]) s) d.
Proof. intros []. constructor; try done. exact (proj1 (Terminal.texec_ok (Terminal.TPut 10) _ as_term0)). Qed.

(** The view after the memory is set up, and after the devices are. *)
Definition memory_view (d : view) : view :=
  let d := with_timer (with_fds (with_idt (with_gdt (with_cpu (with_serial d))))) in
  let d := later 20 (on_vm (λ v, Vmm.set_pmm v (Pmm.pmm_init (Vmm.mem v) (kernel_start a) (kernel_end a) (Vmm.pmm v))) (later 30 d)) in
  later 20 (with_heap (later 20 (on_vm (Vmm.vmm_init (Cpu.ext_features (v_cpu d))) d))).
Definition bus_view (d : view) : view :=
  later 10 (with_pci (later 30 (on_files files_disk (later 10 (with_process d))))).
Definition device_view (n : Net.net_state (hw := nhw)) (k : Keyboard.kb_state (hw := hw)) (d : view) : view :=
  let d := on_files (Fs.fs_init BlockCache.block_cache_init) (later 10 (on_files (files_net n) d)) in
  later 50 (later 30 (with_kb k (later 30 d))).
(** The steps of [kernel_init] in order: each message and each wait keeps
    what is established. *)
Ltac kstep H lem := eapply boot_bind; [eapply lem, H | clear H; intros ? H].
Ltac kwait H := eapply boot_bind;
  [eapply wait_at; [exact H | cbn [ticks later on_vm on_files with_timer with_heap with_process with_pci with_kb bus_view memory_view]; lia | lia] | clear H; intros ? H].
Lemma kernel_init_spec s d k n :
  at_stage s d → up d = false → Net.net_init Interrupts.idt_unmask_irq (v_devices (bus_view (memory_view d))) (v_net (bus_view (memory_view d))) = Some (tt, n) →
  Keyboard.keyboard_init fuel (v_kb d) = Some k → runs_to (kernel_init s) (device_view n k (bus_view (memory_view d))).
Proof.
  intros Hs Hu Hn Hk. unfold kernel_init. apply display_at in Hs. kstep Hs klog_at. kstep Hs klog_at. apply cpu_at in Hs. kstep Hs klog_at.
  apply gdt_at in Hs; [| done]. kstep Hs klog_at. apply idt_at, fds_at in Hs. kstep Hs klog_at. kstep Hs timer_at. kwait Hs. kstep Hs klog_at.
  eapply vmm_at in Hs; [| done]. kwait Hs. kstep Hs klog_at. rewrite (as_cpu _ _ Hs).
  eapply vmm_at in Hs; [| done]. kwait Hs. kstep Hs klog_at. apply heap_at in Hs; [| done]. kwait Hs. kstep Hs klog_at.
  eapply boot_bind; [refine (process_at _ _ _ _ Hs); [exact Hu | reflexivity] | clear Hs; intros ? Hs]. kwait Hs. kstep Hs klog_at.
  apply disk_at in Hs. kwait Hs. kstep Hs klog_at. apply pci_at in Hs. kwait Hs. kstep Hs klog_at.
  eapply boot_bind; [exact (net_init_at _ _ _ Hn Hs) | clear Hs; intros ? Hs]. kwait Hs. kstep Hs klog_at.
  apply files_at in Hs. kwait Hs. kstep Hs klog_at. eapply boot_bind; [refine (keyboard_at _ _ k _ Hs); exact Hk | clear Hs; intros ? Hs].
  kwait Hs. kstep Hs klog_at. kwait Hs. eexists. split; [done |]. by apply newline_at.
Qed.

(** ** The facts about the views *)
(** The layout of the image: the tables lie in it, away from the boot flag. *)
Record layout_ok : Prop := LayoutOk {
  lo_image : 0 ≤ kernel_start a ∧ 0x8000 ≤ kernel_start a ≤ kernel_end a ∧ kernel_end a ≤ Pmm.MAX_MEMORY ∧ kernel_end a < 2 ^ 32 - 2 ^ 22;
  lo_tss : kernel_start a ≤ tss a ∧ tss a + 104 ≤ kernel_end a;
  lo_entry : kernel_start a ≤ gdt_tss_entry a ∧ gdt_tss_entry a + 16 ≤ kernel_end a;
  lo_apart : gdt_tss_entry a + 16 ≤ tss a ∨ tss a + 104 ≤ gdt_tss_entry a;
  lo_stacks : 0 ≤ stack_top a < 2 ^ 64 ∧ 0 ≤ ist1_end a < 2 ^ 64
}.
Hypothesis image : layout_ok.

Lemma descriptor_bytes t : Forall is_byte (Interrupts.tss_descriptor t).
Proof. unfold Interrupts.tss_descriptor. repeat (constructor; [try apply is_byte_u8; split; done |]). constructor. Qed.
Lemma gdt_mem_ok m : pmem_ok m → pmem_ok (Interrupts.gdt_init (tss a) (gdt_tss_entry a) (stack_top a) (ist1_end a) m).
Proof. intros Hm. unfold Interrupts.gdt_init, Interrupts.tss_set_rsp0. apply wr64_ok, wr64_ok, pmemcpy_from_ok; [done | apply descriptor_bytes]. Qed.
Lemma gdt_mem_flag m : Interrupts.gdt_init (tss a) (gdt_tss_entry a) (stack_top a) (ist1_end a) m BOOT_FLAG_ADDR = m BOOT_FLAG_ADDR.
Proof.
  destruct image. unfold Interrupts.gdt_init, Interrupts.tss_set_rsp0, BOOT_FLAG_ADDR. rewrite !wr64_out by lia. unfold pmemcpy_from.
  by replace (gdt_tss_entry a <=? 0x7000) with false by lia.
Qed.
Lemma heap_mem_low m p x : x < Heap.heap_base (Heap.memory_init (kernel_end a) m p).1 → Heap.hmem (Heap.memory_init (kernel_end a) m p).1 x = m x.
Proof.
  unfold Heap.memory_init. cbn [fst Heap.heap_base Heap.hmem]. intros Hx. unfold Heap.set_next, Heap.set_free, Heap.set_size.
  by rewrite wr64_out, wr32_out, wr64_out by lia.
Qed.
Lemma segment_low m m' e : (∀ x, e ≤ x < e + 16 → m' x = m x) →
  Interrupts.segment_base m' e = Interrupts.segment_base m e ∧ Interrupts.segment_limit m' e = Interrupts.segment_limit m e.
Proof.
  intros Hm. unfold Interrupts.segment_base, Interrupts.segment_limit. cbn [map le_read].
  split; [by rewrite !Hm by lia |]. rewrite !Hm by lia. done.
Qed.

(** The memory after start-up: the page allocator and the heap do not share a
    page, and the descriptor tables are as [gdt_init] left them. *)
Record memory_ready (v : Vmm.vmm_state) (h : Heap.heap_state) : Prop := MemoryReady {
  mr_pmm : Pmm.pmm_ok (Vmm.pmm v);
  mr_heap : Heap.heap_ok h [Heap.Block (Heap.heap_base h) (Heap.HEAP_SIZE - Heap.HDR) true];
  mr_shared : Heap.hmem h = Vmm.mem v;
  mr_reserved p : 0 ≤ p < 256 ∨ kernel_start a / 4096 ≤ p ∧ p * 4096 < kernel_end a ∨
    Heap.heap_base h ≤ p * 4096 < Heap.heap_base h + Heap.HEAP_SIZE → Pmm.used (Vmm.pmm v) p = true;
  mr_above : kernel_end a ≤ Heap.heap_base h;
  mr_segment : Interrupts.segment_base (Vmm.mem v) (gdt_tss_entry a) = tss a ∧ Interrupts.segment_limit (Vmm.mem v) (gdt_tss_entry a) = 103;
  mr_stacks : rd64 (Vmm.mem v) (tss a + 4) = stack_top a ∧ rd64 (Vmm.mem v) (tss a + 36) = ist1_end a;
  mr_tables : Vmm.kernel_pml4_phys v = Z.land (Vmm.cr3_reg v) Vmm.PTE_ADDR_MASK
}.
Lemma memory_view_ready d : pmem_ok (Vmm.mem (vm d)) →
  memory_ready (vm (memory_view d)) (v_heap (memory_view d)) ∧
  Vmm.mem (vm (memory_view d)) BOOT_FLAG_ADDR = Vmm.mem (vm d) BOOT_FLAG_ADDR.
Proof.
  intros Hm. pose proof (gdt_mem_ok _ Hm) as Hg. pose proof image as [Hi Ht He Ha Hs].
  unfold memory_view. cbv zeta. cbn [vm v_heap with_heap later on_vm with_timer with_fds with_idt with_gdt with_cpu with_serial v_cpu].
  set (m1 := Interrupts.gdt_init _ _ _ _ (Vmm.mem (vm d))) in *. set (p1 := Pmm.pmm_init _ _ _ _).
  set (v1 := Vmm.vmm_init _ _). assert (Vmm.mem v1 = m1 ∧ Vmm.pmm v1 = p1 ∧ Vmm.kernel_pml4_phys v1 = Z.land (Vmm.cr3_reg v1) Vmm.PTE_ADDR_MASK) as (-> & -> & K1)
    by (unfold v1, Vmm.vmm_init; by destruct (Vmm.has _ _)). clearbody v1.
  assert (Pmm.pmm_ok p1) as Hp by (apply (Pmm.pmm_init_reserves m1 (kernel_start a) (kernel_end a) (Vmm.pmm (vm d)) 0 Hg); lia).
  destruct (Heap.memory_init_spec (kernel_end a) m1 p1 Hg Hp) as (Hh & Hb & Hp2 & Hu2); [lia | lia |].
  assert (∀ x, x < kernel_end a → Heap.hmem (Heap.memory_init (kernel_end a) m1 p1).1 x = m1 x) as Hlow by (intros x Hx; apply heap_mem_low; lia).
  assert (∀ p, Pmm.used p1 p = true → Pmm.used (Heap.memory_init (kernel_end a) m1 p1).2 p = true) as Hmono.
  { intros p Hup. unfold Heap.memory_init. cbn [snd]. unfold Pmm.pmm_mark_region_used.
    assert (0 ≤ Z.land (kernel_end a +64 0xFFF) (Z.lnot 0xFFF)) as H0b by (apply Z.land_nonneg; left; unfold u64; apply Z.mod_pos_bound; lia).
    rewrite (proj2 (Pmm.mark_region_used_spec p1 _ Heap.HEAP_SIZE H0b Hp)). by rewrite Hup, orb_true_r. }
  destruct (Interrupts.gdt_init_spec (Vmm.mem (vm d)) (tss a) (gdt_tss_entry a) (stack_top a) (ist1_end a)) as (G1 & G2 & _ & G4 & G5); [lia | done |].
  fold m1 in G1, G2, G4, G5. split.
  2:{ cbn [Vmm.mem Vmm.set_pmm Vmm.set_mem]. rewrite Hlow by (unfold BOOT_FLAG_ADDR; lia). apply gdt_mem_flag. }
  constructor; cbn [Vmm.mem Vmm.pmm Vmm.set_pmm Vmm.set_mem Vmm.kernel_pml4_phys Vmm.cr3_reg]; try done.
  - intros p [Hlo | [Hk | Hk]]; [| | by apply Hu2].
    all: apply Hmono; refine (proj2 (Pmm.pmm_init_reserves m1 (kernel_start a) (kernel_end a) (Vmm.pmm (vm d)) p Hg _ _ _)); [lia | lia | auto].
  - destruct (segment_low m1 (Heap.hmem (Heap.memory_init (kernel_end a) m1 p1).1) (gdt_tss_entry a)) as [-> ->]; [intros; apply Hlow; lia | done].
  - unfold rd64. rewrite !(le_read_ext 8 (Heap.hmem _) m1) by (intros; apply Hlow; lia). fold (rd64 m1 (tss a + 4)) (rd64 m1 (tss a + 36)).
    rewrite G4, G5, !u64_small by lia. done.
Qed.

(** The system calls start with no open file. *)
Lemma fds_closed : Fdtab.fds_ok (Fdtab.fd_table_init Fdtab.fd_table_bss) ∧
  ∀ i, 0 ≤ i < Fdtab.MAX_FD → Fdtab.fd_used (Fdtab.fd_table_init Fdtab.fd_table_bss).[i] = false.
Proof.
  assert (Fdtab.fds_ok Fdtab.fd_table_bss ∧ ∀ i, 0 ≤ i < Fdtab.MAX_FD → Fdtab.fd_used Fdtab.fd_table_bss.[i] = false) as [[L0 F0] U0].
  { unfold Fdtab.fd_table_bss, Fdtab.fds_ok, Fdtab.fd_ok. split; [split; [done |] |]; intros i Hi; unfold Fdtab.MAX_FD in Hi; rewrite aget_replicate by lia; [| done].
    split_and!; [done | by vm_compute | done]. }
  unfold Fdtab.fd_table_init.
  refine (for_each_inv_le (λ _ t, Fdtab.fds_ok t ∧ ∀ i, 0 ≤ i < Fdtab.MAX_FD → Fdtab.fd_used t.[i] = false) 0 Fdtab.MAX_FD _ _ _ _ _); [done | done |].
  intros i t Hi [[L F] U]. split; [split; [by rewrite zlen_aset |] |]; intros j Hj; (destruct (Z.eqb_spec j i) as [-> | Hne]; [rewrite aget_aset_eq by lia | rewrite aget_aset_ne by done; auto]).
  - destruct (F i Hi) as (F1 & F2 & _). by split_and!.
  - done.
Qed.
Lemma started_inv t v f :
  System.inv_at (System.Sys (Process.scheduler_start (kern_at true t (stack_top a) v f)) (λ _, System.AtRun)) 0.
Proof. destruct (System.booted_inv (stack_top a) v (λ _, System.AtRun) ltac:(done)). by constructor. Qed.

Lemma keyboard_empty (kb k : Keyboard.kb_state (hw := hw)) :
  zlen (Keyboard.kb_buffer kb) = Keyboard.KB_BUFFER_SIZE → Keyboard.keyboard_init fuel kb = Some k → Keyboard.kb_ok k ∧ Keyboard.kb_queue k = [].
Proof.
  intros Hb. unfold Keyboard.keyboard_init. destruct (Keyboard.drain fuel _) as [e |]; [| done]. rewrite some_bind.
  destruct (Keyboard.drain fuel _) as [e' |]; [| done]. rewrite some_bind. intros [= <-]. split; [by split_and! | done].
Qed.
Lemma fs_init_net (f : Fs.fs_state B nhw) : Fs.w_net (Fs.fsw (Fs.fs_init BlockCache.block_cache_init f)) = Fs.w_net (Fs.fsw f).
Proof. unfold Fs.fs_init. by destruct (Fat.fat_available _). Qed.

(** What the later steps leave alone. *)
Lemma device_keeps n k d :
  let d' := device_view n k d in
  up d' = up d ∧ rsp0 d' = rsp0 d ∧ vm d' = vm d ∧ fdt d' = fdt d ∧ v_heap d' = v_heap d ∧ v_idt d' = v_idt d ∧ v_kb d' = k ∧ v_serial d' = v_serial d ∧
  v_files d' = Fs.fs_init BlockCache.block_cache_init (files_net n (v_files d)).
Proof. by split_and!. Qed.
Lemma bus_keeps d :
  let d' := bus_view d in
  up d' = true ∧ rsp0 d' = rsp0 d ∧ vm d' = vm d ∧ fdt d' = fdt d ∧ v_heap d' = v_heap d ∧ v_idt d' = v_idt d ∧ v_serial d' = v_serial d.
Proof. by split_and!. Qed.
Lemma memory_keeps d :
  let d' := memory_view d in
  rsp0 d' = stack_top a ∧ fdt d' = Fdtab.fd_table_init (fdt d) ∧ v_idt d' = Interrupts.idt_table (isr a) (irq a) (syscall_handler a) ∧ v_serial d' = true.
Proof. by split_and!. Qed.

(** What start-up has established in the machine [s], whichever way it came to
    the prompt. *)
Record prompt_ready (s : os) : Prop := PromptReady {
  pr_sched : System.inv_at (System.Sys (Syscall.kernel (mach s)) (λ _, System.AtRun)) 0 ∧ Process.scheduling_enabled (Syscall.kernel (mach s)) = true;
  pr_memory : memory_ready (Process.vmm (Syscall.kernel (mach s))) (heap s);
  pr_idt : idt s = Interrupts.idt_table (isr a) (irq a) (syscall_handler a) ∧ Process.tss_rsp0 (Syscall.kernel (mach s)) = stack_top a;
  pr_fds : Fdtab.fds_ok (Process.fds (Syscall.kernel (mach s))) ∧
    ∀ i, 0 ≤ i < Fdtab.MAX_FD → Fdtab.fd_used (Process.fds (Syscall.kernel (mach s))).[i] = false;
  pr_mounts : Fs.vfs (Syscall.files (mach s)) = Fs.table (Fs.root_of (Syscall.files (mach s)));
  pr_net : NetSafe.net_ok (Fs.w_net (Fs.fsw (Syscall.files (mach s))));
  pr_serial : serial_is_initialized s = true
}.
(** The shell that [kernel_main] starts. *)
Definition fresh_shell (sh : Shell.shell hw (Fs.fs_state B nhw)) : Prop := ShellProps.shell_ok sh ∧ ShellProps.view sh = ShellProps.Cons [] [] None.

(** The end of [kernel_main], on a machine with what [kernel_init] leaves:
    the installer has changed the disk, the screen and the keyboard at most. *)
Record initialised (s : os) (t : Z) (v : Vmm.vmm_state) (h : Heap.heap_state) : Prop := Initialised {
  in_kernel : Syscall.kernel (mach s) = kern_at true t (stack_top a) v (Fdtab.fd_table_init Fdtab.fd_table_bss);
  in_heap : heap s = h;
  in_idt : idt s = Interrupts.idt_table (isr a) (irq a) (syscall_handler a);
  in_mounts : Fs.vfs (Syscall.files (mach s)) = Fs.table (Fs.root_of (Syscall.files (mach s)));
  in_net : NetSafe.net_ok (Fs.w_net (Fs.fsw (Syscall.files (mach s))));
  in_serial : serial_is_initialized s = true
}.
Lemma initialised_ready s t v h : memory_ready v h → initialised s t v h → prompt_ready (with_kernel Process.scheduler_start s).
Proof.
  intros Hm [E1 E2 E3 E4 E5 E6]. constructor.
  all: cbn [mach with_kernel with_mach Syscall.kernel Syscall.set_kernel Syscall.files heap idt]; rewrite ?E1, ?E2, ?E3.
  - split; [apply started_inv | reflexivity].
  - exact Hm.
  - by split.
  - exact fds_closed.
  - exact E4.
  - exact E5.
  - exact E6.
Qed.
Lemma root_same (f : Fs.fs_state B nhw) fat :
  Fs.root_of (Fs.FsState (Fs.vfs f) (Fs.set_fat (Fat.set_dev (Fs.w_fat (Fs.fsw f)) fat) (Fs.fsw f))) = Fs.root_of f.
Proof. reflexivity. Qed.
Lemma reinstall_keeps s t v h r s' : initialised s t v h → reinstall s = Some (r, s') → initialised s' t v h.
Proof.
  intros [E1 E2 E3 E4 E5 E6]. unfold reinstall. destruct (Installer.installer_run _ _ _) as [[r1 i] |]; [| done]. rewrite some_bind.
  intros [= <- <-]. constructor; [exact E1 | exact E2 | exact E3 | exact E4 | exact E5 | exact E6].
Qed.
Lemma klog_keeps msg s s' t v h : initialised s t v h → klog_info msg s = Some s' → initialised s' t v h.
Proof.
  intros [E1 E2 E3 E4 E5 E6]. unfold klog_info. destruct (Terminal.klog_info _ _ _) as [t1 |]; [| done]. rewrite some_bind.
  intros [= <-]. constructor; [exact E1 | exact E2 | exact E3 | exact E4 | exact E5 | exact E6].
Qed.

(** The machine after [kernel_init]. *)
Lemma initialised_at s n k d :
  fdt d = Fdtab.fd_table_bss → NetSafe.net_ok n → at_stage s (device_view n k (bus_view (memory_view d))) →
  ∃ t, initialised s t (vm (memory_view d)) (v_heap (memory_view d)) ∧ Terminal.term_ok (Syscall.terminal (mach s)) ∧ Syscall.keyboard (mach s) = k.
Proof.
  intros Hf Hn [A1 A2 A3 A4 A5 A6 A7 A9 A8].
  destruct (device_keeps n k (bus_view (memory_view d))) as (D1 & D2 & D3 & D4 & D5 & D6 & D7 & D9 & D8).
  destruct (bus_keeps (memory_view d)) as (B1 & B2 & B3 & B4 & B5 & B6 & B7). destruct (memory_keeps d) as (M1 & M2 & M3 & M4).
  rewrite D1, D2, D3, D4, B1, B2, B3, B4, M1, M2, Hf in A1. rewrite D5, B5 in A2. rewrite D6, B6, M3 in A3. rewrite D8 in A6. rewrite D7 in A7. rewrite D9, B7, M4 in A9.
  eexists. split; [| split; [exact A8 | exact A7]]. constructor; [exact A1 | exact A2 | exact A3 | rewrite A6; apply Fs.init_vfs | rewrite A6; by rewrite fs_init_net | exact A9].
Qed.

(** C7: start-up brings the machine into a state from which the theorems on
    the components apply.  Whatever memory map, disk, PCI bus and network
    card the machine has, once the serial line accepts bytes and the keyboard
    controller runs empty, all initialisation steps of [kernel_main] return.
    Unless the boot loader asks for a reinstallation, the prompt of the shell
    is reached with a screen in bounds and no key waiting.  If it does, the
    installer runs: [kernel_main] does not return when the installer never
    gets an answer, restarts the machine when the installation succeeds, and
    otherwise goes on to the prompt, with the disk, the screen and the
    keyboard as the installer left them.  At the prompt, in both cases: the
    scheduler's invariant holds with the kernel process running; no page of
    low memory, of the kernel image or of the heap is left to the page
    allocator, and the heap is one free block; the interrupt table and the
    task-state segment are those of idt.c and gdt.c; no file handle is open;
    the mounts are the root, /dev and /proc; the network stack satisfies its
    invariant; the shell shows an empty line. *)
Theorem boot_establishes s d k :
  at_stage s d → up d = false → fdt d = Fdtab.fd_table_bss → pmem_ok (Vmm.mem (vm d)) →
  zlen (Net.u_data (Net.last_udp (v_net d))) = 128 → 0 ∈ Net.u_data (Net.last_udp (v_net d)) →
  zlen (Keyboard.kb_buffer (v_kb d)) = Keyboard.KB_BUFFER_SIZE → Keyboard.keyboard_init fuel (v_kb d) = Some k →
  ∃ s1, kernel_init s = Some s1 ∧
  (Vmm.mem (vm d) BOOT_FLAG_ADDR ≠ BOOT_FLAG_REINSTALL →
    ∃ s' sh, kernel_main s = Some (inl (s', sh)) ∧ prompt_ready s' ∧ fresh_shell sh ∧
      Terminal.term_ok (Syscall.terminal (mach s')) ∧
      Keyboard.kb_ok (Syscall.keyboard (mach s')) ∧ Keyboard.kb_queue (Syscall.keyboard (mach s')) = []) ∧
  (Vmm.mem (vm d) BOOT_FLAG_ADDR = BOOT_FLAG_REINSTALL →
    ∃ s2, klog_info "Reinstall requested by bootloader" s1 = Some s2 ∧
    match reinstall s2 with
    | None => kernel_main s = None
    | Some (r, s3) =>
        if r =? Installer.INSTALLER_OK then kernel_main s = Some (inr s3)
        else ∃ s' sh, kernel_main s = Some (inl (s', sh)) ∧ prompt_ready s' ∧ fresh_shell sh
    end).
Proof.
  intros Hs Hu Hf Hm Hl Hz Hkb Hk.
  destruct (NetSafe.net_init_ok Interrupts.idt_unmask_irq (v_devices (bus_view (memory_view d))) (v_net (bus_view (memory_view d))) Hl Hz) as (n & En & Hn).
  destruct (kernel_init_spec s d k n Hs Hu En Hk) as (s1 & E & Hs1). destruct (memory_view_ready d Hm) as [Hr Hflag].
  destruct (initialised_at s1 n k d Hf Hn Hs1) as (t & Hin & Ht & Ekb). pose proof (in_kernel _ _ _ _ Hin) as Ek.
  exists s1. split; [exact E |]. unfold kernel_main. rewrite E, some_bind, Ek. cbn [Process.vmm kern_at]. rewrite Hflag. split; intros Hfl.
  - rewrite (proj2 (Z.eqb_neq _ _) Hfl), some_bind. eexists _, _. split; [reflexivity |]. split; [by eapply initialised_ready |]. split; [apply ShellProps.init_ok |].
    split; [exact Ht |]. change (Syscall.keyboard (mach (with_kernel Process.scheduler_start s1))) with (Syscall.keyboard (mach s1)). rewrite Ekb.
    exact (keyboard_empty _ _ Hkb Hk).
  - rewrite Hfl, Z.eqb_refl. destruct (klog_at "Reinstall requested by bootloader" s1 _ Hs1) as (s2 & E2 & _). exists s2. split; [exact E2 |].
    rewrite E2, some_bind. pose proof (klog_keeps _ _ _ _ _ _ Hin E2) as Hin2. destruct (reinstall s2) as [[r s3] |] eqn:E3; [| reflexivity].
    rewrite !some_bind. pose proof (reinstall_keeps _ _ _ _ _ _ Hin2 E3) as Hin3. destruct (r =? Installer.INSTALLER_OK); [reflexivity |].
    eexists _, _. split; [reflexivity |]. split; [by eapply initialised_ready | apply ShellProps.init_ok].
Qed.
End Kernel.

(** ** Witness: a machine without a disk and with an empty PCI bus *)
Section Demo.
#[local] Instance no_ports : PortIO unit := {| inb := λ _ d, (0xFF, d); inw := λ _ d, (0xFFFF, d); outb := λ _ _ d, d; outw := λ _ _ d, d |}.
#[local] Instance no_irq : IrqFlag unit := {| cli := λ d, d; sti := λ d, d |}.
#[local] Instance empty_bus : Pci.Port32 NetProps.ne2000 := {| Pci.port_inl := λ _ d, (0xFFFFFFFF, d); Pci.port_outl := λ _ _ d, d |}.
Definition demo_addresses : addresses :=
  Addresses 0x101000 0x102000 0x110000 0x112000 0x100000 0x120000 Interrupts.demo_isr Interrupts.demo_irq 0x103000.
Definition demo_kb : Keyboard.kb_state (hw := Interrupts.uart) := Keyboard.Kb (replicate 256 0) 0 0 Keyboard.no_modifiers (Interrupts.Uart [] false).
Definition demo_vm : Vmm.vmm_state := Vmm.Vmm (λ _, 0) (Pmm.Pmm (λ _, 0) 0 0 0) 0x1000 0 0 false.
Definition demo_drive : BlockCache.cache_state (Ata.ata_state unit) := BlockCache.CacheState [] 0 (Ata.AtaState tt 0 0 0xE0).
Definition demo_world : Fs.world (BlockCache.cache_state (Ata.ata_state unit)) NetProps.ne2000 :=
  Fs.World (Fat.FatState (Fat.Volume [] Fat.FAT_TYPE_NONE 0 0 0 0 0 0 0 0 0) demo_drive 0 [47] []) Ramfs.empty_ram Fs.demo_procs
    (NetProps.demo_state NetProps.demo_card) Fs.s_FAT.
Definition demo_view : view (hw := Interrupts.uart) (dhw := unit) (nhw := NetProps.ne2000) :=
  View false 0 0 demo_vm Fdtab.fd_table_bss (Heap.HeapState (λ _, 0) 0 0 0 0) [] (Cpu.CpuInfo [] [] 0 0 0 0 0 0 0 0) []
    (Fs.FsState (Vfs.VfsState [] 0) demo_world) demo_kb false.
Definition demo_os : os (hw := Interrupts.uart) (dhw := unit) (nhw := NetProps.ne2000) :=
  Os (Syscall.Machine (kern_at demo_addresses false 0 0 demo_vm Fdtab.fd_table_bss) Interrupts.uart_term demo_kb (v_files demo_view))
    false (v_cpu demo_view) [] (v_heap demo_view) [] [] Installer.INSTALLER_FS_FAT16 (Installer.Layout 0 0 0 0 0 0 0 0).
Lemma boot_establishes_witness :
  ∃ s' sh, kernel_main id demo_addresses (λ _, Cpu.Regs 0 0 0 0) 100 demo_os = Some (inl (s', sh)) ∧
    Process.scheduling_enabled (Syscall.kernel (mach s')) = true.
Proof.
  destruct (Keyboard.keyboard_init 100 demo_kb) as [k |] eqn:Ek; [| exfalso; revert Ek; by vm_compute].
  destruct (boot_establishes id demo_addresses (λ _, Cpu.Regs 0 0 0 0) 100) with (s := demo_os) (d := demo_view) (k := k)
    as (s1 & _ & L & _).
  - split; [exact (eq_refl : 1 < 100) | exact (eq_refl : 50 < 100)].
  - constructor; cbn; unfold Pmm.MAX_MEMORY; lia.
  - constructor; try reflexivity. exact Interrupts.uart_term_ok.
  - reflexivity.
  - reflexivity.
  - intros x. cbn. split; done.
  - vm_compute. reflexivity.
  - apply (bool_decide_unpack _). vm_compute. exact I.
  - reflexivity.
  - exact Ek.
  - destruct L as (s' & sh & E & [[_ Hs] _ _ _ _ _ _] & _); [discriminate |]. exists s', sh. split; [exact E | exact Hs].
Defined.
End Demo.
End Boot.
