(* ===== verification/Fat12.v ===== *)
(** * The legacy FAT12 driver (kernel/fs/fat12.c): the model

    The driver keeps the allocation table and the root directory in memory
    and calls the disk driver directly; the sector interface is the class
    [BlockDev].  Tables and directories are the packed bytes of the source,
    directory entry [i] at offset [32 * i].  Computations are those of Fat.v
    over the driver's variables: a value, [Undefined] (a store or a block copy
    outside an object, a division by zero, an uninitialised buffer) or
    [Diverges].  [check] compares each such access with the size of its
    array; the caller of [fat12_read] says how long its buffer is.  A failed
    read leaves its buffer alone, so a sector that could not be read
    into a local buffer is [Undefined].  Names and paths are the characters
    before the NUL; the messages to the kernel log are left out. *)
From S2P Require Import Prelude.
From S2P Require Import CString.
From S2P Require Import BlockDev.
From S2P Require Import Fat.
Import (hints) Fat.

Module Fat12.
Definition FAT12_SECTOR_SIZE : Z := 512.
Definition FAT12_ATTR_VOLUME_ID : Z := 0x08.
Definition FAT12_ATTR_DIRECTORY : Z := 0x10.
Definition FAT12_ATTR_ARCHIVE : Z := 0x20.
Definition FAT12_ATTR_LFN : Z := 0x0F.
Definition FS_MAX_FILENAME : Z := 256.
Definition ENTRIES : Z := 224.
Definition FAT_TABLE_SIZE : Z := FAT12_SECTOR_SIZE * 9.
Definition DOT : Z := 46.
Definition SLASH : Z := 47.
Definition SPACE : Z := 32.

Definition slice (s : list Z) (pos n : Z) : list Z := take (Z.to_nat n) (drop (Z.to_nat pos) s).

(** ** Packed structures *)
(** [fat12_bpb_t]: the first 36 bytes of the boot sector. *)
Definition fat12_bpb_t := list Z.
Definition bytes_per_sector (b : fat12_bpb_t) : Z := Fat.u16_at b 11.
Definition sectors_per_cluster (b : fat12_bpb_t) : Z := b.[13].
Definition reserved_sectors (b : fat12_bpb_t) : Z := Fat.u16_at b 14.
Definition fat_count (b : fat12_bpb_t) : Z := b.[16].
Definition root_dir_entries (b : fat12_bpb_t) : Z := Fat.u16_at b 17.
Definition total_sectors (b : fat12_bpb_t) : Z := Fat.u16_at b 19.
Definition sectors_per_fat (b : fat12_bpb_t) : Z := Fat.u16_at b 22.
Definition large_sector_count (b : fat12_bpb_t) : Z := Fat.u32_at b 32.

(** [fat12_dir_entry_t], in an array of entries. *)
Definition e_first (dir : list Z) (i : Z) : Z := dir.[32 * i].
Definition e_name (dir : list Z) (i : Z) : list Z := slice dir (32 * i) 11.
Definition e_attributes (dir : list Z) (i : Z) : Z := dir.[32 * i + 11].
Definition e_first_cluster_low (dir : list Z) (i : Z) : Z := Fat.u16_at dir (32 * i + 26).
Definition e_file_size (dir : list Z) (i : Z) : Z := Fat.u32_at dir (32 * i + 28).
Definition is_directory (dir : list Z) (i : Z) : bool := negb (Z.land (e_attributes dir i) FAT12_ATTR_DIRECTORY =? 0).
Definition is_volume_id (dir : list Z) (i : Z) : bool := negb (Z.land (e_attributes dir i) FAT12_ATTR_VOLUME_ID =? 0).
Definition is_lfn (dir : list Z) (i : Z) : bool := e_attributes dir i =? FAT12_ATTR_LFN.

(** ** Long names *)
Definition fat12_lfn_char (raw : list Z) (idx : Z) : Z := Z.lor raw.[idx * 2] (Z.shiftl raw.[idx * 2 + 1] 8).

(** The first loop: the entries before the short name, nearest first. *)
Fixpoint lfn_seq (n : nat) (dir : list Z) (k : Z) : list Z :=
  match n with
  | O => []
  | S n' =>
      if negb (0 <=? k) then [] else
      if negb (is_lfn dir k) then [] else
      if negb (Z.land (e_first dir k) 0x40 =? 0) then [k] else k :: lfn_seq n' dir (k - 1)
  end.
(** The characters of one entry, in the order of the two inner loops. *)
Definition lfn_units (dir : list Z) (k : Z) : list Z :=
  let raw := slice dir (32 * k) 32 in
  concat (map (λ '(offset, len), map (fat12_lfn_char (drop (Z.to_nat offset) raw)) (seqZ 0 len)) [(1, 5); (14, 6); (28, 2)]).
(** Characters are stored until the buffer is full or the name ends. *)
Fixpoint lfn_store (room : nat) (units : list Z) : list Z :=
  match room, units with
  | S room', ch :: rest => if (ch =? 0) || (ch =? 0xFFFF) then [] else Z.land ch 0x7F :: lfn_store room' rest
  | _, _ => []
  end.
(** The characters stored before the final NUL. *)
Definition fat12_read_lfn (dir : list Z) (sfn_idx buf_size : Z) : list Z :=
  let seq := lfn_seq 20 dir (sfn_idx - 1) in
  lfn_store (Z.to_nat (buf_size - 1)) (concat (map (lfn_units dir) (reverse seq))).

(** ** The allocation table *)
Definition fat12_get_next_cluster (table : list Z) (cluster : Z) : Z :=
  let fat_offset := cluster + cluster / 2 in
  if FAT_TABLE_SIZE <=? fat_offset + 1 then 0xFFF else
  let fat_value := Fat.u16_at table fat_offset in
  if negb (Z.land cluster 1 =? 0) then Z.shiftr fat_value 4 else Z.land fat_value 0x0FFF.

Definition fat12_set_cluster_value (cluster value : Z) (table : list Z) : list Z :=
  let fat_offset := cluster + cluster / 2 in
  if FAT_TABLE_SIZE <=? fat_offset + 1 then table else
  let old := Fat.u16_at table fat_offset in
  Fat.put_u16 table fat_offset
    (u16 (if negb (Z.land cluster 1 =? 0) then Z.lor (Z.land old 0x000F) (Z.shiftl value 4)
          else Z.lor (Z.land old 0xF000) (Z.land value 0x0FFF))).

Definition fat12_find_free_cluster (table : list Z) : Z :=
  match for_range 2 2849 (λ cluster (_ : unit), if fat12_get_next_cluster table cluster =? 0 then inr cluster else inl tt) tt with
  | inr cluster => cluster
  | inl _ => 0
  end.

(** ** Names *)
Fixpoint parse_base (n : nat) (input : list Z) : list Z * list Z :=
  match n, input with
  | S n', c :: r => if c =? DOT then ([], input) else let '(o, rest) := parse_base n' r in (c :: o, rest)
  | _, _ => ([], input)
  end.
Definition fat12_parse_filename (input : list Z) : list Z :=
  let '(base, rest) := parse_base 8 input in
  let rest := match rest with c :: r => if c =? DOT then r else rest | [] => [] end in
  Fat.pad 8 base ++ Fat.pad 3 (take 3 rest).
Definition fat12_compare_filename (fat_name search_name : list Z) : bool :=
  let formatted := fat12_parse_filename search_name in
  forallb (λ i, Fat.upcase formatted.[i] =? Fat.upcase fat_name.[i]) (seqZ 0 11).
Fixpoint fat12_stricmp (a b : list Z) : bool :=
  match a, b with
  | ca :: a', cb :: b' => if negb (Fat.upcase ca =? Fat.upcase cb) then false else fat12_stricmp a' b'
  | [], [] => true
  | _, _ => false
  end.
Definition fat12_entry_matches (dir : list Z) (i : Z) (search_name : list Z) : bool :=
  let lfn := CString.cstr (fat12_read_lfn dir i 256) in
  (negb (bool_decide (lfn = [])) && fat12_stricmp lfn search_name) || fat12_compare_filename (e_name dir i) search_name.

(** The loops over the entries: they end at the first unused entry, pass over
    deleted entries and those of [skip], and stop at one that [pick] takes. *)
Definition scan (dir : list Z) (skip pick : Z → bool) : option Z :=
  match for_range 0 ENTRIES (λ i (_ : unit),
      if e_first dir i =? 0 then inr None
      else if (e_first dir i =? 0xE5) || skip i then inl tt
      else if pick i then inr (Some i) else inl tt) tt with
  | inr r => r
  | inl _ => None
  end.
Definition find_free_entry (dir : list Z) : Z :=
  match for_range 0 ENTRIES (λ i (_ : unit), if (e_first dir i =? 0) || (e_first dir i =? 0xE5) then inr i else inl tt) tt with
  | inr i => i
  | inl _ => -1
  end.
(** The thirteen assignments that fill an entry. *)
Definition fill_entry (dir : list Z) (i : Z) (name : list Z) (attributes first_cluster size : Z) : list Z :=
  ablit dir (32 * i) ((Fat.upcase <$> fat12_parse_filename name) ++ [attributes] ++ replicate 14 0 ++ le_bytes 2 first_cluster ++ le_bytes 4 size).

(** ** The driver *)
Record fs_file_info_t := FileInfo { f_name : list Z; f_size : Z; f_used : Z; f_is_directory : Z }.

Section Driver.
Context {B : Type} `{BlockDev B}.

Record fat12_state := Fat12State {
  dev : B;
  bpb : fat12_bpb_t;
  fat_table : list Z;
  root_dir : list Z;
  current_dir_entries : list Z;
  fat12_initialized : Z;
  current_dir : list Z;
  current_dir_cluster : Z;
  fat12_file_list : list fs_file_info_t
}.
Definition set_dev (b : B) (s : fat12_state) : fat12_state :=
  Fat12State b (bpb s) (fat_table s) (root_dir s) (current_dir_entries s) (fat12_initialized s) (current_dir s) (current_dir_cluster s) (fat12_file_list s).
Definition set_bpb (b : fat12_bpb_t) (s : fat12_state) : fat12_state :=
  Fat12State (dev s) b (fat_table s) (root_dir s) (current_dir_entries s) (fat12_initialized s) (current_dir s) (current_dir_cluster s) (fat12_file_list s).
Definition set_table (t : list Z) (s : fat12_state) : fat12_state :=
  Fat12State (dev s) (bpb s) t (root_dir s) (current_dir_entries s) (fat12_initialized s) (current_dir s) (current_dir_cluster s) (fat12_file_list s).
Definition set_root (r : list Z) (s : fat12_state) : fat12_state :=
  Fat12State (dev s) (bpb s) (fat_table s) r (current_dir_entries s) (fat12_initialized s) (current_dir s) (current_dir_cluster s) (fat12_file_list s).
Definition set_entries (e : list Z) (s : fat12_state) : fat12_state :=
  Fat12State (dev s) (bpb s) (fat_table s) (root_dir s) e (fat12_initialized s) (current_dir s) (current_dir_cluster s) (fat12_file_list s).
Definition set_initialized (n : Z) (s : fat12_state) : fat12_state :=
  Fat12State (dev s) (bpb s) (fat_table s) (root_dir s) (current_dir_entries s) n (current_dir s) (current_dir_cluster s) (fat12_file_list s).
Definition set_cwd (path : list Z) (cluster : Z) (s : fat12_state) : fat12_state :=
  Fat12State (dev s) (bpb s) (fat_table s) (root_dir s) (current_dir_entries s) (fat12_initialized s) path cluster (fat12_file_list s).
Definition set_files (l : list fs_file_info_t) (s : fat12_state) : fat12_state :=
  Fat12State (dev s) (bpb s) (fat_table s) (root_dir s) (current_dir_entries s) (fat12_initialized s) (current_dir s) (current_dir_cluster s) l.

#[local] Abbreviation fm := (Fat.fm fat12_state).
Definition the_state : fm fat12_state := λ s, (Fat.Val s, s).
Definition update (f : fat12_state → fat12_state) : fm unit := λ s, (Fat.Val tt, f s).
Definition defined {A} (o : option A) : fm A := match o with Some a => mret a | None => Fat.undefined end.
(** An access to [n] bytes at offset [a] of an object of [size] bytes. *)
Definition inside (a n size : Z) : bool := (0 <=? a) && (a + n <=? size).
Definition check (ok : bool) : fm unit := if ok then mret tt else Fat.undefined.
Definition each (lo hi : Z) (body : Z → fm unit) : fm unit :=
  _ ← Fat.fm_for (R := unit) lo hi (λ i, _ ← body i; mret None); mret tt.
Definition ata_read_sector (lba : Z) : fm (option (list Z)) := λ s, let '(r, b) := bd_read lba (dev s) in (Fat.Val r, set_dev b s).
Definition ata_write_sector (lba : Z) (data : list Z) : fm Z := λ s, let '(r, b) := bd_write lba data (dev s) in (Fat.Val r, set_dev b s).
Definition get_next_cluster (c : Z) : fm Z := s ← the_state; mret (fat12_get_next_cluster (fat_table s) c).
Definition set_cluster_value (c v : Z) : fm unit := update (λ s, set_table (fat12_set_cluster_value c v (fat_table s)) s).
Definition in_chain (c : Z) : bool := (2 <=? c) && (c <? 0xFF8).

(** *** Geometry *)
Definition root_dir_start (b : fat12_bpb_t) : Z := reserved_sectors b + fat_count b * sectors_per_fat b.
Definition root_dir_sectors (b : fat12_bpb_t) : Z := (root_dir_entries b * 32 + 511) / 512.
Definition data_start (b : fat12_bpb_t) : Z := reserved_sectors b + fat_count b * sectors_per_fat b + (root_dir_entries b * 32 + 511) / 512.
Definition cluster_sector (b : fat12_bpb_t) (cluster : Z) : Z := data_start b + (cluster - 2) * sectors_per_cluster b.

Definition fat12_get_disk_info : fm (Z * Z * Z) :=
  s ← the_state;
  if fat12_initialized s =? 0 then mret (0, 0, 0) else
  let b := bpb s in
  let total_sectors := if negb (total_sectors b =? 0) then total_sectors b else large_sector_count b in
  let bytes_per_cluster := sectors_per_cluster b * bytes_per_sector b in
  let data_sectors := if data_start b <? total_sectors then total_sectors - data_start b else 0 in
  if sectors_per_cluster b =? 0 then Fat.undefined else
  let total_clusters := data_sectors / sectors_per_cluster b in
  let free_clusters := for_each 2 (u16 (total_clusters + 2)) (λ c n, if fat12_get_next_cluster (fat_table s) c =? 0 then n + 1 else n) 0 in
  let used_clusters := total_clusters -32 free_clusters in
  mret ((total_clusters *32 bytes_per_cluster) / 1024, (used_clusters *32 bytes_per_cluster) / 1024, (free_clusters *32 bytes_per_cluster) / 1024).

(** *** The table and the directories on the disk *)
Definition read_table_sector (lba i : Z) : fm unit :=
  _ ← check (inside (i * 512) 512 FAT_TABLE_SIZE);
  r ← ata_read_sector lba;
  match r with Some sec => update (λ s, set_table (ablit (fat_table s) (i * 512) sec) s) | None => mret tt end.
Definition write_table_sector (lba i : Z) : fm unit :=
  _ ← check (inside (i * 512) 512 FAT_TABLE_SIZE);
  s ← the_state; _ ← ata_write_sector lba (slice (fat_table s) (i * 512) 512); mret tt.
Definition fat12_write_fat_table : fm unit :=
  s ← the_state;
  let fat_start := reserved_sectors (bpb s) in let fat_size := sectors_per_fat (bpb s) in
  _ ← each 0 (Z.min fat_size 9) (λ i, write_table_sector (fat_start + i) i);
  _ ← each 0 (Z.min fat_size 9) (λ i, write_table_sector (fat_start + fat_size + i) i);
  each 0 (Z.min fat_size 9) (λ i, read_table_sector (fat_start + i) i).
Definition fat12_write_root_dir : fm unit :=
  s ← the_state;
  each 0 (Z.min (root_dir_sectors (bpb s)) 14) (λ i,
    _ ← check (inside (i * 512) 512 (32 * ENTRIES));
    _ ← ata_write_sector (root_dir_start (bpb s) + i) (slice (root_dir s) (i * 512) 512); mret tt).
Definition fat12_reload_root_dir : fm unit :=
  s ← the_state;
  each 0 (Z.min (root_dir_sectors (bpb s)) 14) (λ i,
    _ ← check (inside (i * 512) 512 (32 * ENTRIES));
    r ← ata_read_sector (root_dir_start (bpb s) + i);
    match r with Some sec => update (λ s, set_root (ablit (root_dir s) (i * 512) sec) s) | None => mret tt end).

Definition fat12_load_directory (cluster : Z) : fm (list Z) :=
  s ← the_state;
  if cluster =? 0 then mret (root_dir s) else
  Fat.fm_loop (λ k : Z * Z * list Z,
    let '(cluster, entry_idx, entries) := k in
    if negb (in_chain cluster && (entry_idx <? ENTRIES)) then mret (inr entries) else
    r ← ata_read_sector (cluster_sector (bpb s) cluster);
    sector_data ← defined r;
    let n := Z.min 16 (ENTRIES - entry_idx) in
    _ ← check (inside 0 (32 * n) 512 && inside (32 * entry_idx) (32 * n) (32 * ENTRIES));
    next ← get_next_cluster cluster;
    mret (inl (next, entry_idx + n, ablit entries (32 * entry_idx) (slice sector_data 0 (32 * n)))))
  (cluster, 0, replicate (Z.to_nat (32 * ENTRIES)) 0).
Definition fat12_write_directory (cluster : Z) (entries : list Z) : fm unit :=
  if cluster =? 0 then _ ← update (set_root entries); fat12_write_root_dir else
  s ← the_state;
  Fat.fm_loop (λ k : Z * Z,
    let '(cluster, entry_idx) := k in
    if negb (in_chain cluster && (entry_idx <? ENTRIES)) then mret (inr tt) else
    let n := Z.min 16 (ENTRIES - entry_idx) in
    _ ← check (inside 0 (32 * n) 512 && inside (32 * entry_idx) (32 * n) (32 * ENTRIES));
    let sector_data := ablit (replicate 512 0) 0 (slice entries (32 * entry_idx) (32 * n)) in
    _ ← ata_write_sector (cluster_sector (bpb s) cluster) sector_data;
    next ← get_next_cluster cluster;
    mret (inl (next, entry_idx + n)))
  (cluster, 0).
(** The statement at the start of every entry point, and the one at the end of
    those that change the volume. *)
Definition load_current : fm (list Z) :=
  s ← the_state; dir ← fat12_load_directory (current_dir_cluster s); _ ← update (set_entries dir); mret dir.
Definition store_current : fm unit :=
  _ ← fat12_write_fat_table;
  s ← the_state;
  _ ← fat12_write_directory (current_dir_cluster s) (current_dir_entries s);
  if current_dir_cluster s =? 0 then fat12_reload_root_dir else mret tt.

(** *** Mounting *)
Definition load_volume : fm unit :=
  s ← the_state;
  _ ← each 0 (Z.min (sectors_per_fat (bpb s)) 9) (λ i, read_table_sector (reserved_sectors (bpb s) + i) i);
  _ ← fat12_reload_root_dir;
  update (set_initialized 1).
Definition fat12_init : fm unit :=
  s ← the_state;
  if bd_available (dev s) =? 0 then update (set_initialized 0) else
  r ← ata_read_sector 0;
  match r with
  | None => update (set_initialized 0)
  | Some boot_sector =>
      let b := take 36 boot_sector in
      _ ← update (set_bpb b);
      if bytes_per_sector b =? 512 then load_volume else
      _ ← update (λ s, set_dev (bd_select 1 (dev s)) s);
      r ← ata_read_sector 0;
      match r with
      | None => update (set_initialized 0)
      | Some boot_sector =>
          let b := take 36 boot_sector in
          _ ← update (set_bpb b);
          if negb (bytes_per_sector b =? 512) then update (set_initialized 0) else load_volume
      end
  end.
Definition fat12_available (s : fat12_state) : Z := fat12_initialized s.

(** *** Files *)
(** The bytes stored in the buffer of [capacity] bytes along the chain. *)
Definition read_chain (b : fat12_bpb_t) (cluster file_size capacity : Z) : fm (list Z) :=
  Fat.fm_loop (λ k : Z * list Z,
    let '(cluster, buffer) := k in
    if negb (in_chain cluster && (zlen buffer <? file_size)) then mret (inr buffer) else
    r ← ata_read_sector (cluster_sector b cluster);
    sector_data ← defined r;
    let bytes_to_read := Z.min (file_size - zlen buffer) 512 in
    _ ← check (inside (zlen buffer) bytes_to_read capacity);
    next ← get_next_cluster cluster;
    mret (inl (next, buffer ++ slice sector_data 0 bytes_to_read)))
  (cluster, []).
(** The result, and the bytes stored when [*size] is set to their number.  The
    driver is not told the size of the caller's buffer: [capacity] is what the
    caller has provided. *)
Definition fat12_read (name : list Z) (capacity : Z) : fm (Z * option (list Z)) :=
  s ← the_state;
  if fat12_initialized s =? 0 then mret (-1, None) else
  dir ← load_current;
  match scan dir (λ i, is_directory dir i || is_volume_id dir i || is_lfn dir i)
                 (λ i, fat12_entry_matches dir i name && (2 <=? e_first_cluster_low dir i)) with
  | None => mret (-1, None)
  | Some i => buffer ← read_chain (bpb s) (e_first_cluster_low dir i) (e_file_size dir i) capacity; mret (0, Some buffer)
  end.

Definition free_chain (cluster : Z) : fm unit :=
  Fat.fm_loop (λ cluster,
    if negb (in_chain cluster) then mret (inr tt) else
    next ← get_next_cluster cluster;
    _ ← set_cluster_value cluster 0;
    mret (inl next)) cluster.
Definition clusters_for (size : Z) : Z :=
  let clusters_needed := (size +32 511) / 512 in if clusters_needed =? 0 then 1 else clusters_needed.
(** The allocation loops: the first and the last cluster; [inl first] when no
    cluster is free. *)
Definition allocate (clusters_needed : Z) : fm (Z + Z * Z) :=
  Fat.fm_loop (λ k : Z * Z * Z,
    let '(j, first, prev) := k in
    if negb (j <? clusters_needed) then mret (inr (inr (first, prev))) else
    s ← the_state;
    let free_cluster := fat12_find_free_cluster (fat_table s) in
    if free_cluster =? 0 then mret (inr (inl first)) else
    _ ← (if j =? 0 then mret tt else set_cluster_value prev free_cluster);
    mret (inl (j + 1, if j =? 0 then free_cluster else first, free_cluster)))
  (0, 0, 0).
Definition write_data (first_cluster : Z) (data : list Z) (size : Z) : fm unit :=
  s ← the_state;
  Fat.fm_loop (λ k : Z * Z,
    let '(cluster, bytes_written) := k in
    if negb (in_chain cluster && (bytes_written <? size)) then mret (inr tt) else
    let bytes_to_write := Z.min (size - bytes_written) 512 in
    _ ← check (inside bytes_written bytes_to_write (zlen data));
    _ ← ata_write_sector (cluster_sector (bpb s) cluster) (ablit (replicate 512 0) 0 (slice data bytes_written bytes_to_write));
    next ← get_next_cluster cluster;
    mret (inl (next, bytes_written + bytes_to_write)))
  (first_cluster, 0).

Definition update_file (i : Z) (data : list Z) (size : Z) : fm Z :=
  s ← the_state;
  _ ← free_chain (e_first_cluster_low (current_dir_entries s) i);
  r ← allocate (clusters_for size);
  match r with
  | inl _ => mret (-1)
  | inr (first_cluster, prev_cluster) =>
      _ ← set_cluster_value prev_cluster 0xFFF;
      _ ← check (inside (32 * i) 32 (32 * ENTRIES));
      _ ← update (λ s, set_entries (Fat.put_u32 (Fat.put_u16 (current_dir_entries s) (32 * i + 26) first_cluster) (32 * i + 28) size) s);
      _ ← write_data first_cluster data size;
      _ ← store_current;
      mret 0
  end.
Definition create_file (name data : list Z) (size : Z) : fm Z :=
  r ← allocate (clusters_for size);
  match r with
  | inl first_cluster => _ ← free_chain first_cluster; mret (-1)
  | inr (first_cluster, prev_cluster) =>
      _ ← set_cluster_value prev_cluster 0xFFF;
      s ← the_state;
      let free_entry := find_free_entry (current_dir_entries s) in
      if free_entry =? -1 then mret (-1) else
      _ ← check (inside (32 * free_entry) 32 (32 * ENTRIES));
      _ ← update (λ s, set_entries (fill_entry (current_dir_entries s) free_entry name FAT12_ATTR_ARCHIVE first_cluster size) s);
      _ ← write_data first_cluster data size;
      _ ← store_current;
      mret 0
  end.
Definition fat12_create (name data : list Z) (size : Z) : fm Z :=
  s ← the_state;
  if fat12_initialized s =? 0 then mret (-1) else
  if bool_decide (name = []) then mret (-1) else
  dir ← load_current;
  match scan dir (is_directory dir) (λ i, fat12_compare_filename (e_name dir i) name) with
  | Some i => update_file i data size
  | None => create_file name data size
  end.

(** [for (k = i - 1; k >= 0; k--)]: the long-name entries before entry [i]. *)
Fixpoint drop_lfn (n : nat) (k : Z) (dir : list Z) : list Z :=
  match n with
  | O => dir
  | S n' => if negb (0 <=? k) then dir else if negb (is_lfn dir k) then dir else drop_lfn n' (k - 1) (dir.[32 * k <- 0xE5])
  end.
Definition fat12_delete (name : list Z) : fm Z :=
  s ← the_state;
  if fat12_initialized s =? 0 then mret (-1) else
  dir ← load_current;
  match scan dir (is_lfn dir) (λ i, fat12_entry_matches dir i name) with
  | None => mret (-1)
  | Some i =>
      _ ← free_chain (e_first_cluster_low dir i);
      _ ← check (inside (32 * i) 32 (32 * ENTRIES));
      _ ← update (set_entries ((drop_lfn (Z.to_nat i) (i - 1) dir).[32 * i <- 0xE5]));
      _ ← store_current;
      mret 0
  end.

(** *** Listing *)
Definition short_name (dir : list Z) (i : Z) : list Z :=
  let extension := slice dir (32 * i + 8) 3 in
  Fat.trim (slice dir (32 * i) 8) ++ (if negb (extension.[0] =? SPACE) then DOT :: Fat.trim extension else []).
Definition unlisted (dir : list Z) (i : Z) : bool :=
  is_volume_id dir i || is_lfn dir i || negb (Z.land (e_attributes dir i) 0x02 =? 0) || negb (Z.land (e_attributes dir i) 0x04 =? 0)
  || ((e_first_cluster_low dir i =? 0) && (0 <? e_file_size dir i))
  || ((e_first_cluster_low dir i =? 0) && negb (is_directory dir i) && ((e_first dir i =? 0) || (e_first dir i =? SPACE))).
(** The array [name] of an element: a copy with its final NUL, zeros after it. *)
Definition name_field (s : list Z) : list Z := ablit (replicate (Z.to_nat FS_MAX_FILENAME) 0) 0 (s ++ [0]).
Definition list_name (dir : list Z) (i : Z) : list Z :=
  let lfn := CString.cstr (fat12_read_lfn dir i 256) in
  if negb (bool_decide (lfn = [])) then take (Z.to_nat (FS_MAX_FILENAME - 1)) lfn else short_name dir i.
Definition list_entry (dir : list Z) (i : Z) : fs_file_info_t :=
  FileInfo (name_field (list_name dir i)) (e_file_size dir i) 1 (cbool (is_directory dir i)).
(** Element [*count] of the array and a name with its NUL are stored. *)
Definition listed (dir : list Z) : option (list fs_file_info_t) :=
  match for_range 0 ENTRIES (λ i acc,
      if e_first dir i =? 0 then inr (Some acc)
      else if (e_first dir i =? 0xE5) || unlisted dir i then inl acc
      else if inside (zlen acc) 1 ENTRIES && inside 0 (zlen (list_name dir i) + 1) FS_MAX_FILENAME then inl (acc ++ [list_entry dir i])
      else inr None) [] with
  | inl acc => Some acc
  | inr o => o
  end.
(** The result and [*count]; the elements are in [fat12_file_list]. *)
Definition fat12_list : fm (Z * option Z) :=
  s ← the_state;
  if fat12_initialized s =? 0 then mret (-1, None) else
  dir ← load_current;
  l ← defined (listed dir);
  _ ← update (λ s, set_files (l ++ drop (length l) (fat12_file_list s)) s);
  mret (0, Some (zlen l)).

(** *** Directories *)
Definition fat12_mkdir (name : list Z) : fm Z :=
  s ← the_state;
  if fat12_initialized s =? 0 then mret (-1) else
  if bool_decide (name = []) then mret (-1) else
  if bool_decide (name = [DOT] ∨ name = [DOT; DOT] ∨ name = [SLASH]) then mret (-1) else
  dir ← load_current;
  if bool_decide (is_Some (scan dir (λ _, false) (λ i, fat12_compare_filename (e_name dir i) name))) then mret (-1) else
  let free_entry := find_free_entry dir in
  if free_entry =? -1 then mret (-1) else
  s ← the_state;
  let free_cluster := fat12_find_free_cluster (fat_table s) in
  if free_cluster =? 0 then mret (-1) else
  _ ← check (inside (32 * free_entry) 32 (32 * ENTRIES));
  _ ← update (set_entries (fill_entry dir free_entry name FAT12_ATTR_DIRECTORY free_cluster 0));
  _ ← set_cluster_value free_cluster 0xFFF;
  _ ← ata_write_sector (cluster_sector (bpb s) free_cluster) (replicate 512 0);
  _ ← store_current;
  mret 0.

Definition fat12_rmdir (name : list Z) : fm Z :=
  s ← the_state;
  if fat12_initialized s =? 0 then mret (-1) else
  dir ← load_current;
  match scan dir (λ _, false) (λ i, fat12_compare_filename (e_name dir i) name) with
  | None => mret (-1)
  | Some i =>
      if negb (is_directory dir i) then mret (-1) else
      _ ← free_chain (e_first_cluster_low dir i);
      _ ← check (inside (32 * i) 32 (32 * ENTRIES));
      _ ← update (set_entries (dir.[32 * i <- 0xE5]));
      _ ← store_current;
      mret 0
  end.

(** The parent path with its final slash: [None] when there is no slash, [Some
    []] when the parent is the root. *)
Fixpoint upto_slash (rev_path : list Z) : list Z :=
  match rev_path with [] => [] | c :: r => if c =? SLASH then rev_path else upto_slash r end.
Definition parent_path (path : list Z) : option (list Z) :=
  let p := reverse path in
  let p := match p with c :: ((_ :: _) as r) => if c =? SLASH then r else p | _ => p end in
  match upto_slash p with [] => None | [_] => Some [] | q => Some (reverse q) end.
Fixpoint component (token : list Z) : list Z * list Z :=
  match token with [] => ([], []) | c :: r => if c =? SLASH then ([], token) else let '(d, next) := component r in (c :: d, next) end.
(** The walk from the root: 0 when every component is found. *)
Definition walk (token : list Z) : fm Z :=
  Fat.fm_loop (λ token,
    if bool_decide (token = []) then mret (inr 0) else
    let '(dir_name, next_slash) := component token in
    if bool_decide (dir_name = []) then mret (inr 0) else
    dir ← load_current;
    match scan dir (λ _, false) (λ i, fat12_compare_filename (e_name dir i) dir_name && is_directory dir i) with
    | None => _ ← update (set_cwd [SLASH] 0); mret (inr (-1))
    | Some i =>
        _ ← update (λ s, set_cwd (current_dir s) (e_first_cluster_low dir i) s);
        mret match next_slash with _ :: r => inl r | [] => inr 0 end
    end) token.
Definition go_up : fm Z :=
  s ← the_state;
  if bool_decide (current_dir s = [SLASH]) then mret 0 else
  match parent_path (current_dir s) with
  | None => Fat.undefined
  | Some [] => _ ← update (set_cwd [SLASH] 0); mret 0
  | Some parent =>
      _ ← update (set_cwd [SLASH] 0);
      r ← walk (drop 1 parent);
      if negb (r =? 0) then mret r else
      _ ← update (λ s, set_cwd parent (current_dir_cluster s) s);
      mret 0
  end.
(** [strcat] of a slash, unless there is one, and of the name; [None] when the
    path and its NUL do not fit in [current_dir]. *)
Definition append_path (path name : list Z) : option (list Z) :=
  let path := if negb (path.[zlen path - 1] =? SLASH) then path ++ [SLASH] else path in
  if zlen (path ++ name) <? 256 then Some (path ++ name) else None.
Definition fat12_chdir (name : list Z) : fm Z :=
  s ← the_state;
  if fat12_initialized s =? 0 then mret (-1) else
  if bool_decide (name = [SLASH]) then _ ← update (set_cwd [SLASH] 0); mret 0 else
  if bool_decide (name = [DOT; DOT]) then go_up else
  dir ← load_current;
  match scan dir (λ _, false) (λ i, fat12_compare_filename (e_name dir i) name) with
  | None => mret (-1)
  | Some i =>
      if negb (is_directory dir i) then mret (-1) else
      path ← defined (append_path (current_dir s) name);
      _ ← update (set_cwd path (e_first_cluster_low dir i));
      mret 0
  end.
Definition fat12_getcwd (s : fat12_state) : list Z := current_dir s.
End Driver.
Arguments fat12_state : clear implicits.
End Fat12.
