(* ===== verification/Fat12Props.v ===== *)
(** * The legacy FAT12 driver: its table, its loops and its files *)
From S2P Require Import Prelude.
From S2P Require Import CString.
From S2P Require Import BlockDev.
From S2P Require Import Fat.
From S2P Require Import FatLogic.
From S2P Require Import FatTable.
From S2P Require Import FatMount.
From S2P Require Import Fat12.
Import (hints) Fat.

Module Fat12Props.
Import Fat12.
#[local] Abbreviation get := fat12_get_next_cluster.
#[local] Abbreviation put := fat12_set_cluster_value.
#[local] Abbreviation F12 := Fat.FAT_TYPE_12.

(** ** The packed table *)
Definition table_ok (t : list Z) : Prop := zlen t = FAT_TABLE_SIZE ∧ Forall is_byte t.
Definition CLUSTERS : Z := 3072.

Lemma u16_at_word s o : Fat.u16_at s o = s.[o] + 256 * s.[o + 1].
Proof. unfold Fat.u16_at. cbn [le_read]. lia. Qed.
Lemma entry_inside c : 0 ≤ c → (FAT_TABLE_SIZE <=? c + c / 2 + 1) = negb (c <? CLUSTERS).
Proof. intros Hc. unfold FAT_TABLE_SIZE, FAT12_SECTOR_SIZE, CLUSTERS. destruct (Z.leb_spec (512 * 9) (c + c / 2 + 1)), (Z.ltb_spec c 3072); cbn; try done; zdm. Qed.

Lemma get_entry t c : table_ok t → 0 ≤ c < CLUSTERS → get t c = FatTable.entry_of F12 (aget t) c.
Proof.
  intros [Ht Hb] Hc. unfold get. rewrite entry_inside by lia. replace (c <? CLUSTERS) with true by lia. cbn [negb].
  unfold FatTable.entry_of, FatTable.entry_offset. rewrite u16_at_word, FatTable.even_land.
  pose proof (FatMount.aget_byte t (c + c / 2) Hb) as H0. pose proof (FatMount.aget_byte t (c + c / 2 + 1) Hb) as H1. unfold is_byte in *.
  destruct (Z.even c); cbn [negb]; [change 0x0FFF with (2 ^ 12 - 1); by rewrite FatTable.land_mod_pow2 by lia | by rewrite Z.shiftr_div_pow2 by lia].
Qed.
Lemma get_outside t c : CLUSTERS ≤ c → get t c = 0xFFF.
Proof. intros Hc. unfold get. rewrite entry_inside by (unfold CLUSTERS in *; lia). by replace (c <? CLUSTERS) with false by lia. Qed.
Lemma get_range t c : table_ok t → 0 ≤ c → 0 ≤ get t c < 4096.
Proof.
  intros Ht Hc. destruct (Z.ltb_spec c CLUSTERS); [| by rewrite get_outside by lia]. rewrite get_entry by done.
  apply (FatTable.entry_of_range (aget t) (λ i, FatMount.aget_byte t i (proj2 Ht)) F12).
Qed.

Lemma put_inside t c v : 0 ≤ c < CLUSTERS → 0 ≤ v < 65536 →
  put c v t = ablit t (c + c / 2) (FatTable.new_bytes F12 (aget t) c v).
Proof.
  intros Hc Hv. unfold put. rewrite entry_inside by lia. replace (c <? CLUSTERS) with true by lia. cbn [negb].
  unfold Fat.put_u16, FatTable.new_bytes, FatTable.entry_offset. rewrite u16_at_word. set (w := t.[_] + _).
  f_equal. set (x := u16 _). assert (x = Fat.fat12_mix c w v) as ->.
  { unfold x, Fat.fat12_mix. rewrite (u32_small (Z.shiftl v 4)) by (rewrite Z.shiftl_mul_pow2 by lia; lia). by destruct (Z.land c 1 =? 0). }
  cbn [le_bytes]. by rewrite Z.shiftr_div_pow2 by lia.
Qed.
Lemma put_outside t c v : CLUSTERS ≤ c → put c v t = t.
Proof. intros Hc. unfold put. rewrite entry_inside by (unfold CLUSTERS in *; lia). by replace (c <? CLUSTERS) with false by lia. Qed.
Lemma put_table_ok t c v : table_ok t → 0 ≤ c → 0 ≤ v < 65536 → table_ok (put c v t).
Proof.
  intros [Ht Hb] Hc Hv. destruct (Z.ltb_spec c CLUSTERS); [| by rewrite put_outside]. rewrite put_inside by lia.
  split; [by rewrite zlen_ablit |]. apply Forall_ablit; [done | apply FatTable.new_bytes_ok].
Qed.
Lemma aget_put t c v i : table_ok t → 0 ≤ c < CLUSTERS → 0 ≤ v < 65536 →
  (put c v t).[i] = FatTable.put_bytes (aget t) (c + c / 2) (FatTable.new_bytes F12 (aget t) c v) i.
Proof.
  intros [Ht Hb] Hc Hv. rewrite put_inside by done. assert (zlen (FatTable.new_bytes F12 (aget t) c v) = 2) as L by done.
  assert (c + c / 2 + 2 ≤ zlen t) by (rewrite Ht; unfold FAT_TABLE_SIZE, FAT12_SECTOR_SIZE, CLUSTERS in *; zdm). pose proof (Z.div_pos c 2).
  destruct (decide (c + c / 2 ≤ i < c + c / 2 + 2)).
  - rewrite FatTable.put_in, aget_ablit_in by lia. done.
  - rewrite FatTable.put_out, aget_ablit_out by lia. done.
Qed.
Lemma entry_ext t F G c : (∀ i, F i = G i) → FatTable.entry_of t F c = FatTable.entry_of t G c.
Proof. intros E. unfold FatTable.entry_of. destruct t; rewrite ?E; try done; f_equal; by apply le_read_ext. Qed.
Lemma get_put_entry t c v d : table_ok t → 0 ≤ c < CLUSTERS → 0 ≤ v < 4096 → 0 ≤ d → get (put c v t) d = if d =? c then v else get t d.
Proof.
  intros Ht Hc Hv Hd. pose proof (put_table_ok t c v Ht ltac:(lia) ltac:(lia)) as Hp. pose proof (λ i, FatMount.aget_byte t i (proj2 Ht)) as HF.
  destruct (Z.ltb_spec d CLUSTERS); [| rewrite !get_outside by lia; destruct (Z.eqb_spec d c); [lia | done]].
  rewrite !get_entry by done. rewrite (entry_ext _ _ _ d (λ i, aget_put t c v i Ht Hc ltac:(lia))).
  destruct (Z.eqb_spec d c) as [-> | Hne].
  - etrans; [apply (FatTable.entry_put_same (aget t) HF F12); lia |]. by rewrite Z.mod_small.
  - apply (FatTable.entry_put_other (aget t) HF F12); lia.
Qed.

(** ** Free clusters and chains *)
Definition frees (t : list Z) : list Z := filter (λ c, get t c = 0) (seqZ 2 2847).
Lemma elem_of_frees t c : c ∈ frees t ↔ get t c = 0 ∧ 2 ≤ c < 2849.
Proof. unfold frees. rewrite list_elem_of_filter, elem_of_seqZ. lia. Qed.
Lemma NoDup_frees t : NoDup (frees t).
Proof. apply NoDup_filter, NoDup_seqZ. Qed.
(** The search returns the lowest free cluster. *)
Lemma find_free_spec t : fat12_find_free_cluster t = default 0 (head (frees t)).
Proof.
  unfold fat12_find_free_cluster, frees. change 2849 with (2 + 2847). assert (0 ≤ 2847) as Hn by lia. revert Hn. generalize 2 2847. intros lo n Hn.
  remember (Z.to_nat n) as k eqn:Ek. revert lo n Hn Ek. induction k as [| k IH]; intros lo n Hn Ek.
  { assert (n = 0) as -> by lia. by rewrite for_range_end by lia. }
  rewrite for_range_step by lia. rewrite seqZ_cons by lia. rewrite filter_cons. destruct (Z.eqb_spec (get t lo) 0) as [E | E].
  - by rewrite decide_True.
  - rewrite decide_False by done. replace (lo + n) with (Z.succ lo + Z.pred n) by lia. rewrite <- IH by lia. by rewrite <- Z.add_1_r.
Qed.
Lemma filter_ext_in (P Q : Z → Prop) `{∀ x, Decision (P x)} `{∀ x, Decision (Q x)} (l : list Z) :
  (∀ x, x ∈ l → P x ↔ Q x) → filter P l = filter Q l.
Proof.
  induction l as [| x l IH]; intros E; [done |]. rewrite !filter_cons. rewrite IH by (intros y Hy; apply E; by right).
  destruct (E x ltac:(by left)) as [E1 E2]. destruct (decide (P x)), (decide (Q x)); tauto.
Qed.
Lemma frees_put t c v : table_ok t → 0 ≤ c < CLUSTERS → 0 < v < 4096 → frees (put c v t) = filter (λ d, d ≠ c) (frees t).
Proof.
  intros Ht Hc Hv. unfold frees. rewrite list_filter_filter. apply filter_ext_in. intros d Hd%elem_of_seqZ.
  rewrite get_put_entry by (done || lia). destruct (Z.eqb_spec d c); lia.
Qed.
Lemma filter_away (l : list Z) c : c ∉ l → filter (λ d, d ≠ c) l = l.
Proof.
  induction l as [| x l IH]; intros Hc; [done |]. apply not_elem_of_cons in Hc as [Hx Hc]. rewrite filter_cons, decide_True by done. by rewrite IH.
Qed.
(** Taking the lowest free cluster; linking one that is taken. *)
Lemma frees_take t c r v : table_ok t → frees t = c :: r → 0 < v < 4096 → frees (put c v t) = r.
Proof.
  intros Ht E Hv. pose proof (NoDup_frees t) as Hnd. rewrite E in Hnd. apply NoDup_cons in Hnd as [Hc Hnd].
  assert (c ∈ frees t) as [_ Hr]%elem_of_frees by (rewrite E; by left). rewrite frees_put by (done || unfold CLUSTERS; lia).
  rewrite E, filter_cons, decide_False by tauto. by apply filter_away.
Qed.
Lemma frees_keep t c v : table_ok t → c ∉ frees t → 0 ≤ c < CLUSTERS → 0 < v < 4096 → frees (put c v t) = frees t.
Proof. intros Ht E Hc Hv. rewrite frees_put by done. by apply filter_away. Qed.

(** [links]: each cluster of the list is followed by the next one. *)
Fixpoint links (t l : list Z) : Prop :=
  match l with a :: ((b :: _) as r) => get t a = b ∧ links t r | _ => True end.
Lemma links_ext t t' l a : last l = Some a → NoDup l → (∀ c, c ∈ l → c ≠ a → get t' c = get t c) → links t l → links t' l.
Proof.
  induction l as [| x [| y l] IH]; intros Ha Hnd E Hl; [done | done |]. destruct Hl as [Hx Hl]. apply NoDup_cons in Hnd as [Hn Hnd].
  change (last (x :: y :: l)) with (last (y :: l)) in Ha. split; [| apply IH; [done | done | intros c Hc; apply E; by right | done]].
  rewrite E; [done | by left |]. intros ->. apply Hn. by apply last_Some_elem_of in Ha.
Qed.
Lemma links_snoc t l a c : last l = Some a → get t a = c → links t l → links t (l ++ [c]).
Proof.
  induction l as [| x [| y l] IH]; intros Ha Hg Hl; [done | cbn in *; by simplify_eq |].
  destruct Hl as [Hx Hl]. split; [done | by apply IH].
Qed.
(** The clusters that a loop of the driver visits from [c] on. *)
Fixpoint chain (t : list Z) (c : Z) (l : list Z) : Prop :=
  match l with [] => in_chain c = false | x :: r => c = x ∧ in_chain x = true ∧ chain t (get t x) r end.
Lemma links_chain t c l a : links t l → head l = Some c → last l = Some a → in_chain (get t a) = false →
  Forall (λ x, in_chain x = true) l → chain t c l.
Proof.
  revert c. induction l as [| x [| y l] IH]; intros c Hl Hh Ha He HF; [done | |].
  - cbn in Hh, Ha. simplify_eq. inversion HF. by split_and!.
  - cbn in Hh. simplify_eq. destruct Hl as [Hx Hl]. inversion HF. split_and!; [done | done |]. rewrite Hx. by apply IH.
Qed.

(** The allocation loop after [j] of its rounds.  A cluster taken in one round
    is not marked, so the next round finds it again and links it to itself:
    every second round takes a new cluster. *)
Definition progress (t0 t : list Z) (j first prev : Z) : Prop :=
  ∃ l r, frees t0 = l ++ r ∧ zlen l = (j + 1) / 2 ∧ head l = Some first ∧ last l = Some prev ∧ links t l ∧
    (∀ d, 0 ≤ d → d ∉ l → get t d = get t0 d) ∧ frees t = if Z.odd j then prev :: r else r.
Lemma progress_first t c r : frees t = c :: r → progress t t 1 c c.
Proof. intros E. exists [c], r. by split_and!. Qed.
Lemma progress_range t0 t j first prev : progress t0 t j first prev → 2 ≤ first < 2849 ∧ 2 ≤ prev < 2849.
Proof.
  intros (l & r & E & _ & Hh & Hl & _). assert (∀ c, c ∈ l → 2 ≤ c < 2849) as K.
  { intros c Hc. apply (elem_of_frees t0 c). rewrite E. apply elem_of_app. by left. }
  split; apply K; [by apply head_Some_elem_of | by apply last_Some_elem_of].
Qed.
Lemma progress_step t0 t j first prev : table_ok t → 0 < j → progress t0 t j first prev →
  match frees t with
  | [] => zlen (frees t0) = j / 2 ∧ Z.even j = true
  | c :: _ => table_ok (put prev c t) ∧ progress t0 (put prev c t) (j + 1) first c
  end.
Proof.
  intros Ht Hj Hp. destruct (progress_range _ _ _ _ _ Hp) as [_ Rp]. destruct Hp as (l & r & E & Hz & Hh & Hl & Hk & Hd & Hf).
  assert (NoDup (l ++ r)) as Hnd by (rewrite <- E; apply NoDup_frees). apply NoDup_app in Hnd as (Hnl & Hlr & Hnr).
  pose proof (last_Some_elem_of _ _ Hl) as Hpl.
  destruct (Z.odd j) eqn:Ej; rewrite Hf.
  - split; [apply put_table_ok; [done | lia | lia] |]. exists l, r. assert (Z.odd (j + 1) = false) as -> by (rewrite Z.odd_add; by rewrite Ej).
    split_and!; [done | | done | done | | |].
    + rewrite Hz. apply Z.odd_spec in Ej as [k ->]. zdm.
    + eapply links_ext; [done | done | | done]. intros c Hc Hne. assert (c ∈ frees t0) as [_ Rc]%elem_of_frees by (rewrite E; apply elem_of_app; by left).
      rewrite get_put_entry by (done || unfold CLUSTERS; lia). by rewrite (proj2 (Z.eqb_neq _ _) Hne).
    + intros d Hd0 Hdl. rewrite get_put_entry by (done || unfold CLUSTERS; lia). destruct (Z.eqb_spec d prev) as [-> |]; [done | by apply Hd].
    + by apply frees_take; [| | lia].
  - destruct r as [| c r].
    { split; [| by rewrite <- Z.negb_odd, Ej]. rewrite E, app_nil_r, Hz. rewrite <- Z.negb_even in Ej. apply negb_false_iff, Z.even_spec in Ej as [k ->]. zdm. }
    assert (c ∈ frees t0) as [_ Rc]%elem_of_frees by (rewrite E; apply elem_of_app; right; by left).
    assert (prev ∉ c :: r) as Hpr by (intros Hx; by apply (Hlr prev)).
    assert (∀ d, 0 ≤ d → get (put prev c t) d = if d =? prev then c else get t d) as Hg by (intros d Hd0; apply get_put_entry; [done | unfold CLUSTERS; lia | lia | done]).
    split; [apply put_table_ok; [done | lia | lia] |]. exists (l ++ [c]), r. assert (Z.odd (j + 1) = true) as -> by (rewrite Z.odd_add; by rewrite Ej).
    split_and!; [by rewrite <- app_assoc | | | by rewrite last_snoc | | |].
    + rewrite zlen_app, Hz. change (zlen [c]) with 1. rewrite <- Z.negb_even in Ej. apply negb_false_iff, Z.even_spec in Ej as [k ->]. zdm.
    + by destruct l.
    + apply links_snoc with prev; [done | by rewrite Hg, Z.eqb_refl by lia |]. eapply links_ext; [done | done | | done].
      intros d Hdl Hne. assert (d ∈ frees t0) as [_ Rd]%elem_of_frees by (rewrite E; apply elem_of_app; by left). rewrite Hg by lia. by rewrite (proj2 (Z.eqb_neq _ _) Hne).
    + intros d Hd0 Hdl. rewrite Hg by done. destruct (Z.eqb_spec d prev) as [-> |]; [exfalso; apply Hdl, elem_of_app; by left |].
      apply Hd; [done |]. intros Hx. apply Hdl, elem_of_app. by left.
    + rewrite frees_keep; [done | done | by rewrite Hf | unfold CLUSTERS; lia | lia].
Qed.
(** The finished chain: half of the clusters asked for, rounded up. *)
Lemma progress_done t0 t N first prev : table_ok t → progress t0 t N first prev →
  let l := take (Z.to_nat ((N + 1) / 2)) (frees t0) in
  table_ok (put prev 0xFFF t) ∧ chain (put prev 0xFFF t) first l ∧ zlen l = (N + 1) / 2 ∧ (∀ d, 0 ≤ d → d ∉ l → get (put prev 0xFFF t) d = get t0 d).
Proof.
  intros Ht Hp. destruct (progress_range _ _ _ _ _ Hp) as [_ Rp]. destruct Hp as (l & r & E & Hz & Hh & Hl & Hk & Hd & _). cbv zeta.
  assert (take (Z.to_nat ((N + 1) / 2)) (frees t0) = l) as -> by (rewrite E, <- Hz; unfold zlen; by rewrite Nat2Z.id, take_app_length).
  assert (∀ c, c ∈ l → 2 ≤ c < 2849) as K by (intros c Hc; apply (elem_of_frees t0 c); rewrite E; apply elem_of_app; by left).
  assert (∀ d, 0 ≤ d → get (put prev 0xFFF t) d = if d =? prev then 0xFFF else get t d) as Hg by (intros; apply get_put_entry; done || unfold CLUSTERS; lia).
  assert (NoDup l) as Hnd by (pose proof (NoDup_frees t0) as Hn; rewrite E in Hn; by apply NoDup_app in Hn as (? & _)).
  split_and!; [apply put_table_ok; done || lia | | done |].
  - apply links_chain with prev; [| done | done | by rewrite Hg, Z.eqb_refl by lia |].
    + eapply links_ext; [done | done | | done]. intros c Hc Hne. pose proof (K c Hc). rewrite Hg by lia. by rewrite (proj2 (Z.eqb_neq _ _) Hne).
    + apply Forall_forall. intros c Hc. pose proof (K c Hc). unfold in_chain. lia.
  - intros d Hd0 Hdl. rewrite Hg by done. destruct (Z.eqb_spec d prev) as [-> |]; [exfalso; by apply Hdl, last_Some_elem_of | by apply Hd].
Qed.
Lemma chain_spec t c l : chain t c l → Forall (λ x, in_chain x = true) l ∧ (in_chain c = true → ∃ r, l = c :: r ∧ chain t (get t c) r) ∧ (in_chain c = false → l = []).
Proof.
  revert c. induction l as [| x l IH]; intros c Hc; cbn in Hc.
  - split_and!; [done | intros E; congruence | done].
  - destruct Hc as (-> & Hx & Hc). destruct (IH _ Hc) as (Hl & _ & _). split_and!; [by constructor | by eexists | intros; congruence].
Qed.

(** ** Slices and sectors *)
Lemma zlen_slice s pos n : 0 ≤ pos → 0 ≤ n → pos + n ≤ zlen s → zlen (slice s pos n) = n.
Proof. intros. unfold slice. rewrite zlen_take, zlen_drop. lia. Qed.
Lemma aget_slice s pos n i : 0 ≤ pos → 0 ≤ i < n → (slice s pos n).[i] = s.[pos + i].
Proof. intros. unfold slice. rewrite aget_take, aget_drop by lia. f_equal. lia. Qed.
Lemma slice_bytes s pos n : Forall is_byte s → Forall is_byte (slice s pos n).
Proof. intros. by apply Forall_take, Forall_drop. Qed.
Lemma slice_sector s pos : Forall is_byte s → 0 ≤ pos → pos + 512 ≤ zlen s → sector_ok (slice s pos 512).
Proof. intros Hb Hp Hl. split; [pose proof (zlen_slice s pos 512) as L; unfold zlen in *; lia | by apply slice_bytes]. Qed.
Lemma slice_all s n : zlen s = n → slice s 0 n = s.
Proof. intros <-. unfold slice. cbn [Z.to_nat drop]. apply take_ge. unfold zlen. lia. Qed.
Lemma ablit_slice s pos n : 0 ≤ pos → 0 ≤ n → pos + n ≤ zlen s → ablit s pos (slice s pos n) = s.
Proof.
  intros Hp Hn Hl. pose proof (zlen_slice s pos n Hp Hn Hl) as L. apply array_ext; [by rewrite zlen_ablit |]. intros i Hi.
  destruct (decide (pos ≤ i < pos + n)); [rewrite aget_ablit_in, aget_slice by lia; f_equal; lia | by rewrite aget_ablit_out by lia].
Qed.
(** The image with the sectors of [d] laid out from [base] on. *)
Definition lay (S : FatLogic.image) (base n : Z) (d : list Z) : FatLogic.image :=
  λ l, if (base <=? l) && (l <? base + n) then slice d ((l - base) * 512) 512 else S l.
Lemma lay_zero S base d l : lay S base 0 d l = S l.
Proof. unfold lay. destruct (Z.leb_spec base l), (Z.ltb_spec l (base + 0)); done || lia. Qed.
Lemma lay_next S T base i d l : (∀ l, T l = lay S base i d l) → 0 ≤ i →
  FatLogic.upd T (base + i) (slice d (i * 512) 512) l = lay S base (i + 1) d l.
Proof.
  intros HT Hi. unfold FatLogic.upd. rewrite HT. unfold lay. destruct (Z.eqb_spec l (base + i)) as [-> | Hne].
  - replace (base <=? base + i) with true by lia. replace (base + i <? base + (i + 1)) with true by lia. by rewrite Z.add_simpl_l.
  - replace (l <? base + (i + 1)) with (l <? base + i) by lia. done.
Qed.
Lemma lay_in S base n d i : 0 ≤ i < n → lay S base n d (base + i) = slice d (i * 512) 512.
Proof. intros. unfold lay. replace (base <=? base + i) with true by lia. replace (base + i <? base + n) with true by lia. by rewrite Z.add_simpl_l. Qed.
Lemma lay_out S base n d l : l < base ∨ base + n ≤ l → lay S base n d l = S l.
Proof. intros. unfold lay. destruct (Z.leb_spec base l), (Z.ltb_spec l (base + n)); done || lia. Qed.

Definition dir_ok (d : list Z) : Prop := zlen d = 32 * ENTRIES ∧ Forall is_byte d.

(** ** A program logic: the variables of the driver and the disk's image *)
Section Logic.
Context {B : Type} `{Reliable B}.
#[local] Abbreviation st := (fat12_state B).
#[local] Abbreviation fm := (Fat.fm (fat12_state B)).
#[local] Abbreviation image := FatLogic.image.

(** From the variables [p] and the image [S], [c] returns a value. *)
Definition hoare {A} (p : st) (S : image) (c : fm A) (Q : A → st → image → Prop) : Prop :=
  ∀ b, FatLogic.holds b S → ∃ a p' S' b', c (set_dev b p) = (Fat.Val a, set_dev b' p') ∧ FatLogic.holds b' S' ∧ Q a p' S'.

Lemma h_mono {A} p S (c : fm A) (Q Q' : A → st → image → Prop) : hoare p S c Q → (∀ a p' S', Q a p' S' → Q' a p' S') → hoare p S c Q'.
Proof. intros Hc HQ b Hb. destruct (Hc b Hb) as (a & p' & S' & b' & ? & ? & ?). exists a, p', S', b'. auto. Qed.
Lemma h_image {A} p S (c : fm A) Q : (FatLogic.image_ok S → hoare p S c Q) → hoare p S c Q.
Proof. intros Hc b Hb. apply Hc; [by eapply FatLogic.holds_image_ok | done]. Qed.
Lemma h_ret {A} p S (a : A) (Q : A → st → image → Prop) : Q a p S → hoare p S (mret a) Q.
Proof. intros HQ b Hb. exists a, p, S, b. auto. Qed.
Lemma h_bind {A A'} p S (c : fm A) (k : A → fm A') (R : A → st → image → Prop) Q :
  hoare p S c R → (∀ a p' S', R a p' S' → hoare p' S' (k a) Q) → hoare p S (c ≫= k) Q.
Proof.
  intros Hc Hk b Hb. destruct (Hc b Hb) as (a & p' & S' & b' & E & Hb' & HR).
  unfold mbind, Fat.fm_bind. rewrite E. by apply (Hk a p' S' HR).
Qed.
Lemma h_state {A} p S (k : st → fm A) Q : (∀ b, hoare p S (k (set_dev b p)) Q) → hoare p S (the_state ≫= k) Q.
Proof. intros Hk b Hb. by apply Hk. Qed.
Lemma h_update p S f (Q : unit → st → image → Prop) : (∀ b, f (set_dev b p) = set_dev b (f p)) → Q tt (f p) S → hoare p S (update f) Q.
Proof. intros Hf HQ b Hb. exists tt, (f p), S, b. unfold update. by rewrite Hf. Qed.
Lemma h_bind_update {A} p S f (k : unit → fm A) Q :
  (∀ b, f (set_dev b p) = set_dev b (f p)) → hoare (f p) S (k tt) Q → hoare p S (update f ≫= k) Q.
Proof. intros Hf Hk b Hb. unfold mbind, Fat.fm_bind, update. rewrite Hf. by apply Hk. Qed.
Lemma h_check {A} p S ok (k : unit → fm A) Q : ok = true → hoare p S (k tt) Q → hoare p S (check ok ≫= k) Q.
Proof. intros -> Hk b Hb. by apply Hk. Qed.
Lemma h_next {A} p S c (k : Z → fm A) Q : hoare p S (k (get (fat_table p) c)) Q → hoare p S (get_next_cluster c ≫= k) Q.
Proof. intros Hk b Hb. by apply Hk. Qed.
Lemma h_put {A} p S c v (k : unit → fm A) Q :
  hoare (set_table (put c v (fat_table p)) p) S (k tt) Q → hoare p S (set_cluster_value c v ≫= k) Q.
Proof. intros Hk. by apply h_bind_update. Qed.
Lemma h_read {A} p S l (k : option (list Z) → fm A) Q : hoare p S (k (Some (S l))) Q → hoare p S (ata_read_sector l ≫= k) Q.
Proof.
  intros Hk b [Hok HS]. destruct (rel_read b l Hok) as [b' E]. destruct (bd_read_law _ _ _ _ Hok E) as (Hok' & Hsame & _).
  unfold mbind, Fat.fm_bind, ata_read_sector. cbn [dev set_dev]. rewrite E, HS. apply (Hk b'). split; [done |]. intros j. by rewrite Hsame.
Qed.
Lemma h_write {A} p S l s (k : Z → fm A) Q : sector_ok s → hoare p (FatLogic.upd S l s) (k 0) Q → hoare p S (ata_write_sector l s ≫= k) Q.
Proof.
  intros Hs Hk b [Hok HS]. destruct (rel_write b l s Hok Hs) as [b' E]. destruct (bd_write_law _ _ _ _ Hok Hs E) as (Hok' & Hsame).
  unfold mbind, Fat.fm_bind, ata_write_sector. cbn [dev set_dev]. rewrite E. apply (Hk b'). split; [done |]. intros j. rewrite Hsame. unfold FatLogic.upd. by rewrite HS.
Qed.

(** A [for] loop keeps its invariant. *)
Lemma h_each (I : Z → st → image → Prop) (Q : unit → st → image → Prop) lo hi body p S :
  lo ≤ hi → I lo p S →
  (∀ i p S, lo ≤ i < hi → I i p S → hoare p S (body i) (λ _ p' S', I (i + 1) p' S')) →
  (∀ p S, I hi p S → Q tt p S) → hoare p S (each lo hi body) Q.
Proof.
  intros Hle HI Hbody Hend b Hb. unfold each, Fat.fm_for. set (step := λ (i : Z) (s : st), _).
  pose proof (for_range_inv (λ i s, ∃ q T b, s = set_dev b q ∧ FatLogic.holds b T ∧ I i q T) (λ _ : Fat.outcome (option unit) * st, False) lo hi step (set_dev b p)) as HF.
  assert (∀ i s, lo ≤ i < hi → (∃ q T b, s = set_dev b q ∧ FatLogic.holds b T ∧ I i q T) →
    ∃ q T b, step i s = inl (set_dev b q) ∧ FatLogic.holds b T ∧ I (i + 1) q T) as Hstep.
  { intros i s Hi (q & T & b0 & -> & Hb0 & HT). destruct (Hbody i q T Hi HT b0 Hb0) as (a & q' & T' & b' & E & Hb' & HI').
    exists q', T', b'. unfold step, mbind, Fat.fm_bind. by rewrite E. }
  unfold mbind at 1, Fat.fm_bind at 1. destruct (for_range lo hi step (set_dev b p)) as [s' | x].
  - destruct HF as (q & T & b' & -> & Hb' & HT).
    + by exists p, S, b.
    + intros i s s1 Hi Hs E. destruct (Hstep i s Hi Hs) as (q & T & b1 & E' & ?). rewrite E in E'. injection E' as ->. by exists q, T, b1.
    + intros i s r Hi Hs E. destruct (Hstep i s Hi Hs) as (q & T & b1 & E' & ?). by rewrite E in E'.
    + rewrite Z.max_r in HT by done. exists tt, q, T, b'. auto.
  - destruct HF.
    + by exists p, S, b.
    + intros i s s1 Hi Hs E. destruct (Hstep i s Hi Hs) as (q & T & b1 & E' & ?). rewrite E in E'. injection E' as ->. by exists q, T, b1.
    + intros i s r Hi Hs E. destruct (Hstep i s Hi Hs) as (q & T & b1 & E' & ?). by rewrite E in E'.
Qed.
(** A [while] loop ends: every step decreases the bound or leaves. *)
Lemma h_loop {K R} (I : Z → K → st → image → Prop) (Q : R → st → image → Prop) (step : K → fm (K + R)) n k p S :
  I n k p S → n < Fat.LOOP_FUEL →
  (∀ n k p S, I n k p S → 0 ≤ n ∧
     hoare p S (step k) (λ r p' S', match r with inl k' => ∃ n', n' < n ∧ I n' k' p' S' | inr x => Q x p' S' end)) →
  hoare p S (Fat.fm_loop step k) Q.
Proof.
  intros HI Hn Hstep b Hb. unfold Fat.fm_loop. set (f := λ sb : K * st, _).
  assert (∀ j n k b p S, FatLogic.holds b S → I n k p S → n < Z.of_nat j →
    ∃ r p' S' b', iter_nat j f (k, set_dev b p) = inr (Fat.Val r, set_dev b' p') ∧ FatLogic.holds b' S' ∧ Q r p' S') as L.
  { intros j. induction j as [| j IH]; intros n1 k1 b1 p1 S1 Hb1 HI1 Hm1; [destruct (Hstep _ _ _ _ HI1); lia |].
    destruct (Hstep _ _ _ _ HI1) as [_ Hs]. destruct (Hs b1 Hb1) as (r & p' & S' & b' & E & Hb' & HQ).
    cbn [iter_nat]. unfold f at 1. cbn [fst snd]. rewrite E. destruct r as [k' | x].
    - destruct HQ as (n' & Hlt & HI'). by apply (IH n' k' b' p' S'); [done | done | lia].
    - exists x, p', S', b'. auto. }
  rewrite iterZ_nat. destruct (L (Z.to_nat Fat.LOOP_FUEL) n k b p S Hb HI) as (r & p' & S' & b' & E & ? & ?); [lia |].
  rewrite E. exists r, p', S', b'. auto.
Qed.

(** *** The table and the root directory reach the disk and come back *)
Lemma table_inside i : 0 ≤ i < 9 → inside (i * 512) 512 FAT_TABLE_SIZE = true.
Proof. unfold inside, FAT_TABLE_SIZE, FAT12_SECTOR_SIZE. lia. Qed.
Lemma root_inside i : 0 ≤ i < 14 → inside (i * 512) 512 (32 * ENTRIES) = true.
Proof. unfold inside, ENTRIES. lia. Qed.
Lemma entries_inside i : 0 ≤ i < ENTRIES →
  inside 0 (32 * Z.min 16 (ENTRIES - i)) 512 && inside (32 * i) (32 * Z.min 16 (ENTRIES - i)) (32 * ENTRIES) = true.
Proof. unfold inside, ENTRIES. lia. Qed.
Lemma set_table_id p : set_table (fat_table p) p = p :> st.
Proof. by destruct p. Qed.
Lemma set_root_id p : set_root (root_dir p) p = p :> st.
Proof. by destruct p. Qed.
Lemma write_copy_spec base n p S : table_ok (fat_table p) → 0 ≤ n ≤ 9 →
  hoare p S (each 0 n (λ i, write_table_sector (base + i) i)) (λ _ p' S', p' = p ∧ ∀ l, S' l = lay S base n (fat_table p) l).
Proof.
  intros [Ht Hb] Hn. apply (h_each (λ i p' S', p' = p ∧ ∀ l, S' l = lay S base i (fat_table p) l)); [lia | | | done].
  - split; [done |]. intros l. by rewrite lay_zero.
  - intros i q T Hi [-> HT]. apply h_check; [by apply table_inside; lia |]. apply h_state. intros b. cbn [fat_table set_dev].
    apply h_write; [apply slice_sector; [done | lia | rewrite Ht; unfold FAT_TABLE_SIZE, FAT12_SECTOR_SIZE; lia] |].
    apply h_ret. split; [done |]. intros l. apply lay_next; [done | lia].
Qed.
Lemma read_copy_spec base n p S : table_ok (fat_table p) → 0 ≤ n ≤ 9 → (∀ i, 0 ≤ i < n → S (base + i) = slice (fat_table p) (i * 512) 512) →
  hoare p S (each 0 n (λ i, read_table_sector (base + i) i)) (λ _ p' S', p' = p ∧ S' = S).
Proof.
  intros [Ht Hb] Hn HS. apply (h_each (λ i p' S', p' = p ∧ S' = S)); [lia | done | | done].
  intros i q T Hi [-> ->]. apply h_check; [by apply table_inside; lia |]. apply h_read. rewrite HS by lia. apply h_update; [done |].
  rewrite ablit_slice by (rewrite ?Ht; unfold FAT_TABLE_SIZE, FAT12_SECTOR_SIZE; lia). by rewrite set_table_id.
Qed.
Lemma write_fat_table_spec p S : table_ok (fat_table p) → 0 ≤ sectors_per_fat (bpb p) →
  hoare p S fat12_write_fat_table (λ _ p' S', p' = p ∧
    ∀ l, l < reserved_sectors (bpb p) ∨ reserved_sectors (bpb p) + 2 * sectors_per_fat (bpb p) ≤ l → S' l = S l).
Proof.
  intros Ht Hf. unfold fat12_write_fat_table. apply h_state. intros b. cbn [bpb set_dev].
  set (r := reserved_sectors (bpb p)). set (f := sectors_per_fat (bpb p)) in *.
  eapply h_bind; [apply write_copy_spec; [done | lia] |]. intros _ q S1 [-> K1].
  eapply h_bind; [apply write_copy_spec; [done | lia] |]. intros _ q S2 [-> K2].
  eapply h_mono; [apply read_copy_spec; [done | lia |] |].
  - intros i Hi. rewrite K2, lay_out, K1, lay_in by lia. done.
  - intros _ q S3 [-> ->]. split; [done |]. intros l Hl. rewrite K2, lay_out, K1, lay_out by lia. done.
Qed.
Lemma write_root_spec p S : dir_ok (root_dir p) → 0 ≤ root_dir_sectors (bpb p) →
  hoare p S fat12_write_root_dir (λ _ p' S', p' = p ∧
    ∀ l, S' l = lay S (root_dir_start (bpb p)) (Z.min (root_dir_sectors (bpb p)) 14) (root_dir p) l).
Proof.
  intros [Ht Hb] Hr. unfold fat12_write_root_dir. apply h_state. intros b. cbn [bpb root_dir set_dev].
  apply (h_each (λ i p' S', p' = p ∧ ∀ l, S' l = lay S (root_dir_start (bpb p)) i (root_dir p) l)); [lia | | | done].
  - split; [done |]. intros l. by rewrite lay_zero.
  - intros i q T Hi [-> HT]. apply h_check; [by apply root_inside; lia |]. apply h_write; [apply slice_sector; [done | lia | rewrite Ht; unfold ENTRIES; lia] |].
    apply h_ret. split; [done |]. intros l. apply lay_next; [done | lia].
Qed.
Lemma reload_root_spec p S : dir_ok (root_dir p) → 0 ≤ root_dir_sectors (bpb p) →
  (∀ i, 0 ≤ i < Z.min (root_dir_sectors (bpb p)) 14 → S (root_dir_start (bpb p) + i) = slice (root_dir p) (i * 512) 512) →
  hoare p S fat12_reload_root_dir (λ _ p' S', p' = p ∧ S' = S).
Proof.
  intros [Ht Hb] Hr HS. unfold fat12_reload_root_dir. apply h_state. intros b. cbn [bpb set_dev].
  apply (h_each (λ i p' S', p' = p ∧ S' = S)); [lia | done | | done].
  intros i q T Hi [-> ->]. apply h_check; [by apply root_inside; lia |]. apply h_read. rewrite HS by lia. apply h_update; [done |].
  rewrite ablit_slice by (rewrite ?Ht; unfold ENTRIES; lia). by rewrite set_root_id.
Qed.

Definition bpb_ok (b : fat12_bpb_t) : Prop := Forall is_byte b.
Lemma root_sectors_nonneg b : bpb_ok b → 0 ≤ root_dir_sectors b.
Proof. intros Hb. unfold root_dir_sectors. pose proof (FatMount.u16_at_range b 17 Hb). unfold root_dir_entries. zdm. Qed.

(** *** Directories *)
Lemma load_directory_spec c p S : table_ok (fat_table p) → dir_ok (root_dir p) → 0 ≤ c →
  hoare p S (fat12_load_directory c) (λ d p' S', p' = p ∧ S' = S ∧ dir_ok d ∧ (c = 0 → d = root_dir p)).
Proof.
  intros Ht Hr Hc. unfold fat12_load_directory. apply h_state. intros b. destruct (Z.eqb_spec c 0) as [-> | Hc0].
  { apply h_ret. by split_and!. }
  apply (h_loop (λ n '(cl, i, e) p' S', p' = p ∧ S' = S ∧ 0 ≤ cl ∧ 0 ≤ i ≤ ENTRIES ∧ dir_ok e ∧ n = ENTRIES - i) _ _ ENTRIES); [| done |].
  { split_and!; try done; try lia. split; [done |]. by apply Forall_replicate. }
  intros n [[cl i] e] q T (-> & -> & Hcl & Hi & [He1 He2] & ->). split; [lia |]. cbn [bpb set_dev].
  destruct (in_chain cl); [| by apply h_ret; split_and!]. destruct (Z.ltb_spec i ENTRIES); [| by apply h_ret; split_and!]. cbn [andb negb].
  apply h_image. intros HS. apply h_read. cbn [defined]. apply h_bind with (λ s p' S', s = S (cluster_sector (bpb p) cl) ∧ p' = p ∧ S' = S); [by apply h_ret |].
  intros ? ? ? (-> & -> & ->). apply h_check; [apply entries_inside; lia |]. apply h_next, h_ret. exists (ENTRIES - (i + Z.min 16 (ENTRIES - i))). split; [lia |].
  split_and!; try done; try lia; [by apply get_range |]. split; [by rewrite zlen_ablit |]. apply Forall_ablit; [done | by apply slice_bytes, HS].
Qed.
Lemma sector_of_ok d pos n : Forall is_byte d → sector_ok (ablit (replicate 512 0) 0 (slice d pos n)).
Proof. intros Hd. split; [by rewrite length_ablit |]. apply Forall_ablit; [by apply Forall_replicate | by apply slice_bytes]. Qed.
Lemma write_directory_spec c e p S : table_ok (fat_table p) → bpb_ok (bpb p) → dir_ok e → 0 ≤ c →
  hoare p S (fat12_write_directory c e) (λ _ p' S', p' = (if c =? 0 then set_root e p else p) ∧
    (c = 0 → ∀ l, S' l = lay S (root_dir_start (bpb p)) (Z.min (root_dir_sectors (bpb p)) 14) e l)).
Proof.
  intros Ht Hb [He1 He2] Hc. unfold fat12_write_directory. destruct (Z.eqb_spec c 0) as [-> | Hc0].
  { apply h_bind_update; [done |]. eapply h_mono; [apply write_root_spec; [done | by apply root_sectors_nonneg] |]. by intros _ q S' [-> HS]. }
  apply h_state. intros b. apply (h_loop (λ n '(cl, i) p' S', p' = p ∧ 0 ≤ cl ∧ 0 ≤ i ≤ ENTRIES ∧ n = ENTRIES - i) _ _ ENTRIES); [| done |].
  { split_and!; try done; lia. }
  intros n [cl i] q T (-> & Hcl & Hi & ->). split; [lia |]. cbn [bpb set_dev].
  destruct (in_chain cl); [| by apply h_ret]. destruct (Z.ltb_spec i ENTRIES); [| by apply h_ret]. cbn [andb negb].
  apply h_check; [apply entries_inside; lia |]. apply h_write; [by apply sector_of_ok |]. apply h_next, h_ret. exists (ENTRIES - (i + Z.min 16 (ENTRIES - i))). split; [lia |].
  split_and!; try done; try lia. by apply get_range.
Qed.
(** What an operation changes on the disk besides its data. *)
Definition metadata (b : fat12_bpb_t) (l : Z) : Prop :=
  reserved_sectors b ≤ l < reserved_sectors b + 2 * sectors_per_fat b ∨ root_dir_start b ≤ l < root_dir_start b + root_dir_sectors b.
Lemma store_current_spec p S : table_ok (fat_table p) → bpb_ok (bpb p) → dir_ok (current_dir_entries p) → 0 ≤ current_dir_cluster p →
  hoare p S store_current (λ _ p' S', p' = (if current_dir_cluster p =? 0 then set_root (current_dir_entries p) p else p) ∧
    (current_dir_cluster p = 0 → ∀ l, ¬ metadata (bpb p) l → S' l = S l)).
Proof.
  intros Ht Hb He Hc. pose proof (root_sectors_nonneg _ Hb) as Hr. assert (0 ≤ sectors_per_fat (bpb p)) as Hf by apply (FatMount.u16_at_range _ 22 Hb).
  unfold store_current, metadata. eapply h_bind; [by apply write_fat_table_spec |]. intros _ q S1 [-> K1]. apply h_state. intros b.
  cbn [current_dir_cluster current_dir_entries set_dev]. eapply h_bind; [by apply write_directory_spec |]. intros _ q S2 [-> K2].
  destruct (Z.eqb_spec (current_dir_cluster p) 0) as [E | E]; [| by apply h_ret].
  eapply h_mono; [apply reload_root_spec; [done | done |] |].
  - intros i Hi. cbn [bpb root_dir set_root]. rewrite (K2 E), lay_in by done. done.
  - intros _ q S3 [-> ->]. split; [done |]. intros _ l Hl. rewrite (K2 E), lay_out, K1 by lia. done.
Qed.
Lemma load_current_spec p S : table_ok (fat_table p) → dir_ok (root_dir p) → 0 ≤ current_dir_cluster p →
  hoare p S load_current (λ d p' S', p' = set_entries d p ∧ S' = S ∧ dir_ok d ∧ (current_dir_cluster p = 0 → d = root_dir p)).
Proof.
  intros Ht Hr Hc. unfold load_current. apply h_state. intros b. eapply h_bind; [by apply load_directory_spec |].
  intros d q T (-> & -> & Hd & Hd0). apply h_bind_update; [done |]. by apply h_ret.
Qed.

(** *** Chains in memory *)
Definition busy (t : list Z) : Z := countb (λ c, negb (get t c =? 0)) (seqZ 0 CLUSTERS).
Lemma busy_free t c : table_ok t → 0 ≤ c < CLUSTERS → get t c ≠ 0 → busy t = busy (put c 0 t) + 1.
Proof.
  intros Ht Hc Hg. unfold busy. set (f := λ d, negb (get (put c 0 t) d =? 0)). set (g := λ d, negb (get t d =? 0)).
  rewrite <- (countb_ext (λ d, if d =? c then false else g d) f).
  2:{ intros d [Hd _]%elem_of_seqZ. unfold f. rewrite get_put_entry by (done || lia). by destruct (d =? c). }
  apply (countb_switch _ _ _ c); [apply NoDup_seqZ | apply elem_of_seqZ; lia | by rewrite Z.eqb_refl | unfold g; lia |].
  intros d Hd. by rewrite (proj2 (Z.eqb_neq _ _) Hd).
Qed.
(** Releasing a chain ends, also on a table with a cycle. *)
Lemma free_chain_ends c p S : table_ok (fat_table p) → 0 ≤ c →
  hoare p S (free_chain c) (λ _ p' S', S' = S ∧ ∃ t, p' = set_table t p ∧ table_ok t).
Proof.
  intros Ht Hc. apply (h_loop (λ n c p' S', S' = S ∧ 0 ≤ c ∧ ∃ t, p' = set_table t p ∧ table_ok t ∧ n = busy t + cbool (in_chain c)) _ _ (busy (fat_table p) + cbool (in_chain c))).
  - split_and!; [done | done |]. exists (fat_table p). by rewrite set_table_id.
  - pose proof (countb_seqZ_le (λ c, negb (get (fat_table p) c =? 0)) 0 CLUSTERS ltac:(done)). unfold busy, CLUSTERS, Fat.LOOP_FUEL in *. destruct (in_chain c); cbn; lia.
  - intros n d q T (-> & Hd & t & -> & Hto & ->). pose proof (countb_nonneg (λ c, negb (get t c =? 0)) (seqZ 0 CLUSTERS)) as Hn. fold (busy t) in Hn.
    split; [destruct (in_chain d); cbn; lia |]. destruct (in_chain d) eqn:Ed; [| apply h_ret; split; [done |]; by exists t]. cbn [negb].
    apply h_next, h_put, h_ret. cbn [fat_table set_table]. exists (busy (put d 0 t) + cbool (in_chain (get t d))). split.
    2:{ split_and!; [done | by apply get_range |]. exists (put d 0 t). split_and!; [done | by apply put_table_ok |done]. }
    destruct (Z.ltb_spec d CLUSTERS); [| rewrite put_outside, get_outside by done; cbn; lia].
    destruct (decide (get t d = 0)) as [E | E]; [| rewrite (busy_free t d) by done; destruct (in_chain (get t d)); cbn; lia].
    rewrite E. cbn [in_chain cbool]. assert (busy (put d 0 t) = busy t) as ->; [| cbn; lia]. unfold busy. apply countb_ext.
    intros x [Hx _]%elem_of_seqZ. rewrite get_put_entry by (done || lia). destruct (Z.eqb_spec x d) as [-> |]; [by rewrite E | done].
Qed.
Lemma allocate_spec N p S : table_ok (fat_table p) → 0 < N < 2 ^ 32 →
  hoare p S (allocate N) (λ r p' S', S' = S ∧ ∃ t, p' = set_table t p ∧ table_ok t ∧
    match r with
    | inl first => zlen (frees (fat_table p)) < (N + 1) / 2 ∧ 0 ≤ first
    | inr (first, prev) => progress (fat_table p) t N first prev
    end).
Proof.
  intros Ht HN. set (t0 := fat_table p) in *.
  apply (h_loop (λ n '(j, first, prev) p' S', S' = S ∧ ∃ t, p' = set_table t p ∧ table_ok t ∧ n = N - j ∧ 0 ≤ j ≤ N ∧
    ((j = 0 ∧ first = 0 ∧ t = t0) ∨ (0 < j ∧ progress t0 t j first prev))) _ _ N); [| unfold Fat.LOOP_FUEL; lia |].
  { split; [done |]. exists t0. unfold t0. rewrite set_table_id. split_and!; try done; try lia. by left. }
  intros n [[j first] prev] q T (-> & t & -> & Hto & -> & Hj & Hp). split; [lia |].
  destruct (Z.ltb_spec j N); cbn [negb].
  2:{ apply h_ret. split; [done |]. exists t. split_and!; [done | done |]. destruct Hp as [Hp | [_ Hp]]; [lia |]. by replace N with j by lia. }
  apply h_state. intros b. cbn [fat_table set_dev set_table]. rewrite find_free_spec.
  destruct Hp as [(-> & -> & ->) | [Hj0 Hp]].
  - destruct (frees t0) as [| c r] eqn:Ef; cbn [head default].
    { cbn [Z.eqb]. apply h_ret. split; [done |]. exists t0. split_and!; [done | done | | done]. change (zlen []) with 0. zdm. }
    assert (c ∈ frees t0) as [_ Rc]%elem_of_frees by (rewrite Ef; by left). cbn [from_option id]. rewrite (proj2 (Z.eqb_neq c 0)) by lia.
    eapply h_bind with (λ _ p' S', p' = set_table t0 p ∧ S' = S); [by apply h_ret |]. intros _ ? ? [-> ->]. apply h_ret.
    exists (N - 1). split; [lia |]. split; [done |]. exists t0. split_and!; try done; try lia. right. split; [lia |]. by eapply progress_first.
  - pose proof (progress_range _ _ _ _ _ Hp) as [Rf Rp]. pose proof (progress_step _ _ _ _ _ Hto Hj0 Hp) as Hs. destruct (frees t) as [| c r] eqn:Ef; cbn [head default].
    { cbn [Z.eqb]. apply h_ret. destruct Hs as [Hs Hev]. split; [done |]. exists t. split_and!; [done | done | | lia]. rewrite Hs.
      apply Z.even_spec in Hev as [k ->]. zdm. }
    assert (c ∈ frees t) as [_ Rc]%elem_of_frees by (rewrite Ef; by left). cbn [from_option id]. rewrite (proj2 (Z.eqb_neq c 0)), (proj2 (Z.eqb_neq j 0)) by lia.
    destruct Hs as [Hs1 Hs2]. apply h_put, h_ret. exists (N - (j + 1)). split; [lia |]. split; [done |]. exists (put prev c t).
    split_and!; try done; try lia. right. split; [lia | done].
Qed.

(** *** File contents along a chain *)
Lemma cluster_sector_inj b c d : 1 ≤ sectors_per_cluster b → cluster_sector b c = cluster_sector b d → c = d.
Proof. intros Hs. unfold cluster_sector. nia. Qed.
(** The first [n] bytes of the clusters [l] are those of [data]. *)
Definition stored (S : image) (b : fat12_bpb_t) (l data : list Z) (n : Z) : Prop :=
  ∀ i, 0 ≤ i < n → (S (cluster_sector b l.[i / 512])).[i mod 512] = data.[i].
Lemma write_data_spec p S c l data size : table_ok (fat_table p) → chain (fat_table p) c l → NoDup l → 1 ≤ sectors_per_cluster (bpb p) →
  Forall is_byte data → 0 ≤ size ≤ zlen data → size < 2 ^ 32 →
  hoare p S (write_data c data size) (λ _ p' S', p' = p ∧ stored S' (bpb p) l data (Z.min size (512 * zlen l))).
Proof.
  intros Ht Hch Hnd Hspc Hby Hsz Hs32. unfold write_data. apply h_state. intros b. cbn [bpb set_dev].
  apply (h_loop (λ n '(cl, w) p' S', p' = p ∧ n = size - w ∧ ∃ dn rest, l = dn ++ rest ∧ chain (fat_table p) cl rest ∧
     w = Z.min size (512 * zlen dn) ∧ stored S' (bpb p) l data w) _ _ size); [| unfold Fat.LOOP_FUEL; lia |].
  { split_and!; [done | lia |]. exists [], l. split_and!; [done | done | change (zlen []) with 0; lia | intros i Hi; lia]. }
  intros n [cl w] q T (-> & -> & dn & rest & -> & Hc & Hw & Hst). split; [lia |].
  destruct (chain_spec _ _ _ Hc) as (_ & Hin & Hout). pose proof (zlen_nonneg dn). pose proof (zlen_nonneg rest).
  destruct (in_chain cl).
  2:{ cbn [andb negb]. apply h_ret. split; [done |]. rewrite (Hout eq_refl), app_nil_r in *. intros i Hi. apply Hst. lia. }
  destruct (Z.ltb_spec w size); cbn [andb negb].
  2:{ apply h_ret. split; [done |]. intros i Hi. apply Hst. lia. }
  destruct (Hin eq_refl) as (rest' & -> & Hc'). set (k := Z.min (size - w) 512).
  apply h_check; [unfold inside; lia |]. assert (w = 512 * zlen dn) as Ew by lia.
  apply h_write; [by apply sector_of_ok |]. apply h_next, h_ret. exists (size - (w + k)). split; [lia |]. split_and!; [done | done |].
  exists (dn ++ [cl]), rest'. rewrite zlen_app. change (zlen [cl]) with 1. split_and!; [by rewrite <- app_assoc | done | lia |].
  intros i Hi. assert ((dn ++ cl :: rest').[zlen dn] = cl) as Ecl by (rewrite aget_app_r by lia; by rewrite Z.sub_diag).
  unfold FatLogic.upd. destruct (Z.ltb_spec i w).
  - rewrite (proj2 (Z.eqb_neq _ _)); [apply Hst; lia |]. intros Ex%cluster_sector_inj; [| done].
    rewrite aget_app_l in Ex by zdm. apply NoDup_app in Hnd as (_ & Hd & _). apply (Hd cl); [| by left].
    rewrite <- Ex. eapply list_elem_of_lookup_2, lookup_aget. zdm.
  - replace (i / 512) with (zlen dn) by zdm. rewrite Ecl, Z.eqb_refl. pose proof (zlen_slice data w k ltac:(lia) ltac:(lia) ltac:(lia)) as Lk.
    rewrite aget_ablit_in by (rewrite ?zlen_replicate; zdm). rewrite aget_slice by zdm. f_equal. zdm.
Qed.
Lemma read_chain_spec p S c size cap : table_ok (fat_table p) → 0 ≤ c → 0 ≤ size < 2 ^ 32 →
  size ≤ cap ∨ (∃ l, chain (fat_table p) c l ∧ Z.min size (512 * zlen l) ≤ cap) →
  hoare p S (read_chain (bpb p) c size cap) (λ buf p' S', p' = p ∧ S' = S ∧
    ∀ l, chain (fat_table p) c l → zlen buf = Z.min size (512 * zlen l) ∧ stored S (bpb p) l buf (zlen buf)).
Proof.
  intros Ht Hc Hs Hcap. unfold read_chain.
  apply (h_loop (λ n '(cl, buf) p' S', p' = p ∧ S' = S ∧ 0 ≤ cl ∧ n = size - zlen buf ∧ 0 ≤ n ∧
     ∀ l, chain (fat_table p) c l → ∃ dn rest, l = dn ++ rest ∧ chain (fat_table p) cl rest ∧
     zlen buf = Z.min size (512 * zlen dn) ∧ stored S (bpb p) l buf (zlen buf)) _ _ size); [| unfold Fat.LOOP_FUEL; lia |].
  { change (zlen []) with 0. split_and!; try done; try lia. intros l Hl. exists [], l. split_and!; [done | done | change (zlen []) with 0; lia | intros i Hi; lia]. }
  intros n [cl buf] q T (-> & -> & Hcl & -> & Hn & HL). split; [lia |].
  destruct (in_chain cl) eqn:Ein.
  2:{ cbn [andb negb]. apply h_ret. split_and!; [done | done |]. intros l Hl. destruct (HL l Hl) as (dn & rest & -> & Hch & Hz & Hst).
      rewrite (proj2 (proj2 (chain_spec _ _ _ Hch)) Ein), app_nil_r in *. by split. }
  destruct (Z.ltb_spec (zlen buf) size); cbn [andb negb].
  2:{ apply h_ret. split_and!; [done | done |]. intros l Hl. destruct (HL l Hl) as (dn & rest & -> & Hch & Hz & Hst).
      split; [| done]. rewrite zlen_app. pose proof (zlen_nonneg rest). lia. }
  apply h_image. intros HS. apply h_read. cbn [defined]. set (sec := S (cluster_sector (bpb p) cl)). assert (zlen sec = 512) as Lsec by (unfold zlen, sec; by rewrite (proj1 (HS _))).
  apply h_bind with (λ s p' S', s = sec ∧ p' = p ∧ S' = S); [by apply h_ret |]. intros ? ? ? (-> & -> & ->). set (k := Z.min (size - zlen buf) 512). apply h_check.
  { assert (zlen buf + k ≤ cap); [| pose proof (zlen_nonneg buf); unfold inside; lia]. destruct Hcap as [| (l & Hl & Hcap)]; [lia |].
    destruct (HL l Hl) as (dn & rest & -> & Hch & Hz & _). destruct (proj1 (proj2 (chain_spec _ _ _ Hch)) Ein) as (rest' & -> & _).
    rewrite zlen_app, zlen_cons in Hcap. pose proof (zlen_nonneg rest'). lia. }
  apply h_next, h_ret. pose proof (zlen_slice sec 0 k ltac:(lia) ltac:(lia) ltac:(lia)) as Lk. rewrite zlen_app, Lk.
  exists (size - (zlen buf + k)). split; [lia |]. split_and!; [done | done | by apply get_range | done | lia |].
  intros l Hl. destruct (HL l Hl) as (dn & rest & -> & Hch & Hz & Hst). destruct (proj1 (proj2 (chain_spec _ _ _ Hch)) Ein) as (rest' & -> & Hc').
  pose proof (zlen_nonneg dn). exists (dn ++ [cl]), rest'. rewrite zlen_app. change (zlen [cl]) with 1. split_and!; [by rewrite <- app_assoc | done | lia |].
  intros i Hi. assert (zlen buf = 512 * zlen dn) by lia. destruct (Z.ltb_spec i (zlen buf)); [rewrite (aget_app_l buf) by lia; apply Hst; lia |]. replace (i / 512) with (zlen dn) by zdm.
  rewrite (aget_app_r dn) by lia. rewrite Z.sub_diag, aget_cons_0. fold sec. rewrite (aget_app_r buf) by lia. rewrite aget_slice by zdm. f_equal. zdm.
Qed.
End Logic.
End Fat12Props.
