(* ===== verification/Fat12Files.v ===== *)
(** * The legacy FAT12 driver: directory entries, files and names *)
From S2P Require Import Prelude.
From S2P Require Import CString.
From S2P Require Import BlockDev.
From S2P Require Import Fat.
From S2P Require Import FatLogic.
From S2P Require Import FatTable.
From S2P Require Import FatMount.
From S2P Require Import Fat12.
From S2P Require Import Fat12Props.
Import (hints) Fat.

Module Fat12Files.
Import Fat12 Fat12Props.
#[local] Abbreviation get := fat12_get_next_cluster.

(** ** Searching the entries *)
Section Search.
Context {R : Type} (f : Z → unit + R).
#[local] Abbreviation search lo hi := (for_range lo hi (λ i (_ : unit), f i) tt).

Lemma search_cases lo hi : lo ≤ hi →
  match search lo hi with
  | inr r => ∃ i, lo ≤ i < hi ∧ f i = inr r ∧ ∀ k, lo ≤ k < i → f k = inl tt
  | inl _ => ∀ k, lo ≤ k < hi → f k = inl tt
  end.
Proof.
  intros Hle. remember (Z.to_nat (hi - lo)) as n eqn:En. revert lo Hle En. induction n as [| n IH]; intros lo Hle En.
  { rewrite for_range_end by lia. intros; lia. }
  rewrite for_range_step by lia. destruct (f lo) as [[] | r] eqn:E.
  - specialize (IH (lo + 1) ltac:(lia) ltac:(lia)). destruct (for_range (lo + 1) hi _ tt) as [u | r].
    + intros k Hk. destruct (Z.eqb_spec k lo) as [-> |]; [done | apply IH; lia].
    + destruct IH as (i & Hi & Ei & Hk). exists i. split_and!; [lia | lia | done |]. intros k Hk'. destruct (Z.eqb_spec k lo) as [-> |]; [done | apply Hk; lia].
  - exists lo. split_and!; [lia | lia | done | intros; lia].
Qed.
Lemma search_hit lo hi i r : lo ≤ i < hi → f i = inr r → (∀ k, lo ≤ k < i → f k = inl tt) → search lo hi = inr r.
Proof.
  intros Hi Ei Hk. pose proof (search_cases lo hi ltac:(lia)) as K. destruct (search lo hi) as [u | r'].
  - rewrite K in Ei by lia. done.
  - destruct K as (j & Hj & Ej & Hkj). destruct (Z.lt_trichotomy i j) as [Hlt | [-> | Hlt]]; [| congruence |].
    + rewrite Hkj in Ei by lia. done.
    + rewrite Hk in Ej by lia. done.
Qed.
End Search.

Definition live (dir : list Z) (k : Z) : bool := negb (e_first dir k =? 0) && negb (e_first dir k =? 0xE5).
Section Scan.
Context (dir : list Z) (skip pick : Z → bool).
Definition scan_body (i : Z) : unit + option Z :=
  if e_first dir i =? 0 then inr None else if (e_first dir i =? 0xE5) || skip i then inl tt else if pick i then inr (Some i) else inl tt.
Lemma scan_some i : scan dir skip pick = Some i → 0 ≤ i < ENTRIES ∧ live dir i = true ∧ skip i = false ∧ pick i = true.
Proof.
  unfold scan, live. pose proof (search_cases scan_body 0 ENTRIES ltac:(done)) as K. change (for_range 0 ENTRIES _ tt) with (for_range 0 ENTRIES (λ i (_ : unit), scan_body i) tt).
  destruct (for_range 0 ENTRIES (λ i (_ : unit), scan_body i) tt) as [u | r]; [done |]. intros ->. destruct K as (j & Hj & Ej & _). unfold scan_body in Ej.
  destruct (e_first dir j =? 0) eqn:E0; [done |]. destruct (e_first dir j =? 0xE5) eqn:E5; [done |]. destruct (skip j) eqn:Es; [done |]. destruct (pick j) eqn:Ep; [| done].
  injection Ej as <-. rewrite E0, E5. by split_and!; [lia | lia | | |].
Qed.
Lemma scan_hit i : 0 ≤ i < ENTRIES → live dir i = true → skip i = false → pick i = true →
  (∀ k, 0 ≤ k < i → live dir k = true ∧ pick k = false) → scan dir skip pick = Some i.
Proof.
  intros Hi Hl Hs Hp Hk. unfold scan, live in *. change (for_range 0 ENTRIES _ tt) with (for_range 0 ENTRIES (λ i (_ : unit), scan_body i) tt).
  rewrite (search_hit scan_body 0 ENTRIES i (Some i)); [done | done | |].
  - unfold scan_body. destruct (e_first dir i =? 0), (e_first dir i =? 0xE5); try done. by rewrite Hs, Hp.
  - intros k Hk'. destruct (Hk k Hk') as [L P]. unfold scan_body. destruct (e_first dir k =? 0), (e_first dir k =? 0xE5); try done. rewrite P. by destruct (skip k).
Qed.
End Scan.
Lemma scan_none dir skip pick : (∀ k, 0 ≤ k < ENTRIES → live dir k = true → pick k = false) → scan dir skip pick = None.
Proof. intros Hk. destruct (scan dir skip pick) as [i |] eqn:E; [| done]. apply scan_some in E as (Hi & Hl & _ & Hp). by rewrite (Hk i Hi Hl) in Hp. Qed.
Lemma free_entry_spec dir : find_free_entry dir = -1 ∨
  0 ≤ find_free_entry dir < ENTRIES ∧ live dir (find_free_entry dir) = false ∧ ∀ k, 0 ≤ k < find_free_entry dir → live dir k = true.
Proof.
  unfold find_free_entry. pose proof (search_cases (λ i, if (e_first dir i =? 0) || (e_first dir i =? 0xE5) then inr i else inl tt) 0 ENTRIES ltac:(done)) as K.
  destruct (for_range 0 ENTRIES _ tt) as [u | i]; [by left | right]. destruct K as (j & Hj & Ej & Hk). unfold live.
  destruct (e_first dir j =? 0) eqn:E0, (e_first dir j =? 0xE5) eqn:E5; cbn in Ej; try done; injection Ej as <-.
  all: split_and!; [lia | lia | by rewrite E0, E5 |]; intros k Hk'; specialize (Hk k Hk'); by destruct (e_first dir k =? 0), (e_first dir k =? 0xE5).
Qed.

(** ** Names *)
Lemma upcase_idem c : Fat.upcase (Fat.upcase c) = Fat.upcase c.
Proof. unfold Fat.upcase. destruct (97 <=? c) eqn:E1, (c <=? 122) eqn:E2; cbn; rewrite ?E1, ?E2; try done. by replace (97 <=? c - 32) with false by lia. Qed.
Lemma upcase_byte c : is_byte c → is_byte (Fat.upcase c).
Proof. unfold is_byte, Fat.upcase. destruct (Z.leb_spec 97 c), (c <=? 122); cbn; lia. Qed.
Lemma parse_base_spec n s : (length (parse_base n s).1 ≤ n)%nat ∧ ∃ rest, (parse_base n s).2 = rest ∧ s = (parse_base n s).1 ++ rest.
Proof.
  revert s. induction n as [| n IH]; intros s; [split; [done | by exists s] |]. destruct s as [| c s]; [split; [cbn; lia | by exists []] |]. cbn [parse_base].
  destruct (c =? DOT); [split; [cbn; lia | by exists (c :: s)] |]. destruct (IH s) as [L (rest & E1 & E2)]. destruct (parse_base n s) as [o r]. cbn in *. subst r.
  split; [lia |]. exists rest. by rewrite E2 at 1.
Qed.
Lemma pad_length n s : (length s ≤ n)%nat → length (Fat.pad n s) = n.
Proof. intros. unfold Fat.pad. rewrite length_take, length_app, length_replicate. lia. Qed.
Lemma pad_Forall (P : Z → Prop) n s : Forall P s → P 32 → Forall P (Fat.pad n s).
Proof. intros. unfold Fat.pad. apply Forall_take, Forall_app. split; [done | by apply Forall_replicate]. Qed.
Lemma parse_spec (P : Z → Prop) s : length (fat12_parse_filename s) = 11%nat ∧ (Forall P s → P 32 → Forall P (fat12_parse_filename s)).
Proof.
  unfold fat12_parse_filename. destruct (parse_base_spec 8 s) as [L (rest & E1 & E2)]. destruct (parse_base 8 s) as [o r]. cbn [fst snd] in *. subst rest.
  set (r' := match r with c :: q => if c =? DOT then q else r | [] => [] end). split.
  - rewrite length_app, !pad_length; [done | rewrite length_take; lia | done].
  - intros Hs H32. rewrite E2 in Hs. apply Forall_app in Hs as [Ho Hr]. assert (Forall P r') as Hr' by (unfold r'; destruct r as [| c q]; [done |]; destruct (c =? DOT); [by inversion Hr | done]).
    apply Forall_app. split; apply pad_Forall; [done | done | by apply Forall_take | done].
Qed.
(** The first character is kept, or a space stands for an empty base. *)
Lemma parse_first s : s ≠ [] → (fat12_parse_filename s).[0] = s.[0] ∨ (fat12_parse_filename s).[0] = 32.
Proof.
  destruct s as [| c s]; [done |]. intros _. unfold fat12_parse_filename.
  assert (parse_base 8 (c :: s) = if c =? DOT then ([], c :: s) else let '(o, rest) := parse_base 7 s in (c :: o, rest)) as -> by reflexivity.
  destruct (c =? DOT); [by right | left]. by destruct (parse_base 7 s) as [o r].
Qed.
Definition named (name : list Z) : list Z := Fat.upcase <$> fat12_parse_filename name.
Lemma aget_upcase s i : 0 ≤ i < zlen s → (Fat.upcase <$> s).[i] = Fat.upcase s.[i].
Proof. intros Hi. apply aget_lookup; [lia |]. by rewrite list_lookup_fmap, (lookup_aget s i Hi). Qed.
Lemma compare_named name e : length e = 11%nat → fat12_compare_filename e name = true ↔ Fat.upcase <$> e = named name.
Proof.
  intros Le. unfold fat12_compare_filename, named. destruct (parse_spec is_byte name) as [Lp _]. rewrite List.forallb_forall. split.
  - intros Hk. apply array_ext; [unfold zlen; by rewrite !length_fmap, Le, Lp |]. intros i Hi. rewrite zlen_fmap in Hi.
    rewrite !aget_upcase by (unfold zlen in *; lia). symmetry. apply Z.eqb_eq, Hk, list_elem_of_In, elem_of_seqZ. unfold zlen in *. lia.
  - intros E i Hi%list_elem_of_In%elem_of_seqZ. apply Z.eqb_eq. rewrite <- !aget_upcase by (unfold zlen; lia). by rewrite E.
Qed.
Lemma named_spec name : length (named name) = 11%nat ∧ (Forall is_byte name → Forall is_byte (named name)).
Proof.
  unfold named. destruct (parse_spec is_byte name) as [Lp Hp]. split; [by rewrite length_fmap |]. intros Hn. specialize (Hp Hn ltac:(done)).
  apply Forall_fmap. eapply Forall_impl; [exact Hp |]. apply upcase_byte.
Qed.
Lemma named_twice name : Fat.upcase <$> named name = named name.
Proof. unfold named. rewrite <- list_fmap_compose. apply list_fmap_ext. intros i c _. apply upcase_idem. Qed.
(** A name that does not begin with the mark of a deleted entry is visible. *)
Lemma named_first name : name ≠ [] → 0 ∉ name → name.[0] ≠ 0xE5 → (named name).[0] ≠ 0 ∧ (named name).[0] ≠ 0xE5.
Proof.
  intros Hn H0 HE. unfold named. destruct (parse_spec is_byte name) as [Lp _]. rewrite aget_upcase by (unfold zlen; lia).
  assert (name.[0] ≠ 0) as Hc. { intros E. apply H0. rewrite <- E. destruct name; [done |]. by left. }
  unfold Fat.upcase. destruct (parse_first name Hn) as [-> | ->]; [| done]. destruct (97 <=? name.[0]) eqn:E1, (name.[0] <=? 122) eqn:E2; cbn; lia.
Qed.

(** ** Filling an entry *)
Definition entry_bytes (name : list Z) (attributes first size : Z) : list Z :=
  named name ++ [attributes] ++ replicate 14 0 ++ le_bytes 2 first ++ le_bytes 4 size.
Lemma zlen_entry name a f z : zlen (entry_bytes name a f z) = 32.
Proof. unfold entry_bytes. rewrite !zlen_app. unfold zlen. rewrite (proj1 (named_spec name)), !length_le_bytes. done. Qed.
Section Fill.
Context (dir : list Z) (i : Z) (name : list Z) (a f z : Z) (Hd : dir_ok dir) (Hi : 0 ≤ i < ENTRIES).
#[local] Abbreviation filled := (fill_entry dir i name a f z).
Lemma filled_ok : Forall is_byte name → is_byte a → dir_ok filled.
Proof.
  intros Hn Ha. destruct Hd as [L Hb]. split; [unfold fill_entry; by rewrite zlen_ablit |]. apply Forall_ablit; [done |].
  repeat (apply Forall_app; split); try apply le_bytes_is_byte; [by apply named_spec | by constructor | by apply Forall_replicate].
Qed.
Lemma filled_out x : x < 32 * i ∨ 32 * i + 32 ≤ x → filled.[x] = dir.[x].
Proof. intros Hx. unfold fill_entry. fold (named name). fold (entry_bytes name a f z). apply aget_ablit_out. rewrite zlen_entry. lia. Qed.
Lemma filled_in x : 0 ≤ x < 32 → filled.[32 * i + x] = (entry_bytes name a f z).[x].
Proof.
  intros Hx. destruct Hd as [L _]. unfold fill_entry. fold (named name). fold (entry_bytes name a f z). rewrite aget_ablit_in by (rewrite ?zlen_entry, ?L; unfold ENTRIES in *; lia). f_equal. lia.
Qed.
Lemma filled_name : e_name filled i = named name.
Proof.
  destruct (named_spec name) as [Ln _]. destruct Hd as [L _]. unfold e_name. assert (zlen filled = 32 * ENTRIES) as Lf by (unfold fill_entry; by rewrite zlen_ablit).
  apply array_ext; [rewrite zlen_slice by (rewrite ?Lf; lia); unfold zlen; lia |]. intros x Hx. rewrite zlen_slice in Hx by (rewrite ?Lf; lia).
  rewrite aget_slice, filled_in by lia. unfold entry_bytes. by rewrite aget_app_l by (unfold zlen; lia).
Qed.
Lemma filled_first : e_first filled i = (named name).[0].
Proof.
  destruct (named_spec name) as [Ln _]. unfold e_first. rewrite <- (Z.add_0_r (32 * i)), filled_in by lia. unfold entry_bytes. by rewrite aget_app_l by (unfold zlen; lia).
Qed.
Lemma filled_attributes : e_attributes filled i = a.
Proof.
  destruct (named_spec name) as [Ln _]. unfold e_attributes. rewrite filled_in by lia. unfold entry_bytes. rewrite aget_app_r by (unfold zlen; lia).
  unfold zlen. by rewrite Ln.
Qed.
Lemma filled_cluster : 0 ≤ f < 65536 → e_first_cluster_low filled i = f.
Proof.
  intros Hf. unfold e_first_cluster_low, Fat.u16_at. rewrite (le_read_shift 2 _ (aget (entry_bytes name a f z)) _ 26) by (intros x Hx; rewrite <- filled_in by lia; f_equal; lia).
  unfold entry_bytes. rewrite !(app_assoc (named name)), !(app_assoc (named name ++ [a])). set (h := (named name ++ [a]) ++ _).
  assert (zlen h = 26) as Lh by (unfold h; rewrite !zlen_app; unfold zlen; by rewrite (proj1 (named_spec name))). rewrite <- Lh, (le_read_app 2). by rewrite Z.mod_small.
Qed.
Lemma filled_size : 0 ≤ z < 2 ^ 32 → e_file_size filled i = z.
Proof.
  intros Hz. unfold e_file_size, Fat.u32_at. rewrite (le_read_shift 4 _ (aget (entry_bytes name a f z)) _ 28) by (intros x Hx; rewrite <- filled_in by lia; f_equal; lia).
  unfold entry_bytes. rewrite <- (app_nil_r (le_bytes 4 z)), !(app_assoc (named name)), !(app_assoc (named name ++ [a])), (app_assoc ((named name ++ [a]) ++ _)). set (h := ((named name ++ [a]) ++ _) ++ _).
  assert (zlen h = 28) as Lh by (unfold h; rewrite !zlen_app; unfold zlen; by rewrite (proj1 (named_spec name))). rewrite <- Lh, (le_read_app 4). by rewrite Z.mod_small.
Qed.
End Fill.

(** ** An entry is matched by what lies at or before it *)
Section Agree.
Context (d d' : list Z) (m : Z) (Hl : zlen d' = zlen d) (Ha : ∀ x, 0 ≤ x < m → d'.[x] = d.[x]).
Lemma agree_slice pos n : 0 ≤ pos → pos + n ≤ m → slice d' pos n = slice d pos n.
Proof.
  intros Hp Hm. apply array_ext; [unfold slice; by rewrite !zlen_take, !zlen_drop, Hl |]. intros i Hi.
  unfold slice in Hi. rewrite zlen_take in Hi. rewrite !aget_slice by lia. apply Ha. lia.
Qed.
Lemma agree_seq n k : 32 * (k + 1) ≤ m → lfn_seq n d' k = lfn_seq n d k.
Proof.
  revert k. induction n as [| n IH]; intros k Hk; [done |]. cbn [lfn_seq]. destruct (Z.leb_spec 0 k); [| done]. cbn [negb].
  unfold is_lfn, e_attributes, e_first. rewrite !Ha by lia. by rewrite IH by lia.
Qed.
Lemma seq_range n e k : Forall (λ x, 0 ≤ x ≤ k) (lfn_seq n e k).
Proof.
  revert k. induction n as [| n IH]; intros k; [done |]. cbn [lfn_seq]. destruct (Z.leb_spec 0 k); [| done]. cbn [negb].
  destruct (negb (is_lfn e k)); [done |]. destruct (negb (_ =? 0)); [by constructor |]. constructor; [lia |].
  eapply Forall_impl; [apply IH |]. cbn. lia.
Qed.
Lemma agree_matches k name : 0 ≤ k → 32 * (k + 1) ≤ m → fat12_entry_matches d' k name = fat12_entry_matches d k name.
Proof.
  intros H0 Hk. unfold fat12_entry_matches, fat12_read_lfn, e_name. rewrite agree_slice, agree_seq by lia.
  assert (map (lfn_units d') (reverse (lfn_seq 20 d (k - 1))) = map (lfn_units d) (reverse (lfn_seq 20 d (k - 1)))) as ->; [| done].
  apply map_ext_in. intros x Hx%list_elem_of_In. rewrite elem_of_reverse in Hx. pose proof (proj1 (Forall_forall _ _) (seq_range 20 d (k - 1)) x Hx) as Hr. cbn in Hr.
  unfold lfn_units. by rewrite agree_slice by lia.
Qed.
End Agree.

(** ** Creating a file and reading it *)
Section Driver.
Context {B : Type} `{Reliable B}.
#[local] Abbreviation st := (fat12_state B).

Record vars_ok (p : st) : Prop := VarsOk {
  vo_bpb : bpb_ok (bpb p);
  vo_table : table_ok (fat_table p);
  vo_root : dir_ok (root_dir p);
  vo_entries : dir_ok (current_dir_entries p);
  vo_cluster : 0 ≤ current_dir_cluster p < 65536;
  vo_path : (∃ r, current_dir p = SLASH :: r) ∧ zlen (current_dir p) < 256
}.
Lemma clusters_for_range size : 0 ≤ size → size + 511 < 2 ^ 32 → clusters_for size = Z.max 1 ((size + 511) / 512) ∧ 0 < clusters_for size < 2 ^ 32.
Proof. intros Hs Hm. unfold clusters_for, u32. rewrite Z.mod_small by lia. destruct (Z.eqb_spec ((size + 511) / 512) 0) as [-> |]; zdm. Qed.
Lemma entry_inside_dir i : 0 ≤ i < ENTRIES → inside (32 * i) 32 (32 * ENTRIES) = true.
Proof. unfold inside, ENTRIES. lia. Qed.
(** How much of a file reaches the disk. *)
Definition kept (size : Z) : Z := Z.min size (512 * ((clusters_for size + 1) / 2)).
Lemma kept_small size : 0 ≤ size ≤ 512 → kept size = size.
Proof. intros Hs. unfold kept. destruct (clusters_for_range size) as [-> _]; [lia | lia |]. zdm. Qed.

Lemma create_file_spec p S name data size : vars_ok p → current_dir_cluster p = 0 → Forall is_byte name → Forall is_byte data →
  0 ≤ size ≤ zlen data → size + 511 < 2 ^ 32 → 1 ≤ sectors_per_cluster (bpb p) → 2 ≤ fat_count (bpb p) →
  find_free_entry (current_dir_entries p) ≠ -1 → (clusters_for size + 1) / 2 ≤ zlen (frees (fat_table p)) →
  hoare p S (create_file name data size) (λ r p' S', r = 0 ∧ ∃ t first l,
    let d := fill_entry (current_dir_entries p) (find_free_entry (current_dir_entries p)) name FAT12_ATTR_ARCHIVE first size in
    p' = set_root d (set_entries d (set_table t p)) ∧ table_ok t ∧ dir_ok d ∧ 2 ≤ first < 2849 ∧ chain t first l ∧ zlen l = (clusters_for size + 1) / 2 ∧
    stored S' (bpb p) l data (kept size)).
Proof.
  intros [Hb Ht Hr He Hc Hp] Hc0 Hn Hd Hs Hs32 Hspc Hfc Hfree Hroom. destruct (clusters_for_range size ltac:(lia) Hs32) as [_ Hcl].
  unfold create_file. eapply h_bind; [by apply allocate_spec |]. intros [first | [first prev]] q T (-> & t & -> & Hto & Hr'); [lia |].
  destruct (progress_range _ _ _ _ _ Hr') as [Rf _]. destruct (progress_done _ _ _ _ _ Hto Hr') as (Ht1 & Hch & Hz & _).
  set (l := take _ (frees (fat_table p))) in *. assert (NoDup l) as Hnd by (eapply sublist_NoDup; [apply NoDup_frees | apply sublist_take]).
  apply h_put. set (t1 := fat12_set_cluster_value prev 0xFFF t) in *. apply h_state. intros b. cbn [current_dir_entries set_dev set_table].
  rewrite (proj2 (Z.eqb_neq _ _) Hfree). set (i := find_free_entry (current_dir_entries p)) in *.
  destruct (free_entry_spec (current_dir_entries p)) as [? | (Hi & _)]; [done |]. fold i in Hi.
  apply h_check; [by apply entry_inside_dir |]. apply h_bind_update; [done |]. cbn [current_dir_entries set_table].
  assert (dir_ok (fill_entry (current_dir_entries p) i name FAT12_ATTR_ARCHIVE first size)) as Hdok by (apply filled_ok; done).
  set (d := fill_entry _ _ _ _ _ _) in *.
  eapply h_bind; [apply write_data_spec with (l := l); done || lia |]. intros _ ? S1 [-> Hst].
  eapply h_bind; [apply store_current_spec; done || (cbn; lia) |]. intros _ ? S2 [-> Hkeep]. apply h_ret. split; [done |]. exists t1, first, l. cbv zeta. fold i d.
  cbn [current_dir_cluster set_entries set_table bpb] in *. rewrite Hc0 in *. cbn [Z.eqb]. split_and!; [done | done | done | lia | lia | done | done |].
  intros x Hx. unfold kept in Hx. rewrite <- Hz in Hx. rewrite (Hkeep eq_refl); [by apply Hst |]. unfold metadata, cluster_sector, data_start, root_dir_start.
  pose proof (root_sectors_nonneg _ Hb) as H0r. unfold root_dir_sectors in *. pose proof (FatMount.u16_at_range (bpb p) 22 Hb) as H0f. fold (sectors_per_fat (bpb p)) in H0f.
  assert (in_chain l.[x / 512] = true) as Hin by (apply (Forall_aget (λ c, in_chain c = true)); [apply (chain_spec _ _ _ Hch) | zdm]). unfold in_chain in Hin. nia.
Qed.
Lemma read_found p S name cap i l : table_ok (fat_table p) → bpb_ok (bpb p) → dir_ok (root_dir p) → current_dir_cluster p = 0 → fat12_initialized p ≠ 0 →
  scan (root_dir p) (λ i, is_directory (root_dir p) i || is_volume_id (root_dir p) i || is_lfn (root_dir p) i)
    (λ i, fat12_entry_matches (root_dir p) i name && (2 <=? e_first_cluster_low (root_dir p) i)) = Some i →
  chain (fat_table p) (e_first_cluster_low (root_dir p) i) l → Z.min (e_file_size (root_dir p) i) (512 * zlen l) ≤ cap →
  hoare p S (fat12_read name cap) (λ r p' S', r.1 = 0 ∧ ∃ buf, r.2 = Some buf ∧
    zlen buf = Z.min (e_file_size (root_dir p) i) (512 * zlen l) ∧ stored S (bpb p) l buf (zlen buf)).
Proof.
  intros Ht Hb Hr Hc Hini Hscan Hch Hcap. unfold fat12_read. apply h_state. intros b. cbn [fat12_initialized set_dev]. rewrite (proj2 (Z.eqb_neq _ _) Hini).
  eapply h_bind; [apply load_current_spec; done || lia |]. intros d q T (-> & -> & _ & Ed). rewrite (Ed Hc), Hscan.
  eapply h_bind; [apply (read_chain_spec (set_entries (root_dir p) p)); [done | by apply FatMount.u16_at_range, Hr | by apply FatMount.u32_at_range, Hr | right; by exists l] |].
  intros buf q T (-> & -> & HL). apply h_ret. split; [done |]. exists buf. split; [done |]. by apply HL.
Qed.
Lemma stored_eq S b l data buf : zlen buf ≤ zlen data → stored S b l data (zlen buf) → stored S b l buf (zlen buf) → buf = take (Z.to_nat (zlen buf)) data.
Proof.
  intros Hz K1 K2. apply array_ext; [rewrite zlen_take; unfold zlen in *; lia |]. intros i Hi. rewrite aget_take by lia. by rewrite <- (K1 i Hi), (K2 i Hi).
Qed.

Lemma create_read_spec p S name data size cap : kept size ≤ cap → vars_ok p → fat12_initialized p ≠ 0 → current_dir_cluster p = 0 →
  1 ≤ sectors_per_cluster (bpb p) → 2 ≤ fat_count (bpb p) →
  name ≠ [] → Forall is_byte name → 0 ∉ name → name.[0] ≠ 0xE5 → Forall is_byte data → 0 ≤ size ≤ zlen data → size + 511 < 2 ^ 32 →
  (∀ k, 0 ≤ k < ENTRIES → live (root_dir p) k = true → fat12_entry_matches (root_dir p) k name = false) →
  find_free_entry (root_dir p) ≠ -1 → (clusters_for size + 1) / 2 ≤ zlen (frees (fat_table p)) →
  hoare p S (fat12_create name data size) (λ r p' S', r = 0 ∧
    hoare p' S' (fat12_read name cap) (λ r _ _, r = (0, Some (take (Z.to_nat (kept size)) data)))).
Proof.
  intros Hcap Hok Hini Hc Hspc Hfc Hne Hn Hnul HE Hd Hs Hs32 Hno Hfree Hroom. pose proof Hok as [Hb Ht Hr He Hcl Hp].
  unfold fat12_create. apply h_state. intros b. cbn [fat12_initialized set_dev]. rewrite (proj2 (Z.eqb_neq _ _) Hini), bool_decide_eq_false_2 by done.
  eapply h_bind; [apply load_current_spec; done || lia |]. intros d q T (-> & -> & _ & Ed). rewrite (Ed Hc). clear d Ed.
  rewrite scan_none.
  2:{ intros k Hk Hl. specialize (Hno k Hk Hl). unfold fat12_entry_matches in Hno. by apply orb_false_elim in Hno as [_ ->]. }
  eapply h_mono; [apply create_file_spec; try done; by constructor |]. cbn [current_dir_entries set_entries bpb].
  intros r q S1 (-> & t & first & l & -> & Ht1 & Hdok & Rf & Hch & Hz & Hst). split; [done |]. set (i := find_free_entry (root_dir p)) in *.
  destruct (free_entry_spec (root_dir p)) as [? | (Hi & _ & Hlive)]; [done |]. fold i in Hi, Hlive. set (f := fill_entry _ _ _ _ _ _) in *.
  destruct (named_first name Hne Hnul HE) as [N1 N2]. assert (e_attributes f i = FAT12_ATTR_ARCHIVE) as Ea by (by apply filled_attributes).
  assert (e_first_cluster_low f i = first) as Ec by (apply filled_cluster; done || lia). assert (e_file_size f i = size) as Ez by (apply filled_size; done || lia).
  assert (∀ x, 0 ≤ x < 32 * i → f.[x] = (root_dir p).[x]) as Hag by (intros x Hx; apply filled_out; lia).
  assert (zlen f = zlen (root_dir p)) as Lf by (unfold f, fill_entry; by rewrite zlen_ablit).
  eapply h_mono; [eapply read_found with (i := i) (l := l) |]; try done; cbn [root_dir set_root fat_table set_entries set_table bpb].
  - apply scan_hit; [done | unfold live, f; rewrite filled_first by done; lia | unfold is_directory, is_volume_id, is_lfn; by rewrite Ea | |].
    + rewrite Ec. apply andb_true_intro. split; [| lia]. unfold fat12_entry_matches. apply orb_true_intro. right. unfold f. rewrite filled_name by done.
      apply compare_named; [by apply named_spec | apply named_twice].
    + intros k Hk. unfold live, e_first. rewrite Hag by lia. split; [by apply Hlive |]. rewrite (agree_matches (root_dir p) f (32 * i)) by (done || lia).
      by rewrite Hno by (done || lia || by apply Hlive).
  - by rewrite Ec.
  - by rewrite Ez, Hz.
  - intros [rc o] q S2 (Erc & buf & Eo & Hlen & Hbuf). cbn in Erc, Eo. subst rc o. rewrite Ez, Hz in Hlen. fold (kept size) in Hlen.
    rewrite <- Hlen in Hst |- *. do 2 f_equal. apply (stored_eq S1 (bpb p) l); [rewrite Hlen; unfold kept; lia | done | done].
Qed.

(** ** Every operation returns and keeps the variables well formed *)
Lemma ok_entries p d : vars_ok p → dir_ok d → vars_ok (set_entries d p).
Proof. intros [] Hd. by constructor. Qed.
Lemma ok_table p t : vars_ok p → table_ok t → vars_ok (set_table t p).
Proof. intros [] Ht. by constructor. Qed.
Lemma ok_root p d : vars_ok p → dir_ok d → vars_ok (set_root d p).
Proof. intros [] Hd. by constructor. Qed.
Lemma ok_bpb p b : vars_ok p → bpb_ok b → vars_ok (set_bpb b p).
Proof. intros [] Hb. by constructor. Qed.
Lemma ok_cwd p path c : vars_ok p → 0 ≤ c < 65536 → (∃ r, path = SLASH :: r) → zlen path < 256 → vars_ok (set_cwd path c p).
Proof. intros [] Hc Hp Hl. by constructor. Qed.
Lemma ok_initialized p n : vars_ok p → vars_ok (set_initialized n p).
Proof. intros []. by constructor. Qed.
Lemma ok_put p c v : vars_ok p → 0 ≤ c → 0 ≤ v < 65536 → vars_ok (set_table (fat12_set_cluster_value c v (fat_table p)) p).
Proof. intros Hp Hc Hv. apply ok_table; [done |]. by apply put_table_ok; [apply Hp | |]. Qed.
Definition keeps {A} (c : Fat.fm st A) : Prop := ∀ p S, vars_ok p → hoare p S c (λ _ p' _, vars_ok p').

Lemma keeps_load p S : vars_ok p → hoare p S load_current (λ d p' _, p' = set_entries d p ∧ dir_ok d ∧ vars_ok p' ∧ (current_dir_cluster p = 0 → d = root_dir p)).
Proof.
  intros Hp. eapply h_mono; [apply load_current_spec; apply Hp |]. intros d q T (-> & _ & Hd & Hd0). split_and!; [done | done | by apply ok_entries | done].
Qed.
Lemma keeps_store : keeps store_current.
Proof.
  intros p S Hp. eapply h_mono; [apply store_current_spec; apply Hp |]. intros ? q T [-> _]. destruct (_ =? 0); [| done]. apply ok_root; [done | apply Hp].
Qed.
Lemma keeps_free c : 0 ≤ c → keeps (free_chain c).
Proof. intros Hc p S Hp. eapply h_mono; [apply free_chain_ends; [apply Hp | done] |]. intros ? q T (_ & t & -> & Ht). by apply ok_table. Qed.
Lemma keeps_each lo hi body : lo ≤ hi → (∀ i, lo ≤ i < hi → keeps (body i)) → keeps (each lo hi body).
Proof. intros Hle Hb p S Hp. apply (h_each (λ _ p _, vars_ok p)); [done | done | | done]. intros i q T Hi Hq. by apply Hb. Qed.
Lemma keeps_read_table l i : 0 ≤ i < 9 → keeps (read_table_sector l i).
Proof.
  intros Hi p S Hp. apply h_check; [by apply table_inside |]. apply h_image. intros HS. apply h_read, h_update; [done |]. apply ok_table; [done |]. destruct (vo_table p Hp) as [L F].
  split; [by rewrite zlen_ablit |]. apply Forall_ablit; [done | apply HS].
Qed.
Lemma keeps_reload : keeps fat12_reload_root_dir.
Proof.
  intros p S Hp. unfold fat12_reload_root_dir. apply h_state. intros b. cbn [bpb set_dev]. pose proof (root_sectors_nonneg _ (vo_bpb p Hp)).
  apply keeps_each; [lia | | done]. intros i Hi q T Hq. apply h_check; [apply root_inside; lia |]. apply h_image. intros HS. apply h_read, h_update; [done |]. apply ok_root; [done |].
  destruct (vo_root q Hq) as [L F]. split; [by rewrite zlen_ablit |]. apply Forall_ablit; [done | apply HS].
Qed.
Lemma keeps_volume : keeps load_volume.
Proof.
  intros p S Hp. unfold load_volume. apply h_state. intros b. cbn [bpb set_dev]. assert (0 ≤ sectors_per_fat (bpb p)) by apply (FatMount.u16_at_range _ 22 (vo_bpb p Hp)).
  eapply h_bind; [apply keeps_each; [lia | intros i Hi; apply keeps_read_table; lia | done] |]. intros ? q T Hq. eapply h_bind; [by apply keeps_reload |]. intros ? q' T' Hq'.
  apply h_update; [done |]. by apply ok_initialized.
Qed.

Lemma keeps_write_data p S first data size l : vars_ok p → chain (fat_table p) first l → NoDup l → 1 ≤ sectors_per_cluster (bpb p) → Forall is_byte data → 0 ≤ size ≤ zlen data → size < 2 ^ 32 →
  hoare p S (write_data first data size) (λ _ p' _, vars_ok p').
Proof. intros Hp Hc Hn Hs Hd Hz Hm. eapply h_mono; [eapply write_data_spec; try done; apply Hp |]. by intros ? q T [-> _]. Qed.
(** The allocation of a chain, up to its end mark. *)
Lemma allocated p t N first prev : vars_ok p → table_ok t → progress (fat_table p) t N first prev →
  2 ≤ first < 2849 ∧ 2 ≤ prev < 2849 ∧ ∃ l, NoDup l ∧ chain (fat12_set_cluster_value prev 0xFFF t) first l.
Proof.
  intros Hp Ht Hr. destruct (progress_range _ _ _ _ _ Hr) as [Rf Rp]. destruct (progress_done _ _ _ _ _ Ht Hr) as (_ & Hc & _). split_and!; [lia.. |].
  eexists. split; [| exact Hc]. eapply sublist_NoDup; [apply NoDup_frees | apply sublist_take].
Qed.
Section Writes.
Context (data : list Z) (size : Z) (Hd : Forall is_byte data) (Hsz : 0 ≤ size ≤ zlen data) (Hs32 : size + 511 < 2 ^ 32).
Lemma keeps_update_file p S i : 0 ≤ i < ENTRIES → vars_ok p → 1 ≤ sectors_per_cluster (bpb p) → hoare p S (update_file i data size) (λ _ p' _, vars_ok p').
Proof.
  intros Hi Hp Hspc. unfold update_file. destruct (clusters_for_range size ltac:(lia) Hs32) as [_ Hcl]. apply h_state. intros b. cbn [current_dir_entries set_dev].
  eapply h_bind; [apply free_chain_ends; [apply Hp | by apply FatMount.u16_at_range, Hp] |]. intros ? q T (-> & t & -> & Ht).
  pose proof (ok_table p t Hp Ht) as Hq. eapply h_bind; [by apply allocate_spec |]. intros [first | [first prev]] q T1 (-> & t1 & -> & Ht1 & Hr); [by apply h_ret, ok_table |].
  destruct (allocated _ _ _ _ _ Hq Ht1 Hr) as (Rf & Rp & l & Hnd & Hch). apply h_put, h_check; [by apply entry_inside_dir |]. apply h_bind_update; [done |]. cbn [fat_table set_table current_dir_entries set_entries].
  eapply h_bind; [eapply keeps_write_data with (l := l); try done; try lia |].
  - apply ok_entries; [apply ok_table; [by apply ok_table | apply put_table_ok; done || lia] |]. destruct (vo_entries p Hp) as [L F]. unfold Fat.put_u32, Fat.put_u16.
    split; [by rewrite !zlen_ablit |]. by repeat (apply Forall_ablit; [| apply le_bytes_is_byte]).
  - intros ? q T2 Hq2. eapply h_bind; [by apply keeps_store |]. intros ? q' T3 Hq3. by apply h_ret.
Qed.
Lemma keeps_create_file p S name : vars_ok p → 1 ≤ sectors_per_cluster (bpb p) → Forall is_byte name → hoare p S (create_file name data size) (λ _ p' _, vars_ok p').
Proof.
  intros Hp Hspc Hn. unfold create_file. destruct (clusters_for_range size ltac:(lia) Hs32) as [_ Hcl].
  eapply h_bind; [apply allocate_spec; [apply Hp | done] |]. intros [first | [first prev]] q T1 (-> & t1 & -> & Ht1 & Hr).
  { destruct Hr as [_ Hf]. eapply h_bind; [apply keeps_free; [done | by apply ok_table] |]. intros ? q T2 Hq. by apply h_ret. }
  destruct (allocated _ _ _ _ _ Hp Ht1 Hr) as (Rf & Rp & l & Hnd & Hch). apply h_put, h_state. intros b. cbn [current_dir_entries set_dev set_table fat_table].
  pose proof (ok_table p _ Hp (put_table_ok t1 prev 0xFFF Ht1 ltac:(lia) ltac:(lia))) as Hq.
  destruct (Z.eqb_spec (find_free_entry (current_dir_entries p)) (-1)) as [E | E]; [by apply h_ret |].
  destruct (free_entry_spec (current_dir_entries p)) as [? | (Hi & _)]; [done |]. apply h_check; [by apply entry_inside_dir |]. apply h_bind_update; [done |].
  eapply h_bind; [eapply keeps_write_data with (l := l); try done; try lia |].
  - apply ok_entries; [done |]. apply filled_ok; done || apply Hp.
  - intros ? q T2 Hq2. eapply h_bind; [by apply keeps_store |]. intros ? q' T3 Hq3. by apply h_ret.
Qed.
End Writes.

Lemma cluster_low_range d i : dir_ok d → 0 ≤ e_first_cluster_low d i < 65536.
Proof. intros Hd. apply FatMount.u16_at_range, Hd. Qed.
(** The buffer is long enough for what a directory entry may announce. *)
Definition room_for (p : st) (capacity : Z) : Prop :=
  2 ^ 32 - 1 ≤ capacity ∨ (current_dir_cluster p = 0 ∧ ∀ i, 0 ≤ i < ENTRIES → e_file_size (root_dir p) i ≤ capacity).
Lemma keeps_read p S name cap : vars_ok p → room_for p cap → hoare p S (fat12_read name cap) (λ _ p' _, vars_ok p').
Proof.
  intros Hp Hroom. unfold fat12_read. apply h_state. intros b. destruct (_ =? 0); [by apply h_ret |]. eapply h_bind; [by apply keeps_load |].
  intros d q T (-> & Hd & Hq & Hd0). destruct (scan _ _ _) as [i |] eqn:Ei; [| by apply h_ret]. apply scan_some in Ei as (Hi & _).
  pose proof (FatMount.u32_at_range d (32 * i + 28) (proj2 Hd)) as Hsz. fold (e_file_size d i) in Hsz.
  eapply h_bind; [apply (read_chain_spec (set_entries d p)); [apply Hq | by apply cluster_low_range | done | left] |].
  { destruct Hroom as [| [Hc Hr]]; [lia |]. rewrite (Hd0 Hc). by apply Hr. }
  intros buf q T1 (-> & _). by apply h_ret.
Qed.
Lemma keeps_create p S name data size : vars_ok p → 1 ≤ sectors_per_cluster (bpb p) → Forall is_byte name → Forall is_byte data → 0 ≤ size ≤ zlen data → size + 511 < 2 ^ 32 →
  hoare p S (fat12_create name data size) (λ _ p' _, vars_ok p').
Proof.
  intros Hp Hspc Hn Hd Hz Hm. unfold fat12_create. apply h_state. intros b. destruct (_ =? 0); [by apply h_ret |]. case_bool_decide; [by apply h_ret |].
  eapply h_bind; [by apply keeps_load |]. intros d q T (-> & Hdo & Hq & _). destruct (scan _ _ _) as [i |] eqn:Ei; [| by apply keeps_create_file].
  apply scan_some in Ei as (Hi & _). by apply keeps_update_file.
Qed.
Lemma mark_ok d i : dir_ok d → dir_ok (d.[i <- 0xE5]).
Proof. intros [L F]. split; [by rewrite zlen_aset |]. by apply Forall_aset. Qed.
Lemma drop_lfn_ok n k d : dir_ok d → dir_ok (drop_lfn n k d).
Proof. revert k d. induction n as [| n IH]; intros k d Hd; [done |]. cbn [drop_lfn]. do 2 (case_match; [done |]). by apply IH, mark_ok. Qed.
(** The end of [fat12_delete] and [fat12_rmdir]. *)
Lemma keeps_remove p S d c i : 0 ≤ i < ENTRIES → vars_ok p → dir_ok d → 0 ≤ c →
  hoare p S (_ ← free_chain c; _ ← check (inside (32 * i) 32 (32 * ENTRIES)); _ ← update (set_entries d); _ ← store_current; mret 0) (λ _ p' _, vars_ok p').
Proof.
  intros Hi Hp Hd Hc. eapply h_bind; [by apply keeps_free |]. intros ? q T Hq. apply h_check; [by apply entry_inside_dir |]. apply h_bind_update; [done |]. eapply h_bind; [by apply keeps_store, ok_entries |].
  intros ? q1 T1 Hq1. by apply h_ret.
Qed.
Lemma keeps_delete name : keeps (fat12_delete name).
Proof.
  intros p S Hp. unfold fat12_delete. apply h_state. intros b. destruct (_ =? 0); [by apply h_ret |]. eapply h_bind; [by apply keeps_load |].
  intros d q T (-> & Hd & Hq & _). destruct (scan _ _ _) as [i |] eqn:Ei; [| by apply h_ret]. apply scan_some in Ei as (Hi & _).
  apply keeps_remove; [done | done | by apply mark_ok, drop_lfn_ok | by apply cluster_low_range].
Qed.
Lemma keeps_rmdir name : keeps (fat12_rmdir name).
Proof.
  intros p S Hp. unfold fat12_rmdir. apply h_state. intros b. destruct (_ =? 0); [by apply h_ret |]. eapply h_bind; [by apply keeps_load |].
  intros d q T (-> & Hd & Hq & _). destruct (scan _ _ _) as [i |] eqn:Ei; [| by apply h_ret]. apply scan_some in Ei as (Hi & _).
  destruct (negb _); [by apply h_ret |]. apply keeps_remove; [done | done | by apply mark_ok | by apply cluster_low_range].
Qed.
(** The array of elements and their names have room for every entry. *)
Lemma trim_length s : zlen (Fat.trim s) ≤ zlen s.
Proof. induction s as [| c s IH]; [done |]. cbn [Fat.trim]. case_match; rewrite ?zlen_cons; change (zlen (@nil Z)) with 0; pose proof (zlen_nonneg s); lia. Qed.
Lemma slice_length s pos n : 0 ≤ n → zlen (slice s pos n) ≤ n.
Proof. intros Hn. unfold slice, zlen. rewrite length_take. lia. Qed.
Lemma list_name_fits d i : inside 0 (zlen (list_name d i) + 1) FS_MAX_FILENAME = true.
Proof.
  assert (zlen (list_name d i) ≤ 255); [| unfold inside, FS_MAX_FILENAME; pose proof (zlen_nonneg (list_name d i)); lia]. unfold list_name. case_match.
  - unfold zlen. rewrite length_take. unfold FS_MAX_FILENAME. lia.
  - unfold short_name. rewrite zlen_app. pose proof (trim_length (slice d (32 * i) 8)). pose proof (slice_length d (32 * i) 8 ltac:(lia)).
    pose proof (trim_length (slice d (32 * i + 8) 3)). pose proof (slice_length d (32 * i + 8) 3 ltac:(lia)).
    case_match; rewrite ?zlen_cons; change (zlen (@nil Z)) with 0; lia.
Qed.
Lemma listed_total d : ∃ l, listed d = Some l.
Proof.
  unfold listed. set (f := λ (i : Z) (acc : list fs_file_info_t), _).
  pose proof (for_range_inv (λ i (acc : list fs_file_info_t), zlen acc ≤ i) (λ o, is_Some o) 0 ENTRIES f []) as L.
  destruct (for_range 0 ENTRIES f []) as [acc | o]; [by eexists |]. destruct L as [l ->]; [done | | | by eexists].
  - intros i acc acc' Hi Hz. unfold f. destruct (_ =? 0); [done |]. destruct (_ || _); [intros [= <-]; lia |]. destruct (_ && _); [| done].
    intros [= <-]. rewrite zlen_app. change (zlen [list_entry d i]) with 1. lia.
  - intros i acc o' Hi Hz. unfold f. destruct (_ =? 0); [intros [= <-]; by eexists |]. destruct (_ || _); [done |]. rewrite list_name_fits.
    replace (inside (zlen acc) 1 ENTRIES) with true; [done |]. pose proof (zlen_nonneg acc). unfold inside. lia.
Qed.
Lemma keeps_list : keeps fat12_list.
Proof.
  intros p S Hp. unfold fat12_list. apply h_state. intros b. destruct (_ =? 0); [by apply h_ret |]. eapply h_bind; [by apply keeps_load |].
  intros d q T (-> & Hd & Hq & _). destruct (listed_total d) as (l & ->). cbn [defined].
  apply h_bind with (λ a p' _, a = l ∧ p' = set_entries d p); [by apply h_ret |]. intros ? ? ? [-> ->].
  apply h_bind_update; [done |]. apply h_ret. destruct Hq. by constructor.
Qed.
Lemma keeps_mkdir name : Forall is_byte name → keeps (fat12_mkdir name).
Proof.
  intros Hn p S Hp. unfold fat12_mkdir. apply h_state. intros b. destruct (_ =? 0); [by apply h_ret |]. do 2 (case_bool_decide; [by apply h_ret |]).
  eapply h_bind; [by apply keeps_load |]. intros d q T (-> & Hd & Hq & _). case_bool_decide; [by apply h_ret |].
  destruct (free_entry_spec d) as [E | (Hi & _)]; [rewrite E; by apply h_ret |]. rewrite (proj2 (Z.eqb_neq _ _)) by lia.
  apply h_state. intros b1. cbn [fat_table set_dev set_entries bpb]. rewrite find_free_spec. destruct (frees (fat_table p)) as [| c r] eqn:Ef; [by apply h_ret |].
  assert (c ∈ frees (fat_table p)) as [_ Rc]%elem_of_frees by (rewrite Ef; by left). cbn [head default from_option id]. rewrite (proj2 (Z.eqb_neq _ _)) by lia.
  apply h_check; [by apply entry_inside_dir |]. apply h_bind_update; [done |]. apply h_put, h_write; [split; [done | by apply Forall_replicate] |]. eapply h_bind.
  { apply keeps_store. apply ok_put; [| lia | lia]. apply ok_entries; [done |]. by apply filled_ok. }
  intros ? q1 T1 Hq1. by apply h_ret.
Qed.
Lemma keeps_info p S : vars_ok p → 1 ≤ sectors_per_cluster (bpb p) → hoare p S fat12_get_disk_info (λ _ p' _, vars_ok p').
Proof.
  intros Hp Hs. unfold fat12_get_disk_info. apply h_state. intros b. cbn [bpb set_dev]. destruct (_ =? 0); [by apply h_ret |].
  rewrite (proj2 (Z.eqb_neq (sectors_per_cluster (bpb p)) 0)) by lia. by apply h_ret.
Qed.

(** *** Directories *)
Lemma component_spec token : token = (component token).1 ++ (component token).2.
Proof. induction token as [| c r IH]; [done |]. cbn [component]. destruct (c =? SLASH); [done |]. destruct (component r) as [d n]. cbn in *. by rewrite IH at 1. Qed.
Lemma ok_root_path p : vars_ok p → vars_ok (set_cwd [SLASH] 0 p).
Proof. intros Hp. apply ok_cwd; [done | lia | by exists [] | done]. Qed.
Lemma keeps_walk token : zlen token < 256 → keeps (walk token).
Proof.
  intros Hl p S Hp. apply (h_loop (λ n token p' _, vars_ok p' ∧ n = zlen token) _ _ (zlen token)); [done | unfold Fat.LOOP_FUEL; lia |].
  intros n tk q T [Hq ->]. split; [apply zlen_nonneg |]. case_bool_decide; [by apply h_ret |]. pose proof (component_spec tk) as Ec.
  destruct (component tk) as [d next]. cbn [fst snd] in Ec. case_bool_decide as Ed; [by apply h_ret |]. eapply h_bind; [by apply keeps_load |].
  intros dir q1 T1 (-> & Hdo & Hq1 & _). destruct (scan _ _ _) as [i |].
  2:{ apply h_bind_update; [done |]. apply h_ret. by apply ok_root_path. }
  apply h_bind_update; [done |]. assert (vars_ok (set_cwd (current_dir (set_entries dir q)) (e_first_cluster_low dir i) (set_entries dir q))) as Hq2.
  { apply ok_cwd; [done | by apply cluster_low_range | apply Hq1 | apply Hq1]. }
  apply h_ret. destruct next as [| x next]; [done |]. exists (zlen next). split; [| done]. rewrite Ec, zlen_app, zlen_cons. pose proof (zlen_nonneg d). lia.
Qed.
Lemma upto_slash_spec l : ∃ k, upto_slash (l ++ [SLASH]) = k ++ [SLASH] ∧ (length k ≤ length l)%nat.
Proof. induction l as [| c l (k & E & L)]; [by exists [] |]. cbn. destruct (c =? SLASH); [by exists (c :: l) |]. exists k. split; [done | lia]. Qed.
Lemma parent_path_spec r : ∃ q, parent_path (SLASH :: r) = Some q ∧ (q = [] ∨ (∃ r', q = SLASH :: r') ∧ zlen q ≤ zlen (SLASH :: r)).
Proof.
  unfold parent_path. rewrite reverse_cons. set (p := match reverse r ++ [SLASH] with c :: ((_ :: _) as q) => if c =? SLASH then q else reverse r ++ [SLASH] | _ => reverse r ++ [SLASH] end).
  assert (∃ l, p = l ++ [SLASH] ∧ (length l ≤ length r)%nat) as (l & Ep & Ll).
  { unfold p. rewrite <- (length_reverse r). destruct (reverse r) as [| c l]; [by exists [] |]. destruct (l ++ [SLASH]) as [| x y] eqn:El; [by destruct l |].
    cbn. rewrite El. destruct (c =? SLASH); [exists l; by rewrite <- El; split; [| lia] | exists (c :: l); cbn; rewrite <- El; split; [done | lia]]. }
  change (match reverse r ++ [SLASH] with c :: ((_ :: _) as q) => if c =? SLASH then q else reverse r ++ [SLASH] | _ => reverse r ++ [SLASH] end) with p.
  rewrite Ep. destruct (upto_slash_spec l) as (k & -> & Lk). destruct k as [| x [| y k]]; cbn [app].
  - exists []. split; [done | by left].
  - exists [SLASH; x]. split; [done |]. right. split; [by eexists |]. rewrite !zlen_cons. change (zlen []) with 0. cbn in Lk. unfold zlen. lia.
  - exists (reverse (x :: y :: k ++ [SLASH])). split; [done |]. right. change (x :: y :: k ++ [SLASH]) with ((x :: y :: k) ++ [SLASH]). rewrite reverse_app. split; [by eexists |].
    rewrite zlen_app, zlen_cons. change (zlen (reverse [SLASH])) with 1. unfold zlen. rewrite length_reverse. cbn in *. lia.
Qed.
Lemma keeps_up : keeps go_up.
Proof.
  intros p S Hp. unfold go_up. apply h_state. intros b. cbn [current_dir set_dev]. case_bool_decide; [by apply h_ret |].
  destruct (vo_path p Hp) as [(r & Er) Lr]. rewrite Er in *. destruct (parent_path_spec r) as (q & -> & Hq). pose proof (ok_root_path p Hp) as Hp0.
  destruct q as [| x q]; [apply h_bind_update; [done |]; by apply h_ret |]. destruct Hq as [? | [(r' & Er') Lq]]; [done |].
  apply h_bind_update; [done |]. eapply h_bind; [apply keeps_walk; [| done] |].
  { rewrite zlen_drop. lia. }
  intros rc q1 T1 Hq1. destruct (negb _); [by apply h_ret |]. apply h_bind_update; [done |]. apply h_ret. apply ok_cwd; [done | apply Hq1 | by exists r' | lia].
Qed.
Lemma append_path_spec path name : (∃ r, path = SLASH :: r) → zlen path + 1 + zlen name < 256 →
  ∃ q, append_path path name = Some q ∧ (∃ r, q = SLASH :: r) ∧ zlen q < 256.
Proof.
  intros (r & ->) Hl. unfold append_path. destruct (negb _).
  - replace (zlen (_ ++ name) <? 256) with true by (rewrite !zlen_app; change (zlen [SLASH]) with 1; lia). eexists. split; [done |]. split; [by eexists |].
    rewrite !zlen_app. change (zlen [SLASH]) with 1. lia.
  - replace (zlen (_ ++ name) <? 256) with true by (rewrite !zlen_app; lia). eexists. split; [done |]. split; [by eexists |]. rewrite zlen_app. lia.
Qed.
Lemma keeps_chdir p S name : vars_ok p → zlen (current_dir p) + 1 + zlen name < 256 → hoare p S (fat12_chdir name) (λ _ p' _, vars_ok p').
Proof.
  intros Hp Hl. unfold fat12_chdir. apply h_state. intros b. destruct (_ =? 0); [by apply h_ret |].
  case_bool_decide; [apply h_bind_update; [done |]; by apply h_ret, ok_root_path |]. case_bool_decide; [by apply keeps_up |].
  eapply h_bind; [by apply keeps_load |]. intros d q T (-> & Hd & Hq & _). destruct (scan _ _ _) as [i |]; [| by apply h_ret]. destruct (negb _); [by apply h_ret |].
  cbn [current_dir set_dev]. destruct (append_path_spec (current_dir p) name (proj1 (vo_path p Hp)) Hl) as (path & -> & Hr & Hz). cbn [defined].
  eapply h_bind with (λ a p' _, a = path ∧ vars_ok p'); [by apply h_ret |]. intros ? q1 T1 [-> Hq1]. apply h_bind_update; [done |]. apply h_ret.
  apply ok_cwd; [done | by apply cluster_low_range | done | done].
Qed.

(** ** The driver as a whole *)
Inductive request :=
  | RInit | RRead (name : list Z) (capacity : Z) | RCreate (name data : list Z) (size : Z) | RDelete (name : list Z) | RList
  | RMkdir (name : list Z) | RRmdir (name : list Z) | RChdir (name : list Z) | RInfo.
Definition serve (r : request) : Fat.fm st unit :=
  match r with
  | RInit => fat12_init
  | RRead name capacity => _ ← fat12_read name capacity; mret tt
  | RCreate name data size => _ ← fat12_create name data size; mret tt
  | RDelete name => _ ← fat12_delete name; mret tt
  | RList => _ ← fat12_list; mret tt
  | RMkdir name => _ ← fat12_mkdir name; mret tt
  | RRmdir name => _ ← fat12_rmdir name; mret tt
  | RChdir name => _ ← fat12_chdir name; mret tt
  | RInfo => _ ← fat12_get_disk_info; mret tt
  end.
(** What the driver does not check itself: that the caller's buffer is long
    enough for the file, that the volume has sectors in its clusters, that the
    data are there, that the path fits its array. *)
Definition admissible (s : st) (r : request) : Prop :=
  match r with
  | RRead _ capacity => room_for s capacity
  | RCreate name data size => 1 ≤ sectors_per_cluster (bpb s) ∧ Forall is_byte name ∧ Forall is_byte data ∧ 0 ≤ size ≤ zlen data ∧ size + 511 < 2 ^ 32
  | RMkdir name => Forall is_byte name
  | RChdir name => zlen (current_dir s) + 1 + zlen name < 256
  | RInfo => 1 ≤ sectors_per_cluster (bpb s)
  | _ => True
  end.

Hypothesis select_ok : ∀ b : B, bd_ok b → bd_ok (bd_select 1 b).
Lemma h_select {A} p S (k : unit → Fat.fm st A) Q : (∀ S', hoare p S' (k tt) Q) → hoare p S (update (λ s, set_dev (bd_select 1 (dev s)) s) ≫= k) Q.
Proof.
  intros Hk b [Hb _]. apply (Hk (bd_sector (bd_select 1 b)) (bd_select 1 b)). split; [by apply select_ok | done].
Qed.
Lemma keeps_init : keeps fat12_init.
Proof.
  intros p S Hp. assert (∀ T n, hoare p T (update (set_initialized n)) (λ _ p' _, vars_ok p')) as Hend by (intros T n; apply h_update; [done | by apply ok_initialized]).
  unfold fat12_init. apply h_state. intros b. destruct (_ =? 0); [apply Hend |].
  assert (∀ T, FatLogic.image_ok T → vars_ok (set_bpb (take 36 (T 0)) p)) as Hbpb by (intros T HT; apply ok_bpb; [done |]; apply Forall_take, HT).
  apply h_image. intros HS. apply h_read, h_bind_update; [done |]. destruct (_ =? 512); [by apply keeps_volume, Hbpb |].
  apply h_select. intros S'. apply h_image. intros HS'. apply h_read, h_bind_update; [done |]. assert (vars_ok (set_bpb (take 36 (S' 0)) (set_bpb (take 36 (S 0)) p))) as Hp'.
  { apply ok_bpb; [by apply Hbpb | apply Forall_take, HS']. }
  destruct (negb _); [apply h_update; [done | by apply ok_initialized] | by apply keeps_volume].
Qed.
Lemma serve_spec p S r : vars_ok p → admissible p r → hoare p S (serve r) (λ _ p' _, vars_ok p').
Proof.
  intros Hp Ha. destruct r as [| name capacity | name data size | name | | name | name | name |]; cbn [serve]; [by apply keeps_init | ..].
  all: eapply h_bind with (λ _ p' _, vars_ok p'); [| intros ? q T Hq; by apply h_ret].
  - by apply keeps_read.
  - destruct Ha as (? & ? & ? & ? & ?). by apply keeps_create.
  - by apply keeps_delete.
  - by apply keeps_list.
  - by apply keeps_mkdir.
  - by apply keeps_rmdir.
  - by apply keeps_chdir.
  - by apply keeps_info.
Qed.
Lemma set_dev_id (s : st) : set_dev (dev s) s = s.
Proof. by destruct s. Qed.
Lemma hoare_run {A} (s : st) (c : Fat.fm st A) (Q : A → st → FatLogic.image → Prop) : bd_ok (dev s) → hoare s (bd_sector (dev s)) c Q →
  ∃ a p S b, c s = (Fat.Val a, set_dev b p) ∧ FatLogic.holds b S ∧ Q a p S.
Proof. intros Hb Hc. destruct (Hc (dev s)) as (a & p & S & b & E & Hh & HQ); [by split |]. rewrite set_dev_id in E. by exists a, p, S, b. Qed.
Lemma ok_dev b p : vars_ok p → vars_ok (set_dev b p).
Proof. intros []. by constructor. Qed.


(** C37: in the root directory, [fat12_create] of a new file followed by
    [fat12_read] into a buffer with room for them gives back the file's first bytes: all of a file of at most
    512 bytes, but of a longer file only half of its sectors, rounded up,
    though both calls report success.  The allocation loop does not mark the
    cluster it takes, so that the next round finds the same cluster again. *)
Theorem fat12_create_read s name data size cap : kept size ≤ cap → bd_ok (dev s) → vars_ok s → fat12_initialized s ≠ 0 → current_dir_cluster s = 0 →
  1 ≤ sectors_per_cluster (bpb s) → 2 ≤ fat_count (bpb s) →
  name ≠ [] → Forall is_byte name → 0 ∉ name → name.[0] ≠ 0xE5 → Forall is_byte data → 0 ≤ size ≤ zlen data → size + 511 < 2 ^ 32 →
  (∀ k, 0 ≤ k < ENTRIES → live (root_dir s) k = true → fat12_entry_matches (root_dir s) k name = false) →
  find_free_entry (root_dir s) ≠ -1 → (clusters_for size + 1) / 2 ≤ zlen (frees (fat_table s)) →
  ∃ s1 s2, fat12_create name data size s = (Fat.Val 0, s1) ∧ fat12_read name cap s1 = (Fat.Val (0, Some (take (Z.to_nat (kept size)) data)), s2).
Proof.
  intros Hcap Hb Hs Hini Hc Hspc Hfc Hne Hn Hnul HE Hd Hz Hm Hno Hfree Hroom.
  destruct (hoare_run s _ _ Hb (create_read_spec s _ name data size cap Hcap Hs Hini Hc Hspc Hfc Hne Hn Hnul HE Hd Hz Hm Hno Hfree Hroom)) as (r & p & S & b & E & Hh & -> & HQ).
  destruct (HQ b Hh) as (r2 & p2 & S2 & b2 & E2 & _ & ->). by exists (set_dev b p), (set_dev b2 p2).
Qed.
End Driver.

(** ** Witnesses: an empty floppy image *)
Definition floppy_bpb : fat12_bpb_t := replicate 11 0 ++ le_bytes 2 512 ++ [1] ++ le_bytes 2 1 ++ [2] ++ le_bytes 2 224 ++ le_bytes 2 2880 ++ [0xF0] ++ le_bytes 2 9 ++ replicate 12 0.
Definition floppy_disk : mem_disk := MemDisk (λ _ _, replicate 512 0) 0.
Definition floppy : fat12_state mem_disk :=
  Fat12State floppy_disk floppy_bpb (replicate (Z.to_nat FAT_TABLE_SIZE) 0) (replicate (Z.to_nat (32 * ENTRIES)) 0) (replicate (Z.to_nat (32 * ENTRIES)) 0) 1 [SLASH] 0 [].
Lemma floppy_ok : vars_ok floppy.
Proof.
  constructor; cbn [floppy bpb fat_table root_dir current_dir_entries current_dir_cluster current_dir].
  - unfold bpb_ok, floppy_bpb. repeat (apply Forall_app; split); try apply le_bytes_is_byte; try (by apply Forall_replicate); repeat constructor; done.
  - split; [done |]. by apply Forall_replicate.
  - split; [done |]. by apply Forall_replicate.
  - split; [done |]. by apply Forall_replicate.
  - lia.
  - split; [by exists [] | done].
Qed.
Lemma floppy_empty k : 0 ≤ k < ENTRIES → live (root_dir floppy) k = false.
Proof. intros Hk. unfold live, e_first. cbn [floppy root_dir]. unfold ENTRIES in *. by rewrite aget_replicate by lia. Qed.
Lemma fat12_create_read_witness :
  ∃ s1 s2, fat12_create [65] (replicate 600 7) 600 floppy = (Fat.Val 0, s1) ∧ fat12_read [65] 512 s1 = (Fat.Val (0, Some (replicate 512 7)), s2).
Proof.
  refine (fat12_create_read floppy [65] (replicate 600 7) 600 512 _ I floppy_ok _ eq_refl _ _ _ _ _ _ _ _ _ _ _ _).
  - by vm_compute.
  - discriminate.
  - by vm_compute.
  - by vm_compute.
  - discriminate.
  - repeat constructor; done.
  - apply (bool_decide_unpack _). by vm_compute.
  - discriminate.
  - by apply Forall_replicate.
  - split; by vm_compute.
  - reflexivity.
  - intros k Hk Hl. by rewrite floppy_empty in Hl.
  - by vm_compute.
  - by vm_compute.
Defined.
End Fat12Files.
