(* ===== verification/Fat12Names.v ===== *)
(** * The legacy FAT12 driver: long file names

    The directory entries of a long name as the FAT format lays them out, and
    what [fat12_read_lfn] makes of them. *)
From S2P Require Import Prelude.
From S2P Require Import Text.
From S2P Require Import BlockDev.
From S2P Require Import Fat.
From S2P Require Import FatLogic.
From S2P Require Import Fat12.
From S2P Require Import Fat12Props.

Module Fat12Names.
Import Fat12 Fat12Props.

(** ** The format *)
(** The 13 characters of entry [j], the nearest to the short name being 0. *)
Definition chunk (name : list Z) (j : Z) : list Z := slice name (13 * j) 13.
(** A short last entry is closed by a zero and filled up. *)
Definition units (name : list Z) (j : Z) : list Z := take 13 (chunk name j ++ 0 :: replicate 12 0xFFFF).
Definition entries_of (name : list Z) : Z := (zlen name + 12) / 13.
Definition order_of (name : list Z) (j : Z) : Z := if j =? entries_of name - 1 then 0x40 + (j + 1) else j + 1.
Definition lfn_entry (order checksum : Z) (u : list Z) : list Z :=
  [order] ++ concat (map (le_bytes 2) (slice u 0 5)) ++ [FAT12_ATTR_LFN; 0; checksum] ++ concat (map (le_bytes 2) (slice u 5 6)) ++ [0; 0]
  ++ concat (map (le_bytes 2) (slice u 11 2)).
(** The long name of the entry [i]. *)
Definition holds_lfn (dir : list Z) (i : Z) (name : list Z) : Prop :=
  ∃ checksum, ∀ j, 0 ≤ j < entries_of name → slice dir (32 * (i - 1 - j)) 32 = lfn_entry (order_of name j) checksum (units name j).
Definition plain (c : Z) : Prop := 1 ≤ c < 128.

Lemma lfn_char_unit u : 0 ≤ u < 65536 → Z.lor (u8 u) (Z.shiftl (u8 (u / 256)) 8) = u.
Proof. intros Hu. rewrite Z.shiftl_mul_pow2, (lor_disjoint_add (u8 u) (u8 (u / 256)) 8) by (unfold u8; zdm). unfold u8. zdm. Qed.
Lemma units_length name j : length (units name j) = 13%nat.
Proof. unfold units. rewrite length_take, length_app. cbn [length]. rewrite length_replicate. lia. Qed.
Lemma thirteen (u : list Z) : length u = 13%nat → ∃ a b c d e f g h i j k l m, u = [a; b; c; d; e; f; g; h; i; j; k; l; m].
Proof. intros Hu. do 13 (destruct u as [| ? u]; [done |]). destruct u; [| done]. by do 13 eexists. Qed.
Lemma units_read dir k o ck u : length u = 13%nat → Forall (λ x, 0 ≤ x < 65536) u → slice dir (32 * k) 32 = lfn_entry o ck u → lfn_units dir k = u.
Proof.
  intros Hl Hu E. unfold lfn_units. rewrite E. clear E dir. destruct (thirteen u Hl) as (a & b & c & d & e & f & g & h & i & j & l & m & n & ->).
  repeat (apply Forall_cons in Hu as [? Hu]). set (F x := Z.lor (u8 x) (Z.shiftl (u8 (x / 256)) 8)).
  transitivity [F a; F b; F c; F d; F e; F f; F g; F h; F i; F j; F l; F m; F n]; [reflexivity |]. unfold F. by rewrite !lfn_char_unit.
Qed.

(** ** Reading *)
Section Name.
Context (name : list Z) (Hp : Forall plain name) (Hlen : 0 < zlen name ≤ 255).
#[local] Abbreviation n := (entries_of name).

Lemma entries_range : 1 ≤ n ≤ 20.
Proof. unfold entries_of. zdm. Qed.
Lemma chunk_plain j : Forall plain (chunk name j).
Proof. by apply Forall_take, Forall_drop. Qed.
Lemma chunk_length j : 0 ≤ j < n → zlen (chunk name j) = Z.min 13 (zlen name - 13 * j).
Proof. intros Hj. unfold chunk, slice, entries_of in *. rewrite zlen_take, zlen_drop. zdm. Qed.
Lemma units_range j : Forall (λ x, 0 ≤ x < 65536) (units name j).
Proof.
  apply Forall_take, Forall_app. split; [eapply Forall_impl; [apply chunk_plain |]; unfold plain; lia |]. constructor; [done |]. by apply Forall_replicate.
Qed.
Lemma units_full j : zlen (chunk name j) = 13 → units name j = chunk name j.
Proof. intros L. unfold units. apply take_app_length'. unfold zlen in L. lia. Qed.
Lemma units_short j : zlen (chunk name j) < 13 → ∃ r, units name j = chunk name j ++ 0 :: r.
Proof.
  intros L. unfold units. rewrite take_app. rewrite take_ge by (unfold zlen in L; lia). destruct (13 - length (chunk name j))%nat eqn:E; [unfold zlen in L; lia |].
  by eexists.
Qed.

(** Plain characters are stored as long as there is room. *)
Lemma store_plain room s rest : Forall plain s → (length s ≤ room)%nat → lfn_store room (s ++ rest) = s ++ lfn_store (room - length s) rest.
Proof.
  revert room. induction s as [| c s IH]; intros room Hs Hl; [by rewrite Nat.sub_0_r |]. apply Forall_cons in Hs as [Hc Hs]. cbn in Hl. destruct room as [| room]; [lia |].
  unfold plain in Hc. cbn [app lfn_store length Nat.sub]. replace ((c =? 0) || (c =? 0xFFFF)) with false by lia.
  rewrite IH by (done || lia). f_equal. change 0x7F with (2 ^ 7 - 1). replace (2 ^ 7 - 1) with (Z.ones 7) by done. rewrite Z.land_ones by lia. apply Z.mod_small. lia.
Qed.

Context (dir : list Z) (i : Z) (Hd : holds_lfn dir i name) (Hi : n ≤ i).
Lemma entry_read j : 0 ≤ j < n → lfn_units dir (i - 1 - j) = units name j ∧ is_lfn dir (i - 1 - j) = true ∧ e_first dir (i - 1 - j) = order_of name j.
Proof.
  destruct Hd as [ck E]. intros Hj. specialize (E j Hj). pose proof (units_length name j) as L. split; [by eapply units_read; [| apply units_range |] |].
  assert (∀ x, 0 ≤ x < 32 → dir.[32 * (i - 1 - j) + x] = (lfn_entry (order_of name j) ck (units name j)).[x]) as Hx by (intros x Hx; rewrite <- E, aget_slice by lia; done).
  destruct (thirteen _ L) as (a & b & c & d & e & f & g & h & i' & j' & k & l & m & Eu). rewrite Eu in Hx. split.
  - unfold is_lfn, e_attributes. by rewrite Hx by lia.
  - unfold e_first. rewrite <- (Z.add_0_r (32 * _)), Hx by lia. done.
Qed.
Lemma seq_read m j : 0 ≤ j < n → (Z.to_nat (n - j) ≤ m)%nat → lfn_seq m dir (i - 1 - j) = map (λ j, i - 1 - j) (seqZ j (n - j)).
Proof.
  revert j. induction m as [| m IH]; intros j Hj Hm; [lia |]. destruct (entry_read j Hj) as (_ & E1 & E2). cbn [lfn_seq].
  replace (0 <=? i - 1 - j) with true by lia. rewrite E1, E2. cbn [negb]. rewrite seqZ_cons by lia. cbn [map]. unfold order_of. pose proof entries_range as Hn.
  destruct (Z.eqb_spec j (n - 1)) as [Ej | Ej].
  - replace (Z.land (64 + (j + 1)) 64 =? 0) with false; [cbn [negb]; by replace (Z.pred (n - j)) with 0 by lia |]. symmetry.
    change 64 with (2 ^ 6) at 2. rewrite land_pow2_nonzero by lia. apply negb_false_iff. rewrite Z.testbit_true by lia. replace (64 + (j + 1)) with (1 * 2 ^ 6 + (j + 1)) by lia.
    rewrite Z.div_add_l by lia. by rewrite (Z.div_small (j + 1)) by lia.
  - replace (Z.land (j + 1) 64 =? 0) with true.
    2:{ symmetry. change 64 with (2 ^ 6). rewrite land_pow2_nonzero by lia. rewrite (testbit_high (j + 1) 6 6) by lia. done. }
    cbn [negb]. f_equal. replace (i - 1 - j - 1) with (i - 1 - (j + 1)) by lia. rewrite IH by lia. do 2 f_equal. lia.
Qed.
Lemma read_units : fat12_read_lfn dir i 256 = lfn_store 255 (concat (map (units name) (reverse (seqZ 0 n)))).
Proof.
  unfold fat12_read_lfn. pose proof entries_range as Hn. replace (i - 1) with (i - 1 - 0) by lia. rewrite seq_read by lia. rewrite Z.sub_0_r.
  change (Z.to_nat (256 - 1)) with 255%nat. do 2 f_equal. change (map (λ j, i - 1 - j) (seqZ 0 n)) with ((λ j, i - 1 - j) <$> seqZ 0 n).
  rewrite <- fmap_reverse. change ((λ j, i - 1 - j) <$> reverse (seqZ 0 n)) with (map (λ j, i - 1 - j) (reverse (seqZ 0 n))). rewrite map_map.
  apply map_ext_in. intros j Hj%list_elem_of_In. rewrite elem_of_reverse, elem_of_seqZ in Hj. apply entry_read. lia.
Qed.
(** The entry farthest from the short name is read first. *)
Lemma rev_seq m : 0 < m → reverse (seqZ 0 m) = (m - 1) :: reverse (seqZ 0 (m - 1)).
Proof. intros Hm. replace m with (m - 1 + 1) at 1 by lia. rewrite seqZ_app by lia. rewrite reverse_app. by replace (0 + (m - 1)) with (m - 1) by lia. Qed.
Lemma read_lfn_spec : fat12_read_lfn dir i 256 =
  if zlen name mod 13 =? 0 then concat (map (chunk name) (reverse (seqZ 0 n))) else chunk name (n - 1).
Proof.
  rewrite read_units. pose proof entries_range as Hn. destruct (Z.eqb_spec (zlen name mod 13) 0) as [E | E].
  - assert (map (units name) (reverse (seqZ 0 n)) = map (chunk name) (reverse (seqZ 0 n))) as ->.
    { apply map_ext_in. intros j Hj%list_elem_of_In. rewrite elem_of_reverse, elem_of_seqZ in Hj. apply units_full. rewrite chunk_length by lia. unfold entries_of in Hj. zdm. }
    set (s := concat _). assert (Forall plain s) as Hs.
    { apply Forall_concat, Forall_map, Forall_forall. intros j _. apply chunk_plain. }
    assert (length s ≤ 255)%nat as Ls.
    { assert (∀ js, Forall (λ j, 0 ≤ j < n) js → Z.of_nat (length (concat (map (chunk name) js))) ≤ 13 * zlen js) as K.
      { induction js as [| j js IH]; intros Hjs; [done |]. apply Forall_cons in Hjs as [Hj Hjs]. cbn [map concat]. rewrite length_app, zlen_cons. specialize (IH Hjs).
        pose proof (chunk_length j Hj) as Lj. unfold zlen in *. lia. }
      specialize (K (reverse (seqZ 0 n))). fold s in K. assert (zlen (reverse (seqZ 0 n)) = n) as Lr by (unfold zlen; rewrite length_reverse, length_seqZ; lia).
      rewrite Lr in K. assert (13 * n ≤ 255) by (unfold entries_of; zdm). enough (Z.of_nat (length s) ≤ 13 * n) by lia. apply K.
      apply Forall_forall. intros j Hj. rewrite elem_of_reverse, elem_of_seqZ in Hj. lia. }
    rewrite <- (app_nil_r s) at 1. rewrite store_plain by done. destruct (255 - length s)%nat; cbn; by rewrite app_nil_r.
  - rewrite rev_seq by lia. cbn [map concat]. pose proof (chunk_length (n - 1) ltac:(lia)) as L. destruct (units_short (n - 1)) as [r ->]; [unfold entries_of in *; zdm |].
    rewrite <- app_assoc. rewrite store_plain; [| apply chunk_plain | unfold zlen in *; lia]. destruct (255 - length (chunk name (n - 1)))%nat; cbn; by rewrite app_nil_r.
Qed.
Lemma short_name_one : zlen name ≤ 13 → n = 1 ∧ chunk name 0 = name.
Proof. intros Hs. split; [unfold entries_of; zdm |]. unfold chunk, slice. cbn [Z.mul Z.to_nat drop]. apply take_ge. unfold zlen in *. lia. Qed.
End Name.

(** what the legacy driver reads of a long name whose entries follow the
    FAT format: a name of at most 13 characters is read back.  Longer names
    are not, since the driver starts with the entry that holds the end of
    the name: it returns the last part alone when that part is shorter than
    an entry, and all parts in reverse order when the name fills its entries. *)
Theorem fat12_long_names dir i name : Forall plain name → 0 < zlen name ≤ 255 → holds_lfn dir i name → entries_of name ≤ i →
  (zlen name ≤ 13 → fat12_read_lfn dir i 256 = name) ∧
  (zlen name mod 13 ≠ 0 → fat12_read_lfn dir i 256 = chunk name (entries_of name - 1)) ∧
  (zlen name mod 13 = 0 → fat12_read_lfn dir i 256 = concat (map (chunk name) (reverse (seqZ 0 (entries_of name))))).
Proof.
  intros Hp Hl Hd Hi. rewrite (read_lfn_spec name Hp Hl dir i Hd Hi). split_and!.
  - intros Hs. destruct (short_name_one name Hl Hs) as [-> E]. change (reverse (seqZ 0 1)) with [0]. cbn [map concat]. rewrite app_nil_r. change (1 - 1) with 0. rewrite E. by destruct (_ =? 0).
  - intros E. by rewrite (proj2 (Z.eqb_neq _ _) E).
  - intros E. by rewrite E.
Qed.

(** ** Witness: a name in two entries *)
Definition demo_name : list Z := txt "long-file-name.txt".
Definition demo_dir : list Z :=
  lfn_entry (order_of demo_name 1) 0 (units demo_name 1) ++ lfn_entry (order_of demo_name 0) 0 (units demo_name 0) ++ replicate (Z.to_nat (32 * 222)) 0.
Lemma fat12_long_names_witness : fat12_read_lfn demo_dir 2 256 = txt "e.txt".
Proof.
  assert (Forall plain demo_name) as Hp by (unfold plain; apply (bool_decide_unpack _); by vm_compute).
  assert (holds_lfn demo_dir 2 demo_name) as Hd.
  { exists 0. change (entries_of demo_name) with 2. intros j Hj. assert (j = 0 ∨ j = 1) as [-> | ->] by lia; by vm_compute. }
  assert (zlen demo_name = 18) as Hz by reflexivity. assert (entries_of demo_name ≤ 2) as Hn by (by vm_compute).
  destruct (fat12_long_names demo_dir 2 demo_name Hp ltac:(lia) Hd Hn) as (_ & E & _).
  etransitivity; [apply E; by vm_compute | by vm_compute].
Defined.
End Fat12Names.
